(* ===== verification/_CoqProject ===== *)
-Q . S2P
Prelude.v
Endian.v
Double.v
RtpPacket.v
RollingBuffer.v
HashTable.v
RtcpPacket.v
Payloaders.v
AnnexB.v
H264.v
H264Format.v
H265.v
JitterBuffer.v
JitterSafety.v
JitterDelivery.v
FramePath.v
Twcc.v
TwccFeedback.v
Transceiver.v
Retransmitter.v
RtcpReports.v
RtcpExchange.v
RedPayloader.v
Crc32c.v
Crc32.v
SctpPacket.v
SctpAssoc.v
SctpWindow.v
SctpInvariant.v
SctpTransfer.v
SctpHandshake.v
SctpSession.v
DataChannel.v
Stun.v
StunFormat.v
StunParse.v
StunBuild.v
IceUtils.v
IOBuffer.v
Pacer.v
PacerRate.v
