(* ===== verification/Prelude.v ===== *)
(** * Verification of the WebRTC C SDK: media and data transport

    This library models the transport core of the SDK under src/ and proves the theorems
    that make it correct.  The SDK moves media and data between two peers: encoded frames
    are split into RTP payloads, numbered, serialised, protected by SRTP and sent; the
    receiver parses the packets, reorders them in a jitter buffer and hands complete frames
    to the application; data channels run over the SDK's own SCTP stack inside DTLS.  Every
    definition below is a translation of C code: integers keep their width, buffers are byte
    lists whose accesses are checked, functions return their status codes, and stateful code
    threads its state.

    ** The files and the code they model

    - Prelude: machine integers and their wrap-around, status codes, results with memory
      faults, byte buffers and pointers, record update, a state monad with its weakest
      preconditions, and the lemmas and tactics the components share.
    - Endian: the byte-order accessors (deps/src/utils/Endianness.c) for hosts of both byte
      orders.
    - Double: the DOUBLEs of the code, binary64 arithmetic with its roundings, and what they
      can add to a result.
    - RtpPacket: RTP packets (src/source/Rtp/RtpPacket.c): parsing, serialisation,
      retransmission re-wrapping, packetisation.
    - RollingBuffer: the ring of sent packets (src/source/Rtcp/RollingBuffer.c and
      RtpRollingBuffer.c); refines a sliding window.
    - HashTable: the hash table of the utilities (deps/src/utils/HashTable.c); refines a
      finite map.
    - RtcpPacket: the RTCP codec (src/source/Rtcp/RtcpPacket.c): headers, NACK lists, REMB.
    - Payloaders: the VP8, Opus and G.711 payload formats (src/source/Rtp/Codecs).  The
      class [Payloader] states what a packetiser and a depacketiser promise to the sender
      and to the jitter buffer; every format is an instance.
    - AnnexB: what the H.264 and H.265 payloaders share: the search for NAL units, the
      cursor into the payload buffers and the fragmentation loop.  H264 (model and
      packetiser) and H264Format (depacketiser, instance and round trip) are
      RtpH264Payloader.c; H265 is RtpH265Payloader.c.
    - JitterBuffer: the whole of src/source/PeerConnection/JitterBuffer.c on a world of the
      buffer and a log of callback calls and freed packets.  JitterSafety proves ownership of
      packets and the stall after a wrap-around, JitterDelivery the delivery of frames.
    - FramePath: packetisation and serialisation in writeFrame
      (src/source/PeerConnection/Rtp.c) composed with the receiver.
    - Transceiver: what RTCP and the retransmitter use of the peer connection: the
      transceivers and their look-up by SSRC, writeRtpPacket and the way to the ICE agent.
      Retransmitter is src/source/PeerConnection/Retransmitter.c on it.
    - Twcc: transport-wide congestion control (src/source/PeerConnection/Rtcp.c): recording
      of received packets, the feedback builder and parser, the table of sent packets.
      TwccFeedback proves the exchange between the two sides.
    - RtcpReports: the rest of src/source/PeerConnection/Rtcp.c: the handlers of received
      reports and feedback, onRtcpPacket, the builders of SR, RR, XR, PLI and FIR, with the
      sequence tracking and the periodic callback of PeerConnection.c.  RtcpExchange proves
      what two peers learn from each other's reports.
    - RedPayloader: Opus redundancy, RFC 2198 (src/source/Rtp/Codecs/RtpRedPayloader.c).
    - Crc32c, SctpPacket, SctpAssoc: the native SCTP stack (src/source/Sctp): checksum,
      packet writers and chunk parser, and the association with its handshake, data
      transfer, acknowledgement, timers and shutdown.  SctpWindow has the pure facts on
      TSN windows, SctpInvariant the state invariant, SctpTransfer the functional theorems,
      SctpHandshake two associations and the packets between them.
    - SctpSession: sessions over the association and DCEP (src/source/Sctp/NativeSctp.c).
    - DataChannel: the application's interface (src/source/PeerConnection/DataChannel.c) and
      the peer connection's table of channels, allocateSctp and its callbacks.
    - Crc32 (deps/src/utils/Crc32.c) and Stun (src/source/Stun/Stun.c): the STUN packet in its
      allocation, its builders, the serialiser and the parser with MESSAGE-INTEGRITY and
      FINGERPRINT.  StunFormat has the bytes of a packet and proves the serialiser, StunParse
      the two passes of the parser, StunBuild sequences of append calls.
    - IceUtils: the store of transaction ids and the packaging of STUN packets
      (src/source/Ice/IceUtils.c), and the theorems from builder to parser.
    - Pacer: the queue and token bucket between the sender and the ICE agent
      (src/source/PeerConnection/Pacer.c).  PacerRate bounds its traffic by the rate.
    - IOBuffer: the byte queue of the TLS layer (src/source/Crypto/IOBuffer.c).

    ** How the models correspond to the code

    A C struct is a record with the fields' names; a function is a definition with the
    function's name and, when the code reads or writes shared state, a computation in the
    monad [ST].  [res] computations return a value, a status code or [Fault], an access
    outside an object, which is undefined behaviour in C: a theorem whose conclusion is a
    value or a status also says that no such access happens.  Loops that are not structural
    take fuel; [Fault] or [None] is returned when it runs out, so the theorems also show that
    the fuel is enough and the loops end: loops over sequence numbers run at most 2^16 times,
    loops over bytes at most once per byte, loops over an array once per element.
    Allocators, clocks, callbacks and the peer's bytes are arguments, quantified in the
    theorems.  Locks are not modelled: an operation is the critical section it runs.

    ** What the theorems show

    - Media path: a stream of frames sent through any payload format and received in any
      order within each frame is delivered once, in order and unchanged, by a jitter buffer
      that has delivered a first frame (FramePath, JitterDelivery); the jitter buffer frees
      every packet exactly once and never faults, whatever the packets, their order and the
      callbacks are, as long as the depacketiser can measure the payloads (JitterSafety); after a
      wrap-around of the sequence numbers with an empty window it delivers nothing any more
      (JitterSafety, a defect of the code).  The delivery theorems therefore stop at the
      wrap-around.  Packetising and depacketising a frame keeps its NAL units for H.264 and
      H.265 (H264Format, H265), and the search for NAL units, which skips bytes, agrees with
      a byte-by-byte one (AnnexB).
    - Data path: two associations that open at the same time become established
      (SctpHandshake); a message sent over an SCTP association is delivered to the peer's message
      callback, fragmented or not (SctpTransfer); every reachable state of an association
      satisfies its invariant and no packet, timer or call makes it fault (SctpInvariant);
      TSN tracking, SACK contents and acknowledgement processing are exact (SctpTransfer).
      The same holds one layer up for sessions and data channels: every session operation
      keeps the invariant (SctpSession), channels get the stream identifiers of the DTLS
      role and are announced, the first 32 of them, and a message that one application sends reaches the other's
      callback with its type (SctpSession, DataChannel).
    - Feedback path: the arrival times that the receiver records come out of the sender's
      table after the feedback packet is built and parsed, up to the rounding of the format,
      and the bandwidth callback gets the exact counts (TwccFeedback); a NACK makes the
      sender resend the requested packets that are still buffered (Retransmitter); the
      sequence tracker follows the extended highest sequence number, and a sender report
      answered by a receiver report gives the sender the loss, the jitter and the round-trip
      time up to the units of the format (RtcpExchange).  The size estimate of the feedback builder,
      the second loop of its parser and the index under which the retransmitter puts a
      packet back are defects of the code, shown as theorems.
    - Pacing: packets leave the pacer in the order of admission, no faster than the
      target bit rate times the pacing factor allows, the roundings of the code's binary64
      computation and a burst of 10 ms included (PacerRate), and all at once when a frame's deadline has come; every buffer is freed once, as
      long as the queue's nodes can be allocated (Pacer).
    - Connectivity: a STUN packet built from any mix of the attributes that the format
      carries, packaged with a password and parsed with it, comes out with its attributes and
      passes the checks; with another password it is refused (IceUtils).  An attribute of
      an unknown type makes the parser skip the check, a defect of the code shown as a theorem
      (StunParse).  The defects that limit the round trip (XOR-PEER-ADDRESS, ERROR-CODE,
      the twenty-first attribute) are left out of [request_ok] or shown as lemmas.
    - Codecs: serialising and parsing are inverse (RtpPacket, RedPayloader, SctpPacket),
      parsers are total on arbitrary bytes or fault exactly where the code reads too far,
      the checksum is CRC-32C and detects bursts (Crc32c), decoders return what the wire
      format says (RtcpPacket).
    - Containers: rolling buffer, hash table, transaction id store and I/O buffer refine
      their abstract data types.

    ** Not modelled

    The real-time jitter buffer, the ICE agent and TURN, and the part of the peer
    connection that orchestrates threads, DTLS and session descriptions.  DTLS, TLS, SRTP,
    sockets, signaling, metrics and the thread pool wrap third-party libraries or the
    operating system.  Bandwidth estimation is floating-point filtering; session descriptions
    are text formatting.  Functions that only return memory to the allocator are left out,
    except where freeing is part of a claim. *)
From stdpp Require Export base list list_numbers numbers decidable.
From Stdlib Require Export ZArith Lia.

#[global] Open Scope Z_scope.

(** ** Machine integers

    A C integer of width [w] is a [Z]; the wrap-around of an unsigned
    conversion or arithmetic operation is written out with the functions below.
    The signed conversions are the two's complement ones. *)

Definition u8 (x : Z) : Z := x mod 2 ^ 8.
Definition u16 (x : Z) : Z := x mod 2 ^ 16.
Definition u32 (x : Z) : Z := x mod 2 ^ 32.
Definition u64 (x : Z) : Z := x mod 2 ^ 64.
Definition i8 (x : Z) : Z := (x + 2 ^ 7) mod 2 ^ 8 - 2 ^ 7.
Definition i16 (x : Z) : Z := (x + 2 ^ 15) mod 2 ^ 16 - 2 ^ 15.
Definition i32 (x : Z) : Z := (x + 2 ^ 31) mod 2 ^ 32 - 2 ^ 31.
Definition i64 (x : Z) : Z := (x + 2 ^ 63) mod 2 ^ 64 - 2 ^ 63.

Definition MAX_UINT16 : Z := 0xffff.
Definition MAX_UINT32 : Z := 0xffffffff.

Definition is_u8 (x : Z) : Prop := 0 <= x < 2 ^ 8.
Definition is_u16 (x : Z) : Prop := 0 <= x < 2 ^ 16.
Definition is_u32 (x : Z) : Prop := 0 <= x < 2 ^ 32.
Definition is_u64 (x : Z) : Prop := 0 <= x < 2 ^ 64.

Declare Scope width_scope.
Delimit Scope width_scope with width.
Notation "x +32 y" := (u32 (x + y)) (at level 50, left associativity) : width_scope.
Notation "x -32 y" := (u32 (x - y)) (at level 50, left associativity) : width_scope.
Notation "x *32 y" := (u32 (x * y)) (at level 40, left associativity) : width_scope.
#[global] Open Scope width_scope.

(** Arithmetic on wrapped values: unfold the conversions and let [lia] split
    the euclidean divisions. *)

Ltac unfold_width :=
  unfold u8, u16, u32, u64, i8, i16, i32, i64, is_u8, is_u16, is_u32, is_u64,
         MAX_UINT16, MAX_UINT32 in *.

Ltac pow2_const :=
  repeat match goal with
  | H : context [2 ^ ?n] |- _ =>
      match isZcst n with true => idtac end;
      let v := eval vm_compute in (2 ^ n) in change (2 ^ n) with v in H
  | |- context [2 ^ ?n] =>
      match isZcst n with true => idtac end;
      let v := eval vm_compute in (2 ^ n) in change (2 ^ n) with v
  end.

Ltac width_lia := unfold_width; pow2_const; Z.div_mod_to_equations; lia.

Lemma u8_range x : is_u8 (u8 x).
Proof. unfold is_u8, u8. apply Z.mod_pos_bound. lia. Qed.
Lemma u16_range x : is_u16 (u16 x).
Proof. unfold is_u16, u16. apply Z.mod_pos_bound. lia. Qed.
Lemma u32_range x : is_u32 (u32 x).
Proof. unfold is_u32, u32. apply Z.mod_pos_bound. lia. Qed.
Lemma u64_range x : is_u64 (u64 x).
Proof. unfold is_u64, u64. apply Z.mod_pos_bound. lia. Qed.

Lemma u8_id x : is_u8 x -> u8 x = x.
Proof. apply Z.mod_small. Qed.
Lemma u16_id x : is_u16 x -> u16 x = x.
Proof. apply Z.mod_small. Qed.
Lemma u32_id x : is_u32 x -> u32 x = x.
Proof. apply Z.mod_small. Qed.
Lemma u64_id x : is_u64 x -> u64 x = x.
Proof. apply Z.mod_small. Qed.

Create HintDb width.
Create Rewrite HintDb width_rw.
Lemma u16_plus a b : u16 (u16 a + b) = u16 (a + b).
Proof. width_lia. Qed.
Lemma u64_plus a b : u64 (u64 a + b) = u64 (a + b).
Proof. width_lia. Qed.

#[export] Hint Resolve u8_range u16_range u32_range u64_range : width.
#[export] Hint Rewrite u8_id u16_id u32_id u64_id using (auto with width; width_lia) : width_rw.

(** ** Status codes and results

    [STATUS] lists the status codes of Include.h that the modelled functions
    return.  A fallible computation yields a value, a status, or [Fault]: an
    access outside the object a pointer points into (undefined behaviour in C).
    Absence of [Fault] is the memory-safety part of the theorems. *)

Inductive STATUS : Set :=
| STATUS_SUCCESS
| STATUS_NULL_ARG
| STATUS_INVALID_ARG
| STATUS_NOT_ENOUGH_MEMORY
| STATUS_BUFFER_TOO_SMALL
| STATUS_INVALID_OPERATION
| STATUS_RTP_INPUT_PACKET_TOO_SMALL
| STATUS_RTP_INVALID_EXTENSION_LEN
| STATUS_RTP_INVALID_RED_PACKET
| STATUS_RTCP_INPUT_PACKET_TOO_SMALL
| STATUS_RTCP_INPUT_PACKET_INVALID_VERSION
| STATUS_RTCP_INPUT_PARTIAL_PACKET
| STATUS_RTCP_INPUT_NACK_LIST_INVALID
| STATUS_RTCP_INPUT_REMB_TOO_SMALL
| STATUS_RTCP_INPUT_REMB_INVALID
| STATUS_ROLLING_BUFFER_NOT_IN_RANGE
| STATUS_SCTP_INVALID_DCEP_PACKET
| STATUS_RTP_INPUT_MTU_TOO_SMALL
| STATUS_RTP_INVALID_NALU
| STATUS_HASH_KEY_NOT_PRESENT
| STATUS_HASH_KEY_ALREADY_PRESENT
| STATUS_HASH_ENTRY_ITERATION_ABORT
| STATUS_INTERNAL_ERROR
| STATUS_NOT_FOUND
| STATUS_RTCP_INPUT_SSRC_INVALID
| STATUS_HMAC_GENERATION_ERROR
| STATUS_STUN_MESSAGE_INTEGRITY_NOT_LAST
| STATUS_STUN_FINGERPRINT_NOT_LAST
| STATUS_STUN_MAGIC_COOKIE_MISMATCH
| STATUS_STUN_INVALID_ADDRESS_ATTRIBUTE_LENGTH
| STATUS_STUN_INVALID_USERNAME_ATTRIBUTE_LENGTH
| STATUS_STUN_INVALID_MESSAGE_INTEGRITY_ATTRIBUTE_LENGTH
| STATUS_STUN_INVALID_FINGERPRINT_ATTRIBUTE_LENGTH
| STATUS_STUN_MULTIPLE_MESSAGE_INTEGRITY_ATTRIBUTES
| STATUS_STUN_MULTIPLE_FINGERPRINT_ATTRIBUTES
| STATUS_STUN_ATTRIBUTES_AFTER_FINGERPRINT_MESSAGE_INTEGRITY
| STATUS_STUN_MESSAGE_INTEGRITY_AFTER_FINGERPRINT
| STATUS_STUN_MAX_ATTRIBUTE_COUNT
| STATUS_STUN_MESSAGE_INTEGRITY_MISMATCH
| STATUS_STUN_FINGERPRINT_MISMATCH
| STATUS_STUN_INVALID_PRIORITY_ATTRIBUTE_LENGTH
| STATUS_STUN_INVALID_USE_CANDIDATE_ATTRIBUTE_LENGTH
| STATUS_STUN_INVALID_LIFETIME_ATTRIBUTE_LENGTH
| STATUS_STUN_INVALID_REQUESTED_TRANSPORT_ATTRIBUTE_LENGTH
| STATUS_STUN_INVALID_REALM_ATTRIBUTE_LENGTH
| STATUS_STUN_INVALID_NONCE_ATTRIBUTE_LENGTH
| STATUS_STUN_INVALID_ERROR_CODE_ATTRIBUTE_LENGTH
| STATUS_STUN_INVALID_ICE_CONTROL_ATTRIBUTE_LENGTH
| STATUS_STUN_INVALID_CHANNEL_NUMBER_ATTRIBUTE_LENGTH
| STATUS_STUN_INVALID_CHANGE_REQUEST_ATTRIBUTE_LENGTH.

#[export] Instance STATUS_eq_dec : EqDecision STATUS.
Proof. solve_decision. Defined.

Definition STATUS_FAILED (s : STATUS) : bool := bool_decide (s <> STATUS_SUCCESS).

Inductive res (A : Type) : Type :=
| Ok (a : A)
| Err (s : STATUS)
| Fault.
Arguments Ok {A} _.
Arguments Err {A} _.
Arguments Fault {A}.

#[export] Instance res_ret : MRet res := @Ok.
#[export] Instance res_bind : MBind res := fun A B f m =>
  match m with Ok a => f a | Err s => Err s | Fault => Fault end.

(** The CHK macro of CommonDefs.h in a function with no state to clean up. *)
Notation "'CHK' c 'else' s ;; k" := (if c then k else Err s)
  (at level 100, c at level 99, s at level 99, k at level 200, right associativity).

Definition safe {A} (m : res A) : Prop :=
  match m with Fault => False | _ => True end.

Lemma res_bind_ok {A B} (f : A -> res B) a : (Ok a ≫= f) = f a.
Proof. reflexivity. Qed.

Lemma res_bind_inv {A B} (f : A -> res B) m b :
  (m ≫= f) = Ok b -> exists a, m = Ok a /\ f a = Ok b.
Proof. destruct m; simpl; try discriminate. eauto. Qed.

Lemma res_bind_assoc_pos {A B C} (m : res A) (n : B) (f : A * B -> res C) :
  ((a ← m; Ok (a, n)) ≫= f) = (m ≫= fun a => f (a, n)).
Proof. by destruct m. Qed.

(** ** Byte buffers and pointers

    A memory object is the list of its bytes.  Loads and stores outside it are
    [Fault]. *)

Definition blen (b : list Z) : Z := Z.of_nat (length b).
Definition bytes_ok (b : list Z) : Prop := Forall is_u8 b.

Definition ld (b : list Z) (i : Z) : res Z :=
  if 0 <=? i then
    match b !! Z.to_nat i with Some v => Ok v | None => Fault end
  else Fault.

Definition ld_bytes (b : list Z) (o n : Z) : res (list Z) :=
  if (0 <=? o) && (0 <=? n) && (o + n <=? blen b)
  then Ok (take (Z.to_nat n) (drop (Z.to_nat o) b)) else Fault.

Definition put_bytes (b : list Z) (o : Z) (bs : list Z) : res (list Z) :=
  if (0 <=? o) && (o + blen bs <=? blen b)
  then Ok (take (Z.to_nat o) b ++ bs ++ drop (Z.to_nat (o + blen bs)) b)
  else Fault.

Definition put8 (b : list Z) (o v : Z) : res (list Z) := put_bytes b o [u8 v].

(** Element access of an array of any type. *)
Definition lget {A} (l : list A) (i : Z) : res A :=
  if 0 <=? i then match l !! Z.to_nat i with Some v => Ok v | None => Fault end else Fault.
Definition lput {A} (l : list A) (i : Z) (v : A) : res (list A) :=
  if (0 <=? i) && (i <? Z.of_nat (length l)) then Ok (<[Z.to_nat i := v]> l) else Fault.

(** A pointer into an object: the object's bytes and an offset. *)
Record ptr : Type := Ptr { p_obj : list Z; p_off : Z }.

Definition padd (p : ptr) (n : Z) : ptr := Ptr (p_obj p) (p_off p + n).
Definition pld (p : ptr) (i : Z) : res Z := ld (p_obj p) (p_off p + i).
Definition pld_bytes (p : ptr) (n : Z) : res (list Z) := ld_bytes (p_obj p) (p_off p) n.

Lemma blen_nonneg b : 0 <= blen b.
Proof. unfold blen. lia. Qed.
Lemma blen_app a b : blen (a ++ b) = blen a + blen b.
Proof. unfold blen. rewrite length_app. lia. Qed.
Lemma blen_cons x b : blen (x :: b) = 1 + blen b.
Proof. unfold blen. simpl. lia. Qed.
Lemma blen_nil : blen [] = 0.
Proof. reflexivity. Qed.
Lemma blen_take n b : 0 <= n <= blen b -> blen (take (Z.to_nat n) b) = n.
Proof. unfold blen. rewrite length_take. lia. Qed.
Lemma blen_drop n b : 0 <= n <= blen b -> blen (drop (Z.to_nat n) b) = blen b - n.
Proof. unfold blen. rewrite length_drop. lia. Qed.
Lemma length_blen b : length b = Z.to_nat (blen b).
Proof. unfold blen. lia. Qed.

Create Rewrite HintDb blen.
#[export] Hint Rewrite blen_app blen_cons blen_nil : blen.

Ltac blen_facts :=
  repeat match goal with
  | |- context [blen ?b] =>
      lazymatch goal with H : 0 <= blen b |- _ => fail | _ => pose proof (blen_nonneg b) end
  | _ : context [blen ?b] |- _ =>
      lazymatch goal with H : 0 <= blen b |- _ => fail | _ => pose proof (blen_nonneg b) end
  end.

Ltac blen_lia := autorewrite with blen in *; blen_facts; lia.

Lemma bytes_ok_app a b : bytes_ok (a ++ b) <-> bytes_ok a /\ bytes_ok b.
Proof. apply Forall_app. Qed.
Lemma bytes_ok_take n b : bytes_ok b -> bytes_ok (take n b).
Proof. apply Forall_take. Qed.
Lemma bytes_ok_drop n b : bytes_ok b -> bytes_ok (drop n b).
Proof. apply Forall_drop. Qed.
#[export] Hint Resolve bytes_ok_take bytes_ok_drop : width.

(** Bytes of a literal buffer, by evaluation. *)
Lemma bytes_ok_check b : forallb (fun x => (0 <=? x) && (x <? 256)) b = true -> bytes_ok b.
Proof.
  rewrite forallb_forall. intros H. apply Forall_forall. intros x Hx.
  specialize (H x Hx). apply andb_prop in H as [?%Z.leb_le ?%Z.ltb_lt]. done.
Qed.

(** *** Loads *)

Lemma ld_in b i : 0 <= i < blen b -> exists v, ld b i = Ok v /\ v ∈ b.
Proof.
  intros H. unfold ld. rewrite (proj2 (Z.leb_le 0 i)) by lia.
  destruct (lookup_lt_is_Some_2 b (Z.to_nat i)) as [v Hv]; [unfold blen in H; lia|].
  rewrite Hv. eauto using list_elem_of_lookup_2.
Qed.

Lemma ld_ok_range b i v : ld b i = Ok v -> 0 <= i < blen b.
Proof.
  unfold ld. destruct (Z.leb_spec 0 i); [|discriminate].
  destruct (b !! Z.to_nat i) eqn:E; [|discriminate].
  intros _. apply lookup_lt_Some in E. unfold blen. lia.
Qed.

Lemma ld_fault b i : blen b <= i -> ld b i = Fault.
Proof.
  intros H. pose proof (blen_nonneg b). unfold ld. rewrite (proj2 (Z.leb_le 0 i)) by lia.
  rewrite lookup_ge_None_2; [done|unfold blen in H; lia].
Qed.

Lemma ld_ok_or_fault b i : (exists v, ld b i = Ok v) \/ ld b i = Fault.
Proof. unfold ld. repeat case_match; eauto. Qed.

Lemma ld_byte b i v : bytes_ok b -> ld b i = Ok v -> is_u8 v.
Proof.
  unfold ld. intros Hb. destruct (0 <=? i); [|discriminate].
  destruct (b !! Z.to_nat i) eqn:E; [|discriminate]. intros [= ->].
  eapply Forall_lookup_1; eauto.
Qed.

Lemma ld_app_l a b i : 0 <= i < blen a -> ld (a ++ b) i = ld a i.
Proof.
  intros H. unfold ld. rewrite lookup_app_l; [done|unfold blen in H; lia].
Qed.

Lemma ld_app_r a b i : blen a <= i -> ld (a ++ b) i = ld b (i - blen a).
Proof.
  intros H. pose proof (blen_nonneg a). unfold ld.
  rewrite !(proj2 (Z.leb_le _ _)) by lia.
  rewrite lookup_app_r by (unfold blen in *; lia).
  replace (Z.to_nat (i - blen a)) with (Z.to_nat i - length a)%nat by (unfold blen; lia). done.
Qed.

Lemma ld_app_off a b k : 0 <= k -> ld (a ++ b) (blen a + k) = ld b k.
Proof. intros. rewrite ld_app_r by lia. f_equal. lia. Qed.

Lemma ld_cons_0 x b : ld (x :: b) 0 = Ok x.
Proof. reflexivity. Qed.
Lemma ld_cons_S x b i : 0 < i -> ld (x :: b) i = ld b (i - 1).
Proof. intros. change (x :: b) with ([x] ++ b). apply (ld_app_r [x]). change (blen [x]) with 1. lia. Qed.

Lemma ld_bytes_app a b c o n :
  o = blen a -> n = blen b -> ld_bytes (a ++ b ++ c) o n = Ok b.
Proof.
  intros -> ->. unfold ld_bytes.
  rewrite !(proj2 (Z.leb_le _ _)) by blen_lia. simpl.
  rewrite drop_app_length' by (unfold blen; lia).
  rewrite take_app_length' by (unfold blen; lia). done.
Qed.

Lemma ld_bytes_inv b o n r :
  ld_bytes b o n = Ok r -> 0 <= o /\ 0 <= n /\ o + n <= blen b /\ blen r = n.
Proof.
  unfold ld_bytes. repeat case_match; try discriminate.
  apply andb_prop in H as [[?%Z.leb_le ?%Z.leb_le]%andb_prop ?%Z.leb_le].
  intros [= <-]. repeat split; [done..|].
  rewrite blen_take; [done|]. rewrite blen_drop; lia.
Qed.

Lemma ld_bytes_in b o n :
  0 <= o -> 0 <= n -> o + n <= blen b ->
  ld_bytes b o n = Ok (take (Z.to_nat n) (drop (Z.to_nat o) b)).
Proof. intros. unfold ld_bytes. rewrite !(proj2 (Z.leb_le _ _)) by lia. done. Qed.

Lemma ld_bytes_fault b o n : blen b < o + n -> ld_bytes b o n = Fault.
Proof.
  intros. unfold ld_bytes. rewrite (proj2 (Z.leb_gt (o + n) _)) by lia.
  by rewrite andb_false_r.
Qed.

Lemma ld_bytes_ok b o n r : bytes_ok b -> ld_bytes b o n = Ok r -> bytes_ok r.
Proof.
  unfold ld_bytes. case_match; [|discriminate]. intros ? [= <-]. auto with width.
Qed.

(** *** Stores *)

Lemma put_bytes_in b o bs :
  0 <= o -> o + blen bs <= blen b ->
  put_bytes b o bs = Ok (take (Z.to_nat o) b ++ bs ++ drop (Z.to_nat (o + blen bs)) b).
Proof. intros. unfold put_bytes. rewrite !(proj2 (Z.leb_le _ _)) by lia. done. Qed.

Lemma put_bytes_fault b o bs :
  ~ (0 <= o /\ o + blen bs <= blen b) -> put_bytes b o bs = Fault.
Proof.
  intros. unfold put_bytes. destruct (Z.leb_spec 0 o), (Z.leb_spec (o + blen bs) (blen b));
    done || lia.
Qed.

Lemma put_bytes_inv b o bs b' :
  put_bytes b o bs = Ok b' -> 0 <= o /\ o + blen bs <= blen b /\ blen b' = blen b.
Proof.
  unfold put_bytes. case_match; [|discriminate].
  apply andb_prop in H as [?%Z.leb_le ?%Z.leb_le]. intros [= <-].
  pose proof (blen_nonneg bs).
  rewrite !blen_app, blen_take, blen_drop by lia. lia.
Qed.

Lemma put_bytes_app a old c bs o :
  o = blen a -> blen old = blen bs ->
  put_bytes (a ++ old ++ c) o bs = Ok (a ++ bs ++ c).
Proof.
  intros -> Hlen. rewrite put_bytes_in by blen_lia. do 2 f_equal.
  - apply take_app_length'. unfold blen. lia.
  - f_equal. rewrite (assoc_L (++)). apply drop_app_length'.
    rewrite length_app. unfold blen in *. lia.
Qed.

Lemma put_bytes_at a rest bs o :
  o = blen a -> blen bs <= blen rest ->
  put_bytes (a ++ rest) o bs = Ok (a ++ bs ++ drop (Z.to_nat (blen bs)) rest).
Proof.
  intros Ho Hle. rewrite <- (take_drop (Z.to_nat (blen bs)) rest) at 1.
  apply put_bytes_app; [done|]. apply blen_take. pose proof (blen_nonneg bs). lia.
Qed.

(** Two adjacent stores are one store of the concatenation. *)
Lemma put_bytes_seq b o x y :
  put_bytes b o x ≫= (fun b' => put_bytes b' (o + blen x) y) = put_bytes b o (x ++ y).
Proof.
  pose proof (blen_nonneg x). pose proof (blen_nonneg y).
  destruct (decide (0 <= o /\ o + blen x + blen y <= blen b)) as [[Ho Hle]|Hn].
  - rewrite (put_bytes_in b o x), (put_bytes_in b o (x ++ y)) by blen_lia. simpl.
    rewrite (assoc_L (++)).
    set (pre := take (Z.to_nat o) b ++ x).
    assert (Hpre : blen pre = o + blen x) by (unfold pre; rewrite blen_app, blen_take; lia).
    rewrite <- (take_drop (Z.to_nat (blen y)) (drop (Z.to_nat (o + blen x)) b)).
    rewrite put_bytes_app; [|done|rewrite blen_take; [done|rewrite blen_drop; lia]].
    unfold pre. rewrite drop_drop, blen_app, <- !(assoc_L (++)).
    do 4 f_equal. f_equal. lia.
  - rewrite (put_bytes_fault b o (x ++ y)) by blen_lia.
    destruct (decide (0 <= o /\ o + blen x <= blen b)) as [[? ?]|?];
      [|by rewrite put_bytes_fault].
    rewrite put_bytes_in by done. simpl. apply put_bytes_fault.
    autorewrite with blen. rewrite blen_take, blen_drop by lia. lia.
Qed.

(** The same, with a continuation: collapses a writer into one store. *)
Lemma put_bytes_seq_k {A} b o x o' y (k : list Z -> res A) :
  o' = o + blen x ->
  put_bytes b o x ≫= (fun b' => put_bytes b' o' y ≫= k) = put_bytes b o (x ++ y) ≫= k.
Proof.
  intros ->. rewrite <- put_bytes_seq. by destruct (put_bytes b o x).
Qed.

Lemma put_then {A} b o x o' y (f k : list Z -> res A) :
  o' = o + blen x ->
  (forall b', blen b' = blen b -> f b' = put_bytes b' o' y ≫= k) ->
  put_bytes b o x ≫= f = put_bytes b o (x ++ y) ≫= k.
Proof.
  intros Ho Hf. rewrite <- (put_bytes_seq_k _ _ _ o') by done.
  destruct (put_bytes b o x) as [b'| |] eqn:E; [|done..]. simpl.
  apply Hf. by apply put_bytes_inv in E as (_&_&?).
Qed.

(** The same; the continuation is only compared where the first store fits. *)
Lemma put_then_in {A} b o x o' y (f k : list Z -> res A) :
  o' = o + blen x ->
  (forall b', blen b' = blen b -> 0 <= o' <= blen b' -> f b' = put_bytes b' o' y ≫= k) ->
  put_bytes b o x ≫= f = put_bytes b o (x ++ y) ≫= k.
Proof.
  intros Ho Hf. rewrite <- (put_bytes_seq_k _ _ _ o') by done.
  destruct (put_bytes b o x) as [b'| |] eqn:E; [|done..]. simpl.
  pose proof (blen_nonneg x). apply put_bytes_inv in E as (?&?&?). apply Hf; lia.
Qed.

(** The same for a store that also returns the next write position. *)
Lemma put_then_pos {A} b o x o' y n (g : list Z -> res (list Z * Z)) (K : list Z * Z -> res A) :
  o' = o + blen x ->
  (forall b', blen b' = blen b -> g b' = (b'' ← put_bytes b' o' y; Ok (b'', n))) ->
  put_bytes b o x ≫= (fun b' => g b' ≫= K) =
  put_bytes b o (x ++ y) ≫= (fun b'' => K (b'', n)).
Proof.
  intros Ho Hg. apply (put_then _ _ _ o'); [done|]. intros b' Hb'. rewrite Hg by done.
  by destruct (put_bytes b' o' y).
Qed.

Lemma put_bytes_nil b o : 0 <= o <= blen b -> put_bytes b o [] = Ok b.
Proof.
  intros. rewrite put_bytes_in by (rewrite ?blen_nil; lia). rewrite blen_nil.
  replace (o + 0) with o by lia. simpl. by rewrite take_drop.
Qed.

Lemma put_bytes_ok b o bs b' :
  bytes_ok b -> bytes_ok bs -> put_bytes b o bs = Ok b' -> bytes_ok b'.
Proof.
  unfold put_bytes. case_match; [|discriminate]. intros ? ? [= <-].
  rewrite !bytes_ok_app. auto with width.
Qed.

(** A load of what was just stored, and of bytes the store did not touch. *)
Lemma put_ld_bytes b o bs b' :
  put_bytes b o bs = Ok b' -> ld_bytes b' o (blen bs) = Ok bs.
Proof.
  intros H. pose proof (put_bytes_inv _ _ _ _ H) as (?&?&?).
  rewrite put_bytes_in in H by lia. injection H as <-.
  apply ld_bytes_app; [|done]. pose proof (blen_nonneg bs). rewrite blen_take; lia.
Qed.

Lemma put_ld_other b o bs b' i :
  put_bytes b o bs = Ok b' -> 0 <= i -> i < o \/ o + blen bs <= i -> ld b' i = ld b i.
Proof.
  intros H Hi Hd. pose proof (put_bytes_inv _ _ _ _ H) as (?&?&?).
  rewrite put_bytes_in in H by lia. injection H as <-. pose proof (blen_nonneg bs).
  unfold ld. rewrite (proj2 (Z.leb_le 0 i)) by lia.
  assert (Ht : length (take (Z.to_nat o) b) = Z.to_nat o)
    by (rewrite length_take; unfold blen in *; lia).
  destruct Hd as [Hlt|Hge].
  - rewrite lookup_app_l by lia. by rewrite lookup_take_lt by lia.
  - rewrite lookup_app_r by lia. rewrite lookup_app_r by (unfold blen in *; lia).
    rewrite lookup_drop, Ht.
    replace (Z.to_nat (o + blen bs) + (Z.to_nat i - Z.to_nat o - length bs))%nat
      with (Z.to_nat i) by (unfold blen in *; lia). done.
Qed.

(** Whole objects. *)
Lemma put_bytes_full b bs : blen b = blen bs -> put_bytes b 0 bs = Ok bs.
Proof.
  intros H. replace b with ([] ++ b ++ []) by (simpl; apply app_nil_r).
  rewrite (put_bytes_app [] b [] bs) by done. simpl. by rewrite app_nil_r.
Qed.

Lemma pld_bytes_whole bs n : n = blen bs -> pld_bytes (Ptr bs 0) n = Ok bs.
Proof.
  intros ->. unfold pld_bytes. cbn [p_obj p_off].
  pose proof (ld_bytes_app [] bs [] 0 (blen bs)) as H. simpl in H. rewrite app_nil_r in H. auto.
Qed.

(** *** Arrays *)

Lemma lput_in {A} (l : list A) i v :
  0 <= i < Z.of_nat (length l) -> lput l i v = Ok (<[Z.to_nat i := v]> l).
Proof.
  intros. unfold lput. by rewrite (proj2 (Z.leb_le _ _)), (proj2 (Z.ltb_lt _ _)) by lia.
Qed.

Lemma lput_fault {A} (l : list A) i v : Z.of_nat (length l) <= i -> lput l i v = Fault.
Proof. intros. unfold lput. by rewrite (proj2 (Z.ltb_ge i _)), andb_false_r by lia. Qed.

Lemma lput_inv {A} (l : list A) i v l' :
  lput l i v = Ok l' ->
  0 <= i < Z.of_nat (length l) /\ l' = <[Z.to_nat i := v]> l /\ length l' = length l.
Proof.
  unfold lput. destruct (Z.leb_spec 0 i), (Z.ltb_spec i (Z.of_nat (length l))); try done.
  intros [= <-]. by rewrite length_insert.
Qed.

Lemma lput_at {A} (a : list A) x rest v i :
  i = Z.of_nat (length a) -> lput (a ++ x :: rest) i v = Ok (a ++ v :: rest).
Proof.
  intros ->. rewrite lput_in by (rewrite length_app; simpl; lia). rewrite Nat2Z.id.
  by rewrite insert_app_r_alt, Nat.sub_diag by lia.
Qed.

Lemma lget_in {A} (l : list A) i : 0 <= i < Z.of_nat (length l) -> exists v, lget l i = Ok v.
Proof.
  intros. unfold lget. rewrite (proj2 (Z.leb_le _ _)) by lia.
  destruct (lookup_lt_is_Some_2 l (Z.to_nat i)) as [v ->]; [lia|]. eauto.
Qed.

(** Sums over an array, and what an element assignment does to them. *)
Fixpoint sumBy {A} (f : A -> Z) (l : list A) : Z :=
  match l with [] => 0 | x :: l => f x + sumBy f l end.

Lemma sumBy_app {A} (f : A -> Z) a b : sumBy f (a ++ b) = sumBy f a + sumBy f b.
Proof. induction a; cbn; lia. Qed.

Lemma sumBy_insert {A} (f : A -> Z) l i x y :
  l !! i = Some x -> sumBy f (<[i := y]> l) = sumBy f l - f x + f y.
Proof.
  revert i. induction l as [|z l IH]; intros [|i] Hi; simplify_eq/=; [lia|].
  rewrite (IH i) by done. lia.
Qed.

Lemma sumBy_bound {A} (f : A -> Z) l m :
  Forall (fun x => 0 <= f x <= m) l -> 0 <= sumBy f l <= m * Z.of_nat (length l).
Proof. induction 1; simpl; lia. Qed.

Lemma sumBy_map_sub {A} (f k : A -> Z) (g : A -> A) l :
  (forall x, f (g x) = f x - k x) -> sumBy f (map g l) = sumBy f l - sumBy k l.
Proof. intros H. induction l as [|x l IH]; simpl; [done|]. rewrite H, IH. lia. Qed.

Lemma sumBy_replicate {A} (f : A -> Z) n x : f x = 0 -> sumBy f (replicate n x) = 0.
Proof. intros. induction n; simpl; lia. Qed.

Lemma lget_lookup {A} (l : list A) i x : lget l i = Ok x -> 0 <= i /\ l !! Z.to_nat i = Some x.
Proof.
  unfold lget. destruct (Z.leb_spec 0 i); [|discriminate].
  destruct (l !! Z.to_nat i); [|discriminate]. by intros [= ->].
Qed.

(** ** Record update

    [r <| f := v |>] is [r] with field [f] replaced by [v]: the C assignment
    [p->f = v].  The instances of a record are derived by [derive_update]. *)

Class Update {R T : Type} (f : R -> T) : Type := update : (T -> T) -> R -> R.

Ltac derive_update :=
  lazymatch goal with
  | |- @Update ?R ?T ?f =>
      let g := fresh "g" in
      let r := fresh "r" in
      let e := fresh "e" in
      intros g r; pose (e := r); destruct r;
      let v := eval cbv in (f e) in
      let t := eval cbv delta [e] in e in
      lazymatch eval pattern v in t with ?F _ => clear e; exact (F (g v)) end
  end.

Declare Scope update_scope.
Notation "r <| f := v |>" := (update (f := f) (fun _ => v) r)
  (at level 1, f at level 9, left associativity) : update_scope.
#[global] Open Scope update_scope.

(** ** Stateful code

    [ST S A] threads a state [S]; [None] is the memory fault.  Error statuses
    are ordinary results, because a C function keeps the assignments it made
    before it failed.  [wp m Q s] says that [m] run from [s] does not fault and
    ends with a result and a state satisfying [Q]. *)

Definition ST (S A : Type) : Type := S -> option (A * S).

#[export] Instance ST_ret {S} : MRet (ST S) := fun A a s => Some (a, s).
#[export] Instance ST_bind {S} : MBind (ST S) := fun A B f m s =>
  match m s with Some (a, s') => f a s' | None => None end.

Definition gets {S A} (f : S -> A) : ST S A := fun s => Some (f s, s).
Definition modify {S} (f : S -> S) : ST S unit := fun s => Some (tt, f s).
(** Runs a computation on memory objects; only its value can continue. *)
Definition lift {S A} (m : res A) : ST S A := fun s =>
  match m with Ok a => Some (a, s) | _ => None end.
Definition when {S} (c : bool) (m : ST S unit) : ST S unit := if c then m else mret tt.

Definition wp {S A} (m : ST S A) (Q : A -> S -> Prop) (s : S) : Prop :=
  match m s with Some (a, s') => Q a s' | None => False end.

Section WP.
Context {S : Type}.

Lemma wp_ret {A} (a : A) (Q : A -> S -> Prop) s : Q a s -> wp (mret a) Q s.
Proof. done. Qed.

Lemma wp_bind {A B} (f : A -> ST S B) m Q s :
  wp m (fun a => wp (f a) Q) s -> wp (m ≫= f) Q s.
Proof. unfold wp, mbind, ST_bind. destruct (m s) as [[a s']|]; done. Qed.

Lemma wp_mono {A} (m : ST S A) (Q R : A -> S -> Prop) s :
  wp m Q s -> (forall a s', Q a s' -> R a s') -> wp m R s.
Proof. unfold wp. destruct (m s) as [[a s']|]; eauto. Qed.

Lemma wp_conj {A} (m : ST S A) (Q R : A -> S -> Prop) s :
  wp m Q s -> wp m R s -> wp m (fun a s' => Q a s' /\ R a s') s.
Proof. unfold wp. destruct (m s) as [[a s']|]; eauto. Qed.

Lemma wp_gets {A} (f : S -> A) (Q : A -> S -> Prop) s : Q (f s) s -> wp (gets f) Q s.
Proof. done. Qed.

Lemma wp_modify (f : S -> S) (Q : unit -> S -> Prop) s : Q tt (f s) -> wp (modify f) Q s.
Proof. done. Qed.

Lemma wp_lift {A} (m : res A) a (Q : A -> S -> Prop) s :
  m = Ok a -> Q a s -> wp (lift m) Q s.
Proof. intros ->. done. Qed.

Lemma wp_when c (m : ST S unit) (Q : unit -> S -> Prop) s :
  (c = true -> wp m Q s) -> (c = false -> Q tt s) -> wp (when c m) Q s.
Proof. intros H1 H2. destruct c; [by apply H1|by apply H2]. Qed.

Lemma wp_if {A} (c : bool) (m1 m2 : ST S A) Q s :
  (c = true -> wp m1 Q s) -> (c = false -> wp m2 Q s) -> wp (if c then m1 else m2) Q s.
Proof. destruct c; eauto. Qed.

Lemma wp_run {A} (m : ST S A) Q s :
  wp m Q s -> exists a s', m s = Some (a, s') /\ Q a s'.
Proof. unfold wp. destruct (m s) as [[a s']|]; [eauto|done]. Qed.

Lemma wp_exec {A} (m : ST S A) a s s' (Q : A -> S -> Prop) : m s = Some (a, s') -> Q a s' -> wp m Q s.
Proof. unfold wp. by intros ->. Qed.

(** [m] leaves the part [v] of the state alone. *)
Definition frames {V} (v : S -> V) {A} (m : ST S A) : Prop :=
  forall s a s', m s = Some (a, s') -> v s' = v s.

Context {V : Type} (v : S -> V).

Lemma frames_ret {A} (a : A) : frames v (mret a).
Proof. by intros s b s' [= _ <-]. Qed.

Lemma frames_gets {A} (f : S -> A) : frames v (gets f).
Proof. by intros s b s' [= _ <-]. Qed.

Lemma frames_modify f : (forall s, v (f s) = v s) -> frames v (modify f).
Proof. intros Hf s b s' [= _ <-]. apply Hf. Qed.

Lemma frames_lift {A} (m : res A) : frames v (lift m).
Proof. intros s b s'. unfold lift. destruct m; [by intros [= _ <-]|done..]. Qed.

Lemma frames_bind {A B} (f : A -> ST S B) m :
  frames v m -> (forall a, frames v (f a)) -> frames v (m ≫= f).
Proof.
  intros Hm Hf s b s'. unfold mbind, ST_bind. destruct (m s) as [[a s1]|] eqn:E; [|done].
  intros E'. rewrite (Hf a _ _ _ E'). exact (Hm _ _ _ E).
Qed.

Lemma frames_if {A} (c : bool) (m1 m2 : ST S A) : frames v m1 -> frames v m2 -> frames v (if c then m1 else m2).
Proof. by destruct c. Qed.

Lemma frames_when c m : frames v m -> frames v (when c m).
Proof. intros. apply frames_if; [done|apply frames_ret]. Qed.

Lemma wp_frames {A} (m : ST S A) Q s :
  frames v m -> wp m Q s -> wp m (fun a s' => Q a s' /\ v s' = v s) s.
Proof. unfold wp. intros Hf. destruct (m s) as [[a s']|] eqn:E; [|done]. intros HQ. split; [done|exact (Hf _ _ _ E)]. Qed.
End WP.

(** Frames of a computation, by its structure, up to those of its updates. *)
Ltac frame_step :=
  lazymatch goal with
  | |- frames _ (mbind _ _) => apply frames_bind; [|intros ?]
  | |- frames _ (mret _) => apply frames_ret
  | |- frames _ (gets _) => apply frames_gets
  | |- frames _ (lift _) => apply frames_lift
  | |- frames _ (when _ _) => apply frames_when
  | |- frames _ (if _ then _ else _) => apply frames_if
  | |- frames _ (match ?x with _ => _ end) => destruct x
  end.

(** One step of the symbolic execution of a stateful computation. *)
Ltac wp_step :=
  lazymatch goal with
  | |- wp (mbind _ _) _ _ => apply wp_bind
  | |- wp (mret _) _ _ => apply wp_ret
  | |- wp (gets _) _ _ => apply wp_gets
  | |- wp (modify _) _ _ => apply wp_modify
  | |- wp (when _ _) _ _ => apply wp_when; intros
  | |- wp (if _ then _ else _) _ _ => apply wp_if; intros
  end; cbv beta match.

Ltac wp_steps := repeat wp_step.

(** Continues after a memory access whose outcome is [E]. *)
Tactic Notation "wp_load" uconstr(E) := wp_steps; eapply wp_lift; [exact E|]; cbv beta match; wp_steps.

(** ** Finite ranges

    A boolean statement about an integer of a small range holds when it
    evaluates to [true] on every value of the range. *)

Lemma range_forall (P : Z -> bool) n :
  forallb P (seqZ 0 n) = true -> forall x, 0 <= x < n -> P x = true.
Proof.
  intros H x Hx. rewrite forallb_forall in H. apply H.
  apply list_elem_of_In, elem_of_seqZ. lia.
Qed.

(** ** Bit operations as arithmetic *)

Lemma land_mask x n : 0 <= n -> Z.land x (Z.ones n) = x mod 2 ^ n.
Proof. apply Z.land_ones. Qed.

Lemma land_255 x : Z.land x 0xff = x mod 256.
Proof. apply (Z.land_ones x 8). lia. Qed.

Lemma land_disjoint a b n : 0 <= n -> 0 <= a < 2 ^ n -> Z.land a (Z.shiftl b n) = 0.
Proof.
  intros Hn Ha. apply Z.bits_inj'. intros i Hi. rewrite Z.land_spec, Z.bits_0.
  destruct (Z.lt_ge_cases i n).
  - rewrite Z.shiftl_spec_low by lia. apply andb_false_r.
  - rewrite <- (Z.mod_small a (2 ^ n)) by done. by rewrite Z.mod_pow2_bits_high by lia.
Qed.

Lemma lor_disjoint_add a b n :
  0 <= n -> 0 <= a < 2 ^ n -> Z.lor a (Z.shiftl b n) = a + b * 2 ^ n.
Proof.
  intros Hn Ha. pose proof (land_disjoint a b n Hn Ha) as Hd.
  rewrite <- Z.lxor_lor by done. rewrite <- Z.add_nocarry_lxor by done.
  by rewrite Z.shiftl_mul_pow2.
Qed.
