(* ===== verification/Endian.v ===== *)
(** * Byte order (deps/src/utils/Endianness.c, CommonDefs.h)

    The swap and unaligned-access routines of the utils library, the run-time
    selection made by [initializeEndianness], and the facts the packet parsers
    and writers rely on: the BigEndian accessors are inverse to each other, and
    [getInt16]/[getInt32] applied to a native load is the network-order value on
    a host of either byte order. *)

From S2P Require Import Prelude.

(** ** Macros of CommonDefs.h *)

Definition LOW_BYTE (x : Z) : Z := u8 x.
Definition HIGH_BYTE (x : Z) : Z := u8 (Z.land (Z.shiftr (i16 x) 8) 0xff).
Definition LOW_INT16 (x : Z) : Z := i16 x.
Definition HIGH_INT16 (x : Z) : Z := i16 (Z.land (Z.shiftr (i32 x) 16) 0xffff).
Definition LOW_INT32 (x : Z) : Z := i32 x.
Definition HIGH_INT32 (x : Z) : Z := i32 (Z.land (Z.shiftr (i64 x) 32) 0xffffffff).

Definition MAKE_INT16 (a b : Z) : Z :=
  i16 (Z.lor (u8 (Z.land (u16 a) 0xff)) (Z.shiftl (u16 (u8 (Z.land (u16 b) 0xff))) 8)).
Definition MAKE_INT32 (a b : Z) : Z :=
  i32 (Z.lor (u16 (Z.land (u32 a) 0xffff)) (Z.shiftl (u32 (u16 (Z.land (u32 b) 0xffff))) 16)).
Definition MAKE_INT64 (a b : Z) : Z :=
  i64 (Z.lor (u32 (Z.land (u64 a) 0xffffffff)) (u64 (Z.shiftl (u32 (Z.land (u64 b) 0xffffffff)) 32))).

Definition SWAP_INT16 (x : Z) : Z := MAKE_INT16 (HIGH_BYTE x) (LOW_BYTE x).
Definition SWAP_INT32 (x : Z) : Z :=
  MAKE_INT32 (SWAP_INT16 (HIGH_INT16 x)) (SWAP_INT16 (LOW_INT16 x)).
Definition SWAP_INT64 (x : Z) : Z :=
  MAKE_INT64 (SWAP_INT32 (HIGH_INT32 x)) (SWAP_INT32 (LOW_INT32 x)).

(** ** Aligned and unaligned access *)

Definition getInt16Swap (x : Z) : Z := SWAP_INT16 x.
Definition getInt16NoSwap (x : Z) : Z := x.
Definition getInt32Swap (x : Z) : Z := SWAP_INT32 x.
Definition getInt32NoSwap (x : Z) : Z := x.
Definition getInt64Swap (x : Z) : Z := SWAP_INT64 x.
Definition getInt64NoSwap (x : Z) : Z := x.
(** The value stored at the pointer. *)
Definition putInt16Swap (x : Z) : Z := SWAP_INT16 x.
Definition putInt16NoSwap (x : Z) : Z := x.
Definition putInt32Swap (x : Z) : Z := SWAP_INT32 x.
Definition putInt32NoSwap (x : Z) : Z := x.
Definition putInt64Swap (x : Z) : Z := SWAP_INT64 x.
Definition putInt64NoSwap (x : Z) : Z := x.

Definition getUnalignedInt16Le (b : list Z) (o : Z) : res Z :=
  b0 ← ld b o; b1 ← ld b (o + 1); Ok (MAKE_INT16 b0 b1).
Definition getUnalignedInt16Be (b : list Z) (o : Z) : res Z :=
  b1 ← ld b (o + 1); b0 ← ld b o; Ok (MAKE_INT16 b1 b0).
Definition getUnalignedInt32Le (b : list Z) (o : Z) : res Z :=
  b0 ← ld b o; b1 ← ld b (o + 1); b2 ← ld b (o + 2); b3 ← ld b (o + 3);
  Ok (MAKE_INT32 (MAKE_INT16 b0 b1) (MAKE_INT16 b2 b3)).
Definition getUnalignedInt32Be (b : list Z) (o : Z) : res Z :=
  b3 ← ld b (o + 3); b2 ← ld b (o + 2); b1 ← ld b (o + 1); b0 ← ld b o;
  Ok (MAKE_INT32 (MAKE_INT16 b3 b2) (MAKE_INT16 b1 b0)).
Definition getUnalignedInt64Le (b : list Z) (o : Z) : res Z :=
  b0 ← ld b o; b1 ← ld b (o + 1); b2 ← ld b (o + 2); b3 ← ld b (o + 3);
  b4 ← ld b (o + 4); b5 ← ld b (o + 5); b6 ← ld b (o + 6); b7 ← ld b (o + 7);
  Ok (MAKE_INT64 (MAKE_INT32 (MAKE_INT16 b0 b1) (MAKE_INT16 b2 b3))
        (MAKE_INT32 (MAKE_INT16 b4 b5) (MAKE_INT16 b6 b7))).
Definition getUnalignedInt64Be (b : list Z) (o : Z) : res Z :=
  b7 ← ld b (o + 7); b6 ← ld b (o + 6); b5 ← ld b (o + 5); b4 ← ld b (o + 4);
  b3 ← ld b (o + 3); b2 ← ld b (o + 2); b1 ← ld b (o + 1); b0 ← ld b o;
  Ok (MAKE_INT64 (MAKE_INT32 (MAKE_INT16 b7 b6) (MAKE_INT16 b5 b4))
        (MAKE_INT32 (MAKE_INT16 b3 b2) (MAKE_INT16 b1 b0))).

(** The bytes a 16-, 32- or 64-bit store writes, in memory order. *)
Definition putUnalignedInt16Le (b : list Z) (o v : Z) : res (list Z) :=
  put_bytes b o [u8 (i8 v); u8 (i8 (Z.shiftr v 8))].
Definition putUnalignedInt16Be (b : list Z) (o v : Z) : res (list Z) :=
  put_bytes b o [u8 (i8 (Z.shiftr v 8)); u8 (i8 v)].
Definition putUnalignedInt32Le (b : list Z) (o v : Z) : res (list Z) :=
  put_bytes b o [u8 (i8 v); u8 (i8 (Z.shiftr v 8)); u8 (i8 (Z.shiftr v 16));
                 u8 (i8 (Z.shiftr v 24))].
Definition putUnalignedInt32Be (b : list Z) (o v : Z) : res (list Z) :=
  put_bytes b o [u8 (i8 (Z.shiftr v 24)); u8 (i8 (Z.shiftr v 16));
                 u8 (i8 (Z.shiftr v 8)); u8 (i8 v)].
Definition putUnalignedInt64Le (b : list Z) (o v : Z) : res (list Z) :=
  put_bytes b o [u8 (i8 v); u8 (i8 (Z.shiftr v 8)); u8 (i8 (Z.shiftr v 16));
                 u8 (i8 (Z.shiftr v 24)); u8 (i8 (Z.shiftr v 32)); u8 (i8 (Z.shiftr v 40));
                 u8 (i8 (Z.shiftr v 48)); u8 (i8 (Z.shiftr v 56))].
Definition putUnalignedInt64Be (b : list Z) (o v : Z) : res (list Z) :=
  put_bytes b o [u8 (i8 (Z.shiftr v 56)); u8 (i8 (Z.shiftr v 48)); u8 (i8 (Z.shiftr v 40));
                 u8 (i8 (Z.shiftr v 32)); u8 (i8 (Z.shiftr v 24)); u8 (i8 (Z.shiftr v 16));
                 u8 (i8 (Z.shiftr v 8)); u8 (i8 v)].

(** ** The host's byte order *)

Inductive endian : Set := LittleEndian | BigEndian.

(** [*(PUINT16) (b + o)] and [*(PUINT32) (b + o)] on a host of byte order [h]. *)
Definition native16 (h : endian) (b : list Z) (o : Z) : res Z :=
  b0 ← ld b o; b1 ← ld b (o + 1);
  Ok (match h with LittleEndian => b0 + 256 * b1 | BigEndian => 256 * b0 + b1 end).
Definition native32 (h : endian) (b : list Z) (o : Z) : res Z :=
  b0 ← ld b o; b1 ← ld b (o + 1); b2 ← ld b (o + 2); b3 ← ld b (o + 3);
  Ok (match h with
      | LittleEndian => b0 + 2 ^ 8 * b1 + 2 ^ 16 * b2 + 2 ^ 24 * b3
      | BigEndian => 2 ^ 24 * b0 + 2 ^ 16 * b1 + 2 ^ 8 * b2 + b3
      end).

(** The four bytes of a UINT32 in the memory of a host. *)
Definition native_bytes32 (h : endian) (v : Z) : list Z :=
  let l := [u8 v; u8 (Z.shiftr v 8); u8 (Z.shiftr v 16); u8 (Z.shiftr v 24)] in
  match h with LittleEndian => l | BigEndian => rev l end.

(** The same for a UINT16 and a UINT64, and the load of a UINT64. *)
Definition native_bytes16 (h : endian) (v : Z) : list Z :=
  let l := [u8 v; u8 (Z.shiftr v 8)] in
  match h with LittleEndian => l | BigEndian => rev l end.
Definition native_bytes64 (h : endian) (v : Z) : list Z :=
  match h with
  | LittleEndian => native_bytes32 h v ++ native_bytes32 h (Z.shiftr v 32)
  | BigEndian => native_bytes32 h (Z.shiftr v 32) ++ native_bytes32 h v
  end.
Definition native64 (h : endian) (b : list Z) (o : Z) : res Z :=
  a ← native32 h b o; c ← native32 h b (o + 4);
  Ok (match h with LittleEndian => a + 2 ^ 32 * c | BigEndian => 2 ^ 32 * a + c end).

Definition isBigEndian (h : endian) : bool :=
  bool_decide (native_bytes32 h 0x01020304 !! 0%nat = Some 1).

(** The function pointers [initializeEndianness] sets. *)
Record endian_ops : Type := {
  getInt16 : Z -> Z;
  getInt32 : Z -> Z;
  getInt64 : Z -> Z;
  putInt16 : Z -> Z;
  putInt32 : Z -> Z;
  putInt64 : Z -> Z;
  getUnalignedInt16 : list Z -> Z -> res Z;
  getUnalignedInt32 : list Z -> Z -> res Z;
  getUnalignedInt64 : list Z -> Z -> res Z;
  putUnalignedInt16 : list Z -> Z -> Z -> res (list Z);
  putUnalignedInt32 : list Z -> Z -> Z -> res (list Z);
  putUnalignedInt64 : list Z -> Z -> Z -> res (list Z);
}.

Definition initializeEndianness (h : endian) : endian_ops :=
  if isBigEndian h
  then {| getInt16 := getInt16NoSwap; getInt32 := getInt32NoSwap; getInt64 := getInt64NoSwap;
          putInt16 := putInt16NoSwap; putInt32 := putInt32NoSwap; putInt64 := putInt64NoSwap;
          getUnalignedInt16 := getUnalignedInt16Be; getUnalignedInt32 := getUnalignedInt32Be;
          getUnalignedInt64 := getUnalignedInt64Be; putUnalignedInt16 := putUnalignedInt16Be;
          putUnalignedInt32 := putUnalignedInt32Be; putUnalignedInt64 := putUnalignedInt64Be |}
  else {| getInt16 := getInt16Swap; getInt32 := getInt32Swap; getInt64 := getInt64Swap;
          putInt16 := putInt16Swap; putInt32 := putInt32Swap; putInt64 := putInt64Swap;
          getUnalignedInt16 := getUnalignedInt16Le; getUnalignedInt32 := getUnalignedInt32Le;
          getUnalignedInt64 := getUnalignedInt64Le; putUnalignedInt16 := putUnalignedInt16Le;
          putUnalignedInt32 := putUnalignedInt32Le; putUnalignedInt64 := putUnalignedInt64Le |}.

Lemma isBigEndian_eq h : isBigEndian h = match h with LittleEndian => false | BigEndian => true end.
Proof. by destruct h. Qed.

(** ** Network-order values *)

(** Case analysis on a load: the byte, in range, or a fault. *)
Ltac ld_cases b o :=
  let E := fresh "E" in
  let v := fresh "v" in
  destruct (ld_ok_or_fault b o) as [[v E]|E];
  rewrite ?E in *; cbn [mbind res_bind]; try done;
  try match goal with
      | Hb : bytes_ok b |- _ => pose proof (ld_byte b o v Hb E)
      end.

Definition be16 (v : Z) : list Z := [u8 (Z.shiftr v 8); u8 v].
Definition be32 (v : Z) : list Z :=
  [u8 (Z.shiftr v 24); u8 (Z.shiftr v 16); u8 (Z.shiftr v 8); u8 v].

(** Eight bytes in network order. *)
Definition be64 (v : Z) : list Z := be32 (Z.shiftr v 32) ++ be32 v.

Lemma blen_be16 v : blen (be16 v) = 2.
Proof. reflexivity. Qed.
Lemma blen_be32 v : blen (be32 v) = 4.
Proof. reflexivity. Qed.
Lemma blen_be64 v : blen (be64 v) = 8.
Proof. done. Qed.
#[export] Hint Rewrite blen_be16 blen_be32 blen_be64 : blen.

(** The unsigned network-order value at an offset. *)
Definition rd16 (b : list Z) (o : Z) : res Z :=
  b0 ← ld b o; b1 ← ld b (o + 1); Ok (2 ^ 8 * b0 + b1).
Definition rd32 (b : list Z) (o : Z) : res Z :=
  b0 ← ld b o; b1 ← ld b (o + 1); b2 ← ld b (o + 2); b3 ← ld b (o + 3);
  Ok (2 ^ 24 * b0 + 2 ^ 16 * b1 + 2 ^ 8 * b2 + b3).

Definition rd64 (b : list Z) (o : Z) : res Z :=
  hi ← rd32 b o; lo ← rd32 b (o + 4); Ok (2 ^ 32 * hi + lo).

Lemma MAKE_INT16_val a b : is_u8 a -> is_u8 b -> MAKE_INT16 a b = i16 (a + 2 ^ 8 * b).
Proof.
  intros Ha Hb. unfold MAKE_INT16. rewrite !land_255.
  rewrite lor_disjoint_add by width_lia. width_lia.
Qed.

Lemma MAKE_INT32_val a b : MAKE_INT32 a b = i32 (u16 a + 2 ^ 16 * u16 b).
Proof.
  unfold MAKE_INT32. change 0xffff with (Z.ones 16). rewrite !land_mask by lia.
  rewrite lor_disjoint_add by width_lia. width_lia.
Qed.

Lemma MAKE_INT64_val a b : MAKE_INT64 a b = i64 (u32 a + 2 ^ 32 * u32 b).
Proof.
  unfold MAKE_INT64. change 0xffffffff with (Z.ones 32). rewrite !land_mask by lia.
  assert (E : u64 (Z.shiftl (u32 (u64 b mod 2 ^ 32)) 32) = Z.shiftl (u32 b) 32).
  { rewrite !Z.shiftl_mul_pow2 by lia. width_lia. }
  rewrite E, lor_disjoint_add by width_lia. width_lia.
Qed.

Lemma SWAP_INT16_val a b :
  is_u8 a -> is_u8 b -> SWAP_INT16 (a + 256 * b) = i16 (2 ^ 8 * a + b).
Proof.
  intros Ha Hb. unfold SWAP_INT16, HIGH_BYTE, LOW_BYTE.
  rewrite land_255, Z.shiftr_div_pow2 by lia.
  rewrite MAKE_INT16_val by apply u8_range. width_lia.
Qed.

Lemma i16_u16 x : i16 (u16 x) = i16 x.
Proof. width_lia. Qed.
Lemma i32_u32 x : i32 (u32 x) = i32 x.
Proof. width_lia. Qed.
Lemma i16_i16 x : i16 (i16 x) = i16 x.
Proof. width_lia. Qed.
Lemma u8_i16 x : u8 (i16 x) = u8 x.
Proof. width_lia. Qed.
Lemma u16_i16 x : u16 (i16 x) = u16 x.
Proof. width_lia. Qed.
Lemma u32_i32 x : u32 (i32 x) = u32 x.
Proof. width_lia. Qed.

Lemma SWAP_INT32_val a b c d :
  is_u8 a -> is_u8 b -> is_u8 c -> is_u8 d ->
  u32 (SWAP_INT32 (a + 2 ^ 8 * b + 2 ^ 16 * c + 2 ^ 24 * d)) =
  2 ^ 24 * a + 2 ^ 16 * b + 2 ^ 8 * c + d.
Proof.
  intros. unfold SWAP_INT32, HIGH_INT16, LOW_INT16.
  change 0xffff with (Z.ones 16). rewrite !land_mask, Z.shiftr_div_pow2 by lia.
  rewrite MAKE_INT32_val, u32_i32.
  assert (E1 : i16 ((i32 (a + 2 ^ 8 * b + 2 ^ 16 * c + 2 ^ 24 * d) / 2 ^ 16) mod 2 ^ 16) =
               i16 (c + 256 * d)) by width_lia.
  assert (E2 : i16 (a + 2 ^ 8 * b + 2 ^ 16 * c + 2 ^ 24 * d) = i16 (a + 256 * b)) by width_lia.
  rewrite E1, E2.
  assert (SW : forall x, SWAP_INT16 (i16 x) = SWAP_INT16 x).
  { intros x. unfold SWAP_INT16, HIGH_BYTE, LOW_BYTE. by rewrite i16_i16, u8_i16. }
  rewrite !SW, !SWAP_INT16_val by done. width_lia.
Qed.

(** The bytes of a BigEndian store of a value converted to INT16 / INT32. *)
Lemma put16Be_bytes b o v : putUnalignedInt16Be b o (i16 v) = put_bytes b o (be16 v).
Proof.
  unfold putUnalignedInt16Be, be16. rewrite !Z.shiftr_div_pow2 by lia.
  do 2 f_equal; [width_lia|f_equal; width_lia].
Qed.

Lemma put32Be_bytes b o v : putUnalignedInt32Be b o (i32 v) = put_bytes b o (be32 v).
Proof.
  unfold putUnalignedInt32Be, be32. rewrite !Z.shiftr_div_pow2 by lia.
  repeat (f_equal; try width_lia).
Qed.

Lemma u8_div_i64 v n : 0 <= n <= 56 -> u8 (i8 (i64 v / 2 ^ n)) = u8 (v / 2 ^ n).
Proof.
  intros Hn. transitivity (u8 (i64 v / 2 ^ n)); [width_lia|].
  assert (E : i64 v = v + (- ((v + 2 ^ 63) / 2 ^ 64) * 2 ^ (56 - n)) * 2 ^ 8 * 2 ^ n).
  { rewrite <- !Z.mul_assoc, <- !Z.pow_add_r by lia. replace (56 - n + (8 + n)) with 64 by lia.
    unfold i64. pose proof (Z.div_mod (v + 2 ^ 63) (2 ^ 64)). lia. }
  rewrite E, Z.div_add by lia. unfold u8. by rewrite Z.mod_add by lia.
Qed.

Lemma put64Be_bytes b o v : putUnalignedInt64Be b o (i64 v) = put_bytes b o (be64 v).
Proof.
  unfold putUnalignedInt64Be, be64, be32. cbn [app]. rewrite !Z.shiftr_shiftr, !Z.shiftr_div_pow2 by lia.
  cbn [Z.add Pos.add Pos.succ Pos.add_carry].
  rewrite !u8_div_i64 by lia. by replace (u8 (i8 (i64 v))) with (u8 v) by width_lia.
Qed.

Lemma put_seq16_k {A} b o x o' v (k : list Z -> res A) :
  o' = o + blen x ->
  put_bytes b o x ≫= (fun b' => putUnalignedInt16Be b' o' (i16 v) ≫= k) =
  put_bytes b o (x ++ be16 v) ≫= k.
Proof. intros Ho. apply (put_then _ _ _ o'); [done|]. intros. by rewrite put16Be_bytes. Qed.

Lemma put_seq32_k {A} b o x o' v (k : list Z -> res A) :
  o' = o + blen x ->
  put_bytes b o x ≫= (fun b' => putUnalignedInt32Be b' o' (i32 v) ≫= k) =
  put_bytes b o (x ++ be32 v) ≫= k.
Proof. intros Ho. apply (put_then _ _ _ o'); [done|]. intros. by rewrite put32Be_bytes. Qed.

Lemma put_seq64_k {A} b o x o' v (k : list Z -> res A) :
  o' = o + blen x ->
  put_bytes b o x ≫= (fun b' => putUnalignedInt64Be b' o' (i64 v) ≫= k) =
  put_bytes b o (x ++ be64 v) ≫= k.
Proof. intros Ho. apply (put_then _ _ _ o'); [done|]. intros. by rewrite put64Be_bytes. Qed.

(** Collapse the leading store of a writer with the store that follows it. *)
Ltac put_merge :=
  first [ rewrite put_bytes_seq_k by (autorewrite with blen; lia)
        | rewrite put_seq16_k by (autorewrite with blen; lia)
        | rewrite put_seq32_k by (autorewrite with blen; lia)
        | rewrite put_seq64_k by (autorewrite with blen; lia) ].

(** The BigEndian accessors return the network-order value, as a signed one. *)
Lemma get16Be_rd16 b o :
  bytes_ok b -> getUnalignedInt16Be b o = (v ← rd16 b o; Ok (i16 v)).
Proof.
  intros Hb. unfold getUnalignedInt16Be, rd16. ld_cases b o; ld_cases b (o + 1).
  rewrite MAKE_INT16_val by done. by rewrite Z.add_comm.
Qed.

Lemma get32Be_rd32 b o :
  bytes_ok b -> getUnalignedInt32Be b o = (v ← rd32 b o; Ok (i32 v)).
Proof.
  intros Hb. unfold getUnalignedInt32Be, rd32.
  ld_cases b o; ld_cases b (o + 1); ld_cases b (o + 2); ld_cases b (o + 3).
  rewrite !MAKE_INT16_val, MAKE_INT32_val by done. f_equal. width_lia.
Qed.

Lemma get64Be_rd64 b o :
  bytes_ok b -> getUnalignedInt64Be b o = (v ← rd64 b o; Ok (i64 v)).
Proof.
  intros Hb. unfold getUnalignedInt64Be, rd64, rd32.
  replace (o + 4 + 1) with (o + 5) by lia. replace (o + 4 + 2) with (o + 6) by lia.
  replace (o + 4 + 3) with (o + 7) by lia.
  ld_cases b o; ld_cases b (o + 1); ld_cases b (o + 2); ld_cases b (o + 3);
    ld_cases b (o + 4); ld_cases b (o + 5); ld_cases b (o + 6); ld_cases b (o + 7).
  rewrite !MAKE_INT16_val, !MAKE_INT32_val, MAKE_INT64_val by done. f_equal. width_lia.
Qed.

(** After [initializeEndianness], [getInt16] of the UINT16 loaded at a pointer is
    the network-order value of the two bytes there, whatever the host's byte order. *)
Lemma getInt16_native h b o :
  bytes_ok b ->
  (v ← native16 h b o; Ok (u16 (getInt16 (initializeEndianness h) v))) = rd16 b o.
Proof.
  intros Hb. unfold native16, rd16. ld_cases b o; ld_cases b (o + 1).
  unfold initializeEndianness. rewrite isBigEndian_eq. destruct h; cbn [getInt16]; f_equal.
  - unfold getInt16Swap. rewrite SWAP_INT16_val, u16_i16 by done. width_lia.
  - unfold getInt16NoSwap. width_lia.
Qed.

Lemma SWAP_INT16_i16 x : SWAP_INT16 (i16 x) = SWAP_INT16 x.
Proof. unfold SWAP_INT16, HIGH_BYTE, LOW_BYTE. by rewrite i16_i16, u8_i16. Qed.

(** putInt16 of a loaded UINT16 stores the network-order value, too. *)
Lemma putInt16_native h b o v :
  bytes_ok b -> rd16 b o = Ok v ->
  exists n, native16 h b o = Ok n /\ u16 (putInt16 (initializeEndianness h) (i16 n)) = v.
Proof.
  intros Hb Hr. unfold rd16, native16 in *. ld_cases b o; ld_cases b (o + 1). injection Hr as <-.
  eexists. split; [done|]. unfold initializeEndianness. rewrite isBigEndian_eq. destruct h; cbn [putInt16].
  - unfold putInt16Swap. rewrite SWAP_INT16_i16, SWAP_INT16_val, u16_i16 by done. width_lia.
  - unfold putInt16NoSwap. rewrite u16_i16. width_lia.
Qed.

Lemma getInt32_native h b o :
  bytes_ok b ->
  (v ← native32 h b o; Ok (u32 (getInt32 (initializeEndianness h) v))) = rd32 b o.
Proof.
  intros Hb. unfold native32, rd32.
  ld_cases b o; ld_cases b (o + 1); ld_cases b (o + 2); ld_cases b (o + 3).
  unfold initializeEndianness. rewrite isBigEndian_eq. destruct h; cbn [getInt32]; f_equal.
  - unfold getInt32Swap. by apply SWAP_INT32_val.
  - unfold getInt32NoSwap. width_lia.
Qed.

(** The same facts, for a load whose network-order value is known. *)
Lemma native16_rd16 h b o v :
  bytes_ok b -> rd16 b o = Ok v ->
  exists n, native16 h b o = Ok n /\ u16 (getInt16 (initializeEndianness h) n) = v.
Proof.
  intros Hb Hr. rewrite <- (getInt16_native h) in Hr by done.
  apply res_bind_inv in Hr as (n & En & [= <-]). eauto.
Qed.

Lemma native32_rd32 h b o v :
  bytes_ok b -> rd32 b o = Ok v ->
  exists n, native32 h b o = Ok n /\ u32 (getInt32 (initializeEndianness h) n) = v.
Proof.
  intros Hb Hr. rewrite <- (getInt32_native h) in Hr by done.
  apply res_bind_inv in Hr as (n & En & [= <-]). eauto.
Qed.

Lemma native16_cases h b o :
  bytes_ok b ->
  (exists v n, rd16 b o = Ok v /\ native16 h b o = Ok n
               /\ u16 (getInt16 (initializeEndianness h) n) = v)
  \/ (rd16 b o = Fault /\ native16 h b o = Fault).
Proof.
  intros Hb. destruct (rd16 b o) as [v| |] eqn:E.
  - left. destruct (native16_rd16 h b o v Hb E) as (n&?&?). eauto.
  - exfalso. revert E. unfold rd16. ld_cases b o; ld_cases b (o + 1).
  - right. split; [done|]. revert E. unfold rd16, native16. ld_cases b o; ld_cases b (o + 1).
Qed.

Lemma native32_cases h b o :
  bytes_ok b ->
  (exists v n, rd32 b o = Ok v /\ native32 h b o = Ok n
               /\ u32 (getInt32 (initializeEndianness h) n) = v)
  \/ (rd32 b o = Fault /\ native32 h b o = Fault).
Proof.
  intros Hb. destruct (rd32 b o) as [v| |] eqn:E.
  - left. destruct (native32_rd32 h b o v Hb E) as (n&?&?). eauto.
  - exfalso. revert E. unfold rd32.
    ld_cases b o; ld_cases b (o + 1); ld_cases b (o + 2); ld_cases b (o + 3).
  - right. split; [done|]. revert E. unfold rd32, native32.
    ld_cases b o; ld_cases b (o + 1); ld_cases b (o + 2); ld_cases b (o + 3).
Qed.

Lemma rd16_fault b o : 0 <= o -> blen b < o + 2 -> rd16 b o = Fault.
Proof.
  intros. unfold rd16. ld_cases b o. rewrite ld_fault by lia. done.
Qed.

Lemma rd32_fault b o : blen b < o + 4 -> rd32 b o = Fault.
Proof.
  intros. unfold rd32. ld_cases b o; ld_cases b (o + 1); ld_cases b (o + 2).
  by rewrite (ld_fault b (o + 3)) by lia.
Qed.

Lemma rd16_ok_or_fault b o : (exists v, rd16 b o = Ok v) \/ rd16 b o = Fault.
Proof. unfold rd16. ld_cases b o; ld_cases b (o + 1); eauto. Qed.

(** ** Round trips of the encoders and the readers *)

Lemma be16_ok v : bytes_ok (be16 v).
Proof. repeat constructor; apply u8_range. Qed.
Lemma be32_ok v : bytes_ok (be32 v).
Proof. repeat constructor; apply u8_range. Qed.
Lemma be64_ok v : bytes_ok (be64 v).
Proof. apply bytes_ok_app. split; apply be32_ok. Qed.
#[export] Hint Resolve be16_ok be32_ok be64_ok : width.

Lemma rd16_app_r a b k : 0 <= k -> rd16 (a ++ b) (blen a + k) = rd16 b k.
Proof.
  intros. unfold rd16. rewrite <- !Z.add_assoc.
  rewrite (ld_app_off a b k), (ld_app_off a b (k + 1)) by lia. done.
Qed.

Lemma rd32_app_r a b k : 0 <= k -> rd32 (a ++ b) (blen a + k) = rd32 b k.
Proof.
  intros. unfold rd32. rewrite <- !Z.add_assoc.
  rewrite (ld_app_off a b k), (ld_app_off a b (k + 1)), (ld_app_off a b (k + 2)),
    (ld_app_off a b (k + 3)) by lia. done.
Qed.

Lemma rd16_lit x y c : rd16 (x :: y :: c) 0 = Ok (2 ^ 8 * x + y).
Proof. reflexivity. Qed.
Lemma rd32_lit x y z w c :
  rd32 (x :: y :: z :: w :: c) 0 = Ok (2 ^ 24 * x + 2 ^ 16 * y + 2 ^ 8 * z + w).
Proof. reflexivity. Qed.

Lemma rd16_be16 v c : rd16 (be16 v ++ c) 0 = Ok (u16 v).
Proof.
  unfold be16. simpl app. rewrite rd16_lit, Z.shiftr_div_pow2 by lia. f_equal. width_lia.
Qed.

Lemma rd32_be32 v c : rd32 (be32 v ++ c) 0 = Ok (u32 v).
Proof.
  unfold be32. simpl app. rewrite rd32_lit, !Z.shiftr_div_pow2 by lia. f_equal. width_lia.
Qed.

Lemma rd16_app a v c o : o = blen a -> rd16 (a ++ be16 v ++ c) o = Ok (u16 v).
Proof. intros ->. rewrite <- (Z.add_0_r (blen a)), rd16_app_r by lia. apply rd16_be16. Qed.

Lemma rd32_app a v c o : o = blen a -> rd32 (a ++ be32 v ++ c) o = Ok (u32 v).
Proof. intros ->. rewrite <- (Z.add_0_r (blen a)), rd32_app_r by lia. apply rd32_be32. Qed.

Lemma rd64_app a v c o : o = blen a -> rd64 (a ++ be64 v ++ c) o = Ok (u64 v).
Proof.
  intros ->. unfold rd64, be64. rewrite <- (assoc_L (++)), (rd32_app a _ _ (blen a)) by done. cbn [mbind res_bind].
  rewrite (assoc_L (++) a), (rd32_app (a ++ _)) by blen_lia. cbn [mbind res_bind]. rewrite Z.shiftr_div_pow2 by lia. f_equal. width_lia.
Qed.

Lemma rd16_range b o v : bytes_ok b -> rd16 b o = Ok v -> is_u16 v.
Proof.
  intros Hb. unfold rd16. ld_cases b o; ld_cases b (o + 1). intros [= <-]. width_lia.
Qed.

Lemma rd32_range b o v : bytes_ok b -> rd32 b o = Ok v -> is_u32 v.
Proof.
  intros Hb. unfold rd32. ld_cases b o; ld_cases b (o + 1); ld_cases b (o + 2);
  ld_cases b (o + 3). intros [= <-]. width_lia.
Qed.

Lemma rd16_in b o : 0 <= o -> o + 2 <= blen b -> exists v, rd16 b o = Ok v.
Proof.
  intros. destruct (ld_in b o) as (?&E0&_); [lia|]. destruct (ld_in b (o + 1)) as (?&E1&_); [lia|].
  unfold rd16. rewrite E0, E1. eauto.
Qed.

Lemma rd32_in b o : 0 <= o -> o + 4 <= blen b -> exists v, rd32 b o = Ok v.
Proof.
  intros. destruct (ld_in b o) as (?&E0&_); [lia|]. destruct (ld_in b (o + 1)) as (?&E1&_); [lia|].
  destruct (ld_in b (o + 2)) as (?&E2&_); [lia|]. destruct (ld_in b (o + 3)) as (?&E3&_); [lia|].
  unfold rd32. rewrite E0, E1, E2, E3. eauto.
Qed.

Lemma rd32_split b o x y z :
  ld b o = Ok x -> ld b (o + 1) = Ok y -> rd16 b (o + 2) = Ok z ->
  rd32 b o = Ok (2 ^ 24 * x + 2 ^ 16 * y + z).
Proof.
  intros Hx Hy. unfold rd32, rd16. rewrite Hx, Hy. cbn [mbind res_bind].
  replace (o + 2 + 1) with (o + 3) by lia.
  ld_cases b (o + 2). ld_cases b (o + 3). intros [= <-]. f_equal. lia.
Qed.

(** ** Native stores

    What putInt16, putInt32 and putInt64 store is the value in network order, on a host of
    either byte order; a native store followed by a native load is the identity. *)

Lemma u8_u32 v n : 0 <= n <= 24 -> u8 (Z.shiftr (u32 v) n) = u8 (Z.shiftr v n).
Proof.
  intros. rewrite !Z.shiftr_div_pow2 by lia. unfold u8, u32.
  replace 32 with (n + (32 - n)) by lia. rewrite Z.pow_add_r by lia.
  rewrite Z.rem_mul_r by lia. rewrite (Z.mul_comm (2 ^ n)), Z.div_add by lia.
  rewrite (Z.div_small (v mod 2 ^ n)) by (apply Z.mod_pos_bound; lia).
  replace (32 - n) with (8 + (24 - n)) by lia. rewrite (Z.pow_add_r 2 8) by lia.
  rewrite Z.rem_mul_r by lia. rewrite Z.add_0_l, (Z.mul_comm (2 ^ 8)), Z.mod_add, Z.mod_mod by lia. done.
Qed.

Lemma native_bytes32_u32 h v : native_bytes32 h (u32 v) = native_bytes32 h v.
Proof.
  unfold native_bytes32. rewrite !u8_u32 by lia.
  replace (u8 (u32 v)) with (u8 v) by width_lia. done.
Qed.

Lemma native_bytes32_be v : native_bytes32 BigEndian v = be32 v.
Proof. reflexivity. Qed.

Lemma be32_u32 v : be32 (u32 v) = be32 v.
Proof. rewrite <- !native_bytes32_be. apply native_bytes32_u32. Qed.

Lemma be16_u16 v : be16 (u16 v) = be16 v.
Proof.
  unfold be16. rewrite !Z.shiftr_div_pow2 by lia. unfold u8, u16. change (2 ^ 16) with (2 ^ 8 * 2 ^ 8).
  rewrite Z.rem_mul_r, (Z.mul_comm (2 ^ 8) (_ mod _)), Z.div_add, Z.mod_add by lia.
  rewrite (Z.div_small (v mod 2 ^ 8)) by (apply Z.mod_pos_bound; lia). rewrite Z.add_0_l, !Z.mod_mod by lia. done.
Qed.

(** A UINT32 is the sum of its bytes. *)
Lemma u32_bytes v :
  u32 v = u8 v + 2 ^ 8 * u8 (v / 2 ^ 8) + 2 ^ 16 * u8 (v / 2 ^ 16) + 2 ^ 24 * u8 (v / 2 ^ 24).
Proof.
  change (2 ^ 24) with (2 ^ 8 * 2 ^ 8 * 2 ^ 8). change (2 ^ 16) with (2 ^ 8 * 2 ^ 8).
  rewrite <- !Z.div_div by lia. unfold u32, u8.
  change (2 ^ 32) with (2 ^ 8 * (2 ^ 8 * (2 ^ 8 * 2 ^ 8))). rewrite !Z.rem_mul_r by lia. ring.
Qed.

(** The little-endian bytes of a swapped value are its bytes in network order. *)
Lemma SWAP_INT32_bytes v : native_bytes32 LittleEndian (SWAP_INT32 v) = be32 v.
Proof.
  rewrite <- (native_bytes32_u32 _ (SWAP_INT32 v)).
  set (a := u8 v). set (b := u8 (Z.shiftr v 8)). set (c := u8 (Z.shiftr v 16)). set (d := u8 (Z.shiftr v 24)).
  assert (Hv : SWAP_INT32 v = SWAP_INT32 (a + 2 ^ 8 * b + 2 ^ 16 * c + 2 ^ 24 * d)).
  { assert (E : u32 v = a + 2 ^ 8 * b + 2 ^ 16 * c + 2 ^ 24 * d)
      by (subst a b c d; rewrite !Z.shiftr_div_pow2 by lia; apply u32_bytes).
    rewrite <- E. unfold SWAP_INT32. f_equal; f_equal.
    - unfold HIGH_INT16. by rewrite i32_u32.
    - unfold LOW_INT16. width_lia. }
  rewrite Hv, (SWAP_INT32_val a b c d) by apply u8_range.
  unfold native_bytes32, be32. fold a b c d.
  assert (is_u8 a /\ is_u8 b /\ is_u8 c /\ is_u8 d) as (Ha & Hb & Hc & Hd) by (split_and!; apply u8_range).
  clearbody a b c d. clear Hv. repeat f_equal; rewrite ?Z.shiftr_div_pow2 by lia; width_lia.
Qed.

Lemma putInt16_bytes h v : native_bytes16 h (putInt16 (initializeEndianness h) v) = be16 v.
Proof.
  unfold initializeEndianness, native_bytes16, be16. rewrite isBigEndian_eq. destruct h; [|done].
  cbn [putInt16]. unfold putInt16Swap, SWAP_INT16, HIGH_BYTE, LOW_BYTE.
  rewrite MAKE_INT16_val by apply u8_range. rewrite land_255.
  assert (E : u8 (Z.shiftr (i16 v) 8 mod 2 ^ 8) = u8 (Z.shiftr v 8))
    by (rewrite !Z.shiftr_div_pow2 by lia; width_lia).
  change 256 with (2 ^ 8). rewrite E. set (a := u8 (Z.shiftr v 8)). set (b := u8 v).
  assert (is_u8 a /\ is_u8 b) as [Ha Hb] by (split; apply u8_range).
  clearbody a b. clear E. repeat f_equal; rewrite ?Z.shiftr_div_pow2 by lia; width_lia.
Qed.

Lemma putInt32_bytes h v : native_bytes32 h (putInt32 (initializeEndianness h) v) = be32 v.
Proof.
  unfold initializeEndianness. rewrite isBigEndian_eq. destruct h; [|done]. apply SWAP_INT32_bytes.
Qed.

Lemma putInt64_bytes h v : native_bytes64 h (putInt64 (initializeEndianness h) v) = be64 v.
Proof.
  unfold initializeEndianness. rewrite isBigEndian_eq. destruct h; [|done].
  cbn [putInt64]. unfold putInt64Swap, SWAP_INT64, native_bytes64, be64. rewrite MAKE_INT64_val.
  set (a := SWAP_INT32 (HIGH_INT32 v)). set (b := SWAP_INT32 (LOW_INT32 v)).
  rewrite <- (native_bytes32_u32 _ (i64 _)), <- (native_bytes32_u32 _ (Z.shiftr _ _)).
  replace (u32 (i64 (u32 a + 2 ^ 32 * u32 b))) with (u32 a) by width_lia.
  replace (u32 (Z.shiftr (i64 (u32 a + 2 ^ 32 * u32 b)) 32)) with (u32 b)
    by (rewrite Z.shiftr_div_pow2 by lia; width_lia).
  rewrite !native_bytes32_u32. subst a b. rewrite !SWAP_INT32_bytes.
  unfold HIGH_INT32, LOW_INT32. rewrite <- (be32_u32 (i32 _)), <- (be32_u32 (i32 v)), !u32_i32, !be32_u32.
  f_equal. rewrite <- be32_u32, <- (be32_u32 (Z.shiftr v 32)). f_equal.
  change 0xffffffff with (Z.ones 32). rewrite Z.land_ones, !Z.shiftr_div_pow2 by lia. width_lia.
Qed.

(** From here on the encodings are used through their lemmas. *)
#[global] Opaque be16 be32 be64.
