(* ===== verification/Double.v ===== *)
(** * The DOUBLE of the code: binary64 arithmetic

    The operations are those of [SpecFloat] with a mantissa of 53 bits and exponents below
    1024, rounding to nearest even.  The theorems bound what rounding can add: a result is at
    most the exact one times 1 + 2^-52, as long as the exponents stay in the normal range. *)

From Stdlib Require Import SpecFloat QArith Qpower Lqa.
From S2P Require Import Prelude.

#[local] Open Scope Z_scope.

Definition DOUBLE : Type := spec_float.
Definition dbl (n : Z) : DOUBLE := binary_normalize 53 1024 n 0 false.
Definition dmul : DOUBLE -> DOUBLE -> DOUBLE := SFmul 53 1024.
Definition ddiv : DOUBLE -> DOUBLE -> DOUBLE := SFdiv 53 1024.
Definition dadd : DOUBLE -> DOUBLE -> DOUBLE := SFadd 53 1024.
Definition dlt : DOUBLE -> DOUBLE -> bool := SFltb.

(** The value without its fraction; [None] for infinities and NaN. *)
Definition dtrunc (d : DOUBLE) : option Z :=
  match d with
  | S754_zero _ => Some 0
  | S754_finite s m e => Some (if s then - Z.shiftl (Zpos m) e else Z.shiftl (Zpos m) e)
  | _ => None
  end.

(** ** Values *)

Definition two (e : Z) : Q := (2 # 1) ^ e.
Definition val (m e : Z) : Q := (inject_Z m * two e)%Q.

(** The value of a finite number; 0 for infinities and NaN. *)
Definition dval (d : DOUBLE) : Q :=
  match d with
  | S754_finite s m e => val (if s then Zneg m else Zpos m) e
  | _ => 0%Q
  end.

(** What one rounding can add: the factor 1 + 2^-52. *)
Definition rounding : Q := 4503599627370497 # 4503599627370496.

Lemma two_pos e : (0 < two e)%Q.
Proof. by apply Qpower_0_lt. Qed.

Lemma two_plus a b : (two (a + b) == two a * two b)%Q.
Proof. by apply Qpower_plus. Qed.

Lemma two_nat n : 0 <= n -> (two n == inject_Z (2 ^ n))%Q.
Proof. intros Hn. symmetry. exact (Zpower_Qpower 2 n Hn). Qed.

Lemma two_opp e : (two e * two (- e) == 1)%Q.
Proof. rewrite <- two_plus. by rewrite Z.add_opp_diag_r. Qed.

Lemma two_le a b : a <= b -> (two a <= two b)%Q.
Proof.
  intros H. replace b with (a + (b - a)) by lia. rewrite two_plus, (two_nat (b - a)) by lia.
  pose proof (two_pos a). assert (1 <= inject_Z (2 ^ (b - a)))%Q.
  { change 1%Q with (inject_Z 1). rewrite <- Zle_Qle. pose proof (Z.pow_pos_nonneg 2 (b - a)). lia. }
  nra.
Qed.

Lemma val_le m n e : m <= n -> (val m e <= val n e)%Q.
Proof. intros H. unfold val. apply Qmult_le_compat_r; [by rewrite <- Zle_Qle|]. apply Qlt_le_weak, two_pos. Qed.

Lemma val_plus m n e : (val (m + n) e == val m e + val n e)%Q.
Proof. unfold val. rewrite inject_Z_plus. ring. Qed.

Lemma val_scale m e n : 0 <= n -> (val (m * 2 ^ n) e == val m (e + n))%Q.
Proof. intros Hn. unfold val. rewrite two_plus, (two_nat n) by done. rewrite inject_Z_mult. ring. Qed.

Lemma val_mul m e m' e' : (val (m * m') (e + e') == val m e * val m' e')%Q.
Proof. unfold val. rewrite two_plus, inject_Z_mult. ring. Qed.

Lemma val_nonneg m e : 0 <= m -> (0 <= val m e)%Q.
Proof. intros H. pose proof (val_le 0 m e H) as Hv. unfold val at 1 in Hv. change (inject_Z 0) with 0%Q in Hv. lra. Qed.

(** Shifting right only takes away. *)
Lemma val_shiftr m e n : 0 <= n -> (val (m / 2 ^ n) (e + n) <= val m e)%Q.
Proof.
  intros Hn. rewrite <- val_scale by done. apply val_le. pose proof (Z.pow_pos_nonneg 2 n).
  pose proof (Z.mul_div_le m (2 ^ n)). lia.
Qed.

(** ** Rounding *)

Lemma digits_spec p : 2 ^ (Zpos (digits2_pos p) - 1) <= Zpos p < 2 ^ Zpos (digits2_pos p).
Proof.
  induction p as [p IH|p IH|]; cbn [digits2_pos]; [| |done];
    rewrite Pos2Z.inj_succ; set (d := Zpos (digits2_pos p)) in *; assert (0 < d) by done;
    replace (Z.succ d - 1) with (Z.succ (d - 1)) by lia; rewrite !Z.pow_succ_r by lia; lia.
Qed.

Lemma shr_1_m r : 0 <= shr_m r -> shr_m (shr_1 r) = shr_m r / 2.
Proof.
  destruct r as [m r s]. cbn [shr_m]. intros Hm. destruct m as [|[p|p|]|p]; try done; cbn [shr_1 shr_m].
  - by rewrite Pos2Z.inj_xI, Z.mul_comm, Z.div_add_l.
  - by rewrite Pos2Z.inj_xO, Z.mul_comm, Z.div_mul.
Qed.

Lemma iter_shr n r : 0 <= shr_m r -> shr_m (SpecFloat.iter_pos shr_1 n r) = shr_m r / 2 ^ Zpos n.
Proof.
  revert r. induction n as [n IH|n IH|]; intros r Hr; cbn [SpecFloat.iter_pos].
  - assert (H1 : 0 <= shr_m (shr_1 r)) by (rewrite shr_1_m by done; apply Z.div_pos; lia).
    assert (H2 : 0 <= shr_m (SpecFloat.iter_pos shr_1 n (shr_1 r))) by (rewrite IH by done; apply Z.div_pos; lia).
    rewrite !IH, shr_1_m by done. rewrite !Z.div_div by lia. f_equal.
    replace (Zpos n~1) with (1 + Zpos n + Zpos n) by lia. rewrite !Z.pow_add_r by lia. lia.
  - assert (H2 : 0 <= shr_m (SpecFloat.iter_pos shr_1 n r)) by (rewrite IH by done; apply Z.div_pos; lia).
    rewrite !IH by done. rewrite Z.div_div by lia. f_equal.
    replace (Zpos n~0) with (Zpos n + Zpos n) by lia. by rewrite Z.pow_add_r by lia.
  - by rewrite shr_1_m.
Qed.

(** The mantissa and exponent of [shr_fexp]. *)
Lemma shr_fexp_spec m e l :
  0 <= m ->
  let n := Z.max 0 (fexp 53 1024 (Zdigits2 m + e) - e) in
  let '(r, e') := shr_fexp 53 1024 m e l in
  e' = e + n /\ shr_m r = m / 2 ^ n /\ (n = 0 -> loc_of_shr_record r = l).
Proof.
  intros Hm n. unfold shr_fexp, n.
  assert (Hr : shr_m (shr_record_of_loc m l) = m /\ loc_of_shr_record (shr_record_of_loc m l) = l)
    by (destruct l as [|[]]; done).
  destruct Hr as [Hr Hl]. destruct (_ - e) as [|k|k] eqn:Ek; cbn [shr].
  - rewrite Z.max_id, Z.add_0_r, Z.pow_0_r, Z.div_1_r. done.
  - rewrite iter_shr, Hr by (by rewrite Hr). rewrite Z.max_r by lia. split_and!; [done|done|lia].
  - rewrite Z.max_l, Z.add_0_r, Z.pow_0_r, Z.div_1_r by lia. done.
Qed.

(** [d] is 0, or positive and at most [b], with an exponent from [k] on. *)
Definition at_most (d : DOUBLE) (k : Z) (b : Q) : Prop :=
  match d with
  | S754_zero _ => (0 <= b)%Q
  | S754_finite false m e => k <= e /\ (val (Zpos m) e <= b)%Q
  | _ => False
  end.

Lemma at_most_le d k b k' b' : at_most d k b -> k' <= k -> (b <= b')%Q -> at_most d k' b'.
Proof. destruct d as [s|s| |[] m e]; cbn; try done; [intros; lra|intros [? ?] ? ?; split; [lia|lra]]. Qed.

Lemma at_most_nonneg d k b : at_most d k b -> (0 <= b)%Q.
Proof.
  destruct d as [s|s| |[] m e]; cbn [at_most]; try done. intros [_ Hb]. pose proof (val_nonneg (Zpos m) e ltac:(lia)). lra.
Qed.

Lemma rounding_ge : (1 <= rounding)%Q.
Proof. unfold rounding. lra. Qed.

Lemma rounding_up x : (0 <= x -> x <= x * rounding)%Q.
Proof. intros Hx. unfold rounding. lra. Qed.

Lemma round_nearest_le m l : m <= round_nearest_even m l <= m + 1 /\ (l = loc_Exact -> round_nearest_even m l = m).
Proof. destruct l as [|[]]; cbn [round_nearest_even]; [|destruct (Z.even m)|..]; split; try done; lia. Qed.

(** The rounded mantissa is at most the exact value and one unit of its last place. *)
Lemma round_bound m e l :
  0 < m -> -1021 <= e -> l = loc_Exact \/ 2 ^ 52 <= m ->
  let '(r, e') := shr_fexp 53 1024 m e l in
  0 <= round_nearest_even (shr_m r) (loc_of_shr_record r) /\ e <= e' /\
  (val (round_nearest_even (shr_m r) (loc_of_shr_record r)) e' <= val m e * rounding)%Q.
Proof.
  intros Hm He Hl. pose proof (shr_fexp_spec m e l (Z.lt_le_incl _ _ Hm)) as Hs. cbv zeta in Hs.
  set (n := Z.max 0 _) in Hs. destruct (shr_fexp 53 1024 m e l) as [r e']. destruct Hs as (-> & Er & El).
  assert (Hn : 0 <= n) by lia. assert (Hdiv : 0 <= m / 2 ^ n) by (apply Z.div_pos; lia).
  destruct (round_nearest_le (shr_m r) (loc_of_shr_record r)) as [Hr He0]. rewrite Er in *.
  set (m2 := round_nearest_even _ _) in *. split; [lia|]. split; [lia|].
  pose proof (val_shiftr m e n Hn) as Hsh. pose proof rounding_ge. pose proof (val_nonneg m e ltac:(lia)).
  assert (Hcase : loc_of_shr_record r = loc_Exact \/ 2 ^ (n + 52) <= m).
  { destruct (Z.eq_dec n 0) as [E|E].
    - destruct Hl as [->|Hl]; [left; by apply El|right]. rewrite E. lia.
    - right. destruct m as [|p|p]; try done. pose proof (digits_spec p) as [Hd _]. etrans; [|exact Hd].
      apply Z.pow_le_mono_r; [lia|]. unfold n, fexp, emin in *. cbn [Zdigits2] in *. lia. }
  destruct Hcase as [E|Hbig].
  - rewrite (He0 E). pose proof (rounding_up (val m e) ltac:(lra)). lra.
  - eapply Qle_trans; [apply (val_le m2 (m / 2 ^ n + 1)); lia|]. rewrite val_plus.
    assert (Hu : (val 1 (e + n) * inject_Z (2 ^ 52) <= val m e)%Q).
    { eapply Qle_trans; [|exact (val_le _ _ e Hbig)]. unfold val.
      rewrite <- (two_nat (n + 52) ltac:(lia)), <- (two_nat 52 ltac:(lia)), !two_plus. change (inject_Z 1) with 1%Q. apply Qle_lteq. right. ring. }
    unfold rounding. change (inject_Z (2 ^ 52)) with (4503599627370496 # 1)%Q in Hu. lra.
Qed.

Lemma binary_round_aux_bound m e l :
  0 < m -> -1021 <= e -> l = loc_Exact \/ 2 ^ 52 <= m -> (val m e * rounding < two 900)%Q ->
  at_most (binary_round_aux 53 1024 false m e l) e (val m e * rounding).
Proof.
  intros Hm He Hl Hmax. pose proof (round_bound m e l Hm He Hl) as Hb. unfold binary_round_aux.
  destruct (shr_fexp 53 1024 m e l) as [r e1]. destruct Hb as (H0 & H1 & Hv).
  set (m2 := round_nearest_even _ _) in *. pose proof (shr_fexp_spec m2 e1 loc_Exact H0) as Hs. cbv zeta in Hs.
  set (n := Z.max 0 _) in Hs. destruct (shr_fexp 53 1024 m2 e1 loc_Exact) as [r2 e2]. destruct Hs as (-> & Er & _).
  assert (Hsh : (val (m2 / 2 ^ n) (e1 + n) <= val m e * rounding)%Q).
  { eapply Qle_trans; [apply val_shiftr; lia|exact Hv]. }
  assert (Hdiv : 0 <= m2 / 2 ^ n) by (apply Z.div_pos; lia). rewrite Er.
  destruct (m2 / 2 ^ n) as [|p|p] eqn:Ep; [|clear Ep|done].
  - cbn [at_most]. pose proof (val_nonneg 0 (e1 + n) ltac:(lia)). lra.
  - destruct (Z.leb_spec (e1 + n) (1024 - 53)) as [Hle|Hgt]; cbn [at_most]; [split; [lia|done]|].
    exfalso. assert (Hb : (two 900 <= val (Zpos p) (e1 + n))%Q); [|lra].
    eapply Qle_trans; [|apply (val_le 1); lia]. unfold val. change (inject_Z 1) with 1%Q. rewrite Qmult_1_l. apply two_le. lia.
Qed.

(** ** The operations *)

Lemma dmul_bound x y kx ky bx b_y :
  at_most x kx bx -> at_most y ky b_y -> -1021 <= kx + ky -> (bx * b_y * rounding < two 900)%Q ->
  at_most (dmul x y) (kx + ky) (bx * b_y * rounding).
Proof.
  intros Hx Hy Hk Hmax. pose proof rounding_ge.
  pose proof (at_most_nonneg _ _ _ Hx). pose proof (at_most_nonneg _ _ _ Hy).
  assert (0 <= bx * b_y)%Q by nra. pose proof (rounding_up (bx * b_y)%Q ltac:(lra)).
  destruct x as [s|s| |[] m e], y as [s'|s'| |[] m' e']; try done; unfold dmul; cbn [SFmul xorb];
    [cbn [at_most]; lra..|]. cbn [at_most] in Hx, Hy. destruct Hx as [Hx1 Hx2], Hy as [Hy1 Hy2].
  assert (Hle : (val (Zpos (m * m')) (e + e') * rounding <= bx * b_y * rounding)%Q).
  { apply Qmult_le_compat_r; [|lra]. rewrite Pos2Z.inj_mul, val_mul.
    pose proof (val_nonneg (Zpos m) e ltac:(lia)). pose proof (val_nonneg (Zpos m') e' ltac:(lia)). nra. }
  eapply at_most_le; [apply binary_round_aux_bound; [lia|lia|by left|lra]|lia|exact Hle].
Qed.

(** The quotient of the mantissas has at least 53 digits. *)
Lemma div_core_spec m e m2 e2 :
  let d := Zpos (digits2_pos m2) in
  let k := e - e2 - d - 52 in
  -1021 <= k ->
  let '(q, e', _) := SFdiv_core_binary 53 1024 (Zpos m) e (Zpos m2) e2 in
  2 ^ 52 <= q /\ k <= e' /\ (val q e' * val (Zpos m2) e2 <= val (Zpos m) e)%Q.
Proof.
  intros d k Hk. pose proof (digits_spec m) as [Hm _]. pose proof (digits_spec m2) as [_ Hm2]. fold d in Hm2.
  unfold SFdiv_core_binary. cbn [Zdigits2]. fold d. set (d1 := Zpos (digits2_pos m)) in *. assert (0 < d1) by done.
  assert (0 < d) by done. set (e' := Z.min _ _). assert (He' : e' = Z.min (d1 + e - (d + e2) - 53) (e - e2)).
  { unfold e', fexp, emin, k in *. lia. }
  clearbody e'. set (s := e - e2 - e'). assert (Hs : 0 <= s) by lia.
  replace (match s with 0 => Zpos m | Zpos _ => Z.shiftl (Zpos m) s | Zneg _ => 0 end) with (Zpos m * 2 ^ s).
  2:{ destruct s; [lia|by rewrite Z.shiftl_mul_pow2|lia]. }
  set (m' := Zpos m * 2 ^ s). destruct (Z.div_eucl m' (Zpos m2)) as [q r] eqn:Eq.
  assert (q = m' / Zpos m2) as -> by (unfold Z.div; by rewrite Eq). clear Eq.
  split_and!; [|lia|].
  - apply Z.div_le_lower_bound; [lia|]. assert (2 ^ (d1 - 1) * 2 ^ s <= m') by (unfold m'; nia).
    assert (Zpos m2 * 2 ^ 52 <= 2 ^ d * 2 ^ 52) by lia.
    assert (2 ^ d * 2 ^ 52 <= 2 ^ (d1 - 1) * 2 ^ s); [|lia].
    rewrite <- !Z.pow_add_r by lia. apply Z.pow_le_mono_r; lia.
  - rewrite <- val_mul. replace e with (e' + e2 + s) by lia. rewrite <- (val_scale (Zpos m) (e' + e2) s Hs). fold m'.
    apply val_le. pose proof (Z.mul_div_le m' (Zpos m2)). lia.
Qed.

Lemma ddiv_bound x kx bx m2 e2 :
  let k := kx - e2 - Zpos (digits2_pos m2) - 52 in
  at_most x kx bx -> -1021 <= k -> (bx / val (Zpos m2) e2 * rounding < two 900)%Q ->
  at_most (ddiv x (S754_finite false m2 e2)) k (bx / val (Zpos m2) e2 * rounding).
Proof.
  intros k Hx Hk Hmax. pose proof (at_most_nonneg _ _ _ Hx) as H0.
  assert (Hv : (0 < val (Zpos m2) e2)%Q).
  { unfold val. pose proof (two_pos e2). assert (0 < inject_Z (Zpos m2))%Q by done. nra. }
  assert (Hq : (0 <= bx / val (Zpos m2) e2)%Q) by (apply Qle_shift_div_l; lra).
  pose proof (rounding_up _ Hq). destruct x as [s|s| |[] m e]; try done; unfold ddiv; cbn [SFdiv xorb]; [cbn [at_most]; lra|].
  cbn [at_most] in Hx. destruct Hx as [Hx1 Hx2]. pose proof (div_core_spec m e m2 e2) as Hd. cbv zeta in Hd.
  destruct (SFdiv_core_binary 53 1024 (Zpos m) e (Zpos m2) e2) as [[q e'] l]. destruct Hd as (Hq52 & He' & Hle); [lia|].
  assert (Hb : (val q e' * rounding <= bx / val (Zpos m2) e2 * rounding)%Q).
  { apply Qmult_le_compat_r; [|pose proof rounding_ge; lra]. apply Qle_shift_div_l; [done|lra]. }
  eapply at_most_le; [apply binary_round_aux_bound; [lia|lia|by right|lra]|lia|exact Hb].
Qed.

(** The two bounds, with the result in the form that the client wants. *)
Lemma dmul_le x y kx ky bx b_y b :
  at_most x kx bx -> at_most y ky b_y -> -1021 <= kx + ky -> (bx * b_y * rounding <= b)%Q -> (b < two 900)%Q ->
  at_most (dmul x y) (kx + ky) b.
Proof. intros Hx Hy Hk Hb Hmax. eapply at_most_le; [apply (dmul_bound x y kx ky bx b_y); try done; lra|done|done]. Qed.

Lemma ddiv_le x kx bx m2 e2 v b :
  let k := kx - e2 - Zpos (digits2_pos m2) - 52 in
  at_most x kx bx -> -1021 <= k -> (val (Zpos m2) e2 == v)%Q -> (bx / v * rounding <= b)%Q -> (b < two 900)%Q ->
  at_most (ddiv x (S754_finite false m2 e2)) k b.
Proof.
  intros k Hx Hk Hv Hb Hmax. assert (Hb' : (bx / val (Zpos m2) e2 * rounding <= b)%Q) by (by rewrite Hv).
  eapply at_most_le; [apply (ddiv_bound x kx bx m2 e2); try done; lra|done|done].
Qed.

(** The conversion of an unsigned integer. *)
Lemma dbl_bound n : 0 <= n < 2 ^ 64 -> at_most (dbl n) (-52) (inject_Z n * rounding).
Proof.
  intros [H0 H1]. destruct n as [|p|p]; [by cbn|clear H0|done]. unfold dbl, binary_normalize, binary_round.
  pose proof (digits_spec p) as [Hd _]. set (d := digits2_pos p) in *.
  set (mz := shl_align p 0 (fexp 53 1024 (Zpos d + 0))).
  assert (Hz : -52 <= mz.2 /\ (val (Zpos mz.1) mz.2 == inject_Z (Zpos p))%Q).
  { unfold mz, shl_align. rewrite Z.sub_0_r. assert (Hf : fexp 53 1024 (Zpos d + 0) = Zpos d - 53) by (unfold fexp, emin; lia).
    assert (H00 : (val (Zpos p) 0 == inject_Z (Zpos p))%Q) by (unfold val, two; change ((2 # 1) ^ 0)%Q with 1%Q; ring).
    rewrite Hf. destruct (Zpos d - 53) as [|k|k] eqn:Ek; cbn [fst snd]; [split; [lia|done]..|]. split; [lia|].
    pose proof (val_scale (Zpos p) (Zneg k) (Zpos k) ltac:(lia)) as E. rewrite Z.add_comm, Z.add_opp_diag_r in E.
    replace (Zpos (Pos.iter xO p k)) with (Zpos p * 2 ^ Zpos k); [by rewrite E|].
    rewrite <- Z.shiftl_mul_pow2 by lia. symmetry. by apply (Pos.iter_swap_gen _ _ Zpos xO (Z.mul 2)). }
  clearbody mz. destruct mz as [m e]. cbn [fst snd] in Hz. destruct Hz as [He Hv].
  assert (Hb : (val (Zpos m) e * rounding <= inject_Z (Zpos p) * rounding)%Q) by (rewrite Hv; lra).
  eapply at_most_le; [apply binary_round_aux_bound; [lia|lia|by left|]|lia|exact Hb].
  eapply Qle_lt_trans; [exact Hb|]. assert (inject_Z (Zpos p) <= inject_Z (2 ^ 64))%Q by (rewrite <- Zle_Qle; lia).
  rewrite <- (two_nat 64 ltac:(lia)) in *. eapply Qle_lt_trans; [|apply (Qlt_le_trans _ (two 66)); [|apply two_le; lia]].
  - instantiate (1 := (two 64 * rounding)%Q). unfold rounding. lra.
  - unfold rounding. pose proof (two_pos 64). replace 66 with (64 + 2) by lia. rewrite two_plus.
    change (two 2) with (4 # 1)%Q. lra.
Qed.

(** Truncation. *)
Lemma dtrunc_bound d k b :
  at_most d k b -> exists z, dtrunc d = Some z /\ 0 <= z /\ (inject_Z z <= b)%Q.
Proof.
  destruct d as [s|s| |[] m e]; cbn [at_most dtrunc]; try done; [intros; by exists 0|]. intros [_ Hb].
  eexists. split; [done|]. split; [apply Z.shiftl_nonneg; lia|]. eapply Qle_trans; [|exact Hb].
  assert (H0 : forall m, (val m 0 == inject_Z m)%Q) by (intros; unfold val, two; change ((2 # 1) ^ 0)%Q with 1%Q; ring).
  rewrite <- H0. destruct (Z.le_ge_cases 0 e).
  - rewrite Z.shiftl_mul_pow2 by done. rewrite (val_scale (Zpos m) 0 e) by done. rewrite Z.add_0_l. lra.
  - rewrite Z.shiftl_div_pow2 by done. pose proof (val_shiftr (Zpos m) e (- e) ltac:(lia)) as Hs.
    by rewrite Z.add_opp_diag_r in Hs.
Qed.
