(* ===== verification/RtpPacket.v ===== *)
(** * RTP packets (src/source/Rtp/RtpPacket.c, RtpPacket.h)

    Parsing, serialisation, RTX re-wrapping and packetisation.  A packet's
    pointer fields are pointers into byte objects; a received packet aliases the
    buffer it was parsed from.  [h] is the byte order of the host: the parser
    reads multi-byte fields with native loads that [getInt16]/[getInt32] swap,
    and the serialiser reads the CSRC array with native loads. *)

From S2P Require Import Prelude Endian.

(** ** Data *)

Definition MIN_HEADER_LENGTH : Z := 12.
Definition VERSION_SHIFT : Z := 6.
Definition VERSION_MASK : Z := 0x3.
Definition PADDING_SHIFT : Z := 5.
Definition PADDING_MASK : Z := 0x1.
Definition EXTENSION_SHIFT : Z := 4.
Definition EXTENSION_MASK : Z := 0x1.
Definition CSRC_COUNT_MASK : Z := 0xF.
Definition MARKER_SHIFT : Z := 7.
Definition MARKER_MASK : Z := 0x1.
Definition PAYLOAD_TYPE_MASK : Z := 0x7F.
Definition SEQ_NUMBER_OFFSET : Z := 2.
Definition TIMESTAMP_OFFSET : Z := 4.
Definition SSRC_OFFSET : Z := 8.
Definition CSRC_OFFSET : Z := 12.
Definition CSRC_LENGTH : Z := 4.

Set Primitive Projections.
Record RtpPacketHeader : Type := {
  version : Z;
  padding : bool;
  extension : bool;
  marker : bool;
  csrcCount : Z;
  payloadType : Z;
  sequenceNumber : Z;
  timestamp : Z;
  ssrc : Z;
  csrcArray : option ptr;
  extensionProfile : Z;
  extensionPayload : option ptr;
  extensionLength : Z;
}.

Record RtpPacket : Type := {
  header : RtpPacketHeader;
  payload : option ptr;
  payloadLength : Z;
  pRawPacket : option (list Z);
  rawPacketLength : Z;
  receivedTime : Z;
  sentTime : Z;
  isSynthetic : bool;
}.
Unset Primitive Projections.

#[export] Instance upd_padding : Update padding. Proof. derive_update. Defined.
#[export] Instance upd_payloadType : Update payloadType. Proof. derive_update. Defined.
#[export] Instance upd_sequenceNumber : Update sequenceNumber. Proof. derive_update. Defined.
#[export] Instance upd_ssrc : Update ssrc. Proof. derive_update. Defined.
#[export] Instance upd_header : Update header. Proof. derive_update. Defined.
#[export] Instance upd_payload : Update payload. Proof. derive_update. Defined.
#[export] Instance upd_payloadLength : Update payloadLength. Proof. derive_update. Defined.
#[export] Instance upd_pRawPacket : Update pRawPacket. Proof. derive_update. Defined.
#[export] Instance upd_rawPacketLength : Update rawPacketLength. Proof. derive_update. Defined.
#[export] Instance upd_sentTime : Update sentTime. Proof. derive_update. Defined.

(** RTP_HEADER_LEN, RTP_GET_RAW_PACKET_SIZE and GET_UINT16_SEQ_NUM. *)
Definition RTP_HEADER_LEN (p : RtpPacket) : Z :=
  12 + csrcCount (header p) * CSRC_LENGTH
     +32 (if extension (header p) then 4 +32 extensionLength (header p) else 0).
Definition RTP_GET_RAW_PACKET_SIZE (p : RtpPacket) : Z := RTP_HEADER_LEN p +32 payloadLength p.
Definition GET_UINT16_SEQ_NUM (seqIndex : Z) : Z := u16 (seqIndex mod (MAX_UINT16 + 1)).

(** ** setRtpPacket

    [p] is the object behind [pRtpPacket]; a [None] models the NULL pointer. *)
Definition setRtpPacket (ver : Z) (pad ext : bool) (cc : Z) (mk : bool) (pt seq ts ss : Z)
    (csrcs : option ptr) (extProfile extLen : Z) (extPayload : option ptr)
    (pl : option ptr) (plLen : Z) (p : option RtpPacket) : res RtpPacket :=
  match p with
  | None => Err STATUS_NULL_ARG
  | Some p =>
      CHK negb ext || bool_decide (is_Some extPayload) else STATUS_NULL_ARG ;;
      Ok {| header := {| version := ver; padding := pad; extension := ext; marker := mk;
                         csrcCount := cc; payloadType := pt; sequenceNumber := seq;
                         timestamp := ts; ssrc := ss; csrcArray := csrcs;
                         extensionProfile := if ext then extProfile else 0;
                         extensionPayload := if ext then extPayload else None;
                         extensionLength := if ext then extLen else 0 |};
            payload := pl; payloadLength := plLen;
            pRawPacket := pRawPacket p; rawPacketLength := rawPacketLength p;
            receivedTime := receivedTime p; sentTime := sentTime p;
            isSynthetic := isSynthetic p |}
  end.

(** ** createRtpPacket

    [mem] is the object MEMALLOC returned, with indeterminate contents, or
    [None] when the allocation failed. *)
Definition createRtpPacket (mem : option RtpPacket) (ver : Z) (pad ext : bool) (cc : Z)
    (mk : bool) (pt seq ts ss : Z) (csrcs : option ptr) (extProfile extLen : Z)
    (extPayload : option ptr) (pl : option ptr) (plLen : Z) : res RtpPacket :=
  match mem with
  | None => Err STATUS_NOT_ENOUGH_MEMORY
  | Some m =>
      setRtpPacket ver pad ext cc mk pt seq ts ss csrcs extProfile extLen extPayload pl plLen
        (Some (m <| pRawPacket := None |> <| rawPacketLength := 0 |>))
  end.

Section Host.
Variable h : endian.

Local Abbreviation ops := (initializeEndianness h).

(** ** setRtpPacketFromBytes *)
Definition setRtpPacketFromBytes (rawPacket : option (list Z)) (packetLength : Z)
    (p : option RtpPacket) : res RtpPacket :=
  match p, rawPacket with
  | Some p, Some raw =>
      CHK MIN_HEADER_LENGTH <=? packetLength else STATUS_RTP_INPUT_PACKET_TOO_SMALL ;;
      raw0 ← ld raw 0;
      raw1 ← ld raw 1;
      let ver := Z.land (Z.shiftr raw0 VERSION_SHIFT) VERSION_MASK in
      let pad := 0 <? Z.land (Z.shiftr raw0 PADDING_SHIFT) PADDING_MASK in
      let ext := 0 <? Z.land (Z.shiftr raw0 EXTENSION_SHIFT) EXTENSION_MASK in
      let cc := Z.land raw0 CSRC_COUNT_MASK in
      let mk := 0 <? Z.land (Z.shiftr raw1 MARKER_SHIFT) MARKER_MASK in
      let pt := Z.land raw1 PAYLOAD_TYPE_MASK in
      nseq ← native16 h raw SEQ_NUMBER_OFFSET;
      nts ← native32 h raw TIMESTAMP_OFFSET;
      nssrc ← native32 h raw SSRC_OFFSET;
      let seq := u16 (getInt16 ops nseq) in
      let ts := u32 (getInt32 ops nts) in
      let ss := u32 (getInt32 ops nssrc) in
      let currOffset := u32 (CSRC_OFFSET + cc * CSRC_LENGTH) in
      CHK currOffset <=? packetLength else STATUS_RTP_INPUT_PACKET_TOO_SMALL ;;
      let csrcs := if 0 <? cc then Some (Ptr raw CSRC_OFFSET) else None in
      '(extProfile, extLen, extPayload, currOffset) ←
        (if ext then
           nprof ← native16 h raw currOffset;
           nlen ← native16 h raw (currOffset +32 2);
           let len := u16 (getInt16 ops nlen * 4) in
           Ok (u16 (getInt16 ops nprof), len, Some (Ptr raw (currOffset +32 4)),
               currOffset +32 4 +32 len)
         else Ok (0, 0, None, currOffset));
      setRtpPacket ver pad ext cc mk pt seq ts ss csrcs extProfile extLen extPayload
        (Some (Ptr raw currOffset)) (packetLength -32 currOffset) (Some p)
  | _, _ => Err STATUS_NULL_ARG
  end.

(** ** createRtpPacketFromBytes

    On success the packet owns [rawPacket]. *)
Definition createRtpPacketFromBytes (mem : option RtpPacket) (rawPacket : option (list Z))
    (packetLength : Z) : res RtpPacket :=
  match mem with
  | None => Err STATUS_NOT_ENOUGH_MEMORY
  | Some m =>
      setRtpPacketFromBytes rawPacket packetLength
        (Some (m <| pRawPacket := rawPacket |> <| rawPacketLength := packetLength |>))
  end.

(** ** setBytesFromRtpPacket

    The CSRC loop: [i] counts up to the header's csrcCount. *)
Fixpoint putCsrcs (p : option ptr) (n : nat) (i : Z) (buf : list Z) (cur : Z)
    : res (list Z * Z) :=
  match n with
  | O => Ok (buf, cur)
  | S n =>
      match p with
      | None => Fault
      | Some p =>
          v ← native32 h (p_obj p) (p_off p + 4 * i);
          buf ← putUnalignedInt32Be buf cur (i32 v);
          putCsrcs (Some p) n (i + 1) buf (cur + 4)
      end
  end.

(** The extension block and the payload, at the write position [cur]. *)
Definition putExtension (hd : RtpPacketHeader) (buf : list Z) (cur : Z) : res (list Z * Z) :=
  if extension hd then
    match extensionPayload hd with
    | None => Fault
    | Some ep =>
        buf ← putUnalignedInt16Be buf cur (i16 (extensionProfile hd));
        buf ← putUnalignedInt16Be buf (cur + 2) (i16 (extensionLength hd / 4));
        bs ← pld_bytes ep (extensionLength hd);
        buf ← put_bytes buf (cur + 4) bs;
        Ok (buf, cur + 4 + extensionLength hd)
    end
  else Ok (buf, cur).

Definition putPayload (p : RtpPacket) (buf : list Z) (cur : Z) : res (list Z) :=
  match payload p with
  | Some pp =>
      if 0 <? payloadLength p then
        bs ← pld_bytes pp (payloadLength p);
        put_bytes buf cur bs
      else Ok buf
  | None => Ok buf
  end.

(** The result is the returned status and the buffer, which keeps what was
    written before a failing check. *)
Definition setBytesFromRtpPacket (p : RtpPacket) (pRaw : option (list Z)) (packetLength : Z)
    : res (STATUS * list Z) :=
  match pRaw with
  | None => Err STATUS_NULL_ARG
  | Some buf =>
      let hd := header p in
      CHK RTP_GET_RAW_PACKET_SIZE p <=? packetLength else STATUS_BUFFER_TOO_SMALL ;;
      buf ← put8 buf 0
        (Z.lor (Z.lor (Z.lor (Z.shiftl (version hd) VERSION_SHIFT) (csrcCount hd))
                      (if padding hd then Z.shiftl 1 PADDING_SHIFT else 0))
               (if extension hd then Z.shiftl 1 EXTENSION_SHIFT else 0));
      buf ← put8 buf 1
        (Z.lor (payloadType hd) (if marker hd then Z.shiftl 1 MARKER_SHIFT else 0));
      buf ← putUnalignedInt16Be buf 2 (i16 (sequenceNumber hd));
      buf ← putUnalignedInt32Be buf 4 (i32 (timestamp hd));
      buf ← putUnalignedInt32Be buf 8 (i32 (ssrc hd));
      '(buf, cur) ← putCsrcs (csrcArray hd) (Z.to_nat (csrcCount hd)) 0 buf 12;
      if extension hd && negb (extensionLength hd mod 4 =? 0)
      then Ok (STATUS_RTP_INVALID_EXTENSION_LEN, buf)
      else
        '(buf, cur) ← putExtension hd buf cur;
        buf ← putPayload p buf cur;
        Ok (STATUS_SUCCESS, buf)
  end.

(** ** createBytesFromRtpPacket

    Returns the status, the buffer (if any) and the new [*pPacketLength]. *)
Definition createBytesFromRtpPacket (p : RtpPacket) (pRaw : option (list Z)) (len : Z)
    : res (STATUS * option (list Z) * Z) :=
  let packetLength := RTP_GET_RAW_PACKET_SIZE p in
  match pRaw with
  | None => Ok (STATUS_SUCCESS, None, packetLength)
  | Some buf =>
      if packetLength <=? len then
        '(st, buf) ← setBytesFromRtpPacket p (Some buf) packetLength;
        Ok (st, Some buf, packetLength)
      else Ok (STATUS_NOT_ENOUGH_MEMORY, Some buf, packetLength)
  end.

(** ** constructRetransmitRtpPacketFromBytes

    [mem], [memPayload] and [memRaw] are what the three MEMALLOC calls return;
    the last two are functions of the requested size.  The clean-up of a failed
    call frees the packet's [pRawPacket]: a no-op on NULL, and undefined on the
    indeterminate pointer of a fresh MEMALLOC block. *)
Definition rtxCleanUp {A} (p : RtpPacket) (st : STATUS) : res A :=
  match pRawPacket p with None => Err st | Some _ => Fault end.

Definition constructRetransmitRtpPacketFromBytes (mem : option RtpPacket)
    (memPayload memRaw : Z -> option (list Z)) (rawPacket : option (list Z))
    (packetLength sequenceNum pt ss : Z) : res RtpPacket :=
  match mem with
  | None => Err STATUS_NOT_ENOUGH_MEMORY
  | Some m =>
      match setRtpPacketFromBytes rawPacket packetLength (Some m) with
      | Fault => Fault
      | Err st => rtxCleanUp m st
      | Ok p =>
      match memPayload (payloadLength p + 2), payload p with
      | None, _ => rtxCleanUp p STATUS_NOT_ENOUGH_MEMORY
      | Some _, None => Fault
      | Some pPayload, Some pl =>
          pPayload ← putUnalignedInt16Be pPayload 0 (i16 (sequenceNumber (header p)));
          bs ← pld_bytes pl (payloadLength p);
          pPayload ← put_bytes pPayload 2 bs;
          let p := p <| payloadLength := payloadLength p +32 2 |>
                     <| payload := Some (Ptr pPayload 0) |> in
          let p := p <| header := (header p)
                          <| sequenceNumber := sequenceNum |>
                          <| ssrc := ss |>
                          <| payloadType := pt |>
                          <| padding := false |> |>
                     <| pRawPacket := None |> in
          '(_, _, len) ← createBytesFromRtpPacket p None 0;
          match memRaw len with
          | None => Err STATUS_NOT_ENOUGH_MEMORY
          | Some raw =>
              '(st, raw, len) ← createBytesFromRtpPacket p (Some raw) len;
              match st, raw with
              | STATUS_SUCCESS, Some raw =>
                  let p := p <| rawPacketLength := len |> <| pRawPacket := Some raw |> in
                  Ok (p <| payload :=
                            Some (Ptr raw (RTP_GET_RAW_PACKET_SIZE p - payloadLength p)) |>)
              | st, _ => Err st
              end
          end
      end
      end
  end.
End Host.

(** ** constructRtpPackets

    [payloadSubLength] is the sub-length array; the packets are the elements of
    [pPackets], overwritten in place. *)
Record PayloadArray : Type := {
  payloadBuffer : list Z;
  arrPayloadLength : Z;
  maxPayloadLength : Z;
  payloadSubLength : list Z;
  payloadSubLenSize : Z;
  maxPayloadSubLenSize : Z;
}.

Fixpoint fillPackets (subs : list Z) (pa : PayloadArray) (i : Z) (pt seq ts ss : Z)
    (cur : Z) (ps : list RtpPacket) : res (list RtpPacket) :=
  match subs, ps with
  | [], ps => Ok ps
  | _ :: _, [] => Fault
  | len :: subs, p :: ps =>
      p ← setRtpPacket 2 false false 0 (i =? payloadSubLenSize pa -32 1) pt seq ts ss None 0 0
            None (Some (Ptr (payloadBuffer pa) cur)) len (Some p);
      ps ← fillPackets subs pa (i + 1) pt (GET_UINT16_SEQ_NUM (seq + 1)) ts ss (cur + len) ps;
      Ok (p :: ps)
  end.

Definition constructRtpPackets (pPayloadArray : option PayloadArray) (pt startSeq ts ss : Z)
    (pPackets : option (list RtpPacket)) (packetCount : Z)
    : res (STATUS * option (list RtpPacket)) :=
  match pPayloadArray with
  | None => Ok (STATUS_SUCCESS, pPackets)
  | Some pa =>
      if negb (0 <? arrPayloadLength pa) then Ok (STATUS_SUCCESS, pPackets) else
      match pPackets with
      | None => Ok (STATUS_NULL_ARG, None)
      | Some ps =>
          if negb (payloadSubLenSize pa <=? packetCount)
          then Ok (STATUS_BUFFER_TOO_SMALL, Some ps) else
          if blen (payloadSubLength pa) <? payloadSubLenSize pa then Fault else
          ps ← fillPackets (take (Z.to_nat (payloadSubLenSize pa)) (payloadSubLength pa))
                 pa 0 pt startSeq ts ss 0 ps;
          Ok (STATUS_SUCCESS, Some ps)
      end
  end.

(** ** The wire format *)

(** The first two bytes of a packet. *)
Definition rtp_byte0 (ver : Z) (pad ext : bool) (cc : Z) : Z :=
  u8 (Z.lor (Z.lor (Z.lor (Z.shiftl ver VERSION_SHIFT) cc)
                   (if pad then Z.shiftl 1 PADDING_SHIFT else 0))
            (if ext then Z.shiftl 1 EXTENSION_SHIFT else 0)).
Definition rtp_byte1 (pt : Z) (mk : bool) : Z :=
  u8 (Z.lor pt (if mk then Z.shiftl 1 MARKER_SHIFT else 0)).

(** The packet with the given header scalars, CSRC values, extension bytes and
    payload bytes, as RFC 3550 lays it out. *)
Definition rtp_bytes (hd : RtpPacketHeader) (csrcs extBytes plBytes : list Z) : list Z :=
  ([rtp_byte0 (version hd) (padding hd) (extension hd) (csrcCount hd);
    rtp_byte1 (payloadType hd) (marker hd)]
   ++ be16 (sequenceNumber hd) ++ be32 (timestamp hd) ++ be32 (ssrc hd))
  ++ concat (map be32 csrcs)
  ++ (if extension hd
      then be16 (extensionProfile hd) ++ be16 (extensionLength hd / 4) ++ extBytes else [])
  ++ plBytes.

(** The CSRC values a host of byte order [h] reads through [csrcArray]. *)
Fixpoint ld_csrcs (h : endian) (p : option ptr) (n : nat) (i : Z) : res (list Z) :=
  match n with
  | O => Ok []
  | S n =>
      match p with
      | None => Fault
      | Some p =>
          v ← native32 h (p_obj p) (p_off p + 4 * i);
          vs ← ld_csrcs h (Some p) n (i + 1);
          Ok (v :: vs)
      end
  end.

Definition ld_opt (p : option ptr) (n : Z) : res (list Z) :=
  match p with Some p => pld_bytes p n | None => if n =? 0 then Ok [] else Fault end.

(** What a serialisable packet points to: [csrcs], [extBytes] and [plBytes] are
    readable through its pointers. *)
Record pkt_points (h : endian) (p : RtpPacket) (csrcs extBytes plBytes : list Z) : Prop := {
  pp_csrcs : ld_csrcs h (csrcArray (header p)) (Z.to_nat (csrcCount (header p))) 0 = Ok csrcs;
  pp_ext : if extension (header p)
           then exists e, extensionPayload (header p) = Some e
                          /\ pld_bytes e (extensionLength (header p)) = Ok extBytes
           else extBytes = [];
  pp_pl : ld_opt (payload p) (payloadLength p) = Ok plBytes;
}.

(** Header scalars within their fields' widths on the wire. *)
Record hdr_ok (hd : RtpPacketHeader) : Prop := {
  ho_version : 0 <= version hd < 4;
  ho_csrcCount : 0 <= csrcCount hd < 16;
  ho_pt : 0 <= payloadType hd < 128;
  ho_seq : is_u16 (sequenceNumber hd);
  ho_ts : is_u32 (timestamp hd);
  ho_ssrc : is_u32 (ssrc hd);
  ho_profile : is_u16 (extensionProfile hd);
  ho_ext : extension hd = true ->
           extensionLength hd mod 4 = 0 /\ 0 <= extensionLength hd < 2 ^ 16;
}.

Lemma ld_csrcs_length h p n i vs : ld_csrcs h p n i = Ok vs -> length vs = n.
Proof.
  revert i vs. induction n as [|n IH]; intros i vs; simpl; [by intros [= <-]|].
  destruct p as [p|]; [|done].
  intros (v & _ & (vs' & Hvs & [= <-])%res_bind_inv)%res_bind_inv.
  simpl. f_equal. eauto.
Qed.

Lemma blen_csrc_bytes vs : blen (concat (map be32 vs)) = 4 * Z.of_nat (length vs).
Proof. induction vs; simpl; autorewrite with blen; [done|lia]. Qed.
#[export] Hint Rewrite blen_csrc_bytes : blen.

Lemma putCsrcs_spec h p n i vs buf cur :
  ld_csrcs h p n i = Ok vs -> 0 <= cur <= blen buf ->
  putCsrcs h p n i buf cur =
  (b ← put_bytes buf cur (concat (map be32 vs)); Ok (b, cur + 4 * Z.of_nat n)).
Proof.
  revert i vs buf cur. induction n as [|n IH]; intros i vs buf cur; simpl.
  { intros [= <-] ?. simpl. rewrite put_bytes_nil by done. simpl. do 2 f_equal. lia. }
  destruct p as [p|]; [|done].
  intros (v & -> & (vs' & Hvs & [= <-])%res_bind_inv)%res_bind_inv Hc. simpl.
  rewrite put32Be_bytes.
  destruct (decide (cur + 4 <= blen buf)).
  - rewrite <- put_bytes_seq. destruct (put_bytes buf cur (be32 v)) as [b| |] eqn:E; [|done..].
    simpl. apply put_bytes_inv in E as (?&?&Hb). rewrite (IH _ vs') by (done || lia).
    change (blen (be32 v)) with 4.
    destruct (put_bytes b (cur + 4) _); simpl; [|done..]. do 2 f_equal. lia.
  - rewrite !put_bytes_fault by (autorewrite with blen; lia). done.
Qed.

Lemma ld_opt_length p n bs : ld_opt p n = Ok bs -> blen bs = n.
Proof.
  unfold ld_opt, pld_bytes. destruct p; [by intros (?&?&?&?)%ld_bytes_inv|].
  destruct (Z.eqb_spec n 0); [intros [= <-]; done|done].
Qed.

Lemma blen_rtp_bytes h p csrcs eb pb :
  pkt_points h p csrcs eb pb -> 0 <= csrcCount (header p) ->
  blen (rtp_bytes (header p) csrcs eb pb) =
  12 + 4 * csrcCount (header p)
     + (if extension (header p) then 4 + extensionLength (header p) else 0) + payloadLength p.
Proof.
  intros [Hc He Hp] Hcc. unfold rtp_bytes. autorewrite with blen.
  rewrite (ld_csrcs_length _ _ _ _ _ Hc), (ld_opt_length _ _ _ Hp).
  destruct (extension (header p)); autorewrite with blen; [|lia].
  destruct He as (e & _ & (?&?&?&->)%ld_bytes_inv). lia.
Qed.

(** The bytes of the extension block. *)
Definition ext_bytes (hd : RtpPacketHeader) (eb : list Z) : list Z :=
  if extension hd
  then be16 (extensionProfile hd) ++ be16 (extensionLength hd / 4) ++ eb else [].

Lemma putExtension_spec h p csrcs eb pb buf cur :
  pkt_points h p csrcs eb pb -> 0 <= cur <= blen buf ->
  putExtension (header p) buf cur =
  (b ← put_bytes buf cur (ext_bytes (header p) eb);
   Ok (b, cur + blen (ext_bytes (header p) eb))).
Proof.
  intros [_ He _] Hc. unfold putExtension, ext_bytes. destruct (extension (header p)).
  - destruct He as (e & -> & He). rewrite put16Be_bytes. put_merge.
    rewrite (put_then _ _ _ (cur + 4) eb _
               (fun b => Ok (b, cur + 4 + extensionLength (header p)))).
    + rewrite <- (assoc_L (++)). apply ld_bytes_inv in He as (_&_&_&He).
      replace (blen _) with (4 + extensionLength (header p)) by (autorewrite with blen; lia).
      by rewrite Z.add_assoc.
    + autorewrite with blen. lia.
    + intros. by rewrite He.
  - by rewrite blen_nil, Z.add_0_r, put_bytes_nil.
Qed.

Lemma putPayload_spec h p csrcs eb pb buf cur :
  pkt_points h p csrcs eb pb -> 0 <= cur <= blen buf ->
  putPayload p buf cur = put_bytes buf cur pb.
Proof.
  intros [_ _ Hp] Hc. unfold putPayload. unfold ld_opt in Hp.
  destruct (payload p).
  - destruct (Z.ltb_spec 0 (payloadLength p)); [by rewrite Hp|].
    apply ld_bytes_inv in Hp as (?&?&?&?).
    destruct pb; [by rewrite put_bytes_nil|]. rewrite blen_cons in *. pose proof (blen_nonneg pb). lia.
  - destruct (Z.eqb_spec (payloadLength p) 0); [|done]. injection Hp as <-.
    by rewrite put_bytes_nil.
Qed.

Lemma setBytesFromRtpPacket_spec h p csrcs eb pb buf len :
  pkt_points h p csrcs eb pb ->
  0 <= csrcCount (header p) ->
  (extension (header p) = true -> extensionLength (header p) mod 4 = 0) ->
  RTP_GET_RAW_PACKET_SIZE p <= len ->
  blen (rtp_bytes (header p) csrcs eb pb) <= blen buf ->
  setBytesFromRtpPacket h p (Some buf) len =
  (b ← put_bytes buf 0 (rtp_bytes (header p) csrcs eb pb); Ok (STATUS_SUCCESS, b)).
Proof.
  intros HP Hcc Hext Hlen Hbuf. pose proof (pp_csrcs _ _ _ _ _ HP) as Hc.
  pose proof (ld_csrcs_length _ _ _ _ _ Hc) as Hcl.
  unfold rtp_bytes in Hbuf. fold (ext_bytes (header p) eb) in Hbuf. autorewrite with blen in Hbuf.
  pose proof (blen_nonneg pb). pose proof (blen_nonneg (ext_bytes (header p) eb)).
  unfold setBytesFromRtpPacket. rewrite (proj2 (Z.leb_le _ _)) by done.
  unfold put8. repeat put_merge.
  rewrite (put_then_pos _ _ _ 12 (concat (map be32 csrcs)) (12 + 4 * csrcCount (header p)))
    by (autorewrite with blen; try lia; intros b' Hb'; rewrite (putCsrcs_spec _ _ _ _ csrcs),
          Z2Nat.id by (done || lia); done).
  assert (Hm : extension (header p) && negb (extensionLength (header p) mod 4 =? 0) = false).
  { destruct (extension (header p)); [|done]. by rewrite Hext. }
  rewrite Hm.
  rewrite (put_then_pos _ _ _ (12 + 4 * csrcCount (header p)) (ext_bytes (header p) eb)
             (12 + 4 * csrcCount (header p) + blen (ext_bytes (header p) eb)))
    by (autorewrite with blen; try lia; intros; apply (putExtension_spec h p csrcs eb pb); done || lia).
  rewrite (put_then _ _ _ (12 + 4 * csrcCount (header p) + blen (ext_bytes (header p) eb)) pb _
             (fun b => Ok (STATUS_SUCCESS, b))).
  - unfold rtp_bytes. fold (ext_bytes (header p) eb). by rewrite <- !(assoc_L (++)).
  - autorewrite with blen. lia.
  - intros b' Hb'. by rewrite (putPayload_spec h p csrcs eb pb) by (done || lia).
Qed.

(** ** Parsing *)

(** The bit fields of the first two bytes are recovered by the parser's masks. *)
Lemma rtp_byte0_fields ver pad ext cc :
  0 <= ver < 4 -> 0 <= cc < 16 ->
  let b := rtp_byte0 ver pad ext cc in
  Z.land (Z.shiftr b VERSION_SHIFT) VERSION_MASK = ver /\
  (0 <? Z.land (Z.shiftr b PADDING_SHIFT) PADDING_MASK) = pad /\
  (0 <? Z.land (Z.shiftr b EXTENSION_SHIFT) EXTENSION_MASK) = ext /\
  Z.land b CSRC_COUNT_MASK = cc.
Proof.
  intros Hv Hc.
  set (ok := fun v c => let b := rtp_byte0 v pad ext c in
    (Z.land (Z.shiftr b VERSION_SHIFT) VERSION_MASK =? v) &&
    (eqb (0 <? Z.land (Z.shiftr b PADDING_SHIFT) PADDING_MASK) pad) &&
    (eqb (0 <? Z.land (Z.shiftr b EXTENSION_SHIFT) EXTENSION_MASK) ext) &&
    (Z.land b CSRC_COUNT_MASK =? c)).
  assert (H : forallb (fun v => forallb (ok v) (seqZ 0 16)) (seqZ 0 4) = true).
  { unfold ok. destruct pad, ext; vm_compute; reflexivity. }
  pose proof (range_forall _ _ (range_forall _ _ H ver Hv) cc Hc) as Hok.
  unfold ok in Hok. rewrite !andb_true_iff, !Z.eqb_eq, !eqb_true_iff in Hok. cbv zeta. tauto.
Qed.

Lemma rtp_byte1_fields pt mk :
  0 <= pt < 128 ->
  let b := rtp_byte1 pt mk in
  (0 <? Z.land (Z.shiftr b MARKER_SHIFT) MARKER_MASK) = mk /\
  Z.land b PAYLOAD_TYPE_MASK = pt.
Proof.
  intros Hp.
  set (ok := fun v => let b := rtp_byte1 v mk in
    (eqb (0 <? Z.land (Z.shiftr b MARKER_SHIFT) MARKER_MASK) mk) &&
    (Z.land b PAYLOAD_TYPE_MASK =? v)).
  assert (H : forallb ok (seqZ 0 128) = true).
  { unfold ok. destruct mk; vm_compute; reflexivity. }
  pose proof (range_forall _ _ H pt Hp) as Hok.
  unfold ok in Hok. rewrite !andb_true_iff, !Z.eqb_eq, !eqb_true_iff in Hok. cbv zeta. tauto.
Qed.

(** The parser with network-order reads: what [setRtpPacketFromBytes] computes on
    a host of either byte order. *)
Definition rtp_parse (raw : list Z) (packetLength : Z) (p : RtpPacket) : res RtpPacket :=
  CHK MIN_HEADER_LENGTH <=? packetLength else STATUS_RTP_INPUT_PACKET_TOO_SMALL ;;
  raw0 ← ld raw 0;
  raw1 ← ld raw 1;
  seq ← rd16 raw 2;
  ts ← rd32 raw 4;
  ss ← rd32 raw 8;
  let ext := 0 <? Z.land (Z.shiftr raw0 4) 1 in
  let cc := Z.land raw0 0xF in
  let off := 12 + 4 * cc in
  CHK off <=? packetLength else STATUS_RTP_INPUT_PACKET_TOO_SMALL ;;
  '(prof, extLen, ep, off) ←
    (if ext then
       prof ← rd16 raw off;
       words ← rd16 raw (off + 2);
       Ok (prof, u16 (words * 4), Some (Ptr raw (off + 4)), off + 4 + u16 (words * 4))
     else Ok (0, 0, None, off));
  setRtpPacket (Z.land (Z.shiftr raw0 6) 3) (0 <? Z.land (Z.shiftr raw0 5) 1) ext cc
    (0 <? Z.land (Z.shiftr raw1 7) 1) (Z.land raw1 0x7F) seq ts ss
    (if 0 <? cc then Some (Ptr raw 12) else None) prof extLen ep
    (Some (Ptr raw off)) (packetLength -32 off) (Some p).

Lemma land_F x : 0 <= Z.land x 0xF < 16.
Proof. change 0xF with (Z.ones 4). rewrite Z.land_ones by lia. width_lia. Qed.

Lemma setRtpPacketFromBytes_parse h raw len p :
  bytes_ok raw ->
  setRtpPacketFromBytes h (Some raw) len (Some p) = rtp_parse raw len p.
Proof.
  intros Hb. unfold setRtpPacketFromBytes, rtp_parse.
  destruct (_ <=? len); [|done].
  ld_cases raw 0. ld_cases raw 1. unfold SEQ_NUMBER_OFFSET, TIMESTAMP_OFFSET, SSRC_OFFSET.
  destruct (native16_cases h raw 2 Hb) as [(seq&n&->&->&<-)|[-> ->]]; [|done].
  destruct (native32_cases h raw 4 Hb) as [(ts&n1&->&->&<-)|[-> ->]]; [|done].
  destruct (native32_cases h raw 8 Hb) as [(ss&n2&->&->&<-)|[-> ->]]; [|done].
  cbn [mbind res_bind]. unfold CSRC_COUNT_MASK, CSRC_OFFSET, CSRC_LENGTH.
  pose proof (land_F v).
  assert (Eoff : u32 (12 + Z.land v 15 * 4) = 12 + 4 * Z.land v 15) by width_lia.
  rewrite Eoff. destruct (_ <=? len); [|done].
  unfold EXTENSION_SHIFT, EXTENSION_MASK.
  destruct (0 <? Z.land (Z.shiftr v 4) 1); [|done].
  replace (12 + 4 * Z.land v 15 +32 2) with (12 + 4 * Z.land v 15 + 2) by width_lia.
  destruct (native16_cases h raw (12 + 4 * Z.land v 15) Hb) as [(pr&n3&->&->&<-)|[-> ->]]; [|done].
  destruct (native16_cases h raw (12 + 4 * Z.land v 15 + 2) Hb) as [(w&n4&->&->&<-)|[-> ->]]; [|done].
  cbn [mbind res_bind].
  assert (E4 : u16 (getInt16 (initializeEndianness h) n4 * 4) =
               u16 (u16 (getInt16 (initializeEndianness h) n4) * 4)) by width_lia.
  rewrite E4. set (w := u16 (getInt16 _ n4)).
  replace (12 + 4 * Z.land v 15 +32 4) with (12 + 4 * Z.land v 15 + 4) by width_lia.
  pose proof (u16_range (w * 4)).
  replace (12 + 4 * Z.land v 15 + 4 +32 u16 (w * 4)) with (12 + 4 * Z.land v 15 + 4 + u16 (w * 4)).
  { done. }
  rewrite u32_id; [done|]. unfold is_u16, is_u32 in *. lia.
Qed.

(** The header a parsed packet has: the scalars of [hd], pointers into [raw]. *)
Definition hdr_in (raw : list Z) (hd : RtpPacketHeader) : RtpPacketHeader :=
  let off := 12 + 4 * csrcCount hd in
  {| version := version hd; padding := padding hd; extension := extension hd;
     marker := marker hd; csrcCount := csrcCount hd; payloadType := payloadType hd;
     sequenceNumber := sequenceNumber hd; timestamp := timestamp hd; ssrc := ssrc hd;
     csrcArray := if 0 <? csrcCount hd then Some (Ptr raw 12) else None;
     extensionProfile := if extension hd then extensionProfile hd else 0;
     extensionPayload := if extension hd then Some (Ptr raw (off + 4)) else None;
     extensionLength := if extension hd then extensionLength hd else 0 |}.

Definition pkt_in (raw : list Z) (hd : RtpPacketHeader) (plLen : Z) (m : RtpPacket) : RtpPacket :=
  {| header := hdr_in raw hd; payload := Some (Ptr raw (blen raw - plLen)); payloadLength := plLen;
     pRawPacket := pRawPacket m; rawPacketLength := rawPacketLength m;
     receivedTime := receivedTime m; sentTime := sentTime m; isSynthetic := isSynthetic m |}.

Lemma csrc_bytes_ok vs : bytes_ok (concat (map be32 vs)).
Proof. induction vs; simpl; [constructor|]. apply bytes_ok_app. auto with width. Qed.

Lemma ext_bytes_ok hd eb : bytes_ok eb -> bytes_ok (ext_bytes hd eb).
Proof.
  intros. unfold ext_bytes. destruct (extension hd); [|constructor].
  rewrite !bytes_ok_app. auto with width.
Qed.

Lemma rtp_bytes_ok hd csrcs eb pb : bytes_ok eb -> bytes_ok pb -> bytes_ok (rtp_bytes hd csrcs eb pb).
Proof.
  intros. unfold rtp_bytes. fold (ext_bytes hd eb). rewrite !bytes_ok_app.
  repeat split; auto using csrc_bytes_ok, ext_bytes_ok with width.
  repeat constructor; apply u8_range.
Qed.

(** The multi-byte fields of the wire format, read back in network order. *)
Lemma rtp_bytes_reads hd csrcs eb pb :
  csrcCount hd = Z.of_nat (length csrcs) ->
  let raw := rtp_bytes hd csrcs eb pb in
  rd16 raw 2 = Ok (u16 (sequenceNumber hd)) /\
  rd32 raw 4 = Ok (u32 (timestamp hd)) /\
  rd32 raw 8 = Ok (u32 (ssrc hd)) /\
  (extension hd = true ->
   rd16 raw (12 + 4 * csrcCount hd) = Ok (u16 (extensionProfile hd)) /\
   rd16 raw (12 + 4 * csrcCount hd + 2) = Ok (u16 (extensionLength hd / 4))).
Proof.
  intros Hcc. cbv zeta. unfold rtp_bytes.
  set (b0 := [rtp_byte0 _ _ _ _; rtp_byte1 _ _]).
  assert (blen b0 = 2) by reflexivity. split_and!.
  - rewrite <- !(assoc_L (++)). by apply rd16_app.
  - rewrite <- !(assoc_L (++)), (assoc_L (++) b0). apply rd32_app. blen_lia.
  - rewrite <- !(assoc_L (++)), (assoc_L (++) b0), (assoc_L (++) (b0 ++ _)).
    apply rd32_app. blen_lia.
  - intros ->. rewrite (assoc_L (++) _ (concat _)). split.
    + rewrite <- (assoc_L (++) (be16 (extensionProfile hd))).
      apply rd16_app. blen_lia.
    + rewrite <- !(assoc_L (++) (be16 _)), (assoc_L (++) _ (be16 (extensionProfile hd))).
      apply rd16_app. blen_lia.
Qed.

Lemma rtp_parse_bytes hd csrcs eb pb m :
  hdr_ok hd -> csrcCount hd = Z.of_nat (length csrcs) ->
  (extension hd = true -> blen eb = extensionLength hd) ->
  (extension hd = false -> eb = []) ->
  blen (rtp_bytes hd csrcs eb pb) < 2 ^ 32 ->
  let raw := rtp_bytes hd csrcs eb pb in
  rtp_parse raw (blen raw) m = Ok (pkt_in raw hd (blen pb) m).
Proof.
  intros [Hv Hc Hpt Hseq Hts Hss Hpr Hex] Hcc Heb Heb' Hlen raw.
  destruct (rtp_byte0_fields (version hd) (padding hd) (extension hd) (csrcCount hd))
    as (F1&F2&F3&F4); [done..|].
  destruct (rtp_byte1_fields (payloadType hd) (marker hd)) as (F5&F6); [done|].
  assert (Hraw : blen raw = 12 + 4 * csrcCount hd + blen (ext_bytes hd eb) + blen pb).
  { unfold raw, rtp_bytes. fold (ext_bytes hd eb). autorewrite with blen. lia. }
  assert (E0 : ld raw 0 = Ok (rtp_byte0 (version hd) (padding hd) (extension hd) (csrcCount hd)))
    by reflexivity.
  assert (E1 : ld raw 1 = Ok (rtp_byte1 (payloadType hd) (marker hd))) by reflexivity.
  destruct (rtp_bytes_reads hd csrcs eb pb Hcc) as (E2&E3&E4&E5). fold raw in E2, E3, E4, E5.
  rewrite u16_id in E2 by done. rewrite !u32_id in E3, E4 by done.
  unfold MIN_HEADER_LENGTH, VERSION_SHIFT, VERSION_MASK, PADDING_SHIFT, PADDING_MASK,
    EXTENSION_SHIFT, EXTENSION_MASK, CSRC_COUNT_MASK, MARKER_SHIFT, MARKER_MASK,
    PAYLOAD_TYPE_MASK in *.
  unfold rtp_parse. rewrite E0, E1, E2, E3, E4. cbn [mbind res_bind].
  rewrite F1, F2, F3, F4, F5, F6.
  pose proof (blen_nonneg pb). pose proof (blen_nonneg (ext_bytes hd eb)).
  rewrite !(proj2 (Z.leb_le _ _)) by (unfold MIN_HEADER_LENGTH; lia).
  fold raw in Hlen. unfold pkt_in, hdr_in, ext_bytes in *. destruct (extension hd) eqn:Ex.
  - destruct (E5 eq_refl) as [-> ->]. cbn [mbind res_bind]. destruct (Hex eq_refl).
    specialize (Heb eq_refl). autorewrite with blen in Hraw.
    replace (u16 (u16 (extensionLength hd / 4) * 4)) with (extensionLength hd) by width_lia.
    rewrite (u16_id (extensionProfile hd)) by done. unfold setRtpPacket. simpl.
    rewrite Hraw. rewrite u32_id by (unfold is_u32; lia). repeat f_equal; lia.
  - rewrite blen_nil in Hraw. unfold setRtpPacket. simpl. rewrite Hraw.
    rewrite u32_id by (unfold is_u32; lia). repeat f_equal; lia.
Qed.

(** ** Round trip *)

Lemma pkt_size h p csrcs eb pb :
  pkt_points h p csrcs eb pb -> 0 <= csrcCount (header p) ->
  blen (rtp_bytes (header p) csrcs eb pb) < 2 ^ 32 ->
  RTP_GET_RAW_PACKET_SIZE p = blen (rtp_bytes (header p) csrcs eb pb).
Proof.
  intros HP Hc Hlt. pose proof (blen_rtp_bytes _ _ _ _ _ HP Hc) as E.
  pose proof (ld_opt_length _ _ _ (pp_pl _ _ _ _ _ HP)).
  pose proof (pp_ext _ _ _ _ _ HP) as He. pose proof (blen_nonneg pb).
  unfold RTP_GET_RAW_PACKET_SIZE, RTP_HEADER_LEN, CSRC_LENGTH.
  destruct (extension (header p)).
  - destruct He as (e & _ & (?&?&?&?)%ld_bytes_inv).
    rewrite (u32_id (4 + _)) by (unfold is_u32; lia).
    rewrite (u32_id (12 + _ + _)) by (unfold is_u32; lia). rewrite u32_id; unfold is_u32; lia.
  - rewrite (u32_id (12 + _ + _)) by (unfold is_u32; lia). rewrite u32_id; unfold is_u32; lia.
Qed.

(** The variable-length parts of a parsed packet are the ones that were written. *)
Lemma pkt_in_reads hd csrcs eb pb m :
  csrcCount hd = Z.of_nat (length csrcs) ->
  (extension hd = true -> blen eb = extensionLength hd) ->
  let raw := rtp_bytes hd csrcs eb pb in
  let q := pkt_in raw hd (blen pb) m in
  ld_opt (payload q) (payloadLength q) = Ok pb /\
  (extension hd = true ->
   ld_opt (extensionPayload (header q)) (extensionLength (header q)) = Ok eb) /\
  (0 < csrcCount hd ->
   ld_opt (csrcArray (header q)) (4 * csrcCount hd) = Ok (concat (map be32 csrcs))).
Proof.
  intros Hcc He. cbv zeta. cbn [pkt_in payload payloadLength header].
  unfold hdr_in; cbn [extensionPayload extensionLength csrcArray]. unfold ld_opt, pld_bytes.
  cbn [p_obj p_off]. unfold rtp_bytes.
  set (pre := [rtp_byte0 _ _ _ _; _] ++ _). assert (Hp : blen pre = 12) by reflexivity.
  split_and!.
  - fold (ext_bytes hd eb). rewrite !(assoc_L (++)). rewrite <- (app_nil_r (_ ++ pb)) at 1.
    rewrite <- (assoc_L (++) _ pb []). apply ld_bytes_app; [blen_lia|done].
  - intros Ex. rewrite Ex. rewrite (assoc_L (++) _ (concat _)).
    rewrite <- !(assoc_L (++) (be16 _)).
    rewrite (assoc_L (++) _ (be16 (extensionProfile hd))).
    rewrite (assoc_L (++) _ (be16 (extensionLength hd / 4))).
    cbn [p_obj p_off]. apply ld_bytes_app; specialize (He Ex); [blen_lia|lia].
  - intros Hpos. rewrite (proj2 (Z.ltb_lt _ _)) by done.
    apply ld_bytes_app; [done|blen_lia].
Qed.

(** A packet's bytes, and the packet parsed from them. *)
Lemma rtp_wire h h' p csrcs eb pb buf m
  (HP : pkt_points h p csrcs eb pb) (Hok : hdr_ok (header p))
  (Heb : bytes_ok eb) (Hpb : bytes_ok pb)
  (Hlt : blen (rtp_bytes (header p) csrcs eb pb) < 2 ^ 32)
  (Hbuf : blen buf = RTP_GET_RAW_PACKET_SIZE p) :
  let raw := rtp_bytes (header p) csrcs eb pb in
  let q := pkt_in raw (header p) (payloadLength p) m in
  setBytesFromRtpPacket h p (Some buf) (blen buf) = Ok (STATUS_SUCCESS, raw) /\
  setRtpPacketFromBytes h' (Some raw) (blen raw) (Some m) = Ok q /\
  ld_opt (payload q) (payloadLength q) = Ok pb /\
  (extension (header p) = true ->
   ld_opt (extensionPayload (header q)) (extensionLength (header q)) = Ok eb) /\
  (0 < csrcCount (header p) ->
   ld_opt (csrcArray (header q)) (4 * csrcCount (header p)) = Ok (concat (map be32 csrcs))).
Proof.
  pose proof (ho_csrcCount _ Hok). cbv zeta.
  rewrite (pkt_size h p csrcs eb pb) in Hbuf by (done || lia).
  pose proof (ld_opt_length _ _ _ (pp_pl _ _ _ _ _ HP)) as <-.
  assert (Hcc : csrcCount (header p) = Z.of_nat (length csrcs)).
  { rewrite (ld_csrcs_length _ _ _ _ _ (pp_csrcs _ _ _ _ _ HP)). lia. }
  pose proof (pp_ext _ _ _ _ _ HP) as He.
  assert (Hel : extension (header p) = true -> blen eb = extensionLength (header p)).
  { intros Ex. rewrite Ex in He. by destruct He as (e & _ & (?&?&?&?)%ld_bytes_inv). }
  split; [|split].
  - rewrite (setBytesFromRtpPacket_spec h p csrcs eb pb).
    + by rewrite put_bytes_full.
    + done.
    + lia.
    + intros Ex. by apply (ho_ext _ Hok).
    + rewrite (pkt_size h p csrcs eb pb) by (done || lia). lia.
    + lia.
  - rewrite setRtpPacketFromBytes_parse by (by apply rtp_bytes_ok).
    apply rtp_parse_bytes; try done. intros Ex. by rewrite Ex in He.
  - by apply pkt_in_reads.
Qed.

(** C30. Serialising a packet whose header fields fit their wire widths and parsing
    the bytes back, on hosts of any byte orders, succeeds and recovers every header
    field, the extension bytes and the payload bytes; the CSRC identifiers come
    back as their network-order bytes. *)
Theorem rtp_roundtrip h h' p csrcs eb pb buf m
  (HP : pkt_points h p csrcs eb pb) (Hok : hdr_ok (header p))
  (Heb : bytes_ok eb) (Hpb : bytes_ok pb)
  (Hlt : blen (rtp_bytes (header p) csrcs eb pb) < 2 ^ 32)
  (Hbuf : blen buf = RTP_GET_RAW_PACKET_SIZE p) :
  let raw := rtp_bytes (header p) csrcs eb pb in
  let q := pkt_in raw (header p) (payloadLength p) m in
  setBytesFromRtpPacket h p (Some buf) (blen buf) = Ok (STATUS_SUCCESS, raw) /\
  setRtpPacketFromBytes h' (Some raw) (blen raw) (Some m) = Ok q /\
  ld_opt (payload q) (payloadLength q) = Ok pb /\
  (extension (header p) = true ->
   ld_opt (extensionPayload (header q)) (extensionLength (header q)) = Ok eb) /\
  (0 < csrcCount (header p) ->
   ld_opt (csrcArray (header q)) (4 * csrcCount (header p)) = Ok (concat (map be32 csrcs))).
Proof. by apply rtp_wire. Qed.

(** ** Parsing arbitrary input *)

(** The packet's X bit and the length of its fixed part with the CSRC list. *)
Definition rtp_has_ext (raw : list Z) : bool :=
  match ld raw 0 with Ok b => 0 <? Z.land (Z.shiftr b EXTENSION_SHIFT) EXTENSION_MASK | _ => false end.
Definition rtp_fixed_len (raw : list Z) : Z :=
  match ld raw 0 with Ok b => 12 + 4 * Z.land b CSRC_COUNT_MASK | _ => 0 end.

(** The four outcomes of the parser on a buffer of [blen raw] bytes. *)
Variant parse_outcome (raw : list Z) (m : RtpPacket) : res RtpPacket -> Prop :=
| PO_short : blen raw < 12 \/ blen raw < rtp_fixed_len raw ->
    parse_outcome raw m (Err STATUS_RTP_INPUT_PACKET_TOO_SMALL)
| PO_plain q : rtp_fixed_len raw <= blen raw -> 12 <= blen raw -> rtp_has_ext raw = false ->
    payload q = Some (Ptr raw (rtp_fixed_len raw)) ->
    payloadLength q = blen raw - rtp_fixed_len raw -> parse_outcome raw m (Ok q)
| PO_ext_fault : 12 <= blen raw -> rtp_has_ext raw = true ->
    rtp_fixed_len raw <= blen raw < rtp_fixed_len raw + 4 -> parse_outcome raw m Fault
| PO_ext q words : 12 <= blen raw -> rtp_has_ext raw = true ->
    rtp_fixed_len raw + 4 <= blen raw ->
    rd16 raw (rtp_fixed_len raw + 2) = Ok words ->
    let off := rtp_fixed_len raw + 4 + u16 (words * 4) in
    payload q = Some (Ptr raw off) -> payloadLength q = blen raw -32 off ->
    parse_outcome raw m (Ok q).

Lemma rtp_parse_outcome raw m :
  bytes_ok raw -> is_u32 (blen raw) -> parse_outcome raw m (rtp_parse raw (blen raw) m).
Proof.
  intros Hb Hu. unfold rtp_parse, MIN_HEADER_LENGTH.
  destruct (Z.leb_spec 12 (blen raw)); [|apply PO_short; lia].
  destruct (ld_in raw 0) as (b0&E0&_); [lia|]. destruct (ld_in raw 1) as (b1&E1&_); [lia|].
  destruct (rd16_in raw 2) as (v2&->); [lia..|]. destruct (rd32_in raw 4) as (v4&->); [lia..|].
  destruct (rd32_in raw 8) as (v8&->); [lia..|].
  assert (Hf : rtp_fixed_len raw = 12 + 4 * Z.land b0 15) by (unfold rtp_fixed_len; by rewrite E0).
  assert (Hx : rtp_has_ext raw = (0 <? Z.land (Z.shiftr b0 4) 1))
    by (unfold rtp_has_ext; by rewrite E0).
  rewrite E0, E1. cbn [mbind res_bind]. rewrite <- Hf, <- Hx. pose proof (land_F b0).
  destruct (Z.leb_spec (rtp_fixed_len raw) (blen raw)); [|apply PO_short; lia].
  destruct (rtp_has_ext raw) eqn:Ex.
  - destruct (decide (rtp_fixed_len raw + 4 <= blen raw)).
    + destruct (rd16_in raw (rtp_fixed_len raw)) as (pr&->); [lia..|].
      destruct (rd16_in raw (rtp_fixed_len raw + 2)) as (w&Hw); [lia..|]. rewrite Hw.
      cbn [mbind res_bind]. unfold setRtpPacket. simpl.
      by apply (PO_ext raw m _ w).
    + assert (F : (prof ← rd16 raw (rtp_fixed_len raw);
                   words ← rd16 raw (rtp_fixed_len raw + 2);
                   Ok (prof, u16 (words * 4), Some (Ptr raw (rtp_fixed_len raw + 4)),
                       rtp_fixed_len raw + 4 + u16 (words * 4))) = Fault).
      { destruct (rd16_ok_or_fault raw (rtp_fixed_len raw)) as [[? ->]| ->]; [|done].
        cbn [mbind res_bind]. by rewrite rd16_fault by lia. }
      rewrite F. apply PO_ext_fault; [done|done|lia].
  - unfold setRtpPacket. simpl. apply PO_plain; try done. simpl.
    apply u32_id. unfold is_u32 in *. lia.
Qed.

(** On a received buffer of [blen raw] bytes the parser never reads outside the
    buffer except in one case, which is exact: the X bit is set and fewer than four
    bytes follow the CSRC list.  (The length of the extension header is not checked
    before it is read.) *)
Theorem setRtpPacketFromBytes_fault_iff h raw m
  (Hb : bytes_ok raw) (Hu : is_u32 (blen raw)) :
  setRtpPacketFromBytes h (Some raw) (blen raw) (Some m) = Fault <->
  12 <= blen raw /\ rtp_has_ext raw = true /\
  rtp_fixed_len raw <= blen raw < rtp_fixed_len raw + 4.
Proof.
  rewrite setRtpPacketFromBytes_parse by done.
  destruct (rtp_parse_outcome raw m Hb Hu); split; try done.
  - intros (?&?&?). lia.
  - intros (?&?&?). congruence.
  - intros (?&?&?). lia.
Qed.

(** The payload of an accepted packet lies inside the received buffer and ends
    with it, unless the extension length field announces more bytes than the packet
    has; in that case the payload length wraps to a value near 2^32. *)
Theorem setRtpPacketFromBytes_payload h raw m q
  (Hb : bytes_ok raw) (Hu : is_u32 (blen raw))
  (Hq : setRtpPacketFromBytes h (Some raw) (blen raw) (Some m) = Ok q) :
  exists off, payload q = Some (Ptr raw off) /\ 12 <= off /\
    (off <= blen raw -> off + payloadLength q = blen raw) /\
    (blen raw < off -> rtp_has_ext raw = true /\
       payloadLength q = 2 ^ 32 - (off - blen raw) /\ 2 ^ 32 - 2 ^ 16 <= payloadLength q).
Proof.
  rewrite setRtpPacketFromBytes_parse in Hq by done.
  assert (Hfix : 12 <= blen raw -> 12 <= rtp_fixed_len raw <= 72).
  { intros. unfold rtp_fixed_len. destruct (ld_in raw 0) as (?&->&_); [lia|].
    unfold CSRC_COUNT_MASK. pose proof (land_F x). lia. }
  pose proof (rtp_parse_outcome raw m Hb Hu) as HO. rewrite Hq in HO.
  inversion HO as [|q' ? ? ? Hpl Hlen| |q' words ? ? ? Hw off Hpl Hlen]; subst q'.
  - exists (rtp_fixed_len raw). split_and!; [done|lia|lia|lia].
  - exists off. pose proof (u16_range (words * 4)). unfold off, is_u16, is_u32 in *.
    rewrite Hlen. split_and!; [done|lia|..].
    + intros. rewrite u32_id; unfold is_u32; lia.
    + intros. split; [done|]. set (o := rtp_fixed_len raw + 4 + u16 (words * 4)) in *.
      assert (0 < o - blen raw < 2 ^ 16) by lia.
      assert (E : u32 (blen raw - o) = 2 ^ 32 + (blen raw - o)).
      { unfold u32. symmetry. apply (Z.mod_unique_pos _ _ (-1)); lia. }
      rewrite E. lia.
Qed.

(** ** Retransmission packets *)

(** What a host reads as a UINT32 from the four network-order bytes of [v]. *)
Definition csrc_host (h : endian) (v : Z) : Z :=
  match h with LittleEndian => u32 (SWAP_INT32 v) | BigEndian => v end.

Lemma native32_be32 h a v c :
  is_u32 v -> native32 h (a ++ be32 v ++ c) (blen a) = Ok (csrc_host h v).
Proof.
  intros Hv. unfold native32. rewrite !ld_app_off by lia.
  rewrite <- (Z.add_0_r (blen a)) at 1. rewrite ld_app_off by lia.
  Transparent be32. unfold be32. cbn [app]. Opaque be32.
  change (ld (?x :: _) 0) with (Ok x). change (ld (_ :: ?x :: _) 1) with (Ok x).
  change (ld (_ :: _ :: ?x :: _) 2) with (Ok x). change (ld (_ :: _ :: _ :: ?x :: _) 3) with (Ok x).
  cbn [mbind res_bind]. rewrite !Z.shiftr_div_pow2 by lia. destruct h; unfold csrc_host; f_equal.
  - assert (Ev : v = u8 v + 2 ^ 8 * u8 (v / 2 ^ 8) + 2 ^ 16 * u8 (v / 2 ^ 16)
                     + 2 ^ 24 * u8 (v / 2 ^ 24)) by width_lia.
    rewrite Ev at 5. rewrite SWAP_INT32_val by apply u8_range. lia.
  - width_lia.
Qed.

Lemma ld_csrcs_be h obj off pre vs suf i :
  obj = pre ++ concat (map be32 vs) ++ suf -> off + 4 * i = blen pre -> Forall is_u32 vs ->
  ld_csrcs h (Some (Ptr obj off)) (length vs) i = Ok (map (csrc_host h) vs).
Proof.
  intros -> Ho Hvs. revert pre i Ho. induction Hvs as [|v vs Hv Hvs IH]; intros; [done|].
  simpl. rewrite Ho, <- (assoc_L (++) (be32 v)), native32_be32 by done. cbn [mbind res_bind].
  replace (pre ++ be32 v ++ concat (map be32 vs) ++ suf)
    with ((pre ++ be32 v) ++ concat (map be32 vs) ++ suf) by by rewrite <- !(assoc_L (++)).
  rewrite IH by (autorewrite with blen; lia). done.
Qed.

(** A heap that satisfies every request. *)
Definition mem_avail (mem : Z -> option (list Z)) : Prop :=
  forall n, 0 <= n -> exists b, mem n = Some b /\ blen b = n.

(** The header of a retransmission: new sequence number, SSRC and payload type,
    and no padding. *)
Definition rtx_header (hd : RtpPacketHeader) (seq pt ss : Z) : RtpPacketHeader :=
  hd <| sequenceNumber := seq |> <| ssrc := ss |> <| payloadType := pt |> <| padding := false |>.

(** The parsed packet with the retransmission's header and payload, before it is
    serialised. *)
Definition rtx_packet (raw : list Z) (hd : RtpPacketHeader) (pb : list Z) (m : RtpPacket)
    (seq pt ss : Z) : RtpPacket :=
  let osn := be16 (sequenceNumber hd) ++ pb in
  {| header := rtx_header (hdr_in raw hd) seq pt ss;
     payload := Some (Ptr osn 0); payloadLength := blen osn;
     pRawPacket := None; rawPacketLength := rawPacketLength m;
     receivedTime := receivedTime m; sentTime := sentTime m; isSynthetic := isSynthetic m |}.

Lemma rtx_bytes_eq raw hd csrcs eb pb seq pt ss :
  rtp_bytes (rtx_header (hdr_in raw hd) seq pt ss) csrcs eb pb =
  rtp_bytes (rtx_header hd seq pt ss) csrcs eb pb.
Proof.
  destruct hd as [? ? [] ? ? ? ? ? ? ? ? ? ?]; reflexivity.
Qed.

Lemma hdr_in_ext raw hd :
  extension hd = true ->
  extensionPayload (hdr_in raw hd) = Some (Ptr raw (12 + 4 * csrcCount hd + 4)) /\
  extensionLength (hdr_in raw hd) = extensionLength hd.
Proof. destruct hd; simpl. intros ->. done. Qed.

Lemma rtx_points h hd csrcs eb pb m seq pt ss :
  csrcCount hd = Z.of_nat (length csrcs) -> Forall is_u32 csrcs ->
  (extension hd = true -> blen eb = extensionLength hd) ->
  (extension hd = false -> eb = []) ->
  pkt_points h (rtx_packet (rtp_bytes hd csrcs eb pb) hd pb m seq pt ss)
    (map (csrc_host h) csrcs) eb (be16 (sequenceNumber hd) ++ pb).
Proof.
  intros Hcc Hcs He He'.
  destruct (pkt_in_reads hd csrcs eb pb m Hcc He) as (_ & Hrext & _).
  set (raw := rtp_bytes hd csrcs eb pb) in *.
  split; cbn [rtx_packet header payload payloadLength rtx_header hdr_in].
  - change (csrcCount _) with (csrcCount hd). change (csrcArray _)
      with (if 0 <? csrcCount hd then Some (Ptr raw 12) else None).
    rewrite Hcc, Nat2Z.id. destruct csrcs as [|v vs]; [done|].
    rewrite (proj2 (Z.ltb_lt _ _)) by (simpl; lia).
    eapply ld_csrcs_be; [unfold raw, rtp_bytes; reflexivity|reflexivity|done].
  - change (extension _) with (extension hd). destruct (extension hd) eqn:Ex; [|auto].
    destruct (hdr_in_ext raw hd Ex) as [HeP HeL]. specialize (Hrext eq_refl).
    cbn [pkt_in header] in Hrext. rewrite HeP, HeL in Hrext.
    eexists. split; [exact HeP|]. change (extensionLength (rtx_header _ _ _ _))
      with (extensionLength (hdr_in raw hd)). by rewrite HeL.
  - by apply pld_bytes_whole.
Qed.

Lemma createBytesFromRtpPacket_spec h p csrcs eb pb buf :
  pkt_points h p csrcs eb pb -> 0 <= csrcCount (header p) ->
  (extension (header p) = true -> extensionLength (header p) mod 4 = 0) ->
  blen (rtp_bytes (header p) csrcs eb pb) < 2 ^ 32 ->
  blen buf = RTP_GET_RAW_PACKET_SIZE p ->
  createBytesFromRtpPacket h p (Some buf) (RTP_GET_RAW_PACKET_SIZE p) =
  Ok (STATUS_SUCCESS, Some (rtp_bytes (header p) csrcs eb pb), RTP_GET_RAW_PACKET_SIZE p).
Proof.
  intros HP Hc He Hlt Hbuf. unfold createBytesFromRtpPacket. rewrite Z.leb_refl.
  pose proof (pkt_size _ _ _ _ _ HP Hc Hlt) as Hs.
  rewrite (setBytesFromRtpPacket_spec h p csrcs eb pb) by (done || lia).
  rewrite put_bytes_full by lia. done.
Qed.

Lemma pld_bytes_tail pre bs :
  pld_bytes (Ptr (pre ++ bs) (blen (pre ++ bs) - blen bs)) (blen bs) = Ok bs.
Proof.
  unfold pld_bytes. cbn [p_obj p_off]. rewrite <- (app_nil_r (pre ++ bs)) at 1.
  rewrite <- (assoc_L (++) pre bs []). apply ld_bytes_app; [blen_lia|done].
Qed.

(** The payload of a wire image, at the position RTP_GET_RAW_PACKET_SIZE - payloadLength. *)
Lemma rtp_bytes_payload hd csrcs eb pb :
  pld_bytes (Ptr (rtp_bytes hd csrcs eb pb) (blen (rtp_bytes hd csrcs eb pb) - blen pb))
    (blen pb) = Ok pb.
Proof.
  unfold rtp_bytes. rewrite !(assoc_L (++)). apply pld_bytes_tail.
Qed.

(** The copy of the original sequence number and payload into the fresh block. *)
Lemma osn_copy b v bs :
  blen b = blen bs + 2 ->
  (b ← putUnalignedInt16Be b 0 (i16 v); put_bytes b 2 bs) = Ok (be16 v ++ bs).
Proof.
  intros Hb. rewrite put16Be_bytes. rewrite (put_then _ _ _ 2 bs _ Ok).
  - rewrite put_bytes_full by (autorewrite with blen; lia). done.
  - by autorewrite with blen.
  - intros. by destruct (put_bytes b' 2 bs).
Qed.

Lemma parse_wire h hd csrcs eb pb m :
  hdr_ok hd -> csrcCount hd = Z.of_nat (length csrcs) ->
  (extension hd = true -> blen eb = extensionLength hd) ->
  (extension hd = false -> eb = []) -> bytes_ok eb -> bytes_ok pb ->
  blen (rtp_bytes hd csrcs eb pb) < 2 ^ 32 ->
  let raw := rtp_bytes hd csrcs eb pb in
  setRtpPacketFromBytes h (Some raw) (blen raw) (Some m) = Ok (pkt_in raw hd (blen pb) m).
Proof.
  intros. cbv zeta. rewrite setRtpPacketFromBytes_parse by (by apply rtp_bytes_ok).
  by apply rtp_parse_bytes.
Qed.

Lemma rtx_wire_len h hd csrcs eb pb pb' seq pt ss :
  blen (rtp_bytes (rtx_header hd seq pt ss) (map (csrc_host h) csrcs) eb pb') =
  blen (rtp_bytes hd csrcs eb pb) + (blen pb' - blen pb).
Proof.
  unfold rtp_bytes. change (extension (rtx_header _ _ _ _)) with (extension hd).
  destruct (extension hd); autorewrite with blen; rewrite length_map; lia.
Qed.

(** Re-wrapping the wire image of a packet. *)
Lemma construct_rtx h hd csrcs eb pb m memP memR seq pt ss
  (Hok : hdr_ok hd) (Hcc : csrcCount hd = Z.of_nat (length csrcs)) (Hcs : Forall is_u32 csrcs)
  (He : extension hd = true -> blen eb = extensionLength hd)
  (He' : extension hd = false -> eb = []) (Heb : bytes_ok eb) (Hpb : bytes_ok pb)
  (Hlt : blen (rtp_bytes hd csrcs eb pb) + 2 < 2 ^ 32)
  (HmP : mem_avail memP) (HmR : mem_avail memR) :
  let raw := rtp_bytes hd csrcs eb pb in
  let osn := be16 (sequenceNumber hd) ++ pb in
  let wire := rtp_bytes (rtx_header hd seq pt ss) (map (csrc_host h) csrcs) eb osn in
  exists q,
    constructRetransmitRtpPacketFromBytes h (Some m) memP memR (Some raw) (blen raw) seq pt ss
      = Ok q /\
    pRawPacket q = Some wire /\ rawPacketLength q = blen wire /\
    ld_opt (payload q) (payloadLength q) = Ok osn.
Proof.
  cbv zeta. set (raw := rtp_bytes hd csrcs eb pb) in *.
  set (osn := be16 (sequenceNumber hd) ++ pb).
  destruct (pkt_in_reads hd csrcs eb pb m Hcc He) as (Hpl & _ & _).
  fold raw in Hpl. pose proof (blen_nonneg pb).
  assert (Hosn : blen osn = blen pb + 2) by (unfold osn; autorewrite with blen; lia).
  set (p' := rtx_packet raw hd pb m seq pt ss).
  pose proof (rtx_points h hd csrcs eb pb m seq pt ss Hcc Hcs He He') as HP.
  fold raw osn p' in HP.
  set (wire := rtp_bytes _ _ _ _).
  assert (Hw : rtp_bytes (header p') (map (csrc_host h) csrcs) eb osn = wire)
    by apply rtx_bytes_eq.
  assert (Hwl : blen wire = blen raw + 2).
  { unfold wire, raw. rewrite (rtx_wire_len h hd csrcs eb pb). unfold osn. blen_lia. }
  assert (Hcc' : 0 <= csrcCount (header p')) by (change (0 <= csrcCount hd); lia).
  pose proof (pkt_size _ _ _ _ _ HP Hcc') as Hsz. rewrite Hw in Hsz.
  unfold constructRetransmitRtpPacketFromBytes.
  pose proof (parse_wire h hd csrcs eb pb m Hok Hcc He He' Heb Hpb) as HPW. fold raw in HPW.
  cbv zeta in HPW. rewrite HPW by lia.
  destruct (HmP (blen pb + 2)) as (b1 & E1 & Hb1); [lia|].
  cbn [pkt_in payloadLength payload ld_opt] in Hpl |- *. rewrite E1.
  apply (osn_copy b1 (sequenceNumber hd) pb), res_bind_inv in Hb1 as (b2 & E2 & E3).
  change (sequenceNumber (header _)) with (sequenceNumber hd).
  rewrite E2. cbn [mbind res_bind]. rewrite Hpl. cbn [mbind res_bind]. rewrite E3.
  cbn [mbind res_bind]. fold osn.
  apply ld_bytes_inv in Hpl as (HL & _). cbn [p_off] in HL.
  replace (blen pb +32 2) with (blen osn) by (rewrite u32_id; unfold is_u32; lia).
  match goal with |- context [createBytesFromRtpPacket h ?p None 0] => change p with p' end.
  change (createBytesFromRtpPacket h p' None 0)
    with (Ok (STATUS_SUCCESS, @None (list Z), RTP_GET_RAW_PACKET_SIZE p')).
  cbn [mbind res_bind].
  destruct (HmR (RTP_GET_RAW_PACKET_SIZE p')) as (b3 & E4 & Hb3); [rewrite Hsz; lia|].
  rewrite E4, (createBytesFromRtpPacket_spec h p' (map (csrc_host h) csrcs) eb osn), Hw;
    [|done|done| |rewrite Hw; lia|done].
  2:{ change (extension hd = true -> extensionLength (hdr_in raw hd) mod 4 = 0). intros Ex.
      rewrite (proj2 (hdr_in_ext _ _ Ex)). by apply (ho_ext _ Hok). }
  cbn [mbind res_bind]. eexists. split; [reflexivity|]. split; [reflexivity|].
  change (payloadLength _) with (blen osn).
  split; [rewrite Hsz by lia; reflexivity|].
  change (RTP_GET_RAW_PACKET_SIZE _) with (RTP_GET_RAW_PACKET_SIZE p').
  rewrite Hsz by lia. apply rtp_bytes_payload.
Qed.

(** Re-wrapping a sent packet for an RTX stream (RFC 4588) succeeds when memory
    is available: the result is the wire image with the RTX sequence number, SSRC and
    payload type, the padding bit cleared, and a payload that is the original sequence
    number in network order followed by the original payload.  The CSRC list is the one
    the host reads natively, which on a little-endian host reverses each identifier. *)
Theorem constructRetransmit_spec h hd csrcs eb pb m memP memR seq pt ss
  (Hok : hdr_ok hd) (Hcc : csrcCount hd = Z.of_nat (length csrcs)) (Hcs : Forall is_u32 csrcs)
  (He : extension hd = true -> blen eb = extensionLength hd)
  (He' : extension hd = false -> eb = []) (Heb : bytes_ok eb) (Hpb : bytes_ok pb)
  (Hlt : blen (rtp_bytes hd csrcs eb pb) + 2 < 2 ^ 32)
  (HmP : mem_avail memP) (HmR : mem_avail memR) :
  let raw := rtp_bytes hd csrcs eb pb in
  let osn := be16 (sequenceNumber hd) ++ pb in
  let wire := rtp_bytes (rtx_header hd seq pt ss) (map (csrc_host h) csrcs) eb osn in
  exists q,
    constructRetransmitRtpPacketFromBytes h (Some m) memP memR (Some raw) (blen raw) seq pt ss
      = Ok q /\
    pRawPacket q = Some wire /\ rawPacketLength q = blen wire /\
    ld_opt (payload q) (payloadLength q) = Ok osn.
Proof. by apply construct_rtx. Qed.

(** ** Packetisation *)

Definition Zsum (l : list Z) : Z := foldr Z.add 0 l.

(** The [k]-th packet [constructRtpPackets] writes over [old]. *)
Definition rtp_slice (pa : PayloadArray) (pt startSeq ts ss : Z) (k : nat) (len : Z)
    (old : RtpPacket) : RtpPacket :=
  {| header := {| version := 2; padding := false; extension := false;
                  marker := Z.of_nat k =? payloadSubLenSize pa - 1;
                  csrcCount := 0; payloadType := pt;
                  sequenceNumber := (startSeq + Z.of_nat k) mod 2 ^ 16;
                  timestamp := ts; ssrc := ss; csrcArray := None; extensionProfile := 0;
                  extensionPayload := None; extensionLength := 0 |};
     payload := Some (Ptr (payloadBuffer pa) (Zsum (take k (payloadSubLength pa))));
     payloadLength := len;
     pRawPacket := pRawPacket old; rawPacketLength := rawPacketLength old;
     receivedTime := receivedTime old; sentTime := sentTime old; isSynthetic := isSynthetic old |}.

Lemma GET_UINT16_SEQ_NUM_mod x : GET_UINT16_SEQ_NUM x = x mod 2 ^ 16.
Proof. unfold GET_UINT16_SEQ_NUM. width_lia. Qed.

Lemma Zsum_app a b : Zsum (a ++ b) = Zsum a + Zsum b.
Proof. induction a; simpl; [done|unfold Zsum in *; simpl; lia]. Qed.

Lemma fillPackets_spec pa pt start ts ss pre subs ps :
  payloadSubLength pa = pre ++ subs -> (length subs <= length ps)%nat ->
  0 < payloadSubLenSize pa < 2 ^ 32 ->
  fillPackets subs pa (Z.of_nat (length pre)) pt ((start + Z.of_nat (length pre)) mod 2 ^ 16)
    ts ss (Zsum pre) ps =
  Ok (imap (fun k len_old => rtp_slice pa pt start ts ss (length pre + k) len_old.1 len_old.2)
           (zip subs ps) ++ drop (length subs) ps).
Proof.
  intros Hs Hl Hn. revert pre ps Hs Hl.
  induction subs as [|len subs IH]; intros pre ps Hs Hl; [done|].
  destruct ps as [|p ps]; [simpl in Hl; lia|]. cbn [fillPackets zip_with].
  unfold setRtpPacket at 1. cbn [negb orb mbind res_bind].
  rewrite GET_UINT16_SEQ_NUM_mod.
  specialize (IH (pre ++ [len]) ps). rewrite length_app in IH. simpl length in IH.
  rewrite Zsum_app in IH. replace (Zsum pre + Zsum [len]) with (Zsum pre + len) in IH
    by (unfold Zsum; simpl; lia).
  replace (Z.of_nat (length pre + 1)) with (Z.of_nat (length pre) + 1) in IH by lia.
  rewrite Z.add_assoc, <- Zplus_mod_idemp_l in IH.
  rewrite IH by (rewrite <- ?(assoc_L (++)); simpl in *; done || lia).
  cbn [mbind res_bind imap]. f_equal. cbn [app length drop]. f_equal.
  - unfold rtp_slice. rewrite Hs, Nat.add_0_r, take_app_length.
    rewrite (u32_id (payloadSubLenSize pa - 1)) by (unfold is_u32; lia). reflexivity.
  - f_equal. apply imap_ext. intros k x _. cbn.
    by replace (length pre + 1 + k)%nat with (length pre + S k)%nat by lia.
Qed.

(** Packetising a frame of [n] payload slices over an array of at least [n] packets
    succeeds and writes packet [k] with sequence number [start + k] modulo 2^16, the
    marker bit on the last slice only, the common timestamp, SSRC and payload type, and
    the [k]-th slice of the payload buffer; the array's other packets are unchanged. *)
Theorem constructRtpPackets_spec pa pt start ts ss ps
  (Hlen : 0 < arrPayloadLength pa) (Hseq : is_u16 start)
  (Hn : 0 < payloadSubLenSize pa < 2 ^ 32)
  (Hsubs : Z.of_nat (length (payloadSubLength pa)) = payloadSubLenSize pa)
  (Hps : payloadSubLenSize pa <= Z.of_nat (length ps)) :
  constructRtpPackets (Some pa) pt start ts ss (Some ps) (Z.of_nat (length ps)) =
  Ok (STATUS_SUCCESS,
      Some (imap (fun k len_old => rtp_slice pa pt start ts ss k len_old.1 len_old.2)
                 (zip (payloadSubLength pa) ps)
            ++ drop (length (payloadSubLength pa)) ps)).
Proof.
  unfold constructRtpPackets. rewrite (proj2 (Z.ltb_lt _ _)) by done.
  rewrite (proj2 (Z.leb_le _ _)) by done. cbn [negb].
  unfold blen. rewrite (proj2 (Z.ltb_ge _ _)) by lia.
  rewrite take_ge by lia.
  pose proof (fillPackets_spec pa pt start ts ss [] (payloadSubLength pa) ps eq_refl) as H.
  cbn [length Zsum foldr Nat.add] in H. rewrite Z.add_0_r, Z.mod_small in H by done.
  change (Z.of_nat 0) with 0 in H. rewrite H by lia. done.
Qed.

(** ** Concrete instances *)

Definition ex_hdr : RtpPacketHeader :=
  {| version := 2; padding := true; extension := true; marker := true; csrcCount := 1;
     payloadType := 96; sequenceNumber := 0xFFFE; timestamp := 0x01020304; ssrc := 0xDEADBEEF;
     csrcArray := Some (Ptr [1; 2; 3; 4] 0); extensionProfile := 0xBEDE;
     extensionPayload := Some (Ptr [9; 0x10; 7; 0; 0; 9] 1); extensionLength := 4 |}.
Definition ex_pkt : RtpPacket :=
  {| header := ex_hdr; payload := Some (Ptr [5; 6; 7] 1); payloadLength := 2; pRawPacket := None;
     rawPacketLength := 0; receivedTime := 0; sentTime := 0; isSynthetic := false |}.
Definition ex_csrcs : list Z := [0x04030201].
Definition ex_ext : list Z := [0x10; 7; 0; 0].
Definition ex_pl : list Z := [6; 7].

Lemma ex_hdr_ok : hdr_ok ex_hdr.
Proof. split; try (vm_compute; intuition congruence); intros _; vm_compute; intuition congruence. Qed.

Lemma ex_points : pkt_points LittleEndian ex_pkt ex_csrcs ex_ext ex_pl.
Proof. split; try reflexivity. exists (Ptr [9; 0x10; 7; 0; 0; 9] 1). split; reflexivity. Qed.

Lemma rtp_roundtrip_witness :
  let raw := rtp_bytes ex_hdr ex_csrcs ex_ext ex_pl in
  setBytesFromRtpPacket LittleEndian ex_pkt (Some (replicate 26 0)) 26 = Ok (STATUS_SUCCESS, raw)
  /\ setRtpPacketFromBytes BigEndian (Some raw) 26 (Some ex_pkt)
     = Ok (pkt_in raw ex_hdr 2 ex_pkt).
Proof.
  destruct (rtp_roundtrip LittleEndian BigEndian ex_pkt ex_csrcs ex_ext ex_pl (replicate 26 0)
              ex_pkt ex_points ex_hdr_ok (bytes_ok_check ex_ext eq_refl)
              (bytes_ok_check ex_pl eq_refl) eq_refl eq_refl) as (H1&H2&_).
  split; [exact H1|exact H2].
Defined.

(** A 12-byte packet with the X bit set: the extension header is read past its end. *)
Definition ex_short : list Z := 0x90 :: replicate 11 0.

Lemma setRtpPacketFromBytes_fault_iff_witness :
  setRtpPacketFromBytes LittleEndian (Some ex_short) (blen ex_short) (Some ex_pkt) = Fault.
Proof.
  apply (setRtpPacketFromBytes_fault_iff LittleEndian ex_short ex_pkt
           (bytes_ok_check ex_short eq_refl)); vm_compute; intuition congruence.
Defined.

(** A 16-byte packet whose extension announces 65535 words. *)
Definition ex_wrap : list Z := 0x90 :: replicate 13 0 ++ [0xFF; 0xFF].
Definition parsed (r : res RtpPacket) : RtpPacket := match r with Ok q => q | _ => ex_pkt end.

Lemma setRtpPacketFromBytes_payload_witness :
  let q := parsed (setRtpPacketFromBytes LittleEndian (Some ex_wrap) (blen ex_wrap) (Some ex_pkt)) in
  exists off, payload q = Some (Ptr ex_wrap off) /\ 12 <= off.
Proof.
  cbv zeta.
  destruct (setRtpPacketFromBytes_payload LittleEndian ex_wrap ex_pkt
    (parsed (setRtpPacketFromBytes LittleEndian (Some ex_wrap) (blen ex_wrap) (Some ex_pkt))))
    as (off & H1 & H2 & _).
  - by apply bytes_ok_check.
  - vm_compute; intuition congruence.
  - reflexivity.
  - exists off. split; [exact H1|exact H2].
Defined.

Lemma constructRetransmit_spec_witness :
  exists q, constructRetransmitRtpPacketFromBytes LittleEndian (Some ex_pkt)
    (fun n => Some (replicate (Z.to_nat n) 0)) (fun n => Some (replicate (Z.to_nat n) 0))
    (Some (rtp_bytes ex_hdr ex_csrcs ex_ext ex_pl)) 26 7 97 0x55 = Ok q
    /\ rawPacketLength q = 28.
Proof.
  destruct (constructRetransmit_spec LittleEndian ex_hdr ex_csrcs ex_ext ex_pl ex_pkt
    (fun n => Some (replicate (Z.to_nat n) 0)) (fun n => Some (replicate (Z.to_nat n) 0))
    7 97 0x55 ex_hdr_ok eq_refl) as (q & H1 & H2 & H3 & H4).
  - repeat constructor; vm_compute; intuition congruence.
  - reflexivity.
  - discriminate.
  - by apply bytes_ok_check.
  - by apply bytes_ok_check.
  - reflexivity.
  - intros n Hn. eexists. split; [reflexivity|]. unfold blen. rewrite length_replicate. lia.
  - intros n Hn. eexists. split; [reflexivity|]. unfold blen. rewrite length_replicate. lia.
  - exists q. split; [exact H1|exact H3].
Defined.

(** Five bytes in slices of three and two. *)
Definition ex_frame : PayloadArray := Build_PayloadArray [1; 2; 3; 4; 5] 5 5 [3; 2] 2 2.

Lemma constructRtpPackets_spec_witness :
  constructRtpPackets (Some ex_frame) 96 0xFFFF 10 20
    (Some [ex_pkt; ex_pkt; ex_pkt]) 3 =
  Ok (STATUS_SUCCESS,
      Some [rtp_slice ex_frame 96 0xFFFF 10 20 0 3 ex_pkt;
            rtp_slice ex_frame 96 0xFFFF 10 20 1 2 ex_pkt;
            ex_pkt]).
Proof.
  apply (constructRtpPackets_spec ex_frame 96 0xFFFF 10 20
           [ex_pkt; ex_pkt; ex_pkt]); vm_compute; intuition congruence.
Defined.
