(* ===== verification/RollingBuffer.v ===== *)
(** * Rolling buffers (src/source/Rtcp/RollingBuffer.c, RtpRollingBuffer.c)

    The circular store of sent packets that retransmission draws from.  A slot
    of the UINT64 array is [None] for NULL and [Some a] for a handle to [a].  The
    abstract view of a buffer is the window of the most recent items, numbered
    consecutively from [tailIndex]; the operations are shown to implement the
    window's operations.  The lock around each operation makes the operations
    atomic, so they are modelled as sequential state transformers. *)

From S2P Require Import Prelude Endian RtpPacket.

Section RollingBuffer.
Context {A : Type}.

(** [freeDataFn] receives a pointer to the slot: its status and the slot's new
    content are its result.  [freed] records the contents it was called on. *)
Set Primitive Projections.
Record RollingBuffer : Type := {
  capacity : Z;
  headIndex : Z;
  tailIndex : Z;
  dataBuffer : list (option A);
  freeDataFn : option (option A -> STATUS * option A);
  freed : list (option A);
}.
Unset Primitive Projections.

#[export] Instance upd_headIndex : Update headIndex. Proof. derive_update. Defined.
#[export] Instance upd_tailIndex : Update tailIndex. Proof. derive_update. Defined.
#[export] Instance upd_dataBuffer : Update dataBuffer. Proof. derive_update. Defined.
#[export] Instance upd_freed : Update freed. Proof. derive_update. Defined.

Definition ROLLING_BUFFER_MAP_INDEX (rb : RollingBuffer) (index : Z) : Z :=
  index mod capacity rb.

(** [dataBuffer[i]] as a value and as an assignment. *)
Definition getData (rb : RollingBuffer) (i : Z) : res (option A) :=
  match dataBuffer rb !! Z.to_nat i with Some d => Ok d | None => Fault end.
Definition setData (rb : RollingBuffer) (i : Z) (d : option A) : res RollingBuffer :=
  match dataBuffer rb !! Z.to_nat i with
  | Some _ => Ok (rb <| dataBuffer := <[Z.to_nat i := d]> (dataBuffer rb) |>)
  | None => Fault
  end.

(** The call [freeDataFn(dataBuffer + i)]. *)
Definition callFree (rb : RollingBuffer) (f : option A -> STATUS * option A) (i : Z)
    : res (STATUS * RollingBuffer) :=
  d ← getData rb i;
  rb' ← setData rb i (f d).2;
  Ok ((f d).1, rb' <| freed := freed rb' ++ [d] |>).

(** ** createRollingBuffer

    [memOk] tells whether MEMALLOC succeeded, [ppOk] that the out pointer is not NULL. *)
Definition createRollingBuffer (memOk : bool) (cap : Z)
    (f : option (option A -> STATUS * option A)) (ppOk : bool) : res RollingBuffer :=
  CHK negb (cap =? 0) else STATUS_INVALID_ARG ;;
  CHK ppOk else STATUS_NULL_ARG ;;
  CHK memOk else STATUS_NOT_ENOUGH_MEMORY ;;
  Ok {| capacity := cap; headIndex := 0; tailIndex := 0;
        dataBuffer := replicate (Z.to_nat cap) None; freeDataFn := f; freed := [] |}.

(** ** freeRollingBuffer: the loop over the window, with [n] iterations left. *)
Fixpoint freeLoop (n : nat) (rb : RollingBuffer) : res RollingBuffer :=
  if tailIndex rb <? headIndex rb then
    match n with
    | O => Fault
    | S n =>
        rb ← (match freeDataFn rb with
              | Some f =>
                  let i := ROLLING_BUFFER_MAP_INDEX rb (tailIndex rb) in
                  '(_, rb) ← callFree rb f i;
                  setData rb i None
              | None => Ok rb
              end);
        freeLoop n (rb <| tailIndex := u64 (tailIndex rb + 1) |>)
    end
  else Ok rb.

Definition freeRollingBuffer (pp : option (option RollingBuffer)) : res (option RollingBuffer) :=
  match pp with
  | None => Err STATUS_NULL_ARG
  | Some None => Ok None
  | Some (Some rb) =>
      rb ← freeLoop (Z.to_nat (headIndex rb - tailIndex rb)) rb;
      Ok (Some rb)
  end.

(** ** rollingBufferAppendData

    Returns the status, the buffer and the value stored through [pIndex]. *)
Definition rollingBufferAppendData (p : option RollingBuffer) (data : option A)
    : res (STATUS * RollingBuffer * option Z) :=
  match p with
  | None => Err STATUS_NULL_ARG
  | Some rb =>
      if headIndex rb =? tailIndex rb then
        rb ← setData rb (ROLLING_BUFFER_MAP_INDEX rb (tailIndex rb)) data;
        let rb := rb <| headIndex := u64 (tailIndex rb + 1) |> in
        Ok (STATUS_SUCCESS, rb, Some (u64 (headIndex rb - 1)))
      else
        '(st, rb) ←
          (if headIndex rb =? u64 (tailIndex rb + capacity rb) then
             '(st, rb) ←
               (match freeDataFn rb with
                | Some f => callFree rb f (ROLLING_BUFFER_MAP_INDEX rb (tailIndex rb))
                | None => Ok (STATUS_SUCCESS, rb)
                end);
             if STATUS_FAILED st then Ok (st, rb)
             else Ok (st, rb <| tailIndex := u64 (tailIndex rb + 1) |>)
           else Ok (STATUS_SUCCESS, rb));
        if STATUS_FAILED st then Ok (st, rb, None) else
        rb ← setData rb (ROLLING_BUFFER_MAP_INDEX rb (headIndex rb)) data;
        let rb := rb <| headIndex := u64 (headIndex rb + 1) |> in
        Ok (STATUS_SUCCESS, rb, Some (u64 (headIndex rb - 1)))
  end.

(** ** rollingBufferInsertData *)
Definition rollingBufferInsertData (p : option RollingBuffer) (index : Z) (data : option A)
    : res (STATUS * RollingBuffer) :=
  match p with
  | None => Err STATUS_NULL_ARG
  | Some rb =>
      if negb ((index <? headIndex rb) && (tailIndex rb <=? index))
      then Ok (STATUS_ROLLING_BUFFER_NOT_IN_RANGE, rb) else
      let i := ROLLING_BUFFER_MAP_INDEX rb index in
      d ← getData rb i;
      rb ← (match d, freeDataFn rb with
            | Some _, Some f => '(_, rb) ← callFree rb f i; Ok rb
            | _, _ => Ok rb
            end);
      rb ← setData rb i data;
      Ok (STATUS_SUCCESS, rb)
  end.

(** ** rollingBufferExtractData

    Returns the buffer and the value stored through [pData]. *)
Definition rollingBufferExtractData (p : option RollingBuffer) (index : Z)
    : res (RollingBuffer * option A) :=
  match p with
  | None => Err STATUS_NULL_ARG
  | Some rb =>
      if (index <? headIndex rb) && (tailIndex rb <=? index) then
        let i := ROLLING_BUFFER_MAP_INDEX rb index in
        d ← getData rb i;
        match d with
        | Some _ => rb ← setData rb i None; Ok (rb, d)
        | None => Ok (rb, d)
        end
      else Ok (rb, None)
  end.

(** ** rollingBufferGetSize, rollingBufferIsEmpty *)
Definition rollingBufferGetSize (p : option RollingBuffer) : res Z :=
  match p with
  | None => Err STATUS_NULL_ARG
  | Some rb => Ok (u32 (headIndex rb - tailIndex rb))
  end.
Definition rollingBufferIsEmpty (p : option RollingBuffer) : res bool :=
  match p with
  | None => Err STATUS_NULL_ARG
  | Some rb => Ok (headIndex rb =? tailIndex rb)
  end.

(** ** The abstract window

    [w_items] are the items numbered [w_tail], [w_tail + 1], ... *)
Record Window : Type := { w_tail : Z; w_items : list (option A) }.

Definition w_head (w : Window) : Z := w_tail w + Z.of_nat (length (w_items w)).

(** Appending drops the oldest item of a full window. *)
Definition w_append (cap : Z) (d : option A) (w : Window) : Window :=
  if Z.of_nat (length (w_items w)) =? cap
  then {| w_tail := w_tail w + 1; w_items := tail (w_items w) ++ [d] |}
  else {| w_tail := w_tail w; w_items := w_items w ++ [d] |}.

Definition w_get (w : Window) (i : Z) : option (option A) :=
  if w_tail w <=? i then w_items w !! Z.to_nat (i - w_tail w) else None.
Definition w_set (w : Window) (i : Z) (d : option A) : Window :=
  {| w_tail := w_tail w; w_items := <[Z.to_nat (i - w_tail w) := d]> (w_items w) |}.

Definition slot (rb : RollingBuffer) (i : Z) : option A :=
  default None (dataBuffer rb !! Z.to_nat (i mod capacity rb)).

Definition abs (rb : RollingBuffer) : Window :=
  {| w_tail := tailIndex rb;
     w_items := map (slot rb) (seqZ (tailIndex rb) (headIndex rb - tailIndex rb)) |}.

(** Representation invariant. *)
Record rb_ok (rb : RollingBuffer) : Prop := {
  ok_cap : 0 < capacity rb < 2 ^ 32;
  ok_len : Z.of_nat (length (dataBuffer rb)) = capacity rb;
  ok_tail : 0 <= tailIndex rb <= headIndex rb;
  ok_full : headIndex rb <= tailIndex rb + capacity rb;
  ok_head : headIndex rb < 2 ^ 64 - 2 ^ 32;
}.
End RollingBuffer.
Arguments RollingBuffer : clear implicits.
Arguments Window : clear implicits.

Section Refinement.
Context {A : Type}.
Implicit Types rb : RollingBuffer A.

(** The buffer with slot of index [i] assigned. *)
Definition upd_slot rb (i : Z) (d : option A) : RollingBuffer A :=
  rb <| dataBuffer := <[Z.to_nat (i mod capacity rb) := d]> (dataBuffer rb) |>.

Lemma map_index_lt rb i : rb_ok rb -> (Z.to_nat (i mod capacity rb) < length (dataBuffer rb))%nat.
Proof. intros [? ? _ _ _]. pose proof (Z.mod_pos_bound i (capacity rb)). lia. Qed.

Lemma getData_slot rb i : rb_ok rb -> getData rb (ROLLING_BUFFER_MAP_INDEX rb i) = Ok (slot rb i).
Proof.
  intros H. unfold getData, slot, ROLLING_BUFFER_MAP_INDEX.
  destruct (lookup_lt_is_Some_2 _ _ (map_index_lt rb i H)) as [d Hd]. by rewrite Hd.
Qed.

Lemma setData_slot rb i d :
  rb_ok rb -> setData rb (ROLLING_BUFFER_MAP_INDEX rb i) d = Ok (upd_slot rb i d).
Proof.
  intros H. unfold setData, ROLLING_BUFFER_MAP_INDEX.
  destruct (lookup_lt_is_Some_2 _ _ (map_index_lt rb i H)) as [d' Hd]. by rewrite Hd.
Qed.

Lemma upd_slot_ok rb i d : rb_ok rb -> rb_ok (upd_slot rb i d).
Proof. intros [? ? ? ? ?]. split; try done. cbn. by rewrite length_insert. Qed.

Lemma slot_upd rb i j d :
  slot (upd_slot rb i d) j =
  default None (<[Z.to_nat (i mod capacity rb) := d]> (dataBuffer rb)
                !! Z.to_nat (j mod capacity rb)).
Proof. reflexivity. Qed.

Lemma slot_upd_same rb i d : rb_ok rb -> slot (upd_slot rb i d) i = d.
Proof.
  intros H. rewrite slot_upd. by rewrite list_lookup_insert_eq by by apply map_index_lt.
Qed.

(** Indices less than a capacity apart map to different slots. *)
Lemma map_index_inj rb i j :
  rb_ok rb -> i mod capacity rb = j mod capacity rb -> Z.abs (i - j) < capacity rb -> i = j.
Proof.
  intros [? _ _ _ _] E Hd. pose proof (Z.div_mod i (capacity rb)). pose proof (Z.div_mod j (capacity rb)).
  assert (Eq : i - j = capacity rb * (i / capacity rb - j / capacity rb)) by lia.
  destruct (Z.lt_trichotomy (i / capacity rb - j / capacity rb) 0) as [?|[E0|?]]; [nia| |nia].
  rewrite E0 in Eq. lia.
Qed.

Lemma slot_upd_other rb i j d :
  rb_ok rb -> i <> j -> Z.abs (i - j) < capacity rb -> slot (upd_slot rb i d) j = slot rb j.
Proof.
  intros H Hne Hd. rewrite slot_upd. rewrite list_lookup_insert_ne; [done|].
  intros E. apply Hne, (map_index_inj rb); [done| |done].
  pose proof (ok_cap _ H). pose proof (Z.mod_pos_bound i (capacity rb)).
  pose proof (Z.mod_pos_bound j (capacity rb)). lia.
Qed.

(** What a call of [freeDataFn] on the slot of index [i] leaves. *)
Definition freed_slot rb (f : option A -> STATUS * option A) (i : Z) : RollingBuffer A :=
  (upd_slot rb i (f (slot rb i)).2) <| freed := freed rb ++ [slot rb i] |>.

Lemma callFree_slot rb f i :
  rb_ok rb ->
  callFree rb f (ROLLING_BUFFER_MAP_INDEX rb i) = Ok ((f (slot rb i)).1, freed_slot rb f i).
Proof.
  intros H. unfold callFree. rewrite getData_slot by done. cbn [mbind res_bind].
  rewrite setData_slot by done. done.
Qed.

Lemma abs_items_length rb :
  rb_ok rb -> Z.of_nat (length (w_items (abs rb))) = headIndex rb - tailIndex rb.
Proof. intros [_ _ ? _ _]. cbn. rewrite length_map, length_seqZ. lia. Qed.

Lemma abs_get rb i :
  rb_ok rb ->
  w_get (abs rb) i = if (i <? headIndex rb) && (tailIndex rb <=? i) then Some (slot rb i) else None.
Proof.
  intros H. unfold w_get. cbn [abs w_tail w_items].
  destruct (Z.leb_spec (tailIndex rb) i); [|by rewrite andb_false_r].
  rewrite list_lookup_fmap. destruct (Z.ltb_spec i (headIndex rb)); cbn [andb].
  - rewrite lookup_seqZ_lt by lia. cbn. f_equal. f_equal. lia.
  - rewrite lookup_seqZ_ge by lia. done.
Qed.

(** Assigning a slot of the window assigns the window's item. *)
Lemma abs_upd_slot rb i d :
  rb_ok rb -> tailIndex rb <= i < headIndex rb -> abs (upd_slot rb i d) = w_set (abs rb) i d.
Proof.
  intros H Hi. pose proof (ok_full _ H). unfold abs, w_set. cbn [w_tail w_items]. f_equal.
  apply list_eq. intros k. change (tailIndex (upd_slot rb i d)) with (tailIndex rb).
  change (headIndex (upd_slot rb i d)) with (headIndex rb).
  destruct (decide (Z.of_nat k < headIndex rb - tailIndex rb)) as [Hk|Hk].
  - rewrite list_lookup_fmap, lookup_seqZ_lt by done. cbn.
    destruct (decide (Z.to_nat (i - tailIndex rb) = k)) as [<-|Hne].
    + rewrite list_lookup_insert_eq by (rewrite length_map, length_seqZ; lia).
      replace (tailIndex rb + Z.of_nat (Z.to_nat (i - tailIndex rb))) with i by lia.
      by rewrite slot_upd_same.
    + rewrite list_lookup_insert_ne, list_lookup_fmap, lookup_seqZ_lt by done. cbn.
      rewrite slot_upd_other by (done || lia). done.
  - rewrite !lookup_ge_None_2; [done|..];
      rewrite ?length_insert, length_map, length_seqZ; lia.
Qed.

(** Writing behind the head and advancing it appends an item. *)
Lemma abs_push rb d :
  rb_ok rb -> headIndex rb < tailIndex rb + capacity rb ->
  abs ((upd_slot rb (headIndex rb) d) <| headIndex := headIndex rb + 1 |>) =
  {| w_tail := tailIndex rb; w_items := w_items (abs rb) ++ [d] |}.
Proof.
  intros H Hc. pose proof (ok_tail _ H). unfold abs. cbn [w_items]. f_equal.
  change (headIndex ((upd_slot _ _ _) <| headIndex := _ |>)) with (headIndex rb + 1).
  change (tailIndex ((upd_slot _ _ _) <| headIndex := _ |>)) with (tailIndex rb).
  replace (headIndex rb + 1 - tailIndex rb) with ((headIndex rb - tailIndex rb) + 1) by lia.
  rewrite seqZ_app, map_app by lia. f_equal.
  - apply map_ext_in. intros i Hi%list_elem_of_In%elem_of_seqZ.
    apply (slot_upd_other rb); [done|lia..].
  - replace (tailIndex rb + (headIndex rb - tailIndex rb)) with (headIndex rb) by lia.
    change (seqZ (headIndex rb) 1) with [headIndex rb]. cbn [map]. f_equal.
    by apply (slot_upd_same rb).
Qed.

(** The oldest item leaves the window when the tail advances. *)
Lemma abs_pop rb :
  rb_ok rb -> tailIndex rb < headIndex rb ->
  w_items (abs rb) = slot rb (tailIndex rb)
                     :: map (slot rb) (seqZ (tailIndex rb + 1) (headIndex rb - (tailIndex rb + 1))).
Proof.
  intros H Hlt. cbn [abs w_items].
  replace (headIndex rb - tailIndex rb) with (1 + (headIndex rb - (tailIndex rb + 1))) by lia.
  rewrite seqZ_app by lia. done.
Qed.

Lemma advance_tail_ok rb t :
  rb_ok rb -> tailIndex rb <= t <= headIndex rb -> rb_ok (rb <| tailIndex := t |>).
Proof.
  intros [? ? ? ? ?] ?. split; try done.
  - change (0 <= t <= headIndex rb). lia.
  - change (headIndex rb <= t + capacity rb). lia.
Qed.

Lemma freed_slot_ok rb f i : rb_ok rb -> rb_ok (freed_slot rb f i).
Proof. intros H. destruct (upd_slot_ok rb i (f (slot rb i)).2 H). by split. Qed.

(** The step that makes room: the oldest item is handed to [freeDataFn] and the
    tail advances. *)
Definition evicted rb : RollingBuffer A :=
  (match freeDataFn rb with Some f => freed_slot rb f (tailIndex rb) | None => rb end)
    <| tailIndex := tailIndex rb + 1 |>.

Definition frees_ok rb : Prop :=
  forall f d, freeDataFn rb = Some f -> (f d).1 = STATUS_SUCCESS.

Lemma evicted_ok rb : rb_ok rb -> tailIndex rb < headIndex rb -> rb_ok (evicted rb).
Proof.
  intros H Hlt. unfold evicted. destruct (freeDataFn rb) as [f|].
  - apply (advance_tail_ok (freed_slot rb f (tailIndex rb))); [by apply freed_slot_ok|].
    change (tailIndex rb <= tailIndex rb + 1 <= headIndex rb). lia.
  - apply advance_tail_ok; [done|lia].
Qed.

Lemma abs_drop rb :
  rb_ok rb -> tailIndex rb < headIndex rb ->
  abs (rb <| tailIndex := tailIndex rb + 1 |>) =
  {| w_tail := tailIndex rb + 1; w_items := tail (w_items (abs rb)) |}.
Proof. intros H Hlt. by rewrite abs_pop by done. Qed.

Lemma abs_drop_upd rb d :
  rb_ok rb -> tailIndex rb < headIndex rb ->
  abs ((upd_slot rb (tailIndex rb) d) <| tailIndex := tailIndex rb + 1 |>) =
  {| w_tail := tailIndex rb + 1; w_items := tail (w_items (abs rb)) |}.
Proof.
  intros H Hlt. pose proof (ok_full _ H). rewrite <- abs_drop by done. unfold abs. f_equal.
  apply map_ext_in. intros i Hi%list_elem_of_In%elem_of_seqZ.
  change (slot (upd_slot rb (tailIndex rb) d) i = slot rb i).
  change (tailIndex rb + 1 <= i < tailIndex rb + 1 + (headIndex rb - (tailIndex rb + 1))) in Hi.
  apply slot_upd_other; [done|lia..].
Qed.

Lemma abs_evicted rb :
  rb_ok rb -> tailIndex rb < headIndex rb ->
  abs (evicted rb) = {| w_tail := tailIndex rb + 1; w_items := tail (w_items (abs rb)) |}.
Proof.
  intros H Hlt. unfold evicted. destruct (freeDataFn rb) as [f|]; [|by apply abs_drop].
  exact (abs_drop_upd rb _ H Hlt).
Qed.

Lemma evicted_freed rb :
  freed (evicted rb) = freed rb ++ match freeDataFn rb with
                              | Some _ => [slot rb (tailIndex rb)] | None => [] end.
Proof. unfold evicted. destruct (freeDataFn rb); [done|]. by rewrite app_nil_r. Qed.

(** The store behind the head, as the code does it. *)
Lemma push_eq rb d :
  rb_ok rb -> headIndex rb + 1 < 2 ^ 64 - 2 ^ 32 ->
  (rb ← setData rb (ROLLING_BUFFER_MAP_INDEX rb (headIndex rb)) d;
   let rb := rb <| headIndex := u64 (headIndex rb + 1) |> in
   Ok (STATUS_SUCCESS, rb, Some (u64 (headIndex rb - 1)))) =
  Ok (STATUS_SUCCESS, (upd_slot rb (headIndex rb) d) <| headIndex := headIndex rb + 1 |>,
      Some (headIndex rb)).
Proof.
  intros H Hh. pose proof (ok_tail _ H). rewrite setData_slot by done. cbn [mbind res_bind].
  change (headIndex (upd_slot _ _ _)) with (headIndex rb).
  rewrite (u64_id (headIndex rb + 1)) by (unfold is_u64; lia).
  change (headIndex ((upd_slot _ _ _) <| headIndex := ?x |>)) with x.
  rewrite u64_id by (unfold is_u64; lia). repeat f_equal. lia.
Qed.

Lemma push_ok rb d :
  rb_ok rb -> headIndex rb < tailIndex rb + capacity rb -> headIndex rb + 1 < 2 ^ 64 - 2 ^ 32 ->
  rb_ok ((upd_slot rb (headIndex rb) d) <| headIndex := headIndex rb + 1 |>).
Proof.
  intros H Hc Hh. destruct (upd_slot_ok rb (headIndex rb) d H) as [? ? _ _ _].
  pose proof (ok_tail _ H). split; try done.
  - change (0 <= tailIndex rb <= headIndex rb + 1). lia.
  - change (headIndex rb + 1 <= tailIndex rb + capacity rb). lia.
Qed.

Lemma evicted_fields rb :
  headIndex (evicted rb) = headIndex rb /\ tailIndex (evicted rb) = tailIndex rb + 1 /\
  capacity (evicted rb) = capacity rb /\ freeDataFn (evicted rb) = freeDataFn rb.
Proof. unfold evicted. by destruct (freeDataFn rb) as [f|] eqn:E. Qed.

(** Making room, as the code does it. *)
Lemma evict_eq rb :
  rb_ok rb -> frees_ok rb -> tailIndex rb < headIndex rb ->
  ('(st, rb') ← (match freeDataFn rb with
                 | Some f => callFree rb f (ROLLING_BUFFER_MAP_INDEX rb (tailIndex rb))
                 | None => Ok (STATUS_SUCCESS, rb)
                 end);
   if STATUS_FAILED st then Ok (st, rb')
   else Ok (st, rb' <| tailIndex := u64 (tailIndex rb' + 1) |>)) =
  Ok (STATUS_SUCCESS, evicted rb).
Proof.
  intros H Hf Hlt. pose proof (ok_head _ H). pose proof (ok_tail _ H).
  assert (Hu : u64 (tailIndex rb + 1) = tailIndex rb + 1) by (apply u64_id; unfold is_u64; lia).
  unfold evicted. destruct (freeDataFn rb) as [f|] eqn:E.
  - rewrite callFree_slot by done. cbn [mbind res_bind]. rewrite (Hf f _ E).
    change (STATUS_FAILED STATUS_SUCCESS) with false. cbv iota.
    change (tailIndex (freed_slot _ _ _)) with (tailIndex rb). by rewrite Hu.
  - cbn [mbind res_bind]. change (STATUS_FAILED STATUS_SUCCESS) with false. cbv iota.
    by rewrite Hu.
Qed.

(** The slots [freeDataFn] receives when an item is appended. *)
Definition evicts rb : list (option A) :=
  if headIndex rb =? tailIndex rb + capacity rb
  then match freeDataFn rb with Some _ => [slot rb (tailIndex rb)] | None => [] end
  else [].

Lemma append_refines rb d
  (Hok : rb_ok rb) (Hf : frees_ok rb) (Hh : headIndex rb + 1 < 2 ^ 64 - 2 ^ 32) :
  exists rb',
    rollingBufferAppendData (Some rb) d = Ok (STATUS_SUCCESS, rb', Some (headIndex rb)) /\
    rb_ok rb' /\ abs rb' = w_append (capacity rb) d (abs rb) /\
    capacity rb' = capacity rb /\ freeDataFn rb' = freeDataFn rb /\
    freed rb' = freed rb ++ evicts rb.
Proof.
  pose proof (abs_items_length rb Hok) as Hl. destruct (ok_cap _ Hok) as [Hc Hc'].
  unfold rollingBufferAppendData, w_append, evicts. rewrite Hl.
  pose proof (ok_tail _ Hok). pose proof (ok_full _ Hok).
  destruct (Z.eqb_spec (headIndex rb) (tailIndex rb)) as [E|E].
  - rewrite <- E. change (u64 (tailIndex ?r + 1)) with (u64 (tailIndex r + 1)).
    rewrite (proj2 (Z.eqb_neq _ _)) by lia. rewrite (proj2 (Z.eqb_neq _ _)) by lia.
    pose proof (push_eq rb d Hok Hh) as HP. rewrite setData_slot in HP |- * by done.
    cbn [mbind res_bind] in HP |- *. change (tailIndex (upd_slot _ _ _)) with (tailIndex rb).
    change (headIndex (upd_slot _ _ _)) with (headIndex rb) in HP. rewrite <- E, HP.
    eexists. split_and!; [done|apply push_ok; done || lia| |done..|by rewrite app_nil_r].
    by rewrite abs_push by (done || lia).
  - rewrite (u64_id (tailIndex rb + capacity rb)) by (unfold is_u64; lia).
    destruct (Z.eqb_spec (headIndex rb) (tailIndex rb + capacity rb)) as [Ef|Ef].
    + rewrite (proj2 (Z.eqb_eq (headIndex rb - _) _)) by lia.
      rewrite evict_eq by (done || lia). cbn [mbind res_bind].
      change (STATUS_FAILED STATUS_SUCCESS) with false. cbv iota.
      pose proof (evicted_ok rb Hok ltac:(lia)) as Hok1.
      destruct (evicted_fields rb) as (Eh&Et&Ec&Ef').
      rewrite (push_eq (evicted rb)), Eh by (rewrite ?Eh; done). eexists. split; [done|].
      rewrite <- Eh. split; [apply push_ok; rewrite ?Eh, ?Et, ?Ec; done || lia|].
      rewrite abs_push by (rewrite ?Eh, ?Et, ?Ec; done || lia).
      rewrite Et, abs_evicted by (done || lia). split; [done|]. split; [exact Ec|].
      split; [exact Ef'|]. apply evicted_freed.
    + rewrite (proj2 (Z.eqb_neq (headIndex rb - _) _)) by lia. cbn [mbind res_bind].
      change (STATUS_FAILED STATUS_SUCCESS) with false. cbv iota. rewrite push_eq by done.
      eexists. split_and!; [done|apply push_ok; done || lia| |done..|by rewrite app_nil_r].
      by rewrite abs_push by (done || lia).
Qed.

(** C28. Appending implements the window's append: it always succeeds (when the free
    callback does), returns the new item's index, keeps the invariant, drops exactly the
    oldest item of a full buffer and hands exactly that item to the free callback. *)
Theorem rollingBufferAppendData_refines rb d
  (Hok : rb_ok rb) (Hf : frees_ok rb) (Hh : headIndex rb + 1 < 2 ^ 64 - 2 ^ 32) :
  exists rb',
    rollingBufferAppendData (Some rb) d = Ok (STATUS_SUCCESS, rb', Some (headIndex rb)) /\
    rb_ok rb' /\ abs rb' = w_append (capacity rb) d (abs rb) /\
    capacity rb' = capacity rb /\ freeDataFn rb' = freeDataFn rb /\
    freed rb' = freed rb ++ evicts rb.
Proof. by apply append_refines. Qed.

(** Two assignments of one slot. *)
Lemma upd_slot_twice rb i d d' : upd_slot (upd_slot rb i d) i d' = upd_slot rb i d'.
Proof.
  unfold upd_slot. change (capacity (rb <| dataBuffer := _ |>)) with (capacity rb).
  change (dataBuffer (rb <| dataBuffer := ?x |>)) with x. by rewrite list_insert_insert_eq.
Qed.

Lemma w_set_same rb i :
  rb_ok rb -> tailIndex rb <= i < headIndex rb -> w_set (abs rb) i (slot rb i) = abs rb.
Proof.
  intros H Hi. unfold w_set. rewrite list_insert_id; [done|]. cbn [abs w_items w_tail].
  rewrite list_lookup_fmap, lookup_seqZ_lt by lia. cbn. do 2 f_equal. lia.
Qed.

Lemma w_get_Some rb i old :
  rb_ok rb -> w_get (abs rb) i = Some old ->
  tailIndex rb <= i < headIndex rb /\ old = slot rb i /\
  (i <? headIndex rb) && (tailIndex rb <=? i) = true.
Proof.
  intros H. rewrite abs_get by done.
  destruct (Z.ltb_spec i (headIndex rb)), (Z.leb_spec (tailIndex rb) i); cbn; try done.
  by intros [= <-].
Qed.

(** Inserting at an index implements the window's assignment: inside the window the
    item is replaced and a non-NULL old item is handed to the free callback; outside it
    nothing changes and STATUS_ROLLING_BUFFER_NOT_IN_RANGE is returned. *)
Theorem rollingBufferInsertData_refines rb i d (Hok : rb_ok rb) :
  match w_get (abs rb) i with
  | None => rollingBufferInsertData (Some rb) i d = Ok (STATUS_ROLLING_BUFFER_NOT_IN_RANGE, rb)
  | Some old => exists rb',
      rollingBufferInsertData (Some rb) i d = Ok (STATUS_SUCCESS, rb') /\ rb_ok rb' /\
      abs rb' = w_set (abs rb) i d /\
      freed rb' = freed rb ++ (match old, freeDataFn rb with
                               | Some _, Some _ => [old] | _, _ => [] end)
  end.
Proof.
  unfold rollingBufferInsertData. destruct (w_get (abs rb) i) as [old|] eqn:G.
  2:{ rewrite abs_get in G by done. by destruct (_ && _). }
  apply w_get_Some in G as (Hi & -> & ->); [|done]. cbn [negb]. cbv iota zeta.
  rewrite getData_slot by done. cbn [mbind res_bind].
  assert (Hplain : exists rb', (rb0 ← setData rb (ROLLING_BUFFER_MAP_INDEX rb i) d;
      Ok (STATUS_SUCCESS, rb0)) = Ok (STATUS_SUCCESS, rb') /\ rb_ok rb' /\
      abs rb' = w_set (abs rb) i d /\ freed rb' = freed rb).
  { rewrite setData_slot by done. eexists. split; [done|]. split; [by apply upd_slot_ok|].
    split; [by apply abs_upd_slot|done]. }
  destruct (slot rb i) as [a|] eqn:Es, (freeDataFn rb) as [f|] eqn:Ef;
    cbn [mbind res_bind]; rewrite ?app_nil_r; try exact Hplain.
  rewrite callFree_slot by done. cbn [mbind res_bind].
  change (ROLLING_BUFFER_MAP_INDEX rb i) with (ROLLING_BUFFER_MAP_INDEX (freed_slot rb f i) i).
  rewrite setData_slot by (by apply freed_slot_ok). eexists. split; [done|].
  split; [by apply upd_slot_ok, freed_slot_ok|].
  change (upd_slot (freed_slot rb f i) i d) with
    ((upd_slot (upd_slot rb i (f (slot rb i)).2) i d) <| freed := freed rb ++ [slot rb i] |>).
  rewrite upd_slot_twice, Es. split; [|done].
  change (abs (upd_slot rb i d) = w_set (abs rb) i d). by apply abs_upd_slot.
Qed.

(** Extracting implements the window's take: it returns the item of an index inside
    the window and leaves NULL in its place, and returns NULL outside the window; the
    free callback is never involved, so ownership passes to the caller. *)
Theorem rollingBufferExtractData_refines rb i (Hok : rb_ok rb) :
  exists rb',
    rollingBufferExtractData (Some rb) i = Ok (rb', default None (w_get (abs rb) i)) /\
    rb_ok rb' /\ freed rb' = freed rb /\
    abs rb' = (match w_get (abs rb) i with Some _ => w_set (abs rb) i None | None => abs rb end).
Proof.
  unfold rollingBufferExtractData. destruct (w_get (abs rb) i) as [old|] eqn:G.
  2:{ rewrite abs_get in G by done. destruct (_ && _); [done|]. eauto. }
  apply w_get_Some in G as (Hi & -> & ->); [|done]. rewrite getData_slot by done.
  cbn [mbind res_bind default]. destruct (slot rb i) as [a|] eqn:Es.
  - rewrite setData_slot by done. cbn [mbind res_bind]. eexists. split; [done|].
    split; [by apply upd_slot_ok|]. split; [done|]. by apply abs_upd_slot.
  - eexists. split; [done|]. split; [done|]. split; [done|].
    rewrite <- Es. by rewrite w_set_same.
Qed.

(** One iteration of the clean-up loop. *)
Definition released rb : RollingBuffer A :=
  (match freeDataFn rb with
   | Some f => upd_slot (freed_slot rb f (tailIndex rb)) (tailIndex rb) None
   | None => rb
   end) <| tailIndex := tailIndex rb + 1 |>.

Lemma released_spec rb :
  rb_ok rb -> tailIndex rb < headIndex rb ->
  rb_ok (released rb) /\ headIndex (released rb) = headIndex rb /\
  tailIndex (released rb) = tailIndex rb + 1 /\ freeDataFn (released rb) = freeDataFn rb /\
  w_items (abs (released rb)) = tail (w_items (abs rb)) /\
  freed (released rb) =
    freed rb ++ match freeDataFn rb with Some _ => [slot rb (tailIndex rb)] | None => [] end.
Proof.
  intros H Hlt. unfold released. destruct (freeDataFn rb) as [f|] eqn:Ef.
  - split_and!; try done.
    + apply advance_tail_ok; [by apply upd_slot_ok, freed_slot_ok|].
      change (tailIndex rb <= tailIndex rb + 1 <= headIndex rb). lia.
    + change (w_items (abs ((upd_slot (upd_slot rb (tailIndex rb) (f (slot rb (tailIndex rb))).2)
                (tailIndex rb) None) <| tailIndex := tailIndex rb + 1 |>))
              = tail (w_items (abs rb))).
      rewrite upd_slot_twice. by rewrite abs_drop_upd.
  - split_and!; try done.
    + apply advance_tail_ok; [done|lia].
    + by rewrite abs_drop.
    + by rewrite app_nil_r.
Qed.

Lemma freeLoop_step n rb :
  rb_ok rb -> tailIndex rb < headIndex rb -> freeLoop (S n) rb = freeLoop n (released rb).
Proof.
  intros H Hlt. cbn [freeLoop]. rewrite (proj2 (Z.ltb_lt _ _)) by lia.
  pose proof (ok_tail _ H). pose proof (ok_head _ H).
  assert (Hu : u64 (tailIndex rb + 1) = tailIndex rb + 1) by (apply u64_id; unfold is_u64; lia).
  unfold released. destruct (freeDataFn rb) as [f|] eqn:Ef.
  - rewrite callFree_slot by done. cbn [mbind res_bind].
    set (i := tailIndex rb) in *. set (rb1 := freed_slot rb f i).
    change (ROLLING_BUFFER_MAP_INDEX rb i) with (ROLLING_BUFFER_MAP_INDEX rb1 i).
    rewrite setData_slot by (by apply freed_slot_ok). cbn [mbind res_bind].
    change (tailIndex (upd_slot rb1 i None)) with i. by rewrite Hu.
  - cbn [mbind res_bind]. by rewrite Hu.
Qed.

Lemma freeLoop_spec n rb :
  rb_ok rb -> Z.of_nat n = headIndex rb - tailIndex rb ->
  exists rb', freeLoop n rb = Ok rb' /\ tailIndex rb' = headIndex rb /\
    freed rb' = freed rb ++ match freeDataFn rb with Some _ => w_items (abs rb) | None => [] end.
Proof.
  revert rb. induction n as [|n IH]; intros rb H Hn.
  { exists rb. cbn [freeLoop]. rewrite (proj2 (Z.ltb_ge _ _)) by lia. split_and!; [done|lia|].
    cbn [abs w_items]. replace (headIndex rb - tailIndex rb) with 0 by lia.
    by destruct (freeDataFn rb); rewrite app_nil_r. }
  rewrite freeLoop_step by (done || lia).
  destruct (released_spec rb H) as (Hok & Eh & Et & Ef & Ei & Efr); [lia|].
  destruct (IH (released rb) Hok) as (rb' & -> & Ht & Hfr); [lia|].
  exists rb'. split; [done|]. split; [lia|]. rewrite Hfr, Ef, Ei, Efr, <- (assoc_L (++)). f_equal.
  destruct (freeDataFn rb); [|done]. by rewrite (abs_pop rb) by (done || lia).
Qed.

(** Freeing a buffer terminates and hands every item still in the window to the
    free callback, oldest first and each exactly once. *)
Theorem freeRollingBuffer_releases rb (Hok : rb_ok rb) :
  exists rb', freeRollingBuffer (Some (Some rb)) = Ok (Some rb') /\
    tailIndex rb' = headIndex rb /\
    freed rb' = freed rb ++ match freeDataFn rb with Some _ => w_items (abs rb) | None => [] end.
Proof.
  pose proof (ok_tail _ Hok).
  destruct (freeLoop_spec (Z.to_nat (headIndex rb - tailIndex rb)) rb Hok) as (rb' & E & Hr); [lia|].
  exists rb'. unfold freeRollingBuffer. by rewrite E.
Qed.

Lemma w_head_abs rb : rb_ok rb -> w_head (abs rb) = headIndex rb.
Proof. intros H. unfold w_head. rewrite abs_items_length by done. cbn [abs w_tail]. lia. Qed.

Lemma w_append_head cap (d : option A) w : 0 < cap -> w_head (w_append cap d w) = w_head w + 1.
Proof.
  intros Hc. destruct w as [t its]. unfold w_head, w_append. cbn [w_tail w_items].
  destruct (Z.eqb_spec (Z.of_nat (length its)) cap); cbn [w_tail w_items].
  - destruct its; cbn [length tail] in *; [lia|]. rewrite length_app. cbn. lia.
  - rewrite length_app. cbn. lia.
Qed.
End Refinement.

(** ** RtpRollingBuffer

    A rolling buffer of RTP packets in which packet number [i] of the stream has
    index [i]; [lastIndex] is the index of the newest packet. *)

Set Primitive Projections.
Record RtpRollingBuffer : Type := {
  pRollingBuffer : RollingBuffer RtpPacket;
  lastIndex : Z;
}.
Unset Primitive Projections.

#[export] Instance upd_pRollingBuffer : Update pRollingBuffer. Proof. derive_update. Defined.
#[export] Instance upd_lastIndex : Update lastIndex. Proof. derive_update. Defined.

(** [freeRtpPacket] frees the packet and clears the slot. *)
Definition freeRtpRollingBufferData (d : option RtpPacket) : STATUS * option RtpPacket :=
  (STATUS_SUCCESS, None).

(** [memObj] and [memOk]: the results of the two allocations; [garbage] is the
    indeterminate [lastIndex] of the fresh object. *)
Definition createRtpRollingBuffer (memObj memOk : bool) (garbage cap : Z) (ppOk : bool)
    : res RtpRollingBuffer :=
  CHK negb (cap =? 0) else STATUS_INVALID_ARG ;;
  CHK ppOk else STATUS_NULL_ARG ;;
  CHK memObj else STATUS_NOT_ENOUGH_MEMORY ;;
  rb ← createRollingBuffer memOk cap (Some freeRtpRollingBufferData) true;
  Ok {| pRollingBuffer := rb; lastIndex := garbage |}.

Definition freeRtpRollingBuffer (pp : option (option RtpRollingBuffer))
    : res (option (RollingBuffer RtpPacket)) :=
  match pp with
  | None => Err STATUS_NULL_ARG
  | Some None => Ok None
  | Some (Some r) => freeRollingBuffer (Some (Some (pRollingBuffer r)))
  end.

(** [memRaw] and [mem] are the allocations of the byte copy and of the packet. *)
Definition rtpRollingBufferAddRtpPacket (h : endian) (memRaw : Z -> option (list Z))
    (mem : option RtpPacket) (p : option RtpRollingBuffer) (pkt : option RtpPacket)
    : res (STATUS * RtpRollingBuffer) :=
  match p, pkt with
  | Some r, Some pkt =>
      match memRaw (rawPacketLength pkt) with
      | None => Ok (STATUS_NOT_ENOUGH_MEMORY, r)
      | Some copy =>
          bs ← (match pRawPacket pkt with
                | Some raw => ld_bytes raw 0 (rawPacketLength pkt)
                | None => Fault
                end);
          copy ← put_bytes copy 0 bs;
          match createRtpPacketFromBytes h mem (Some copy) (rawPacketLength pkt) with
          | Fault => Fault
          | Err st => Ok (st, r)
          | Ok pktCopy =>
              '(st, rb, index) ← rollingBufferAppendData (Some (pRollingBuffer r)) (Some pktCopy);
              let r := r <| pRollingBuffer := rb |> in
              match index with
              | Some index => Ok (st, r <| lastIndex := index |>)
              | None => Ok (st, r)
              end
          end
      end
  | _, _ => Err STATUS_NULL_ARG
  end.

(** The index computed for one sequence number, if the guards accept it. *)
Definition seqToIndex (last size : Z) (seqNum : Z) : option Z :=
  let startSeq := GET_UINT16_SEQ_NUM (u64 (last - size + 1)) in
  let endSeq := GET_UINT16_SEQ_NUM last in
  let crossMaxSeq := endSeq <=? startSeq in
  if (negb crossMaxSeq && (startSeq <=? seqNum) && (seqNum <=? endSeq))
     || (crossMaxSeq && (startSeq <=? seqNum))
  then Some (u64 (last - size + 1 + seqNum - startSeq))
  else if crossMaxSeq && (seqNum <=? endSeq)
  then Some (u64 (last - endSeq + seqNum))
  else None.

(** The scan of the first [n] sequence numbers; [count] is returnPacketCount and the
    position of [pCurSeqIndexListPtr].  [validLen] is [*pValidIndexListLen]. *)
Fixpoint validLoop (last size : Z) (validLen : option Z) (n : nat) (seqs : list Z)
    (out : list Z) (count : Z) : res (list Z * Z) :=
  match n, seqs with
  | O, _ => Ok (out, count)
  | S _, [] => Fault
  | S n, seqNum :: seqs =>
      match seqToIndex last size seqNum with
      | None => validLoop last size validLen n seqs out count
      | Some i =>
          out ← lput out count i;
          match validLen with
          | None => Fault
          | Some len =>
              if count +32 1 <? len then
                out ← lput out (count + 1) 0;
                validLoop last size validLen n seqs out (count +32 1)
              else Ok (out, count +32 1)
          end
      end
  end.

(** Returns the index list and the value stored through [pValidIndexListLen]. *)
Definition rtpRollingBufferGetValidSeqIndexList (p : option RtpRollingBuffer)
    (pSeqs : option (list Z)) (seqLen : Z) (pOut : option (list Z)) (validLen : option Z)
    : res (list Z * Z) :=
  match p, pOut, pSeqs with
  | Some r, Some out, Some seqs =>
      size ← rollingBufferGetSize (Some (pRollingBuffer r));
      if negb (0 <? size) then Ok (out, 0) else
      validLoop (lastIndex r) size validLen (Z.to_nat seqLen) seqs out 0
  | _, _, _ => Err STATUS_NULL_ARG
  end.

(** The index a sequence number denotes in a window of [size] packets from [tail]:
    the one congruent to it modulo 2^16. *)
Definition index_of_seq (tail size seq : Z) : option Z :=
  let d := (seq - tail) mod 2 ^ 16 in
  if d <? size then Some (tail + d) else None.

Lemma seqToIndex_window tail size seq :
  1 < size <= 2 ^ 16 -> 0 <= tail -> tail + size < 2 ^ 64 -> is_u16 seq ->
  seqToIndex (tail + size - 1) size seq = index_of_seq tail size seq.
Proof.
  intros Hs Ht Hu Hq. unfold seqToIndex, index_of_seq. rewrite !GET_UINT16_SEQ_NUM_mod.
  replace (tail + size - 1 - size + 1) with tail by lia.
  rewrite (u64_id tail) by (unfold is_u64; lia). unfold is_u16 in Hq.
  set (s := tail mod 2 ^ 16). assert (Hs' : 0 <= s < 2 ^ 16) by (apply Z.mod_pos_bound; lia).
  assert (He : (tail + size - 1) mod 2 ^ 16 =
               if s + size - 1 <? 2 ^ 16 then s + size - 1 else s + size - 1 - 2 ^ 16).
  { unfold s in *. destruct (Z.ltb_spec (tail mod 2 ^ 16 + size - 1) (2 ^ 16)); width_lia. }
  assert (Hd : (seq - tail) mod 2 ^ 16 = if s <=? seq then seq - s else seq - s + 2 ^ 16).
  { unfold s in *. destruct (Z.leb_spec (tail mod 2 ^ 16) seq); width_lia. }
  rewrite He, Hd. clearbody s. clear He Hd.
  destruct (Z.ltb_spec (s + size - 1) (2 ^ 16)); destruct (Z.leb_spec s seq);
    repeat match goal with |- context [?x <=? ?y] => destruct (Z.leb_spec x y) end;
    repeat match goal with |- context [?x <? ?y] => destruct (Z.ltb_spec x y) end;
    cbn [negb andb orb]; try lia; try done;
    rewrite u64_id by (unfold is_u64; lia); f_equal; lia.
Qed.

(** The scan collects the indices of the accepted sequence numbers, in order, until
    the caller's capacity is reached. *)
Lemma validLoop_spec last size len seqs out count :
  0 <= count < len -> len <= Z.of_nat (length out) -> len < 2 ^ 32 ->
  exists out' n,
    validLoop last size (Some len) (length seqs) seqs out count = Ok (out', n) /\
    length out' = length out /\ count <= n <= len /\
    take (Z.to_nat n) out' =
      take (Z.to_nat len) (take (Z.to_nat count) out ++ omap (seqToIndex last size) seqs).
Proof.
  revert out count. induction seqs as [|s seqs IH]; intros out count Hc Hl Hu; cbn [validLoop length].
  { exists out, count. split_and!; [done|done|lia|lia|]. cbn. rewrite app_nil_r.
    by rewrite take_take, Nat.min_r by lia. }
  cbn [omap list_omap]. destruct (seqToIndex last size s) as [i|] eqn:Ei; [|by apply IH].
  rewrite lput_in by lia. cbn [mbind res_bind]. rewrite (u32_id (count + 1)) by (unfold is_u32; lia).
  assert (Hpre : take (Z.to_nat (count + 1)) (<[Z.to_nat count := i]> out) =
                 take (Z.to_nat count) out ++ [i]).
  { rewrite Z2Nat.inj_add by lia. rewrite Nat.add_1_r. rewrite (take_S_r _ _ i).
    - rewrite take_insert_ge by lia. done.
    - apply list_lookup_insert_eq. lia. }
  destruct (Z.ltb_spec (count + 1) len).
  - rewrite lput_in by (rewrite length_insert; lia). cbn [mbind res_bind].
    destruct (IH (<[Z.to_nat (count + 1) := 0]> (<[Z.to_nat count := i]> out)) (count + 1))
      as (out' & n & E & El & En & Et); [lia|rewrite !length_insert; lia|done|].
    exists out', n. rewrite !length_insert in El. split_and!; [done|done|lia|lia|].
    rewrite Et, take_insert_ge, Hpre by lia. by rewrite <- (assoc_L (++)).
  - exists (<[Z.to_nat count := i]> out), (count + 1).
    split_and!; [done|by rewrite length_insert|lia|lia|].
    rewrite Hpre. replace (take (Z.to_nat count) out ++ i :: omap _ seqs)
      with ((take (Z.to_nat count) out ++ [i]) ++ omap (seqToIndex last size) seqs)
      by by rewrite <- (assoc_L (++)).
    rewrite take_app_length'; [done|]. rewrite length_app, length_take. cbn. lia.
Qed.

(** The window and the last index of a buffer whose packets were added one by one. *)
Record rtp_rb_ok (r : RtpRollingBuffer) : Prop := {
  rr_ok : rb_ok (pRollingBuffer r);
  rr_last : tailIndex (pRollingBuffer r) < headIndex (pRollingBuffer r) ->
            lastIndex r = headIndex (pRollingBuffer r) - 1;
}.

Lemma omap_ext_Forall {X Y} (f g : X -> option Y) (P : X -> Prop) l :
  Forall P l -> (forall x, P x -> f x = g x) -> omap f l = omap g l.
Proof. intros H Hfg. induction H as [|x l Hx H IH]; cbn; [done|]. by rewrite Hfg, IH. Qed.

(** With between 2 and 2^16 packets stored, the lookup of requested sequence
    numbers returns, in request order and up to the caller's capacity, exactly the
    window indices congruent to them modulo 2^16, across sequence-number wrap-around
    too; sequence numbers outside the window are dropped. *)
Theorem rtpRollingBufferGetValidSeqIndexList_spec r seqs out len
  (Hok : rtp_rb_ok r)
  (Hsize : 1 < headIndex (pRollingBuffer r) - tailIndex (pRollingBuffer r) <= 2 ^ 16)
  (Hseqs : Forall is_u16 seqs) (Hlen : 0 < len < 2 ^ 32) (Hout : len <= Z.of_nat (length out)) :
  let rb := pRollingBuffer r in
  exists out' n,
    rtpRollingBufferGetValidSeqIndexList (Some r) (Some seqs) (Z.of_nat (length seqs)) (Some out)
      (Some len) = Ok (out', n) /\
    length out' = length out /\ 0 <= n <= len /\
    take (Z.to_nat n) out' =
      take (Z.to_nat len)
        (omap (index_of_seq (tailIndex rb) (headIndex rb - tailIndex rb)) seqs).
Proof.
  destruct Hok as [Hrb Hlast]. pose proof (ok_tail _ Hrb). pose proof (ok_head _ Hrb).
  pose proof (ok_cap _ Hrb). cbv zeta. set (rb := pRollingBuffer r) in *.
  unfold rtpRollingBufferGetValidSeqIndexList, rollingBufferGetSize. fold rb.
  cbn [mbind res_bind]. rewrite u32_id by (unfold is_u32; lia).
  rewrite (proj2 (Z.ltb_lt 0 _)) by lia. cbn [negb]. rewrite Hlast by lia. rewrite Nat2Z.id.
  destruct (validLoop_spec (headIndex rb - 1) (headIndex rb - tailIndex rb) len seqs out 0)
    as (out' & n & E & El & En & Et); [lia..|].
  exists out', n. split_and!; [done|done|lia|lia|]. rewrite Et. cbn [Z.to_nat take app]. f_equal.
  apply (omap_ext_Forall _ _ is_u16); [done|]. intros s Hs.
  rewrite <- seqToIndex_window by (done || lia). f_equal. lia.
Qed.

(** With exactly one packet stored the wrap-around test [startSeq >= endSeq] is
    taken, and every sequence number is accepted, the ones outside the window too. *)
Theorem seqToIndex_single last seq (Hl : is_u64 last) (Hs : is_u16 seq) :
  seqToIndex last 1 seq = Some (u64 (last - last mod 2 ^ 16 + seq)).
Proof.
  unfold seqToIndex. rewrite !GET_UINT16_SEQ_NUM_mod.
  replace (last - 1 + 1) with last by lia. rewrite (u64_id last) by done.
  set (e := last mod 2 ^ 16). rewrite (proj2 (Z.leb_le e e)) by lia. cbn [negb andb orb].
  destruct (Z.leb_spec e seq); [do 2 f_equal; lia|].
  rewrite (proj2 (Z.leb_le seq e)) by lia. done.
Qed.

(** Adding a packet stores a parsed copy of its raw bytes under the next index,
    which becomes [lastIndex]; the buffer invariant is kept. *)
Theorem rtpRollingBufferAddRtpPacket_spec h memRaw m r pkt raw q
  (Hok : rtp_rb_ok r) (Hf : frees_ok (pRollingBuffer r))
  (Hh : headIndex (pRollingBuffer r) + 1 < 2 ^ 64 - 2 ^ 32)
  (Hmem : mem_avail memRaw) (Hraw : pRawPacket pkt = Some raw)
  (Hlen : rawPacketLength pkt = blen raw)
  (Hq : createRtpPacketFromBytes h (Some m) (Some raw) (blen raw) = Ok q) :
  exists r',
    rtpRollingBufferAddRtpPacket h memRaw (Some m) (Some r) (Some pkt) = Ok (STATUS_SUCCESS, r') /\
    rtp_rb_ok r' /\ lastIndex r' = headIndex (pRollingBuffer r) /\
    abs (pRollingBuffer r') =
      w_append (capacity (pRollingBuffer r)) (Some q) (abs (pRollingBuffer r)).
Proof.
  destruct Hok as [Hrb Hlast]. unfold rtpRollingBufferAddRtpPacket.
  destruct (Hmem (rawPacketLength pkt)) as (copy & -> & Hc); [rewrite Hlen; apply blen_nonneg|].
  assert (Hld : ld_bytes raw 0 (blen raw) = Ok raw) by (by apply (pld_bytes_whole raw)).
  rewrite Hraw, Hlen, Hld. cbn [mbind res_bind]. rewrite put_bytes_full by lia.
  cbn [mbind res_bind]. rewrite Hq.
  destruct (append_refines (pRollingBuffer r) (Some q) Hrb Hf Hh)
    as (rb' & E & Hok' & Habs & _).
  rewrite E. cbn [mbind res_bind]. eexists. split; [done|].
  split; [split; [exact Hok'|]|split; [done|exact Habs]].
  intros _. change (headIndex (pRollingBuffer r) = headIndex rb' - 1).
  rewrite <- (w_head_abs rb'), <- (w_head_abs (pRollingBuffer r)), Habs by done.
  pose proof (ok_cap _ Hrb). rewrite w_append_head by lia. lia.
Qed.

(** ** Concrete instances *)

Definition ex_free (d : option Z) : STATUS * option Z := (STATUS_SUCCESS, None).
(** Capacity 3 after five appends: the window is items 2, 3, 4. *)
Definition ex_rb : RollingBuffer Z :=
  {| capacity := 3; headIndex := 5; tailIndex := 2; dataBuffer := [Some 13; Some 14; Some 12];
     freeDataFn := Some ex_free; freed := [Some 10; Some 11] |}.

Lemma ex_rb_ok : rb_ok ex_rb.
Proof. split; vm_compute; intuition congruence. Qed.

Lemma rollingBufferAppendData_refines_witness :
  exists rb', rollingBufferAppendData (Some ex_rb) (Some 15) = Ok (STATUS_SUCCESS, rb', Some 5)
              /\ freed rb' = [Some 10; Some 11; Some 12].
Proof.
  destruct (rollingBufferAppendData_refines ex_rb (Some 15) ex_rb_ok) as (rb' & H1 & _ & _ & _ & _ & H6).
  - intros f d [= <-]. reflexivity.
  - reflexivity.
  - exists rb'. split; [exact H1|exact H6].
Defined.

Lemma rollingBufferInsertData_refines_witness :
  exists rb', rollingBufferInsertData (Some ex_rb) 3 (Some 99) = Ok (STATUS_SUCCESS, rb')
              /\ freed rb' = [Some 10; Some 11; Some 13].
Proof.
  pose proof (rollingBufferInsertData_refines ex_rb 3 (Some 99) ex_rb_ok) as H.
  change (w_get (abs ex_rb) 3) with (Some (Some 13)) in H. cbv iota in H.
  destruct H as (rb' & H1 & _ & _ & H4). exists rb'. split; [exact H1|exact H4].
Defined.

Lemma rollingBufferExtractData_refines_witness :
  exists rb', rollingBufferExtractData (Some ex_rb) 4 = Ok (rb', Some 14).
Proof.
  destruct (rollingBufferExtractData_refines ex_rb 4 ex_rb_ok) as (rb' & H1 & _).
  exists rb'. exact H1.
Defined.

Lemma freeRollingBuffer_releases_witness :
  exists rb', freeRollingBuffer (Some (Some ex_rb)) = Ok (Some rb')
              /\ freed rb' = [Some 10; Some 11; Some 12; Some 13; Some 14].
Proof.
  destruct (freeRollingBuffer_releases ex_rb ex_rb_ok) as (rb' & H1 & _ & H3).
  exists rb'. split; [exact H1|exact H3].
Defined.

(** Packets 65534, 65535, 65536 and 65537 of a stream: the window crosses the wrap. *)
Definition ex_rrb : RtpRollingBuffer :=
  {| pRollingBuffer :=
       {| capacity := 4; headIndex := 65538; tailIndex := 65534; dataBuffer := replicate 4 (Some ex_pkt);
          freeDataFn := Some freeRtpRollingBufferData; freed := [] |};
     lastIndex := 65537 |}.

Lemma ex_rrb_ok : rtp_rb_ok ex_rrb.
Proof. split; [split; vm_compute; intuition congruence|reflexivity]. Qed.

Lemma rtpRollingBufferGetValidSeqIndexList_spec_witness :
  exists out n,
    rtpRollingBufferGetValidSeqIndexList (Some ex_rrb) (Some [65535; 7; 1; 65534]) 4
      (Some (replicate 4 0)) (Some 4) = Ok (out, n) /\
    take (Z.to_nat n) out = [65535; 65537; 65534].
Proof.
  destruct (rtpRollingBufferGetValidSeqIndexList_spec ex_rrb [65535; 7; 1; 65534] (replicate 4 0) 4
              ex_rrb_ok) as (out & n & H1 & _ & _ & H4).
  - vm_compute; intuition congruence.
  - repeat constructor; vm_compute; intuition congruence.
  - vm_compute; intuition congruence.
  - vm_compute; intuition congruence.
  - exists out, n. split; [exact H1|exact H4].
Defined.

Lemma seqToIndex_single_witness : seqToIndex 70000 1 5 = Some 65541.
Proof. apply (seqToIndex_single 70000 5); vm_compute; intuition congruence. Defined.

Lemma rtpRollingBufferAddRtpPacket_spec_witness :
  let raw := rtp_bytes ex_hdr ex_csrcs ex_ext ex_pl in
  exists r', rtpRollingBufferAddRtpPacket LittleEndian (fun n => Some (replicate (Z.to_nat n) 0))
    (Some ex_pkt) (Some ex_rrb)
    (Some (ex_pkt <| pRawPacket := Some raw |> <| rawPacketLength := 26 |>))
    = Ok (STATUS_SUCCESS, r') /\ lastIndex r' = 65538.
Proof.
  cbv zeta.
  destruct (rtpRollingBufferAddRtpPacket_spec LittleEndian
              (fun n => Some (replicate (Z.to_nat n) 0)) ex_pkt ex_rrb
              (ex_pkt <| pRawPacket := Some (rtp_bytes ex_hdr ex_csrcs ex_ext ex_pl) |>
                      <| rawPacketLength := 26 |>)
              (rtp_bytes ex_hdr ex_csrcs ex_ext ex_pl)
              (parsed (createRtpPacketFromBytes LittleEndian (Some ex_pkt)
                 (Some (rtp_bytes ex_hdr ex_csrcs ex_ext ex_pl)) 26)) ex_rrb_ok)
    as (r' & H1 & _ & H3 & _).
  - intros f d [= <-]. reflexivity.
  - reflexivity.
  - intros n Hn. eexists. split; [reflexivity|]. unfold blen. rewrite length_replicate. lia.
  - reflexivity.
  - reflexivity.
  - vm_compute. reflexivity.
  - exists r'. split; [exact H1|exact H3].
Defined.
