(* ===== verification/HashTable.v ===== *)
(** * The hash table of the utilities library (deps/src/utils/HashTable.c)

    A fixed array of buckets; a bucket is a growing array of key/value entries of which
    the first [hb_count] are live.  Keys are hashed with FNV-1a.  The table refines a
    finite map. *)

From stdpp Require Import fin_maps gmap.
From S2P Require Import Prelude.

Definition DEFAULT_HASH_TABLE_BUCKET_LENGTH : Z := 2.
Definition DEFAULT_HASH_TABLE_BUCKET_COUNT : Z := 10000.
Definition MIN_HASH_TABLE_ENTRIES_ALLOC_LENGTH : Z := 8.
Definition MIN_HASH_BUCKET_COUNT : Z := 16.
Definition SIZEOF_HashEntry : Z := 16.
Definition SIZEOF_HashBucket : Z := 16.
Definition SIZEOF_HashTable : Z := 16.

(** FNV-1a over the eight bytes of the key, least significant byte first. *)
Fixpoint hashLoop (n : nat) (i key hash : Z) : Z :=
  match n with
  | O => hash
  | S n =>
      let hash := Z.lxor hash (Z.land (Z.shiftr key (i * 8)) 0xff) in
      hashLoop n (i + 1) key (u64 (hash * 0x100000001b3))
  end.
Definition getKeyHash (key : Z) : Z := hashLoop 8 0 key 0xcbf29ce484222325.
#[global] Strategy 1000 [getKeyHash].

Section HashTable.
Context {V : Type}.

(** A value is a UINT64 that holds a pointer to a [V]; a slot that was allocated and
    never written is [None]. *)
Local Abbreviation HashEntry := (option (Z * V)).

Record HashBucket : Type := {
  hb_count : Z;
  hb_length : Z;
  hb_entries : list HashEntry;
}.

Record HashTable : Type := {
  itemCount : Z;
  bucketCount : Z;
  bucketLength : Z;
  buckets : list HashBucket;
}.

(** ** Operations *)

Definition bucketIndex (ht : HashTable) (key : Z) : Z := u32 (getKeyHash key mod bucketCount ht).

Definition getHashBucket (ht : HashTable) (key : Z) : res HashBucket :=
  if bucketCount ht =? 0 then Fault else lget (buckets ht) (bucketIndex ht key).

(** Writes back the bucket of a key. *)
Definition setHashBucket (ht : HashTable) (key : Z) (b : HashBucket) (items : Z) : res HashTable :=
  bs ← lput (buckets ht) (bucketIndex ht key) b;
  Ok {| itemCount := items; bucketCount := bucketCount ht; bucketLength := bucketLength ht; buckets := bs |}.

(** The search of the first [n] entries: the position and the value of [key]. *)
Fixpoint findEntry (n : nat) (key : Z) (l : list HashEntry) : res (option (nat * V)) :=
  match n, l with
  | O, _ => Ok None
  | S n, Some (k, v) :: l =>
      if k =? key then Ok (Some (0%nat, v))
      else r ← findEntry n key l; Ok (option_map (fun '(i, v) => (S i, v)) r)
  | S _, _ => Fault
  end.

(** One allocation holds the table, the buckets and their entries.  Its size is computed in 32
    bits; when that wraps around, the arrays leave the allocation. *)
Definition hashTableCreateWithParams (mem : bool) (count len : Z) : res HashTable :=
  CHK (MIN_HASH_BUCKET_COUNT <=? count) && (0 <? len) else STATUS_NULL_ARG ;;
  let entryAllocSize := u32 (SIZEOF_HashEntry * len) in
  let bucketAllocSize := u32 (SIZEOF_HashBucket * count) in
  let allocSize := u32 (SIZEOF_HashTable + bucketAllocSize + entryAllocSize *32 count) in
  CHK mem else STATUS_NOT_ENOUGH_MEMORY ;;
  if allocSize <? SIZEOF_HashTable + SIZEOF_HashBucket * count + SIZEOF_HashEntry * len * count then Fault else
  Ok {| itemCount := 0; bucketCount := count; bucketLength := len;
        buckets := replicate (Z.to_nat count)
          {| hb_count := 0; hb_length := len; hb_entries := replicate (Z.to_nat len) None |} |}.

Definition hashTableCreate (mem : bool) : res HashTable :=
  hashTableCreateWithParams mem DEFAULT_HASH_TABLE_BUCKET_COUNT DEFAULT_HASH_TABLE_BUCKET_LENGTH.

Definition hashTableClear (p : option HashTable) : res HashTable :=
  match p with
  | None => Err STATUS_NULL_ARG
  | Some ht =>
      Ok {| itemCount := 0; bucketCount := bucketCount ht; bucketLength := bucketLength ht;
            buckets := map (fun b => {| hb_count := 0; hb_length := hb_length b; hb_entries := hb_entries b |})
                           (buckets ht) |}
  end.

Definition hashTableGetCount (p : option HashTable) : res Z :=
  match p with None => Err STATUS_NULL_ARG | Some ht => Ok (itemCount ht) end.

Definition hashTableIsEmpty (p : option HashTable) : res bool :=
  match p with None => Err STATUS_NULL_ARG | Some ht => Ok (itemCount ht =? 0) end.

Definition hashTableGet (p : option HashTable) (key : Z) : res V :=
  match p with
  | None => Err STATUS_NULL_ARG
  | Some ht =>
      b ← getHashBucket ht key;
      r ← findEntry (Z.to_nat (hb_count b)) key (hb_entries b);
      match r with
      | Some (_, v) => Ok v
      | None => Err STATUS_HASH_KEY_NOT_PRESENT
      end
  end.

Definition hashTableContains (p : option HashTable) (key : Z) : res bool :=
  match hashTableGet p key with
  | Ok _ => Ok true
  | Err STATUS_HASH_KEY_NOT_PRESENT => Ok false
  | Err st => Err st
  | Fault => Fault
  end.

(** The larger entry array of a full bucket; [mem] tells whether MEMALLOC succeeds. *)
Definition growBucket (mem : bool) (b : HashBucket) : res HashBucket :=
  if hb_count b =? hb_length b then
    let entriesLength := Z.max (hb_length b *32 2) MIN_HASH_TABLE_ENTRIES_ALLOC_LENGTH in
    let allocated := (SIZEOF_HashEntry *32 entriesLength) / SIZEOF_HashEntry in
    CHK mem else STATUS_NOT_ENOUGH_MEMORY ;;
    if (allocated <? hb_count b) || (Z.of_nat (length (hb_entries b)) <? hb_count b) then Fault else
    Ok {| hb_count := hb_count b; hb_length := entriesLength;
          hb_entries := take (Z.to_nat (hb_count b)) (hb_entries b)
                        ++ replicate (Z.to_nat (allocated - hb_count b)) None |}
  else Ok b.

Definition hashTableUpsert (mem : bool) (p : option HashTable) (key : Z) (value : V) : res HashTable :=
  match p with
  | None => Err STATUS_NULL_ARG
  | Some ht =>
      b ← getHashBucket ht key;
      r ← findEntry (Z.to_nat (hb_count b)) key (hb_entries b);
      match r with
      | Some (i, _) =>
          es ← lput (hb_entries b) (Z.of_nat i) (Some (key, value));
          setHashBucket ht key {| hb_count := hb_count b; hb_length := hb_length b; hb_entries := es |}
            (itemCount ht)
      | None =>
          b ← growBucket mem b;
          es ← lput (hb_entries b) (hb_count b) (Some (key, value));
          setHashBucket ht key {| hb_count := hb_count b +32 1; hb_length := hb_length b; hb_entries := es |}
            (itemCount ht +32 1)
      end
  end.

Definition hashTablePut (mem : bool) (p : option HashTable) (key : Z) (value : V) : res HashTable :=
  contains ← hashTableContains p key;
  CHK negb contains else STATUS_HASH_KEY_ALREADY_PRESENT ;;
  hashTableUpsert mem p key value.

(** The live entries after [i] move down by one. *)
Definition moveEntries (l : list HashEntry) (i count : nat) : res (list HashEntry) :=
  if (length l <? count)%nat then Fault
  else Ok (take i l ++ take (count - S i) (drop (S i) l) ++ drop (count - 1) l).

Definition hashTableRemove (p : option HashTable) (key : Z) : res HashTable :=
  match p with
  | None => Err STATUS_NULL_ARG
  | Some ht =>
      b ← getHashBucket ht key;
      r ← findEntry (Z.to_nat (hb_count b)) key (hb_entries b);
      match r with
      | None => Err STATUS_HASH_KEY_NOT_PRESENT
      | Some (i, _) =>
          es ← moveEntries (hb_entries b) i (Z.to_nat (hb_count b));
          setHashBucket ht key {| hb_count := hb_count b -32 1; hb_length := hb_length b; hb_entries := es |}
            (itemCount ht -32 1)
      end
  end.

(** Calls [f] on the live entries, bucket by bucket, until it returns an error or asks
    for an abort; the caller's state is threaded through. *)
Fixpoint iterateEntries {S} (f : S -> Z * V -> STATUS * S) (n : nat) (l : list HashEntry) (s : S)
    : res (STATUS * S) :=
  match n, l with
  | O, _ => Ok (STATUS_SUCCESS, s)
  | Datatypes.S n, Some e :: l =>
      let '(st, s) := f s e in
      if STATUS_FAILED st then Ok (st, s) else iterateEntries f n l s
  | Datatypes.S _, _ => Fault
  end.

Fixpoint iterateBuckets {S} (f : S -> Z * V -> STATUS * S) (bs : list HashBucket) (s : S)
    : res (STATUS * S) :=
  match bs with
  | [] => Ok (STATUS_SUCCESS, s)
  | b :: bs =>
      '(st, s) ← iterateEntries f (Z.to_nat (hb_count b)) (hb_entries b) s;
      if STATUS_FAILED st then Ok (st, s) else iterateBuckets f bs s
  end.

Definition hashTableIterateEntries {S} (p : option HashTable) (f : S -> Z * V -> STATUS * S) (s : S)
    : res (STATUS * S) :=
  match p with
  | None => Err STATUS_NULL_ARG
  | Some ht =>
      '(st, s) ← iterateBuckets f (buckets ht) s;
      Ok (match st with STATUS_HASH_ENTRY_ITERATION_ABORT => STATUS_SUCCESS | _ => st end, s)
  end.

(** ** The map a table represents *)

Definition liveEntries (b : HashBucket) : list (Z * V) :=
  omap id (take (Z.to_nat (hb_count b)) (hb_entries b)).

Definition bucketMap (b : HashBucket) : gmap Z V := list_to_map (liveEntries b).

Definition ht_map (ht : HashTable) : gmap Z V := foldr (fun b m => bucketMap b ∪ m) ∅ (buckets ht).

(** The live entries of bucket [i] are initialised, have distinct keys and hash to [i]. *)
Definition bucket_ok (count : Z) (i : nat) (b : HashBucket) : Prop :=
  0 <= hb_count b <= hb_length b /\ 0 < hb_length b < 2 ^ 26 /\
  Z.of_nat (length (hb_entries b)) = hb_length b /\
  Forall is_Some (take (Z.to_nat (hb_count b)) (hb_entries b)) /\
  NoDup (liveEntries b).*1 /\
  Forall (fun e => u32 (getKeyHash e.1 mod count) = Z.of_nat i) (liveEntries b).

Record ht_ok (ht : HashTable) : Prop := {
  ht_count : 0 < bucketCount ht < 2 ^ 32;
  ht_buckets : Z.of_nat (length (buckets ht)) = bucketCount ht;
  ht_bucket : forall i b, buckets ht !! i = Some b -> bucket_ok (bucketCount ht) i b;
  ht_items : itemCount ht = u32 (Z.of_nat (size (ht_map ht)));
}.

(** The room for one more entry without exceeding the bucket bound: a bucket of 2^25
    entries or more has 400 MB. *)
Definition roomy (ht : HashTable) : Prop := Forall (fun b => hb_length b < 2 ^ 25) (buckets ht).

Lemma bucketIndex_range ht k : ht_ok ht -> 0 <= bucketIndex ht k < Z.of_nat (length (buckets ht)).
Proof.
  intros H. pose proof (ht_count _ H). rewrite (ht_buckets _ H). unfold bucketIndex.
  pose proof (Z.mod_pos_bound (getKeyHash k) (bucketCount ht) ltac:(lia)).
  rewrite u32_id by width_lia. done.
Qed.

Lemma getHashBucket_ok ht k : ht_ok ht -> exists b,
  buckets ht !! Z.to_nat (bucketIndex ht k) = Some b /\ getHashBucket ht k = Ok b /\
  bucket_ok (bucketCount ht) (Z.to_nat (bucketIndex ht k)) b.
Proof.
  intros H. pose proof (bucketIndex_range ht k H) as Hr. pose proof (ht_count _ H).
  destruct (lget_in (buckets ht) _ Hr) as [b Hb]. exists b.
  pose proof (lget_lookup _ _ _ Hb) as [_ Hl]. split; [done|]. split; [|by apply (ht_bucket _ H)].
  unfold getHashBucket. rewrite (proj2 (Z.eqb_neq _ 0)) by lia. done.
Qed.

(** A key's value lives in the bucket the key hashes to. *)
Lemma bucket_absent count i b k :
  bucket_ok count i b -> u32 (getKeyHash k mod count) <> Z.of_nat i -> bucketMap b !! k = None.
Proof.
  intros (_ & _ & _ & _ & _ & Hf) Hne. apply not_elem_of_list_to_map_1. intros Hin.
  apply list_elem_of_fmap in Hin as ([k' v] & -> & Hin). apply Hne.
  rewrite Forall_forall in Hf. apply (Hf (k', v)). by apply list_elem_of_In.
Qed.

Lemma foldr_bucketMap count k bs i n b :
  (forall j b, bs !! j = Some b -> bucket_ok count (n + j) b) ->
  bs !! i = Some b -> u32 (getKeyHash k mod count) = Z.of_nat (n + i) ->
  foldr (fun b m => bucketMap b ∪ m) ∅ bs !! k = bucketMap b !! k.
Proof.
  revert i n. induction bs as [|b0 bs IH]; intros i n Hok Hi Hk; [done|]. simpl foldr.
  destruct i as [|i]; simpl in Hi.
  - injection Hi as ->. destruct (bucketMap b !! k) eqn:E; [by apply lookup_union_Some_l|].
    rewrite lookup_union_r by done. clear IH.
    assert (Hall : forall j b', bs !! j = Some b' -> bucketMap b' !! k = None).
    { intros j b' Hj. apply (bucket_absent count (n + S j)); [by apply (Hok (S j))|lia]. }
    clear -Hall. induction bs as [|b' bs IH]; simpl; [apply lookup_empty|].
    rewrite lookup_union_r by (by apply (Hall 0%nat)). apply IH. intros j. apply (Hall (S j)).
  - rewrite lookup_union_r.
    + apply (IH i (S n)); [|done|rewrite Hk; lia].
      intros j b' Hj. replace (S n + j)%nat with (n + S j)%nat by lia. by apply Hok.
    + apply (bucket_absent count (n + 0)); [by apply (Hok 0%nat)|lia].
Qed.

Lemma ht_map_lookup ht k b :
  ht_ok ht -> buckets ht !! Z.to_nat (bucketIndex ht k) = Some b -> ht_map ht !! k = bucketMap b !! k.
Proof.
  intros H Hb. pose proof (bucketIndex_range ht k H).
  unfold ht_map. apply (foldr_bucketMap (bucketCount ht) k _ (Z.to_nat (bucketIndex ht k)) 0 b).
  - exact (ht_bucket _ H).
  - exact Hb.
  - change (bucketIndex ht k = Z.of_nat (Z.to_nat (bucketIndex ht k))). lia.
Qed.

(** The search splits the live entries at the entry it finds. *)
Lemma findEntry_spec n key l :
  Forall is_Some (take n l) -> (n <= length l)%nat ->
  exists r, findEntry n key l = Ok r /\
    match r with
    | Some (i, v) => exists pre post, take n l = pre ++ Some (key, v) :: post /\ length pre = i
    | None => key ∉ (omap id (take n l)).*1
    end.
Proof.
  revert l. induction n as [|n IH]; intros l Hs Hl; [exists None; split; [done|]; apply not_elem_of_nil|].
  destruct l as [|[[k v]|] l]; simpl in *; [lia| |inversion Hs as [|?? [? ?] ?]; done].
  inversion Hs as [|?? _ Hs']. subst. destruct (Z.eqb_spec k key) as [->|Hne].
  - eexists. split; [done|]. simpl. by exists [], (take n l).
  - destruct (IH l Hs' ltac:(lia)) as (r & -> & Hr). cbn [mbind res_bind].
    eexists. split; [done|]. destruct r as [[i v']|]; simpl.
    + destruct Hr as (pre & post & -> & <-). by exists (Some (k, v) :: pre), post.
    + by apply not_elem_of_cons.
Qed.

(** Writing back a bucket changes the map at the keys of that bucket only. *)
Lemma setHashBucket_ok ht key b b' items m' :
  ht_ok ht -> buckets ht !! Z.to_nat (bucketIndex ht key) = Some b ->
  bucket_ok (bucketCount ht) (Z.to_nat (bucketIndex ht key)) b' ->
  (forall k, bucketIndex ht k = bucketIndex ht key -> bucketMap b' !! k = m' !! k) ->
  (forall k, bucketIndex ht k <> bucketIndex ht key -> ht_map ht !! k = m' !! k) ->
  items = u32 (Z.of_nat (size m')) ->
  exists ht', setHashBucket ht key b' items = Ok ht' /\ ht_ok ht' /\ ht_map ht' = m' /\
    buckets ht' = <[Z.to_nat (bucketIndex ht key) := b']> (buckets ht).
Proof.
  intros H Hb Hb' Hsame Hother ->. pose proof (bucketIndex_range ht key H) as Hr.
  unfold setHashBucket. rewrite lput_in by done. cbn [mbind res_bind]. eexists. split; [done|].
  match goal with |- ht_ok ?h /\ _ => set (ht' := h) end.
  assert (Hbk : forall i b0, buckets ht' !! i = Some b0 -> bucket_ok (bucketCount ht) i b0).
  { intros i b0 Hi. apply list_lookup_insert_Some in Hi as [(<- & <- & _)|[_ Hi]]; [done|].
    by apply (ht_bucket _ H). }
  assert (Hm : ht_map ht' = m').
  { apply map_eq. intros k. pose proof (bucketIndex_range ht k H) as Hrk.
    assert (Hidx : forall b0, buckets ht' !! Z.to_nat (bucketIndex ht k) = Some b0 -> ht_map ht' !! k = bucketMap b0 !! k).
    { intros b0 Hb0. unfold ht_map. apply (foldr_bucketMap (bucketCount ht) k _ (Z.to_nat (bucketIndex ht k)) 0 b0 Hbk Hb0).
      change (bucketIndex ht k = Z.of_nat (Z.to_nat (bucketIndex ht k))). lia. }
    destruct (decide (bucketIndex ht k = bucketIndex ht key)) as [E|E].
    - rewrite (Hidx b'), Hsame; [done|done|]. rewrite E. apply list_lookup_insert_eq. lia.
    - destruct (getHashBucket_ok ht k H) as (b0 & Hb0 & _ & _).
      rewrite (Hidx b0), <- Hother, (ht_map_lookup ht k b0 H Hb0); [done|done|].
      unfold ht'. cbn [buckets]. rewrite list_lookup_insert_ne; [done|lia]. }
  split; [|split; [exact Hm|done]]. split.
  - apply (ht_count _ H).
  - unfold ht'. cbn [buckets bucketCount]. rewrite length_insert. apply (ht_buckets _ H).
  - exact Hbk.
  - by rewrite Hm.
Qed.

Lemma liveEntries_split b pre e post :
  take (Z.to_nat (hb_count b)) (hb_entries b) = pre ++ Some e :: post ->
  liveEntries b = omap id pre ++ e :: omap id post.
Proof. unfold liveEntries. intros ->. rewrite omap_app. done. Qed.

Lemma hashTableGet_spec ht k : ht_ok ht ->
  hashTableGet (Some ht) k = match ht_map ht !! k with Some v => Ok v | None => Err STATUS_HASH_KEY_NOT_PRESENT end.
Proof.
  intros H. destruct (getHashBucket_ok ht k H) as (b & Hb & Eg & Hok). unfold hashTableGet.
  rewrite Eg. cbn [mbind res_bind]. rewrite (ht_map_lookup ht k b H Hb).
  destruct Hok as (Hc & Hl & Hn & Hs & Hd & Hf).
  destruct (findEntry_spec (Z.to_nat (hb_count b)) k (hb_entries b) Hs ltac:(lia)) as (r & -> & Hr). cbn [mbind res_bind].
  destruct r as [[i v]|].
  - destruct Hr as (pre & post & E & _). apply liveEntries_split in E.
    unfold bucketMap. rewrite (elem_of_list_to_map_1 _ k v); [done|done|].
    rewrite E. apply elem_of_app. right. apply elem_of_cons. by left.
  - unfold bucketMap. by rewrite not_elem_of_list_to_map_1.
Qed.

Lemma hashTableContains_spec ht k : ht_ok ht ->
  hashTableContains (Some ht) k = Ok (bool_decide (is_Some (ht_map ht !! k))).
Proof.
  intros H. unfold hashTableContains. rewrite hashTableGet_spec by done. by destruct (ht_map ht !! k).
Qed.

(** Facts on the pieces of a bucket's live entries. *)
Lemma live_perm (b : HashBucket) pre (e : Z * V) post :
  liveEntries b = omap id pre ++ e :: omap id post -> NoDup (liveEntries b).*1 ->
  bucketMap b = <[e.1 := e.2]> (list_to_map (omap id pre ++ omap id post)) /\
  (list_to_map (omap id pre ++ omap id post) : gmap Z V) !! e.1 = None /\
  NoDup (omap id pre ++ omap id post).*1.
Proof.
  intros E Hd. rewrite E in Hd. unfold bucketMap. rewrite E.
  assert (Hp : omap id pre ++ e :: omap id post ≡ₚ e :: (omap id pre ++ omap id post))
    by (symmetry; apply Permutation_middle).
  assert (Hd' : NoDup (e :: (omap id pre ++ omap id post)).*1) by (rewrite <- Hp; done).
  split; [rewrite (list_to_map_proper _ _ Hd Hp); by destruct e|].
  apply list.NoDup_cons in Hd' as [Hn Hd']. split; [|done]. by apply not_elem_of_list_to_map_1.
Qed.

(** Keys of the same bucket, and the rest of the map. *)
Lemma same_bucket ht key b b' f :
  ht_ok ht -> buckets ht !! Z.to_nat (bucketIndex ht key) = Some b ->
  bucketMap b' = f (bucketMap b) ->
  (forall m1 m2 k, m1 !! k = m2 !! k -> (f m1 : gmap Z V) !! k = f m2 !! k) ->
  forall k, bucketIndex ht k = bucketIndex ht key -> bucketMap b' !! k = f (ht_map ht) !! k.
Proof.
  intros H Hb -> Hf k Hk. apply Hf. symmetry. apply ht_map_lookup; [done|]. by rewrite Hk.
Qed.

Lemma hash_key_ne ht k key : bucketIndex ht k <> bucketIndex ht key -> k <> key.
Proof. intros H ->. done. Qed.

Lemma bucket_hash_live (b : HashBucket) count i :
  bucket_ok count i b -> Forall (fun e => u32 (getKeyHash e.1 mod count) = Z.of_nat i) (liveEntries b).
Proof. by intros (_ & _ & _ & _ & _ & ?). Qed.

(** Overwriting the value of the entry at the split. *)
Lemma update_bucket_ok count i b pre key v0 post v :
  bucket_ok count i b -> take (Z.to_nat (hb_count b)) (hb_entries b) = pre ++ Some (key, v0) :: post ->
  exists es, lput (hb_entries b) (Z.of_nat (length pre)) (Some (key, v)) = Ok es /\
    let b' := {| hb_count := hb_count b; hb_length := hb_length b; hb_entries := es |} in
    bucket_ok count i b' /\ bucketMap b' = <[key := v]> (bucketMap b).
Proof.
  intros (Hc & Hl & Hn & Hs & Hd & Hf) E.
  pose proof (take_drop (Z.to_nat (hb_count b)) (hb_entries b)) as Et. rewrite E, <- (assoc_L (++)) in Et.
  cbn [app] in Et.
  exists (pre ++ Some (key, v) :: post ++ drop (Z.to_nat (hb_count b)) (hb_entries b)).
  split; [rewrite <- Et; rewrite Et at 2; by apply lput_at|]. cbv zeta.
  pose proof (liveEntries_split b _ _ _ E) as El.
  assert (Hlen : length (pre ++ Some (key, v0) :: post) = Z.to_nat (hb_count b))
    by (rewrite <- E, length_take; lia).
  set (es := pre ++ Some (key, v) :: post ++ drop (Z.to_nat (hb_count b)) (hb_entries b)).
  assert (Etk : take (Z.to_nat (hb_count b)) es = pre ++ Some (key, v) :: post).
  { unfold es. rewrite app_comm_cons, (assoc_L (++)). apply take_app_length'.
    rewrite <- Hlen, !length_app. done. }
  set (b' := {| hb_count := hb_count b; hb_length := hb_length b; hb_entries := es |}).
  pose proof (liveEntries_split b' _ _ _ Etk) as El'.
  assert (Hk : (liveEntries b').*1 = (liveEntries b).*1) by (rewrite El, El', !fmap_app; done).
  destruct (live_perm b _ _ _ El Hd) as (Em & Hnone & Hd1).
  destruct (live_perm b' _ _ _ El' ltac:(by rewrite Hk)) as (Em' & _ & _). cbn in Em, Em'.
  split; [|by rewrite Em, Em', insert_insert_eq].
  unfold bucket_ok. rewrite Hk. cbn [hb_count hb_length hb_entries b'].
  assert (Hle : length es = length (hb_entries b)).
  { rewrite <- Et. unfold es. rewrite !length_app. simpl. rewrite !length_app. done. }
  split_and!; try lia; try done.
  - rewrite Etk. rewrite E in Hs. apply Forall_app in Hs as [Hs1 Hs2]. apply Forall_app. split; [done|].
    inversion Hs2. subst. constructor; [by eexists|done].
  - rewrite El'. rewrite El in Hf. apply Forall_app in Hf as [Hf1 Hf2]. apply Forall_app. split; [done|].
    inversion Hf2. subst. by constructor.
Qed.

(** Appending an entry, after growing a full bucket. *)
Lemma append_bucket_ok count i b key v :
  bucket_ok count i b -> hb_length b < 2 ^ 25 -> key ∉ (liveEntries b).*1 ->
  u32 (getKeyHash key mod count) = Z.of_nat i ->
  exists g es, growBucket true b = Ok g /\ hb_count g = hb_count b /\ hb_length g <= Z.max 8 (2 * hb_length b) /\
    lput (hb_entries g) (hb_count g) (Some (key, v)) = Ok es /\
    let b' := {| hb_count := hb_count g +32 1; hb_length := hb_length g; hb_entries := es |} in
    bucket_ok count i b' /\ bucketMap b' = <[key := v]> (bucketMap b).
Proof.
  intros (Hc & Hl & Hn & Hs & Hd & Hf) Hroom Hnew Hh.
  assert (Hg : exists g x rest, growBucket true b = Ok g /\ hb_count g = hb_count b /\
    hb_count b < hb_length g < 2 ^ 26 /\ hb_length g <= Z.max 8 (2 * hb_length b) /\
    Z.of_nat (length (hb_entries g)) = hb_length g /\
    hb_entries g = take (Z.to_nat (hb_count b)) (hb_entries b) ++ x :: rest).
  { unfold growBucket. destruct (Z.eqb_spec (hb_count b) (hb_length b)) as [Efull|Hne].
    - unfold SIZEOF_HashEntry, MIN_HASH_TABLE_ENTRIES_ALLOC_LENGTH.
      rewrite (u32_id (hb_length b * 2)) by width_lia.
      set (n := Z.max (hb_length b * 2) 8). assert (Hn8 : 8 <= n < 2 ^ 26 /\ hb_length b < n) by lia.
      rewrite (u32_id (16 * n)) by width_lia. rewrite (Z.mul_comm 16), Z.div_mul by lia.
      rewrite (proj2 (Z.ltb_ge n _)), (proj2 (Z.ltb_ge (Z.of_nat _) _)) by lia. cbn [orb].
      destruct (Z.to_nat (n - hb_count b)) as [|m] eqn:Em; [lia|].
      eexists _, None, (replicate m None). split; [done|]. cbn [hb_count hb_length hb_entries].
      rewrite length_app, length_take, length_replicate. split_and!; try lia. done.
    - destruct (drop (Z.to_nat (hb_count b)) (hb_entries b)) as [|x rest] eqn:Ed.
      { apply (f_equal length) in Ed. rewrite length_drop in Ed. simpl in Ed. lia. }
      exists b, x, rest. rewrite <- Ed, take_drop. split_and!; try done; lia. }
  destruct Hg as (g & x & rest & Eg & Ec & Hlt & Hmax & Hng & Ee). exists g.
  assert (Hlen : length (take (Z.to_nat (hb_count b)) (hb_entries b)) = Z.to_nat (hb_count b))
    by (rewrite length_take; lia).
  rewrite Ee, Ec, lput_at by lia. eexists. split_and!; [done..|]. cbv zeta.
  set (es := take (Z.to_nat (hb_count b)) (hb_entries b) ++ Some (key, v) :: rest).
  rewrite (u32_id (hb_count b + 1)) by width_lia.
  set (b' := {| hb_count := hb_count b + 1; hb_length := hb_length g; hb_entries := es |}).
  assert (Etk : take (Z.to_nat (hb_count b + 1)) es = take (Z.to_nat (hb_count b)) (hb_entries b) ++ [Some (key, v)]).
  { unfold es. rewrite cons_middle, (assoc_L (++)). apply take_app_length'. rewrite length_app, Hlen. simpl. lia. }
  assert (El : liveEntries b' = liveEntries b ++ [(key, v)]).
  { unfold liveEntries. cbn [hb_count hb_entries b']. rewrite Etk, omap_app. done. }
  assert (Hd' : NoDup ((key, v) :: liveEntries b).*1) by (by apply base.NoDup_cons_2).
  assert (Hp : liveEntries b ++ [(key, v)] ≡ₚ (key, v) :: liveEntries b) by (symmetry; apply Permutation_cons_append).
  split; [|unfold bucketMap; rewrite El; rewrite (list_to_map_proper _ ((key, v) :: liveEntries b)); [done|by rewrite Hp|done]].
  unfold bucket_ok. rewrite El. cbn [hb_count hb_length hb_entries b']. split_and!; try lia.
  - rewrite <- Hng, Ee. unfold es. rewrite !length_app. simpl. done.
  - rewrite Etk. apply Forall_app. split; [done|]. constructor; [by eexists|constructor].
  - by rewrite Hp.
  - apply Forall_app. split; [done|]. by constructor; [|constructor].
Qed.

(** Removing the entry at the split. *)
Lemma remove_bucket_ok count i b pre key v0 post :
  bucket_ok count i b -> take (Z.to_nat (hb_count b)) (hb_entries b) = pre ++ Some (key, v0) :: post ->
  exists es, moveEntries (hb_entries b) (length pre) (Z.to_nat (hb_count b)) = Ok es /\
    let b' := {| hb_count := hb_count b -32 1; hb_length := hb_length b; hb_entries := es |} in
    bucket_ok count i b' /\ bucketMap b' = delete key (bucketMap b) /\ is_Some (bucketMap b !! key).
Proof.
  intros (Hc & Hl & Hn & Hs & Hd & Hf) E.
  pose proof (take_drop (Z.to_nat (hb_count b)) (hb_entries b)) as Et. rewrite E, <- (assoc_L (++)) in Et.
  cbn [app] in Et. set (rest := drop (Z.to_nat (hb_count b)) (hb_entries b)) in *.
  assert (Hlen : (length pre + S (length post))%nat = Z.to_nat (hb_count b)).
  { apply (f_equal length) in E. rewrite length_take, length_app in E. simpl in E. lia. }
  set (es := pre ++ post ++ drop (Z.to_nat (hb_count b) - 1) (hb_entries b)).
  exists es. split.
  { unfold moveEntries. rewrite (proj2 (Nat.ltb_ge _ _)) by lia. f_equal. unfold es.
    assert (Ep : take (length pre) (hb_entries b) = pre) by (rewrite <- Et; by apply take_app_length').
    assert (Eq : drop (S (length pre)) (hb_entries b) = post ++ rest).
    { rewrite <- Et, cons_middle, (assoc_L (++)). apply drop_app_length'. rewrite length_app. simpl. lia. }
    rewrite Ep, Eq. f_equal. f_equal. apply take_app_length'. lia. }
  cbv zeta. rewrite (u32_id (hb_count b - 1)) by width_lia.
  set (b' := {| hb_count := hb_count b - 1; hb_length := hb_length b; hb_entries := es |}).
  assert (Etk : take (Z.to_nat (hb_count b - 1)) es = pre ++ post).
  { unfold es. rewrite (assoc_L (++)). apply take_app_length'. rewrite length_app. lia. }
  pose proof (liveEntries_split b _ _ _ E) as El.
  assert (El' : liveEntries b' = omap id pre ++ omap id post)
    by (unfold liveEntries; cbn [hb_count hb_entries b']; by rewrite Etk, omap_app).
  destruct (live_perm b _ _ _ El Hd) as (Em & Hnone & Hd1). cbn in Em, Hnone.
  split; [|split].
  - unfold bucket_ok. rewrite El'. cbn [hb_count hb_length hb_entries b']. split_and!; try lia; try done.
    + unfold es. rewrite !length_app, length_drop. lia.
    + rewrite Etk. rewrite E in Hs. apply Forall_app in Hs as [Hs1 Hs2]. inversion Hs2. subst.
      by apply Forall_app.
    + rewrite El in Hf. apply Forall_app in Hf as [Hf1 Hf2]. inversion Hf2. subst. by apply Forall_app.
  - unfold bucketMap at 1. by rewrite El', Em, delete_insert_id.
  - rewrite Em, lookup_insert_eq. by eexists.
Qed.

(** Tables with 16-bit keys never outgrow the bucket bound. *)
Definition keys16 (ht : HashTable) : Prop := forall k, is_Some (ht_map ht !! k) -> is_u16 k.

Lemma NoDup_u16_length (l : list Z) : NoDup l -> Forall is_u16 l -> Z.of_nat (length l) <= 65536.
Proof.
  intros Hd Hf. pose proof (length_seqZ 0 65536) as E.
  assert (Hle : (length l <= length (seqZ 0 65536))%nat); [|rewrite E in Hle; lia].
  apply submseteq_length, NoDup_submseteq; [done|]. intros x Hx. apply elem_of_seqZ.
  rewrite Forall_forall in Hf. specialize (Hf x ltac:(by apply list_elem_of_In)). width_lia.
Qed.

Lemma bucket_count16 ht key b :
  ht_ok ht -> keys16 ht -> buckets ht !! Z.to_nat (bucketIndex ht key) = Some b -> hb_count b <= 65536.
Proof.
  intros H Hk Hb. pose proof (bucketIndex_range ht key H) as Hr.
  destruct (ht_bucket _ H _ _ Hb) as (Hc & Hl & Hn & Hs & Hd & Hf).
  assert (Hlen : length (liveEntries b) = Z.to_nat (hb_count b)).
  { transitivity (length (take (Z.to_nat (hb_count b)) (hb_entries b))); [|rewrite length_take; lia].
    unfold liveEntries. clear -Hs. induction Hs as [|[e|] l Hx _ IH]; simpl; [done|by f_equal|by destruct Hx]. }
  pose proof (NoDup_u16_length (liveEntries b).*1 Hd) as Hle. rewrite length_fmap in Hle.
  rewrite Hlen in Hle. cut (Forall is_u16 (liveEntries b).*1); [intros Hu; specialize (Hle Hu); lia|].
  apply Forall_fmap, Forall_forall. intros [k v] Hin%list_elem_of_In. simpl. apply Hk.
  assert (Ek : bucketIndex ht k = bucketIndex ht key).
  { rewrite Forall_forall in Hf. specialize (Hf (k, v) ltac:(by apply list_elem_of_In)). cbn [fst] in Hf.
    change (bucketIndex ht k = Z.of_nat (Z.to_nat (bucketIndex ht key))) in Hf. lia. }
  rewrite (ht_map_lookup ht k b H); [|by rewrite Ek]. exists v. by apply elem_of_list_to_map_1.
Qed.

Lemma hashTableUpsert_spec ht key v :
  ht_ok ht -> roomy ht ->
  exists ht', hashTableUpsert true (Some ht) key v = Ok ht' /\ ht_ok ht' /\ ht_map ht' = <[key := v]> (ht_map ht) /\
    (keys16 ht -> roomy ht').
Proof.
  intros H Hroom. destruct (getHashBucket_ok ht key H) as (b & Hb & Eg & Hok). unfold hashTableUpsert.
  rewrite Eg. cbn [mbind res_bind]. pose proof Hok as (Hc & Hl & Hn & Hs & Hd & Hf).
  pose proof (bucketIndex_range ht key H) as Hr.
  destruct (findEntry_spec (Z.to_nat (hb_count b)) key (hb_entries b) Hs ltac:(lia)) as (r & -> & Hfind).
  cbn [mbind res_bind]. destruct r as [[i v0]|].
  - destruct Hfind as (pre & post & E & <-).
    destruct (update_bucket_ok _ _ b pre key v0 post v Hok E) as (es & -> & Hb' & Em). cbn [mbind res_bind].
    pose proof (liveEntries_split b _ _ _ E) as El. destruct (live_perm b _ _ _ El Hd) as (Em0 & _). cbn in Em0.
    destruct (setHashBucket_ok ht key b _ (itemCount ht) (<[key := v]> (ht_map ht)) H Hb Hb') as (ht' & ? & ? & ? & Ebs).
    + eapply (same_bucket ht key b _ (fun m => <[key := v]> m)); [done..|]. intros m1 m2 k Hk.
      destruct (decide (k = key)) as [->|]; [by rewrite !lookup_insert_eq|by rewrite !lookup_insert_ne].
    + intros k Hk. rewrite lookup_insert_ne; [done|]. intros ->. by apply Hk.
    + rewrite (ht_items _ H). do 2 f_equal. symmetry. apply map_size_insert_Some.
      rewrite (ht_map_lookup ht key b H Hb), Em0, lookup_insert_eq. by eexists.
    + exists ht'. split_and!; [done..|]. intros _. unfold roomy. rewrite Ebs. apply Forall_insert; [done|].
      exact (Forall_lookup_1 _ _ _ _ Hroom Hb).
  - assert (Hlen : hb_length b < 2 ^ 25) by (by eapply Forall_lookup_1 in Hroom).
    destruct (append_bucket_ok _ _ b key v Hok Hlen Hfind) as (g & es & Egrow & Ec & Hgl & Eput & Hb' & Em).
    { change (bucketIndex ht key = Z.of_nat (Z.to_nat (bucketIndex ht key))). lia. }
    rewrite Egrow. cbn [mbind res_bind]. rewrite Eput. cbn [mbind res_bind].
    assert (Hnone : ht_map ht !! key = None)
      by (rewrite (ht_map_lookup ht key b H Hb); by apply not_elem_of_list_to_map_1).
    destruct (setHashBucket_ok ht key b _ (itemCount ht +32 1) (<[key := v]> (ht_map ht)) H Hb Hb') as (ht' & ? & ? & ? & Ebs).
    + eapply (same_bucket ht key b _ (fun m => <[key := v]> m)); [done..|]. intros m1 m2 k Hk.
      destruct (decide (k = key)) as [->|]; [by rewrite !lookup_insert_eq|by rewrite !lookup_insert_ne].
    + intros k Hk. rewrite lookup_insert_ne; [done|]. intros ->. by apply Hk.
    + rewrite (ht_items _ H), map_size_insert_None by done. width_lia.
    + exists ht'. split_and!; [done..|]. intros Hk16. unfold roomy. rewrite Ebs. apply Forall_insert; [done|].
      cbn [hb_length]. pose proof (bucket_count16 ht key b H Hk16 Hb).
      unfold growBucket in Egrow. destruct (Z.eqb_spec (hb_count b) (hb_length b)); [lia|]. by injection Egrow as <-.
Qed.

Lemma hashTablePut_spec ht key v :
  ht_ok ht -> roomy ht ->
  match ht_map ht !! key with
  | Some _ => hashTablePut true (Some ht) key v = Err STATUS_HASH_KEY_ALREADY_PRESENT
  | None => exists ht', hashTablePut true (Some ht) key v = Ok ht' /\ ht_ok ht' /\
      ht_map ht' = <[key := v]> (ht_map ht) /\ (keys16 ht -> roomy ht')
  end.
Proof.
  intros H Hroom. unfold hashTablePut. rewrite hashTableContains_spec by done. cbn [mbind res_bind].
  destruct (ht_map ht !! key) eqn:E; [done|]. rewrite bool_decide_false by (by intros [? ?]). cbn [negb].
  by apply hashTableUpsert_spec.
Qed.

Lemma hashTableRemove_spec ht key :
  ht_ok ht ->
  match ht_map ht !! key with
  | None => hashTableRemove (Some ht) key = Err STATUS_HASH_KEY_NOT_PRESENT
  | Some _ => exists ht', hashTableRemove (Some ht) key = Ok ht' /\ ht_ok ht' /\
      ht_map ht' = delete key (ht_map ht) /\ (roomy ht -> roomy ht')
  end.
Proof.
  intros H. destruct (getHashBucket_ok ht key H) as (b & Hb & Eg & Hok). unfold hashTableRemove.
  rewrite Eg. cbn [mbind res_bind]. pose proof Hok as (Hc & Hl & Hn & Hs & Hd & Hf).
  rewrite (ht_map_lookup ht key b H Hb).
  destruct (findEntry_spec (Z.to_nat (hb_count b)) key (hb_entries b) Hs ltac:(lia)) as (r & -> & Hfind).
  cbn [mbind res_bind]. destruct r as [[i v0]|].
  - destruct Hfind as (pre & post & E & <-).
    destruct (remove_bucket_ok _ _ b pre key v0 post Hok E) as (es & -> & Hb' & Em & [v1 Hv1]). cbn [mbind res_bind].
    rewrite Hv1.
    destruct (setHashBucket_ok ht key b _ (itemCount ht -32 1) (delete key (ht_map ht)) H Hb Hb') as (ht' & ? & ? & ? & Ebs).
    + eapply (same_bucket ht key b _ (fun m => delete key m)); [done..|]. intros m1 m2 k Hk.
      destruct (decide (k = key)) as [->|]; [by rewrite !lookup_delete_eq|by rewrite !lookup_delete_ne].
    + intros k Hk. rewrite lookup_delete_ne; [done|]. intros ->. by apply Hk.
    + rewrite (ht_items _ H), map_size_delete_Some by (rewrite (ht_map_lookup ht key b H Hb); by eexists).
      assert (size (ht_map ht) <> 0%nat).
      { intros E0. apply map_size_empty_inv in E0. pose proof (ht_map_lookup ht key b H Hb) as E1.
        rewrite E0, Hv1, lookup_empty in E1. done. }
      width_lia.
    + exists ht'. split_and!; [done..|]. intros Hroom. unfold roomy. rewrite Ebs. apply Forall_insert; [done|].
      exact (Forall_lookup_1 _ _ _ _ Hroom Hb).
  - unfold bucketMap. by rewrite not_elem_of_list_to_map_1.
Qed.

(** A new table is well formed and empty. *)
Lemma hashTableCreateWithParams_spec count len :
  MIN_HASH_BUCKET_COUNT <= count < 2 ^ 20 -> 0 < len < 2 ^ 6 ->
  exists ht, hashTableCreateWithParams true count len = Ok ht /\ ht_ok ht /\ roomy ht /\ ht_map ht = ∅.
Proof.
  unfold MIN_HASH_BUCKET_COUNT. intros Hc Hl. unfold hashTableCreateWithParams, MIN_HASH_BUCKET_COUNT.
  rewrite (proj2 (Z.leb_le _ _)), (proj2 (Z.ltb_lt _ _)) by lia. cbn [andb].
  unfold SIZEOF_HashEntry, SIZEOF_HashBucket, SIZEOF_HashTable.
  rewrite (u32_id (16 * len)), (u32_id (16 * count)), (u32_id (16 * len * count)), u32_id by (unfold is_u32; nia).
  rewrite (proj2 (Z.ltb_ge _ _)) by lia.
  set (b0 := {| hb_count := 0; hb_length := len; hb_entries := replicate (Z.to_nat len) None |}).
  eexists. split; [done|].
  match goal with |- ht_ok ?h /\ _ => set (ht := h) end.
  assert (Em : ht_map ht = ∅).
  { unfold ht_map, ht. cbn [buckets]. induction (Z.to_nat count) as [|n IH]; [done|]. simpl. by rewrite IH. }
  split; [|split; [|done]].
  - split.
    + simpl. lia.
    + simpl. rewrite length_replicate. lia.
    + intros i b Hi. apply lookup_replicate in Hi as [-> _].
      unfold bucket_ok, liveEntries. simpl. rewrite length_replicate.
      split_and!; try lia; try constructor.
    + rewrite Em. done.
  - unfold roomy. simpl. apply Forall_replicate. simpl. lia.
Qed.
(** ** Iteration *)

Definition ht_entries (ht : HashTable) : list (Z * V) := concat (map liveEntries (buckets ht)).

(** The callback on a list of entries, until it fails. *)
Fixpoint visit {S} (f : S -> Z * V -> STATUS * S) (es : list (Z * V)) (s : S) : STATUS * S :=
  match es with
  | [] => (STATUS_SUCCESS, s)
  | e :: es => let '(st, s) := f s e in if STATUS_FAILED st then (st, s) else visit f es s
  end.

Lemma visit_app {S} (f : S -> Z * V -> STATUS * S) e1 e2 s :
  visit f (e1 ++ e2) s = let '(st, s') := visit f e1 s in if STATUS_FAILED st then (st, s') else visit f e2 s'.
Proof.
  revert s. induction e1 as [|e e1 IH]; intros s; cbn [app visit]; [done|].
  destruct (f s e) as [st s']. destruct (STATUS_FAILED st) eqn:E; [by rewrite E|apply IH].
Qed.

Lemma iterateEntries_visit {S} (f : S -> Z * V -> STATUS * S) n l s :
  Forall is_Some (take n l) -> (n <= length l)%nat ->
  iterateEntries f n l s = Ok (visit f (omap id (take n l)) s).
Proof.
  revert l s. induction n as [|n IH]; intros l s Hs Hl; [done|].
  destruct l as [|[e|] l]; simpl in *; [lia| |inversion Hs as [|?? [? ?] ?]; done].
  inversion Hs as [|?? _ Hs']. subst. destruct (f s e) as [st s']. destruct (STATUS_FAILED st); [done|].
  apply IH; [done|lia].
Qed.

Lemma hashTableIterateEntries_visit {S} (f : S -> Z * V -> STATUS * S) ht s :
  ht_ok ht ->
  hashTableIterateEntries (Some ht) f s =
    let '(st, s') := visit f (ht_entries ht) s in
    Ok (match st with STATUS_HASH_ENTRY_ITERATION_ABORT => STATUS_SUCCESS | _ => st end, s').
Proof.
  intros H. unfold hashTableIterateEntries, ht_entries.
  assert (Hb : Forall (fun b => exists i, bucket_ok (bucketCount ht) i b) (buckets ht)).
  { apply Forall_lookup. intros i b Hi. exists i. exact (ht_bucket _ H i b Hi). }
  cut (iterateBuckets f (buckets ht) s = Ok (visit f (concat (map liveEntries (buckets ht))) s)).
  { intros ->. by destruct (visit _ _ _). }
  revert s. induction Hb as [|b bs (i & Hc & _ & Hn & Hs & _) _ IH]; intros s; [done|]. cbn [iterateBuckets map concat].
  rewrite iterateEntries_visit by (done || lia). rewrite visit_app. cbn [mbind res_bind]. unfold liveEntries at 2.
  destruct (visit f _ s) as [st s']. destruct (STATUS_FAILED st); [done|apply IH].
Qed.

Lemma visit_ok {S} (f : S -> Z * V -> STATUS * S) es s :
  (forall s e, (f s e).1 = STATUS_SUCCESS) -> visit f es s = (STATUS_SUCCESS, foldl (fun s e => (f s e).2) s es).
Proof.
  intros Hf. revert s. induction es as [|e es IH]; intros s; [done|]. cbn [visit foldl].
  pose proof (Hf s e) as Hfe. destruct (f s e) as [st s']. cbn in *. subst. apply IH.
Qed.

Lemma hashTableIterateEntries_ok {S} (f : S -> Z * V -> STATUS * S) ht s :
  ht_ok ht -> (forall s e, (f s e).1 = STATUS_SUCCESS) ->
  hashTableIterateEntries (Some ht) f s =
    Ok (STATUS_SUCCESS, foldl (fun s e => (f s e).2) s (ht_entries ht)).
Proof. intros H Hf. by rewrite hashTableIterateEntries_visit, visit_ok. Qed.

Lemma foldr_bucketMap_list bs :
  foldr (fun b m => bucketMap b ∪ m) ∅ bs = list_to_map (concat (map liveEntries bs)).
Proof. induction bs as [|b bs IH]; [done|]. cbn. by rewrite IH, list_to_map_app. Qed.

(** Every entry of the map is visited once. *)
Lemma ht_entries_perm ht : ht_ok ht -> ht_entries ht ≡ₚ map_to_list (ht_map ht).
Proof.
  intros H. unfold ht_map. rewrite foldr_bucketMap_list. symmetry. apply map_to_list_to_map.
  fold (ht_entries ht). unfold ht_entries.
  assert (Hb : forall i b, buckets ht !! i = Some b -> bucket_ok (bucketCount ht) (0 + i) b) by apply (ht_bucket _ H).
  revert Hb. generalize 0%nat at 1 as n. induction (buckets ht) as [|b bs IH]; intros n Hb; [constructor|].
  cbn [map concat]. rewrite fmap_app. apply list.NoDup_app. split_and!.
  - by destruct (Hb 0%nat b eq_refl) as (_ & _ & _ & _ & Hd & _).
  - intros k Hk Hk'. apply list_elem_of_fmap in Hk as ([k1 v1] & -> & Hin).
    apply list_elem_of_fmap in Hk' as ([k2 v2] & E & Hin'). cbn in E. subst.
    apply list_elem_of_In, in_concat in Hin' as (l & Hl & Hin'). apply in_map_iff in Hl as (b' & <- & Hb').
    apply list_elem_of_In, list_elem_of_lookup_1 in Hb' as [j Hj].
    destruct (Hb 0%nat b eq_refl) as (_ & _ & _ & _ & _ & Hf). destruct (Hb (S j) b' Hj) as (_ & _ & _ & _ & _ & Hf').
    rewrite Forall_forall in Hf, Hf'. specialize (Hf _ (proj1 (list_elem_of_In _ _) Hin)). specialize (Hf' _ Hin').
    cbn [fst] in Hf, Hf'. rewrite Hf in Hf'. lia.
  - apply (IH (S n)). intros i b' Hi. specialize (Hb (S i) b' Hi). by rewrite Nat.add_succ_r in Hb.
Qed.
End HashTable.

Arguments HashBucket : clear implicits.
Arguments HashTable : clear implicits.

(** C24. The hash table refines a finite map: a lookup returns what the map holds, putting a
    new key inserts it (with a larger bucket when the bucket is full) and is refused for a
    key that is present, removing a key deletes it, and the item count is the size of the
    map.  Tables with 16-bit keys keep room for further insertions. *)
Theorem hashTable_refines {V} (ht : HashTable V) (key : Z) (v : V)
  (Hok : ht_ok ht) (Hroom : roomy ht) :
  itemCount ht = u32 (Z.of_nat (size (ht_map ht))) /\
  hashTableGet (Some ht) key =
    match ht_map ht !! key with Some v => Ok v | None => Err STATUS_HASH_KEY_NOT_PRESENT end /\
  match ht_map ht !! key with
  | Some _ =>
      hashTablePut true (Some ht) key v = Err STATUS_HASH_KEY_ALREADY_PRESENT /\
      exists ht', hashTableRemove (Some ht) key = Ok ht' /\ ht_ok ht' /\
        ht_map ht' = delete key (ht_map ht) /\ (roomy ht -> roomy ht')
  | None =>
      hashTableRemove (Some ht) key = Err STATUS_HASH_KEY_NOT_PRESENT /\
      exists ht', hashTablePut true (Some ht) key v = Ok ht' /\ ht_ok ht' /\
        ht_map ht' = <[key := v]> (ht_map ht) /\ (keys16 ht -> roomy ht')
  end.
Proof.
  split; [apply (ht_items _ Hok)|]. split; [by apply hashTableGet_spec|].
  pose proof (hashTablePut_spec ht key v Hok Hroom) as Hp. pose proof (hashTableRemove_spec ht key Hok) as Hr.
  destruct (ht_map ht !! key); done.
Qed.

(** A table of 16 buckets with two entries, one of them removed again. *)
Definition ex_table : HashTable Z :=
  {| itemCount := 0; bucketCount := 16; bucketLength := 2;
     buckets := replicate 16 {| hb_count := 0; hb_length := 2; hb_entries := [None; None] |} |}.

Lemma hashTable_refines_witness :
  exists ht', hashTablePut true (Some ex_table) 7 700 = Ok ht' /\ ht_map ht' = {[ 7 := 700 ]}.
Proof.
  destruct (hashTableCreateWithParams_spec (V := Z) 16 2) as (ht & E & Hok & Hroom & Em);
    [unfold MIN_HASH_BUCKET_COUNT; lia|lia|].
  assert (ht = ex_table) as -> by (by injection E).
  pose proof (hashTable_refines ex_table 7 700 Hok Hroom) as (_ & _ & H). rewrite Em, lookup_empty in H.
  destruct H as (_ & ht' & Ep & _ & Hm & _). exists ht'. split; [exact Ep|]. by rewrite Hm.
Defined.
