(* ===== verification/RtcpPacket.v ===== *)
(** * RTCP packets (src/source/Rtcp/RtcpPacket.c, RtcpPacket.h)

    The RTCP header parser, the decoders of the NACK list and of the REMB
    message, and the NTP conversion.  As in RtpPacket, [h] is the byte order of
    the host; the decoders are shown to read network-order values on any host. *)

From S2P Require Import Prelude Endian RtpPacket.

Definition RTCP_PACKET_LEN_OFFSET : Z := 2.
Definition RTCP_PACKET_TYPE_OFFSET : Z := 1.
Definition RTCP_PACKET_RRC_BITMASK : Z := 0x1F.
Definition RTCP_PACKET_HEADER_LEN : Z := 4.
Definition RTCP_NACK_LIST_LEN : Z := 8.
Definition RTCP_PACKET_VERSION_VAL : Z := 2.
Definition RTCP_PACKET_LEN_WORD_SIZE : Z := 4.
Definition RTCP_PACKET_REMB_MIN_SIZE : Z := 16.
Definition RTCP_PACKET_REMB_IDENTIFIER_OFFSET : Z := 8.
Definition RTCP_PACKET_REMB_MANTISSA_BITMASK : Z := 0x3FFFF.
Definition NTP_OFFSET : Z := 2208988800.
Definition NTP_TIMESCALE : Z := 4294967296.
Definition HUNDREDS_OF_NANOS_IN_A_SECOND : Z := 10000000.

(** ** Data *)

Set Primitive Projections.
Record RtcpPacketHeader : Type := {
  rtcpVersion : Z;
  receptionReportCount : Z;
  packetType : Z;
  rtcpPacketLength : Z;
}.
Record RtcpPacket : Type := {
  rtcpHeader : RtcpPacketHeader;
  rtcpPayload : option ptr;
  rtcpPayloadLength : Z;
}.
Unset Primitive Projections.

#[export] Instance upd_rtcpVersion : Update rtcpVersion. Proof. derive_update. Defined.
#[export] Instance upd_receptionReportCount : Update receptionReportCount.
Proof. derive_update. Defined.
#[export] Instance upd_packetType : Update packetType. Proof. derive_update. Defined.
#[export] Instance upd_rtcpPacketLength : Update rtcpPacketLength. Proof. derive_update. Defined.
#[export] Instance upd_rtcpHeader : Update rtcpHeader. Proof. derive_update. Defined.
#[export] Instance upd_rtcpPayload : Update rtcpPayload. Proof. derive_update. Defined.
#[export] Instance upd_rtcpPayloadLength : Update rtcpPayloadLength. Proof. derive_update. Defined.

Section Host.
Variable h : endian.
Local Abbreviation ops := (initializeEndianness h).

(** ** setRtcpPacketFromBytes

    Returns the status and the packet, which keeps the version written before a
    failing version check. *)
Definition setRtcpPacketFromBytes (raw : list Z) (rawLen : Z) (p : option RtcpPacket)
    : res (STATUS * RtcpPacket) :=
  match p with
  | None => Err STATUS_NULL_ARG
  | Some p =>
      if negb (RTCP_PACKET_HEADER_LEN <=? rawLen) then Ok (STATUS_RTCP_INPUT_PACKET_TOO_SMALL, p) else
      nlen ← native16 h raw RTCP_PACKET_LEN_OFFSET;
      let packetLen := u16 (getInt16 ops nlen) in
      if negb ((packetLen + 1) * RTCP_PACKET_LEN_WORD_SIZE <=? rawLen)
      then Ok (STATUS_RTCP_INPUT_PARTIAL_PACKET, p) else
      raw0 ← ld raw 0;
      let hd := (rtcpHeader p) <| rtcpVersion := Z.land (Z.shiftr raw0 VERSION_SHIFT) VERSION_MASK |> in
      let p := p <| rtcpHeader := hd |> in
      if negb (rtcpVersion hd =? RTCP_PACKET_VERSION_VAL)
      then Ok (STATUS_RTCP_INPUT_PACKET_INVALID_VERSION, p) else
      raw1 ← ld raw RTCP_PACKET_TYPE_OFFSET;
      let hd := hd <| receptionReportCount := Z.land raw0 RTCP_PACKET_RRC_BITMASK |>
                   <| packetType := raw1 |>
                   <| rtcpPacketLength := packetLen |> in
      Ok (STATUS_SUCCESS,
          p <| rtcpHeader := hd |>
            <| rtcpPayloadLength := packetLen * RTCP_PACKET_LEN_WORD_SIZE |>
            <| rtcpPayload := Some (Ptr raw RTCP_PACKET_LEN_WORD_SIZE) |>)
  end.

(** ** rtcpNackListGet

    [st] is the pair of [pSequenceNumberList] (NULL or its memory) and
    [sequenceNumberCount]; [listLen] is [*pSequenceNumberListLen]. *)
Definition nackPush (listLen v : Z) (st : option (list Z) * Z) : res (option (list Z) * Z) :=
  let '(l, count) := st in
  match l with
  | Some l =>
      if count <=? listLen
      then l ← lput l count v; Ok (Some l, u16 (count + 1))
      else Ok (Some l, u16 (count + 1))
  | None => Ok (None, u16 (count + 1))
  end.

(** The BLP loop: [n] iterations from bit [j]. *)
Fixpoint nackBlp (listLen seq BLP : Z) (n : nat) (j : Z) (st : option (list Z) * Z)
    : res (option (list Z) * Z) :=
  match n with
  | O => Ok st
  | S n =>
      st ← (if negb (Z.shiftr (Z.land BLP (Z.shiftl 1 j)) j =? 0)
            then nackPush listLen (u16 (seq + j + 1)) st else Ok st);
      nackBlp listLen seq BLP n (j + 1) st
  end.

(** The loop over the NACK items, [n] of them from offset [i]. *)
Fixpoint nackLoop (payload : ptr) (listLen : Z) (n : nat) (i : Z) (st : option (list Z) * Z)
    : res (option (list Z) * Z) :=
  match n with
  | O => Ok st
  | S n =>
      nseq ← native16 h (p_obj payload) (p_off payload + i);
      let seq := u16 (getInt16 ops nseq) in
      nblp ← native16 h (p_obj payload) (p_off payload + i + 2);
      let BLP := u16 (getInt16 ops nblp) in
      st ← nackPush listLen seq st;
      st ← nackBlp listLen seq BLP 16 0 st;
      nackLoop payload listLen n (i + 4) st
  end.

(** Returns [*pSenderSsrc], [*pReceiverSsrc], the list and the new
    [*pSequenceNumberListLen].  The loop runs while [i < payloadLen] in steps of 4,
    and payloadLen is a multiple of 4. *)
Definition rtcpNackListGet (pPayload : option ptr) (payloadLen : Z) (list0 : option (list Z))
    (listLen : Z) : res (Z * Z * option (list Z) * Z) :=
  match pPayload with
  | None => Err STATUS_NULL_ARG
  | Some pl =>
      CHK (RTCP_NACK_LIST_LEN <=? payloadLen) && (payloadLen mod 4 =? 0)
        else STATUS_RTCP_INPUT_NACK_LIST_INVALID ;;
      nsender ← native32 h (p_obj pl) (p_off pl);
      nreceiver ← native32 h (p_obj pl) (p_off pl + 4);
      '(l, count) ← nackLoop pl listLen (Z.to_nat ((payloadLen - RTCP_NACK_LIST_LEN) / 4))
                      RTCP_NACK_LIST_LEN (list0, 0);
      Ok (u32 (getInt32 ops nsender), u32 (getInt32 ops nreceiver), l, count)
  end.

(** ** isRembPacket *)
Definition isRembPacket (pPayload : option ptr) (payloadLen : Z) : res STATUS :=
  match pPayload with
  | None => Ok STATUS_NULL_ARG
  | Some pl =>
      if negb (RTCP_PACKET_REMB_MIN_SIZE <=? payloadLen)
      then Ok STATUS_RTCP_INPUT_REMB_TOO_SMALL else
      id ← pld_bytes (padd pl RTCP_PACKET_REMB_IDENTIFIER_OFFSET) 4;
      if bool_decide (id = [0x52; 0x45; 0x4d; 0x42]) then Ok STATUS_SUCCESS
      else Ok STATUS_RTCP_INPUT_REMB_INVALID
  end.

(** ** rembValueGet

    [htonl] is the identity on a big-endian host and a byte swap on a
    little-endian one.  A shift of a UINT32 by 32 or more is undefined. *)
Definition htonl (v : Z) : Z :=
  match h with LittleEndian => u32 (SWAP_INT32 v) | BigEndian => v end.

Fixpoint rembSsrcs (pl : ptr) (n : nat) (i : Z) (l : option (list Z)) : res (option (list Z)) :=
  match n with
  | O => Ok l
  | S n =>
      v ← native32 h (p_obj pl) (p_off pl + RTCP_PACKET_REMB_IDENTIFIER_OFFSET + 8 + i * 4);
      match l with
      | None => Fault
      | Some l => l ← lput l i (u32 (getInt32 ops v)); rembSsrcs pl n (i + 1) (Some l)
      end
  end.

(** Returns [*pMaximumBitRate] (the integer stored in the DOUBLE), the SSRC list
    and [*pSsrcListLen]. *)
Definition rembValueGet (pPayload : option ptr) (payloadLen : Z) (pSsrcList : option (list Z))
    : res (Z * option (list Z) * Z) :=
  match pPayload with
  | None => Err STATUS_NULL_ARG
  | Some pl =>
      CHK RTCP_PACKET_REMB_MIN_SIZE <=? payloadLen else STATUS_RTCP_INPUT_REMB_TOO_SMALL ;;
      nm ← native32 h (p_obj pl) (p_off pl + RTCP_PACKET_REMB_IDENTIFIER_OFFSET + 4);
      let mantissa := Z.land (htonl nm) RTCP_PACKET_REMB_MANTISSA_BITMASK in
      eb ← pld pl (RTCP_PACKET_REMB_IDENTIFIER_OFFSET + 4 + 1);
      let exponent := Z.shiftr eb 2 in
      if 32 <=? exponent then Fault else
      let maximumBitRate := u32 (Z.shiftl mantissa exponent) in
      ssrcListLen ← pld pl (RTCP_PACKET_REMB_IDENTIFIER_OFFSET + 4);
      CHK RTCP_PACKET_REMB_MIN_SIZE + ssrcListLen * 4 <=? payloadLen
        else STATUS_RTCP_INPUT_REMB_INVALID ;;
      l ← rembSsrcs pl (Z.to_nat ssrcListLen) 0 pSsrcList;
      Ok (maximumBitRate, l, ssrcListLen)
  end.
End Host.

(** ** convertTimestampToNTP and the MID_NTP macro *)
Definition KVS_CONVERT_TIMESCALE (pts from_timescale to_timescale : Z) : Z :=
  u64 (pts * to_timescale) / from_timescale.
Definition convertTimestampToNTP (time100ns : Z) : Z :=
  let sec := time100ns / HUNDREDS_OF_NANOS_IN_A_SECOND in
  let frac100 := time100ns mod HUNDREDS_OF_NANOS_IN_A_SECOND in
  let ntp_sec := u64 (sec + NTP_OFFSET) in
  let ntp_frac := KVS_CONVERT_TIMESCALE frac100 HUNDREDS_OF_NANOS_IN_A_SECOND NTP_TIMESCALE in
  Z.lor (u64 (Z.shiftl ntp_sec 32)) ntp_frac.
Definition MID_NTP (ntp_time : Z) : Z := u32 (Z.land (Z.shiftr ntp_time 16) 0xffffffff).

(** ** Header parsing *)

(** The RTCP header parser never reads outside the received buffer.  It succeeds
    exactly on a version-2 packet whose length field fits the buffer, and then the
    payload it exposes is the packet's body, inside the buffer; the buffer may hold
    further packets of a compound behind it. *)
Theorem setRtcpPacketFromBytes_spec h raw p (Hb : bytes_ok raw) :
  exists st q, setRtcpPacketFromBytes h raw (blen raw) (Some p) = Ok (st, q) /\
    (st = STATUS_SUCCESS <->
     exists b0 words, ld raw 0 = Ok b0 /\ rd16 raw 2 = Ok words /\
       Z.land (Z.shiftr b0 6) 3 = 2 /\ 4 * (words + 1) <= blen raw) /\
    (st = STATUS_SUCCESS ->
     rtcpPayload q = Some (Ptr raw 4) /\ 4 + rtcpPayloadLength q <= blen raw /\
     rd16 raw 2 = Ok (rtcpPayloadLength q / 4) /\ ld raw 1 = Ok (packetType (rtcpHeader q))).
Proof.
  unfold setRtcpPacketFromBytes, RTCP_PACKET_HEADER_LEN, RTCP_PACKET_LEN_OFFSET,
    RTCP_PACKET_LEN_WORD_SIZE, RTCP_PACKET_TYPE_OFFSET, VERSION_SHIFT, VERSION_MASK.
  destruct (Z.leb_spec 4 (blen raw)) as [H4|H4]; cbn [negb].
  2:{ do 2 eexists. split; [done|]. split; [|done]. split; [done|].
      intros (b0 & w & _ & Hw & _ & ?). unfold rd16 in Hw.
      destruct (ld_ok_or_fault raw 2) as [[x E]|E]; rewrite E in Hw; [|done].
      cbn [mbind res_bind] in Hw. destruct (ld_ok_or_fault raw 3) as [[y E']|E'];
        change (2 + 1) with 3 in Hw; rewrite E' in Hw; [|done].
      apply ld_ok_range in E'. lia. }
  destruct (native16_cases h raw 2 Hb) as [(w&n&Hw&->&Hn)|[Hf _]].
  2:{ destruct (rd16_in raw 2) as [v Hv]; [lia..|]. congruence. }
  cbn [mbind res_bind]. rewrite Hn. destruct (ld_in raw 0) as (b0&E0&_); [lia|].
  destruct (ld_in raw 1) as (b1&E1&_); [lia|]. rewrite E0, E1, Hw. cbn [mbind res_bind].
  destruct (Z.leb_spec ((w + 1) * 4) (blen raw)); cbn [negb].
  2:{ do 2 eexists. split; [done|]. split; [|done]. split; [done|].
      intros (? & w' & _ & [= <-] & _ & ?). lia. }
  change (rtcpVersion ((rtcpHeader p) <| rtcpVersion := ?x |>)) with x.
  unfold RTCP_PACKET_VERSION_VAL. destruct (Z.eqb_spec (Z.land (Z.shiftr b0 6) 3) 2); cbn [negb].
  - do 2 eexists. split; [done|]. split.
    + split; [intros _|done]. exists b0, w. split_and!; [done..|lia].
    + intros _. cbn [rtcpPayload rtcpPayloadLength rtcpHeader packetType]. split_and!; [done| | |done].
      * change (4 + w * 4 <= blen raw). lia.
      * change (Ok w = Ok (w * 4 / 4)). by rewrite Z.div_mul.
  - do 2 eexists. split; [done|]. split; [|done]. split; [done|].
    intros (? & w' & [= <-] & _ & ? & ?). done.
Qed.

(** The header of a well-formed packet, at the head of a buffer. *)
Lemma rtcp_header_parse h b0 b1 w body rest p :
  is_u8 b0 -> is_u8 b1 -> bytes_ok body -> bytes_ok rest -> is_u16 w ->
  Z.land (Z.shiftr b0 6) 3 = 2 -> blen body = 4 * w ->
  let raw := [b0; b1] ++ be16 w ++ body ++ rest in
  setRtcpPacketFromBytes h raw (blen raw) (Some p) =
  Ok (STATUS_SUCCESS,
      {| rtcpHeader := {| rtcpVersion := 2; receptionReportCount := Z.land b0 0x1F; packetType := b1;
                          rtcpPacketLength := w |};
         rtcpPayload := Some (Ptr raw 4); rtcpPayloadLength := w * 4 |}).
Proof.
  intros H0 H1 Hb Hr Hw Hv Hlen. cbv zeta. set (raw := [b0; b1] ++ _).
  assert (Hraw : bytes_ok raw).
  { unfold raw. rewrite !bytes_ok_app. split_and!; [repeat constructor; apply H0 || apply H1|auto with width|done..]. }
  assert (Hl : blen raw = 4 + 4 * w + blen rest) by (unfold raw; autorewrite with blen; lia).
  pose proof (blen_nonneg rest).
  assert (E2 : rd16 raw 2 = Ok w) by (unfold raw; rewrite rd16_app by done; by rewrite u16_id).
  unfold setRtcpPacketFromBytes, RTCP_PACKET_HEADER_LEN, RTCP_PACKET_LEN_OFFSET, RTCP_PACKET_LEN_WORD_SIZE,
    RTCP_PACKET_TYPE_OFFSET, VERSION_SHIFT, VERSION_MASK.
  unfold is_u16 in Hw. rewrite (proj2 (Z.leb_le 4 _)) by lia. cbn [negb].
  destruct (native16_cases h raw 2 Hraw) as [(w'&n&Ew&->&Hn)|[Hf _]]; [|congruence].
  rewrite E2 in Ew. injection Ew as <-. cbn [mbind res_bind]. rewrite Hn.
  rewrite (proj2 (Z.leb_le ((w + 1) * 4) _)) by lia. cbn [negb].
  change (ld raw 0) with (@Ok Z b0). cbn [mbind res_bind]. rewrite Hv. change (ld raw 1) with (@Ok Z b1). done.
Qed.

(** ** NACK lists *)

(** The sequence numbers a NACK item (packet id, bitmask of lost packets) stands
    for, and the wire form of a list of items (RFC 4585, section 6.2.1). *)
Definition nack_expand (it : Z * Z) : list Z :=
  it.1 :: omap (fun j => if Z.testbit it.2 j then Some (u16 (it.1 + j + 1)) else None) (seqZ 0 16).
Definition nack_seqs (items : list (Z * Z)) : list Z := concat (map nack_expand items).
Definition nack_items_bytes (items : list (Z * Z)) : list Z :=
  concat (map (fun it => be16 it.1 ++ be16 it.2) items).
Definition nack_bytes (sender receiver : Z) (items : list (Z * Z)) : list Z :=
  be32 sender ++ be32 receiver ++ nack_items_bytes items.
Definition nack_item_ok (it : Z * Z) : Prop := is_u16 it.1 /\ is_u16 it.2.

(** The decoder as a sequence of pushes. *)
Fixpoint pushAll (listLen : Z) (vs : list Z) (st : option (list Z) * Z)
    : res (option (list Z) * Z) :=
  match vs with
  | [] => Ok st
  | v :: vs => st ← nackPush listLen v st; pushAll listLen vs st
  end.

Lemma pushAll_app n a b st : pushAll n (a ++ b) st = (st ← pushAll n a st; pushAll n b st).
Proof.
  revert st. induction a as [|v a IH]; intros st; [done|]. cbn [app pushAll].
  destruct (nackPush n v st); [|done..]. apply IH.
Qed.

Lemma blp_bit b j : 0 <= j -> negb (Z.shiftr (Z.land b (Z.shiftl 1 j)) j =? 0) = Z.testbit b j.
Proof.
  intros Hj. assert (E : Z.shiftr (Z.land b (Z.shiftl 1 j)) j = Z.b2z (Z.testbit b j)).
  { apply Z.bits_inj'. intros i Hi. rewrite Z.shiftr_spec, Z.land_spec, Z.shiftl_spec by lia.
    destruct (Z.eq_dec i 0) as [->|Hn].
    - rewrite Z.add_0_l, Z.sub_diag, Z.b2z_bit0. by rewrite andb_true_r.
    - assert (H1 : Z.testbit 1 i = false) by (apply (Z.pow2_bits_false 0); lia).
      replace (i + j - j) with i by lia. rewrite H1, andb_false_r.
      destruct (Z.testbit b j); cbn [Z.b2z]; by rewrite ?H1, ?Z.bits_0. }
  rewrite E. by destruct (Z.testbit b j).
Qed.

Lemma nackBlp_push listLen seq blp n j st :
  0 <= j ->
  nackBlp listLen seq blp n j st =
  pushAll listLen (omap (fun j => if Z.testbit blp j then Some (u16 (seq + j + 1)) else None)
                        (seqZ j (Z.of_nat n))) st.
Proof.
  revert j st. induction n as [|n IH]; intros j st Hj; [done|]. cbn [nackBlp].
  rewrite blp_bit by done. rewrite seqZ_cons by lia. cbn [omap list_omap].
  replace (Z.pred (Z.of_nat (S n))) with (Z.of_nat n) by lia.
  destruct (Z.testbit blp j); cbn [pushAll].
  - destruct (nackPush listLen _ st); cbn [mbind res_bind]; [|done..].
    rewrite IH by lia. by rewrite Z.add_1_r.
  - cbn [mbind res_bind]. rewrite IH by lia. by rewrite Z.add_1_r.
Qed.

Lemma native16_app h a v c o :
  bytes_ok a -> bytes_ok c -> is_u16 v -> o = blen a ->
  exists n, native16 h (a ++ be16 v ++ c) o = Ok n
            /\ u16 (getInt16 (initializeEndianness h) n) = v.
Proof.
  intros Ha Hc Hv ->. apply native16_rd16.
  - rewrite !bytes_ok_app. auto with width.
  - rewrite rd16_app by done. by rewrite u16_id.
Qed.

Lemma native32_app h a v c o :
  bytes_ok a -> bytes_ok c -> is_u32 v -> o = blen a ->
  exists n, native32 h (a ++ be32 v ++ c) o = Ok n
            /\ u32 (getInt32 (initializeEndianness h) n) = v.
Proof.
  intros Ha Hc Hv ->. apply native32_rd32.
  - rewrite !bytes_ok_app. auto with width.
  - rewrite rd32_app by done. by rewrite u32_id.
Qed.

Lemma nack_items_ok items : bytes_ok (nack_items_bytes items).
Proof.
  induction items; cbn; [constructor|]. rewrite !bytes_ok_app. auto with width.
Qed.

Lemma nackLoop_push h listLen items pre suf off i st :
  Forall nack_item_ok items -> bytes_ok pre -> bytes_ok suf -> off + i = blen pre ->
  nackLoop h (Ptr (pre ++ nack_items_bytes items ++ suf) off) listLen (length items) i st =
  pushAll listLen (nack_seqs items) st.
Proof.
  intros Hit. revert pre i st. induction Hit as [|[pid blp] items [Hp Hb] Hit IH];
    intros pre i st Hpre Hsuf Hi; [done|].
  cbn [nackLoop length nack_items_bytes map concat p_obj p_off]. fold (nack_items_bytes items).
  cbn [fst snd] in *. rewrite <- !(assoc_L (++)). pose proof (nack_items_ok items).
  destruct (native16_app h pre pid (be16 blp ++ nack_items_bytes items ++ suf) (off + i))
    as (n1 & -> & E1); [done|rewrite !bytes_ok_app; auto with width|done|lia|].
  cbn [mbind res_bind]. rewrite E1. rewrite (assoc_L (++) pre).
  destruct (native16_app h (pre ++ be16 pid) blp (nack_items_bytes items ++ suf)
              (off + i + 2)) as (n2 & -> & E2);
    [rewrite bytes_ok_app; auto with width|rewrite !bytes_ok_app; auto|done|blen_lia|].
  cbn [mbind res_bind]. rewrite E2. rewrite (assoc_L (++) _ (be16 blp)).
  change (nack_seqs ((pid, blp) :: items)) with (nack_expand (pid, blp) ++ nack_seqs items).
  rewrite pushAll_app. unfold nack_expand. cbn [fst snd pushAll]. destruct (nackPush listLen pid st) as [st1| |]; cbn [mbind res_bind]; [|done..].
  rewrite nackBlp_push by lia. change (Z.of_nat 16) with 16.
  destruct (pushAll listLen _ st1) as [st2| |]; cbn [mbind res_bind]; [|done..].
  apply IH; [rewrite !bytes_ok_app; auto with width|done|blen_lia].
Qed.

(** The pushes into a list of [listLen] announced entries: entry number [listLen]
    is still written. *)
Lemma pushAll_full listLen vs l c :
  listLen < c -> 0 <= c -> c + Z.of_nat (length vs) < 2 ^ 16 ->
  pushAll listLen vs (Some l, c) = Ok (Some l, c + Z.of_nat (length vs)).
Proof.
  revert c. induction vs as [|v vs IH]; intros c Hc H0 Hn; cbn [pushAll length].
  { do 3 f_equal. lia. }
  unfold nackPush. rewrite (proj2 (Z.leb_gt _ _)) by lia. cbn [mbind res_bind].
  cbn [length] in Hn. rewrite (u16_id (c + 1)) by (unfold is_u16; lia).
  rewrite IH by lia. do 2 f_equal. lia.
Qed.

Lemma pushAll_some listLen vs l (c : nat) :
  (c <= length l)%nat -> Z.of_nat (c + length vs) < 2 ^ 16 ->
  let room := Z.to_nat (listLen + 1 - Z.of_nat c) in
  let k := Nat.min (length vs) room in
  pushAll listLen vs (Some l, Z.of_nat c) =
  if bool_decide (c + k <= length l)%nat
  then Ok (Some (take c l ++ take room vs ++ drop (c + k) l), Z.of_nat (c + length vs))
  else Fault.
Proof.
  revert l c. induction vs as [|v vs IH]; intros l c Hc Hn; cbv zeta; cbn [pushAll length].
  { rewrite Nat.min_0_l, Nat.add_0_r, bool_decide_true by done.
    by rewrite take_nil, app_nil_l, take_drop. }
  cbn [length] in Hn. unfold nackPush. destruct (Z.leb_spec (Z.of_nat c) listLen) as [Hle|Hgt].
  - replace (Z.to_nat (listLen + 1 - Z.of_nat c))
      with (S (Z.to_nat (listLen + 1 - Z.of_nat (S c)))) by lia.
    set (room := Z.to_nat (listLen + 1 - Z.of_nat (S c))). cbn [Nat.min take].
    destruct (decide (c < length l)%nat) as [Hlt|Hge].
    + rewrite lput_in by lia. cbn [mbind res_bind].
      rewrite (u16_id (Z.of_nat c + 1)) by (unfold is_u16; lia). rewrite Nat2Z.id.
      replace (Z.of_nat c + 1) with (Z.of_nat (S c)) by lia.
      rewrite IH by (rewrite ?length_insert; lia). fold room. rewrite length_insert.
      replace (c + S (length vs `min` room))%nat with (S c + length vs `min` room)%nat by lia.
      case_bool_decide; [|done]. rewrite (take_S_r _ _ v) by (apply list_lookup_insert_eq; lia).
      rewrite take_insert_ge, drop_insert_lt by lia. rewrite <- (assoc_L (++)). do 3 f_equal. lia.
    + rewrite lput_fault by lia. rewrite bool_decide_false by lia. done.
  - cbn [mbind res_bind]. rewrite (u16_id (Z.of_nat c + 1)) by (unfold is_u16; lia).
    rewrite pushAll_full by lia. replace (Z.to_nat (listLen + 1 - Z.of_nat c)) with 0%nat by lia.
    rewrite Nat.min_0_r, Nat.add_0_r, bool_decide_true by done. cbn [take].
    rewrite app_nil_l, take_drop. do 2 f_equal. lia.
Qed.

Lemma pushAll_none listLen vs c :
  0 <= c -> c + Z.of_nat (length vs) < 2 ^ 16 ->
  pushAll listLen vs (None, c) = Ok (None, c + Z.of_nat (length vs)).
Proof.
  revert c. induction vs as [|v vs IH]; intros c H0 Hn; cbn [pushAll length].
  { do 2 f_equal. lia. }
  unfold nackPush. cbn [mbind res_bind]. cbn [length] in Hn.
  rewrite (u16_id (c + 1)) by (unfold is_u16; lia). rewrite IH by lia. do 2 f_equal. lia.
Qed.

Lemma blen_nack_items items : blen (nack_items_bytes items) = 4 * Z.of_nat (length items).
Proof.
  induction items as [|it items IH]; [done|]. unfold nack_items_bytes in *. cbn [map concat].
  autorewrite with blen. rewrite IH. cbn [length]. lia.
Qed.
#[export] Hint Rewrite blen_nack_items : blen.

Lemma rtcpNackListGet_push_at h pre suf sender receiver items l listLen :
  is_u32 sender -> is_u32 receiver -> Forall nack_item_ok items -> bytes_ok pre -> bytes_ok suf ->
  let bs := nack_bytes sender receiver items in
  rtcpNackListGet h (Some (Ptr (pre ++ bs ++ suf) (blen pre))) (blen bs) l listLen =
  ('(l, n) ← pushAll listLen (nack_seqs items) (l, 0); Ok (sender, receiver, l, n)).
Proof.
  intros Hs Hr Hit Hpre Hsuf. cbv zeta. unfold rtcpNackListGet, RTCP_NACK_LIST_LEN.
  assert (Hlen : blen (nack_bytes sender receiver items) = 8 + 4 * Z.of_nat (length items))
    by (unfold nack_bytes; autorewrite with blen; lia).
  rewrite Hlen. rewrite (proj2 (Z.leb_le _ _)) by lia.
  rewrite (proj2 (Z.eqb_eq _ _)) by (Z.div_mod_to_equations; lia). cbn [andb p_obj p_off].
  replace (Z.to_nat ((8 + 4 * Z.of_nat (length items) - 8) / 4)) with (length items)
    by (Z.div_mod_to_equations; lia).
  pose proof (nack_items_ok items). unfold nack_bytes. rewrite <- !(assoc_L (++)).
  destruct (native32_app h pre sender (be32 receiver ++ nack_items_bytes items ++ suf) (blen pre))
    as (n1 & -> & F1); [done|rewrite !bytes_ok_app; auto with width|done|done|].
  cbn [mbind res_bind]. rewrite (assoc_L (++) pre).
  destruct (native32_app h (pre ++ be32 sender) receiver (nack_items_bytes items ++ suf) (blen pre + 4))
    as (n2 & -> & F2); [rewrite bytes_ok_app; auto with width|rewrite bytes_ok_app; auto|done|blen_lia|].
  cbn [mbind res_bind]. rewrite F1, F2. rewrite (assoc_L (++) _ (be32 receiver)).
  rewrite (nackLoop_push h listLen items ((pre ++ be32 sender) ++ be32 receiver) suf (blen pre) 8);
    [done|done| |done|blen_lia].
  rewrite !bytes_ok_app. auto with width.
Qed.

Lemma rtcpNackListGet_push h sender receiver items l listLen :
  is_u32 sender -> is_u32 receiver -> Forall nack_item_ok items ->
  let bs := nack_bytes sender receiver items in
  rtcpNackListGet h (Some (Ptr bs 0)) (blen bs) l listLen =
  ('(l, n) ← pushAll listLen (nack_seqs items) (l, 0); Ok (sender, receiver, l, n)).
Proof.
  intros Hs Hr Hit. cbv zeta.
  pose proof (rtcpNackListGet_push_at h [] [] sender receiver items l listLen Hs Hr Hit) as H. cbv zeta in H.
  rewrite app_nil_r in H. apply H; constructor.
Qed.

(** Decoding a NACK message on any host returns the two SSRCs, the number of lost
    sequence numbers its items and bitmasks stand for, and stores these numbers in
    order.  Up to [listLen + 1] of them are stored, one more than the announced
    capacity: when the array has exactly [listLen] entries and the message stands for
    more, the store falls outside the array. *)
Theorem rtcpNackListGet_decodes h sender receiver items l listLen
  (Hs : is_u32 sender) (Hr : is_u32 receiver) (Hit : Forall nack_item_ok items)
  (Hn : Z.of_nat (length (nack_seqs items)) < 2 ^ 16) (Hl : 0 <= listLen) :
  let bs := nack_bytes sender receiver items in
  let seqs := nack_seqs items in
  let k := Nat.min (length seqs) (Z.to_nat (listLen + 1)) in
  rtcpNackListGet h (Some (Ptr bs 0)) (blen bs) (Some l) listLen =
  if bool_decide (k <= length l)%nat
  then Ok (sender, receiver, Some (take k seqs ++ drop k l), Z.of_nat (length seqs))
  else Fault.
Proof.
  cbv zeta. rewrite rtcpNackListGet_push by done.
  pose proof (pushAll_some listLen (nack_seqs items) l 0) as HP. cbv zeta in HP.
  change (Z.of_nat 0) with 0 in HP. rewrite Z.sub_0_r in HP. rewrite HP by (done || lia).
  set (room := Z.to_nat (listLen + 1)). set (k := (length (nack_seqs items) `min` room)%nat).
  destruct (decide (k <= length l)%nat).
  - rewrite !bool_decide_true by lia. cbn [mbind res_bind take app Nat.add].
    replace (take room (nack_seqs items)) with (take k (nack_seqs items)); [done|]. unfold k.
    destruct (Nat.min_spec (length (nack_seqs items)) room) as [[? ->]|[? ->]]; [|done].
    by rewrite !take_ge by lia.
  - by rewrite !bool_decide_false by lia.
Qed.

(** With no array the decoder only counts, and the count is the one the storing
    call reports. *)
Theorem rtcpNackListGet_counts h sender receiver items listLen
  (Hs : is_u32 sender) (Hr : is_u32 receiver) (Hit : Forall nack_item_ok items)
  (Hn : Z.of_nat (length (nack_seqs items)) < 2 ^ 16) :
  let bs := nack_bytes sender receiver items in
  rtcpNackListGet h (Some (Ptr bs 0)) (blen bs) None listLen =
  Ok (sender, receiver, None, Z.of_nat (length (nack_seqs items))).
Proof. cbv zeta. rewrite rtcpNackListGet_push by done. by rewrite pushAll_none by lia. Qed.

(** ** REMB *)

(** A REMB message: [pre] is the sender and media SSRC, then "REMB", the SSRC
    count, a 6-bit exponent, an 18-bit mantissa and the SSRCs. *)
Definition remb_bytes (pre : list Z) (expo mant : Z) (ssrcs : list Z) : list Z :=
  pre ++ [0x52; 0x45; 0x4d; 0x42]
  ++ [Z.of_nat (length ssrcs); expo * 4 + mant / 2 ^ 16] ++ be16 (mant mod 2 ^ 16)
  ++ concat (map be32 ssrcs).

Lemma native32_net h b o v :
  bytes_ok b -> rd32 b o = Ok v -> exists n, native32 h b o = Ok n /\ htonl h n = v.
Proof.
  intros Hb. unfold rd32, native32, htonl. ld_cases b o; ld_cases b (o + 1); ld_cases b (o + 2);
    ld_cases b (o + 3). intros [= <-]. eexists. split; [done|]. destruct h; [|done].
  by apply SWAP_INT32_val.
Qed.

Lemma rembSsrcs_spec h ssrcs pre suf off i l :
  Forall is_u32 ssrcs -> bytes_ok pre -> bytes_ok suf -> 0 <= i ->
  off + 16 + i * 4 = blen pre -> i + Z.of_nat (length ssrcs) <= Z.of_nat (length l) ->
  rembSsrcs h (Ptr (pre ++ concat (map be32 ssrcs) ++ suf) off) (length ssrcs) i (Some l) =
  Ok (Some (take (Z.to_nat i) l ++ ssrcs ++ drop (Z.to_nat i + length ssrcs) l)).
Proof.
  intros Hs. revert pre i l. induction Hs as [|v vs Hv Hvs IH]; intros pre i l Hp Hsuf Hi Ho Hl.
  { cbn. rewrite Nat.add_0_r, take_drop. done. }
  cbn [rembSsrcs length map concat p_obj p_off]. unfold RTCP_PACKET_REMB_IDENTIFIER_OFFSET.
  rewrite <- (assoc_L (++) (be32 v)).
  destruct (native32_app h pre v (concat (map be32 vs) ++ suf) (off + 8 + 8 + i * 4))
    as (n & -> & E); [done|rewrite bytes_ok_app; auto using csrc_bytes_ok|done|lia|].
  cbn [mbind res_bind]. cbn [length] in Hl. rewrite E, lput_in by lia. cbn [mbind res_bind].
  rewrite (assoc_L (++) pre). rewrite (IH (pre ++ be32 v)).
  - rewrite Z2Nat.inj_add by lia. rewrite Nat.add_1_r.
    rewrite (take_S_r _ _ v) by (apply list_lookup_insert_eq; lia).
    rewrite take_insert_ge, drop_insert_lt by lia. rewrite <- (assoc_L (++)).
    by replace (S (Z.to_nat i) + length vs)%nat with (Z.to_nat i + S (length vs))%nat by lia.
  - rewrite bytes_ok_app. auto with width.
  - done.
  - lia.
  - autorewrite with blen. lia.
  - rewrite length_insert. lia.
Qed.

(** The fields of a REMB message. *)
Lemma remb_fields pre expo mant ssrcs :
  bytes_ok pre -> blen pre = 8 -> 0 <= expo < 64 -> 0 <= mant < 2 ^ 18 ->
  Z.of_nat (length ssrcs) < 256 ->
  let bs := remb_bytes pre expo mant ssrcs in
  let e := expo * 4 + mant / 2 ^ 16 in
  bytes_ok bs /\ ld_bytes bs 8 4 = Ok [0x52; 0x45; 0x4d; 0x42] /\
  ld bs 12 = Ok (Z.of_nat (length ssrcs)) /\ ld bs 13 = Ok e /\
  rd32 bs 12 = Ok (2 ^ 24 * Z.of_nat (length ssrcs) + 2 ^ 16 * e + mant mod 2 ^ 16).
Proof.
  intros Hpre Hpl He Hm Hn. cbv zeta.
  set (n := Z.of_nat (length ssrcs)) in *. set (e := expo * 4 + mant / 2 ^ 16).
  assert (He8 : is_u8 e) by (unfold e; width_lia).
  unfold remb_bytes. fold n e.
  assert (Hb : forall k, 0 <= k -> ld (pre ++ [0x52; 0x45; 0x4d; 0x42] ++ [n; e]
      ++ be16 (mant mod 2 ^ 16) ++ concat (map be32 ssrcs)) (12 + k) =
    ld ([n; e] ++ be16 (mant mod 2 ^ 16) ++ concat (map be32 ssrcs)) k).
  { intros k Hk. rewrite (assoc_L (++) pre).
    replace (12 + k) with (blen (pre ++ [0x52; 0x45; 0x4d; 0x42]) + k) by blen_lia.
    by apply ld_app_off. }
  assert (H12 := Hb 0 ltac:(lia)). assert (H13 := Hb 1 ltac:(lia)).
  change (12 + 0) with 12 in H12. change (12 + 1) with 13 in H13.
  split_and!.
  - rewrite !bytes_ok_app. split_and!; auto using csrc_bytes_ok with width.
    + by apply bytes_ok_check.
    + repeat constructor; try apply He8; unfold n; lia.
  - by apply ld_bytes_app.
  - by rewrite H12.
  - by rewrite H13.
  - apply rd32_split; [by rewrite H12|change (12 + 1) with 13; by rewrite H13|].
    rewrite (assoc_L (++) pre), (assoc_L (++) (pre ++ _)).
    rewrite rd16_app by blen_lia. by rewrite u16_id by width_lia.
Qed.

(** Decoding a REMB message returns the SSRC list and the bit rate
    mantissa * 2^exponent reduced modulo 2^32; an exponent of 32 or more makes the C
    shift undefined. *)
Theorem rembValueGet_decodes h pre expo mant ssrcs l
  (Hpre : bytes_ok pre) (Hpl : blen pre = 8) (He : 0 <= expo < 64) (Hm : 0 <= mant < 2 ^ 18)
  (Hs : Forall is_u32 ssrcs) (Hn : Z.of_nat (length ssrcs) < 256)
  (Hl : (length ssrcs <= length l)%nat) :
  let bs := remb_bytes pre expo mant ssrcs in
  isRembPacket (Some (Ptr bs 0)) (blen bs) = Ok STATUS_SUCCESS /\
  rembValueGet h (Some (Ptr bs 0)) (blen bs) (Some l) =
  if expo <? 32
  then Ok (mant * 2 ^ expo mod 2 ^ 32, Some (ssrcs ++ drop (length ssrcs) l),
           Z.of_nat (length ssrcs))
  else Fault.
Proof.
  destruct (remb_fields pre expo mant ssrcs) as (Hbs & Hid & H12 & H13 & H32); [done..|].
  cbv zeta. set (bs := remb_bytes pre expo mant ssrcs) in *.
  assert (Hlen : blen bs = 16 + 4 * Z.of_nat (length ssrcs))
    by (unfold bs, remb_bytes; autorewrite with blen; lia).
  split.
  { unfold isRembPacket, RTCP_PACKET_REMB_MIN_SIZE. rewrite (proj2 (Z.leb_le _ _)) by lia.
    unfold RTCP_PACKET_REMB_IDENTIFIER_OFFSET, padd, pld_bytes. cbn [negb p_obj p_off].
    change (0 + 8) with 8. by rewrite Hid. }
  unfold rembValueGet, RTCP_PACKET_REMB_MIN_SIZE, RTCP_PACKET_REMB_IDENTIFIER_OFFSET, pld.
  rewrite (proj2 (Z.leb_le _ _)) by lia. cbn [p_obj p_off].
  change (0 + 8 + 4) with 12. change (0 + (8 + 4 + 1)) with 13. change (0 + (8 + 4)) with 12.
  destruct (native32_net h bs 12 _ Hbs H32) as (nm & -> & Hnm). cbn [mbind res_bind]. rewrite Hnm.
  rewrite H12, H13. cbn [mbind res_bind]. unfold RTCP_PACKET_REMB_MANTISSA_BITMASK.
  change 0x3FFFF with (Z.ones 18). rewrite land_mask, Z.shiftr_div_pow2 by lia.
  assert (E1 : (expo * 4 + mant / 2 ^ 16) / 2 ^ 2 = expo) by width_lia.
  rewrite E1. rewrite Z.leb_antisym. destruct (Z.ltb_spec expo 32); cbn [negb]; [|done].
  rewrite (proj2 (Z.leb_le _ _)) by lia. rewrite Nat2Z.id.
  assert (E2 : (2 ^ 24 * Z.of_nat (length ssrcs) + 2 ^ 16 * (expo * 4 + mant / 2 ^ 16)
                + mant mod 2 ^ 16) mod 2 ^ 18 = mant) by width_lia.
  rewrite E2, Z.shiftl_mul_pow2 by lia.
  assert (HR := rembSsrcs_spec h ssrcs (pre ++ [0x52; 0x45; 0x4d; 0x42] ++
    [Z.of_nat (length ssrcs); expo * 4 + mant / 2 ^ 16] ++ be16 (mant mod 2 ^ 16)) [] 0 0 l Hs).
  rewrite app_nil_r, <- !(assoc_L (++)) in HR. fold (remb_bytes pre expo mant ssrcs) in HR. fold bs in HR.
  rewrite HR; [done| |constructor|done|blen_lia|lia].
  unfold bs, remb_bytes in Hbs. rewrite !bytes_ok_app in Hbs. rewrite !bytes_ok_app.
  by destruct Hbs as (?&?&?&?&?).
Qed.

(** ** NTP timestamps *)

Lemma convertTimestampToNTP_val t :
  0 <= t -> t / HUNDREDS_OF_NANOS_IN_A_SECOND + NTP_OFFSET < 2 ^ 32 ->
  convertTimestampToNTP t =
  (t / 10 ^ 7 + NTP_OFFSET) * 2 ^ 32 + (t mod 10 ^ 7) * 2 ^ 32 / 10 ^ 7.
Proof.
  unfold convertTimestampToNTP, KVS_CONVERT_TIMESCALE, HUNDREDS_OF_NANOS_IN_A_SECOND, NTP_TIMESCALE.
  change 10000000 with (10 ^ 7). change 4294967296 with (2 ^ 32). intros Ht Hb.
  pose proof (Z.mod_pos_bound t (10 ^ 7) ltac:(lia)).
  assert (0 <= t / 10 ^ 7) by (apply Z.div_pos; lia).
  assert (0 <= NTP_OFFSET) by done.
  rewrite (u64_id (t / 10 ^ 7 + NTP_OFFSET)) by (unfold is_u64; lia).
  rewrite (u64_id (Z.shiftl _ _)) by (rewrite Z.shiftl_mul_pow2 by lia; unfold is_u64; lia).
  rewrite (u64_id (t mod 10 ^ 7 * 2 ^ 32)) by (unfold is_u64; lia).
  rewrite Z.lor_comm, lor_disjoint_add; [lia|lia|].
  split; [apply Z.div_pos; lia|]. apply Z.div_lt_upper_bound; lia.
Qed.

(** Until the NTP era ends in 2036 the conversion is exact to one NTP tick: the
    result is the time in units of 2^-32 s since 1900, rounded down. *)
Theorem convertTimestampToNTP_accurate t
  (Ht : 0 <= t) (Hera : t / HUNDREDS_OF_NANOS_IN_A_SECOND + NTP_OFFSET < 2 ^ 32) :
  convertTimestampToNTP t = (t + NTP_OFFSET * 10 ^ 7) * 2 ^ 32 / 10 ^ 7.
Proof.
  rewrite convertTimestampToNTP_val by done.
  rewrite <- Z.div_add_l by lia. f_equal. pose proof (Z.div_mod t (10 ^ 7)). lia.
Qed.

(** ** Concrete instances *)

Definition ex_rtcp : RtcpPacket :=
  {| rtcpHeader := {| rtcpVersion := 0; receptionReportCount := 0; packetType := 0;
                      rtcpPacketLength := 0 |};
     rtcpPayload := None; rtcpPayloadLength := 0 |}.
(** A picture loss indication (RFC 4585) followed by two bytes of another packet. *)
Definition ex_pli : list Z := [0x81; 206; 0; 2; 0; 0; 0; 1; 0; 0; 0; 2; 0x80; 200].

Lemma setRtcpPacketFromBytes_spec_witness :
  exists q, setRtcpPacketFromBytes LittleEndian ex_pli 14 (Some ex_rtcp) = Ok (STATUS_SUCCESS, q)
            /\ rtcpPayload q = Some (Ptr ex_pli 4).
Proof.
  destruct (setRtcpPacketFromBytes_spec LittleEndian ex_pli ex_rtcp (bytes_ok_check ex_pli eq_refl))
    as (st & q & H1 & H2 & H3).
  assert (st = STATUS_SUCCESS) as ->.
  { apply H2. exists 0x81, 2. vm_compute. intuition congruence. }
  exists q. split; [exact H1|]. by destruct (H3 eq_refl).
Defined.

(** Packet 100 lost with 102 and 116 (bits 1 and 15), then packet 65535 with 0. *)
Definition ex_nack : list (Z * Z) := [(100, 0x8002); (65535, 1)].

Lemma ex_nack_ok : Forall nack_item_ok ex_nack.
Proof. repeat constructor; vm_compute; intuition congruence. Qed.

Lemma rtcpNackListGet_decodes_witness :
  rtcpNackListGet LittleEndian (Some (Ptr (nack_bytes 1 2 ex_nack) 0)) (blen (nack_bytes 1 2 ex_nack))
    (Some (replicate 6 0)) 5 = Ok (1, 2, Some [100; 102; 116; 65535; 0; 0], 5).
Proof.
  pose proof (rtcpNackListGet_decodes LittleEndian 1 2 ex_nack (replicate 6 0) 5) as H.
  cbv zeta in H. rewrite H; try apply ex_nack_ok; vm_compute; intuition congruence.
Defined.

Lemma rtcpNackListGet_counts_witness :
  rtcpNackListGet BigEndian (Some (Ptr (nack_bytes 1 2 ex_nack) 0)) (blen (nack_bytes 1 2 ex_nack))
    None 0 = Ok (1, 2, None, 5).
Proof.
  pose proof (rtcpNackListGet_counts BigEndian 1 2 ex_nack 0) as H.
  cbv zeta in H. rewrite H; try apply ex_nack_ok; vm_compute; intuition congruence.
Defined.

Definition ex_remb : list Z := remb_bytes (replicate 8 0) 3 1000 [7; 8].

Lemma rembValueGet_decodes_witness :
  rembValueGet LittleEndian (Some (Ptr ex_remb 0)) (blen ex_remb) (Some (replicate 3 0))
  = Ok (8000, Some [7; 8; 0], 2).
Proof.
  assert (Hs : Forall is_u32 [7; 8]) by (repeat constructor; vm_compute; intuition congruence).
  assert (Hl : (length [7; 8] <= length (replicate 3 0%Z))%nat) by (cbn; lia).
  destruct (rembValueGet_decodes LittleEndian (replicate 8 0) 3 1000 [7; 8] (replicate 3 0)
              (bytes_ok_check (replicate 8 0) eq_refl) eq_refl ltac:(lia) ltac:(lia) Hs
              eq_refl Hl) as [_ H].
  fold ex_remb in H. rewrite H. reflexivity.
Defined.

Lemma convertTimestampToNTP_accurate_witness :
  convertTimestampToNTP 17000000005000000 = (17000000005000000 + NTP_OFFSET * 10 ^ 7) * 2 ^ 32 / 10 ^ 7.
Proof. apply (convertTimestampToNTP_accurate 17000000005000000); vm_compute; intuition congruence. Defined.
