(* ===== verification/Payloaders.v ===== *)
(** * RTP payload formats (src/source/Rtp/Codecs: RtpVP8Payloader.c, RtpOpusPayloader.c,
      RtpG711Payloader.c)

    The packetisers split an encoded frame into RTP payloads and the depacketisers
    turn a payload back into a piece of the frame.  The sender and the jitter buffer
    call them through the function-pointer types RtpPayloadFunc and
    DepayRtpPayloadFunc; the class [Payloader] states what they promise, the instances
    at the end of the components prove it. *)

From S2P Require Import Prelude Endian RtpPacket.

(** ** The function-pointer types

    Packetiser: the MTU, the frame and its length, the payload buffer (NULL: compute the
    sizes only), the value behind pPayloadLength, the sub-length array, the value behind
    pPayloadSubLenSize.  The outcome has the buffers after the call and the values stored
    through the two length pointers.  An [Err] leaves these outputs indeterminate. *)

Record PayloadOut : Type := {
  po_status : STATUS;
  po_buffer : option (list Z);
  po_subs : option (list Z);
  po_length : option Z;
  po_count : option Z;
}.

Definition RtpPayloadFunc : Type :=
  Z -> option (list Z) -> Z -> option (list Z) -> option Z -> option (list Z) -> option Z
  -> res PayloadOut.

(** Depacketiser: the payload and its length, the place to write to (NULL: compute the
    size only), the capacity behind the length pointer and the flag behind pIsStart. *)
Record DepayOut : Type := {
  do_status : STATUS;
  do_data : option (list Z);
  do_length : option Z;
  do_isStart : option bool;
}.

Definition DepayRtpPayloadFunc : Type :=
  option ptr -> Z -> option ptr -> option Z -> option bool -> res DepayOut.

(** The common CleanUp sections. *)
Definition payloadDone (st : STATUS) (sizeOnly : bool) (buf subs : option (list Z)) (len cnt : Z)
    (pLen pCnt : option Z) : res PayloadOut :=
  let zero := STATUS_FAILED st && sizeOnly in
  let out (v : Z) := match pLen, pCnt with Some _, Some _ => Some (if zero then 0 else v) | _, _ => None end in
  Ok {| po_status := st; po_buffer := buf; po_subs := subs; po_length := out len; po_count := out cnt |}.

Definition depayDone (st : STATUS) (dst : option ptr) (data : option (list Z)) (len : Z)
    (isStart : bool) (pLen : option Z) (pIsStart : option bool) : res DepayOut :=
  let zero := STATUS_FAILED st && negb (bool_decide (is_Some dst)) in
  Ok {| do_status := st; do_data := data;
        do_length := (fun _ => if zero then 0 else len) <$> pLen;
        do_isStart := (fun _ => isStart) <$> pIsStart |}.

Definition isNull {A} (p : option A) : bool := match p with Some _ => false | None => true end.

(** The bytes of the destination object, unchanged. *)
Definition dstBytes (dst : option ptr) : option (list Z) := p_obj <$> dst.

(** ** VP8 *)

Definition VP8_PAYLOAD_DESCRIPTOR_SIZE : Z := 1.
Definition VP8_PAYLOAD_DESCRIPTOR_START_OF_PARTITION_VALUE : Z := 0x10.

(** The loop of createPayloadForVP8.  [cur] and [pos] are the read and write offsets;
    [out] is absent when only the sizes are computed. *)
Fixpoint vp8Loop (fuel : nat) (mtu : Z) (data : list Z) (cur remaining : Z)
    (out : option (list Z * list Z)) (pos len cnt : Z)
    : res (option (list Z * list Z) * Z * Z) :=
  if 0 <? remaining then
    match fuel with
    | O => Fault
    | S fuel =>
        let consumed := Z.min (mtu -32 VP8_PAYLOAD_DESCRIPTOR_SIZE) remaining in
        let len := len +32 (consumed +32 VP8_PAYLOAD_DESCRIPTOR_SIZE) in
        out ← (match out with
               | None => Ok None
               | Some (buf, subs) =>
                   buf ← put8 buf pos
                           (if cnt =? 0 then VP8_PAYLOAD_DESCRIPTOR_START_OF_PARTITION_VALUE else 0);
                   bs ← ld_bytes data cur consumed;
                   buf ← put_bytes buf (pos + 1) bs;
                   subs ← lput subs cnt (consumed +32 VP8_PAYLOAD_DESCRIPTOR_SIZE);
                   Ok (Some (buf, subs))
               end);
        vp8Loop fuel mtu data (cur + consumed) (remaining -32 consumed) out (pos + 1 + consumed)
          len (cnt +32 1)
    end
  else Ok (out, len, cnt).

(** With an MTU of 1 nothing is consumed and the C loop does not end; [dataLen]
    iterations are enough for every other MTU. *)
Definition createPayloadForVP8 : RtpPayloadFunc :=
  fun mtu pData dataLen buf pLen subs pCnt =>
  let sizeOnly := isNull buf in
  if isNull pData || isNull pCnt || isNull pLen || negb (sizeOnly || negb (isNull subs)) then
    if sizeOnly then payloadDone STATUS_NULL_ARG true buf subs 0 0 pLen pCnt
    else Err STATUS_NULL_ARG
  else
    let data := default [] pData in
    '(out, len, cnt) ← vp8Loop (Z.to_nat dataLen) mtu data 0 dataLen
                        (match buf, subs with Some b, Some s => Some (b, s) | _, _ => None end) 0 0 0;
    payloadDone STATUS_SUCCESS sizeOnly
      (match out with Some (b, _) => Some b | None => buf end)
      (match out with Some (_, s) => Some s | None => subs end) len cnt pLen pCnt.

Definition depayVP8FromRtpPayload : DepayRtpPayloadFunc :=
  fun pRaw packetLength dst pLen pIsStart =>
  match pRaw, pLen with
  | Some raw, Some cap =>
      if packetLength =? 0
      then depayDone STATUS_SUCCESS dst (dstBytes dst) packetLength true pLen pIsStart else
      b0 ← pld raw 0;
      let n := 1 in
      '(havePictureID, haveTL0PICIDX, haveTID, haveKEYIDX, n) ←
        (if negb (Z.shiftr (Z.land b0 0x80) 7 =? 0) then
           b1 ← pld raw n;
           Ok (negb (Z.shiftr (Z.land b1 0x80) 7 =? 0), negb (Z.shiftr (Z.land b1 0x40) 6 =? 0),
               negb (Z.shiftr (Z.land b1 0x20) 5 =? 0), negb (Z.shiftr (Z.land b1 0x10) 4 =? 0), n + 1)
         else Ok (false, false, false, false, n));
      n ← (if havePictureID : bool then
             b ← pld raw n; Ok (if 0 <? Z.land b 0x80 then n + 2 else n + 1)
           else Ok n);
      let n := if haveTL0PICIDX : bool then n + 1 else n in
      let n := if haveTID || haveKEYIDX then n + 1 else n in
      let vp8Length := packetLength -32 n in
      match dst with
      | None => depayDone STATUS_SUCCESS dst None vp8Length true pLen pIsStart
      | Some d =>
          if negb (vp8Length <=? cap)
          then depayDone STATUS_BUFFER_TOO_SMALL dst (dstBytes dst) vp8Length true pLen pIsStart else
          bs ← pld_bytes (padd raw n) vp8Length;
          data ← put_bytes (p_obj d) (p_off d) bs;
          depayDone STATUS_SUCCESS dst (Some data) vp8Length true pLen pIsStart
      end
  | _, _ => depayDone STATUS_NULL_ARG dst (dstBytes dst) packetLength true pLen pIsStart
  end.

(** ** Opus *)

Definition createPayloadForOpus : RtpPayloadFunc :=
  fun mtu pFrame frameLength buf pLen subs pCnt =>
  match pFrame, pCnt, pLen with
  | Some frame, Some cnt, Some len =>
      match buf, subs with
      | None, _ => payloadDone STATUS_SUCCESS true buf subs frameLength 1 pLen pCnt
      | Some _, None => payloadDone STATUS_NULL_ARG false buf subs 0 0 pLen pCnt
      | Some b, Some s =>
          if negb ((frameLength <=? len) && (1 <=? cnt))
          then payloadDone STATUS_BUFFER_TOO_SMALL false buf subs frameLength 1 pLen pCnt else
          bs ← ld_bytes frame 0 frameLength;
          b ← put_bytes b 0 bs;
          s ← lput s 0 frameLength;
          payloadDone STATUS_SUCCESS false (Some b) (Some s) frameLength 1 pLen pCnt
      end
  | _, _, _ => payloadDone STATUS_NULL_ARG (isNull buf) buf subs 0 0 pLen pCnt
  end.

Definition depayOpusFromRtpPayload : DepayRtpPayloadFunc :=
  fun pRaw packetLength dst pLen pIsStart =>
  match pRaw, pLen with
  | Some raw, Some cap =>
      if packetLength =? 0 then depayDone STATUS_SUCCESS dst (dstBytes dst) 0 true pLen pIsStart else
      match dst with
      | None => depayDone STATUS_SUCCESS dst None packetLength true pLen pIsStart
      | Some d =>
          if negb (packetLength <=? cap)
          then depayDone STATUS_BUFFER_TOO_SMALL dst (dstBytes dst) packetLength true pLen pIsStart else
          bs ← pld_bytes raw packetLength;
          data ← put_bytes (p_obj d) (p_off d) bs;
          depayDone STATUS_SUCCESS dst (Some data) packetLength true pLen pIsStart
      end
  | _, _ => depayDone STATUS_NULL_ARG dst (dstBytes dst) 0 true pLen pIsStart
  end.

(** ** G.711 *)

(** The sub-length loop: [mtu] while more than [mtu] bytes remain, then the rest. *)
Fixpoint g711Loop (fuel : nat) (mtu remaining : Z) (subs : list Z) (i : Z) : res (list Z) :=
  if mtu <? remaining then
    match fuel with
    | O => Fault
    | S fuel =>
        subs ← lput subs i mtu;
        g711Loop fuel mtu (remaining -32 mtu) subs (i + 1)
    end
  else lput subs i remaining.

(** A zero MTU is a division by zero. *)
Definition createPayloadForG711 : RtpPayloadFunc :=
  fun mtu pFrame frameLength buf pLen subs pCnt =>
  match pFrame, pCnt, pLen with
  | Some frame, Some cnt, Some len =>
      if isNull subs && negb (isNull buf) then payloadDone STATUS_NULL_ARG false buf subs 0 0 pLen pCnt else
      if mtu =? 0 then Fault else
      let n := frameLength / mtu +32 (if frameLength mod mtu =? 0 then 0 else 1) in
      match buf, subs with
      | Some b, Some s =>
          if negb ((frameLength <=? len) && (n <=? cnt))
          then payloadDone STATUS_BUFFER_TOO_SMALL false buf subs frameLength n pLen pCnt else
          bs ← ld_bytes frame 0 frameLength;
          b ← put_bytes b 0 bs;
          s ← g711Loop (Z.to_nat frameLength) mtu frameLength s 0;
          payloadDone STATUS_SUCCESS false (Some b) (Some s) frameLength n pLen pCnt
      | _, _ => payloadDone STATUS_SUCCESS true buf subs frameLength n pLen pCnt
      end
  | _, _, _ => payloadDone STATUS_NULL_ARG (isNull buf) buf subs 0 0 pLen pCnt
  end.

Definition depayG711FromRtpPayload : DepayRtpPayloadFunc :=
  fun pRaw packetLength dst pLen pIsStart =>
  match pRaw, pLen with
  | Some raw, Some cap =>
      if packetLength =? 0 then depayDone STATUS_SUCCESS dst (dstBytes dst) 0 true pLen pIsStart else
      match dst with
      | None => depayDone STATUS_SUCCESS dst None packetLength true pLen pIsStart
      | Some d =>
          if negb (packetLength <=? cap)
          then depayDone STATUS_BUFFER_TOO_SMALL dst (dstBytes dst) packetLength true pLen pIsStart else
          bs ← pld_bytes raw packetLength;
          data ← put_bytes (p_obj d) (p_off d) bs;
          depayDone STATUS_SUCCESS dst (Some data) packetLength true pLen pIsStart
      end
  | _, _ => depayDone STATUS_NULL_ARG dst (dstBytes dst) 0 true pLen pIsStart
  end.

(** ** What a payload format promises

    For the frames it accepts, a format has a list of [fragments]; the sizing call
    announces their number and total length, the filling call writes them one after the
    other and their lengths into the array.  A depacketiser maps a fragment to a [piece]
    of the frame (which may depend on the flag passed in) and reports whether the fragment
    [starts] a frame; the pieces of a frame, in order, make up its [image]. *)

Definition total (frs : list (list Z)) : Z := sumBy blen frs.

Class Payloader (create : RtpPayloadFunc) (depay : DepayRtpPayloadFunc) : Type := {
  frame_ok : Z -> list Z -> Prop;
  fragments : Z -> list Z -> list (list Z);
  frag_ok : list Z -> Prop;
  piece : bool -> list Z -> list Z;
  starts : list Z -> bool;
  image : list Z -> list Z;
  fragments_shape mtu f : frame_ok mtu f ->
    fragments mtu f <> [] /\ total (fragments mtu f) < 2 ^ 32 /\
    Forall (fun fr => frag_ok fr /\ 0 < blen fr <= mtu) (fragments mtu f) /\
    (forall fr, head (fragments mtu f) = Some fr -> starts fr = true);
  create_size mtu f l c : frame_ok mtu f ->
    create mtu (Some f) (blen f) None (Some l) None (Some c) =
    Ok {| po_status := STATUS_SUCCESS; po_buffer := None; po_subs := None;
          po_length := Some (total (fragments mtu f));
          po_count := Some (Z.of_nat (length (fragments mtu f))) |};
  create_fill mtu f buf subs (n := length (fragments mtu f)) : frame_ok mtu f ->
    total (fragments mtu f) <= blen buf -> (n <= length subs)%nat ->
    create mtu (Some f) (blen f) (Some buf) (Some (total (fragments mtu f))) (Some subs)
      (Some (Z.of_nat n)) =
    Ok {| po_status := STATUS_SUCCESS;
          po_buffer := Some (concat (fragments mtu f) ++ drop (Z.to_nat (total (fragments mtu f))) buf);
          po_subs := Some (map blen (fragments mtu f) ++ drop n subs);
          po_length := Some (total (fragments mtu f)); po_count := Some (Z.of_nat n) |};
  depay_size p fr cap first : frag_ok fr -> 0 < blen fr < 2 ^ 32 -> pld_bytes p (blen fr) = Ok fr ->
    depay (Some p) (blen fr) None (Some cap) (Some first) =
    Ok {| do_status := STATUS_SUCCESS; do_data := None; do_length := Some (blen (piece first fr));
          do_isStart := Some (starts fr) |};
  depay_fill p fr d data cap first : frag_ok fr -> 0 < blen fr < 2 ^ 32 -> pld_bytes p (blen fr) = Ok fr ->
    blen (piece first fr) <= cap -> put_bytes (p_obj d) (p_off d) (piece first fr) = Ok data ->
    depay (Some p) (blen fr) (Some d) (Some cap) (Some first) =
    Ok {| do_status := STATUS_SUCCESS; do_data := Some data; do_length := Some (blen (piece first fr));
          do_isStart := Some (starts fr) |};
  pieces_image mtu f : frame_ok mtu f ->
    concat (imap (fun i => piece (bool_decide (i = 0%nat))) (fragments mtu f)) = image f;
  fragments_bytes mtu f : frame_ok mtu f -> bytes_ok f -> Forall bytes_ok (fragments mtu f);
}.

Lemma total_app a b : total (a ++ b) = total a + total b.
Proof. unfold total. induction a; simpl; lia. Qed.
Lemma total_cons x l : total (x :: l) = blen x + total l.
Proof. done. Qed.
Lemma total_nonneg l : 0 <= total l.
Proof. unfold total. induction l; simpl; [lia|]. blen_lia. Qed.
Lemma blen_concat l : blen (concat l) = total l.
Proof. induction l as [|x l IH]; simpl; [done|]. rewrite blen_app, IH. done. Qed.

(** ** Splitting into pieces of bounded size *)

Fixpoint chunksF (fuel n : nat) (l : list Z) : list (list Z) :=
  match fuel, l with
  | O, _ | _, [] => []
  | S fuel, _ => take n l :: chunksF fuel n (drop n l)
  end.
Definition chunks (n : nat) (l : list Z) : list (list Z) := chunksF (length l) n l.

Section Chunks.
Context (n : nat) (Hn : (0 < n)%nat).

Lemma chunksF_enough fuel l : (length l <= fuel)%nat -> chunksF fuel n l = chunks n l.
Proof.
  unfold chunks. remember (length l) as k eqn:Ek. assert (Hk : (length l <= k)%nat) by lia.
  clear Ek. revert fuel l Hk. induction k as [|k IH]; intros fuel l Hk Hf.
  - destruct l; [by destruct fuel|simpl in Hk; lia].
  - destruct l as [|x l]; [by destruct fuel|]. destruct fuel as [|fuel]; [simpl in Hf; lia|].
    cbn [chunksF]. f_equal.
    assert (Hd : (length (drop n (x :: l)) <= k)%nat) by (rewrite length_drop; simpl in *; lia).
    apply IH; [done|lia].
Qed.

Lemma chunks_nil : chunks n [] = [].
Proof. done. Qed.

Lemma chunks_step l : l <> [] -> chunks n l = take n l :: chunks n (drop n l).
Proof.
  intros Hl. destruct l as [|x l]; [done|]. unfold chunks at 1. cbn [length chunksF]. f_equal.
  apply chunksF_enough. rewrite length_drop. simpl. lia.
Qed.

Lemma chunks_ind (P : list Z -> Prop) :
  P [] -> (forall l, l <> [] -> P (drop n l) -> P l) -> forall l, P l.
Proof.
  intros H0 HS l. remember (length l) as k eqn:Ek. assert (Hk : (length l <= k)%nat) by lia.
  clear Ek. revert l Hk. induction k as [|k IH]; intros l Hk.
  - destruct l; [done|simpl in Hk; lia].
  - destruct l as [|x l]; [done|]. apply HS; [done|]. apply IH. rewrite length_drop. simpl in *. lia.
Qed.

Lemma concat_chunks l : concat (chunks n l) = l.
Proof.
  induction l as [|l Hl IH] using chunks_ind; [done|]. rewrite chunks_step by done. simpl.
  by rewrite IH, take_drop.
Qed.

Lemma chunks_size l : Forall (fun c => 0 < blen c <= Z.of_nat n) (chunks n l).
Proof.
  induction l as [|l Hl IH] using chunks_ind; [constructor|]. rewrite chunks_step by done.
  constructor; [|done]. unfold blen. rewrite length_take. destruct l; [done|]. simpl. lia.
Qed.

Lemma chunks_nonempty l : l <> [] -> chunks n l <> [].
Proof. intros. by rewrite chunks_step. Qed.

Lemma chunks_bytes l : bytes_ok l -> Forall bytes_ok (chunks n l).
Proof. intros H. rewrite <- (concat_chunks l) in H. by apply Forall_concat in H. Qed.

Lemma chunks_count l : Z.of_nat (length (chunks n l)) <= blen l.
Proof.
  rewrite <- (concat_chunks l) at 2. rewrite blen_concat. pose proof (chunks_size l) as H.
  induction (chunks n l) as [|c cs IH]; [done|]. inversion H as [|?? Hc Hcs]. subst.
  simpl. rewrite total_cons. specialize (IH Hcs). lia.
Qed.
End Chunks.

(** ** VP8: proofs *)

Definition vp8_desc (first : bool) : Z :=
  if first then VP8_PAYLOAD_DESCRIPTOR_START_OF_PARTITION_VALUE else 0.

Fixpoint vp8_frags (first : bool) (cs : list (list Z)) : list (list Z) :=
  match cs with
  | [] => []
  | c :: cs => (vp8_desc first :: c) :: vp8_frags false cs
  end.

Lemma total_vp8_frags first cs : total (vp8_frags first cs) = total cs + Z.of_nat (length cs).
Proof.
  revert first. induction cs as [|c cs IH]; intros first; [done|]. cbn [vp8_frags length].
  rewrite !total_cons, IH, blen_cons. lia.
Qed.

Lemma vp8_frags_bytes first cs : Forall bytes_ok cs -> Forall bytes_ok (vp8_frags first cs).
Proof.
  intros H. revert first. induction H as [|c cs Hc _ IH]; intros first; constructor; [|apply IH].
  constructor; [|exact Hc]. unfold vp8_desc, VP8_PAYLOAD_DESCRIPTOR_START_OF_PARTITION_VALUE, is_u8; destruct first; lia.
Qed.

Lemma length_vp8_frags first cs : length (vp8_frags first cs) = length cs.
Proof. revert first. induction cs; intros; simpl; auto. Qed.

Lemma vp8_consumed mtu l :
  2 <= mtu < 2 ^ 32 -> l <> [] -> blen l < 2 ^ 31 ->
  let c := Z.min (mtu -32 VP8_PAYLOAD_DESCRIPTOR_SIZE) (blen l) in
  c = blen (take (Z.to_nat (mtu - 1)) l) /\ 0 < c <= blen l /\
  c +32 VP8_PAYLOAD_DESCRIPTOR_SIZE = 1 + c /\
  blen l -32 c = blen (drop (Z.to_nat (mtu - 1)) l).
Proof.
  intros Hm Hl Hb c. assert (0 < blen l) by (destruct l; [done|unfold blen; simpl; lia]).
  unfold VP8_PAYLOAD_DESCRIPTOR_SIZE in *.
  assert (Hc : c = Z.min (mtu - 1) (blen l)) by (subst c; rewrite u32_id; [done|width_lia]).
  unfold blen in *. rewrite length_take, length_drop. rewrite !u32_id by (rewrite Hc; width_lia). lia.
Qed.

Lemma vp8Loop_size fuel mtu data cur l pos len cnt :
  2 <= mtu < 2 ^ 32 -> blen l < 2 ^ 31 -> (length l <= fuel)%nat ->
  0 <= len -> 0 <= cnt -> len + 2 * blen l < 2 ^ 32 -> cnt + blen l < 2 ^ 32 ->
  let frs := chunks (Z.to_nat (mtu - 1)) l in
  vp8Loop fuel mtu data cur (blen l) None pos len cnt =
  Ok (None, len + total frs + Z.of_nat (length frs), cnt + Z.of_nat (length frs)).
Proof.
  intros Hm Hb. revert fuel cur pos len cnt.
  induction l as [|l Hl IH] using (chunks_ind (Z.to_nat (mtu - 1)) ltac:(lia));
    intros fuel cur pos len cnt Hf Hlen Hcnt Hmax Hmax2 frs.
  - destruct fuel; cbn -[total]; do 3 f_equal; unfold frs; cbn; lia.
  - pose proof (vp8_consumed mtu l Hm Hl Hb) as (Hc & Hc2 & Hc3 & Hc4).
    assert (Hd : blen (drop (Z.to_nat (mtu - 1)) l) = blen l - blen (take (Z.to_nat (mtu - 1)) l))
      by (unfold blen; rewrite length_drop, length_take; lia).
    destruct fuel as [|fuel]; [destruct l; simpl in Hf; [done|lia]|]. cbn [vp8Loop].
    rewrite (proj2 (Z.ltb_lt 0 (blen l))) by lia. cbn [mbind res_bind].
    rewrite Hc3, Hc4, Hc in *. rewrite (u32_id (len + _)), (u32_id (cnt + 1)) by width_lia.
    rewrite IH by (try (unfold blen in *; rewrite ?length_drop in *; rewrite ?length_take in *; lia)).
    unfold frs. rewrite (chunks_step (Z.to_nat (mtu - 1)) ltac:(lia) l) by done. cbn [length]. rewrite total_cons.
    apply f_equal, f_equal2; [apply f_equal2; [done|]|]; lia.
Qed.

Lemma vp8Loop_fill fuel mtu pre l dn rest sd sr len :
  2 <= mtu < 2 ^ 32 -> blen l < 2 ^ 31 -> (length l <= fuel)%nat ->
  0 <= len -> len + 2 * blen l < 2 ^ 32 -> Z.of_nat (length sd) + blen l < 2 ^ 32 ->
  let frs := vp8_frags (bool_decide (sd = [])) (chunks (Z.to_nat (mtu - 1)) l) in
  total frs <= blen rest -> (length frs <= length sr)%nat ->
  vp8Loop fuel mtu (pre ++ l) (blen pre) (blen l) (Some (dn ++ rest, sd ++ sr)) (blen dn) len
    (Z.of_nat (length sd)) =
  Ok (Some (dn ++ concat frs ++ drop (Z.to_nat (total frs)) rest,
            sd ++ map blen frs ++ drop (length frs) sr),
      len + total frs, Z.of_nat (length sd + length frs)).
Proof.
  intros Hm Hb. revert fuel pre dn rest sd sr len.
  induction l as [|l Hl IH] using (chunks_ind (Z.to_nat (mtu - 1)) ltac:(lia));
    intros fuel pre dn rest sd sr len Hf Hlen Hmax Hmax2 frs Hrest Hsr.
  - destruct fuel; subst frs; cbn; rewrite Nat.add_0_r; do 3 f_equal; lia.
  - pose proof (vp8_consumed mtu l Hm Hl Hb) as (Hc & Hc2 & Hc3 & Hc4).
    assert (Hd : blen (drop (Z.to_nat (mtu - 1)) l) = blen l - blen (take (Z.to_nat (mtu - 1)) l))
      by (unfold blen; rewrite length_drop, length_take; lia).
    destruct fuel as [|fuel]; [destruct l; simpl in Hf; [done|lia]|]. cbn [vp8Loop].
    rewrite (proj2 (Z.ltb_lt 0 (blen l))) by lia.
    rewrite Hc3, Hc4, Hc in *. subst frs.
    pose proof (chunks_step (Z.to_nat (mtu - 1)) ltac:(lia) l Hl) as Hst.
    rewrite Hst in Hrest. rewrite Hst in Hsr. rewrite Hst. clear Hst.
    set (c := take (Z.to_nat (mtu - 1)) l) in *. set (l' := drop (Z.to_nat (mtu - 1)) l) in *.
    cbn [vp8_frags length concat map] in *. rewrite total_cons, blen_cons in Hrest |- *.
    pose proof (total_nonneg (vp8_frags false (chunks (Z.to_nat (mtu - 1)) l'))).
    replace (if Z.of_nat (length sd) =? 0 then VP8_PAYLOAD_DESCRIPTOR_START_OF_PARTITION_VALUE else 0)
      with (vp8_desc (bool_decide (sd = []))).
    2: { destruct sd; [done|]. by rewrite (proj2 (Z.eqb_neq _ _)) by (simpl; lia). }
    unfold put8. rewrite u8_id by (by case_bool_decide). rewrite put_bytes_at; [|done|change (blen [vp8_desc (bool_decide (sd = []))]) with 1; blen_facts; lia].
    replace (ld_bytes (pre ++ l) (blen pre) (blen c)) with (Ok c : res (list Z))
      by (rewrite <- (take_drop (Z.to_nat (mtu - 1)) l); symmetry; by apply ld_bytes_app).
    cbn [mbind res_bind]. rewrite (assoc_L (++)). rewrite put_bytes_at.
    2: by rewrite blen_app. 2: { rewrite blen_drop; change (blen [vp8_desc (bool_decide (sd = []))]) with 1; blen_facts; lia. }
    cbn [mbind res_bind]. destruct sr as [|s0 sr]; [simpl in Hsr; lia|].
    rewrite lput_at by done. cbn [mbind res_bind].
    rewrite (u32_id (len + _)), (u32_id (Z.of_nat (length sd) + 1)) by width_lia.
    specialize (IH ltac:(lia) fuel (pre ++ c) ((dn ++ [vp8_desc (bool_decide (sd = []))]) ++ c)
      (drop (Z.to_nat (blen c)) (drop (Z.to_nat (blen [vp8_desc (bool_decide (sd = []))])) rest))
      (sd ++ [1 + blen c]) sr (len + (1 + blen c))).
    rewrite bool_decide_false in IH by (by destruct sd).
    replace ((pre ++ c) ++ l') with (pre ++ l) in IH
      by (rewrite <- (assoc_L (++)); unfold c, l'; by rewrite take_drop).
    rewrite !blen_app, !length_app, <- !(assoc_L (++)) in IH. cbn [length app] in IH.
    replace (Z.of_nat (length sd + 1)) with (Z.of_nat (length sd) + 1) in IH by lia.
    change (blen [vp8_desc (bool_decide (sd = []))]) with 1 in *.
    rewrite <- !(assoc_L (++)). cbn [app]. rewrite IH; clear IH.
    all: try (unfold blen in *; rewrite ?length_drop; simpl length in *; lia).
    rewrite !drop_drop. apply f_equal, f_equal2; [apply f_equal2; [apply f_equal, f_equal2|]|]; try lia.
    + rewrite <- ?(assoc_L (++)). cbn [app]. do 5 f_equal. blen_facts. lia.
    + rewrite <- ?(assoc_L (++)). done.
Qed.

(** The bytes a depacketiser delivers, once the header it skips is known. *)
Lemma pld_bytes_cons p b t :
  pld_bytes p (blen (b :: t)) = Ok (b :: t) ->
  pld p 0 = Ok b /\ pld_bytes (padd p 1) (blen t) = Ok t.
Proof.
  unfold pld_bytes, pld, padd. cbn [p_obj p_off]. intros H.
  pose proof (ld_bytes_inv _ _ _ _ H) as (Ho & Hn & Hle & _).
  rewrite ld_bytes_in in H by done. injection H as H. rewrite blen_cons in *. blen_facts.
  replace (Z.to_nat (1 + blen t)) with (S (Z.to_nat (blen t))) in H by lia.
  destruct (drop (Z.to_nat (p_off p)) (p_obj p)) as [|b' r] eqn:E; [discriminate|].
  injection H as -> Ht. split.
  - unfold ld. rewrite (proj2 (Z.leb_le _ _)) by lia. rewrite Z.add_0_r.
    pose proof (lookup_drop (p_obj p) (Z.to_nat (p_off p)) 0) as Hl. rewrite E, Nat.add_0_r in Hl.
    by rewrite <- Hl.
  - rewrite ld_bytes_in by lia. f_equal.
    replace (Z.to_nat (p_off p + 1)) with (Z.to_nat (p_off p) + 1)%nat by lia.
    by rewrite <- drop_drop, E.
Qed.

Definition vp8_frag_ok (fr : list Z) : Prop :=
  match fr with [] => False | b :: _ => Z.land b 0x80 = 0 end.

Lemma vp8_frags_ok first mtu cs : Forall (fun c => 0 < blen c <= mtu - 1) cs ->
  Forall (fun fr => vp8_frag_ok fr /\ 0 < blen fr <= mtu) (vp8_frags first cs).
Proof.
  intros H. revert first. induction H as [|c cs Hc _ IH]; intros first; constructor; [|apply IH].
  rewrite blen_cons. split; [by destruct first|lia].
Qed.

Lemma vp8_pieces first cs : concat (map tail (vp8_frags first cs)) = concat cs.
Proof. revert first. induction cs as [|c cs IH]; intros; simpl; [done|]. by rewrite IH. Qed.

Lemma imap_const {A B} (f : A -> B) l : imap (fun _ => f) l = map f l.
Proof. induction l; simpl; [done|]. unfold compose. by f_equal. Qed.

(** The descriptor written by the packetiser is one byte long. *)
Lemma depayVP8_spec p b t dst cap first :
  Z.land b 0x80 = 0 -> blen (b :: t) < 2 ^ 32 -> pld_bytes p (blen (b :: t)) = Ok (b :: t) ->
  match dst with
  | None => True
  | Some d => blen t <= cap /\ exists data, put_bytes (p_obj d) (p_off d) t = Ok data
  end ->
  depayVP8FromRtpPayload (Some p) (blen (b :: t)) dst (Some cap) (Some first) =
  Ok {| do_status := STATUS_SUCCESS;
        do_data := dst ≫= (fun d => match put_bytes (p_obj d) (p_off d) t with Ok x => Some x | _ => None end);
        do_length := Some (blen t); do_isStart := Some true |}.
Proof.
  intros Hx Hl Hp Hd. apply pld_bytes_cons in Hp as [Hb Ht].
  unfold depayVP8FromRtpPayload. rewrite blen_cons in *. blen_facts.
  rewrite (proj2 (Z.eqb_neq _ 0)) by lia. rewrite Hb. cbn [mbind res_bind].
  rewrite Hx. change (Z.shiftr 0 7 =? 0) with true. cbn [negb mbind res_bind orb].
  replace (1 + blen t -32 1) with (blen t) by (rewrite u32_id; width_lia).
  destruct dst as [d|]; [|done]. destruct Hd as (Hc & data & Hput).
  rewrite (proj2 (Z.leb_le _ _)) by done. cbn [negb]. rewrite Ht. cbn [mbind res_bind option_bind].
  by rewrite Hput.
Qed.

#[export] Program Instance Payloader_VP8 : Payloader createPayloadForVP8 depayVP8FromRtpPayload := {|
  frame_ok mtu f := 2 <= mtu < 2 ^ 32 /\ f <> [] /\ blen f < 2 ^ 31;
  fragments mtu f := vp8_frags true (chunks (Z.to_nat (mtu - 1)) f);
  frag_ok := vp8_frag_ok;
  piece _ fr := tail fr;
  starts _ := true;
  image f := f;
|}.
Next Obligation.
  intros mtu f (Hm & Hf & Hl). split_and!.
  - by rewrite (chunks_step (Z.to_nat (mtu - 1)) ltac:(lia) f Hf).
  - rewrite total_vp8_frags, <- blen_concat, (concat_chunks (Z.to_nat (mtu - 1))) by lia.
    pose proof (chunks_count (Z.to_nat (mtu - 1)) ltac:(lia) f). lia.
  - apply vp8_frags_ok. eapply Forall_impl; [|apply chunks_size; lia]. cbv beta. lia.
  - done.
Qed.
Next Obligation.
  intros mtu f l c (Hm & Hf & Hl). unfold createPayloadForVP8. cbn [isNull orb negb default mbind option_bind].
  rewrite (vp8Loop_size _ _ _ _ f) by (lia || (unfold blen; lia)). cbn [mbind res_bind].
  rewrite total_vp8_frags, length_vp8_frags. unfold payloadDone. cbn [STATUS_FAILED]. by rewrite !Z.add_0_l.
Qed.
Next Obligation.
  cbv zeta. intros mtu f buf subs (Hm & Hf & Hl) Hb Hs.
  unfold createPayloadForVP8. cbn [isNull orb negb default mbind option_bind].
  pose proof (vp8Loop_fill (Z.to_nat (blen f)) mtu [] f [] buf [] subs 0 Hm Hl) as H.
  cbn [length app] in H. rewrite bool_decide_true in H by done.
  change (blen []) with 0 in H. change (Z.of_nat 0) with 0 in H.
  match goal with |- context [vp8Loop _ _ ?d] => change d with f end. rewrite H by (try lia; try done; unfold blen; lia). cbn [mbind res_bind]. done.
Qed.
Next Obligation.
  intros p [|b t] cap first Hok Hl Hp; [done|]. by rewrite (depayVP8_spec p b t None cap first Hok (proj2 Hl) Hp I).
Qed.
Next Obligation.
  intros p [|b t] d data cap first Hok Hl Hp Hc Hput; [done|].
  rewrite (depayVP8_spec p b t (Some d) cap first Hok (proj2 Hl) Hp); [|split; [done|by exists data]].
  cbn [mbind option_bind list.tail] in *. by rewrite Hput.
Qed.
Next Obligation.
  intros mtu f (Hm & Hf & Hl). rewrite imap_const, vp8_pieces. by apply concat_chunks; lia.
Qed.
Next Obligation. intros mtu f (Hm & _) Hb. apply vp8_frags_bytes, chunks_bytes; [lia|done]. Qed.

(** ** Opus and G.711: the payloads are the bytes of the frame *)

(** The two depacketisers copy the payload. *)
Lemma depayOpus_spec p fr dst cap first :
  0 < blen fr -> pld_bytes p (blen fr) = Ok fr ->
  match dst with
  | None => True
  | Some d => blen fr <= cap /\ exists data, put_bytes (p_obj d) (p_off d) fr = Ok data
  end ->
  depayOpusFromRtpPayload (Some p) (blen fr) dst (Some cap) (Some first) =
  Ok {| do_status := STATUS_SUCCESS;
        do_data := dst ≫= (fun d => match put_bytes (p_obj d) (p_off d) fr with Ok x => Some x | _ => None end);
        do_length := Some (blen fr); do_isStart := Some true |}.
Proof.
  intros Hl Hp Hd. unfold depayOpusFromRtpPayload. rewrite (proj2 (Z.eqb_neq _ 0)) by lia.
  destruct dst as [d|]; [|done]. destruct Hd as (Hc & data & Hput).
  rewrite (proj2 (Z.leb_le _ _)) by done. cbn [negb]. rewrite Hp. cbn [mbind res_bind option_bind].
  by rewrite Hput.
Qed.

Lemma depayG711_Opus : depayG711FromRtpPayload = depayOpusFromRtpPayload.
Proof. reflexivity. Qed.

Lemma ld_bytes_whole b : ld_bytes b 0 (blen b) = Ok b.
Proof. apply (pld_bytes_whole b (blen b)). done. Qed.

#[export] Program Instance Payloader_Opus : Payloader createPayloadForOpus depayOpusFromRtpPayload := {|
  frame_ok mtu f := 0 < blen f <= mtu /\ mtu < 2 ^ 32;
  fragments _ f := [f];
  frag_ok _ := True;
  piece _ fr := fr;
  starts _ := true;
  image f := f;
|}.
Next Obligation. intros mtu f [? ?]. unfold total. simpl. split_and!; [done|lia|repeat constructor; lia|done]. Qed.
Next Obligation. intros mtu f l c Hf. unfold createPayloadForOpus, payloadDone, total. cbn. by rewrite Z.add_0_r. Qed.
Next Obligation.
  cbv zeta. intros mtu f buf subs Hf Hb Hs. unfold createPayloadForOpus, total in *. cbn [sumBy length map concat] in *.
  rewrite Z.add_0_r in *. rewrite (proj2 (Z.leb_le _ _)) by lia. cbn [andb negb Z.leb Z.compare Z.of_nat].
  rewrite ld_bytes_whole. cbn [mbind res_bind]. rewrite (put_bytes_at [] buf f) by done. cbn [mbind res_bind app].
  destruct subs as [|s subs]; [simpl in Hs; lia|]. rewrite (lput_at [] s subs) by done. by rewrite app_nil_r.
Qed.
Next Obligation. intros p fr cap first _ Hl Hp. by rewrite (depayOpus_spec p fr None cap first (proj1 Hl) Hp I). Qed.
Next Obligation.
  intros p fr d data cap first _ Hl Hp Hc Hput.
  rewrite (depayOpus_spec p fr (Some d) cap first (proj1 Hl) Hp); [|split; [done|by exists data]].
  cbn [mbind option_bind]. by rewrite Hput.
Qed.
Next Obligation. intros mtu f _. simpl. by rewrite app_nil_r. Qed.
Next Obligation. intros mtu f _ Hb. by repeat constructor. Qed.

Lemma g711Loop_spec fuel mtu l sd sr :
  0 < mtu -> l <> [] -> (length l <= fuel)%nat -> is_u32 (blen l) ->
  (length (chunks (Z.to_nat mtu) l) <= length sr)%nat ->
  g711Loop fuel mtu (blen l) (sd ++ sr) (Z.of_nat (length sd)) =
  Ok (sd ++ map blen (chunks (Z.to_nat mtu) l) ++ drop (length (chunks (Z.to_nat mtu) l)) sr).
Proof.
  intros Hm. revert l sd sr. induction fuel as [|fuel IH]; intros l sd sr Hl Hf Hu Hs;
    pose proof (chunks_step (Z.to_nat mtu) ltac:(lia) l Hl) as Hst; rewrite Hst in *; cbn [length map] in *;
    (destruct sr as [|s sr]; [simpl in Hs; lia|]).
  - destruct l; [done|simpl in Hf; lia].
  - cbn [g711Loop]. destruct (Z.ltb_spec mtu (blen l)) as [Hlt|Hge].
    + rewrite lput_at by done. cbn [mbind res_bind].
      assert (Hd : blen (drop (Z.to_nat mtu) l) = blen l - mtu) by (apply blen_drop; lia).
      assert (Ht : blen (take (Z.to_nat mtu) l) = mtu) by (apply blen_take; lia).
      rewrite (u32_id (blen l - mtu)) by width_lia.
      replace (Z.of_nat (length sd) + 1) with (Z.of_nat (length (sd ++ [mtu]))) by (rewrite length_app; simpl; lia).
      replace (sd ++ mtu :: sr) with ((sd ++ [mtu]) ++ sr) by (by rewrite <- (assoc_L (++))).
      rewrite <- Hd, IH.
      * rewrite Ht, <- !(assoc_L (++)). done.
      * intros E. rewrite E in Hd. change (blen []) with 0 in Hd. lia.
      * unfold blen in *. lia.
      * width_lia.
      * simpl in Hs. lia.
    + rewrite lput_at by done. rewrite (take_ge l) by (unfold blen in *; lia).
      rewrite (drop_ge l) by (unfold blen in *; lia). by rewrite chunks_nil.
Qed.

(** The number of payloads the sizing call announces. *)
Lemma g711_count mtu l :
  0 < mtu -> Z.of_nat (length (chunks (Z.to_nat mtu) l)) = blen l / mtu + (if blen l mod mtu =? 0 then 0 else 1).
Proof.
  intros Hm. induction l as [|l Hl IH] using (chunks_ind (Z.to_nat mtu) ltac:(lia)).
  - by rewrite Z.div_0_l, Z.mod_0_l by lia.
  - rewrite (chunks_step (Z.to_nat mtu) ltac:(lia) l Hl). cbn [length]. rewrite Nat2Z.inj_succ, IH.
    destruct (Z.le_gt_cases mtu (blen l)) as [Hle|Hgt].
    + rewrite blen_drop by lia. replace (blen l - mtu) with (blen l + (-1) * mtu) by lia.
      rewrite Z.div_add, Z.mod_add by lia. lia.
    + rewrite (drop_ge l) by (unfold blen in *; lia). change (blen []) with 0.
      rewrite Z.div_0_l, Z.mod_0_l by lia. assert (0 < blen l) by (destruct l; [done|unfold blen; simpl; lia]).
      rewrite (Z.div_small (blen l)), (Z.mod_small (blen l)) by lia.
      rewrite (proj2 (Z.eqb_neq (blen l) 0)) by lia. simpl. lia.
Qed.

#[export] Program Instance Payloader_G711 : Payloader createPayloadForG711 depayG711FromRtpPayload := {|
  frame_ok mtu f := 0 < mtu < 2 ^ 32 /\ f <> [] /\ blen f < 2 ^ 31;
  fragments mtu f := chunks (Z.to_nat mtu) f;
  frag_ok _ := True;
  piece _ fr := fr;
  starts _ := true;
  image f := f;
|}.
Next Obligation.
  intros mtu f (Hm & Hf & Hl). split_and!.
  - apply chunks_nonempty; [lia|done].
  - rewrite <- blen_concat, concat_chunks by lia. lia.
  - eapply Forall_impl; [|apply chunks_size; lia]. cbv beta. lia.
  - done.
Qed.
Next Obligation.
  intros mtu f l c (Hm & Hf & Hl). unfold createPayloadForG711. cbn [isNull andb negb].
  rewrite (proj2 (Z.eqb_neq _ 0)) by lia. rewrite <- blen_concat, concat_chunks by lia.
  pose proof (chunks_count (Z.to_nat mtu) ltac:(lia) f). rewrite <- g711_count by lia. rewrite u32_id by width_lia. done.
Qed.
Next Obligation.
  cbv zeta. intros mtu f buf subs (Hm & Hf & Hl) Hb Hs. unfold createPayloadForG711. cbn [isNull andb negb].
  rewrite (proj2 (Z.eqb_neq _ 0)) by lia. rewrite <- blen_concat, concat_chunks in * by lia.
  pose proof (chunks_count (Z.to_nat mtu) ltac:(lia) f). rewrite <- g711_count by lia.
  rewrite (u32_id (Z.of_nat _)) by width_lia. rewrite !Z.leb_refl. cbn [andb negb].
  rewrite ld_bytes_whole. cbn [mbind res_bind]. rewrite (put_bytes_at [] buf f) by done. cbn [mbind res_bind app].
  pose proof (g711Loop_spec (Z.to_nat (blen f)) mtu f [] subs ltac:(lia) Hf ltac:(unfold blen; lia) ltac:(width_lia) Hs) as H'.
  cbn [length app] in H'. change (Z.of_nat 0) with 0 in H'. rewrite H'. done.
Qed.
Next Obligation.
  intros p fr cap first _ Hl Hp. rewrite depayG711_Opus. by rewrite (depayOpus_spec p fr None cap first (proj1 Hl) Hp I).
Qed.
Next Obligation.
  intros p fr d data cap first _ Hl Hp Hc Hput. rewrite depayG711_Opus.
  rewrite (depayOpus_spec p fr (Some d) cap first (proj1 Hl) Hp); [|split; [done|by exists data]].
  cbn [mbind option_bind]. by rewrite Hput.
Qed.
Next Obligation. intros mtu f (Hm & _). rewrite imap_const, map_id. by apply concat_chunks; lia. Qed.
Next Obligation. intros mtu f (Hm & _) Hb. apply chunks_bytes; [lia|done]. Qed.

(** ** Termination of the VP8 packetiser *)

Lemma vp8Loop_returns fuel mtu data cur rem pos len cnt :
  is_u32 mtu -> mtu <> 1 -> is_u32 rem -> rem <= Z.of_nat fuel ->
  exists r, vp8Loop fuel mtu data cur rem None pos len cnt = Ok r.
Proof.
  intros Hm Hne. revert cur rem pos len cnt. induction fuel as [|fuel IH]; intros cur rem pos len cnt Hr Hf.
  - cbn [vp8Loop]. rewrite (proj2 (Z.ltb_ge 0 rem)) by lia. eauto.
  - cbn [vp8Loop]. destruct (Z.ltb_spec 0 rem); [|eauto]. cbn [mbind res_bind].
    unfold VP8_PAYLOAD_DESCRIPTOR_SIZE in *. set (c := Z.min _ rem).
    assert (0 < c <= rem) by (unfold c; width_lia). rewrite (u32_id (rem - c)) by width_lia.
    apply IH; [width_lia|lia].
Qed.

Lemma vp8Loop_none fuel mtu data cur rem pos len cnt o l c :
  vp8Loop fuel mtu data cur rem None pos len cnt = Ok (o, l, c) -> o = None.
Proof.
  revert cur rem pos len cnt. induction fuel as [|fuel IH]; intros cur rem pos len cnt; cbn [vp8Loop];
    destruct (0 <? rem); try discriminate; try (by intros [= <- _ _]). cbn [mbind res_bind]. apply IH.
Qed.

Lemma vp8Loop_mtu1 fuel data cur rem pos len cnt :
  0 < rem < 2 ^ 32 -> vp8Loop fuel 1 data cur rem None pos len cnt = Fault.
Proof.
  intros Hr. revert cur pos len cnt. induction fuel as [|fuel IH]; intros cur pos len cnt; cbn [vp8Loop];
    rewrite (proj2 (Z.ltb_lt 0 rem)) by lia; [done|]. cbn [mbind res_bind].
  unfold VP8_PAYLOAD_DESCRIPTOR_SIZE. change (1 -32 1) with 0. rewrite Z.min_l by lia.
  replace (rem -32 0) with rem by (rewrite u32_id; width_lia). apply IH.
Qed.

(** Termination of createPayloadForVP8: the sizing call on a non-empty frame returns a
    result for every MTU except 1, within as many iterations as the frame has bytes; for an
    MTU of 1 the loop consumes nothing and exceeds every bound on its iterations. *)
Theorem createPayloadForVP8_returns mtu data l c
  (Hm : is_u32 mtu) (Hd : 0 < blen data < 2 ^ 32) :
  (mtu <> 1 -> exists len cnt, createPayloadForVP8 mtu (Some data) (blen data) None (Some l) None (Some c) =
     Ok {| po_status := STATUS_SUCCESS; po_buffer := None; po_subs := None; po_length := Some len; po_count := Some cnt |}) /\
  (mtu = 1 -> forall fuel, vp8Loop fuel mtu data 0 (blen data) None 0 0 0 = Fault).
Proof.
  split.
  - intros Hne. unfold createPayloadForVP8. cbn [isNull orb negb default from_option id].
    destruct (vp8Loop_returns (Z.to_nat (blen data)) mtu data 0 (blen data) 0 0 0 Hm Hne ltac:(width_lia) ltac:(lia)) as [[[o len] cnt] E].
    rewrite E. cbn [mbind res_bind]. apply vp8Loop_none in E as ->.
    unfold payloadDone. cbn. eauto.
  - intros ->. by intros; apply vp8Loop_mtu1.
Qed.

Lemma createPayloadForVP8_returns_witness :
  exists len cnt, createPayloadForVP8 1200 (Some [1; 2; 3]) (blen [1; 2; 3]) None (Some 0) None (Some 0) =
    Ok {| po_status := STATUS_SUCCESS; po_buffer := None; po_subs := None; po_length := Some len; po_count := Some cnt |}.
Proof. apply (createPayloadForVP8_returns 1200 [1; 2; 3] 0 0); [width_lia|by vm_compute|lia]. Defined.
