(* ===== verification/AnnexB.v ===== *)
(** * Annex-B byte streams and their packetisation (RtpH264Payloader.c, RtpH265Payloader.c)

    What the H.264 and H.265 payloaders share: the search of the next NAL unit in a
    byte stream with start codes, and the cursor into the payload buffers that both
    fill fragment by fragment. *)

From S2P Require Import Prelude Endian RtpPacket Payloaders.

(** ** Finding NAL units *)

(** The loop over the zeros of the start code; [fuel] is [4 - offset]. *)
Fixpoint leadingZeros (fuel : nat) (nalus : ptr) (nalusLength offset : Z) : res Z :=
  match fuel with
  | O => Ok offset
  | S fuel =>
      if offset <? nalusLength then
        b ← pld nalus offset;
        if b =? 0 then leadingZeros fuel nalus nalusLength (offset + 1) else Ok offset
      else Ok offset
  end.

(** The search for the next start code, which skips three bytes after a byte that is
    not zero.  [cur] is pCurrent - nalus.  The outcome is the offset where the loop ends
    and the number of zeros of the start code found there (0 when there is none).
    The offset grows in each iteration, so [nalusLength] iterations are enough. *)
Fixpoint scanLoop (fuel : nat) (nalus : ptr) (nalusLength offset cur : Z) : res (Z * Z) :=
  if offset <? nalusLength then
    match fuel with
    | O => Fault
    | S fuel =>
        b ← pld nalus cur;
        if b =? 0 then scanLoop fuel nalus nalusLength (offset +32 1) (cur + 1)
        else if b =? 1 then
          b1 ← pld nalus (cur - 1);
          found ← (if b1 =? 0 then b2 ← pld nalus (cur - 2); Ok (b2 =? 0) else Ok false);
          if (found : bool) then
            b3 ← pld nalus (cur - 3);
            Ok (offset, if b3 =? 0 then 3 else 2)
          else scanLoop fuel nalus nalusLength (offset +32 3) (cur + 3)
        else scanLoop fuel nalus nalusLength (offset +32 3) (cur + 3)
    end
  else Ok (offset, 0).

(** The values stored through pStart and pNaluLength. *)
Definition getNextNaluLength (nalus : option ptr) (nalusLength : Z) : res (Z * Z) :=
  match nalus with
  | None => Err STATUS_NULL_ARG
  | Some p =>
      offset ← leadingZeros 4 p nalusLength 0;
      if negb ((offset <? nalusLength) && (offset <? 4) && (2 <=? offset)) then Err STATUS_RTP_INVALID_NALU else
      b ← pld p offset;
      if negb (b =? 1) then Err STATUS_RTP_INVALID_NALU else
      let start := offset + 1 in
      '(offset, zeroCount) ← scanLoop (Z.to_nat nalusLength) p nalusLength start start;
      Ok (start, Z.min offset nalusLength -32 start -32 zeroCount)
  end.

(** ** The reference: start codes of three or four bytes *)

(** The bytes after the start code that opens the stream. *)
Definition open_code (f : list Z) : option (Z * list Z) :=
  match f with
  | 0 :: 0 :: 1 :: l => Some (3, l)
  | 0 :: 0 :: 0 :: 1 :: l => Some (4, l)
  | _ => None
  end.

(** The NAL unit at the head of [l], up to the next start code, and the rest. *)
Fixpoint split_nalu (l : list Z) : list Z * list Z :=
  match l with
  | [] => ([], [])
  | x :: l' => if bool_decide (is_Some (open_code l)) then ([], l)
               else let (n, r) := split_nalu l' in (x :: n, r)
  end.

(** ** The search against the reference *)

(** A start code ends at index [j]. *)
Definition hit (l : list Z) (j : nat) : Prop :=
  (2 <= j)%nat /\ l !! j = Some 1 /\ l !! (j - 1)%nat = Some 0 /\ l !! (j - 2)%nat = Some 0.

Lemma hit_cons x l j : hit l j -> hit (x :: l) (S j).
Proof.
  intros (Hj & H1 & H2 & H3). split; [lia|]. split; [done|]. destruct j as [|[|j]]; try lia.
  cbn [Nat.sub] in *. rewrite ?Nat.sub_0_r in *. done.
Qed.

Lemma hit_uncons x l j : hit (x :: l) (S j) -> (2 <= j)%nat -> hit l j.
Proof.
  intros (Hj & H1 & H2 & H3) H. split; [done|]. split; [done|]. destruct j as [|[|j]]; try lia.
  cbn [Nat.sub] in *. rewrite ?Nat.sub_0_r in *. done.
Qed.

Lemma open_code_hit l n r : open_code l = Some (n, r) -> hit l (Z.to_nat n - 1) /\ 3 <= n <= 4.
Proof.
  intros H. destruct l as [|[| |] [|[| |] [|[|[]|] [|[|[]|] l]]]]; try discriminate H; injection H as <- <-; (split; [|lia]); split_and!; try done; cbn; lia.
Qed.

(** The zeros of the start code that ends at [j]. *)
Definition zeros_at (l : list Z) (j : nat) : nat :=
  if decide ((3 <= j)%nat /\ l !! (j - 3)%nat = Some 0) then 3 else 2.

Lemma zeros_at_le l j : hit l j -> (zeros_at l j <= j)%nat.
Proof. intros (? & _). unfold zeros_at. destruct (decide _) as [[? _]|]; lia. Qed.

(** A start code at the head of the list is the first one. *)
Lemma open_code_first l j n r :
  open_code l = Some (n, r) -> hit l j -> (forall i, (i < j)%nat -> ~ hit l i) ->
  j = (Z.to_nat n - 1)%nat /\ zeros_at l j = j.
Proof.
  intros Ho Hj Hf. destruct (open_code_hit _ _ _ Ho) as [Hh Hn].
  assert (j <= Z.to_nat n - 1)%nat by (destruct (decide (j <= Z.to_nat n - 1)%nat); [done|exfalso; apply (Hf (Z.to_nat n - 1)%nat); [lia|done]]).
  destruct Hj as (H2 & H1 & H0 & _). unfold zeros_at.
  destruct l as [|[| |] [|[| |] [|[|[]|] [|[|[]|] l]]]]; try discriminate Ho; injection Ho as <- <-;
    cbn [Z.to_nat Pos.to_nat Pos.iter_op Nat.add Nat.sub] in *;
    destruct j as [|[|[|[|j]]]]; try lia; try discriminate H1; (split; [done|]);
    destruct (decide _) as [[? E]|E]; try done; try lia; exfalso; apply E; (split; [lia|done]).
Qed.

(** No start code at the head: the first one, if any, is that of the tail. *)
Lemma open_code_none x l j :
  open_code (x :: l) = None -> hit (x :: l) j ->
  exists k, j = S k /\ hit l k /\ zeros_at (x :: l) j = zeros_at l k.
Proof.
  intros Ho Hj. pose proof Hj as (H2 & H1 & H0 & H0').
  assert (H3 : (3 <= j)%nat).
  { destruct j as [|[|[|j]]]; try lia. cbn in H0'. injection H0' as ->.
    destruct l as [|y [|z l]]; try done. injection H0 as ->. injection H1 as ->. done. }
  destruct j as [|k]; [lia|]. exists k. split; [done|]. split; [apply (hit_uncons x); [done|lia]|].
  unfold zeros_at. destruct (decide (S k = 3)%nat) as [E|].
  - injection E as ->. destruct (decide (3 <= 2 /\ _)%nat) as [[? _]|_]; [lia|].
    destruct (decide _) as [[_ E]|]; [|done]. injection E as ->. exfalso.
    destruct l as [|y [|z [|u l]]]; try done. injection H1 as ->. injection H0 as ->. injection H0' as ->. done.
  - destruct k as [|[|[|k]]]; try lia. cbn [Nat.sub lookup list_lookup]. rewrite Nat.sub_0_r.
    destruct (decide _) as [[? ?]|E1], (decide _) as [[? ?]|E2]; try done; exfalso; [apply E2|apply E1]; (split; [lia|done]).
Qed.

Lemma split_nalu_none l : (forall j, ~ hit l j) -> split_nalu l = (l, []).
Proof.
  induction l as [|x l IH]; intros H; [done|]. cbn [split_nalu].
  rewrite bool_decide_false; [|intros [[n r] E]; apply open_code_hit in E as [E _]; by apply H in E].
  rewrite IH; [done|]. intros j Hj. exact (H _ (hit_cons x _ _ Hj)).
Qed.

Lemma split_nalu_first l j :
  hit l j -> (forall i, (i < j)%nat -> ~ hit l i) ->
  split_nalu l = (take (j - zeros_at l j) l, drop (j - zeros_at l j) l).
Proof.
  revert j. induction l as [|x l IH]; intros j Hj Hf; [by destruct Hj as (_ & ? & _)|].
  cbn [split_nalu]. destruct (open_code (x :: l)) as [[n r]|] eqn:Ho.
  - destruct (open_code_first _ _ _ _ Ho Hj Hf) as [_ Hz]. rewrite Hz, Nat.sub_diag. by rewrite bool_decide_true by eauto.
  - rewrite bool_decide_false by (by intros [? ?]). destruct (open_code_none _ _ _ Ho Hj) as (k & -> & Hk & Hz).
    rewrite Hz. pose proof (zeros_at_le _ _ Hk). rewrite (IH k Hk).
    + rewrite Nat.sub_succ_l by done. done.
    + intros i Hi Hh. apply (Hf (S i)); [lia|]. by apply hit_cons.
Qed.

(** A byte other than zero rules out start codes that end in the next two. *)
Lemma hit_not_after l k x j :
  l !! k = Some x -> x <> 0 -> (k < j <= k + 2)%nat -> ~ hit l j.
Proof.
  intros Hx Hne Hj (_ & _ & H1 & H2). assert (j = S k \/ j = S (S k)) as [-> | ->] by lia;
    cbn [Nat.sub] in *; rewrite ?Nat.sub_0_r in *; congruence.
Qed.

Lemma pld_lookup p f i x :
  pld_bytes p (blen f) = Ok f -> f !! i = Some x -> pld p (Z.of_nat i) = Ok x.
Proof.
  unfold pld_bytes, pld, ld. intros Hp Hi. pose proof (ld_bytes_inv _ _ _ _ Hp) as (Ho & _ & Hle & _).
  rewrite ld_bytes_in in Hp by (unfold blen in *; lia). injection Hp as Hp.
  rewrite (proj2 (Z.leb_le _ _)) by lia. rewrite <- Hp in Hi. rewrite lookup_take_Some, lookup_drop in Hi.
  destruct Hi as [Hi _]. replace (Z.to_nat (p_off p + Z.of_nat i)) with (Z.to_nat (p_off p) + i)%nat by lia. by rewrite Hi.
Qed.

Section Scan.
Context (p : ptr) (f : list Z) (c : nat).
Hypothesis Hp : pld_bytes p (blen f) = Ok f.
Hypothesis Hlen : blen f < 2 ^ 31.
Hypothesis Hc : (3 <= c)%nat.
Hypothesis Hf : bytes_ok f.

(** Where the search that starts at [k] ends. *)
Definition scan_end (k : nat) (r : Z * Z) : Prop :=
  (exists j, hit f j /\ (k <= j)%nat /\ (forall i, (c <= i < j)%nat -> ~ hit f i) /\
     r = (Z.of_nat j, Z.of_nat (zeros_at f j))) \/
  ((forall j, (c <= j)%nat -> ~ hit f j) /\ blen f <= r.1 /\ r.2 = 0).

Lemma scan_end_le k k' r : (k <= k')%nat -> scan_end k' r -> scan_end k r.
Proof. intros Hk [(j & Hj & Hkj & Hr)|Hr]; [left; exists j; split_and!; [done|lia|apply Hr..]|by right]. Qed.

Lemma scanLoop_spec fuel k :
  (c <= k)%nat -> (length f - k <= fuel)%nat -> (k <= length f + 2)%nat ->
  (forall i, (c <= i < k)%nat -> ~ hit f i) ->
  exists r, scanLoop fuel p (blen f) (Z.of_nat k) (Z.of_nat k) = Ok r /\ scan_end k r.
Proof.
  revert k. induction fuel as [|fuel IH]; intros k Hck Hfu Hk2 Hno; cbn [scanLoop];
    destruct (Z.ltb_spec (Z.of_nat k) (blen f)) as [Hlt|Hge].
  1: unfold blen in *; lia. 
  1, 3: eexists; (split; [done|]); right; (split; [|split; [done|done]]);
    intros j Hj Hh; apply (Hno j); [|done]; (split; [done|]); destruct Hh as (_ & Hh & _);
    apply lookup_lt_Some in Hh; unfold blen in *; lia.
  assert (Hkl : (k < length f)%nat) by (unfold blen in Hlt; lia).
  destruct (lookup_lt_is_Some_2 f k Hkl) as [x Hx]. rewrite (pld_lookup p f k x Hp Hx). cbn [mbind res_bind].
  assert (Hskip : x <> 0 -> ~ hit f k -> exists r,
    scanLoop fuel p (blen f) (Z.of_nat k +32 3) (Z.of_nat k + 3) = Ok r /\ scan_end k r).
  { intros Hx0 Hnh. destruct (IH (k + 3)%nat) as (r & Er & Hr); [lia|lia|lia| |].
    - intros i Hi. destruct (decide (i < k)%nat); [apply Hno; lia|]. destruct (decide (i = k)) as [->|]; [done|].
      apply (hit_not_after f k x); [done|done|lia].
    - exists r. split; [|by apply (scan_end_le k (k + 3)); [lia|]].
      replace (Z.of_nat (k + 3)) with (Z.of_nat k + 3) in Er by lia. by rewrite u32_id by (unfold is_u32; lia). }
  destruct (Z.eqb_spec x 0) as [->|Hx0].
  { destruct (IH (k + 1)%nat) as (r & Er & Hr); [lia|lia|lia| |].
    - intros i Hi. destruct (decide (i < k)%nat); [apply Hno; lia|]. assert (i = k) as -> by lia.
      intros (_ & H1 & _). congruence.
    - exists r. split; [|by apply (scan_end_le k (k + 1)); [lia|]].
      replace (Z.of_nat (k + 1)) with (Z.of_nat k + 1) in Er by lia. by rewrite u32_id by (unfold is_u32; lia). }
  destruct (Z.eqb_spec x 1) as [->|Hx1]; [|apply Hskip; [done|]; intros (_ & H1 & _); congruence].
  destruct (lookup_lt_is_Some_2 f (k - 1) ltac:(lia)) as [x1 Hx1]. destruct (lookup_lt_is_Some_2 f (k - 2) ltac:(lia)) as [x2 Hx2].
  destruct (lookup_lt_is_Some_2 f (k - 3) ltac:(lia)) as [x3 Hx3].
  pose proof (pld_lookup p f _ _ Hp Hx1) as E1. pose proof (pld_lookup p f _ _ Hp Hx2) as E2. pose proof (pld_lookup p f _ _ Hp Hx3) as E3.
  rewrite Nat2Z.inj_sub in E1, E2, E3 by lia. change (Z.of_nat 1) with 1 in E1. change (Z.of_nat 2) with 2 in E2. change (Z.of_nat 3) with 3 in E3.
  rewrite E1. cbn [mbind res_bind]. rewrite E2.
  destruct (Z.eqb_spec x1 0) as [->|Hn1]; cbn [mbind res_bind].
  2: { apply Hskip; [done|]. intros (_ & _ & H1 & _). congruence. }
  destruct (Z.eqb_spec x2 0) as [->|Hn2]; cbn [mbind res_bind].
  2: { apply Hskip; [done|]. intros (_ & _ & _ & H1). congruence. }
  rewrite E3. cbn [mbind res_bind]. eexists. split; [done|]. left. exists k. split; [split; [lia|done]|].
  split; [lia|]. split; [done|]. f_equal. unfold zeros_at.
  destruct (Z.eqb_spec x3 0) as [->|], (decide _) as [[? ?]|Hd]; try done; [|congruence].
  exfalso. apply Hd. split; [lia|done].
Qed.
End Scan.

(** Start codes after the one that opens the stream. *)
Lemma hit_after code l j :
  (exists c', code = c' ++ [1]) -> hit (code ++ l) (length code + j) <-> hit l j.
Proof.
  intros [c' ->]. rewrite length_app. cbn [length].
  assert (Hl : forall i, (c' ++ [1]) ++ l = (c' ++ [1]) ++ l -> ((c' ++ [1]) ++ l) !! (length c' + 1 + i)%nat = l !! i).
  { intros i _. rewrite lookup_app_r by (rewrite length_app; simpl; lia). f_equal. rewrite length_app. simpl. lia. }
  destruct (decide (2 <= j)%nat) as [H2|H2].
  - unfold hit. replace (length c' + 1 + j - 1)%nat with (length c' + 1 + (j - 1))%nat by lia.
    replace (length c' + 1 + j - 2)%nat with (length c' + 1 + (j - 2))%nat by lia. rewrite !Hl by done. intuition lia.
  - split; [|by intros (? & _)]. intros Hh. exfalso.
    apply (hit_not_after ((c' ++ [1]) ++ l) (length c') 1 (length c' + 1 + j)); [|done|lia|done].
    rewrite <- (assoc_L (++)), lookup_app_r, Nat.sub_diag by lia. done.
Qed.

Lemma zeros_after code l j :
  (exists c', code = c' ++ [1]) -> hit l j -> zeros_at (code ++ l) (length code + j) = zeros_at l j.
Proof.
  intros [c' ->] (H2 & _). unfold zeros_at. rewrite length_app. cbn [length].
  destruct (decide (3 <= j)%nat) as [H3|H3].
  - replace (length c' + 1 + j - 3)%nat with (length (c' ++ [1%Z]) + (j - 3))%nat by (rewrite length_app; simpl; lia).
    rewrite lookup_app_r by lia. replace (length (c' ++ [1%Z]) + (j - 3) - length (c' ++ [1%Z]))%nat with (j - 3)%nat by lia.
    destruct (decide _) as [[? ?]|E1], (decide _) as [[? ?]|E2]; try done; exfalso; [apply E2|apply E1]; (split; [lia|done]).
  - assert (j = 2)%nat as -> by lia. destruct (decide (3 <= 2 /\ _)%nat) as [[? _]|_]; [lia|].
    destruct (decide _) as [[? E]|]; [|done]. exfalso. replace (length c' + 1 + 2 - 3)%nat with (length c') in E by lia.
    rewrite <- (assoc_L (++)), lookup_app_r, Nat.sub_diag in E by lia. done.
Qed.

Fixpoint zero_run (n : nat) (l : list Z) : nat :=
  match n, l with S n, 0 :: l => S (zero_run n l) | _, _ => 0 end.

Lemma leadingZeros_spec fuel p f k :
  pld_bytes p (blen f) = Ok f ->
  leadingZeros fuel p (blen f) (Z.of_nat k) = Ok (Z.of_nat (k + zero_run fuel (drop k f))).
Proof.
  intros Hp. revert k. induction fuel as [|fuel IH]; intros k; cbn [leadingZeros zero_run]; [do 2 f_equal; lia|].
  destruct (Z.ltb_spec (Z.of_nat k) (blen f)) as [Hlt|Hge].
  - destruct (lookup_lt_is_Some_2 f k) as [x Hx]; [unfold blen in Hlt; lia|].
    rewrite (pld_lookup p f k x Hp Hx). cbn [mbind res_bind]. rewrite (drop_S _ _ _ Hx).
    destruct (Z.eqb_spec x 0) as [->|Hne].
    + replace (Z.of_nat k + 1) with (Z.of_nat (S k)) by lia. rewrite IH. do 2 f_equal. lia.
    + destruct x; [done|..]; do 2 f_equal; lia.
  - rewrite drop_ge by (unfold blen in Hge; lia). do 2 f_equal. lia.
Qed.

Lemma zero_run_code f :
  (2 <= zero_run 4 f < 4)%nat -> f !! zero_run 4 f = Some 1 -> is_Some (open_code f).
Proof.
  destruct f as [|[|q|q] f]; cbn; try lia. destruct f as [|[|q|q] f]; cbn; try lia.
  destruct f as [|[|q|q] f]; cbn; try done.
  - destruct f as [|[|q|q] f]; cbn; try done; try lia. intros _ [= ->]. eauto.
  - intros _ [= ->]. eauto.
Qed.

Lemma open_code_app f n l :
  open_code f = Some (n, l) -> exists c', f = (c' ++ [1]) ++ l /\ n = blen (c' ++ [1]) /\ 3 <= n <= 4.
Proof.
  intros H. destruct f as [|[| |] [|[| |] [|[|[]|] [|[|[]|] f]]]]; try discriminate H; injection H as <- <-;
    first [exists [0; 0]; by split_and!|exists [0; 0; 0]; by split_and!].
Qed.

(** The search in terms of the reference splitter, on every input. *)
Lemma getNextNaluLength_spec p f :
  pld_bytes p (blen f) = Ok f -> blen f < 2 ^ 31 ->
  getNextNaluLength (Some p) (blen f) =
  match open_code f with
  | Some (n, l) => Ok (n, blen (split_nalu l).1)
  | None => Err STATUS_RTP_INVALID_NALU
  end.
Proof.
  intros Hp Hlen. unfold getNextNaluLength. pose proof (leadingZeros_spec 4 p f 0 Hp) as Hz.
  change (Z.of_nat 0) with 0 in Hz. rewrite Hz, drop_0, Nat.add_0_l. clear Hz. cbn [mbind res_bind].
  destruct (open_code f) as [[n l]|] eqn:Ho.
  - destruct (open_code_app _ _ _ Ho) as (c' & Ef & En & Hn).
    assert (Hzr : Z.of_nat (zero_run 4 f) = n - 1 /\ f !! Z.to_nat (n - 1) = Some 1).
    { destruct f as [|[| |] [|[| |] [|[|[]|] [|[|[]|] f]]]]; try discriminate Ho; injection Ho as <- <-; done. }
    destruct Hzr as [Hzr H1]. rewrite Hzr.
    assert (Hfl : blen f = n + blen l) by (rewrite Ef, blen_app; lia). pose proof (blen_nonneg l).
    rewrite (proj2 (Z.ltb_lt _ _)), (proj2 (Z.ltb_lt (n - 1) 4)), (proj2 (Z.leb_le _ _)) by lia. cbn [andb negb].
    pose proof (pld_lookup p f _ _ Hp H1) as E1. rewrite Z2Nat.id in E1 by lia. rewrite E1. cbn [mbind res_bind negb Z.eqb Pos.eqb].
    replace (n - 1 + 1) with n by lia. set (c := Z.to_nat n).
    assert (Hcl : length (c' ++ [1]) = c) by (unfold c, blen in *; lia).
    destruct (scanLoop_spec p f c Hp Hlen ltac:(lia) (Z.to_nat (blen f)) c ltac:(lia) ltac:(unfold blen; lia) ltac:(unfold blen in *; lia) ltac:(lia))
      as ((o & z) & Es & Hs). unfold c in Es. rewrite Z2Nat.id in Es by lia. rewrite Es. cbn [mbind res_bind]. do 2 f_equal.
    assert (Hx : exists c'0, c' ++ [1] = c'0 ++ [1]) by eauto.
    destruct Hs as [(j & Hj & Hcj & Hfirst & [= -> ->])|(Hnone & Hge & Hz0)].
    + replace j with (length (c' ++ [1%Z]) + (j - c))%nat in Hj by lia. rewrite Ef in Hj. pose proof Hj as Hj'.
      apply (proj1 (hit_after _ _ _ Hx)) in Hj. rewrite (split_nalu_first l (j - c) Hj).
      * pose proof (zeros_after (c' ++ [1]) l _ Hx Hj) as Hz. rewrite <- Ef in Hz.
        replace (length (c' ++ [1%Z]) + (j - c))%nat with j in Hz by lia. rewrite Hz. cbn [fst].
        pose proof (zeros_at_le _ _ Hj) as Hzl. pose proof Hj as (_ & Hjl & _). apply lookup_lt_Some in Hjl.
        unfold blen in *. rewrite length_take. rewrite (u32_id (_ - n)) by (unfold is_u32; lia). rewrite u32_id by (unfold is_u32; lia). lia.
      * intros i Hi Hh. apply (proj2 (hit_after (c' ++ [1]) l _ Hx)) in Hh. rewrite <- Ef in Hh. apply (Hfirst (length (c' ++ [1%Z]) + i)%nat); [lia|exact Hh].
    + rewrite split_nalu_none. 2: { intros i Hh. apply (proj2 (hit_after (c' ++ [1]) l _ Hx)) in Hh. rewrite <- Ef in Hh. by apply Hnone in Hh; [|lia]. }
      cbn [fst snd] in *. subst z. rewrite Z.min_r by lia. rewrite (u32_id (_ - n)) by (unfold is_u32; lia). rewrite u32_id by (unfold is_u32; lia). lia.
  - destruct (andb _ _) eqn:Hb; [|done]. cbn [negb].
    apply andb_prop in Hb as [[Hlt%Z.ltb_lt H4%Z.ltb_lt]%andb_prop H2%Z.leb_le].
    destruct (lookup_lt_is_Some_2 f (zero_run 4 f)) as [x Hx]; [unfold blen in Hlt; lia|].
    rewrite (pld_lookup p f _ _ Hp Hx). cbn [mbind res_bind]. destruct (Z.eqb_spec x 1) as [->|]; [|done]. exfalso.
    destruct (zero_run_code f) as [? E]; [lia|done|congruence].
Qed.

(** ** The NAL units of a frame *)

(** The units of a stream, [None] when it is malformed.  A start code at the very end
    opens no unit. *)
Fixpoint nalusF (fuel : nat) (f : list Z) : option (list (list Z)) :=
  match f, fuel with
  | [], _ => Some []
  | _, O => None
  | _, S fuel =>
      match open_code f with
      | None => None
      | Some (_, []) => Some []
      | Some (_, l) => let (n, r) := split_nalu l in (cons n) <$> nalusF fuel r
      end
  end.
Definition nalusOf (f : list Z) : option (list (list Z)) := nalusF (length f) f.

Lemma split_nalu_app l : l = (split_nalu l).1 ++ (split_nalu l).2.
Proof.
  induction l as [|x l IH]; [done|]. cbn [split_nalu]. destruct (bool_decide _); [done|].
  destruct (split_nalu l) as [n r]. cbn [fst snd app] in *. by rewrite IH.
Qed.

Lemma nalusF_enough fuel f : (length f <= fuel)%nat -> nalusF fuel f = nalusOf f.
Proof.
  unfold nalusOf. revert f. assert (H : forall a b f, (length f <= a)%nat -> (length f <= b)%nat -> nalusF a f = nalusF b f).
  { induction a as [|a IH]; intros b f Ha Hb; [destruct f; [by destruct b|simpl in Ha; lia]|].
    destruct f as [|x f]; [by destruct b|]. destruct b as [|b]; [simpl in Hb; lia|]. cbn [nalusF].
    destruct (open_code (x :: f)) as [[n [|y l]]|] eqn:Ho; [done| |done].
    destruct (open_code_app _ _ _ Ho) as (c' & Ef & _ & Hn). pose proof (split_nalu_app (y :: l)) as Hs.
    destruct (split_nalu (y :: l)) as [u r]. cbn [fst snd] in Hs. f_equal.
    assert (length r < length (x :: f))%nat.
    { rewrite Ef, Hs, !length_app. simpl. lia. }
    apply IH; simpl in *; lia. }
  intros f Hf. by apply H.
Qed.

Lemma nalusOf_step f n l :
  open_code f = Some (n, l) -> l <> [] ->
  nalusOf f = (cons (split_nalu l).1) <$> nalusOf (split_nalu l).2.
Proof.
  intros Ho Hl. destruct f as [|x f]; [done|]. unfold nalusOf at 1. cbn [length nalusF]. rewrite Ho.
  destruct l as [|y l]; [done|]. destruct (open_code_app _ _ _ Ho) as (c' & Ef & _ & Hn).
  pose proof (split_nalu_app (y :: l)) as Hs. destruct (split_nalu (y :: l)) as [u r]. cbn [fst snd] in *.
  f_equal. apply nalusF_enough. apply (f_equal length) in Ef. rewrite Hs, !length_app in Ef. simpl in Ef. lia.
Qed.

(** ** Filling the payload buffers

    The PayloadArray while a packetiser walks over the NAL units: the pointers move
    behind what is written and the maxima shrink (or, when only the sizes are computed,
    the totals grow). *)

Set Primitive Projections.
Record PayloadCursor : Type := {
  pc_buffer : option ptr;
  pc_subs : option ptr;
  pc_length : Z;
  pc_count : Z;
  pc_maxLength : Z;
  pc_maxCount : Z;
}.
Unset Primitive Projections.
#[export] Instance upd_pc_buffer : Update pc_buffer. Proof. derive_update. Defined.
#[export] Instance upd_pc_subs : Update pc_subs. Proof. derive_update. Defined.
#[export] Instance upd_pc_length : Update pc_length. Proof. derive_update. Defined.
#[export] Instance upd_pc_count : Update pc_count. Proof. derive_update. Defined.
#[export] Instance upd_pc_maxLength : Update pc_maxLength. Proof. derive_update. Defined.
#[export] Instance upd_pc_maxCount : Update pc_maxCount. Proof. derive_update. Defined.

(** The initialisation of payloadArray. *)
Definition newCursor (buf subs : option (list Z)) (len cnt : Z) : PayloadCursor :=
  let sizeOnly := isNull buf in
  {| pc_buffer := (fun b => Ptr b 0) <$> buf; pc_subs := (fun s => Ptr s 0) <$> subs;
     pc_length := if sizeOnly then 0 else len; pc_count := if sizeOnly then 0 else cnt;
     pc_maxLength := if sizeOnly then 0 else len; pc_maxCount := if sizeOnly then 0 else cnt |}.

(** Stores of [ws] relative to [o], in order. *)
Fixpoint writeAll (buf : list Z) (o : Z) (ws : list (Z * list Z)) : res (list Z) :=
  match ws with
  | [] => Ok buf
  | (k, bs) :: ws => buf ← put_bytes buf (o + k) bs; writeAll buf o ws
  end.

(** Writes a fragment at [pPayload = payloadBuffer + pos] and its size as the sub-length
    number [cnt - 1]. *)
Definition storeFragment (pc : PayloadCursor) (pos cnt : Z) (ws : list (Z * list Z)) (size : Z)
    : res PayloadCursor :=
  match pc_buffer pc, pc_subs pc with
  | Some b, Some s =>
      buf ← writeAll (p_obj b) (p_off b + pos) ws;
      subs ← lput (p_obj s) (p_off s + (cnt - 1)) size;
      Ok (pc <| pc_buffer := Some (Ptr buf (p_off b)) |> <| pc_subs := Some (Ptr subs (p_off s)) |>)
  | _, _ => Fault
  end.

(** The bookkeeping after a call that produced [len] bytes in [cnt] payloads. *)
Definition accountPayload (sizeOnly : bool) (pc : PayloadCursor) (len cnt : Z) : PayloadCursor :=
  if sizeOnly then pc <| pc_length := pc_length pc +32 len |> <| pc_count := pc_count pc +32 cnt |>
  else pc <| pc_buffer := (fun p => padd p len) <$> pc_buffer pc |>
          <| pc_subs := (fun p => padd p cnt) <$> pc_subs pc |>
          <| pc_maxLength := pc_maxLength pc -32 len |> <| pc_maxCount := pc_maxCount pc -32 cnt |>.

(** The CHK on the remaining room. *)
Definition hasRoom (pc : PayloadCursor) (len cnt : Z) : bool :=
  (cnt <=? pc_maxCount pc) && (len <=? pc_maxLength pc).

(** The CleanUp section: a failed size computation reports zeros. *)
Definition naluDone (r : STATUS * option PayloadCursor * Z * Z) : STATUS * option PayloadCursor * Z * Z :=
  let '(st, out, len, cnt) := r in
  if STATUS_FAILED st && isNull out then (st, out, 0, 0) else r.

(** One call of a packetiser and the bookkeeping after it. *)
Definition emitPayload (sizeOnly : bool) (pc : PayloadCursor)
    (create : option PayloadCursor -> res (STATUS * option PayloadCursor * Z * Z)) : res (STATUS * PayloadCursor) :=
  '(st, out, len, cnt) ← create (if sizeOnly then None else Some pc);
  let pc := default pc out in
  Ok (st, if STATUS_FAILED st then pc else accountPayload sizeOnly pc len cnt).

(** The outcome of a packetiser whose payload array ended up as [pc]. *)
Definition cursorDone (st : STATUS) (buf subs : option (list Z)) (pc : PayloadCursor) (pLen pCnt : option Z)
    : res PayloadOut :=
  payloadDone st (isNull buf) (p_obj <$> pc_buffer pc) (p_obj <$> pc_subs pc) (pc_length pc) (pc_count pc) pLen pCnt.

(** An argument check that fails before payloadArray is initialised: only a size
    computation has defined outputs. *)
Definition payloadEarly (st : STATUS) (buf subs : option (list Z)) (pLen pCnt : option Z) : res PayloadOut :=
  if isNull buf then payloadDone st true buf subs 0 0 pLen pCnt else Err st.

(** The loop over the fragments of a unit.  [cur] is pCurPtrInNalu - nalu, [pos] is
    pPayload - payloadBuffer, and [writes remaining size bs] are the stores of one fragment
    relative to pPayload; every iteration consumes a byte, so the length of the unit is
    enough fuel. *)
Fixpoint fuLoop (headerSize : Z) (writes : Z -> Z -> list Z -> list (Z * list Z)) (fuel : nat)
    (nalu : ptr) (maxPayloadSize cur remaining : Z) (out : option PayloadCursor) (pos len cnt : Z)
    : res (STATUS * option PayloadCursor * Z * Z) :=
  if remaining =? 0 then Ok (STATUS_SUCCESS, out, len, cnt) else
  match fuel with
  | O => Fault
  | S fuel =>
      let size := Z.min maxPayloadSize remaining in
      let cnt := cnt +32 1 in
      let len := len +32 (headerSize +32 size) in
      match out with
      | None => fuLoop headerSize writes fuel nalu maxPayloadSize (cur + size) (remaining -32 size)
                  None (pos + headerSize + size) len cnt
      | Some pc =>
          if negb (hasRoom pc len cnt) then Ok (STATUS_BUFFER_TOO_SMALL, out, len, cnt) else
          bs ← pld_bytes (padd nalu cur) size;
          pc ← storeFragment pc pos cnt (writes remaining size bs) (headerSize +32 size);
          fuLoop headerSize writes fuel nalu maxPayloadSize (cur + size) (remaining -32 size)
            (Some pc) (pos + headerSize + size) len cnt
      end
  end.

(** *** What the stores add up to *)

(** [pc'] is [pc] with the fragments written from [pos] and [cnt] on. *)
Definition stored (pc : PayloadCursor) (pos cnt : Z) (frs : list (list Z)) (pc' : PayloadCursor) : Prop :=
  exists b s buf subs, pc_buffer pc = Some b /\ pc_subs pc = Some s /\
    put_bytes (p_obj b) (p_off b + pos) (concat frs) = Ok buf /\
    put_bytes (p_obj s) (p_off s + cnt) (map blen frs) = Ok subs /\
    pc' = pc <| pc_buffer := Some (Ptr buf (p_off b)) |> <| pc_subs := Some (Ptr subs (p_off s)) |>.

Lemma put_bytes_split b o x y r :
  put_bytes b o (x ++ y) = Ok r -> exists m, put_bytes b o x = Ok m /\ put_bytes m (o + blen x) y = Ok r.
Proof. rewrite <- put_bytes_seq. apply res_bind_inv. Qed.

Lemma put_bytes_join b o x y m r :
  put_bytes b o x = Ok m -> put_bytes m (o + blen x) y = Ok r -> put_bytes b o (x ++ y) = Ok r.
Proof. intros E1 E2. rewrite <- put_bytes_seq, E1. exact E2. Qed.

Lemma put_bytes_empty b o r : put_bytes b o [] = Ok r -> r = b.
Proof.
  intros E. pose proof (put_bytes_inv _ _ _ _ E) as (Ho & Hl & _). rewrite put_bytes_in in E by done.
  injection E as <-. cbn [app]. change (blen []) with 0. by rewrite Z.add_0_r, take_drop.
Qed.

Lemma lput_put_bytes l i v : lput l i v = put_bytes l i [v].
Proof.
  unfold lput, put_bytes. change (blen [v]) with 1. unfold blen.
  destruct (Z.leb_spec 0 i); [|done]. cbn [andb].
  destruct (Z.ltb_spec i (Z.of_nat (length l))), (Z.leb_spec (i + 1) (Z.of_nat (length l))); try lia; [|done].
  f_equal. rewrite insert_take_drop by lia. cbn [app]. do 3 f_equal. lia.
Qed.

Lemma stored_nil pc pos cnt pc' : stored pc pos cnt [] pc' -> pc' = pc.
Proof.
  intros (b & s & buf & subs & Eb & Es & E1 & E2 & ->). apply put_bytes_empty in E1 as ->. apply put_bytes_empty in E2 as ->.
  destruct b, s. cbn in *. rewrite <- Eb, <- Es. done.
Qed.

Lemma stored_app pc pos cnt x y pc' :
  stored pc pos cnt (x ++ y) pc' ->
  exists pc1, stored pc pos cnt x pc1 /\ stored pc1 (pos + total x) (cnt + Z.of_nat (length x)) y pc'.
Proof.
  intros (b & s & buf & subs & Eb & Es & E1 & E2 & ->). rewrite concat_app in E1. rewrite map_app in E2.
  apply put_bytes_split in E1 as (m1 & E1 & E1'). apply put_bytes_split in E2 as (m2 & E2 & E2').
  rewrite blen_concat in E1'. unfold blen in E2' at 1. rewrite length_map in E2'.
  eexists. split; [exists b, s, m1, m2; split_and!; done|].
  exists (Ptr m1 (p_off b)), (Ptr m2 (p_off s)), buf, subs. cbn [p_obj p_off pc_buffer pc_subs]. rewrite !Z.add_assoc.
  split_and!; done.
Qed.

(** The stores of one fragment. *)
Definition covers_fragment (ws : list (Z * list Z)) (fr : list Z) : Prop :=
  forall buf o, writeAll buf o ws = put_bytes buf o fr.

Lemma storeFragment_stored pc pos cnt ws fr pc' :
  covers_fragment ws fr -> stored pc pos cnt [fr] pc' -> storeFragment pc pos (cnt + 1) ws (blen fr) = Ok pc'.
Proof.
  intros Hw (b & s & buf & subs & Eb & Es & E1 & E2 & ->). unfold storeFragment. rewrite Eb, Es, Hw, lput_put_bytes.
  cbn [concat map] in *. rewrite app_nil_r in E1. rewrite E1. cbn [mbind res_bind].
  replace (p_off s + (cnt + 1 - 1)) with (p_off s + cnt) by lia. by rewrite E2.
Qed.

Lemma stored_max pc pos cnt frs pc' :
  stored pc pos cnt frs pc' -> pc_maxLength pc' = pc_maxLength pc /\ pc_maxCount pc' = pc_maxCount pc.
Proof. by intros (b & s & buf & subs & _ & _ & _ & _ & ->). Qed.

(** *** Calls of a packetiser *)

(** The output of a call: nothing when sizes are computed, else the fragments stored. *)
Definition out_stored (out : option PayloadCursor) (len cnt : Z) (frs : list (list Z))
    (out' : option PayloadCursor) : Prop :=
  match out, out' with
  | None, None => True
  | Some pc, Some pc' =>
      stored pc len cnt frs pc' /\ len + total frs <= pc_maxLength pc /\
      cnt + Z.of_nat (length frs) <= pc_maxCount pc
  | _, _ => False
  end.

Lemma out_stored_cons out len cnt fr frs out' :
  out_stored out len cnt (fr :: frs) out' ->
  exists out1, out_stored out1 (len + blen fr) (cnt + 1) frs out' /\
    match out, out1 with
    | None, None => True
    | Some pc, Some pc1 =>
        hasRoom pc (len + blen fr) (cnt + 1) = true /\
        forall ws, covers_fragment ws fr -> storeFragment pc len (cnt + 1) ws (blen fr) = Ok pc1
    | _, _ => False
    end.
Proof.
  destruct out as [pc|], out' as [pc'|]; cbn [out_stored]; try done; [|by exists None].
  intros (Hs & Hl & Hc). change (fr :: frs) with ([fr] ++ frs) in Hs. apply stored_app in Hs as (pc1 & H1 & H2).
  change (length [fr]) with 1%nat in H2. change (Z.of_nat 1) with 1 in H2. rewrite total_cons in *.
  change (total [fr]) with (blen fr + 0) in H2. rewrite Z.add_0_r in H2. cbn [length] in Hc.
  destruct (stored_max _ _ _ _ _ H1) as [E1 E2]. pose proof (total_nonneg frs).
  exists (Some pc1). split; [split; [done|]; rewrite E1, E2; lia|]. split.
  - unfold hasRoom. rewrite !(proj2 (Z.leb_le _ _)) by lia. done.
  - intros ws Hw. by apply storeFragment_stored.
Qed.

Lemma pld_bytes_take p l k :
  pld_bytes p (blen l) = Ok l -> 0 <= k <= blen l ->
  pld_bytes p k = Ok (take (Z.to_nat k) l) /\ pld_bytes (padd p k) (blen l - k) = Ok (drop (Z.to_nat k) l).
Proof.
  unfold pld_bytes, padd. cbn [p_obj p_off]. intros Hp Hk. pose proof (ld_bytes_inv _ _ _ _ Hp) as (Ho & _ & Hl & _).
  rewrite ld_bytes_in in Hp by lia. injection Hp as Hp. rewrite !ld_bytes_in by lia.
  set (d := drop (Z.to_nat (p_off p)) (p_obj p)) in *. remember (blen l) as n eqn:En. subst l. split; f_equal.
  - rewrite take_take. f_equal. lia.
  - rewrite Z2Nat.inj_add, <- drop_drop by lia. fold d. rewrite skipn_firstn_comm. f_equal. lia.
Qed.

Lemma split_taken k (l : list Z) :
  take (Z.to_nat (blen (take k l))) l = take k l /\ drop (Z.to_nat (blen (take k l))) l = drop k l.
Proof.
  unfold blen. rewrite Nat2Z.id, length_take. destruct (Nat.min_spec k (length l)) as [[? ->]|[? ->]]; [done|].
  by rewrite !take_ge, !drop_ge by lia.
Qed.

Lemma covers_whole fr : covers_fragment [(0, fr)] fr.
Proof. intros buf o. cbn [writeAll]. rewrite Z.add_0_r. by destruct (put_bytes buf o fr). Qed.

(** A packetiser that produces the fragments [frs]. *)
Definition produces (create : option PayloadCursor -> res (STATUS * option PayloadCursor * Z * Z))
    (frs : list (list Z)) : Prop :=
  forall out out', out_stored out 0 0 frs out' ->
    create out = Ok (STATUS_SUCCESS, out', total frs, Z.of_nat (length frs)).

Lemma out_stored_nonnull out frs out' pc :
  out_stored out 0 0 frs out' -> out = Some pc -> isNull (pc_subs pc) || isNull (pc_buffer pc) = false.
Proof.
  intros H ->. destruct out'; [|done]. destruct H as [(b & s & ? & ? & Eb & Es & _) _]. by rewrite Eb, Es.
Qed.

Lemma out_stored_one out fr out' :
  out_stored out 0 0 [fr] out' -> 
  match out with
  | None => out' = None
  | Some pc => hasRoom pc (blen fr) 1 = true /\
      exists pc', out' = Some pc' /\ stored pc 0 0 [fr] pc' /\
        forall ws, covers_fragment ws fr -> storeFragment pc 0 1 ws (blen fr) = Ok pc'
  end.
Proof.
  intros H. destruct (out_stored_cons _ _ _ _ _ _ H) as (out1 & H1 & Hone).
  destruct out as [pc|], out' as [pc'|]; try done. destruct out1 as [pc1|]; [|done]. destruct Hone as [Hr Hw].
  rewrite !Z.add_0_l in *. split; [done|]. exists pc'. split; [done|]. split; [apply H|].
  intros ws Hc. rewrite (Hw ws Hc). f_equal. symmetry. destruct H1 as [H1 _]. by apply stored_nil in H1.
Qed.

(** The cursor after the fragments [frs]. *)
Definition advanced (sizeOnly : bool) (pc : PayloadCursor) (frs : list (list Z)) (pc' : PayloadCursor) : Prop :=
  let len := total frs in let cnt := Z.of_nat (length frs) in
  if sizeOnly then
    pc' = accountPayload true pc len cnt /\ 0 <= pc_length pc /\ pc_length pc + len < 2 ^ 32 /\
    0 <= pc_count pc /\ pc_count pc + cnt < 2 ^ 32
  else exists pc1, stored pc 0 0 frs pc1 /\ pc' = accountPayload false pc1 len cnt /\
    len <= pc_maxLength pc < 2 ^ 32 /\ cnt <= pc_maxCount pc < 2 ^ 32.

Lemma advanced_app so pc x y pc' :
  advanced so pc (x ++ y) pc' -> exists pc1, advanced so pc x pc1 /\ advanced so pc1 y pc'.
Proof.
  unfold advanced. rewrite total_app, length_app, Nat2Z.inj_add.
  pose proof (total_nonneg x). pose proof (total_nonneg y). destruct so.
  - intros (-> & H1 & H2 & H3 & H4). eexists. split; [split_and!; [done|lia..]|]. unfold accountPayload. cbn.
    rewrite (u32_id (pc_length pc + total x)), (u32_id (pc_count pc + Z.of_nat (length x))) by (unfold is_u32; lia).
    split_and!; try lia. rewrite !Z.add_assoc. done.
  - destruct pc as [pb ps pl pk pml pmk]. cbn. intros (pc2 & Hs & -> & Hl & Hc). apply stored_app in Hs as (pc1 & (b & s & buf & subs & Eb & Es & E1 & E2 & ->) & Hs2).
    eexists. split.
    + eexists. split; [exists b, s, buf, subs; split_and!; done|]. split; [done|]. split; lia.
    + destruct Hs2 as (b2 & s2 & buf2 & subs2 & [= <-] & [= <-] & F1 & F2 & ->). rewrite !Z.add_0_l in F1, F2. cbn in F1, F2.
      eexists {| pc_buffer := Some (Ptr buf2 (p_off b + total x)); pc_subs := Some (Ptr subs2 (p_off s + Z.of_nat (length x)));
                pc_length := pl; pc_count := pk; pc_maxLength := pml - total x; pc_maxCount := pmk - Z.of_nat (length x) |}.
      unfold accountPayload. cbn. cbn in Hl, Hc.
      rewrite (u32_id (pml - total x)), (u32_id (pmk - Z.of_nat (length x))) by (unfold is_u32; lia).
      split; [|split; [|lia]].
      * exists (Ptr buf (p_off b + total x)), (Ptr subs (p_off s + Z.of_nat (length x))), buf2, subs2. cbn.
        rewrite !Z.add_0_r. split_and!; done.
      * unfold padd. cbn. rewrite !Z.sub_add_distr, !Z.add_assoc. done.
Qed.

Lemma advanced_nil so pc pc' : advanced so pc [] pc' -> pc' = pc.
Proof.
  unfold advanced. cbn -[accountPayload]. destruct so.
  - intros (-> & H1 & H2 & H3 & H4). unfold accountPayload. rewrite !Z.add_0_r, !u32_id by (unfold is_u32; lia). done.
  - intros (pc1 & Hs & -> & Hl & Hc). apply stored_nil in Hs as E. destruct Hs as (b & s & ? & ? & Eb & Es & _). subst pc1.
    unfold accountPayload, padd. rewrite Eb, Es, !Z.sub_0_r, !u32_id by (unfold is_u32; lia). cbn. rewrite !Z.add_0_r.
    destruct b, s. cbn. rewrite <- Eb, <- Es. done.
Qed.

Lemma emitPayload_spec so pc create frs pc' :
  produces create frs -> advanced so pc frs pc' -> emitPayload so pc create = Ok (STATUS_SUCCESS, pc').
Proof.
  intros Hc Ha. unfold emitPayload. destruct so; cbn [advanced] in Ha.
  - destruct Ha as [-> _]. rewrite (Hc None None I). done.
  - destruct Ha as (pc1 & Hs & -> & Hl & Hn). rewrite (Hc (Some pc) (Some pc1)); [done|].
    split; [done|]. lia.
Qed.

(** *** Fragments of a unit *)

(** The fragments of the pieces of a unit's body; [mk first last c] is the fragment that
    carries [c]. *)
Fixpoint fu_frags (mk : bool -> bool -> list Z -> list Z) (first : bool) (cs : list (list Z)) : list (list Z) :=
  match cs with
  | [] => []
  | c :: cs' => mk first (bool_decide (cs' = [])) c :: fu_frags mk false cs'
  end.

Lemma length_fu_frags mk first cs : length (fu_frags mk first cs) = length cs.
Proof. revert first. induction cs; intros; simpl; auto. Qed.

Lemma fu_frags_forall (P Q : list Z -> Prop) mk first cs :
  (forall f l c, P c -> Q (mk f l c)) -> Forall P cs -> Forall Q (fu_frags mk first cs).
Proof. intros HPQ H. revert first. induction H; intros first; constructor; auto. Qed.

(** A header of several bytes stored after the body behind it. *)
Lemma put_bytes_late hd c buf o :
  (x ← put_bytes buf (o + blen hd) c; put_bytes x o hd) = put_bytes buf o (hd ++ c).
Proof.
  pose proof (blen_nonneg c). pose proof (blen_nonneg hd). destruct (decide (0 <= o /\ o + blen hd + blen c <= blen buf)) as [[Ho Hl]|Hn].
  - rewrite (put_bytes_in buf (o + blen hd)), (put_bytes_in buf o (hd ++ c)) by (rewrite ?blen_app; lia). cbn [mbind res_bind].
    set (pre := take (Z.to_nat o) buf). set (old := take (Z.to_nat (blen hd)) (drop (Z.to_nat o) buf)).
    assert (Epre : take (Z.to_nat (o + blen hd)) buf = pre ++ old).
    { unfold pre, old. rewrite Z2Nat.inj_add by lia. by rewrite take_take_drop. }
    rewrite Epre, <- (assoc_L (++) pre old), (put_bytes_app pre old).
    + rewrite blen_app, <- !(assoc_L (++)). by rewrite Z.add_assoc.
    + unfold pre. rewrite blen_take; lia.
    + unfold old. rewrite blen_take; [done|]. rewrite blen_drop by lia. lia.
  - rewrite (put_bytes_fault buf o) by (rewrite blen_app; lia).
    destruct (put_bytes buf (o + blen hd) c) as [x| |] eqn:E; cbn [mbind res_bind]; [|by unfold put_bytes in E; case_match|done].
    apply put_bytes_inv in E as (? & ? & Hx). apply put_bytes_fault. lia.
Qed.

(** A size computation stores nothing. *)
Lemma fuLoop_size hdr w w' fuel nalu m cur rem pos len cnt :
  fuLoop hdr w fuel nalu m cur rem None pos len cnt = fuLoop hdr w' fuel nalu m cur rem None pos len cnt.
Proof. revert cur rem pos len cnt. induction fuel as [|fuel IH]; intros; cbn [fuLoop]; destruct (rem =? 0); auto. Qed.

Section Fragments.
Context (hdr body : Z) (writes : Z -> Z -> list Z -> list (Z * list Z)) (mk : bool -> bool -> list Z -> list Z).
Hypothesis Hhdr : 0 <= hdr < 16.
Hypothesis Hmk : forall f l c, blen (mk f l c) = hdr + blen c.
Hypothesis Hwrites : forall remaining c,
  covers_fragment (writes remaining (blen c) c) (mk (remaining =? body) (remaining =? blen c) c).
(** The end mark does not matter on the first fragment. *)
Hypothesis Hfirst_wins : forall l c, mk true l c = mk true false c.

Lemma total_fu_frags first cs : total (fu_frags mk first cs) = total cs + hdr * Z.of_nat (length cs).
Proof.
  revert first. induction cs as [|c cs IH]; intros first; [unfold total; simpl; lia|]. cbn [fu_frags length].
  rewrite !total_cons, IH, Hmk. lia.
Qed.

Lemma fuLoop_spec fuel nalu m cur l first out out' len cnt :
  0 < m < 2 ^ 32 - 16 -> pld_bytes (padd nalu cur) (blen l) = Ok l -> blen l <= Z.of_nat fuel ->
  first = (blen l =? body) -> 0 <= len -> 0 <= cnt ->
  let frs := fu_frags mk first (chunks (Z.to_nat m) l) in
  len + total frs < 2 ^ 32 -> cnt + Z.of_nat (length frs) < 2 ^ 32 -> blen l <= body -> body < 2 ^ 32 ->
  out_stored out len cnt frs out' ->
  fuLoop hdr writes fuel nalu m cur (blen l) out len len cnt =
  Ok (STATUS_SUCCESS, out', len + total frs, cnt + Z.of_nat (length frs)).
Proof.
  intros Hm. revert fuel cur first out len cnt.
  induction l as [|l Hl IH] using (chunks_ind (Z.to_nat m) ltac:(lia)); intros fuel cur first out len cnt
    Hp Hf Hfirst Hlen Hcnt frs Hmax Hmax2 Hbody Hbody2 Hst.
  - assert (Eo : out' = out).
    { unfold frs in Hst. rewrite chunks_nil in Hst. cbn [fu_frags] in Hst.
      destruct out, out'; cbn [out_stored] in Hst; try done. destruct Hst as [Hst _]. by apply stored_nil in Hst as ->. }
    destruct fuel; cbn [fuLoop]; change (blen [] =? 0) with true; cbv match; rewrite Eo; subst frs; rewrite chunks_nil; cbn;
      rewrite !Z.add_0_r; done.
  - assert (Hpos : 0 < blen l) by (destruct l; [done|unfold blen; simpl; lia]).
    destruct fuel as [|fuel]; [lia|]. cbn [fuLoop]. rewrite (proj2 (Z.eqb_neq _ 0)) by lia.
    unfold frs in *. rewrite (chunks_step (Z.to_nat m) ltac:(lia) l Hl) in *.
    set (c := take (Z.to_nat m) l) in *. set (l' := drop (Z.to_nat m) l) in *.
    assert (Hc : Z.min m (blen l) = blen c) by (unfold c, blen; rewrite length_take; lia).
    assert (Hl' : blen l' = blen l - blen c) by (unfold c, l', blen; rewrite length_drop, length_take; lia).
    rewrite Hc. assert (Hc0 : 0 < blen c <= blen l /\ blen c <= m) by lia.
    destruct (pld_bytes_take _ _ (blen c) Hp ltac:(lia)) as [Hp1 Hp2].
    destruct (split_taken (Z.to_nat m) l) as [Et Ed]. fold c l' in Et, Ed. rewrite Et in Hp1. rewrite Ed in Hp2.
    assert (Hp2' : pld_bytes (padd nalu (cur + blen c)) (blen l') = Ok l').
    { rewrite <- Hl' in Hp2. unfold padd in *. cbn [p_obj p_off] in *. by rewrite Z.add_assoc. }
    cbn [fu_frags] in *. set (rest := fu_frags mk false (chunks (Z.to_nat m) l')) in *.
    set (fr := mk first _ c) in *. assert (Hfr : blen fr = hdr + blen c) by apply Hmk.
    cbn [length] in Hmax2 |- *. rewrite total_cons in Hmax |- *. pose proof (total_nonneg rest).
    rewrite (u32_id (hdr + blen c)) by (unfold is_u32; lia). rewrite <- Hfr.
    rewrite (u32_id (len + blen fr)), (u32_id (cnt + 1)), (u32_id (blen l - blen c)) by (unfold is_u32; lia).
    rewrite <- Hl'. replace (len + hdr + blen c) with (len + blen fr) by lia.
    replace (len + (blen fr + total rest)) with (len + blen fr + total rest) by lia.
    replace (cnt + Z.of_nat (S (length rest))) with (cnt + 1 + Z.of_nat (length rest)) by lia.
    destruct (out_stored_cons _ _ _ _ _ _ Hst) as (out1 & Hst1 & Hone).
    assert (Hrec : fuLoop hdr writes fuel nalu m (cur + blen c) (blen l') out1 (len + blen fr) (len + blen fr) (cnt + 1) =
      Ok (STATUS_SUCCESS, out', len + blen fr + total rest, cnt + 1 + Z.of_nat (length rest))).
    { apply IH; fold rest; done || lia. }
    destruct out as [pc|], out1 as [pc1|]; try done. destruct Hone as [Hroom Hw]. rewrite Hroom. cbn [negb].
    rewrite Hp1. cbn [mbind res_bind]. rewrite Hw; [exact Hrec|].
    replace fr with (mk (blen l =? body) (blen l =? blen c) c); [apply Hwrites|].
    unfold fr. rewrite <- Hfirst. destruct first; [by rewrite Hfirst_wins, (Hfirst_wins (bool_decide _))|]. f_equal.
    destruct (Z.eqb_spec (blen l) (blen c)) as [E|E].
    + rewrite bool_decide_true; [done|]. assert (l' = []) as -> by (destruct l'; [done|unfold blen in *; simpl in *; lia]). done.
    + rewrite bool_decide_false; [done|]. apply chunks_nonempty; [lia|]. intros E'. rewrite E' in Hl'. change (blen []) with 0 in Hl'. lia.
Qed.
End Fragments.

(** ** Start codes do not occur inside a unit *)

Lemma split_nalu_clean l j : ~ hit (split_nalu l).1 j.
Proof.
  revert j. induction l as [|x l IH]; intros j Hj; [by destruct Hj as (_ & ? & _)|]. cbn [split_nalu] in Hj.
  destruct (open_code (x :: l)) as [[k r]|] eqn:Ho.
  - rewrite bool_decide_true in Hj by eauto. by destruct Hj as (_ & ? & _).
  - rewrite bool_decide_false in Hj by (by intros [? ?]). pose proof (split_nalu_app l) as Hs.
    destruct (split_nalu l) as [n r]. cbn [fst snd] in *.
    assert (Hx : hit (x :: l) j).
    { destruct Hj as (H2 & H1 & H0 & H0'). rewrite Hs. split; [done|].
      split_and!; rewrite app_comm_cons; by apply lookup_app_l_Some. }
    destruct (open_code_none _ _ _ Ho Hx) as (i & -> & Hi & _). apply (IH i). by apply (hit_uncons x); [|apply Hi].
Qed.

(** A unit that contains no start code ends where the next one begins: at the first of the
    zeros, at most three, before the 1. *)
Lemma split_nalu_before n z r :
  (2 <= z)%nat -> n <> [] -> (forall j, ~ hit n j) -> zeros_at (n ++ replicate z 0 ++ 1 :: r) (length n + z) = z ->
  split_nalu (n ++ replicate z 0 ++ 1 :: r) = (n, replicate z 0 ++ 1 :: r).
Proof.
  intros Hz Hne Hc. set (l := n ++ replicate z 0 ++ 1 :: r). intros Hza.
  assert (Hlk : forall i, l !! (length n + i)%nat = (replicate z 0 ++ 1 :: r) !! i).
  { intros i. unfold l. rewrite lookup_app_r by lia. f_equal. lia. }
  assert (H0 : forall i, (i < z)%nat -> l !! (length n + i)%nat = Some 0).
  { intros i Hi. rewrite Hlk, lookup_app_l; [by apply lookup_replicate_2|]. rewrite length_replicate. lia. }
  assert (Hh : hit l (length n + z)).
  { split; [lia|]. replace (length n + z - 1)%nat with (length n + (z - 1))%nat by lia.
    replace (length n + z - 2)%nat with (length n + (z - 2))%nat by lia. rewrite (H0 (z - 1)%nat), (H0 (z - 2)%nat) by lia. split; [|done].
    rewrite Hlk, lookup_app_r; rewrite length_replicate; [by rewrite Nat.sub_diag|lia]. }
  assert (Hf : forall i, (i < length n + z)%nat -> ~ hit l i).
  { intros i Hi (H2 & H1 & H3). destruct (decide (i < length n)%nat) as [Hlt|Hge].
    - apply (Hc i). unfold l in *. rewrite !lookup_app_l in * by lia. done.
    - replace i with (length n + (i - length n))%nat in H1 by lia. rewrite H0 in H1 by lia. done. }
  rewrite (split_nalu_first l _ Hh Hf), Hza. replace (length n + z - z)%nat with (length n) by lia.
  unfold l. by rewrite take_app_length, drop_app_length.
Qed.

(** After a short start code the unit must not end in a zero. *)
Lemma split_nalu_unit n r :
  n <> [] -> (forall j, ~ hit n j) -> list.last n <> Some 0 ->
  split_nalu (n ++ [0; 0; 1] ++ r) = (n, [0; 0; 1] ++ r).
Proof.
  intros Hne Hc Hl. apply (split_nalu_before n 2 r); [lia|done|done|].
  unfold zeros_at. destruct (decide _) as [[H3 E]|]; [|done]. exfalso. apply Hl.
  destruct n as [|x n' _] using rev_ind; [done|]. rewrite list.last_snoc. rewrite length_app in E. cbn [length] in E.
  replace (length n' + 1 + 2 - 3)%nat with (length n') in E by lia. rewrite <- (assoc_L (++)) in E.
  by rewrite lookup_app_r, Nat.sub_diag in E by lia.
Qed.

Lemma split_nalu_unit4 n r :
  n <> [] -> (forall j, ~ hit n j) -> split_nalu (n ++ [0; 0; 0; 1] ++ r) = (n, [0; 0; 0; 1] ++ r).
Proof.
  intros Hne Hc. apply (split_nalu_before n 3 r); [lia|done|done|].
  unfold zeros_at. rewrite decide_True; [done|]. split; [lia|].
  replace (length n + 3 - 3)%nat with (length n) by lia. by rewrite lookup_app_r, Nat.sub_diag by lia.
Qed.

(** The units of a stream contain no start codes. *)
Lemma nalusOf_clean f ns : nalusOf f = Some ns -> Forall (fun n => forall j, ~ hit n j) ns.
Proof.
  unfold nalusOf. generalize (length f). intros fuel. revert f ns.
  induction fuel as [|fuel IH]; intros [|x f0] ms H; cbn [nalusF] in H; try discriminate; try (injection H as <-; constructor).
  destruct (open_code (x :: f0)) as [[k [|y l]]|] eqn:Ho; [injection H as <-; constructor| |discriminate].
  pose proof (split_nalu_clean (y :: l)) as Hs. destruct (split_nalu (y :: l)) as [n r]. cbn [fst snd] in Hs.
  destruct (nalusF fuel r) as [ns'|] eqn:Er; [|discriminate]. injection H as <-. constructor; [done|by apply (IH r)].
Qed.

Lemma count_total ps : Forall (fun n => n <> []) ps -> Z.of_nat (length ps) <= total ps.
Proof.
  induction 1 as [|n ps Hn _ IH]; [done|]. rewrite total_cons. cbn [length].
  assert (0 < blen n) by (destruct n; [done|unfold blen; simpl; lia]). lia.
Qed.

Lemma nalus_total f ns : nalusOf f = Some ns -> total ns <= blen f.
Proof.
  unfold nalusOf. assert (H : forall fuel f ns, nalusF fuel f = Some ns -> total ns <= blen f).
  { induction fuel as [|fuel IH]; intros [|x f0] ms H; cbn [nalusF] in H; try discriminate; try (injection H as <-; change (total []) with 0; apply blen_nonneg).
    destruct (open_code (x :: f0)) as [[k [|y l]]|] eqn:Ho; [injection H as <-; change (total []) with 0; apply blen_nonneg| |discriminate].
    destruct (open_code_app _ _ _ Ho) as (c' & Ef & _ & _). rewrite Ef, blen_app. pose proof (split_nalu_app (y :: l)) as Hs.
    destruct (split_nalu (y :: l)) as [n r]. cbn [fst snd] in Hs. destruct (nalusF fuel r) as [ns'|] eqn:Er; [|discriminate].
    injection H as <-. rewrite total_cons, Hs, !blen_app. specialize (IH _ _ Er). blen_facts. lia. }
  apply H.
Qed.

Lemma nalus_bytes f ns : nalusOf f = Some ns -> bytes_ok f -> Forall bytes_ok ns.
Proof.
  unfold nalusOf. generalize (length f). intros fuel. revert f ns.
  induction fuel as [|fuel IH]; intros [|x f0] ms H Hb; cbn [nalusF] in H; try discriminate; try (injection H as <-; constructor).
  destruct (open_code (x :: f0)) as [[k [|y l]]|] eqn:Ho; [injection H as <-; constructor| |discriminate].
  destruct (open_code_app _ _ _ Ho) as (c' & Ef & _ & _). rewrite Ef, bytes_ok_app in Hb. destruct Hb as [_ Hb].
  pose proof (split_nalu_app (y :: l)) as Hs. destruct (split_nalu (y :: l)) as [n r]. cbn [fst snd] in Hs.
  rewrite Hs, bytes_ok_app in Hb. destruct (nalusF fuel r) as [ns'|] eqn:Er; [|discriminate].
  injection H as <-. constructor; [apply Hb|]. by apply (IH r); [|apply Hb].
Qed.

Lemma pld_bytes_app p a b :
  pld_bytes p (blen (a ++ b)) = Ok (a ++ b) ->
  pld_bytes p (blen a) = Ok a /\ pld_bytes (padd p (blen a)) (blen b) = Ok b.
Proof.
  intros Hp. rewrite blen_app in Hp. blen_facts.
  destruct (pld_bytes_take p (a ++ b) (blen a)) as [H1 H2]; [by rewrite blen_app|rewrite blen_app; lia|].
  rewrite blen_app in H2. replace (blen a + blen b - blen a) with (blen b) in H2 by lia. rewrite <- length_blen in H1, H2.
  rewrite take_app_length in H1. rewrite drop_app_length in H2. done.
Qed.

Lemma put_bytes_front buf x : blen x <= blen buf -> put_bytes buf 0 x = Ok (x ++ drop (Z.to_nat (blen x)) buf).
Proof. intros H. by apply (put_bytes_at [] buf x 0). Qed.

(** One step over a well-formed stream: a final start code, or a unit and the rest. *)
Lemma next_nalu obj cur f ns :
  nalusOf f = Some ns -> f <> [] -> blen f < 2 ^ 31 -> pld_bytes (Ptr obj cur) (blen f) = Ok f ->
  exists k n r, getNextNaluLength (Some (Ptr obj cur)) (blen f) = Ok (k, blen n) /\
    3 <= k /\ blen f = k + (blen n + blen r) /\
    (n = [] /\ r = [] /\ ns = [] \/
     blen n + blen r <> 0 /\ exists ns', ns = n :: ns' /\ nalusOf r = Some ns' /\
       pld_bytes (Ptr obj (cur + k)) (blen n) = Ok n /\ pld_bytes (Ptr obj (cur + k + blen n)) (blen r) = Ok r).
Proof.
  intros Hn Hne Hf Hp. rewrite (getNextNaluLength_spec _ f Hp Hf). destruct f as [|x f']; [done|]. remember (x :: f') as f eqn:Ef.
  assert (Ho : is_Some (open_code f)).
  { destruct (open_code f) eqn:E; [eauto|]. rewrite Ef in Hn, E. unfold nalusOf in Hn. cbn [length nalusF] in Hn. by rewrite E in Hn. }
  destruct Ho as [[k l] Ho]. rewrite Ho. destruct (open_code_app _ _ _ Ho) as (c' & Efl & Ek & Hk). pose proof (blen_nonneg l).
  assert (Hfl : blen f = k + blen l) by (rewrite Efl, blen_app, Ek; lia).
  pose proof (split_nalu_app l) as Hs. set (n := (split_nalu l).1) in *. set (r := (split_nalu l).2) in *.
  assert (Hll : blen l = blen n + blen r) by (rewrite Hs at 1; apply blen_app).
  exists k, n, r. split; [done|]. split; [lia|]. split; [lia|]. destruct (decide (l = [])) as [El|El].
  - left. unfold n, r. rewrite El. split; [done|]. split; [done|].
    rewrite Ef in Hn, Ho. unfold nalusOf in Hn. cbn [length nalusF] in Hn. rewrite Ho, El in Hn. by injection Hn as <-.
  - right. split; [rewrite <- Hll; destruct l; [done|unfold blen; simpl; lia]|].
    rewrite (nalusOf_step f k l Ho El) in Hn. fold n r in Hn. destruct (nalusOf r) as [ns'|]; [|done]. injection Hn as <-.
    exists ns'. split; [done|]. split; [done|]. rewrite Efl in Hp. apply pld_bytes_app in Hp as [_ Hp]. rewrite <- Ek in Hp.
    rewrite Hs in Hp. by apply pld_bytes_app in Hp.
Qed.

(** ** A frame through a packetiser and a depacketiser *)

(** The outputs of the sizing and of the filling call. *)
Lemma cursor_size l c frs :
  total frs < 2 ^ 32 -> Z.of_nat (length frs) < 2 ^ 32 ->
  exists pc', advanced true (newCursor None None l c) frs pc' /\
    cursorDone STATUS_SUCCESS None None pc' (Some l) (Some c) =
    Ok {| po_status := STATUS_SUCCESS; po_buffer := None; po_subs := None;
          po_length := Some (total frs); po_count := Some (Z.of_nat (length frs)) |}.
Proof.
  intros Ht Hl. pose proof (total_nonneg frs). eexists. split; [split; [reflexivity|]; cbn; lia|].
  unfold cursorDone, payloadDone, accountPayload, newCursor. cbn. by rewrite !u32_id by (unfold is_u32; lia).
Qed.

Lemma cursor_fill buf subs frs (len := total frs) (cnt := Z.of_nat (length frs)) :
  len < 2 ^ 32 -> cnt < 2 ^ 32 -> len <= blen buf -> (length frs <= length subs)%nat ->
  exists pc', advanced false (newCursor (Some buf) (Some subs) len cnt) frs pc' /\
    cursorDone STATUS_SUCCESS (Some buf) (Some subs) pc' (Some len) (Some cnt) =
    Ok {| po_status := STATUS_SUCCESS; po_buffer := Some (concat frs ++ drop (Z.to_nat len) buf);
          po_subs := Some (map blen frs ++ drop (length frs) subs); po_length := Some len; po_count := Some cnt |}.
Proof.
  intros Ht Hc Hbuf Hsub.
  assert (Hml : blen (map blen frs) = Z.of_nat (length frs)) by (unfold blen; by rewrite length_map).
  assert (E1 : put_bytes buf 0 (concat frs) = Ok (concat frs ++ drop (Z.to_nat (total frs)) buf))
    by (rewrite <- blen_concat; apply put_bytes_front; by rewrite blen_concat).
  assert (E2 : put_bytes subs 0 (map blen frs) = Ok (map blen frs ++ drop (length frs) subs)).
  { rewrite put_bytes_front by (rewrite Hml; unfold blen; lia). by rewrite Hml, Nat2Z.id. }
  eexists. split.
  - eexists. split; [|split; [reflexivity|cbn; lia]].
    eexists (Ptr buf 0), (Ptr subs 0), _, _. split; [done|]. split; [done|]. split; [exact E1|]. split; [exact E2|reflexivity].
  - done.
Qed.

(** The destination of a call whose result is [piece]. *)
Definition receives (dst : option ptr) (cap : Z) (piece : list Z) (data : option (list Z)) : Prop :=
  match dst with
  | None => data = None
  | Some d => blen piece <= cap /\ exists x, data = Some x /\ put_bytes (p_obj d) (p_off d) piece = Ok x
  end.

(** The payloads a packetiser left in the buffer, cut by their lengths. *)
Fixpoint cut (subs : list Z) (buf : list Z) : list (list Z) :=
  match subs with
  | [] => []
  | n :: subs => take (Z.to_nat n) buf :: cut subs (drop (Z.to_nat n) buf)
  end.

Lemma cut_concat frs rest : cut (map blen frs) (concat frs ++ rest) = frs.
Proof.
  induction frs as [|fr frs IH]; [done|]. cbn [map concat cut]. rewrite <- (assoc_L (++)), <- length_blen.
  by rewrite take_app_length, drop_app_length, IH.
Qed.

(** Both passes of a sender over a frame: the sizes, then the payloads. *)
Definition packetise (create : RtpPayloadFunc) (mtu : Z) (f : list Z) : res (list (list Z)) :=
  o ← create mtu (Some f) (blen f) None (Some 0) None (Some 0);
  match po_length o, po_count o with
  | Some len, Some cnt =>
      o ← create mtu (Some f) (blen f) (Some (replicate (Z.to_nat len) 0)) (Some len)
            (Some (replicate (Z.to_nat cnt) 0)) (Some cnt);
      match po_status o, po_buffer o, po_subs o with
      | STATUS_SUCCESS, Some buf, Some subs => Ok (cut subs buf)
      | st, _, _ => Err st
      end
  | _, _ => Fault
  end.

(** Both passes of a receiver over the payloads of a frame, each appended to the data. *)
Fixpoint depacketise (depay : DepayRtpPayloadFunc) (first : bool) (frs : list (list Z)) : res (list Z) :=
  match frs with
  | [] => Ok []
  | fr :: frs =>
      o ← depay (Some (Ptr fr 0)) (blen fr) None (Some 0) (Some first);
      match do_length o with
      | Some n =>
          o ← depay (Some (Ptr fr 0)) (blen fr) (Some (Ptr (replicate (Z.to_nat n) 0) 0)) (Some n) (Some first);
          match do_status o, do_data o with
          | STATUS_SUCCESS, Some data => rest ← depacketise depay false frs; Ok (data ++ rest)
          | st, _ => Err st
          end
      | None => Fault
      end
  end.

Lemma blen_zeros n : 0 <= n -> blen (replicate (Z.to_nat n) 0) = n.
Proof. intros. unfold blen. rewrite length_replicate. lia. Qed.

Section Roundtrip.
Context {create depay} {P : Payloader create depay}.

Lemma packetise_fragments mtu f : frame_ok mtu f -> packetise create mtu f = Ok (fragments mtu f).
Proof.
  intros Hf. unfold packetise. rewrite (create_size mtu f 0 0 Hf). cbn [mbind res_bind po_length po_count].
  destruct (fragments_shape mtu f Hf) as (_ & Ht & _). pose proof (total_nonneg (fragments mtu f)).
  rewrite (create_fill mtu f _ _ Hf); [|rewrite blen_zeros; lia|by rewrite length_replicate, Nat2Z.id].
  cbn [mbind res_bind po_status po_buffer po_subs]. f_equal.
  rewrite Nat2Z.id, drop_replicate, Nat.sub_diag. cbn [replicate]. rewrite app_nil_r. apply cut_concat.
Qed.

Lemma depacketise_pieces first frs :
  Forall (fun fr => frag_ok fr /\ 0 < blen fr < 2 ^ 32) frs ->
  depacketise depay first frs =
  Ok (match frs with [] => [] | fr :: frs => piece first fr ++ concat (map (piece false) frs) end).
Proof.
  intros H. revert first. induction H as [|fr frs [Hok Hl] _ IH]; intros first; [done|]. cbn [depacketise].
  pose proof (pld_bytes_whole fr _ eq_refl) as Hp. rewrite (depay_size _ fr 0 first Hok Hl Hp). cbn [mbind res_bind do_length].
  pose proof (blen_nonneg (piece first fr)).
  assert (Hput : put_bytes (replicate (Z.to_nat (blen (piece first fr))) 0) 0 (piece first fr) = Ok (piece first fr)).
  { rewrite put_bytes_front by (rewrite blen_zeros; lia). by rewrite drop_replicate, Nat.sub_diag, app_nil_r. }
  rewrite (depay_fill _ fr (Ptr (replicate (Z.to_nat (blen (piece first fr))) 0) 0) _ _ first Hok Hl Hp (Z.le_refl _) Hput). cbn [mbind res_bind do_status do_data].
  rewrite IH. cbn [mbind res_bind]. do 2 f_equal. by destruct frs.
Qed.

Lemma roundtrip_image mtu f :
  frame_ok mtu f -> mtu < 2 ^ 32 ->
  exists frs, packetise create mtu f = Ok frs /\ Forall (fun fr => 0 < blen fr <= mtu) frs /\
    depacketise depay true frs = Ok (image f).
Proof.
  intros Hf Hm. exists (fragments mtu f). split; [by apply packetise_fragments|].
  destruct (fragments_shape mtu f Hf) as (_ & _ & Hs & _).
  split; [eapply Forall_impl; [|exact Hs]; by intros ? [_ ?]|]. rewrite depacketise_pieces.
  - f_equal. rewrite <- (pieces_image mtu f Hf). destruct (fragments mtu f) as [|fr frs]; [done|]. cbn [imap concat].
    rewrite bool_decide_true by done. do 2 f_equal. unfold compose. rewrite (imap_ext _ (fun _ => piece false)); [by rewrite imap_const|].
    intros i x _. by rewrite bool_decide_false.
  - eapply Forall_impl; [|exact Hs]. intros fr [Hok Hfl]. split; [done|lia].
Qed.
End Roundtrip.

(** ** Properties *)

(** C16. getNextNaluLength, whose search jumps over three bytes at a time, finds what a
    byte-by-byte search finds, on every input: it rejects a stream that does not open with
    a start code of three or four bytes, and otherwise reports the length of that code and
    of the NAL unit after it, which ends at the next start code or at the end of the
    stream.  It never reads outside the stream. *)
Theorem getNextNaluLength_reference p f
  (Hp : pld_bytes p (blen f) = Ok f) (Hlen : blen f < 2 ^ 31) :
  getNextNaluLength (Some p) (blen f) =
  match open_code f with
  | Some (n, l) => Ok (n, blen (split_nalu l).1)
  | None => Err STATUS_RTP_INVALID_NALU
  end.
Proof. by apply getNextNaluLength_spec. Qed.

Lemma getNextNaluLength_reference_witness :
  getNextNaluLength (Some (Ptr [9; 0; 0; 1; 65; 7; 0; 0; 0; 1; 66] 1)) 10 = Ok (3, 2).
Proof. exact (getNextNaluLength_reference (Ptr [9; 0; 0; 1; 65; 7; 0; 0; 0; 1; 66] 1) [0; 0; 1; 65; 7; 0; 0; 0; 1; 66] eq_refl eq_refl). Defined.
