(* ===== verification/H264.v ===== *)
(** * H.264 payload format (src/source/Rtp/Codecs/RtpH264Payloader.c)

    Packetisation of an Annex-B frame into single NAL unit packets, STAP-A aggregates and
    FU-A fragments, and the depacketiser with its frame-start detection.  The module
    implements the [Payloader] interface. *)

From S2P Require Import Prelude Endian RtpPacket Payloaders AnnexB.

(** ** Constants *)

Definition MAX_NALUS_PER_FRAME : Z := 64.
Definition STAP_A_NALU_OVERHEAD : Z := 2.
Definition FU_A_HEADER_SIZE : Z := 2.
Definition FU_B_HEADER_SIZE : Z := 4.
Definition STAP_A_HEADER_SIZE : Z := 1.
Definition STAP_B_HEADER_SIZE : Z := 3.
Definition FU_A_INDICATOR : Z := 28.
Definition FU_B_INDICATOR : Z := 29.
Definition STAP_A_INDICATOR : Z := 24.
Definition STAP_B_INDICATOR : Z := 25.
Definition NAL_TYPE_MASK : Z := 31.
Definition H264_NALU_TYPE_SLICE : Z := 1.
Definition H264_NALU_TYPE_IDR : Z := 5.
Definition H264_NALU_TYPE_SEI : Z := 6.
Definition H264_NALU_TYPE_SPS : Z := 7.
Definition H264_NALU_TYPE_PPS : Z := 8.
Definition H264_NALU_TYPE_AUD : Z := 9.

(** ** Exp-Golomb codes and the start of a frame *)

(** An emulation-prevention byte: 3 after two zeros. *)
Definition isEpb (p : ptr) (byteIdx : Z) : res bool :=
  if 2 <=? byteIdx then
    b ← pld p byteIdx;
    if b =? 3 then
      b1 ← pld p (byteIdx - 1);
      if b1 =? 0 then b2 ← pld p (byteIdx - 2); Ok (b2 =? 0) else Ok false
    else Ok false
  else Ok false.

Definition bitAt (p : ptr) (bitPos : Z) : res Z :=
  b ← pld p (Z.shiftr bitPos 3); Ok (Z.land (Z.shiftr b (7 - Z.land bitPos 7)) 1).

(** Counts the leading zero bits; at most 64 positions. *)
Fixpoint ueZeros (fuel : nat) (p : ptr) (maxBits bitPos zeroBits : Z) : res (Z * Z) :=
  if bitPos <? maxBits then
    match fuel with
    | O => Fault
    | S fuel =>
        e ← isEpb p (Z.shiftr bitPos 3);
        if (e : bool) then ueZeros fuel p maxBits (bitPos + 8) zeroBits else
        bit ← bitAt p bitPos;
        if negb (bit =? 0) then Ok (bitPos, zeroBits)
        else ueZeros fuel p maxBits (bitPos + 1) (zeroBits + 1)
    end
  else Ok (bitPos, zeroBits).

(** Reads the [n] value bits that are left. *)
Fixpoint ueValue (n : nat) (p : ptr) (maxBits bitPos value : Z) : res (option Z) :=
  match n with
  | O => Ok (Some value)
  | S n' =>
      e ← isEpb p (Z.shiftr bitPos 3);
      let bitPos := if (e : bool) then bitPos + 8 else bitPos in
      if e && (maxBits <? bitPos + Z.of_nat n) then Ok None else
      bit ← bitAt p bitPos;
      ueValue n' p maxBits (bitPos + 1) (u32 (Z.lor (Z.shiftl value 1) bit))
  end.

(** [None] for a return value of FALSE. *)
Definition h264ReadUeGolomb (pData : ptr) (nBytes : Z) : res (option Z) :=
  let maxBits := (if nBytes <? 8 then nBytes else 8) * 8 in
  '(bitPos, zeroBits) ← ueZeros 64 pData maxBits 0 0;
  if (maxBits <=? bitPos) || (32 <=? zeroBits) then Ok None else
  let bitPos := bitPos + 1 in
  if maxBits <? bitPos + zeroBits then Ok None else
  v ← ueValue (Z.to_nat zeroBits) pData maxBits bitPos 0;
  Ok (match v with Some value => Some (u32 (Z.shiftl 1 zeroBits - 1 + value)) | None => None end).

Definition isParameterSet (t : Z) : bool :=
  (t =? H264_NALU_TYPE_SPS) || (t =? H264_NALU_TYPE_PPS) || (t =? H264_NALU_TYPE_SEI)
  || (t =? H264_NALU_TYPE_AUD).
Definition isSlice (t : Z) : bool := (t =? H264_NALU_TYPE_SLICE) || (t =? H264_NALU_TYPE_IDR).

Definition h264NaluIsFrameStart (pNalu : ptr) (naluLen : Z) : res bool :=
  if naluLen =? 0 then Ok false else
  b ← pld pNalu 0;
  let naluType := Z.land b NAL_TYPE_MASK in
  if isParameterSet naluType then Ok true
  else if isSlice naluType then
    if naluLen <? 2 then Ok false else
    firstMb ← h264ReadUeGolomb (padd pNalu 1) (naluLen - 1);
    Ok (match firstMb with Some v => v =? 0 | None => false end)
  else Ok false.

(** ** Packetisation *)

Record NaluInfo : Type := { pNalu : ptr; ni_length : Z }.

(** Total size and maximal NRI of the units of an aggregate. *)
Fixpoint stapScan (infos : list NaluInfo) (totalSize maxNri : Z) : res (Z * Z) :=
  match infos with
  | [] => Ok (totalSize, maxNri)
  | ni :: infos =>
      b ← pld (pNalu ni) 0;
      let nri := Z.land b 0x60 in
      stapScan infos (totalSize +32 (STAP_A_NALU_OVERHEAD +32 ni_length ni))
        (if maxNri <? nri then nri else maxNri)
  end.

(** Each unit after its size in two bytes. *)
Fixpoint stapWrite (infos : list NaluInfo) (buf : list Z) (o : Z) : res (list Z) :=
  match infos with
  | [] => Ok buf
  | ni :: infos =>
      buf ← putUnalignedInt16Be buf o (i16 (u16 (ni_length ni)));
      bs ← pld_bytes (pNalu ni) (ni_length ni);
      buf ← put_bytes buf (o + 2) bs;
      stapWrite infos buf (o + 2 + ni_length ni)
  end.

(** The packetisers of a unit return the status, the payload array (absent when only the
    sizes are computed) and the values stored through filledLength and filledSubLenSize. *)
Definition createStapAPayload (infos : list NaluInfo) (out : option PayloadCursor)
    : res (STATUS * option PayloadCursor * Z * Z) :=
  '(totalSize, maxNri) ← stapScan infos STAP_A_HEADER_SIZE 0;
  match out with
  | None => Ok (STATUS_SUCCESS, None, totalSize, 1)
  | Some pc =>
      match pc_subs pc, pc_buffer pc with
      | Some s, Some b =>
          if negb (hasRoom pc totalSize 1) then Ok (STATUS_BUFFER_TOO_SMALL, out, totalSize, 1) else
          buf ← put8 (p_obj b) (p_off b) (Z.lor STAP_A_INDICATOR maxNri);
          buf ← stapWrite infos buf (p_off b + 1);
          subs ← lput (p_obj s) (p_off s) totalSize;
          Ok (STATUS_SUCCESS,
              Some (pc <| pc_buffer := Some (Ptr buf (p_off b)) |> <| pc_subs := Some (Ptr subs (p_off s)) |>),
              totalSize, 1)
      | _, _ => Ok (STATUS_NULL_ARG, out, totalSize, 1)
      end
  end.

(** The stores of a fragment: the body, the indicator and the header with its start or
    end bit. *)
Definition fuAWrites (naluLength naluType naluRefIdc remaining size : Z) (bs : list Z) : list (Z * list Z) :=
  [(FU_A_HEADER_SIZE, bs); (0, [u8 (Z.lor 28 naluRefIdc)]);
   (1, [u8 (Z.lor naluType (if remaining =? naluLength -32 1 then Z.shiftl 1 7
                            else if remaining =? size then Z.shiftl 1 6 else 0))])].

Definition createPayloadFromNalu (mtu : Z) (nalu : ptr) (naluLength : Z) (out : option PayloadCursor)
    : res (STATUS * option PayloadCursor * Z * Z) :=
  let null := match out with
              | Some pc => isNull (pc_subs pc) || isNull (pc_buffer pc)
              | None => false
              end in
  if null then Ok (STATUS_NULL_ARG, out, 0, 0) else
  if negb (FU_A_HEADER_SIZE <? mtu) then Ok (naluDone (STATUS_RTP_INPUT_MTU_TOO_SMALL, out, 0, 0)) else
  b ← pld nalu 0;
  let naluType := Z.land b 0x1F in
  let naluRefIdc := Z.land b 0x60 in
  if naluLength <=? mtu then
    match out with
    | None => Ok (STATUS_SUCCESS, None, naluLength, 1)
    | Some pc =>
        if negb (hasRoom pc naluLength 1) then Ok (STATUS_BUFFER_TOO_SMALL, out, naluLength, 1) else
        bs ← pld_bytes nalu naluLength;
        pc ← storeFragment pc 0 1 [(0, bs)] naluLength;
        Ok (STATUS_SUCCESS, Some pc, naluLength, 1)
    end
  else
    r ← fuLoop FU_A_HEADER_SIZE (fuAWrites naluLength naluType naluRefIdc) (Z.to_nat naluLength) nalu
          (mtu -32 FU_A_HEADER_SIZE) 1 (naluLength -32 1) out 0 0 0;
    Ok (naluDone r).

(** The first pass: the NAL units of the frame, and the bytes that remain; [room] counts
    the entries of naluInfos that are left. *)
Fixpoint collectNalus (room : nat) (nalus : list Z) (cur remain : Z) (infos : list NaluInfo)
    : res (Z * list NaluInfo) :=
  match room with
  | O => Ok (remain, infos)
  | S room =>
      if 0 <? remain then
        '(start, len) ← getNextNaluLength (Some (Ptr nalus cur)) remain;
        let cur := cur + start in
        let remain := remain -32 start in
        if remain =? 0 then Ok (remain, infos) else
        collectNalus room nalus (cur + len) (remain -32 len)
          (infos ++ [{| pNalu := Ptr nalus cur; ni_length := len |}])
      else Ok (remain, infos)
  end.

(** The pending units as a STAP-A packet, or as a single one. *)
Definition flushStap (sizeOnly : bool) (mtu : Z) (pending : list NaluInfo) (pc : PayloadCursor)
    : res (STATUS * PayloadCursor) :=
  match pending with
  | [] => Ok (STATUS_SUCCESS, pc)
  | [ni] => emitPayload sizeOnly pc (createPayloadFromNalu mtu (pNalu ni) (ni_length ni))
  | _ => emitPayload sizeOnly pc (createStapAPayload pending)
  end.

(** The second pass.  [pending] are the stapNaluCount entries from stapStartIndex on,
    [stapSize] is currentStapSize. *)
Fixpoint payloadLoop (sizeOnly : bool) (mtu : Z) (infos pending : list NaluInfo) (stapSize : Z)
    (pc : PayloadCursor) : res (STATUS * PayloadCursor) :=
  match infos with
  | [] => flushStap sizeOnly mtu pending pc
  | ni :: infos =>
      let stapNaluSize := STAP_A_NALU_OVERHEAD +32 ni_length ni in
      if mtu <? ni_length ni then
        '(st, pc) ← flushStap sizeOnly mtu pending pc;
        if STATUS_FAILED st then Ok (st, pc) else
        '(st, pc) ← emitPayload sizeOnly pc (createPayloadFromNalu mtu (pNalu ni) (ni_length ni));
        if STATUS_FAILED st then Ok (st, pc) else
        payloadLoop sizeOnly mtu infos [] STAP_A_HEADER_SIZE pc
      else if stapSize +32 stapNaluSize <=? mtu then
        payloadLoop sizeOnly mtu infos (pending ++ [ni]) (stapSize +32 stapNaluSize) pc
      else
        '(st, pc) ← flushStap sizeOnly mtu pending pc;
        if STATUS_FAILED st then Ok (st, pc) else
        payloadLoop sizeOnly mtu infos [ni] (STAP_A_HEADER_SIZE +32 stapNaluSize) pc
  end.

Definition createPayloadForH264 : RtpPayloadFunc :=
  fun mtu nalus nalusLength buf pLen subs pCnt =>
  match nalus, pLen, pCnt with
  | Some f, Some len, Some cnt =>
      if negb (isNull buf) && isNull subs then payloadEarly STATUS_NULL_ARG buf subs pLen pCnt else
      if negb (FU_A_HEADER_SIZE <? mtu) 
      then payloadEarly STATUS_RTP_INPUT_MTU_TOO_SMALL buf subs pLen pCnt else
      let pc := newCursor buf subs len cnt in
      match collectNalus (Z.to_nat MAX_NALUS_PER_FRAME) f 0 nalusLength [] with
      | Ok (remain, infos) =>
          if (0 <? remain) && (MAX_NALUS_PER_FRAME <=? Z.of_nat (length infos))
          then cursorDone STATUS_INVALID_ARG buf subs pc pLen pCnt else
          '(st, pc) ← payloadLoop (isNull buf) mtu infos [] STAP_A_HEADER_SIZE pc;
          cursorDone st buf subs pc pLen pCnt
      | Err st => cursorDone st buf subs pc pLen pCnt
      | Fault => Fault
      end
  | _, _, _ => payloadEarly STATUS_NULL_ARG buf subs pLen pCnt
  end.

(** ** Depacketisation *)

Definition start4ByteCode : list Z := [0; 0; 0; 1].
Definition start3ByteCode : list Z := [0; 0; 1].

(** The sizing loop over the units of a STAP packet; [cur] is pCurPtr - pRawPacket.
    Every iteration but the last moves past a unit, so [packetLength] iterations are
    enough. *)
Fixpoint stapSizeLoop (fuel : nat) (raw : ptr) (packetLength cur startCodeSize : Z) (first isFrameStart : bool)
    (naluLength : Z) : res (Z * bool) :=
  match fuel with
  | O => Fault
  | S fuel =>
      v ← getUnalignedInt16Be (p_obj raw) (p_off raw + cur);
      let subNaluSize := u16 v in
      let cur := cur + 2 in
      let naluLength := naluLength +32 (subNaluSize +32 (if first then startCodeSize else blen start3ByteCode)) in
      fs ← (if isFrameStart then Ok true else h264NaluIsFrameStart (padd raw cur) subNaluSize);
      let cur := cur + subNaluSize in
      if (0 <? subNaluSize) && (cur <? packetLength)
      then stapSizeLoop fuel raw packetLength cur startCodeSize false fs naluLength
      else Ok (naluLength, fs)
  end.

(** The copying loop; [dst] is pNaluData. *)
Fixpoint stapCopyLoop (fuel : nat) (raw : ptr) (packetLength cur : Z) (startCode : list Z) (first : bool)
    (dst : ptr) (naluLength : Z) : res (list Z * Z) :=
  match fuel with
  | O => Fault
  | S fuel =>
      v ← getUnalignedInt16Be (p_obj raw) (p_off raw + cur);
      let subNaluSize := u16 v in
      let cur := cur + 2 in
      let code := if first then startCode else start3ByteCode in
      data ← put_bytes (p_obj dst) (p_off dst) code;
      bs ← pld_bytes (padd raw cur) subNaluSize;
      data ← put_bytes data (p_off dst + blen code) bs;
      let cur := cur + subNaluSize in
      let dst := Ptr data (p_off dst + blen code + subNaluSize) in
      let naluLength := naluLength +32 blen code +32 subNaluSize in
      if (0 <? subNaluSize) && (cur <? packetLength)
      then stapCopyLoop fuel raw packetLength cur startCode false dst naluLength
      else Ok (data, naluLength)
  end.

(** The first switch: the length without the start code of a single unit or fragment,
    isStartingPacket, isFrameStart, naluType and naluRefIdc. *)
Definition depayMeasure (raw : ptr) (packetLength b0 startCodeSize : Z) : res (Z * bool * bool * Z * Z) :=
  let indicator := Z.land b0 NAL_TYPE_MASK in
  if indicator =? FU_A_INDICATOR then
    b1 ← pld raw 1;
    let naluRefIdc := Z.land b0 0x60 in
    let naluType := Z.land b1 0x1f in
    if negb (Z.land b1 (Z.shiftl 1 7) =? 0) then
      isFrameStart ←
        (if isParameterSet naluType then Ok true
         else if isSlice naluType && (FU_A_HEADER_SIZE <? packetLength) then
           firstMb ← h264ReadUeGolomb (padd raw FU_A_HEADER_SIZE) (packetLength - FU_A_HEADER_SIZE);
           Ok (match firstMb with Some v => v =? 0 | None => false end)
         else Ok false);
      Ok (packetLength -32 FU_A_HEADER_SIZE +32 1, true, isFrameStart, naluType, naluRefIdc)
    else Ok (packetLength -32 FU_A_HEADER_SIZE, false, false, naluType, naluRefIdc)
  else if indicator =? FU_B_INDICATOR then
    Ok (packetLength -32 FU_A_HEADER_SIZE +32 1, false, false, 0, 0)
  else if (indicator =? STAP_A_INDICATOR) || (indicator =? STAP_B_INDICATOR) then
    '(len, fs) ← stapSizeLoop (Z.to_nat packetLength) raw packetLength
                   (if indicator =? STAP_A_INDICATOR then STAP_A_HEADER_SIZE else STAP_B_HEADER_SIZE)
                   startCodeSize true false 0;
    Ok (len, true, fs, 0, 0)
  else
    fs ← h264NaluIsFrameStart raw packetLength;
    Ok (packetLength, true, fs, 0, 0).

Definition depayH264FromRtpPayload : DepayRtpPayloadFunc :=
  fun pRaw packetLength dst pLen pIsStart =>
  let useShortStartCode := match pIsStart with Some b => negb b | None => false end in
  let startCode := if useShortStartCode then start3ByteCode else start4ByteCode in
  let startCodeSize := blen startCode in
  match pRaw, pLen with
  | Some raw, Some cap =>
      if packetLength =? 0 then depayDone STATUS_SUCCESS dst (dstBytes dst) 0 false pLen pIsStart else
      b0 ← pld raw 0;
      let indicator := Z.land b0 NAL_TYPE_MASK in
      let isStap := (indicator =? STAP_A_INDICATOR) || (indicator =? STAP_B_INDICATOR) in
      '(naluLength, isStartingPacket, isFrameStart, naluType, naluRefIdc) ←
        depayMeasure raw packetLength b0 startCodeSize;
      let withCode := isStartingPacket && negb isStap in
      let naluLength := if withCode then naluLength +32 startCodeSize else naluLength in
      match dst with
      | None => depayDone STATUS_SUCCESS dst None naluLength isFrameStart pLen pIsStart
      | Some d =>
          if negb (naluLength <=? cap)
          then depayDone STATUS_BUFFER_TOO_SMALL dst (dstBytes dst) naluLength isFrameStart pLen pIsStart else
          data ← (if withCode : bool then put_bytes (p_obj d) (p_off d) startCode else Ok (p_obj d));
          let o := if withCode then p_off d + startCodeSize else p_off d in
          let naluLength := if withCode then naluLength -32 startCodeSize else naluLength in
          '(data, naluLength) ←
            (if (indicator =? FU_A_INDICATOR) || (indicator =? FU_B_INDICATOR) then
               let hdr := if indicator =? FU_A_INDICATOR then FU_A_HEADER_SIZE else FU_B_HEADER_SIZE in
               if isStartingPacket : bool then
                 bs ← pld_bytes (padd raw hdr) (naluLength -32 1);
                 data ← put_bytes data (o + 1) bs;
                 data ← put8 data o (Z.lor naluRefIdc naluType);
                 Ok (data, naluLength)
               else
                 bs ← pld_bytes (padd raw hdr) naluLength;
                 data ← put_bytes data o bs;
                 Ok (data, naluLength)
             else if isStap then
               stapCopyLoop (Z.to_nat packetLength) raw packetLength
                 (if indicator =? STAP_A_INDICATOR then STAP_A_HEADER_SIZE else STAP_B_HEADER_SIZE)
                 startCode true (Ptr data o) 0
             else
               bs ← pld_bytes raw naluLength;
               data ← put_bytes data o bs;
               Ok (data, naluLength));
          let naluLength := if withCode then naluLength +32 startCodeSize else naluLength in
          depayDone STATUS_SUCCESS dst (Some data) naluLength isFrameStart pLen pIsStart
      end
  | _, _ => depayDone STATUS_NULL_ARG dst (dstBytes dst) 0 false pLen pIsStart
  end.

(** ** The frame-start test reads only the unit *)

Definition agree (p q : ptr) (n : Z) : Prop := forall i, 0 <= i < n -> pld p i = pld q i /\ exists x, pld q i = Ok x.

Lemma agree_add p q n k : 0 <= k -> agree p q n -> agree (padd p k) (padd q k) (n - k).
Proof.
  intros Hk H i Hi. unfold pld, padd in *. cbn [p_obj p_off]. rewrite <- !Z.add_assoc. apply (H (k + i)). lia.
Qed.

Lemma agree_list p f : pld_bytes p (blen f) = Ok f -> agree p (Ptr f 0) (blen f).
Proof.
  intros Hp i Hi. destruct (lookup_lt_is_Some_2 f (Z.to_nat i)) as [x Hx]; [unfold blen in Hi; lia|].
  pose proof (pld_lookup p f _ _ Hp Hx) as E. rewrite Z2Nat.id in E by lia.
  assert (E' : pld (Ptr f 0) i = Ok x).
  { pose proof (pld_lookup (Ptr f 0) f _ _ (pld_bytes_whole f _ eq_refl) Hx) as E'. by rewrite Z2Nat.id in E' by lia. }
  rewrite E, E'. eauto.
Qed.

Section Agree.
Context (p q : ptr) (n : Z).
Hypothesis H : agree p q n.

Lemma isEpb_agree i : 0 <= i < n -> isEpb p i = isEpb q i /\ exists e, isEpb q i = Ok e.
Proof.
  intros Hi. unfold isEpb. destruct (Z.leb_spec 2 i); [|eauto].
  destruct (H i Hi) as [-> [x ->]]. cbn [mbind res_bind]. destruct (x =? 3); [|eauto].
  destruct (H (i - 1) ltac:(lia)) as [-> [x1 ->]]. cbn [mbind res_bind]. destruct (x1 =? 0); [|eauto].
  destruct (H (i - 2) ltac:(lia)) as [-> [x2 ->]]. cbn [mbind res_bind]. eauto.
Qed.

Lemma bitAt_agree i : 0 <= i < 8 * n -> bitAt p i = bitAt q i /\ exists b, bitAt q i = Ok b.
Proof.
  intros Hi. unfold bitAt. rewrite Z.shiftr_div_pow2 by lia. change (2 ^ 3) with 8.
  destruct (H (i / 8)) as [-> [x ->]]; [Z.div_mod_to_equations; lia|]. cbn [mbind res_bind]. eauto.
Qed.

Lemma shiftr3 i : 0 <= i < 8 * n -> 0 <= Z.shiftr i 3 < n.
Proof. intros. rewrite Z.shiftr_div_pow2 by lia. change (2 ^ 3) with 8. Z.div_mod_to_equations; lia. Qed.

Lemma ueZeros_agree fuel maxBits bitPos z :
  0 <= bitPos -> maxBits <= 8 * n -> maxBits - bitPos <= Z.of_nat fuel -> 0 <= z ->
  ueZeros fuel p maxBits bitPos z = ueZeros fuel q maxBits bitPos z /\
  exists b' z', ueZeros fuel q maxBits bitPos z = Ok (b', z') /\ 0 <= b' /\ 0 <= z'.
Proof.
  intros Hb Hm. revert bitPos z Hb. induction fuel as [|fuel IH]; intros bitPos z Hb Hf Hz; cbn [ueZeros];
    (destruct (Z.ltb_spec bitPos maxBits); [|split; [done|]; exists bitPos, z; auto]); [lia|].
  destruct (isEpb_agree (Z.shiftr bitPos 3) (shiftr3 bitPos ltac:(lia))) as [-> [e ->]]. cbn [mbind res_bind].
  destruct e; [apply IH; lia|]. destruct (bitAt_agree bitPos ltac:(lia)) as [-> [b ->]]. cbn [mbind res_bind].
  destruct (b =? 0); cbn [negb]; [apply IH; lia|]. split; [done|]. exists bitPos, z. auto.
Qed.

Lemma ueValue_agree k maxBits bitPos v :
  0 <= bitPos -> maxBits <= 8 * n -> bitPos + Z.of_nat k <= maxBits ->
  ueValue k p maxBits bitPos v = ueValue k q maxBits bitPos v /\ exists r, ueValue k q maxBits bitPos v = Ok r.
Proof.
  intros Hb Hm. revert bitPos v Hb. induction k as [|k IH]; intros bitPos v Hb Hle; cbn [ueValue]; [eauto|].
  destruct (isEpb_agree (Z.shiftr bitPos 3) (shiftr3 bitPos ltac:(lia))) as [-> [e ->]]. cbn [mbind res_bind].
  destruct e; cbn [andb].
  - destruct (Z.ltb_spec maxBits (bitPos + 8 + Z.of_nat (S k))); [eauto|].
    destruct (bitAt_agree (bitPos + 8) ltac:(lia)) as [-> [b ->]]. cbn [mbind res_bind]. apply IH; lia.
  - destruct (bitAt_agree bitPos ltac:(lia)) as [-> [b ->]]. cbn [mbind res_bind]. apply IH; lia.
Qed.

Lemma h264ReadUeGolomb_agree :
  0 <= n -> h264ReadUeGolomb p n = h264ReadUeGolomb q n /\ exists r, h264ReadUeGolomb q n = Ok r.
Proof.
  intros Hn. unfold h264ReadUeGolomb. set (maxBits := (if n <? 8 then n else 8) * 8).
  assert (Hm : 0 <= maxBits <= 8 * n /\ maxBits <= 64) by (unfold maxBits; destruct (Z.ltb_spec n 8); lia).
  destruct (ueZeros_agree 64 maxBits 0 0) as [-> (b' & z' & -> & Hb' & Hz')]; [lia..|]. cbn [mbind res_bind].
  destruct (_ || _); [eauto|]. destruct (Z.ltb_spec maxBits (b' + 1 + z')); [eauto|].
  destruct (ueValue_agree (Z.to_nat z') maxBits (b' + 1) 0) as [-> [r ->]]; [lia..|]. cbn [mbind res_bind]. eauto.
Qed.
End Agree.

Lemma h264NaluIsFrameStart_agree p q n :
  agree p q n -> 0 <= n ->
  h264NaluIsFrameStart p n = h264NaluIsFrameStart q n /\ exists b, h264NaluIsFrameStart q n = Ok b.
Proof.
  intros H Hn. unfold h264NaluIsFrameStart. destruct (Z.eqb_spec n 0); [eauto|].
  destruct (H 0 ltac:(lia)) as [-> [b ->]]. cbn [mbind res_bind]. destruct (isParameterSet _); [eauto|].
  destruct (isSlice _); [|eauto]. destruct (Z.ltb_spec n 2); [eauto|].
  destruct (h264ReadUeGolomb_agree (padd p 1) (padd q 1) (n - 1)) as [-> [r ->]]; [apply agree_add; [lia|done]|lia|].
  cbn [mbind res_bind]. eauto.
Qed.

(** The test on the bytes of a unit. *)
Definition is_frame_start (f : list Z) : bool :=
  match h264NaluIsFrameStart (Ptr f 0) (blen f) with Ok b => b | _ => false end.

Lemma h264NaluIsFrameStart_list p f :
  pld_bytes p (blen f) = Ok f -> h264NaluIsFrameStart p (blen f) = Ok (is_frame_start f).
Proof.
  intros Hp. destruct (h264NaluIsFrameStart_agree p (Ptr f 0) (blen f) (agree_list p f Hp) (blen_nonneg f)) as [-> [b E]].
  unfold is_frame_start. by rewrite E.
Qed.

(** ** The payloads of a frame *)

(** A FU-A fragment. *)
Definition fuA_frag (ref ty : Z) (first last : bool) (c : list Z) : list Z :=
  [u8 (Z.lor 28 ref); u8 (Z.lor ty (if first then 128 else if last then 64 else 0))] ++ c.

(** A unit on its own: whole, or in FU-A fragments when it exceeds the MTU. *)
Definition nalu_frags (mtu : Z) (n : list Z) : list (list Z) :=
  if blen n <=? mtu then [n]
  else match n with
       | [] => []
       | b :: body => fu_frags (fuA_frag (Z.land b 0x60) (Z.land b 0x1F)) true (chunks (Z.to_nat (mtu - 2)) body)
       end.

(** The STAP-A aggregate of units. *)
Definition nri (n : list Z) : Z := Z.land (default 0 (head n)) 0x60.
Definition maxNriOf (m : Z) (ns : list (list Z)) : Z :=
  fold_left (fun m n => if m <? nri n then nri n else m) ns m.
Definition stap_body (ns : list (list Z)) : list Z := concat (map (fun n => be16 (blen n) ++ n) ns).
Definition stap (ns : list (list Z)) : list Z := u8 (Z.lor STAP_A_INDICATOR (maxNriOf 0 ns)) :: stap_body ns.

Definition flush_frags (mtu : Z) (pending : list (list Z)) : list (list Z) :=
  match pending with
  | [] => []
  | [n] => nalu_frags mtu n
  | _ => [stap pending]
  end.

(** The greedy aggregation: [pending] units make up an aggregate of [size] bytes. *)
Fixpoint h264_frags (mtu : Z) (pending : list (list Z)) (size : Z) (ns : list (list Z)) : list (list Z) :=
  match ns with
  | [] => flush_frags mtu pending
  | n :: ns =>
      if mtu <? blen n then flush_frags mtu pending ++ nalu_frags mtu n ++ h264_frags mtu [] 1 ns
      else if size + (2 + blen n) <=? mtu then h264_frags mtu (pending ++ [n]) (size + (2 + blen n)) ns
      else flush_frags mtu pending ++ h264_frags mtu [n] (1 + (2 + blen n)) ns
  end.

(** ** The packetisers compute these payloads *)

Lemma fuA_frag_len ref ty f l c : blen (fuA_frag ref ty f l c) = FU_A_HEADER_SIZE + blen c.
Proof. unfold fuA_frag. rewrite blen_app. done. Qed.

Lemma fuAWrites_covers nl ref ty remaining c :
  covers_fragment (fuAWrites nl ty ref remaining (blen c) c)
    (fuA_frag ref ty (remaining =? nl -32 1) (remaining =? blen c) c).
Proof.
  intros buf o. unfold fuAWrites, fuA_frag. cbn [writeAll]. rewrite <- put_bytes_late. change (blen [_; _]) with 2. unfold FU_A_HEADER_SIZE.
  destruct (put_bytes buf (o + 2) c) as [x| |]; cbn [mbind res_bind]; [|done..]. rewrite Z.add_0_r.
  change [?a; ?b] with ([a] ++ [b]). rewrite <- put_bytes_seq. change (blen [_]) with 1. change (Z.shiftl 1 7) with 128. change (Z.shiftl 1 6) with 64.
  destruct (put_bytes x o _); cbn [mbind res_bind]; [|done..]. by destruct (put_bytes _ _ _).
Qed.

Lemma nalu_frags_bounds mtu n :
  2 < mtu -> n <> [] ->
  total (nalu_frags mtu n) <= 3 * blen n /\ Z.of_nat (length (nalu_frags mtu n)) <= blen n.
Proof.
  intros Hm Hn. assert (0 < blen n) by (destruct n; [done|unfold blen; simpl; lia]). unfold nalu_frags.
  destruct (Z.leb_spec (blen n) mtu); [unfold total; simpl; lia|]. destruct n as [|b body]; [done|].
  pose proof (chunks_count (Z.to_nat (mtu - 2)) ltac:(lia) body). rewrite blen_cons in *.
  rewrite (total_fu_frags 2), length_fu_frags, <- blen_concat, concat_chunks by (lia || apply fuA_frag_len). lia.
Qed.

Lemma createPayloadFromNalu_produces mtu p n :
  2 < mtu < 2 ^ 32 -> n <> [] -> blen n < 2 ^ 30 -> pld_bytes p (blen n) = Ok n ->
  produces (createPayloadFromNalu mtu p (blen n)) (nalu_frags mtu n).
Proof.
  intros Hm Hn Hl Hp out out' Hst. unfold createPayloadFromNalu.
  assert (Hnull : match out with Some pc => isNull (pc_subs pc) || isNull (pc_buffer pc) | None => false end = false)
    by (destruct out; [by eapply out_stored_nonnull|done]). rewrite Hnull. clear Hnull.
  unfold FU_A_HEADER_SIZE. rewrite (proj2 (Z.ltb_lt 2 mtu)) by lia. cbn [negb].
  destruct n as [|b body]; [done|]. pose proof (pld_bytes_cons p b body Hp) as [Hb Hbody]. rewrite Hb. cbn [mbind res_bind].
  unfold nalu_frags in *. destruct (Z.leb_spec (blen (b :: body)) mtu) as [Hle|Hgt].
  - pose proof (out_stored_one _ _ _ Hst) as H1. change (total [b :: body]) with (blen (b :: body) + 0). rewrite Z.add_0_r.
    destruct out as [pc|]; [|by subst out']. destruct H1 as (Hr & pc' & -> & _ & Hw). rewrite Hr. cbn [negb]. rewrite Hp.
    cbn [mbind res_bind]. by rewrite (Hw _ (covers_whole _)).
  - pose proof (nalu_frags_bounds mtu (b :: body) ltac:(lia) ltac:(done)) as [Hb1 Hb2]. unfold nalu_frags in Hb1, Hb2.
    rewrite (proj2 (Z.leb_gt _ _)) in Hb1, Hb2 by lia. rewrite blen_cons in *.
    rewrite (u32_id (mtu - 2)), (u32_id (1 + blen body - 1)) by (unfold is_u32; blen_facts; lia).
    replace (1 + blen body - 1) with (blen body) by lia.
    rewrite (fuLoop_spec 2 (blen body) _ (fuA_frag (Z.land b 0x60) (Z.land b 0x1F))) with (l := body) (first := true) (out' := out');
      try done; try lia; [apply fuA_frag_len|].
    intros rem c. pose proof (fuAWrites_covers (1 + blen body) (Z.land b 0x60) (Z.land b 0x1F) rem c) as Hc.
    rewrite (u32_id (1 + blen body - 1)) in Hc by (unfold is_u32; blen_facts; lia). by replace (1 + blen body - 1) with (blen body) in Hc by lia.
Qed.

(** *** Aggregates *)

Definition reads (ni : NaluInfo) (n : list Z) : Prop :=
  ni_length ni = blen n /\ pld_bytes (pNalu ni) (blen n) = Ok n /\ n <> [].

Lemma stapScan_spec infos ns size m :
  Forall2 reads infos ns -> 0 <= size -> size + blen (stap_body ns) < 2 ^ 32 ->
  stapScan infos size m = Ok (size + blen (stap_body ns), maxNriOf m ns).
Proof.
  intros H. revert size m. induction H as [|ni n infos ns (El & Hp & Hn) _ IH]; intros size m Hs Hmax.
  - cbn. by rewrite Z.add_0_r.
  - cbn [stapScan]. destruct n as [|b t]; [done|]. pose proof (pld_bytes_cons _ _ _ Hp) as [Hb _]. rewrite Hb.
    cbn [mbind res_bind]. unfold stap_body in *. cbn [map concat] in *. rewrite !blen_app, blen_be16 in *. unfold STAP_A_NALU_OVERHEAD.
    pose proof (blen_nonneg (concat (map (fun n => be16 (blen n) ++ n) ns))). pose proof (blen_nonneg (b :: t)).
    rewrite El, (u32_id (2 + blen (b :: t))), u32_id by (unfold is_u32; lia). rewrite IH by lia.
    f_equal. f_equal. lia.
Qed.

Lemma stapWrite_spec infos ns buf o :
  Forall2 reads infos ns -> Forall (fun n => blen n < 2 ^ 16) ns -> 0 <= o <= blen buf ->
  stapWrite infos buf o = put_bytes buf o (stap_body ns).
Proof.
  intros H. revert buf o. induction H as [|ni n infos ns (El & Hp & Hn) _ IH]; intros buf o Hs Ho.
  - cbn. rewrite put_bytes_in by (change (blen []) with 0; lia). cbn [app]. change (blen []) with 0. by rewrite Z.add_0_r, take_drop.
  - inversion Hs as [|? ? Hn16 Hs']. subst. cbn [stapWrite]. pose proof (blen_nonneg n).
    rewrite El, u16_id by (unfold is_u16; lia). rewrite put16Be_bytes, Hp. unfold stap_body. cbn [map concat].
    rewrite <- (assoc_L (++)), <- put_bytes_seq, blen_be16.
    destruct (put_bytes buf o (be16 (blen n))) as [b1| |] eqn:E1; cbn [mbind res_bind]; [|done..].
    rewrite <- put_bytes_seq. destruct (put_bytes b1 (o + 2) n) as [b2| |] eqn:E2; cbn [mbind res_bind]; [|done..].
    apply put_bytes_inv in E1 as (_ & _ & L1). apply put_bytes_inv in E2 as (? & ? & L2).
    rewrite IH; [done|done|lia].
Qed.

Lemma createStapAPayload_produces infos ns :
  Forall2 reads infos ns -> Forall (fun n => blen n < 2 ^ 16) ns -> 1 + blen (stap_body ns) < 2 ^ 32 ->
  produces (createStapAPayload infos) [stap ns].
Proof.
  intros Hr Hs Hm out out' Hst. pose proof (blen_nonneg (stap_body ns)). unfold createStapAPayload, STAP_A_HEADER_SIZE.
  rewrite (stapScan_spec infos ns) by (done || lia). cbn [mbind res_bind].
  pose proof (out_stored_one _ _ _ Hst) as H1. change (total [stap ns]) with (blen (stap ns) + 0). rewrite Z.add_0_r.
  assert (El : blen (stap ns) = 1 + blen (stap_body ns)) by apply blen_cons. rewrite El in *.
  destruct out as [pc|]; [|by subst out']. destruct H1 as (Hroom & pc' & -> & (b & s & buf & subs & Eb & Es & E1 & E2 & ->) & _).
  rewrite Eb, Es, Hroom. cbn [negb]. cbn [concat map] in E1, E2. rewrite app_nil_r in E1. rewrite Z.add_0_r in E1, E2.
  unfold stap in E1. apply (put_bytes_split _ _ [u8 (Z.lor STAP_A_INDICATOR (maxNriOf 0 ns))]) in E1 as (m & E1 & E1').
  change (blen [_]) with 1 in E1'. unfold put8. rewrite E1. cbn [mbind res_bind].
  apply put_bytes_inv in E1 as (? & ? & Lm). change (blen [_]) with 1 in *.
  rewrite (stapWrite_spec infos ns) by (done || lia). rewrite E1'. cbn [mbind res_bind].
  rewrite lput_put_bytes. rewrite El in E2. by rewrite E2.
Qed.

(** *** The second pass *)

Lemma flushStap_spec so mtu pending ps pc pc' :
  2 < mtu < 2 ^ 16 -> Forall2 reads pending ps -> Forall (fun n => blen n <= mtu) ps ->
  1 + blen (stap_body ps) < 2 ^ 32 -> advanced so pc (flush_frags mtu ps) pc' ->
  flushStap so mtu pending pc = Ok (STATUS_SUCCESS, pc').
Proof.
  intros Hm Hr Hs Hmax Ha. pose proof Hr as Hr0. inversion Hr as [|ni n ? ? (El & Hp & Hn) Hr']; subst; cbn [flush_frags flushStap] in *.
  - by apply advanced_nil in Ha as ->.
  - inversion Hr'; subst; inversion Hs as [|? ? Hs1 _]; subst.
    + eapply emitPayload_spec; [|exact Ha]. rewrite El. apply createPayloadFromNalu_produces; [lia|done|lia|done].
    + eapply emitPayload_spec; [|exact Ha]. apply createStapAPayload_produces; [done| |done].
      eapply Forall_impl; [|exact Hs]. cbv beta. lia.
Qed.

Lemma blen_stap_body_app x y : blen (stap_body (x ++ y)) = blen (stap_body x) + blen (stap_body y).
Proof. unfold stap_body. by rewrite map_app, concat_app, blen_app. Qed.
Lemma blen_stap_body_one n : blen (stap_body [n]) = 2 + blen n.
Proof. unfold stap_body. cbn [map concat]. rewrite app_nil_r, blen_app, blen_be16. done. Qed.

Lemma payloadLoop_spec so mtu infos ns pending ps pc pc' :
  2 < mtu < 2 ^ 16 -> Forall2 reads infos ns -> Forall (fun n => blen n < 2 ^ 30) ns ->
  Forall2 reads pending ps -> Forall (fun n => blen n <= mtu) ps -> 1 + blen (stap_body ps) <= mtu + 3 ->
  advanced so pc (h264_frags mtu ps (1 + blen (stap_body ps)) ns) pc' ->
  payloadLoop so mtu infos pending (1 + blen (stap_body ps)) pc = Ok (STATUS_SUCCESS, pc').
Proof.
  intros Hm Hr. revert pending ps pc.
  induction Hr as [|ni n infos ns Hni Hr IH]; intros pending ps pc Hns Hpr Hps Hsz Ha; cbn [payloadLoop h264_frags] in *.
  - apply (flushStap_spec so mtu pending ps); try done. lia.
  - inversion Hns as [|? ? Hn30 Hns']. subst. pose proof Hni as (El & Hp & Hne). pose proof (blen_nonneg n). pose proof (blen_nonneg (stap_body ps)).
    rewrite El. unfold STAP_A_NALU_OVERHEAD, STAP_A_HEADER_SIZE.
    rewrite (u32_id (2 + blen n)) by (unfold is_u32; lia). destruct (Z.ltb_spec mtu (blen n)) as [Hbig|Hsmall].
    + apply advanced_app in Ha as (pc1 & Ha1 & Ha). apply advanced_app in Ha as (pc2 & Ha2 & Ha3).
      rewrite (flushStap_spec so mtu pending ps pc pc1) by (done || lia). cbn [mbind res_bind].
      change (STATUS_FAILED STATUS_SUCCESS) with false. cbv match.
      rewrite (emitPayload_spec so pc1 _ _ pc2 (createPayloadFromNalu_produces mtu _ n ltac:(lia) Hne Hn30 Hp) Ha2). cbn [mbind res_bind].
      change (STATUS_FAILED STATUS_SUCCESS) with false. cbv match. apply (IH [] []); try done. change (blen (stap_body [])) with 0. lia.
    + rewrite (u32_id (_ + (2 + blen n))) by (unfold is_u32; lia).
      destruct (Z.leb_spec (1 + blen (stap_body ps) + (2 + blen n)) mtu) as [Hfit|Hno].
      * assert (Esz : 1 + blen (stap_body ps) + (2 + blen n) = 1 + blen (stap_body (ps ++ [n])))
          by (rewrite blen_stap_body_app, blen_stap_body_one; lia).
        rewrite Esz in *. apply IH; try done; [by apply Forall2_app; [|constructor]|by apply Forall_app; split; [|constructor]|lia].
      * apply advanced_app in Ha as (pc1 & Ha1 & Ha2).
        rewrite (flushStap_spec so mtu pending ps pc pc1) by (done || lia). cbn [mbind res_bind].
        change (STATUS_FAILED STATUS_SUCCESS) with false. cbv match.
        rewrite (u32_id (1 + (2 + blen n))) by (unfold is_u32; lia). rewrite <- blen_stap_body_one in *.
        apply IH; try done; [by constructor|by constructor|]. rewrite blen_stap_body_one. lia.
Qed.

(** *** The first pass *)

Lemma collectNalus_spec room obj cur f ns acc :
  nalusOf f = Some ns -> (length ns < room)%nat -> blen f < 2 ^ 31 ->
  pld_bytes (Ptr obj cur) (blen f) = Ok f -> Forall (fun n => n <> []) ns ->
  exists infos, collectNalus room obj cur (blen f) acc = Ok (0, acc ++ infos) /\ Forall2 reads infos ns.
Proof.
  revert cur f ns acc. induction room as [|room IH]; intros cur f ns acc Hn Hl Hf Hp Hne; [lia|]. cbn [collectNalus].
  destruct f as [|x f'] eqn:Ef.
  - injection Hn as <-. exists []. rewrite app_nil_r. by split.
  - rewrite <- Ef in *. assert (Hpos : 0 < blen f) by (rewrite Ef, blen_cons; blen_facts; lia).
    rewrite (proj2 (Z.ltb_lt 0 _)) by done.
    destruct (next_nalu obj cur f ns Hn ltac:(by subst f) Hf Hp) as (k & n & r & En & Hk & Hfl & Hcase). rewrite En.
    cbn [mbind res_bind]. blen_facts. rewrite (u32_id (blen f - k)) by (unfold is_u32; lia).
    replace (blen f - k) with (blen n + blen r) by lia.
    destruct Hcase as [(-> & -> & ->)|(Hnz & ns' & -> & Hr & Hpn & Hpr)].
    + exists []. rewrite app_nil_r. by split.
    + rewrite (proj2 (Z.eqb_neq _ 0)) by done. pose proof (Forall_inv Hne) as Hn0. pose proof (Forall_inv_tail Hne) as Hne'. cbv beta in Hn0.
      rewrite (u32_id (blen n + blen r - blen n)) by (unfold is_u32; lia). replace (blen n + blen r - blen n) with (blen r) by lia.
      destruct (IH (cur + k + blen n) r ns' (acc ++ [{| pNalu := Ptr obj (cur + k); ni_length := blen n |}]))
        as (infos & Ei & Hi); try done; [simpl in Hl; lia|lia|].
      eexists. rewrite Ei, <- (assoc_L (++)). split; [done|]. constructor; [|done]. split_and!; done.
Qed.
