(* ===== verification/H264Format.v ===== *)
(** * H.264: the payloads of a frame and their depacketisation

    What each payload means to the depacketiser, and that the pieces it returns for the
    payloads of a frame make up the frame's NAL units again, each after a start code.
    The two sides together are an instance of [Payloader]. *)

From S2P Require Import Prelude Endian RtpPacket Payloaders AnnexB H264.

(** ** The header bytes *)

(** Types of units that are sent as they are: neither aggregates nor fragments. *)
Definition single_type (t : Z) : bool :=
  negb ((t =? FU_A_INDICATOR) || (t =? FU_B_INDICATOR) || (t =? STAP_A_INDICATOR) || (t =? STAP_B_INDICATOR)).

Definition fu_header (b : Z) (first last : bool) : Z :=
  u8 (Z.lor (Z.land b 0x1F) (if first then 128 else if last then 64 else 0)).

(** What the depacketiser reads from the two header bytes of a fragment. *)
Definition fu_bits_ok (b : Z) (first last : bool) : bool :=
  let i := u8 (Z.lor 28 (Z.land b 0x60)) in let h := fu_header b first last in
  (Z.land i NAL_TYPE_MASK =? FU_A_INDICATOR) && (eqb (Z.land h (Z.shiftl 1 7) =? 0) (negb first)) &&
  (Z.lor (Z.land i 0x60) (Z.land h 0x1f) =? b) && (Z.land h 0x1f =? Z.land b 0x1f).

Lemma fu_header_bits b first last :
  0 <= b < 128 ->
  let i := u8 (Z.lor 28 (Z.land b 0x60)) in let h := fu_header b first last in
  Z.land i NAL_TYPE_MASK = FU_A_INDICATOR /\
  (Z.land h (Z.shiftl 1 7) =? 0) = negb first /\
  Z.lor (Z.land i 0x60) (Z.land h 0x1f) = b /\ Z.land h 0x1f = Z.land b 0x1f /\ is_u8 i /\ is_u8 h.
Proof.
  intros Hb i h. assert (H : fu_bits_ok b first last = true).
  { revert b Hb i h. destruct first, last; intros b Hb _ _;
      [apply (range_forall (fun b => fu_bits_ok b true true) 128)|apply (range_forall (fun b => fu_bits_ok b true false) 128)
      |apply (range_forall (fun b => fu_bits_ok b false true) 128)|apply (range_forall (fun b => fu_bits_ok b false false) 128)];
      try done; by vm_compute. }
  unfold fu_bits_ok in H. cbv zeta in H. fold i h in H.
  apply andb_prop in H as [[[H1%Z.eqb_eq H2%eqb_prop]%andb_prop H3%Z.eqb_eq]%andb_prop H4%Z.eqb_eq].
  split_and!; try done; apply u8_range.
Qed.

Definition is_nri (x : Z) : bool := existsb (Z.eqb x) [0; 0x20; 0x40; 0x60].

Lemma nri_range n : is_u8 (default 0 (head n)) -> is_nri (nri n) = true.
Proof. intros H. apply (range_forall (fun b => is_nri (Z.land b 0x60)) 256); [by vm_compute|exact H]. Qed.

Lemma maxNriOf_range m ns :
  Forall (fun n => is_u8 (default 0 (head n))) ns -> is_nri m = true -> is_nri (maxNriOf m ns) = true.
Proof.
  intros H. revert m. unfold maxNriOf. induction H as [|n ns Hn _ IH]; intros m Hm; cbn [fold_left]; [done|].
  apply IH. destruct (m <? nri n); [by apply nri_range|done].
Qed.

(** The type of an aggregate's header. *)
Lemma stap_header ns :
  Forall (fun n => is_u8 (default 0 (head n))) ns ->
  let i := u8 (Z.lor STAP_A_INDICATOR (maxNriOf 0 ns)) in Z.land i NAL_TYPE_MASK = STAP_A_INDICATOR /\ is_u8 i.
Proof.
  intros H i. assert (Hm : is_nri (maxNriOf 0 ns) = true) by (by apply maxNriOf_range).
  split; [|apply u8_range]. unfold i, is_nri in *. cbn [existsb] in Hm. rewrite !orb_true_iff, !Z.eqb_eq in Hm.
  by destruct Hm as [->|[->|[->|[->|]]]].
Qed.

(** ** Meaning of the payloads *)

Definition start_code (first : bool) : list Z := if first then start4ByteCode else start3ByteCode.

(** The units of an aggregate. *)
Fixpoint stap_units (fuel : nat) (t : list Z) : list (list Z) :=
  match fuel, t with
  | S fuel, hi :: lo :: rest =>
      let k := Z.to_nat (256 * hi + lo) in
      take k rest ::
        (if bool_decide (k = 0%nat) || bool_decide (drop k rest = []) then [] else stap_units fuel (drop k rest))
  | _, _ => []
  end.

(** Units, each after its start code; the first one's is long at the start of a frame. *)
Definition units_image (first : bool) (ns : list (list Z)) : list Z :=
  match ns with
  | [] => []
  | n :: ns => start_code first ++ n ++ concat (map (fun n => start3ByteCode ++ n) ns)
  end.

Definition fragment_type (fr : list Z) : Z := Z.land (default 0 (head fr)) NAL_TYPE_MASK.

(** What the depacketiser returns for a payload. *)
Definition h264_piece (first : bool) (fr : list Z) : list Z :=
  if fragment_type fr =? FU_A_INDICATOR then
    match fr with
    | i :: h :: c =>
        if negb (Z.land h (Z.shiftl 1 7) =? 0)
        then start_code first ++ u8 (Z.lor (Z.land i 0x60) (Z.land h 0x1f)) :: c else c
    | _ => []
    end
  else if fragment_type fr =? STAP_A_INDICATOR then units_image first (stap_units (length fr) (tail fr))
  else start_code first ++ fr.

(** The first macroblock of a slice, read from the bytes after the unit's header. *)
Definition first_mb_zero (body : list Z) : bool :=
  match h264ReadUeGolomb (Ptr body 0) (blen body) with Ok (Some v) => v =? 0 | _ => false end.

Definition h264_starts (fr : list Z) : bool :=
  if fragment_type fr =? FU_A_INDICATOR then
    match fr with
    | i :: h :: c =>
        negb (Z.land h (Z.shiftl 1 7) =? 0)
        && (isParameterSet (Z.land h 0x1f) || (isSlice (Z.land h 0x1f) && negb (bool_decide (c = [])) && first_mb_zero c))
    | _ => false
    end
  else if fragment_type fr =? STAP_A_INDICATOR then existsb is_frame_start (stap_units (length fr) (tail fr))
  else is_frame_start fr.

(** A unit the format carries. *)
Definition nalu_ok (n : list Z) : Prop :=
  exists b t, n = b :: t /\ 0 <= b < 128 /\ single_type (Z.land b NAL_TYPE_MASK) = true.

(** A payload of the packetiser. *)
Inductive payload_ok : list Z -> Prop :=
| ok_single n : nalu_ok n -> payload_ok n
| ok_fu b first last c : 0 <= b < 128 -> c <> [] ->
    payload_ok (u8 (Z.lor 28 (Z.land b 0x60)) :: fu_header b first last :: c)
| ok_stap ns : ns <> [] -> Forall nalu_ok ns -> payload_ok (stap ns).

Definition h264_frag_ok (fr : list Z) : Prop := payload_ok fr /\ blen fr < 2 ^ 16.

(** ** Aggregates and their units *)

#[local] Transparent be16.
Lemma be16_pair v : is_u16 v -> exists hi lo, be16 v = [hi; lo] /\ 256 * hi + lo = v.
Proof.
  intros Hv. exists (u8 (Z.shiftr v 8)), (u8 v). split; [done|]. rewrite Z.shiftr_div_pow2 by lia. width_lia.
Qed.
#[local] Opaque be16.

Lemma stap_units_body fuel ns :
  Forall (fun n => n <> [] /\ blen n < 2 ^ 16) ns -> (length (stap_body ns) <= fuel)%nat -> ns <> [] ->
  stap_units fuel (stap_body ns) = ns.
Proof.
  intros H. revert fuel. induction H as [|n ns [Hn Hl] _ IH]; intros fuel Hf Hne; [done|].
  unfold stap_body in *. cbn [map concat] in *. rewrite <- (assoc_L (++)) in *.
  destruct (be16_pair (blen n)) as (hi & lo & Eb & Ev); [unfold is_u16; blen_facts; lia|]. rewrite Eb in *.
  destruct fuel as [|fuel]; [simpl in Hf; lia|]. cbn [app stap_units]. rewrite Ev, <- length_blen, take_app_length, drop_app_length.
  rewrite (bool_decide_false (length n = 0%nat)) by (by destruct n). cbn [orb]. f_equal.
  destruct ns as [|n' ns]; [done|]. rewrite bool_decide_false.
  - apply IH; [|done]. cbn [app length] in Hf. rewrite length_app in Hf. lia.
  - cbn [map concat]. intros E. apply (f_equal blen) in E. rewrite !blen_app, blen_be16 in E. blen_facts. unfold blen in E at 4. simpl in E. lia.
Qed.

Lemma nalu_ok_type n :
  nalu_ok n -> (fragment_type n =? FU_A_INDICATOR) = false /\ (fragment_type n =? STAP_A_INDICATOR) = false /\
    single_type (fragment_type n) = true.
Proof.
  intros (b & t & -> & Hb & Hs). change (fragment_type (b :: t)) with (Z.land b NAL_TYPE_MASK).
  split_and!; [| |done]; unfold single_type in Hs; destruct (_ =? FU_A_INDICATOR), (_ =? STAP_A_INDICATOR); try done;
    by destruct (_ =? FU_B_INDICATOR).
Qed.

Lemma nalu_ok_head n : nalu_ok n -> is_u8 (default 0 (head n)) /\ n <> [].
Proof. intros (b & t & -> & Hb & _). split; [|done]. unfold is_u8. simpl. lia. Qed.

Lemma stap_type ns : Forall nalu_ok ns -> fragment_type (stap ns) = STAP_A_INDICATOR.
Proof.
  intros H. apply (stap_header ns). eapply Forall_impl; [|exact H]. intros n Hn. by apply nalu_ok_head.
Qed.

Lemma nalu_below n ns : blen (stap_body ns) < 2 ^ 16 -> n ∈ ns -> blen n < 2 ^ 16.
Proof.
  intros H. induction ns as [|m ns IH]; [by intros ?%not_elem_of_nil|]. unfold stap_body in H. cbn [map concat] in H.
  rewrite !blen_app, blen_be16 in H. fold (stap_body ns) in H. blen_facts. intros [->|Hn]%elem_of_cons; [lia|]. apply IH; [lia|done].
Qed.

Lemma stap_units_stap ns :
  ns <> [] -> Forall nalu_ok ns -> blen (stap ns) < 2 ^ 16 ->
  stap_units (length (stap ns)) (tail (stap ns)) = ns.
Proof.
  intros Hne H Hl. unfold stap in *. cbn [tail length]. rewrite blen_cons in Hl. apply stap_units_body; [|lia|done].
  rewrite Forall_forall in H |- *. intros n Hn. split; [by apply nalu_ok_head, H|].
  apply (nalu_below n ns); [blen_facts; lia|by apply list_elem_of_In].
Qed.

(** ** The pieces of a frame *)

(** The pieces of consecutive payloads, the first of them at the start of a frame or not. *)
Definition pieces (first : bool) (frs : list (list Z)) : list Z :=
  match frs with [] => [] | fr :: frs => h264_piece first fr ++ concat (map (h264_piece false) frs) end.

Lemma pieces_false frs : pieces false frs = concat (map (h264_piece false) frs).
Proof. by destruct frs. Qed.

Lemma pieces_app first x y :
  pieces first (x ++ y) = pieces first x ++ pieces (first && bool_decide (x = [])) y.
Proof.
  destruct x as [|fr x]; cbn [app pieces]; [by rewrite bool_decide_true, andb_true_r by done|].
  rewrite bool_decide_false, andb_false_r, pieces_false by done. by rewrite map_app, concat_app, (assoc_L (++)).
Qed.

Lemma units_image_app first x y :
  units_image first (x ++ y) = units_image first x ++ units_image (first && bool_decide (x = [])) y.
Proof.
  destruct x as [|n x]; cbn [app units_image]; [by rewrite bool_decide_true, andb_true_r by done|].
  rewrite bool_decide_false, andb_false_r by done. rewrite map_app, concat_app, <- !(assoc_L (++)). do 3 f_equal.
  destruct y; [done|]. cbn [map concat units_image start_code]. by rewrite <- !(assoc_L (++)).
Qed.

Lemma piece_fu f b first last c :
  0 <= b < 128 ->
  h264_piece f (u8 (Z.lor 28 (Z.land b 0x60)) :: fu_header b first last :: c) =
  if first then start_code f ++ b :: c else c.
Proof.
  intros Hb. destruct (fu_header_bits b first last Hb) as (Ht & Hs & Hbb & _). unfold h264_piece.
  change (fragment_type (u8 (Z.lor 28 (Z.land b 0x60)) :: fu_header b first last :: c))
    with (Z.land (u8 (Z.lor 28 (Z.land b 0x60))) NAL_TYPE_MASK).
  rewrite Ht, Z.eqb_refl, Hs, negb_involutive, Hbb. destruct first; [|done]. by rewrite u8_id by (unfold is_u8; lia).
Qed.

Lemma fuA_pieces b cs :
  0 <= b < 128 ->
  concat (map (h264_piece false) (fu_frags (fuA_frag (Z.land b 0x60) (Z.land b 0x1F)) false cs)) = concat cs.
Proof.
  intros Hb. induction cs as [|c cs IH]; [done|]. cbn [fu_frags map concat]. rewrite IH. f_equal.
  exact (piece_fu false b false (bool_decide (cs = [])) c Hb).
Qed.

Lemma nalu_pieces first mtu n :
  nalu_ok n -> 2 < mtu -> pieces first (nalu_frags mtu n) = start_code first ++ n.
Proof.
  intros Hn Hm. unfold nalu_frags. destruct (Z.leb_spec (blen n) mtu) as [Hle|Hgt].
  - destruct (nalu_ok_type n Hn) as (H1 & H2 & _). cbn [pieces map concat]. unfold h264_piece. rewrite H1, H2. by rewrite app_nil_r.
  - destruct Hn as (b & t & -> & Hb & _). rewrite blen_cons in Hgt. blen_facts.
    assert (Ht : t <> []) by (intros ->; change (blen []) with 0 in Hgt; lia).
    rewrite <- (concat_chunks (Z.to_nat (mtu - 2)) ltac:(lia) t) at 2.
    rewrite (chunks_step (Z.to_nat (mtu - 2)) ltac:(lia) t Ht). cbn [fu_frags pieces concat]. rewrite fuA_pieces by done.
    etrans; [apply (f_equal (fun x => x ++ _)); exact (piece_fu first b true false _ Hb)|]. cbn match. by rewrite <- (assoc_L (++)).
Qed.

Lemma flush_pieces first mtu ps :
  Forall nalu_ok ps -> 2 < mtu -> (length ps <= 1)%nat \/ blen (stap ps) < 2 ^ 16 ->
  pieces first (flush_frags mtu ps) = units_image first ps.
Proof.
  intros H Hm Hsz. destruct ps as [|n [|n' ps]]; [done| |].
  - cbn [flush_frags units_image map concat]. rewrite app_nil_r. apply nalu_pieces; [by inversion H|done].
  - destruct Hsz as [Hsz|Hsz]; [simpl in Hsz; lia|]. set (ns := n :: n' :: ps) in *.
    change (pieces first [stap ns] = units_image first ns). cbn [pieces map concat]. rewrite app_nil_r. unfold h264_piece.
    rewrite stap_type by done. change (STAP_A_INDICATOR =? FU_A_INDICATOR) with false. rewrite Z.eqb_refl.
    by rewrite stap_units_stap by done.
Qed.

Lemma flush_nil mtu ps : 2 < mtu -> Forall nalu_ok ps -> flush_frags mtu ps = [] <-> ps = [].
Proof.
  intros Hm H. split; [|by intros ->]. destruct ps as [|n [|n' ps]]; [done| |done]. cbn [flush_frags]. unfold nalu_frags.
  destruct (Z.leb_spec (blen n) mtu); [done|]. inversion H as [|? ? (b & t & -> & _) _]. subst. rewrite blen_cons in *.
  rewrite (chunks_step (Z.to_nat (mtu - 2)) ltac:(lia) t); [done|]. intros ->. change (blen []) with 0 in *. lia.
Qed.

Lemma nalu_frags_nonempty mtu n : 2 < mtu -> nalu_ok n -> nalu_frags mtu n <> [].
Proof. intros Hm Hn E. pose proof (flush_nil mtu [n] Hm (Forall_cons_2 _ _ _ Hn (Forall_nil_2 _))) as [H _]. by apply H in E. Qed.

(** Pending units fill at most one aggregate. *)
Definition pending_fits (mtu : Z) (ps : list (list Z)) : Prop :=
  (length ps <= 1)%nat \/ 1 + blen (stap_body ps) <= mtu.

Lemma pending_stap mtu ps : mtu < 2 ^ 16 -> pending_fits mtu ps -> (length ps <= 1)%nat \/ blen (stap ps) < 2 ^ 16.
Proof. intros Hm [H|H]; [by left|right]. unfold stap. rewrite blen_cons. lia. Qed.

(** The payloads of a frame carry its units in order. *)
Lemma h264_pieces first mtu ps ns :
  2 < mtu < 2 ^ 16 -> Forall nalu_ok ps -> Forall nalu_ok ns -> pending_fits mtu ps ->
  pieces first (h264_frags mtu ps (1 + blen (stap_body ps)) ns) = units_image first (ps ++ ns).
Proof.
  intros Hm Hps Hns. revert first ps Hps. induction Hns as [|n ns Hn Hns IH]; intros first ps Hps Hfit; cbn [h264_frags].
  - rewrite app_nil_r. apply flush_pieces; [done|lia|]. apply (pending_stap mtu); [lia|done].
  - assert (Hfl : pieces first (flush_frags mtu ps) = units_image first ps)
      by (apply flush_pieces; [done|lia|]; apply (pending_stap mtu); [lia|done]).
    assert (Hfst : bool_decide (flush_frags mtu ps = []) = bool_decide (ps = []))
      by (apply bool_decide_ext, flush_nil; [lia|done]).
    assert (Hone : Forall nalu_ok [n]) by by constructor.
    destruct (mtu <? blen n).
    + rewrite !pieces_app, Hfl, Hfst, nalu_pieces by (done || lia). rewrite units_image_app. f_equal.
      rewrite (bool_decide_false (nalu_frags mtu n = [])), andb_false_r by (apply nalu_frags_nonempty; [lia|done]).
      change 1 with (1 + blen (stap_body [])). rewrite (IH false []); [|constructor|left; simpl; lia]. cbn [app].
      change (n :: ns) with ([n] ++ ns). rewrite units_image_app. cbn [units_image map concat]. rewrite app_nil_r.
      by rewrite (bool_decide_false ([n] = [])), andb_false_r by done.
    + destruct (Z.leb_spec (1 + blen (stap_body ps) + (2 + blen n)) mtu) as [Hle|Hgt].
      * assert (Esz : 1 + blen (stap_body ps) + (2 + blen n) = 1 + blen (stap_body (ps ++ [n])))
          by (rewrite blen_stap_body_app, blen_stap_body_one; lia).
        rewrite Esz, IH; [by rewrite <- (assoc_L (++))|by apply Forall_app; split|right; lia].
      * rewrite pieces_app, Hfl, Hfst. rewrite units_image_app. f_equal. rewrite <- blen_stap_body_one.
        by rewrite IH by (done || left; simpl; lia).
Qed.

(** ** Shape and size of the payloads *)

Lemma h264_frags_forall (P Q : list Z -> Prop) mtu ps ns :
  (forall n, Q n -> Forall P (nalu_frags mtu n)) ->
  (forall ps, Forall Q ps -> ps <> [] -> 1 + blen (stap_body ps) <= mtu -> P (stap ps)) ->
  Forall Q ps -> Forall Q ns -> pending_fits mtu ps ->
  Forall P (h264_frags mtu ps (1 + blen (stap_body ps)) ns).
Proof.
  intros Hn Hs Hps Hns. assert (Hflush : forall ps, Forall Q ps -> pending_fits mtu ps -> Forall P (flush_frags mtu ps)).
  { intros [|n [|n' l]] HQ Hf; cbn [flush_frags]; [constructor|by apply Hn; inversion HQ|].
    constructor; [|constructor]. apply Hs; [done|done|]. destruct Hf as [Hf|Hf]; [simpl in Hf; lia|done]. }
  revert ps Hps. induction Hns as [|n ns Hqn Hns IH]; intros ps Hps Hfit; cbn [h264_frags]; [by apply Hflush|].
  destruct (mtu <? blen n).
  - apply Forall_app. split; [by apply Hflush|]. apply Forall_app. split; [by apply Hn|].
    apply (IH []); [constructor|left; simpl; lia].
  - destruct (Z.leb_spec (1 + blen (stap_body ps) + (2 + blen n)) mtu) as [Hle|Hgt].
    + assert (Esz : 1 + blen (stap_body ps) + (2 + blen n) = 1 + blen (stap_body (ps ++ [n])))
        by (rewrite blen_stap_body_app, blen_stap_body_one; lia).
      rewrite Esz. apply IH; [by apply Forall_app; split; [|constructor]|right; lia].
    + apply Forall_app. split; [by apply Hflush|]. rewrite <- blen_stap_body_one.
      apply IH; [by constructor|left; simpl; lia].
Qed.

Lemma fuA_shape b mtu first cs :
  0 <= b < 128 -> Forall (fun c => 0 < blen c <= mtu - 2) cs ->
  Forall (fun fr => payload_ok fr /\ 0 < blen fr <= mtu) (fu_frags (fuA_frag (Z.land b 0x60) (Z.land b 0x1F)) first cs).
Proof.
  intros Hb. apply fu_frags_forall. intros f l c Hc. rewrite fuA_frag_len. unfold FU_A_HEADER_SIZE. split; [|lia].
  apply (ok_fu b f l); [done|]. intros ->. change (blen []) with 0 in Hc. lia.
Qed.

Lemma nalu_shape mtu n :
  2 < mtu -> nalu_ok n -> Forall (fun fr => payload_ok fr /\ 0 < blen fr <= mtu) (nalu_frags mtu n).
Proof.
  intros Hm Hn. unfold nalu_frags. pose proof (nalu_ok_head n Hn) as [_ Hne].
  assert (0 < blen n) by (destruct n; [done|unfold blen; simpl; lia]). destruct (Z.leb_spec (blen n) mtu) as [Hle|Hgt].
  - constructor; [|constructor]. split; [by constructor|lia].
  - destruct Hn as (b & t & -> & Hb & _). apply fuA_shape; [done|].
    eapply Forall_impl; [|apply chunks_size; lia]. cbv beta. lia.
Qed.

Lemma h264_shape mtu ns :
  2 < mtu -> Forall nalu_ok ns ->
  Forall (fun fr => payload_ok fr /\ 0 < blen fr <= mtu) (h264_frags mtu [] 1 ns).
Proof.
  intros Hm Hns. apply (h264_frags_forall _ nalu_ok mtu [] ns); [by intros; apply nalu_shape| |constructor|done|left; simpl; lia].
  intros ps Hps Hne Hsz. split; [by constructor|]. unfold stap. rewrite blen_cons. blen_facts. lia.
Qed.

Lemma h264_bytes mtu ns :
  2 < mtu -> Forall bytes_ok ns -> Forall bytes_ok (h264_frags mtu [] 1 ns).
Proof.
  intros Hm Hns. apply (h264_frags_forall _ bytes_ok mtu [] ns); [| |constructor|done|left; simpl; lia].
  - intros n Hn. unfold nalu_frags. destruct (blen n <=? mtu); [by constructor|]. destruct n as [|b t]; [constructor|].
    inversion Hn as [|? ? _ Ht]. subst. pose proof (chunks_bytes (Z.to_nat (mtu - 2)) ltac:(lia) t Ht) as Hc.
    revert Hc. apply fu_frags_forall. intros f l c Hc. constructor; [apply u8_range|]. constructor; [apply u8_range|done].
  - intros ps Hps _ _. constructor; [apply u8_range|]. unfold stap_body. apply Forall_concat, List.Forall_map.
    eapply Forall_impl; [|exact Hps]. intros n Hn. apply bytes_ok_app. split; [apply be16_ok|done].
Qed.

(** *** Sizes *)

Lemma stap_body_total ps : blen (stap_body ps) = total ps + 2 * Z.of_nat (length ps).
Proof.
  induction ps as [|n ps IH]; [done|]. unfold stap_body in *. cbn [map concat length].
  rewrite !blen_app, blen_be16, IH, total_cons. lia.
Qed.

Lemma flush_bounds mtu ps :
  2 < mtu -> Forall (fun n => n <> []) ps ->
  total (flush_frags mtu ps) <= 4 * total ps /\ Z.of_nat (length (flush_frags mtu ps)) <= total ps.
Proof.
  intros Hm H. pose proof (count_total ps H) as Hc. destruct ps as [|n [|n' ps]]; [unfold total; simpl; lia| |].
  - inversion H. subst. cbn [flush_frags]. pose proof (nalu_frags_bounds mtu n Hm ltac:(done)) as [? ?].
    unfold total in *. cbn [sumBy] in *. blen_facts. lia.
  - set (l := n :: n' :: ps) in *. change (flush_frags mtu l) with [stap l]. rewrite total_cons. change (total []) with 0.
    unfold stap. rewrite blen_cons, stap_body_total.
    assert (2 <= length l)%nat by (unfold l; simpl; lia). change (length [_]) with 1%nat. lia.
Qed.

Lemma h264_bounds mtu ps sz ns :
  2 < mtu -> Forall (fun n => n <> []) ps -> Forall (fun n => n <> []) ns ->
  total (h264_frags mtu ps sz ns) <= 4 * (total ps + total ns) /\
  Z.of_nat (length (h264_frags mtu ps sz ns)) <= total ps + total ns.
Proof.
  intros Hm Hps Hns. revert ps sz Hps. induction Hns as [|n ns Hn Hns IH]; intros ps sz Hps; cbn [h264_frags].
  - change (total []) with 0. rewrite Z.add_0_r. by apply flush_bounds.
  - pose proof (flush_bounds mtu ps Hm Hps) as [Hf1 Hf2]. pose proof (nalu_frags_bounds mtu n Hm Hn) as [Hn1 Hn2]. blen_facts.
    rewrite total_cons. destruct (mtu <? blen n).
    + destruct (IH [] 1 (Forall_nil_2 _)) as [I1 I2]. rewrite !total_app, !length_app. change (total []) with 0 in *. lia.
    + destruct (sz + (2 + blen n) <=? mtu).
      * destruct (IH (ps ++ [n]) (sz + (2 + blen n))) as [I1 I2]; [by apply Forall_app; split; [|constructor]|].
        rewrite total_app, total_cons in I1, I2. change (total []) with 0 in *. lia.
      * destruct (IH [n] (1 + (2 + blen n))) as [I1 I2]; [by constructor|]. rewrite total_app, length_app.
        rewrite total_cons in I1, I2. change (total []) with 0 in *. lia.
Qed.

(** ** Depacketisation *)

#[local] Transparent be16.
Lemma get16_be16 p v : is_u16 v -> pld_bytes p (blen (be16 v)) = Ok (be16 v) ->
  exists x, getUnalignedInt16Be (p_obj p) (p_off p) = Ok x /\ u16 x = v.
Proof.
  intros Hv Hp. pose proof (pld_lookup p (be16 v) 0 _ Hp eq_refl) as E0. pose proof (pld_lookup p (be16 v) 1 _ Hp eq_refl) as E1.
  unfold pld in E0, E1. change (Z.of_nat 0) with 0 in E0. change (Z.of_nat 1) with 1 in E1. rewrite Z.add_0_r in E0.
  unfold getUnalignedInt16Be. rewrite E1, E0. cbn [mbind res_bind]. eexists. split; [done|].
  rewrite MAKE_INT16_val by apply u8_range. rewrite Z.shiftr_div_pow2 by lia. width_lia.
Qed.
#[local] Opaque be16.

(** The image of units that follow a given start code. *)
Definition code_image (code : list Z) (ns : list (list Z)) : list Z :=
  match ns with [] => [] | n :: ns => code ++ n ++ concat (map (fun n => start3ByteCode ++ n) ns) end.

Lemma code_image_cons code n ns : code_image code (n :: ns) = code ++ n ++ code_image start3ByteCode ns.
Proof. unfold code_image. destruct ns; [done|]. cbn [map concat]. by rewrite <- !(assoc_L (++)). Qed.

Lemma code_image_bound code ns :
  Forall (fun n => n <> []) ns -> blen code <= 4 -> blen (code_image code ns) <= 5 * total ns.
Proof.
  intros H. revert code. induction H as [|n ns Hn _ IH]; intros code Hc; [done|].
  rewrite code_image_cons, !blen_app, total_cons. specialize (IH start3ByteCode ltac:(by vm_compute)).
  assert (0 < blen n) by (destruct n; [done|unfold blen; simpl; lia]). lia.
Qed.

Section StapLoops.
Context (raw : ptr) (packetLength : Z).

(** The units [ns] are what remains of the packet from [cur] on. *)
Definition units_at (cur : Z) (ns : list (list Z)) : Prop :=
  pld_bytes (padd raw cur) (blen (stap_body ns)) = Ok (stap_body ns) /\
  packetLength = cur + blen (stap_body ns) /\ Forall (fun n => n <> [] /\ blen n < 2 ^ 16) ns.

Lemma units_at_cons cur n ns :
  units_at cur (n :: ns) ->
  (exists x, getUnalignedInt16Be (p_obj raw) (p_off raw + cur) = Ok x /\ u16 x = blen n) /\
  pld_bytes (padd raw (cur + 2)) (blen n) = Ok n /\ 0 < blen n < 2 ^ 16 /\ units_at (cur + 2 + blen n) ns.
Proof.
  intros (Hp & Hl & H). pose proof (Forall_inv H) as [Hn Hs]. pose proof (Forall_inv_tail H) as H'.
  unfold stap_body in Hp, Hl. cbn [map concat] in Hp, Hl. fold (stap_body ns) in Hp, Hl. rewrite <- (assoc_L (++)) in Hp, Hl.
  apply pld_bytes_app in Hp as [Hp1 Hp]. apply pld_bytes_app in Hp as [Hp2 Hp3].
  rewrite !blen_app, blen_be16 in *. assert (0 < blen n) by (destruct n; [done|unfold blen; simpl; lia]).
  unfold padd in *. cbn [p_obj p_off] in *. rewrite !Z.add_assoc in *.
  split; [|split; [done|split; [lia|]]].
  - apply (get16_be16 (Ptr (p_obj raw) (p_off raw + cur)) (blen n)); [unfold is_u16; lia|by rewrite blen_be16].
  - split; [|split; [lia|done]]. unfold padd. cbn [p_obj p_off]. by rewrite !Z.add_assoc.
Qed.

Lemma units_at_done cur : units_at cur [] -> (cur <? packetLength) = false.
Proof. intros (_ & Hl & _). change (blen (stap_body [])) with 0 in Hl. apply Z.ltb_ge. lia. Qed.

Lemma units_at_more cur n ns : units_at cur (n :: ns) -> (cur <? packetLength) = true.
Proof.
  intros (_ & Hl & _). unfold stap_body in Hl. cbn [map concat] in Hl. rewrite !blen_app, blen_be16 in Hl. apply Z.ltb_lt.
  pose proof (blen_nonneg (concat (map (fun n => be16 (blen n) ++ n) ns))). blen_facts. lia.
Qed.

Lemma stapSizeLoop_spec fuel cur ns code (first fs : bool) len :
  units_at cur ns -> ns <> [] -> (length ns <= fuel)%nat -> 0 <= len ->
  let image := code_image (if first then code else start3ByteCode) ns in
  len + blen image < 2 ^ 32 ->
  stapSizeLoop fuel raw packetLength cur (blen code) first fs len =
  Ok (len + blen image, fs || existsb is_frame_start ns).
Proof.
  revert cur ns first fs len. induction fuel as [|fuel IH]; intros cur ns first fs len Hu Hne Hf Hlen image Hmax;
    destruct ns as [|n ns]; try done; [simpl in Hf; lia|]. unfold image in *. clear image.
  destruct (units_at_cons _ _ _ Hu) as ((x & Ex & Hx) & Hp & Hn & Hu'). rewrite code_image_cons in *.
  cbn [stapSizeLoop]. rewrite Ex. cbn [mbind res_bind]. rewrite Hx.
  set (k := if first then code else start3ByteCode) in *. rewrite !blen_app in *. blen_facts.
  replace (if first then blen code else blen start3ByteCode) with (blen k) by (unfold k; by destruct first).
  rewrite (u32_id (blen n + blen k)), (u32_id (len + _)) by (unfold is_u32; lia).
  rewrite (h264NaluIsFrameStart_list _ _ Hp). rewrite (proj2 (Z.ltb_lt 0 _)) by lia. cbn [andb existsb].
  assert (Efs : (if fs then Ok true else Ok (is_frame_start n)) = Ok (fs || is_frame_start n)) by by destruct fs.
  rewrite Efs. cbn [mbind res_bind]. rewrite orb_assoc. destruct ns as [|n' ns].
  - rewrite (units_at_done _ Hu'). cbn [existsb]. rewrite orb_false_r. f_equal. f_equal. change (blen (code_image start3ByteCode [])) with 0. lia.
  - rewrite (units_at_more _ _ _ Hu'). rewrite (IH _ (n' :: ns) false) by (done || (simpl in Hf |- *; lia) || lia).
    f_equal. f_equal. lia.
Qed.

Lemma stapCopyLoop_spec fuel cur ns code (first : bool) dst len data :
  units_at cur ns -> ns <> [] -> (length ns <= fuel)%nat -> 0 <= len ->
  let image := code_image (if first then code else start3ByteCode) ns in
  len + blen image < 2 ^ 32 -> put_bytes (p_obj dst) (p_off dst) image = Ok data ->
  stapCopyLoop fuel raw packetLength cur code first dst len = Ok (data, len + blen image).
Proof.
  revert cur ns first dst len. induction fuel as [|fuel IH]; intros cur ns first dst len Hu Hne Hf Hlen image Hmax Hput;
    destruct ns as [|n ns]; try done; [simpl in Hf; lia|]. unfold image in *. clear image.
  destruct (units_at_cons _ _ _ Hu) as ((x & Ex & Hx) & Hp & Hn & Hu'). rewrite code_image_cons in *.
  cbn [stapCopyLoop]. rewrite Ex. cbn [mbind res_bind]. rewrite Hx.
  set (k := if first then code else start3ByteCode) in *.
  apply put_bytes_split in Hput as (m1 & E1 & Hput). apply put_bytes_split in Hput as (m2 & E2 & Hput).
  rewrite !blen_app in *. blen_facts. rewrite E1. cbn [mbind res_bind]. rewrite Hp. cbn [mbind res_bind]. rewrite E2. cbn [mbind res_bind].
  rewrite (u32_id (len + blen k)), (u32_id (len + blen k + _)) by (unfold is_u32; lia).
  rewrite (proj2 (Z.ltb_lt 0 _)) by lia. cbn [andb]. destruct ns as [|n' ns].
  - rewrite (units_at_done _ Hu'). apply put_bytes_empty in Hput as ->. f_equal. f_equal. change (blen (code_image start3ByteCode [])) with 0. lia.
  - rewrite (units_at_more _ _ _ Hu'). rewrite (IH _ (n' :: ns) false) by (done || (simpl in Hf |- *; lia) || lia).
    f_equal. f_equal. lia.
Qed.
End StapLoops.

Definition delivers (p : ptr) (fr : list Z) (first : bool) : Prop :=
  forall dst cap data, receives dst cap (h264_piece first fr) data ->
    depayH264FromRtpPayload (Some p) (blen fr) dst (Some cap) (Some first) =
    Ok {| do_status := STATUS_SUCCESS; do_data := data; do_length := Some (blen (h264_piece first fr));
          do_isStart := Some (h264_starts fr) |}.

Lemma start_code_eq first :
  (if match Some first with Some b => negb b | None => false end then start3ByteCode else start4ByteCode) = start_code first.
Proof. by destruct first. Qed.

Lemma start_code_len first : 3 <= blen (start_code first) <= 4.
Proof. destruct first; split; done. Qed.

Lemma delivers_single p n first :
  nalu_ok n -> blen n < 2 ^ 16 -> pld_bytes p (blen n) = Ok n -> delivers p n first.
Proof.
  intros Hn Hl Hp dst cap data Hr. pose proof (start_code_len first). pose proof (nalu_ok_type n Hn) as (T1 & T2 & T3).
  assert (Epc : h264_piece first n = start_code first ++ n) by (unfold h264_piece; by rewrite T1, T2).
  assert (Est : h264_starts n = is_frame_start n) by (unfold h264_starts; by rewrite T1, T2). rewrite Epc in *. rewrite Est.
  destruct Hn as (b & t & -> & Hb & _). change (fragment_type (b :: t)) with (Z.land b NAL_TYPE_MASK) in *.
  pose proof (pld_bytes_cons p b t Hp) as [Hb0 _]. assert (Hpos : 0 < blen (b :: t)) by (rewrite blen_cons; blen_facts; lia).
  unfold single_type in T3. rewrite !negb_orb in T3. rewrite T1, T2 in T3. cbn [negb andb] in T3. rewrite andb_true_r in T3.
  destruct (Z.land b NAL_TYPE_MASK =? FU_B_INDICATOR) eqn:T4; [done|]. cbn [negb andb] in T3.
  destruct (Z.land b NAL_TYPE_MASK =? STAP_B_INDICATOR) eqn:T5; [done|]. clear T3.
  unfold depayH264FromRtpPayload, depayMeasure. rewrite start_code_eq, (proj2 (Z.eqb_neq (blen _) 0)) by lia. rewrite Hb0.
  cbn [mbind res_bind]. rewrite T1, T2, T4, T5. cbn [orb andb negb]. rewrite (h264NaluIsFrameStart_list _ _ Hp). cbn [mbind res_bind andb negb].
  rewrite (u32_id (blen (b :: t) + _)) by (unfold is_u32; lia). rewrite blen_app in *.
  replace (blen (b :: t) + blen (start_code first)) with (blen (start_code first) + blen (b :: t)) by lia.
  destruct dst as [d|]; [|by rewrite Hr]. destruct Hr as (Hc & x & -> & Hput). rewrite blen_app in Hc. rewrite (proj2 (Z.leb_le _ _)) by done. cbn [negb].
  apply put_bytes_split in Hput as (m1 & E1 & E2). rewrite E1. cbn [mbind res_bind].
  rewrite (u32_id (_ + blen (b :: t) - _)) by (unfold is_u32; lia).
  replace (blen (start_code first) + blen (b :: t) - blen (start_code first)) with (blen (b :: t)) by lia.
  rewrite Hp. cbn [mbind res_bind]. rewrite E2. cbn [mbind res_bind].
  rewrite (u32_id (blen (b :: t) + _)) by (unfold is_u32; lia). unfold depayDone. cbn. by rewrite Z.add_comm.
Qed.

Lemma first_mb_list p c :
  pld_bytes p (blen c) = Ok c ->
  (firstMb ← h264ReadUeGolomb p (blen c); Ok (match firstMb with Some v => v =? 0 | None => false end)) = Ok (first_mb_zero c).
Proof.
  intros Hp. destruct (h264ReadUeGolomb_agree p (Ptr c 0) (blen c) (agree_list p c Hp) (blen_nonneg c)) as [-> [r E]].
  unfold first_mb_zero. rewrite E. by destruct r.
Qed.

Lemma delivers_fu p b fst last c first :
  0 <= b < 128 -> c <> [] -> let fr := u8 (Z.lor 28 (Z.land b 0x60)) :: fu_header b fst last :: c in
  blen fr < 2 ^ 16 -> pld_bytes p (blen fr) = Ok fr -> delivers p fr first.
Proof.
  intros Hb Hc fr Hl Hp dst cap data Hr. pose proof (start_code_len first).
  destruct (fu_header_bits b fst last Hb) as (Ht & Hs & Hbb & Hty & _ & _). unfold fr in *. clear fr.
  rewrite piece_fu in * by done. set (i := u8 (Z.lor 28 (Z.land b 0x60))) in *. set (h := fu_header b fst last) in *. clearbody i h.
  pose proof (pld_bytes_cons p _ _ Hp) as [E0 Hp1]. pose proof (pld_bytes_cons _ _ _ Hp1) as [E1 Hp2].
  assert (E1' : pld p 1 = Ok h) by (revert E1; unfold pld, padd; cbn [p_obj p_off]; by rewrite Z.add_0_r).
  assert (Hp2' : pld_bytes (padd p 2) (blen c) = Ok c).
  { revert Hp2. unfold padd. cbn [p_obj p_off]. by rewrite <- Z.add_assoc. }
  rewrite !blen_cons in *. assert (Hc0 : 0 < blen c) by (destruct c; [done|unfold blen; simpl; lia]).
  assert (Estart : h264_starts (i :: h :: c) = fst && (isParameterSet (Z.land h 0x1f) || (isSlice (Z.land h 0x1f) && first_mb_zero c))).
  { unfold h264_starts. change (fragment_type (i :: h :: c)) with (Z.land i NAL_TYPE_MASK). rewrite Ht, Z.eqb_refl, Hs, negb_involutive.
    rewrite bool_decide_false by done. cbn [negb]. by rewrite andb_true_r. }
  rewrite Estart. unfold depayH264FromRtpPayload, depayMeasure.
  rewrite start_code_eq, (proj2 (Z.eqb_neq _ 0)) by lia. rewrite E0. cbn [mbind res_bind]. rewrite Ht.
  change (FU_A_INDICATOR =? FU_A_INDICATOR) with true. change ((FU_A_INDICATOR =? STAP_A_INDICATOR) || (FU_A_INDICATOR =? STAP_B_INDICATOR)) with false.
  cbv match. rewrite E1'. cbn [mbind res_bind]. rewrite Hs. unfold FU_A_HEADER_SIZE. cbn [orb].
  rewrite (u32_id (1 + (1 + blen c) - 2)) by (unfold is_u32; lia). replace (1 + (1 + blen c) - 2) with (blen c) by lia.
  rewrite (proj2 (Z.ltb_lt 2 _)) by lia.
  destruct fst; cbn [negb andb].
  - assert (Efs : (if isParameterSet (Z.land h 31) then Ok true
       else if isSlice (Z.land h 31) && true then
         firstMb ← h264ReadUeGolomb (padd p 2) (blen c); Ok (match firstMb with Some v => v =? 0 | None => false end) else Ok false)
       = Ok (isParameterSet (Z.land h 31) || isSlice (Z.land h 31) && first_mb_zero c)).
    { destruct (isParameterSet _); [done|]. destruct (isSlice _); [|done]. cbn [andb orb]. by apply first_mb_list. }
    rewrite Efs. cbn [mbind res_bind andb negb]. rewrite (u32_id (blen c + 1)) by (unfold is_u32; lia). rewrite (u32_id (blen c + 1 + _)) by (unfold is_u32; lia).
    rewrite blen_app, blen_cons in *.
    replace (blen (start_code first) + (1 + blen c)) with (blen c + 1 + blen (start_code first)) by lia.
    destruct dst as [d|]; [|by rewrite Hr].
    destruct Hr as (Hcp & x & -> & Hput). rewrite blen_app, blen_cons in Hcp. rewrite (proj2 (Z.leb_le _ _)) by lia. cbn [negb].
    apply put_bytes_split in Hput as (m1 & F1 & Hput). rewrite F1. cbn [mbind res_bind].
    rewrite (u32_id (blen c + 1 + _ - _)) by (unfold is_u32; lia).
    replace (blen c + 1 + blen (start_code first) - blen (start_code first)) with (blen c + 1) by lia.
    rewrite (u32_id (blen c + 1 - 1)) by (unfold is_u32; lia). replace (blen c + 1 - 1) with (blen c) by lia.
    rewrite Hp2'. cbn [mbind res_bind]. rewrite Hbb.
    pose proof (put_bytes_late [b] c m1 (p_off d + blen (start_code first))) as Hcov. change (blen [b]) with 1 in Hcov. cbn [app] in Hcov. rewrite Hput in Hcov. unfold put8.
    rewrite u8_id by (unfold is_u8; lia).
    destruct (put_bytes m1 _ c) as [m2| |]; cbn [mbind res_bind] in *; try done. rewrite Hcov. cbn [mbind res_bind].
    by rewrite u32_id by (unfold is_u32; lia).
  - cbn [mbind res_bind andb negb]. destruct dst as [d|]; [|rewrite Hr; done].
    destruct Hr as (Hcp & x & -> & Hput). rewrite (proj2 (Z.leb_le _ _)) by lia. cbn [negb mbind res_bind].
    rewrite Hp2'. cbn [mbind res_bind]. rewrite Hput. done.
Qed.

Lemma units_code_image first ns : units_image first ns = code_image (start_code first) ns.
Proof. done. Qed.

Lemma delivers_stap p ns first :
  ns <> [] -> Forall nalu_ok ns -> blen (stap ns) < 2 ^ 16 -> pld_bytes p (blen (stap ns)) = Ok (stap ns) ->
  delivers p (stap ns) first.
Proof.
  intros Hne Hns Hl Hp dst cap data Hr. pose proof (start_code_len first).
  pose proof (stap_units_stap ns Hne Hns Hl) as Eu. pose proof (stap_type ns Hns) as Ht.
  assert (Epc : h264_piece first (stap ns) = code_image (start_code first) ns).
  { unfold h264_piece. rewrite Ht, Eu. done. }
  assert (Est : h264_starts (stap ns) = existsb is_frame_start ns) by (unfold h264_starts; by rewrite Ht, Eu).
  rewrite Epc in *. rewrite Est.
  pose proof (pld_bytes_cons p _ _ Hp) as [E0 Hp1]. change (fragment_type (stap ns)) with (Z.land (u8 (Z.lor STAP_A_INDICATOR (maxNriOf 0 ns))) NAL_TYPE_MASK) in Ht.
  set (i := u8 (Z.lor STAP_A_INDICATOR (maxNriOf 0 ns))) in *.
  assert (Hbl : blen (stap ns) = 1 + blen (stap_body ns)) by apply blen_cons. pose proof (blen_nonneg (stap_body ns)).
  assert (Hu : units_at p (blen (stap ns)) 1 ns).
  { split; [exact Hp1|]. split; [done|]. rewrite Forall_forall in Hns |- *. intros n Hn. split; [by apply nalu_ok_head, Hns|].
    apply (nalu_below n ns); [lia|by apply list_elem_of_In]. }
  assert (Hne' : Forall (fun n => n <> []) ns) by (eapply Forall_impl; [|exact Hns]; intros n Hn; by apply nalu_ok_head).
  pose proof (code_image_bound (start_code first) ns Hne' ltac:(lia)) as Hcb. rewrite stap_body_total in *.
  pose proof (count_total ns Hne') as Hct.
  assert (Hfuel : (length ns <= Z.to_nat (blen (stap ns)))%nat) by lia.
  unfold depayH264FromRtpPayload, depayMeasure.
  rewrite start_code_eq, (proj2 (Z.eqb_neq _ 0)) by lia. rewrite E0. cbn [mbind res_bind]. rewrite Ht.
  change (STAP_A_INDICATOR =? FU_A_INDICATOR) with false. change (STAP_A_INDICATOR =? FU_B_INDICATOR) with false.
  change (STAP_A_INDICATOR =? STAP_A_INDICATOR) with true. cbn [orb]. unfold STAP_A_HEADER_SIZE.
  rewrite (stapSizeLoop_spec p (blen (stap ns)) _ 1 ns (start_code first) true false 0) by (done || lia).
  cbn [mbind res_bind orb andb negb]. rewrite Z.add_0_l.
  destruct dst as [d|]; [|by rewrite Hr]. destruct Hr as (Hc & x & -> & Hput). rewrite (proj2 (Z.leb_le _ _)) by done. cbn [negb mbind res_bind].
  rewrite (stapCopyLoop_spec p (blen (stap ns)) _ 1 ns (start_code first) true _ 0 x) by (done || lia). cbn [mbind res_bind]. by rewrite Z.add_0_l.
Qed.

Lemma delivers_payload p fr first :
  h264_frag_ok fr -> pld_bytes p (blen fr) = Ok fr -> delivers p fr first.
Proof.
  intros [Hok Hl] Hp. destruct Hok.
  - by apply delivers_single.
  - by apply delivers_fu.
  - by apply delivers_stap.
Qed.

(** ** The instance *)

(** Frames: Annex-B streams of at most 63 NAL units, the first payload of which starts a
    frame (parameter sets, or a slice whose first macroblock is number 0). *)
Definition h264_frame_ok (mtu : Z) (f : list Z) : Prop :=
  2 < mtu < 2 ^ 16 /\ blen f < 2 ^ 29 /\
  exists ns, nalusOf f = Some ns /\ ns <> [] /\ (length ns < 64)%nat /\ Forall nalu_ok ns /\
    forall fr, head (h264_frags mtu [] 1 ns) = Some fr -> h264_starts fr = true.

Definition h264_fragments (mtu : Z) (f : list Z) : list (list Z) := h264_frags mtu [] 1 (default [] (nalusOf f)).

Lemma imap_pieces frs :
  concat (imap (fun i => h264_piece (bool_decide (i = 0%nat))) frs) = pieces true frs.
Proof.
  destruct frs as [|fr frs]; [done|]. cbn [imap concat pieces]. rewrite bool_decide_true by done. f_equal. f_equal.
  unfold compose. rewrite (imap_ext _ (fun _ => h264_piece false)); [apply imap_const|]. intros i x _. by rewrite bool_decide_false.
Qed.

Lemma h264_nonempty mtu ps sz ns :
  2 < mtu -> Forall nalu_ok ps -> Forall nalu_ok ns -> ps ++ ns <> [] -> h264_frags mtu ps sz ns <> [].
Proof.
  intros Hm Hps Hns. revert ps sz Hps. induction Hns as [|n ns Hn Hns IH]; intros ps sz Hps Hne; cbn [h264_frags].
  - rewrite app_nil_r in Hne. intros E. apply flush_nil in E; done.
  - destruct (mtu <? blen n).
    + intros [_ E]%app_eq_nil. apply app_eq_nil in E as [E _]. by apply nalu_frags_nonempty in E.
    + destruct (_ <=? mtu).
      * apply IH; [by apply Forall_app; split; [|constructor]|]. by rewrite <- (assoc_L (++)).
      * intros [_ E]%app_eq_nil. revert E. by apply IH; [constructor|].
Qed.

(** The outputs of both calls. *)
Lemma h264_create mtu f ns buf subs len cnt pc' :
  2 < mtu < 2 ^ 16 -> blen f < 2 ^ 29 -> nalusOf f = Some ns -> (length ns < 64)%nat -> Forall nalu_ok ns ->
  negb (isNull buf) && isNull subs = false ->
  advanced (isNull buf) (newCursor buf subs len cnt) (h264_frags mtu [] 1 ns) pc' ->
  createPayloadForH264 mtu (Some f) (blen f) buf (Some len) subs (Some cnt) =
  cursorDone STATUS_SUCCESS buf subs pc' (Some len) (Some cnt).
Proof.
  intros Hm Hl Hn H64 Hns Hnull Ha. unfold createPayloadForH264. rewrite Hnull. unfold FU_A_HEADER_SIZE.
  rewrite (proj2 (Z.ltb_lt 2 mtu)) by lia. cbn [negb].
  assert (Hne : Forall (fun n => n <> []) ns) by (eapply Forall_impl; [|exact Hns]; intros n Hn'; by apply nalu_ok_head).
  destruct (collectNalus_spec (Z.to_nat MAX_NALUS_PER_FRAME) f 0 f ns [] Hn H64 ltac:(lia) (pld_bytes_whole f _ eq_refl) Hne)
    as (infos & Ei & Hr). rewrite Ei. cbn [app]. change (0 <? 0) with false. cbn [andb].
  pose proof (nalus_total f ns Hn) as Ht.
  assert (Hsz : Forall (fun n => blen n < 2 ^ 30) ns).
  { rewrite Forall_forall. intros n Hn'. apply list_elem_of_In in Hn'.
    assert (blen n <= total ns); [|lia]. clear -Hn'. induction ns as [|m ns IH]; [by apply not_elem_of_nil in Hn'|].
    rewrite total_cons. pose proof (total_nonneg ns). apply elem_of_cons in Hn' as [->|Hn']; [lia|]. specialize (IH Hn'). blen_facts. lia. }
  pose proof (payloadLoop_spec (isNull buf) mtu infos ns [] [] (newCursor buf subs len cnt) pc' Hm Hr Hsz) as Hp.
  change (1 + blen (stap_body [])) with 1 in Hp. unfold STAP_A_HEADER_SIZE. rewrite Hp; [done|constructor|constructor|lia|done].
Qed.

#[export] Program Instance Payloader_H264 : Payloader createPayloadForH264 depayH264FromRtpPayload := {|
  frame_ok := h264_frame_ok;
  fragments := h264_fragments;
  frag_ok := h264_frag_ok;
  piece := h264_piece;
  starts := h264_starts;
  image f := units_image true (default [] (nalusOf f));
|}.
Next Obligation.
  intros mtu f (Hm & Hl & ns & Hn & Hne & H64 & Hns & Hst). unfold h264_fragments. rewrite Hn. cbn [default from_option id].
  assert (Hne' : Forall (fun n => n <> []) ns) by (eapply Forall_impl; [|exact Hns]; intros n Hn'; by apply nalu_ok_head).
  pose proof (h264_bounds mtu [] 1 ns ltac:(lia) (Forall_nil_2 _) Hne') as [Hb _]. pose proof (nalus_total f ns Hn).
  change (total []) with 0 in Hb. split_and!.
  - apply h264_nonempty; [lia|constructor|done|done].
  - lia.
  - eapply Forall_impl; [|apply (h264_shape mtu ns); [lia|done]]. intros fr [Hok Hfl]. split; [split; [done|lia]|done].
  - done.
Qed.
Next Obligation.
  intros mtu f l c (Hm & Hl & ns & Hn & Hne & H64 & Hns & Hst). unfold h264_fragments. rewrite Hn. cbn [default from_option id].
  assert (Hne' : Forall (fun n => n <> []) ns) by (eapply Forall_impl; [|exact Hns]; intros n Hn'; by apply nalu_ok_head).
  pose proof (h264_bounds mtu [] 1 ns ltac:(lia) (Forall_nil_2 _) Hne') as [Hb1 Hb2]. pose proof (nalus_total f ns Hn).
  change (total []) with 0 in *. pose proof (total_nonneg (h264_frags mtu [] 1 ns)).
  destruct (cursor_size l c (h264_frags mtu [] 1 ns)) as (pc' & Ha & Ed); [lia..|].
  by rewrite (h264_create mtu f ns None None l c pc').
Qed.
Next Obligation.
  cbv zeta. intros mtu f buf subs (Hm & Hl & ns & Hn & Hne & H64 & Hns & Hst). unfold h264_fragments. rewrite Hn. cbn [default from_option id].
  intros Hbuf Hsub. set (frs := h264_frags mtu [] 1 ns) in *.
  assert (Hne' : Forall (fun n => n <> []) ns) by (eapply Forall_impl; [|exact Hns]; intros n Hn'; by apply nalu_ok_head).
  pose proof (h264_bounds mtu [] 1 ns ltac:(lia) (Forall_nil_2 _) Hne') as [Hb1 Hb2]. pose proof (nalus_total f ns Hn).
  change (total []) with 0 in *. fold frs in Hb1, Hb2. pose proof (total_nonneg frs).
  destruct (cursor_fill buf subs frs) as (pc' & Ha & Ed); [lia..|done|].
  by rewrite (h264_create mtu f ns (Some buf) (Some subs) _ _ pc').
Qed.
Next Obligation. intros p fr cap first Hok Hl Hp. by apply (delivers_payload p fr first Hok Hp None cap None). Qed.
Next Obligation.
  intros p fr d data cap first Hok Hl Hp Hc Hput. apply (delivers_payload p fr first Hok Hp (Some d) cap (Some data)).
  split; [done|]. by exists data.
Qed.
Next Obligation.
  intros mtu f (Hm & Hl & ns & Hn & Hne & H64 & Hns & Hst). unfold h264_fragments. rewrite Hn. cbn [default from_option id].
  rewrite imap_pieces. apply (h264_pieces true mtu [] ns Hm); [constructor|done|left; simpl; lia].
Qed.
Next Obligation.
  intros mtu f (Hm & Hl & ns & Hn & Hne & H64 & Hns & Hst) Hb. unfold h264_fragments. rewrite Hn. cbn [default from_option id].
  apply h264_bytes; [lia|]. by eapply nalus_bytes.
Qed.

(** ** Round trip *)

(** The units of the image are the units themselves. *)
Lemma nalusOf_image first ns :
  Forall (fun n => n <> [] /\ (forall j, ~ hit n j) /\ list.last n <> Some 0) ns ->
  nalusOf (units_image first ns) = Some ns.
Proof.
  intros H. revert first. induction H as [|n ns (Hne & Hc & Hl) Hns IH]; intros first; [done|].
  assert (Ei : units_image first (n :: ns) = start_code first ++ n ++ units_image false ns).
  { destruct ns; [done|]. cbn [units_image map concat start_code]. by rewrite <- !(assoc_L (++)). }
  rewrite Ei. assert (Ho : exists k, open_code (start_code first ++ n ++ units_image false ns) = Some (k, n ++ units_image false ns))
    by (destruct first; eauto). destruct Ho as [k Ho].
  rewrite (nalusOf_step _ _ _ Ho) by (destruct n; done).
  assert (Hs : split_nalu (n ++ units_image false ns) = (n, units_image false ns)).
  { destruct ns as [|n' ns']; [|by apply split_nalu_unit]. cbn [units_image]. rewrite app_nil_r. by apply split_nalu_none. }
  rewrite Hs. cbn [fst snd]. by rewrite IH.
Qed.

(** C9. H.264 round trip.  The frame is an Annex-B stream of less than 2^29 bytes with 1 to 63
    NAL units of the types that may be sent, none ending in a zero byte, and its first payload
    begins a frame: a parameter set or a slice whose first macroblock is number 0, alone, in
    an aggregate or in a first fragment.  For every MTU above two and below 2^16 packetising
    succeeds; every payload fits the MTU; and depacketising the payloads in order yields a stream with
    exactly the NAL units of the frame, whether they travelled alone, aggregated in STAP-A
    packets or split into FU-A fragments. *)
Theorem h264_roundtrip mtu f ns
  (Hf : h264_frame_ok mtu f) (Hn : nalusOf f = Some ns) (Hz : Forall (fun n => list.last n <> Some 0) ns) :
  exists frs g, packetise createPayloadForH264 mtu f = Ok frs /\ Forall (fun fr => 0 < blen fr <= mtu) frs /\
    depacketise depayH264FromRtpPayload true frs = Ok g /\ nalusOf g = Some ns.
Proof.
  destruct (roundtrip_image (P := Payloader_H264) mtu f Hf) as (frs & Ep & Hs & Ed); [destruct Hf as (? & _); lia|].
  exists frs, (units_image true (default [] (nalusOf f))). split; [done|]. split; [done|]. split; [done|]. rewrite Hn. cbn [default from_option id].
  apply nalusOf_image. destruct Hf as (_ & _ & ns' & Hn' & _ & _ & Hok & _). assert (ns' = ns) as -> by congruence.
  pose proof (nalusOf_clean f ns Hn) as Hc. rewrite Forall_forall in Hok, Hc, Hz |- *. intros n Hin.
  split; [by apply nalu_ok_head, Hok|]. split; [by apply Hc|by apply Hz].
Qed.

(** An SPS, a PPS and an IDR slice of 9 bytes, for an MTU of 8: an aggregate and a fragmented slice. *)
Definition ex_h264 : list Z :=
  [0; 0; 0; 1; 0x67; 1; 0; 0; 1; 0x68; 0; 0; 0; 1; 0x65; 0x88; 1; 2; 3; 4; 5; 6; 7].
Definition ex_nalus : list (list Z) := [[0x67; 1]; [0x68]; [0x65; 0x88; 1; 2; 3; 4; 5; 6; 7]].

Lemma h264_roundtrip_witness :
  nalusOf ex_h264 = Some ex_nalus /\
  exists frs g, packetise createPayloadForH264 8 ex_h264 = Ok frs /\ Forall (fun fr => 0 < blen fr <= 8) frs /\
    depacketise depayH264FromRtpPayload true frs = Ok g /\ nalusOf g = Some ex_nalus.
Proof.
  assert (Hn : nalusOf ex_h264 = Some ex_nalus) by reflexivity. split; [exact Hn|].
  refine (h264_roundtrip 8 ex_h264 ex_nalus _ Hn _).
  - split; [lia|]. split; [reflexivity|]. exists ex_nalus. split; [exact Hn|]. split; [discriminate|]. split; [vm_compute; lia|]. split.
    + repeat (apply Forall_cons_2; [eexists _, _; split; [reflexivity|]; split; [lia|reflexivity]|]). apply Forall_nil_2.
    + assert (E0 : head (h264_frags 8 [] 1 ex_nalus) = Some [0x78; 0; 2; 0x67; 1; 0; 1; 0x68]) by (vm_compute; reflexivity).
      intros fr E. rewrite E0 in E. injection E as <-. vm_compute. reflexivity.
  - repeat (apply Forall_cons_2; [vm_compute; discriminate|]). apply Forall_nil_2.
Defined.
