(* ===== verification/H265.v ===== *)
(** * H.265 payload format (src/source/Rtp/Codecs/RtpH265Payloader.c)

    Packetisation of an Annex-B frame into single NAL unit packets and fragmentation units,
    the depacketiser, and the two sides as an instance of [Payloader]. *)

From S2P Require Import Prelude Endian RtpPacket Payloaders AnnexB.

Definition H265_FU_HEADER_SIZE : Z := 3.
Definition H265_FU_TYPE_ID : Z := 49.

(** ** Packetisation *)

(** The same code as the search of the H.264 payloader. *)
Definition getNextNaluLengthH265 (nalus : option ptr) (nalusLength : Z) : res (Z * Z) :=
  getNextNaluLength nalus nalusLength.

(** The stores of a fragment: the payload header of type 49 with the other bits of the
    unit's header, the type with the start or end bit, and the body. *)
Definition fuWritesH265 (nalu0 nalu1 naluType naluLength remaining size : Z) (bs : list Z) : list (Z * list Z) :=
  [(0, [u8 (Z.lor (Z.lor (Z.shiftl H265_FU_TYPE_ID 1) (Z.land nalu0 0x81)) (Z.land nalu0 0x1))]);
   (1, [u8 (Z.land nalu1 0xff)]);
   (2, [u8 (Z.lor (Z.land naluType 0x3f) (if remaining =? naluLength -32 2 then Z.shiftl 1 7
                                          else if remaining =? size then Z.shiftl 1 6 else 0))]);
   (H265_FU_HEADER_SIZE, bs)].

(** nalu[1] is read when a fragment is written; a unit that is fragmented has it. *)
Definition createPayloadFromNaluH265 (mtu : Z) (nalu : ptr) (naluLength : Z) (out : option PayloadCursor)
    : res (STATUS * option PayloadCursor * Z * Z) :=
  let null := match out with
              | Some pc => isNull (pc_subs pc) || isNull (pc_buffer pc)
              | None => false
              end in
  if null then Ok (STATUS_NULL_ARG, out, 0, 0) else
  if negb (H265_FU_HEADER_SIZE <? mtu) then Ok (naluDone (STATUS_RTP_INPUT_MTU_TOO_SMALL, out, 0, 0)) else
  b0 ← pld nalu 0;
  let naluType := Z.shiftr (Z.land b0 0x7E) 1 in
  if naluLength <=? mtu then
    match out with
    | None => Ok (STATUS_SUCCESS, None, naluLength, 1)
    | Some pc =>
        if negb (hasRoom pc naluLength 1) then Ok (STATUS_BUFFER_TOO_SMALL, out, naluLength, 1) else
        bs ← pld_bytes nalu naluLength;
        pc ← storeFragment pc 0 1 [(0, bs)] naluLength;
        Ok (STATUS_SUCCESS, Some pc, naluLength, 1)
    end
  else
    b1 ← (if isNull out then Ok 0 else pld nalu 1);
    r ← fuLoop H265_FU_HEADER_SIZE (fuWritesH265 b0 b1 naluType naluLength) (Z.to_nat naluLength) nalu
          (mtu -32 H265_FU_HEADER_SIZE) 2 (naluLength -32 2) out 0 0 0;
    Ok (naluDone r).

(** The do-while loop over the units; every iteration passes a start code, so
    [nalusLength] iterations are enough. *)
Fixpoint payloadLoopH265 (fuel : nat) (mtu : Z) (nalus : list Z) (cur remain : Z) (sizeOnly : bool)
    (pc : PayloadCursor) : res (STATUS * PayloadCursor) :=
  match fuel with
  | O => Fault
  | S fuel =>
      match getNextNaluLengthH265 (Some (Ptr nalus cur)) remain with
      | Ok (start, len) =>
          let cur := cur + start in
          let remain := remain -32 start in
          if remain =? 0 then Ok (STATUS_SUCCESS, pc) else
          '(st, pc) ← emitPayload sizeOnly pc (createPayloadFromNaluH265 mtu (Ptr nalus cur) len);
          if STATUS_FAILED st then Ok (st, pc) else
          let remain := remain -32 len in
          if remain =? 0 then Ok (STATUS_SUCCESS, pc)
          else payloadLoopH265 fuel mtu nalus (cur + len) remain sizeOnly pc
      | Err st => Ok (st, pc)
      | Fault => Fault
      end
  end.

Definition createPayloadForH265 : RtpPayloadFunc :=
  fun mtu nalus nalusLength buf pLen subs pCnt =>
  match nalus, pLen, pCnt with
  | Some f, Some len, Some cnt =>
      if negb (isNull buf) && isNull subs then payloadEarly STATUS_NULL_ARG buf subs pLen pCnt else
      if negb (H265_FU_HEADER_SIZE <? mtu)
      then payloadEarly STATUS_RTP_INPUT_MTU_TOO_SMALL buf subs pLen pCnt else
      '(st, pc) ← payloadLoopH265 (S (Z.to_nat nalusLength)) mtu f 0 nalusLength (isNull buf)
                    (newCursor buf subs len cnt);
      cursorDone st buf subs pc pLen pCnt
  | _, _, _ => payloadEarly STATUS_NULL_ARG buf subs pLen pCnt
  end.

(** ** Depacketisation *)

Definition h265StartCode : list Z := [0; 0; 0; 1].

Definition depayH265FromRtpPayload : DepayRtpPayloadFunc :=
  fun pRaw packetLength dst pLen pIsStart =>
  match pRaw, pLen with
  | Some raw, Some cap =>
      if packetLength =? 0 then depayDone STATUS_SUCCESS dst (dstBytes dst) packetLength true pLen pIsStart else
      b0 ← pld raw 0;
      let isFu := Z.land (Z.shiftr b0 1) 0x3F =? H265_FU_TYPE_ID in
      '(isStartingPacket, headerSize, naluLength) ←
        (if isFu then
           b2 ← pld raw 2;
           let isStarting := negb (Z.land b2 0x80 =? 0) in
           let naluLength := packetLength -32 H265_FU_HEADER_SIZE in
           Ok (isStarting, H265_FU_HEADER_SIZE, if isStarting then naluLength +32 2 else naluLength)
         else Ok (true, 0, packetLength));
      let naluLength := if isStartingPacket : bool then naluLength +32 blen h265StartCode else naluLength in
      match dst with
      | None => depayDone STATUS_SUCCESS dst None naluLength isStartingPacket pLen pIsStart
      | Some d =>
          if negb (naluLength <=? cap)
          then depayDone STATUS_BUFFER_TOO_SMALL dst (dstBytes dst) naluLength isStartingPacket pLen pIsStart else
          '(data, o) ←
            (if isStartingPacket then
               data ← put_bytes (p_obj d) (p_off d) h265StartCode;
               if isFu then
                 b2 ← pld raw 2;
                 data ← put8 data (p_off d + 4) (Z.lor (Z.shiftl (Z.land b2 0x3F) 1) (Z.land b0 0x81));
                 b1 ← pld raw 1;
                 data ← put8 data (p_off d + 5) b1;
                 Ok (data, p_off d + 2 + blen h265StartCode)
               else Ok (data, p_off d + blen h265StartCode)
             else Ok (p_obj d, p_off d));
          bs ← pld_bytes (padd raw headerSize) (packetLength -32 headerSize);
          data ← put_bytes data o bs;
          depayDone STATUS_SUCCESS dst (Some data) naluLength isStartingPacket pLen pIsStart
      end
  | _, _ => depayDone STATUS_NULL_ARG dst (dstBytes dst) packetLength true pLen pIsStart
  end.

(** ** The payloads of a frame *)

Definition h265_header0 (b0 : Z) : Z :=
  u8 (Z.lor (Z.lor (Z.shiftl H265_FU_TYPE_ID 1) (Z.land b0 0x81)) (Z.land b0 0x1)).
Definition h265_header2 (b0 : Z) (first last : bool) : Z :=
  u8 (Z.lor (Z.land (Z.shiftr (Z.land b0 0x7E) 1) 0x3f) (if first then 128 else if last then 64 else 0)).
Definition h265_fu (b0 b1 : Z) (first last : bool) (c : list Z) : list Z :=
  [h265_header0 b0; b1; h265_header2 b0 first last] ++ c.

(** A unit: whole, or in fragments when it exceeds the MTU. *)
Definition h265_nalu_frags (mtu : Z) (n : list Z) : list (list Z) :=
  if blen n <=? mtu then [n]
  else match n with
       | b0 :: b1 :: body => fu_frags (h265_fu b0 b1) true (chunks (Z.to_nat (mtu - 3)) body)
       | _ => []
       end.

Definition h265_frags (mtu : Z) (ns : list (list Z)) : list (list Z) := concat (map (h265_nalu_frags mtu) ns).

(** Whether the depacketiser starts a unit with a payload, and what it returns for it. *)
Definition isFuH265 (fr : list Z) : bool := Z.land (Z.shiftr (default 0 (head fr)) 1) 0x3F =? H265_FU_TYPE_ID.

Definition h265_starts (fr : list Z) : bool :=
  if isFuH265 fr then match fr with _ :: _ :: h :: _ => negb (Z.land h 0x80 =? 0) | _ => false end else true.

Definition h265_piece (fr : list Z) : list Z :=
  if isFuH265 fr then
    match fr with
    | i :: b1 :: h :: c =>
        if negb (Z.land h 0x80 =? 0)
        then h265StartCode ++ [u8 (Z.lor (Z.shiftl (Z.land h 0x3F) 1) (Z.land i 0x81)); b1] ++ c else c
    | _ => []
    end
  else h265StartCode ++ fr.

(** A unit the format carries: not of the type of the fragments. *)
Definition h265_nalu_ok (n : list Z) : Prop := n <> [] /\ bytes_ok n /\ isFuH265 n = false.

Inductive h265_payload_ok : list Z -> Prop :=
| h265_ok_single n : h265_nalu_ok n -> h265_payload_ok n
| h265_ok_fu b0 b1 first last c : is_u8 b0 -> is_u8 b1 -> c <> [] -> h265_payload_ok (h265_fu b0 b1 first last c).

(** The header bytes of a fragment: the type is that of fragments, the start bit is that
    of the first fragment, and the unit's header byte can be restored. *)
Definition h265_bits_ok (b0 : Z) (first last : bool) : bool :=
  let i := h265_header0 b0 in let h := h265_header2 b0 first last in
  (Z.land (Z.shiftr i 1) 0x3F =? H265_FU_TYPE_ID) && (eqb (Z.land h 0x80 =? 0) (negb first)) &&
  (u8 (Z.lor (Z.shiftl (Z.land h 0x3F) 1) (Z.land i 0x81)) =? b0).

Lemma h265_header_bits b0 first last :
  is_u8 b0 -> let i := h265_header0 b0 in let h := h265_header2 b0 first last in
  (Z.land (Z.shiftr i 1) 0x3F =? H265_FU_TYPE_ID) = true /\ (Z.land h 0x80 =? 0) = negb first /\
  u8 (Z.lor (Z.shiftl (Z.land h 0x3F) 1) (Z.land i 0x81)) = b0.
Proof.
  intros Hb i h. assert (H : h265_bits_ok b0 first last = true).
  { unfold is_u8 in Hb. revert b0 Hb i h. destruct first, last; intros b Hb _ _;
      [apply (range_forall (fun b => h265_bits_ok b true true) 256)|apply (range_forall (fun b => h265_bits_ok b true false) 256)
      |apply (range_forall (fun b => h265_bits_ok b false true) 256)|apply (range_forall (fun b => h265_bits_ok b false false) 256)];
      try done; by vm_compute. }
  unfold h265_bits_ok in H. cbv zeta in H. fold i h in H.
  apply andb_prop in H as [[H1 H2%eqb_prop]%andb_prop H3%Z.eqb_eq]. done.
Qed.

Lemma h265_fu_len b0 b1 f l c : blen (h265_fu b0 b1 f l c) = H265_FU_HEADER_SIZE + blen c.
Proof. unfold h265_fu. rewrite blen_app. done. Qed.

Lemma isFu_fu b0 b1 f l c : is_u8 b0 -> isFuH265 (h265_fu b0 b1 f l c) = true.
Proof. intros Hb. by destruct (h265_header_bits b0 f l Hb). Qed.

Lemma starts_fu b0 b1 f l c : is_u8 b0 -> h265_starts (h265_fu b0 b1 f l c) = f.
Proof.
  intros Hb. unfold h265_starts. rewrite isFu_fu by done. destruct (h265_header_bits b0 f l Hb) as (_ & Hs & _).
  cbn [h265_fu app]. rewrite Hs. apply negb_involutive.
Qed.

Lemma piece_fu_h265 b0 b1 f l c :
  is_u8 b0 -> h265_piece (h265_fu b0 b1 f l c) = if f then h265StartCode ++ b0 :: b1 :: c else c.
Proof.
  intros Hb. unfold h265_piece. rewrite isFu_fu by done. destruct (h265_header_bits b0 f l Hb) as (_ & Hs & Hr).
  cbn [h265_fu app]. rewrite Hs, negb_involutive, Hr. by destruct f.
Qed.

(** ** The packetiser computes these payloads *)

Lemma fuWritesH265_covers b0 b1 nl remaining c :
  is_u8 b1 ->
  covers_fragment (fuWritesH265 b0 b1 (Z.shiftr (Z.land b0 0x7E) 1) nl remaining (blen c) c)
    (h265_fu b0 b1 (remaining =? nl -32 2) (remaining =? blen c) c).
Proof.
  intros Hb1 buf o. unfold fuWritesH265, h265_fu, H265_FU_HEADER_SIZE. cbn [writeAll app]. rewrite Z.add_0_r.
  assert (E1 : u8 (Z.land b1 0xff) = b1).
  { apply Z.eqb_eq. apply (range_forall (fun b => u8 (Z.land b 0xff) =? b) 256); [by vm_compute|done]. }
  rewrite E1. change (Z.shiftl 1 7) with 128. change (Z.shiftl 1 6) with 64.
  fold (h265_header0 b0). fold (h265_header2 b0 (remaining =? nl -32 2) (remaining =? blen c)).
  change (?x :: ?y :: ?z :: c) with ([x] ++ [y] ++ [z] ++ c). rewrite <- put_bytes_seq. change (blen [_]) with 1.
  destruct (put_bytes buf o _) as [x1| |]; cbn [mbind res_bind]; [|done..]. rewrite <- put_bytes_seq. change (blen [_]) with 1.
  destruct (put_bytes x1 _ _) as [x2| |]; cbn [mbind res_bind]; [|done..]. rewrite <- put_bytes_seq. change (blen [_]) with 1.
  replace (o + 1 + 1) with (o + 2) by lia.
  destruct (put_bytes x2 _ _) as [x3| |]; cbn [mbind res_bind]; [|done..].
  replace (o + 2 + 1) with (o + 3) by lia. by destruct (put_bytes _ _ _).
Qed.

Lemma h265_nalu_bounds mtu n :
  3 < mtu -> n <> [] ->
  total (h265_nalu_frags mtu n) <= 4 * blen n /\ Z.of_nat (length (h265_nalu_frags mtu n)) <= blen n.
Proof.
  intros Hm Hn. assert (0 < blen n) by (destruct n; [done|unfold blen; simpl; lia]). unfold h265_nalu_frags.
  destruct (Z.leb_spec (blen n) mtu); [unfold total; simpl; lia|]. destruct n as [|b0 [|b1 body]]; [done|unfold total; simpl; lia|].
  pose proof (chunks_count (Z.to_nat (mtu - 3)) ltac:(lia) body). rewrite !blen_cons in *.
  rewrite (total_fu_frags 3), length_fu_frags, <- blen_concat, concat_chunks by (lia || apply h265_fu_len). lia.
Qed.

Lemma createPayloadFromNaluH265_produces mtu p n :
  3 < mtu < 2 ^ 32 -> n <> [] -> bytes_ok n -> blen n < 2 ^ 29 -> pld_bytes p (blen n) = Ok n ->
  produces (createPayloadFromNaluH265 mtu p (blen n)) (h265_nalu_frags mtu n).
Proof.
  intros Hm Hn Hbs Hl Hp out out' Hst. unfold createPayloadFromNaluH265.
  assert (Hnull : match out with Some pc => isNull (pc_subs pc) || isNull (pc_buffer pc) | None => false end = false)
    by (destruct out; [by eapply out_stored_nonnull|done]). rewrite Hnull. clear Hnull.
  unfold H265_FU_HEADER_SIZE. rewrite (proj2 (Z.ltb_lt 3 mtu)) by lia. cbn [negb].
  pose proof (h265_nalu_bounds mtu n ltac:(lia) Hn) as [Hb1 Hb2].
  destruct n as [|b0 t]; [done|]. pose proof (pld_bytes_cons p b0 t Hp) as [Hb Ht]. rewrite Hb. cbn [mbind res_bind].
  unfold h265_nalu_frags in *. destruct (Z.leb_spec (blen (b0 :: t)) mtu) as [Hle|Hgt].
  - pose proof (out_stored_one _ _ _ Hst) as H1. change (total [b0 :: t]) with (blen (b0 :: t) + 0). rewrite Z.add_0_r.
    destruct out as [pc|]; [|by subst out']. destruct H1 as (Hr & pc' & -> & _ & Hw). rewrite Hr. cbn [negb]. rewrite Hp.
    cbn [mbind res_bind]. by rewrite (Hw _ (covers_whole _)).
  - destruct t as [|b1 body]; [unfold blen in Hgt; simpl in Hgt; lia|]. pose proof (pld_bytes_cons _ _ _ Ht) as [Hb' Hbody].
    assert (E1 : pld p 1 = Ok b1) by (revert Hb'; unfold pld, padd; cbn [p_obj p_off]; by rewrite Z.add_0_r). rewrite E1.
    assert (Hbody' : pld_bytes (padd p 2) (blen body) = Ok body) by (revert Hbody; unfold padd; cbn [p_obj p_off]; by rewrite <- Z.add_assoc).
    rewrite !blen_cons in *. blen_facts.
    rewrite (u32_id (mtu - 3)), (u32_id (1 + (1 + blen body) - 2)) by (unfold is_u32; lia).
    replace (1 + (1 + blen body) - 2) with (blen body) by lia.
    assert (Hb1ok : is_u8 b1) by (by inversion Hbs as [|? ? _ Hbs']; inversion Hbs').
    set (ty := Z.shiftr (Z.land b0 126) 1). set (w := fuWritesH265 b0 b1 ty (1 + (1 + blen body))).
    assert (Hloop : fuLoop 3 w (Z.to_nat (1 + (1 + blen body))) p (mtu - 3) 2 (blen body) out 0 0 0 =
      Ok (STATUS_SUCCESS, out', 0 + total (fu_frags (h265_fu b0 b1) true (chunks (Z.to_nat (mtu - 3)) body)),
          0 + Z.of_nat (length (fu_frags (h265_fu b0 b1) true (chunks (Z.to_nat (mtu - 3)) body))))).
    { apply (fuLoop_spec 3 (blen body) w (h265_fu b0 b1)); try done; try lia; [apply h265_fu_len|].
      intros rem c. pose proof (fuWritesH265_covers b0 b1 (1 + (1 + blen body)) rem c Hb1ok) as Hc.
      rewrite (u32_id (1 + (1 + blen body) - 2)) in Hc by (unfold is_u32; lia). by replace (1 + (1 + blen body) - 2) with (blen body) in Hc by lia. }
    rewrite !Z.add_0_l in Hloop. destruct out as [pc|]; cbn [isNull mbind res_bind]; [fold w; by rewrite Hloop|].
    by rewrite (fuLoop_size 3 _ w), Hloop.
Qed.

Lemma payloadLoopH265_spec fuel mtu obj cur f ns so pc pc' :
  3 < mtu < 2 ^ 32 -> nalusOf f = Some ns -> f <> [] -> (length ns < fuel)%nat -> blen f < 2 ^ 29 ->
  pld_bytes (Ptr obj cur) (blen f) = Ok f -> Forall (fun n => n <> [] /\ bytes_ok n) ns ->
  advanced so pc (h265_frags mtu ns) pc' ->
  payloadLoopH265 fuel mtu obj cur (blen f) so pc = Ok (STATUS_SUCCESS, pc').
Proof.
  intros Hm. revert cur f ns pc. induction fuel as [|fuel IH]; intros cur f ns pc Hn Hf Hl Hf29 Hp Hns Ha; [lia|].
  cbn [payloadLoopH265]. unfold getNextNaluLengthH265.
  destruct (next_nalu obj cur f ns Hn Hf ltac:(lia) Hp) as (k & n & r & En & Hk & Hfl & Hcase). rewrite En. blen_facts.
  rewrite (u32_id (blen f - k)) by (unfold is_u32; lia). replace (blen f - k) with (blen n + blen r) by lia.
  destruct Hcase as [(-> & -> & ->)|(Hnz & ns' & -> & Hr & Hpn & Hpr)]; [by apply advanced_nil in Ha as ->|].
  rewrite (proj2 (Z.eqb_neq _ 0)) by done. pose proof (Forall_inv Hns) as [Hn0 Hnb]. pose proof (Forall_inv_tail Hns) as Hns'.
  unfold h265_frags in Ha. cbn [map concat] in Ha. apply advanced_app in Ha as (pc1 & Ha1 & Ha2).
  rewrite (emitPayload_spec so pc _ _ pc1 (createPayloadFromNaluH265_produces mtu _ n Hm Hn0 Hnb ltac:(lia) Hpn) Ha1). cbn [mbind res_bind].
  change (STATUS_FAILED STATUS_SUCCESS) with false. cbv match.
  rewrite (u32_id (blen n + blen r - blen n)) by (unfold is_u32; lia). replace (blen n + blen r - blen n) with (blen r) by lia.
  destruct (Z.eqb_spec (blen r) 0) as [E|E].
  - assert (r = []) as -> by (destruct r; [done|unfold blen in E; simpl in E; lia]). injection Hr as <-. by apply advanced_nil in Ha2 as ->.
  - apply (IH _ r ns'); try done; [by intros ->|simpl in Hl; lia|lia].
Qed.

(** ** Shape and pieces of the payloads *)

Lemma h265_frags_forall (P Q : list Z -> Prop) mtu ns :
  (forall n, Q n -> Forall P (h265_nalu_frags mtu n)) -> Forall Q ns -> Forall P (h265_frags mtu ns).
Proof. intros H Hns. unfold h265_frags. apply Forall_concat, List.Forall_map. by eapply Forall_impl; [|exact Hns]. Qed.

Lemma h265_nalu_shape mtu n :
  3 < mtu -> h265_nalu_ok n -> Forall (fun fr => h265_payload_ok fr /\ 0 < blen fr <= mtu) (h265_nalu_frags mtu n).
Proof.
  intros Hm Hn. unfold h265_nalu_frags. pose proof Hn as (Hne & Hb & _).
  assert (0 < blen n) by (destruct n; [done|unfold blen; simpl; lia]). destruct (Z.leb_spec (blen n) mtu) as [Hle|Hgt].
  - constructor; [|constructor]. split; [by constructor|lia].
  - destruct n as [|b0 [|b1 body]]; [constructor..|]. inversion Hb as [|? ? Hb0 Hb']. inversion Hb' as [|? ? Hb1 _]. subst.
    apply (fu_frags_forall (fun c => 0 < blen c <= mtu - 3)); [|eapply Forall_impl; [|apply chunks_size; lia]; cbv beta; lia].
    intros f l c Hc. rewrite h265_fu_len. unfold H265_FU_HEADER_SIZE. split; [|lia]. constructor; [done|done|].
    intros ->. change (blen []) with 0 in Hc. lia.
Qed.

Lemma h265_nalu_bytes mtu n : 3 < mtu -> bytes_ok n -> Forall bytes_ok (h265_nalu_frags mtu n).
Proof.
  intros Hm Hb. unfold h265_nalu_frags. destruct (blen n <=? mtu); [by constructor|].
  destruct n as [|b0 [|b1 body]]; [constructor..|]. inversion Hb as [|? ? Hb0 Hb']. inversion Hb' as [|? ? Hb1 Hbody]. subst.
  pose proof (chunks_bytes (Z.to_nat (mtu - 3)) ltac:(lia) body Hbody) as Hc. revert Hc. apply fu_frags_forall.
  intros f l c Hc. constructor; [apply u8_range|]. constructor; [done|]. constructor; [apply u8_range|done].
Qed.

Lemma h265_bounds mtu ns :
  3 < mtu -> Forall (fun n => n <> []) ns ->
  total (h265_frags mtu ns) <= 4 * total ns /\ Z.of_nat (length (h265_frags mtu ns)) <= total ns.
Proof.
  intros Hm. unfold h265_frags. induction 1 as [|n ns Hn _ IH]; [unfold total; simpl; lia|]. cbn [map concat].
  rewrite total_app, length_app, total_cons. pose proof (h265_nalu_bounds mtu n Hm Hn). lia.
Qed.

Lemma fu_pieces_h265 b0 b1 cs :
  is_u8 b0 -> concat (map h265_piece (fu_frags (h265_fu b0 b1) false cs)) = concat cs.
Proof.
  intros Hb. induction cs as [|c cs IH]; [done|]. cbn [fu_frags map concat]. rewrite IH. f_equal. by rewrite piece_fu_h265.
Qed.

Lemma nalu_pieces_h265 mtu n :
  3 < mtu -> h265_nalu_ok n -> concat (map h265_piece (h265_nalu_frags mtu n)) = h265StartCode ++ n.
Proof.
  intros Hm (Hne & Hb & Hfu). unfold h265_nalu_frags. destruct (Z.leb_spec (blen n) mtu) as [Hle|Hgt].
  - cbn [map concat]. rewrite app_nil_r. unfold h265_piece. by rewrite Hfu.
  - destruct n as [|b0 [|b1 body]]; [done|unfold blen in Hgt; simpl in Hgt; lia|]. inversion Hb as [|? ? Hb0 _]. subst.
    rewrite !blen_cons in Hgt. assert (Hbody : body <> []) by (intros ->; change (blen []) with 0 in Hgt; lia).
    rewrite <- (concat_chunks (Z.to_nat (mtu - 3)) ltac:(lia) body) at 2.
    rewrite (chunks_step (Z.to_nat (mtu - 3)) ltac:(lia) body Hbody). cbn [fu_frags map concat].
    rewrite fu_pieces_h265, piece_fu_h265 by done. by rewrite <- (assoc_L (++)).
Qed.

(** The stream with a long start code before every unit. *)
Definition h265_image (ns : list (list Z)) : list Z := concat (map (fun n => h265StartCode ++ n) ns).

Lemma h265_pieces mtu ns :
  3 < mtu -> Forall h265_nalu_ok ns -> concat (map h265_piece (h265_frags mtu ns)) = h265_image ns.
Proof.
  intros Hm. unfold h265_frags, h265_image. induction 1 as [|n ns Hn _ IH]; [done|]. cbn [map concat].
  by rewrite map_app, concat_app, IH, nalu_pieces_h265.
Qed.

Lemma h265_nalu_starts mtu n :
  3 < mtu -> h265_nalu_ok n -> exists fr frs, h265_nalu_frags mtu n = fr :: frs /\ h265_starts fr = true.
Proof.
  intros Hm (Hne & Hb & Hfu). unfold h265_nalu_frags. destruct (Z.leb_spec (blen n) mtu) as [Hle|Hgt].
  - exists n, []. split; [done|]. unfold h265_starts. by rewrite Hfu.
  - destruct n as [|b0 [|b1 body]]; [done|unfold blen in Hgt; simpl in Hgt; lia|]. inversion Hb as [|? ? Hb0 _]. subst.
    rewrite !blen_cons in Hgt. assert (Hbody : body <> []) by (intros ->; change (blen []) with 0 in Hgt; lia).
    rewrite (chunks_step (Z.to_nat (mtu - 3)) ltac:(lia) body Hbody). cbn [fu_frags]. eexists _, _. split; [done|]. by apply starts_fu.
Qed.

(** ** Depacketisation *)

Definition deliversH265 (p : ptr) (fr : list Z) : Prop :=
  forall dst cap first data, receives dst cap (h265_piece fr) data ->
    depayH265FromRtpPayload (Some p) (blen fr) dst (Some cap) (Some first) =
    Ok {| do_status := STATUS_SUCCESS; do_data := data; do_length := Some (blen (h265_piece fr));
          do_isStart := Some (h265_starts fr) |}.

Lemma deliversH265_single p n :
  h265_nalu_ok n -> blen n < 2 ^ 31 -> pld_bytes p (blen n) = Ok n -> deliversH265 p n.
Proof.
  intros (Hne & Hb & Hfu) Hl Hp dst cap first data Hr. unfold depayH265FromRtpPayload. unfold receives in Hr.
  assert (Epc : h265_piece n = h265StartCode ++ n) by (unfold h265_piece; by rewrite Hfu).
  assert (Est : h265_starts n = true) by (unfold h265_starts; by rewrite Hfu). rewrite Epc in *. rewrite Est.
  destruct n as [|b t]; [done|]. pose proof (pld_bytes_cons p b t Hp) as [Hb0 _].
  assert (Hpos : 0 < blen (b :: t)) by (rewrite blen_cons; blen_facts; lia). remember (b :: t) as n eqn:En.
  rewrite (proj2 (Z.eqb_neq _ 0)) by lia. rewrite Hb0. cbn [mbind res_bind].
  assert (Hfu' : (Z.land (Z.shiftr b 1) 63 =? H265_FU_TYPE_ID) = false) by (by rewrite En in Hfu). rewrite Hfu'. cbn [mbind res_bind].
  rewrite blen_app in *. change (blen h265StartCode) with 4 in *. rewrite (u32_id (blen n + 4)), (u32_id (blen n - 0)) by (unfold is_u32; lia).
  rewrite Z.sub_0_r. replace (blen n + 4) with (4 + blen n) by lia.
  destruct dst as [d|]; [|by rewrite Hr]. destruct Hr as (Hcp & x & -> & Hput). rewrite (proj2 (Z.leb_le _ _)) by done. cbn [negb].
  apply put_bytes_split in Hput as (m & E1 & E2). rewrite E1. cbn [mbind res_bind]. 
  assert (Hp0 : pld_bytes (padd p 0) (blen n) = Ok n) by (unfold padd, pld_bytes in *; cbn [p_obj p_off]; by rewrite Z.add_0_r).
  rewrite Hp0. cbn [mbind res_bind]. change (blen h265StartCode) with 4 in E2. by rewrite E2.
Qed.

Lemma deliversH265_fu p b0 b1 f l c :
  is_u8 b0 -> is_u8 b1 -> c <> [] -> let fr := h265_fu b0 b1 f l c in
  blen fr < 2 ^ 31 -> pld_bytes p (blen fr) = Ok fr -> deliversH265 p fr.
Proof.
  intros Hb0 Hb1 Hc fr Hl Hp dst cap first data Hr. unfold depayH265FromRtpPayload. unfold receives in Hr. unfold fr in *. clear fr.
  rewrite starts_fu, piece_fu_h265 in * by done. pose proof (h265_header_bits b0 f l Hb0) as (Ht & Hs & Hbb).
  pose proof (h265_fu_len b0 b1 f l c) as Hfl. unfold h265_fu in Hp. cbn [app] in Hp.
  pose proof (pld_bytes_cons _ _ _ Hp) as [E0 Hp1]. pose proof (pld_bytes_cons _ _ _ Hp1) as [E1 Hp2]. pose proof (pld_bytes_cons _ _ _ Hp2) as [E2 Hp3].
  assert (Hp3' : pld_bytes (padd p 3) (blen c) = Ok c) by (revert Hp3; unfold padd; cbn [p_obj p_off]; by rewrite <- !Z.add_assoc).
  assert (Hc0 : 0 < blen c) by (destruct c; [done|unfold blen; simpl; lia]). unfold H265_FU_HEADER_SIZE in *.
  rewrite Hfl in *. rewrite (proj2 (Z.eqb_neq _ 0)) by lia. rewrite E0. cbn [mbind res_bind]. rewrite Ht.
  assert (E2' : pld p 2 = Ok (h265_header2 b0 f l)) by (rewrite <- E2; unfold pld, padd; cbn [p_obj p_off]; f_equal; lia).
  assert (E1' : pld p 1 = Ok b1) by (rewrite <- E1; unfold pld, padd; cbn [p_obj p_off]; f_equal; lia).
  rewrite E2'. cbn [mbind res_bind]. rewrite Hs, negb_involutive. rewrite (u32_id (3 + blen c - 3)) by (unfold is_u32; lia).
  replace (3 + blen c - 3) with (blen c) by lia. change (blen h265StartCode) with 4. destruct f.
  + rewrite (u32_id (blen c + 2)), (u32_id (blen c + 2 + 4)) by (unfold is_u32; lia).
    rewrite blen_app, !blen_cons in *. change (blen h265StartCode) with 4 in *. replace (4 + (1 + (1 + blen c))) with (blen c + 2 + 4) by lia.
    destruct dst as [d|]; [|by rewrite Hr]. destruct Hr as (Hcp & x & -> & Hput). rewrite (proj2 (Z.leb_le _ _)) by lia. cbn [negb].
    apply put_bytes_split in Hput as (m & F1 & F2). rewrite F1. cbn [mbind res_bind]. unfold put8. rewrite Hbb, E1'.
    change (b0 :: b1 :: c) with ([b0] ++ [b1] ++ c) in F2. apply put_bytes_split in F2 as (m2 & F2 & F3). apply put_bytes_split in F3 as (m3 & F3 & F4).
    change (blen h265StartCode) with 4 in *. change (blen [_]) with 1 in *. rewrite F2. cbn [mbind res_bind]. rewrite u8_id by done.
    replace (p_off d + 5) with (p_off d + 4 + 1) by lia. rewrite F3. cbn [mbind res_bind]. rewrite Hp3'. cbn [mbind res_bind].
    replace (p_off d + 2 + 4) with (p_off d + 4 + 1 + 1) by lia. by rewrite F4.
  + destruct dst as [d|]; [|by rewrite Hr]. destruct Hr as (Hcp & x & -> & Hput). rewrite (proj2 (Z.leb_le _ _)) by lia. cbn [negb mbind res_bind].
    rewrite Hp3'. cbn [mbind res_bind]. by rewrite Hput.
Qed.

Lemma delivers_h265 p fr :
  h265_payload_ok fr -> blen fr < 2 ^ 31 -> pld_bytes p (blen fr) = Ok fr -> deliversH265 p fr.
Proof. intros [] Hl Hp; [by apply deliversH265_single|by apply deliversH265_fu]. Qed.

(** ** The instance *)

Definition h265_frame_ok (mtu : Z) (f : list Z) : Prop :=
  3 < mtu < 2 ^ 31 /\ blen f < 2 ^ 29 /\ exists ns, nalusOf f = Some ns /\ ns <> [] /\ Forall h265_nalu_ok ns.

Definition h265_fragments (mtu : Z) (f : list Z) : list (list Z) := h265_frags mtu (default [] (nalusOf f)).

Lemma h265_create mtu f ns buf subs len cnt pc' :
  3 < mtu < 2 ^ 31 -> blen f < 2 ^ 29 -> nalusOf f = Some ns -> ns <> [] -> Forall h265_nalu_ok ns ->
  negb (isNull buf) && isNull subs = false ->
  advanced (isNull buf) (newCursor buf subs len cnt) (h265_frags mtu ns) pc' ->
  createPayloadForH265 mtu (Some f) (blen f) buf (Some len) subs (Some cnt) =
  cursorDone STATUS_SUCCESS buf subs pc' (Some len) (Some cnt).
Proof.
  intros Hm Hl Hn Hne Hns Hnull Ha. unfold createPayloadForH265. rewrite Hnull. unfold H265_FU_HEADER_SIZE.
  rewrite (proj2 (Z.ltb_lt 3 mtu)) by lia. cbn [negb].
  rewrite (payloadLoopH265_spec _ mtu f 0 f ns (isNull buf) _ pc'); try done; [lia|by intros ->; injection Hn as <-| |by apply pld_bytes_whole|].
  - pose proof (nalus_total f ns Hn). assert (Z.of_nat (length ns) <= total ns); [|lia].
    apply count_total. eapply Forall_impl; [|exact Hns]. by intros n (? & _).
  - eapply Forall_impl; [|exact Hns]. by intros n (? & ? & _).
Qed.

#[export] Program Instance Payloader_H265 : Payloader createPayloadForH265 depayH265FromRtpPayload := {|
  frame_ok := h265_frame_ok;
  fragments := h265_fragments;
  frag_ok fr := h265_payload_ok fr /\ blen fr < 2 ^ 31;
  piece _ := h265_piece;
  starts := h265_starts;
  image f := h265_image (default [] (nalusOf f));
|}.
Next Obligation.
  intros mtu f (Hm & Hl & ns & Hn & Hne & Hns). unfold h265_fragments. rewrite Hn. cbn [default from_option id].
  assert (Hne' : Forall (fun n => n <> []) ns) by (eapply Forall_impl; [|exact Hns]; by intros n (? & _)).
  pose proof (h265_bounds mtu ns ltac:(lia) Hne') as [Hb _]. pose proof (nalus_total f ns Hn).
  destruct ns as [|n ns]; [done|]. destruct (h265_nalu_starts mtu n ltac:(lia) (Forall_inv Hns)) as (fr0 & frs0 & E & Hst). split_and!.
  - unfold h265_frags. cbn [map concat]. by rewrite E.
  - lia.
  - apply (h265_frags_forall _ h265_nalu_ok); [|done]. intros m Hm'. eapply Forall_impl; [|apply h265_nalu_shape; [lia|done]].
    intros fr [Hok Hfl]. split; [split; [done|lia]|done].
  - unfold h265_frags. cbn [map concat]. rewrite E. by intros fr [= <-].
Qed.
Next Obligation.
  intros mtu f l c (Hm & Hl & ns & Hn & Hne & Hns). unfold h265_fragments. rewrite Hn. cbn [default from_option id].
  assert (Hne' : Forall (fun n => n <> []) ns) by (eapply Forall_impl; [|exact Hns]; by intros n (? & _)).
  pose proof (h265_bounds mtu ns ltac:(lia) Hne') as [Hb1 Hb2]. pose proof (nalus_total f ns Hn).
  destruct (cursor_size l c (h265_frags mtu ns)) as (pc' & Ha & Ed); [lia..|].
  by rewrite (h265_create mtu f ns None None l c pc').
Qed.
Next Obligation.
  cbv zeta. intros mtu f buf subs (Hm & Hl & ns & Hn & Hne & Hns). unfold h265_fragments. rewrite Hn. cbn [default from_option id].
  intros Hbuf Hsub. assert (Hne' : Forall (fun n => n <> []) ns) by (eapply Forall_impl; [|exact Hns]; by intros n (? & _)).
  pose proof (h265_bounds mtu ns ltac:(lia) Hne') as [Hb1 Hb2]. pose proof (nalus_total f ns Hn).
  destruct (cursor_fill buf subs (h265_frags mtu ns)) as (pc' & Ha & Ed); [lia..|done|].
  by rewrite (h265_create mtu f ns (Some buf) (Some subs) _ _ pc').
Qed.
Next Obligation. intros p fr cap first [Hok Hl] _ Hp. by apply (delivers_h265 p fr Hok Hl Hp None cap first None). Qed.
Next Obligation.
  intros p fr d data cap first [Hok Hl] _ Hp Hc Hput. apply (delivers_h265 p fr Hok Hl Hp (Some d) cap first (Some data)).
  split; [done|]. by exists data.
Qed.
Next Obligation.
  intros mtu f (Hm & Hl & ns & Hn & Hne & Hns). unfold h265_fragments. rewrite Hn. cbn [default from_option id].
  rewrite (imap_const h265_piece). apply h265_pieces; [lia|done].
Qed.
Next Obligation.
  intros mtu f (Hm & Hl & ns & Hn & Hne & Hns) Hb. unfold h265_fragments. rewrite Hn. cbn [default from_option id].
  apply (h265_frags_forall _ bytes_ok); [intros n Hn'; apply h265_nalu_bytes; [lia|done]|]. by eapply nalus_bytes.
Qed.

(** The units of the image are the units themselves, trailing zeros included. *)
Lemma nalusOf_h265_image ns :
  Forall (fun n => n <> [] /\ forall j, ~ hit n j) ns -> nalusOf (h265_image ns) = Some ns.
Proof.
  induction 1 as [|n ns (Hne & Hc) Hns IH]; [done|]. unfold h265_image. cbn [map concat]. fold (h265_image ns). rewrite <- (assoc_L (++)).
  assert (Ho : open_code (h265StartCode ++ n ++ h265_image ns) = Some (4, n ++ h265_image ns)) by done.
  rewrite (nalusOf_step _ _ _ Ho) by (destruct n; done).
  assert (Hs : split_nalu (n ++ h265_image ns) = (n, h265_image ns)).
  { destruct ns as [|n' ns']; [unfold h265_image; cbn [map concat]; rewrite app_nil_r; by apply split_nalu_none|].
    unfold h265_image. cbn [map concat]. rewrite <- (assoc_L (++)). by apply split_nalu_unit4. }
  rewrite Hs. cbn [fst snd]. by rewrite IH.
Qed.

(** C10. H.265 round trip.  Packetising an Annex-B frame of any number of NAL units (of any
    type but that of fragmentation units) succeeds for every MTU above three; every payload
    fits the MTU; and depacketising the payloads in order yields a stream with exactly the
    NAL units of the frame, whether they travelled alone or in fragments. *)
Theorem h265_roundtrip mtu f ns
  (Hf : h265_frame_ok mtu f) (Hn : nalusOf f = Some ns) :
  exists frs g, packetise createPayloadForH265 mtu f = Ok frs /\ Forall (fun fr => 0 < blen fr <= mtu) frs /\
    depacketise depayH265FromRtpPayload true frs = Ok g /\ nalusOf g = Some ns.
Proof.
  destruct (roundtrip_image (P := Payloader_H265) mtu f Hf) as (frs & Ep & Hs & Ed); [destruct Hf as (? & _); lia|].
  exists frs, (h265_image (default [] (nalusOf f))). split; [done|]. split; [done|]. split; [done|]. rewrite Hn. cbn [default from_option id].
  apply nalusOf_h265_image. destruct Hf as (_ & _ & ns' & Hn' & _ & Hok). assert (ns' = ns) as -> by congruence.
  pose proof (nalusOf_clean f ns Hn) as Hc. rewrite Forall_forall in Hok, Hc |- *. intros n Hin.
  split; [by apply Hok|by apply Hc].
Qed.

(** A parameter set and a slice of 9 bytes that ends in a zero, for an MTU of 6. *)
Definition ex_h265 : list Z := [0; 0; 1; 0x40; 1; 7; 0; 0; 0; 1; 0x26; 1; 1; 2; 3; 4; 5; 6; 0].
Definition ex_nalus_h265 : list (list Z) := [[0x40; 1; 7]; [0x26; 1; 1; 2; 3; 4; 5; 6; 0]].

Lemma h265_roundtrip_witness :
  nalusOf ex_h265 = Some ex_nalus_h265 /\
  exists frs g, packetise createPayloadForH265 6 ex_h265 = Ok frs /\ Forall (fun fr => 0 < blen fr <= 6) frs /\
    depacketise depayH265FromRtpPayload true frs = Ok g /\ nalusOf g = Some ex_nalus_h265.
Proof.
  assert (Hn : nalusOf ex_h265 = Some ex_nalus_h265) by reflexivity. split; [exact Hn|].
  refine (h265_roundtrip 6 ex_h265 ex_nalus_h265 _ Hn). split; [lia|]. split; [reflexivity|].
  exists ex_nalus_h265. split; [exact Hn|]. split; [discriminate|].
  repeat (apply Forall_cons_2; [split; [discriminate|]; split; [apply bytes_ok_check; reflexivity|reflexivity]|]). apply Forall_nil_2.
Defined.
