(* ===== verification/JitterBuffer.v ===== *)
(** * The jitter buffer (src/source/PeerConnection/JitterBuffer.c, JitterBuffer.h)

    Received RTP packets are kept in a hash table under their sequence number.  Each
    push moves the head and tail of the window, stores the packet or discards it as too
    late, and parses the window: complete frames are handed to the frame-ready callback
    and removed, incomplete ones older than the latency are dropped.  Computations run
    on a world: the buffer and the log of callback calls and of freed packets.  The
    depacketiser and the callbacks are parameters, as they are function pointers of the
    buffer; a logged callback call carries the buffer the callback sees. *)

From stdpp Require Import fin_maps gmap.
From S2P Require Import Prelude RtpPacket HashTable Payloaders.

Definition MAX_OUT_OF_ORDER_PACKET_DIFFERENCE : Z := 512.
Definition JITTER_BUFFER_HASH_TABLE_BUCKET_COUNT : Z := 3000.
Definition JITTER_BUFFER_HASH_TABLE_BUCKET_LENGTH : Z := 2.
Definition MAX_RTP_SEQUENCE_NUM : Z := MAX_UINT16.
Definition MAX_RTP_TIMESTAMP : Z := MAX_UINT32.
Definition DEFAULT_JITTER_BUFFER_MAX_LATENCY : Z := 2000 * 10000.
Definition TICKS_PER_SECOND : Z := 10000000.
Definition UINT16_DEC (a : Z) : Z := u16 (a - 1).

(** The fields of JitterBufferInternal and of its base that the buffer itself uses; the
    transit and jitter statistics of the base are written by its owner only. *)
Set Primitive Projections.
Record JitterBuffer : Type := {
  clockRate : Z;
  tailTimestamp : Z;
  headSequenceNumber : Z;
  tailSequenceNumber : Z;
  headTimestamp : Z;
  maxLatency : Z;
  started : bool;
  firstFrameProcessed : bool;
  sequenceNumberOverflowState : bool;
  timestampOverFlowState : bool;
  alwaysSinglePacketFrames : bool;
  pPkgBufferHashTable : HashTable RtpPacket;
}.

Inductive JbEvent : Type :=
| EvFrameReady (b : JitterBuffer) (startIndex endIndex frameSize : Z)
| EvFrameDropped (b : JitterBuffer) (startIndex endIndex timestamp : Z)
| EvFreePacket (p : RtpPacket).

Record JbWorld : Type := { jb : JitterBuffer; jbLog : list JbEvent }.
Unset Primitive Projections.

#[export] Instance upd_jb : Update jb. Proof. derive_update. Defined.
#[export] Instance upd_jbLog : Update jbLog. Proof. derive_update. Defined.
#[export] Instance upd_tailTimestamp : Update tailTimestamp. Proof. derive_update. Defined.
#[export] Instance upd_headSequenceNumber : Update headSequenceNumber. Proof. derive_update. Defined.
#[export] Instance upd_tailSequenceNumber : Update tailSequenceNumber. Proof. derive_update. Defined.
#[export] Instance upd_headTimestamp : Update headTimestamp. Proof. derive_update. Defined.
#[export] Instance upd_started : Update started. Proof. derive_update. Defined.
#[export] Instance upd_firstFrameProcessed : Update firstFrameProcessed. Proof. derive_update. Defined.
#[export] Instance upd_sequenceNumberOverflowState : Update sequenceNumberOverflowState. Proof. derive_update. Defined.
#[export] Instance upd_timestampOverFlowState : Update timestampOverFlowState. Proof. derive_update. Defined.
#[export] Instance upd_pPkgBufferHashTable : Update pPkgBufferHashTable. Proof. derive_update. Defined.

Definition seqOf (p : RtpPacket) : Z := sequenceNumber (header p).
Definition tsOf (p : RtpPacket) : Z := timestamp (header p).

(** ** createJitterBuffer *)

(** The callbacks are not NULL; [mem] and [memTable] are the outcomes of the two
    allocations.  A failure releases what was allocated. *)
Definition createJitterBuffer (mem memTable : bool) (latency rate : Z) (single : bool) : res JitterBuffer :=
  CHK negb (rate =? 0) else STATUS_INVALID_ARG ;;
  CHK mem else STATUS_NOT_ENOUGH_MEMORY ;;
  let latency := if latency =? 0 then DEFAULT_JITTER_BUFFER_MAX_LATENCY else latency in
  let latency := u64 (latency * rate) / TICKS_PER_SECOND in
  CHK latency <? MAX_RTP_TIMESTAMP else STATUS_INVALID_ARG ;;
  ht ← hashTableCreateWithParams memTable JITTER_BUFFER_HASH_TABLE_BUCKET_COUNT
         JITTER_BUFFER_HASH_TABLE_BUCKET_LENGTH;
  Ok {| clockRate := rate; tailTimestamp := 0; headSequenceNumber := MAX_RTP_SEQUENCE_NUM;
        tailSequenceNumber := MAX_RTP_SEQUENCE_NUM; headTimestamp := MAX_UINT32; maxLatency := latency;
        started := false; firstFrameProcessed := false; sequenceNumberOverflowState := false;
        timestampOverFlowState := false; alwaysSinglePacketFrames := single; pPkgBufferHashTable := ht |}.

(** ** The window checks

    Each returns its BOOL and the buffer after its assignments. *)

Definition underflowPossible (b : JitterBuffer) (p : RtpPacket) : bool :=
  if headTimestamp b =? tsOf p then true else
  let seqNoDifference := u32 (MAX_RTP_SEQUENCE_NUM - seqOf p + headSequenceNumber b) in
  let timestampDifference :=
    if tsOf p <? headTimestamp b then headTimestamp b - tsOf p
    else MAX_RTP_TIMESTAMP - tsOf p +32 headTimestamp b in
  let maxTimePassed :=
    if MAX_RTP_TIMESTAMP / clockRate b <=? seqNoDifference then MAX_RTP_TIMESTAMP
    else clockRate b *32 seqNoDifference in
  timestampDifference <=? maxTimePassed.

Definition headCheckingAllowed (b : JitterBuffer) (p : RtpPacket) : bool :=
  negb (firstFrameProcessed b) || (headTimestamp b =? tsOf p).

Definition headSequenceNumberCheck (b : JitterBuffer) (p : RtpPacket) : bool * JitterBuffer :=
  let minimumHead :=
    if MAX_OUT_OF_ORDER_PACKET_DIFFERENCE <=? headSequenceNumber b
    then headSequenceNumber b - MAX_OUT_OF_ORDER_PACKET_DIFFERENCE else 0 in
  if headSequenceNumber b =? seqOf p then (true, b)
  else if headCheckingAllowed b p then
    if sequenceNumberOverflowState b then
      if (tailSequenceNumber b <? seqOf p) && (seqOf p <? headSequenceNumber b) && (minimumHead <=? seqOf p)
      then (true, b <| headSequenceNumber := seqOf p |>) else (false, b)
    else if (seqOf p <? headSequenceNumber b) && (minimumHead <=? seqOf p)
      then (true, b <| headSequenceNumber := seqOf p |>) else (false, b)
  else (false, b).

Definition tailSequenceNumberCheck (b : JitterBuffer) (p : RtpPacket) : bool * JitterBuffer :=
  if tailSequenceNumber b =? seqOf p then (true, b)
  else if (tailSequenceNumber b <? seqOf p) &&
          (negb (sequenceNumberOverflowState b) || (seqOf p <? headSequenceNumber b))
  then (true, b <| tailSequenceNumber := seqOf p |>)
  else (false, b).

Definition enterSequenceNumberOverflowCheck (b : JitterBuffer) (p : RtpPacket) : bool * JitterBuffer :=
  let packetsUntilOverflow := u16 (MAX_RTP_SEQUENCE_NUM - tailSequenceNumber b) in
  let '(overflow, underflow) :=
    if sequenceNumberOverflowState b then (false, false)
    else if packetsUntilOverflow <=? MAX_OUT_OF_ORDER_PACKET_DIFFERENCE then
      ((seqOf p <? tailSequenceNumber b) &&
       (seqOf p <=? MAX_OUT_OF_ORDER_PACKET_DIFFERENCE - packetsUntilOverflow), false)
    else
      (false, headCheckingAllowed b p &&
              (headSequenceNumber b <? MAX_OUT_OF_ORDER_PACKET_DIFFERENCE) &&
              (MAX_UINT16 - (MAX_OUT_OF_ORDER_PACKET_DIFFERENCE - headSequenceNumber b) <=? seqOf p) &&
              underflowPossible b p) in
  let b := if overflow : bool
           then b <| sequenceNumberOverflowState := true |> <| tailSequenceNumber := seqOf p |>
                  <| tailTimestamp := tsOf p |> else b in
  let b := if underflow : bool
           then b <| sequenceNumberOverflowState := true |> <| headSequenceNumber := seqOf p |>
                  <| headTimestamp := tsOf p |> else b in
  (overflow || underflow, b).

Definition enterTimestampOverflowCheck (b : JitterBuffer) (p : RtpPacket) : bool * JitterBuffer :=
  let '(overflow, underflow, b) :=
    if timestampOverFlowState b then (false, false, b)
    else if (tsOf p <? headTimestamp b) && (tsOf p <? tailTimestamp b) then
      let '(r, b) := tailSequenceNumberCheck b p in (r, false, b)
    else if (headTimestamp b <? tsOf p) && (tailTimestamp b <? tsOf p) then
      let prevHead := headSequenceNumber b in
      let '(r, b) := headSequenceNumberCheck b p in
      (false, r && negb (headSequenceNumber b =? prevHead), b)
    else (false, false, b) in
  let b :=
    if overflow : bool then b <| timestampOverFlowState := true |> <| tailTimestamp := tsOf p |>
    else if underflow : bool then b <| timestampOverFlowState := true |> <| headTimestamp := tsOf p |>
    else b in
  (underflow || overflow, b).

Definition exitSequenceNumberOverflowCheck (b : JitterBuffer) : JitterBuffer :=
  if sequenceNumberOverflowState b && (headSequenceNumber b <=? tailSequenceNumber b)
  then b <| sequenceNumberOverflowState := false |> else b.

Definition exitTimestampOverflowCheck (b : JitterBuffer) : JitterBuffer :=
  if timestampOverFlowState b && (headTimestamp b <=? tailTimestamp b)
  then b <| timestampOverFlowState := false |> else b.

Definition headTimestampCheck (b : JitterBuffer) (p : RtpPacket) : bool * JitterBuffer :=
  let take_ := 
    headCheckingAllowed b p &&
    (if timestampOverFlowState b then (tsOf p <? headTimestamp b) && (tailTimestamp b <? tsOf p)
     else (tsOf p <? headTimestamp b) || (tailTimestamp b <? tsOf p)) in
  if take_ then
    let '(r, b) := headSequenceNumberCheck b p in
    if r : bool then (true, b <| headTimestamp := tsOf p |>) else (false, b)
  else (false, b).

Definition tailTimestampCheck (b : JitterBuffer) (p : RtpPacket) : bool * JitterBuffer :=
  if (tailTimestamp b <? tsOf p) && (negb (timestampOverFlowState b) || (tsOf p <? headTimestamp b)) then
    let '(r, b) := tailSequenceNumberCheck b p in
    if r : bool then (true, b <| tailTimestamp := tsOf p |>) else (false, b)
  else (false, b).

Definition withinLatencyTolerance (b : JitterBuffer) (p : RtpPacket) : bool * JitterBuffer :=
  let '(r, b) := tailTimestampCheck b p in
  if r || (tailTimestamp b =? tsOf p) then (true, b)
  else if timestampOverFlowState b then
    let minimumTimestamp :=
      if tailTimestamp b <? maxLatency b
      then u32 (MAX_RTP_TIMESTAMP - (maxLatency b - tailTimestamp b)) else 0 in
    ((tsOf p <? tailTimestamp b) || (headTimestamp b <? tsOf p) || (minimumTimestamp <=? tsOf p), b)
  else
    (((tsOf p <? maxLatency b) && (tailTimestamp b <=? maxLatency b)) ||
     (u64 (tailTimestamp b - maxLatency b) <=? tsOf p), b).

(** ** Operations on the world *)

(** A call that returns a status or a value; memory faults end the computation. *)
Definition attempt {S A} (m : res A) : ST S (STATUS + A) := fun s =>
  match m with Ok a => Some (inr a, s) | Err e => Some (inl e, s) | Fault => None end.

(** CHK_STATUS on a call with a value: an error is returned, [mk] says as what. *)
Notation "'TRY' x ← m 'CATCH' mk ; k" :=
  (r ← m; match r with inl e => mret (mk e) | inr x => k end)
  (at level 20, x name, m at level 100, mk at level 100, k at level 200, right associativity).

Section Operations.
Variable depay : DepayRtpPayloadFunc.
Variables onFrameReady onFrameDropped : JitterBuffer -> Z -> Z -> Z -> STATUS.

Definition setJb (f : JitterBuffer -> JitterBuffer) : ST JbWorld unit := modify (fun w => w <| jb := f (jb w) |>).
Definition logEv (e : JbEvent) : ST JbWorld unit := modify (fun w => w <| jbLog := jbLog w ++ [e] |>).
Abbreviation getJ f := (gets (fun w : JbWorld => f (jb w))).

Definition freeRtpPacket (p : RtpPacket) : ST JbWorld unit := logEv (EvFreePacket p).

(** A window check, run for its assignments. *)
Definition check (f : JitterBuffer -> RtpPacket -> bool * JitterBuffer) (p : RtpPacket) : ST JbWorld bool :=
  b ← gets (fun w => jb w);
  setJb (fun _ => (f b p).2);;
  mret (f b p).1.

Definition getEntry (index : Z) : ST JbWorld (STATUS + RtpPacket) :=
  b ← gets (fun w => jb w);
  attempt (hashTableGet (Some (pPkgBufferHashTable b)) index).
Definition hasEntryAt (index : Z) : ST JbWorld (STATUS + bool) :=
  b ← gets (fun w => jb w);
  attempt (hashTableContains (Some (pPkgBufferHashTable b)) index).

(** The table after an operation on it. *)
Definition updTable (m : res (HashTable RtpPacket)) : ST JbWorld STATUS :=
  TRY ht ← attempt m CATCH id;
  setJb (fun b => b <| pPkgBufferHashTable := ht |>);;
  mret STATUS_SUCCESS.
Definition removeEntry (index : Z) : ST JbWorld STATUS :=
  b ← gets (fun w => jb w);
  updTable (hashTableRemove (Some (pPkgBufferHashTable b)) index).

Definition callReady (startIndex endIndex frameSize : Z) : ST JbWorld STATUS :=
  b ← gets (fun w => jb w);
  logEv (EvFrameReady b startIndex endIndex frameSize);;
  mret (onFrameReady b startIndex endIndex frameSize).
Definition callDropped (startIndex endIndex ts : Z) : ST JbWorld STATUS :=
  b ← gets (fun w => jb w);
  logEv (EvFrameDropped b startIndex endIndex ts);;
  mret (onFrameDropped b startIndex endIndex ts).

(** *** defaultDropBufferData

    The loops over sequence numbers wrap around at 2^16, so they run at most 2^16
    times; this bounds their fuel. *)
Fixpoint dropLoop (fuel : nat) (index endIndex : Z) : ST JbWorld STATUS :=
  if UINT16_DEC index =? endIndex then mret STATUS_SUCCESS else
  match fuel with
  | O => fun _ => None
  | S fuel =>
      TRY hasEntry ← hasEntryAt index CATCH id;
      st ← (if hasEntry : bool then
              TRY p ← getEntry index CATCH id;
              freeRtpPacket p;;
              removeEntry index
            else mret STATUS_SUCCESS);
      if STATUS_FAILED st then mret st else dropLoop fuel (u16 (index + 1)) endIndex
  end.

Definition defaultDropBufferData (startIndex endIndex nextTimestamp : Z) : ST JbWorld STATUS :=
  st ← dropLoop (Z.to_nat 65536) startIndex endIndex;
  if STATUS_FAILED st then mret st else
  setJb (fun b => b <| headTimestamp := nextTimestamp |> <| headSequenceNumber := u16 (endIndex + 1) |>);;
  setJb exitTimestampOverflowCheck;;
  setJb exitSequenceNumberOverflowCheck;;
  mret STATUS_SUCCESS.

(** *** jitterBufferInternalParse

    The local variables of the function, and how one iteration of a loop ends. *)
Set Primitive Projections.
Record ParseVars : Type := {
  headFrameIsContiguous : bool;
  startDropIndex : Z;
  curFrameSize : Z;
  sizeCalcIsFirst : bool;
  partialFrameSize : Z;
  containStartForEarliestFrame : bool;
  lastNonNullIndex : Z;
  lastHeadFrameSeqNum : Z;
  seenHeadFramePacket : bool;
  firstGapIndex : Z;
  sawGapSinceLastFrame : bool;
  headFrameEnded : bool;
}.
Unset Primitive Projections.
#[export] Instance upd_headFrameIsContiguous : Update headFrameIsContiguous. Proof. derive_update. Defined.
#[export] Instance upd_startDropIndex : Update startDropIndex. Proof. derive_update. Defined.
#[export] Instance upd_curFrameSize : Update curFrameSize. Proof. derive_update. Defined.
#[export] Instance upd_sizeCalcIsFirst : Update sizeCalcIsFirst. Proof. derive_update. Defined.
#[export] Instance upd_partialFrameSize : Update partialFrameSize. Proof. derive_update. Defined.
#[export] Instance upd_containStartForEarliestFrame : Update containStartForEarliestFrame. Proof. derive_update. Defined.
#[export] Instance upd_lastNonNullIndex : Update lastNonNullIndex. Proof. derive_update. Defined.
#[export] Instance upd_lastHeadFrameSeqNum : Update lastHeadFrameSeqNum. Proof. derive_update. Defined.
#[export] Instance upd_seenHeadFramePacket : Update seenHeadFramePacket. Proof. derive_update. Defined.
#[export] Instance upd_firstGapIndex : Update firstGapIndex. Proof. derive_update. Defined.
#[export] Instance upd_sawGapSinceLastFrame : Update sawGapSinceLastFrame. Proof. derive_update. Defined.
#[export] Instance upd_headFrameEnded : Update headFrameEnded. Proof. derive_update. Defined.

Inductive Outcome : Type :=
| Next (v : ParseVars)
| Break (v : ParseVars)
| Return (st : STATUS).

Definition endsFrame (b : JitterBuffer) (p : RtpPacket) : bool := marker (header p) || alwaysSinglePacketFrames b.

(** What a packet at [index] of another timestamp than the head's does to the variables:
    the head frame is delivered, dropped or kept waiting, or was empty. *)
Definition newTimestamp (bufferClosed : bool) (earliest index : Z) (p : RtpPacket) (v : ParseVars)
    : ST JbWorld Outcome :=
  b ← gets (fun w => jb w);
  let v := if sawGapSinceLastFrame v && seenHeadFramePacket v
              && ((firstGapIndex v <=? lastHeadFrameSeqNum v) || negb (headFrameEnded v))
           then v <| headFrameIsContiguous := false |> else v in
  let restart (v : ParseVars) :=
    v <| startDropIndex := index |> <| headFrameIsContiguous := true |> <| sawGapSinceLastFrame := false |>
      <| lastHeadFrameSeqNum := index |> <| seenHeadFramePacket := true |> <| headFrameEnded := endsFrame b p |> in
  if containStartForEarliestFrame v && headFrameIsContiguous v then
    st ← callReady (startDropIndex v) (UINT16_DEC index) (curFrameSize v);
    if STATUS_FAILED st then mret (Return st) else
    st ← defaultDropBufferData (startDropIndex v) (UINT16_DEC index) (tsOf p);
    if STATUS_FAILED st then mret (Return st) else
    setJb (fun b => b <| firstFrameProcessed := true |>);;
    mret (Next (restart v <| containStartForEarliestFrame := false |>))
  else if seenHeadFramePacket v && negb (startDropIndex v =? index)
          && ((headTimestamp b <? earliest) || bufferClosed) then
    callDropped (startDropIndex v) (UINT16_DEC index) (headTimestamp b);;
    st ← defaultDropBufferData (startDropIndex v) (UINT16_DEC index) (tsOf p);
    if STATUS_FAILED st then mret (Return st) else
    setJb (fun b => b <| firstFrameProcessed := true |>);;
    mret (Next (restart v))
  else if seenHeadFramePacket v then mret (Break v)
  else
    setJb (fun b => b <| headTimestamp := tsOf p |>);;
    mret (Next (restart v)).

(** The sizing call of the depacketiser: its status, size and start flag. *)
Definition depaySize (p : RtpPacket) (cap : Z) (isStart : bool) : ST JbWorld (STATUS + (Z * bool)) := fun w =>
  match depay (payload p) (payloadLength p) None (Some cap) (Some isStart) with
  | Ok o => if STATUS_FAILED (do_status o) then Some (inl (do_status o), w)
            else Some (inr (default cap (do_length o), default isStart (do_isStart o)), w)
  | Err st => Some (inl st, w)
  | Fault => None
  end.

(** The part of an iteration that follows the timestamp test. *)
Definition parsePacket (index : Z) (p : RtpPacket) (v : ParseVars) : ST JbWorld Outcome :=
  TRY r ← depaySize p (partialFrameSize v) (sizeCalcIsFirst v) CATCH Return;
  b ← gets (fun w => jb w);
  let v := v <| partialFrameSize := r.1 |> <| curFrameSize := curFrameSize v +32 r.1 |>
             <| sizeCalcIsFirst := false |> in
  let v := if r.2 && (headTimestamp b =? tsOf p) then v <| containStartForEarliestFrame := true |> else v in
  if (firstFrameProcessed b || alwaysSinglePacketFrames b) && (tsOf p =? headTimestamp b) && endsFrame b p
     && containStartForEarliestFrame v && headFrameIsContiguous v then
    st ← callReady (startDropIndex v) index (curFrameSize v);
    if STATUS_FAILED st then mret (Return st) else
    st ← defaultDropBufferData (startDropIndex v) index (tsOf p);
    if STATUS_FAILED st then mret (Return st) else
    setJb (fun b => b <| firstFrameProcessed := true |>);;
    mret (Break (v <| startDropIndex := u16 (index + 1) |> <| curFrameSize := 0 |> <| sizeCalcIsFirst := true |>))
  else mret (Next v).

(** One iteration.  The branch for a key that vanished between the two table calls also
    leaves its status in retStatus; it cannot be taken. *)
Definition parseStep (bufferClosed : bool) (earliest index : Z) (v : ParseVars) : ST JbWorld Outcome :=
  TRY hasEntry ← hasEntryAt index CATCH Return;
  b ← gets (fun w => jb w);
  if negb hasEntry then
    let v := if sawGapSinceLastFrame v then v
             else v <| firstGapIndex := index |> <| sawGapSinceLastFrame := true |> in
    let v := if seenHeadFramePacket v && negb (headFrameEnded v)
             then v <| headFrameIsContiguous := false |> else v in
    if (headTimestamp b <? earliest) || bufferClosed then mret (Next v) else mret (Return STATUS_SUCCESS)
  else
    let v := v <| lastNonNullIndex := index |> in
    r ← getEntry index;
    match r with
    | inl STATUS_HASH_KEY_NOT_PRESENT => mret (Next v)
    | inl st => mret (Return st)
    | inr p =>
    if tsOf p =? headTimestamp b then
      let v := v <| lastHeadFrameSeqNum := index |> <| seenHeadFramePacket := true |> in
      let v := if endsFrame b p then v <| headFrameEnded := true |> else v in
      parsePacket index p v
    else
      o ← newTimestamp bufferClosed earliest index p v;
      match o with
      | Next v => parsePacket index p (v <| curFrameSize := 0 |> <| sizeCalcIsFirst := true |>)
      | o => mret o
      end
    end.

Fixpoint parseLoop (fuel : nat) (bufferClosed : bool) (earliest index lastIndex : Z) (v : ParseVars)
    : ST JbWorld Outcome :=
  if index =? lastIndex then mret (Next v) else
  match fuel with
  | O => fun _ => None
  | S fuel =>
      o ← parseStep bufferClosed earliest index v;
      match o with
      | Next v => parseLoop fuel bufferClosed earliest (u16 (index + 1)) lastIndex v
      | o => mret o
      end
  end.

(** The closing pass: measures the last frame up to the first missing packet.  Returns
    the index it stopped at and the size. *)
Fixpoint closeLoop (fuel : nat) (index lastNonNull : Z) (hasEntry first : bool) (partial size : Z)
    : ST JbWorld (STATUS + (Z * Z)) :=
  if (UINT16_DEC index =? lastNonNull) || negb hasEntry then mret (inr (index, size)) else
  match fuel with
  | O => fun _ => None
  | S fuel =>
      TRY hasEntry ← hasEntryAt index CATCH inl;
      if hasEntry : bool then
        TRY p ← getEntry index CATCH inl;
        TRY r ← depaySize p partial first CATCH inl;
        closeLoop fuel (u16 (index + 1)) lastNonNull true false r.1 (size +32 r.1)
      else closeLoop fuel (u16 (index + 1)) lastNonNull false first partial size
  end.

Definition parseTail (v : ParseVars) : ST JbWorld STATUS :=
  TRY r ← closeLoop (Z.to_nat 65536) (startDropIndex v) (lastNonNullIndex v) true true (partialFrameSize v) 0
    CATCH id;
  b ← gets (fun w => jb w);
  st ← (if UINT16_DEC r.1 =? lastNonNullIndex v
        then callReady (startDropIndex v) (lastNonNullIndex v) r.2
        else callDropped (startDropIndex v) (UINT16_DEC r.1) (headTimestamp b));
  if STATUS_FAILED st then mret st
  else defaultDropBufferData (startDropIndex v) (lastNonNullIndex v) (headTimestamp b).

Definition jitterBufferInternalParse (bufferClosed : bool) : ST JbWorld STATUS :=
  b ← gets (fun w => jb w);
  if negb (started b) then mret STATUS_SUCCESS else
  let earliest := if maxLatency b <? tailTimestamp b then u32 (tailTimestamp b - maxLatency b) else 0 in
  let lastIndex := u16 (tailSequenceNumber b + 1) in
  let v0 := {| headFrameIsContiguous := true; startDropIndex := headSequenceNumber b; curFrameSize := 0;
               sizeCalcIsFirst := true; partialFrameSize := 0; containStartForEarliestFrame := false;
               lastNonNullIndex := 0; lastHeadFrameSeqNum := 0; seenHeadFramePacket := false;
               firstGapIndex := 0; sawGapSinceLastFrame := false; headFrameEnded := false |} in
  o ← parseLoop (Z.to_nat 65536) bufferClosed earliest (headSequenceNumber b) lastIndex v0;
  match o with
  | Return st => mret st
  | Next v | Break v => if bufferClosed && (0 <? curFrameSize v) then parseTail v else mret STATUS_SUCCESS
  end.

(** *** defaultPush

    [mem] is the outcome of the allocation a full bucket of the table needs.  The result
    is the status and the value stored through pPacketDiscarded. *)
Definition storePacket (mem : bool) (p : RtpPacket) : ST JbWorld STATUS :=
  b ← gets (fun w => jb w);
  st ← updTable (hashTablePut mem (Some (pPkgBufferHashTable b)) (seqOf p) p);
  if STATUS_FAILED st then mret st else
  allowed ← gets (fun w => headCheckingAllowed (jb w) p);
  (if allowed : bool then check headTimestampCheck p;; check headSequenceNumberCheck p;; mret STATUS_SUCCESS
   else mret STATUS_SUCCESS).

(** The window after the packet, and whether the packet is within the latency. *)
Definition slideWindow (p : RtpPacket) : ST JbWorld bool :=
  b ← gets (fun w => jb w);
  when (negb (started b))
    (setJb (fun b => b <| started := true |> <| headSequenceNumber := seqOf p |>
                       <| tailSequenceNumber := seqOf p |> <| headTimestamp := tsOf p |>));;
  entered ← check enterSequenceNumberOverflowCheck p;
  when (negb entered) (check tailSequenceNumberCheck p;; mret tt);;
  entered ← check enterTimestampOverflowCheck p;
  when (negb entered) (check tailTimestampCheck p;; mret tt);;
  check withinLatencyTolerance p.

Definition storeAndParse (mem : bool) (p : RtpPacket) : ST JbWorld (STATUS * bool) :=
  st ← storePacket mem p;
  if STATUS_FAILED st then mret (st, false) else
  st ← jitterBufferInternalParse false;
  mret (st, false).

Definition defaultPush (mem : bool) (p : RtpPacket) : ST JbWorld (STATUS * bool) :=
  within ← slideWindow p;
  if within : bool then
    cur ← getEntry (seqOf p);
    match cur with
    | inr cur =>
        if negb (isSynthetic cur) && isSynthetic p then
          freeRtpPacket p;;
          mret (STATUS_SUCCESS, true)
        else
          freeRtpPacket cur;;
          st ← removeEntry (seqOf p);
          if STATUS_FAILED st then mret (st, false) else storeAndParse mem p
    | inl _ => storeAndParse mem p
    end
  else
    freeRtpPacket p;;
    st ← jitterBufferInternalParse false;
    mret (st, true).

(** *** Reading packets and frames *)

Definition defaultGetPacket (b : JitterBuffer) (seqNum : Z) : res RtpPacket :=
  hashTableGet (Some (pPkgBufferHashTable b)) seqNum.

(** Depacketises the window [index .. endIndex] into the object [frame] at [off].  The
    result is the status, the object and the room that remains. *)
Fixpoint fillLoop (fuel : nat) (b : JitterBuffer) (index endIndex : Z) (frame : list Z) (off remaining : Z)
    (first : bool) : res (STATUS * list Z * Z) :=
  if UINT16_DEC index =? endIndex then Ok (STATUS_SUCCESS, frame, remaining) else
  match fuel with
  | O => Fault
  | S fuel =>
      match hashTableGet (Some (pPkgBufferHashTable b)) index with
      | Fault => Fault
      | Err st => Ok (st, frame, remaining)
      | Ok p =>
          match depay (payload p) (payloadLength p) (Some (Ptr frame off)) (Some remaining) (Some first) with
          | Fault => Fault
          | Err st => Ok (st, frame, remaining)
          | Ok o =>
              let frame := default frame (do_data o) in
              if STATUS_FAILED (do_status o) then Ok (do_status o, frame, remaining) else
              let n := default remaining (do_length o) in
              fillLoop fuel b (u16 (index + 1)) endIndex frame (off + n) (remaining -32 n) false
          end
      end
  end.

(** The status, the value stored through pFilledSize and the frame buffer. *)
Definition defaultFillFrameData (b : JitterBuffer) (pFrame : option (list Z)) (frameSize startIndex endIndex : Z)
    : res (STATUS * Z * option (list Z)) :=
  match pFrame with
  | None => Ok (STATUS_NULL_ARG, 0, None)
  | Some frame =>
      '(st, frame, remaining) ← fillLoop (Z.to_nat 65536) b startIndex endIndex frame 0 frameSize true;
      Ok (st, frameSize -32 remaining, Some frame)
  end.

(** The same with missing and unreadable packets skipped; without a frame buffer it only
    measures. *)
Fixpoint fillPartialLoop (fuel : nat) (b : JitterBuffer) (frameSize index endIndex : Z) (frame : option (list Z))
    (off filled : Z) (first : bool) : res (Z * option (list Z)) :=
  if UINT16_DEC index =? endIndex then Ok (filled, frame) else
  match fuel with
  | O => Fault
  | S fuel =>
      let skip frame := fillPartialLoop fuel b frameSize (u16 (index + 1)) endIndex frame off filled first in
      match hashTableContains (Some (pPkgBufferHashTable b)) index with
      | Fault => Fault
      | Err _ | Ok false => skip frame
      | Ok true =>
          match hashTableGet (Some (pPkgBufferHashTable b)) index with
          | Fault => Fault
          | Err _ => skip frame
          | Ok p =>
              let room := match frame with Some _ => frameSize -32 filled | None => 0 end in
              match depay (payload p) (payloadLength p) ((fun f => Ptr f off) <$> frame) (Some room) (Some first) with
              | Fault => Fault
              | Err _ => skip frame
              | Ok o =>
                  let frame := match frame, do_data o with Some _, Some d => Some d | _, _ => frame end in
                  if STATUS_FAILED (do_status o) then skip frame else
                  let n := default room (do_length o) in
                  fillPartialLoop fuel b frameSize (u16 (index + 1)) endIndex frame (off + n) (filled +32 n) false
              end
          end
      end
  end.

Definition defaultFillPartialFrameData (b : JitterBuffer) (pFrame : option (list Z))
    (frameSize startIndex endIndex : Z) : res (STATUS * Z * option (list Z)) :=
  '(filled, frame) ← fillPartialLoop (Z.to_nat 65536) b frameSize startIndex endIndex pFrame 0 0 true;
  Ok (STATUS_SUCCESS, filled, frame).

(** *** defaultDestroy

    The number of closing parses is bounded by the code itself. *)
Fixpoint destroyLoop (maxIterations : nat) (prevHead : Z) : ST JbWorld unit :=
  match maxIterations with
  | O => mret tt
  | S maxIterations =>
      jitterBufferInternalParse true;;
      b ← gets (fun w => jb w);
      if headSequenceNumber b =? prevHead then mret tt else
      let remaining := u16 (tailSequenceNumber b - headSequenceNumber b + 1) in
      if remaining <=? 0 then mret tt else destroyLoop maxIterations (headSequenceNumber b)
  end.

Definition freeRtpPacketHashEntry (log : list JbEvent) (e : Z * RtpPacket) : STATUS * list JbEvent :=
  (STATUS_SUCCESS, log ++ [EvFreePacket e.2]).

Definition freeTable : ST JbWorld unit := fun w =>
  match hashTableIterateEntries (Some (pPkgBufferHashTable (jb w))) freeRtpPacketHashEntry (jbLog w) with
  | Ok (_, log) => Some (tt, w <| jbLog := log |>)
  | _ => None
  end.

(** The buffer is released at the end; [jb] then holds its last contents. *)
Definition defaultDestroy : ST JbWorld STATUS :=
  b ← gets (fun w => jb w);
  when (started b)
    (destroyLoop (Z.to_nat 65536) (headSequenceNumber b);;
     b ← gets (fun w => jb w);
     defaultDropBufferData (headSequenceNumber b) (tailSequenceNumber b) 0;;
     mret tt);;
  freeTable;;
  mret STATUS_SUCCESS.

End Operations.

(** ** The table of a buffer *)

Definition tab (b : JitterBuffer) : gmap Z RtpPacket := ht_map (pPkgBufferHashTable b).

(** The table is well formed, has room, and files packets under their sequence number. *)
Record tab_ok (b : JitterBuffer) : Prop := {
  tab_ht : ht_ok (pPkgBufferHashTable b);
  tab_room : roomy (pPkgBufferHashTable b);
  tab_keys : forall k p, tab b !! k = Some p -> is_u16 k /\ seqOf p = k;
}.

Lemma tab_keys16 b : tab_ok b -> keys16 (pPkgBufferHashTable b).
Proof. intros H k [p Hp]. exact (proj1 (tab_keys _ H _ _ Hp)). Qed.

Lemma wp_hasEntryAt k (Q : STATUS + bool -> JbWorld -> Prop) w :
  tab_ok (jb w) -> Q (inr (bool_decide (is_Some (tab (jb w) !! k)))) w -> wp (hasEntryAt k) Q w.
Proof.
  intros H HQ. unfold wp, hasEntryAt, mbind, ST_bind, gets, attempt.
  rewrite hashTableContains_spec by apply (tab_ht _ H). exact HQ.
Qed.

Lemma wp_getEntry k (Q : STATUS + RtpPacket -> JbWorld -> Prop) w :
  tab_ok (jb w) ->
  Q (match tab (jb w) !! k with Some p => inr p | None => inl STATUS_HASH_KEY_NOT_PRESENT end) w ->
  wp (getEntry k) Q w.
Proof.
  intros H HQ. unfold wp, getEntry, mbind, ST_bind, gets, attempt.
  rewrite hashTableGet_spec by apply (tab_ht _ H). unfold tab in HQ.
  destruct (ht_map (pPkgBufferHashTable (jb w)) !! k); exact HQ.
Qed.

(** [w] with another table. *)
Definition withTab (w : JbWorld) (ht : HashTable RtpPacket) : JbWorld :=
  w <| jb := (jb w) <| pPkgBufferHashTable := ht |> |>.

Lemma wp_removeEntry k p (Q : STATUS -> JbWorld -> Prop) w :
  tab_ok (jb w) -> tab (jb w) !! k = Some p ->
  (forall ht, ht_map ht = delete k (tab (jb w)) -> tab_ok (jb (withTab w ht)) -> Q STATUS_SUCCESS (withTab w ht)) ->
  wp (removeEntry k) Q w.
Proof.
  intros H Hk HQ. pose proof (hashTableRemove_spec _ k (tab_ht _ H)) as Hr. unfold tab in Hk. rewrite Hk in Hr.
  destruct Hr as (ht & E & Hok & Hm & Hroom).
  unfold wp, removeEntry, updTable, mbind, ST_bind, gets, attempt. rewrite E. apply (HQ ht Hm).
  split; [done|apply Hroom, (tab_room _ H)|].
  intros k' p' Hp'. apply (tab_keys _ H). unfold tab in *. cbn in Hp'. rewrite Hm in Hp'.
  by apply lookup_delete_Some in Hp' as [_ ?].
Qed.

Lemma wp_putEntry p (Q : STATUS -> JbWorld -> Prop) w :
  tab_ok (jb w) -> is_u16 (seqOf p) -> tab (jb w) !! seqOf p = None ->
  (forall ht, ht_map ht = <[seqOf p := p]> (tab (jb w)) -> tab_ok (jb (withTab w ht)) -> Q STATUS_SUCCESS (withTab w ht)) ->
  wp (updTable (hashTablePut true (Some (pPkgBufferHashTable (jb w))) (seqOf p) p)) Q w.
Proof.
  intros H Hq Hk HQ. pose proof (hashTablePut_spec _ (seqOf p) p (tab_ht _ H) (tab_room _ H)) as Hr.
  unfold tab in Hk. rewrite Hk in Hr. destruct Hr as (ht & E & Hok & Hm & Hroom).
  unfold wp, updTable, mbind, ST_bind, gets, attempt. rewrite E. apply (HQ ht Hm).
  split; [done|apply Hroom, tab_keys16, H|].
  intros k' p' Hp'. unfold tab in Hp'. cbn in Hp'. rewrite Hm in Hp'.
  apply lookup_insert_Some in Hp' as [[<- <-]|[_ Hp']]; [done|]. by apply (tab_keys _ H).
Qed.

(** ** Sequence-number ranges *)

(** The [n] sequence numbers from [i] on. *)
Fixpoint cyc (n : nat) (i : Z) : list Z :=
  match n with O => [] | S n => i :: cyc n (u16 (i + 1)) end.

(** What removing the keys of [l] one after the other leaves, and the packets it frees. *)
Fixpoint sweep (m : gmap Z RtpPacket) (l : list Z) : gmap Z RtpPacket * list RtpPacket :=
  match l with
  | [] => (m, [])
  | k :: l => let r := sweep (delete k m) l in (r.1, option_list (m !! k) ++ r.2)
  end.

Lemma sweep_lookup m l k : (sweep m l).1 !! k = if decide (k ∈ l) then None else m !! k.
Proof.
  revert m. induction l as [|k' l IH]; intros m; [by rewrite decide_False by apply not_elem_of_nil|].
  cbn [sweep fst]. rewrite IH. destruct (decide (k = k')) as [->|Hne].
  - rewrite (decide_True (P := k' ∈ k' :: l)) by constructor. case_decide; [done|]. apply lookup_delete_eq.
  - rewrite lookup_delete_ne by done. destruct (decide (k ∈ l)); [by rewrite decide_True by (by constructor)|].
    rewrite decide_False; [done|]. by rewrite elem_of_cons; intros [?|?].
Qed.

(** Nothing is lost: the packets of the map are those freed and those left. *)
Lemma sweep_perm m l : (map_to_list m).*2 ≡ₚ (sweep m l).2 ++ (map_to_list (sweep m l).1).*2.
Proof.
  revert m. induction l as [|k l IH]; intros m; [done|]. cbn [sweep fst snd].
  rewrite <- (assoc_L (++)), <- IH. destruct (m !! k) as [p|] eqn:E; simpl.
  - by rewrite <- (map_to_list_delete m k p E).
  - by rewrite delete_id.
Qed.

Lemma UINT16_DEC_end i n : is_u16 i -> (Z.of_nat n < 65536) ->
  (UINT16_DEC i =? u16 (i + Z.of_nat n - 1)) = bool_decide (n = 0%nat).
Proof.
  intros Hi Hn. unfold UINT16_DEC. case_bool_decide as E.
  - subst. apply Z.eqb_eq. f_equal. lia.
  - apply Z.eqb_neq. width_lia.
Qed.

Lemma u16_next_end i n : u16 (i + Z.of_nat (S n) - 1) = u16 (u16 (i + 1) + Z.of_nat n - 1).
Proof. width_lia. Qed.

(** The last index of a range determines its length. *)
Lemma range_len i e : is_u16 i -> is_u16 e ->
  let n := Z.to_nat (u16 (e + 1 - i)) in Z.of_nat n < 65536 /\ e = u16 (i + Z.of_nat n - 1).
Proof. intros Hi He n. subst n. width_lia. Qed.

Definition freedEvents (ps : list RtpPacket) : list JbEvent := map EvFreePacket ps.

(** The drop loop removes the range and frees what it held. *)
Lemma dropLoop_wp n fuel i w (Q : STATUS -> JbWorld -> Prop) :
  tab_ok (jb w) -> is_u16 i -> Z.of_nat n < 65536 -> (n <= fuel)%nat ->
  (forall ht, ht_map ht = (sweep (tab (jb w)) (cyc n i)).1 -> tab_ok (jb (withTab w ht)) ->
     Q STATUS_SUCCESS ((withTab w ht) <| jbLog := jbLog w ++ freedEvents (sweep (tab (jb w)) (cyc n i)).2 |>)) ->
  wp (dropLoop fuel i (u16 (i + Z.of_nat n - 1))) Q w.
Proof.
  revert fuel i w. induction n as [|n IH]; intros fuel i w H Hi Hn Hf HQ.
  { destruct fuel; cbn [dropLoop]; rewrite UINT16_DEC_end by done; cbn; apply wp_ret.
    - specialize (HQ _ eq_refl H). cbn in HQ. rewrite app_nil_r in HQ. by destruct w as [[] ?].
    - specialize (HQ _ eq_refl H). cbn in HQ. rewrite app_nil_r in HQ. by destruct w as [[] ?]. }
  destruct fuel as [|fuel]; [lia|]. cbn [dropLoop]. rewrite UINT16_DEC_end by done.
  rewrite bool_decide_false by done. rewrite u16_next_end.
  assert (Hi' : is_u16 (u16 (i + 1))) by apply u16_range.
  apply wp_bind. apply wp_hasEntryAt; [done|]. cbv beta match. apply wp_bind.
  cbn [cyc sweep fst snd] in HQ. case_bool_decide as Hin.
  - destruct Hin as [p Hp]. apply wp_bind, wp_getEntry; [done|]. rewrite Hp. cbv beta match.
    apply wp_bind. unfold freeRtpPacket, logEv. apply wp_modify. eapply wp_removeEntry; [done|exact Hp|].
    intros ht Hm Hok. cbn. apply IH; [done|done|lia|lia|]. rewrite Hp in HQ. cbn -[sweep] in *.
    change (tab ((jb w) <| pPkgBufferHashTable := ht |>)) with (ht_map ht). rewrite Hm. intros ht' Hm' Hok'. specialize (HQ ht' Hm' Hok').
    rewrite <- (assoc_L (++)). exact HQ.
  - apply wp_ret. cbn. apply IH; [done|done|lia|lia|]. rewrite <- eq_None_not_Some in Hin. rewrite Hin in HQ.
    rewrite delete_id in HQ by done. exact HQ.
Qed.

Lemma defaultDropBufferData_wp s e t w (Q : STATUS -> JbWorld -> Prop) (n := Z.to_nat (u16 (e + 1 - s))) :
  tab_ok (jb w) -> is_u16 s -> is_u16 e ->
  (forall ht (b := (jb w) <| pPkgBufferHashTable := ht |> <| headTimestamp := t |>
                          <| headSequenceNumber := u16 (e + 1) |>),
     ht_map ht = (sweep (tab (jb w)) (cyc n s)).1 -> tab_ok b ->
     Q STATUS_SUCCESS {| jb := exitSequenceNumberOverflowCheck (exitTimestampOverflowCheck b);
                         jbLog := jbLog w ++ freedEvents (sweep (tab (jb w)) (cyc n s)).2 |}) ->
  wp (defaultDropBufferData s e t) Q w.
Proof.
  intros H Hs He HQ. destruct (range_len s e Hs He) as [Hn Ee]. fold n in Hn, Ee.
  unfold defaultDropBufferData. apply wp_bind. rewrite Ee at 1. apply dropLoop_wp; [done|done|done|lia|].
  intros ht Hm Hok. wp_steps; try discriminate. cbn.
  apply (HQ ht Hm). destruct Hok as [? ? ?]. by split.
Qed.

(** ** The window checks on the state *)

(** What a window check may change: head and tail become the packet's number or stay. *)
Definition moves (b : JitterBuffer) (p : RtpPacket) (b' : JitterBuffer) : Prop :=
  pPkgBufferHashTable b' = pPkgBufferHashTable b /\ started b' = started b /\
  firstFrameProcessed b' = firstFrameProcessed b /\
  (headSequenceNumber b' = headSequenceNumber b \/ headSequenceNumber b' = seqOf p) /\
  (tailSequenceNumber b' = tailSequenceNumber b \/ tailSequenceNumber b' = seqOf p).

Lemma moves_refl b p : moves b p b.
Proof. unfold moves. split_and!; auto. Qed.

Ltac moves_tac :=
  repeat first
    [ progress cbn [fst snd]
    | apply moves_refl
    | match goal with |- context [if ?c then _ else _] => destruct c end
    | by (split_and!; cbn; auto) ].

Lemma headSequenceNumberCheck_moves b p : moves b p (headSequenceNumberCheck b p).2.
Proof. unfold headSequenceNumberCheck. moves_tac. Qed.
Lemma tailSequenceNumberCheck_moves b p : moves b p (tailSequenceNumberCheck b p).2.
Proof. unfold tailSequenceNumberCheck. moves_tac. Qed.
Lemma enterSequenceNumberOverflowCheck_moves b p : moves b p (enterSequenceNumberOverflowCheck b p).2.
Proof.
  unfold enterSequenceNumberOverflowCheck.
  match goal with |- context [let '(_, _) := ?x in _] => destruct x as [[] []] end; moves_tac.
Qed.

Lemma enterTimestampOverflowCheck_moves b p : moves b p (enterTimestampOverflowCheck b p).2.
Proof.
  pose proof (headSequenceNumberCheck_moves b p) as Hh. pose proof (tailSequenceNumberCheck_moves b p) as Ht.
  unfold enterTimestampOverflowCheck. destruct (timestampOverFlowState b); [moves_tac|].
  destruct ((tsOf p <? headTimestamp b) && _).
  { destruct (tailSequenceNumberCheck b p) as [[] b1]; moves_tac; [|done].
    destruct Ht as (?&?&?&?&?). by split_and!. }
  destruct ((headTimestamp b <? tsOf p) && _); [|moves_tac].
  destruct (headSequenceNumberCheck b p) as [r b1]. moves_tac; [|done].
  destruct Hh as (?&?&?&?&?). by split_and!.
Qed.

Lemma headTimestampCheck_moves b p : moves b p (headTimestampCheck b p).2.
Proof.
  pose proof (headSequenceNumberCheck_moves b p) as Hh. unfold headTimestampCheck.
  set (c := headCheckingAllowed b p && _). destruct c; [|moves_tac].
  destruct (headSequenceNumberCheck b p) as [[] b1]; moves_tac; [|done].
  destruct Hh as (?&?&?&?&?). by split_and!.
Qed.

Lemma tailTimestampCheck_moves b p : moves b p (tailTimestampCheck b p).2.
Proof.
  pose proof (tailSequenceNumberCheck_moves b p) as Ht. unfold tailTimestampCheck.
  set (c := (tailTimestamp b <? tsOf p) && _). destruct c; [|moves_tac].
  destruct (tailSequenceNumberCheck b p) as [[] b1]; moves_tac; [|done].
  destruct Ht as (?&?&?&?&?). by split_and!.
Qed.

Lemma withinLatencyTolerance_moves b p : moves b p (withinLatencyTolerance b p).2.
Proof.
  pose proof (tailTimestampCheck_moves b p) as Ht. unfold withinLatencyTolerance.
  destruct (tailTimestampCheck b p) as [r b1]. cbn [fst snd] in Ht. moves_tac; done.
Qed.

Create HintDb jitter.
#[export] Hint Resolve headSequenceNumberCheck_moves tailSequenceNumberCheck_moves
  enterSequenceNumberOverflowCheck_moves enterTimestampOverflowCheck_moves headTimestampCheck_moves
  tailTimestampCheck_moves withinLatencyTolerance_moves : jitter.

Lemma wp_check f p (Q : bool -> JbWorld -> Prop) w :
  Q (f (jb w) p).1 (w <| jb := (f (jb w) p).2 |>) -> wp (check f p) Q w.
Proof. intros H. exact H. Qed.
