(* ===== verification/JitterSafety.v ===== *)
(** * Ownership and safety of the jitter buffer

    Every packet handed to the buffer stays in its table or is freed, exactly once,
    whatever the depacketiser and the callbacks return; no operation faults or loops.
    The last part shows the state in which the buffer delivers no frame any more. *)

From stdpp Require Import fin_maps gmap.
From S2P Require Import Prelude RtpPacket HashTable Payloaders JitterBuffer.

(** ** Held and freed packets *)

Definition held (b : JitterBuffer) : list RtpPacket := (map_to_list (tab b)).*2.
Definition freedBy (e : JbEvent) : option RtpPacket := match e with EvFreePacket p => Some p | _ => None end.
Definition freed (log : list JbEvent) : list RtpPacket := omap freedBy log.
Definition readyBy (e : JbEvent) : option (JitterBuffer * Z * Z * Z) :=
  match e with EvFrameReady b s e n => Some (b, s, e, n) | _ => None end.
Definition delivered (log : list JbEvent) : list (JitterBuffer * Z * Z * Z) := omap readyBy log.

Lemma freed_app a b : freed (a ++ b) = freed a ++ freed b.
Proof. apply omap_app. Qed.
Lemma freed_events ps : freed (freedEvents ps) = ps.
Proof. induction ps as [|p ps IH]; [done|]. cbn. by f_equal. Qed.
Lemma delivered_app a b : delivered (a ++ b) = delivered a ++ delivered b.
Proof. apply omap_app. Qed.
Lemma delivered_events ps : delivered (freedEvents ps) = [].
Proof. by induction ps. Qed.

Section Safety.
Variable depay : DepayRtpPayloadFunc.
Variables onFrameReady onFrameDropped : JitterBuffer -> Z -> Z -> Z -> STATUS.

(** The size of the packet's payload can be computed. *)
Definition readable (p : RtpPacket) : Prop :=
  forall cap first, depay (payload p) (payloadLength p) None (Some cap) (Some first) <> Fault.

Definition packet_ok (p : RtpPacket) : Prop := is_u16 (seqOf p) /\ readable p.

(** The packets [ps] were handed in; each is held or was freed. *)
Record Owns (ps : list RtpPacket) (w : JbWorld) : Prop := {
  own_tab : tab_ok (jb w);
  own_head : is_u16 (headSequenceNumber (jb w));
  own_tail : is_u16 (tailSequenceNumber (jb w));
  own_read : forall k p, tab (jb w) !! k = Some p -> readable p;
  own_perm : held (jb w) ++ freed (jbLog w) ≡ₚ ps;
}.

(** Assignments to the other fields and callback events preserve it. *)
Lemma Owns_same ps w w' :
  Owns ps w -> pPkgBufferHashTable (jb w') = pPkgBufferHashTable (jb w) ->
  is_u16 (headSequenceNumber (jb w')) -> is_u16 (tailSequenceNumber (jb w')) ->
  freed (jbLog w') = freed (jbLog w) -> Owns ps w'.
Proof.
  intros [[Ht1 Ht2 Ht3] Hh Htl Hr Hp] E ? ? Ef. unfold tab, held in *. split; try done.
  - split; unfold tab; rewrite E; done.
  - unfold tab. by rewrite E.
  - unfold held, tab. by rewrite E, Ef.
Qed.

Lemma Owns_moves ps w p b : Owns ps w -> is_u16 (seqOf p) -> moves (jb w) p b -> Owns ps (w <| jb := b |>).
Proof.
  intros H Hq (Et & _ & _ & Hh & Ht). apply (Owns_same ps w); cbn; [done|done| | |done].
  - destruct Hh as [->| ->]; [apply (own_head _ _ H)|done].
  - destruct Ht as [->| ->]; [apply (own_tail _ _ H)|done].
Qed.

Lemma wp_check_own f p ps w (Q : bool -> JbWorld -> Prop) :
  (forall b, moves b p (f b p).2) -> Owns ps w -> is_u16 (seqOf p) ->
  (forall r w', Owns ps w' -> Q r w') -> wp (check f p) Q w.
Proof. intros Hm H Hq HQ. apply wp_check, HQ. eapply Owns_moves; [done|exact Hq|apply Hm]. Qed.

Lemma exits_same b : let b' := exitSequenceNumberOverflowCheck (exitTimestampOverflowCheck b) in
  pPkgBufferHashTable b' = pPkgBufferHashTable b /\ headSequenceNumber b' = headSequenceNumber b /\
  tailSequenceNumber b' = tailSequenceNumber b.
Proof. unfold exitSequenceNumberOverflowCheck, exitTimestampOverflowCheck. cbn. repeat case_match; done. Qed.

Lemma drop_own ps s e t w (Q : STATUS -> JbWorld -> Prop) :
  Owns ps w -> is_u16 s -> is_u16 e -> (forall w', Owns ps w' -> Q STATUS_SUCCESS w') ->
  wp (defaultDropBufferData s e t) Q w.
Proof.
  intros H Hs He HQ. apply defaultDropBufferData_wp; [apply (own_tab _ _ H)|done|done|].
  intros ht b Hm Hok. apply HQ. destruct (exits_same b) as (Et & Eh & Etl).
  set (n := Z.to_nat (u16 (e + 1 - s))) in *.
  apply (Owns_same ps {| jb := b; jbLog := jbLog w ++ freedEvents (sweep (tab (jb w)) (cyc n s)).2 |}); cbn.
  2-5: cbn in *; rewrite ?Et, ?Eh, ?Etl; auto with width. 2: apply (own_tail _ _ H).
  split; cbn; [done|apply u16_range|apply (own_tail _ _ H)| |].
  - intros k p Hk. apply (own_read _ _ H k). change (ht_map ht !! k = Some p) in Hk. rewrite Hm, sweep_lookup in Hk.
    by case_decide.
  - rewrite <- (own_perm _ _ H). unfold held. change (tab b) with (ht_map ht). rewrite Hm, freed_app, freed_events.
    rewrite (sweep_perm (tab (jb w)) (cyc n s)), <- (assoc_L (++)).
    rewrite (assoc_L (++) _ (freed (jbLog w))). apply Permutation_app_comm.
Qed.

(** Assignments of the parser to the head timestamp and the first-frame flag. *)
Lemma Owns_fields ps w f :
  Owns ps w ->
  (forall b, pPkgBufferHashTable (f b) = pPkgBufferHashTable b /\
     headSequenceNumber (f b) = headSequenceNumber b /\ tailSequenceNumber (f b) = tailSequenceNumber b) ->
  Owns ps (w <| jb := f (jb w) |>).
Proof.
  intros H Hf. destruct (Hf (jb w)) as (Et & Eh & Etl). apply (Owns_same ps w); cbn; [done|done| | |done].
  - rewrite Eh. apply (own_head _ _ H).
  - rewrite Etl. apply (own_tail _ _ H).
Qed.

Lemma Owns_log ps w e : Owns ps w -> freedBy e = None -> Owns ps (w <| jbLog := jbLog w ++ [e] |>).
Proof.
  intros H He. apply (Owns_same ps w); cbn; [done|done|apply (own_head _ _ H)|apply (own_tail _ _ H)|].
  rewrite freed_app. cbn. rewrite He. apply app_nil_r.
Qed.

Lemma callReady_own ps s e n w (Q : STATUS -> JbWorld -> Prop) :
  Owns ps w -> (forall st w', Owns ps w' -> Q st w') -> wp (callReady onFrameReady s e n) Q w.
Proof. intros H HQ. unfold callReady, logEv. wp_steps. by apply HQ, Owns_log. Qed.

Lemma callDropped_own ps s e n w (Q : STATUS -> JbWorld -> Prop) :
  Owns ps w -> (forall st w', Owns ps w' -> Q st w') -> wp (callDropped onFrameDropped s e n) Q w.
Proof. intros H HQ. unfold callDropped, logEv. wp_steps. by apply HQ, Owns_log. Qed.

(** ** The parser *)

Definition vars_ok (v : ParseVars) : Prop := is_u16 (startDropIndex v) /\ is_u16 (lastNonNullIndex v).
Definition outcome_ok (o : Outcome) : Prop := match o with Next v | Break v => vars_ok v | Return _ => True end.

Lemma UINT16_DEC_range i : is_u16 (UINT16_DEC i).
Proof. apply u16_range. Qed.
#[local] Hint Resolve UINT16_DEC_range u16_range : core.

Abbreviation keeps ps := (fun (o : Outcome) w => Owns ps w /\ outcome_ok o).

Lemma newTimestamp_own ps closed earliest index p v w :
  Owns ps w -> is_u16 index -> vars_ok v ->
  wp (newTimestamp onFrameReady onFrameDropped closed earliest index p v) (keeps ps) w.
Proof.
  intros H Hi [Hs Hl]. unfold newTimestamp. wp_step. apply wp_gets.
  match goal with |- context [if ?c then v <| headFrameIsContiguous := false |> else v] =>
    set (v1 := if c then v <| headFrameIsContiguous := false |> else v) end.
  assert (Hv1 : startDropIndex v1 = startDropIndex v /\ lastNonNullIndex v1 = lastNonNullIndex v)
    by (unfold v1; case_match; done).
  destruct Hv1 as [Es El]. clearbody v1. rewrite <- Es in Hs. rewrite <- El in Hl. clear Es El v. cbv zeta.
  wp_step.
  { wp_step. eapply callReady_own; [exact H|]. intros st w1 Hw1. wp_step; [by wp_step|].
    wp_step. eapply drop_own; [exact Hw1|done|done|]. intros w2 Hw2. wp_step; [by wp_step|].
    wp_steps. split; [|done]. by apply Owns_fields. }
  wp_step.
  { wp_step. eapply callDropped_own; [exact H|]. intros st w1 Hw1.
    wp_step. eapply drop_own; [exact Hw1|done|done|]. intros w2 Hw2. wp_step; [by wp_step|].
    wp_steps. split; [|done]. by apply Owns_fields. }
  wp_step; [by wp_step|]. wp_steps. split; [|done]. by apply Owns_fields.
Qed.

Lemma depaySize_wp p cap first w (Q : STATUS + (Z * bool) -> JbWorld -> Prop) :
  readable p -> (forall r, Q r w) -> wp (depaySize depay p cap first) Q w.
Proof.
  intros Hr HQ. unfold wp, depaySize. specialize (Hr cap first).
  destruct (depay (payload p) (payloadLength p) None (Some cap) (Some first)) as [o| |]; [|apply HQ|done].
  destruct (STATUS_FAILED (do_status o)); apply HQ.
Qed.

Lemma parsePacket_own ps index p v w :
  Owns ps w -> is_u16 index -> readable p -> vars_ok v ->
  wp (parsePacket depay onFrameReady index p v) (keeps ps) w.
Proof.
  intros H Hi Hr Hv. unfold parsePacket. apply wp_bind, depaySize_wp; [done|]. intros [st|[n start]]; [by wp_step|].
  apply wp_bind, wp_gets. cbv zeta.
  match goal with |- context [startDropIndex ?x] => set (v1 := x) end.
  assert (Hv1 : vars_ok v1) by (unfold v1; repeat case_match; exact Hv). clearbody v1.
  wp_step; [|by wp_step]. wp_step. eapply callReady_own; [exact H|]. intros st w1 Hw1. wp_step; [by wp_step|].
  wp_step. eapply drop_own; [exact Hw1|apply Hv1|done|]. intros w2 Hw2. wp_step; [by wp_step|].
  wp_steps. split; [by apply Owns_fields|]. split; cbn; [done|apply Hv1].
Qed.

Lemma parseStep_own ps closed earliest index v w :
  Owns ps w -> is_u16 index -> vars_ok v ->
  wp (parseStep depay onFrameReady onFrameDropped closed earliest index v) (keeps ps) w.
Proof.
  intros H Hi [Hs Hl]. unfold parseStep. apply wp_bind, wp_hasEntryAt; [apply (own_tab _ _ H)|]. cbv beta match.
  wp_step. apply wp_gets. wp_step.
  { cbv zeta. wp_step; wp_step; [|done]. split; [done|]. repeat case_match; done. }
  apply wp_bind, wp_getEntry; [apply (own_tab _ _ H)|]. destruct (tab (jb w) !! index) as [p|] eqn:Hp; [|by wp_step].
  pose proof (own_read _ _ H _ _ Hp) as Hr. cbv zeta. wp_step.
  { apply parsePacket_own; [done..|]. case_match; done. }
  apply wp_bind. eapply wp_mono; [by apply newTimestamp_own|]. cbn. intros o w1 [Hw1 Ho].
  destruct o as [v1|v1|st]; [|by wp_step..]. apply parsePacket_own; done.
Qed.

Lemma u16_loop_end i n : is_u16 i -> Z.of_nat n < 65536 -> (i =? u16 (i + Z.of_nat n)) = bool_decide (n = 0%nat).
Proof.
  intros Hi Hn. case_bool_decide as E; [subst; apply Z.eqb_eq|apply Z.eqb_neq]; width_lia.
Qed.

Lemma parseLoop_own ps closed earliest n fuel index v w :
  Owns ps w -> is_u16 index -> vars_ok v -> Z.of_nat n < 65536 -> (n <= fuel)%nat ->
  wp (parseLoop depay onFrameReady onFrameDropped fuel closed earliest index (u16 (index + Z.of_nat n)) v)
    (keeps ps) w.
Proof.
  revert fuel index v w. induction n as [|n IH]; intros fuel index v w H Hi Hv Hn Hf.
  - destruct fuel; cbn [parseLoop]; rewrite u16_loop_end by done; by apply wp_ret.
  - destruct fuel as [|fuel]; [lia|]. cbn [parseLoop]. rewrite u16_loop_end by done.
    rewrite bool_decide_false by done. apply wp_bind. eapply wp_mono; [by apply parseStep_own|].
    cbn. intros o w1 [Hw1 Ho]. destruct o as [v1|v1|st]; [|by wp_step..].
    replace (u16 (index + Z.of_nat (S n))) with (u16 (u16 (index + 1) + Z.of_nat n)) by width_lia.
    apply IH; auto; lia.
Qed.

Lemma closeLoop_own ps last n fuel index hasEntry first partial size w :
  Owns ps w -> is_u16 index -> last = u16 (index + Z.of_nat n - 1) -> Z.of_nat n < 65536 -> (n <= fuel)%nat ->
  wp (closeLoop depay fuel index last hasEntry first partial size)
    (fun r w' => Owns ps w' /\ match r with inl _ => True | inr (i, _) => is_u16 i end) w.
Proof.
  intros H. revert fuel index hasEntry first partial size.
  induction n as [|n IH]; intros fuel index hasEntry first partial size Hi El Hn Hf.
  { subst. destruct fuel; cbn [closeLoop]; rewrite UINT16_DEC_end by done; by apply wp_ret. }
  destruct fuel as [|fuel]; [lia|]. cbn [closeLoop].
  rewrite El at 1. rewrite UINT16_DEC_end by done. rewrite bool_decide_false by done. cbn [orb].
  rewrite u16_next_end in El. wp_step; [by wp_step|].
  apply wp_bind, wp_hasEntryAt; [apply (own_tab _ _ H)|]. cbv beta match. case_bool_decide as Hin.
  - apply wp_bind, wp_getEntry; [apply (own_tab _ _ H)|]. destruct Hin as [p Hp]. rewrite Hp.
    apply wp_bind, depaySize_wp; [by apply (own_read _ _ H _ _ Hp)|]. intros [st|[k b]]; [by wp_step|].
    apply IH; auto; lia.
  - apply IH; auto; lia.
Qed.

Lemma parseTail_own ps v w :
  Owns ps w -> vars_ok v ->
  wp (parseTail depay onFrameReady onFrameDropped v) (fun _ w' => Owns ps w') w.
Proof.
  intros H [Hs Hl]. unfold parseTail. destruct (range_len (startDropIndex v) (lastNonNullIndex v) Hs Hl) as [Hn El].
  apply wp_bind. eapply wp_mono; [eapply closeLoop_own; [done|done|exact El|exact Hn|lia]|].
  cbn. intros [st|[i size]] w1 [Hw1 Hi]; [by wp_step|]. wp_step. apply wp_gets. wp_step.
  assert (Hend : forall st w2, Owns ps w2 -> wp (if STATUS_FAILED st then mret st
    else defaultDropBufferData (startDropIndex v) (lastNonNullIndex v) (headTimestamp (jb w1)))
      (fun _ w' => Owns ps w') w2).
  { intros st w2 Hw2. wp_step; [by wp_step|]. eapply drop_own; [exact Hw2|done|done|]. auto. }
  wp_step; [eapply callReady_own|eapply callDropped_own]; try exact Hw1; auto.
Qed.

Lemma parse_own ps closed w (Q : STATUS -> JbWorld -> Prop) :
  Owns ps w -> (forall st w', Owns ps w' -> Q st w') ->
  wp (jitterBufferInternalParse depay onFrameReady onFrameDropped closed) Q w.
Proof.
  intros H HQ. unfold jitterBufferInternalParse. wp_step. apply wp_gets. wp_step; [wp_step; by apply HQ|].
  cbv zeta. pose proof (own_head _ _ H) as Hh. pose proof (own_tail _ _ H) as Ht.
  assert (El : u16 (tailSequenceNumber (jb w) + 1) = u16 (headSequenceNumber (jb w) +
    Z.of_nat (Z.to_nat (u16 (tailSequenceNumber (jb w) + 1 - headSequenceNumber (jb w)))))) by width_lia.
  rewrite El. apply wp_bind. eapply wp_mono; [apply (parseLoop_own ps)|]; [done|done|by split; cbn|width_lia|width_lia|].
  cbn. intros o w1 [Hw1 Ho].
  assert (Hclose : forall v, vars_ok v -> wp (if closed && (0 <? curFrameSize v)
    then parseTail depay onFrameReady onFrameDropped v else mret STATUS_SUCCESS) Q w1).
  { intros v Hv. wp_step; [|wp_step; by apply HQ]. eapply wp_mono; [by apply (parseTail_own ps)|]. auto. }
  destruct o; [by apply Hclose..|]. wp_step. by apply HQ.
Qed.

(** ** Push and destroy *)

(** A packet that is not stored is freed. *)
Lemma Owns_free ps p w : Owns ps w -> Owns (p :: ps) (w <| jbLog := jbLog w ++ [EvFreePacket p] |>).
Proof.
  intros [? ? ? ? Hp]. split; cbn; [done..|]. rewrite freed_app, (assoc_L (++)), Hp. cbn.
  symmetry. apply Permutation_cons_append.
Qed.

Lemma Owns_put ps p w ht :
  Owns ps w -> readable p -> tab (jb w) !! seqOf p = None ->
  ht_map ht = <[seqOf p := p]> (tab (jb w)) -> tab_ok (jb (withTab w ht)) -> Owns (p :: ps) (withTab w ht).
Proof.
  intros [Ht Hh Htl Hr Hp] Hrp Hn Hm Hok. split; cbn; [done..| |].
  - intros k q. change (tab ((jb w) <| pPkgBufferHashTable := ht |>)) with (ht_map ht). rewrite Hm.
    rewrite lookup_insert_Some. intros [[_ <-]|[_ Hq]]; [done|by eapply Hr].
  - unfold held. change (tab ((jb w) <| pPkgBufferHashTable := ht |>)) with (ht_map ht). rewrite Hm.
    rewrite map_to_list_insert by done. cbn. by rewrite <- Hp.
Qed.

(** The packet filed under a key is removed and freed. *)
Lemma Owns_replace ps p k w ht :
  Owns ps w -> tab (jb w) !! k = Some p -> ht_map ht = delete k (tab (jb w)) -> tab_ok (jb (withTab w ht)) ->
  Owns ps ((withTab w ht) <| jbLog := jbLog w ++ [EvFreePacket p] |>).
Proof.
  intros [Ht Hh Htl Hr Hp] Hk Hm Hok. split; cbn; [done..| |].
  - intros k' q. change (tab ((jb w) <| pPkgBufferHashTable := ht |>)) with (ht_map ht). rewrite Hm.
    rewrite lookup_delete_Some. intros [_ Hq]. by eapply Hr.
  - rewrite freed_app. cbn. rewrite <- Hp. unfold held.
    change (tab ((jb w) <| pPkgBufferHashTable := ht |>)) with (ht_map ht). rewrite Hm.
    rewrite <- (map_to_list_delete (tab (jb w)) k p Hk). cbn. rewrite (assoc_L (++)).
    symmetry. apply Permutation_cons_append.
Qed.

Lemma storePacket_own ps p w (Q : STATUS -> JbWorld -> Prop) :
  Owns ps w -> packet_ok p -> tab (jb w) !! seqOf p = None ->
  (forall w', Owns (p :: ps) w' -> Q STATUS_SUCCESS w') -> wp (storePacket true p) Q w.
Proof.
  intros H [Hq Hr] Hn HQ. unfold storePacket. apply wp_bind, wp_gets, wp_bind.
  apply wp_putEntry; [apply (own_tab _ _ H)|done|done|]. intros ht Hm Hok. cbn.
  pose proof (Owns_put ps p w ht H Hr Hn Hm Hok) as Hw1. apply wp_bind, wp_gets. wp_step; [|wp_step; by apply HQ].
  wp_step. eapply wp_check_own; [auto with jitter|exact Hw1|done|]. intros _ w2 Hw2.
  wp_step. eapply wp_check_own; [auto with jitter|exact Hw2|done|]. intros _ w3 Hw3. wp_step. by apply HQ.
Qed.

Lemma slideWindow_own ps p w (Q : bool -> JbWorld -> Prop) :
  Owns ps w -> is_u16 (seqOf p) -> (forall r w', Owns ps w' -> Q r w') -> wp (slideWindow p) Q w.
Proof.
  intros H Hq HQ. unfold slideWindow. apply wp_bind, wp_gets, wp_bind.
  assert (Hopt : forall f w1 (R : unit -> JbWorld -> Prop) c, (forall b, moves b p (f b p).2) -> Owns ps w1 ->
    (forall w2, Owns ps w2 -> R tt w2) -> wp (when c (check f p;; mret tt)) R w1).
  { intros f w1 R c Hm Hw1 HR. apply wp_when; intros _; [|by apply HR]. wp_step.
    eapply wp_check_own; [done|exact Hw1|done|]. intros. wp_step. by apply HR. }
  assert (exists w0, w0 = w) as [w0 E] by eauto. rewrite <- E in *.
  eapply (wp_mono _ (fun _ w1 => Owns ps w1)).
  { apply wp_when; intros _; [|done]. unfold setJb. apply wp_modify. by apply (Owns_same ps w0). }
  cbn. clear w0 H w E. intros _ w0 Hw0.
  wp_step. eapply wp_check_own; [auto with jitter|exact Hw0|done|]. intros e1 w1 Hw1.
  wp_step. apply Hopt; [auto with jitter|exact Hw1|]. clear w1 Hw1. intros w1 Hw1.
  wp_step. eapply wp_check_own; [auto with jitter|exact Hw1|done|]. intros e2 w2 Hw2.
  wp_step. apply Hopt; [auto with jitter|exact Hw2|]. clear w2 Hw2. intros w2 Hw2.
  eapply wp_check_own; [auto with jitter|exact Hw2|done|]. auto.
Qed.

Lemma storeAndParse_own ps p w (Q : STATUS * bool -> JbWorld -> Prop) :
  Owns ps w -> packet_ok p -> tab (jb w) !! seqOf p = None ->
  (forall r w', Owns (p :: ps) w' -> Q r w') ->
  wp (storeAndParse depay onFrameReady onFrameDropped true p) Q w.
Proof.
  intros H Hp Hn HQ. unfold storeAndParse. apply wp_bind. eapply storePacket_own; [done..|]. intros w2 Hw2.
  cbn. apply wp_bind. eapply parse_own; [exact Hw2|]. intros. by apply wp_ret, HQ.
Qed.

Lemma push_own ps p w (Q : STATUS * bool -> JbWorld -> Prop) :
  Owns ps w -> packet_ok p -> (forall r w', Owns (p :: ps) w' -> Q r w') ->
  wp (defaultPush depay onFrameReady onFrameDropped true p) Q w.
Proof.
  intros H Hp HQ. pose proof (proj1 Hp) as Hq. unfold defaultPush. apply wp_bind.
  eapply slideWindow_own; [exact H|done|]. clear w H. intros within w H. destruct within.
  - apply wp_bind, wp_getEntry; [apply (own_tab _ _ H)|].
    destruct (tab (jb w) !! seqOf p) as [cur|] eqn:Hc; [|by eapply storeAndParse_own].
    unfold freeRtpPacket, logEv. wp_step; [wp_steps; by apply HQ, Owns_free|].
    wp_step. apply wp_modify. wp_step. eapply wp_removeEntry; [apply (own_tab _ _ H)|exact Hc|].
    intros ht Hm Hok. cbn [STATUS_FAILED]. eapply (storeAndParse_own ps);
      [exact (Owns_replace ps cur (seqOf p) w ht H Hc Hm Hok)|done| |done].
    change (ht_map ht !! seqOf p = None). rewrite Hm. cbn. apply lookup_delete_eq.
  - unfold freeRtpPacket, logEv. wp_step. apply wp_modify. wp_step. eapply parse_own; [by apply Owns_free|].
    intros. by apply wp_ret, HQ.
Qed.

Lemma destroyLoop_own ps n prev w (Q : unit -> JbWorld -> Prop) :
  Owns ps w -> (forall w', Owns ps w' -> Q tt w') ->
  wp (destroyLoop depay onFrameReady onFrameDropped n prev) Q w.
Proof.
  revert prev w. induction n as [|n IH]; intros prev w H HQ; [by apply wp_ret, HQ|]. cbn [destroyLoop].
  wp_step. eapply parse_own; [exact H|]. intros st w1 Hw1. wp_step. apply wp_gets.
  wp_step; [wp_step; by apply HQ|]. cbv zeta. wp_step; [wp_step; by apply HQ|]. by apply IH.
Qed.

Lemma foldl_free log es :
  foldl (fun log e => (freeRtpPacketHashEntry log e).2) log es = log ++ freedEvents es.*2.
Proof.
  revert log. induction es as [|e es IH]; intros log; [by rewrite app_nil_r|]. cbn. rewrite IH. cbn.
  by rewrite <- (assoc_L (++)).
Qed.

Lemma freeTable_own ps w (Q : unit -> JbWorld -> Prop) :
  Owns ps w -> (forall w', freed (jbLog w') ≡ₚ ps -> Q tt w') -> wp freeTable Q w.
Proof.
  intros H HQ. unfold wp, freeTable.
  rewrite hashTableIterateEntries_ok; [|apply (tab_ht _ (own_tab _ _ H))|done]. apply HQ. cbn.
  rewrite foldl_free, freed_app, freed_events, <- (own_perm _ _ H). unfold held, tab.
  rewrite (ht_entries_perm _ (tab_ht _ (own_tab _ _ H))). apply Permutation_app_comm.
Qed.

Lemma destroy_own ps w :
  Owns ps w -> wp (defaultDestroy depay onFrameReady onFrameDropped)
    (fun st w' => st = STATUS_SUCCESS /\ freed (jbLog w') ≡ₚ ps) w.
Proof.
  intros H. unfold defaultDestroy. apply wp_bind, wp_gets, wp_bind.
  eapply (wp_mono _ (fun _ w1 => Owns ps w1)).
  { apply wp_when; intros _; [|done]. wp_step. eapply destroyLoop_own; [exact H|]. intros w1 Hw1. wp_step.
    apply wp_gets. wp_step. eapply drop_own; [exact Hw1|apply Hw1|apply Hw1|]. intros. by wp_step. }
  cbn. intros _ w1 Hw1. wp_step. eapply freeTable_own; [exact Hw1|]. intros w2 Hw2. by wp_step.
Qed.

(** ** Sessions *)

(** A buffer is created, packets are pushed, and the buffer is destroyed. *)
Fixpoint pushAll (ps : list RtpPacket) : ST JbWorld (list (STATUS * bool)) :=
  match ps with
  | [] => mret []
  | p :: ps =>
      r ← defaultPush depay onFrameReady onFrameDropped true p;
      rs ← pushAll ps;
      mret (r :: rs)
  end.

Lemma pushAll_own ps qs w (Q : list (STATUS * bool) -> JbWorld -> Prop) :
  Owns qs w -> Forall packet_ok ps -> (forall r w', Owns (rev ps ++ qs) w' -> Q r w') -> wp (pushAll ps) Q w.
Proof.
  revert qs w Q. induction ps as [|p ps IH]; intros qs w Q H Hps HQ; [by apply wp_ret, HQ|].
  inversion Hps as [|?? Hp Hps']. subst. cbn [pushAll]. wp_step. eapply push_own; [exact H|done|].
  intros r w1 Hw1. wp_step. eapply IH; [exact Hw1|done|]. intros rs w2 Hw2. wp_step. apply HQ.
  change (rev (p :: ps)) with (rev ps ++ [p]). by rewrite <- (assoc_L (++)).
Qed.

Lemma createJitterBuffer_own mt latency rate single b :
  createJitterBuffer true mt latency rate single = Ok b -> Owns [] {| jb := b; jbLog := [] |}.
Proof.
  unfold createJitterBuffer. destruct (negb _); [|done]. cbv zeta. case_match; [|done]. intros E.
  apply res_bind_inv in E as (ht & E & [= <-]). destruct mt; [|done].
  destruct (hashTableCreateWithParams_spec (V := RtpPacket) 3000 2) as (ht' & E' & Hok & Hroom & Hm);
    [unfold MIN_HASH_BUCKET_COUNT; lia|lia|].
  unfold JITTER_BUFFER_HASH_TABLE_BUCKET_COUNT, JITTER_BUFFER_HASH_TABLE_BUCKET_LENGTH in E.
  rewrite E' in E. injection E as ->.
  split; cbn; unfold MAX_RTP_SEQUENCE_NUM; try width_lia.
  - split; cbn; [done..|]. unfold tab. cbn. rewrite Hm. intros k p. by rewrite lookup_empty.
  - unfold tab. cbn. rewrite Hm. intros k p. by rewrite lookup_empty.
  - unfold held, tab. cbn. by rewrite Hm, map_to_list_empty.
Qed.
End Safety.

(** C19. Packet ownership in the jitter buffer: for every depacketiser and every pair of
    callbacks, whatever they return, and for packets whose payload the depacketiser can
    measure without reading outside it (which it may not for malformed payloads), when there
    is memory for the hash table and its growing buckets, a session that creates a buffer, pushes packets in any
    order (with duplicates, late packets, lost packets and wrap-arounds) and destroys the
    buffer runs to its end without a memory fault, and frees every pushed packet exactly
    once: nothing leaks and nothing is freed twice. *)
Theorem jitterBuffer_owns depay onFrameReady onFrameDropped mt latency rate single b ps
  (Hb : createJitterBuffer true mt latency rate single = Ok b)
  (Hps : Forall (packet_ok depay) ps) :
  wp (pushAll depay onFrameReady onFrameDropped ps;; defaultDestroy depay onFrameReady onFrameDropped)
    (fun st w => st = STATUS_SUCCESS /\ freed (jbLog w) ≡ₚ ps)
    {| jb := b; jbLog := [] |}.
Proof.
  wp_step. eapply pushAll_own; [by eapply createJitterBuffer_own|done|]. intros rs w Hw.
  eapply wp_mono; [by apply destroy_own|]. cbn. intros st w' [-> Hf]. split; [done|].
  rewrite Hf, app_nil_r. symmetry. apply Permutation_rev.
Qed.

(** A new buffer for Opus (20 s at 48 kHz), callbacks that accept everything, and two
    packets, the second a duplicate of the first. *)
Definition ex_buffer (single : bool) : JitterBuffer :=
  {| clockRate := 48000; tailTimestamp := 0; headSequenceNumber := 65535; tailSequenceNumber := 65535;
     headTimestamp := MAX_UINT32; maxLatency := 96000; started := false; firstFrameProcessed := false;
     sequenceNumberOverflowState := false; timestampOverFlowState := false; alwaysSinglePacketFrames := single;
     pPkgBufferHashTable := {| itemCount := 0; bucketCount := 3000; bucketLength := 2;
       buckets := replicate 3000 {| hb_count := 0; hb_length := 2; hb_entries := [None; None] |} |} |}.
Definition ex_accept (b : JitterBuffer) (s e n : Z) : STATUS := STATUS_SUCCESS.
Definition ex_packet (seq ts : Z) (mark : bool) (bytes : list Z) : RtpPacket :=
  {| header := {| version := 2; padding := false; extension := false; csrcCount := 0; marker := mark;
                  payloadType := 111; sequenceNumber := seq; timestamp := ts; ssrc := 1; csrcArray := None;
                  extensionProfile := 0; extensionPayload := None; extensionLength := 0 |};
     payload := Some (Ptr bytes 0); payloadLength := blen bytes; pRawPacket := None; rawPacketLength := 0;
     receivedTime := 0; sentTime := 0; isSynthetic := false |}.

Lemma opus_readable p : readable depayOpusFromRtpPayload p.
Proof.
  intros cap first. unfold depayOpusFromRtpPayload, depayDone. destruct (payload p); [|done]. by case_match.
Qed.

Lemma jitterBuffer_owns_witness :
  let ps := [ex_packet 7 1000 false [1; 2]; ex_packet 7 1000 false [1; 2]; ex_packet 9 2000 false [3]] in
  wp (pushAll depayOpusFromRtpPayload ex_accept ex_accept ps;;
      defaultDestroy depayOpusFromRtpPayload ex_accept ex_accept)
    (fun st w => st = STATUS_SUCCESS /\ freed (jbLog w) ≡ₚ ps) {| jb := ex_buffer false; jbLog := [] |}.
Proof.
  apply (jitterBuffer_owns depayOpusFromRtpPayload ex_accept ex_accept true 20000000 48000 false).
  - vm_compute. reflexivity.
  - repeat constructor; cbn; try width_lia; apply opus_readable.
Defined.

(** ** The stalled buffer

    The window is empty ([head = tail + 1]) while the buffer still is in the sequence-number
    overflow state: the tail may then only move to numbers below the head, of which there
    are none, and the parser has nothing to look at. *)
Definition stalled (b : JitterBuffer) : Prop :=
  started b = true /\ sequenceNumberOverflowState b = true /\
  headSequenceNumber b = tailSequenceNumber b + 1 /\ 0 <= tailSequenceNumber b < MAX_UINT16.

(** What a check leaves unchanged in a stalled buffer. *)
Definition stuck (b b' : JitterBuffer) : Prop :=
  stalled b' /\ pPkgBufferHashTable b' = pPkgBufferHashTable b.

Ltac stuck_tac := repeat first
  [ progress cbn [fst snd]
  | by (split; [|reflexivity]; first [done | by (split_and!; cbn; intuition)])
  | match goal with |- context [if ?c then _ else _] => destruct c end ].

Lemma headSequenceNumberCheck_stuck b p : stalled b -> stuck b (headSequenceNumberCheck b p).2.
Proof.
  intros Hs. pose proof Hs as (? & Ho & Eh & ?). unfold headSequenceNumberCheck. rewrite Ho, Eh.
  destruct ((tailSequenceNumber b <? seqOf p) && (seqOf p <? tailSequenceNumber b + 1)) eqn:E; [lia|].
  cbn [andb]. stuck_tac.
Qed.
Lemma tailSequenceNumberCheck_stuck b p : stalled b -> stuck b (tailSequenceNumberCheck b p).2.
Proof.
  intros Hs. pose proof Hs as (? & Ho & Eh & ?). unfold tailSequenceNumberCheck. rewrite Ho, Eh. cbn [negb orb].
  destruct ((tailSequenceNumber b <? seqOf p) && (seqOf p <? tailSequenceNumber b + 1)) eqn:E; [lia|].
  stuck_tac.
Qed.
Lemma enterSequenceNumberOverflowCheck_stuck b p : stalled b -> stuck b (enterSequenceNumberOverflowCheck b p).2.
Proof. intros Hs. pose proof Hs as (? & Ho & ? & ?). unfold enterSequenceNumberOverflowCheck. rewrite Ho. stuck_tac. Qed.

Ltac stuck_via H := let Hs := fresh in let E := fresh in
  cbn [fst snd] in H; destruct H as [Hs E]; split; [exact Hs|exact E].

Lemma enterTimestampOverflowCheck_stuck b p : stalled b -> stuck b (enterTimestampOverflowCheck b p).2.
Proof.
  intros Hs. pose proof (headSequenceNumberCheck_stuck b p Hs) as Hh.
  pose proof (tailSequenceNumberCheck_stuck b p Hs) as Ht. unfold enterTimestampOverflowCheck.
  destruct (timestampOverFlowState b); [stuck_tac|]. destruct ((tsOf p <? headTimestamp b) && _).
  { destruct (tailSequenceNumberCheck b p) as [[] b1]; stuck_via Ht. }
  destruct ((headTimestamp b <? tsOf p) && _); [|stuck_tac].
  destruct (headSequenceNumberCheck b p) as [r b1]. destruct (r && _); stuck_via Hh.
Qed.

Lemma headTimestampCheck_stuck b p : stalled b -> stuck b (headTimestampCheck b p).2.
Proof.
  intros Hs. pose proof (headSequenceNumberCheck_stuck b p Hs) as Hh. unfold headTimestampCheck.
  set (c := headCheckingAllowed b p && _). destruct c; [|stuck_tac].
  destruct (headSequenceNumberCheck b p) as [[] b1]; stuck_via Hh.
Qed.

Lemma tailTimestampCheck_stuck b p : stalled b -> stuck b (tailTimestampCheck b p).2.
Proof.
  intros Hs. pose proof (tailSequenceNumberCheck_stuck b p Hs) as Ht. unfold tailTimestampCheck.
  set (c := (tailTimestamp b <? tsOf p) && _). destruct c; [|stuck_tac].
  destruct (tailSequenceNumberCheck b p) as [[] b1]; stuck_via Ht.
Qed.

Lemma withinLatencyTolerance_stuck b p : stalled b -> stuck b (withinLatencyTolerance b p).2.
Proof.
  intros Hs. pose proof (tailTimestampCheck_stuck b p Hs) as Ht. unfold withinLatencyTolerance.
  destruct (tailTimestampCheck b p) as [r b1]. cbn [fst snd] in Ht. by repeat (case_match; cbn [fst snd]).
Qed.

#[local] Hint Resolve headSequenceNumberCheck_stuck tailSequenceNumberCheck_stuck
  enterSequenceNumberOverflowCheck_stuck enterTimestampOverflowCheck_stuck headTimestampCheck_stuck
  tailTimestampCheck_stuck withinLatencyTolerance_stuck : jitter.

Section Stalled.
Variable depay : DepayRtpPayloadFunc.
Variables onFrameReady onFrameDropped : JitterBuffer -> Z -> Z -> Z -> STATUS.

(** Nothing was delivered since the log was [log], and the buffer is stalled. *)
Record Stalled (log : list JbEvent) (w : JbWorld) : Prop := {
  st_stalled : stalled (jb w);
  st_tab : tab_ok (jb w);
  st_log : delivered (jbLog w) = delivered log;
}.

Lemma wp_check_stalled f p log w (Q : bool -> JbWorld -> Prop) :
  (forall b, stalled b -> stuck b (f b p).2) -> Stalled log w ->
  (forall r w', Stalled log w' -> Q r w') -> wp (check f p) Q w.
Proof.
  intros Hf [Hs [Ht1 Ht2 Ht3] Hl] HQ. apply wp_check, HQ. destruct (Hf _ Hs) as [Hs' E]. split; cbn; [done| |done].
  split; unfold tab in *; rewrite E; done.
Qed.

Lemma slideWindow_stalled log p w (Q : bool -> JbWorld -> Prop) :
  Stalled log w -> (forall r w', Stalled log w' -> Q r w') -> wp (slideWindow p) Q w.
Proof.
  intros H HQ. unfold slideWindow. apply wp_bind, wp_gets, wp_bind.
  rewrite (proj1 (st_stalled _ _ H)). apply wp_when; [done|intros _].
  assert (Hopt : forall f w1 (R : unit -> JbWorld -> Prop) c, (forall b, stalled b -> stuck b (f b p).2) ->
    Stalled log w1 -> (forall w2, Stalled log w2 -> R tt w2) -> wp (when c (check f p;; mret tt)) R w1).
  { intros f w1 R c Hm Hw1 HR. apply wp_when; intros _; [|by apply HR]. wp_step.
    eapply wp_check_stalled; [done|exact Hw1|]. intros. wp_step. by apply HR. }
  wp_step. eapply wp_check_stalled; [auto with jitter|exact H|]. intros e1 w1 Hw1.
  wp_step. apply Hopt; [auto with jitter|exact Hw1|]. clear w1 Hw1. intros w1 Hw1.
  wp_step. eapply wp_check_stalled; [auto with jitter|exact Hw1|]. intros e2 w2 Hw2.
  wp_step. apply Hopt; [auto with jitter|exact Hw2|]. clear w2 Hw2. intros w2 Hw2.
  eapply wp_check_stalled; [auto with jitter|exact Hw2|]. auto.
Qed.

Lemma parse_stalled log w (Q : STATUS -> JbWorld -> Prop) :
  Stalled log w -> Q STATUS_SUCCESS w -> wp (jitterBufferInternalParse depay onFrameReady onFrameDropped false) Q w.
Proof.
  intros H HQ. pose proof (st_stalled _ _ H) as (Hst & Ho & Eh & Hr). unfold jitterBufferInternalParse.
  apply wp_bind, wp_gets. rewrite Hst. cbn [negb]. cbv zeta. wp_step.
  destruct (Z.to_nat 65536); cbn [parseLoop];
    (rewrite (proj2 (Z.eqb_eq _ _)); [wp_step; cbn [andb]; by wp_step|width_lia]).
Qed.

Lemma storePacket_stalled log p w (Q : STATUS -> JbWorld -> Prop) :
  Stalled log w -> is_u16 (seqOf p) -> tab (jb w) !! seqOf p = None ->
  (forall w', Stalled log w' -> Q STATUS_SUCCESS w') -> wp (storePacket true p) Q w.
Proof.
  intros H Hq Hn HQ. unfold storePacket. apply wp_bind, wp_gets, wp_bind.
  apply wp_putEntry; [apply (st_tab _ _ H)|done|done|]. intros ht Hm Hok. cbn.
  assert (Hw1 : Stalled log (withTab w ht)) by (split; cbn; [apply (st_stalled _ _ H)|done|apply (st_log _ _ H)]).
  apply wp_bind, wp_gets. wp_step; [|wp_step; by apply HQ].
  wp_step. eapply wp_check_stalled; [auto with jitter|exact Hw1|]. intros _ w2 Hw2.
  wp_step. eapply wp_check_stalled; [auto with jitter|exact Hw2|]. intros _ w3 Hw3. wp_step. by apply HQ.
Qed.

Lemma Stalled_free log p w : Stalled log w -> Stalled log (w <| jbLog := jbLog w ++ [EvFreePacket p] |>).
Proof. intros [? ? Hl]. split; cbn; [done|done|]. by rewrite delivered_app, app_nil_r. Qed.

Lemma storeAndParse_stalled log p w (Q : STATUS * bool -> JbWorld -> Prop) :
  Stalled log w -> is_u16 (seqOf p) -> tab (jb w) !! seqOf p = None ->
  (forall r w', Stalled log w' -> Q r w') -> wp (storeAndParse depay onFrameReady onFrameDropped true p) Q w.
Proof.
  intros H Hq Hn HQ. unfold storeAndParse. apply wp_bind. eapply storePacket_stalled; [done..|]. intros w2 Hw2.
  cbn. apply wp_bind. eapply parse_stalled; [exact Hw2|]. by apply wp_ret, HQ.
Qed.

Lemma push_stalled log p w (Q : STATUS * bool -> JbWorld -> Prop) :
  Stalled log w -> is_u16 (seqOf p) -> (forall r w', Stalled log w' -> Q r w') ->
  wp (defaultPush depay onFrameReady onFrameDropped true p) Q w.
Proof.
  intros H Hq HQ. unfold defaultPush. apply wp_bind.
  eapply slideWindow_stalled; [exact H|]. clear w H. intros within w H. destruct within.
  - apply wp_bind, wp_getEntry; [apply (st_tab _ _ H)|].
    destruct (tab (jb w) !! seqOf p) as [cur|] eqn:Hc; [|by eapply storeAndParse_stalled].
    unfold freeRtpPacket, logEv. wp_step; [wp_steps; by apply HQ, Stalled_free|].
    wp_step. apply wp_modify. wp_step. eapply wp_removeEntry; [apply (st_tab _ _ H)|exact Hc|].
    intros ht Hm Hok. cbn [STATUS_FAILED]. eapply storeAndParse_stalled; [|done| |done].
    + apply (Stalled_free log cur) in H. destruct H as [? ? ?]. split; done.
    + change (ht_map ht !! seqOf p = None). rewrite Hm. cbn. apply lookup_delete_eq.
  - unfold freeRtpPacket, logEv. wp_step. apply wp_modify. wp_step. eapply parse_stalled; [by apply Stalled_free|].
    by apply wp_ret, HQ, Stalled_free.
Qed.

Lemma pushAll_stalled log ps w :
  Forall (fun p => is_u16 (seqOf p)) ps -> Stalled log w ->
  wp (pushAll depay onFrameReady onFrameDropped ps) (fun _ w' => Stalled log w') w.
Proof.
  intros Hps. revert w. induction Hps as [|p ps Hp _ IH]; intros w Hw; [by apply wp_ret|].
  cbn [pushAll]. wp_step. eapply push_stalled; [exact Hw|done|]. intros r w1 Hw1.
  wp_step. eapply wp_mono; [by apply IH|]. intros rs w2 Hw2. by wp_step.
Qed.
End Stalled.

(** C37. A buffer whose window has become empty while it is in the sequence-number overflow
    state never delivers a frame again: for every depacketiser, every callback and every
    further sequence of packets, nothing is handed to the frame-ready callback and the
    buffer stays in that state.  The sequence numbers reach it at every wrap-around of a
    stream whose frames are delivered as soon as they are complete: the witness starts from
    a new buffer, delivers one-packet frames numbered 65534, 65535 and 0, and is stalled. *)
Theorem jitterBuffer_stalls depay onFrameReady onFrameDropped ps w
  (Hs : stalled (jb w)) (Ht : tab_ok (jb w)) (Hps : Forall (fun p => is_u16 (seqOf p)) ps) :
  wp (pushAll depay onFrameReady onFrameDropped ps)
    (fun _ w' => stalled (jb w') /\ delivered (jbLog w') = delivered (jbLog w)) w.
Proof.
  eapply wp_mono; [apply (pushAll_stalled _ _ _ (jbLog w)); [done|by split]|]. cbn. intros _ w' [? ? ?]. done.
Qed.

(** The wrap-around: frames of one packet each. *)
Definition ex_wrap : list RtpPacket :=
  [ex_packet 65534 1000 false [1]; ex_packet 65535 2000 false [2]; ex_packet 0 3000 false [3]].
Definition ex_after : list RtpPacket := [ex_packet 1 4000 false [4]; ex_packet 2 5000 false [5]].

Lemma jitterBuffer_stalls_witness :
  match pushAll depayOpusFromRtpPayload ex_accept ex_accept ex_wrap {| jb := ex_buffer true; jbLog := [] |} with
  | Some (_, w) =>
      length (delivered (jbLog w)) = 3%nat /\
      wp (pushAll depayOpusFromRtpPayload ex_accept ex_accept ex_after)
        (fun _ w' => stalled (jb w') /\ delivered (jbLog w') = delivered (jbLog w)) w
  | None => False
  end.
Proof.
  assert (Hwp : wp (pushAll depayOpusFromRtpPayload ex_accept ex_accept ex_wrap)
    (fun _ w => tab_ok (jb w)) {| jb := ex_buffer true; jbLog := [] |}).
  { eapply (pushAll_own depayOpusFromRtpPayload ex_accept ex_accept ex_wrap []).
    - apply (createJitterBuffer_own depayOpusFromRtpPayload ex_accept ex_accept true 20000000 48000 true). vm_compute. reflexivity.
    - repeat constructor; cbn; try width_lia; apply opus_readable.
    - intros r w' Hw'. apply (own_tab _ _ _ Hw'). }
  unfold wp in Hwp.
  destruct (pushAll _ _ _ ex_wrap _) as [[rs w]|] eqn:E; [|done].
  assert (Hc : stalled (jb w) /\ length (delivered (jbLog w)) = 3%nat).
  { revert E. clear. intros E.
    assert (match pushAll depayOpusFromRtpPayload ex_accept ex_accept ex_wrap {| jb := ex_buffer true; jbLog := [] |} with
      | Some (_, w) => (started (jb w), sequenceNumberOverflowState (jb w), headSequenceNumber (jb w),
                        tailSequenceNumber (jb w), length (delivered (jbLog w))) | None => (false, false, 0, 0, 0%nat) end
      = (true, true, 1, 0, 3%nat)) as H by (vm_compute; reflexivity).
    rewrite E in H. injection H as H1 H2 H3 H4 H5. unfold stalled. rewrite H1, H2, H3, H4. split_and!; done. }
  destruct Hc as [Hst Hlen]. split; [done|].
  apply (jitterBuffer_stalls depayOpusFromRtpPayload ex_accept ex_accept ex_after w Hst Hwp).
  repeat constructor; cbn; width_lia.
Defined.
