(* ===== verification/JitterDelivery.v ===== *)
(** * Frame delivery by the jitter buffer

    Between two frames the window of the buffer is empty.  The packets of the next frame
    may then arrive in any order: the buffer waits until the frame is complete, hands it to
    the frame-ready callback once, with its exact size, and is ready for the next frame.
    The proofs are about every payload format that is a [Payloader]. *)

From stdpp Require Import fin_maps gmap.
From S2P Require Import Prelude RtpPacket HashTable Payloaders JitterBuffer JitterSafety.

(** [p] carries the payload bytes [fr]. *)
Definition carries (p : RtpPacket) (fr : list Z) : Prop :=
  payloadLength p = blen fr /\ exists ptr, payload p = Some ptr /\ pld_bytes ptr (blen fr) = Ok fr.

(** The packets of one frame: consecutive sequence numbers from [s], one timestamp, one
    fragment each, the end of the frame marked on the last one. *)
Definition frame_packets (single : bool) (s t : Z) (frs : list (list Z)) (ps : list RtpPacket) : Prop :=
  length ps = length frs /\
  forall i p fr, ps !! i = Some p -> frs !! i = Some fr ->
    seqOf p = s + Z.of_nat i /\ tsOf p = t /\ carries p fr /\
    marker (header p) || single = bool_decide (S i = length ps).

(** The steady state: the first frame was delivered, the window is empty, the last frame had
    the timestamp [t] and [s] is the next number. *)
Record Steady (single : bool) (latency s t : Z) (w : JbWorld) : Prop := {
  sd_tab : tab_ok (jb w);
  sd_none : forall k, s <= k -> tab (jb w) !! k = None;
  sd_started : started (jb w) = true;
  sd_first : firstFrameProcessed (jb w) = true;
  sd_single : alwaysSinglePacketFrames (jb w) = single;
  sd_latency : maxLatency (jb w) = latency;
  sd_noseq : sequenceNumberOverflowState (jb w) = false;
  sd_nots : timestampOverFlowState (jb w) = false;
  sd_head : headSequenceNumber (jb w) = u16 s;
  sd_tail : tailSequenceNumber (jb w) = s - 1;
  sd_headTs : headTimestamp (jb w) = t;
  sd_tailTs : tailTimestamp (jb w) = t;
}.

(** A range that does not wrap around. *)
Lemma elem_of_cyc n i k : 0 <= i -> i + Z.of_nat n <= 65536 -> k ∈ cyc n i <-> i <= k < i + Z.of_nat n.
Proof.
  revert i. induction n as [|n IH]; intros i Hi Hn; cbn [cyc]; [rewrite elem_of_nil; lia|]. rewrite elem_of_cons.
  destruct (decide (i + 1 < 65536)).
  - rewrite u16_id by width_lia. rewrite IH by lia. lia.
  - assert (n = 0%nat) as -> by lia. cbn. rewrite elem_of_nil. lia.
Qed.

Section Frame.
Context {create : RtpPayloadFunc} {depay : DepayRtpPayloadFunc} {P : Payloader create depay}.
Variables onFrameReady onFrameDropped : JitterBuffer -> Z -> Z -> Z -> STATUS.
Hypothesis ready_ok : forall b s e n, onFrameReady b s e n = STATUS_SUCCESS.

(** One frame: [f] split for [mtu] into the packets [ps]. *)
Variables (single : bool) (latency s t0 t mtu : Z) (f : list Z) (ps : list RtpPacket).
Local Abbreviation frs := (fragments mtu f).
Local Abbreviation n := (length ps).
Hypothesis Hf : frame_ok mtu f.
Hypothesis Himg : blen (image f) < 2 ^ 32.
Hypothesis Hps : frame_packets single s t frs ps.
Hypothesis Hn : Z.of_nat n <= 60000.
Hypothesis Hs : 1 <= s /\ s + Z.of_nat n <= 65536.
Hypothesis Ht : 0 <= t0 < t /\ t < 2 ^ 32 /\ t - t0 <= latency.

Definition pieces : list (list Z) := imap (fun i => piece (bool_decide (i = 0%nat))) frs.

Lemma n_pos : (0 < n)%nat.
Proof.
  destruct (fragments_shape mtu f Hf) as (Hne & _). destruct Hps as [El _]. rewrite El.
  destruct frs; [done|simpl; lia].
Qed.

Lemma packet_at i p : ps !! i = Some p ->
  seqOf p = s + Z.of_nat i /\ tsOf p = t /\ marker (header p) || single = bool_decide (S i = n).
Proof.
  intros Hi. destruct Hps as [El Hp]. destruct (lookup_lt_is_Some_2 frs i) as [fr Hfr].
  { rewrite <- El. by eapply lookup_lt_Some. }
  destruct (Hp i p fr Hi Hfr) as (? & ? & _ & ?). done.
Qed.

Lemma packet_seq p : p ∈ ps -> exists i, ps !! i = Some p /\ seqOf p = s + Z.of_nat i /\ (i < n)%nat.
Proof.
  intros [i Hi]%list_elem_of_lookup_1. exists i. split; [done|]. split; [by apply packet_at|by eapply lookup_lt_Some].
Qed.

Lemma packet_ts p : p ∈ ps -> tsOf p = t.
Proof. intros [i Hi]%list_elem_of_lookup_1. by apply (packet_at i). Qed.

(** The sizing and the filling call on packet [i]. *)
Lemma packet_piece i p : ps !! i = Some p -> exists pc,
  pieces !! i = Some pc /\
  (forall cap, exists st, depay (payload p) (payloadLength p) None (Some cap) (Some (bool_decide (i = 0%nat))) =
     Ok {| do_status := STATUS_SUCCESS; do_data := None; do_length := Some (blen pc); do_isStart := Some st |} /\
     (i = 0%nat -> st = true)) /\
  (forall d cap data, blen pc <= cap -> put_bytes (p_obj d) (p_off d) pc = Ok data ->
     exists st, depay (payload p) (payloadLength p) (Some d) (Some cap) (Some (bool_decide (i = 0%nat))) =
     Ok {| do_status := STATUS_SUCCESS; do_data := Some data; do_length := Some (blen pc); do_isStart := Some st |}).
Proof.
  intros Hi. destruct Hps as [El Hp]. destruct (lookup_lt_is_Some_2 frs i) as [fr Hfr].
  { rewrite <- El. by eapply lookup_lt_Some. }
  destruct (Hp i p fr Hi Hfr) as (_ & _ & (Elen & ptr & Eptr & Hld) & _).
  destruct (fragments_shape mtu f Hf) as (_ & Htot & Hall & Hfirst).
  destruct (Forall_lookup_1 _ _ _ _ Hall Hfr) as (Hok & Hlen & _).
  assert (Hlen2 : blen fr < 2 ^ 32).
  { apply take_drop_middle in Hfr. rewrite <- Hfr, total_app, total_cons in Htot.
    pose proof (total_nonneg (take i frs)). pose proof (total_nonneg (drop (S i) frs)). lia. }
  exists (piece (bool_decide (i = 0%nat)) fr). split_and!.
  - unfold pieces. by rewrite list_lookup_imap, Hfr.
  - intros cap. exists (starts fr). rewrite Eptr, Elen. split; [by apply depay_size|].
    intros ->. apply Hfirst. by destruct frs; simplify_eq/=.
  - intros d cap data Hc Hput. exists (starts fr). rewrite Eptr, Elen. by apply depay_fill.
Qed.

Lemma total_pieces : total pieces = blen (image f).
Proof. unfold pieces. by rewrite <- blen_concat, (pieces_image mtu f Hf). Qed.

Lemma total_split j : total (take j pieces) + total (drop j pieces) = blen (image f).
Proof. by rewrite <- total_app, take_drop, total_pieces. Qed.

Lemma total_take j : 0 <= total (take j pieces) <= blen (image f).
Proof.
  pose proof (total_split j). pose proof (total_nonneg (take j pieces)). pose proof (total_nonneg (drop j pieces)). lia.
Qed.

Lemma total_take_S j pc : pieces !! j = Some pc -> total (take (S j) pieces) = total (take j pieces) + blen pc.
Proof. intros H. rewrite (take_S_r _ _ _ H), total_app, total_cons. change (total []) with 0. lia. Qed.

(** ** The window while the frame arrives

    [m] is the table, [h] the head timestamp and [tl] the tail number. *)
Record Mid (m : gmap Z RtpPacket) (h tl : Z) (w : JbWorld) : Prop := {
  md_tab : tab_ok (jb w);
  md_map : tab (jb w) = m;
  md_started : started (jb w) = true;
  md_first : firstFrameProcessed (jb w) = true;
  md_single : alwaysSinglePacketFrames (jb w) = single;
  md_latency : maxLatency (jb w) = latency;
  md_noseq : sequenceNumberOverflowState (jb w) = false;
  md_nots : timestampOverFlowState (jb w) = false;
  md_head : headSequenceNumber (jb w) = s;
  md_tail : tailSequenceNumber (jb w) = tl;
  md_headTs : headTimestamp (jb w) = h;
  md_tailTs : tailTimestamp (jb w) = if decide (tl = s - 1) then t0 else t;
}.

Section Push.
Variables (m : gmap Z RtpPacket) (h tl : Z) (w : JbWorld) (p : RtpPacket).
Hypothesis Hm : Mid m h tl w.
Hypothesis Hh : h = t0 \/ h = t.
Hypothesis Htl : s - 1 <= tl < s + Z.of_nat n.
Hypothesis Hp : p ∈ ps.

Local Abbreviation b0 := (jb w).
Local Abbreviation b1 := (b0 <| tailSequenceNumber := Z.max tl (seqOf p) |>).
Local Abbreviation b2 := (b1 <| tailTimestamp := t |>).

Lemma push_range : s <= seqOf p < s + Z.of_nat n.
Proof. destruct (packet_seq p Hp) as (i & _ & -> & Hi). lia. Qed.

(** Replaces the buffer by a record of its known fields. *)
Ltac open_mid :=
  pose proof push_range as Hq; pose proof (packet_ts p Hp) as Hts;
  destruct Hm as [Htab Hmap Hst Hff Hsg Hlat Hnq Hnt Hhd Htail Hht Htt]; destruct w as [[] lg];
  cbn in Hst, Hff, Hsg, Hlat, Hnq, Hnt, Hhd, Htail, Hht, Htt; subst.

Lemma enterSeq_mid : enterSequenceNumberOverflowCheck b0 p = (false, b0).
Proof.
  open_mid. unfold enterSequenceNumberOverflowCheck. cbn.
  unfold MAX_RTP_SEQUENCE_NUM, MAX_OUT_OF_ORDER_PACKET_DIFFERENCE.
  rewrite u16_id by width_lia. unfold MAX_UINT16. destruct (Z.leb_spec (0xffff - tl) 512).
  - destruct (Z.ltb_spec (seqOf p) tl), (Z.leb_spec (seqOf p) (512 - (0xffff - tl))); try lia; done.
  - rewrite (proj2 (Z.leb_gt (0xffff - (512 - s)) (seqOf p))) by lia. by rewrite !andb_false_r.
Qed.

Lemma tailSeq_mid : (tailSequenceNumberCheck b0 p).2 = b1.
Proof.
  open_mid. unfold tailSequenceNumberCheck. cbn.
  destruct (Z.eqb_spec tl (seqOf p)) as [E|Hne]; [|destruct (Z.ltb_spec tl (seqOf p))]; cbn;
    unfold update, upd_tailSequenceNumber; cbn; do 2 f_equal; lia.
Qed.

Lemma enterTs_mid : enterTimestampOverflowCheck b1 p = (false, b1).
Proof.
  open_mid. unfold enterTimestampOverflowCheck. cbn.
  rewrite (proj2 (Z.ltb_ge _ h)) by lia. cbn [andb].
  destruct (Z.ltb_spec h (tsOf p)); [|done]. cbn [andb].
  match goal with |- context [?x <? tsOf p] => destruct (x <? tsOf p) end; [|done].
  unfold headSequenceNumberCheck, headCheckingAllowed. cbn.
  destruct (s =? seqOf p); cbn; [by rewrite Z.eqb_refl|]. by rewrite (proj2 (Z.eqb_neq h (tsOf p))) by lia.
Qed.

Lemma tailTs_mid : (tailTimestampCheck b1 p).2 = b2.
Proof.
  open_mid. unfold tailTimestampCheck. cbn. rewrite Hts. case_decide as E.
  - rewrite (proj2 (Z.ltb_lt t0 t)) by lia. cbn [andb]. unfold tailSequenceNumberCheck. cbn.
    by rewrite (proj2 (Z.eqb_eq (Z.max _ (seqOf p)) (seqOf p))) by lia.
  - by rewrite (proj2 (Z.ltb_ge t t)) by lia.
Qed.

Lemma within_mid : withinLatencyTolerance b2 p = (true, b2).
Proof.
  open_mid. unfold withinLatencyTolerance, tailTimestampCheck. cbn. rewrite Hts.
  rewrite (proj2 (Z.ltb_ge t t)) by lia. cbn. by rewrite Z.eqb_refl.
Qed.

Lemma slideWindow_mid : slideWindow p w = Some (true, w <| jb := b2 |>).
Proof.
  unfold slideWindow, check, setJb, gets, modify, when, mbind, ST_bind, mret, ST_ret. cbn -[jb].
  rewrite (md_started _ _ _ _ Hm). cbn -[jb]. rewrite enterSeq_mid. cbn. rewrite tailSeq_mid.
  pose proof enterTs_mid as E. pose proof tailTs_mid as E2. pose proof within_mid as E3.
  cbn in E, E2, E3 |- *. rewrite E. cbn. rewrite E2, E3. done.
Qed.

Lemma slide_Mid : Mid m h (Z.max tl (seqOf p)) (w <| jb := b2 |>).
Proof.
  pose proof push_range as Hq. destruct Hm as [[? ? ?] ? ? ? ? ? ? ? ? ? ? ?].
  split; cbn; try done. rewrite decide_False by lia. done.
Qed.

(** Storing the packet only changes the table. *)
Lemma storePacket_mid (Q : STATUS -> JbWorld -> Prop) :
  tl <> s - 1 -> seqOf p <= tl -> m !! seqOf p = None ->
  (forall w', Mid (<[seqOf p := p]> m) h tl w' -> jbLog w' = jbLog w -> Q STATUS_SUCCESS w') ->
  wp (storePacket true p) Q w.
Proof.
  intros Htl' Hle Hnone HQ. unfold storePacket. apply wp_bind, wp_gets, wp_bind. pose proof push_range as Hq.
  apply wp_putEntry; [apply (md_tab _ _ _ _ Hm)|width_lia|by rewrite (md_map _ _ _ _ Hm)|].
  intros ht Hht Hok. cbn. rewrite (md_map _ _ _ _ Hm) in Hht.
  assert (Hw : Mid (<[seqOf p := p]> m) h tl (withTab w ht)) by (destruct Hm; split; done).
  assert (HQ' := HQ _ Hw eq_refl). apply wp_bind, wp_gets.
  assert (Hts : headTimestampCheck (jb (withTab w ht)) p = (false, jb (withTab w ht))).
  { clear HQ HQ' Hw Hok Hht Hq. open_mid. unfold headTimestampCheck, headCheckingAllowed. cbn. rewrite Hts.
    rewrite decide_False by done. rewrite (proj2 (Z.ltb_ge t h)), (proj2 (Z.ltb_ge t t)) by lia.
    by rewrite andb_false_r. }
  assert (Hsq : (headSequenceNumberCheck (jb (withTab w ht)) p).2 = jb (withTab w ht)).
  { clear HQ HQ' Hw Hok Hht Hts Hq. open_mid. unfold headSequenceNumberCheck. cbn.
    rewrite (proj2 (Z.ltb_ge (seqOf p) s)) by lia. cbn. by repeat case_match. }
  wp_step; [|by wp_step]. wp_step. apply wp_check. rewrite Hts. cbn -[withTab].
  apply wp_bind, wp_check, wp_ret.
  change (Q STATUS_SUCCESS ((withTab w ht) <| jb := (headSequenceNumberCheck (jb (withTab w ht)) p).2 |>)).
  rewrite Hsq. exact HQ'.
Qed.
End Push.

(** ** Parsing the window *)

(** The parser has measured the first [j] packets of the frame. *)
Definition Measured (j : nat) (v : ParseVars) : Prop :=
  headFrameIsContiguous v = true /\ startDropIndex v = s /\ curFrameSize v = total (take j pieces) /\
  sizeCalcIsFirst v = bool_decide (j = 0%nat) /\ containStartForEarliestFrame v = negb (bool_decide (j = 0%nat)).

Definition earliestTs : Z := if latency <? t then u32 (t - latency) else 0.

Lemma not_early h : h = t0 \/ h = t -> (h <? earliestTs) = false.
Proof.
  intros Hh. unfold earliestTs. apply Z.ltb_ge. destruct (Z.ltb_spec latency t); [|lia].
  rewrite u32_id by width_lia. lia.
Qed.

Lemma endsFrame_mid m h tl w i p :
  Mid m h tl w -> ps !! i = Some p -> endsFrame (jb w) p = bool_decide (S i = n).
Proof. intros Hm Hi. unfold endsFrame. rewrite (md_single _ _ _ _ Hm). by apply packet_at. Qed.

Lemma depaySize_mid i p cap w (Q : STATUS + (Z * bool) -> JbWorld -> Prop) :
  ps !! i = Some p ->
  (forall pc st, pieces !! i = Some pc -> (i = 0%nat -> st = true) -> Q (inr (blen pc, st)) w) ->
  wp (depaySize depay p cap (bool_decide (i = 0%nat))) Q w.
Proof.
  intros Hi HQ. destruct (packet_piece i p Hi) as (pc & Hpc & Hsize & _). destruct (Hsize cap) as (st & E & Hst).
  unfold wp, depaySize. rewrite E. cbn. by apply HQ.
Qed.

(** A packet that is not the last one is measured. *)
Lemma parsePacket_next m tl w j p v (Q : Outcome -> JbWorld -> Prop) :
  Mid m t tl w -> ps !! j = Some p -> S j <> n -> Measured j v ->
  (forall v', Measured (S j) v' -> Q (Next v') w) ->
  wp (parsePacket depay onFrameReady (s + Z.of_nat j) p v) Q w.
Proof.
  intros Hm Hj Hlast (Hc & Hd & Hz & Hfi & Hst) HQ. unfold parsePacket. rewrite Hfi.
  apply wp_bind. apply (depaySize_mid j); [done|]. intros pc st Hpc Hs0. apply wp_bind, wp_gets. cbv zeta.
  rewrite (endsFrame_mid _ _ _ _ _ _ Hm Hj), (bool_decide_false (S j = n)) by done.
  rewrite andb_false_r. cbn [andb]. wp_step. apply HQ.
  pose proof (total_take (S j)) as Htot. rewrite (total_take_S j pc Hpc) in Htot. pose proof (total_take j).
  rewrite (md_headTs _ _ _ _ Hm), (proj1 (proj2 (packet_at j p Hj))), Z.eqb_refl, andb_true_r.
  unfold Measured. rewrite (total_take_S j pc Hpc).
  destruct st; cbn; rewrite Hz, ?Hd, ?Hc, ?Hst, u32_id by width_lia; split_and!; try done.
  case_bool_decide as E0; [|done]. by specialize (Hs0 E0).
Qed.

(** The last packet delivers the frame and empties the window. *)
Definition Delivered (m : gmap Z RtpPacket) (w w' : JbWorld) : Prop :=
  Steady single latency (s + Z.of_nat n) t w' /\
  exists b, tab_ok b /\ tab b = m /\
    delivered (jbLog w') = delivered (jbLog w) ++ [(b, s, s + Z.of_nat n - 1, blen (image f))].

Lemma parsePacket_last m w p v (Q : Outcome -> JbWorld -> Prop) :
  Mid m t (s + Z.of_nat n - 1) w -> ps !! (n - 1)%nat = Some p -> Measured (n - 1) v ->
  (forall k, s + Z.of_nat n <= k -> m !! k = None) ->
  (forall v' w', Delivered m w w' -> Q (Break v') w') ->
  wp (parsePacket depay onFrameReady (s + Z.of_nat (n - 1)) p v) Q w.
Proof.
  intros Hm Hj (Hc & Hd & Hz & Hfi & Hst) Hbeyond HQ. pose proof n_pos as Hn0. unfold parsePacket. rewrite Hfi.
  apply wp_bind. apply (depaySize_mid (n - 1)); [done|]. intros pc st Hpc Hs0. apply wp_bind, wp_gets. cbv zeta.
  rewrite (endsFrame_mid _ _ _ _ _ _ Hm Hj), bool_decide_true by lia.
  rewrite (md_headTs _ _ _ _ Hm), (proj1 (proj2 (packet_at _ p Hj))), Z.eqb_refl, (md_first _ _ _ _ Hm).
  match goal with |- context [startDropIndex ?x] => set (v1 := x) end.
  assert (Hv1 : startDropIndex v1 = s /\ headFrameIsContiguous v1 = true /\ containStartForEarliestFrame v1 = true /\
    curFrameSize v1 = blen (image f)).
  { pose proof (total_take_S _ pc Hpc) as E. replace (S (n - 1)) with n in E by lia.
    assert (Hlen : length pieces = n) by (unfold pieces; rewrite length_imap; by destruct Hps as [-> _]).
    rewrite (take_ge pieces n), total_pieces in E by lia. pose proof (total_take (n - 1)). pose proof (blen_nonneg pc).
    unfold v1. destruct st; cbn; rewrite ?Hd, ?Hc, ?Hz, ?Hst, u32_id by width_lia; split_and!; try done; try lia.
    case_bool_decide as E0; [|done]. by specialize (Hs0 E0). }
  destruct Hv1 as (Ed & Ec & Est & Ez). rewrite Ec, Est. cbn [andb orb]. clearbody v1.
  unfold callReady, logEv. wp_step. wp_steps; try (rewrite ready_ok in *; done).
  rewrite Ed, Ez in *. apply defaultDropBufferData_wp; [apply (md_tab _ _ _ _ Hm)|width_lia|width_lia|].
  intros ht b Hht Hok. replace (Z.to_nat (u16 (s + Z.of_nat (n - 1) + 1 - s))) with n in * by width_lia.
  wp_steps; try discriminate. apply HQ. change (tab (jb (w <| jbLog := _ |>))) with (tab (jb w)) in Hht. rewrite (md_map _ _ _ _ Hm) in Hht.
  replace (exitSequenceNumberOverflowCheck (exitTimestampOverflowCheck b)) with b.
  2: { destruct Hm as [Htab Hmap Hst' Hff Hsg Hlat Hnq Hnt Hhd Htail Hht' Htt]; destruct w as [[] lg];
       cbn in Hnq, Hnt; subst b; by subst. }
  split; [|exists (jb w); split_and!; [apply Hm|apply Hm|]; cbn].
  - destruct Hm, Hok. split; cbn; try done; try lia.
    + intros k Hk. change (ht_map ht !! k = None). rewrite Hht, sweep_lookup. destruct (decide (k ∈ cyc n s)); auto.
    + f_equal. lia.
    + rewrite decide_False in md_tailTs0 by lia. done.
  - rewrite !delivered_app, delivered_events, app_nil_r. cbn. by replace (s + Z.of_nat (n - 1)) with (s + Z.of_nat n - 1) by lia.
Qed.

(** A packet of the window is measured; the first one may start the frame. *)
Lemma parseStep_entry m h tl w j p v (Q : Outcome -> JbWorld -> Prop) :
  Mid m h tl w -> Measured j v -> h = t \/ (h = t0 /\ j = 0%nat /\ seenHeadFramePacket v = false) ->
  m !! (s + Z.of_nat j) = Some p -> ps !! j = Some p ->
  (forall v' w', Measured j v' -> Mid m t tl w' -> jbLog w' = jbLog w ->
     wp (parsePacket depay onFrameReady (s + Z.of_nat j) p v') Q w') ->
  wp (parseStep depay onFrameReady onFrameDropped false earliestTs (s + Z.of_nat j) v) Q w.
Proof.
  intros Hm Hv Hh Hk Hj HQ. unfold parseStep.
  apply wp_bind, wp_hasEntryAt; [apply (md_tab _ _ _ _ Hm)|]. rewrite (md_map _ _ _ _ Hm), Hk.
  rewrite bool_decide_true by (by eexists). cbv beta match. apply wp_bind, wp_gets. cbn [negb]. cbv zeta.
  apply wp_bind, wp_getEntry; [apply (md_tab _ _ _ _ Hm)|]. rewrite (md_map _ _ _ _ Hm), Hk. cbv beta match.
  rewrite (md_headTs _ _ _ _ Hm), (proj1 (proj2 (packet_at j p Hj))). destruct Hh as [->|(-> & -> & Hseen)].
  - rewrite Z.eqb_refl. apply HQ; [|done|done]. destruct (endsFrame (jb w) p); exact Hv.
  - rewrite (proj2 (Z.eqb_neq t t0)) by lia. apply wp_bind. unfold newTimestamp.
    destruct Hv as (Hc & Hd & Hz & Hfi & Hcs). destruct v. cbn in Hseen, Hc, Hd, Hz, Hfi, Hcs. subst.
    apply wp_bind, wp_gets. cbn. rewrite andb_false_r. cbn.
    unfold setJb. apply wp_bind, wp_modify, wp_ret. cbv beta match. apply HQ.
    + unfold Measured. cbn -[Z.of_nat bool_decide]. split_and!; done || lia.
    + rewrite (proj1 (proj2 (packet_at 0 p Hj))). destruct Hm as [[] ? ? ? ? ? ? ? ? ? ? ?]. by split.
    + done.
Qed.

(** The parser stops at the first missing packet. *)
Lemma parseStep_gap m h tl w j v (Q : Outcome -> JbWorld -> Prop) :
  Mid m h tl w -> h = t0 \/ h = t -> m !! (s + Z.of_nat j) = None -> Q (Return STATUS_SUCCESS) w ->
  wp (parseStep depay onFrameReady onFrameDropped false earliestTs (s + Z.of_nat j) v) Q w.
Proof.
  intros Hm Hh Hk HQ. unfold parseStep.
  apply wp_bind, wp_hasEntryAt; [apply (md_tab _ _ _ _ Hm)|]. rewrite (md_map _ _ _ _ Hm), Hk.
  rewrite bool_decide_false by (by intros [? ?]). cbv beta match. apply wp_bind, wp_gets. cbn [negb]. cbv zeta.
  rewrite (md_headTs _ _ _ _ Hm), not_early by done. by apply wp_ret.
Qed.

Section Loop.
Variables (m : gmap Z RtpPacket) (tl : Z).
Hypothesis Hagree : forall i p, (i < n)%nat -> m !! (s + Z.of_nat i) = Some p -> ps !! i = Some p.
Hypothesis Htl : s - 1 <= tl < s + Z.of_nat n.

(** What a variable state at position [j] knows of the head timestamp. *)
Definition headKnown (h : Z) (j : nat) (v : ParseVars) : Prop :=
  h = t \/ (h = t0 /\ j = 0%nat /\ seenHeadFramePacket v = false).

Lemma headKnown_ts h j v : headKnown h j v -> h = t0 \/ h = t.
Proof. intros [->|(-> & _)]; auto. Qed.

Lemma parseLoop_wait i j fuel h v w (Q : Outcome -> JbWorld -> Prop) :
  (j <= i < n)%nat -> m !! (s + Z.of_nat i) = None -> (n - j <= fuel)%nat -> s + Z.of_nat j <= tl + 1 ->
  Mid m h tl w -> Measured j v -> headKnown h j v ->
  (forall o h' w', (o = Return STATUS_SUCCESS \/ exists v, o = Next v) -> Mid m h' tl w' ->
     h' = t0 \/ h' = t -> jbLog w' = jbLog w -> Q o w') ->
  wp (parseLoop depay onFrameReady onFrameDropped fuel false earliestTs (s + Z.of_nat j) (u16 (tl + 1)) v) Q w.
Proof.
  intros Hj Hi Hfuel Hle Hm Hv Hk HQ. revert j fuel h v w Hj Hfuel Hle Hm Hv Hk HQ.
  assert (Hgen : forall d j fuel h v w, (i - j <= d)%nat -> (j <= i < n)%nat -> (n - j <= fuel)%nat ->
    s + Z.of_nat j <= tl + 1 -> Mid m h tl w -> Measured j v -> headKnown h j v ->
    (forall o h' w', (o = Return STATUS_SUCCESS \/ exists v, o = Next v) -> Mid m h' tl w' ->
     h' = t0 \/ h' = t -> jbLog w' = jbLog w -> Q o w') ->
    wp (parseLoop depay onFrameReady onFrameDropped fuel false earliestTs (s + Z.of_nat j) (u16 (tl + 1)) v) Q w);
    [|intros; eapply (Hgen (i - j)%nat); eauto].
  induction d as [d IH] using lt_wf_ind. intros j fuel h v w Hd Hj Hfuel Hle Hm Hv Hk HQ.
  destruct fuel as [|fuel]; [lia|]. cbn [parseLoop].
  destruct (Z.eqb_spec (s + Z.of_nat j) (u16 (tl + 1))) as [Elast|Hlast].
  { apply wp_ret. apply (HQ _ h); [right; by eexists|done| |done].
    by eapply headKnown_ts. }
  assert (Hin : s + Z.of_nat j <= tl) by width_lia.
  destruct (m !! (s + Z.of_nat j)) as [p|] eqn:Ej.
  - assert (j <> i) by (intros ->; congruence). pose proof (Hagree j p ltac:(lia) Ej) as Hpj.
    apply wp_bind. eapply parseStep_entry; [exact Hm|exact Hv|exact Hk|exact Ej|exact Hpj|].
    intros v' w' Hv' Hm' El. eapply parsePacket_next; [exact Hm'|exact Hpj|lia|exact Hv'|]. intros v2 Hv2.
    cbv beta match. replace (u16 (s + Z.of_nat j + 1)) with (s + Z.of_nat (S j)) by width_lia.
    destruct d as [|d]; [lia|]. eapply (IH d ltac:(lia)); [lia|lia|lia|lia|exact Hm'|exact Hv2|by left|].
    intros o h' w2 Ho Hm2 Hh' El2. apply (HQ o h'); [done|done|done|congruence].
  - apply wp_bind. eapply parseStep_gap; [exact Hm|by eapply headKnown_ts|exact Ej|]. apply wp_ret.
    apply (HQ _ h); [by left|done|by eapply headKnown_ts|done].
Qed.

Lemma parseLoop_complete d j fuel h v w (Q : Outcome -> JbWorld -> Prop) :
  (j + S d = n)%nat -> (S d <= fuel)%nat -> (forall i, (i < n)%nat -> m !! (s + Z.of_nat i) = ps !! i) ->
  (forall k, s + Z.of_nat n <= k -> m !! k = None) -> tl = s + Z.of_nat n - 1 ->
  Mid m h tl w -> Measured j v -> headKnown h j v ->
  (forall v' w', Delivered m w w' -> Q (Break v') w') ->
  wp (parseLoop depay onFrameReady onFrameDropped fuel false earliestTs (s + Z.of_nat j) (u16 (tl + 1)) v) Q w.
Proof.
  intros Hd Hfuel Hall Hbeyond Etl. revert j fuel h v w Hd Hfuel.
  induction d as [|d IH]; intros j fuel h v w Hd Hfuel Hm Hv Hk HQ;
    (destruct fuel as [|fuel]; [lia|]); cbn [parseLoop];
    rewrite (proj2 (Z.eqb_neq (s + Z.of_nat j) (u16 (tl + 1)))) by width_lia;
    destruct (lookup_lt_is_Some_2 ps j ltac:(lia)) as [p Hpj];
    (apply wp_bind; eapply parseStep_entry;
      [exact Hm|exact Hv|exact Hk|rewrite Hall by lia; exact Hpj|exact Hpj|intros v' w' Hv' Hm' El]).
  - replace j with (n - 1)%nat in * by lia. rewrite Etl in Hm'.
    eapply parsePacket_last; [exact Hm'|exact Hpj|exact Hv'|exact Hbeyond|]. intros v2 w2 [H1 (b & H2 & H3 & H4)].
    apply wp_ret, HQ. split; [done|]. exists b. rewrite El in H4. done.
  - eapply parsePacket_next; [exact Hm'|exact Hpj|lia|exact Hv'|]. intros v2 Hv2. cbv beta match.
    replace (u16 (s + Z.of_nat j + 1)) with (s + Z.of_nat (S j)) by width_lia.
    eapply IH; [lia|lia|exact Hm'|exact Hv2|by left|]. intros v3 w3 [H1 (b & H2 & H3 & H4)]. apply HQ.
    split; [done|]. exists b. rewrite El in H4. done.
Qed.

(** ** Parsing and pushing *)

Lemma parse_start h w (Q : STATUS -> JbWorld -> Prop) :
  Mid m h tl w -> s <= tl ->
  wp (v ← parseLoop depay onFrameReady onFrameDropped (Z.to_nat 65536) false earliestTs (s + Z.of_nat 0) (u16 (tl + 1))
        {| headFrameIsContiguous := true; startDropIndex := s; curFrameSize := 0;
           sizeCalcIsFirst := true; partialFrameSize := 0; containStartForEarliestFrame := false;
           lastNonNullIndex := 0; lastHeadFrameSeqNum := 0; seenHeadFramePacket := false;
           firstGapIndex := 0; sawGapSinceLastFrame := false; headFrameEnded := false |};
      match v with Return st => mret st | Next _ | Break _ => mret STATUS_SUCCESS end) Q w ->
  wp (jitterBufferInternalParse depay onFrameReady onFrameDropped false) Q w.
Proof.
  intros Hm Hle. unfold jitterBufferInternalParse. generalize (Z.to_nat 65536) as fuel. intros fuel HQ.
  apply wp_bind, wp_gets.
  rewrite (md_started _ _ _ _ Hm), (md_tailTs _ _ _ _ Hm), (md_latency _ _ _ _ Hm), (md_head _ _ _ _ Hm),
    (md_tail _ _ _ _ Hm), decide_False by lia. cbn [negb]. cbv zeta. fold earliestTs.
  replace (s + Z.of_nat 0) with s in HQ by lia.
  unfold wp, mbind, ST_bind in *. destruct (parseLoop _ _ _ _ _ _ _ _ _ _) as [[[] w']|]; done.
Qed.

Lemma Measured_start v : headFrameIsContiguous v = true -> startDropIndex v = s -> curFrameSize v = 0 ->
  sizeCalcIsFirst v = true -> containStartForEarliestFrame v = false -> Measured 0 v.
Proof. intros. by split_and!. Qed.

Lemma parse_wait i h w (Q : STATUS -> JbWorld -> Prop) :
  (i < n)%nat -> m !! (s + Z.of_nat i) = None -> s <= tl -> Mid m h tl w -> h = t0 \/ h = t ->
  (forall h' w', Mid m h' tl w' -> h' = t0 \/ h' = t -> jbLog w' = jbLog w -> Q STATUS_SUCCESS w') ->
  wp (jitterBufferInternalParse depay onFrameReady onFrameDropped false) Q w.
Proof.
  intros Hi Hgap Hle Hm Hh HQ. eapply parse_start; [exact Hm|done|]. apply wp_bind.
  eapply (parseLoop_wait i 0); [lia|done|lia|lia|exact Hm|by apply Measured_start| |].
  - destruct Hh as [->| ->]; [right; done|by left].
  - intros o h' w' Ho Hm' Hh' El. destruct Ho as [->|[v ->]]; apply wp_ret; eauto.
Qed.

Lemma parse_complete h w (Q : STATUS -> JbWorld -> Prop) :
  (forall i, (i < n)%nat -> m !! (s + Z.of_nat i) = ps !! i) ->
  (forall k, s + Z.of_nat n <= k -> m !! k = None) -> tl = s + Z.of_nat n - 1 ->
  Mid m h tl w -> h = t0 \/ h = t -> (forall w', Delivered m w w' -> Q STATUS_SUCCESS w') ->
  wp (jitterBufferInternalParse depay onFrameReady onFrameDropped false) Q w.
Proof.
  intros Hall Hbeyond Etl Hm Hh HQ. pose proof n_pos as Hn0. eapply parse_start; [exact Hm|lia|]. apply wp_bind.
  eapply (parseLoop_complete (n - 1) 0); [lia|lia|done|done|done|exact Hm|by apply Measured_start| |].
  - destruct Hh as [->| ->]; [right; done|by left].
  - intros v' w' Hd. apply wp_ret. by apply HQ.
Qed.
End Loop.

(** A packet of the frame that was not received yet goes through the window checks, is
    stored, and the window is parsed. *)
Lemma push_mid m h tl w p (Q : STATUS * bool -> JbWorld -> Prop) :
  Mid m h tl w -> h = t0 \/ h = t -> s - 1 <= tl < s + Z.of_nat n -> p ∈ ps -> m !! seqOf p = None ->
  (forall w', Mid (<[seqOf p := p]> m) h (Z.max tl (seqOf p)) w' -> jbLog w' = jbLog w ->
     wp (jitterBufferInternalParse depay onFrameReady onFrameDropped false) (fun st => Q (st, false)) w') ->
  wp (defaultPush depay onFrameReady onFrameDropped true p) Q w.
Proof.
  intros Hm Hh Htl Hp Hnone HQ. pose proof (push_range p Hp) as Hq. unfold defaultPush. apply wp_bind. unfold wp at 1.
  rewrite (slideWindow_mid m h tl w p Hm Hh Htl Hp). pose proof (slide_Mid m h tl w p Hm Hp) as Hm1.
  remember (w <| jb := (jb w) <| tailSequenceNumber := _ |> <| tailTimestamp := t |> |>) as w1 eqn:Ew1.
  apply wp_bind, wp_getEntry; [apply (md_tab _ _ _ _ Hm1)|]. rewrite (md_map _ _ _ _ Hm1), Hnone.
  unfold storeAndParse. apply wp_bind.
  eapply (storePacket_mid m h (Z.max tl (seqOf p)) w1 p Hm1); [done|lia|done|lia|lia|done|].
  intros w2 Hm2 El2. cbn. apply wp_bind.
  eapply wp_mono; [apply (HQ w2 Hm2); rewrite El2, Ew1; done|]. intros st w3 H3. by apply wp_ret.
Qed.

(** ** All packets of the frame, in any order *)

Section Arrival.
Variable m0 : gmap Z RtpPacket.
Hypothesis Hm0 : forall k, s <= k -> m0 !! k = None.

Definition arrived (d : list RtpPacket) : gmap Z RtpPacket := foldr (fun p m => <[seqOf p := p]> m) m0 d.

Lemma arrived_some d k p : s <= k -> arrived d !! k = Some p -> p ∈ d /\ seqOf p = k.
Proof.
  intros Hk. induction d as [|q d IH]; cbn; [by rewrite Hm0|]. rewrite lookup_insert_Some, elem_of_cons.
  intros [[E1 E2]|[_ E]]; [by subst; auto|]. apply IH in E as [? ?]. auto.
Qed.

Lemma arrived_in d p : p ∈ ps -> (forall q, q ∈ d -> q ∈ ps) -> p ∈ d -> arrived d !! seqOf p = Some p.
Proof.
  intros Hp Hd Hin. destruct (arrived d !! seqOf p) as [q|] eqn:E.
  - apply arrived_some in E as [Hq Eq]; [|by pose proof (push_range p Hp); lia].
    destruct (packet_seq p Hp) as (i & Hi & Ei & _), (packet_seq q (Hd q Hq)) as (j & Hj & Ej & _).
    assert (i = j) by lia. congruence.
  - exfalso. clear Hd Hp. induction d as [|q d IH]; [by apply elem_of_nil in Hin|]. cbn in E.
    rewrite lookup_insert_None in E. destruct E as [E Hne]. apply elem_of_cons in Hin as [->|Hin]; [done|]. by apply IH.
Qed.

Lemma arrived_agree d i p : (forall q, q ∈ d -> q ∈ ps) -> (i < n)%nat ->
  arrived d !! (s + Z.of_nat i) = Some p -> ps !! i = Some p.
Proof.
  intros Hd Hi E. apply arrived_some in E as [Hq Eq]; [|lia]. destruct (packet_seq p (Hd p Hq)) as (j & Hj & Ej & _).
  by replace i with j by lia.
Qed.

Lemma NoDup_packets : NoDup ps.
Proof.
  apply NoDup_alt. intros i j p Hi Hj. destruct (packet_at i p Hi) as (Ei & _), (packet_at j p Hj) as (Ej & _). lia.
Qed.

Lemma pushAll_frame rest d h tl w :
  d ++ rest ≡ₚ ps -> rest <> [] -> Mid (arrived d) h tl w -> h = t0 \/ h = t ->
  s - 1 <= tl < s + Z.of_nat n -> (forall p, p ∈ d -> seqOf p <= tl) ->
  wp (pushAll depay onFrameReady onFrameDropped rest) (fun rs w' =>
    rs = replicate (length rest) (STATUS_SUCCESS, false) /\ Delivered (arrived (rev rest ++ d)) w w') w.
Proof.
  revert d h tl w. induction rest as [|p rest IH]; intros d h tl w Hperm Hne Hm Hh Htl Hmax; [done|].
  assert (Hin : forall q, q ∈ d ++ p :: rest -> q ∈ ps) by (intros q Hq; by rewrite <- Hperm).
  assert (Hp : p ∈ ps) by (apply Hin, elem_of_app; right; constructor).
  pose proof NoDup_packets as Hnd. rewrite <- Hperm in Hnd. apply list.NoDup_app in Hnd as (Hnd1 & Hnd2 & Hnd3).
  pose proof (push_range p Hp) as Hq.
  assert (Hfresh : arrived d !! seqOf p = None).
  { destruct (arrived d !! seqOf p) as [q|] eqn:E; [|done]. apply arrived_some in E as [Hqd Eq]; [|lia].
    destruct (packet_seq p Hp) as (i & Hi & Ei & _), (packet_seq q (Hin q ltac:(apply elem_of_app; auto))) as (j & Hj & Ej & _).
    assert (i = j) by lia. assert (q = p) by congruence. subst. destruct (Hnd2 p Hqd). constructor. }
  assert (Hin' : forall q, q ∈ p :: d -> q ∈ ps).
  { intros q [->|Hqd]%elem_of_cons; [done|]. apply Hin, elem_of_app. auto. }
  assert (Hmax' : forall q, q ∈ p :: d -> seqOf q <= Z.max tl (seqOf p)).
  { intros q [->|Hqd]%elem_of_cons; [lia|]. specialize (Hmax q Hqd). lia. }
  cbn [pushAll]. apply wp_bind. eapply push_mid; [exact Hm|done|done|done|done|]. intros w1 Hm1 El1.
  change (<[seqOf p := p]> (arrived d)) with (arrived (p :: d)) in Hm1.
  assert (Hperm' : (p :: d) ++ rest ≡ₚ ps) by (rewrite <- Hperm; cbn; apply Permutation_middle).
  destruct rest as [|q rest].
  - rewrite app_nil_r in Hperm'.
    eapply parse_complete; [| | |exact Hm1|done|].
    + intros i Hi. destruct (lookup_lt_is_Some_2 ps i Hi) as [q Hqi]. rewrite Hqi.
      rewrite <- (proj1 (packet_at i q Hqi)). apply arrived_in; [by eapply list_elem_of_lookup_2|done|].
      rewrite Hperm'. by eapply list_elem_of_lookup_2.
    + intros k Hk. destruct (arrived (p :: d) !! k) as [q|] eqn:E; [|done]. apply arrived_some in E as [Hqd Eq]; [|lia].
      pose proof (push_range q (Hin' q Hqd)). lia.
    + destruct (lookup_lt_is_Some_2 ps (n - 1)) as [q Hqi]; [pose proof n_pos; lia|].
      pose proof (Hmax' q ltac:(rewrite Hperm'; by eapply list_elem_of_lookup_2)) as Hle.
      rewrite (proj1 (packet_at _ q Hqi)) in Hle. lia.
    + intros w2 Hdel. apply wp_bind, wp_ret, wp_ret. split; [done|]. destruct Hdel as [Hsd (b & H1 & H2 & H3)].
      split; [done|]. exists b. rewrite El1 in H3. done.
  - assert (Hqps : q ∈ ps) by (apply Hin, elem_of_app; right; do 2 constructor).
    destruct (packet_seq q Hqps) as (i & Hi & Ei & Hilt).
    eapply (parse_wait (arrived (p :: d)) (Z.max tl (seqOf p)) (fun i q => arrived_agree (p :: d) i q Hin') ltac:(lia) i);
      [done| |lia|exact Hm1|done|].
    + rewrite <- Ei. destruct (arrived (p :: d) !! seqOf q) as [q'|] eqn:E; [|done].
      apply arrived_some in E as [Hqd Eq]; [|lia].
      destruct (packet_seq q' (Hin' q' Hqd)) as (j & Hj & Ej & _). assert (i = j) by lia. assert (q' = q) by congruence.
      subst. apply elem_of_cons in Hqd as [->|Hqd].
      * apply list.NoDup_cons in Hnd3 as [Hnd3 _]. destruct Hnd3. constructor.
      * destruct (Hnd2 q Hqd). do 2 constructor.
    + intros h' w2 Hm2 Hh' El2. apply wp_bind.
      eapply wp_mono; [apply (IH (p :: d) h' (Z.max tl (seqOf p))); [done|done|exact Hm2|done|lia|done]|].
      intros rs w3 [-> Hdel]. apply wp_ret. split; [done|].
      change (rev (p :: q :: rest)) with (rev (q :: rest) ++ [p]). rewrite <- (assoc_L (++)).
      destruct Hdel as [Hsd (b & H1 & H2 & H3)]. split; [done|]. exists b. rewrite El2, El1 in H3. done.
Qed.
End Arrival.

(** ** Reading the delivered frame *)

Section Fill.
Variables (b : JitterBuffer) (rest : list Z).
Hypothesis Hb : tab_ok b.
Hypothesis Hall : forall i, (i < n)%nat -> tab b !! (s + Z.of_nat i) = ps !! i.

Lemma length_pieces : length pieces = n.
Proof. unfold pieces. rewrite length_imap. by destruct Hps as [-> _]. Qed.

Lemma fillLoop_pieces d j fuel old :
  (j + d = n)%nat -> (d <= fuel)%nat -> blen old = total (drop j pieces) ->
  fillLoop depay fuel b (u16 (s + Z.of_nat j)) (s + Z.of_nat n - 1) (concat (take j pieces) ++ old ++ rest)
    (total (take j pieces)) (total (drop j pieces)) (bool_decide (j = 0%nat)) =
  Ok (STATUS_SUCCESS, image f ++ rest, 0).
Proof.
  revert j fuel old. induction d as [|d IH]; intros j fuel old Hj Hfuel Hold.
  - assert (E : (UINT16_DEC (u16 (s + Z.of_nat j)) =? s + Z.of_nat n - 1) = true)
      by (apply Z.eqb_eq; unfold UINT16_DEC; width_lia).
    pose proof length_pieces. destruct fuel; cbn [fillLoop]; rewrite E;
      rewrite drop_ge, take_ge in * by lia; (destruct old; [|pose proof (blen_nonneg old); rewrite blen_cons in Hold; change (total []) with 0 in Hold; lia]);
      unfold pieces; by rewrite (pieces_image mtu f Hf).
  - destruct fuel as [|fuel]; [lia|]. cbn [fillLoop].
    assert (E : (UINT16_DEC (u16 (s + Z.of_nat j)) =? s + Z.of_nat n - 1) = false)
      by (apply Z.eqb_neq; unfold UINT16_DEC; width_lia).
    rewrite E, u16_id by width_lia. rewrite hashTableGet_spec by apply (tab_ht _ Hb).
    destruct (lookup_lt_is_Some_2 ps j ltac:(lia)) as [p Hpj]. fold (tab b). rewrite Hall, Hpj by lia.
    destruct (packet_piece j p Hpj) as (pc & Hpc & _ & Hfill).
    pose proof (drop_S _ _ _ Hpc) as Edrop. pose proof (total_take_S j pc Hpc) as Etake.
    rewrite Edrop, total_cons in *. pose proof (total_nonneg (drop (S j) pieces)). pose proof (blen_nonneg pc).
    destruct (Hfill (Ptr (concat (take j pieces) ++ old ++ rest) (total (take j pieces))) (blen pc + total (drop (S j) pieces))
      (concat (take (S j) pieces) ++ drop (Z.to_nat (blen pc)) old ++ rest)) as (st & Ed).
    { lia. }
    { cbn. rewrite put_bytes_at; [|by rewrite blen_concat|rewrite blen_app; pose proof (blen_nonneg rest); lia].
      rewrite (take_S_r _ _ _ Hpc), concat_app. cbn. rewrite app_nil_r, <- (assoc_L (++)).
      rewrite drop_app_le by (unfold blen in *; lia). done. }
    pose proof (total_split (S j)). pose proof (total_take (S j)).
    rewrite Ed. cbn. rewrite u32_id by width_lia.
    replace (u16 (s + Z.of_nat j + 1)) with (u16 (s + Z.of_nat (S j))) by width_lia.
    replace (blen pc + total (drop (S j) pieces) - blen pc) with (total (drop (S j) pieces)) by lia.
    rewrite <- Etake. apply (IH (S j) fuel (drop (Z.to_nat (blen pc)) old)); [lia|lia|].
    rewrite blen_drop; lia.
Qed.

Lemma fill_frame old :
  blen old = blen (image f) ->
  defaultFillFrameData depay b (Some (old ++ rest)) (blen (image f)) s (s + Z.of_nat n - 1) =
  Ok (STATUS_SUCCESS, blen (image f), Some (image f ++ rest)).
Proof.
  intros Hold. pose proof n_pos. unfold defaultFillFrameData.
  pose proof (fillLoop_pieces n 0 (Z.to_nat 65536) old) as E. rewrite u16_id in E by width_lia.
  replace (s + Z.of_nat 0) with s in E by lia. change (concat (take 0 pieces) ++ old ++ rest) with (old ++ rest) in E.
  change (total (take 0 pieces)) with 0 in E. rewrite drop_0, total_pieces in E.
  rewrite bool_decide_true in E by done.
  rewrite E by (done || lia). cbn [mbind res_bind]. rewrite u32_id by (pose proof (blen_nonneg (image f)); width_lia).
  by replace (blen (image f) - 0) with (blen (image f)) by lia.
Qed.
End Fill.
End Frame.

(** ** Streams of frames *)

(** A frame on the way: its timestamp and bytes, its packets and their order of arrival. *)
Record Sent : Type := {
  sent_ts : Z;
  sent_bytes : list Z;
  sent_packets : list RtpPacket;
  sent_arrival : list RtpPacket;
}.

Section Stream.
Context {create : RtpPayloadFunc} {depay : DepayRtpPayloadFunc} {P : Payloader create depay}.
Variables (mtu latency : Z) (single : bool).

(** Frames with growing timestamps, within the latency of each other, numbered from [s]
    up to the wrap-around at most. *)
Fixpoint stream_ok (s t0 : Z) (xs : list Sent) : Prop :=
  match xs with
  | [] => True
  | x :: xs =>
      let n := Z.of_nat (length (sent_packets x)) in
      frame_ok mtu (sent_bytes x) /\ blen (image (sent_bytes x)) < 2 ^ 32 /\
      frame_packets single s (sent_ts x) (fragments mtu (sent_bytes x)) (sent_packets x) /\
      sent_arrival x ≡ₚ sent_packets x /\ n <= 60000 /\ s + n <= 65536 /\
      t0 < sent_ts x < 2 ^ 32 /\ sent_ts x - t0 <= latency /\
      stream_ok (s + n) (sent_ts x) xs
  end.

(** The callback's buffer can be filled with exactly the image of the frame [f]. *)
Definition holds_frame (d : JitterBuffer * Z * Z * Z) (f : list Z) : Prop :=
  let '(b, start, last, size) := d in
  size = blen (image f) /\
  forall buf, blen buf = size ->
    defaultFillFrameData depay b (Some buf) size start last = Ok (STATUS_SUCCESS, size, Some (image f)).

Variables onFrameReady onFrameDropped : JitterBuffer -> Z -> Z -> Z -> STATUS.
Hypothesis ready_ok : forall b s e n, onFrameReady b s e n = STATUS_SUCCESS.

Lemma pushAll_concat a b w (Q : list (STATUS * bool) -> JbWorld -> Prop) :
  wp (pushAll depay onFrameReady onFrameDropped a)
    (fun ra => wp (pushAll depay onFrameReady onFrameDropped b) (fun rb => Q (ra ++ rb))) w ->
  wp (pushAll depay onFrameReady onFrameDropped (a ++ b)) Q w.
Proof.
  revert w Q. induction a as [|p a IH]; intros w Q H; [exact H|]. cbn [pushAll app] in *.
  unfold wp, mbind, ST_bind in H |- *. destruct (defaultPush _ _ _ true p w) as [[r w1]|]; [|done].
  specialize (IH w1 (fun rs => Q (r :: rs))). unfold wp in IH.
  destruct (pushAll depay onFrameReady onFrameDropped a w1) as [[ra w2]|]; [|done]. cbn in H.
  specialize (IH H). destruct (pushAll depay onFrameReady onFrameDropped (a ++ b) w1) as [[rs w3]|]; done.
Qed.

Lemma Steady_Mid s t0 t n w :
  Steady single latency s t0 w -> s + Z.of_nat (S n) <= 65536 -> 1 <= s ->
  Mid single latency s t0 t (tab (jb w)) t0 (s - 1) w.
Proof.
  intros [] Hn Hs. split; try done.
  - rewrite sd_head0, u16_id; [done|width_lia].
  - by rewrite decide_True.
Qed.

Lemma deliver_one s t0 x w :
  Steady single latency s t0 w -> 1 <= s -> 0 <= t0 -> stream_ok s t0 [x] ->
  wp (pushAll depay onFrameReady onFrameDropped (sent_arrival x)) (fun rs w' =>
    rs = replicate (length (sent_packets x)) (STATUS_SUCCESS, false) /\
    Steady single latency (s + Z.of_nat (length (sent_packets x))) (sent_ts x) w' /\
    exists d, delivered (jbLog w') = delivered (jbLog w) ++ [d] /\ holds_frame d (sent_bytes x)) w.
Proof.
  intros Hsd Hs Ht0 (Hf & Himg & Hps & Harr & Hn & Hsn & Ht & Hlat & _).
  pose proof (n_pos single s (sent_ts x) mtu (sent_bytes x) (sent_packets x) Hf Hps) as Hn0.
  pose proof (Steady_Mid s t0 (sent_ts x) (length (sent_packets x) - 1) w Hsd ltac:(lia) Hs) as Hm.
  pose proof (Permutation_length Harr) as Elen.
  eapply wp_mono; [eapply (pushAll_frame onFrameReady onFrameDropped ready_ok single latency s t0 (sent_ts x) mtu
    (sent_bytes x) (sent_packets x)) with (m0 := tab (jb w)) (d := []) (h := t0) (tl := s - 1)|]; auto; try lia.
  - apply (sd_none _ _ _ _ _ Hsd).
  - intros E. rewrite E in Elen. simpl in Elen. lia.
  - intros p Hp. by apply elem_of_nil in Hp.
  - intros rs w' [-> [Hsd' (b & Hb & Htab & Hlog)]]. split_and!; [by rewrite Elen|done|].
    eexists. split; [exact Hlog|]. split; [done|]. intros buf Hbuf.
    assert (Hin : forall q, q ∈ rev (sent_arrival x) ++ [] <-> q ∈ sent_packets x).
    { intros q. by rewrite app_nil_r, <- Permutation_rev, Harr. }
    pose proof (fill_frame onFrameReady single s (sent_ts x) mtu (sent_bytes x) (sent_packets x) Hf Himg Hps Hn
      (conj Hs Hsn) b [] Hb) as Hfill. rewrite !app_nil_r in Hfill.
    rewrite <- (app_nil_r buf). rewrite Hfill; [done| |done].
    intros i Hi. destruct (lookup_lt_is_Some_2 _ _ Hi) as [q Hqi]. rewrite Htab, Hqi.
    assert (Hq : q ∈ sent_packets x) by (by eapply list_elem_of_lookup_2).
    rewrite <- (proj1 (packet_at single s (sent_ts x) mtu (sent_bytes x) (sent_packets x) Hps i q Hqi)).
    apply (arrived_in single s (sent_ts x) mtu (sent_bytes x) (sent_packets x) Hps _ (sd_none _ _ _ _ _ Hsd));
      [done|intros q'; apply Hin|by apply Hin].
Qed.

Lemma deliver_stream xs s t0 w :
  Steady single latency s t0 w -> 1 <= s -> 0 <= t0 -> stream_ok s t0 xs ->
  wp (pushAll depay onFrameReady onFrameDropped (concat (map sent_arrival xs))) (fun rs w' =>
    Forall (fun r => r = (STATUS_SUCCESS, false)) rs /\
    exists ds, delivered (jbLog w') = delivered (jbLog w) ++ ds /\ Forall2 holds_frame ds (map sent_bytes xs)) w.
Proof.
  revert s t0 w. induction xs as [|x xs IH]; intros s t0 w Hsd Hs Ht0 Hok.
  { apply wp_ret. split; [constructor|]. exists []. by rewrite app_nil_r. }
  cbn [map concat]. apply pushAll_concat.
  assert (Hx : stream_ok s t0 [x]) by (cbn in *; tauto).
  eapply wp_mono; [by apply (deliver_one s t0)|]. cbn beta. intros rs w1 (-> & Hsd1 & d & Hlog & Hd).
  destruct Hok as (_ & _ & _ & _ & _ & _ & Ht & _ & Hok).
  eapply wp_mono; [eapply (IH (s + Z.of_nat (length (sent_packets x))) (sent_ts x)); [exact Hsd1|lia|lia|exact Hok]|]. cbn beta.
  intros rs w2 (Hrs & ds & Hlog2 & Hds). split.
  - apply Forall_app. split; [by apply Forall_replicate|done].
  - exists (d :: ds). rewrite Hlog2, Hlog, <- (assoc_L (++)). split; [done|by constructor].
Qed.
End Stream.

(** C6. In-order reassembly by the jitter buffer in its steady state, for every payload
    format that is a [Payloader] and every stream of frames.  The buffer has delivered its
    first frame (before that it holds a complete frame back until the next one begins) and
    its window is empty ([Steady]); the frame-ready callback succeeds.  When the packets of
    each frame arrive in any order among themselves, the end of the frame marked on its last
    packet, with growing timestamps within the latency and before the sequence numbers wrap
    around, every push succeeds, the callback is called exactly once per frame, in order,
    with the exact size of the format's image of the frame (for H.264 and H.265 the NAL
    units behind the start codes that the depacketiser writes, otherwise the frame itself), and
    jitterBufferFillFrameData called from it writes exactly the bytes of that image. *)
Theorem jitterBuffer_delivers {create depay} {P : Payloader create depay} onFrameReady onFrameDropped
  mtu latency single s t0 w xs
  (Hready : forall b s e n, onFrameReady b s e n = STATUS_SUCCESS)
  (Hsteady : Steady single latency s t0 w) (Hs : 1 <= s) (Ht0 : 0 <= t0)
  (Hxs : stream_ok mtu latency single s t0 xs) :
  wp (pushAll depay onFrameReady onFrameDropped (concat (map sent_arrival xs))) (fun rs w' =>
    Forall (fun r => r = (STATUS_SUCCESS, false)) rs /\
    exists ds, delivered (jbLog w') = delivered (jbLog w) ++ ds /\ Forall2 holds_frame ds (map sent_bytes xs)) w.
Proof. by eapply deliver_stream. Qed.

(** After two frames of one packet the window is empty; then a VP8 frame of two packets
    arrives in the wrong order, and another one of a single packet. *)
Definition ex_first : list RtpPacket := [ex_packet 10 1000 true [0x10; 7]; ex_packet 11 2000 true [0x10; 8]].
Definition ex_stream : list Sent :=
  [{| sent_ts := 3000; sent_bytes := [1; 2; 3];
      sent_packets := [ex_packet 12 3000 false [0x10; 1; 2]; ex_packet 13 3000 true [0; 3]];
      sent_arrival := [ex_packet 13 3000 true [0; 3]; ex_packet 12 3000 false [0x10; 1; 2]] |};
   {| sent_ts := 6000; sent_bytes := [9];
      sent_packets := [ex_packet 14 6000 true [0x10; 9]]; sent_arrival := [ex_packet 14 6000 true [0x10; 9]] |}].

Lemma vp8_readable_ex p : p ∈ ex_first -> readable depayVP8FromRtpPayload p.
Proof. intros Hp cap first. repeat (apply elem_of_cons in Hp as [->|Hp]; [done|]). by apply elem_of_nil in Hp. Qed.

Lemma ex_stream_ok : stream_ok (P := Payloader_VP8) 3 96000 false 12 2000 ex_stream.
Proof.
  assert (Hcar : forall seq ts mark bs, carries (ex_packet seq ts mark bs) bs).
  { intros. split; [done|]. eexists. split; [done|]. by apply pld_bytes_whole. }
  cbn [stream_ok ex_stream sent_ts sent_bytes sent_packets sent_arrival]. split_and!; try done; try (cbn; lia).
  - split; [done|]. change (fragments 3 [1; 2; 3]) with [[0x10; 1; 2]; [0; 3]].
    intros i p fr Hp Hfr. destruct i as [|[|i]]; cbn in Hp, Hfr; simplify_eq; split_and!; done || apply Hcar.
  - constructor.
  - split; [done|]. change (fragments 3 [9]) with [[0x10; 9]].
    intros i p fr Hp Hfr. destruct i as [|i]; cbn in Hp, Hfr; simplify_eq; split_and!; done || apply Hcar.
Qed.

Lemma ex_steady :
  wp (pushAll depayVP8FromRtpPayload ex_accept ex_accept ex_first) (fun _ w => Steady false 96000 12 2000 w)
    {| jb := ex_buffer false; jbLog := [] |}.
Proof.
  assert (Hwp : wp (pushAll depayVP8FromRtpPayload ex_accept ex_accept ex_first)
    (fun _ w => tab_ok (jb w)) {| jb := ex_buffer false; jbLog := [] |}).
  { eapply (pushAll_own depayVP8FromRtpPayload ex_accept ex_accept ex_first []).
    - apply (createJitterBuffer_own depayVP8FromRtpPayload ex_accept ex_accept true 20000000 48000 false).
      vm_compute. reflexivity.
    - apply Forall_forall. intros p Hp%list_elem_of_In. split; [|by apply vp8_readable_ex].
      repeat (apply elem_of_cons in Hp as [->|Hp]; [cbn; width_lia|]). by apply elem_of_nil in Hp.
    - intros r w' Hw'. apply (own_tab _ _ _ Hw'). }
  assert (Hc : wp (pushAll depayVP8FromRtpPayload ex_accept ex_accept ex_first) (fun _ w =>
    (tab (jb w) = ∅ /\ started (jb w) = true /\ firstFrameProcessed (jb w) = true) /\
    (alwaysSinglePacketFrames (jb w) = false /\ maxLatency (jb w) = 96000) /\
    (sequenceNumberOverflowState (jb w) = false /\ timestampOverFlowState (jb w) = false) /\
    (headSequenceNumber (jb w) = 12 /\ tailSequenceNumber (jb w) = 11) /\
    (headTimestamp (jb w) = 2000 /\ tailTimestamp (jb w) = 2000)) {| jb := ex_buffer false; jbLog := [] |})
    by (vm_compute; repeat split).
  eapply wp_mono; [exact (wp_conj _ _ _ _ Hwp Hc)|]. cbn beta. clear.
  intros _ w (Htab0 & (Htab & ? & ?) & (? & ?) & (? & ?) & (? & ?) & (? & ?)).
  split; try done. intros k _. by rewrite Htab, lookup_empty.
Qed.

Lemma jitterBuffer_delivers_witness :
  match pushAll depayVP8FromRtpPayload ex_accept ex_accept ex_first {| jb := ex_buffer false; jbLog := [] |} with
  | Some (_, w) =>
      wp (pushAll depayVP8FromRtpPayload ex_accept ex_accept (concat (map sent_arrival ex_stream))) (fun rs w' =>
        Forall (fun r => r = (STATUS_SUCCESS, false)) rs /\
        exists ds, delivered (jbLog w') = delivered (jbLog w) ++ ds /\
          Forall2 (holds_frame (P := Payloader_VP8)) ds [[1; 2; 3]; [9]]) w
  | None => False
  end.
Proof.
  pose proof ex_steady as Hst. unfold wp in Hst.
  destruct (pushAll _ _ _ ex_first _) as [[rs w]|]; [|done].
  apply (jitterBuffer_delivers (P := Payloader_VP8) ex_accept ex_accept 3 96000 false 12 2000 w ex_stream);
    [done|exact Hst|lia|lia|exact ex_stream_ok].
Defined.
