(* ===== verification/FramePath.v ===== *)
(** * From the sender's frame to the receiver's frame (src/source/PeerConnection/Rtp.c)

    The part of writeFrame that turns a frame into RTP packets and their bytes, composed
    with the parser of the receiver and the jitter buffer.  Encryption, the retransmission
    buffer and the transport lie between the two and are not part of this file: the bytes
    handed to the encryption of the sender are those the receiver's decryption yields. *)

From stdpp Require Import fin_maps gmap.
From S2P Require Import Prelude Endian RtpPacket HashTable Payloaders JitterBuffer JitterSafety JitterDelivery.

Definition TWCC_EXT_PROFILE : Z := 0xBEDE.
Definition SRTP_AUTH_TAG_OVERHEAD : Z := 10.

(** The bytes of the variable extpayload: TWCC_PAYLOAD is in network byte order. *)
Definition TWCC_PAYLOAD (extId sequenceNum : Z) : list Z :=
  be32 (Z.lor (Z.lor (Z.shiftl (Z.land extId 0xf) 28) (Z.shiftl 1 24)) (Z.shiftl sequenceNum 8)).

(** The fields of RtcRtpSender that packetisation uses. *)
Record RtpSender : Type := {
  snd_sequenceNumber : Z;
  snd_initialSequenceNumber : Z;
  snd_seqInitialized : bool;
  snd_ssrc : Z;
  snd_payloadArray : PayloadArray;
}.

Section Send.
(** What the allocations return: objects of the requested size with any contents. *)
Variable memBytes memLengths : Z -> list Z.
Variable memPackets : Z -> list RtpPacket.
Variable create : RtpPayloadFunc.

(** The payload array after the sizing call: its buffers grow when they are too small. *)
Definition growArray (pa : PayloadArray) (len cnt : Z) : PayloadArray :=
  {| payloadBuffer := if maxPayloadLength pa <? len then memBytes len else payloadBuffer pa;
     arrPayloadLength := len;
     maxPayloadLength := if maxPayloadLength pa <? len then len else maxPayloadLength pa;
     payloadSubLength := if maxPayloadSubLenSize pa <? cnt then memLengths cnt else payloadSubLength pa;
     payloadSubLenSize := cnt;
     maxPayloadSubLenSize := if maxPayloadSubLenSize pa <? cnt then cnt else maxPayloadSubLenSize pa |}.

(** The non-RED branch of writeFrame from the sizing call to the advance of the sequence
    number; allocations succeed.  A failure ends writeFrame. *)
Definition packetizeFrame (mtu payloadType rtpTimestamp : Z) (frame : list Z) (snd : RtpSender)
    : res (RtpSender * list RtpPacket) :=
  let pa := snd_payloadArray snd in
  o ← create mtu (Some frame) (blen frame) None (Some (arrPayloadLength pa)) None (Some (payloadSubLenSize pa));
  CHK negb (STATUS_FAILED (po_status o)) else po_status o ;;
  let pa := growArray pa (default (arrPayloadLength pa) (po_length o)) (default (payloadSubLenSize pa) (po_count o)) in
  o ← create mtu (Some frame) (blen frame) (Some (payloadBuffer pa)) (Some (arrPayloadLength pa))
        (Some (payloadSubLength pa)) (Some (payloadSubLenSize pa));
  CHK negb (STATUS_FAILED (po_status o)) else po_status o ;;
  let pa := {| payloadBuffer := default (payloadBuffer pa) (po_buffer o);
               arrPayloadLength := default (arrPayloadLength pa) (po_length o);
               maxPayloadLength := maxPayloadLength pa;
               payloadSubLength := default (payloadSubLength pa) (po_subs o);
               payloadSubLenSize := default (payloadSubLenSize pa) (po_count o);
               maxPayloadSubLenSize := maxPayloadSubLenSize pa |} in
  let initial := if snd_seqInitialized snd then snd_initialSequenceNumber snd else snd_sequenceNumber snd in
  '(st, ps) ← constructRtpPackets (Some pa) payloadType (snd_sequenceNumber snd) (u32 rtpTimestamp)
               (snd_ssrc snd) (Some (memPackets (payloadSubLenSize pa))) (payloadSubLenSize pa);
  CHK negb (STATUS_FAILED st) else st ;;
  Ok ({| snd_sequenceNumber := GET_UINT16_SEQ_NUM (snd_sequenceNumber snd + payloadSubLenSize pa);
         snd_initialSequenceNumber := initial; snd_seqInitialized := true; snd_ssrc := snd_ssrc snd;
         snd_payloadArray := pa |}, default [] ps).

(** The transport-wide sequence number extension, when it was negotiated ([extId <> 0]);
    [tw] is the connection's counter. *)
Definition attachTwcc (extId tw : Z) (p : RtpPacket) : RtpPacket * Z :=
  if extId =? 0 then (p, tw) else
  let hd := header p in
  (p <| header := {| version := version hd; padding := padding hd; extension := true; marker := marker hd;
                     csrcCount := csrcCount hd; payloadType := payloadType hd;
                     sequenceNumber := sequenceNumber hd; timestamp := timestamp hd; ssrc := ssrc hd;
                     csrcArray := csrcArray hd; extensionProfile := TWCC_EXT_PROFILE;
                     extensionPayload := Some (Ptr (TWCC_PAYLOAD extId (u16 tw)) 0);
                     extensionLength := 4 |} |>, u64 (tw + 1)).

(** The bytes of a packet, in a buffer with room for the SRTP tag. *)
Definition packetBytes (h : endian) (p : RtpPacket) : res (list Z) :=
  '(st, _, len) ← createBytesFromRtpPacket h p None 0;
  CHK negb (STATUS_FAILED st) else st ;;
  '(st, raw, len) ← createBytesFromRtpPacket h p (Some (memBytes (len +32 SRTP_AUTH_TAG_OVERHEAD))) len;
  CHK negb (STATUS_FAILED st) else st ;;
  Ok (take (Z.to_nat len) (default [] raw)).

(** The packets of a frame, one after the other. *)
Fixpoint sendPackets (h : endian) (extId tw : Z) (ps : list RtpPacket) : res (list (list Z) * Z) :=
  match ps with
  | [] => Ok ([], tw)
  | p :: ps =>
      let '(p, tw) := attachTwcc extId tw p in
      raw ← packetBytes h p;
      '(raws, tw) ← sendPackets h extId tw ps;
      Ok (raw :: raws, tw)
  end.

Definition sendFrame (h : endian) (extId mtu payloadType rtpTimestamp : Z) (frame : list Z) (snd : RtpSender) (tw : Z)
    : res (list (list Z) * RtpSender * Z) :=
  '(snd, ps) ← packetizeFrame mtu payloadType rtpTimestamp frame snd;
  '(raws, tw) ← sendPackets h extId tw ps;
  Ok (raws, snd, tw).
End Send.

(** The receiver parses the bytes into a new packet and pushes it. *)
Definition receiveBytes (h : endian) (depay : DepayRtpPayloadFunc)
    (onFrameReady onFrameDropped : JitterBuffer -> Z -> Z -> Z -> STATUS) (blank : RtpPacket) (raw : list Z)
    : ST JbWorld (STATUS * bool) :=
  match createRtpPacketFromBytes h (Some blank) (Some raw) (blen raw) with
  | Ok p => defaultPush depay onFrameReady onFrameDropped true p
  | Err st => mret (st, false)
  | Fault => fun _ => None
  end.

(** ** Packetisation *)

(** The buffers have the sizes the array records. *)
Definition arr_ok (pa : PayloadArray) : Prop :=
  blen (payloadBuffer pa) = maxPayloadLength pa /\ Z.of_nat (length (payloadSubLength pa)) = maxPayloadSubLenSize pa.

(** Packet [i] of [n] of a frame, without extension. *)
Definition plain_header (n i : nat) (pt seq ts ss : Z) : RtpPacketHeader :=
  {| version := 2; padding := false; extension := false; marker := Z.of_nat i =? Z.of_nat n - 1; csrcCount := 0;
     payloadType := pt; sequenceNumber := (seq + Z.of_nat i) mod 2 ^ 16; timestamp := ts; ssrc := ss;
     csrcArray := None; extensionProfile := 0; extensionPayload := None; extensionLength := 0 |}.

Lemma fillPackets_ext pa pa' subs i pt seq ts ss cur ps :
  payloadBuffer pa = payloadBuffer pa' -> payloadSubLenSize pa = payloadSubLenSize pa' ->
  fillPackets subs pa i pt seq ts ss cur ps = fillPackets subs pa' i pt seq ts ss cur ps.
Proof.
  intros E1 E2. revert i seq cur ps. induction subs as [|len subs IH]; intros i seq cur ps; [done|].
  destruct ps as [|p ps]; [done|]. cbn [fillPackets]. rewrite E1, E2. destruct (setRtpPacket _ _ _ _ _ _ _ _ _ _ _ _ _ _ _ _); [|done..].
  cbn [mbind res_bind]. by rewrite IH.
Qed.

Lemma Zsum_blen i frs : Zsum (take i (map blen frs)) = blen (concat (take i frs)).
Proof.
  rewrite blen_concat. revert i. induction frs as [|fr frs IH]; intros [|i]; [done..|].
  cbn. unfold total. cbn. f_equal. apply IH.
Qed.

(** Slice [i] of the payload buffer. *)
Lemma slice_read frs rest i fr :
  frs !! i = Some fr ->
  pld_bytes (Ptr (concat frs ++ rest) (Zsum (take i (map blen frs)))) (blen fr) = Ok fr.
Proof.
  intros Hi. rewrite Zsum_blen. unfold pld_bytes. cbn [p_obj p_off].
  rewrite <- (take_drop_middle frs i fr Hi) at 1. rewrite concat_app. cbn [concat].
  rewrite <- !(assoc_L (++)). by apply ld_bytes_app.
Qed.

Lemma length_le_total frs : Forall (fun fr => 0 < blen fr) frs -> Z.of_nat (length frs) <= total frs.
Proof. induction 1 as [|fr frs Hfr _ IH]; [done|]. rewrite total_cons. cbn [length]. lia. Qed.

Section Packetize.
Context {create : RtpPayloadFunc} {depay : DepayRtpPayloadFunc} {P : Payloader create depay}.
Variable memBytes memLengths : Z -> list Z.
Variable memPackets : Z -> list RtpPacket.
Hypothesis mem_bytes : forall n, 0 <= n -> blen (memBytes n) = n.
Hypothesis mem_lengths : forall n, 0 <= n -> Z.of_nat (length (memLengths n)) = n.
Hypothesis mem_packets : forall n, 0 <= n -> Z.of_nat (length (memPackets n)) = n.

Lemma growArray_ok pa len cnt : arr_ok pa -> 0 <= len -> 0 <= cnt ->
  arr_ok (growArray memBytes memLengths pa len cnt) /\
  len <= blen (payloadBuffer (growArray memBytes memLengths pa len cnt)) /\
  cnt <= Z.of_nat (length (payloadSubLength (growArray memBytes memLengths pa len cnt))).
Proof.
  intros [E1 E2] Hl Hc. unfold arr_ok, growArray. cbn.
  destruct (Z.ltb_spec (maxPayloadLength pa) len), (Z.ltb_spec (maxPayloadSubLenSize pa) cnt);
    rewrite ?mem_bytes, ?mem_lengths by done; lia.
Qed.

(** The packets constructRtpPackets makes of the fragments. *)
Lemma constructRtpPackets_fragments frs brest srest maxl maxs pt seq ts ss :
  Forall (fun fr => 0 < blen fr) frs -> frs <> [] -> total frs < 2 ^ 32 -> is_u16 seq ->
  let n := length frs in
  let pa := {| payloadBuffer := concat frs ++ brest; arrPayloadLength := total frs; maxPayloadLength := maxl;
               payloadSubLength := map blen frs ++ srest; payloadSubLenSize := Z.of_nat n;
               maxPayloadSubLenSize := maxs |} in
  exists ps,
    constructRtpPackets (Some pa) pt seq ts ss (Some (memPackets (Z.of_nat n))) (Z.of_nat n) = Ok (STATUS_SUCCESS, Some ps) /\
    length ps = n /\
    forall i p fr, ps !! i = Some p -> frs !! i = Some fr ->
      header p = plain_header n i pt seq ts ss /\ carries p fr.
Proof.
  intros Hpos Hne Htot Hseq n pa. pose proof (length_le_total frs Hpos) as Hle. fold n in Hle.
  assert (Hn0 : (0 < n)%nat) by (unfold n; destruct frs; [done|simpl; lia]).
  pose proof (mem_packets (Z.of_nat n) ltac:(lia)) as Hmem.
  set (olds := memPackets (Z.of_nat n)) in *.
  set (pa' := {| payloadBuffer := concat frs ++ brest; arrPayloadLength := total frs; maxPayloadLength := maxl;
                 payloadSubLength := map blen frs; payloadSubLenSize := Z.of_nat n; maxPayloadSubLenSize := maxs |}).
  eexists. split; [|split].
  - unfold constructRtpPackets. cbn [pa arrPayloadLength payloadSubLenSize payloadSubLength].
    rewrite (proj2 (Z.ltb_lt 0 (total frs))), Z.leb_refl by lia. cbn [negb].
    unfold blen at 1. rewrite length_app, length_map, (proj2 (Z.ltb_ge _ _)) by (fold n; lia).
    rewrite Nat2Z.id, take_app_length' by (by rewrite length_map).
    rewrite (fillPackets_ext pa pa') by done.
    pose proof (fillPackets_spec pa' pt seq ts ss [] (map blen frs) olds eq_refl) as H.
    cbn [length Zsum foldr Nat.add] in H. rewrite Z.add_0_r, Z.mod_small in H by done.
    change (Z.of_nat 0) with 0 in H. cbn [payloadSubLenSize pa'] in H. rewrite length_map in H. fold n in H.
    rewrite H by lia. rewrite drop_ge, app_nil_r by lia. done.
  - rewrite length_imap, length_zip_with, length_map. fold n. lia.
  - intros i p fr Hp Hfr. rewrite list_lookup_imap in Hp.
    apply fmap_Some in Hp as ([len old] & Hz & ->). apply lookup_zip_Some in Hz as [Hlen _].
    change (map blen frs) with (blen <$> frs) in Hlen. rewrite list_lookup_fmap, Hfr in Hlen. injection Hlen as <-.
    split; [done|]. split; [done|]. eexists. split; [done|]. by apply slice_read.
Qed.

Lemma packetizeFrame_ok mtu pt ts f snd :
  frame_ok mtu f -> arr_ok (snd_payloadArray snd) -> is_u16 (snd_sequenceNumber snd) ->
  let frs := fragments mtu f in
  exists snd' ps, packetizeFrame memBytes memLengths memPackets create mtu pt ts f snd = Ok (snd', ps) /\
    arr_ok (snd_payloadArray snd') /\ snd_ssrc snd' = snd_ssrc snd /\
    snd_sequenceNumber snd' = (snd_sequenceNumber snd + Z.of_nat (length frs)) mod 2 ^ 16 /\
    length ps = length frs /\
    forall i p fr, ps !! i = Some p -> frs !! i = Some fr ->
      header p = plain_header (length frs) i pt (snd_sequenceNumber snd) (u32 ts) (snd_ssrc snd) /\ carries p fr.
Proof.
  intros Hf Harr Hseq frs. destruct (fragments_shape mtu f Hf) as (Hne & Htot & Hall & _). fold frs in Hne, Htot, Hall.
  assert (Hpos : Forall (fun fr => 0 < blen fr) frs) by (eapply Forall_impl; [|exact Hall]; cbn; lia).
  unfold packetizeFrame. rewrite create_size by done. cbn [mbind res_bind po_status po_length po_count default].
  fold frs. pose proof (total_nonneg frs) as Ht0.
  destruct (growArray_ok (snd_payloadArray snd) (total frs) (Z.of_nat (length frs)) Harr Ht0 ltac:(lia)) as ((Eb & Es) & Hb & Hs).
  set (pa := growArray memBytes memLengths (snd_payloadArray snd) (total frs) (Z.of_nat (length frs))) in *.
  cbn [negb STATUS_FAILED default mbind option_bind from_option id]. fold pa.
  change (arrPayloadLength pa) with (total frs). change (payloadSubLenSize pa) with (Z.of_nat (length frs)).
  pose proof (create_fill mtu f (payloadBuffer pa) (payloadSubLength pa) Hf) as Efill. cbv zeta in Efill. fold frs in Efill.
  rewrite Efill by lia. cbn [mbind res_bind po_status po_length po_count po_buffer po_subs].
  destruct (constructRtpPackets_fragments frs (drop (Z.to_nat (total frs)) (payloadBuffer pa))
    (drop (length frs) (payloadSubLength pa)) (maxPayloadLength pa) (maxPayloadSubLenSize pa) pt
    (snd_sequenceNumber snd) (u32 ts) (snd_ssrc snd) Hpos Hne Htot Hseq) as (ps & Ec & Elen & Hps).
  cbn [default from_option id]. match goal with |- context [constructRtpPackets (Some ?x)] => set (pa2 := x) in * end.
  cbn [payloadSubLenSize pa2]. rewrite Ec. cbn [mbind res_bind negb STATUS_FAILED].
  eexists _, ps. split; [done|]. cbn [snd_payloadArray snd_ssrc snd_sequenceNumber]. split_and!; try done.
  - clearbody pa. split; cbn.
    + rewrite blen_app, blen_concat, blen_drop by lia. lia.
    + rewrite length_app, length_map, length_drop. lia.
  - apply GET_UINT16_SEQ_NUM_mod.
Qed.
End Packetize.

(** ** The bytes of a packet *)

(** The extension bytes [attachTwcc] adds. *)
Definition twccBytes (extId tw : Z) : list Z := if extId =? 0 then [] else TWCC_PAYLOAD extId (u16 tw).

Lemma attachTwcc_same extId tw p :
  let p' := (attachTwcc extId tw p).1 in
  seqOf p' = seqOf p /\ tsOf p' = tsOf p /\ marker (header p') = marker (header p) /\
  payload p' = payload p /\ payloadLength p' = payloadLength p.
Proof. cbv zeta. unfold attachTwcc, seqOf, tsOf. destruct (extId =? 0); done. Qed.

Section Wire.
Context (h h' : endian) (blank : RtpPacket).
Variable memBytes : Z -> list Z.
Hypothesis mem_bytes : forall n, 0 <= n -> blen (memBytes n) = n.

(** What the receiver makes of the bytes. *)
Definition receivedPacket (raw : list Z) : RtpPacket :=
  match createRtpPacketFromBytes h' (Some blank) (Some raw) (blen raw) with Ok q => q | _ => blank end.

Lemma packetBytes_wire p csrcs eb pb :
  pkt_points h p csrcs eb pb -> hdr_ok (header p) -> bytes_ok eb -> bytes_ok pb ->
  blen (rtp_bytes (header p) csrcs eb pb) + SRTP_AUTH_TAG_OVERHEAD < 2 ^ 32 ->
  exists raw q, packetBytes memBytes h p = Ok raw /\
    createRtpPacketFromBytes h' (Some blank) (Some raw) (blen raw) = Ok q /\
    seqOf q = seqOf p /\ tsOf q = tsOf p /\ marker (header q) = marker (header p) /\ carries q pb.
Proof.
  intros HP Hok Heb Hpb Hlt. unfold SRTP_AUTH_TAG_OVERHEAD in Hlt. pose proof (ho_csrcCount _ Hok) as Hcc.
  set (raw := rtp_bytes (header p) csrcs eb pb) in *. pose proof (blen_nonneg raw) as Hr0.
  pose proof (pkt_size h p csrcs eb pb HP ltac:(lia) ltac:(fold raw; lia)) as Esz. fold raw in Esz.
  set (m := blank <| pRawPacket := Some raw |> <| rawPacketLength := blen raw |>).
  exists raw, (pkt_in raw (header p) (payloadLength p) m).
  destruct (rtp_wire h h' p csrcs eb pb (memBytes (blen raw)) m HP Hok Heb Hpb ltac:(fold raw; lia)
    ltac:(rewrite Esz; apply mem_bytes; lia)) as (_ & Eparse & Hpl & _). fold raw in Eparse, Hpl.
  split_and!; try done.
  - unfold packetBytes, createBytesFromRtpPacket. cbn [mbind res_bind negb STATUS_FAILED].
    rewrite Esz, Z.leb_refl. unfold SRTP_AUTH_TAG_OVERHEAD. rewrite u32_id by width_lia.
    rewrite (setBytesFromRtpPacket_spec h p csrcs eb pb); [|done|lia| |lia|fold raw; rewrite mem_bytes; lia].
    2: intros Ex; by apply (ho_ext _ Hok).
    fold raw. pose proof (put_bytes_at [] (memBytes (blen raw + 10)) raw 0 eq_refl) as Eput. cbn [app] in Eput.
    rewrite Eput by (rewrite mem_bytes; lia).
    cbn [mbind res_bind app negb STATUS_FAILED default from_option id]. f_equal. apply take_app_length'. unfold blen. lia.
  - pose proof (ld_opt_length _ _ _ (pp_pl _ _ _ _ _ HP)). split; [cbn; lia|]. eexists. split; [done|].
    unfold ld_opt in Hpl. cbn in Hpl |- *. by replace (blen pb) with (payloadLength p).
Qed.

Lemma twccBytes_ok extId tw : bytes_ok (twccBytes extId tw).
Proof. unfold twccBytes. destruct (extId =? 0); [constructor|]. unfold TWCC_PAYLOAD. auto with width. Qed.

(** A packet of a frame, with or without the extension. *)
Lemma frame_packet_wire n i pt seq ts ss extId tw p fr :
  header p = plain_header n i pt seq ts ss -> carries p fr -> bytes_ok fr ->
  0 <= pt < 128 -> is_u32 ts -> is_u32 ss -> blen fr < 2 ^ 31 ->
  let p' := (attachTwcc extId tw p).1 in
  exists raw, packetBytes memBytes h p' = Ok raw /\
    let q := receivedPacket raw in
    createRtpPacketFromBytes h' (Some blank) (Some raw) (blen raw) = Ok q /\
    seqOf q = (seq + Z.of_nat i) mod 2 ^ 16 /\ tsOf q = ts /\ marker (header q) = (Z.of_nat i =? Z.of_nat n - 1) /\
    carries q fr.
Proof.
  intros Eh (El & ptr & Ep & Hld) Hb Hpt Hts Hss Hlen p'.
  destruct (attachTwcc_same extId tw p) as (Es & Et & Em & Epl & Ell). fold p' in Es, Et, Em, Epl, Ell.
  assert (HP : pkt_points h p' [] (twccBytes extId tw) fr).
  { assert (Hpl : ld_opt (payload p') (payloadLength p') = Ok fr)
      by (rewrite Epl, Ell; unfold ld_opt; by rewrite Ep, El).
    split; [| |exact Hpl]; clear Hpl; unfold p', attachTwcc, twccBytes; destruct (extId =? 0); cbn; try by rewrite Eh.
    eexists. split; [done|]. by apply pld_bytes_whole. }
  assert (Hok : hdr_ok (header p')).
  { pose proof (Z.mod_pos_bound (seq + Z.of_nat i) (2 ^ 16) ltac:(lia)).
    unfold p', attachTwcc. destruct (extId =? 0); split; cbn; rewrite ?Eh; cbn; unfold TWCC_EXT_PROFILE;
      done || (intros; width_lia). }
  pose proof (blen_rtp_bytes h p' _ _ _ HP ltac:(apply (ho_csrcCount _ Hok))) as Esize.
  assert (Hsz : blen (rtp_bytes (header p') [] (twccBytes extId tw) fr) <= 20 + blen fr).
  { rewrite Esize, Ell, El. unfold p', attachTwcc. destruct (extId =? 0); cbn; rewrite Eh; cbn; lia. }
  destruct (packetBytes_wire p' [] (twccBytes extId tw) fr HP Hok (twccBytes_ok _ _) Hb) as (raw & q & E1 & E2 & Eq1 & Eq2 & Eq3 & Hc).
  { unfold SRTP_AUTH_TAG_OVERHEAD. lia. }
  exists raw. split; [done|]. cbv zeta. unfold receivedPacket. rewrite E2. split_and!; try done.
  - rewrite Eq1, Es. unfold seqOf. by rewrite Eh.
  - rewrite Eq2, Et. unfold tsOf. by rewrite Eh.
  - rewrite Eq3, Em. by rewrite Eh.
Qed.
End Wire.

(** ** Frames and streams *)

Section Path.
Context {create : RtpPayloadFunc} {depay : DepayRtpPayloadFunc} {P : Payloader create depay}.
Context (h h' : endian) (blank : RtpPacket).
Variable memBytes memLengths : Z -> list Z.
Variable memPackets : Z -> list RtpPacket.
Hypothesis mem_bytes : forall n, 0 <= n -> blen (memBytes n) = n.
Hypothesis mem_lengths : forall n, 0 <= n -> Z.of_nat (length (memLengths n)) = n.
Hypothesis mem_packets : forall n, 0 <= n -> Z.of_nat (length (memPackets n)) = n.
Variables (extId mtu pt : Z) (single : bool) (latency : Z).

(** The bytes of packet [i] of [n] are parsed into a packet that carries [fr]. *)
Definition wire_ok (n i : nat) (seq ts : Z) (fr raw : list Z) : Prop :=
  let q := receivedPacket h' blank raw in
  createRtpPacketFromBytes h' (Some blank) (Some raw) (blen raw) = Ok q /\
  seqOf q = (seq + Z.of_nat i) mod 2 ^ 16 /\ tsOf q = ts /\ marker (header q) = (Z.of_nat i =? Z.of_nat n - 1) /\
  carries q fr.

Lemma sendPackets_ok n k seq ts ss tw ps frs :
  length ps = length frs ->
  (forall i p fr, ps !! i = Some p -> frs !! i = Some fr ->
     header p = plain_header n (k + i) pt seq ts ss /\ carries p fr) ->
  Forall (fun fr => bytes_ok fr /\ blen fr < 2 ^ 31) frs -> 0 <= pt < 128 -> is_u32 ts -> is_u32 ss ->
  exists raws tw', sendPackets memBytes h extId tw ps = Ok (raws, tw') /\ length raws = length frs /\
    forall i raw fr, raws !! i = Some raw -> frs !! i = Some fr -> wire_ok n (k + i) seq ts fr raw.
Proof.
  intros Elen Hps Hfrs Hpt Hts Hss. revert k tw ps Elen Hps.
  induction Hfrs as [|fr frs [Hb Hl] _ IH]; intros k tw ps Elen Hps.
  { destruct ps; [|done]. exists [], tw. split_and!; done. }
  destruct ps as [|p ps]; [done|]. cbn [sendPackets].
  destruct (Hps 0%nat p fr eq_refl eq_refl) as [Eh Hc]. rewrite Nat.add_0_r in Eh.
  destruct (frame_packet_wire h h' blank memBytes mem_bytes n k pt seq ts ss extId tw p fr Eh Hc Hb Hpt Hts Hss Hl) as (raw & Er & Hw).
  destruct (attachTwcc extId tw p) as [p' tw1]. cbn [fst] in Er.
  destruct (IH (S k) tw1 ps) as (raws & tw' & Es & El & Hall); [by injection Elen|..].
  { intros i q fr' Hq Hfr'. replace (S k + i)%nat with (k + S i)%nat by lia. by apply Hps. }
  rewrite Er, Es. cbn [mbind res_bind]. exists (raw :: raws), tw'. split_and!; [done|cbn; by f_equal|].
  intros [|i] raw' fr' Hr' Hf'; cbn in Hr', Hf'.
  - injection Hr' as <-. injection Hf' as <-. by rewrite Nat.add_0_r.
  - replace (k + S i)%nat with (S k + i)%nat by lia. by apply Hall.
Qed.

Lemma sendFrame_ok ts f snd tw :
  frame_ok mtu f -> bytes_ok f -> mtu < 2 ^ 31 -> arr_ok (snd_payloadArray snd) -> is_u16 (snd_sequenceNumber snd) ->
  0 <= pt < 128 -> is_u32 (snd_ssrc snd) -> is_u32 ts ->
  let frs := fragments mtu f in
  exists raws snd' tw', sendFrame memBytes memLengths memPackets create h extId mtu pt ts f snd tw = Ok (raws, snd', tw') /\
    arr_ok (snd_payloadArray snd') /\ snd_ssrc snd' = snd_ssrc snd /\
    snd_sequenceNumber snd' = (snd_sequenceNumber snd + Z.of_nat (length frs)) mod 2 ^ 16 /\
    length raws = length frs /\
    forall i raw fr, raws !! i = Some raw -> frs !! i = Some fr ->
      wire_ok (length frs) i (snd_sequenceNumber snd) ts fr raw.
Proof.
  intros Hf Hb Hm Harr Hseq Hpt Hss Hts frs.
  destruct (packetizeFrame_ok (depay := depay) memBytes memLengths memPackets mem_bytes mem_lengths mem_packets mtu pt ts f snd Hf Harr Hseq)
    as (snd' & ps & Ep & Harr' & Ess & Eseq & Elen & Hps). fold frs in Eseq, Elen, Hps. rewrite (u32_id ts) in Hps by done.
  destruct (fragments_shape mtu f Hf) as (_ & _ & Hall & _).
  destruct (sendPackets_ok (length frs) 0 (snd_sequenceNumber snd) ts (snd_ssrc snd) tw ps frs Elen Hps) as (raws & tw' & Es & El & Hw); try done.
  { pose proof (fragments_bytes mtu f Hf Hb) as Hfb. apply list.Forall_and. split; [exact Hfb|].
    eapply Forall_impl; [|exact Hall]. cbn. lia. }
  exists raws, snd', tw'. unfold sendFrame. rewrite Ep. cbn [mbind res_bind]. rewrite Es. split_and!; done.
Qed.

(** The frames of a stream, each with its RTP timestamp. *)
Fixpoint sendAll (xs : list (Z * list Z)) (snd : RtpSender) (tw : Z) : res (list (list (list Z)) * RtpSender * Z) :=
  match xs with
  | [] => Ok ([], snd, tw)
  | (ts, f) :: xs =>
      '(raws, snd, tw) ← sendFrame memBytes memLengths memPackets create h extId mtu pt ts f snd tw;
      '(rest, snd, tw) ← sendAll xs snd tw;
      Ok (raws :: rest, snd, tw)
  end.

(** What the path needs of the frames: the format accepts them, they fit the window, and
    their timestamps grow within the latency of the receiver. *)
Fixpoint frames_ok (s t0 : Z) (xs : list (Z * list Z)) : Prop :=
  match xs with
  | [] => True
  | (ts, f) :: xs =>
      let n := Z.of_nat (length (fragments mtu f)) in
      frame_ok mtu f /\ bytes_ok f /\ blen (image f) < 2 ^ 32 /\ (single = true -> n = 1) /\
      n <= 60000 /\ s + n <= 65536 /\ t0 < ts < 2 ^ 32 /\ ts - t0 <= latency /\ frames_ok (s + n) ts xs
  end.

Lemma wire_frame_packets s ts frs raws :
  length raws = length frs -> (forall i raw fr, raws !! i = Some raw -> frs !! i = Some fr -> wire_ok (length frs) i s ts fr raw) ->
  0 <= s -> s + Z.of_nat (length frs) <= 65536 -> (single = true -> Z.of_nat (length frs) = 1) ->
  frame_packets single s ts frs (map (receivedPacket h' blank) raws).
Proof.
  intros Elen Hw Hs Hn Hsingle. split; [by rewrite length_map|]. intros i p fr Hp Hfr.
  change (map (receivedPacket h' blank) raws) with (receivedPacket h' blank <$> raws) in Hp.
  rewrite list_lookup_fmap in Hp. apply fmap_Some in Hp as (raw & Hraw & ->).
  destruct (Hw i raw fr Hraw Hfr) as (_ & Eseq & Ets & Em & Hc). pose proof (lookup_lt_Some _ _ _ Hfr).
  split_and!; [|done|done|].
  - rewrite Eseq. apply Z.mod_small. lia.
  - rewrite Em, length_map, Elen. destruct single.
    + rewrite orb_true_r. symmetry. apply bool_decide_true. specialize (Hsingle eq_refl). lia.
    + rewrite orb_false_r. case_bool_decide; [apply Z.eqb_eq|apply Z.eqb_neq]; lia.
Qed.

Variables onFrameReady onFrameDropped : JitterBuffer -> Z -> Z -> Z -> STATUS.

Fixpoint receiveAll (raws : list (list Z)) : ST JbWorld (list (STATUS * bool)) :=
  match raws with
  | [] => mret []
  | raw :: raws =>
      r ← receiveBytes h' depay onFrameReady onFrameDropped blank raw;
      rs ← receiveAll raws;
      mret (r :: rs)
  end.

(** The bytes are parsed into a packet. *)
Definition parses (raw : list Z) : Prop :=
  createRtpPacketFromBytes h' (Some blank) (Some raw) (blen raw) = Ok (receivedPacket h' blank raw).

Lemma receiveAll_push raws w (Q : list (STATUS * bool) -> JbWorld -> Prop) :
  Forall parses raws -> wp (pushAll depay onFrameReady onFrameDropped (map (receivedPacket h' blank) raws)) Q w ->
  wp (receiveAll raws) Q w.
Proof.
  intros Hp. revert w Q. induction Hp as [|raw raws Hr _ IH]; intros w Q H; [exact H|].
  cbn [receiveAll map pushAll] in *. unfold receiveBytes. rewrite Hr.
  unfold wp, mbind, ST_bind in H |- *.
  destruct (defaultPush depay onFrameReady onFrameDropped true (receivedPacket h' blank raw) w) as [[r w1]|]; [|done].
  specialize (IH w1 (fun rs => Q (r :: rs))). unfold wp in IH.
  destruct (pushAll depay onFrameReady onFrameDropped (map (receivedPacket h' blank) raws) w1) as [[rs w2]|]; [|done].
  specialize (IH H). destruct (receiveAll raws w1) as [[rs' w3]|]; done.
Qed.

Lemma sendAll_ok xs s t0 snd tw :
  frames_ok s t0 xs -> 1 <= s -> 0 <= t0 -> mtu < 2 ^ 31 -> 0 <= pt < 128 -> is_u32 (snd_ssrc snd) ->
  arr_ok (snd_payloadArray snd) -> snd_sequenceNumber snd = u16 s ->
  exists raws snd' tw', sendAll xs snd tw = Ok (raws, snd', tw') /\
    forall arrival, Forall2 (≡ₚ) arrival raws ->
      Forall parses (concat arrival) /\
      exists sents, stream_ok mtu latency single s t0 sents /\ map sent_bytes sents = map Datatypes.snd xs /\
        concat (map sent_arrival sents) = map (receivedPacket h' blank) (concat arrival).
Proof.
  revert s t0 snd tw. induction xs as [|[ts f] xs IH]; intros s t0 snd tw Hok Hs Ht0 Hm Hpt Hss Harr Eseq.
  { exists [], snd, tw. split; [done|]. intros arrival Ha. inversion Ha. split; [constructor|]. by exists []. }
  destruct Hok as (Hf & Hb & Himg & Hsingle & Hn & Hsn & Hts & Hlat & Hok). cbn [sendAll].
  destruct (fragments_shape mtu f Hf) as (Hne & _).
  assert (Hn0 : (0 < length (fragments mtu f))%nat) by (destruct (fragments mtu f); [done|simpl; lia]).
  rewrite u16_id in Eseq by width_lia.
  destruct (sendFrame_ok ts f snd tw Hf Hb Hm Harr) as (raws & snd1 & tw1 & Es & Harr1 & Ess1 & Eseq1 & Elen & Hw);
    [rewrite Eseq; width_lia|done|done|width_lia|].
  rewrite Es. cbn [mbind res_bind]. rewrite Eseq in Hw, Eseq1.
  destruct (IH (s + Z.of_nat (length (fragments mtu f))) ts snd1 tw1 Hok ltac:(lia) ltac:(lia) Hm Hpt) as (rest & snd2 & tw2 & Er & Hrest);
    [by rewrite Ess1|done|done|].
  rewrite Er. cbn [mbind res_bind]. exists (raws :: rest), snd2, tw2. split; [done|].
  intros arrival Ha. inversion Ha as [|arr raws' arrs rest' Hperm Harrs]. subst.
  destruct (Hrest arrs Harrs) as (Hparse & sents & Hstream & Ebytes & Econcat).
  assert (Hp0 : Forall parses raws).
  { apply Forall_lookup. intros i raw Hi. destruct (lookup_lt_is_Some_2 (fragments mtu f) i) as [fr Hfr];
      [rewrite <- Elen; by eapply lookup_lt_Some|]. apply (Hw i raw fr Hi Hfr). }
  split. { cbn [concat]. apply Forall_app. split; [by rewrite Hperm|done]. }
  exists ({| sent_ts := ts; sent_bytes := f; sent_packets := map (receivedPacket h' blank) raws;
             sent_arrival := map (receivedPacket h' blank) arr |} :: sents). split_and!.
  - cbn [stream_ok sent_ts sent_bytes sent_packets sent_arrival]. rewrite length_map, Elen.
    split_and!; try done; try lia.
    + apply wire_frame_packets; try done; lia.
    + by apply Permutation_map.
  - cbn. by f_equal.
  - cbn. by rewrite map_app, Econcat.
Qed.
End Path.

(** C5. End to end over every payload format that is a [Payloader]: the frames a sender
    packetises and serialises (with or without the transport-wide sequence number
    extension, on hosts of any byte order), whose packets reach a receiver in its steady
    state in any order within each frame, are delivered exactly once, in order, byte for
    byte as the format's image of the frame.  In the steady state ([Steady]) the receiver
    has delivered its first frame and has an empty window (a new buffer is not in it: it
    holds its first frame back until the next one begins); the frame-ready callback
    succeeds.  The other hypotheses bound the sizes, let the timestamps grow within the
    latency and keep the sequence numbers below the wrap-around. *)
Theorem frame_path {create depay} {P : Payloader create depay} h h' blank memBytes memLengths memPackets
  extId mtu pt single latency onFrameReady onFrameDropped s t0 w snd tw xs
  (Hmem1 : forall n, 0 <= n -> blen (memBytes n) = n)
  (Hmem2 : forall n, 0 <= n -> Z.of_nat (length (memLengths n)) = n)
  (Hmem3 : forall n, 0 <= n -> Z.of_nat (length (memPackets n)) = n)
  (Hready : forall b s e n, onFrameReady b s e n = STATUS_SUCCESS)
  (Hsteady : Steady single latency s t0 w) (Hs : 1 <= s) (Ht0 : 0 <= t0)
  (Hxs : frames_ok mtu single latency s t0 xs) (Hmtu : mtu < 2 ^ 31) (Hpt : 0 <= pt < 128)
  (Hssrc : is_u32 (snd_ssrc snd)) (Harr : arr_ok (snd_payloadArray snd)) (Hseq : snd_sequenceNumber snd = u16 s) :
  exists raws snd' tw', sendAll (create := create) h memBytes memLengths memPackets extId mtu pt xs snd tw = Ok (raws, snd', tw') /\
    forall arrival, Forall2 (≡ₚ) arrival raws ->
      wp (receiveAll (depay := depay) h' blank onFrameReady onFrameDropped (concat arrival)) (fun rs w' =>
        Forall (fun r => r = (STATUS_SUCCESS, false)) rs /\
        exists ds, delivered (jbLog w') = delivered (jbLog w) ++ ds /\ Forall2 holds_frame ds (map Datatypes.snd xs)) w.
Proof.
  destruct (sendAll_ok h h' blank memBytes memLengths memPackets Hmem1 Hmem2 Hmem3 extId mtu pt single latency
    onFrameReady onFrameDropped xs s t0 snd tw) as (raws & snd' & tw' & Es & Hrecv); try done.
  exists raws, snd', tw'. split; [done|]. intros arrival Ha.
  destruct (Hrecv arrival Ha) as (Hparse & sents & Hstream & Ebytes & Econcat).
  apply receiveAll_push; [done|]. rewrite <- Econcat, <- Ebytes. by eapply deliver_stream.
Qed.

(** A fresh VP8 sender, numbered after the two frames of [ex_first], sends a frame of two
    packets with the extension; the receiver gets them in the wrong order. *)
Definition ex_blank : RtpPacket := ex_packet 0 0 false [].
Definition ex_sender : RtpSender :=
  {| snd_sequenceNumber := 12; snd_initialSequenceNumber := 0; snd_seqInitialized := false; snd_ssrc := 77;
     snd_payloadArray := {| payloadBuffer := []; arrPayloadLength := 0; maxPayloadLength := 0;
                            payloadSubLength := []; payloadSubLenSize := 0; maxPayloadSubLenSize := 0 |} |}.

Lemma frame_path_witness :
  match pushAll depayVP8FromRtpPayload ex_accept ex_accept ex_first {| jb := ex_buffer false; jbLog := [] |} with
  | Some (_, w) =>
      exists raws snd' tw',
        sendAll (create := createPayloadForVP8) BigEndian (fun n => replicate (Z.to_nat n) 0)
          (fun n => replicate (Z.to_nat n) 0) (fun n => replicate (Z.to_nat n) ex_blank)
          5 3 96 [(3000, [1; 2; 3])] ex_sender 9 = Ok (raws, snd', tw') /\
        wp (receiveAll (depay := depayVP8FromRtpPayload) LittleEndian ex_blank ex_accept ex_accept (concat (map (@rev (list Z)) raws)))
          (fun rs w' => Forall (fun r => r = (STATUS_SUCCESS, false)) rs /\
             exists ds, delivered (jbLog w') = delivered (jbLog w) ++ ds /\
               Forall2 (holds_frame (P := Payloader_VP8)) ds [[1; 2; 3]]) w
  | None => False
  end.
Proof.
  pose proof ex_steady as Hst. unfold wp in Hst.
  destruct (pushAll _ _ _ ex_first _) as [[rs w]|]; [|done].
  destruct (frame_path (P := Payloader_VP8) BigEndian LittleEndian ex_blank (fun n => replicate (Z.to_nat n) 0)
    (fun n => replicate (Z.to_nat n) 0) (fun n => replicate (Z.to_nat n) ex_blank) 5 3 96 false 96000
    ex_accept ex_accept 12 2000 w ex_sender 9 [(3000, [1; 2; 3])]) as (raws & snd' & tw' & Es & Hrecv).
  - intros n Hn. unfold blen. rewrite length_replicate. lia.
  - intros n Hn. rewrite length_replicate. lia.
  - intros n Hn. rewrite length_replicate. lia.
  - done.
  - exact Hst.
  - lia.
  - lia.
  - cbn. change (length (vp8_frags true (chunks (Z.to_nat (3 - 1)) [1; 2; 3]))) with 2%nat.
    split_and!; try done; try lia. apply bytes_ok_check. reflexivity.
  - lia.
  - lia.
  - cbn. width_lia.
  - done.
  - done.
  - exists raws, snd', tw'. split; [exact Es|]. apply Hrecv.
    clear. induction raws as [|r raws IH]; constructor; [symmetry; apply Permutation_rev|exact IH].
Defined.
