(* ===== verification/Twcc.v ===== *)
(** * Transport-wide congestion control (src/source/PeerConnection/Rtcp.c, PeerConnection.c)

    Both ends of the transport-wide feedback.  The sender numbers its packets and records
    when it sent them; the receiver records when they arrived and reports the arrival times
    in a feedback packet; the sender decodes the report into its records.  An information
    object is referenced by one hash table entry only, so that the entry holds it.  The locks
    make each operation atomic. *)

From stdpp Require Import fin_maps gmap.
From S2P Require Import Prelude Endian RtpPacket HashTable RtcpPacket FramePath.


Definition HUNDREDS_OF_NANOS_IN_A_MILLISECOND : Z := 10000.
Definition TWCC_TICKS_PER_SECOND : Z := 4000.
Definition MILLISECONDS_PER_SECOND : Z := 1000.
Definition TWCC_PACKET_LOST_TIME : Z := 2 ^ 64 - 1.
Definition TWCC_PACKET_UNITIALIZED_TIME : Z := 0.
Definition TWCC_ESTIMATOR_TIME_WINDOW : Z := HUNDREDS_OF_NANOS_IN_A_SECOND.
Definition TWCC_STATUS_SYMBOL_NOTRECEIVED : Z := 0.
Definition TWCC_STATUS_SYMBOL_SMALLDELTA : Z := 1.
Definition TWCC_STATUS_SYMBOL_LARGEDELTA : Z := 2.
Definition TWCC_FB_PACKETCHUNK_SIZE : Z := 2.
Definition TWCC_RECEIVER_HASH_BUCKET_COUNT : Z := 100.
Definition TWCC_RECEIVER_HASH_BUCKET_LENGTH : Z := 2.
Definition TWCC_REFERENCE_TIME_DIVISOR : Z := 64.
Definition TWCC_MAX_PACKET_STATUS_COUNT : Z := 0x1FFF.
Definition RTCP_PACKET_TYPE_GENERIC_RTP_FEEDBACK : Z := 205.
Definition RTCP_FEEDBACK_MESSAGE_TYPE_TWCC : Z := 15.
Definition MIN_INT16 : Z := - 2 ^ 15.

Definition IS_TWCC_RUNLEN (packetChunk : Z) : bool := Z.land (Z.shiftr packetChunk 15) 1 =? 0.
Definition TWCC_RUNLEN_STATUS_SYMBOL (packetChunk : Z) : Z := Z.land (Z.shiftr packetChunk 13) 3.
Definition TWCC_RUNLEN_GET (packetChunk : Z) : Z := Z.land packetChunk 0x1fff.
Definition TWCC_STATUSVECTOR_IS_2BIT (packetChunk : Z) : bool :=
  negb (Z.land (Z.shiftr packetChunk 14) 1 =? 0).
Definition TWCC_STATUSVECTOR_STATUS (packetChunk i : Z) : Z :=
  if TWCC_STATUSVECTOR_IS_2BIT packetChunk
  then Z.land (Z.shiftr packetChunk (12 - i * 2)) 3
  else Z.land (Z.shiftr packetChunk (13 - i * 1)) 1.
Definition TWCC_STATUSVECTOR_COUNT (packetChunk : Z) : Z :=
  if TWCC_STATUSVECTOR_IS_2BIT packetChunk then 7 else 14.
Definition TWCC_MAKE_RUNLEN (status count : Z) : Z :=
  u16 (Z.lor (Z.shiftl status 13) (Z.land count 0x1FFF)).

(** ** Data *)

Set Primitive Projections.
Record TwccRtpPacketInfo : Type := {
  localTimeKvs : Z;
  remoteTimeKvs : Z;
  packetSize : Z;
}.

(** A value of the table is a pointer: [None] is NULL. *)
Record TwccManager : Type := {
  pTwccRtpPktInfosHashTable : HashTable (option TwccRtpPacketInfo);
  firstSeqNumInRollingWindow : Z;
  lastReportedSeqNum : Z;
  prevReportedBaseSeqNum : Z;
}.

Record TwccReceivedPacketInfo : Type := { arrivalTimeKvs : Z }.

Record TwccReceiverManager : Type := {
  pReceivedPktsHashTable : HashTable TwccReceivedPacketInfo;
  firstSeqNum : Z;
  lastSeqNum : Z;
  firstPacketReceived : bool;
  feedbackPacketCount : Z;
  mediaSourceSsrc : Z;
  baseTimeKvs : Z;
}.

Record TwccPacketReport : Type := {
  rep_seqNum : Z;
  rep_sendTimeKvs : Z;
  rep_arrivalTimeKvs : Z;
  rep_packetSize : Z;
  rep_received : bool;
}.
Unset Primitive Projections.

#[export] Instance upd_remoteTimeKvs : Update remoteTimeKvs. Proof. derive_update. Defined.
#[export] Instance upd_twccTable : Update pTwccRtpPktInfosHashTable. Proof. derive_update. Defined.
#[export] Instance upd_firstSeqNumInRollingWindow : Update firstSeqNumInRollingWindow. Proof. derive_update. Defined.
#[export] Instance upd_lastReportedSeqNum : Update lastReportedSeqNum. Proof. derive_update. Defined.
#[export] Instance upd_prevReportedBaseSeqNum : Update prevReportedBaseSeqNum. Proof. derive_update. Defined.
#[export] Instance upd_receivedTable : Update pReceivedPktsHashTable. Proof. derive_update. Defined.
#[export] Instance upd_firstSeqNum : Update firstSeqNum. Proof. derive_update. Defined.
#[export] Instance upd_lastSeqNum : Update lastSeqNum. Proof. derive_update. Defined.
#[export] Instance upd_firstPacketReceived : Update firstPacketReceived. Proof. derive_update. Defined.
#[export] Instance upd_feedbackPacketCount : Update feedbackPacketCount. Proof. derive_update. Defined.
#[export] Instance upd_mediaSourceSsrc : Update mediaSourceSsrc. Proof. derive_update. Defined.
#[export] Instance upd_baseTimeKvs : Update baseTimeKvs. Proof. derive_update. Defined.

(** [STATUS_SUCCEEDED(hashTableGet(...))] and the value. *)
Definition tableGet {V} (ht : HashTable V) (key : Z) : res (option V) :=
  match hashTableGet (Some ht) key with
  | Ok v => Ok (Some v)
  | Err _ => Ok None
  | Fault => Fault
  end.

(** The number of 16-bit sequence numbers: a loop that counts through them ends within it. *)
Definition seqCount : nat := Z.to_nat (2 ^ 16).
Lemma seqCount_val : Z.of_nat seqCount = 2 ^ 16.
Proof. unfold seqCount. lia. Qed.
#[global] Opaque seqCount.

(** ** The sender's record of sent packets *)

(** The loop of twccRollingWindowDeletion: [n] iterations are left, [seq] is updatedSeqNum
    and [sent] the send time of the current packet.  It ends with the status, the table and
    updatedSeqNum. *)
Fixpoint deletionLoop (n : nat) (sent ending : Z) (ht : HashTable (option TwccRtpPacketInfo)) (seq : Z)
    : res (STATUS * HashTable (option TwccRtpPacketInfo) * Z) :=
  match n with
  | O => Fault
  | S n =>
      v ← tableGet ht seq;
      '(st, ht, next, complete) ←
        (match v with
         | Some (Some info) =>
             let firstRtpTime := localTimeKvs info in
             if firstRtpTime <=? sent then
               let ageOfOldest := sent - firstRtpTime in
               if TWCC_ESTIMATOR_TIME_WINDOW <? ageOfOldest then
                 match hashTableRemove (Some ht) seq with
                 | Ok ht => Ok (STATUS_SUCCESS, ht, u16 (seq + 1), false)
                 | Err _ => Ok (STATUS_SUCCESS, ht, u16 (seq + 1), false)
                 | Fault => Fault
                 end
               else Ok (STATUS_SUCCESS, ht, seq, true)
             else Ok (STATUS_SUCCESS, ht, u16 (seq + 1), false)
         | Some None =>
             match hashTableRemove (Some ht) seq with
             | Ok ht => Ok (STATUS_SUCCESS, ht, u16 (seq + 1), false)
             | Err st => Ok (st, ht, seq, false)
             | Fault => Fault
             end
         | None => Ok (STATUS_SUCCESS, ht, u16 (seq + 1), false)
         end);
      if STATUS_FAILED st then Ok (st, ht, next)
      else if negb complete && negb (next =? u16 (ending + 1)) then deletionLoop n sent ending ht next
      else Ok (STATUS_SUCCESS, ht, next)
  end.

Definition twccRollingWindowDeletion (m : option TwccManager) (p : option RtpPacket) (endingSeqNum : Z)
    : res (STATUS * TwccManager) :=
  match m, p with
  | Some m, Some p =>
      '(st, ht, seq) ← deletionLoop seqCount (sentTime p) endingSeqNum
                         (pTwccRtpPktInfosHashTable m) (firstSeqNumInRollingWindow m);
      let m := m <| pTwccRtpPktInfosHashTable := ht |> in
      if STATUS_FAILED st then Ok (st, m)
      else Ok (STATUS_SUCCESS, m <| firstSeqNumInRollingWindow := seq |>)
  | _, _ => Err STATUS_NULL_ARG
  end.

(** [bwe] tells whether onSenderBandwidthEstimation is set; [memInfo] and [memTable] are the
    outcomes of the allocations.  TWCC_SEQNUM reads behind the first extension byte. *)
Definition twccManagerOnPacketSent (bwe memInfo memTable : bool) (m : option TwccManager) (p : RtpPacket)
    : res (STATUS * option TwccManager) :=
  match bwe, m with
  | true, Some m =>
      if negb (extensionProfile (header p) =? TWCC_EXT_PROFILE) then Ok (STATUS_SUCCESS, Some m) else
      if negb memInfo then Ok (STATUS_NOT_ENOUGH_MEMORY, Some m) else
      let info := {| localTimeKvs := sentTime p; remoteTimeKvs := TWCC_PACKET_LOST_TIME;
                     packetSize := payloadLength p |} in
      s ← (match extensionPayload (header p) with
           | Some e => getUnalignedInt16Be (p_obj e) (p_off e + 1)
           | None => Fault
           end);
      let seqNum := u16 s in
      match hashTableUpsert memTable (Some (pTwccRtpPktInfosHashTable m)) seqNum (Some info) with
      | Fault => Fault
      | Err st => Ok (st, Some m)
      | Ok ht =>
          '(st, m) ← twccRollingWindowDeletion (Some (m <| pTwccRtpPktInfosHashTable := ht |>)) (Some p) seqNum;
          Ok (st, Some m)
      end
  | _, _ => Ok (STATUS_SUCCESS, m)
  end.

Definition twccManagerOnPacedPacketSent (bwe report memInfo memTable : bool) (m : option TwccManager)
    (twccSeqNum size sentTimeKvs : Z) : res (STATUS * option TwccManager) :=
  match bwe || report, m with
  | true, Some m =>
      if negb memInfo then Ok (STATUS_NOT_ENOUGH_MEMORY, Some m) else
      let info := {| localTimeKvs := sentTimeKvs; remoteTimeKvs := TWCC_PACKET_LOST_TIME; packetSize := size |} in
      match hashTableUpsert memTable (Some (pTwccRtpPktInfosHashTable m)) twccSeqNum (Some info) with
      | Fault => Fault
      | Err st => Ok (st, Some m)
      | Ok ht => Ok (STATUS_SUCCESS, Some (m <| pTwccRtpPktInfosHashTable := ht |>))
      end
  | _, _ => Ok (STATUS_SUCCESS, m)
  end.

(** ** parseRtcpTwccPacket *)

(** The variables of the second loop.  packetsRemaining is an INT32 between -8191 and 65535. *)
Record ParseState : Type := {
  ps_manager : TwccManager;
  packetSeqNum : Z;
  recvOffset : Z;
  referenceTime : Z;
  packetsRemaining : Z;
}.

(** Records the time of a packet, if the packet is known.  The key is present, so that
    the table does not grow. *)
Definition setRemoteTime (m : TwccManager) (seq time : Z) : res (STATUS * TwccManager) :=
  v ← tableGet (pTwccRtpPktInfosHashTable m) seq;
  match v with
  | Some (Some info) =>
      match hashTableUpsert true (Some (pTwccRtpPktInfosHashTable m)) seq
              (Some (info <| remoteTimeKvs := time |>)) with
      | Ok ht => Ok (STATUS_SUCCESS, m <| pTwccRtpPktInfosHashTable := ht |> <| lastReportedSeqNum := seq |>)
      | Err st => Ok (st, m)
      | Fault => Fault
      end
  | _ => Ok (STATUS_SUCCESS, m <| lastReportedSeqNum := seq |>)
  end.

(** The variables after an iteration, and when it fails. *)
Definition nextSymbol (s : ParseState) (m : TwccManager) (off ref : Z) : ParseState :=
  {| ps_manager := m; packetSeqNum := u16 (packetSeqNum s + 1); recvOffset := off; referenceTime := ref;
     packetsRemaining := packetsRemaining s - 1 |}.
Definition stopSymbol (s : ParseState) (m : TwccManager) (off ref : Z) : ParseState :=
  {| ps_manager := m; packetSeqNum := packetSeqNum s; recvOffset := off; referenceTime := ref;
     packetsRemaining := packetsRemaining s |}.

(** The end of an iteration, where recvDelta and recvOffset ([off]) are known. *)
Definition recordDelta (s : ParseState) (m : TwccManager) (recvDelta off : Z) : res (STATUS * ParseState) :=
  if recvDelta =? MIN_INT16 then Ok (STATUS_SUCCESS, nextSymbol s m off (referenceTime s)) else
  let ref := u64 (referenceTime s
                  + Z.quot (recvDelta * HUNDREDS_OF_NANOS_IN_A_SECOND) TWCC_TICKS_PER_SECOND) in
  '(st, m) ← setRemoteTime m (packetSeqNum s) ref;
  if STATUS_FAILED st then Ok (st, stopSymbol s m off ref) else Ok (STATUS_SUCCESS, nextSymbol s m off ref).

(** The body of the two inner loops: one status symbol. *)
Definition parseSymbol (payload : ptr) (statusSymbol : Z) (s : ParseState) : res (STATUS * ParseState) :=
  if statusSymbol =? TWCC_STATUS_SYMBOL_SMALLDELTA then
    d ← pld payload (recvOffset s);
    recordDelta s (ps_manager s) (i16 d) (recvOffset s +32 1)
  else if statusSymbol =? TWCC_STATUS_SYMBOL_LARGEDELTA then
    d ← getUnalignedInt16Be (p_obj payload) (p_off payload + recvOffset s);
    recordDelta s (ps_manager s) d (recvOffset s +32 2)
  else if statusSymbol =? TWCC_STATUS_SYMBOL_NOTRECEIVED then
    '(st, m) ← setRemoteTime (ps_manager s) (packetSeqNum s) TWCC_PACKET_LOST_TIME;
    if STATUS_FAILED st then Ok (st, stopSymbol s m (recvOffset s) (referenceTime s))
    else recordDelta s m MIN_INT16 (recvOffset s)
  else recordDelta s (ps_manager s) MIN_INT16 (recvOffset s).

(** The inner loops: [n] symbols from number [i]. *)
Fixpoint parseSymbols (payload : ptr) (symbol : Z -> Z) (n : nat) (i : Z) (s : ParseState)
    : res (STATUS * ParseState) :=
  match n with
  | O => Ok (STATUS_SUCCESS, s)
  | S n =>
      '(st, s) ← parseSymbol payload (symbol i) s;
      if STATUS_FAILED st then Ok (st, s) else parseSymbols payload symbol n (i + 1) s
  end.

(** The second loop.  It tests packetsRemaining only: a chunk with run length 0 makes it
    read on. *)
Fixpoint parseChunks (n : nat) (payload : ptr) (chunkOffset : Z) (s : ParseState)
    : res (STATUS * ParseState) :=
  if 0 <? packetsRemaining s then
    match n with
    | O => Fault
    | S n =>
        c ← getUnalignedInt16Be (p_obj payload) (p_off payload + chunkOffset);
        let packetChunk := u32 c in
        '(st, s) ←
          (if IS_TWCC_RUNLEN packetChunk then
             parseSymbols payload (fun _ => TWCC_RUNLEN_STATUS_SYMBOL packetChunk)
               (Z.to_nat (TWCC_RUNLEN_GET packetChunk)) 0 s
           else
             parseSymbols payload (TWCC_STATUSVECTOR_STATUS packetChunk)
               (Z.to_nat (Z.min (TWCC_STATUSVECTOR_COUNT packetChunk) (packetsRemaining s))) 0 s);
        if STATUS_FAILED st then Ok (st, s)
        else parseChunks n payload (chunkOffset +32 TWCC_FB_PACKETCHUNK_SIZE) s
    end
  else Ok (STATUS_SUCCESS, s).

(** The first loop: where the chunks end and the deltas begin. *)
Fixpoint chunksEnd (n : nat) (payload : ptr) (payloadLen remaining chunkOffset : Z) : res Z :=
  if (0 <? remaining) && (chunkOffset <? payloadLen) then
    match n with
    | O => Fault
    | S n =>
        c ← getUnalignedInt16Be (p_obj payload) (p_off payload + chunkOffset);
        let packetChunk := u32 c in
        let taken := if IS_TWCC_RUNLEN packetChunk then TWCC_RUNLEN_GET packetChunk
                     else Z.min (TWCC_STATUSVECTOR_COUNT packetChunk) remaining in
        chunksEnd n payload payloadLen (remaining - taken) (chunkOffset +32 TWCC_FB_PACKETCHUNK_SIZE)
    end
  else Ok chunkOffset.

(** Every iteration of a loop reads two bytes further on in the packet's memory object, so
    that the size of the object bounds the iterations. *)
Definition parseRtcpTwccPacket (p : option RtcpPacket) (m : option TwccManager) : res (STATUS * TwccManager) :=
  match p, m with
  | Some p, Some m =>
      match rtcpPayload p with
      | None => Fault
      | Some payload =>
          b ← getUnalignedInt16Be (p_obj payload) (p_off payload + 8);
          let baseSeqNum := u16 b in
          let m := m <| prevReportedBaseSeqNum := baseSeqNum |> in
          c ← getUnalignedInt16Be (p_obj payload) (p_off payload + 10);
          let packetStatusCount := u16 c in
          r2 ← pld payload 12; r1 ← pld payload 13; r0 ← pld payload 14;
          let ref := Z.lor (Z.lor (Z.shiftl r2 16) (Z.shiftl r1 8)) (Z.land r0 0xff) in
          let ref := KVS_CONVERT_TIMESCALE (ref * 64) MILLISECONDS_PER_SECOND HUNDREDS_OF_NANOS_IN_A_SECOND in
          let n := S (length (p_obj payload)) in
          off ← chunksEnd n payload (rtcpPayloadLength p) packetStatusCount 16;
          '(st, s) ← parseChunks n payload 16
            {| ps_manager := m; packetSeqNum := baseSeqNum; recvOffset := off; referenceTime := ref;
               packetsRemaining := packetStatusCount |};
          Ok (st, ps_manager s)
      end
  | _, _ => Err STATUS_NULL_ARG
  end.

(** ** updateTwccHashTable *)

(** The variables of the loop; localStartTimeKvs is indeterminate at first. *)
Record UpdateState : Type := {
  us_table : HashTable (option TwccRtpPacketInfo);
  localStartTimeKvs : option Z;
  localStartTimeRecorded : bool;
  us_duration : Z;
  us_receivedBytes : Z;
  us_receivedPackets : Z;
  us_sentBytes : Z;
  us_sentPackets : Z;
}.

(** The search for the start time; [seq - 1] is computed as an int and converted to the
    64-bit key. *)
Definition findStartTime (ht : HashTable (option TwccRtpPacketInfo)) (seq : Z) (start : option Z)
    : res (option Z * bool) :=
  prev ← (match hashTableGet (Some ht) (u64 (seq - 1)) with
          | Err STATUS_HASH_KEY_NOT_PRESENT => Ok (Some TWCC_PACKET_UNITIALIZED_TIME, false)
          | Ok (Some info) => Ok (Some (localTimeKvs info), true)
          | Ok None | Err _ => Ok (start, false)
          | Fault => Fault
          end);
  match prev with
  | (None, _) => Fault
  | (Some t, recorded) =>
      if t =? TWCC_PACKET_UNITIALIZED_TIME then
        v ← tableGet ht seq;
        match v with
        | Some (Some info) => Ok (Some (localTimeKvs info), true)
        | _ => Ok (Some t, recorded)
        end
      else Ok (Some t, recorded)
  end.

(** The body of the loop for sequence number [seq]. *)
Definition updateStep (seq : Z) (s : UpdateState) : res (STATUS * UpdateState) :=
  '(start, recorded) ←
    (if localStartTimeRecorded s then Ok (localStartTimeKvs s, true)
     else findStartTime (us_table s) seq (localStartTimeKvs s));
  let s := {| us_table := us_table s; localStartTimeKvs := start; localStartTimeRecorded := recorded;
              us_duration := us_duration s; us_receivedBytes := us_receivedBytes s;
              us_receivedPackets := us_receivedPackets s; us_sentBytes := us_sentBytes s;
              us_sentPackets := us_sentPackets s |} in
  v ← tableGet (us_table s) seq;
  match v with
  | None => Ok (STATUS_SUCCESS, s)
  | Some None =>
      match hashTableRemove (Some (us_table s)) seq with
      | Fault => Fault
      | Err st => Ok (st, s)
      | Ok ht =>
          Ok (STATUS_SUCCESS,
              {| us_table := ht; localStartTimeKvs := start; localStartTimeRecorded := recorded;
                 us_duration := us_duration s; us_receivedBytes := us_receivedBytes s;
                 us_receivedPackets := us_receivedPackets s; us_sentBytes := us_sentBytes s;
                 us_sentPackets := us_sentPackets s |})
      end
  | Some (Some info) =>
      match start with
      | None => Fault
      | Some start =>
          let received := negb (remoteTimeKvs info =? TWCC_PACKET_LOST_TIME) in
          ht ← (if received then
                  match hashTableRemove (Some (us_table s)) seq with
                  | Fault => Fault
                  | Err _ => Ok (us_table s)
                  | Ok ht => Ok ht
                  end
                else Ok (us_table s));
          Ok (STATUS_SUCCESS,
              {| us_table := ht; localStartTimeKvs := Some start; localStartTimeRecorded := recorded;
                 us_duration := i64 (localTimeKvs info - start);
                 us_receivedBytes := if received then u64 (us_receivedBytes s + packetSize info) else us_receivedBytes s;
                 us_receivedPackets := if received then u64 (us_receivedPackets s + 1) else us_receivedPackets s;
                 us_sentBytes := u64 (us_sentBytes s + packetSize info);
                 us_sentPackets := u64 (us_sentPackets s + 1) |})
      end
  end.

(** The loop while [seq] differs from [stop]. *)
Fixpoint updateLoop (n : nat) (stop seq : Z) (s : UpdateState) : res (STATUS * UpdateState) :=
  if seq =? stop then Ok (STATUS_SUCCESS, s) else
  match n with
  | O => Fault
  | S n =>
      '(st, s) ← updateStep seq s;
      if STATUS_FAILED st then Ok (st, s) else updateLoop n stop (u16 (seq + 1)) s
  end.

(** The out parameters are fields of the final state. *)
Definition updateTwccHashTable (m : TwccManager) : res (STATUS * UpdateState) :=
  updateLoop seqCount (u16 (lastReportedSeqNum m + 1)) (prevReportedBaseSeqNum m)
    {| us_table := pTwccRtpPktInfosHashTable m; localStartTimeKvs := None; localStartTimeRecorded := false;
       us_duration := 0; us_receivedBytes := 0; us_receivedPackets := 0; us_sentBytes := 0;
       us_sentPackets := 0 |}.

(** ** onRtcpTwccPacket *)

(** The calls of the application's callbacks. *)
Inductive TwccCall : Type :=
  | OnTwccPacketReport (reports : list TwccPacketReport)
  | OnSenderBandwidthEstimation (sentBytes receivedBytes sentPackets receivedPackets duration : Z).

Definition reportOf (seq : Z) (info : TwccRtpPacketInfo) : TwccPacketReport :=
  {| rep_seqNum := seq; rep_sendTimeKvs := localTimeKvs info; rep_arrivalTimeKvs := remoteTimeKvs info;
     rep_packetSize := packetSize info;
     rep_received := negb (remoteTimeKvs info =? TWCC_PACKET_LOST_TIME) |}.

(** The reports, at most [room] of them. *)
Fixpoint reportLoop (n : nat) (ht : HashTable (option TwccRtpPacketInfo)) (stop seq room : Z)
    : res (list TwccPacketReport) :=
  if seq =? stop then Ok [] else
  match n with
  | O => Fault
  | S n =>
      v ← tableGet ht seq;
      match v with
      | Some (Some info) =>
          if room <=? 0 then Fault else
          reps ← reportLoop n ht stop (u16 (seq + 1)) (room - 1);
          Ok (reportOf seq info :: reps)
      | _ => reportLoop n ht stop (u16 (seq + 1)) room
      end
  end.

(** [bwe] and [report] tell which callbacks are set, [mem] whether MEMCALLOC succeeds. *)
Definition onRtcpTwccPacket (bwe report mem : bool) (p : option RtcpPacket) (m : option TwccManager)
    : res (STATUS * option TwccManager * list TwccCall) :=
  match p, m with
  | None, _ => Err STATUS_NULL_ARG
  | Some _, None => Ok (STATUS_SUCCESS, None, [])
  | Some p, Some m =>
      if negb (bwe || report) then Ok (STATUS_SUCCESS, Some m, []) else
      '(st, m) ← parseRtcpTwccPacket (Some p) (Some m);
      if STATUS_FAILED st then Ok (st, Some m, []) else
      reports ←
        (if report then
           let maxReports := u16 (lastReportedSeqNum m - prevReportedBaseSeqNum m + 1) in
           if (0 <? maxReports) && mem then
             reportLoop seqCount (pTwccRtpPktInfosHashTable m)
               (u16 (lastReportedSeqNum m + 1)) (prevReportedBaseSeqNum m) maxReports
           else Ok []
         else Ok []);
      '(_, s) ← updateTwccHashTable m;
      Ok (STATUS_SUCCESS, Some (m <| pTwccRtpPktInfosHashTable := us_table s |>),
          (match reports with [] => [] | _ => [OnTwccPacketReport reports] end) ++
          (if bwe && (0 <? us_duration s)
           then [OnSenderBandwidthEstimation (us_sentBytes s) (us_receivedBytes s) (us_sentPackets s)
                   (us_receivedPackets s) (us_duration s)]
           else []))
  end.

(** ** The receiver's record of received packets *)

Definition createTwccReceiverManager (memObj memTable ppOk : bool) : res TwccReceiverManager :=
  CHK ppOk else STATUS_NULL_ARG ;;
  CHK memObj else STATUS_NOT_ENOUGH_MEMORY ;;
  ht ← hashTableCreateWithParams memTable TWCC_RECEIVER_HASH_BUCKET_COUNT TWCC_RECEIVER_HASH_BUCKET_LENGTH;
  Ok {| pReceivedPktsHashTable := ht; firstSeqNum := 0; lastSeqNum := 0; firstPacketReceived := false;
        feedbackPacketCount := 0; mediaSourceSsrc := 0; baseTimeKvs := 0 |}.

(** The address of the data of an extension element in the one-byte format. *)
Fixpoint findOneByteExtension (n : nat) (pExtPayload : ptr) (extLength targetId offset : Z) : res (option ptr) :=
  if offset <? extLength then
    match n with
    | O => Fault
    | S n =>
        byte ← pld pExtPayload offset;
        if byte =? 0 then findOneByteExtension n pExtPayload extLength targetId (offset +32 1) else
        let id := Z.land (Z.shiftr byte 4) 0x0F in
        let len := Z.land byte 0x0F + 1 in
        if id =? 15 then Ok None
        else if id =? targetId then Ok (Some (padd pExtPayload (offset + 1)))
        else findOneByteExtension n pExtPayload extLength targetId (offset +32 (1 + len))
    end
  else Ok None.

(** The update of the window, with 16-bit serial number comparisons. *)
Definition trackSequence (m : TwccReceiverManager) (twccSeqNum : Z) : TwccReceiverManager :=
  if negb (firstPacketReceived m) then
    m <| firstSeqNum := twccSeqNum |> <| lastSeqNum := twccSeqNum |> <| firstPacketReceived := true |>
  else
    let diffFromFirst := i16 (twccSeqNum - firstSeqNum m) in
    let diffFromLast := i16 (twccSeqNum - lastSeqNum m) in
    let m := if diffFromFirst <? 0 then m <| firstSeqNum := twccSeqNum |> else m in
    if 0 <? diffFromLast then m <| lastSeqNum := twccSeqNum |> else m.

Definition twccReceiverOnPacketReceived (memInfo memTable : bool) (twccExtId : Z)
    (m : option TwccReceiverManager) (p : RtpPacket) : res (STATUS * option TwccReceiverManager) :=
  if negb (extension (header p) && (extensionProfile (header p) =? TWCC_EXT_PROFILE))
  then Ok (STATUS_SUCCESS, m) else
  match extensionPayload (header p), m with
  | Some ext, Some m =>
      e ← findOneByteExtension (S (length (p_obj ext))) ext (extensionLength (header p)) (u8 twccExtId) 0;
      match e with
      | None => Ok (STATUS_SUCCESS, Some m)
      | Some e =>
          s ← getUnalignedInt16Be (p_obj e) (p_off e);
          let twccSeqNum := u16 s in
          known ← tableGet (pReceivedPktsHashTable m) twccSeqNum;
          match known with
          | Some _ => Ok (STATUS_SUCCESS, Some m)
          | None =>
              if negb memInfo then Ok (STATUS_NOT_ENOUGH_MEMORY, Some m) else
              let m := if baseTimeKvs m =? 0 then m <| baseTimeKvs := receivedTime p |> else m in
              let info := {| arrivalTimeKvs := u64 (receivedTime p - baseTimeKvs m) |} in
              match hashTablePut memTable (Some (pReceivedPktsHashTable m)) twccSeqNum info with
              | Fault => Fault
              | Err st => Ok (st, Some m)
              | Ok ht =>
                  let m := m <| pReceivedPktsHashTable := ht |> in
                  let m := trackSequence m twccSeqNum in
                  Ok (STATUS_SUCCESS, Some (m <| mediaSourceSsrc := ssrc (header p) |>))
              end
          end
      end
  | _, _ => Ok (STATUS_SUCCESS, m)
  end.

(** The table's objects, then the table, then the manager: the result lists the objects. *)
Definition twccReceiverFreeHashEntry (freed : list TwccReceivedPacketInfo) (e : Z * TwccReceivedPacketInfo)
    : STATUS * list TwccReceivedPacketInfo :=
  (STATUS_SUCCESS, freed ++ [e.2]).

Definition freeTwccReceiverManager (pp : option (option TwccReceiverManager))
    : res (STATUS * list TwccReceivedPacketInfo) :=
  match pp with
  | None => Err STATUS_NULL_ARG
  | Some None => Ok (STATUS_SUCCESS, [])
  | Some (Some m) =>
      '(_, freed) ← hashTableIterateEntries (Some (pReceivedPktsHashTable m)) twccReceiverFreeHashEntry [];
      Ok (STATUS_SUCCESS, freed)
  end.

(** ** sendRtcpTwccFeedback *)

(** The status symbol and the INT32 stored through [pDeltaTicks]. *)
Definition getTwccPacketStatus (arrival reference : Z) : Z * Z :=
  let deltaKvs := i64 arrival - i64 reference in
  let deltaTicks := Z.quot deltaKvs 2500 in
  (if (0 <=? deltaTicks) && (deltaTicks <=? 255) then TWCC_STATUS_SYMBOL_SMALLDELTA
   else if (- 32768 <=? deltaTicks) && (deltaTicks <=? 32767) then TWCC_STATUS_SYMBOL_LARGEDELTA
   else TWCC_STATUS_SYMBOL_NOTRECEIVED,
   i32 deltaTicks).

(** The first loop: the arrival time of the first of [n] packets from [seq] on. *)
Fixpoint firstArrival (n : nat) (ht : HashTable TwccReceivedPacketInfo) (seq : Z) : res (option Z) :=
  match n with
  | O => Ok None
  | S n =>
      v ← tableGet ht seq;
      match v with
      | Some info => Ok (Some (arrivalTimeKvs info))
      | None => firstArrival n ht (u16 (seq + 1))
      end
  end.

(** The second loop: the elements of pStatuses and pDeltas, as pairs. *)
Fixpoint statusLoop (n : nat) (ht : HashTable TwccReceivedPacketInfo) (seq lastArrivalTimeKvs : Z)
    : res (list (Z * Z)) :=
  match n with
  | O => Ok []
  | S n =>
      v ← tableGet ht seq;
      match v with
      | Some info =>
          l ← statusLoop n ht (u16 (seq + 1)) (arrivalTimeKvs info);
          Ok (getTwccPacketStatus (arrivalTimeKvs info) lastArrivalTimeKvs :: l)
      | None =>
          l ← statusLoop n ht (u16 (seq + 1)) lastArrivalTimeKvs;
          Ok ((TWCC_STATUS_SYMBOL_NOTRECEIVED, 0) :: l)
      end
  end.

(** The bytes a delta takes. *)
Definition deltaSize (status : Z) : Z :=
  if status =? TWCC_STATUS_SYMBOL_SMALLDELTA then 1
  else if status =? TWCC_STATUS_SYMBOL_LARGEDELTA then 2 else 0.

(** [trailer] is libsrtp's SRTP_MAX_TRAILER_LEN. *)
Definition feedbackAllocSize (trailer count : Z) (reports : list (Z * Z)) : Z :=
  let size := 20 + (count + 6) / 7 * 2 in
  let size := fold_left (fun size r => size + deltaSize r.1) reports size in
  let size := Z.land (size + 3) (Z.lnot 3) in
  size + SRTP_AUTH_TAG_OVERHEAD + trailer + 4.

(** How many of the next statuses continue a run of [n]. *)
Fixpoint runLength (status : Z) (n : Z) (l : list (Z * Z)) : Z :=
  match l with
  | [] => n
  | r :: l => if (r.1 =? status) && (n <? TWCC_MAX_PACKET_STATUS_COUNT) then runLength status (n + 1) l else n
  end.

(** The chunks of the statuses from [i] on, [l]; ends with the buffer and chunkOffset. *)
Fixpoint chunkLoop (n : nat) (l : list (Z * Z)) (buf : list Z) (chunkOffset : Z) : res (list Z * Z) :=
  match l with
  | [] => Ok (buf, chunkOffset)
  | r :: rest =>
      match n with
      | O => Fault
      | S n =>
          let run := runLength r.1 1 rest in
          buf ← putUnalignedInt16Be buf chunkOffset (i16 (TWCC_MAKE_RUNLEN r.1 run));
          chunkLoop n (drop (Z.to_nat run) l) buf (chunkOffset + 2)
      end
  end.

Fixpoint deltaLoop (l : list (Z * Z)) (buf : list Z) (deltaOffset : Z) : res (list Z * Z) :=
  match l with
  | [] => Ok (buf, deltaOffset)
  | r :: l =>
      if r.1 =? TWCC_STATUS_SYMBOL_SMALLDELTA then
        buf ← put8 buf deltaOffset r.2;
        deltaLoop l buf (deltaOffset + 1)
      else if r.1 =? TWCC_STATUS_SYMBOL_LARGEDELTA then
        buf ← putUnalignedInt16Be buf deltaOffset (i16 r.2);
        deltaLoop l buf (deltaOffset + 2)
      else deltaLoop l buf deltaOffset
  end.

(** Padding to a 32-bit boundary: at most three bytes. *)
Fixpoint padLoop (n : nat) (buf : list Z) (off : Z) : res (list Z * Z) :=
  if off mod 4 =? 0 then Ok (buf, off) else
  match n with
  | O => Fault
  | S n => buf ← put8 buf off 0; padLoop n buf (off + 1)
  end.

(** The processed packets leave the table. *)
Fixpoint clearLoop (n : nat) (ht : HashTable TwccReceivedPacketInfo) (seq : Z)
    : res (HashTable TwccReceivedPacketInfo) :=
  match n with
  | O => Ok ht
  | S n =>
      v ← tableGet ht seq;
      ht ← (match v with
            | Some _ => match hashTableRemove (Some ht) seq with
                        | Ok ht => Ok ht | Err _ => Ok ht | Fault => Fault end
            | None => Ok ht
            end);
      clearLoop n ht (u16 (seq + 1))
  end.

(** The packet with its header: [senderSsrc] is the low half of the connection's address. *)
Definition feedbackPacket (allocSize senderSsrc ssrc baseSeqNum count referenceTime24 fbCount : Z)
    (reports : list (Z * Z)) : res (list Z * Z) :=
  let buf := replicate (Z.to_nat allocSize) 0 in
  buf ← put8 buf 0 (Z.lor (Z.shiftl RTCP_PACKET_VERSION_VAL 6) RTCP_FEEDBACK_MESSAGE_TYPE_TWCC);
  buf ← put8 buf 1 RTCP_PACKET_TYPE_GENERIC_RTP_FEEDBACK;
  buf ← putUnalignedInt32Be buf 4 (i32 senderSsrc);
  buf ← putUnalignedInt32Be buf 8 (i32 ssrc);
  buf ← putUnalignedInt16Be buf 12 (i16 baseSeqNum);
  buf ← putUnalignedInt16Be buf 14 (i16 count);
  buf ← put8 buf 16 (Z.land (Z.shiftr referenceTime24 16) 0xFF);
  buf ← put8 buf 17 (Z.land (Z.shiftr referenceTime24 8) 0xFF);
  buf ← put8 buf 18 (Z.land referenceTime24 0xFF);
  buf ← put8 buf 19 fbCount;
  '(buf, off) ← chunkLoop (length reports) reports buf 20;
  '(buf, off) ← deltaLoop reports buf off;
  '(buf, off) ← padLoop 3 buf off;
  buf ← putUnalignedInt16Be buf 2 (i16 (off / 4 - 1));
  Ok (buf, off).

(** The part of sendRtcpTwccFeedback under twccReceiverLock: the manager afterwards and the
    packet to send with its length, if there is one.  [memArrays] and [memPacket] are the
    outcomes of the allocations. *)
Definition buildTwccFeedback (trailer senderSsrc : Z) (memArrays memPacket : bool) (m : TwccReceiverManager)
    : res (STATUS * TwccReceiverManager * option (list Z * Z)) :=
  if negb (firstPacketReceived m) then Ok (STATUS_SUCCESS, m, None) else
  let baseSeqNum := firstSeqNum m in
  let count := u16 (lastSeqNum m - firstSeqNum m + 1) in
  let count := if TWCC_MAX_PACKET_STATUS_COUNT <? count then TWCC_MAX_PACKET_STATUS_COUNT else count in
  if negb memArrays then Ok (STATUS_NOT_ENOUGH_MEMORY, m, None) else
  first ← firstArrival (Z.to_nat count) (pReceivedPktsHashTable m) baseSeqNum;
  match first with
  | None => Ok (STATUS_SUCCESS, m, None)
  | Some referenceTimeKvs =>
      let currentTime := u32 (referenceTimeKvs / HUNDREDS_OF_NANOS_IN_A_MILLISECOND) in
      let referenceTime24 := Z.land (currentTime / TWCC_REFERENCE_TIME_DIVISOR) 0xFFFFFF in
      let lastArrivalTimeKvs :=
        u64 (currentTime / TWCC_REFERENCE_TIME_DIVISOR * TWCC_REFERENCE_TIME_DIVISOR
             * HUNDREDS_OF_NANOS_IN_A_MILLISECOND) in
      reports ← statusLoop (Z.to_nat count) (pReceivedPktsHashTable m) baseSeqNum lastArrivalTimeKvs;
      if negb memPacket then Ok (STATUS_NOT_ENOUGH_MEMORY, m, None) else
      '(buf, len) ← feedbackPacket (feedbackAllocSize trailer count reports) senderSsrc (mediaSourceSsrc m)
                      baseSeqNum count referenceTime24 (feedbackPacketCount m) reports;
      ht ← clearLoop (Z.to_nat count) (pReceivedPktsHashTable m) baseSeqNum;
      Ok (STATUS_SUCCESS,
          m <| pReceivedPktsHashTable := ht |> <| feedbackPacketCount := u8 (feedbackPacketCount m + 1) |>
            <| firstPacketReceived := false |> <| firstSeqNum := 0 |> <| lastSeqNum := 0 |>,
          Some (buf, len))
  end.

(** [encrypt] is encryptRtcpPacket of libsrtp's session: status, buffer and length;
    [iceSend] is the transport.  The result also has the bytes handed to the transport. *)
Definition sendRtcpTwccFeedback (encrypt : list Z -> Z -> STATUS * list Z * Z) (iceSend : list Z -> STATUS)
    (trailer senderSsrc : Z) (memArrays memPacket hasSrtpSession : bool) (m : option TwccReceiverManager)
    : res (STATUS * option TwccReceiverManager * option (list Z)) :=
  match hasSrtpSession, m with
  | true, Some m =>
      '(st, m, packet) ← buildTwccFeedback trailer senderSsrc memArrays memPacket m;
      match packet with
      | None => Ok (st, Some m, None)
      | Some (buf, len) =>
          let '(st, buf, len) := encrypt buf len in
          if STATUS_FAILED st then Ok (st, Some m, None) else
          bs ← ld_bytes buf 0 len;
          Ok (iceSend bs, Some m, Some bs)
      end
  | _, _ => Ok (STATUS_SUCCESS, m, None)
  end.
