(* ===== verification/TwccFeedback.v ===== *)
(** * The transport-wide feedback round trip (src/source/PeerConnection/Rtcp.c, PeerConnection.c)

    The theorems on [Twcc]: the receiver's feedback packet is decoded by the sender's parser
    into the arrival times it stands for, the statistics and the records passed to the
    application are those of the reported window, the rolling window of sent packets ends
    and forgets old packets only, and where the encoder and the parser leave their buffers.
    The hash tables are used through the maps they represent. *)

From stdpp Require Import fin_maps gmap.
From S2P Require Import Prelude Endian RtpPacket HashTable RtcpPacket FramePath Twcc.

(** ** Tables with 16-bit keys as maps *)

Record table_is {V} (ht : HashTable V) (m : gmap Z V) : Prop := {
  ti_ok : ht_ok ht;
  ti_roomy : roomy ht;
  ti_keys : keys16 ht;
  ti_map : ht_map ht = m;
}.

Section Tables.
Context {V : Type}.
Implicit Types (ht : HashTable V) (m : gmap Z V).

Lemma tableGet_is ht m k : table_is ht m -> tableGet ht k = Ok (m !! k).
Proof.
  intros [Hok _ _ <-]. unfold tableGet. rewrite hashTableGet_spec by done. by destruct (ht_map ht !! k).
Qed.

Lemma upsert_is ht m k v :
  table_is ht m -> is_u16 k ->
  exists ht', hashTableUpsert true (Some ht) k v = Ok ht' /\ table_is ht' (<[k := v]> m).
Proof.
  intros [Hok Hr Hk <-] Hu. destruct (hashTableUpsert_spec ht k v Hok Hr) as (ht' & E & Hok' & Em & Hr').
  exists ht'. split; [done|]. split; [done|by apply Hr'| |done].
  intros j. rewrite Em. destruct (decide (j = k)) as [->|Hne]; [done|]. rewrite lookup_insert_ne by done. apply Hk.
Qed.

Lemma put_is ht m k v :
  table_is ht m -> is_u16 k -> m !! k = None ->
  exists ht', hashTablePut true (Some ht) k v = Ok ht' /\ table_is ht' (<[k := v]> m).
Proof.
  intros Hti Hu Hn. unfold hashTablePut. rewrite hashTableContains_spec by apply Hti.
  rewrite (ti_map _ _ Hti), Hn. cbn [mbind res_bind]. rewrite bool_decide_false by (intros [? ?]; congruence).
  by apply upsert_is.
Qed.

Lemma remove_is ht m k :
  table_is ht m -> is_Some (m !! k) ->
  exists ht', hashTableRemove (Some ht) k = Ok ht' /\ table_is ht' (delete k m).
Proof.
  intros [Hok Hr Hk <-] [v Hv]. pose proof (hashTableRemove_spec ht k Hok) as H. rewrite Hv in H.
  destruct H as (ht' & E & Hok' & Em & Hr'). exists ht'. split; [done|]. split; [done|by apply Hr'| |done].
  intros j. rewrite Em. intros [x Hx]. apply lookup_delete_Some in Hx as [_ Hx]. apply Hk. by exists x.
Qed.
End Tables.

(** The sender's table represents the sent packets: no entry is NULL. *)
Definition sent_is (g : TwccManager) (m : gmap Z TwccRtpPacketInfo) : Prop :=
  table_is (pTwccRtpPktInfosHashTable g) (Some <$> m).

Definition with_time (t : Z) (i : TwccRtpPacketInfo) : TwccRtpPacketInfo := i <| remoteTimeKvs := t |>.

(** What the parser leaves of the manager besides the table and lastReportedSeqNum. *)
Definition window_of (g : TwccManager) : Z * Z := (firstSeqNumInRollingWindow g, prevReportedBaseSeqNum g).

Lemma setRemoteTime_spec g m seq t :
  sent_is g m -> is_u16 seq ->
  exists g', setRemoteTime g seq t = Ok (STATUS_SUCCESS, g') /\ sent_is g' (alter (with_time t) seq m) /\
    lastReportedSeqNum g' = seq /\ window_of g' = window_of g.
Proof.
  intros Hs Hu. unfold setRemoteTime. rewrite (tableGet_is _ _ _ Hs). cbn [mbind res_bind].
  rewrite lookup_fmap. destruct (m !! seq) as [info|] eqn:E; cbn [fmap option_fmap option_map].
  - destruct (upsert_is _ _ seq (Some (info <| remoteTimeKvs := t |>)) Hs Hu) as (ht' & -> & Ht').
    eexists. split; [done|]. split; [|done]. unfold sent_is. cbn.
    by rewrite (alter_alt_Some _ _ _ _ E), fmap_insert.
  - eexists. split; [done|]. split; [|done]. unfold sent_is. cbn. by rewrite alter_alt, E.
Qed.

(** ** Decoding *)

(** A run of bytes of a memory object. *)
Definition bytes_at (obj : list Z) (o : Z) (bs : list Z) : Prop :=
  exists pre suf, obj = pre ++ bs ++ suf /\ o = blen pre.

Lemma bytes_at_app obj o a b : bytes_at obj o (a ++ b) -> bytes_at obj o a /\ bytes_at obj (o + blen a) b.
Proof.
  intros (pre & suf & -> & ->). split.
  - exists pre, (b ++ suf). by rewrite <- (assoc_L (++)).
  - exists (pre ++ a), suf. split; [by rewrite <- !(assoc_L (++))|by rewrite blen_app].
Qed.

Lemma bytes_at_ld obj o x bs : bytes_at obj o (x :: bs) -> ld obj o = Ok x.
Proof.
  intros (pre & suf & -> & ->). rewrite ld_app_r by lia. rewrite Z.sub_diag. apply ld_cons_0.
Qed.

Lemma bytes_at_get16 obj o v : bytes_at obj o (be16 v) -> getUnalignedInt16Be obj o = Ok (i16 v).
Proof.
  #[local] Transparent be16.
  intros H. assert (H' : bytes_at obj o ([u8 (Z.shiftr v 8)] ++ [u8 v])) by exact H.
  apply bytes_at_app in H' as [H0 H1]. change (blen [u8 (Z.shiftr v 8)]) with 1 in H1. unfold getUnalignedInt16Be.
  rewrite (bytes_at_ld _ _ _ _ H0), (bytes_at_ld _ _ _ _ H1). cbn [mbind res_bind].
  rewrite MAKE_INT16_val, Z.shiftr_div_pow2 by (auto with width || lia). f_equal. width_lia.
Qed.
#[local] Opaque be16.

(** A report is a status symbol with its delta in ticks.  The parser takes a delta of
    -32768 for "no delta". *)
Definition report_ok (r : Z * Z) : Prop :=
  r.1 = TWCC_STATUS_SYMBOL_NOTRECEIVED \/
  r.1 = TWCC_STATUS_SYMBOL_SMALLDELTA /\ 0 <= r.2 <= 255 \/
  r.1 = TWCC_STATUS_SYMBOL_LARGEDELTA /\ - 32768 < r.2 <= 32767.

Definition delta_bytes (r : Z * Z) : list Z :=
  if r.1 =? TWCC_STATUS_SYMBOL_SMALLDELTA then [u8 r.2]
  else if r.1 =? TWCC_STATUS_SYMBOL_LARGEDELTA then be16 r.2 else [].
Definition deltas_bytes (l : list (Z * Z)) : list Z := concat (map delta_bytes l).

(** The times the reports stand for, from reference time [ref] on: [None] for a packet
    that was not received. *)
Fixpoint report_times (ref : Z) (l : list (Z * Z)) : list (option Z) :=
  match l with
  | [] => []
  | r :: l =>
      if r.1 =? TWCC_STATUS_SYMBOL_NOTRECEIVED then None :: report_times ref l
      else let ref := u64 (ref + 2500 * r.2) in Some ref :: report_times ref l
  end.

(** The reference time after the reports. *)
Fixpoint report_end (ref : Z) (l : list (Z * Z)) : Z :=
  match l with
  | [] => ref
  | r :: l =>
      if r.1 =? TWCC_STATUS_SYMBOL_NOTRECEIVED then report_end ref l else report_end (u64 (ref + 2500 * r.2)) l
  end.

(** The sent packets with the times recorded, from sequence number [seq] on. *)
Fixpoint record_times (seq : Z) (ts : list (option Z)) (m : gmap Z TwccRtpPacketInfo) : gmap Z TwccRtpPacketInfo :=
  match ts with
  | [] => m
  | t :: ts => record_times (u16 (seq + 1)) ts (alter (with_time (default TWCC_PACKET_LOST_TIME t)) seq m)
  end.

Lemma ticks_quot d : Z.quot (d * HUNDREDS_OF_NANOS_IN_A_SECOND) TWCC_TICKS_PER_SECOND = 2500 * d.
Proof.
  unfold HUNDREDS_OF_NANOS_IN_A_SECOND, TWCC_TICKS_PER_SECOND.
  replace (d * 10000000) with (2500 * d * 4000) by lia. apply Z.quot_mul. lia.
Qed.

(** What a symbol does to the parser's variables. *)
Record parsed_to (s : ParseState) (m : gmap Z TwccRtpPacketInfo) (l : list (Z * Z)) (s' : ParseState) : Prop := {
  pt_sent : sent_is (ps_manager s') (record_times (packetSeqNum s) (report_times (referenceTime s) l) m);
  pt_seq : packetSeqNum s' = u16 (packetSeqNum s + Z.of_nat (length l));
  pt_off : recvOffset s' = recvOffset s + blen (deltas_bytes l);
  pt_ref : referenceTime s' = report_end (referenceTime s) l;
  pt_rem : packetsRemaining s' = packetsRemaining s - Z.of_nat (length l);
  pt_window : window_of (ps_manager s') = window_of (ps_manager s);
  pt_last : lastReportedSeqNum (ps_manager s') =
    match l with
    | [] => lastReportedSeqNum (ps_manager s)
    | _ => u16 (packetSeqNum s + Z.of_nat (length l) - 1)
    end;
}.

(** The state after a symbol. *)
Definition after_symbol (s : ParseState) (g : TwccManager) (r : Z * Z) : ParseState :=
  {| ps_manager := g; packetSeqNum := u16 (packetSeqNum s + 1);
     recvOffset := recvOffset s + blen (delta_bytes r); referenceTime := report_end (referenceTime s) [r];
     packetsRemaining := packetsRemaining s - 1 |}.

Lemma parsed_one s m r g :
  sent_is g (record_times (packetSeqNum s) (report_times (referenceTime s) [r]) m) -> is_u16 (packetSeqNum s) ->
  lastReportedSeqNum g = packetSeqNum s -> window_of g = window_of (ps_manager s) ->
  parsed_to s m [r] (after_symbol s g r).
Proof.
  intros Hs Hu Hl Hw. split; try done.
  - cbn [after_symbol recvOffset]. unfold deltas_bytes. cbn. by rewrite app_nil_r.
  - cbn -[Z.of_nat]. rewrite Hl. rewrite u16_id; [lia|].
    by replace (packetSeqNum s + Z.of_nat 1 - 1) with (packetSeqNum s) by lia.
Qed.

Lemma recordDelta_spec s m sym d off :
  report_ok (sym, d) -> sym <> TWCC_STATUS_SYMBOL_NOTRECEIVED ->
  sent_is (ps_manager s) m -> is_u16 (packetSeqNum s) -> off = recvOffset s + blen (delta_bytes (sym, d)) ->
  exists s', recordDelta s (ps_manager s) d off = Ok (STATUS_SUCCESS, s') /\ parsed_to s m [(sym, d)] s'.
Proof.
  intros Hr Hne Hs Hu ->. unfold recordDelta. rewrite ticks_quot.
  assert (Hd : (d =? MIN_INT16) = false) by (apply Z.eqb_neq; unfold MIN_INT16; destruct Hr as [|[[_ ?]|[_ ?]]]; [done|cbn in *; lia..]).
  rewrite Hd.
  destruct (setRemoteTime_spec (ps_manager s) m (packetSeqNum s) (u64 (referenceTime s + 2500 * d)) Hs Hu)
    as (g' & -> & Hg & Hl & Hw). cbn [mbind res_bind].
  exists (after_symbol s g' (sym, d)). apply Z.eqb_neq in Hne. split.
  - unfold after_symbol. cbn [report_end fst snd]. by rewrite Hne.
  - apply parsed_one; [|done..]. cbn [report_times fst snd]. by rewrite Hne.
Qed.

Lemma parseSymbol_spec obj off r s m :
  report_ok r -> bytes_at obj (off + recvOffset s) (delta_bytes r) ->
  sent_is (ps_manager s) m -> is_u16 (packetSeqNum s) -> 0 <= recvOffset s -> recvOffset s + 2 < 2 ^ 32 ->
  exists s', parseSymbol (Ptr obj off) r.1 s = Ok (STATUS_SUCCESS, s') /\ parsed_to s m [r] s'.
Proof.
  destruct r as [sym d]. intros Hr Hat Hs Hu H0 H1. pose proof Hr as Hr'.
  destruct Hr as [E|[[E Hd]|[E Hd]]]; cbn [fst snd] in *; subst sym; unfold parseSymbol.
  - destruct (setRemoteTime_spec (ps_manager s) m (packetSeqNum s) TWCC_PACKET_LOST_TIME Hs Hu)
      as (g' & E & Hg & Hl & Hw). cbn -[setRemoteTime]. rewrite E. cbn.
    exists (after_symbol s g' (TWCC_STATUS_SYMBOL_NOTRECEIVED, d)). split; [|by apply parsed_one].
    unfold after_symbol. cbn. by rewrite Z.add_0_r.
  - cbn in Hat. unfold pld. cbn [p_obj p_off]. rewrite (bytes_at_ld _ _ _ _ Hat).
    rewrite (u8_id d) by (unfold is_u8; lia). rewrite Z.eqb_refl. cbn [mbind res_bind].
    replace (i16 d) with d by width_lia.
    apply recordDelta_spec; [done..|]. rewrite u32_id by (unfold is_u32; lia). done.
  - cbn in Hat. cbn [p_obj p_off]. rewrite (bytes_at_get16 _ _ _ Hat). cbn [Z.eqb TWCC_STATUS_SYMBOL_SMALLDELTA
      TWCC_STATUS_SYMBOL_LARGEDELTA Pos.eqb mbind res_bind]. replace (i16 d) with d by width_lia.
    apply recordDelta_spec; [done..|]. rewrite u32_id by (unfold is_u32; lia). done.
Qed.

Lemma record_times_app seq a b m :
  is_u16 seq ->
  record_times seq (a ++ b) m = record_times (u16 (seq + Z.of_nat (length a))) b (record_times seq a m).
Proof.
  revert seq m. induction a as [|t a IH]; intros seq m Hu; cbn [app record_times length].
  - by rewrite Z.add_0_r, u16_id.
  - rewrite IH by auto with width. rewrite u16_plus. do 2 f_equal. lia.
Qed.

Lemma report_times_app ref a b :
  report_times ref (a ++ b) = report_times ref a ++ report_times (report_end ref a) b.
Proof.
  revert ref. induction a as [|r a IH]; intros ref; cbn; [done|].
  destruct (_ =? _); cbn; by rewrite IH.
Qed.

Lemma report_end_app ref a b : report_end ref (a ++ b) = report_end (report_end ref a) b.
Proof. revert ref. induction a as [|r a IH]; intros ref; cbn; [done|]. by destruct (_ =? _). Qed.

Lemma length_report_times ref l : length (report_times ref l) = length l.
Proof. revert ref. induction l as [|r l IH]; intros ref; cbn; [done|]. destruct (_ =? _); cbn; by rewrite IH. Qed.

Lemma deltas_bytes_app a b : deltas_bytes (a ++ b) = deltas_bytes a ++ deltas_bytes b.
Proof. unfold deltas_bytes. by rewrite map_app, concat_app. Qed.

Lemma parsed_nil s m : sent_is (ps_manager s) m -> is_u16 (packetSeqNum s) -> parsed_to s m [] s.
Proof. intros Hs Hu. split; cbn; rewrite ?blen_nil, ?Z.add_0_r, ?Z.sub_0_r; try done. by rewrite u16_id. Qed.

Lemma parsed_trans s m a s1 b s2 :
  is_u16 (packetSeqNum s) -> parsed_to s m a s1 ->
  parsed_to s1 (record_times (packetSeqNum s) (report_times (referenceTime s) a) m) b s2 ->
  parsed_to s m (a ++ b) s2.
Proof.
  intros Hu [] []. split.
  - rewrite report_times_app, record_times_app, length_report_times by done.
    by rewrite <- pt_ref0, <- pt_seq0.
  - rewrite pt_seq1, pt_seq0, u16_plus, length_app. f_equal. lia.
  - rewrite deltas_bytes_app, blen_app. lia.
  - by rewrite report_end_app, <- pt_ref0.
  - rewrite length_app. lia.
  - by rewrite pt_window1.
  - rewrite pt_last1. destruct b as [|r b]; [by rewrite app_nil_r|]. rewrite pt_seq0, length_app.
    replace (u16 (packetSeqNum s + Z.of_nat (length a)) + Z.of_nat (length (r :: b)) - 1)
      with (u16 (packetSeqNum s + Z.of_nat (length a)) + (Z.of_nat (length (r :: b)) - 1)) by lia.
    rewrite u16_plus. destruct (a ++ r :: b) eqn:E; [by destruct a|]. f_equal. lia.
Qed.

Lemma parseSymbols_spec obj off sym l i s m :
  Forall report_ok l -> Forall (fun r => r.1 = sym) l ->
  bytes_at obj (off + recvOffset s) (deltas_bytes l) ->
  sent_is (ps_manager s) m -> is_u16 (packetSeqNum s) -> 0 <= recvOffset s ->
  recvOffset s + blen (deltas_bytes l) + 2 < 2 ^ 32 ->
  exists s', parseSymbols (Ptr obj off) (fun _ => sym) (length l) i s = Ok (STATUS_SUCCESS, s') /\
    parsed_to s m l s'.
Proof.
  intros Hl. revert i s m. induction Hl as [|r l Hr Hl IH]; intros i s m Hsym Hat Hs Hu H0 H1.
  { exists s. split; [done|]. by apply parsed_nil. }
  inversion Hsym as [|?? Esym Hsym']. subst. cbn [length parseSymbols].
  change (deltas_bytes (r :: l)) with (delta_bytes r ++ deltas_bytes l) in *. rewrite blen_app in H1.
  pose proof (blen_nonneg (delta_bytes r)). pose proof (blen_nonneg (deltas_bytes l)).
  apply bytes_at_app in Hat as [Ha1 Ha2].
  destruct (parseSymbol_spec obj off r s m Hr Ha1 Hs Hu H0 ltac:(lia)) as (s1 & -> & P1).
  cbn [mbind res_bind STATUS_FAILED]. pose proof (pt_off _ _ _ _ P1) as Eo. 
  change (deltas_bytes [r]) with (delta_bytes r ++ []) in Eo. rewrite app_nil_r in Eo.
  destruct (IH (i + 1) s1 (record_times (packetSeqNum s) (report_times (referenceTime s) [r]) m)) as (s2 & E2 & P2).
  - exact Hsym'.
  - rewrite Eo. by rewrite Z.add_assoc.
  - apply P1.
  - rewrite (pt_seq _ _ _ _ P1). auto with width.
  - lia.
  - lia.
  - exists s2. split; [exact E2|]. exact (parsed_trans _ _ [r] _ _ _ Hu P1 P2).
Qed.

(** The runs of equal symbols that the chunks stand for, in at most [n] chunks. *)
Fixpoint runs (n : nat) (l : list (Z * Z)) : list (list (Z * Z)) :=
  match n, l with
  | S n, r :: rest =>
      let k := Z.to_nat (runLength r.1 1 rest) in take k l :: runs n (drop k l)
  | _, _ => []
  end.

Definition seg_symbol (seg : list (Z * Z)) : Z := match seg with r :: _ => r.1 | [] => 0 end.
Definition chunk_word (seg : list (Z * Z)) : Z := TWCC_MAKE_RUNLEN (seg_symbol seg) (Z.of_nat (length seg)).
Definition chunks_bytes (segs : list (list (Z * Z))) : list Z := concat (map (fun seg => be16 (chunk_word seg)) segs).

Record seg_ok (seg : list (Z * Z)) : Prop := {
  sg_len : 1 <= Z.of_nat (length seg) <= TWCC_MAX_PACKET_STATUS_COUNT;
  sg_sym : Forall (fun r => r.1 = seg_symbol seg) seg;
  sg_ok : Forall report_ok seg;
}.

Lemma runLength_range sym n l :
  n <= TWCC_MAX_PACKET_STATUS_COUNT ->
  n <= runLength sym n l <= TWCC_MAX_PACKET_STATUS_COUNT /\ runLength sym n l <= n + Z.of_nat (length l) /\
  Forall (fun r => r.1 = sym) (take (Z.to_nat (runLength sym n l - n)) l).
Proof.
  revert n. induction l as [|r l IH]; intros n Hn; cbn [runLength length].
  { rewrite Z.sub_diag. split_and!; try lia. constructor. }
  destruct (Z.eqb_spec r.1 sym); [destruct (Z.ltb_spec n TWCC_MAX_PACKET_STATUS_COUNT)|]; cbn [andb].
  2-3: rewrite Z.sub_diag; split_and!; try lia; constructor.
  destruct (IH (n + 1) ltac:(lia)) as (H1 & H2 & H3). split_and!; try lia.
  replace (Z.to_nat (runLength sym (n + 1) l - n)) with (S (Z.to_nat (runLength sym (n + 1) l - (n + 1)))) by lia.
  by constructor.
Qed.

Lemma runs_ok n l : Forall report_ok l -> Forall seg_ok (runs n l).
Proof.
  revert l. induction n as [|n IH]; intros l Hl; [constructor|]. destruct l as [|r rest]; cbn [runs]; [constructor|].
  destruct (runLength_range r.1 1 rest ltac:(done)) as (H1 & H2 & H3).
  set (k := runLength r.1 1 rest) in *. constructor; [|apply IH; by apply Forall_drop].
  replace (Z.to_nat k) with (S (Z.to_nat (k - 1))) by lia. cbn [take]. inversion Hl. subst. split.
  - cbn [length]. rewrite length_take. lia.
  - by constructor.
  - constructor; [done|]. by apply Forall_take.
Qed.

Lemma runs_concat n l : (length l <= n)%nat -> concat (runs n l) = l.
Proof.
  revert l. induction n as [|n IH]; intros l Hl; [by destruct l; [|cbn in Hl; lia]|].
  destruct l as [|r rest]; [done|]. cbn [runs concat].
  destruct (runLength_range r.1 1 rest ltac:(done)) as (H1 & H2 & _).
  rewrite IH; [apply take_drop|]. rewrite length_drop. cbn in *. lia.
Qed.

Lemma chunk_word_fields seg :
  seg_ok seg ->
  let c := u32 (i16 (chunk_word seg)) in
  IS_TWCC_RUNLEN c = true /\ TWCC_RUNLEN_STATUS_SYMBOL c = seg_symbol seg /\
  TWCC_RUNLEN_GET c = Z.of_nat (length seg).
Proof.
  intros [Hl Hs Ho]. unfold TWCC_MAX_PACKET_STATUS_COUNT in Hl. cbv zeta.
  assert (Hsym : 0 <= seg_symbol seg <= 2).
  { destruct seg as [|r seg]; [cbn; lia|]. inversion Ho as [|?? Hr _]. subst. cbn.
    destruct Hr as [E|[[E _]|[E _]]]; rewrite E; cbv; done. }
  set (sym := seg_symbol seg) in *. set (len := Z.of_nat (length seg)) in *.
  assert (Ec : chunk_word seg = 2 ^ 13 * sym + len).
  { unfold chunk_word, TWCC_MAKE_RUNLEN. fold sym len. change 0x1FFF with (Z.ones 13). rewrite land_mask by lia.
    rewrite (Z.mod_small len) by lia. rewrite Z.lor_comm, lor_disjoint_add by lia. width_lia. }
  assert (Eu : u32 (i16 (chunk_word seg)) = 2 ^ 13 * sym + len) by (rewrite Ec; width_lia).
  rewrite Eu. unfold IS_TWCC_RUNLEN, TWCC_RUNLEN_STATUS_SYMBOL, TWCC_RUNLEN_GET.
  change 0x1fff with (Z.ones 13). change 3 with (Z.ones 2). change 1 with (Z.ones 1).
  rewrite !land_mask, !Z.shiftr_div_pow2 by lia. split_and!; width_lia.
Qed.

Lemma chunks_bytes_cons seg segs : chunks_bytes (seg :: segs) = be16 (chunk_word seg) ++ chunks_bytes segs.
Proof. done. Qed.

Lemma blen_chunks_bytes segs : blen (chunks_bytes segs) = 2 * Z.of_nat (length segs).
Proof.
  induction segs as [|seg segs IH]; [done|]. rewrite chunks_bytes_cons. autorewrite with blen. rewrite IH.
  cbn [length]. lia.
Qed.

Lemma chunksEnd_spec obj off segs n len o :
  Forall seg_ok segs -> bytes_at obj (off + o) (chunks_bytes segs) -> (length segs <= n)%nat ->
  0 <= o -> o + 2 * Z.of_nat (length segs) <= len < 2 ^ 32 ->
  chunksEnd n (Ptr obj off) len (Z.of_nat (length (concat segs))) o = Ok (o + 2 * Z.of_nat (length segs)).
Proof.
  intros Hok. revert n o. induction Hok as [|seg segs Hs Hok IH]; intros n o Hat Hn Ho Hl.
  { destruct n; cbn; f_equal; lia. }
  pose proof (sg_len _ Hs) as Hlen. cbn [length] in Hn, Hl. destruct n as [|n]; [lia|].
  rewrite chunks_bytes_cons in Hat. apply bytes_at_app in Hat as [H1 H2]. rewrite blen_be16 in H2.
  cbn [chunksEnd concat]. rewrite length_app. rewrite (proj2 (Z.ltb_lt 0 _)), (proj2 (Z.ltb_lt o len)) by lia.
  cbn [andb p_obj p_off]. rewrite (bytes_at_get16 _ _ _ H1). cbn [mbind res_bind].
  destruct (chunk_word_fields seg Hs) as (-> & _ & ->).
  replace (Z.of_nat (length seg + length (concat segs)) - Z.of_nat (length seg))
    with (Z.of_nat (length (concat segs))) by lia.
  unfold TWCC_FB_PACKETCHUNK_SIZE. rewrite (u32_id (o + 2)) by (unfold is_u32; lia).
  rewrite IH; [f_equal; cbn [length]; lia| |lia..]. by rewrite Z.add_assoc.
Qed.

Lemma parseChunks_spec obj off segs n o s m :
  Forall seg_ok segs -> bytes_at obj (off + o) (chunks_bytes segs) -> (length segs <= n)%nat ->
  bytes_at obj (off + recvOffset s) (deltas_bytes (concat segs)) ->
  sent_is (ps_manager s) m -> is_u16 (packetSeqNum s) -> 0 <= o -> o + 2 * Z.of_nat (length segs) < 2 ^ 32 ->
  0 <= recvOffset s -> recvOffset s + blen (deltas_bytes (concat segs)) + 2 < 2 ^ 32 ->
  packetsRemaining s = Z.of_nat (length (concat segs)) ->
  exists s', parseChunks n (Ptr obj off) o s = Ok (STATUS_SUCCESS, s') /\ parsed_to s m (concat segs) s'.
Proof.
  intros Hok. revert n o s m. induction Hok as [|seg segs Hs Hok IH]; intros n o s m Hat Hn Hd Hst Hu Ho Ho' Hr Hr' Hrem.
  { exists s. split; [|by apply parsed_nil]. cbn in Hrem. by destruct n; cbn; rewrite Hrem. }
  pose proof (sg_len _ Hs) as Hlen. cbn [length] in Hn, Ho'. destruct n as [|n]; [lia|].
  rewrite chunks_bytes_cons in Hat. apply bytes_at_app in Hat as [H1 H2]. rewrite blen_be16 in H2.
  cbn [concat] in *. rewrite deltas_bytes_app in Hd, Hr'. rewrite blen_app in Hr'. rewrite length_app in Hrem.
  apply bytes_at_app in Hd as [Hd1 Hd2]. pose proof (blen_nonneg (deltas_bytes (concat segs))).
  cbn [parseChunks]. rewrite (proj2 (Z.ltb_lt 0 _)) by lia. cbn [p_obj p_off].
  rewrite (bytes_at_get16 _ _ _ H1). cbn [mbind res_bind].
  destruct (chunk_word_fields seg Hs) as (-> & -> & ->). rewrite Nat2Z.id.
  destruct (parseSymbols_spec obj off (seg_symbol seg) seg 0 s m) as (s1 & -> & P1);
    [apply Hs|apply Hs|done..|lia|]. cbn [mbind res_bind STATUS_FAILED].
  unfold TWCC_FB_PACKETCHUNK_SIZE. rewrite (u32_id (o + 2)) by (unfold is_u32; lia).
  destruct (IH n (o + 2) s1 (record_times (packetSeqNum s) (report_times (referenceTime s) seg) m)) as (s2 & E2 & P2).
  - by rewrite Z.add_assoc.
  - lia.
  - rewrite (pt_off _ _ _ _ P1). by rewrite Z.add_assoc.
  - apply P1.
  - rewrite (pt_seq _ _ _ _ P1). auto with width.
  - lia.
  - lia.
  - rewrite (pt_off _ _ _ _ P1). pose proof (blen_nonneg (deltas_bytes seg)). lia.
  - rewrite (pt_off _ _ _ _ P1). lia.
  - rewrite (pt_rem _ _ _ _ P1). lia.
  - exists s2. split; [exact E2|]. exact (parsed_trans _ _ _ _ _ _ Hu P1 P2).
Qed.

(** ** Encoding *)

(** A store and the position behind it. *)
Definition put_next (buf : list Z) (o : Z) (bs : list Z) : res (list Z * Z) :=
  b ← put_bytes buf o bs; Ok (b, o + blen bs).

Lemma put_next_nil buf o : 0 <= o <= blen buf -> put_next buf o [] = Ok (buf, o).
Proof. intros. unfold put_next. rewrite put_bytes_nil by done. cbn. do 2 f_equal. apply Z.add_0_r. Qed.

(** A store followed by another at the position behind it. *)
Lemma put_next_cons buf o x y o' (f : list Z -> res (list Z * Z)) :
  o' = o + blen x ->
  (forall b, blen b = blen buf -> 0 <= o' <= blen b -> f b = put_next b o' y) ->
  put_bytes buf o x ≫= f = put_next buf o (x ++ y).
Proof.
  intros -> Hf. unfold put_next.
  rewrite (put_then_in buf o x (o + blen x) y f (fun b => Ok (b, o + blen (x ++ y)))); [done|done|].
  intros b Hb Hr. rewrite Hf by done. unfold put_next. by rewrite blen_app, Z.add_assoc.
Qed.

Lemma chunkLoop_spec n l buf o :
  (length l <= n)%nat -> 0 <= o <= blen buf ->
  chunkLoop n l buf o = put_next buf o (chunks_bytes (runs n l)).
Proof.
  revert l buf o. induction n as [|n IH]; intros l buf o Hn Ho; [destruct l; [|cbn in Hn; lia]; by rewrite put_next_nil|].
  destruct l as [|r rest]; [by rewrite put_next_nil|]. cbn [chunkLoop runs].
  destruct (runLength_range r.1 1 rest ltac:(done)) as (H1 & H2 & _). set (k := runLength r.1 1 rest) in *.
  cbn [length] in Hn. rewrite chunks_bytes_cons, put16Be_bytes.
  assert (Ew : chunk_word (take (Z.to_nat k) (r :: rest)) = TWCC_MAKE_RUNLEN r.1 k).
  { unfold chunk_word. rewrite length_take. cbn [length]. replace (Z.of_nat (Z.to_nat k `min` S (length rest))) with k by lia.
    replace (Z.to_nat k) with (S (Z.to_nat (k - 1))) by lia. done. }
  rewrite Ew. apply (put_next_cons _ _ _ _ (o + 2)); [by rewrite blen_be16|].
  intros b Hb Hr. apply IH; [rewrite length_drop; cbn [length]; lia|lia].
Qed.

Lemma deltaLoop_spec l buf o :
  0 <= o <= blen buf -> deltaLoop l buf o = put_next buf o (deltas_bytes l).
Proof.
  revert buf o. induction l as [|r l IH]; intros buf o Ho; [by rewrite put_next_nil|]. cbn [deltaLoop].
  change (deltas_bytes (r :: l)) with (delta_bytes r ++ deltas_bytes l). unfold delta_bytes.
  destruct (r.1 =? TWCC_STATUS_SYMBOL_SMALLDELTA); [|destruct (r.1 =? TWCC_STATUS_SYMBOL_LARGEDELTA)].
  - apply (put_next_cons _ _ [u8 r.2] _ (o + 1)); [done|]. intros. apply IH. lia.
  - rewrite put16Be_bytes. apply (put_next_cons _ _ _ _ (o + 2)); [by rewrite blen_be16|]. intros. apply IH. lia.
  - by apply IH.
Qed.

(** The zero bytes behind position [o]. *)
Definition pad_bytes (o : Z) : list Z := replicate (Z.to_nat ((- o) mod 4)) 0.

Lemma padLoop_spec n buf o :
  (- o) mod 4 <= Z.of_nat n -> 0 <= o <= blen buf -> padLoop n buf o = put_next buf o (pad_bytes o).
Proof.
  revert buf o. induction n as [|n IH]; intros buf o Hn Ho; cbn [padLoop]; destruct (Z.eqb_spec (o mod 4) 0) as [E|E].
  1,3: unfold pad_bytes; replace ((- o) mod 4) with 0 by (Z.div_mod_to_equations; lia); by rewrite put_next_nil.
  - exfalso. Z.div_mod_to_equations. lia.
  - unfold pad_bytes. replace (Z.to_nat ((- o) mod 4)) with (S (Z.to_nat ((- (o + 1)) mod 4))) by (Z.div_mod_to_equations; lia).
    change (replicate (S ?k) 0) with ([0] ++ replicate k 0).
    apply (put_next_cons _ _ [u8 0] _ (o + 1)); [done|]. intros. apply IH; [Z.div_mod_to_equations; lia|lia].
Qed.

Lemma put_next_pos {A} b o x y o' (g : list Z -> res (list Z * Z)) (K : list Z * Z -> res A) :
  o' = o + blen x ->
  (forall b', blen b' = blen b -> 0 <= o' <= blen b' -> g b' = put_next b' o' y) ->
  put_bytes b o x ≫= (fun b' => g b' ≫= K) = put_bytes b o (x ++ y) ≫= (fun b'' => K (b'', o' + blen y)).
Proof.
  intros Ho Hg. apply (put_then_in _ _ _ o'); [done|]. intros b' Hb' Hr. rewrite Hg by done.
  unfold put_next. by destruct (put_bytes b' o' y).
Qed.

(** The feedback packet behind its first four bytes. *)
Definition fb_head (senderSsrc ssrc base count ref fbc : Z) : list Z :=
  be32 senderSsrc ++ be32 ssrc ++ be16 base ++ be16 count ++
  [u8 (Z.land (Z.shiftr ref 16) 0xFF)] ++ [u8 (Z.land (Z.shiftr ref 8) 0xFF)] ++ [u8 (Z.land ref 0xFF)] ++ [u8 fbc].
Definition fb_chunks (l : list (Z * Z)) : list Z := chunks_bytes (runs (length l) l).
Definition fb_pad (l : list (Z * Z)) : list Z := pad_bytes (blen (fb_chunks l) + blen (deltas_bytes l)).
Definition fb_body (head : list Z) (l : list (Z * Z)) : list Z :=
  head ++ fb_chunks l ++ deltas_bytes l ++ fb_pad l.
Definition fb_bytes (head : list Z) (l : list (Z * Z)) : list Z :=
  [0x8f; 205] ++ be16 (blen (fb_body head l) / 4) ++ fb_body head l.

(** The reports fit the buffer when the chunks, deltas and padding do. *)
Definition fb_size (l : list (Z * Z)) : Z :=
  20 + blen (fb_chunks l) + blen (deltas_bytes l) + blen (fb_pad l).

Lemma feedbackPacket_spec alloc senderSsrc ssrc base count ref fbc l :
  let head := fb_head senderSsrc ssrc base count ref fbc in
  20 <= alloc ->
  feedbackPacket alloc senderSsrc ssrc base count ref fbc l =
  if fb_size l <=? alloc
  then Ok (fb_bytes head l ++ replicate (Z.to_nat (alloc - fb_size l)) 0, fb_size l) else Fault.
Proof.
  cbv zeta. intros Ha. unfold feedbackPacket, put8.
  set (buf := replicate (Z.to_nat alloc) 0). assert (Hbuf : blen buf = alloc) by (unfold buf, blen; rewrite length_replicate; lia).
  rewrite (put_bytes_seq_k buf 0 _ 1) by done. cbn [app].
  change (u8 (Z.lor (Z.shiftl RTCP_PACKET_VERSION_VAL 6) RTCP_FEEDBACK_MESSAGE_TYPE_TWCC)) with 0x8f.
  change (u8 RTCP_PACKET_TYPE_GENERIC_RTP_FEEDBACK) with 205.
  assert (E1 : put_bytes buf 0 [0x8f; 205] = Ok ([0x8f; 205] ++ [0; 0] ++ replicate (Z.to_nat (alloc - 4)) 0)).
  { unfold buf. replace (Z.to_nat alloc) with (4 + Z.to_nat (alloc - 4))%nat by lia. rewrite replicate_add.
    rewrite put_bytes_in by (unfold blen; rewrite ?length_app, ?length_replicate; cbn; lia). done. }
  rewrite E1. cbn [mbind res_bind]. set (b1 := [143; 205] ++ _) in *.
  assert (Hb1 : blen b1 = alloc) by (apply put_bytes_inv in E1 as (_ & _ & E); lia).
  rewrite put32Be_bytes. repeat put_merge.
  rewrite <- !(assoc_L (++)). fold (fb_head senderSsrc ssrc base count ref fbc).
  set (head := fb_head _ _ _ _ _ _).
  assert (Hh : blen head = 16) by (unfold head, fb_head; autorewrite with blen; reflexivity).
  rewrite (put_next_pos b1 4 head (fb_chunks l) 20) by (lia || (intros; apply chunkLoop_spec; lia)).
  rewrite (put_next_pos b1 4 _ (deltas_bytes l) (20 + blen (fb_chunks l)))
    by (rewrite ?blen_app; lia || (intros; apply deltaLoop_spec; lia)).
  set (o := 20 + blen (fb_chunks l) + blen (deltas_bytes l)).
  assert (Hp : pad_bytes o = fb_pad l).
  { unfold fb_pad, pad_bytes, o. do 2 f_equal. Z.div_mod_to_equations; lia. }
  rewrite (put_next_pos b1 4 _ (fb_pad l) o)
    by (rewrite ?blen_app; lia || (intros; rewrite <- Hp; apply padLoop_spec; [Z.div_mod_to_equations|]; lia)).
  rewrite <- !(assoc_L (++)). fold (fb_body head l).
  assert (Hs : o + blen (fb_pad l) = 4 + blen (fb_body head l)) by (unfold o, fb_body; autorewrite with blen; lia).
  rewrite Hs. change (fb_size l) with (o + blen (fb_pad l)). rewrite Hs. pose proof (blen_nonneg (fb_body head l)).
  destruct (Z.leb_spec (4 + blen (fb_body head l)) alloc) as [Hle|Hgt]; [|by rewrite put_bytes_fault by lia].
  unfold b1. rewrite (assoc_L (++)). rewrite (put_bytes_at ([143; 205] ++ [0; 0]) _ _ 4)
    by (try done; unfold blen in *; rewrite length_replicate; lia).
  cbn [mbind res_bind]. rewrite put16Be_bytes, <- (assoc_L (++)).
  rewrite (put_bytes_app [143; 205] [0; 0]) by (done || by rewrite blen_be16). cbn [mbind res_bind].
  unfold fb_bytes. rewrite drop_replicate, <- !(assoc_L (++)).
  replace ((4 + blen (fb_body head l)) / 4 - 1) with (blen (fb_body head l) / 4) by (Z.div_mod_to_equations; lia).
  replace (Z.to_nat (alloc - 4) - Z.to_nat (blen (fb_body head l)))%nat
    with (Z.to_nat (alloc - (4 + blen (fb_body head l)))) by lia. done.
Qed.

(** ** The arrival times of a window of sequence numbers *)

Fixpoint seqs (seq : Z) (n : nat) : list Z :=
  match n with O => [] | S n => seq :: seqs (u16 (seq + 1)) n end.

Definition arrivals (arr : gmap Z TwccReceivedPacketInfo) (l : list Z) : list (option Z) :=
  map (fun s => arrivalTimeKvs <$> arr !! s) l.

(** The reports of arrival times, relative to the previous one. *)
Fixpoint encode_arrivals (last : Z) (l : list (option Z)) : list (Z * Z) :=
  match l with
  | [] => []
  | None :: l => (TWCC_STATUS_SYMBOL_NOTRECEIVED, 0) :: encode_arrivals last l
  | Some a :: l => getTwccPacketStatus a last :: encode_arrivals a l
  end.

Lemma statusLoop_spec n ht arr seq last :
  table_is ht arr -> statusLoop n ht seq last = Ok (encode_arrivals last (arrivals arr (seqs seq n))).
Proof.
  intros Ht. revert seq last. induction n as [|n IH]; intros seq last; [done|]. cbn [statusLoop seqs arrivals map].
  rewrite (tableGet_is _ _ _ Ht). cbn [mbind res_bind]. destruct (arr !! seq) as [i|]; cbn [fmap option_fmap option_map encode_arrivals];
    by rewrite IH.
Qed.

Definition first_arrival (l : list (option Z)) : option Z := head (omap id l).

Lemma firstArrival_spec n ht arr seq :
  table_is ht arr -> firstArrival n ht seq = Ok (first_arrival (arrivals arr (seqs seq n))).
Proof.
  intros Ht. revert seq. induction n as [|n IH]; intros seq; [done|]. cbn [firstArrival seqs arrivals map].
  rewrite (tableGet_is _ _ _ Ht). cbn [mbind res_bind]. by destruct (arr !! seq).
Qed.

Lemma clearLoop_spec n ht arr seq :
  table_is ht arr ->
  exists ht', clearLoop n ht seq = Ok ht' /\ table_is ht' (foldl (fun m s => delete s m) arr (seqs seq n)).
Proof.
  revert ht arr seq. induction n as [|n IH]; intros ht arr seq Ht; [by exists ht|]. cbn [clearLoop seqs foldl].
  rewrite (tableGet_is _ _ _ Ht). cbn [mbind res_bind]. destruct (arr !! seq) as [i|] eqn:E.
  - destruct (remove_is ht arr seq Ht ltac:(by exists i)) as (ht' & -> & Ht'). cbn [mbind res_bind]. by apply IH.
  - cbn [mbind res_bind]. rewrite (delete_id arr seq) by done. by apply IH.
Qed.

Lemma length_encode last l : length (encode_arrivals last l) = length l.
Proof. revert last. induction l as [|[a|] l IH]; intros last; cbn; [done|by rewrite IH..]. Qed.

(** Consecutive arrivals differ by less than 32768 ticks (8.192 s).  Number [i] may arrive
    before its predecessor, unless that is so early in the stream that the rounding of the
    deltas could take the reported time below zero. *)
Fixpoint gaps_ok (i : nat) (last : Z) (l : list (option Z)) : Prop :=
  match l with
  | [] => True
  | None :: l => gaps_ok (S i) last l
  | Some a :: l =>
      0 <= a < 2 ^ 63 /\ Z.abs (a - last) < 32768 * 2500 /\ (last <= a \/ 2499 * Z.of_nat (S i) <= a) /\
      gaps_ok (S i) a l
  end.

Lemma getTwccPacketStatus_ok a last :
  0 <= a < 2 ^ 63 -> 0 <= last < 2 ^ 63 -> Z.abs (a - last) < 32768 * 2500 ->
  report_ok (getTwccPacketStatus a last) /\
  (getTwccPacketStatus a last).1 <> TWCC_STATUS_SYMBOL_NOTRECEIVED /\
  (getTwccPacketStatus a last).2 = Z.quot (a - last) 2500.
Proof.
  intros Ha Hl Hd. unfold getTwccPacketStatus.
  replace (i64 a) with a by (unfold i64; width_lia). replace (i64 last) with last by (unfold i64; width_lia).
  set (t := Z.quot (a - last) 2500). assert (Ht : - 32768 < t < 32768) by (unfold t; Z.quot_rem_to_equations; lia).
  replace (i32 t) with t by width_lia. cbn [fst snd]. unfold report_ok. cbn [fst snd].
  destruct (Z.leb_spec 0 t), (Z.leb_spec t 255); cbn [andb].
  1: split_and!; [right; left; split; [done|lia]|done|done].
  all: rewrite !(proj2 (Z.leb_le _ _)) by lia; cbn [andb];
       split_and!; [right; right; split; [done|lia]|done|done].
Qed.

Lemma encode_ok i last l :
  0 <= last < 2 ^ 63 -> gaps_ok i last l -> Forall report_ok (encode_arrivals last l).
Proof.
  revert i last. induction l as [|[a|] l IH]; intros i last Hl Hg; cbn in *; [constructor| |].
  - destruct Hg as (Ha & Hd & _ & Hg). constructor; [by apply getTwccPacketStatus_ok|]. by apply (IH (S i)).
  - constructor; [by left|]. by apply (IH (S i)).
Qed.

(** A reported time is off by less than a tick for every packet up to it: each delta is
    rounded towards zero, and taken from the true arrival time of the packet before. *)
Definition close (i : nat) (a t : option Z) : Prop :=
  match a, t with
  | None, None => True
  | Some a, Some t => Z.abs (t - a) <= 2499 * Z.of_nat (S i) /\ 0 <= t < TWCC_PACKET_LOST_TIME
  | _, _ => False
  end.

Lemma encode_close i ref last l :
  0 <= ref -> 0 <= last < 2 ^ 63 -> Z.abs (ref - last) <= 2499 * Z.of_nat i -> gaps_ok i last l ->
  (i + length l <= Z.to_nat (2 ^ 16))%nat ->
  forall j a t, l !! j = Some a -> report_times ref (encode_arrivals last l) !! j = Some t -> close (i + j) a t.
Proof.
  revert i ref last. induction l as [|[a|] l IH]; intros i ref last Hr Hl He Hg Hn j a' t' Ha' Ht'; [done|..];
    cbn [encode_arrivals report_times gaps_ok length] in *.
  - destruct Hg as (Ha & Hd & Hlow & Hg).
    destruct (getTwccPacketStatus_ok a last Ha Hl Hd) as (_ & Hne & E2).
    apply Z.eqb_neq in Hne. rewrite Hne in Ht'. rewrite E2 in Ht'.
    assert (Hq : exists t, u64 (ref + 2500 * Z.quot (a - last) 2500) = t /\ 0 <= t < TWCC_PACKET_LOST_TIME /\
                   Z.abs (t - a) <= 2499 * Z.of_nat (S i)).
    { exists (ref + 2500 * Z.quot (a - last) 2500).
      assert (Hrem : a - last = 2500 * Z.quot (a - last) 2500 + Z.rem (a - last) 2500) by apply Z.quot_rem'.
      assert (Hb : Z.abs (Z.rem (a - last) 2500) <= 2499) by (Z.quot_rem_to_equations; lia).
      assert (Hsgn : last <= a -> 0 <= Z.quot (a - last) 2500) by (intros; apply Z.quot_pos; lia).
      assert (0 <= ref + 2500 * Z.quot (a - last) 2500 < TWCC_PACKET_LOST_TIME)
        by (unfold TWCC_PACKET_LOST_TIME; lia).
      split_and!; [apply u64_id; unfold is_u64, TWCC_PACKET_LOST_TIME in *; lia|lia|lia|lia]. }
    destruct Hq as (t & Et & Hb & Hc). rewrite Et in Ht'. cbv zeta in Ht'. destruct j as [|j].
    + cbn in Ha', Ht'. injection Ha' as <-. injection Ht' as <-. cbn. replace (i + 0)%nat with i by lia. done.
    + cbn in Ha', Ht'. replace (i + S j)%nat with (S i + j)%nat by lia. apply (IH (S i) t a); try done; lia.
  - destruct j as [|j]; cbn in Ha', Ht'.
    + injection Ha' as <-. by injection Ht' as <-.
    + replace (i + S j)%nat with (S i + j)%nat by lia. apply (IH (S i) ref last); try done; lia.
Qed.

(** Arrival times in whole ticks are reported exactly. *)
Lemma encode_exact i last l :
  0 <= last < 2 ^ 63 -> last mod 2500 = 0 -> gaps_ok i last l ->
  Forall (fun a => forall t, a = Some t -> t mod 2500 = 0) l ->
  report_times last (encode_arrivals last l) = l.
Proof.
  revert i last. induction l as [|[a|] l IH]; intros i last Hl Hm Hg Ht; [done|..];
    cbn [encode_arrivals report_times gaps_ok] in *; inversion Ht as [|?? Ha0 Ht']; subst.
  - destruct Hg as (Ha & Hd & _ & Hg). specialize (Ha0 a eq_refl).
    destruct (getTwccPacketStatus_ok a last Ha Hl Hd) as (_ & Hne & ->). apply Z.eqb_neq in Hne. rewrite Hne.
    assert (E : last + 2500 * Z.quot (a - last) 2500 = a)
      by (Z.quot_rem_to_equations; Z.div_mod_to_equations; lia).
    cbv zeta. rewrite E, (u64_id a) by (unfold is_u64; lia). by rewrite (IH (S i)).
  - by rewrite (IH (S i)).
Qed.

(** The reference time is the first arrival time, rounded down to 64 ms. *)
Lemma gaps_ok_ref i a last l :
  first_arrival l = Some a -> gaps_ok i a l -> last <= a -> a - last < 32768 * 2500 -> gaps_ok i last l.
Proof.
  unfold first_arrival. revert i. induction l as [|[b|] l IH]; intros i Hf Hg H1 H2; cbn in *; [done| |by apply IH].
  injection Hf as ->. destruct Hg as (Ha & _ & _ & Hg). split_and!; [lia|lia|lia|by left|done].
Qed.

Lemma gaps_first i a l : first_arrival l = Some a -> gaps_ok i a l -> 0 <= a < 2 ^ 63.
Proof.
  unfold first_arrival. revert i. induction l as [|[b|] l IH]; intros i Hf Hg; cbn in *; [done| |by apply (IH (S i))].
  injection Hf as ->. apply Hg.
Qed.

Definition ref_units (a : Z) : Z := a / 640000.

Lemma ref_units_eq a :
  0 <= a < 2 ^ 24 * 640000 ->
  let currentTime := u32 (a / HUNDREDS_OF_NANOS_IN_A_MILLISECOND) in
  Z.land (currentTime / TWCC_REFERENCE_TIME_DIVISOR) 0xFFFFFF = ref_units a /\
  u64 (currentTime / TWCC_REFERENCE_TIME_DIVISOR * TWCC_REFERENCE_TIME_DIVISOR
       * HUNDREDS_OF_NANOS_IN_A_MILLISECOND) = ref_units a * 640000.
Proof.
  intros Ha. cbv zeta. unfold HUNDREDS_OF_NANOS_IN_A_MILLISECOND, TWCC_REFERENCE_TIME_DIVISOR.
  rewrite (u32_id (a / 10000)) by (unfold is_u32; Z.div_mod_to_equations; lia).
  rewrite Zdiv_Zdiv by lia. change (10000 * 64) with 640000. fold (ref_units a).
  assert (0 <= ref_units a < 2 ^ 24) by (unfold ref_units; Z.div_mod_to_equations; lia).
  change 0xFFFFFF with (Z.ones 24). rewrite land_mask, Z.mod_small by lia. split; [done|].
  rewrite u64_id by (unfold is_u64; lia). lia.
Qed.

Lemma ref_bytes r :
  0 <= r < 2 ^ 24 ->
  Z.lor (Z.lor (Z.shiftl (u8 (Z.land (Z.shiftr r 16) 0xFF)) 16) (Z.shiftl (u8 (Z.land (Z.shiftr r 8) 0xFF)) 8))
        (Z.land (u8 (Z.land r 0xFF)) 0xff) = r.
Proof.
  intros Hr. rewrite !land_255, !Z.shiftr_div_pow2 by lia.
  replace (u8 (r / 2 ^ 16 mod 256)) with (r / 2 ^ 16) by width_lia.
  replace (u8 (r / 2 ^ 8 mod 256)) with (r / 2 ^ 8 mod 256) by width_lia.
  replace (u8 (r mod 256) mod 256) with (r mod 256) by width_lia.
  rewrite (Z.lor_comm (Z.shiftl _ 16)).
  replace (Z.lor (Z.shiftl (r / 2 ^ 8 mod 256) 8) (Z.shiftl (r / 2 ^ 16) 16)) with (Z.shiftl (r / 2 ^ 8) 8).
  - rewrite Z.lor_comm, lor_disjoint_add by (Z.div_mod_to_equations; lia). rewrite ?Z.shiftl_mul_pow2 by lia. Z.div_mod_to_equations; lia.
  - rewrite lor_disjoint_add by (rewrite ?Z.shiftl_mul_pow2 by lia; Z.div_mod_to_equations; lia).
    rewrite !Z.shiftl_mul_pow2 by lia. Z.div_mod_to_equations; lia.
Qed.

Lemma blen_pad_bytes o : blen (pad_bytes o) = (- o) mod 4.
Proof. unfold pad_bytes, blen. rewrite length_replicate. Z.div_mod_to_equations; lia. Qed.

Lemma pad_bytes_ok o : bytes_ok (pad_bytes o).
Proof. apply Forall_replicate. unfold is_u8. lia. Qed.

Lemma chunks_bytes_ok segs : bytes_ok (chunks_bytes segs).
Proof. induction segs; [constructor|]. rewrite chunks_bytes_cons, bytes_ok_app. auto with width. Qed.

Lemma deltas_bytes_ok l : bytes_ok (deltas_bytes l).
Proof.
  induction l as [|r l IH]; [constructor|]. change (deltas_bytes (r :: l)) with (delta_bytes r ++ deltas_bytes l).
  rewrite bytes_ok_app. split; [|done]. unfold delta_bytes.
  repeat case_match; [repeat constructor; apply u8_range|auto with width|constructor].
Qed.

Lemma fb_head_ok senderSsrc ssrc base count ref fbc :
  bytes_ok (fb_head senderSsrc ssrc base count ref fbc) /\ blen (fb_head senderSsrc ssrc base count ref fbc) = 16.
Proof.
  unfold fb_head. split; [|autorewrite with blen; reflexivity].
  rewrite !bytes_ok_app. split_and!; auto with width; repeat constructor; apply u8_range.
Qed.

Lemma fb_body_ok head l :
  bytes_ok head -> blen head = 16 -> bytes_ok (fb_body head l) /\ blen (fb_body head l) mod 4 = 0 /\
  blen (fb_body head l) = fb_size l - 4.
Proof.
  intros Hh H16. unfold fb_body, fb_size. split_and!.
  - rewrite !bytes_ok_app. split_and!; [done|apply chunks_bytes_ok|apply deltas_bytes_ok|apply pad_bytes_ok].
  - autorewrite with blen. unfold fb_pad. rewrite blen_pad_bytes. Z.div_mod_to_equations; lia.
  - autorewrite with blen. lia.
Qed.

Lemma length_runs n l : (length (runs n l) <= n)%nat.
Proof.
  revert l. induction n as [|n IH]; intros l; [cbn; lia|]. destruct l as [|r l]; cbn [runs length]; [lia|].
  specialize (IH (drop (Z.to_nat (runLength r.1 1 l)) (r :: l))). lia.
Qed.

Lemma fb_sizes l :
  0 <= blen (fb_chunks l) <= 2 * Z.of_nat (length l) /\ 0 <= blen (deltas_bytes l) <= 2 * Z.of_nat (length l) /\
  0 <= blen (fb_pad l) <= 3.
Proof.
  split_and!; try apply blen_nonneg.
  - unfold fb_chunks. rewrite blen_chunks_bytes. pose proof (length_runs (length l) l). lia.
  - induction l as [|r l IH]; [done|]. change (deltas_bytes (r :: l)) with (delta_bytes r ++ deltas_bytes l).
    rewrite blen_app. cbn [length]. assert (blen (delta_bytes r) <= 2); [|lia]. unfold delta_bytes.
    repeat case_match; rewrite ?blen_be16; done.
  - unfold fb_pad. rewrite blen_pad_bytes. Z.div_mod_to_equations; lia.
Qed.

(** Where the pieces of a feedback payload lie. *)
Lemma fb_body_at obj off senderSsrc ssrc base count ref fbc l :
  bytes_at obj off (fb_body (fb_head senderSsrc ssrc base count ref fbc) l) ->
  bytes_at obj (off + 8) (be16 base) /\ bytes_at obj (off + 10) (be16 count) /\
  ld obj (off + 12) = Ok (u8 (Z.land (Z.shiftr ref 16) 0xFF)) /\
  ld obj (off + 13) = Ok (u8 (Z.land (Z.shiftr ref 8) 0xFF)) /\ ld obj (off + 14) = Ok (u8 (Z.land ref 0xFF)) /\
  bytes_at obj (off + 16) (fb_chunks l) /\
  bytes_at obj (off + 16 + blen (fb_chunks l)) (deltas_bytes l).
Proof.
  unfold fb_body. intros H. apply bytes_at_app in H as [Hh H]. apply bytes_at_app in H as [Hc H].
  apply bytes_at_app in H as [Hd _]. rewrite (proj2 (fb_head_ok _ _ _ _ _ _)) in Hc, Hd. unfold fb_head in Hh.
  apply bytes_at_app in Hh as [_ Hh]. apply bytes_at_app in Hh as [_ Hh]. apply bytes_at_app in Hh as [Hb Hh].
  apply bytes_at_app in Hh as [Hn Hh]. apply bytes_at_app in Hh as [H2 Hh]. apply bytes_at_app in Hh as [H1 Hh].
  apply bytes_at_app in Hh as [H0 _]. autorewrite with blen in *.
  split_and!.
  - by replace (off + 8) with (off + 4 + 4) by lia.
  - by replace (off + 10) with (off + 4 + 4 + 2) by lia.
  - apply bytes_at_ld in H2. rewrite <- H2. f_equal. lia.
  - apply bytes_at_ld in H1. rewrite <- H1. f_equal. lia.
  - apply bytes_at_ld in H0. rewrite <- H0. f_equal. lia.
  - done.
  - done.
Qed.

Lemma bytes_at_bound obj o bs : bytes_at obj o bs -> 0 <= o /\ o + blen bs <= blen obj.
Proof. intros (pre & suf & -> & ->). blen_lia. Qed.

Lemma parse_payload hd obj off len senderSsrc ssrc base ref fbc l g m :
  bytes_at obj off (fb_body (fb_head senderSsrc ssrc base (Z.of_nat (length l)) ref fbc) l) -> 0 <= off ->
  16 + blen (fb_chunks l) + blen (deltas_bytes l) <= len ->
  Forall report_ok l -> 1 <= Z.of_nat (length l) <= TWCC_MAX_PACKET_STATUS_COUNT -> is_u16 base -> 0 <= ref < 2 ^ 24 ->
  len < 2 ^ 24 -> sent_is g m ->
  exists g',
    parseRtcpTwccPacket (Some {| rtcpHeader := hd; rtcpPayload := Some (Ptr obj off); rtcpPayloadLength := len |})
      (Some g) = Ok (STATUS_SUCCESS, g') /\
    sent_is g' (record_times base (report_times (ref * 640000) l) m) /\
    prevReportedBaseSeqNum g' = base /\ lastReportedSeqNum g' = u16 (base + Z.of_nat (length l) - 1) /\
    firstSeqNumInRollingWindow g' = firstSeqNumInRollingWindow g.
Proof.
  intros Hat Ho Hle Hok Hlen Hbase Href Hmax Hs. unfold TWCC_MAX_PACKET_STATUS_COUNT in Hlen.
  destruct (fb_body_at _ _ _ _ _ _ _ _ _ Hat) as (Hb & Hn & H2 & H1 & H0 & Hc & Hd).
  destruct (fb_sizes l) as (Hs1 & Hs2 & _).
  unfold parseRtcpTwccPacket, pld. cbn [rtcpPayload rtcpPayloadLength p_obj p_off].
  rewrite (bytes_at_get16 _ _ _ Hb), (bytes_at_get16 _ _ _ Hn), H2, H1, H0. cbn [mbind res_bind].
  rewrite !u16_i16, (u16_id base), (u16_id (Z.of_nat _)), ref_bytes by (done || (unfold is_u16; lia)).
  replace (KVS_CONVERT_TIMESCALE (ref * 64) MILLISECONDS_PER_SECOND HUNDREDS_OF_NANOS_IN_A_SECOND)
    with (ref * 640000) by (unfold KVS_CONVERT_TIMESCALE, MILLISECONDS_PER_SECOND, HUNDREDS_OF_NANOS_IN_A_SECOND; width_lia).
  set (segs := runs (length l) l). assert (Hsegs : Forall seg_ok segs) by by apply runs_ok.
  assert (Econ : concat segs = l) by (by apply runs_concat).
  pose proof (bytes_at_bound _ _ _ Hc) as [_ Hcb]. unfold fb_chunks in Hs1, Hcb, Hc, Hd, Hle. fold segs in Hs1, Hcb, Hc, Hd, Hle.
  rewrite blen_chunks_bytes in Hs1, Hcb, Hd, Hle. unfold blen in Hcb.
  pose proof (chunksEnd_spec obj off segs (S (length obj)) len 16 Hsegs Hc ltac:(lia) ltac:(lia) ltac:(lia)) as E.
  rewrite Econ in E. rewrite E. cbn [mbind res_bind].
  match goal with |- context [parseChunks _ _ _ ?s0] => set (s := s0) end.
  destruct (parseChunks_spec obj off segs (S (length obj)) 16 s m) as (s' & -> & P);
    try (subst s; cbn [recvOffset packetsRemaining packetSeqNum ps_manager]); rewrite ?Econ; try done; try lia.
  { by rewrite Z.add_assoc. }
  cbn [mbind res_bind]. rewrite Econ in P. exists (ps_manager s'). destruct P. split; [done|].
  cbn [packetSeqNum referenceTime ps_manager] in *. unfold window_of in pt_window0.
  injection pt_window0 as Ew1 Ew2. destruct l; [cbn in Hlen; lia|]. split_and!; [done|done|done|done].
Qed.

(** Parsing a feedback packet: the times of its reports are recorded. *)
Lemma parse_feedback h senderSsrc ssrc base ref fbc l g m p0 :
  let head := fb_head senderSsrc ssrc base (Z.of_nat (length l)) ref fbc in
  let raw := fb_bytes head l in
  Forall report_ok l -> 1 <= Z.of_nat (length l) <= TWCC_MAX_PACKET_STATUS_COUNT -> is_u16 base -> 0 <= ref < 2 ^ 24 ->
  sent_is g m ->
  exists p g',
    setRtcpPacketFromBytes h raw (blen raw) (Some p0) = Ok (STATUS_SUCCESS, p) /\
    packetType (rtcpHeader p) = 205 /\ receptionReportCount (rtcpHeader p) = 15 /\
    parseRtcpTwccPacket (Some p) (Some g) = Ok (STATUS_SUCCESS, g') /\
    sent_is g' (record_times base (report_times (ref * 640000) l) m) /\
    prevReportedBaseSeqNum g' = base /\ lastReportedSeqNum g' = u16 (base + Z.of_nat (length l) - 1) /\
    firstSeqNumInRollingWindow g' = firstSeqNumInRollingWindow g.
Proof.
  cbv zeta. intros Hok Hlen Hbase Href Hs. unfold TWCC_MAX_PACKET_STATUS_COUNT in Hlen.
  set (head := fb_head _ _ _ _ _ _). set (raw := fb_bytes head l).
  destruct (fb_head_ok senderSsrc ssrc base (Z.of_nat (length l)) ref fbc) as [Hh H16]. fold head in Hh, H16.
  destruct (fb_body_ok head l Hh H16) as (Hb & Hm & Hbl). destruct (fb_sizes l) as (Hs1 & Hs2 & Hs3).
  assert (Hsz : fb_size l <= 20 + 4 * Z.of_nat (length l) + 3) by (unfold fb_size; lia).
  set (w := blen (fb_body head l) / 4).
  assert (Hw : blen (fb_body head l) = 4 * w) by (unfold w; Z.div_mod_to_equations; lia).
  assert (Hwr : 4 <= w < 2 ^ 16) by (unfold fb_size in *; lia).
  pose proof (rtcp_header_parse h 0x8f 205 w (fb_body head l) [] p0) as HP. cbv zeta in HP. rewrite app_nil_r in HP.
  fold (fb_bytes head l) in HP. change ([143; 205] ++ be16 w ++ fb_body head l) with raw in HP.
  match type of HP with _ -> _ -> _ -> _ -> _ -> _ -> _ -> _ = Ok (_, ?p) => set (p1 := p) in HP end.
  destruct (parse_payload (rtcpHeader p1) raw 4 (w * 4) senderSsrc ssrc base ref fbc l g m) as (g' & HG); try done; try lia.
  { exists ([0x8f; 205] ++ be16 w), []. rewrite app_nil_r. by rewrite <- (assoc_L (++)). }
  { unfold fb_size in *. lia. }
  exists p1, g'. split; [apply HP; done || (unfold is_u8, is_u16; lia) || constructor|]. done.
Qed.

(** ** Windows of sequence numbers *)

Lemma length_seqs seq n : length (seqs seq n) = n.
Proof. revert seq. induction n as [|n IH]; intros seq; cbn; [done|]. by rewrite IH. Qed.

Lemma seqs_lookup seq n i : is_u16 seq -> (i < n)%nat -> seqs seq n !! i = Some (u16 (seq + Z.of_nat i)).
Proof.
  revert seq i. induction n as [|n IH]; intros seq i Hu Hi; [lia|]. destruct i as [|i]; cbn [seqs].
  - cbn. by rewrite Z.add_0_r, u16_id.
  - cbn. rewrite IH by (auto with width || lia). rewrite u16_plus. do 2 f_equal. lia.
Qed.

Lemma seqs_elem seq n s : is_u16 seq -> s ∈ seqs seq n -> exists i, (i < n)%nat /\ s = u16 (seq + Z.of_nat i).
Proof.
  intros Hu Hs. apply list_elem_of_lookup in Hs as [i Hi]. pose proof (lookup_lt_Some _ _ _ Hi) as Hlt.
  rewrite length_seqs in Hlt. rewrite seqs_lookup in Hi by done. injection Hi as <-. by exists i.
Qed.

(** A window of less than 2^16 sequence numbers does not meet itself. *)
Lemma seqs_fresh seq n : is_u16 seq -> Z.of_nat (S n) <= 2 ^ 16 -> seq ∉ seqs (u16 (seq + 1)) n.
Proof.
  intros Hu Hn Hs. apply seqs_elem in Hs as (i & Hi & E); [|auto with width]. rewrite u16_plus in E.
  revert Hu E. width_lia.
Qed.

Lemma seqs_u16 seq n : is_u16 seq -> Forall is_u16 (seqs seq n).
Proof.
  revert seq. induction n as [|n IH]; intros seq Hu; cbn; constructor; [done|]. apply IH. auto with width.
Qed.

(** The times recorded for a window. *)
Lemma record_times_other seq ts m k :
  k ∉ seqs seq (length ts) -> record_times seq ts m !! k = m !! k.
Proof.
  revert seq m. induction ts as [|t ts IH]; intros seq m Hk; [done|]. cbn [length seqs record_times] in *.
  apply not_elem_of_cons in Hk as [Hne Hk]. rewrite IH by done. by rewrite lookup_alter_ne.
Qed.

Lemma record_times_lookup seq ts m i t :
  is_u16 seq -> Z.of_nat (length ts) <= 2 ^ 16 -> ts !! i = Some t ->
  record_times seq ts m !! u16 (seq + Z.of_nat i) =
    with_time (default TWCC_PACKET_LOST_TIME t) <$> m !! u16 (seq + Z.of_nat i).
Proof.
  revert seq m i. induction ts as [|t' ts IH]; intros seq m i Hu Hn Hi; [done|]. cbn [length record_times] in *.
  destruct i as [|i]; cbn in Hi.
  - injection Hi as ->. rewrite Z.add_0_r, (u16_id seq) by done.
    rewrite record_times_other by (apply seqs_fresh; [done|lia]). by rewrite lookup_alter_eq.
  - replace (u16 (seq + Z.of_nat (S i))) with (u16 (u16 (seq + 1) + Z.of_nat i)) by (rewrite u16_plus; f_equal; lia).
    rewrite IH by (auto with width || lia || done).
    rewrite lookup_alter_ne; [done|]. intros E. apply (seqs_fresh seq (length ts) Hu ltac:(lia)).
    pose proof (lookup_lt_Some _ _ _ Hi).
    apply (list_elem_of_lookup_2 _ i). rewrite seqs_lookup by (auto with width). by rewrite <- E.
Qed.

(** The sent packets of a window. *)
Definition found (m : gmap Z TwccRtpPacketInfo) (l : list Z) : list TwccRtpPacketInfo := omap (fun s => m !! s) l.

Lemma reportLoop_spec n ht m stop seq room k :
  table_is ht (Some <$> m) -> is_u16 seq -> stop = u16 (seq + Z.of_nat k) -> Z.of_nat k < 2 ^ 16 -> (k <= n)%nat ->
  Z.of_nat k <= room ->
  reportLoop n ht stop seq room = Ok (omap (fun s => reportOf s <$> m !! s) (seqs seq k)).
Proof.
  intros Ht. revert n seq room. induction k as [|k IH]; intros n seq room Hu Hs Hk Hn Hr.
  { rewrite Z.add_0_r, u16_id in Hs by done. subst. destruct n; cbn [reportLoop]; by rewrite Z.eqb_refl. }
  destruct n as [|n]; [lia|]. cbn [reportLoop seqs omap list_omap].
  assert (Hne : seq <> stop) by (subst stop; revert Hu; width_lia). apply Z.eqb_neq in Hne. rewrite Hne.
  rewrite (tableGet_is _ _ _ Ht), lookup_fmap. cbn [mbind res_bind].
  assert (IH' : forall room, Z.of_nat k <= room ->
    reportLoop n ht stop (u16 (seq + 1)) room = Ok (omap (fun s => reportOf s <$> m !! s) (seqs (u16 (seq + 1)) k))).
  { intros. apply IH; [auto with width|rewrite u16_plus; subst stop; f_equal; lia|lia..]. }
  destruct (m !! seq) as [i|]; cbn [fmap option_fmap option_map].
  - rewrite (proj2 (Z.leb_gt room 0)), IH' by lia. done.
  - apply IH'. lia.
Qed.

(** ** The statistics of a report *)

Definition was_received (i : TwccRtpPacketInfo) : bool := negb (remoteTimeKvs i =? TWCC_PACKET_LOST_TIME).
Definition received (l : list TwccRtpPacketInfo) : list TwccRtpPacketInfo := List.filter was_received l.
Definition bytes_of (l : list TwccRtpPacketInfo) : Z := sumBy packetSize l.

(** The received packets of the window leave the table. *)
Definition unreported (l : list Z) (m : gmap Z TwccRtpPacketInfo) : gmap Z TwccRtpPacketInfo :=
  foldl (fun m s => match m !! s with Some i => if was_received i then delete s m else m | None => m end) m l.

(** The time the duration of a window is counted from: the send time of the packet with the
    key [seq] - 1 in 64 bits or, when it is not recorded, of the first recorded packet. *)
Definition start_time (m : gmap Z TwccRtpPacketInfo) (seq : Z) (l : list TwccRtpPacketInfo) : Z :=
  match m !! u64 (seq - 1), l with
  | Some i, _ => localTimeKvs i
  | None, i :: _ => localTimeKvs i
  | None, [] => 0
  end.

Definition duration_of (start : Z) (l : list TwccRtpPacketInfo) (d : Z) : Z :=
  match list.last l with Some i => i64 (localTimeKvs i - start) | None => d end.

Definition timed (m : gmap Z TwccRtpPacketInfo) : Prop := map_Forall (fun _ i => 0 < localTimeKvs i) m.

Lemma findStartTime_spec ht m seq start :
  table_is ht (Some <$> m) -> timed m -> is_u16 seq ->
  findStartTime ht seq start =
  Ok (match m !! u64 (seq - 1), m !! seq with
      | Some i, _ => (Some (localTimeKvs i), true)
      | None, Some i => (Some (localTimeKvs i), true)
      | None, None => (Some 0, false)
      end).
Proof.
  intros Ht Hm Hu. unfold findStartTime. rewrite hashTableGet_spec, (ti_map _ _ Ht), lookup_fmap by apply Ht.
  destruct (m !! u64 (seq - 1)) as [i|] eqn:E; cbn [fmap option_fmap option_map mbind res_bind].
  - pose proof (Hm _ _ E) as Hp. cbn in Hp. by rewrite (proj2 (Z.eqb_neq (localTimeKvs i) _)) by (unfold TWCC_PACKET_UNITIALIZED_TIME; lia).
  - cbn. rewrite (tableGet_is _ _ _ Ht), lookup_fmap. by destruct (m !! seq).
Qed.

(** The table keeps the unreported packets when the body of the loop has run. *)
Lemma updateStep_table ht m seq i :
  table_is ht (Some <$> m) -> m !! seq = Some i ->
  exists ht', (if negb (remoteTimeKvs i =? TWCC_PACKET_LOST_TIME)
               then match hashTableRemove (Some ht) seq with Fault => Fault | Err _ => Ok ht | Ok ht => Ok ht end
               else Ok ht) = Ok ht' /\
    table_is ht' (Some <$> if was_received i then delete seq m else m).
Proof.
  intros Ht Hi. unfold was_received. destruct (negb _); [|by exists ht].
  destruct (remove_is ht _ seq Ht) as (ht' & -> & Ht'); [rewrite lookup_fmap, Hi; by eexists|].
  exists ht'. by rewrite fmap_delete.
Qed.

Record updated_to (s : UpdateState) (m : gmap Z TwccRtpPacketInfo) (seq : Z) (n : nat) (s' : UpdateState) : Prop := {
  ut_table : table_is (us_table s') (Some <$> unreported (seqs seq n) m);
  ut_sent : us_sentPackets s' = u64 (us_sentPackets s + Z.of_nat (length (found m (seqs seq n))));
  ut_sentBytes : us_sentBytes s' = u64 (us_sentBytes s + bytes_of (found m (seqs seq n)));
  ut_received : us_receivedPackets s' = u64 (us_receivedPackets s + Z.of_nat (length (received (found m (seqs seq n)))));
  ut_receivedBytes : us_receivedBytes s' = u64 (us_receivedBytes s + bytes_of (received (found m (seqs seq n))));
  ut_duration : us_duration s' =
    duration_of (if localStartTimeRecorded s then default 0 (localStartTimeKvs s)
                 else start_time m seq (found m (seqs seq n))) (found m (seqs seq n)) (us_duration s);
}.

Record stats_ok (s : UpdateState) : Prop := {
  so_start : localStartTimeRecorded s = true -> is_Some (localStartTimeKvs s);
  so_sent : is_u64 (us_sentPackets s);
  so_sentBytes : is_u64 (us_sentBytes s);
  so_received : is_u64 (us_receivedPackets s);
  so_receivedBytes : is_u64 (us_receivedBytes s);
}.

Lemma found_delete m seq l : seq ∉ l -> found (delete seq m) l = found m l.
Proof.
  intros Hl. unfold found. induction l as [|s l IH]; [done|]. apply not_elem_of_cons in Hl as [Hne Hl].
  cbn [omap list_omap]. by rewrite lookup_delete_ne, IH.
Qed.

(** The packet before the next sequence number is the current one, or has no 16-bit key. *)
Lemma prev_absent ht (m : gmap Z TwccRtpPacketInfo) seq :
  table_is ht (Some <$> m) -> is_u16 seq -> m !! seq = None -> m !! u64 (u16 (seq + 1) - 1) = None.
Proof.
  intros Ht Hu Hn. destruct (m !! u64 (u16 (seq + 1) - 1)) as [i|] eqn:E; [exfalso|done].
  assert (Hk : is_u16 (u64 (u16 (seq + 1) - 1))).
  { apply (ti_keys _ _ Ht). rewrite (ti_map _ _ Ht), lookup_fmap, E. by eexists. }
  assert (Es : u64 (u16 (seq + 1) - 1) = seq) by (revert Hu Hk; width_lia).
  rewrite Es in E. congruence.
Qed.

(** The body of the loop. *)
Lemma updateStep_spec s (m : gmap Z TwccRtpPacketInfo) seq :
  table_is (us_table s) (Some <$> m) -> timed m -> is_u16 seq -> stats_ok s ->
  exists s', updateStep seq s = Ok (STATUS_SUCCESS, s') /\ stats_ok s' /\ updated_to s m seq 1 s' /\
    match m !! seq with
    | Some i => localStartTimeRecorded s' = true /\
        default 0 (localStartTimeKvs s') =
          if localStartTimeRecorded s then default 0 (localStartTimeKvs s) else start_time m seq [i]
    | None => localStartTimeRecorded s' =
                (if localStartTimeRecorded s then true else bool_decide (is_Some (m !! u64 (seq - 1)))) /\
        (localStartTimeRecorded s' = true ->
         default 0 (localStartTimeKvs s') =
          if localStartTimeRecorded s then default 0 (localStartTimeKvs s) else start_time m seq [])
    end.
Proof.
  intros Ht Hm Hu Hs. destruct (Hs) as [H0 H1 H2 H3 H4]. unfold updateStep.
  assert (Hst : exists start rec, (if localStartTimeRecorded s then Ok (localStartTimeKvs s, true)
                  else findStartTime (us_table s) seq (localStartTimeKvs s)) = Ok (Some start, rec) /\
                rec = (if localStartTimeRecorded s then true
                       else bool_decide (is_Some (m !! u64 (seq - 1))) || bool_decide (is_Some (m !! seq))) /\
                (rec = true -> start = if localStartTimeRecorded s then default 0 (localStartTimeKvs s)
                        else start_time m seq (found m [seq]))).
  { destruct (localStartTimeRecorded s).
    - destruct (H0 eq_refl) as [t ->]. by exists t, true.
    - rewrite (findStartTime_spec _ m) by done. unfold start_time, found. cbn [omap list_omap].
      destruct (m !! u64 (seq - 1)) as [i|], (m !! seq) as [j|]; cbn; do 2 eexists; done. }
  destruct Hst as (start & rec & -> & Hrec & Hstart). cbn [mbind res_bind us_table].
  rewrite (tableGet_is _ _ _ Ht), lookup_fmap. cbn [mbind res_bind].
  destruct (m !! seq) as [i|] eqn:Ei; cbn [fmap option_fmap option_map].
  - destruct (updateStep_table _ _ _ _ Ht Ei) as (ht' & -> & Ht'). cbn [mbind res_bind].
    assert (Erec : rec = true).
    { rewrite Hrec. destruct (localStartTimeRecorded s); [done|]. rewrite (bool_decide_true (is_Some (Some i))) by done. apply orb_true_r. }
    specialize (Hstart Erec). unfold found in Hstart. cbn [omap list_omap] in Hstart. rewrite Ei in Hstart.
    eexists. split; [done|]. split; [|split; [|split; [exact Erec|exact Hstart]]].
    + split; cbn; [done|..]; repeat case_match; auto with width.
    + split; unfold found; cbn -[u64 i64 delete]; rewrite ?Ei; cbn -[u64 i64 delete].
      * done.
      * done.
      * by rewrite Z.add_0_r.
      * unfold was_received. destruct (negb _); cbn; [done|]. by rewrite Z.add_0_r, u64_id.
      * unfold was_received. destruct (negb _); cbn -[u64]; rewrite ?Z.add_0_r; [done|]. by rewrite u64_id.
      * unfold duration_of. cbn. by rewrite Hstart.
  - eexists. split; [done|]. split; [|split; [|split]].
    + split; cbn; done.
    + split; unfold found; cbn -[u64 i64]; rewrite ?Ei; cbn -[u64]; rewrite ?Z.add_0_r, ?u64_id by done; done.
    + cbn. rewrite Hrec. destruct (localStartTimeRecorded s); [done|]. rewrite (bool_decide_false (is_Some None)) by (by intros [? ?]).
      apply orb_false_r.
    + cbn. intros E. rewrite Hstart by done. unfold found. cbn. by rewrite Ei.
Qed.

Lemma unreported_one m seq :
  unreported [seq] m = match m !! seq with Some i => if was_received i then delete seq m else m | None => m end.
Proof. done. Qed.

Lemma unreported_found m seq l : seq ∉ l -> found (unreported [seq] m) l = found m l.
Proof.
  intros Hl. rewrite unreported_one. repeat case_match; [by apply found_delete|done..].
Qed.

Lemma unreported_timed m seq : timed m -> timed (unreported [seq] m).
Proof. intros H. rewrite unreported_one. repeat case_match; [by apply map_Forall_delete|done..]. Qed.

Lemma duration_of_cons start i l d : duration_of start (i :: l) d = duration_of start l (i64 (localTimeKvs i - start)).
Proof. unfold duration_of. destruct l; [done|]. by rewrite last_cons_cons; destruct (list.last _) eqn:E; [|by apply last_None in E]. Qed.

Lemma updateLoop_spec k n stop seq s m :
  table_is (us_table s) (Some <$> m) -> timed m -> is_u16 seq -> stats_ok s ->
  stop = u16 (seq + Z.of_nat k) -> Z.of_nat k < 2 ^ 16 -> (k <= n)%nat ->
  exists s', updateLoop n stop seq s = Ok (STATUS_SUCCESS, s') /\ updated_to s m seq k s'.
Proof.
  revert n seq s m. induction k as [|k IH]; intros n seq s m Ht Hm Hu Hs Hstop Hk Hn.
  { rewrite Z.add_0_r, u16_id in Hstop by done. subst. exists s. split; [by destruct n; cbn; rewrite Z.eqb_refl|].
    destruct Hs. split; cbn -[u64]; rewrite ?Z.add_0_r, ?u64_id by done; done. }
  destruct n as [|n]; [lia|]. cbn [updateLoop].
  assert (Hne : seq <> stop) by (subst stop; revert Hu; width_lia). apply Z.eqb_neq in Hne. rewrite Hne.
  destruct (updateStep_spec s m seq Ht Hm Hu Hs) as (s1 & -> & Hs1 & U1 & Hrec). cbn [mbind res_bind STATUS_FAILED].
  assert (Hfresh : seq ∉ seqs (u16 (seq + 1)) k) by (apply seqs_fresh; [done|lia]).
  destruct (IH n (u16 (seq + 1)) s1 (unreported [seq] m)) as (s2 & E2 & U2).
  { apply U1. } { by apply unreported_timed. } { auto with width. } { done. }
  { rewrite u16_plus. subst stop. f_equal. lia. } { lia. } { lia. }
  exists s2. split; [exact E2|]. destruct U1, U2. rewrite (unreported_found m seq) in * by done.
  assert (Ef : found m (seqs seq (S k)) = found m [seq] ++ found m (seqs (u16 (seq + 1)) k)).
  { unfold found. cbn [seqs omap list_omap]. by destruct (m !! seq). }
  set (rest := found m (seqs (u16 (seq + 1)) k)) in *. change (seqs seq 1) with [seq] in *.
  split; rewrite ?Ef.
  - exact ut_table1.
  - rewrite ut_sent1, ut_sent0, u64_plus, length_app. f_equal. lia.
  - rewrite ut_sentBytes1, ut_sentBytes0, u64_plus. f_equal. unfold bytes_of. rewrite sumBy_app. lia.
  - rewrite ut_received1, ut_received0, u64_plus. unfold received. rewrite List.filter_app, length_app. f_equal. lia.
  - rewrite ut_receivedBytes1, ut_receivedBytes0, u64_plus. unfold bytes_of, received. rewrite List.filter_app, sumBy_app. f_equal. lia.
  - rewrite ut_duration1, ut_duration0. clear -Hrec Ht Hu Hs. unfold found in *. cbn [omap list_omap] in *.
    destruct (m !! seq) as [i|] eqn:Ei; cbn [app].
    + destruct Hrec as [-> ->]. rewrite (duration_of_cons _ i rest). unfold start_time, duration_of at 2. cbn.
      by destruct (localStartTimeRecorded s), (m !! u64 (seq - 1)).
    + destruct Hrec as [Er Es]. rewrite Er in *. rewrite unreported_one, Ei. unfold duration_of at 2. cbn [list.last].
      destruct (localStartTimeRecorded s); [by rewrite Es|]. unfold start_time in *.
      rewrite (prev_absent _ m seq Ht Hu Ei).
      destruct (m !! u64 (seq - 1)) as [j|]; [|done]. rewrite bool_decide_true in Es |- * by done. by rewrite Es.
Qed.

(** ** Main results *)

Lemma update_stats g m k :
  sent_is g m -> timed m -> is_u16 (prevReportedBaseSeqNum g) ->
  u16 (lastReportedSeqNum g + 1) = u16 (prevReportedBaseSeqNum g + Z.of_nat k) -> Z.of_nat k < 2 ^ 16 ->
  let window := seqs (prevReportedBaseSeqNum g) k in
  let sent := found m window in
  exists s, updateTwccHashTable g = Ok (STATUS_SUCCESS, s) /\
    table_is (us_table s) (Some <$> unreported window m) /\
    us_sentPackets s = u64 (Z.of_nat (length sent)) /\ us_sentBytes s = u64 (bytes_of sent) /\
    us_receivedPackets s = u64 (Z.of_nat (length (received sent))) /\
    us_receivedBytes s = u64 (bytes_of (received sent)) /\
    us_duration s = duration_of (start_time m (prevReportedBaseSeqNum g) sent) sent 0.
Proof.
  intros Hs Hm Hu Hstop Hk. cbv zeta. unfold updateTwccHashTable.
  match goal with |- context [updateLoop _ _ _ ?s0] => set (s := s0) end.
  destruct (updateLoop_spec k seqCount (u16 (lastReportedSeqNum g + 1)) (prevReportedBaseSeqNum g) s m)
    as (s' & E & U); [exact Hs|done|done|by split|done|done|pose proof seqCount_val; lia|].
  exists s'. split; [exact E|]. destruct U. split_and!; done.
Qed.

(** C25. The statistics of a feedback report: over the sequence numbers from the report's
    base to its last one, across the wrap-around, the sender counts the packets it recorded
    and their bytes, and those of them reported as received; the received ones leave the
    table and the lost ones stay.  The duration runs from the packet with the key base - 1, when
    it is recorded, and otherwise from the first recorded packet of the window, to the last
    recorded one.  The key is computed in 64 bits: for the base 0 it is 2^64 - 1 and not
    65535, so after a wrap-around the packet before the window is not found and the duration
    starts inside the window.  Recorded packets have a send time other than 0. *)
Theorem updateTwccHashTable_spec g m
  (Hs : sent_is g m) (Hm : timed m) (Hu : is_u16 (prevReportedBaseSeqNum g)) (Hl : is_u16 (lastReportedSeqNum g)) :
  let k := Z.to_nat (u16 (lastReportedSeqNum g + 1 - prevReportedBaseSeqNum g)) in
  let window := seqs (prevReportedBaseSeqNum g) k in
  let sent := found m window in
  exists s, updateTwccHashTable g = Ok (STATUS_SUCCESS, s) /\
    table_is (us_table s) (Some <$> unreported window m) /\
    us_sentPackets s = u64 (Z.of_nat (length sent)) /\ us_sentBytes s = u64 (bytes_of sent) /\
    us_receivedPackets s = u64 (Z.of_nat (length (received sent))) /\
    us_receivedBytes s = u64 (bytes_of (received sent)) /\
    us_duration s = duration_of (start_time m (prevReportedBaseSeqNum g) sent) sent 0.
Proof. cbv zeta. apply update_stats; try done; revert Hu Hl; width_lia. Qed.

(** [m'] is [m] with the times of a report: the times are those of [times], up to the
    rounding, and exactly those when they are whole ticks. *)
Definition whole_ticks (times : list (option Z)) : Prop := Forall (fun a => forall t, a = Some t -> t mod 2500 = 0) times.
Definition reported (base : Z) (times : list (option Z)) (m m' : gmap Z TwccRtpPacketInfo) : Prop :=
  (forall k, k ∉ seqs base (length times) -> m' !! k = m !! k) /\
  forall i a, times !! i = Some a -> exists t, close i a t /\ (whole_ticks times -> t = a) /\
    m' !! u16 (base + Z.of_nat i) = with_time (default TWCC_PACKET_LOST_TIME t) <$> m !! u16 (base + Z.of_nat i).

Lemma record_reported base ref times m :
  is_u16 base -> 0 <= ref * 640000 < 2 ^ 63 -> gaps_ok 0 (ref * 640000) times ->
  Z.of_nat (length times) <= 2 ^ 16 ->
  reported base times m
    (record_times base (report_times (ref * 640000) (encode_arrivals (ref * 640000) times)) m).
Proof.
  intros Hu Hr Hg Hn. set (ts := report_times _ _).
  assert (Hlen : length ts = length times) by (unfold ts; by rewrite length_report_times, length_encode).
  split.
  - intros k Hk. apply record_times_other. by rewrite Hlen.
  - intros i a Hi. destruct (lookup_lt_is_Some_2 ts i) as [t Ht]; [rewrite Hlen; by eapply lookup_lt_Some|].
    exists t. split_and!.
    + apply (encode_close 0 (ref * 640000) (ref * 640000) times ltac:(lia) Hr ltac:(lia) Hg ltac:(lia) i a t Hi Ht).
    + intros Hw. unfold ts in Ht. rewrite (encode_exact 0) in Ht; [congruence|done| |done|done].
      rewrite <- Z.mul_mod_idemp_r by lia. change (640000 mod 2500) with 0. by rewrite Z.mul_0_r.
    + apply record_times_lookup; [done|lia|done].
Qed.

Lemma fold_deltaSize l n : fold_left (fun size r => size + deltaSize r.1) l n = n + blen (deltas_bytes l).
Proof.
  revert n. induction l as [|r l IH]; intros n; cbn [fold_left]; [by rewrite Z.add_0_r|]. rewrite IH.
  change (deltas_bytes (r :: l)) with (delta_bytes r ++ deltas_bytes l). rewrite blen_app.
  unfold deltaSize, delta_bytes. repeat case_match; rewrite ?blen_be16, ?blen_cons, ?blen_nil; lia.
Qed.

Lemma feedbackAllocSize_val trailer count l :
  feedbackAllocSize trailer count l =
  (23 + (count + 6) / 7 * 2 + blen (deltas_bytes l)) / 4 * 4 + 14 + trailer.
Proof.
  unfold feedbackAllocSize, SRTP_AUTH_TAG_OVERHEAD. rewrite fold_deltaSize. rewrite <- Z.ldiff_land.
  change 3 with (Z.ones 2) at 2. rewrite Z.ldiff_ones_r, Z.shiftl_mul_pow2, Z.shiftr_div_pow2 by lia.
  change (2 ^ 2) with 4. replace (20 + (count + 6) / 7 * 2 + blen (deltas_bytes l) + 3)
    with (23 + (count + 6) / 7 * 2 + blen (deltas_bytes l)) by lia. lia.
Qed.

(** A manager that has packets to report: the window's arrival times, the first of them and
    the reports.  The reference time is a 24-bit number of units of 64 ms (12 days). *)
Section Feedback.
Context (mgr : TwccReceiverManager) (arr : gmap Z TwccReceivedPacketInfo) (a0 : Z).
Definition window_size : Z := u16 (lastSeqNum mgr - firstSeqNum mgr + 1).
Definition window : list Z := seqs (firstSeqNum mgr) (Z.to_nat window_size).
Definition window_reports : list (Z * Z) := encode_arrivals (ref_units a0 * 640000) (arrivals arr window).

Record has_window : Prop := {
  hw_table : table_is (pReceivedPktsHashTable mgr) arr;
  hw_first : firstPacketReceived mgr = true;
  hw_base : is_u16 (firstSeqNum mgr);
  hw_size : 1 <= window_size <= TWCC_MAX_PACKET_STATUS_COUNT;
  hw_arrival : first_arrival (arrivals arr window) = Some a0;
  hw_time : 0 <= a0 < 2 ^ 24 * 640000;
}.

Lemma length_window : 0 <= window_size -> Z.of_nat (length window_reports) = window_size.
Proof. intros. unfold window_reports, arrivals, window. rewrite length_encode, length_map, length_seqs. lia. Qed.

Lemma build_spec trailer senderSsrc :
  has_window -> 0 <= trailer ->
  let head := fb_head senderSsrc (mediaSourceSsrc mgr) (firstSeqNum mgr) window_size (ref_units a0) (feedbackPacketCount mgr) in
  let alloc := feedbackAllocSize trailer window_size window_reports in
  if fb_size window_reports <=? alloc
  then exists mgr', buildTwccFeedback trailer senderSsrc true true mgr =
         Ok (STATUS_SUCCESS, mgr', Some (fb_bytes head window_reports
               ++ replicate (Z.to_nat (alloc - fb_size window_reports)) 0, fb_size window_reports)) /\
       table_is (pReceivedPktsHashTable mgr') (foldl (fun m s => delete s m) arr window) /\
       firstPacketReceived mgr' = false
  else buildTwccFeedback trailer senderSsrc true true mgr = Fault.
Proof.
  intros [Ht Hf Hb Hn Ha Ha'] Htr. cbv zeta. unfold buildTwccFeedback. rewrite Hf. cbn [negb].
  fold window_size. rewrite (proj2 (Z.ltb_ge TWCC_MAX_PACKET_STATUS_COUNT window_size)) by lia.
  rewrite (firstArrival_spec _ _ _ _ Ht). cbn [mbind res_bind]. fold window. rewrite Ha.
  destruct (ref_units_eq a0 Ha') as [-> ->].
  rewrite (statusLoop_spec _ _ _ _ _ Ht). cbn [mbind res_bind]. fold window. fold window_reports.
  set (alloc := feedbackAllocSize _ _ _).
  assert (20 <= alloc).
  { unfold alloc. rewrite feedbackAllocSize_val. pose proof (blen_nonneg (deltas_bytes window_reports)).
    Z.div_mod_to_equations; lia. }
  rewrite feedbackPacket_spec by done. destruct (fb_size window_reports <=? alloc); [|done].
  cbn [mbind res_bind]. destruct (clearLoop_spec (Z.to_nat window_size) _ _ (firstSeqNum mgr) Ht) as (ht' & -> & Ht').
  cbn [mbind res_bind]. eexists. split; [done|]. split; [exact Ht'|done].
Qed.
End Feedback.

(** C39. The feedback packet is written into a buffer sized for one status chunk per seven
    packets, but the chunks written are run-length chunks, one per run of equal statuses.
    When losses alternate with arrivals so often that the runs outnumber the estimate and
    the room reserved for encryption, the packet is written past the end of the buffer. *)
Theorem twccFeedback_overflow mgr arr a0 trailer senderSsrc
  (Hw : has_window mgr arr a0) (Htr : 0 <= trailer)
  (Hruns : 17 + trailer + 2 * ((window_size mgr + 6) / 7) <
           2 * Z.of_nat (length (runs (length (window_reports mgr arr a0)) (window_reports mgr arr a0)))) :
  buildTwccFeedback trailer senderSsrc true true mgr = Fault.
Proof.
  pose proof (build_spec mgr arr a0 trailer senderSsrc Hw Htr) as H. cbv zeta in H.
  rewrite (proj2 (Z.leb_gt _ _)) in H; [exact H|]. rewrite feedbackAllocSize_val. unfold fb_size, fb_chunks.
  rewrite blen_chunks_bytes. destruct (fb_sizes (window_reports mgr arr a0)) as (_ & _ & ?).
  Z.div_mod_to_equations; lia.
Qed.

(** The calls a report causes, in terms of the sent packets with their times. *)
Definition report_calls (m : gmap Z TwccRtpPacketInfo) (base : Z) (window : list Z) : list TwccCall :=
  let sent := found m window in
  let d := duration_of (start_time m base sent) sent 0 in
  let reps := omap (fun s => reportOf s <$> m !! s) window in
  (match reps with [] => [] | _ => [OnTwccPacketReport reps] end) ++
  (if 0 <? d
   then [OnSenderBandwidthEstimation (u64 (bytes_of sent)) (u64 (bytes_of (received sent)))
           (u64 (Z.of_nat (length sent))) (u64 (Z.of_nat (length (received sent)))) d]
   else []).

Lemma with_time_timed t seq m : timed m -> timed (alter (with_time t) seq m).
Proof.
  intros H k i Hk. destruct (decide (k = seq)) as [->|Hne].
  - rewrite lookup_alter_eq in Hk. destruct (m !! seq) as [j|] eqn:E; [|done]. injection Hk as <-. exact (H _ _ E).
  - rewrite lookup_alter_ne in Hk by done. exact (H _ _ Hk).
Qed.

Lemma record_times_timed seq ts m : timed m -> timed (record_times seq ts m).
Proof. revert seq m. induction ts as [|t ts IH]; intros seq m H; cbn; [done|]. apply IH. by apply with_time_timed. Qed.

(** What the application of the sender sees once a report is parsed. *)
Lemma onRtcpTwccPacket_parsed p g g' m base k :
  parseRtcpTwccPacket (Some p) (Some g) = Ok (STATUS_SUCCESS, g') -> sent_is g' m -> timed m ->
  prevReportedBaseSeqNum g' = base -> is_u16 base -> lastReportedSeqNum g' = u16 (base + Z.of_nat k - 1) ->
  1 <= Z.of_nat k < 2 ^ 16 ->
  exists g'', onRtcpTwccPacket true true true (Some p) (Some g) =
    Ok (STATUS_SUCCESS, Some g'', report_calls m base (seqs base k)) /\ sent_is g'' (unreported (seqs base k) m).
Proof.
  intros Hp Hs Hm <- Hu Hl Hk. unfold onRtcpTwccPacket. cbn [orb negb]. rewrite Hp. cbn [mbind res_bind STATUS_FAILED].
  set (base := prevReportedBaseSeqNum g') in *.
  assert (Hstop : u16 (lastReportedSeqNum g' + 1) = u16 (base + Z.of_nat k))
    by (rewrite Hl, u16_plus; f_equal; lia).
  assert (Emax : u16 (lastReportedSeqNum g' - base + 1) = Z.of_nat k) by (rewrite Hl; revert Hu; width_lia).
  rewrite Emax, (proj2 (Z.ltb_lt 0 _)) by lia. cbn [andb].
  pose proof seqCount_val. rewrite (reportLoop_spec seqCount _ m _ base (Z.of_nat k) k Hs Hu Hstop ltac:(lia) ltac:(lia) ltac:(lia)). rewrite res_bind_ok.
  destruct (update_stats g' m k Hs Hm Hu Hstop ltac:(lia)) as (s & -> & Ht & E1 & E2 & E3 & E4 & E5).
  rewrite res_bind_ok, E1, E2, E3, E4, E5. eexists. split; [reflexivity|]. exact Ht.
Qed.

(** C8. Round trip of transport-wide feedback, for a window of packets (1 to the most that a
    report holds, one of them received) under two conditions.  The arrivals of consecutive
    received packets are less than 8.192 s apart, the first within the 24 bits of the
    reference time, and a packet that arrived before its predecessor did not do so in the
    first moments of the clock; longer gaps are reported as losses.  And the packet fits the
    buffer allocated for it, which the builder does not check (it fails for some alternating
    losses, C39).  Then the receiver builds a feedback packet for its window; a peer that parses it, on any host, records for every packet of the window the
    arrival time, or that it was lost, in the entry of that packet if it has one, and changes
    no other entry; it reports exactly these records to the application, with the statistics
    of the window.  The times are exact when the arrivals are whole ticks of 250 us, and
    otherwise off by less than one tick per packet of the window.  The receiver forgets the
    window. *)
Theorem twcc_feedback_roundtrip h mgr arr a0 trailer senderSsrc p0 g m
  (Hw : has_window mgr arr a0) (Htr : 0 <= trailer) (Hgaps : gaps_ok 0 a0 (arrivals arr (window mgr)))
  (Hfit : fb_size (window_reports mgr arr a0) <= feedbackAllocSize trailer (window_size mgr) (window_reports mgr arr a0))
  (Hs : sent_is g m) (Hm : timed m) :
  exists mgr' buf len p g' m',
    buildTwccFeedback trailer senderSsrc true true mgr = Ok (STATUS_SUCCESS, mgr', Some (buf, len)) /\
    table_is (pReceivedPktsHashTable mgr') (foldl (fun m s => delete s m) arr (window mgr)) /\
    setRtcpPacketFromBytes h (take (Z.to_nat len) buf) len (Some p0) = Ok (STATUS_SUCCESS, p) /\
    onRtcpTwccPacket true true true (Some p) (Some g) =
      Ok (STATUS_SUCCESS, Some g', report_calls m' (firstSeqNum mgr) (window mgr)) /\
    reported (firstSeqNum mgr) (arrivals arr (window mgr)) m m' /\ sent_is g' (unreported (window mgr) m').
Proof.
  pose proof (build_spec mgr arr a0 trailer senderSsrc Hw Htr) as H. cbv zeta in H.
  rewrite (proj2 (Z.leb_le _ _)) in H by done. destruct H as (mgr' & E & Ht & _). destruct Hw as [_ _ Hb Hn Ha Ha'].
  set (l := window_reports mgr arr a0) in *. set (times := arrivals arr (window mgr)) in *.
  assert (Href : 0 <= ref_units a0 < 2 ^ 24 /\ ref_units a0 * 640000 <= a0 < ref_units a0 * 640000 + 640000)
    by (unfold ref_units; Z.div_mod_to_equations; lia).
  destruct Href as [Hr Hra].
  assert (Hg' : gaps_ok 0 (ref_units a0 * 640000) times) by (apply (gaps_ok_ref 0 a0); [done|done|lia|lia]).
  assert (Hlen : Z.of_nat (length l) = window_size mgr) by (apply length_window; lia).
  assert (Hrep : Forall report_ok l) by (apply (encode_ok 0); [lia|done]).
  destruct (parse_feedback h senderSsrc (mediaSourceSsrc mgr) (firstSeqNum mgr) (ref_units a0) (feedbackPacketCount mgr)
              l g m p0 Hrep ltac:(lia) Hb Hr Hs) as (p & g1 & Ep & _ & _ & Eparse & Hs1 & Hbase & Hlast & _).
  rewrite Hlen in *. set (head := fb_head _ _ _ _ _ _) in *.
  assert (Hbl : blen (fb_bytes head l) = fb_size l).
  { destruct (fb_head_ok senderSsrc (mediaSourceSsrc mgr) (firstSeqNum mgr) (window_size mgr) (ref_units a0)
                (feedbackPacketCount mgr)) as [Hh H16]. destruct (fb_body_ok head l Hh H16) as (_ & _ & E4).
    unfold fb_bytes. autorewrite with blen. rewrite E4. lia. }
  set (m' := record_times (firstSeqNum mgr) (report_times (ref_units a0 * 640000) l) m) in *.
  unfold TWCC_MAX_PACKET_STATUS_COUNT in Hn.
  destruct (onRtcpTwccPacket_parsed p g g1 m' (firstSeqNum mgr) (Z.to_nat (window_size mgr)) Eparse Hs1) as (g2 & Eon & Hs2).
  { by apply record_times_timed. } { done. } { done. } { rewrite Z2Nat.id by lia. done. } { lia. }
  exists mgr', (fb_bytes head l ++ replicate (Z.to_nat (feedbackAllocSize trailer (window_size mgr) l - fb_size l)) 0),
    (fb_size l), p, g2, m'.
  split; [exact E|]. split; [exact Ht|]. split; [|split; [exact Eon|split; [|exact Hs2]]].
  - rewrite take_app_length' by (rewrite <- Hbl; unfold blen; lia). rewrite <- Hbl. exact Ep.
  - apply record_reported; [done|lia|done|]. unfold times, arrivals, window. rewrite length_map, length_seqs. lia.
Qed.

(** ** The rolling window of sent packets *)

(** [m'] is [m] without packets older than the estimator's window at time [sent]; of the
    packets in [passed] only those sent later than [sent] are left. *)
Record pruned (sent : Z) (passed : list Z) (m m' : gmap Z TwccRtpPacketInfo) : Prop := {
  pr_sub : m' ⊆ m;
  pr_old : forall k i, m !! k = Some i -> m' !! k = None -> TWCC_ESTIMATOR_TIME_WINDOW < sent - localTimeKvs i;
  pr_passed : forall k i, k ∈ passed -> m' !! k = Some i -> sent < localTimeKvs i;
}.

Lemma pruned_step sent seq l (m m1 m2 : gmap Z TwccRtpPacketInfo) :
  m1 ⊆ m ->
  (forall k i, m !! k = Some i -> m1 !! k = None -> TWCC_ESTIMATOR_TIME_WINDOW < sent - localTimeKvs i) ->
  (forall i, m1 !! seq = Some i -> sent < localTimeKvs i) ->
  pruned sent l m1 m2 -> pruned sent (seq :: l) m m2.
Proof.
  intros Hsub Hold Hseq [S O P]. split.
  - by transitivity m1.
  - intros k i Hi Hn. destruct (m1 !! k) as [j|] eqn:E; [|by apply (Hold k)].
    pose proof (lookup_weaken _ _ _ _ E Hsub) as E'. rewrite Hi in E'. injection E' as ->. by apply (O k).
  - intros k i Hk Hi. apply elem_of_cons in Hk as [->|Hk]; [|by apply (P k)]. apply Hseq. by apply (lookup_weaken _ _ _ _ Hi).
Qed.

(** The outcome of the loop: [k] sequence numbers are passed. *)
Definition deletes (sent : Z) (seq ending : Z) (m : gmap Z TwccRtpPacketInfo)
    (r : res (STATUS * HashTable (option TwccRtpPacketInfo) * Z)) : Prop :=
  exists ht' m' k, r = Ok (STATUS_SUCCESS, ht', u16 (seq + Z.of_nat k)) /\ table_is ht' (Some <$> m') /\
    pruned sent (seqs seq k) m m' /\ Z.of_nat k <= u16 (ending - seq) + 1.

Lemma deletionLoop_spec n sent ending ht m seq :
  table_is ht (Some <$> m) -> is_u16 seq -> is_u16 ending -> u16 (ending - seq) < Z.of_nat n ->
  deletes sent seq ending m (deletionLoop n sent ending ht seq).
Proof.
  revert ht m seq. induction n as [|n IH]; intros ht m seq Ht Hu He Hn; [pose proof (u16_range (ending - seq)); unfold is_u16 in *; lia|].
  assert (Hgo : forall ht1 m1, table_is ht1 (Some <$> m1) -> m1 ⊆ m ->
    (forall k i, m !! k = Some i -> m1 !! k = None -> TWCC_ESTIMATOR_TIME_WINDOW < sent - localTimeKvs i) ->
    (forall i, m1 !! seq = Some i -> sent < localTimeKvs i) ->
    deletes sent seq ending m (if negb (u16 (seq + 1) =? u16 (ending + 1))
      then deletionLoop n sent ending ht1 (u16 (seq + 1)) else Ok (STATUS_SUCCESS, ht1, u16 (seq + 1)))).
  { intros ht1 m1 Ht1 Hsub Hold Hseq. destruct (Z.eqb_spec (u16 (seq + 1)) (u16 (ending + 1))) as [E|E]; cbn [negb].
    - exists ht1, m1, 1%nat. split_and!; [done|done| |pose proof (u16_range (ending - seq)) as [? ?]; lia].
      apply (pruned_step sent seq [] m m1); [done..|]. split; [done| |]; [congruence|]. intros k i Hk. by apply elem_of_nil in Hk.
    - assert (Hdist : u16 (ending - u16 (seq + 1)) = u16 (ending - seq) - 1) by (revert E Hu He; width_lia).
      destruct (IH ht1 m1 (u16 (seq + 1)) Ht1 ltac:(auto with width) He ltac:(lia)) as (ht' & m' & k & -> & Ht' & P & Hk).
      exists ht', m', (S k). split_and!; [|done|by apply (pruned_step _ _ _ _ m1)|lia].
      rewrite u16_plus. do 3 f_equal. lia. }
  cbn [deletionLoop]. rewrite (tableGet_is _ _ _ Ht), lookup_fmap. cbn [mbind res_bind].
  destruct (m !! seq) as [i|] eqn:Ei; cbn [fmap option_fmap option_map mbind res_bind].
  - destruct (Z.leb_spec (localTimeKvs i) sent) as [Hle|Hgt]; [destruct (Z.ltb_spec TWCC_ESTIMATOR_TIME_WINDOW (sent - localTimeKvs i))|].
    + destruct (remove_is ht _ seq Ht) as (ht1 & -> & Ht1); [rewrite lookup_fmap, Ei; by eexists|]. cbn [mbind res_bind STATUS_FAILED negb andb].
      rewrite <- fmap_delete in Ht1. apply (Hgo ht1 (delete seq m) Ht1); [apply delete_subseteq| |by rewrite lookup_delete_eq].
      intros k j Hj Hd. destruct (decide (k = seq)) as [->|Hne]; [congruence|]. rewrite lookup_delete_ne in Hd by done. congruence.
    + cbn [mbind res_bind STATUS_FAILED negb andb]. exists ht, m, 0%nat. rewrite Z.add_0_r, u16_id by done.
      pose proof (u16_range (ending - seq)) as [? ?]. split_and!; [done|done| |lia].
      split; [done|congruence|]. intros k j Hk. by apply elem_of_nil in Hk.
    + cbn [mbind res_bind STATUS_FAILED negb andb]. apply (Hgo ht m Ht); [done|congruence|]. intros j Hj. rewrite Ei in Hj. by injection Hj as <-.
  - cbn [STATUS_FAILED negb andb]. apply (Hgo ht m Ht); [done|congruence|]. intros j Hj. congruence.
Qed.

Lemma on_packet_sent g m p e s :
  sent_is g m -> is_u16 (firstSeqNumInRollingWindow g) ->
  extensionProfile (header p) = TWCC_EXT_PROFILE -> extensionPayload (header p) = Some e ->
  bytes_at (p_obj e) (p_off e + 1) (be16 s) -> is_u16 s ->
  let info := {| localTimeKvs := sentTime p; remoteTimeKvs := TWCC_PACKET_LOST_TIME; packetSize := payloadLength p |} in
  exists g' m' k, twccManagerOnPacketSent true true true (Some g) p = Ok (STATUS_SUCCESS, Some g') /\
    sent_is g' m' /\ pruned (sentTime p) (seqs (firstSeqNumInRollingWindow g) k) (<[s := info]> m) m' /\
    firstSeqNumInRollingWindow g' = u16 (firstSeqNumInRollingWindow g + Z.of_nat k).
Proof.
  intros Hs Hf Hp He Hat Hu. cbv zeta. unfold twccManagerOnPacketSent. rewrite Hp, He, Z.eqb_refl. cbn [negb].
  rewrite (bytes_at_get16 _ _ _ Hat). cbn [mbind res_bind]. rewrite u16_i16, (u16_id s) by done.
  set (info := {| localTimeKvs := _; remoteTimeKvs := _; packetSize := _ |}).
  destruct (upsert_is _ _ s (Some info) Hs Hu) as (ht1 & -> & Ht1). rewrite <- fmap_insert in Ht1.
  unfold twccRollingWindowDeletion.
  match goal with |- context [deletionLoop _ _ _ ?a ?b] => change a with ht1; change b with (firstSeqNumInRollingWindow g) end.
  destruct (deletionLoop_spec seqCount (sentTime p) s ht1 (<[s := info]> m) (firstSeqNumInRollingWindow g) Ht1 Hf Hu)
    as (ht' & m' & k & -> & Ht' & P & _); [rewrite seqCount_val; apply u16_range|].
  cbn [mbind res_bind STATUS_FAILED]. eexists _, m', k. split; [done|]. split; [exact Ht'|]. by split.
Qed.

(** Recording a sent packet always ends, also when the scan of the rolling window has to
    go through all 16-bit sequence numbers.  The packet is recorded under its transport-wide
    sequence number and stays; only packets sent more than a second before it are forgotten;
    and the packets the window has moved past are gone, except those that were sent later. *)
Theorem twccManagerOnPacketSent_records g m p e s
  (Hs : sent_is g m) (Hf : is_u16 (firstSeqNumInRollingWindow g)) (Hp : extensionProfile (header p) = TWCC_EXT_PROFILE)
  (He : extensionPayload (header p) = Some e) (Hat : bytes_at (p_obj e) (p_off e + 1) (be16 s)) (Hu : is_u16 s) :
  let info := {| localTimeKvs := sentTime p; remoteTimeKvs := TWCC_PACKET_LOST_TIME; packetSize := payloadLength p |} in
  exists g' m' k, twccManagerOnPacketSent true true true (Some g) p = Ok (STATUS_SUCCESS, Some g') /\
    sent_is g' m' /\ m' !! s = Some info /\
    pruned (sentTime p) (seqs (firstSeqNumInRollingWindow g) k) (<[s := info]> m) m' /\
    firstSeqNumInRollingWindow g' = u16 (firstSeqNumInRollingWindow g + Z.of_nat k).
Proof.
  cbv zeta. destruct (on_packet_sent g m p e s Hs Hf Hp He Hat Hu) as (g' & m' & k & E & Hs' & P & Ef).
  exists g', m', k. split_and!; try done.
  match goal with |- _ = Some ?i => set (info := i) in * end.
  destruct (m' !! s) as [j|] eqn:Ej.
  - pose proof (lookup_weaken _ _ _ _ Ej (pr_sub _ _ _ _ P)) as E'. by rewrite lookup_insert_eq in E'.
  - pose proof (pr_old _ _ _ _ P s info ltac:(apply lookup_insert_eq) Ej) as H.
    change (localTimeKvs info) with (sentTime p) in H.
    unfold TWCC_ESTIMATOR_TIME_WINDOW, HUNDREDS_OF_NANOS_IN_A_SECOND in H. lia.
Qed.

(** ** The receiver's window *)

(** The extension element attached to a sent packet. *)
Lemma TWCC_PAYLOAD_bytes extId s :
  0 <= extId < 16 -> is_u16 s -> TWCC_PAYLOAD extId s = [16 * extId + 1] ++ be16 s ++ [0].
Proof.
  #[local] Transparent be16 be32.
  intros He Hs. unfold TWCC_PAYLOAD. change 0xf with (Z.ones 4). rewrite land_mask by lia.
  change (2 ^ 4) with 16. rewrite (Z.mod_small extId) by lia. unfold is_u16 in Hs.
  assert (E1 : Z.lor (Z.shiftl extId 28) (Z.shiftl 1 24) = Z.shiftl (16 * extId + 1) 24).
  { change (Z.shiftl 1 24) with 16777216. rewrite Z.lor_comm, lor_disjoint_add by lia.
    rewrite !Z.shiftl_mul_pow2 by lia. lia. }
  rewrite E1, Z.lor_comm, lor_disjoint_add by (rewrite ?Z.shiftl_mul_pow2; lia).
  rewrite !Z.shiftl_mul_pow2 by lia. unfold be32, be16. rewrite !Z.shiftr_div_pow2 by lia. cbn [app].
  do 3 (f_equal; [width_lia|]). f_equal. width_lia.
Qed.
#[local] Opaque be16 be32.

Lemma findOneByteExtension_at obj off extId s n :
  bytes_at obj off (TWCC_PAYLOAD extId s) -> 0 < extId < 15 -> is_u16 s ->
  findOneByteExtension (S n) (Ptr obj off) 4 extId 0 = Ok (Some (Ptr obj (off + 1))) /\
  bytes_at obj (off + 1) (be16 s).
Proof.
  intros Hat He Hs. rewrite TWCC_PAYLOAD_bytes in Hat by (done || lia).
  apply bytes_at_app in Hat as [H0 H1]. apply bytes_at_app in H1 as [H1 _]. split; [|exact H1].
  cbn [findOneByteExtension]. unfold pld. cbn [p_obj p_off Z.ltb Z.compare]. rewrite Z.add_0_r, (bytes_at_ld _ _ _ _ H0).
  cbn [mbind res_bind]. rewrite (proj2 (Z.eqb_neq (16 * extId + 1) 0)) by lia.
  change 0x0F with (Z.ones 4). rewrite Z.shiftr_div_pow2, land_mask by lia.
  replace (((16 * extId + 1) / 2 ^ 4) mod 2 ^ 4) with extId by (Z.div_mod_to_equations; lia).
  change (Z.ones 4) with 15. rewrite (proj2 (Z.eqb_neq extId 15)) by lia. by rewrite Z.eqb_refl.
Qed.

(** Every recorded packet lies in the window the next feedback packet reports. *)
Definition covers (mgr : TwccReceiverManager) (arr : gmap Z TwccReceivedPacketInfo) : Prop :=
  if firstPacketReceived mgr
  then forall k, is_Some (arr !! k) -> u16 (k - firstSeqNum mgr) <= u16 (lastSeqNum mgr - firstSeqNum mgr)
  else arr = ∅.

Lemma covers_media m x arr : covers (m <| mediaSourceSsrc := x |>) arr = covers m arr.
Proof. by destruct m. Qed.

Lemma trackSequence_covers mgr arr s i :
  covers mgr arr -> is_u16 (firstSeqNum mgr) /\ is_u16 (lastSeqNum mgr) -> is_u16 s ->
  (firstPacketReceived mgr = true ->
   u16 (lastSeqNum mgr - firstSeqNum mgr) < 2 ^ 14 /\ Z.abs (i16 (s - firstSeqNum mgr)) < 2 ^ 14) ->
  let mgr' := trackSequence mgr s in
  covers mgr' (<[s := i]> arr) /\ firstPacketReceived mgr' = true /\
  pReceivedPktsHashTable mgr' = pReceivedPktsHashTable mgr.
Proof.
  intros Hc [Hf Hl] Hu Hnear. cbv zeta. destruct mgr as [ht first last rcv cnt ss bt]. unfold covers, trackSequence in *. cbn in *.
  destruct rcv; cbn [negb].
  - destruct (Hnear eq_refl) as [Hwin Hd].
    destruct (Z.ltb_spec (i16 (s - first)) 0), (Z.ltb_spec 0 (i16 (s - last))); cbn; (split; [|done]);
      intros k Hk; (destruct (decide (k = s)) as [->|Hne]; [|rewrite lookup_insert_ne in Hk by done; apply Hc in Hk]);
      revert Hf Hl Hu Hwin Hd; try revert Hk; width_lia.
  - subst arr. cbn. split; [|done]. intros k Hk. destruct (decide (k = s)) as [->|Hne]; [lia|].
    rewrite lookup_insert_ne, lookup_empty in Hk by done. by destruct Hk.
Qed.

(** A received packet that carries the extension [attachTwcc] puts on a sent packet is
    recorded under the sender's sequence number with its arrival time, once; and every
    recorded packet stays inside the window of the next feedback packet, as long as the
    packet and the window are within 2^14 sequence numbers, across the wrap-around. *)
Theorem twccReceiverOnPacketReceived_records mgr arr q e extId tw
  (Ht : table_is (pReceivedPktsHashTable mgr) arr) (Hc : covers mgr arr)
  (Hw : is_u16 (firstSeqNum mgr) /\ is_u16 (lastSeqNum mgr))
  (He : 0 < extId < 15) (Hx : extension (header q) = true) (Hp : extensionProfile (header q) = TWCC_EXT_PROFILE)
  (Hl : extensionLength (header q) = 4) (Hq : extensionPayload (header q) = Some e)
  (Hat : bytes_at (p_obj e) (p_off e) (TWCC_PAYLOAD extId (u16 tw)))
  (Hnear : firstPacketReceived mgr = true ->
           u16 (lastSeqNum mgr - firstSeqNum mgr) < 2 ^ 14 /\ Z.abs (i16 (u16 tw - firstSeqNum mgr)) < 2 ^ 14) :
  let base := if baseTimeKvs mgr =? 0 then receivedTime q else baseTimeKvs mgr in
  let arr' := if bool_decide (is_Some (arr !! u16 tw)) then arr
              else <[u16 tw := {| arrivalTimeKvs := u64 (receivedTime q - base) |}]> arr in
  exists mgr', twccReceiverOnPacketReceived true true extId (Some mgr) q = Ok (STATUS_SUCCESS, Some mgr') /\
    table_is (pReceivedPktsHashTable mgr') arr' /\ covers mgr' arr' /\ firstPacketReceived mgr' = true.
Proof.
  cbv zeta. unfold twccReceiverOnPacketReceived. rewrite Hx, Hp, Hl, Hq, Z.eqb_refl. cbn [andb negb].
  rewrite (u8_id extId) by (unfold is_u8; lia). destruct e as [obj off]. cbn [p_obj p_off] in *.
  destruct (findOneByteExtension_at obj off extId (u16 tw) (length obj) Hat He ltac:(auto with width)) as [-> Hs].
  cbn [mbind res_bind p_obj p_off]. rewrite (bytes_at_get16 _ _ _ Hs). cbn [mbind res_bind].
  rewrite u16_i16, (u16_id (u16 tw)) by auto with width. set (s := u16 tw) in *.
  assert (Hu : is_u16 s) by apply u16_range. rewrite (tableGet_is _ _ _ Ht). cbn [mbind res_bind].
  destruct (arr !! s) as [i|] eqn:Es.
  - rewrite bool_decide_true by by eexists. exists mgr. split_and!; [done|done|done|]. unfold covers in Hc.
    destruct (firstPacketReceived mgr); [done|]. subst arr. done.
  - rewrite bool_decide_false by (by intros [? ?]).
    set (m1 := if baseTimeKvs mgr =? 0 then mgr <| baseTimeKvs := receivedTime q |> else mgr).
    assert (H1 : pReceivedPktsHashTable m1 = pReceivedPktsHashTable mgr /\ covers m1 arr = covers mgr arr /\
                 firstSeqNum m1 = firstSeqNum mgr /\ lastSeqNum m1 = lastSeqNum mgr /\
                 firstPacketReceived m1 = firstPacketReceived mgr /\
                 baseTimeKvs m1 = if baseTimeKvs mgr =? 0 then receivedTime q else baseTimeKvs mgr)
      by (unfold m1; by destruct (baseTimeKvs mgr =? 0)).
    destruct H1 as (E1 & E2 & E3 & E4 & E5 & E6). clearbody m1. rewrite <- E2 in Hc. rewrite <- E3, <- E4 in Hw, Hnear.
    rewrite <- E5 in Hnear. rewrite E1, E6.
    match goal with |- context [hashTablePut true _ s ?i] => destruct (put_is _ _ s i Ht Hu Es) as (ht' & -> & Ht') end.
    set (m2 := m1 <| pReceivedPktsHashTable := ht' |>).
    match type of Ht' with table_is _ (<[s := ?i]> _) =>
      destruct (trackSequence_covers m2 arr s i Hc Hw Hu Hnear) as (Hc' & Hf' & Et') end.
    eexists. split; [done|]. split; [|split; [rewrite covers_media; exact Hc'|exact Hf']].
    change (pReceivedPktsHashTable (_ <| mediaSourceSsrc := _ |>)) with (pReceivedPktsHashTable (trackSequence m2 s)).
    rewrite Et'. exact Ht'.
Qed.

(** The parser trusts the packet status count: a report that announces packets and ends
    behind its fixed part is read past the end of the received buffer. *)
Theorem parseRtcpTwccPacket_overread p g obj off c
  (Hp : rtcpPayload p = Some (Ptr obj off)) (Hl : rtcpPayloadLength p = 16) (Ho : 0 <= off)
  (Hend : blen obj = off + 16) (Hb : bytes_ok obj) (Hc : rd16 obj (off + 10) = Ok c) (Hpos : 0 < c) :
  parseRtcpTwccPacket (Some p) (Some g) = Fault.
Proof.
  unfold parseRtcpTwccPacket, pld. rewrite Hp, Hl. cbn [p_obj p_off].
  rewrite !get16Be_rd16 by done. rewrite Hc. destruct (rd16_in obj (off + 8)) as [b ->]; [lia..|].
  destruct (ld_in obj (off + 12)) as (r2 & -> & _); [lia|]. destruct (ld_in obj (off + 13)) as (r1 & -> & _); [lia|].
  destruct (ld_in obj (off + 14)) as (r0 & -> & _); [lia|]. cbn [mbind res_bind].
  rewrite u16_i16, (u16_i16 c), (u16_id c) by (by apply (rd16_range obj (off + 10))).
  cbn [chunksEnd parseChunks packetsRemaining]. rewrite (proj2 (Z.ltb_lt 0 c)) by done. cbn [andb Z.ltb Z.compare Pos.compare Pos.compare_cont mbind res_bind].
  cbn [p_obj p_off]. rewrite (get16Be_rd16 obj (off + 16)), (rd16_fault obj (off + 16)) by (done || lia). done.
Qed.

(** ** Concrete instances *)

Lemma table_exists {V} (m : gmap Z V) : (forall k, is_Some (m !! k) -> is_u16 k) -> exists ht, table_is ht m.
Proof.
  induction m as [|k v m Hk IH] using map_ind; intros Hu.
  - destruct (hashTableCreateWithParams_spec (V := V) 100 2) as (ht & _ & H1 & H2 & H3); [done|done|].
    exists ht. split; [done|done| |done]. intros k. rewrite H3, lookup_empty. by intros [? ?].
  - destruct IH as [ht Ht].
    { intros j Hj. apply Hu. destruct (decide (j = k)) as [->|Hne]; [by rewrite Hk in Hj; destruct Hj|by rewrite lookup_insert_ne]. }
    destruct (upsert_is ht m k v Ht) as (ht' & _ & Ht'); [apply Hu; rewrite lookup_insert_eq; by eexists|]. by exists ht'.
Qed.

(** The received packets 65530, 65531, 65533, 0 and 1 of a stream: the window crosses the
    wrap-around and 65532, 65534 and 65535 are lost. *)
Definition ex_arr : gmap Z TwccReceivedPacketInfo :=
  list_to_map (map (fun '(k, a) => (k, {| arrivalTimeKvs := a |}))
    [(65530, 7000000); (65531, 7002500); (65533, 7001000); (0, 8000123); (1, 8000123)]).
Definition ex_mgr (ht : HashTable TwccReceivedPacketInfo) : TwccReceiverManager :=
  {| pReceivedPktsHashTable := ht; firstSeqNum := 65530; lastSeqNum := 1; firstPacketReceived := true;
     feedbackPacketCount := 255; mediaSourceSsrc := 77; baseTimeKvs := 5 |}.
Definition ex_sent : gmap Z TwccRtpPacketInfo :=
  list_to_map (map (fun k => (k, {| localTimeKvs := 1000 + k; remoteTimeKvs := TWCC_PACKET_LOST_TIME; packetSize := 100 |}))
    [65529; 65530; 65531; 65532; 0]).
Definition ex_manager (ht : HashTable (option TwccRtpPacketInfo)) : TwccManager :=
  {| pTwccRtpPktInfosHashTable := ht; firstSeqNumInRollingWindow := 65529; lastReportedSeqNum := 1;
     prevReportedBaseSeqNum := 65530 |}.

Lemma map_Forall_keys {V} (P : Z -> V -> bool) (m : gmap Z V) :
  forallb (fun '(k, v) => P k v) (map_to_list m) = true -> forall k v, m !! k = Some v -> P k v = true.
Proof.
  intros H k v Hk. rewrite forallb_forall in H. apply (H (k, v)). apply list_elem_of_In. by apply elem_of_map_to_list.
Qed.

Lemma u16_keys {V} (m : gmap Z V) :
  forallb (fun '(k, v) => (0 <=? k) && (k <? 65536)) (map_to_list m) = true -> forall k, is_Some (m !! k) -> is_u16 k.
Proof.
  intros H k [v Hk]. apply (map_Forall_keys (fun k v => (0 <=? k) && (k <? 65536)) m H) in Hk.
  apply andb_prop in Hk as [?%Z.leb_le ?%Z.ltb_lt]. unfold is_u16. lia.
Qed.

Lemma ex_arr_table : exists ht, table_is ht ex_arr.
Proof. apply table_exists, u16_keys. reflexivity. Qed.

Lemma ex_sent_table : exists ht, table_is ht (Some <$> ex_sent).
Proof. apply table_exists, u16_keys. reflexivity. Qed.

Lemma ex_sent_timed : timed ex_sent.
Proof. intros k i Hk. apply (map_Forall_keys (fun k i => 0 <? localTimeKvs i) ex_sent eq_refl) in Hk. by apply Z.ltb_lt. Qed.

Lemma ex_window ht : table_is ht ex_arr -> has_window (ex_mgr ht) ex_arr 7000000.
Proof. intros Ht. split; [exact Ht|done|done|vm_compute; intuition congruence|reflexivity|lia]. Qed.

Lemma updateTwccHashTable_spec_witness :
  exists ht s, updateTwccHashTable (ex_manager ht) = Ok (STATUS_SUCCESS, s) /\ us_sentPackets s = 4 /\
    us_receivedPackets s = 0 /\ us_duration s = i64 (1000 - 66529).
Proof.
  destruct ex_sent_table as [ht Ht].
  destruct (updateTwccHashTable_spec (ex_manager ht) ex_sent Ht ex_sent_timed) as (s & E & _ & E1 & _ & E2 & _ & E3);
    [vm_compute; intuition congruence|vm_compute; intuition congruence|].
  exists ht, s. split; [exact E|]. rewrite E1, E2, E3. vm_compute. done.
Defined.

Lemma twcc_feedback_roundtrip_witness :
  exists htr hts mgr' buf len p g' m',
    buildTwccFeedback 144 9 true true (ex_mgr htr) = Ok (STATUS_SUCCESS, mgr', Some (buf, len)) /\
    setRtcpPacketFromBytes LittleEndian (take (Z.to_nat len) buf) len (Some ex_rtcp) = Ok (STATUS_SUCCESS, p) /\
    onRtcpTwccPacket true true true (Some p) (Some (ex_manager hts)) =
      Ok (STATUS_SUCCESS, Some g', report_calls m' 65530 (seqs 65530 8)) /\
    reported 65530 (arrivals ex_arr (seqs 65530 8)) ex_sent m'.
Proof.
  destruct ex_arr_table as [htr Hr]. destruct ex_sent_table as [hts Hs].
  destruct (twcc_feedback_roundtrip LittleEndian (ex_mgr htr) ex_arr 7000000 144 9 ex_rtcp (ex_manager hts) ex_sent
              (ex_window htr Hr)) as (mgr' & buf & len & p & g' & m' & H1 & _ & H2 & H3 & H4 & _).
  - done.
  - vm_compute. intuition (congruence || (left; congruence) || (right; congruence)).
  - vm_compute. congruence.
  - exact Hs.
  - exact ex_sent_timed.
  - exists htr, hts, mgr', buf, len, p, g', m'. split; [exact H1|]. split; [exact H2|]. split; [exact H3|exact H4].
Defined.

(** Every second of 200 packets was received: 199 runs, where the buffer has room for 108. *)
Definition ex_alternating : gmap Z TwccReceivedPacketInfo :=
  list_to_map (map (fun k => (2 * k, {| arrivalTimeKvs := 2500 * k |})) (seqZ 0 100)).
Definition ex_mgr_alternating (ht : HashTable TwccReceivedPacketInfo) : TwccReceiverManager :=
  {| pReceivedPktsHashTable := ht; firstSeqNum := 0; lastSeqNum := 198; firstPacketReceived := true;
     feedbackPacketCount := 0; mediaSourceSsrc := 77; baseTimeKvs := 5 |}.

Lemma ex_alternating_table : exists ht, table_is ht ex_alternating.
Proof. apply table_exists, u16_keys. vm_compute. reflexivity. Qed.

Lemma twccFeedback_overflow_witness : exists ht, buildTwccFeedback 144 9 true true (ex_mgr_alternating ht) = Fault.
Proof.
  destruct ex_alternating_table as [ht Ht]. exists ht.
  apply (twccFeedback_overflow (ex_mgr_alternating ht) ex_alternating 0 144 9); [|lia|vm_compute; done].
  split; [exact Ht|done|done|vm_compute; intuition congruence|vm_compute; reflexivity|lia].
Defined.

(** A packet whose extension element carries sequence number 65531. *)
Definition ex_twcc_pkt : RtpPacket :=
  {| header := {| version := 2; padding := false; extension := true; marker := false; csrcCount := 0; payloadType := 96;
                  sequenceNumber := 1; timestamp := 2; ssrc := 3; csrcArray := None; extensionProfile := TWCC_EXT_PROFILE;
                  extensionPayload := Some (Ptr (TWCC_PAYLOAD 5 65531) 0); extensionLength := 4 |};
     payload := None; payloadLength := 50; pRawPacket := None; rawPacketLength := 70; receivedTime := 9000000;
     sentTime := 10066530; isSynthetic := false |}.

Lemma ex_twcc_at : bytes_at (TWCC_PAYLOAD 5 65531) 0 (TWCC_PAYLOAD 5 65531).
Proof. exists [], []. split; [by rewrite app_nil_r|done]. Qed.

Lemma ex_twcc_seq : bytes_at (TWCC_PAYLOAD 5 65531) (0 + 1) (be16 65531).
Proof. exists [81], [0]. split; reflexivity. Qed.

Lemma twccManagerOnPacketSent_records_witness :
  exists ht g', twccManagerOnPacketSent true true true (Some (ex_manager ht)) ex_twcc_pkt = Ok (STATUS_SUCCESS, Some g').
Proof.
  destruct ex_sent_table as [ht Ht].
  destruct (twccManagerOnPacketSent_records (ex_manager ht) ex_sent ex_twcc_pkt (Ptr (TWCC_PAYLOAD 5 65531) 0) 65531)
    as (g' & m' & k & H & _); [exact Ht|vm_compute; intuition congruence|reflexivity|reflexivity|exact ex_twcc_seq
      |vm_compute; intuition congruence|].
  exists ht, g'. exact H.
Defined.

Lemma twccReceiverOnPacketReceived_records_witness :
  exists ht mgr', twccReceiverOnPacketReceived true true 5 (Some ((ex_mgr ht) <| firstPacketReceived := false |>)) ex_twcc_pkt
    = Ok (STATUS_SUCCESS, Some mgr') /\ table_is (pReceivedPktsHashTable mgr') {[65531 := {| arrivalTimeKvs := 8999995 |}]}.
Proof.
  destruct (@table_exists TwccReceivedPacketInfo ∅) as [ht Ht]; [intros k; rewrite lookup_empty; by intros [? ?]|].
  destruct (twccReceiverOnPacketReceived_records ((ex_mgr ht) <| firstPacketReceived := false |>) ∅ ex_twcc_pkt
              (Ptr (TWCC_PAYLOAD 5 65531) 0) 5 65531) as (mgr' & H1 & H2 & _); try done.
  - exact ex_twcc_at.
  - exists ht, mgr'. split; [exact H1|exact H2].
Defined.

Lemma parseRtcpTwccPacket_overread_witness :
  exists ht, parseRtcpTwccPacket
    (Some {| rtcpHeader := rtcpHeader ex_rtcp; rtcpPayload := Some (Ptr (replicate 11 0 ++ [1] ++ replicate 4 0) 0);
             rtcpPayloadLength := 16 |}) (Some (ex_manager ht)) = Fault.
Proof.
  destruct ex_sent_table as [ht _]. exists ht.
  apply (parseRtcpTwccPacket_overread _ _ (replicate 11 0 ++ [1] ++ replicate 4 0) 0 1); try done.
  by apply bytes_ok_check.
Defined.
