(* ===== verification/Transceiver.v ===== *)
(** * Transceivers and packet output (src/source/PeerConnection/Rtp.h, Rtp.c, PeerConnection.h, Rtcp.c)

    The state of a connection that RTCP processing and retransmission work on: the list of
    transceivers with their sender and statistics, the transport-wide congestion control
    manager, the reports to answer, and what leaves the connection: the datagrams handed to
    the transport and the calls of the application's callbacks.  libsrtp's encryption and the
    ICE agent's transport are parameters.  DOUBLE statistics are binary64 numbers (Double.v). *)

From S2P Require Import Prelude Double Endian RtpPacket RollingBuffer RtcpPacket FramePath Twcc.

Set Primitive Projections.
Record Retransmitter : Type := {
  sequenceNumberList : list Z;
  seqNumListLen : Z;
  validIndexListLen : Z;
  validIndexList : list Z;
}.

(** The fields of RtcRtpSender. *)
Record RtcRtpSender : Type := {
  sender_payloadType : Z;
  sender_rtxPayloadType : Z;
  sender_initialSequenceNumber : Z;
  sender_seqInitialized : bool;
  sender_rtxSequenceNumber : Z;
  sender_ssrc : Z;
  sender_rtxSsrc : Z;
  sender_packetBuffer : option RtpRollingBuffer;
  sender_retransmitter : option Retransmitter;
  sender_rtpTimeOffset : Z;
  sender_firstFrameWallClockTime : Z;
}.

Record RtcOutboundRtpStreamStats : Type := {
  nackCount : Z;
  firCount : Z;
  pliCount : Z;
  sliCount : Z;
  retransmittedPacketsSent : Z;
  retransmittedBytesSent : Z;
  packetsSent : Z;
  bytesSent : Z;
}.

(** The jitter is in seconds, round trip times are in milliseconds. *)
Record RtcRemoteInboundRtpStreamStats : Type := {
  reportsReceived : Z;
  fractionLost : DOUBLE;
  ri_roundTripTimeMeasurements : Z;
  ri_totalRoundTripTime : Z;
  ri_roundTripTime : Z;
  packetsLost : Z;
  ri_jitter : DOUBLE;
  ri_packetsReceived : Z;
}.

(** Round trip times in seconds. *)
Record RtcRemoteOutboundRtpStreamStats : Type := {
  reportsSent : Z;
  ro_packetsSent : Z;
  ro_bytesSent : Z;
  ro_ssrc : Z;
  remoteTimestamp : Z;
  ro_roundTripTime : DOUBLE;
  ro_totalRoundTripTime : DOUBLE;
  ro_roundTripTimeMeasurements : Z;
}.

(** The receiver's sequence number state (RFC 3550, A.1). *)
Record RrState : Type := {
  rrMaxSeq : Z;
  rrCycles : Z;
  rrBaseSeq : Z;
  rrBadSeq : Z;
  rrExpectedPrior : Z;
  rrReceivedPrior : Z;
  rrSeqInitialized : bool;
}.

(** [pJitterBuffer] has the clock rate and the interarrival jitter of the jitter buffer, the
    latter in timestamp units. *)
Record KvsRtpTransceiver : Type := {
  sender : RtcRtpSender;
  jitterBufferSsrc : Z;
  pJitterBuffer : option (Z * DOUBLE);
  onBandwidthEstimation : bool;
  onPictureLoss : bool;
  outboundStats : RtcOutboundRtpStreamStats;
  remoteInboundStats : RtcRemoteInboundRtpStreamStats;
  remoteOutboundStats : RtcRemoteOutboundRtpStreamStats;
  packetsReceived : Z;
  rr : RrState;
  lastSRNtpMid : Z;
  lastSRReceivedTime : Z;
  lastRrtrNtpMid : Z;
  lastRrtrSentTime : Z;
  firSequenceNumber : Z;
}.

Record ReceivedRrtrEntry : Type := {
  rrtr_ssrc : Z;
  rrtr_ntpMid : Z;
  rrtr_arrivalTimeHns : Z;
  rrtr_lastRepliedNtpMid : Z;
}.

(** The application's callbacks; a transceiver is named by its position in the list. *)
Inductive AppCall : Type :=
  | OnPictureLoss (transceiver : nat)
  | OnBandwidthEstimation (transceiver : nat) (maximumBitRate : Z)
  | OnTwcc (c : TwccCall).

Record Connection : Type := {
  pTransceivers : list KvsRtpTransceiver;
  onSenderBandwidthEstimation : bool;
  onTwccPacketReport : bool;
  pTwccManager : option TwccManager;
  pSrtpSession : bool;
  receivedRrtrs : list ReceivedRrtrEntry;
  outbound : list (list Z);
  appCalls : list AppCall;
  released : list RtpPacket;
}.
Unset Primitive Projections.

#[export] Instance upd_sequenceNumberList : Update sequenceNumberList. Proof. derive_update. Defined.
#[export] Instance upd_validIndexList : Update validIndexList. Proof. derive_update. Defined.
#[export] Instance upd_rtxSequenceNumber : Update sender_rtxSequenceNumber. Proof. derive_update. Defined.
#[export] Instance upd_packetBuffer : Update sender_packetBuffer. Proof. derive_update. Defined.
#[export] Instance upd_retransmitter : Update sender_retransmitter. Proof. derive_update. Defined.
#[export] Instance upd_nackCount : Update nackCount. Proof. derive_update. Defined.
#[export] Instance upd_firCount : Update firCount. Proof. derive_update. Defined.
#[export] Instance upd_pliCount : Update pliCount. Proof. derive_update. Defined.
#[export] Instance upd_sliCount : Update sliCount. Proof. derive_update. Defined.
#[export] Instance upd_retransmittedPacketsSent : Update retransmittedPacketsSent. Proof. derive_update. Defined.
#[export] Instance upd_retransmittedBytesSent : Update retransmittedBytesSent. Proof. derive_update. Defined.
#[export] Instance upd_reportsReceived : Update reportsReceived. Proof. derive_update. Defined.
#[export] Instance upd_fractionLost : Update fractionLost. Proof. derive_update. Defined.
#[export] Instance upd_ri_roundTripTimeMeasurements : Update ri_roundTripTimeMeasurements. Proof. derive_update. Defined.
#[export] Instance upd_ri_totalRoundTripTime : Update ri_totalRoundTripTime. Proof. derive_update. Defined.
#[export] Instance upd_ri_roundTripTime : Update ri_roundTripTime. Proof. derive_update. Defined.
#[export] Instance upd_packetsLost : Update packetsLost. Proof. derive_update. Defined.
#[export] Instance upd_ri_jitter : Update ri_jitter. Proof. derive_update. Defined.
#[export] Instance upd_ri_packetsReceived : Update ri_packetsReceived. Proof. derive_update. Defined.
#[export] Instance upd_reportsSent : Update reportsSent. Proof. derive_update. Defined.
#[export] Instance upd_ro_packetsSent : Update ro_packetsSent. Proof. derive_update. Defined.
#[export] Instance upd_ro_bytesSent : Update ro_bytesSent. Proof. derive_update. Defined.
#[export] Instance upd_ro_ssrc : Update ro_ssrc. Proof. derive_update. Defined.
#[export] Instance upd_remoteTimestamp : Update remoteTimestamp. Proof. derive_update. Defined.
#[export] Instance upd_ro_roundTripTime : Update ro_roundTripTime. Proof. derive_update. Defined.
#[export] Instance upd_ro_totalRoundTripTime : Update ro_totalRoundTripTime. Proof. derive_update. Defined.
#[export] Instance upd_ro_roundTripTimeMeasurements : Update ro_roundTripTimeMeasurements. Proof. derive_update. Defined.
#[export] Instance upd_rrMaxSeq : Update rrMaxSeq. Proof. derive_update. Defined.
#[export] Instance upd_rrCycles : Update rrCycles. Proof. derive_update. Defined.
#[export] Instance upd_rrBaseSeq : Update rrBaseSeq. Proof. derive_update. Defined.
#[export] Instance upd_rrBadSeq : Update rrBadSeq. Proof. derive_update. Defined.
#[export] Instance upd_rrExpectedPrior : Update rrExpectedPrior. Proof. derive_update. Defined.
#[export] Instance upd_rrReceivedPrior : Update rrReceivedPrior. Proof. derive_update. Defined.
#[export] Instance upd_sender : Update sender. Proof. derive_update. Defined.
#[export] Instance upd_outboundStats : Update outboundStats. Proof. derive_update. Defined.
#[export] Instance upd_remoteInboundStats : Update remoteInboundStats. Proof. derive_update. Defined.
#[export] Instance upd_remoteOutboundStats : Update remoteOutboundStats. Proof. derive_update. Defined.
#[export] Instance upd_rr : Update rr. Proof. derive_update. Defined.
#[export] Instance upd_lastSRNtpMid : Update lastSRNtpMid. Proof. derive_update. Defined.
#[export] Instance upd_lastSRReceivedTime : Update lastSRReceivedTime. Proof. derive_update. Defined.
#[export] Instance upd_lastRrtrNtpMid : Update lastRrtrNtpMid. Proof. derive_update. Defined.
#[export] Instance upd_lastRrtrSentTime : Update lastRrtrSentTime. Proof. derive_update. Defined.
#[export] Instance upd_firSequenceNumber : Update firSequenceNumber. Proof. derive_update. Defined.
#[export] Instance upd_lastReplied : Update rrtr_lastRepliedNtpMid. Proof. derive_update. Defined.
#[export] Instance upd_pTransceivers : Update pTransceivers. Proof. derive_update. Defined.
#[export] Instance upd_pTwccManager : Update pTwccManager. Proof. derive_update. Defined.
#[export] Instance upd_receivedRrtrs : Update receivedRrtrs. Proof. derive_update. Defined.
#[export] Instance upd_outbound : Update outbound. Proof. derive_update. Defined.
#[export] Instance upd_appCalls : Update appCalls. Proof. derive_update. Defined.
#[export] Instance upd_released : Update released. Proof. derive_update. Defined.

(** ** Transceivers *)

Definition matchesSsrc (ssrc : Z) (t : KvsRtpTransceiver) : bool :=
  (sender_ssrc (sender t) =? ssrc) || (sender_rtxSsrc (sender t) =? ssrc) || (jitterBufferSsrc t =? ssrc).

(** The first transceiver with the SSRC. *)
Fixpoint findTransceiver (ssrc : Z) (l : list KvsRtpTransceiver) : option nat :=
  match l with
  | [] => None
  | t :: l => if matchesSsrc ssrc t then Some 0%nat else S <$> findTransceiver ssrc l
  end.

Definition findTransceiverBySsrc (c : Connection) (ssrc : Z) : STATUS + nat :=
  match findTransceiver ssrc (pTransceivers c) with
  | Some i => inr i
  | None => inl STATUS_NOT_FOUND
  end.

Definition hasTransceiverWithSsrc (c : Connection) (ssrc : Z) : STATUS :=
  match findTransceiverBySsrc c ssrc with inl st => st | inr _ => STATUS_SUCCESS end.

Definition getTransceiver (c : Connection) (i : nat) : res KvsRtpTransceiver :=
  lget (pTransceivers c) (Z.of_nat i).
Definition setTransceiver (c : Connection) (i : nat) (t : KvsRtpTransceiver) : Connection :=
  c <| pTransceivers := <[i := t]> (pTransceivers c) |>.

(** ** Output *)

Section Output.
(** encryptRtpPacket and encryptRtcpPacket of the SRTP session: status, buffer and length;
    iceAgentSendPacket: its status; libsrtp's SRTP_MAX_TRAILER_LEN; MEMALLOC. *)
Variable encryptRtp encryptRtcp : list Z -> Z -> STATUS * list Z * Z.
Variable iceSend : list Z -> STATUS.
Variable trailer : Z.
Variable mem : Z -> option (list Z).

(** iceAgentSendPacket of the first [len] bytes of a buffer. *)
Definition iceAgentSendPacket (c : Connection) (buf : list Z) (len : Z) : res (STATUS * Connection) :=
  bs ← ld_bytes buf 0 len;
  Ok (iceSend bs, c <| outbound := outbound c ++ [bs] |>).

Definition writeRtpPacket (c : Connection) (p : RtpPacket) : res (STATUS * Connection) :=
  match pRawPacket p with
  | None => Ok (STATUS_NULL_ARG, c)
  | Some raw =>
      if negb (pSrtpSession c) then Ok (STATUS_SUCCESS, c) else
      match mem (rawPacketLength p + SRTP_AUTH_TAG_OVERHEAD) with
      | None => Fault
      | Some buf =>
          bs ← ld_bytes raw 0 (rawPacketLength p);
          buf ← put_bytes buf 0 bs;
          let '(st, buf, rawLen) := encryptRtp buf (rawPacketLength p) in
          if STATUS_FAILED st then Ok (st, c) else iceAgentSendPacket c buf rawLen
      end
  end.

Definition writeRtcpPacket (c : Connection) (pPacket : list Z) (packetLen : Z) : res (STATUS * Connection) :=
  match mem (packetLen + SRTP_AUTH_TAG_OVERHEAD + trailer + 4) with
  | None => Ok (STATUS_NOT_ENOUGH_MEMORY, c)
  | Some buf =>
      bs ← ld_bytes pPacket 0 packetLen;
      buf ← put_bytes buf 0 bs;
      let '(st, buf, len) := encryptRtcp buf packetLen in
      if STATUS_FAILED st then Ok (st, c) else iceAgentSendPacket c buf len
  end.
End Output.

(** ** Lemmas *)

Lemma findTransceiver_some ssrc l i :
  findTransceiver ssrc l = Some i -> exists t, l !! i = Some t /\ matchesSsrc ssrc t = true.
Proof.
  revert i. induction l as [|t l IH]; intros i; cbn; [done|]. destruct (matchesSsrc ssrc t) eqn:E.
  - intros [= <-]. by exists t.
  - destruct (findTransceiver ssrc l) as [j|]; cbn; [|done]. intros [= <-]. by apply IH.
Qed.

Lemma getTransceiver_ok c i t : pTransceivers c !! i = Some t -> getTransceiver c i = Ok t.
Proof.
  intros H. unfold getTransceiver, lget. by rewrite Nat2Z.id, H, (proj2 (Z.leb_le 0 (Z.of_nat i))) by lia.
Qed.

Lemma setTransceiver_get c i t t' :
  pTransceivers c !! i = Some t -> pTransceivers (setTransceiver c i t') !! i = Some t'.
Proof. intros H. apply list_lookup_insert_eq. by eapply lookup_lt_Some. Qed.
