(* ===== verification/Retransmitter.v ===== *)
(** * Retransmission on NACK (src/source/PeerConnection/Retransmitter.c)

    A NACK names lost sequence numbers; the sender takes the packets out of its rolling
    buffer, sends each of them again, as an RTX packet when the payload type for it was
    negotiated, and puts them back.  The theorems show when this works, and that a packet is
    dropped from the buffer when it is put back under another index than its own. *)

From S2P Require Import Prelude Double Endian RtpPacket RollingBuffer RtcpPacket FramePath Twcc Transceiver.

(** ** createRetransmitter, freeRetransmitter

    One allocation holds the object and the two lists behind it; [mem] has the contents of
    the lists. *)
Definition createRetransmitter (mem : option (list Z * list Z)) (seqNumLen validIndexLen : Z)
    : res Retransmitter :=
  match mem with
  | None => Err STATUS_NOT_ENOUGH_MEMORY
  | Some (seqs, indexes) =>
      Ok {| sequenceNumberList := seqs; seqNumListLen := seqNumLen; validIndexListLen := validIndexLen;
            validIndexList := indexes |}
  end.

Definition freeRetransmitter (pp : option (option Retransmitter)) : STATUS * option (option Retransmitter) :=
  match pp with
  | None => (STATUS_NULL_ARG, None)
  | Some _ => (STATUS_SUCCESS, Some None)
  end.

Section Resend.
Variable h : endian.
Variable encryptRtp : list Z -> Z -> STATUS * list Z * Z.
Variable iceSend : list Z -> STATUS.
(** The allocations of writeRtpPacket, of the RTX packet and of the TWCC record; GETTIME in
    iteration [i]. *)
Variable memWrite memPayload memRaw : Z -> option (list Z).
Variable memPacket : option RtpPacket.
Variable memInfo memTable : bool.
Variable now : Z -> Z.

(** The variables of the loop. *)
Record ResendState : Type := {
  rs_conn : Connection;
  rs_buffer : RollingBuffer RtpPacket;
  rs_rtxSequenceNumber : Z;
  rs_packetsSent : Z;
  rs_bytesSent : Z;
}.

(** Sends a packet of the buffer again: the status, the connection, the next RTX sequence
    number.  [inl] is the status of a CHK_STATUS that fails. *)
Definition resendPacket (snd : RtcRtpSender) (c : Connection) (rtxSeq : Z) (pkt : RtpPacket)
    : res (STATUS + STATUS * Connection * Z) :=
  if sender_payloadType snd =? sender_rtxPayloadType snd then
    match pRawPacket pkt with
    | None => Fault
    | Some raw => '(st, c) ← iceAgentSendPacket iceSend c raw (rawPacketLength pkt); Ok (inr (st, c, rtxSeq))
    end
  else
    match constructRetransmitRtpPacketFromBytes h memPacket memPayload memRaw (pRawPacket pkt) (rawPacketLength pkt)
            rtxSeq (sender_rtxPayloadType snd) (sender_rtxSsrc snd) with
    | Fault => Fault
    | Err st => Ok (inl st)
    | Ok rtx => '(st, c) ← writeRtpPacket encryptRtp iceSend memWrite c rtx; Ok (inr (st, c, u16 (rtxSeq + 1)))
    end.

(** After a successful send: the send time, the statistics and the TWCC record. *)
Definition resentPacket (index : Z) (s : ResendState) (pkt : RtpPacket) : res (ResendState * RtpPacket) :=
  let pkt := pkt <| sentTime := now index |> in
  let c := rs_conn s in
  '(_, g) ← twccManagerOnPacketSent (onSenderBandwidthEstimation c) memInfo memTable (pTwccManager c) pkt;
  Ok ({| rs_conn := c <| pTwccManager := g |>; rs_buffer := rs_buffer s;
         rs_rtxSequenceNumber := rs_rtxSequenceNumber s; rs_packetsSent := rs_packetsSent s +32 1;
         rs_bytesSent := rs_bytesSent s +32 (rawPacketLength pkt -32 RTP_HEADER_LEN pkt) |}, pkt).

(** The end of an iteration: the packet goes back under [seq], or is freed. *)
Definition putBack (s : ResendState) (seq : Z) (pkt : RtpPacket) : res (STATUS * ResendState) :=
  '(st, rb) ← rollingBufferInsertData (Some (rs_buffer s)) seq (Some pkt);
  let with_conn := fun c =>
    {| rs_conn := c; rs_buffer := rb; rs_rtxSequenceNumber := rs_rtxSequenceNumber s;
       rs_packetsSent := rs_packetsSent s; rs_bytesSent := rs_bytesSent s |} in
  let freed := (rs_conn s) <| released := released (rs_conn s) ++ [pkt] |> in
  match st with
  | STATUS_SUCCESS => Ok (STATUS_SUCCESS, with_conn (rs_conn s))
  | STATUS_ROLLING_BUFFER_NOT_IN_RANGE => Ok (STATUS_SUCCESS, with_conn freed)
  | st => Ok (st, with_conn freed)
  end.

(** One iteration: [validIndex] and [seq] are the entries of the two lists. *)
Definition resendStep (snd : RtcRtpSender) (index validIndex : Z) (seqs : list Z) (s : ResendState)
    : res (STATUS * ResendState) :=
  '(rb, item) ← rollingBufferExtractData (Some (rs_buffer s)) validIndex;
  let with_buffer := fun c rtxSeq =>
    {| rs_conn := c; rs_buffer := rb; rs_rtxSequenceNumber := rtxSeq;
       rs_packetsSent := rs_packetsSent s; rs_bytesSent := rs_bytesSent s |} in
  match item with
  | None => Ok (STATUS_SUCCESS, with_buffer (rs_conn s) (rs_rtxSequenceNumber s))
  | Some pkt =>
      r ← resendPacket snd (rs_conn s) (rs_rtxSequenceNumber s) pkt;
      match r with
      | inl st =>
          let c := (rs_conn s) <| released := released (rs_conn s) ++ [pkt] |> in
          Ok (st, with_buffer c (rs_rtxSequenceNumber s))
      | inr (st, c, rtxSeq) =>
          '(s, pkt) ← (if STATUS_FAILED st then Ok (with_buffer c rtxSeq, pkt)
                       else resentPacket index (with_buffer c rtxSeq) pkt);
          seq ← lget seqs index;
          putBack s seq pkt
      end
  end.

(** The loop over the valid indexes; entry [index] of the sequence number list goes with
    entry [index] of the valid index list. *)
Fixpoint resendLoop (snd : RtcRtpSender) (index : Z) (indexes seqs : list Z) (s : ResendState)
    : res (STATUS * ResendState) :=
  match indexes with
  | [] => Ok (STATUS_SUCCESS, s)
  | validIndex :: indexes =>
      '(st, s) ← resendStep snd index validIndex seqs s;
      if STATUS_FAILED st then Ok (st, s) else resendLoop snd (index + 1) indexes seqs s
  end.

(** The transceiver after the clean-up: its statistics, and the lists, buffer and RTX
    sequence number the handler has changed. *)
Definition nackStats (t : KvsRtpTransceiver) (nacks packets bytes : Z) : KvsRtpTransceiver :=
  let o := outboundStats t in
  t <| outboundStats := o <| nackCount := nackCount o +32 nacks |>
         <| retransmittedPacketsSent := u64 (retransmittedPacketsSent o + packets) |>
         <| retransmittedBytesSent := u64 (retransmittedBytesSent o + bytes) |> |>.

(** The part of the handler that has found the sender and its retransmitter: the lists are
    filled and the packets sent.  The lists lie in one allocation, one behind the other; a
    list of more sequence numbers than the first holds is not followed into the second. *)
Definition resendRequested (p : RtcpPacket) (c : Connection) (i : nat) (t : KvsRtpTransceiver) (r : Retransmitter)
    : res (STATUS * Connection) :=
  let fail := fun st r => Ok (st, setTransceiver c i
    ((nackStats t 1 0 0) <| sender := (sender t) <| sender_retransmitter := Some r |> |>)) in
  match rtcpNackListGet h (rtcpPayload p) (rtcpPayloadLength p) (Some (sequenceNumberList r)) (seqNumListLen r) with
  | Ok (_, _, Some seqs, filledLen) =>
      let r := r <| sequenceNumberList := seqs |> in
      match rtpRollingBufferGetValidSeqIndexList (sender_packetBuffer (sender t)) (Some seqs) filledLen
              (Some (validIndexList r)) (Some (validIndexListLen r)), sender_packetBuffer (sender t) with
      | Ok (indexes, n), Some buffer =>
          let r := r <| validIndexList := indexes |> in
          '(st, s) ← resendLoop (sender t) 0 (take (Z.to_nat n) indexes) seqs
            {| rs_conn := c; rs_buffer := pRollingBuffer buffer;
               rs_rtxSequenceNumber := sender_rtxSequenceNumber (sender t); rs_packetsSent := 0; rs_bytesSent := 0 |};
          let t := nackStats t 1 (rs_packetsSent s) (rs_bytesSent s) in
          Ok (st, setTransceiver (rs_conn s) i
                    (t <| sender := (sender t) <| sender_retransmitter := Some r |>
                              <| sender_packetBuffer := Some (buffer <| pRollingBuffer := rs_buffer s |>) |>
                              <| sender_rtxSequenceNumber := rs_rtxSequenceNumber s |> |>))
      | Err st, _ => fail st r
      | _, _ => Fault
      end
  | Err st => fail st r
  | _ => Fault
  end.

(** tmpStatus keeps STATUS_NOT_FOUND when the second lookup succeeds. *)
Definition resendPacketOnNack (p : option RtcpPacket) (c : Connection) : res (STATUS * Connection) :=
  match p with
  | None => Ok (STATUS_NULL_ARG, c)
  | Some p =>
      match rtcpNackListGet h (rtcpPayload p) (rtcpPayloadLength p) None 0 with
      | Fault => Fault
      | Err st => Ok (st, c)
      | Ok (senderSsrc, receiverSsrc, _, _) =>
          match findTransceiverBySsrc c receiverSsrc with
          | inl tmpStatus =>
              match findTransceiverBySsrc c senderSsrc with
              | inl _ => Ok (STATUS_RTCP_INPUT_SSRC_INVALID, c)
              | inr i => t ← getTransceiver c i; Ok (tmpStatus, setTransceiver c i (nackStats t 0 0 0))
              end
          | inr i =>
              t ← getTransceiver c i;
              match sender_retransmitter (sender t) with
              | None => Ok (STATUS_INVALID_OPERATION, setTransceiver c i (nackStats t 1 0 0))
              | Some r => resendRequested p c i t r
              end
          end
      end
  end.
End Resend.

(** ** The buffer during a resend *)

Section Buffer.
Context {A : Type}.
Implicit Types rb : RollingBuffer A.

Lemma extract_in rb i d :
  rb_ok rb -> tailIndex rb <= i < headIndex rb -> slot rb i = Some d ->
  rollingBufferExtractData (Some rb) i = Ok (upd_slot rb i None, Some d).
Proof.
  intros Hok Hi Hd. unfold rollingBufferExtractData.
  rewrite (proj2 (Z.ltb_lt i _)), (proj2 (Z.leb_le _ i)) by lia. cbn [andb].
  rewrite getData_slot, Hd by done. cbn [mbind res_bind]. by rewrite setData_slot.
Qed.

Lemma extract_none rb i :
  rb_ok rb -> tailIndex rb <= i < headIndex rb -> slot rb i = None ->
  rollingBufferExtractData (Some rb) i = Ok (rb, None).
Proof.
  intros Hok Hi Hd. unfold rollingBufferExtractData.
  rewrite (proj2 (Z.ltb_lt i _)), (proj2 (Z.leb_le _ i)) by lia. cbn [andb].
  rewrite getData_slot, Hd by done. done.
Qed.

(** Putting a packet back under its own index restores the slot. *)
Lemma insert_back rb i d :
  rb_ok rb -> tailIndex rb <= i < headIndex rb ->
  rollingBufferInsertData (Some (upd_slot rb i None)) i (Some d) = Ok (STATUS_SUCCESS, upd_slot rb i (Some d)).
Proof.
  intros Hok Hi. unfold rollingBufferInsertData. pose proof (upd_slot_ok rb i None Hok) as Hok'.
  change (headIndex (upd_slot rb i None)) with (headIndex rb). change (tailIndex (upd_slot rb i None)) with (tailIndex rb).
  rewrite (proj2 (Z.ltb_lt i _)), (proj2 (Z.leb_le _ i)) by lia. cbn [andb negb].
  rewrite getData_slot, slot_upd_same by done. cbn [mbind res_bind]. rewrite setData_slot by done.
  cbn [mbind res_bind]. by rewrite upd_slot_twice.
Qed.

(** An index outside the window is refused. *)
Lemma insert_out rb i d :
  ~ (tailIndex rb <= i < headIndex rb) ->
  rollingBufferInsertData (Some rb) i d = Ok (STATUS_ROLLING_BUFFER_NOT_IN_RANGE, rb).
Proof.
  intros Hi. unfold rollingBufferInsertData.
  destruct (Z.ltb_spec i (headIndex rb)), (Z.leb_spec (tailIndex rb) i); cbn; done || lia.
Qed.
End Buffer.

(** ** What the stored packets are *)

Record wire : Type := { w_hd : RtpPacketHeader; w_csrcs : list Z; w_ext : list Z; w_payload : list Z }.
Definition wire_bytes (w : wire) : list Z := rtp_bytes (w_hd w) (w_csrcs w) (w_ext w) (w_payload w).

Record wire_ok (w : wire) : Prop := {
  wo_hd : hdr_ok (w_hd w);
  wo_count : csrcCount (w_hd w) = Z.of_nat (length (w_csrcs w));
  wo_csrcs : Forall is_u32 (w_csrcs w);
  wo_ext : extension (w_hd w) = true -> blen (w_ext w) = extensionLength (w_hd w);
  wo_noext : extension (w_hd w) = false -> w_ext w = [];
  wo_extb : bytes_ok (w_ext w);
  wo_payload : bytes_ok (w_payload w);
  wo_len : blen (wire_bytes w) + 2 < 2 ^ 32;
}.

Record stored (p : RtpPacket) (w : wire) : Prop := {
  sp_raw : pRawPacket p = Some (wire_bytes w);
  sp_len : rawPacketLength p = blen (wire_bytes w);
  sp_wire : wire_ok w;
}.

(** The RTX packet of a stored packet (RFC 4588). *)
Definition rtx_wire (h : endian) (w : wire) (seq pt ss : Z) : list Z :=
  rtp_bytes (rtx_header (w_hd w) seq pt ss) (map (csrc_host h) (w_csrcs w)) (w_ext w)
    (be16 (sequenceNumber (w_hd w)) ++ w_payload w).

(** The window of a buffer holds the packets [W]. *)
Definition holds (rb : RollingBuffer RtpPacket) (W : Z -> option wire) : Prop :=
  forall i, tailIndex rb <= i < headIndex rb ->
    match slot rb i, W i with
    | Some p, Some w => stored p w
    | None, None => True
    | _, _ => False
    end.

Lemma holds_upd rb W i p w :
  rb_ok rb -> holds rb W -> tailIndex rb <= i < headIndex rb -> W i = Some w -> stored p w ->
  holds (upd_slot rb i (Some p)) W.
Proof.
  intros Hok HW Hi Hw Hp j Hj. change (tailIndex (upd_slot rb i (Some p))) with (tailIndex rb) in Hj.
  change (headIndex (upd_slot rb i (Some p))) with (headIndex rb) in Hj. pose proof (ok_full _ Hok).
  destruct (decide (i = j)) as [<-|Hne].
  - by rewrite slot_upd_same, Hw.
  - rewrite slot_upd_other by (done || lia). by apply HW.
Qed.

(** ** Resending *)

Section Correct.
Context (h : endian) (encryptRtp : list Z -> Z -> STATUS * list Z * Z) (iceSend : list Z -> STATUS)
  (memWrite memPayload memRaw : Z -> option (list Z)) (m0 : RtpPacket) (memInfo memTable : bool) (now : Z -> Z).

(** Memory is available; srtp_protect encrypts in place, in a buffer with room for the
    authentication tag; the transport accepts the datagrams. *)
Context (protect : list Z -> list Z).
Hypothesis Hmw : mem_avail memWrite.
Hypothesis Hmp : mem_avail memPayload.
Hypothesis Hmr : mem_avail memRaw.
Hypothesis Hprotect : forall raw room, blen room = SRTP_AUTH_TAG_OVERHEAD ->
  exists rest, encryptRtp (raw ++ room) (blen raw) = (STATUS_SUCCESS, protect raw ++ rest, blen (protect raw)).
Hypothesis Hice : forall bs, iceSend bs = STATUS_SUCCESS.

Local Abbreviation rsPacket := (resendPacket h encryptRtp iceSend memWrite memPayload memRaw (Some m0)).
Local Abbreviation rsStep := (resendStep h encryptRtp iceSend memWrite memPayload memRaw (Some m0) memInfo memTable now).
Local Abbreviation rsLoop := (resendLoop h encryptRtp iceSend memWrite memPayload memRaw (Some m0) memInfo memTable now).
Local Abbreviation rsRequested := (resendRequested h encryptRtp iceSend memWrite memPayload memRaw (Some m0) memInfo memTable now).
Local Abbreviation rsOnNack := (resendPacketOnNack h encryptRtp iceSend memWrite memPayload memRaw (Some m0) memInfo memTable now).

Lemma ld_prefix bs rest : ld_bytes (bs ++ rest) 0 (blen bs) = Ok bs.
Proof. apply (ld_bytes_app [] bs rest 0 (blen bs)); done. Qed.

Lemma writeRtpPacket_ok c p raw :
  pRawPacket p = Some raw -> rawPacketLength p = blen raw -> pSrtpSession c = true ->
  writeRtpPacket encryptRtp iceSend memWrite c p = Ok (STATUS_SUCCESS, c <| outbound := outbound c ++ [protect raw] |>).
Proof.
  intros Hr Hl Hs. unfold writeRtpPacket. rewrite Hr, Hl, Hs. cbn [negb]. pose proof (blen_nonneg raw).
  destruct (Hmw (blen raw + SRTP_AUTH_TAG_OVERHEAD)) as (buf & -> & Hb); [unfold SRTP_AUTH_TAG_OVERHEAD; lia|].
  rewrite <- (app_nil_r raw) at 1. rewrite ld_prefix. cbn [mbind res_bind].
  change (put_bytes buf 0 raw) with (put_bytes ([] ++ buf) 0 raw).
  rewrite (put_bytes_at [] buf raw 0) by (done || (unfold SRTP_AUTH_TAG_OVERHEAD in *; lia)). cbn [mbind res_bind app].
  destruct (Hprotect raw (drop (Z.to_nat (blen raw)) buf)) as [rest ->].
  { rewrite blen_drop by (unfold SRTP_AUTH_TAG_OVERHEAD in *; lia). lia. }
  cbn [STATUS_FAILED]. unfold iceAgentSendPacket. rewrite ld_prefix. cbn [mbind res_bind]. by rewrite Hice.
Qed.

(** The sender uses RTX: its payload type differs from the media's. *)
Definition uses_rtx (snd : RtcRtpSender) : Prop := sender_payloadType snd <> sender_rtxPayloadType snd.

Definition rtx_of (snd : RtcRtpSender) (w : wire) (seq : Z) : list Z :=
  protect (rtx_wire h w seq (sender_rtxPayloadType snd) (sender_rtxSsrc snd)).

Lemma resendPacket_ok snd c seq p w :
  uses_rtx snd -> pSrtpSession c = true -> stored p w ->
  rsPacket snd c seq p =
    Ok (inr (STATUS_SUCCESS, c <| outbound := outbound c ++ [rtx_of snd w seq] |>, u16 (seq + 1))).
Proof.
  intros Hx Hs [Hr Hl []]. unfold resendPacket. apply Z.eqb_neq in Hx. rewrite Hx, Hr, Hl.
  destruct (construct_rtx h (w_hd w) (w_csrcs w) (w_ext w) (w_payload w) m0 memPayload memRaw seq
    (sender_rtxPayloadType snd) (sender_rtxSsrc snd)) as (q & E & Eq & El & _); try done.
  fold (wire_bytes w) in E. rewrite E. by rewrite (writeRtpPacket_ok _ _ _ Eq El Hs).
Qed.

(** The connection reports no transport-wide feedback to a bandwidth estimator. *)
Definition quiet (c : Connection) : Prop := pSrtpSession c = true /\ onSenderBandwidthEstimation c = false.

Lemma resentPacket_quiet index s p :
  onSenderBandwidthEstimation (rs_conn s) = false ->
  let p' := p <| sentTime := now index |> in
  resentPacket memInfo memTable now index s p =
  Ok ({| rs_conn := rs_conn s; rs_buffer := rs_buffer s; rs_rtxSequenceNumber := rs_rtxSequenceNumber s;
         rs_packetsSent := rs_packetsSent s +32 1;
         rs_bytesSent := rs_bytesSent s +32 (rawPacketLength p' -32 RTP_HEADER_LEN p') |}, p').
Proof. intros Hb. unfold resentPacket. rewrite Hb. unfold twccManagerOnPacketSent. by destruct s. Qed.

Lemma stored_sent p w t : stored p w -> stored (p <| sentTime := t |>) w.
Proof. by intros []. Qed.

(** The datagrams for the requested indexes, numbered from [seq] on. *)
Fixpoint rtx_list (snd : RtcRtpSender) (W : Z -> option wire) (l : list Z) (seq : Z) : list (list Z) :=
  match l with
  | [] => []
  | i :: l =>
      match W i with
      | Some w => rtx_of snd w seq :: rtx_list snd W l (u16 (seq + 1))
      | None => rtx_list snd W l seq
      end
  end.

(** What a loop that resends the packets with indexes [l] does: the packets stay in the
    buffer, nothing is freed. *)
Record resends (snd : RtcRtpSender) (W : Z -> option wire) (l : list Z) (s s' : ResendState) : Prop := {
  rd_ok : rb_ok (rs_buffer s');
  rd_holds : holds (rs_buffer s') W;
  rd_window : tailIndex (rs_buffer s') = tailIndex (rs_buffer s) /\ headIndex (rs_buffer s') = headIndex (rs_buffer s) /\
              freed (rs_buffer s') = freed (rs_buffer s);
  rd_conn : rs_conn s' = (rs_conn s) <| outbound := outbound (rs_conn s)
                                         ++ rtx_list snd W l (rs_rtxSequenceNumber s) |>;
  rd_seq : rs_rtxSequenceNumber s' =
    u16 (rs_rtxSequenceNumber s + Z.of_nat (length (rtx_list snd W l (rs_rtxSequenceNumber s))));
  rd_count : rs_packetsSent s' =
    u32 (rs_packetsSent s + Z.of_nat (length (rtx_list snd W l (rs_rtxSequenceNumber s))));
}.

Lemma resends_nil snd W s :
  rb_ok (rs_buffer s) -> holds (rs_buffer s) W -> is_u16 (rs_rtxSequenceNumber s) -> is_u32 (rs_packetsSent s) ->
  resends snd W [] s s.
Proof.
  intros Hok HW Hu Hp. split; cbn; try done.
  - destruct s as [[] ? ? ? ?]. cbn. by rewrite app_nil_r.
  - by rewrite Z.add_0_r, u16_id.
  - by rewrite Z.add_0_r, u32_id.
Qed.

Lemma resendStep_ok snd index i seqs W s :
  uses_rtx snd -> quiet (rs_conn s) -> rb_ok (rs_buffer s) -> holds (rs_buffer s) W ->
  is_u16 (rs_rtxSequenceNumber s) -> is_u32 (rs_packetsSent s) ->
  tailIndex (rs_buffer s) <= i < headIndex (rs_buffer s) -> lget seqs index = Ok i ->
  exists s', rsStep snd index i seqs s = Ok (STATUS_SUCCESS, s') /\ resends snd W [i] s s'.
Proof.
  intros Hx [Hq1 Hq2] Hok HW Hu Hp Hi Hget. pose proof (HW i Hi) as Hslot. unfold resendStep.
  destruct (slot (rs_buffer s) i) as [p|] eqn:Es, (W i) as [w|] eqn:Ew; try done.
  - rewrite (extract_in _ _ _ Hok Hi Es). cbn [mbind res_bind].
    rewrite (resendPacket_ok _ _ _ _ _ Hx Hq1 Hslot). cbn [mbind res_bind].
    change (STATUS_FAILED STATUS_SUCCESS) with false. cbv iota. rewrite resentPacket_quiet by exact Hq2. cbn [mbind res_bind]. rewrite Hget. cbn [mbind res_bind].
    unfold putBack. cbn [rs_buffer]. rewrite (insert_back _ _ _ Hok Hi). cbn [mbind res_bind].
    eexists. split; [done|].
    split; cbn [rtx_list rs_buffer rs_conn rs_rtxSequenceNumber rs_packetsSent length]; rewrite ?Ew; try done.
    + by apply upd_slot_ok.
    + apply (holds_upd _ _ _ _ w); [done..|]. by apply stored_sent.
  - rewrite (extract_none _ _ Hok Hi Es). cbn [mbind res_bind]. eexists. split; [done|].
    split; cbn [rtx_list rs_buffer rs_conn rs_rtxSequenceNumber rs_packetsSent]; rewrite ?Ew; try done.
    + destruct (rs_conn s). cbn. by rewrite app_nil_r.
    + cbn. by rewrite Z.add_0_r, u16_id.
    + cbn. by rewrite Z.add_0_r, u32_id.
Qed.

Lemma rtx_list_app snd W a b seq :
  is_u16 seq ->
  rtx_list snd W (a ++ b) seq =
    rtx_list snd W a seq ++ rtx_list snd W b (u16 (seq + Z.of_nat (length (rtx_list snd W a seq)))).
Proof.
  revert seq. induction a as [|i a IH]; intros seq Hu; cbn [app rtx_list length].
  - by rewrite Z.add_0_r, u16_id.
  - destruct (W i); [|by apply IH]. cbn [app length]. rewrite IH by auto with width. rewrite u16_plus.
    do 4 f_equal. lia.
Qed.

Lemma resends_trans snd W a b s s1 s2 :
  is_u16 (rs_rtxSequenceNumber s) -> resends snd W a s s1 -> resends snd W b s1 s2 -> resends snd W (a ++ b) s s2.
Proof.
  intros Hu [O1 H1 (T1 & D1 & F1) C1 S1 P1] [O2 H2 (T2 & D2 & F2) C2 S2 P2].
  rewrite S1 in C2, S2, P2. split; rewrite ?rtx_list_app by done; try done.
  - split_and!; congruence.
  - rewrite C2, C1. destruct (rs_conn s). cbn. by rewrite <- (assoc_L (++)).
  - rewrite S2, u16_plus, length_app. f_equal. lia.
  - rewrite P2, P1, length_app. width_lia.
Qed.

Lemma resendLoop_ok snd index l seqs W s :
  uses_rtx snd -> quiet (rs_conn s) -> rb_ok (rs_buffer s) -> holds (rs_buffer s) W ->
  is_u16 (rs_rtxSequenceNumber s) -> is_u32 (rs_packetsSent s) ->
  Forall (fun i => tailIndex (rs_buffer s) <= i < headIndex (rs_buffer s)) l ->
  (forall j i, l !! j = Some i -> lget seqs (index + Z.of_nat j) = Ok i) ->
  exists s', rsLoop snd index l seqs s = Ok (STATUS_SUCCESS, s') /\ resends snd W l s s'.
Proof.
  intros Hx. revert index s. induction l as [|i l IH]; intros index s Hq Hok HW Hu Hp Hl Hget.
  { exists s. split; [done|]. by apply resends_nil. }
  inversion Hl as [|?? Hi Hl']. subst. cbn [resendLoop].
  destruct (resendStep_ok snd index i seqs W s Hx Hq Hok HW Hu Hp Hi) as (s1 & -> & R1).
  { rewrite <- (Hget 0%nat i) by done. f_equal. lia. }
  cbn [mbind res_bind]. change (STATUS_FAILED STATUS_SUCCESS) with false. cbv iota.
  destruct (rd_window _ _ _ _ _ R1) as (T1 & D1 & _).
  destruct (IH (index + 1) s1) as (s2 & E2 & R2).
  - unfold quiet. rewrite (rd_conn _ _ _ _ _ R1). exact Hq.
  - apply R1.
  - apply R1.
  - rewrite (rd_seq _ _ _ _ _ R1). auto with width.
  - rewrite (rd_count _ _ _ _ _ R1). auto with width.
  - by rewrite T1, D1.
  - intros j k Hj. rewrite <- (Hget (S j) k) by done. f_equal. lia.
  - exists s2. split; [exact E2|]. exact (resends_trans _ _ [i] _ _ _ _ Hu R1 R2).
Qed.

(** A NACK packet, in its receive buffer. *)
Record nack_packet (p : RtcpPacket) (senderSsrc receiverSsrc : Z) (items : list (Z * Z)) : Prop := {
  np_payload : exists pre suf, bytes_ok pre /\ bytes_ok suf /\
    rtcpPayload p = Some (Ptr (pre ++ nack_bytes senderSsrc receiverSsrc items ++ suf) (blen pre));
  np_len : rtcpPayloadLength p = blen (nack_bytes senderSsrc receiverSsrc items);
  np_ssrcs : is_u32 senderSsrc /\ is_u32 receiverSsrc;
  np_items : Forall nack_item_ok items;
  np_count : Z.of_nat (length (nack_seqs items)) < 2 ^ 16;
}.

Lemma nack_get p ss rs items l listLen :
  nack_packet p ss rs items ->
  rtcpNackListGet h (rtcpPayload p) (rtcpPayloadLength p) l listLen =
  ('(l, n) ← pushAll listLen (nack_seqs items) (l, 0); Ok (ss, rs, l, n)).
Proof.
  intros [(pre & suf & Hp & Hs & ->) -> [H1 H2] Hi _]. by apply rtcpNackListGet_push_at.
Qed.

Lemma nack_seqs_u16 items : Forall nack_item_ok items -> Forall is_u16 (nack_seqs items).
Proof.
  unfold nack_seqs. induction 1 as [|it items [H1 _] _ IH]; cbn [map concat]; [constructor|].
  apply Forall_app. split; [|done]. unfold nack_expand. constructor; [done|].
  apply Forall_forall. intros x Hx. apply list_elem_of_In, list_elem_of_omap in Hx as (j & _ & Hj).
  destruct (Z.testbit it.2 j); [|done]. injection Hj as <-. auto with width.
Qed.

(** The lists of a retransmitter have their announced sizes. *)
Definition retransmitter_ok (r : Retransmitter) : Prop :=
  Z.of_nat (length (sequenceNumberList r)) = seqNumListLen r /\ 0 < seqNumListLen r /\
  Z.of_nat (length (validIndexList r)) = validIndexListLen r /\ 0 < validIndexListLen r < 2 ^ 32.

(** The list after the NACK is decoded: the requested numbers and what was there behind. *)
Lemma nack_fill p ss rs items r :
  nack_packet p ss rs items -> retransmitter_ok r ->
  Z.of_nat (length (nack_seqs items)) <= seqNumListLen r ->
  exists seqs rest, rtcpNackListGet h (rtcpPayload p) (rtcpPayloadLength p) (Some (sequenceNumberList r)) (seqNumListLen r) =
    Ok (ss, rs, Some seqs, Z.of_nat (length (nack_seqs items))) /\ seqs = nack_seqs items ++ rest.
Proof.
  intros Hp (H1 & H2 & _) Hle. rewrite (nack_get _ _ _ _ _ _ Hp).
  pose proof (pushAll_some (seqNumListLen r) (nack_seqs items) (sequenceNumberList r) 0) as HP. cbv zeta in HP.
  change (Z.of_nat 0) with 0 in HP. rewrite HP; [|lia|destruct Hp; lia].
  rewrite bool_decide_true by lia. cbn [mbind res_bind Nat.add take app]. eexists _, _. split; [done|].
  by rewrite take_0, (take_ge (nack_seqs items)) by lia.
Qed.
Lemma validLoop_prefix last size len n seqs rest out count :
  n = length seqs -> validLoop last size len n (seqs ++ rest) out count = validLoop last size len n seqs out count.
Proof.
  intros ->. revert out count. induction seqs as [|s seqs IH]; intros out count; cbn [app length validLoop]; [by destruct rest|].
  destruct (seqToIndex last size s); [|by apply IH]. destruct (lput out count z) as [out'| |]; cbn [mbind res_bind]; [|done..].
  destruct len as [len|]; [|done]. destruct (_ <? _); [|done]. destruct (lput out' (count + 1) 0) as [out''| |]; cbn [mbind res_bind]; [|done..].
  apply IH.
Qed.

Lemma omap_all {X Y} (f : X -> option Y) (g : X -> Y) l : Forall (fun x => f x = Some (g x)) l -> omap f l = map g l.
Proof. induction 1 as [|x l Hx _ IH]; cbn; [done|]. by rewrite Hx, IH. Qed.

(** The indexes found for requested numbers that all lie in the window. *)
Lemma valid_indexes (buffer : RtpRollingBuffer) (g : Z -> Z) l rest out len :
  let rb := pRollingBuffer buffer in
  rtp_rb_ok buffer -> 1 < headIndex rb - tailIndex rb <= 2 ^ 16 -> Forall is_u16 l ->
  Forall (fun s => index_of_seq (tailIndex rb) (headIndex rb - tailIndex rb) s = Some (g s)) l ->
  Z.of_nat (length l) <= len -> Z.of_nat (length out) = len -> 0 < len < 2 ^ 32 ->
  exists out' n,
    rtpRollingBufferGetValidSeqIndexList (Some buffer) (Some (l ++ rest)) (Z.of_nat (length l)) (Some out) (Some len)
      = Ok (out', n) /\ take (Z.to_nat n) out' = map g l /\ length out' = length out.
Proof.
  cbv zeta. intros [Hok Hlast] Hsz Hu Hg Hle Hout Hlen. set (rb := pRollingBuffer buffer) in *.
  pose proof (ok_tail _ Hok). pose proof (ok_head _ Hok). pose proof (ok_cap _ Hok).
  unfold rtpRollingBufferGetValidSeqIndexList, rollingBufferGetSize. fold rb. cbn [mbind res_bind].
  rewrite u32_id by (unfold is_u32; lia). rewrite (proj2 (Z.ltb_lt 0 _)) by lia. cbn [negb].
  rewrite Hlast by lia. rewrite Nat2Z.id, validLoop_prefix by done.
  destruct (validLoop_spec (headIndex rb - 1) (headIndex rb - tailIndex rb) len l out 0) as (out' & n & E & El & En & Et); [lia..|].
  exists out', n. split; [exact E|]. split; [|exact El]. rewrite Et. cbn [Z.to_nat take app].
  rewrite (omap_all _ g); [rewrite (take_ge (map g l)); [done|rewrite length_map; lia]|].
  rewrite Forall_forall in Hu, Hg |- *. intros s Hs.
  rewrite <- (Hg s Hs), <- seqToIndex_window by (lia || by apply Hu). f_equal. lia.
Qed.

(** C12. A NACK for packets of the window, as long as the stream has sent no more than 2^16
    packets, resends every requested packet that is stored, in the order of the request: the
    datagrams handed to the transport are the encrypted RTX packets (RFC 4588) with
    consecutive RTX sequence numbers, each with the original sequence number and payload.
    The packets go back to their places: the buffer still holds the same packets and nothing
    is freed; the statistics count the resent packets. *)
Theorem resendPacketOnNack_resends p c i t r buffer ss rs items W
  (Hp : nack_packet p ss rs items) (Hr : retransmitter_ok r)
  (Hlen : Z.of_nat (length (nack_seqs items)) <= seqNumListLen r /\ Z.of_nat (length (nack_seqs items)) <= validIndexListLen r)
  (Hf : findTransceiverBySsrc c rs = inr i) (Ht : pTransceivers c !! i = Some t)
  (Hrt : sender_retransmitter (sender t) = Some r) (Hb : sender_packetBuffer (sender t) = Some buffer)
  (Hok : rtp_rb_ok buffer) (HW : holds (pRollingBuffer buffer) W)
  (Hsz : 1 < headIndex (pRollingBuffer buffer) - tailIndex (pRollingBuffer buffer))
  (Hmax : headIndex (pRollingBuffer buffer) <= 2 ^ 16)
  (Hin : Forall (fun s => tailIndex (pRollingBuffer buffer) <= s < headIndex (pRollingBuffer buffer)) (nack_seqs items))
  (Hx : uses_rtx (sender t)) (Hq : quiet c) (Hu : is_u16 (sender_rtxSequenceNumber (sender t))) :
  let sent := rtx_list (sender t) W (nack_seqs items) (sender_rtxSequenceNumber (sender t)) in
  exists c' t' buffer',
    rsOnNack (Some p) c = Ok (STATUS_SUCCESS, c') /\ pTransceivers c' !! i = Some t' /\
    outbound c' = outbound c ++ sent /\ released c' = released c /\
    sender_packetBuffer (sender t') = Some buffer' /\ holds (pRollingBuffer buffer') W /\
    freed (pRollingBuffer buffer') = freed (pRollingBuffer buffer) /\
    sender_rtxSequenceNumber (sender t') = u16 (sender_rtxSequenceNumber (sender t) + Z.of_nat (length sent)) /\
    retransmittedPacketsSent (outboundStats t') = u64 (retransmittedPacketsSent (outboundStats t) + u32 (Z.of_nat (length sent))).
Proof.
  cbv zeta. unfold resendPacketOnNack. rewrite (nack_get _ _ _ _ _ _ Hp), pushAll_none by (destruct Hp; lia).
  cbn [mbind res_bind]. rewrite Hf, (getTransceiver_ok _ _ _ Ht). cbn [mbind res_bind]. rewrite Hrt.
  unfold resendRequested. destruct (nack_fill _ _ _ _ _ Hp Hr (proj1 Hlen)) as (seqs & rest & -> & ->).
  cbn [validIndexList validIndexListLen]. change (validIndexList (r <| sequenceNumberList := _ |>)) with (validIndexList r).
  change (validIndexListLen (r <| sequenceNumberList := _ |>)) with (validIndexListLen r).
  destruct Hr as (_ & _ & Hr3 & Hr4). pose proof (ok_tail _ (rr_ok _ Hok)). rewrite Hb.
  destruct (valid_indexes buffer (fun s => s) (nack_seqs items) rest (validIndexList r) (validIndexListLen r) Hok)
    as (out' & n & -> & Et & _); [lia|by apply nack_seqs_u16, Hp| |lia|done|lia|].
  { eapply Forall_impl; [|exact Hin]. intros s Hs. cbn beta in Hs. unfold index_of_seq.
    rewrite Z.mod_small by lia. rewrite (proj2 (Z.ltb_lt _ _)) by lia. f_equal. lia. }
  rewrite Et, map_id.
  match goal with |- context [rsLoop _ _ _ _ ?s0] => set (s := s0) end.
  destruct (resendLoop_ok (sender t) 0 (nack_seqs items) (nack_seqs items ++ rest) W s) as (s' & -> & R); try done.
  { apply Hok. }
  { intros j k Hj. unfold lget. rewrite (proj2 (Z.leb_le 0 _)) by lia. rewrite Z.add_0_l, Nat2Z.id.
    by rewrite lookup_app_l, Hj by (by eapply lookup_lt_Some). }
  cbn [mbind res_bind]. destruct R as [O1 H1 (T1 & D1 & F1) C1 S1 P1].
  eexists _, _, _. split; [done|]. split; [apply (setTransceiver_get _ _ t); rewrite C1; exact Ht|].
  split; [|split; [|split; [reflexivity|split; [exact H1|split; [exact F1|split; [exact S1|]]]]]].
  - change (outbound (setTransceiver ?a ?b ?d)) with (outbound a). rewrite C1. done.
  - change (released (setTransceiver ?a ?b ?d)) with (released a). rewrite C1. done.
  - change (u64 (retransmittedPacketsSent (outboundStats t) + rs_packetsSent s') = u64 (retransmittedPacketsSent (outboundStats t)
      + u32 (Z.of_nat (length (rtx_list (sender t) W (nack_seqs items) (sender_rtxSequenceNumber (sender t))))))).
    rewrite P1. done.
Qed.
Lemma resendStep_drops snd index i q seqs s p w :
  uses_rtx snd -> quiet (rs_conn s) -> rb_ok (rs_buffer s) -> stored p w ->
  tailIndex (rs_buffer s) <= i < headIndex (rs_buffer s) -> slot (rs_buffer s) i = Some p ->
  lget seqs index = Ok q -> ~ (tailIndex (rs_buffer s) <= q < headIndex (rs_buffer s)) ->
  exists s', rsStep snd index i seqs s = Ok (STATUS_SUCCESS, s') /\ rs_buffer s' = upd_slot (rs_buffer s) i None /\
    rs_conn s' = (rs_conn s) <| outbound := outbound (rs_conn s) ++ [rtx_of snd w (rs_rtxSequenceNumber s)] |>
                             <| released := released (rs_conn s) ++ [p <| sentTime := now index |>] |>.
Proof.
  intros Hx [Hq1 Hq2] Hok Hst Hi Es Hget Hq. unfold resendStep.
  rewrite (extract_in _ _ _ Hok Hi Es). cbn [mbind res_bind].
  rewrite (resendPacket_ok _ _ _ _ _ Hx Hq1 Hst). cbn [mbind res_bind].
  change (STATUS_FAILED STATUS_SUCCESS) with false. cbv iota. rewrite resentPacket_quiet by exact Hq2.
  cbn [mbind res_bind]. rewrite Hget. cbn [mbind res_bind].
  unfold putBack. cbn [rs_buffer]. rewrite insert_out by exact Hq. cbn [mbind res_bind]. eexists. split; [done|]. done.
Qed.

(** C40. A packet is put back under the requested sequence number instead of its index in the
    buffer.  When the two differ, as for every packet once the stream has sent 2^16 of them,
    the packet is resent and then freed: the buffer loses it, and a second NACK for it finds
    nothing. *)
Theorem resendPacketOnNack_drops p c k t r buffer ss rs s i pkt w
  (Hp : nack_packet p ss rs [(s, 0)]) (Hr : retransmitter_ok r)
  (Hf : findTransceiverBySsrc c rs = inr k) (Ht : pTransceivers c !! k = Some t)
  (Hrt : sender_retransmitter (sender t) = Some r) (Hb : sender_packetBuffer (sender t) = Some buffer)
  (Hok : rtp_rb_ok buffer)
  (Hsz : 1 < headIndex (pRollingBuffer buffer) - tailIndex (pRollingBuffer buffer) <= 2 ^ 16)
  (Hi : index_of_seq (tailIndex (pRollingBuffer buffer))
          (headIndex (pRollingBuffer buffer) - tailIndex (pRollingBuffer buffer)) s = Some i)
  (Hslot : slot (pRollingBuffer buffer) i = Some pkt) (Hst : stored pkt w)
  (Hout : 2 ^ 16 <= tailIndex (pRollingBuffer buffer)) (Hx : uses_rtx (sender t)) (Hq : quiet c) :
  exists c' t' buffer',
    rsOnNack (Some p) c = Ok (STATUS_SUCCESS, c') /\ pTransceivers c' !! k = Some t' /\
    outbound c' = outbound c ++ [rtx_of (sender t) w (sender_rtxSequenceNumber (sender t))] /\
    sender_packetBuffer (sender t') = Some buffer' /\ slot (pRollingBuffer buffer') i = None /\
    released c' = released c ++ [pkt <| sentTime := now 0 |>].
Proof.
  assert (Hseqs : nack_seqs [(s, 0)] = [s]) by reflexivity. assert (Hs : is_u16 s) by (destruct Hp as [_ _ _ Hit _]; inversion Hit as [|?? [H _]]; exact H).
  unfold resendPacketOnNack. rewrite (nack_get _ _ _ _ _ _ Hp), pushAll_none by (destruct Hp; lia).
  cbn [mbind res_bind]. rewrite Hf, (getTransceiver_ok _ _ _ Ht). cbn [mbind res_bind]. rewrite Hrt.
  unfold resendRequested. destruct Hr as (Hr1 & Hr2 & Hr3 & Hr4).
  destruct (nack_fill _ _ _ _ _ Hp (conj Hr1 (conj Hr2 (conj Hr3 Hr4)))) as (seqs & rest & -> & ->); [rewrite Hseqs; cbn; lia|].
  change (validIndexList (r <| sequenceNumberList := _ |>)) with (validIndexList r).
  change (validIndexListLen (r <| sequenceNumberList := _ |>)) with (validIndexListLen r). rewrite Hb.
  destruct (valid_indexes buffer (fun _ => i) (nack_seqs [(s, 0)]) rest (validIndexList r) (validIndexListLen r) Hok Hsz)
    as (out' & n & -> & Et & _); [rewrite Hseqs; constructor; [exact Hs|constructor]|rewrite Hseqs; constructor; [exact Hi|constructor]|rewrite Hseqs; cbn; lia|done|lia|].
  rewrite Et, Hseqs. cbn [map resendLoop].
  match goal with |- context [rsStep _ _ _ _ ?s0] => set (s0' := s0) end.
  assert (Hir : tailIndex (pRollingBuffer buffer) <= i < headIndex (pRollingBuffer buffer)).
  { unfold index_of_seq in Hi. pose proof (Z.mod_pos_bound (s - tailIndex (pRollingBuffer buffer)) (2 ^ 16)).
    destruct (Z.ltb_spec ((s - tailIndex (pRollingBuffer buffer)) mod 2 ^ 16) (headIndex (pRollingBuffer buffer) - tailIndex (pRollingBuffer buffer))); [|done].
    injection Hi as <-. lia. }
  destruct (resendStep_drops (sender t) 0 i s ([s] ++ rest) s0' pkt w) as (s' & -> & Eb & Ec); try done.
  { apply Hok. } { unfold is_u16 in Hs. subst s0'. cbn. lia. }
  cbn [mbind res_bind]. change (STATUS_FAILED STATUS_SUCCESS) with false. cbv iota. cbn [mbind res_bind].
  eexists _, _, _. split; [done|]. split; [apply (setTransceiver_get _ _ t); rewrite Ec; exact Ht|].
  split; [|split; [reflexivity|split]].
  - change (outbound (setTransceiver ?a ?b ?d)) with (outbound a). rewrite Ec. done.
  - change (slot (rs_buffer s') i = None). rewrite Eb. apply slot_upd_same. apply Hok.
  - change (released (setTransceiver ?a ?b ?d)) with (released a). rewrite Ec. done.
Qed.
End Correct.

(** ** Concrete instances *)

Definition ex_wire : wire := {| w_hd := ex_hdr; w_csrcs := ex_csrcs; w_ext := ex_ext; w_payload := ex_pl |}.
Definition ex_stored : RtpPacket := ex_pkt <| pRawPacket := Some (wire_bytes ex_wire) |> <| rawPacketLength := 26 |>.
Definition ex_buffer (tail : Z) : RtpRollingBuffer :=
  {| pRollingBuffer :=
       {| capacity := 4; headIndex := tail + 2; tailIndex := tail; dataBuffer := [None; None; Some ex_stored; None];
          freeDataFn := None; freed := [] |};
     lastIndex := tail + 1 |}.
Definition ex_retransmitter : Retransmitter :=
  {| sequenceNumberList := [0; 0; 0]; seqNumListLen := 3; validIndexListLen := 3; validIndexList := [0; 0; 0] |}.
Definition ex_transceiver (tail : Z) : KvsRtpTransceiver :=
  {| sender :=
       {| sender_payloadType := 96; sender_rtxPayloadType := 97; sender_initialSequenceNumber := 0;
          sender_seqInitialized := true; sender_rtxSequenceNumber := 0xFFFF; sender_ssrc := 0xDEADBEEF;
          sender_rtxSsrc := 0x55; sender_packetBuffer := Some (ex_buffer tail);
          sender_retransmitter := Some ex_retransmitter; sender_rtpTimeOffset := 0; sender_firstFrameWallClockTime := 0 |};
     jitterBufferSsrc := 7; pJitterBuffer := None; onBandwidthEstimation := false; onPictureLoss := false;
     outboundStats := {| nackCount := 0; firCount := 0; pliCount := 0; sliCount := 0; retransmittedPacketsSent := 5;
       retransmittedBytesSent := 0; packetsSent := 0; bytesSent := 0 |};
     remoteInboundStats := {| reportsReceived := 0; fractionLost := dbl 0; ri_roundTripTimeMeasurements := 0;
       ri_totalRoundTripTime := 0; ri_roundTripTime := 0; packetsLost := 0; ri_jitter := dbl 0; ri_packetsReceived := 0 |};
     remoteOutboundStats := {| reportsSent := 0; ro_packetsSent := 0; ro_bytesSent := 0; ro_ssrc := 0;
       remoteTimestamp := 0; ro_roundTripTime := dbl 0; ro_totalRoundTripTime := dbl 0; ro_roundTripTimeMeasurements := 0 |};
     packetsReceived := 0;
     rr := {| rrMaxSeq := 0; rrCycles := 0; rrBaseSeq := 0; rrBadSeq := 0; rrExpectedPrior := 0; rrReceivedPrior := 0;
       rrSeqInitialized := false |};
     lastSRNtpMid := 0; lastSRReceivedTime := 0; lastRrtrNtpMid := 0; lastRrtrSentTime := 0; firSequenceNumber := 0 |}.
Definition ex_conn (tail : Z) : Connection :=
  {| pTransceivers := [ex_transceiver tail]; onSenderBandwidthEstimation := false; onTwccPacketReport := false;
     pTwccManager := None; pSrtpSession := true; receivedRrtrs := []; outbound := []; appCalls := []; released := [] |}.
Definition ex_nack (items : list (Z * Z)) : RtcpPacket :=
  let bs := nack_bytes 7 0xDEADBEEF items in
  {| rtcpHeader := {| rtcpVersion := 2; receptionReportCount := 1; packetType := 205; rtcpPacketLength := blen bs |};
     rtcpPayload := Some (Ptr ([] ++ bs ++ []) 0); rtcpPayloadLength := blen bs |}.
Definition ex_mem (n : Z) : option (list Z) := Some (replicate (Z.to_nat n) 0).
Definition ex_protect (raw : list Z) : list Z := raw ++ replicate 10 0.
Definition ex_encrypt (buf : list Z) (len : Z) : STATUS * list Z * Z :=
  let bs := ex_protect (take (Z.to_nat len) buf) in (STATUS_SUCCESS, bs, blen bs).
Definition ex_send (bs : list Z) : STATUS := STATUS_SUCCESS.

Lemma ex_mem_avail : mem_avail ex_mem.
Proof. intros n Hn. eexists. split; [done|]. unfold blen. rewrite length_replicate. lia. Qed.

Lemma ex_encrypt_protects raw room :
  blen room = SRTP_AUTH_TAG_OVERHEAD ->
  exists rest, ex_encrypt (raw ++ room) (blen raw) = (STATUS_SUCCESS, ex_protect raw ++ rest, blen (ex_protect raw)).
Proof.
  intros _. exists []. unfold ex_encrypt, blen. rewrite Nat2Z.id, take_app_length, app_nil_r. done.
Qed.

Lemma ex_stored_ok : stored ex_stored ex_wire.
Proof.
  split; [done..|]. split; [exact ex_hdr_ok|done|constructor; [vm_compute; intuition congruence|constructor]|done..| | |done].
  - exact (bytes_ok_check ex_ext eq_refl).
  - exact (bytes_ok_check ex_pl eq_refl).
Qed.

Lemma ex_buffer_ok tail : tail = 65534 \/ tail = 131070 -> rtp_rb_ok (ex_buffer tail).
Proof. intros [->| ->]; split; [split; vm_compute; intuition congruence|done|split; vm_compute; intuition congruence|done]. Qed.

Lemma ex_nack_packet items :
  Forall nack_item_ok items -> Z.of_nat (length (nack_seqs items)) < 2 ^ 16 -> nack_packet (ex_nack items) 7 0xDEADBEEF items.
Proof. intros H1 H2. split; try done. exists [], []. repeat split; by constructor. Qed.

Lemma resendPacketOnNack_resends_witness :
  exists c', resendPacketOnNack LittleEndian ex_encrypt ex_send ex_mem ex_mem ex_mem (Some ex_pkt) true true (fun _ => 9)
    (Some (ex_nack [(65534, 1)])) (ex_conn 65534) = Ok (STATUS_SUCCESS, c') /\
  outbound c' = [ex_protect (rtx_wire LittleEndian ex_wire 0xFFFF 97 0x55)] /\ released c' = [].
Proof.
  destruct (resendPacketOnNack_resends LittleEndian ex_encrypt ex_send ex_mem ex_mem ex_mem ex_pkt true true (fun _ => 9)
    ex_protect ex_mem_avail ex_mem_avail ex_mem_avail ex_encrypt_protects (fun _ => eq_refl)
    (ex_nack [(65534, 1)]) (ex_conn 65534) 0 (ex_transceiver 65534) ex_retransmitter (ex_buffer 65534) 7 0xDEADBEEF [(65534, 1)]
    (fun i => if i =? 65534 then Some ex_wire else None)) as (c' & t' & b' & E & _ & O & R & _); try reflexivity.
  - apply ex_nack_packet; [repeat constructor; vm_compute; intuition congruence|done].
  - repeat split; done.
  - split; vm_compute; intuition congruence.
  - apply ex_buffer_ok. by left.
  - intros i Hi. change (65534 <= i < 65536) in Hi. assert (i = 65534 \/ i = 65535) as [->| ->] by lia; [exact ex_stored_ok|done].
  - change (nack_seqs [(65534, 1)]) with [65534; 65535]. repeat constructor; vm_compute; intuition congruence.
  - vm_compute. intuition congruence.
  - done.
  - split; vm_compute; intuition congruence.
  - exists c'. split; [exact E|]. split; [exact O|exact R].
Defined.

Lemma resendPacketOnNack_drops_witness :
  exists c', resendPacketOnNack LittleEndian ex_encrypt ex_send ex_mem ex_mem ex_mem (Some ex_pkt) true true (fun _ => 9)
    (Some (ex_nack [(65534, 0)])) (ex_conn 131070) = Ok (STATUS_SUCCESS, c') /\
  length (outbound c') = 1%nat /\ released c' = [ex_stored <| sentTime := 9 |>].
Proof.
  destruct (resendPacketOnNack_drops LittleEndian ex_encrypt ex_send ex_mem ex_mem ex_mem ex_pkt true true (fun _ => 9)
    ex_protect ex_mem_avail ex_mem_avail ex_mem_avail ex_encrypt_protects (fun _ => eq_refl)
    (ex_nack [(65534, 0)]) (ex_conn 131070) 0 (ex_transceiver 131070) ex_retransmitter (ex_buffer 131070) 7 0xDEADBEEF 65534 131070
    ex_stored ex_wire) as (c' & t' & b' & E & _ & O & _ & _ & R); try reflexivity.
  - apply ex_nack_packet; [repeat constructor; vm_compute; intuition congruence|done].
  - repeat split; done.
  - apply ex_buffer_ok. by right.
  - split; vm_compute; intuition congruence.
  - exact ex_stored_ok.
  - vm_compute. intuition congruence.
  - done.
  - done.
  - exists c'. split; [exact E|]. split; [by rewrite O|exact R].
Defined.
