(* ===== verification/RtcpReports.v ===== *)
(** * RTCP reports and feedback messages (src/source/PeerConnection/Rtcp.c, PeerConnection.c)

    The reports a transceiver emits (sender, receiver and extended reports), the receiver's
    sequence number state they are made from, the handlers of the messages the peer sends, the
    dispatch of a compound packet to them, and the picture loss and intra requests. *)

From S2P Require Import Prelude Double Endian RtpPacket RollingBuffer RtcpPacket FramePath Twcc Transceiver Retransmitter.

Definition RTP_SEQ_MOD : Z := Z.shiftl 1 16.
Definition MAX_DROPOUT : Z := 3000.
Definition MAX_MISORDER : Z := 100.

Definition RTCP_PACKET_SENDER_REPORT_MINLEN : Z := 24.
Definition RTCP_PACKET_RECEIVER_REPORT_BLOCK_LEN : Z := 24.
Definition RTCP_PACKET_RECEIVER_REPORT_MINLEN : Z := 4 + RTCP_PACKET_RECEIVER_REPORT_BLOCK_LEN.
Definition RTCP_SENDER_REPORT_LEN : Z := RTCP_PACKET_HEADER_LEN + 24.
Definition RTCP_RECEIVER_REPORT_LEN : Z := RTCP_PACKET_HEADER_LEN + 4 + RTCP_PACKET_RECEIVER_REPORT_BLOCK_LEN.

Definition RTCP_PACKET_TYPE_FIR : Z := 192.
Definition RTCP_PACKET_TYPE_SENDER_REPORT : Z := 200.
Definition RTCP_PACKET_TYPE_RECEIVER_REPORT : Z := 201.
Definition RTCP_PACKET_TYPE_PAYLOAD_SPECIFIC_FEEDBACK : Z := 206.
Definition RTCP_PACKET_TYPE_EXTENDED_REPORT : Z := 207.

Definition RTCP_FEEDBACK_MESSAGE_TYPE_NACK : Z := 1.
Definition RTCP_PSFB_PLI : Z := 1.
Definition RTCP_PSFB_SLI : Z := 2.
Definition RTCP_PSFB_FIR : Z := 4.
Definition RTCP_FEEDBACK_MESSAGE_TYPE_APPLICATION_LAYER_FEEDBACK : Z := 15.

Definition RTCP_XR_BLOCK_TYPE_RRTR : Z := 4.
Definition RTCP_XR_BLOCK_TYPE_DLRR : Z := 5.
Definition RTCP_XR_HEADER_LEN : Z := 8.
Definition RTCP_XR_RRTR_BLOCK_LEN : Z := 12.
Definition RTCP_XR_DLRR_BLOCK_HDR_LEN : Z := 4.
Definition RTCP_XR_DLRR_SUBBLOCK_LEN : Z := 12.
Definition RTCP_XR_RRTR_INTERVAL_HNS : Z := 2 * HUNDREDS_OF_NANOS_IN_A_SECOND.
Definition MAX_RECEIVED_RRTR : Z := 4.

Definition DLSR_TIMESCALE : Z := 65536.
Definition PSFB_FIR_MIN_SIZE : Z := 16.
Definition PSFB_FIR_FCI_SSRC_OFFSET : Z := 8.

Definition CONVERT_TIMESTAMP_TO_RTP (clockRate pts : Z) : Z :=
  u64 (pts * clockRate) / HUNDREDS_OF_NANOS_IN_A_SECOND.

(** An INT32 difference; an overflow is undefined. *)
Definition sub_i32 (a b : Z) : res Z :=
  if (- 2 ^ 31 <=? a - b) && (a - b <? 2 ^ 31) then Ok (a - b) else Fault.

(** ** The receiver's sequence number state: rrInitSeq, rrUpdateSeq *)

Definition rrInitSeq (seq : Z) : RrState :=
  {| rrMaxSeq := seq; rrCycles := 0; rrBaseSeq := seq; rrBadSeq := RTP_SEQ_MOD + 1; rrExpectedPrior := 0;
     rrReceivedPrior := 0; rrSeqInitialized := true |}.

Definition rrUpdateSeq (r : RrState) (seq : Z) : RrState :=
  let udelta := u16 (seq - rrMaxSeq r) in
  if udelta <? MAX_DROPOUT then
    let r := if seq <? rrMaxSeq r then r <| rrCycles := rrCycles r +32 RTP_SEQ_MOD |> else r in
    r <| rrMaxSeq := seq |>
  else if udelta <=? RTP_SEQ_MOD - MAX_MISORDER then
    if seq =? rrBadSeq r then rrInitSeq seq
    else r <| rrBadSeq := Z.land (seq + 1) (RTP_SEQ_MOD - 1) |>
  else
    let backward := u16 (rrMaxSeq r - seq) in
    let extPacket := rrCycles r +32 rrMaxSeq r -32 backward in
    if extPacket <? rrBaseSeq r then r <| rrBaseSeq := extPacket |> else r.

(** ** rtcpBuildSenderReport

    The buffer and *pPacketLen; a length of 0 means that there is nothing to send. *)
Definition rtcpBuildSenderReport (t : option KvsRtpTransceiver) (currentTime : Z) (pOutBuffer : option (list Z))
    (pPacketLen : option Z) : res (list Z * Z) :=
  match t, pOutBuffer, pPacketLen with
  | Some t, Some out, Some len =>
      match pJitterBuffer t with
      | None => Err STATUS_NULL_ARG
      | Some (clockRate, _) =>
          CHK RTCP_SENDER_REPORT_LEN <=? len else STATUS_BUFFER_TOO_SMALL ;;
          let first := sender_firstFrameWallClockTime (sender t) in
          if (first =? 0) || (u64 (currentTime - first) <? 2500 * HUNDREDS_OF_NANOS_IN_A_MILLISECOND)
          then Ok (out, 0) else
          let ntpTime := convertTimestampToNTP currentTime in
          let rtpTime := u64 (sender_rtpTimeOffset (sender t)
                              + CONVERT_TIMESTAMP_TO_RTP clockRate (u64 (currentTime - first))) in
          out ← put8 out 0 (Z.shiftl RTCP_PACKET_VERSION_VAL 6);
          out ← put8 out RTCP_PACKET_TYPE_OFFSET RTCP_PACKET_TYPE_SENDER_REPORT;
          out ← putUnalignedInt16Be out RTCP_PACKET_LEN_OFFSET
                  (i16 (RTCP_SENDER_REPORT_LEN / RTCP_PACKET_LEN_WORD_SIZE - 1));
          out ← putUnalignedInt32Be out 4 (i32 (sender_ssrc (sender t)));
          out ← putUnalignedInt64Be out 8 (i64 ntpTime);
          out ← putUnalignedInt32Be out 16 (i32 rtpTime);
          out ← putUnalignedInt32Be out 20 (i32 (u32 (packetsSent (outboundStats t))));
          out ← putUnalignedInt32Be out 24 (i32 (u32 (bytesSent (outboundStats t))));
          Ok (out, RTCP_SENDER_REPORT_LEN)
      end
  | _, _, _ => Err STATUS_NULL_ARG
  end.

(** ** rtcpBuildReceiverReport *)

(** The cast of a DOUBLE to UINT32; undefined when the value does not fit. *)
Definition castU32 (d : DOUBLE) : res Z :=
  match dtrunc d with
  | Some z => if (0 <=? z) && (z <? 2 ^ 32) then Ok z else Fault
  | None => Fault
  end.

(** The loss figures of the interval since the last report: the fraction, the cumulative
    number and the new state. *)
Definition lossInterval (r : RrState) (received : Z) : res (Z * Z * RrState) :=
  let rrExpected := rrCycles r +32 rrMaxSeq r -32 rrBaseSeq r +32 1 in
  let rrExpectedInterval := rrExpected -32 rrExpectedPrior r in
  let rrReceivedInterval := received -32 rrReceivedPrior r in
  rrLostInterval ← sub_i32 (i32 rrExpectedInterval) (i32 rrReceivedInterval);
  let rrFraction :=
    if (rrExpectedInterval =? 0) || (rrLostInterval <=? 0) then 0
    else u8 (u32 (Z.shiftl (u32 rrLostInterval) 8) / rrExpectedInterval) in
  lost ← sub_i32 (i32 rrExpected) (i32 received);
  let rrCumulativeLost := if 0x7FFFFF <? lost then 0x7FFFFF else if lost <? - 0x800000 then - 0x800000 else lost in
  Ok (rrFraction, rrCumulativeLost, r <| rrExpectedPrior := rrExpected |> <| rrReceivedPrior := received |>).

Definition rtcpBuildReceiverReport (t : option KvsRtpTransceiver) (currentTime : Z) (pOutBuffer : option (list Z))
    (pPacketLen : option Z) : res (option KvsRtpTransceiver * list Z * Z) :=
  match t, pOutBuffer, pPacketLen with
  | Some t, Some out, Some len =>
      match pJitterBuffer t with
      | None => Err STATUS_NULL_ARG
      | Some (_, jitter) =>
          CHK RTCP_RECEIVER_REPORT_LEN <=? len else STATUS_BUFFER_TOO_SMALL ;;
          if (jitterBufferSsrc t =? 0) || negb (rrSeqInitialized (rr t)) then Ok (Some t, out, 0) else
          let rrExtMax := rrCycles (rr t) +32 rrMaxSeq (rr t) in
          '(rrFraction, rrCumulativeLost, rr') ← lossInterval (rr t) (u32 (packetsReceived t));
          out ← put_bytes out 0 (replicate (Z.to_nat RTCP_RECEIVER_REPORT_LEN) 0);
          out ← put8 out 0 (Z.lor (Z.shiftl RTCP_PACKET_VERSION_VAL 6) 1);
          out ← put8 out RTCP_PACKET_TYPE_OFFSET RTCP_PACKET_TYPE_RECEIVER_REPORT;
          out ← putUnalignedInt16Be out RTCP_PACKET_LEN_OFFSET
                  (i16 (RTCP_RECEIVER_REPORT_LEN / RTCP_PACKET_LEN_WORD_SIZE - 1));
          out ← putUnalignedInt32Be out 4 (i32 (sender_ssrc (sender t)));
          out ← putUnalignedInt32Be out 8 (i32 (jitterBufferSsrc t));
          out ← put8 out 12 rrFraction;
          out ← put8 out 13 (Z.land (Z.shiftr rrCumulativeLost 16) 0xFF);
          out ← put8 out 14 (Z.land (Z.shiftr rrCumulativeLost 8) 0xFF);
          out ← put8 out 15 (Z.land rrCumulativeLost 0xFF);
          out ← putUnalignedInt32Be out 16 (i32 rrExtMax);
          jit ← castU32 jitter;
          out ← putUnalignedInt32Be out 20 (i32 jit);
          out ← putUnalignedInt32Be out 24 (i32 (lastSRNtpMid t));
          out ← (if negb (lastSRReceivedTime t =? 0) then
                   let dlsrTime := u64 (currentTime - lastSRReceivedTime t) in
                   let dlsr := u32 (KVS_CONVERT_TIMESCALE dlsrTime HUNDREDS_OF_NANOS_IN_A_SECOND DLSR_TIMESCALE) in
                   putUnalignedInt32Be out 28 (i32 dlsr)
                 else Ok out);
          Ok (Some (t <| rr := rr' |>), out, RTCP_RECEIVER_REPORT_LEN)
      end
  | _, _, _ => Err STATUS_NULL_ARG
  end.

(** ** rtcpBuildExtendedReport *)

Definition pendingRrtr (e : ReceivedRrtrEntry) : bool :=
  negb (rrtr_ssrc e =? 0) && negb (rrtr_ntpMid e =? rrtr_lastRepliedNtpMid e).

(** The sub-blocks of the DLRR block. *)
Fixpoint dlrrLoop (currentTime : Z) (pending : list ReceivedRrtrEntry) (out : list Z) (offset : Z)
    : res (list Z * Z) :=
  match pending with
  | [] => Ok (out, offset)
  | e :: pending =>
      let delayHns := u64 (currentTime - rrtr_arrivalTimeHns e) in
      let delayDlsrUnits := u32 (KVS_CONVERT_TIMESCALE delayHns HUNDREDS_OF_NANOS_IN_A_SECOND DLSR_TIMESCALE) in
      out ← putUnalignedInt32Be out offset (i32 (rrtr_ssrc e));
      out ← putUnalignedInt32Be out (offset + 4) (i32 (rrtr_ntpMid e));
      out ← putUnalignedInt32Be out (offset + 8) (i32 delayDlsrUnits);
      dlrrLoop currentTime pending out (offset + RTCP_XR_DLRR_SUBBLOCK_LEN)
  end.

(** Marks the first entry with the SSRC and the time as answered. *)
Fixpoint markReplied (ssrc ntpMid : Z) (l : list ReceivedRrtrEntry) : list ReceivedRrtrEntry :=
  match l with
  | [] => []
  | e :: l =>
      if (rrtr_ssrc e =? ssrc) && (rrtr_ntpMid e =? ntpMid)
      then (e <| rrtr_lastRepliedNtpMid := ntpMid |>) :: l
      else e :: markReplied ssrc ntpMid l
  end.
Definition markAll (pending l : list ReceivedRrtrEntry) : list ReceivedRrtrEntry :=
  fold_left (fun l e => markReplied (rrtr_ssrc e) (rrtr_ntpMid e) l) pending l.

Definition rtcpBuildExtendedReport (c : Connection) (i : nat) (currentTime : Z) (pOutBuffer : option (list Z))
    (pPacketLen : option Z) : res (Connection * list Z * Z) :=
  match pOutBuffer, pPacketLen with
  | Some out, Some len =>
      t ← getTransceiver c i;
      let sendRrtr := (lastRrtrSentTime t =? 0) || (RTCP_XR_RRTR_INTERVAL_HNS <=? u64 (currentTime - lastRrtrSentTime t)) in
      let pending := List.filter pendingRrtr (receivedRrtrs c) in
      let pendingCount := Z.of_nat (length pending) in
      if negb sendRrtr && (pendingCount =? 0) then Ok (c, out, 0) else
      let packetLen := RTCP_XR_HEADER_LEN + (if sendRrtr then RTCP_XR_RRTR_BLOCK_LEN else 0)
        + (if 0 <? pendingCount then RTCP_XR_DLRR_BLOCK_HDR_LEN + pendingCount * RTCP_XR_DLRR_SUBBLOCK_LEN else 0) in
      CHK packetLen <=? len else STATUS_BUFFER_TOO_SMALL ;;
      out ← put8 out 0 (Z.shiftl RTCP_PACKET_VERSION_VAL 6);
      out ← put8 out RTCP_PACKET_TYPE_OFFSET RTCP_PACKET_TYPE_EXTENDED_REPORT;
      out ← putUnalignedInt16Be out RTCP_PACKET_LEN_OFFSET (i16 (packetLen / RTCP_PACKET_LEN_WORD_SIZE - 1));
      out ← putUnalignedInt32Be out 4 (i32 (sender_ssrc (sender t)));
      let offset := RTCP_XR_HEADER_LEN in
      let ourNtp := convertTimestampToNTP currentTime in
      '(out, offset) ←
        (if sendRrtr then
           out ← put8 out offset RTCP_XR_BLOCK_TYPE_RRTR;
           out ← put8 out (offset + 1) 0;
           out ← putUnalignedInt16Be out (offset + 2) (i16 2);
           out ← putUnalignedInt64Be out (offset + 4) (i64 ourNtp);
           Ok (out, offset + RTCP_XR_RRTR_BLOCK_LEN)
         else Ok (out, offset));
      '(out, c) ←
        (if 0 <? pendingCount then
           let dlrrBodyWords := pendingCount * (RTCP_XR_DLRR_SUBBLOCK_LEN / RTCP_PACKET_LEN_WORD_SIZE) in
           out ← put8 out offset RTCP_XR_BLOCK_TYPE_DLRR;
           out ← put8 out (offset + 1) 0;
           out ← putUnalignedInt16Be out (offset + 2) (i16 (u16 dlrrBodyWords));
           '(out, _) ← dlrrLoop currentTime pending out (offset + RTCP_XR_DLRR_BLOCK_HDR_LEN);
           Ok (out, c <| receivedRrtrs := markAll pending (receivedRrtrs c) |>)
         else Ok (out, c));
      let t' := if sendRrtr then t <| lastRrtrNtpMid := MID_NTP ourNtp |> <| lastRrtrSentTime := currentTime |> else t in
      Ok (setTransceiver c i t', out, packetLen)
  | _, _ => Err STATUS_NULL_ARG
  end.

(** ** The payload of a packet *)

Definition payload8 (p : RtcpPacket) (o : Z) : res Z :=
  match rtcpPayload p with None => Fault | Some pl => pld pl o end.
Definition payload16 (p : RtcpPacket) (o : Z) : res Z :=
  match rtcpPayload p with
  | None => Fault
  | Some pl => v ← getUnalignedInt16Be (p_obj pl) (p_off pl + o); Ok (u16 v)
  end.
Definition payload32 (p : RtcpPacket) (o : Z) : res Z :=
  match rtcpPayload p with
  | None => Fault
  | Some pl => v ← getUnalignedInt32Be (p_obj pl) (p_off pl + o); Ok (u32 v)
  end.
Definition payload64 (p : RtcpPacket) (o : Z) : res Z :=
  match rtcpPayload p with
  | None => Fault
  | Some pl => v ← getUnalignedInt64Be (p_obj pl) (p_off pl + o); Ok (u64 v)
  end.

(** ** The handlers

    Each returns its status and the connection afterwards. *)

Definition callPictureLoss (c : Connection) (i : nat) (t : KvsRtpTransceiver) : Connection :=
  if onPictureLoss t then c <| appCalls := appCalls c ++ [OnPictureLoss i] |> else c.

Definition setOutbound (c : Connection) (i : nat) (t : KvsRtpTransceiver) (o : RtcOutboundRtpStreamStats) : Connection :=
  setTransceiver c i (t <| outboundStats := o |>).

Definition onRtcpFIRPacket (p : option RtcpPacket) (c : Connection) : res (STATUS * Connection) :=
  match p with
  | None => Ok (STATUS_NULL_ARG, c)
  | Some p =>
      mediaSSRC ← payload32 p 4;
      match findTransceiverBySsrc c mediaSSRC with
      | inl _ => Ok (STATUS_SUCCESS, c)
      | inr i =>
          t ← getTransceiver c i;
          let o := outboundStats t in
          Ok (STATUS_SUCCESS, callPictureLoss (setOutbound c i t (o <| firCount := firCount o +32 1 |>)) i t)
      end
  end.

Definition onRtcpSLIPacket (p : option RtcpPacket) (c : Connection) : res (STATUS * Connection) :=
  match p with
  | None => Ok (STATUS_NULL_ARG, c)
  | Some p =>
      mediaSSRC ← payload32 p 4;
      match findTransceiverBySsrc c mediaSSRC with
      | inl _ => Ok (STATUS_SUCCESS, c)
      | inr i =>
          t ← getTransceiver c i;
          let o := outboundStats t in
          Ok (STATUS_SUCCESS, setOutbound c i t (o <| sliCount := sliCount o +32 1 |>))
      end
  end.

(** [now] is GETTIME. *)
Definition onRtcpSenderReport (now : Z) (p : option RtcpPacket) (c : Connection) : res (STATUS * Connection) :=
  match p with
  | None => Ok (STATUS_NULL_ARG, c)
  | Some p =>
      if negb (RTCP_PACKET_SENDER_REPORT_MINLEN <=? rtcpPayloadLength p)
      then Ok (STATUS_RTCP_INPUT_PARTIAL_PACKET, c) else
      senderSSRC ← payload32 p 0;
      match findTransceiverBySsrc c senderSSRC with
      | inl _ => Ok (STATUS_SUCCESS, c)
      | inr i =>
          ntpTime ← payload64 p 4;
          rtpTs ← payload32 p 12;
          packetCnt ← payload32 p 16;
          octetCnt ← payload32 p 20;
          let ntpSec := Z.shiftr ntpTime 32 in
          let ntpFrac := Z.land ntpTime 0xffffffff in
          let unixMs := u64 (u64 (u64 (ntpSec - NTP_OFFSET) * 1000) + u64 (ntpFrac * 1000) / NTP_TIMESCALE) in
          t ← getTransceiver c i;
          let o := remoteOutboundStats t in
          Ok (STATUS_SUCCESS, setTransceiver c i
                (t <| lastSRNtpMid := u32 (Z.land (Z.shiftr ntpTime 16) 0xffffffff) |>
                   <| lastSRReceivedTime := now |>
                   <| remoteOutboundStats := o <| reportsSent := u64 (reportsSent o + 1) |>
                        <| ro_packetsSent := packetCnt |> <| ro_bytesSent := octetCnt |>
                        <| ro_ssrc := senderSSRC |> <| remoteTimestamp := unixMs |> |>))
      end
  end.

(** The round trip time of a report block, in 1/65536 s and in milliseconds: both are UINT32. *)
Definition rttPropDelay (currentTimeNTP lastSR delaySinceLastSR : Z) : Z :=
  MID_NTP currentTimeNTP -32 lastSR -32 delaySinceLastSR.
Definition rttPropDelayMsec (rtt : Z) : Z := u32 (rtt * 1000) / DLSR_TIMESCALE.

Definition onRtcpReceiverReport (now : Z) (p : option RtcpPacket) (c : Connection) : res (STATUS * Connection) :=
  let currentTimeNTP := convertTimestampToNTP now in
  match p with
  | None => Ok (STATUS_NULL_ARG, c)
  | Some p =>
      if negb (rtcpPayloadLength p =? RTCP_PACKET_RECEIVER_REPORT_MINLEN) then Ok (STATUS_SUCCESS, c) else
      senderSSRC ← payload32 p 0;
      ssrc1 ← payload32 p 4;
      match findTransceiverBySsrc c ssrc1 with
      | inl _ => Ok (STATUS_SUCCESS, c)
      | inr i =>
          fraction ← payload8 p 8;
          w ← payload32 p 8;
          let cumulativeLost := Z.land w 0x00ffffff in
          extHiSeqNumReceived ← payload32 p 12;
          interarrivalJitter ← payload32 p 16;
          lastSR ← payload32 p 20;
          delaySinceLastSR ← payload32 p 24;
          t ← getTransceiver c i;
          let r := remoteInboundStats t in
          let r := r <| reportsReceived := u64 (reportsReceived r + 1) |> in
          let lost := ddiv (dbl fraction) (dbl 255) in
          let r := if dlt (dbl (-1)) lost then r <| fractionLost := lost |> else r in
          let rtt := rttPropDelayMsec (rttPropDelay currentTimeNTP lastSR delaySinceLastSR) in
          let r :=
            if negb (lastSR =? 0) then
              r <| ri_roundTripTimeMeasurements := u64 (ri_roundTripTimeMeasurements r + 1) |>
                <| ri_totalRoundTripTime := u64 (ri_totalRoundTripTime r + rtt) |>
                <| ri_roundTripTime := rtt |>
            else r in
          let r := r <| packetsLost := if negb (Z.land cumulativeLost 0x800000 =? 0)
                                       then Z.lor cumulativeLost 0xFF000000 else cumulativeLost |> in
          match pJitterBuffer t with
          | None => Fault
          | Some (clockRate, _) =>
              let r := r <| ri_jitter := ddiv (dbl interarrivalJitter) (dbl clockRate) |> in
              let expected := extHiSeqNumReceived -32 sender_initialSequenceNumber (sender t) +32 1 in
              let r :=
                if sender_seqInitialized (sender t) && (cumulativeLost <=? expected)
                then r <| ri_packetsReceived := expected - cumulativeLost |> else r in
              Ok (STATUS_SUCCESS, setTransceiver c i (t <| remoteInboundStats := r |>))
          end
      end
  end.

(** *** onRtcpExtendedReport *)

(** The slot for a reporter: the first one with its SSRC, or else the first free one. *)
Fixpoint rrtrSlot (ssrc : Z) (l : list ReceivedRrtrEntry) (slot : nat) (freeSlot : option nat) : option nat :=
  match l with
  | [] => freeSlot
  | e :: l =>
      if rrtr_ssrc e =? ssrc then Some slot
      else rrtrSlot ssrc l (S slot)
             (match freeSlot with Some _ => freeSlot | None => if rrtr_ssrc e =? 0 then Some slot else None end)
  end.

Definition storeRrtr (ssrc ntpMid now : Z) (l : list ReceivedRrtrEntry) : list ReceivedRrtrEntry :=
  match rrtrSlot ssrc l 0 None with
  | None => l
  | Some slot =>
      alter (fun e => {| rrtr_ssrc := ssrc; rrtr_ntpMid := ntpMid; rrtr_arrivalTimeHns := now;
                         rrtr_lastRepliedNtpMid := rrtr_lastRepliedNtpMid e |}) slot l
  end.

(** One sub-block of a DLRR block. *)
Definition dlrrSubBlock (nowNtp subSsrc subLrr subDlrr : Z) (c : Connection) : res Connection :=
  match findTransceiverBySsrc c subSsrc with
  | inl _ => Ok c
  | inr i =>
      if subLrr =? 0 then Ok c else
      let rttDlsrUnits := MID_NTP nowNtp -32 subLrr -32 subDlrr in
      let rttSeconds := ddiv (dbl rttDlsrUnits) (dbl DLSR_TIMESCALE) in
      t ← getTransceiver c i;
      if negb (lastRrtrNtpMid t =? 0) && (subLrr =? lastRrtrNtpMid t) then
        let o := remoteOutboundStats t in
        Ok (setTransceiver c i
              (t <| remoteOutboundStats := o <| ro_roundTripTime := rttSeconds |>
                      <| ro_totalRoundTripTime := dadd (ro_totalRoundTripTime o) rttSeconds |>
                      <| ro_roundTripTimeMeasurements := u64 (ro_roundTripTimeMeasurements o + 1) |> |>))
      else Ok c
  end.

Fixpoint dlrrBlocks (n : nat) (p : RtcpPacket) (nowNtp subOffset : Z) (c : Connection) : res Connection :=
  match n with
  | O => Ok c
  | S n =>
      subSsrc ← payload32 p subOffset;
      subLrr ← payload32 p (subOffset + 4);
      subDlrr ← payload32 p (subOffset + 8);
      c ← dlrrSubBlock nowNtp subSsrc subLrr subDlrr c;
      dlrrBlocks n p nowNtp (subOffset + RTCP_XR_DLRR_SUBBLOCK_LEN) c
  end.

(** The switch on the block type; [now] is GETTIME. *)
Definition xrBlock (now : Z) (p : RtcpPacket) (reporterSsrc bt blockBodyWords offset : Z) (c : Connection)
    : res Connection :=
  if bt =? RTCP_XR_BLOCK_TYPE_RRTR then
    if negb (blockBodyWords =? 2) then Ok c else
    ntp ← payload64 p (offset + 4);
    Ok (c <| receivedRrtrs := storeRrtr reporterSsrc (MID_NTP ntp) now (receivedRrtrs c) |>)
  else if bt =? RTCP_XR_BLOCK_TYPE_DLRR then
    if negb (blockBodyWords mod 3 =? 0) then Ok c else
    dlrrBlocks (Z.to_nat (blockBodyWords / 3)) p (convertTimestampToNTP now) (offset + 4) c
  else Ok c.

(** The loop over the blocks; every iteration advances by at least four bytes.  GETTIME may
    differ from block to block: [now] maps the offset of a block to it. *)
Fixpoint xrLoop (fuel : nat) (now : Z -> Z) (p : RtcpPacket) (reporterSsrc offset : Z) (c : Connection) : res Connection :=
  if offset + 4 <=? rtcpPayloadLength p then
    match fuel with
    | O => Fault
    | S fuel =>
        bt ← payload8 p offset;
        blockBodyWords ← payload16 p (offset + 2);
        let blockBodyBytes := blockBodyWords * 4 in
        if rtcpPayloadLength p <? offset + 4 + blockBodyBytes then Ok c else
        c ← xrBlock (now offset) p reporterSsrc bt blockBodyWords offset c;
        xrLoop fuel now p reporterSsrc (offset + (4 + blockBodyBytes)) c
    end
  else Ok c.

Definition onRtcpExtendedReport (now : Z -> Z) (p : option RtcpPacket) (c : Connection) : res (STATUS * Connection) :=
  match p with
  | None => Ok (STATUS_NULL_ARG, c)
  | Some p =>
      match rtcpPayload p with
      | None => Ok (STATUS_NULL_ARG, c)
      | Some _ =>
          if negb (4 <=? rtcpPayloadLength p) then Ok (STATUS_RTCP_INPUT_PARTIAL_PACKET, c) else
          reporterSsrc ← payload32 p 0;
          c ← xrLoop (Z.to_nat (rtcpPayloadLength p)) now p reporterSsrc 4 c;
          Ok (STATUS_SUCCESS, c)
      end
  end.

(** *** onRtcpPSFBFIRPacket, onRtcpRembPacket, onRtcpPLIPacket *)

(** The loop over the FCI entries, eight bytes each. *)
Fixpoint firLoop (fuel : nat) (p : RtcpPacket) (offset : Z) (c : Connection) : res (STATUS * Connection) :=
  if offset + 4 <? rtcpPayloadLength p then
    match fuel with
    | O => Fault
    | S fuel =>
        ssrc ← payload32 p offset;
        match findTransceiverBySsrc c ssrc with
        | inl _ => Ok (STATUS_RTCP_INPUT_SSRC_INVALID, c)
        | inr i =>
            t ← getTransceiver c i;
            let o := outboundStats t in
            let c := callPictureLoss (setOutbound c i t (o <| firCount := firCount o +32 1 |>)) i t in
            firLoop fuel p (offset + PSFB_FIR_FCI_SSRC_OFFSET) c
        end
    end
  else Ok (STATUS_SUCCESS, c).

Definition onRtcpPSFBFIRPacket (p : option RtcpPacket) (c : Connection) : res (STATUS * Connection) :=
  match p with
  | None => Ok (STATUS_NULL_ARG, c)
  | Some p =>
      if PSFB_FIR_MIN_SIZE <=? rtcpPayloadLength p
      then firLoop (Z.to_nat (rtcpPayloadLength p)) p PSFB_FIR_FCI_SSRC_OFFSET c
      else Ok (STATUS_SUCCESS, c)
  end.

Definition onRtcpPLIPacket (p : option RtcpPacket) (c : Connection) : res (STATUS * Connection) :=
  match p with
  | None => Ok (STATUS_NULL_ARG, c)
  | Some p =>
      mediaSSRC ← payload32 p 4;
      match findTransceiverBySsrc c mediaSSRC with
      | inl _ => Ok (STATUS_RTCP_INPUT_SSRC_INVALID, c)
      | inr i =>
          t ← getTransceiver c i;
          let o := outboundStats t in
          Ok (STATUS_SUCCESS, callPictureLoss (setOutbound c i t (o <| pliCount := pliCount o +32 1 |>)) i t)
      end
  end.

(** The callbacks for the first [n] SSRCs of the list. *)
Fixpoint rembLoop (n : nat) (ssrcList : list Z) (i maximumBitRate : Z) (c : Connection) : res Connection :=
  match n with
  | O => Ok c
  | S n =>
      ssrc ← lget ssrcList i;
      c ← (match findTransceiverBySsrc c ssrc with
           | inl _ => Ok c
           | inr k =>
               t ← getTransceiver c k;
               Ok (if onBandwidthEstimation t
                   then c <| appCalls := appCalls c ++ [OnBandwidthEstimation k maximumBitRate] |> else c)
           end);
      rembLoop n ssrcList (i + 1) maximumBitRate c
  end.

Definition onRtcpRembPacket (h : endian) (p : option RtcpPacket) (c : Connection) : res (STATUS * Connection) :=
  match p with
  | None => Ok (STATUS_NULL_ARG, c)
  | Some p =>
      match rembValueGet h (rtcpPayload p) (rtcpPayloadLength p) (Some (replicate 255 0)) with
      | Fault => Fault
      | Err st => Ok (st, c)
      | Ok (maximumBitRate, Some ssrcList, ssrcListLen) =>
          c ← rembLoop (Z.to_nat ssrcListLen) ssrcList 0 maximumBitRate c; Ok (STATUS_SUCCESS, c)
      | Ok (_, None, _) => Fault
      end
  end.

(** ** onRtcpPacket *)

Section Dispatch.
Variable h : endian.
(** The transport and the allocations of the retransmitter, as in Retransmitter; the outcome
    of the allocation for the TWCC report; GETTIME in the handlers, by the offset of the
    packet. *)
Variable encryptRtp : list Z -> Z -> STATUS * list Z * Z.
Variable iceSend : list Z -> STATUS.
Variable memWrite memPayload memRaw : Z -> option (list Z).
Variable memPacket : option RtpPacket.
Variable memInfo memTable memReports : bool.
Variable now : Z -> Z -> Z.

Definition onTwccFeedback (p : RtcpPacket) (c : Connection) : res (STATUS * Connection) :=
  '(st, m, calls) ← onRtcpTwccPacket (onSenderBandwidthEstimation c) (onTwccPacketReport c) memReports (Some p)
                      (pTwccManager c);
  Ok (st, c <| pTwccManager := m |> <| appCalls := appCalls c ++ map OnTwcc calls |>).

(** The switch on the packet type, for the packet at [offset]. *)
Definition dispatchRtcp (offset : Z) (p : RtcpPacket) (c : Connection) : res (STATUS * Connection) :=
  let type := packetType (rtcpHeader p) in
  let count := receptionReportCount (rtcpHeader p) in
  if type =? RTCP_PACKET_TYPE_FIR then onRtcpFIRPacket (Some p) c
  else if type =? RTCP_PACKET_TYPE_GENERIC_RTP_FEEDBACK then
    if count =? RTCP_FEEDBACK_MESSAGE_TYPE_NACK
    then resendPacketOnNack h encryptRtp iceSend memWrite memPayload memRaw memPacket memInfo memTable (now offset)
           (Some p) c
    else if count =? RTCP_FEEDBACK_MESSAGE_TYPE_APPLICATION_LAYER_FEEDBACK then onTwccFeedback p c
    else Ok (STATUS_SUCCESS, c)
  else if type =? RTCP_PACKET_TYPE_PAYLOAD_SPECIFIC_FEEDBACK then
    remb ← (if count =? RTCP_FEEDBACK_MESSAGE_TYPE_APPLICATION_LAYER_FEEDBACK
            then st ← isRembPacket (rtcpPayload p) (rtcpPayloadLength p); Ok (negb (STATUS_FAILED st))
            else Ok false);
    if (remb : bool) then onRtcpRembPacket h (Some p) c
    else if count =? RTCP_PSFB_PLI then onRtcpPLIPacket (Some p) c
    else if count =? RTCP_PSFB_FIR then onRtcpPSFBFIRPacket (Some p) c
    else if count =? RTCP_PSFB_SLI then onRtcpSLIPacket (Some p) c
    else Ok (STATUS_SUCCESS, c)
  else if type =? RTCP_PACKET_TYPE_SENDER_REPORT then onRtcpSenderReport (now offset 0) (Some p) c
  else if type =? RTCP_PACKET_TYPE_RECEIVER_REPORT then onRtcpReceiverReport (now offset 0) (Some p) c
  else if type =? RTCP_PACKET_TYPE_EXTENDED_REPORT then onRtcpExtendedReport (now offset) (Some p) c
  else Ok (STATUS_SUCCESS, c).

(** The loop over the packets of a compound; every iteration advances by at least four bytes.
    [p] is the local rtcpPacket. *)
Fixpoint rtcpLoop (fuel : nat) (pBuff : list Z) (buffLen currentOffset : Z) (p : RtcpPacket) (c : Connection)
    : res (STATUS * Connection) :=
  if currentOffset <? buffLen then
    match fuel with
    | O => Fault
    | S fuel =>
        '(st, p) ← setRtcpPacketFromBytes h (drop (Z.to_nat currentOffset) pBuff) (buffLen - currentOffset) (Some p);
        if STATUS_FAILED st then Ok (st, c) else
        '(st, c) ← dispatchRtcp currentOffset p c;
        if STATUS_FAILED st then Ok (st, c) else
        rtcpLoop fuel pBuff buffLen (currentOffset + (rtcpPayloadLength p + RTCP_PACKET_HEADER_LEN)) p c
    end
  else Ok (STATUS_SUCCESS, c).

Definition onRtcpPacket (rtcpPacket : RtcpPacket) (c : Connection) (pBuff : option (list Z)) (buffLen : Z)
    : res (STATUS * Connection) :=
  match pBuff with
  | None => Ok (STATUS_NULL_ARG, c)
  | Some buf => rtcpLoop (Z.to_nat buffLen) buf buffLen 0 rtcpPacket c
  end.
End Dispatch.

(** ** What the connection sends *)

Section Send.
Variable encryptRtcp : list Z -> Z -> STATUS * list Z * Z.
Variable iceSend : list Z -> STATUS.
Variable trailer : Z.
Variable mem : Z -> option (list Z).

(** The twelve bytes of a picture loss indication; [packet] is the array on the stack. *)
Definition pliPacket (packet : list Z) (senderSsrc mediaSsrc : Z) : res (list Z) :=
  packet ← put8 packet 0 (Z.lor (Z.shiftl RTCP_PACKET_VERSION_VAL 6) RTCP_PSFB_PLI);
  packet ← put8 packet 1 RTCP_PACKET_TYPE_PAYLOAD_SPECIFIC_FEEDBACK;
  packet ← putUnalignedInt16Be packet 2 (i16 (12 / 4 - 1));
  packet ← putUnalignedInt32Be packet 4 (i32 senderSsrc);
  putUnalignedInt32Be packet 8 (i32 mediaSsrc).

Definition sendRtcpPLI (c : Connection) (packet : list Z) (senderSsrc mediaSsrc : Z) : res (STATUS * Connection) :=
  packet ← pliPacket packet senderSsrc mediaSsrc;
  writeRtcpPacket encryptRtcp iceSend trailer mem c packet 12.

(** The twenty bytes of a full intra request. *)
Definition firPacket (packet : list Z) (senderSsrc mediaSsrc seqNum : Z) : res (list Z) :=
  packet ← put8 packet 0 (Z.lor (Z.shiftl RTCP_PACKET_VERSION_VAL 6) RTCP_PSFB_FIR);
  packet ← put8 packet 1 RTCP_PACKET_TYPE_PAYLOAD_SPECIFIC_FEEDBACK;
  packet ← putUnalignedInt16Be packet 2 (i16 (20 / 4 - 1));
  packet ← putUnalignedInt32Be packet 4 (i32 senderSsrc);
  packet ← putUnalignedInt32Be packet 8 (i32 0);
  packet ← putUnalignedInt32Be packet 12 (i32 mediaSsrc);
  packet ← put8 packet 16 seqNum;
  packet ← put8 packet 17 0;
  packet ← put8 packet 18 0;
  put8 packet 19 0.

(** [seqNum] is *pSeqNum; the result has its new value. *)
Definition sendRtcpFIR (c : Connection) (packet : list Z) (senderSsrc mediaSsrc : Z) (pSeqNum : option Z)
    : res (STATUS * Connection * option Z) :=
  match pSeqNum with
  | None => Ok (STATUS_NULL_ARG, c, None)
  | Some seqNum =>
      let seqNum := u8 (seqNum + 1) in
      packet ← firPacket packet senderSsrc mediaSsrc seqNum;
      '(st, c) ← writeRtcpPacket encryptRtcp iceSend trailer mem c packet 20;
      Ok (st, c, Some seqNum)
  end.

Definition RTCP_SRTP_ENCRYPT_OVERHEAD : Z := SRTP_AUTH_TAG_OVERHEAD + trailer + 4.
Definition RTCP_MAX_REPORT_BODY_LEN : Z :=
  RTCP_XR_HEADER_LEN + RTCP_XR_RRTR_BLOCK_LEN + RTCP_XR_DLRR_BLOCK_HDR_LEN + MAX_RECEIVED_RRTR * RTCP_XR_DLRR_SUBBLOCK_LEN.

Definition sendBuiltRtcpReport (c : Connection) (pReportBody : list Z) (reportLen : Z) : res (STATUS * Connection) :=
  match mem (reportLen + RTCP_SRTP_ENCRYPT_OVERHEAD) with
  | None => Ok (STATUS_NOT_ENOUGH_MEMORY, c)
  | Some buf =>
      bs ← ld_bytes pReportBody 0 reportLen;
      buf ← put_bytes buf 0 bs;
      let '(st, buf, len) := encryptRtcp buf reportLen in
      if STATUS_FAILED st then Ok (st, c) else iceAgentSendPacket iceSend c buf len
  end.

(** Sends a report if there is one. *)
Definition sendReport (c : Connection) (body : list Z) (len : Z) : res (STATUS * Connection) :=
  if 0 <? len then sendBuiltRtcpReport c body len else Ok (STATUS_SUCCESS, c).

(** The reports of transceiver [i], in the order of the callback; [body] is reportBody. *)
Definition sendReports (c : Connection) (i : nat) (currentTime : Z) (body : list Z) : res (STATUS * Connection) :=
  t ← getTransceiver c i;
  match rtcpBuildSenderReport (Some t) currentTime (Some body) (Some RTCP_MAX_REPORT_BODY_LEN) with
  | Fault => Fault
  | Err st => Ok (st, c)
  | Ok (body, len) =>
      '(st, c) ← sendReport c body len;
      if STATUS_FAILED st then Ok (st, c) else
      match rtcpBuildReceiverReport (Some t) currentTime (Some body) (Some RTCP_MAX_REPORT_BODY_LEN) with
      | Ok (Some t, body, len) =>
          let c := setTransceiver c i t in
          '(st, c) ← sendReport c body len;
          if STATUS_FAILED st then Ok (st, c) else
          match rtcpBuildExtendedReport c i currentTime (Some body) (Some RTCP_MAX_REPORT_BODY_LEN) with
          | Fault => Fault
          | Err st => Ok (st, c)
          | Ok (c, body, len) => sendReport c body len
          end
      | Err st => Ok (st, c)
      | _ => Fault
      end
  end.

(** rtcpReportsCallback: the delay of the next report, in 100 ns, when the timer is set again.
    [rand] is RAND(), [addTimer] the status of timerQueueAddTimer. *)
Definition rtcpReportsCallback (rand : Z) (addTimer : Z -> STATUS) (c : Connection) (i : nat) (currentTime : Z)
    (body : list Z) : res (STATUS * Connection * option Z) :=
  t ← getTransceiver c i;
  match pJitterBuffer t with
  | None => Ok (STATUS_NULL_ARG, c, None)
  | Some _ =>
      '(st, c) ← (if pSrtpSession c then sendReports c i currentTime body else Ok (STATUS_SUCCESS, c));
      if STATUS_FAILED st then Ok (st, c, None) else
      let delay := 100 + rand mod 200 in
      let hns := delay * HUNDREDS_OF_NANOS_IN_A_MILLISECOND in
      Ok (addTimer hns, c, Some hns)
  end.
End Send.
