(* ===== verification/RtcpExchange.v ===== *)
(** * RTCP exchanges between two connections

    The reports of RtcpReports, built by one side and processed by the other: what the loss
    figures and the round trip times mean, that reports with any contents are processed
    without leaving the packet, and the cases in which the handlers do not do what they
    mean to. *)

From S2P Require Import Prelude Double Endian RtpPacket RollingBuffer RtcpPacket FramePath Twcc Transceiver Retransmitter RtcpReports.

(** ** Sequence numbers *)

(** The state after packets with extended sequence numbers from [lo] to [hi]. *)
Record tracks (r : RrState) (lo hi : Z) : Prop := {
  tk_init : rrSeqInitialized r = true;
  tk_max : rrMaxSeq r = u16 hi;
  tk_cycles : rrCycles r = hi - u16 hi;
  tk_base : rrBaseSeq r = lo;
  tk_range : 0 <= lo <= hi /\ hi < 2 ^ 32;
}.

(** The extended number of a packet that is neither a dropout nor misordered (RFC 3550, A.1). *)
Definition in_sequence (hi x : Z) : Prop := hi - MAX_MISORDER < x < hi + MAX_DROPOUT /\ 0 <= x < 2 ^ 32.

Lemma tracks_init x : is_u16 x -> tracks (rrInitSeq x) x x.
Proof. intros H. split; cbn; rewrite ?u16_id by done; try done; unfold is_u16 in H; lia. Qed.

Lemma tracks_step r lo hi x :
  tracks r lo hi -> in_sequence hi x -> tracks (rrUpdateSeq r (u16 x)) (Z.min lo x) (Z.max hi x).
Proof.
  intros [Hi Hm Hc Hb [Hr1 Hr2]] [Hd Hx]. unfold MAX_MISORDER, MAX_DROPOUT in Hd.
  unfold rrUpdateSeq, MAX_DROPOUT, MAX_MISORDER. change (RTP_SEQ_MOD - 100) with 65436. rewrite Hm.
  destruct (Z.le_gt_cases hi x).
  - rewrite (proj2 (Z.ltb_lt _ _)) by width_lia. rewrite Z.min_l, Z.max_r by lia.
    destruct (Z.ltb_spec (u16 x) (u16 hi)); split; cbn; try done; try (change (rrCycles r = x - u16 x)); change RTP_SEQ_MOD with (2 ^ 16); rewrite ?Hc; width_lia.
  - rewrite (proj2 (Z.ltb_ge _ _)) by width_lia. rewrite (proj2 (Z.leb_gt _ _)) by width_lia.
    rewrite Z.max_l by lia. replace (rrCycles r +32 u16 hi -32 u16 (u16 hi - u16 x)) with x by (rewrite Hc; width_lia).
    rewrite Hb. destruct (Z.ltb_spec x lo); [rewrite Z.min_r by lia|rewrite Z.min_l by lia]; split; cbn; try done; lia.
Qed.

(** Every packet follows the highest one before it closely. *)
Fixpoint all_in_sequence (hi : Z) (xs : list Z) : Prop :=
  match xs with
  | [] => True
  | x :: xs => in_sequence hi x /\ all_in_sequence (Z.max hi x) xs
  end.

Lemma tracks_all xs r lo hi :
  tracks r lo hi -> all_in_sequence hi xs ->
  tracks (fold_left rrUpdateSeq (map u16 xs) r) (fold_left Z.min xs lo) (fold_left Z.max xs hi).
Proof.
  revert r lo hi. induction xs as [|x xs IH]; intros r lo hi Ht; cbn; [done|]. intros [Hx Hxs].
  apply IH; [by apply tracks_step|done].
Qed.

(** C20. The receiver's sequence number state follows the stream over wrap-arounds and
    reordering.  For packets with extended sequence numbers x, xs (what the 16-bit numbers on
    the wire stand for), the first one below 2^16, each one less than 3000 above and less than
    100 below the highest one before it: the cycle count plus the highest number is the
    maximum and the base is the minimum of all of them, so the number of packets expected is
    the length of the range they cover. *)
Theorem rrUpdateSeq_tracks x xs (Hx : is_u16 x) (Hxs : all_in_sequence x xs) :
  let r := fold_left rrUpdateSeq (map u16 xs) (rrInitSeq x) in
  let lo := fold_left Z.min xs x in
  let hi := fold_left Z.max xs x in
  rrSeqInitialized r = true /\ rrCycles r + rrMaxSeq r = hi /\ rrBaseSeq r = lo /\
  (rrCycles r +32 rrMaxSeq r -32 rrBaseSeq r +32 1) = u32 (hi - lo + 1).
Proof.
  cbv zeta. destruct (tracks_all xs _ _ _ (tracks_init x Hx) Hxs) as [H1 H2 H3 H4 H5].
  rewrite H2, H3, H4. split_and!; [done|lia|done|width_lia].
Qed.

(** ** Reading a packet *)

(** A packet as the header parser leaves it: [raw] starts with its header. *)
Definition packet_of (b0 b1 : Z) (body rest : list Z) : RtcpPacket :=
  let raw := [b0; b1] ++ be16 (blen body / 4) ++ body ++ rest in
  {| rtcpHeader := {| rtcpVersion := 2; receptionReportCount := Z.land b0 0x1F; packetType := b1;
                      rtcpPacketLength := blen body / 4 |};
     rtcpPayload := Some (Ptr raw 4); rtcpPayloadLength := blen body |}.

(** A well-formed packet: version 2 and whole words. *)
Record packet_ok (b0 b1 : Z) (body : list Z) : Prop := {
  pk_b0 : is_u8 b0 /\ Z.land (Z.shiftr b0 6) 3 = 2;
  pk_b1 : is_u8 b1;
  pk_body : bytes_ok body;
  pk_len : blen body mod 4 = 0 /\ blen body / 4 < 2 ^ 16;
}.
Definition packet_bytes (b0 b1 : Z) (body : list Z) : list Z := [b0; b1] ++ be16 (blen body / 4) ++ body.

Lemma packet_parse h b0 b1 body rest p :
  packet_ok b0 b1 body -> bytes_ok rest ->
  let raw := packet_bytes b0 b1 body ++ rest in
  setRtcpPacketFromBytes h raw (blen raw) (Some p) = Ok (STATUS_SUCCESS, packet_of b0 b1 body rest).
Proof.
  intros [[H0 Hv] H1 Hb [Hm Hl]] Hr. cbv zeta. unfold packet_bytes. rewrite <- !(assoc_L (++)).
  pose proof (blen_nonneg body). assert (E : blen body = 4 * (blen body / 4)) by (Z.div_mod_to_equations; lia).
  rewrite (rtcp_header_parse h b0 b1 (blen body / 4) body rest p) by (try done; unfold is_u16; Z.div_mod_to_equations; lia).
  unfold packet_of. do 3 f_equal. lia.
Qed.

Lemma packet_raw_ok b0 b1 body rest :
  packet_ok b0 b1 body -> bytes_ok rest -> bytes_ok ([b0; b1] ++ be16 (blen body / 4) ++ body ++ rest).
Proof.
  intros [[H0 _] H1 Hb _] Hr. rewrite !bytes_ok_app. split_and!; [|auto with width|done..].
  constructor; [done|]. by constructor.
Qed.

Section Payload.
Context (b0 b1 : Z) (body rest : list Z).
Hypothesis Hok : packet_ok b0 b1 body.
Hypothesis Hrest : bytes_ok rest.
Let p := packet_of b0 b1 body rest.

Lemma payload32_read o v : 0 <= o -> rd32 (body ++ rest) o = Ok v -> payload32 p o = Ok v.
Proof.
  intros Ho Hv. unfold payload32, p, packet_of. cbn [rtcpPayload p_obj p_off].
  rewrite get32Be_rd32 by by apply packet_raw_ok. rewrite (assoc_L (++)).
  change (4 + o) with (blen ([b0; b1] ++ be16 (blen body / 4)) + o). rewrite rd32_app_r, Hv by done.
  cbn [mbind res_bind]. rewrite u32_i32, u32_id; [done|]. apply rd32_range in Hv; [done|].
  apply bytes_ok_app. split; [apply Hok|done].
Qed.

Lemma payload64_read o v : 0 <= o -> rd64 (body ++ rest) o = Ok v -> payload64 p o = Ok v.
Proof.
  intros Ho Hv. unfold payload64, p, packet_of. cbn [rtcpPayload p_obj p_off].
  rewrite get64Be_rd64 by by apply packet_raw_ok. rewrite (assoc_L (++)).
  unfold rd64 in *. change (4 + o) with (blen ([b0; b1] ++ be16 (blen body / 4)) + o).
  replace (blen ([b0; b1] ++ be16 (blen body / 4)) + o + 4) with (blen ([b0; b1] ++ be16 (blen body / 4)) + (o + 4)) by lia.
  rewrite !rd32_app_r by lia.
  assert (Hb : bytes_ok (body ++ rest)) by (apply bytes_ok_app; split; [apply Hok|done]).
  destruct (rd32 (body ++ rest) o) as [hi| |] eqn:E1; cbn [mbind res_bind] in *; try done.
  destruct (rd32 (body ++ rest) (o + 4)) as [l| |] eqn:E2; cbn [mbind res_bind] in *; try done.
  injection Hv as <-. apply rd32_range in E1, E2; [|done..]. f_equal. width_lia.
Qed.

Lemma payload16_read o v : 0 <= o -> rd16 (body ++ rest) o = Ok v -> payload16 p o = Ok v.
Proof.
  intros Ho Hv. unfold payload16, p, packet_of. cbn [rtcpPayload p_obj p_off].
  rewrite get16Be_rd16 by by apply packet_raw_ok. rewrite (assoc_L (++)).
  change (4 + o) with (blen ([b0; b1] ++ be16 (blen body / 4)) + o). rewrite rd16_app_r, Hv by done.
  cbn [mbind res_bind]. rewrite u16_i16, u16_id; [done|]. apply rd16_range in Hv; [done|].
  apply bytes_ok_app. split; [apply Hok|done].
Qed.

Lemma payload8_read o : 0 <= o -> payload8 p o = ld (body ++ rest) o.
Proof.
  intros Ho. unfold payload8, p, packet_of, pld. cbn [rtcpPayload p_obj p_off]. rewrite (assoc_L (++)).
  change (4 + o) with (blen ([b0; b1] ++ be16 (blen body / 4)) + o). by rewrite ld_app_off.
Qed.

(** The payload of a packet at the end of the buffer cannot be read beyond its end. *)
Lemma payload32_beyond o : rest = [] -> 0 <= o -> blen body < o + 4 -> payload32 p o = Fault.
Proof.
  intros Hr Ho Hl. unfold payload32, p, packet_of. cbn [rtcpPayload p_obj p_off].
  rewrite get32Be_rd32 by by apply packet_raw_ok. rewrite (assoc_L (++)).
  change (4 + o) with (blen ([b0; b1] ++ be16 (blen body / 4)) + o). rewrite rd32_app_r by done. rewrite Hr, app_nil_r.
  by rewrite rd32_fault.
Qed.
End Payload.

(** Reads the field at an offset: skips the fields before it. *)
Lemma rd32_skip a b o : blen a <= o -> rd32 (a ++ b) o = rd32 b (o - blen a).
Proof. intros. pose proof (blen_nonneg a). rewrite <- (rd32_app_r a b (o - blen a)) by lia. f_equal. lia. Qed.
Lemma rd64_skip a b o : blen a <= o -> rd64 (a ++ b) o = rd64 b (o - blen a).
Proof.
  intros. unfold rd64. rewrite (rd32_skip a b o) by lia. rewrite (rd32_skip a b (o + 4)) by lia.
  by replace (o + 4 - blen a) with (o - blen a + 4) by lia.
Qed.
Lemma rd64_be64 v c : rd64 (be64 v ++ c) 0 = Ok (u64 v).
Proof. apply (rd64_app [] v c 0). done. Qed.
Lemma rd16_skip a b o : blen a <= o -> rd16 (a ++ b) o = rd16 b (o - blen a).
Proof. intros. pose proof (blen_nonneg a). rewrite <- (rd16_app_r a b (o - blen a)) by lia. f_equal. lia. Qed.
Lemma ld_be32 v c : ld (be32 v ++ c) 0 = Ok (u8 (Z.shiftr v 24)).
Proof. #[local] Transparent be32. reflexivity. #[local] Opaque be32. Qed.

Ltac read_field :=
  rewrite <- ?(assoc_L (++));
  repeat first [ rewrite rd32_be32 | rewrite rd64_be64 | rewrite rd16_be16
               | rewrite rd32_skip by (autorewrite with blen; lia)
               | rewrite rd64_skip by (autorewrite with blen; lia)
               | rewrite rd16_skip by (autorewrite with blen; lia) ];
  autorewrite with blen; try done.

(** ** The sender report *)

Definition sr_body (ssrc ntp rtp packets octets : Z) : list Z :=
  be32 ssrc ++ be64 ntp ++ be32 rtp ++ be32 packets ++ be32 octets.

(** The transceiver has sent media for long enough to report. *)
Definition reports_sr (t : KvsRtpTransceiver) (now : Z) : Prop :=
  sender_firstFrameWallClockTime (sender t) <> 0 /\
  25000000 <= u64 (now - sender_firstFrameWallClockTime (sender t)).

Definition sr_of (t : KvsRtpTransceiver) (clockRate now : Z) : list Z :=
  sr_body (sender_ssrc (sender t)) (convertTimestampToNTP now)
    (sender_rtpTimeOffset (sender t) + CONVERT_TIMESTAMP_TO_RTP clockRate (u64 (now - sender_firstFrameWallClockTime (sender t))))
    (packetsSent (outboundStats t)) (bytesSent (outboundStats t)).

Lemma be32_u64 v : be32 (u64 v) = be32 v.
Proof.
  #[local] Transparent be32. unfold be32. rewrite !Z.shiftr_div_pow2 by lia.
  repeat (f_equal; [width_lia|]). f_equal. width_lia. #[local] Opaque be32.
Qed.

Lemma buildSR t clockRate jitter now out len :
  pJitterBuffer t = Some (clockRate, jitter) -> reports_sr t now -> 28 <= len -> 28 <= blen out ->
  rtcpBuildSenderReport (Some t) now (Some out) (Some len) =
  Ok (packet_bytes 0x80 200 (sr_of t clockRate now) ++ drop 28 out, 28).
Proof.
  intros Hj [Hf Ht] Hl Ho. unfold rtcpBuildSenderReport. rewrite Hj. change RTCP_SENDER_REPORT_LEN with 28.
  rewrite (proj2 (Z.leb_le 28 len)) by lia. rewrite (proj2 (Z.eqb_neq _ _)) by done.
  change (2500 * HUNDREDS_OF_NANOS_IN_A_MILLISECOND) with 25000000. rewrite (proj2 (Z.ltb_ge _ _)) by lia. cbn [orb].
  unfold put8, RTCP_PACKET_TYPE_OFFSET, RTCP_PACKET_LEN_OFFSET. repeat put_merge.
  rewrite be32_u64, !be32_u32. rewrite put_bytes_in by (autorewrite with blen; lia). cbn [mbind res_bind]. do 2 f_equal.
Qed.

(** ** The receiver report *)

(** The fraction of the packets lost in an interval, in 1/256, in the eight bits of the field:
    256 when all of them were lost, which the field shows as 0. *)
Definition loss_fraction (expected received : Z) : Z :=
  if expected <=? received then 0 else u8 (256 * (expected - received) / expected).

(** The figures are in the ranges of the report's fields. *)
Record report_ok (r : RrState) (lo hi n : Z) : Prop := {
  ro_tracks : tracks r lo hi;
  ro_prior : 0 <= rrExpectedPrior r <= hi - lo + 1 /\ 0 <= rrReceivedPrior r <= n;
  ro_small : hi - lo + 1 - rrExpectedPrior r < 2 ^ 24 /\ hi - lo + 1 < 2 ^ 31 /\ n < 2 ^ 31;
  ro_loss : - 2 ^ 23 <= hi - lo + 1 - n < 2 ^ 23;
}.

Lemma sub_i32_ok a b : - 2 ^ 31 <= a - b < 2 ^ 31 -> sub_i32 a b = Ok (a - b).
Proof. intros. unfold sub_i32. rewrite (proj2 (Z.leb_le _ _)), (proj2 (Z.ltb_lt _ _)) by lia. done. Qed.

Lemma lossInterval_ok r lo hi n :
  report_ok r lo hi n ->
  lossInterval r n =
  Ok (loss_fraction (hi - lo + 1 - rrExpectedPrior r) (n - rrReceivedPrior r), hi - lo + 1 - n,
      r <| rrExpectedPrior := hi - lo + 1 |> <| rrReceivedPrior := n |>).
Proof.
  intros [[_ Hm Hc Hb [Hr1 Hr2]] [Hp1 Hp2] (Hs1 & Hs2 & Hs3) Hl]. unfold lossInterval.
  replace (rrCycles r +32 rrMaxSeq r -32 rrBaseSeq r +32 1) with (hi - lo + 1) by (rewrite Hm, Hc, Hb; width_lia).
  set (E := hi - lo + 1) in *. set (ep := rrExpectedPrior r) in *. set (rp := rrReceivedPrior r) in *.
  replace (E -32 ep) with (E - ep) by width_lia. replace (n -32 rp) with (n - rp) by width_lia.
  replace (i32 (E - ep)) with (E - ep) by width_lia. replace (i32 (n - rp)) with (n - rp) by width_lia.
  rewrite (sub_i32_ok (E - ep) (n - rp)) by lia. cbn [mbind res_bind].
  replace (i32 E) with E by width_lia. replace (i32 n) with n by width_lia.
  rewrite sub_i32_ok by lia. cbn [mbind res_bind].
  rewrite (proj2 (Z.ltb_ge 0x7FFFFF (E - n))), (proj2 (Z.ltb_ge (E - n) (- 0x800000))) by lia.
  do 3 f_equal. unfold loss_fraction. destruct (Z.leb_spec (E - ep) (n - rp)).
  - destruct (E - ep =? 0); [done|]. cbn [orb]. by rewrite (proj2 (Z.leb_le _ _)) by lia.
  - rewrite (proj2 (Z.eqb_neq _ _)), (proj2 (Z.leb_gt _ _)) by lia. cbn [orb].
    rewrite Z.shiftl_mul_pow2 by lia. replace (u32 (u32 (E - ep - (n - rp)) * 2 ^ 8)) with (256 * (E - ep - (n - rp))) by width_lia.
    done.
Qed.

(** Delays in 1/65536 s. *)
Definition dlsr_units (hns : Z) : Z := hns * 65536 / 10 ^ 7.

Definition rr_body (ssrc source fraction lost ext jitter lsr dlsr : Z) : list Z :=
  be32 ssrc ++ be32 source ++ be32 (fraction * 2 ^ 24 + lost mod 2 ^ 24) ++ be32 ext ++ be32 jitter ++ be32 lsr ++ be32 dlsr.

Lemma loss_word f lost :
  is_u8 f -> [u8 f; u8 (Z.land (Z.shiftr lost 16) 255); u8 (Z.land (Z.shiftr lost 8) 255); u8 (Z.land lost 255)] =
  be32 (f * 2 ^ 24 + lost mod 2 ^ 24).
Proof.
  intros Hf. #[local] Transparent be32. unfold be32. rewrite !land_255, !Z.shiftr_div_pow2 by lia.
  f_equal; [width_lia|]. f_equal; [width_lia|]. f_equal; [width_lia|]. f_equal. width_lia. #[local] Opaque be32.
Qed.

Lemma loss_fraction_u8 e n : is_u8 (loss_fraction e n).
Proof. unfold loss_fraction. destruct (e <=? n); [done|]. apply u8_range. Qed.

(** The jitter as the report carries it: the whole timestamp units. *)
Definition jitter_units (d : DOUBLE) (j : Z) : Prop := dtrunc d = Some j /\ is_u32 j.

Lemma castU32_units d j : jitter_units d j -> castU32 d = Ok j.
Proof.
  intros [Hd [H0 H1]]. unfold castU32. by rewrite Hd, (proj2 (Z.leb_le _ _)), (proj2 (Z.ltb_lt _ _)).
Qed.

(** The delay field of a report built at [now]. *)
Definition dlsr_field (t : KvsRtpTransceiver) (now : Z) : Z :=
  if lastSRReceivedTime t =? 0 then 0 else dlsr_units (now - lastSRReceivedTime t).

Definition rr_of (t : KvsRtpTransceiver) (jitter lo hi now : Z) : list Z :=
  rr_body (sender_ssrc (sender t)) (jitterBufferSsrc t)
    (loss_fraction (hi - lo + 1 - rrExpectedPrior (rr t)) (packetsReceived t - rrReceivedPrior (rr t)))
    (hi - lo + 1 - packetsReceived t) hi jitter (lastSRNtpMid t) (dlsr_field t now).

(** The report can be built: packets have been received, and the time since the last sender
    report is less than 18 hours. *)
Record reports_rr (t : KvsRtpTransceiver) (lo hi now : Z) : Prop := {
  rp_ssrc : jitterBufferSsrc t <> 0;
  rp_ok : report_ok (rr t) lo hi (packetsReceived t);
  rp_delay : lastSRReceivedTime t <> 0 -> 0 <= now - lastSRReceivedTime t < 65536 * 10 ^ 7;
}.

Lemma convert_dlsr d : 0 <= d < 65536 * 10 ^ 7 ->
  u32 (KVS_CONVERT_TIMESCALE d HUNDREDS_OF_NANOS_IN_A_SECOND DLSR_TIMESCALE) = dlsr_units d /\ is_u32 (dlsr_units d).
Proof.
  intros Hd. unfold KVS_CONVERT_TIMESCALE, HUNDREDS_OF_NANOS_IN_A_SECOND, DLSR_TIMESCALE, dlsr_units.
  change (10 ^ 7) with 10000000 in *. rewrite (u64_id (d * 65536)) by (unfold is_u64; lia).
  assert (is_u32 (d * 65536 / 10000000)) by (split; [apply Z.div_pos; lia|apply Z.div_lt_upper_bound; lia]).
  split; [by apply u32_id|done].
Qed.

Lemma buildRR t clockRate d jitter lo hi now out len :
  pJitterBuffer t = Some (clockRate, d) -> jitter_units d jitter -> reports_rr t lo hi now -> 32 <= len -> 32 <= blen out ->
  rtcpBuildReceiverReport (Some t) now (Some out) (Some len) =
  Ok (Some (t <| rr := (rr t) <| rrExpectedPrior := hi - lo + 1 |> <| rrReceivedPrior := packetsReceived t |> |>),
      packet_bytes 0x81 201 (rr_of t jitter lo hi now) ++ drop 32 out, 32).
Proof.
  intros Hj Hju [Hs Hr Hd] Hl Ho. pose proof Hr as [[Hi Hm Hc Hb [Hr1 Hr2]] [Hp1 Hp2] (Hs1 & Hs2 & Hs3) _].
  unfold rtcpBuildReceiverReport. rewrite Hj. change RTCP_RECEIVER_REPORT_LEN with 32.
  rewrite (proj2 (Z.leb_le 32 len)), (proj2 (Z.eqb_neq _ _)), Hi by (done || lia). cbn [orb negb].
  rewrite (u32_id (packetsReceived t)) by (unfold is_u32; lia). rewrite (lossInterval_ok _ _ _ _ Hr). cbn [mbind res_bind].
  replace (rrCycles (rr t) +32 rrMaxSeq (rr t)) with hi by (rewrite Hm, Hc; width_lia).
  set (f := loss_fraction _ _). assert (Hf : is_u8 f) by apply loss_fraction_u8. rewrite (castU32_units _ _ Hju).
  set (lost := hi - lo + 1 - packetsReceived t).
  rewrite (put_bytes_at [] out) by (done || (unfold blen; rewrite length_replicate; lia)). cbn [mbind res_bind app].
  change (replicate (Z.to_nat 32) 0) with (replicate 28 0 ++ be32 0). set (z := be32 0). rewrite <- (assoc_L (++)).
  change (drop _ out) with (drop 32 out). set (tail := z ++ drop 32 out).
  unfold put8, RTCP_PACKET_TYPE_OFFSET, RTCP_PACKET_LEN_OFFSET.
  repeat put_merge. rewrite <- !(assoc_L (++)).
  match goal with |- put_bytes _ 0 ?hd ≫= _ = _ => set (head := hd) end.
  assert (Eh : head = [0x81; 201] ++ be16 7 ++ be32 (sender_ssrc (sender t)) ++ be32 (jitterBufferSsrc t)
    ++ be32 (f * 2 ^ 24 + lost mod 2 ^ 24) ++ be32 hi ++ be32 jitter ++ be32 (lastSRNtpMid t)).
  { unfold head. rewrite <- loss_word by done. done. }
  assert (Hh : blen head = 28) by (rewrite Eh; autorewrite with blen; done).
  pose proof (put_bytes_app [] (replicate 28 0) tail head 0 eq_refl) as Hput. cbn [app] in Hput.
  rewrite Hput by (rewrite Hh; done). cbn [mbind res_bind].
  assert (Et : (if negb (lastSRReceivedTime t =? 0)
     then putUnalignedInt32Be (head ++ tail) 28 (i32 (u32 (KVS_CONVERT_TIMESCALE (u64 (now - lastSRReceivedTime t))
            HUNDREDS_OF_NANOS_IN_A_SECOND DLSR_TIMESCALE)))
     else Ok (head ++ tail)) = Ok (head ++ be32 (dlsr_field t now) ++ drop 32 out)).
  { unfold dlsr_field, tail. destruct (Z.eqb_spec (lastSRReceivedTime t) 0) as [E0|E0]; cbn [negb]; [done|].
    specialize (Hd E0). rewrite (u64_id (now - _)) by (unfold is_u64; lia). rewrite (proj1 (convert_dlsr _ Hd)).
    rewrite put32Be_bytes. by apply put_bytes_app. }
  rewrite Et. cbn [mbind res_bind]. rewrite Eh. unfold packet_bytes, rr_of, rr_body. fold f lost.
  change (blen _ / 4) with 7. by rewrite <- !(assoc_L (++)).
Qed.

(** ** Compound packets *)

(** A packet on the wire: its first two bytes and its body. *)
Definition rtcp_packet : Type := Z * Z * list Z.
Definition wf_packet (q : rtcp_packet) : Prop := let '(b0, b1, body) := q in packet_ok b0 b1 body.
Definition compound (l : list rtcp_packet) : list Z :=
  concat (map (fun '(b0, b1, body) => packet_bytes b0 b1 body) l).

Lemma blen_packet b0 b1 body : blen (packet_bytes b0 b1 body) = 4 + blen body.
Proof. unfold packet_bytes. autorewrite with blen. lia. Qed.

Lemma packet_bytes_ok b0 b1 body : packet_ok b0 b1 body -> bytes_ok (packet_bytes b0 b1 body).
Proof.
  intros H. pose proof (packet_raw_ok b0 b1 body [] H ltac:(by constructor)) as Hb. by rewrite app_nil_r in Hb.
Qed.
Lemma compound_ok l : Forall wf_packet l -> bytes_ok (compound l).
Proof.
  induction 1 as [|[[b0 b1] body] l H _ IH]; [constructor|]. apply bytes_ok_app. split; [by apply packet_bytes_ok|done].
Qed.

Section Compound.
Context (h : endian) (encryptRtp : list Z -> Z -> STATUS * list Z * Z) (iceSend : list Z -> STATUS)
  (memWrite memPayload memRaw : Z -> option (list Z)) (memPacket : option RtpPacket)
  (memInfo memTable memReports : bool) (now : Z -> Z -> Z).
Local Abbreviation dispatch :=
  (dispatchRtcp h encryptRtp iceSend memWrite memPayload memRaw memPacket memInfo memTable memReports now).
Local Abbreviation onRtcp :=
  (onRtcpPacket h encryptRtp iceSend memWrite memPayload memRaw memPacket memInfo memTable memReports now).
Local Abbreviation loop :=
  (rtcpLoop h encryptRtp iceSend memWrite memPayload memRaw memPacket memInfo memTable memReports now).

(** The packets handled one after the other, until a handler fails. *)
Fixpoint dispatchAll (offset : Z) (l : list rtcp_packet) (c : Connection) : res (STATUS * Connection) :=
  match l with
  | [] => Ok (STATUS_SUCCESS, c)
  | (b0, b1, body) :: l =>
      '(st, c) ← dispatch offset (packet_of b0 b1 body (compound l)) c;
      if STATUS_FAILED st then Ok (st, c) else dispatchAll (offset + (blen body + 4)) l c
  end.

Lemma rtcpLoop_compound pre l fuel p c :
  Forall wf_packet l -> (length l <= fuel)%nat ->
  loop fuel (pre ++ compound l) (blen (pre ++ compound l)) (blen pre) p c = dispatchAll (blen pre) l c.
Proof.
  intros Hl. revert pre fuel p c. induction Hl as [|[[b0 b1] body] l Hq Hl IH]; intros pre fuel p c Hf.
  { cbn [compound map concat]. rewrite app_nil_r. destruct fuel; cbn; by rewrite Z.ltb_irrefl. }
  destruct fuel as [|fuel]; [cbn in Hf; lia|]. change (compound _) with (packet_bytes b0 b1 body ++ compound l).
  cbn [rtcpLoop dispatchAll]. rewrite (proj2 (Z.ltb_lt _ _)).
  2:{ rewrite !blen_app, blen_packet. pose proof (blen_nonneg body). pose proof (blen_nonneg (compound l)). lia. }
  rewrite <- length_blen, drop_app_length. rewrite blen_app. rewrite Z.add_simpl_l.
  rewrite (packet_parse h b0 b1 body (compound l) p) by (done || by apply compound_ok). rewrite res_bind_ok.
  change (STATUS_FAILED STATUS_SUCCESS) with false. cbv iota.
  destruct (dispatch _ _ c) as [[st c']| |]; [|done..]. rewrite !res_bind_ok. destruct (STATUS_FAILED st); [done|].
  rewrite <- blen_app, (assoc_L (++)). change (rtcpPayloadLength (packet_of b0 b1 body (compound l))) with (blen body).
  change RTCP_PACKET_HEADER_LEN with 4.
  replace (blen pre + (blen body + 4)) with (blen (pre ++ packet_bytes b0 b1 body)) by (rewrite blen_app, blen_packet; lia).
  apply IH. cbn in Hf. lia.
Qed.

Lemma onRtcp_compound l p c :
  Forall wf_packet l -> onRtcp p c (Some (compound l)) (blen (compound l)) = dispatchAll 0 l c.
Proof.
  intros Hl. unfold onRtcpPacket. apply (rtcpLoop_compound [] l); [done|]. rewrite <- length_blen.
  clear Hl. induction l as [|[[b0 b1] body] l IH]; cbn [length]; [lia|].
  change (compound _) with (packet_bytes b0 b1 body ++ compound l). rewrite length_app. cbn [packet_bytes app length]. lia.
Qed.
End Compound.

(** ** Processing the reports *)

Lemma sr_packet_ok ssrc ntp rtp packets octets : packet_ok 0x80 200 (sr_body ssrc ntp rtp packets octets).
Proof. split; try done. unfold sr_body. rewrite !bytes_ok_app. auto with width. Qed.

Lemma rr_packet_ok ssrc source f lost ext jitter lsr dlsr : packet_ok 0x81 201 (rr_body ssrc source f lost ext jitter lsr dlsr).
Proof. split; try done. unfold rr_body. rewrite !bytes_ok_app. auto 10 with width. Qed.

Lemma handle_SR now c i t rest ssrc ntp rtp packets octets :
  bytes_ok rest -> is_u64 ntp -> findTransceiverBySsrc c (u32 ssrc) = inr i -> pTransceivers c !! i = Some t ->
  exists o, onRtcpSenderReport now (Some (packet_of 0x80 200 (sr_body ssrc ntp rtp packets octets) rest)) c =
    Ok (STATUS_SUCCESS, setTransceiver c i
          (t <| lastSRNtpMid := MID_NTP ntp |> <| lastSRReceivedTime := now |> <| remoteOutboundStats := o |>)) /\
    reportsSent o = u64 (reportsSent (remoteOutboundStats t) + 1) /\ ro_packetsSent o = u32 packets /\ ro_bytesSent o = u32 octets.
Proof.
  intros Hr Hn Hf Ht. pose proof (sr_packet_ok ssrc ntp rtp packets octets) as Hk. unfold onRtcpSenderReport.
  change (rtcpPayloadLength _) with 24. change (negb (RTCP_PACKET_SENDER_REPORT_MINLEN <=? 24)) with false. cbv iota.
  rewrite (payload32_read _ _ _ _ Hk Hr 0 (u32 ssrc)) by (done || (unfold sr_body; read_field)). rewrite res_bind_ok, Hf.
  rewrite (payload64_read _ _ _ _ Hk Hr 4 (u64 ntp)) by (done || (unfold sr_body; read_field)). rewrite res_bind_ok.
  rewrite (payload32_read _ _ _ _ Hk Hr 12 (u32 rtp)) by (done || (unfold sr_body; read_field)). rewrite res_bind_ok.
  rewrite (payload32_read _ _ _ _ Hk Hr 16 (u32 packets)) by (done || (unfold sr_body; read_field)). rewrite res_bind_ok.
  rewrite (payload32_read _ _ _ _ Hk Hr 20 (u32 octets)) by (done || (unfold sr_body; read_field)). rewrite res_bind_ok.
  rewrite (getTransceiver_ok _ _ _ Ht), res_bind_ok, (u64_id ntp) by done. eexists. split; [reflexivity|done].
Qed.

(** The statistics a report block gives. *)
Definition rr_stats (t : KvsRtpTransceiver) (clockRate now fraction lost24 ext jitter lsr dlsr : Z) (r : RtcRemoteInboundRtpStreamStats) : Prop :=
  let old := remoteInboundStats t in
  let rtt := rttPropDelayMsec (rttPropDelay (convertTimestampToNTP now) lsr dlsr) in
  let expected := ext -32 sender_initialSequenceNumber (sender t) +32 1 in
  reportsReceived r = u64 (reportsReceived old + 1) /\ fractionLost r = ddiv (dbl fraction) (dbl 255) /\
  ri_jitter r = ddiv (dbl jitter) (dbl clockRate) /\
  packetsLost r = (if lost24 <? 2 ^ 23 then lost24 else lost24 + (2 ^ 32 - 2 ^ 24)) /\
  (lsr <> 0 -> ri_roundTripTime r = rtt /\
               ri_roundTripTimeMeasurements r = u64 (ri_roundTripTimeMeasurements old + 1)) /\
  (sender_seqInitialized (sender t) = true -> lost24 <= expected -> ri_packetsReceived r = expected - lost24).

Lemma sign_bit w : 0 <= w < 2 ^ 24 ->
  (if negb (Z.land w 0x800000 =? 0) then Z.lor w 0xFF000000 else w) = if w <? 2 ^ 23 then w else w + (2 ^ 32 - 2 ^ 24).
Proof.
  intros Hw. assert (Hl : Z.land w 0x800000 = if w <? 2 ^ 23 then 0 else 0x800000).
  { change 0x800000 with (Z.shiftl 1 23). replace w with (Z.lor (w mod 2 ^ 23) (Z.shiftl (w / 2 ^ 23) 23)) at 1.
    2:{ rewrite lor_disjoint_add, ?Z.shiftl_mul_pow2 by (lia || apply Z.mod_pos_bound; lia). pose proof (Z.div_mod w (2 ^ 23)). lia. }
    rewrite Z.land_lor_distr_l, land_disjoint, Z.lor_0_l, <- Z.shiftl_land by (lia || apply Z.mod_pos_bound; lia).
    destruct (Z.ltb_spec w (2 ^ 23)); [rewrite Z.div_small by lia; done|].
    assert (w / 2 ^ 23 = 1) as -> by (Z.div_mod_to_equations; lia). done. }
  rewrite Hl. destruct (Z.ltb_spec w (2 ^ 23)); cbn [negb Z.eqb]; [done|].
  change 0xFF000000 with (Z.shiftl 0xFF 24). rewrite lor_disjoint_add by lia. lia.
Qed.

(** The fraction is never below -1. *)
Lemma fraction_stored f : is_u8 f -> dlt (dbl (-1)) (ddiv (dbl f) (dbl 255)) = true.
Proof.
  intros [H0 H1]. assert (Hall : forallb (fun n => dlt (dbl (-1)) (ddiv (dbl (Z.of_nat n)) (dbl 255))) (seq 0 256) = true)
    by (vm_compute; reflexivity).
  rewrite forallb_forall in Hall. specialize (Hall (Z.to_nat f)). rewrite Z2Nat.id in Hall by done. apply Hall, in_seq. lia.
Qed.

Lemma handle_RR now c i t clockRate d rest ssrc source f lost ext jitter lsr dlsr :
  bytes_ok rest -> is_u8 f -> is_u32 lsr -> is_u32 dlsr -> is_u32 ext -> is_u32 jitter ->
  findTransceiverBySsrc c (u32 source) = inr i -> pTransceivers c !! i = Some t -> pJitterBuffer t = Some (clockRate, d) ->
  exists r, onRtcpReceiverReport now (Some (packet_of 0x81 201 (rr_body ssrc source f lost ext jitter lsr dlsr) rest)) c =
    Ok (STATUS_SUCCESS, setTransceiver c i (t <| remoteInboundStats := r |>)) /\
    rr_stats t clockRate now f (lost mod 2 ^ 24) ext jitter lsr dlsr r.
Proof.
  intros Hr Hf8 Hl32 Hd32 He32 Hj32 Hf Ht Hj. pose proof (rr_packet_ok ssrc source f lost ext jitter lsr dlsr) as Hk.
  set (w := lost mod 2 ^ 24). assert (Hw : 0 <= w < 2 ^ 24) by (apply Z.mod_pos_bound; lia).
  unfold onRtcpReceiverReport. change (rtcpPayloadLength _) with 28.
  change (negb (28 =? RTCP_PACKET_RECEIVER_REPORT_MINLEN)) with false. cbv iota.
  rewrite (payload32_read _ _ _ _ Hk Hr 0 (u32 ssrc)) by (done || (unfold rr_body; read_field)). rewrite res_bind_ok.
  rewrite (payload32_read _ _ _ _ Hk Hr 4 (u32 source)) by (done || (unfold rr_body; read_field)). rewrite res_bind_ok, Hf.
  rewrite payload8_read by done.
  assert (E8 : ld (rr_body ssrc source f lost ext jitter lsr dlsr ++ rest) 8 = Ok f).
  { unfold rr_body. rewrite <- !(assoc_L (++)), (assoc_L (++) (be32 ssrc)), ld_app_r by done.
    change (8 - _) with 0. rewrite ld_be32. f_equal. rewrite Z.shiftr_div_pow2 by lia. fold w. width_lia. }
  rewrite E8, res_bind_ok.
  rewrite (payload32_read _ _ _ _ Hk Hr 8 (u32 (f * 2 ^ 24 + w))) by (done || (unfold rr_body; read_field)). rewrite res_bind_ok.
  replace (Z.land (u32 (f * 2 ^ 24 + w)) 0x00ffffff) with w.
  2:{ change 0x00ffffff with (Z.ones 24). rewrite land_mask by lia. width_lia. }
  rewrite (payload32_read _ _ _ _ Hk Hr 12 (u32 ext)) by (done || (unfold rr_body; read_field)). rewrite res_bind_ok.
  rewrite (payload32_read _ _ _ _ Hk Hr 16 (u32 jitter)) by (done || (unfold rr_body; read_field)). rewrite res_bind_ok.
  rewrite (payload32_read _ _ _ _ Hk Hr 20 (u32 lsr)) by (done || (unfold rr_body; read_field)). rewrite res_bind_ok.
  rewrite (payload32_read _ _ _ _ Hk Hr 24 (u32 dlsr)).
  2:{ done. } 2:{ unfold rr_body. read_field. } rewrite res_bind_ok.
  rewrite (getTransceiver_ok _ _ _ Ht), res_bind_ok, Hj, sign_bit, (u32_id ext), (u32_id jitter), (u32_id lsr), (u32_id dlsr), fraction_stored by done. eexists. split; [reflexivity|].
  unfold rr_stats. destruct (Z.eqb_spec lsr 0) as [El|El]; cbn [negb];
    (destruct (sender_seqInitialized (sender t)) eqn:Es; cbn [andb];
     [destruct (Z.leb_spec w (ext -32 sender_initialSequenceNumber (sender t) +32 1))|]); split_and!; done || lia.
Qed.

(** ** Round trip times *)

(** A time before the end of the NTP era in 2036. *)
Definition in_era (t : Z) : Prop := 0 <= t /\ t / HUNDREDS_OF_NANOS_IN_A_SECOND + NTP_OFFSET < 2 ^ 32.

Definition ntp_mid (t : Z) : Z := (t + NTP_OFFSET * 10 ^ 7) * 65536 / 10 ^ 7.

Lemma mid_ntp t : in_era t -> MID_NTP (convertTimestampToNTP t) = u32 (ntp_mid t) /\ is_u64 (convertTimestampToNTP t).
Proof.
  intros [H0 He]. rewrite convertTimestampToNTP_accurate by done. unfold MID_NTP, ntp_mid.
  change 0xffffffff with (Z.ones 32). rewrite Z.shiftr_div_pow2, land_mask by lia.
  rewrite Z.div_div by lia. replace ((t + NTP_OFFSET * 10 ^ 7) * 2 ^ 32) with ((t + NTP_OFFSET * 10 ^ 7) * 65536 * 2 ^ 16) by lia.
  rewrite Z.div_mul_cancel_r by lia. unfold HUNDREDS_OF_NANOS_IN_A_SECOND in He.
  assert (t < (2 ^ 32 - NTP_OFFSET) * 10 ^ 7) by (Z.div_mod_to_equations; lia).
  assert (0 <= NTP_OFFSET) by done. split.
  - unfold u32. by rewrite Z.mod_mod by lia.
  - split; [apply Z.div_pos; lia|]. apply Z.div_lt_upper_bound; lia.
Qed.

(** What the sender computes from the times a1, a2 on its clock at which the report was sent
    and its echo received, and the delay d of the other side, all in 100 ns: within two units
    of 1/65536 s of the round trip time a2 - a1 - d. *)
Lemma rtt_units a1 a2 d :
  in_era a1 -> in_era a2 -> 0 <= d < 65536 * 10 ^ 7 -> 0 <= a2 - a1 - d < 65535 * 10 ^ 7 ->
  let units := rttPropDelay (convertTimestampToNTP a2) (MID_NTP (convertTimestampToNTP a1)) (dlsr_units d) in
  (a2 - a1 - d) * 65536 - 10 ^ 7 < units * 10 ^ 7 < (a2 - a1 - d) * 65536 + 2 * 10 ^ 7 /\ 0 <= units.
Proof.
  intros H1 H2 Hd Hr. cbv zeta. unfold rttPropDelay. rewrite (proj1 (mid_ntp a1 H1)), (proj1 (mid_ntp a2 H2)).
  unfold ntp_mid, dlsr_units. set (c := NTP_OFFSET * 10 ^ 7).
  set (x := (a1 + c) * 65536 / 10 ^ 7). set (y := (a2 + c) * 65536 / 10 ^ 7). set (z := d * 65536 / 10 ^ 7).
  assert (Hx : 10 ^ 7 * x <= (a1 + c) * 65536 < 10 ^ 7 * x + 10 ^ 7) by (unfold x; Z.div_mod_to_equations; lia).
  assert (Hy : 10 ^ 7 * y <= (a2 + c) * 65536 < 10 ^ 7 * y + 10 ^ 7) by (unfold y; Z.div_mod_to_equations; lia).
  assert (Hz : 10 ^ 7 * z <= d * 65536 < 10 ^ 7 * z + 10 ^ 7) by (unfold z; Z.div_mod_to_equations; lia).
  clearbody x y z. replace (u32 y -32 u32 x -32 z) with (y - x - z); [lia|].
  transitivity (u32 (y - x - z)); [|width_lia]. symmetry. apply u32_id. unfold is_u32. lia.
Qed.

Section Exchange.
Context (hA hB : endian) (encryptRtp : list Z -> Z -> STATUS * list Z * Z) (iceSend : list Z -> STATUS)
  (memWrite memPayload memRaw : Z -> option (list Z)) (memPacket : option RtpPacket)
  (memInfo memTable memReports : bool) (p0 : RtcpPacket).
Local Abbreviation receive h now :=
  (onRtcpPacket h encryptRtp iceSend memWrite memPayload memRaw memPacket memInfo memTable memReports now p0).

Lemma receive_packet h now c b0 b1 body :
  packet_ok b0 b1 body ->
  receive h now c (Some (packet_bytes b0 b1 body)) (4 + blen body) =
  ('(st, c') ← dispatchRtcp h encryptRtp iceSend memWrite memPayload memRaw memPacket memInfo memTable memReports now 0
                (packet_of b0 b1 body []) c; Ok (st, c')).
Proof.
  intros Hk. rewrite <- (blen_packet b0 b1 body).
  pose proof (onRtcp_compound h encryptRtp iceSend memWrite memPayload memRaw memPacket memInfo memTable memReports now
    [(b0, b1, body)] p0 c ltac:(by constructor)) as E.
  change (compound [(b0, b1, body)]) with (packet_bytes b0 b1 body ++ []) in E. rewrite app_nil_r in E. rewrite E.
  cbn [dispatchAll compound map concat]. destruct (dispatchRtcp _ _ _ _ _ _ _ _ _ _ _ _ _ _) as [[st c']| |]; [|done..].
  rewrite !res_bind_ok. destruct (STATUS_FAILED st) eqn:Es; [done|]. destruct st; done.
Qed.

Lemma receive_SR h now c body :
  packet_ok 0x80 200 body ->
  receive h now c (Some (packet_bytes 0x80 200 body)) (4 + blen body) =
  ('(st, c') ← onRtcpSenderReport (now 0 0) (Some (packet_of 0x80 200 body [])) c; Ok (st, c')).
Proof. intros Hk. by rewrite receive_packet. Qed.
Lemma receive_RR h now c body :
  packet_ok 0x81 201 body ->
  receive h now c (Some (packet_bytes 0x81 201 body)) (4 + blen body) =
  ('(st, c') ← onRtcpReceiverReport (now 0 0) (Some (packet_of 0x81 201 body [])) c; Ok (st, c')).
Proof. intros Hk. by rewrite receive_packet. Qed.

(** C11. An exchange of a sender and a receiver report.  A reports at time a1 on the packets it
    sends; B receives the report at b1 (its own clock), and at b2 reports on the packets it has
    received from A: numbers lo to hi expected, n received; A receives that at a2.  Then A's
    statistics have the number of packets B lost; the loss of the last interval in 1/256, as
    the eight bits of the field carry it (an interval in which all packets were lost shows as
    0), divided by 255; B's jitter in whole timestamp units divided by A's clock rate; and,
    when A's first packet was number lo, the number of packets B received; and the round trip
    time is that of the network, (a2 - a1) - (b2 - b1), to two units of 1/65536 s, in whole
    milliseconds.  It is assumed that A has sent for long enough to report, that B counts no
    more packets than the numbers lo to hi (no duplicates) and less than 2^23 losses, that
    both connections know the stream, that the delays are below 18 hours and the round trip
    below 65 seconds, that the clocks are in the NTP era before 2036, and that the middle bits
    of the time a1 are not 0, which the code takes for no report. *)
Theorem report_exchange cA iA tA clockA jitA cB iB tB clockB jitB units a1 a2 b1 b2 nowA nowB lo hi outA outB lenA lenB
  (HtA : pTransceivers cA !! iA = Some tA) (HjA : pJitterBuffer tA = Some (clockA, jitA))
  (HtB : pTransceivers cB !! iB = Some tB) (HjB : pJitterBuffer tB = Some (clockB, jitB))
  (Hs : is_u32 (sender_ssrc (sender tA))) (Hsrc : jitterBufferSsrc tB = sender_ssrc (sender tA))
  (HfA : findTransceiverBySsrc cA (sender_ssrc (sender tA)) = inr iA)
  (HfB : findTransceiverBySsrc cB (sender_ssrc (sender tA)) = inr iB)
  (Hsr : reports_sr tA a1) (Hs0 : sender_ssrc (sender tA) <> 0) (Hjit : jitter_units jitB units)
  (Hrr : report_ok (rr tB) lo hi (packetsReceived tB)) (Hlost : packetsReceived tB <= hi - lo + 1)
  (Hlen : 28 <= lenA /\ 28 <= blen outA /\ 32 <= lenB /\ 32 <= blen outB)
  (Ht : in_era a1 /\ in_era a2 /\ 0 < b1 <= b2) (Hd : b2 - b1 < 65536 * 10 ^ 7)
  (Hrtt : 0 <= a2 - a1 - (b2 - b1) < 65 * 10 ^ 7) (Hlsr : MID_NTP (convertTimestampToNTP a1) <> 0)
  (HnA : nowA 0 0 = a2) (HnB : nowB 0 0 = b1) :
  exists sr restA cB1 tB1 tB2 report restB cA1 tA1,
    rtcpBuildSenderReport (Some tA) a1 (Some outA) (Some lenA) = Ok (sr ++ restA, 28) /\ blen sr = 28 /\
    receive hB nowB cB (Some sr) 28 = Ok (STATUS_SUCCESS, cB1) /\ pTransceivers cB1 !! iB = Some tB1 /\
    rtcpBuildReceiverReport (Some tB1) b2 (Some outB) (Some lenB) = Ok (Some tB2, report ++ restB, 32) /\ blen report = 32 /\
    receive hA nowA cA (Some report) 32 = Ok (STATUS_SUCCESS, cA1) /\ pTransceivers cA1 !! iA = Some tA1 /\
    let r := remoteInboundStats tA1 in
    packetsLost r = hi - lo + 1 - packetsReceived tB /\
    fractionLost r =
      ddiv (dbl (loss_fraction (hi - lo + 1 - rrExpectedPrior (rr tB)) (packetsReceived tB - rrReceivedPrior (rr tB)))) (dbl 255) /\
    ri_jitter r = ddiv (dbl units) (dbl clockA) /\
    (sender_seqInitialized (sender tA) = true -> sender_initialSequenceNumber (sender tA) = lo ->
     ri_packetsReceived r = packetsReceived tB) /\
    exists rtt, ri_roundTripTime r = rtt * 1000 / 65536 /\
      (a2 - a1 - (b2 - b1)) * 65536 - 10 ^ 7 < rtt * 10 ^ 7 < (a2 - a1 - (b2 - b1)) * 65536 + 2 * 10 ^ 7.
Proof.
  destruct Hlen as (Hl1 & Hl2 & Hl3 & Hl4). destruct Ht as (Ha1 & Ha2 & Hb).
  set (body := sr_of tA clockA a1). destruct (mid_ntp a1 Ha1) as [Em Hu].
  set (mid := MID_NTP (convertTimestampToNTP a1)) in *.
  destruct (handle_SR (nowB 0 0) cB iB tB [] (sender_ssrc (sender tA)) (convertTimestampToNTP a1)
    (sender_rtpTimeOffset (sender tA) + CONVERT_TIMESTAMP_TO_RTP clockA (u64 (a1 - sender_firstFrameWallClockTime (sender tA))))
    (packetsSent (outboundStats tA)) (bytesSent (outboundStats tA))) as (o & Esr & _); [by constructor|done|by rewrite u32_id|done|].
  set (tB1 := _ <| remoteOutboundStats := o |>) in Esr.
  assert (Hrr1 : reports_rr tB1 lo hi b2).
  { split; [change (jitterBufferSsrc tB <> 0); congruence|exact Hrr|]. intros _. change (lastSRReceivedTime tB1) with (nowB 0 0). lia. }
  pose proof (buildRR tB1 clockB jitB units lo hi b2 outB lenB HjB Hjit Hrr1 Hl3 Hl4) as Err.
  set (f := loss_fraction (hi - lo + 1 - rrExpectedPrior (rr tB)) (packetsReceived tB - rrReceivedPrior (rr tB))).
  assert (Edl : dlsr_field tB1 b2 = dlsr_units (b2 - b1)).
  { unfold dlsr_field. change (lastSRReceivedTime tB1) with (nowB 0 0). rewrite HnB, (proj2 (Z.eqb_neq b1 0)) by lia. done. }
  destruct Hrr as [[_ _ _ _ [Hr1 Hr2]] [Hp1 Hp2] (Hq1 & Hq2 & Hq3) Hq4].
  destruct (handle_RR (nowA 0 0) cA iA tA clockA jitA [] (sender_ssrc (sender tB)) (jitterBufferSsrc tB) f
    (hi - lo + 1 - packetsReceived tB) hi units mid (dlsr_units (b2 - b1))) as (r & Ehr & R1 & R2 & R3 & R4 & R5 & R6);
    [by constructor|apply loss_fraction_u8|rewrite Em; auto with width|apply convert_dlsr; lia|unfold is_u32; lia|apply Hjit
    |rewrite Hsrc, u32_id; done|done|done|].
  assert (Elost : (hi - lo + 1 - packetsReceived tB) mod 2 ^ 24 = hi - lo + 1 - packetsReceived tB) by (apply Z.mod_small; lia).
  rewrite Elost in *.
  assert (Ebody : rr_of tB1 units lo hi b2 = rr_body (sender_ssrc (sender tB)) (jitterBufferSsrc tB) f
    (hi - lo + 1 - packetsReceived tB) hi units mid (dlsr_units (b2 - b1))) by (unfold rr_of; rewrite Edl; reflexivity).
  eexists (packet_bytes 0x80 200 body), _, _, tB1, _, (packet_bytes 0x81 201 (rr_of tB1 units lo hi b2)), _, _, _.
  split; [by eapply buildSR|]. split; [by rewrite blen_packet|].
  split; [change 28 with (4 + blen body); unfold body, sr_of; rewrite receive_SR by apply sr_packet_ok; rewrite Esr; reflexivity|].
  split; [by apply (setTransceiver_get _ _ tB)|]. split; [exact Err|]. split; [by rewrite blen_packet|].
  split.
  { change 32 with (4 + blen (rr_of tB1 units lo hi b2)). rewrite Ebody, receive_RR, Ehr by apply rr_packet_ok. reflexivity. }
  split; [by apply (setTransceiver_get _ _ tA)|]. cbv zeta.
  change (remoteInboundStats (tA <| remoteInboundStats := r |>)) with r.
  destruct (R5 Hlsr) as [R7 _]. rewrite HnA in R7. destruct (rtt_units a1 a2 (b2 - b1)) as [Hb1 Hb2]; [done..|lia|lia|].
  fold mid in Hb1, Hb2. clear R5.
  split; [rewrite R4, (proj2 (Z.ltb_lt _ _)) by lia; done|]. split; [exact R2|]. split; [exact R3|]. split.
  - intros Hsi Hlo. rewrite R6; rewrite ?Hlo; width_lia || done.
  - eexists. split; [|exact Hb1]. rewrite R7. unfold rttPropDelayMsec, DLSR_TIMESCALE. f_equal. apply u32_id. unfold is_u32. lia.
Qed.
End Exchange.

(** ** Extended reports *)

(** The blocks of an extended report: a reference time, or the answers (SSRC, time, delay). *)
Inductive xr_block : Type :=
  | Rrtr (ntp : Z)
  | Dlrr (subs : list (Z * Z * Z)).

Definition sub_bytes (s : Z * Z * Z) : list Z := let '(ssrc, lrr, dlrr) := s in be32 ssrc ++ be32 lrr ++ be32 dlrr.
Definition subs_bytes (l : list (Z * Z * Z)) : list Z := concat (map sub_bytes l).
Definition xr_bytes (b : xr_block) : list Z :=
  match b with
  | Rrtr ntp => [4; 0] ++ be16 2 ++ be64 ntp
  | Dlrr subs => [5; 0] ++ be16 (3 * Z.of_nat (length subs)) ++ subs_bytes subs
  end.
Definition blocks_bytes (l : list xr_block) : list Z := concat (map xr_bytes l).
Definition xr_body (ssrc : Z) (l : list xr_block) : list Z := be32 ssrc ++ blocks_bytes l.

Definition sub_ok (s : Z * Z * Z) : Prop := let '(ssrc, lrr, dlrr) := s in is_u32 ssrc /\ is_u32 lrr /\ is_u32 dlrr.
Definition block_ok (b : xr_block) : Prop :=
  match b with Rrtr ntp => is_u64 ntp | Dlrr subs => Forall sub_ok subs /\ 3 * Z.of_nat (length subs) < 2 ^ 16 end.

(** What a block does. *)
Fixpoint subs_apply (nowNtp : Z) (l : list (Z * Z * Z)) (c : Connection) : res Connection :=
  match l with
  | [] => Ok c
  | (ssrc, lrr, dlrr) :: l => c ← dlrrSubBlock nowNtp ssrc lrr dlrr c; subs_apply nowNtp l c
  end.
Definition block_apply (now ssrc : Z) (b : xr_block) (c : Connection) : res Connection :=
  match b with
  | Rrtr ntp => Ok (c <| receivedRrtrs := storeRrtr ssrc (MID_NTP ntp) now (receivedRrtrs c) |>)
  | Dlrr subs => subs_apply (convertTimestampToNTP now) subs c
  end.
Fixpoint blocks_apply (now : Z -> Z) (ssrc offset : Z) (l : list xr_block) (c : Connection) : res Connection :=
  match l with
  | [] => Ok c
  | b :: l => c ← block_apply (now offset) ssrc b c; blocks_apply now ssrc (offset + blen (xr_bytes b)) l c
  end.

Lemma blen_subs l : blen (subs_bytes l) = 12 * Z.of_nat (length l).
Proof.
  induction l as [|[[s a] d] l IH]; [done|]. change (subs_bytes _) with (sub_bytes (s, a, d) ++ subs_bytes l).
  rewrite blen_app, IH. unfold sub_bytes. autorewrite with blen. cbn [length]. lia.
Qed.
Lemma blen_xr b : blen (xr_bytes b) = match b with Rrtr _ => 12 | Dlrr subs => 4 + 12 * Z.of_nat (length subs) end.
Proof. destruct b; unfold xr_bytes; autorewrite with blen; rewrite ?blen_subs; lia. Qed.
Lemma subs_bytes_ok l : bytes_ok (subs_bytes l).
Proof.
  induction l as [|[[s a] d] l IH]; [constructor|]. apply bytes_ok_app. split; [|done].
  unfold sub_bytes. rewrite !bytes_ok_app. auto with width.
Qed.
Lemma blocks_bytes_ok l : bytes_ok (blocks_bytes l).
Proof.
  induction l as [|b l IH]; [constructor|]. apply bytes_ok_app. split; [|done].
  destruct b; unfold xr_bytes; rewrite !bytes_ok_app; split_and!;
    try (by apply (bytes_ok_check [4; 0])); try (by apply (bytes_ok_check [5; 0])); auto using subs_bytes_ok with width.
Qed.

Section XrPacket.
Context (b0 b1 : Z) (body rest : list Z).
Hypothesis Hok : packet_ok b0 b1 body.
Hypothesis Hrest : bytes_ok rest.
Local Abbreviation p := (packet_of b0 b1 body rest).

Lemma dlrrBlocks_subs pre l suf nowNtp c :
  body ++ rest = pre ++ subs_bytes l ++ suf -> Forall sub_ok l ->
  dlrrBlocks (length l) p nowNtp (blen pre) c = subs_apply nowNtp l c.
Proof.
  revert pre c. induction l as [|[[s a] d] l IH]; intros pre c Hb Hl; [done|].
  inversion Hl as [|?? Hsub Hl']; subst. cbn in Hsub. destruct Hsub as (Hs & Ha & Hd). change (subs_bytes _) with (sub_bytes (s, a, d) ++ subs_bytes l) in Hb.
  unfold sub_bytes in Hb. rewrite <- !(assoc_L (++)) in Hb. pose proof (blen_nonneg pre). cbn [length dlrrBlocks subs_apply].
  rewrite (payload32_read _ _ _ _ Hok Hrest (blen pre) s);
    [|done|rewrite Hb; by rewrite rd32_app, u32_id]. rewrite res_bind_ok.
  rewrite (payload32_read _ _ _ _ Hok Hrest (blen pre + 4) a);
    [|lia|rewrite Hb, (assoc_L (++) pre); by rewrite rd32_app, u32_id by (done || by rewrite blen_app)]. rewrite res_bind_ok.
  rewrite (payload32_read _ _ _ _ Hok Hrest (blen pre + 8) d);
    [|lia|rewrite Hb, (assoc_L (++) pre), (assoc_L (++) (pre ++ _)); rewrite rd32_app, u32_id; [done..|]; autorewrite with blen; lia].
  rewrite res_bind_ok. destruct (dlrrSubBlock nowNtp s a d c) as [c'| |]; [|done..]. rewrite !res_bind_ok.
  rewrite <- (IH (pre ++ be32 s ++ be32 a ++ be32 d)); [f_equal; autorewrite with blen; unfold RTCP_XR_DLRR_SUBBLOCK_LEN; lia| |done].
  rewrite Hb. by rewrite <- !(assoc_L (++)).
Qed.

Lemma xrBlock_apply now ssrc pre b suf c :
  body ++ rest = pre ++ xr_bytes b ++ suf -> block_ok b ->
  exists bt words, payload8 p (blen pre) = Ok bt /\ payload16 p (blen pre + 2) = Ok words /\
    4 + words * 4 = blen (xr_bytes b) /\ xrBlock now p ssrc bt words (blen pre) c = block_apply now ssrc b c.
Proof.
  intros Hb Hk. rewrite payload8_read, Hb by apply blen_nonneg. rewrite blen_xr. pose proof (blen_nonneg pre).
  pose proof (ld_app_off pre (xr_bytes b ++ suf) 0 (Z.le_refl 0)) as Hld. rewrite Z.add_0_r in Hld. rewrite Hld. destruct b as [ntp|subs]; unfold xr_bytes in Hb |- *.
  - exists 4, 2. split_and!; [done| |done|].
    + rewrite (payload16_read _ _ _ _ Hok Hrest _ 2); [done|lia|]. rewrite Hb. by rewrite rd16_app_r by lia.
    + unfold xrBlock. cbn [Z.eqb Pos.eqb RTCP_XR_BLOCK_TYPE_RRTR RTCP_XR_BLOCK_TYPE_DLRR negb].
      rewrite (payload64_read _ _ _ _ Hok Hrest _ (u64 ntp)); [|lia|].
      * by rewrite res_bind_ok, u64_id by exact Hk.
      * rewrite Hb, <- !(assoc_L (++)). rewrite (assoc_L (++) pre), (assoc_L (++) (pre ++ _)).
        apply rd64_app. autorewrite with blen. lia.
  - destruct Hk as [Hs Hn]. exists 5, (3 * Z.of_nat (length subs)). split_and!; [done| |lia|].
    + apply (payload16_read _ _ _ _ Hok Hrest); [lia|].
      rewrite Hb, <- !(assoc_L (++)), (assoc_L (++) pre), rd16_app, u16_id; [done|unfold is_u16; lia|by rewrite blen_app].
    + unfold xrBlock. cbn [Z.eqb Pos.eqb RTCP_XR_BLOCK_TYPE_RRTR RTCP_XR_BLOCK_TYPE_DLRR negb].
      rewrite (Z.mul_comm 3), Z.mod_mul, Z.div_mul by lia. cbn [Z.eqb negb block_apply]. rewrite Nat2Z.id.
      rewrite <- (dlrrBlocks_subs (pre ++ [5; 0] ++ be16 (3 * Z.of_nat (length subs))) subs suf); [f_equal; autorewrite with blen; lia| |done].
      rewrite Hb. by rewrite <- !(assoc_L (++)).
Qed.

Lemma xrLoop_blocks now ssrc pre l fuel c :
  body = pre ++ blocks_bytes l -> Forall block_ok l -> (length l <= fuel)%nat ->
  xrLoop fuel now p ssrc (blen pre) c = blocks_apply now ssrc (blen pre) l c.
Proof.
  revert pre fuel c. induction l as [|b l IH]; intros pre fuel c Hb Hl Hf.
  { cbn [blocks_bytes map concat] in Hb. rewrite app_nil_r in Hb. destruct fuel; cbn [xrLoop];
    change (rtcpPayloadLength p) with (blen body); rewrite Hb, (proj2 (Z.leb_gt _ _)) by lia; done. }
  pose proof (Forall_inv Hl) as Hk. pose proof (Forall_inv_tail Hl) as Hl'. destruct fuel as [|fuel]; [cbn in Hf; lia|].
  change (blocks_bytes _) with (xr_bytes b ++ blocks_bytes l) in Hb.
  destruct (xrBlock_apply (now (blen pre)) ssrc pre b (blocks_bytes l ++ rest) c) as (bt & words & E1 & E2 & E3 & E4);
    [by rewrite Hb, <- !(assoc_L (++))|done|].
  assert (Hlen : blen body = blen pre + blen (xr_bytes b) + blen (blocks_bytes l)) by (rewrite Hb, !blen_app; lia).
  pose proof (blen_nonneg (blocks_bytes l)). pose proof (blen_xr b) as Hx.
  assert (0 <= words) by (destruct b; lia).
  cbn [xrLoop blocks_apply]. change (rtcpPayloadLength p) with (blen body). rewrite (proj2 (Z.leb_le _ _)) by lia.
  rewrite E1, res_bind_ok, E2, res_bind_ok, (proj2 (Z.ltb_ge _ _)), E4 by lia.
  destruct (block_apply _ _ _ _) as [c'| |]; [|done..]. rewrite !res_bind_ok, E3, <- blen_app.
  apply IH; [by rewrite <- (assoc_L (++))|done|cbn in Hf; lia].
Qed.
End XrPacket.

(** ** Concrete instances *)

Lemma rrUpdateSeq_tracks_witness :
  let r := fold_left rrUpdateSeq [65534; 1; 65535; 0; 2] (rrInitSeq 65533) in
  rrCycles r + rrMaxSeq r = 65538 /\ rrBaseSeq r = 65533.
Proof.
  destruct (rrUpdateSeq_tracks 65533 [65534; 65537; 65535; 65536; 65538]) as (_ & H2 & H3 & _).
  - vm_compute. intuition congruence.
  - vm_compute. intuition congruence.
  - split; [exact H2|exact H3].
Defined.

(** 100 packets expected by B, 98 received; 20 ms on the wire, 300 ms between the reports. *)
Definition ex_rtp_sender (ssrc first : Z) : RtcRtpSender :=
  {| sender_payloadType := 96; sender_rtxPayloadType := 97; sender_initialSequenceNumber := 65500;
     sender_seqInitialized := true; sender_rtxSequenceNumber := 0; sender_ssrc := ssrc; sender_rtxSsrc := 0x55;
     sender_packetBuffer := None; sender_retransmitter := None; sender_rtpTimeOffset := 5;
     sender_firstFrameWallClockTime := first |}.
Definition ex_a1 : Z := 17000000005000000.
Definition ex_a2 : Z := ex_a1 + 3200000.
Definition ex_b1 : Z := 17000000000000000.
Definition ex_b2 : Z := ex_b1 + 3000000.
Definition ex_tA : KvsRtpTransceiver :=
  {| sender := ex_rtp_sender 0xDEADBEEF (ex_a1 - 30000000); jitterBufferSsrc := 7; pJitterBuffer := Some (90000, dbl 0);
     onBandwidthEstimation := false; onPictureLoss := false;
     outboundStats := outboundStats (ex_transceiver 0); remoteInboundStats := remoteInboundStats (ex_transceiver 0);
     remoteOutboundStats := remoteOutboundStats (ex_transceiver 0); packetsReceived := 0; rr := rr (ex_transceiver 0);
     lastSRNtpMid := 0; lastSRReceivedTime := 0; lastRrtrNtpMid := 0; lastRrtrSentTime := 0; firSequenceNumber := 0 |}.
Definition ex_tB : KvsRtpTransceiver :=
  {| sender := ex_rtp_sender 7 0; jitterBufferSsrc := 0xDEADBEEF; pJitterBuffer := Some (90000, ddiv (dbl 25) (dbl 2));
     onBandwidthEstimation := false; onPictureLoss := false;
     outboundStats := outboundStats (ex_transceiver 0); remoteInboundStats := remoteInboundStats (ex_transceiver 0);
     remoteOutboundStats := remoteOutboundStats (ex_transceiver 0); packetsReceived := 98;
     rr := {| rrMaxSeq := 63; rrCycles := 65536; rrBaseSeq := 65500; rrBadSeq := 65537; rrExpectedPrior := 50;
       rrReceivedPrior := 50; rrSeqInitialized := true |};
     lastSRNtpMid := 0; lastSRReceivedTime := 0; lastRrtrNtpMid := 0; lastRrtrSentTime := 0; firSequenceNumber := 0 |}.
Definition ex_connOf (t : KvsRtpTransceiver) : Connection :=
  {| pTransceivers := [t]; onSenderBandwidthEstimation := false; onTwccPacketReport := false; pTwccManager := None;
     pSrtpSession := true; receivedRrtrs := []; outbound := []; appCalls := []; released := [] |}.

Lemma report_exchange_witness :
  exists report cA1 tA1 units,
    onRtcpPacket LittleEndian ex_encrypt ex_send ex_mem ex_mem ex_mem None true true true (fun _ _ => ex_a2) ex_rtcp
      (ex_connOf ex_tA) (Some report) 32 = Ok (STATUS_SUCCESS, cA1) /\ pTransceivers cA1 !! 0%nat = Some tA1 /\
    packetsLost (remoteInboundStats tA1) = 2 /\ fractionLost (remoteInboundStats tA1) = ddiv (dbl 10) (dbl 255) /\
    ri_jitter (remoteInboundStats tA1) = ddiv (dbl 12) (dbl 90000) /\ ri_packetsReceived (remoteInboundStats tA1) = 98 /\
    ri_roundTripTime (remoteInboundStats tA1) = units * 1000 / 65536 /\ 1309 <= units <= 1312.
Proof.
  destruct (report_exchange LittleEndian BigEndian ex_encrypt ex_send ex_mem ex_mem ex_mem None true true true ex_rtcp
    (ex_connOf ex_tA) 0 ex_tA 90000 (dbl 0) (ex_connOf ex_tB) 0 ex_tB 90000 (ddiv (dbl 25) (dbl 2)) 12 ex_a1 ex_a2 ex_b1 ex_b2 (fun _ _ => ex_a2)
    (fun _ _ => ex_b1) 65500 65599 (replicate 72 0) (replicate 72 0) 72 72)
    as (sr & ra & cB1 & tB1 & tB2 & report & rb & cA1 & tA1 & _ & _ & _ & _ & _ & _ & E & Et & L & Fr & Ji & P & u & Hu & Hu2);
    try reflexivity.
  - vm_compute. intuition congruence.
  - split; vm_compute; intuition congruence.
  - vm_compute. congruence.
  - vm_compute. intuition congruence.
  - split; [split|..]; vm_compute; intuition congruence.
  - vm_compute. congruence.
  - vm_compute. intuition congruence.
  - repeat split; vm_compute; congruence.
  - vm_compute. intuition congruence.
  - vm_compute. congruence.
  - exists report, cA1, tA1, u. split_and!; [exact E|exact Et|rewrite L; reflexivity|rewrite Fr; by vm_compute|exact Ji|by apply P|exact Hu|..];
      vm_compute (ex_a2 - ex_a1 - (ex_b2 - ex_b1)) in Hu2; lia.
Defined.
