(* ===== verification/RedPayloader.v ===== *)
(** * RED for Opus (src/source/Rtp/Codecs/RtpRedPayloader.c)

    RFC 2198 redundancy: the sender packs the current Opus frame with the frames
    of a ring of recent ones, the receiver splits the body into synthetic RTP
    packets. *)

From S2P Require Import Prelude Endian RtpPacket.

Definition RED_HEADER_LEN_NON_LAST : Z := 4.
Definition RED_HEADER_LEN_LAST : Z := 1.
Definition RED_MAX_BLOCK_LEN : Z := 1023.
Definition RED_MAX_TS_DELTA : Z := Z.shiftl 1 14.
Definition RED_MAX_BLOCKS : Z := 32.
Definition RED_MAX_REDUNDANCY : Z := 9.
Definition RED_DEFAULT_REDUNDANCY : Z := 1.
Definition SRTP_AUTH_TAG_OVERHEAD : Z := 10.

(** ** Sender state *)

Set Primitive Projections.
Record RedSenderSlot : Type := {
  slotTimestamp : Z;
  slotLen : Z;
  slotPayload : list Z;
}.
Record RedSenderState : Type := {
  redundancyLevel : Z;
  opusPayloadType : Z;
  nextSlot : Z;
  slots : list RedSenderSlot;
}.
Unset Primitive Projections.

#[export] Instance upd_slotTimestamp : Update slotTimestamp. Proof. derive_update. Defined.
#[export] Instance upd_slotLen : Update slotLen. Proof. derive_update. Defined.
#[export] Instance upd_slotPayload : Update slotPayload. Proof. derive_update. Defined.
#[export] Instance upd_nextSlot : Update nextSlot. Proof. derive_update. Defined.
#[export] Instance upd_slots : Update slots. Proof. derive_update. Defined.

(** [memOk]: the result of MEMCALLOC, which zeroes the structure. *)
Definition createRedSenderState (memOk : bool) (level opusPt : Z) (ppOk : bool) : res RedSenderState :=
  CHK ppOk else STATUS_NULL_ARG ;;
  let level := if level =? 0 then RED_DEFAULT_REDUNDANCY else level in
  let level := if RED_MAX_REDUNDANCY <? level then RED_MAX_REDUNDANCY else level in
  CHK memOk else STATUS_NOT_ENOUGH_MEMORY ;;
  Ok {| redundancyLevel := level; opusPayloadType := opusPt; nextSlot := 0;
        slots := replicate (Z.to_nat RED_MAX_REDUNDANCY)
                   {| slotTimestamp := 0; slotLen := 0;
                      slotPayload := replicate (Z.to_nat RED_MAX_BLOCK_LEN) 0 |} |}.

(** ** selectRedundantBlocks

    [n] slots are left to scan from position [i] of the ring; [chosen] holds the
    indices collected so far. *)
Fixpoint selectLoop (st : RedSenderState) (ts budget : Z) (n : nat) (i : Z)
    (chosen : list Z) (bodyBytes : Z) : res (list Z * Z) :=
  match n with
  | O => Ok (chosen, bodyBytes)
  | S n =>
      if redundancyLevel st =? 0 then Fault else
      let slotIdx := (nextSlot st +32 i) mod redundancyLevel st in
      slot ← lget (slots st) slotIdx;
      let next := selectLoop st ts budget n (i + 1) chosen bodyBytes in
      if slotLen slot =? 0 then next else
      let tsDelta := ts -32 slotTimestamp slot in
      if (tsDelta =? 0) || (RED_MAX_TS_DELTA <=? tsDelta) then next else
      if RED_MAX_BLOCK_LEN <? slotLen slot then next else
      let addedBytes := RED_HEADER_LEN_NON_LAST +32 slotLen slot in
      if budget <? bodyBytes +32 addedBytes then Ok (chosen, bodyBytes) else
      let chosen := chosen ++ [slotIdx] in
      let bodyBytes := bodyBytes +32 addedBytes in
      if RED_MAX_BLOCKS - 1 <=? Z.of_nat (length chosen) then Ok (chosen, bodyBytes)
      else selectLoop st ts budget n (i + 1) chosen bodyBytes
  end.

Definition selectRedundantBlocks (st : RedSenderState) (ts budget primaryLen : Z)
    : res (list Z * Z) :=
  selectLoop st ts budget (Z.to_nat (redundancyLevel st)) 0 [] (RED_HEADER_LEN_LAST +32 primaryLen).

(** ** createPayloadForOpusRed *)

Definition redHeaderBytes (opusPt tsDelta blockLen : Z) : list Z :=
  [u8 (Z.lor 0x80 (Z.land opusPt 0x7F));
   u8 (Z.land (Z.shiftr (Z.land tsDelta 0x3FFF) 6) 0xFF);
   u8 (Z.land (Z.lor (Z.shiftl (Z.land tsDelta 0x3F) 2) (Z.land (Z.shiftr blockLen 8) 0x3)) 0xFF);
   u8 (Z.land blockLen 0xFF)].

Fixpoint putRedHeaders (st : RedSenderState) (ts : Z) (chosen : list Z) (buf : list Z) (out : Z)
    : res (list Z * Z) :=
  match chosen with
  | [] => Ok (buf, out)
  | idx :: chosen =>
      slot ← lget (slots st) idx;
      buf ← put_bytes buf out
              (redHeaderBytes (opusPayloadType st) (ts -32 slotTimestamp slot) (slotLen slot));
      putRedHeaders st ts chosen buf (out + RED_HEADER_LEN_NON_LAST)
  end.

Fixpoint putRedPayloads (st : RedSenderState) (chosen : list Z) (buf : list Z) (out : Z)
    : res (list Z * Z) :=
  match chosen with
  | [] => Ok (buf, out)
  | idx :: chosen =>
      slot ← lget (slots st) idx;
      bs ← ld_bytes (slotPayload slot) 0 (slotLen slot);
      buf ← put_bytes buf out bs;
      putRedPayloads st chosen buf (out + slotLen slot)
  end.

(** The ring update after an emitted frame. *)
Definition pushRedSlot (st : RedSenderState) (ts : Z) (frame : list Z) (len : Z)
    : res RedSenderState :=
  newest ← lget (slots st) (nextSlot st);
  bs ← ld_bytes frame 0 len;
  pl ← put_bytes (slotPayload newest) 0 bs;
  let newest := newest <| slotTimestamp := ts |> <| slotLen := len |> <| slotPayload := pl |> in
  sl ← lput (slots st) (nextSlot st) newest;
  if redundancyLevel st =? 0 then Fault else
  Ok (st <| slots := sl |> <| nextSlot := (nextSlot st +32 1) mod redundancyLevel st |>).

(** What the caller sees: the status, the sender state, the payload buffer, the
    sub-length array, and the values behind pPayloadLength, pPayloadSubLenSize and
    pIsFallbackToPlainOpus. *)
Record RedOut : Type := {
  ro_status : STATUS;
  ro_state : RedSenderState;
  ro_buf : option (list Z);
  ro_subs : option (list Z);
  ro_len : Z;
  ro_subLen : Z;
  ro_fallback : bool;
}.

(** The encoder after its NULL checks: [out0] are the caller's in/out values. *)
Definition createPayloadForOpusRed (mtu : Z) (opusFrame : option (list Z)) (frameLen ts : Z)
    (pState : option RedSenderState) (payloadBuffer : option (list Z)) (payloadLength : Z)
    (pSubs : option (list Z)) (subLenSize : Z) (fallback0 : bool) : res RedOut :=
  match pState, opusFrame with
  | Some st, Some frame =>
      CHK bool_decide (payloadBuffer = None) || bool_decide (is_Some pSubs) else STATUS_NULL_ARG ;;
      CHK 0 <? frameLen else STATUS_INVALID_ARG ;;
      let mtuBudget := if u32 (SRTP_AUTH_TAG_OVERHEAD + 24) <? mtu
                       then mtu -32 SRTP_AUTH_TAG_OVERHEAD -32 24 else 0 in
      let fallback := RED_MAX_BLOCK_LEN <? frameLen in
      '(chosen, bodyBytes) ←
        (if fallback then Ok ([], frameLen)
         else selectRedundantBlocks st ts mtuBudget frameLen);
      match payloadBuffer with
      | None =>
          Ok {| ro_status := STATUS_SUCCESS; ro_state := st; ro_buf := None; ro_subs := pSubs;
                ro_len := bodyBytes; ro_subLen := 1; ro_fallback := fallback |}
      | Some buf =>
          if negb ((bodyBytes <=? payloadLength) && (1 <=? subLenSize)) then
            Ok {| ro_status := STATUS_BUFFER_TOO_SMALL; ro_state := st; ro_buf := Some buf;
                  ro_subs := pSubs; ro_len := payloadLength; ro_subLen := subLenSize;
                  ro_fallback := fallback0 |}
          else
          '(st, buf) ←
            (if fallback then
               bs ← ld_bytes frame 0 frameLen;
               buf ← put_bytes buf 0 bs;
               Ok (st, buf)
             else
               '(buf, out) ← putRedHeaders st ts chosen buf 0;
               buf ← put8 buf out (Z.land (opusPayloadType st) 0x7F);
               '(buf, out) ← putRedPayloads st chosen buf (out + RED_HEADER_LEN_LAST);
               bs ← ld_bytes frame 0 frameLen;
               buf ← put_bytes buf out bs;
               st ← pushRedSlot st ts frame frameLen;
               Ok (st, buf));
          match pSubs with
          | None => Fault
          | Some subs =>
              subs ← lput subs 0 bodyBytes;
              Ok {| ro_status := STATUS_SUCCESS; ro_state := st; ro_buf := Some buf;
                    ro_subs := Some subs; ro_len := bodyBytes; ro_subLen := 1;
                    ro_fallback := fallback |}
          end
      end
  | _, _ => Err STATUS_NULL_ARG
  end.

(** ** parseRedHeaders

    [n] is [maxBlocks - count]: the chain is rejected when it is exhausted before
    the last header. *)
Record RedBlockInfo : Type := {
  blkPayloadType : Z;
  tsOffset : Z;
  blkLen : Z;
  isLast : bool;
}.

Fixpoint parseLoop (body : ptr) (bodyLen : Z) (n : nat) (off : Z) (blocks : list RedBlockInfo)
    : res (list RedBlockInfo * Z) :=
  if off <? bodyLen then
    match n with
    | O => Err STATUS_RTP_INVALID_RED_PACKET
    | S n =>
        first ← pld body off;
        if negb (Z.land first 0x80 =? 0) then
          CHK off +32 RED_HEADER_LEN_NON_LAST <=? bodyLen else STATUS_RTP_INVALID_RED_PACKET ;;
          b1 ← pld body (off + 1);
          b2 ← pld body (off + 2);
          b3 ← pld body (off + 3);
          let blk := {| blkPayloadType := u8 (Z.land first 0x7F);
                        tsOffset := Z.lor (u32 (Z.shiftl b1 6)) (Z.shiftr b2 2);
                        blkLen := Z.lor (u32 (Z.shiftl (Z.land b2 0x3) 8)) b3;
                        isLast := false |} in
          parseLoop body bodyLen n (off +32 RED_HEADER_LEN_NON_LAST) (blocks ++ [blk])
        else
          let blk := {| blkPayloadType := u8 (Z.land first 0x7F); tsOffset := 0; blkLen := 0;
                        isLast := true |} in
          Ok (blocks ++ [blk], off +32 RED_HEADER_LEN_LAST)
    end
  else Ok (blocks, off).

Definition parseRedHeaders (body : ptr) (bodyLen maxBlocks : Z) : res (list RedBlockInfo * Z) :=
  '(blocks, off) ← parseLoop body bodyLen (Z.to_nat maxBlocks) 0 [];
  match list.last blocks with
  | None => Err STATUS_RTP_INVALID_RED_PACKET
  | Some blk => CHK isLast blk else STATUS_RTP_INVALID_RED_PACKET ;; Ok (blocks, off)
  end.

(** ** buildSyntheticPacket

    [memPkt] and [memBuf] are the results of the two allocations. *)
Definition buildSyntheticPacket (memPkt : bool) (memBuf : Z -> option (list Z)) (src : RtpPacket)
    (opusPt ts seq : Z) (pl : ptr) (len : Z) (synth : bool) : res RtpPacket :=
  CHK memPkt else STATUS_NOT_ENOUGH_MEMORY ;;
  buf ← (if 0 <? len then
           match memBuf len with
           | None => Err STATUS_NOT_ENOUGH_MEMORY
           | Some b => bs ← pld_bytes pl len; b ← put_bytes b 0 bs; Ok (Some b)
           end
         else Ok None);
  Ok {| header := {| version := 2; padding := false; extension := false;
                     marker := marker (header src); csrcCount := 0; payloadType := opusPt;
                     sequenceNumber := seq; timestamp := ts; ssrc := ssrc (header src);
                     csrcArray := None; extensionProfile := 0; extensionPayload := None;
                     extensionLength := 0 |};
        payload := option_map (fun b => Ptr b 0) buf; payloadLength := len;
        pRawPacket := buf; rawPacketLength := len;
        receivedTime := receivedTime src; sentTime := sentTime src; isSynthetic := synth |}.

(** ** splitRedRtpPacket

    The loop over the blocks: [i] is the block's position, [created] the packets
    made so far.  A failure discards them. *)
Fixpoint splitLoop (memPkt : Z -> bool) (memBuf : Z -> Z -> option (list Z)) (src : RtpPacket)
    (opusPt blockCount : Z) (blocks : list RedBlockInfo) (i : Z) (cursor : ptr)
    (created : list RtpPacket) (fec : Z) : res (list RtpPacket * Z) :=
  match blocks with
  | [] => Ok (created, fec)
  | b :: blocks =>
      if negb (blkPayloadType b =? opusPt) then
        splitLoop memPkt memBuf src opusPt blockCount blocks (i + 1) (padd cursor (blkLen b)) created fec
      else
      let '(ts, seq, fec) :=
        if isLast b then (timestamp (header src), sequenceNumber (header src), fec)
        else (timestamp (header src) -32 tsOffset b,
              u16 (sequenceNumber (header src) - (blockCount -32 1 -32 i)),
              fec +32 blkLen b) in
      syn ← buildSyntheticPacket (memPkt i) (memBuf i) src opusPt ts seq cursor (blkLen b)
              (negb (isLast b));
      splitLoop memPkt memBuf src opusPt blockCount blocks (i + 1) (padd cursor (blkLen b))
        (created ++ [syn]) fec
  end.

(** The declared lengths of the redundant blocks, summed in UINT32. *)
Definition sumLens (blocks : list RedBlockInfo) : Z :=
  foldl (fun acc b => acc +32 blkLen b) 0 (removelast blocks).

Definition setLastLen (blocks : list RedBlockInfo) (len : Z) : list RedBlockInfo :=
  match list.last blocks with
  | None => blocks
  | Some b => removelast blocks ++
      [{| blkPayloadType := blkPayloadType b; tsOffset := tsOffset b; blkLen := len; isLast := isLast b |}]
  end.

(** The packets stored in the caller's array, of capacity [maxCount], the
    produced count being their number, and the redundant bytes. *)
Definition splitRedRtpPacket (memPkt : Z -> bool) (memBuf : Z -> Z -> option (list Z))
    (pRed : option RtpPacket) (opusPt maxCount : Z) : res (list RtpPacket * Z) :=
  match pRed with
  | None => Err STATUS_NULL_ARG
  | Some src =>
      CHK 1 <=? maxCount else STATUS_INVALID_ARG ;;
      match payload src with
      | None => Err STATUS_RTP_INVALID_RED_PACKET
      | Some body =>
          let bodyLen := payloadLength src in
          CHK 0 <? bodyLen else STATUS_RTP_INVALID_RED_PACKET ;;
          '(blocks, headerTotalLen) ← parseRedHeaders body bodyLen RED_MAX_BLOCKS;
          let payloadsTotalLen := sumLens blocks in
          CHK headerTotalLen +32 payloadsTotalLen <=? bodyLen else STATUS_RTP_INVALID_RED_PACKET ;;
          let blocks := setLastLen blocks (bodyLen -32 headerTotalLen -32 payloadsTotalLen) in
          CHK Z.of_nat (length blocks) <=? maxCount else STATUS_RTP_INVALID_RED_PACKET ;;
          splitLoop memPkt memBuf src opusPt (Z.of_nat (length blocks)) blocks 0
            (padd body headerTotalLen) [] 0
      end
  end.

(** ** The wire format *)

(** A redundant block is its timestamp offset and its bytes. *)
Definition red_headers (pt : Z) (blks : list (Z * list Z)) : list Z :=
  concat (map (fun b => redHeaderBytes pt b.1 (blen b.2)) blks).
Definition red_payloads (blks : list (Z * list Z)) : list Z := concat (map snd blks).
Definition red_body (pt : Z) (blks : list (Z * list Z)) (frame : list Z) : list Z :=
  red_headers pt blks ++ [u8 (Z.land pt 0x7F)] ++ red_payloads blks ++ frame.

Definition blk_ok (b : Z * list Z) : Prop :=
  0 <= b.1 < 2 ^ 14 /\ blen b.2 <= 1023 /\ bytes_ok b.2.

Lemma blen_red_header pt d n : blen (redHeaderBytes pt d n) = 4.
Proof. reflexivity. Qed.
Lemma blen_red_headers pt blks : blen (red_headers pt blks) = 4 * Z.of_nat (length blks).
Proof.
  induction blks as [|b blks IH]; [done|]. unfold red_headers in *. cbn [map concat length].
  rewrite blen_app, IH, blen_red_header. lia.
Qed.
Definition payload_bytes (blks : list (Z * list Z)) : Z := foldr (fun b n => blen b.2 + n) 0 blks.
Lemma blen_red_payloads blks : blen (red_payloads blks) = payload_bytes blks.
Proof.
  induction blks as [|b blks IH]; [done|]. unfold red_payloads in *. cbn [map concat payload_bytes foldr].
  by rewrite blen_app, IH.
Qed.
#[export] Hint Rewrite blen_red_header blen_red_headers blen_red_payloads : blen.

Lemma redHeaderBytes_ok pt d n : bytes_ok (redHeaderBytes pt d n).
Proof. repeat constructor; apply u8_range. Qed.
Lemma red_headers_ok pt blks : bytes_ok (red_headers pt blks).
Proof.
  unfold red_headers. induction blks; cbn [map concat]; [constructor|].
  apply bytes_ok_app. split; [apply redHeaderBytes_ok|done].
Qed.

(** The bit fields of a redundant block's header are recovered by the parser. *)
Lemma redHeader_fields pt d n :
  0 <= pt < 128 -> 0 <= d < 2 ^ 14 -> 0 <= n <= 1023 ->
  exists b0 b1 b2 b3, redHeaderBytes pt d n = [b0; b1; b2; b3] /\
    negb (Z.land b0 0x80 =? 0) = true /\ u8 (Z.land b0 0x7F) = pt /\
    Z.lor (u32 (Z.shiftl b1 6)) (Z.shiftr b2 2) = d /\
    Z.lor (u32 (Z.shiftl (Z.land b2 0x3) 8)) b3 = n.
Proof.
  intros Hp Hd Hn. unfold redHeaderBytes. do 4 eexists. split; [reflexivity|].
  assert (H0 : forallb (fun p => negb (Z.land (u8 (Z.lor 0x80 (Z.land p 0x7F))) 0x80 =? 0) &&
     (u8 (Z.land (u8 (Z.lor 0x80 (Z.land p 0x7F))) 0x7F) =? p)) (seqZ 0 128) = true)
    by (vm_compute; reflexivity).
  pose proof (range_forall _ _ H0 pt Hp) as Hpt. cbv beta in Hpt.
  apply andb_prop in Hpt as [Hf Hpt%Z.eqb_eq].
  change 0x3FFF with (Z.ones 14). change 0x3F with (Z.ones 6). change 0xFF with (Z.ones 8).
  change 0x3 with (Z.ones 2). rewrite !land_mask, !Z.shiftr_div_pow2 by lia.
  rewrite (Z.lor_comm (Z.shiftl (d mod 2 ^ 6) 2)), lor_disjoint_add by width_lia.
  rewrite (Z.shiftl_mul_pow2 _ 6), (Z.shiftl_mul_pow2 _ 8) by lia.
  split; [exact Hf|]. split; [exact Hpt|].
  set (b1 := u8 ((d mod 2 ^ 14 / 2 ^ 6) mod 2 ^ 8)).
  set (b2 := u8 (((n / 2 ^ 8) mod 2 ^ 2 + d mod 2 ^ 6 * 2 ^ 2) mod 2 ^ 8)).
  set (b3 := u8 (n mod 2 ^ 8)).
  assert (E1 : b1 = d / 64) by (unfold b1; width_lia).
  assert (E2 : b2 = n / 256 + d mod 64 * 4) by (unfold b2; width_lia).
  assert (E3 : b3 = n mod 256) by (unfold b3; width_lia).
  clearbody b1 b2 b3. subst. split.
  - rewrite u32_id by width_lia. rewrite Z.lor_comm.
    rewrite <- (Z.shiftl_mul_pow2 _ 6), lor_disjoint_add by width_lia. width_lia.
  - rewrite u32_id by width_lia. rewrite Z.lor_comm.
    rewrite <- (Z.shiftl_mul_pow2 _ 8), lor_disjoint_add by width_lia. width_lia.
Qed.

(** ** Parsing *)

Definition blk_info (pt : Z) (b : Z * list Z) : RedBlockInfo :=
  {| blkPayloadType := pt; tsOffset := b.1; blkLen := blen b.2; isLast := false |}.
Definition last_info (pt len : Z) : RedBlockInfo :=
  {| blkPayloadType := pt; tsOffset := 0; blkLen := len; isLast := true |}.

Lemma ld_app_at a x b k : k = blen a -> ld (a ++ x :: b) k = Ok x.
Proof. intros ->. rewrite <- (Z.add_0_r (blen a)), ld_app_off by lia. done. Qed.

Lemma parseLoop_chain pt blks pre suf obj n blocks :
  0 <= pt < 128 -> Forall blk_ok blks ->
  obj = pre ++ red_headers pt blks ++ [u8 (Z.land pt 0x7F)] ++ suf ->
  blen obj < 2 ^ 32 -> (length blks < n)%nat ->
  parseLoop (Ptr obj 0) (blen obj) n (blen pre) blocks =
  Ok (blocks ++ map (blk_info pt) blks ++ [last_info pt 0], blen pre + 4 * Z.of_nat (length blks) + 1).
Proof.
  intros Hp Hb. revert pre n blocks. induction Hb as [|b blks Hb0 Hb IH]; intros pre n blocks Hobj Hu Hn.
  - destruct n as [|n]; [lia|]. cbn [parseLoop]. cbn [red_headers map concat app] in Hobj.
    assert (Hl : blen obj = blen pre + 1 + blen suf) by (rewrite Hobj; autorewrite with blen; lia).
    pose proof (blen_nonneg suf). pose proof (blen_nonneg pre).
    rewrite (proj2 (Z.ltb_lt _ _)) by lia. unfold pld. cbn [p_obj p_off]. rewrite Z.add_0_l.
    rewrite Hobj at 1. rewrite ld_app_at by done. cbn [mbind res_bind].
    assert (Hpt : forallb (fun p => (Z.land (u8 (Z.land p 0x7F)) 0x80 =? 0) &&
      (u8 (Z.land (u8 (Z.land p 0x7F)) 0x7F) =? p)) (seqZ 0 128) = true) by (vm_compute; reflexivity).
    pose proof (range_forall _ _ Hpt pt Hp) as HH. cbv beta in HH.
    apply andb_prop in HH as [-> HH%Z.eqb_eq]. cbn [negb]. rewrite HH.
    rewrite u32_id by (unfold is_u32, RED_HEADER_LEN_LAST; lia).
    cbn [map app length]. unfold RED_HEADER_LEN_LAST, last_info. do 2 f_equal. lia.
  - destruct n as [|n]; [cbn in Hn; lia|]. destruct b as [d bs]. destruct Hb0 as (Hd & Hl & Hok).
    cbn [fst snd] in *. pose proof (blen_nonneg bs). cbn [length] in Hn.
    destruct (redHeader_fields pt d (blen bs)) as (b0&b1&b2&b3&Eh&F0&F1&F2&F3); [done..|].
    change (red_headers pt ((d, bs) :: blks)) with
      (redHeaderBytes pt d (blen bs) ++ red_headers pt blks) in Hobj.
    rewrite Eh, <- !(assoc_L (++)) in Hobj.
    assert (Hlen : blen pre + 4 < blen obj).
    { rewrite Hobj. autorewrite with blen. pose proof (blen_nonneg suf). lia. }
    pose proof (blen_nonneg pre).
    assert (Hld : forall k x, 0 <= k -> ld ([b0; b1; b2; b3] ++ red_headers pt blks ++
      [u8 (Z.land pt 0x7F)] ++ suf) k = Ok x -> pld (Ptr obj 0) (blen pre + k) = Ok x).
    { intros k x Hk Hx. unfold pld. cbn [p_obj p_off]. rewrite Z.add_0_l, Hobj.
      by rewrite ld_app_off. }
    cbn [parseLoop]. rewrite (proj2 (Z.ltb_lt _ _)) by lia.
    rewrite <- (Z.add_0_r (blen pre)) at 1. rewrite (Hld 0 b0) by done. cbn [mbind res_bind].
    rewrite F0. unfold RED_HEADER_LEN_NON_LAST.
    rewrite (u32_id (blen pre + 4)) by (unfold is_u32; lia).
    rewrite (proj2 (Z.leb_le _ _)) by lia.
    rewrite (Hld 1 b1), (Hld 2 b2), (Hld 3 b3) by done. cbn [mbind res_bind].
    rewrite F1, F2, F3. replace (blen pre + 4) with (blen (pre ++ [b0; b1; b2; b3])) by blen_lia.
    rewrite (IH (pre ++ [b0; b1; b2; b3])); [|by rewrite <- (assoc_L (++))|done|lia].
    rewrite <- (assoc_L (++)). cbn [map app length]. unfold blk_info at 3. cbn [fst snd].
    do 2 f_equal. autorewrite with blen. lia.
Qed.

(** ** Splitting *)

(** The synthetic packet with the given fields; an empty block has no buffer. *)
Definition red_syn (src : RtpPacket) (pt ts seq : Z) (bs : list Z) (synth : bool) : RtpPacket :=
  let buf := match bs with [] => None | _ => Some bs end in
  {| header := {| version := 2; padding := false; extension := false;
                  marker := marker (header src); csrcCount := 0; payloadType := pt;
                  sequenceNumber := seq; timestamp := ts; ssrc := ssrc (header src);
                  csrcArray := None; extensionProfile := 0; extensionPayload := None;
                  extensionLength := 0 |};
     payload := option_map (fun b => Ptr b 0) buf; payloadLength := blen bs;
     pRawPacket := buf; rawPacketLength := blen bs;
     receivedTime := receivedTime src; sentTime := sentTime src; isSynthetic := synth |}.

Lemma buildSyntheticPacket_spec memBuf src pt ts seq pre bs suf o len synth :
  mem_avail memBuf -> o = blen pre -> len = blen bs ->
  buildSyntheticPacket true memBuf src pt ts seq (Ptr (pre ++ bs ++ suf) o) len synth =
  Ok (red_syn src pt ts seq bs synth).
Proof.
  intros Hm -> ->. unfold buildSyntheticPacket, red_syn.
  destruct bs as [|x bs]; [done|]. set (l := x :: bs).
  assert (0 < blen l) by (unfold l, blen; cbn [length]; lia).
  rewrite (proj2 (Z.ltb_lt _ _)) by done. destruct (Hm (blen l)) as (b & -> & Hb); [lia|].
  unfold pld_bytes. cbn [p_obj p_off]. rewrite ld_bytes_app by done. cbn [mbind res_bind].
  by rewrite put_bytes_full.
Qed.

(** The packets of the redundant blocks: block [i] of [n] is [n - i] packets older. *)
Definition red_syns (src : RtpPacket) (pt : Z) (n i : Z) (blks : list (Z * list Z)) : list RtpPacket :=
  imap (fun k b => red_syn src pt (timestamp (header src) -32 b.1)
                     (u16 (sequenceNumber (header src) - (n - (i + Z.of_nat k)))) b.2 true) blks.

Lemma red_syns_cons src pt n i b blks :
  red_syns src pt n i (b :: blks) =
  red_syn src pt (timestamp (header src) -32 b.1)
    (u16 (sequenceNumber (header src) - (n - i))) b.2 true :: red_syns src pt n (i + 1) blks.
Proof.
  unfold red_syns. rewrite imap_cons. rewrite Z.add_0_r. f_equal. apply imap_ext.
  intros k x _. cbv beta. unfold compose. by replace (i + Z.of_nat (S k)) with (i + 1 + Z.of_nat k) by lia.
Qed.

Lemma splitLoop_spec memPkt memBuf src pt n blks frame pre suf obj i created fec :
  (forall k, memPkt k = true) -> (forall k, mem_avail (memBuf k)) ->
  obj = pre ++ red_payloads blks ++ frame ++ suf ->
  0 <= i -> n = i + Z.of_nat (length blks) -> n < 2 ^ 16 ->
  0 <= fec -> fec + payload_bytes blks < 2 ^ 32 ->
  splitLoop memPkt memBuf src pt (n + 1)
    (map (blk_info pt) blks ++ [last_info pt (blen frame)]) i (Ptr obj (blen pre)) created fec =
  Ok (created ++ red_syns src pt n i blks
      ++ [red_syn src pt (timestamp (header src)) (sequenceNumber (header src)) frame false],
      fec + payload_bytes blks).
Proof.
  intros HmP HmB. revert pre i created fec.
  induction blks as [|[d bs] blks IH]; intros pre i created fec Hobj Hi Hn Hn16 Hf Hf32.
  - cbn [map app splitLoop last_info blkPayloadType isLast blkLen]. rewrite Z.eqb_refl. cbn [negb].
    rewrite HmP, Hobj. cbn [red_payloads map concat app].
    rewrite buildSyntheticPacket_spec by done. cbn [mbind res_bind payload_bytes foldr].
    rewrite Z.add_0_r. done.
  - cbn [payload_bytes foldr snd] in Hf32. fold (payload_bytes blks) in Hf32.
    assert (0 <= payload_bytes blks) by (rewrite <- blen_red_payloads; apply blen_nonneg).
    pose proof (blen_nonneg bs). cbn [length] in Hn.
    cbn [map app splitLoop blk_info blkPayloadType isLast blkLen tsOffset fst snd].
    rewrite Z.eqb_refl. cbn [negb]. rewrite HmP.
    change (red_payloads ((d, bs) :: blks)) with (bs ++ red_payloads blks) in Hobj.
    rewrite <- (assoc_L (++)) in Hobj. rewrite Hobj at 1.
    rewrite buildSyntheticPacket_spec by done. cbn [mbind res_bind].
    unfold padd. cbn [p_obj p_off].
    replace (blen pre + blen bs) with (blen (pre ++ bs)) by blen_lia.
    rewrite (u32_id (fec + blen bs)) by (unfold is_u32; lia).
    rewrite (IH (pre ++ bs)); [|by rewrite <- (assoc_L (++))|lia|lia|lia|lia|lia].
    rewrite red_syns_cons. cbn [fst snd payload_bytes foldr]. fold (payload_bytes blks).
    rewrite <- (assoc_L (++)). cbn [app].
    rewrite (u32_id (n + 1 - 1)) by (unfold is_u32; lia).
    rewrite (u32_id (n + 1 - 1 - i)) by (unfold is_u32; lia).
    replace (n + 1 - 1 - i) with (n - i) by lia. by rewrite Z.add_assoc.
Qed.

Lemma sumLens_spec pt blks len :
  payload_bytes blks < 2 ^ 32 ->
  sumLens (map (blk_info pt) blks ++ [last_info pt len]) = payload_bytes blks.
Proof.
  intros Hb. unfold sumLens. rewrite removelast_last.
  enough (H : forall acc, 0 <= acc -> acc + payload_bytes blks < 2 ^ 32 ->
    foldl (fun acc b => acc +32 blkLen b) acc (map (blk_info pt) blks) = acc + payload_bytes blks)
    by (rewrite H; lia).
  clear Hb. induction blks as [|[d bs] blks IH]; intros acc Ha Hb; cbn [map foldl payload_bytes foldr].
  { lia. }
  cbn [payload_bytes foldr snd] in Hb. fold (payload_bytes blks) in *. pose proof (blen_nonneg bs).
  assert (0 <= payload_bytes blks) by (rewrite <- blen_red_payloads; apply blen_nonneg).
  cbn [blk_info blkLen snd]. rewrite (u32_id (acc + blen bs)) by (unfold is_u32; lia).
  rewrite IH by lia. lia.
Qed.

Lemma last_app_one {X} (l : list X) x : list.last (l ++ [x]) = Some x.
Proof. by rewrite last_snoc. Qed.

Lemma splitRed_body memPkt memBuf src pt blks frame maxCount :
  (forall k, memPkt k = true) -> (forall k, mem_avail (memBuf k)) ->
  0 <= pt < 128 -> Forall blk_ok blks ->
  payload src = Some (Ptr (red_body pt blks frame) 0) ->
  payloadLength src = blen (red_body pt blks frame) -> blen (red_body pt blks frame) < 2 ^ 32 ->
  Z.of_nat (length blks) + 1 <= 32 -> Z.of_nat (length blks) + 1 <= maxCount ->
  splitRedRtpPacket memPkt memBuf (Some src) pt maxCount =
  Ok (red_syns src pt (Z.of_nat (length blks)) 0 blks
      ++ [red_syn src pt (timestamp (header src)) (sequenceNumber (header src)) frame false],
      payload_bytes blks).
Proof.
  intros HmP HmB Hp Hb Hpl Hlen Hu Hn Hmax. unfold splitRedRtpPacket.
  rewrite (proj2 (Z.leb_le _ _)) by lia. rewrite Hpl, Hlen.
  assert (Hbl : blen (red_body pt blks frame) =
                4 * Z.of_nat (length blks) + 1 + payload_bytes blks + blen frame).
  { unfold red_body. autorewrite with blen. lia. }
  assert (0 <= payload_bytes blks) by (rewrite <- blen_red_payloads; apply blen_nonneg).
  pose proof (blen_nonneg frame). rewrite (proj2 (Z.ltb_lt _ _)) by lia.
  unfold parseRedHeaders.
  pose proof (parseLoop_chain pt blks [] (red_payloads blks ++ frame) (red_body pt blks frame)
    (Z.to_nat RED_MAX_BLOCKS) [] Hp Hb eq_refl Hu) as HPL.
  change (blen []) with 0 in HPL. rewrite HPL by (unfold RED_MAX_BLOCKS; lia).
  cbn [mbind res_bind app]. rewrite last_app_one. cbn [last_info isLast mbind res_bind].
  rewrite sumLens_spec by lia. rewrite Z.add_0_l.
  rewrite (u32_id (4 * _ + 1 + _)) by (unfold is_u32; lia).
  rewrite (proj2 (Z.leb_le _ _)) by lia.
  unfold setLastLen. rewrite last_app_one, removelast_last.
  cbn [last_info blkPayloadType tsOffset isLast].
  rewrite (u32_id (_ - (_ + 1))) by (unfold is_u32; lia).
  rewrite u32_id by (unfold is_u32; lia).
  replace (_ - _ - _) with (blen frame) by lia.
  rewrite length_app, length_map. cbn [length].
  rewrite (proj2 (Z.leb_le _ _)) by lia. unfold padd. cbn [p_obj p_off].
  fold (last_info pt (blen frame)).
  replace (Z.of_nat (length blks + 1)) with (Z.of_nat (length blks) + 1) by lia.
  replace (0 + (4 * Z.of_nat (length blks) + 1))
    with (blen (red_headers pt blks ++ [u8 (Z.land pt 0x7F)])) by blen_lia.
  rewrite (splitLoop_spec memPkt memBuf src pt _ blks frame _ []); try done; try lia.
  unfold red_body. by rewrite app_nil_r, <- !(assoc_L (++)).
Qed.

(** ** The sender's ring *)

Record slot_ok (s : RedSenderSlot) : Prop := {
  so_ts : is_u32 (slotTimestamp s);
  so_len : 0 <= slotLen s <= RED_MAX_BLOCK_LEN;
  so_cap : blen (slotPayload s) = RED_MAX_BLOCK_LEN;
  so_bytes : bytes_ok (slotPayload s);
}.
Record red_ok (st : RedSenderState) : Prop := {
  rs_level : 1 <= redundancyLevel st <= RED_MAX_REDUNDANCY;
  rs_pt : 0 <= opusPayloadType st < 128;
  rs_next : 0 <= nextSlot st < redundancyLevel st;
  rs_len : Z.of_nat (length (slots st)) = RED_MAX_REDUNDANCY;
  rs_slots : Forall slot_ok (slots st);
}.

(** A slot whose frame can be repeated with a frame of timestamp [ts], and the
    block it is sent as. *)
Definition usable (ts : Z) (s : RedSenderSlot) : Prop :=
  slot_ok s /\ 0 < slotLen s /\ 0 < ts -32 slotTimestamp s < 2 ^ 14.
Definition slot_bytes (s : RedSenderSlot) : list Z := take (Z.to_nat (slotLen s)) (slotPayload s).
Definition slot_block (ts : Z) (s : RedSenderSlot) : Z * list Z :=
  (ts -32 slotTimestamp s, slot_bytes s).
(** [idxs] are the ring positions of the usable slots [ss]. *)
Definition chosen_slots (st : RedSenderState) (ts : Z) (idxs : list Z) (ss : list RedSenderSlot) : Prop :=
  Forall2 (fun i s => lget (slots st) i = Ok s /\ usable ts s) idxs ss.

Lemma lget_slot st i : red_ok st -> 0 <= i < redundancyLevel st ->
  exists s, lget (slots st) i = Ok s /\ slot_ok s.
Proof.
  intros [Hl _ _ Hlen Hs] Hi. unfold RED_MAX_REDUNDANCY in *. unfold lget.
  rewrite (proj2 (Z.leb_le _ _)) by lia.
  destruct (lookup_lt_is_Some_2 (slots st) (Z.to_nat i)) as [s E]; [lia|]. rewrite E.
  exists s. split; [done|]. by eapply Forall_lookup_1.
Qed.

Lemma blen_slot_bytes s : slot_ok s -> blen (slot_bytes s) = slotLen s.
Proof. intros [_ Hl Hc _]. unfold slot_bytes. rewrite blen_take; lia. Qed.

Lemma slot_block_ok ts s : usable ts s -> blk_ok (slot_block ts s).
Proof.
  intros (Hs & Hl & Ht). split_and!; cbn [slot_block fst snd]; [lia|lia| |].
  - rewrite blen_slot_bytes by done. apply (so_len _ Hs).
  - apply bytes_ok_take, Hs.
Qed.

(** The slots of the ring in the order in which they were filled, the oldest first. *)
Definition slot_at (st : RedSenderState) (i : nat) : RedSenderSlot :=
  default {| slotTimestamp := 0; slotLen := 0; slotPayload := [] |}
    (slots st !! Z.to_nat ((nextSlot st + Z.of_nat i) mod redundancyLevel st)).
Definition ring (st : RedSenderState) : list RedSenderSlot := map (slot_at st) (seq 0 (Z.to_nat (redundancyLevel st))).

(** The frames of the ring with their timestamps; the frame of an empty slot is empty. *)
Definition slot_frame (s : RedSenderSlot) : Z * list Z := (slotTimestamp s, slot_bytes s).
Definition frames (st : RedSenderState) : list (Z * list Z) := map slot_frame (ring st).

(** The frames that fit after [body] bytes: those with an offset in 14 bits, up to the first
    one that does not fit the budget. *)
Fixpoint repeatable (ts budget body : Z) (l : list (Z * list Z)) : list (Z * list Z) :=
  match l with
  | [] => []
  | (t, bs) :: l =>
      if (blen bs =? 0) || (ts -32 t =? 0) || (2 ^ 14 <=? ts -32 t) then repeatable ts budget body l
      else if budget <? body + (4 + blen bs) then []
      else (t, bs) :: repeatable ts budget (body + (4 + blen bs)) l
  end.

Definition block_cost (ss : list RedSenderSlot) : Z := foldr (fun s n => 4 + slotLen s + n) 0 ss.

Lemma selectLoop_spec st ts budget n i chosen body :
  red_ok st -> 0 <= i -> i + Z.of_nat n < 100 -> 0 <= body ->
  Z.of_nat (length chosen) + Z.of_nat n < 31 ->
  body + Z.of_nat n * 1027 < 2 ^ 32 ->
  exists idxs ss,
    selectLoop st ts budget n i chosen body = Ok (chosen ++ idxs, body + block_cost ss) /\
    chosen_slots st ts idxs ss /\ (length ss <= n)%nat /\
    (ss = [] \/ body + block_cost ss <= budget) /\
    map slot_frame ss = repeatable ts budget body (map slot_frame (map (slot_at st) (seq (Z.to_nat i) n))).
Proof.
  intros Hok. revert i chosen body. induction n as [|n IH]; intros i chosen body Hi Hin Hb Hc Hu.
  { exists [], []. cbn. rewrite app_nil_r, Z.add_0_r. split_and!; [done|constructor|lia|by left|done]. }
  cbn [selectLoop]. pose proof (rs_level _ Hok). pose proof (rs_next _ Hok).
  unfold RED_MAX_REDUNDANCY in *. rewrite (proj2 (Z.eqb_neq _ _)) by lia.
  rewrite (u32_id (nextSlot st + i)) by (unfold is_u32; lia).
  set (idx := (nextSlot st + i) mod redundancyLevel st).
  destruct (lget_slot st idx Hok) as (s & Es & Hs); [apply Z.mod_pos_bound; lia|].
  rewrite Es. cbn [mbind res_bind]. pose proof (so_len _ Hs) as Hsl. unfold RED_MAX_BLOCK_LEN in Hsl.
  assert (Eat : slot_at st (Z.to_nat i) = s).
  { unfold slot_at. rewrite Z2Nat.id by lia. fold idx. unfold lget in Es. destruct (0 <=? idx); [|done].
    destruct (slots st !! Z.to_nat idx); [by injection Es|done]. }
  cbn [seq map]. rewrite Eat. change (slot_frame s) with (slotTimestamp s, slot_bytes s). cbn [repeatable].
  rewrite (blen_slot_bytes s Hs). replace (S (Z.to_nat i)) with (Z.to_nat (i + 1)) by lia.
  assert (Hnext : exists idxs ss,
    selectLoop st ts budget n (i + 1) chosen body = Ok (chosen ++ idxs, body + block_cost ss) /\
    chosen_slots st ts idxs ss /\ (length ss <= S n)%nat /\
    (ss = [] \/ body + block_cost ss <= budget) /\
    map slot_frame ss = repeatable ts budget body (map slot_frame (map (slot_at st) (seq (Z.to_nat (i + 1)) n)))).
  { destruct (IH (i + 1) chosen body) as (idxs & ss & ? & ? & ? & ? & ?); [lia..|].
    exists idxs, ss. split_and!; [done|done|lia|done|done]. }
  destruct (Z.eqb_spec (slotLen s) 0); [exact Hnext|].
  unfold RED_MAX_TS_DELTA. change (Z.shiftl 1 14) with (2 ^ 14).
  destruct (Z.eqb_spec (ts -32 slotTimestamp s) 0); [exact Hnext|].
  destruct (Z.leb_spec (2 ^ 14) (ts -32 slotTimestamp s)); [exact Hnext|]. cbn [orb].
  unfold RED_MAX_BLOCK_LEN. rewrite (proj2 (Z.ltb_ge _ _)) by lia.
  unfold RED_HEADER_LEN_NON_LAST. rewrite (u32_id (4 + slotLen s)) by (unfold is_u32; lia).
  rewrite (u32_id (body + (4 + slotLen s))) by (unfold is_u32; lia).
  destruct (Z.ltb_spec budget (body + (4 + slotLen s))).
  { exists [], []. cbn [block_cost foldr]. rewrite app_nil_r, Z.add_0_r.
    split_and!; [done|constructor|cbn; lia|by left|done]. }
  unfold RED_MAX_BLOCKS. rewrite length_app. cbn [length].
  rewrite (proj2 (Z.leb_gt _ _)) by lia.
  destruct (IH (i + 1) (chosen ++ [idx]) (body + (4 + slotLen s)))
    as (idxs & ss & E & Hcs & Hln & Hbd & Hfr); [rewrite ?length_app; cbn [length]; lia..|].
  exists (idx :: idxs), (s :: ss). rewrite E, <- (assoc_L (++)). cbn [app block_cost foldr length].
  fold (block_cost ss). pose proof (u32_range (ts - slotTimestamp s)) as Hr. unfold is_u32 in Hr.
  split_and!.
  - do 2 f_equal. lia.
  - constructor; [|done]. split; [done|]. split_and!; [done|lia|lia|lia].
  - lia.
  - right. destruct Hbd as [->|]; [cbn|]; lia.
  - cbn [map]. by rewrite Hfr.
Qed.

Lemma putRedHeaders_spec st ts idxs ss buf out :
  chosen_slots st ts idxs ss -> 0 <= out <= blen buf ->
  putRedHeaders st ts idxs buf out =
  (b ← put_bytes buf out (red_headers (opusPayloadType st) (map (slot_block ts) ss));
   Ok (b, out + 4 * Z.of_nat (length ss))).
Proof.
  intros Hc. revert buf out. induction Hc as [|i s idxs ss [Hg Hu] Hc IH]; intros buf out Ho.
  { cbn. rewrite put_bytes_nil by done. cbn. do 2 f_equal. lia. }
  cbn [putRedHeaders map]. rewrite Hg. cbn [mbind res_bind].
  change (red_headers ?p (slot_block ts s :: ?l)) with
    (redHeaderBytes p (ts -32 slotTimestamp s) (blen (slot_bytes s)) ++ red_headers p l).
  rewrite blen_slot_bytes by apply Hu.
  apply (put_then_in _ _ _ (out + 4)); [done|]. intros b' _ Hb'. unfold RED_HEADER_LEN_NON_LAST.
  rewrite IH by done. destruct (put_bytes b' (out + 4) _); cbn [mbind res_bind]; [|done..].
  do 2 f_equal. cbn [length]. lia.
Qed.

Lemma putRedPayloads_spec st ts idxs ss buf out :
  chosen_slots st ts idxs ss -> 0 <= out <= blen buf ->
  putRedPayloads st idxs buf out =
  (b ← put_bytes buf out (red_payloads (map (slot_block ts) ss));
   Ok (b, out + payload_bytes (map (slot_block ts) ss))).
Proof.
  intros Hc. revert buf out. induction Hc as [|i s idxs ss [Hg Hu] Hc IH]; intros buf out Ho.
  { cbn. rewrite put_bytes_nil by done. cbn. do 2 f_equal. lia. }
  cbn [putRedPayloads map]. rewrite Hg. cbn [mbind res_bind].
  pose proof (blen_slot_bytes s (proj1 Hu)) as Hb. destruct Hu as ([_ Hl Hcap _] & Hp & _).
  rewrite ld_bytes_in by lia. cbn [mbind res_bind]. change (drop (Z.to_nat 0) ?l) with l.
  fold (slot_bytes s).
  change (red_payloads (slot_block ts s :: ?l)) with (slot_bytes s ++ red_payloads l).
  apply (put_then_in _ _ _ (out + slotLen s)); [by rewrite Hb|]. intros b' _ Hb'.
  rewrite IH by done. destruct (put_bytes b' (out + slotLen s) _); cbn [mbind res_bind]; [|done..].
  cbn [payload_bytes foldr slot_block snd]. rewrite Hb. fold (payload_bytes (map (slot_block ts) ss)).
  do 2 f_equal. lia.
Qed.

(** Writing a frame into the ring. *)
Definition ring_push (st : RedSenderState) (ts : Z) (frame : list Z) : RedSenderState :=
  st <| slots := <[Z.to_nat (nextSlot st) :=
           {| slotTimestamp := ts; slotLen := blen frame;
              slotPayload := frame ++ drop (length frame)
                (match slots st !! Z.to_nat (nextSlot st) with Some s => slotPayload s | None => [] end) |}]>
           (slots st) |>
     <| nextSlot := (nextSlot st + 1) mod redundancyLevel st |>.

Lemma pushRedSlot_spec st ts frame :
  red_ok st -> 0 < blen frame <= 1023 ->
  pushRedSlot st ts frame (blen frame) = Ok (ring_push st ts frame).
Proof.
  intros Hok Hf. pose proof (rs_level _ Hok). pose proof (rs_next _ Hok). unfold RED_MAX_REDUNDANCY in *.
  destruct (lget_slot st (nextSlot st) Hok) as (s & Es & Hs); [done|].
  unfold pushRedSlot. rewrite Es. cbn [mbind res_bind]. unfold lget in Es.
  rewrite (proj2 (Z.leb_le _ _)) in Es by lia. unfold ring_push.
  destruct (slots st !! Z.to_nat (nextSlot st)) as [s'|] eqn:El; [|done]. injection Es as ->.
  assert (Hld : ld_bytes frame 0 (blen frame) = Ok frame) by (by apply (pld_bytes_whole frame)).
  rewrite Hld. cbn [mbind res_bind]. pose proof (so_cap _ Hs) as Hcap. unfold RED_MAX_BLOCK_LEN in Hcap.
  rewrite put_bytes_in by lia. cbn [mbind res_bind]. change (take (Z.to_nat 0) ?l) with (@nil Z).
  rewrite lput_in by (apply lookup_lt_Some in El; lia). cbn [mbind res_bind].
  rewrite (proj2 (Z.eqb_neq _ _)) by lia. rewrite u32_id by (unfold is_u32; lia).
  rewrite Z.add_0_l, <- length_blen. done.
Qed.

Lemma ring_push_ok st ts frame :
  red_ok st -> is_u32 ts -> bytes_ok frame -> 0 < blen frame <= 1023 -> red_ok (ring_push st ts frame).
Proof.
  intros Hok Hts Hb Hf. pose proof (rs_level _ Hok) as Hlev. pose proof (rs_next _ Hok) as Hnx.
  destruct (lget_slot st (nextSlot st) Hok) as (s & Es & Hs); [done|].
  unfold lget in Es. rewrite (proj2 (Z.leb_le _ _)) in Es by lia.
  unfold ring_push. destruct (slots st !! Z.to_nat (nextSlot st)) as [s'|] eqn:El; [|done].
  injection Es as ->. destruct Hok as [Hl Hp Hn Hlen Hall]. split; [exact Hl|exact Hp|..].
  - change (0 <= (nextSlot st + 1) mod redundancyLevel st < redundancyLevel st).
    apply Z.mod_pos_bound. lia.
  - change (Z.of_nat (length (<[Z.to_nat (nextSlot st) := {| slotTimestamp := ts;
      slotLen := blen frame; slotPayload := frame ++ drop (length frame) (slotPayload s) |}]>
      (slots st))) = RED_MAX_REDUNDANCY). by rewrite length_insert.
  - change (Forall slot_ok (<[Z.to_nat (nextSlot st) := {| slotTimestamp := ts;
      slotLen := blen frame; slotPayload := frame ++ drop (length frame) (slotPayload s) |}]>
      (slots st))).
    apply Forall_insert; [done|]. destruct Hs as [? ? Hcap Hby]. unfold RED_MAX_BLOCK_LEN in *.
    split; cbn [slotTimestamp slotLen slotPayload]; unfold RED_MAX_BLOCK_LEN; [done|lia|..].
    + rewrite blen_app. unfold blen at 2. rewrite length_drop. unfold blen in *. lia.
    + apply bytes_ok_app. auto with width.
Qed.

(** ** Encoding and the round trip *)

Definition mtu_budget (mtu : Z) : Z := if 34 <? mtu then mtu - 34 else 0.

Lemma payload_cost ts ss :
  Forall (usable ts) ss ->
  4 * Z.of_nat (length ss) + payload_bytes (map (slot_block ts) ss) = block_cost ss.
Proof.
  induction 1 as [|s ss Hu _ IH]; [done|]. cbn [length map payload_bytes block_cost foldr slot_block snd].
  fold (payload_bytes (map (slot_block ts) ss)) (block_cost ss).
  rewrite blen_slot_bytes by apply Hu. lia.
Qed.

Lemma chosen_usable st ts idxs ss : chosen_slots st ts idxs ss -> Forall (usable ts) ss.
Proof. induction 1 as [|i s idxs ss [_ Hu] _ IH]; constructor; done. Qed.

(** The writes of an encoding are one store of its body. *)
Lemma putRed_body {X} st ts idxs ss frame buf (K : list Z -> res X) :
  chosen_slots st ts idxs ss ->
  blen buf = blen (red_body (opusPayloadType st) (map (slot_block ts) ss) frame) ->
  ('(buf, out) ← putRedHeaders st ts idxs buf 0;
   buf ← put8 buf out (Z.land (opusPayloadType st) 0x7F);
   '(buf, out) ← putRedPayloads st idxs buf (out + RED_HEADER_LEN_LAST);
   bs ← ld_bytes frame 0 (blen frame);
   buf ← put_bytes buf out bs;
   K buf) =
  (put_bytes buf 0 (red_body (opusPayloadType st) (map (slot_block ts) ss) frame) ≫= K).
Proof.
  intros Hc Hbuf. pose proof (blen_nonneg buf).
  unfold red_body in Hbuf. autorewrite with blen in Hbuf. rewrite length_map in Hbuf.
  pose proof (blen_nonneg frame).
  assert (0 <= payload_bytes (map (slot_block ts) ss)) by (rewrite <- blen_red_payloads; apply blen_nonneg).
  rewrite (putRedHeaders_spec st ts idxs ss) by (done || lia).
  rewrite (res_bind_assoc_pos (put_bytes _ _ _)). cbv beta iota. unfold put8, RED_HEADER_LEN_LAST.
  rewrite put_bytes_seq_k by (autorewrite with blen; rewrite length_map; lia).
  rewrite (put_then_pos _ _ _ (0 + 4 * Z.of_nat (length ss) + 1) (red_payloads (map (slot_block ts) ss))
    (0 + 4 * Z.of_nat (length ss) + 1 + payload_bytes (map (slot_block ts) ss)));
    [|autorewrite with blen; rewrite length_map; lia|intros; apply putRedPayloads_spec; done || lia].
  assert (Hld : ld_bytes frame 0 (blen frame) = Ok frame) by (by apply (pld_bytes_whole frame)).
  rewrite Hld. cbn [mbind res_bind].
  rewrite put_bytes_seq_k by (autorewrite with blen; rewrite length_map; lia).
  unfold red_body. by rewrite <- !(assoc_L (++)).
Qed.

(** What a RED encoding of [frame] is: the blocks of some usable ring slots, within
    the budget, and the frame. *)
Lemma createRed_spec mtu frame ts st pSubs subs :
  red_ok st -> is_u32 mtu -> 0 < blen frame <= 1023 ->
  exists ss,
    Forall (usable ts) ss /\ map slot_frame ss = repeatable ts (mtu_budget mtu) (1 + blen frame) (frames st) /\
    Z.of_nat (length ss) <= redundancyLevel st /\
    let body := red_body (opusPayloadType st) (map (slot_block ts) ss) frame in
    (ss = [] \/ blen body <= mtu_budget mtu) /\
    (forall len n fb, createPayloadForOpusRed mtu (Some frame) (blen frame) ts (Some st) None len pSubs n fb
       = Ok {| ro_status := STATUS_SUCCESS; ro_state := st; ro_buf := None; ro_subs := pSubs;
               ro_len := blen body; ro_subLen := 1; ro_fallback := false |}) /\
    (forall buf n fb sub0, blen buf = blen body -> 1 <= n ->
       createPayloadForOpusRed mtu (Some frame) (blen frame) ts (Some st) (Some buf) (blen buf)
         (Some (sub0 :: subs)) n fb
       = Ok {| ro_status := STATUS_SUCCESS; ro_state := ring_push st ts frame; ro_buf := Some body;
               ro_subs := Some (blen body :: subs); ro_len := blen body; ro_subLen := 1;
               ro_fallback := false |}).
Proof.
  intros Hok Hm Hf. pose proof (rs_level _ Hok) as Hlev. unfold RED_MAX_REDUNDANCY in Hlev.
  assert (Hbud : (if u32 (SRTP_AUTH_TAG_OVERHEAD + 24) <? mtu
                  then mtu -32 SRTP_AUTH_TAG_OVERHEAD -32 24 else 0) = mtu_budget mtu).
  { unfold SRTP_AUTH_TAG_OVERHEAD, mtu_budget. change (u32 (10 + 24)) with 34. unfold is_u32 in Hm.
    destruct (Z.ltb_spec 34 mtu); [|done]. rewrite (u32_id (mtu - 10)) by (unfold is_u32; lia).
    rewrite u32_id by (unfold is_u32; lia). lia. }
  destruct (selectLoop_spec st ts (mtu_budget mtu) (Z.to_nat (redundancyLevel st)) 0 [] (1 + blen frame))
    as (idxs & ss & Esel & Hcs & Hlen & Hb & Hfr); [done|cbn [length]; lia..|].
  pose proof (chosen_usable _ _ _ _ Hcs) as Hus.
  set (blks := map (slot_block ts) ss). set (pt := opusPayloadType st).
  assert (Hbody : blen (red_body pt blks frame) = 1 + blen frame + block_cost ss).
  { rewrite <- (payload_cost ts) by done. unfold red_body, blks. autorewrite with blen.
    rewrite length_map. lia. }
  assert (Hsel : selectRedundantBlocks st ts (mtu_budget mtu) (blen frame) =
                 Ok (idxs, blen (red_body pt blks frame))).
  { unfold selectRedundantBlocks, RED_HEADER_LEN_LAST. rewrite (u32_id (1 + _)) by (unfold is_u32; lia).
    by rewrite Esel, Hbody. }
  exists ss. split; [done|]. split; [exact Hfr|]. split; [lia|]. cbv zeta.
  fold blks pt. split; [destruct Hb as [->|Hb]; [by left|right; lia]|].
  unfold createPayloadForOpusRed. unfold RED_MAX_BLOCK_LEN. split.
  - intros len n fb. rewrite bool_decide_true by done. cbn [orb].
    rewrite (proj2 (Z.ltb_lt _ _)) by lia. rewrite Hbud.
    rewrite (proj2 (Z.ltb_ge 1023 _)) by lia. by rewrite Hsel.
  - intros buf n fb sub0 Hbuf Hn. rewrite orb_true_r.
    rewrite (proj2 (Z.ltb_lt _ _)) by lia. rewrite Hbud.
    rewrite (proj2 (Z.ltb_ge 1023 _)) by lia. rewrite Hsel. cbn [mbind res_bind].
    rewrite Hbuf, Z.leb_refl, (proj2 (Z.leb_le 1 n)) by lia. cbn [andb negb].
    rewrite (putRed_body st ts idxs ss) by (done || lia). fold blks pt.
    rewrite put_bytes_full by done. cbn [mbind res_bind].
    rewrite pushRedSlot_spec by (done || lia). done.
Qed.

(** RED encoding of a frame of at most 1023 bytes: the size-only call and the
    emitting call agree on the length; the emitted body is the RFC 2198 encoding of
    the frames of the ring that fit followed by the frame, it stays within
    the MTU budget whenever it repeats a frame, and the frame enters the ring, whose
    invariant is kept. *)
Theorem createPayloadForOpusRed_spec mtu frame ts st pSubs subs
  (Hok : red_ok st) (Hm : is_u32 mtu) (Hts : is_u32 ts) (Hb : bytes_ok frame)
  (Hf : 0 < blen frame <= 1023) :
  exists ss,
    Forall (usable ts) ss /\ map slot_frame ss = repeatable ts (mtu_budget mtu) (1 + blen frame) (frames st) /\
    Z.of_nat (length ss) <= redundancyLevel st /\
    let body := red_body (opusPayloadType st) (map (slot_block ts) ss) frame in
    (ss = [] \/ blen body <= mtu_budget mtu) /\
    (forall len n fb, createPayloadForOpusRed mtu (Some frame) (blen frame) ts (Some st) None len pSubs n fb
       = Ok {| ro_status := STATUS_SUCCESS; ro_state := st; ro_buf := None; ro_subs := pSubs;
               ro_len := blen body; ro_subLen := 1; ro_fallback := false |}) /\
    (forall buf n fb sub0, blen buf = blen body -> 1 <= n ->
       createPayloadForOpusRed mtu (Some frame) (blen frame) ts (Some st) (Some buf) (blen buf)
         (Some (sub0 :: subs)) n fb
       = Ok {| ro_status := STATUS_SUCCESS; ro_state := ring_push st ts frame; ro_buf := Some body;
               ro_subs := Some (blen body :: subs); ro_len := blen body; ro_subLen := 1;
               ro_fallback := false |}) /\
    red_ok (ring_push st ts frame).
Proof.
  destruct (createRed_spec mtu frame ts st pSubs subs Hok Hm Hf) as (ss & H1 & H2 & H3 & H4 & H5 & H6).
  exists ss. cbv zeta in *. split_and!; try done. by apply ring_push_ok.
Qed.

(** The timestamp of a repeated frame, restored. *)
Lemma restore_ts ts s : is_u32 ts -> slot_ok s -> ts -32 (ts -32 slotTimestamp s) = slotTimestamp s.
Proof. intros Ht [Hs _ _ _]. width_lia. Qed.

(** The synthetic packets of repeated frames. *)
Definition red_repeats (src : RtpPacket) (pt : Z) (l : list (Z * list Z)) : list RtpPacket :=
  imap (fun i f => red_syn src pt f.1 (u16 (sequenceNumber (header src) - (Z.of_nat (length l) - Z.of_nat i))) f.2 true) l.

Lemma red_syns_restore src pt ts ss :
  timestamp (header src) = ts -> is_u32 ts -> Forall (usable ts) ss ->
  red_syns src pt (Z.of_nat (length ss)) 0 (map (slot_block ts) ss) = red_repeats src pt (map slot_frame ss).
Proof.
  intros Hts Hu Hs. unfold red_syns, red_repeats. rewrite Hts, length_map.
  apply list_eq. intros i. rewrite !list_lookup_imap, !list_lookup_fmap.
  destruct (ss !! i) as [s|] eqn:E; [|done]. cbn. rewrite restore_ts; [done|done|].
  by apply (Forall_lookup_1 _ _ _ _ Hs E).
Qed.

Lemma repeated_bytes ts ss : payload_bytes (map (slot_block ts) ss) = payload_bytes (map slot_frame ss).
Proof. unfold payload_bytes. induction ss as [|s ss IH]; [done|]. cbn. by rewrite IH. Qed.

(** A frame that enters the ring replaces the oldest one. *)
Lemma frames_push st ts frame :
  red_ok st -> 0 < blen frame <= 1023 -> frames (ring_push st ts frame) = drop 1 (frames st) ++ [(ts, frame)].
Proof.
  intros Hok Hf. pose proof (rs_level _ Hok) as Hlev. pose proof (rs_next _ Hok) as Hnx. pose proof (rs_len _ Hok) as Hlen.
  unfold RED_MAX_REDUNDANCY in *. set (L := redundancyLevel st) in *. set (p := nextSlot st) in *.
  assert (Hadd : forall i, 0 <= i -> ((p + 1) mod L + i) mod L = (p + (i + 1)) mod L).
  { intros i Hi. rewrite Z.add_mod_idemp_l by lia. f_equal. lia. }
  set (new := {| slotTimestamp := ts; slotLen := blen frame; slotPayload := frame ++ drop (length frame)
    (match slots st !! Z.to_nat p with Some s => slotPayload s | None => [] end) |}).
  assert (Enew : slot_frame new = (ts, frame)).
  { unfold slot_frame, slot_bytes. cbn [slotTimestamp slotLen slotPayload new]. by rewrite <- length_blen, take_app_length. }
  assert (Hat : forall i, slot_at (ring_push st ts frame) i =
    default {| slotTimestamp := 0; slotLen := 0; slotPayload := [] |}
      (<[Z.to_nat p := new]> (slots st) !! Z.to_nat ((p + (Z.of_nat i + 1)) mod L))).
  { intros i. rewrite <- (Hadd (Z.of_nat i)) by lia. reflexivity. }
  unfold frames, ring. change (redundancyLevel (ring_push st ts frame)) with L. fold L. rewrite !map_map.
  replace (Z.to_nat L) with (S (Z.to_nat (L - 1))) at 2 by lia. replace (Z.to_nat L) with (Z.to_nat (L - 1) + 1)%nat by lia.
  cbn [seq map drop]. rewrite seq_app, map_app, <- seq_shift, map_map. cbn [seq map Nat.add]. rewrite drop_0. f_equal.
  - apply map_ext_in. intros i Hi%in_seq. f_equal. rewrite Hat, list_lookup_insert_ne.
    + unfold slot_at. fold p L. by replace (Z.of_nat (S i)) with (Z.of_nat i + 1) by lia.
    + pose proof (Z.mod_pos_bound (p + (Z.of_nat i + 1)) L ltac:(lia)). intros E%Z2Nat.inj; [|lia..].
      destruct (Z.lt_ge_cases (p + (Z.of_nat i + 1)) L); [rewrite Z.mod_small in E by lia; lia|].
      rewrite <- (Z.mod_add _ (-1)), Z.mod_small in E by lia. lia.
  - rewrite Hat. replace (p + (Z.of_nat (Z.to_nat (L - 1)) + 1)) with (p + 1 * L) by lia.
    rewrite Z.mod_add, Z.mod_small, list_lookup_insert_eq by lia. by rewrite <- Enew.
Qed.

Lemma usable_blks ts ss : Forall (usable ts) ss -> Forall blk_ok (map (slot_block ts) ss).
Proof. induction 1; cbn [map]; constructor; [by apply slot_block_ok|done]. Qed.

Lemma usable_bytes ts ss :
  Forall (usable ts) ss -> payload_bytes (map (slot_block ts) ss) <= 1023 * Z.of_nat (length ss).
Proof.
  induction 1 as [|s ss Hu _ IH]; [done|]. cbn [map payload_bytes foldr slot_block snd length].
  fold (payload_bytes (map (slot_block ts) ss)). rewrite blen_slot_bytes by apply Hu.
  destruct Hu as ([_ Hl _ _] & _). unfold RED_MAX_BLOCK_LEN in Hl. lia.
Qed.

(** C31. Splitting an emitted RED packet gives back the Opus frames.  The sender's ring holds
    the last frames with their timestamps; the packet repeats, oldest first, those whose
    timestamp is before the packet's by less than 2^14, until the first one that does not fit
    the MTU.  The receiver gets exactly these, in this order, each with the timestamp it was
    first sent with and a synthetic sequence number counted back from the packet's, then the
    current frame with the packet's own timestamp and sequence number.  And the current frame
    has replaced the oldest one in the ring.  The frame has 1 to 1023 bytes; the receiver's
    allocations succeed. *)
Theorem red_roundtrip mtu frame ts st subs sub0 memPkt memBuf src
  (Hok : red_ok st) (Hm : is_u32 mtu) (Hts : is_u32 ts) (Hf : 0 < blen frame <= 1023)
  (HmP : forall k, memPkt k = true) (HmB : forall k, mem_avail (memBuf k))
  (Hsrc : timestamp (header src) = ts) :
  let rs := repeatable ts (mtu_budget mtu) (1 + blen frame) (frames st) in
  exists body out,
    (forall buf, blen buf = blen body ->
       createPayloadForOpusRed mtu (Some frame) (blen frame) ts (Some st) (Some buf) (blen buf)
         (Some (sub0 :: subs)) 1 false = Ok out) /\
    ro_status out = STATUS_SUCCESS /\ ro_buf out = Some body /\ ro_len out = blen body /\
    frames (ro_state out) = drop 1 (frames st) ++ [(ts, frame)] /\
    splitRedRtpPacket memPkt memBuf
      (Some (src <| payload := Some (Ptr body 0) |> <| payloadLength := blen body |>))
      (opusPayloadType st) RED_MAX_BLOCKS =
    Ok (red_repeats src (opusPayloadType st) rs
          ++ [red_syn src (opusPayloadType st) ts (sequenceNumber (header src)) frame false],
        payload_bytes rs).
Proof.
  intros rs. destruct (createRed_spec mtu frame ts st None subs Hok Hm Hf)
    as (ss & Hus & Hfr & Hlen & _ & _ & Hemit). fold rs in Hfr.
  pose proof (rs_level _ Hok) as Hlev. unfold RED_MAX_REDUNDANCY in Hlev.
  set (body := red_body (opusPayloadType st) (map (slot_block ts) ss) frame) in *.
  exists body. eexists. split.
  { intros buf Hbuf. apply Hemit; [exact Hbuf|lia]. }
  cbn [ro_status ro_state ro_buf ro_len]. split; [done|]. split; [done|]. split; [done|]. split; [by apply frames_push|].
  set (src' := (src <| payload := _ |>) <| payloadLength := _ |>).
  rewrite (splitRed_body memPkt memBuf src' (opusPayloadType st) (map (slot_block ts) ss) frame);
    [|done|done|apply Hok|by apply usable_blks|done|done| |rewrite length_map; lia
     |rewrite length_map; unfold RED_MAX_BLOCKS; lia].
  - rewrite length_map, (red_syns_restore src' _ ts), repeated_bytes, Hfr by done. by rewrite <- Hsrc.
  - unfold red_body. autorewrite with blen. rewrite length_map.
    pose proof (usable_bytes ts ss Hus). lia.
Qed.

(** ** Arbitrary input *)

Definition blk_sum (blocks : list RedBlockInfo) : Z := foldr (fun b n => blkLen b + n) 0 blocks.

Lemma parsed_len b2 b3 : is_u8 b2 -> is_u8 b3 ->
  0 <= Z.lor (u32 (Z.shiftl (Z.land b2 0x3) 8)) b3 <= 1023.
Proof.
  intros H2 H3. change 0x3 with (Z.ones 2). rewrite land_mask, Z.shiftl_mul_pow2 by lia.
  rewrite u32_id by width_lia. rewrite <- (Z.shiftl_mul_pow2 _ 8), Z.lor_comm by lia.
  rewrite lor_disjoint_add by width_lia. width_lia.
Qed.

Lemma parseLoop_total obj o bodyLen n off blocks :
  bytes_ok obj -> 0 <= o -> o + bodyLen <= blen obj -> 0 <= off <= bodyLen ->
  off + 4 * Z.of_nat n < 2 ^ 32 ->
  parseLoop (Ptr obj o) bodyLen n off blocks = Err STATUS_RTP_INVALID_RED_PACKET \/
  exists bs off', parseLoop (Ptr obj o) bodyLen n off blocks = Ok (blocks ++ bs, off') /\
    off <= off' <= bodyLen /\ Forall (fun b => 0 <= blkLen b <= 1023) bs /\ (length bs <= n)%nat /\
    off' <= off + 4 * Z.of_nat n.
Proof.
  intros Hb Ho Hlen. revert off blocks. induction n as [|n IH]; intros off blocks Hoff Hu;
    cbn [parseLoop]; destruct (Z.ltb_spec off bodyLen).
  1,2,4: first [by left | right; exists [], off; rewrite app_nil_r; split_and!; done || (cbn [length]; lia)].
  assert (Hld : forall k, 0 <= k < bodyLen -> exists v, pld (Ptr obj o) k = Ok v /\ is_u8 v).
  { intros k Hk. unfold pld. cbn [p_obj p_off]. destruct (ld_in obj (o + k)) as (v & E & _); [lia|].
    exists v. split; [done|]. by eapply ld_byte. }
  destruct (Hld off) as (b0 & -> & _); [lia|]. cbn [mbind res_bind].
  destruct (negb _).
  - unfold RED_HEADER_LEN_NON_LAST. rewrite !(u32_id (off + 4)) by (unfold is_u32; lia).
    destruct (Z.leb_spec (off + 4) bodyLen); [|by left].
    destruct (Hld (off + 1)) as (b1 & -> & _); [lia|]. destruct (Hld (off + 2)) as (b2 & -> & Hb2); [lia|].
    destruct (Hld (off + 3)) as (b3 & -> & Hb3); [lia|]. cbn [mbind res_bind].
    destruct (IH (off + 4) (blocks ++ [{| blkPayloadType := u8 (Z.land b0 0x7F);
      tsOffset := Z.lor (u32 (Z.shiftl b1 6)) (Z.shiftr b2 2);
      blkLen := Z.lor (u32 (Z.shiftl (Z.land b2 0x3) 8)) b3; isLast := false |}]))
      as [->|(bs & off' & -> & ? & ? & ? & ?)]; [lia|lia|by left|right].
    eexists (_ :: bs), off'. rewrite <- (assoc_L (++)). split; [done|]. split; [lia|].
    split; [|cbn [length]; lia]. constructor; [|done]. cbn [blkLen]. by apply parsed_len.
  - right. eexists [_], _. split; [done|]. unfold RED_HEADER_LEN_LAST.
    rewrite u32_id by (unfold is_u32; lia). split; [lia|]. split; [|cbn [length]; lia].
    constructor; [cbn; lia|constructor].
Qed.

(** An allocator may fail, but returns blocks of the requested size. *)
Definition mem_sized (mem : Z -> option (list Z)) : Prop :=
  forall n b, 0 <= n -> mem n = Some b -> blen b = n.

Lemma splitLoop_safe memPkt memBuf src pt count blocks i obj cur created fec :
  (forall k, mem_sized (memBuf k)) -> 0 <= cur -> Forall (fun b => 0 <= blkLen b) blocks ->
  cur + blk_sum blocks <= blen obj ->
  safe (splitLoop memPkt memBuf src pt count blocks i (Ptr obj cur) created fec).
Proof.
  intros Hm Hc Hb. revert i cur Hc created fec. induction Hb as [|b blocks H0 Hb IH];
    intros i cur Hc created fec Hs; [done|].
  cbn [splitLoop blk_sum foldr] in *. fold (blk_sum blocks) in Hs. unfold padd. cbn [p_obj p_off].
  assert (0 <= blk_sum blocks).
  { clear -Hb. induction Hb; cbn; [lia|]. fold (blk_sum l). lia. }
  destruct (negb _); [apply IH; lia|].
  set (t := if isLast b then _ else _). destruct t as [[ts seq] fec'].
  assert (Hsyn : safe (buildSyntheticPacket (memPkt i) (memBuf i) src pt ts seq (Ptr obj cur)
                         (blkLen b) (negb (isLast b)))).
  { unfold buildSyntheticPacket. destruct (memPkt i); [|done].
    destruct (0 <? blkLen b); [|done]. destruct (memBuf i (blkLen b)) as [buf|] eqn:E; [|done].
    apply Hm in E; [|done]. unfold pld_bytes. cbn [p_obj p_off]. rewrite ld_bytes_in by lia. cbn [mbind res_bind].
    rewrite put_bytes_full; [done|]. rewrite blen_take; [done|]. rewrite blen_drop by lia. lia. }
  destruct (buildSyntheticPacket _ _ _ _ _ _ _ _ _); cbn [mbind res_bind]; [|done..].
  apply IH; lia.
Qed.

Lemma blk_sum_app a b : blk_sum (a ++ b) = blk_sum a + blk_sum b.
Proof. induction a as [|x a IH]; [done|]. cbn. fold (blk_sum (a ++ b)) (blk_sum a). lia. Qed.

Lemma sumLens_blk_sum blocks :
  Forall (fun b => 0 <= blkLen b <= 1023) blocks -> Z.of_nat (length blocks) <= 32 ->
  sumLens blocks = blk_sum (removelast blocks) /\
  0 <= blk_sum (removelast blocks) <= 1023 * Z.of_nat (length (removelast blocks)).
Proof.
  intros Hb Hn. unfold sumLens.
  assert (Hr : Forall (fun b => 0 <= blkLen b <= 1023) (removelast blocks) /\
               (length (removelast blocks) <= length blocks)%nat).
  { destruct (decide (blocks = [])) as [->|Hne]; [done|].
    pose proof (app_removelast_last (hd (last_info 0 0) blocks) Hne) as E.
    rewrite E in Hb at 1. apply Forall_app in Hb as [Hb _]. split; [done|].
    rewrite E at 2. rewrite length_app. lia. }
  destruct Hr as [Hr Hl]. generalize dependent (removelast blocks). intros l Hr Hl.
  assert (Hsum : 0 <= blk_sum l <= 1023 * Z.of_nat (length l)).
  { clear -Hr. induction Hr as [|x l Hx _ IH]; cbn [blk_sum foldr length]; [lia|]. fold (blk_sum l). lia. }
  split; [|done].
  enough (G : forall acc, 0 <= acc -> acc + blk_sum l < 2 ^ 32 ->
    foldl (fun acc b => acc +32 blkLen b) acc l = acc + blk_sum l) by (rewrite G; lia).
  clear -Hr. induction Hr as [|x l Hx Hr IH]; intros acc Ha Hu; cbn [foldl blk_sum foldr] in *; [lia|].
  fold (blk_sum l) in *.
  assert (0 <= blk_sum l) by (clear -Hr; induction Hr; cbn; [lia|fold (blk_sum l); lia]).
  rewrite (u32_id (acc + blkLen x)) by (unfold is_u32; lia). rewrite IH by lia. lia.
Qed.

(** Splitting an arbitrary received payload never reads or writes outside a memory
    object, whether or not the allocations succeed. *)
Theorem splitRedRtpPacket_safe memPkt memBuf src obj o pt maxCount
  (Hm : forall k, mem_sized (memBuf k)) (Hb : bytes_ok obj) (Ho : 0 <= o)
  (Hpl : payload src = Some (Ptr obj o)) (Hin : o + payloadLength src <= blen obj)
  (Hu : is_u32 (payloadLength src)) :
  safe (splitRedRtpPacket memPkt memBuf (Some src) pt maxCount).
Proof.
  unfold splitRedRtpPacket. destruct (1 <=? maxCount); [|done]. rewrite Hpl.
  destruct (Z.ltb_spec 0 (payloadLength src)); [|done]. unfold parseRedHeaders.
  destruct (parseLoop_total obj o (payloadLength src) (Z.to_nat RED_MAX_BLOCKS) 0 [])
    as [->|(bs & off & -> & Hoff & Hbs & Hl & Hoff')];
    [done|done|done|lia|unfold RED_MAX_BLOCKS; lia|done|].
  cbn [mbind res_bind app]. destruct (list.last bs) as [blk|] eqn:El; [|done].
  destruct (isLast blk); [|done]. cbn [mbind res_bind].
  change (Z.to_nat RED_MAX_BLOCKS) with 32%nat in Hl, Hoff'. unfold is_u32 in Hu.
  destruct (sumLens_blk_sum bs Hbs) as [-> Hsum]; [lia|].
  apply last_Some in El as [l' ->]. rewrite removelast_last in *. rewrite length_app in Hl. cbn [length] in Hl.
  rewrite (u32_id (off + blk_sum l')) by (unfold is_u32; lia).
  destruct (Z.leb_spec (off + blk_sum l') (payloadLength src)); [|done].
  unfold setLastLen. rewrite last_app_one, removelast_last. destruct (_ <=? maxCount); [|done].
  rewrite (u32_id (payloadLength src - off)) by (unfold is_u32; lia).
  rewrite u32_id by (unfold is_u32; lia). unfold padd. cbn [p_obj p_off].
  apply Forall_app in Hbs as [Hl' _]. apply splitLoop_safe; [done|lia| |].
  - apply Forall_app. split; [eapply Forall_impl; [|exact Hl']; cbn; intros; lia|].
    constructor; [cbn [blkLen]; lia|constructor].
  - rewrite blk_sum_app. cbn [blk_sum foldr blkLen]. fold (blk_sum l'). lia.
Qed.

(** ** Concrete instances *)

Definition ex_slot (ts : Z) (frame : list Z) : RedSenderSlot :=
  {| slotTimestamp := ts; slotLen := blen frame;
     slotPayload := frame ++ replicate (1023 - length frame) 0 |}.
(** Two frames in a ring of two: the newest is the one before [nextSlot]. *)
Definition ex_red : RedSenderState :=
  {| redundancyLevel := 2; opusPayloadType := 111; nextSlot := 0;
     slots := ex_slot 1000 [1; 2; 3] :: ex_slot 1960 [4; 5] :: replicate 7 (ex_slot 0 []) |}.

Lemma ex_slot_ok ts frame :
  is_u32 ts -> bytes_ok frame -> (length frame <= 1023)%nat -> slot_ok (ex_slot ts frame).
Proof.
  intros Ht Hb Hl. unfold ex_slot. split; cbn [slotTimestamp slotLen slotPayload];
    unfold RED_MAX_BLOCK_LEN, blen; [done|lia| |].
  - rewrite length_app, length_replicate. lia.
  - apply bytes_ok_app. split; [done|]. apply Forall_replicate. split; lia.
Qed.

Lemma ex_red_ok : red_ok ex_red.
Proof.
  split; try (vm_compute; intuition congruence).
  constructor; [|constructor; [|apply Forall_replicate]]; apply ex_slot_ok;
    try (by apply bytes_ok_check); try (vm_compute; intuition congruence); cbn; lia.
Qed.

Lemma createPayloadForOpusRed_spec_witness : red_ok (ring_push ex_red 2920 [6; 7; 8]).
Proof.
  destruct (createPayloadForOpusRed_spec 1200 [6; 7; 8] 2920 ex_red None [] ex_red_ok)
    as (ss & _ & _ & _ & H).
  - vm_compute; intuition congruence.
  - vm_compute; intuition congruence.
  - by apply bytes_ok_check.
  - vm_compute; intuition congruence.
  - apply H.
Defined.

#[export] Instance upd_timestamp : Update timestamp. Proof. derive_update. Defined.

Lemma red_roundtrip_witness :
  let src := ex_pkt <| header := ex_hdr <| timestamp := 2920 |> |> in
  exists body,
    splitRedRtpPacket (fun _ => true) (fun _ n => Some (replicate (Z.to_nat n) 0))
      (Some (src <| payload := Some (Ptr body 0) |> <| payloadLength := blen body |>)) 111 32
    = Ok ([red_syn src 111 1000 0xFFFC [1; 2; 3] true; red_syn src 111 1960 0xFFFD [4; 5] true;
           red_syn src 111 2920 0xFFFE [6; 7; 8] false], 5).
Proof.
  destruct (red_roundtrip 1200 [6; 7; 8] 2920 ex_red [] 0 (fun _ => true)
              (fun _ n => Some (replicate (Z.to_nat n) 0))
              (ex_pkt <| header := ex_hdr <| timestamp := 2920 |> |>) ex_red_ok)
    as (body & out & _ & _ & _ & _ & _ & H).
  - vm_compute; intuition congruence.
  - vm_compute; intuition congruence.
  - vm_compute; intuition congruence.
  - reflexivity.
  - intros k n Hn. eexists. split; [reflexivity|]. unfold blen. rewrite length_replicate. lia.
  - reflexivity.
  - exists body. etrans; [exact H|]. vm_compute. reflexivity.
Defined.

Lemma splitRedRtpPacket_safe_witness :
  safe (splitRedRtpPacket (fun k => k <? 3) (fun _ n => Some (replicate (Z.to_nat n) 0))
          (Some (ex_pkt <| payload := Some (Ptr [0xEF; 1; 0; 200; 0x6F; 1] 0) |>
                        <| payloadLength := 6 |>)) 111 32).
Proof.
  apply (splitRedRtpPacket_safe (fun k => k <? 3) _ _ [0xEF; 1; 0; 200; 0x6F; 1] 0 111 32).
  - intros k n b Hn [= <-]. unfold blen. rewrite length_replicate. lia.
  - by apply bytes_ok_check.
  - lia.
  - reflexivity.
  - vm_compute; intuition congruence.
  - vm_compute; intuition congruence.
Defined.
