(* ===== verification/Crc32c.v ===== *)
(** * CRC-32C (src/source/Sctp/SctpCrc32c.c)

    The table-driven checksum of SCTP packets.  It is shown to compute the
    bit-serial CRC with the reflected Castagnoli polynomial, and to change
    whenever one byte of the data changes. *)

From S2P Require Import Prelude.

Definition sCrc32cTable : list Z :=
  [0x00000000; 0xF26B8303; 0xE13B70F7; 0x1350F3F4; 0xC79A971F; 0x35F1141C; 0x26A1E7E8; 0xD4CA64EB;
   0x8AD958CF; 0x78B2DBCC; 0x6BE22838; 0x9989AB3B; 0x4D43CFD0; 0xBF284CD3; 0xAC78BF27; 0x5E133C24;
   0x105EC76F; 0xE235446C; 0xF165B798; 0x030E349B; 0xD7C45070; 0x25AFD373; 0x36FF2087; 0xC494A384;
   0x9A879FA0; 0x68EC1CA3; 0x7BBCEF57; 0x89D76C54; 0x5D1D08BF; 0xAF768BBC; 0xBC267848; 0x4E4DFB4B;
   0x20BD8EDE; 0xD2D60DDD; 0xC186FE29; 0x33ED7D2A; 0xE72719C1; 0x154C9AC2; 0x061C6936; 0xF477EA35;
   0xAA64D611; 0x580F5512; 0x4B5FA6E6; 0xB93425E5; 0x6DFE410E; 0x9F95C20D; 0x8CC531F9; 0x7EAEB2FA;
   0x30E349B1; 0xC288CAB2; 0xD1D83946; 0x23B3BA45; 0xF779DEAE; 0x05125DAD; 0x1642AE59; 0xE4292D5A;
   0xBA3A117E; 0x4851927D; 0x5B016189; 0xA96AE28A; 0x7DA08661; 0x8FCB0562; 0x9C9BF696; 0x6EF07595;
   0x417B1DBC; 0xB3109EBF; 0xA0406D4B; 0x522BEE48; 0x86E18AA3; 0x748A09A0; 0x67DAFA54; 0x95B17957;
   0xCBA24573; 0x39C9C670; 0x2A993584; 0xD8F2B687; 0x0C38D26C; 0xFE53516F; 0xED03A29B; 0x1F682198;
   0x5125DAD3; 0xA34E59D0; 0xB01EAA24; 0x42752927; 0x96BF4DCC; 0x64D4CECF; 0x77843D3B; 0x85EFBE38;
   0xDBFC821C; 0x2997011F; 0x3AC7F2EB; 0xC8AC71E8; 0x1C661503; 0xEE0D9600; 0xFD5D65F4; 0x0F36E6F7;
   0x61C69362; 0x93AD1061; 0x80FDE395; 0x72966096; 0xA65C047D; 0x5437877E; 0x4767748A; 0xB50CF789;
   0xEB1FCBAD; 0x197448AE; 0x0A24BB5A; 0xF84F3859; 0x2C855CB2; 0xDEEEDFB1; 0xCDBE2C45; 0x3FD5AF46;
   0x7198540D; 0x83F3D70E; 0x90A324FA; 0x62C8A7F9; 0xB602C312; 0x44694011; 0x5739B3E5; 0xA55230E6;
   0xFB410CC2; 0x092A8FC1; 0x1A7A7C35; 0xE811FF36; 0x3CDB9BDD; 0xCEB018DE; 0xDDE0EB2A; 0x2F8B6829;
   0x82F63B78; 0x709DB87B; 0x63CD4B8F; 0x91A6C88C; 0x456CAC67; 0xB7072F64; 0xA457DC90; 0x563C5F93;
   0x082F63B7; 0xFA44E0B4; 0xE9141340; 0x1B7F9043; 0xCFB5F4A8; 0x3DDE77AB; 0x2E8E845F; 0xDCE5075C;
   0x92A8FC17; 0x60C37F14; 0x73938CE0; 0x81F80FE3; 0x55326B08; 0xA759E80B; 0xB4091BFF; 0x466298FC;
   0x1871A4D8; 0xEA1A27DB; 0xF94AD42F; 0x0B21572C; 0xDFEB33C7; 0x2D80B0C4; 0x3ED04330; 0xCCBBC033;
   0xA24BB5A6; 0x502036A5; 0x4370C551; 0xB11B4652; 0x65D122B9; 0x97BAA1BA; 0x84EA524E; 0x7681D14D;
   0x2892ED69; 0xDAF96E6A; 0xC9A99D9E; 0x3BC21E9D; 0xEF087A76; 0x1D63F975; 0x0E330A81; 0xFC588982;
   0xB21572C9; 0x407EF1CA; 0x532E023E; 0xA145813D; 0x758FE5D6; 0x87E466D5; 0x94B49521; 0x66DF1622;
   0x38CC2A06; 0xCAA7A905; 0xD9F75AF1; 0x2B9CD9F2; 0xFF56BD19; 0x0D3D3E1A; 0x1E6DCDEE; 0xEC064EED;
   0xC38D26C4; 0x31E6A5C7; 0x22B65633; 0xD0DDD530; 0x0417B1DB; 0xF67C32D8; 0xE52CC12C; 0x1747422F;
   0x49547E0B; 0xBB3FFD08; 0xA86F0EFC; 0x5A048DFF; 0x8ECEE914; 0x7CA56A17; 0x6FF599E3; 0x9D9E1AE0;
   0xD3D3E1AB; 0x21B862A8; 0x32E8915C; 0xC083125F; 0x144976B4; 0xE622F5B7; 0xF5720643; 0x07198540;
   0x590AB964; 0xAB613A67; 0xB831C993; 0x4A5A4A90; 0x9E902E7B; 0x6CFBAD78; 0x7FAB5E8C; 0x8DC0DD8F;
   0xE330A81A; 0x115B2B19; 0x020BD8ED; 0xF0605BEE; 0x24AA3F05; 0xD6C1BC06; 0xC5914FF2; 0x37FACCF1;
   0x69E9F0D5; 0x9B8273D6; 0x88D28022; 0x7AB90321; 0xAE7367CA; 0x5C18E4C9; 0x4F48173D; 0xBD23943E;
   0xF36E6F75; 0x0105EC76; 0x12551F82; 0xE03E9C81; 0x34F4F86A; 0xC69F7B69; 0xD5CF889D; 0x27A40B9E;
   0x79B737BA; 0x8BDCB4B9; 0x988C474D; 0x6AE7C44E; 0xBE2DA0A5; 0x4C4623A6; 0x5F16D052; 0xAD7D5351].

(** One iteration of the loop, on the table entry the low byte selects. *)
Definition crcStep (crc b : Z) : res Z :=
  t ← lget sCrc32cTable (Z.land (Z.lxor crc b) 0xFF);
  Ok (Z.lxor t (Z.shiftr crc 8)).

Fixpoint crcLoop (data : list Z) (n : nat) (crc : Z) : res Z :=
  match n, data with
  | O, _ => Ok crc
  | S _, [] => Fault
  | S n, b :: data => crc ← crcStep crc b; crcLoop data n crc
  end.

Definition sctpCrc32c (pData : list Z) (length : Z) : res Z :=
  crc ← crcLoop pData (Z.to_nat length) 0xFFFFFFFF;
  Ok (Z.lxor crc 0xFFFFFFFF).

(** ** The bit-serial register

    Shift registers for any reflected polynomial: the linearity and splitting facts that a
    table-driven checksum rests on. *)

Section Register.
Context (poly : Z).

(** One step of the shift register, and the eight steps of a byte. *)
Definition regStep (x : Z) : Z := Z.lxor (Z.shiftr x 1) (if Z.odd x then poly else 0).
Definition regByte (x : Z) : Z := Nat.iter 8 regStep x.

Lemma odd_lxor a b : Z.odd (Z.lxor a b) = xorb (Z.odd a) (Z.odd b).
Proof using. rewrite <- !Z.bit0_odd. apply Z.lxor_spec. Qed.

Lemma lxor_swap a b c d : Z.lxor (Z.lxor a b) (Z.lxor c d) = Z.lxor (Z.lxor a c) (Z.lxor b d).
Proof using. rewrite !Z.lxor_assoc. f_equal. rewrite <- !Z.lxor_assoc. by rewrite (Z.lxor_comm b c). Qed.

Lemma regStep_lxor a b : regStep (Z.lxor a b) = Z.lxor (regStep a) (regStep b).
Proof.
  unfold regStep. rewrite lxor_swap, Z.shiftr_lxor, odd_lxor. f_equal.
  destruct (Z.odd a), (Z.odd b); cbn [xorb]; symmetry;
    [apply Z.lxor_nilpotent|apply Z.lxor_0_r|apply Z.lxor_0_l|apply Z.lxor_0_l].
Qed.

Lemma regByte_lxor a b : regByte (Z.lxor a b) = Z.lxor (regByte a) (regByte b).
Proof. unfold regByte. cbn [Nat.iter nat_rect]. by rewrite !regStep_lxor. Qed.

Lemma regStep_shiftl y n : 0 < n -> regStep (Z.shiftl y n) = Z.shiftl y (n - 1).
Proof.
  intros Hn. unfold regStep. rewrite <- Z.bit0_odd, Z.shiftl_spec_low by lia.
  rewrite Z.lxor_0_r, Z.shiftr_shiftl_l by lia. done.
Qed.

Lemma regByte_shiftl y : regByte (Z.shiftl y 8) = y.
Proof.
  unfold regByte. cbn [Nat.iter nat_rect]. rewrite !regStep_shiftl by lia.
  apply Z.shiftl_0_r.
Qed.

(** A register splits into its low byte and the rest. *)
Lemma split_byte x : x = Z.lxor (Z.land x 0xFF) (Z.shiftl (Z.shiftr x 8) 8).
Proof using.
  apply Z.bits_inj'. intros i Hi. change 0xFF with (Z.ones 8).
  rewrite Z.lxor_spec, Z.land_spec. destruct (Z.lt_ge_cases i 8).
  - rewrite Z.ones_spec_low, Z.shiftl_spec_low by lia. by rewrite andb_true_r, xorb_false_r.
  - rewrite Z.ones_spec_high, Z.shiftl_spec, Z.shiftr_spec by lia.
    rewrite andb_false_r, xorb_false_l. f_equal. lia.
Qed.

Lemma regByte_split x : regByte x = Z.lxor (regByte (Z.land x 0xFF)) (Z.shiftr x 8).
Proof. rewrite (split_byte x) at 1. by rewrite regByte_lxor, regByte_shiftl. Qed.

Lemma land_FF_range x : 0 <= Z.land x 0xFF < 256.
Proof using. rewrite land_255. apply Z.mod_pos_bound. lia. Qed.

Lemma shiftr8_byte b : is_u8 b -> Z.shiftr b 8 = 0.
Proof using. intros Hb. rewrite Z.shiftr_div_pow2 by lia. apply Z.div_small. exact Hb. Qed.

(** A step through a table of the single-byte registers is eight steps of the register. *)
Lemma tableStep_ref table crc b :
  forallb (fun i => match lget table i with Ok v => v =? regByte i | _ => false end) (seqZ 0 256) = true ->
  is_u8 b ->
  (t ← lget table (Z.land (Z.lxor crc b) 0xFF); Ok (Z.lxor t (Z.shiftr crc 8)))
  = Ok (regByte (Z.lxor crc b)).
Proof.
  intros H Hb. pose proof (range_forall _ _ H _ (land_FF_range (Z.lxor crc b))) as Hv. cbv beta in Hv.
  destruct (lget table _); [|done..]. apply Z.eqb_eq in Hv as ->. cbn [mbind res_bind].
  rewrite (regByte_split (Z.lxor crc b)), Z.shiftr_lxor, (shiftr8_byte b), Z.lxor_0_r by done. done.
Qed.

End Register.

(** ** CRC-32C *)

Definition POLY : Z := 0x82F63B78.

Definition bitStep (x : Z) : Z := regStep POLY x.
Definition byteStep (x : Z) : Z := regByte POLY x.
Definition crc32c (data : list Z) : Z :=
  Z.lxor (foldl (fun crc b => byteStep (Z.lxor crc b)) 0xFFFFFFFF data) 0xFFFFFFFF.

Lemma byteStep_lxor a b : byteStep (Z.lxor a b) = Z.lxor (byteStep a) (byteStep b).
Proof. apply regByte_lxor. Qed.
Lemma byteStep_shiftl y : byteStep (Z.shiftl y 8) = y.
Proof. apply regByte_shiftl. Qed.

Lemma crcStep_byteStep crc b : is_u8 b -> crcStep crc b = Ok (byteStep (Z.lxor crc b)).
Proof. apply tableStep_ref. vm_compute. reflexivity. Qed.

Lemma crcLoop_ref data rest crc :
  bytes_ok data ->
  crcLoop (data ++ rest) (length data) crc
  = Ok (foldl (fun crc b => byteStep (Z.lxor crc b)) crc data).
Proof.
  intros Hd. revert crc. induction Hd as [|b data Hb Hd IH]; intros crc; [by destruct rest|].
  cbn [crcLoop length foldl app]. rewrite crcStep_byteStep by done. cbn [mbind res_bind]. apply IH.
Qed.

Lemma sctpCrc32c_prefix data rest :
  bytes_ok data -> sctpCrc32c (data ++ rest) (blen data) = Ok (crc32c data).
Proof.
  intros Hd. unfold sctpCrc32c, blen. rewrite Nat2Z.id, crcLoop_ref by done. done.
Qed.

Lemma sctpCrc32c_ref data : bytes_ok data -> sctpCrc32c data (blen data) = Ok (crc32c data).
Proof. intros. rewrite <- (app_nil_r data) at 1. by apply sctpCrc32c_prefix. Qed.

(** C32. The table-driven checksum of any byte string is the bit-serial CRC-32C with
    the reflected Castagnoli polynomial. *)
Theorem sctpCrc32c_reference data (Hd : bytes_ok data) :
  sctpCrc32c data (blen data) = Ok (crc32c data).
Proof. by apply sctpCrc32c_ref. Qed.

(** ** Error detection *)

Lemma lxor_bound n a b : 0 < n -> 0 <= a < 2 ^ n -> 0 <= b < 2 ^ n -> 0 <= Z.lxor a b < 2 ^ n.
Proof.
  intros Hn Ha Hb. split; [apply Z.lxor_nonneg; lia|].
  destruct (Z.eq_dec (Z.lxor a b) 0) as [->|Hnz]; [lia|].
  apply Z.log2_lt_cancel. rewrite Z.log2_pow2 by lia.
  assert (Hl : forall x, 0 <= x < 2 ^ n -> Z.log2 x < n).
  { intros x [Hx0 Hx]. destruct (Z.eq_dec x 0) as [->|]; [done|]. apply Z.log2_lt_pow2; lia. }
  pose proof (Z.log2_lxor a b ltac:(lia) ltac:(lia)). pose proof (Hl a Ha). pose proof (Hl b Hb). lia.
Qed.

Lemma lxor_u32 a b : is_u32 a -> is_u32 b -> is_u32 (Z.lxor a b).
Proof. by apply lxor_bound. Qed.
Lemma lxor_u8 a b : is_u8 a -> is_u8 b -> is_u8 (Z.lxor a b).
Proof. by apply lxor_bound. Qed.

Lemma regByte_u32 poly x : is_u32 poly -> is_u32 x -> is_u32 (regByte poly x).
Proof.
  intros Hp Hx. assert (Hs : forall y, is_u32 y -> is_u32 (regStep poly y)).
  { intros y Hy. unfold regStep. apply lxor_u32; [rewrite Z.shiftr_div_pow2 by lia; width_lia|].
    destruct (Z.odd y); [done|vm_compute; intuition congruence]. }
  unfold regByte. cbn [Nat.iter nat_rect]. by repeat apply Hs.
Qed.

Lemma bitStep_u32 x : is_u32 x -> is_u32 (bitStep x).
Proof.
  intros Hx. unfold bitStep, regStep. apply lxor_u32.
  - rewrite Z.shiftr_div_pow2 by lia. width_lia.
  - destruct (Z.odd x); vm_compute; intuition congruence.
Qed.

Lemma byteStep_u32 x : is_u32 x -> is_u32 (byteStep x).
Proof. apply regByte_u32. vm_compute. intuition congruence. Qed.

(** The shift register is invertible: only zero steps to zero. *)
Lemma bitStep_kernel x : is_u32 x -> bitStep x = 0 -> x = 0.
Proof.
  intros Hx Hz. unfold bitStep, regStep in Hz. apply Z.lxor_eq in Hz.
  rewrite Z.shiftr_div_pow2 in Hz by lia. unfold is_u32 in Hx.
  destruct (Z.odd x) eqn:Ho.
  - exfalso. assert (x / 2 ^ 1 < 2 ^ 31) by (apply Z.div_lt_upper_bound; lia).
    rewrite Hz in *. vm_compute in H. discriminate.
  - rewrite Zodd_mod in Ho. apply Z.eqb_neq in Ho. change (2 ^ 1) with 2 in Hz.
    Z.div_mod_to_equations. lia.
Qed.

Lemma byteStep_kernel x : is_u32 x -> byteStep x = 0 -> x = 0.
Proof.
  intros Hx. unfold byteStep, regByte. cbn [Nat.iter nat_rect]. intros Hz.
  do 8 (apply bitStep_kernel in Hz; [|by repeat apply bitStep_u32]). done.
Qed.

(** The difference register: what two runs on data with differences [ds] differ by. *)
Definition diffRun (D : Z) (ds : list Z) : Z := foldl (fun D d => byteStep (Z.lxor D d)) D ds.

Lemma run_diff a b s t :
  length a = length b ->
  Z.lxor (diffRun s a) (diffRun t b) = diffRun (Z.lxor s t) (zip_with Z.lxor a b).
Proof.
  unfold diffRun. revert b s t. induction a as [|x a IH]; intros [|y b] s t Hl; try done.
  cbn [foldl zip_with]. rewrite IH by (by injection Hl). f_equal.
  rewrite <- byteStep_lxor. by rewrite lxor_swap.
Qed.

Lemma diffRun_u32 D ds : is_u32 D -> bytes_ok ds -> is_u32 (diffRun D ds).
Proof.
  intros HD Hds. revert D HD. induction Hds as [|d ds Hd Hds IH]; intros D HD; [done|].
  change (diffRun D (d :: ds)) with (diffRun (byteStep (Z.lxor D d)) ds).
  apply IH, byteStep_u32, lxor_u32; [done|]. unfold is_u8, is_u32 in *. lia.
Qed.

Lemma diffRun_same D a : is_u32 D -> diffRun D (zip_with Z.lxor a a) = 0 -> D = 0.
Proof.
  revert D. induction a as [|x a IH]; intros D HD; [done|].
  cbn [zip_with]. rewrite Z.lxor_nilpotent. change (diffRun D (0 :: ?l)) with (diffRun (byteStep (Z.lxor D 0)) l).
  rewrite Z.lxor_0_r. intros H. apply byteStep_kernel; [done|]. apply IH; [|done].
  by apply byteStep_u32.
Qed.

(** A burst of differences, packed into one register. *)
Definition pack (ds : list Z) : Z := foldr (fun d p => Z.lxor d (Z.shiftl p 8)) 0 ds.

Lemma pack_bound ds : bytes_ok ds -> 0 <= pack ds < 2 ^ (8 * Z.of_nat (length ds)).
Proof.
  induction 1 as [|d ds Hd _ IH]; [cbn; lia|]. cbn [pack foldr length]. fold (pack ds).
  assert (E : Z.lxor d (Z.shiftl (pack ds) 8) = d + pack ds * 2 ^ 8).
  { rewrite Z.lxor_lor by (apply land_disjoint; [lia|exact Hd]). by apply lor_disjoint_add. }
  rewrite E. unfold is_u8 in Hd. replace (8 * Z.of_nat (S (length ds))) with (8 * Z.of_nat (length ds) + 8) by lia.
  rewrite Z.pow_add_r by lia. nia.
Qed.

Lemma diffRun_burst D ds :
  bytes_ok ds -> (length ds <= 4)%nat -> is_u32 D -> diffRun D ds = 0 -> D = pack ds.
Proof.
  intros Hds. revert D. induction Hds as [|d ds Hd Hds IH]; intros D Hl HD Hz; [done|].
  cbn [pack foldr length] in *. fold (pack ds). change (diffRun D (d :: ds)) with (diffRun (byteStep (Z.lxor D d)) ds) in Hz.
  assert (Hdu : is_u32 d) by (unfold is_u8, is_u32 in *; lia).
  apply IH in Hz; [|lia|by apply byteStep_u32, lxor_u32].
  assert (Hp : is_u32 (Z.shiftl (pack ds) 8)).
  { pose proof (pack_bound ds Hds). rewrite Z.shiftl_mul_pow2 by lia. unfold is_u32.
    assert (2 ^ (8 * Z.of_nat (length ds)) <= 2 ^ 24) by (apply Z.pow_le_mono_r; lia). lia. }
  rewrite <- (byteStep_shiftl (pack ds)) in Hz. apply Z.lxor_eq.
  apply byteStep_kernel; [by repeat apply lxor_u32|].
  rewrite (Z.lxor_comm d), <- Z.lxor_assoc, (Z.lxor_comm (Z.lxor D _)), <- Z.lxor_assoc.
  rewrite byteStep_lxor, (Z.lxor_comm d), Hz. apply Z.lxor_nilpotent.
Qed.

Lemma pack_zero ds : bytes_ok ds -> pack ds = 0 -> Forall (fun d => d = 0) ds.
Proof.
  induction 1 as [|d ds Hd Hds IH]; [constructor|]. cbn [pack foldr]. fold (pack ds). intros Hz.
  apply Z.lxor_eq in Hz. pose proof (pack_bound ds Hds). rewrite Z.shiftl_mul_pow2 in Hz by lia.
  unfold is_u8 in Hd. assert (pack ds = 0) by lia. constructor; [lia|auto].
Qed.

Lemma diffs_ok a b : bytes_ok a -> bytes_ok b -> bytes_ok (zip_with Z.lxor a b).
Proof.
  intros Ha. revert b. induction Ha as [|x a Hx Ha IH]; intros b Hb; [constructor|].
  destruct Hb as [|y b Hy Hb]; [constructor|]. constructor; [by apply lxor_u8|by apply IH].
Qed.

Lemma diffs_zero a b :
  length a = length b -> Forall (fun d => d = 0) (zip_with Z.lxor a b) -> a = b.
Proof.
  revert b. induction a as [|x a IH]; intros [|y b] Hl Hz; try done.
  cbn [zip_with] in Hz. inversion_clear Hz as [|? ? H1 H2]. f_equal; [by apply Z.lxor_eq|].
  apply IH; [by injection Hl|done].
Qed.

Lemma crc32c_run data : crc32c data = Z.lxor (diffRun 0xFFFFFFFF data) 0xFFFFFFFF.
Proof. reflexivity. Qed.

Lemma diffRun_app D a b : diffRun D (a ++ b) = diffRun (diffRun D a) b.
Proof. apply foldl_app. Qed.

Lemma crc32c_burst pre a b suf :
  bytes_ok pre -> bytes_ok a -> bytes_ok b -> length a = length b -> (length a <= 4)%nat ->
  crc32c (pre ++ a ++ suf) = crc32c (pre ++ b ++ suf) -> bytes_ok suf -> a = b.
Proof.
  intros Hp Ha Hb Hl H4 He Hs. rewrite !crc32c_run, !diffRun_app in He.
  set (s := diffRun 0xFFFFFFFF pre) in *.
  assert (Hsu : is_u32 s) by (apply diffRun_u32; [vm_compute; intuition congruence|done]).
  assert (E : Z.lxor (diffRun (diffRun s a) suf) (diffRun (diffRun s b) suf) = 0).
  { apply (f_equal (fun x => Z.lxor x 0xFFFFFFFF)) in He. rewrite !Z.lxor_assoc in He.
    rewrite Z.lxor_nilpotent, !Z.lxor_0_r in He. rewrite He. apply Z.lxor_nilpotent. }
  rewrite run_diff in E by done.
  apply diffRun_same in E; [|by apply lxor_u32; apply diffRun_u32].
  rewrite run_diff, Z.lxor_nilpotent in E by done.
  assert (Hd : bytes_ok (zip_with Z.lxor a b)) by by apply diffs_ok.
  apply diffRun_burst in E; [|done|rewrite length_zip_with; lia|done].
  apply diffs_zero; [done|]. by apply pack_zero.
Qed.

(** Any change confined to four consecutive bytes of the data changes the checksum. *)
Theorem sctpCrc32c_detects_bursts pre a b suf
  (Hp : bytes_ok pre) (Ha : bytes_ok a) (Hb : bytes_ok b) (Hs : bytes_ok suf)
  (Hl : length a = length b) (H4 : (length a <= 4)%nat) (Hne : a <> b) :
  sctpCrc32c (pre ++ a ++ suf) (blen (pre ++ a ++ suf)) <>
  sctpCrc32c (pre ++ b ++ suf) (blen (pre ++ b ++ suf)).
Proof.
  rewrite !sctpCrc32c_ref by (by rewrite !bytes_ok_app). intros [= He]. apply Hne.
  by apply (crc32c_burst pre a b suf).
Qed.

(** ** Concrete instances *)

Lemma sctpCrc32c_reference_witness :
  sctpCrc32c [0x31; 0x32; 0x33; 0x34; 0x35; 0x36; 0x37; 0x38; 0x39] 9 = Ok 0xE3069283.
Proof.
  pose proof (sctpCrc32c_reference [0x31; 0x32; 0x33; 0x34; 0x35; 0x36; 0x37; 0x38; 0x39]) as H.
  change (blen _) with 9 in H. rewrite H by (by apply bytes_ok_check). vm_compute. reflexivity.
Defined.

Lemma sctpCrc32c_detects_bursts_witness :
  sctpCrc32c ([1; 2] ++ [3; 4] ++ [5]) 5 <> sctpCrc32c ([1; 2] ++ [3; 0] ++ [5]) 5.
Proof.
  apply (sctpCrc32c_detects_bursts [1; 2] [3; 4] [3; 0] [5]); try (by apply bytes_ok_check);
    [reflexivity|cbn; lia|discriminate].
Defined.
