(* ===== verification/SctpPacket.v ===== *)
(** * SCTP packets (src/source/Sctp/SctpPacket.c, SctpInt.h)

    The writers of the common header and the chunks, the CRC-32C finalisation
    and validation, and the chunk iterator.  A writer at [pBuf] is a function of
    the buffer and an offset; it returns the buffer and the (padded) length. *)

From S2P Require Import Prelude Endian Crc32c.

Definition SCTP_PAD4 (x : Z) : Z := Z.land (x +32 3) (u32 (Z.lnot 3)).

Definition SCTP_CHUNK_DATA : Z := 0.
Definition SCTP_CHUNK_INIT : Z := 1.
Definition SCTP_CHUNK_INIT_ACK : Z := 2.
Definition SCTP_CHUNK_SACK : Z := 3.
Definition SCTP_CHUNK_HEARTBEAT : Z := 4.
Definition SCTP_CHUNK_HEARTBEAT_ACK : Z := 5.
Definition SCTP_CHUNK_ABORT : Z := 6.
Definition SCTP_CHUNK_SHUTDOWN : Z := 7.
Definition SCTP_CHUNK_SHUTDOWN_ACK : Z := 8.
Definition SCTP_CHUNK_ERROR : Z := 9.
Definition SCTP_CHUNK_COOKIE_ECHO : Z := 10.
Definition SCTP_CHUNK_COOKIE_ACK : Z := 11.
Definition SCTP_CHUNK_SHUTDOWN_COMPLETE : Z := 14.
Definition SCTP_CHUNK_FORWARD_TSN : Z := 192.

Definition SCTP_DATA_FLAG_END : Z := 0x01.
Definition SCTP_DATA_FLAG_BEGIN : Z := 0x02.
Definition SCTP_DATA_FLAG_UNORDERED : Z := 0x04.

Definition SCTP_PARAM_STATE_COOKIE : Z := 0x0007.
Definition SCTP_PARAM_FORWARD_TSN_SUPPORTED : Z := 0xC000.

Definition SCTP_COMMON_HEADER_SIZE : Z := 12.
Definition SCTP_CHUNK_HEADER_SIZE : Z := 4.
Definition SCTP_DATA_HEADER_SIZE : Z := 16.
Definition SCTP_INIT_HEADER_SIZE : Z := 20.
Definition SCTP_SACK_HEADER_SIZE : Z := 16.
Definition SCTP_COOKIE_ACK_SIZE : Z := 4.
Definition SCTP_SHUTDOWN_SIZE : Z := 8.
Definition SCTP_SHUTDOWN_ACK_SIZE : Z := 4.
Definition SCTP_SHUTDOWN_COMPLETE_SIZE : Z := 4.
Definition SCTP_FORWARD_TSN_HEADER_SIZE : Z := 8.

(** ** Common header and checksum *)

Definition sctpWriteCommonHeader (buf : list Z) (o srcPort dstPort vtag : Z) : res (list Z * Z) :=
  buf ← putUnalignedInt16Be buf o (i16 srcPort);
  buf ← putUnalignedInt16Be buf (o + 2) (i16 dstPort);
  buf ← putUnalignedInt32Be buf (o + 4) (i32 vtag);
  buf ← putUnalignedInt32Be buf (o + 8) (i32 0);
  Ok (buf, SCTP_COMMON_HEADER_SIZE).

(** The bytes of the checksum field, little-endian (RFC 9260, appendix A). *)
Definition crcBytes (crc : Z) : list Z :=
  [u8 (Z.land crc 0xFF); u8 (Z.land (Z.shiftr crc 8) 0xFF);
   u8 (Z.land (Z.shiftr crc 16) 0xFF); u8 (Z.land (Z.shiftr crc 24) 0xFF)].

Definition sctpFinalizePacket (buf : list Z) (len : Z) : res (list Z) :=
  buf ← putUnalignedInt32Be buf 8 (i32 0);
  crc ← sctpCrc32c buf len;
  put_bytes buf 8 (crcBytes crc).

(** ** Chunk writers *)

(** The chunk header: type, flags and length. *)
Definition putChunkHeader (buf : list Z) (o type flags len : Z) : res (list Z) :=
  buf ← put8 buf o type;
  buf ← put8 buf (o + 1) flags;
  putUnalignedInt16Be buf (o + 2) (i16 len).

Definition sctpWriteInitChunk (buf : list Z) (o initTag arwnd numOut numIn initialTsn : Z)
    : res (list Z * Z) :=
  let chunkLen := SCTP_INIT_HEADER_SIZE + 4 in
  buf ← putChunkHeader buf o SCTP_CHUNK_INIT 0 chunkLen;
  buf ← putUnalignedInt32Be buf (o + 4) (i32 initTag);
  buf ← putUnalignedInt32Be buf (o + 8) (i32 arwnd);
  buf ← putUnalignedInt16Be buf (o + 12) (i16 numOut);
  buf ← putUnalignedInt16Be buf (o + 14) (i16 numIn);
  buf ← putUnalignedInt32Be buf (o + 16) (i32 initialTsn);
  buf ← putUnalignedInt16Be buf (o + 20) (i16 SCTP_PARAM_FORWARD_TSN_SUPPORTED);
  buf ← putUnalignedInt16Be buf (o + 22) (i16 4);
  Ok (buf, SCTP_PAD4 24).

(** The zero bytes of the cookie's padding loop: while (offset % 4 != 0). *)
Definition padCount (offset : Z) : Z := (- offset) mod 4.

Definition sctpWriteInitAckChunk (buf : list Z) (o initTag arwnd numOut numIn initialTsn : Z)
    (cookie : list Z) (cookieLen : Z) : res (list Z * Z) :=
  let paramLen := 4 +32 cookieLen in
  let chunkLen := SCTP_INIT_HEADER_SIZE +32 paramLen +32 4 in
  buf ← putChunkHeader buf o SCTP_CHUNK_INIT_ACK 0 chunkLen;
  buf ← putUnalignedInt32Be buf (o + 4) (i32 initTag);
  buf ← putUnalignedInt32Be buf (o + 8) (i32 arwnd);
  buf ← putUnalignedInt16Be buf (o + 12) (i16 numOut);
  buf ← putUnalignedInt16Be buf (o + 14) (i16 numIn);
  buf ← putUnalignedInt32Be buf (o + 16) (i32 initialTsn);
  buf ← putUnalignedInt16Be buf (o + 20) (i16 SCTP_PARAM_STATE_COOKIE);
  buf ← putUnalignedInt16Be buf (o + 22) (i16 (4 +32 cookieLen));
  bs ← ld_bytes cookie 0 cookieLen;
  buf ← put_bytes buf (o + 24) bs;
  let offset := 24 +32 cookieLen in
  buf ← put_bytes buf (o + offset) (replicate (Z.to_nat (padCount offset)) 0);
  let offset := offset +32 padCount offset in
  buf ← putUnalignedInt16Be buf (o + offset) (i16 SCTP_PARAM_FORWARD_TSN_SUPPORTED);
  buf ← putUnalignedInt16Be buf (o + offset + 2) (i16 4);
  Ok (buf, SCTP_PAD4 (offset +32 4)).

Definition sctpWriteCookieEchoChunk (buf : list Z) (o : Z) (cookie : list Z) (cookieLen : Z)
    : res (list Z * Z) :=
  let chunkLen := SCTP_CHUNK_HEADER_SIZE +32 cookieLen in
  buf ← putChunkHeader buf o SCTP_CHUNK_COOKIE_ECHO 0 chunkLen;
  bs ← ld_bytes cookie 0 cookieLen;
  buf ← put_bytes buf (o + SCTP_CHUNK_HEADER_SIZE) bs;
  Ok (buf, SCTP_PAD4 chunkLen).

Definition sctpWriteCookieAckChunk (buf : list Z) (o : Z) : res (list Z * Z) :=
  buf ← putChunkHeader buf o SCTP_CHUNK_COOKIE_ACK 0 SCTP_COOKIE_ACK_SIZE;
  Ok (buf, SCTP_COOKIE_ACK_SIZE).

(** The payload is read through a pointer [payload]. *)
Definition sctpWriteDataChunk (buf : list Z) (o tsn streamId ssn ppid : Z) (unordered : bool)
    (payload : ptr) (payloadLen : Z) : res (list Z * Z) :=
  let chunkLen := SCTP_DATA_HEADER_SIZE +32 payloadLen in
  let flags := Z.lor SCTP_DATA_FLAG_BEGIN SCTP_DATA_FLAG_END in
  let flags := if unordered then Z.lor flags SCTP_DATA_FLAG_UNORDERED else flags in
  buf ← putChunkHeader buf o SCTP_CHUNK_DATA flags chunkLen;
  buf ← putUnalignedInt32Be buf (o + 4) (i32 tsn);
  buf ← putUnalignedInt16Be buf (o + 8) (i16 streamId);
  buf ← putUnalignedInt16Be buf (o + 10) (i16 ssn);
  buf ← putUnalignedInt32Be buf (o + 12) (i32 ppid);
  bs ← pld_bytes payload payloadLen;
  buf ← put_bytes buf (o + SCTP_DATA_HEADER_SIZE) bs;
  Ok (buf, SCTP_PAD4 chunkLen).

(** The gap blocks, written in turn from offset [off]. *)
Fixpoint putGaps (buf : list Z) (off : Z) (gaps : list (Z * Z)) : res (list Z) :=
  match gaps with
  | [] => Ok buf
  | (s, e) :: gaps =>
      buf ← putUnalignedInt16Be buf off (i16 s);
      buf ← putUnalignedInt16Be buf (off + 2) (i16 e);
      putGaps buf (off + 4) gaps
  end.

Definition sctpWriteSackChunk (buf : list Z) (o cumTsn arwnd : Z) (gaps : list (Z * Z))
    : res (list Z * Z) :=
  let numGaps := Z.of_nat (length gaps) in
  let chunkLen := SCTP_SACK_HEADER_SIZE +32 numGaps * 4 in
  buf ← putChunkHeader buf o SCTP_CHUNK_SACK 0 chunkLen;
  buf ← putUnalignedInt32Be buf (o + 4) (i32 cumTsn);
  buf ← putUnalignedInt32Be buf (o + 8) (i32 arwnd);
  buf ← putUnalignedInt16Be buf (o + 12) (i16 numGaps);
  buf ← putUnalignedInt16Be buf (o + 14) (i16 0);
  buf ← putGaps buf (o + 16) gaps;
  Ok (buf, SCTP_PAD4 (16 +32 numGaps * 4)).

Definition sctpWriteForwardTsnChunk (buf : list Z) (o newCumTsn : Z) : res (list Z * Z) :=
  buf ← putChunkHeader buf o SCTP_CHUNK_FORWARD_TSN 0 SCTP_FORWARD_TSN_HEADER_SIZE;
  buf ← putUnalignedInt32Be buf (o + 4) (i32 newCumTsn);
  Ok (buf, SCTP_PAD4 SCTP_FORWARD_TSN_HEADER_SIZE).

Definition sctpWriteShutdownChunk (buf : list Z) (o cumTsn : Z) : res (list Z * Z) :=
  buf ← putChunkHeader buf o SCTP_CHUNK_SHUTDOWN 0 SCTP_SHUTDOWN_SIZE;
  buf ← putUnalignedInt32Be buf (o + 4) (i32 cumTsn);
  Ok (buf, SCTP_SHUTDOWN_SIZE).

Definition sctpWriteShutdownAckChunk (buf : list Z) (o : Z) : res (list Z * Z) :=
  buf ← putChunkHeader buf o SCTP_CHUNK_SHUTDOWN_ACK 0 SCTP_SHUTDOWN_ACK_SIZE;
  Ok (buf, SCTP_SHUTDOWN_ACK_SIZE).

Definition sctpWriteShutdownCompleteChunk (buf : list Z) (o : Z) : res (list Z * Z) :=
  buf ← putChunkHeader buf o SCTP_CHUNK_SHUTDOWN_COMPLETE 0 SCTP_SHUTDOWN_COMPLETE_SIZE;
  Ok (buf, SCTP_SHUTDOWN_COMPLETE_SIZE).

(** ** sctpValidatePacket

    Returns the status and the buffer, whose checksum field is cleared and
    restored. *)
Definition sctpValidatePacket (pBuf : option (list Z)) (len expectedVtag : Z)
    : res (STATUS * list Z) :=
  match pBuf with
  | None => Ok (STATUS_SCTP_INVALID_DCEP_PACKET, [])
  | Some buf =>
      if len <? SCTP_COMMON_HEADER_SIZE then Ok (STATUS_SCTP_INVALID_DCEP_PACKET, buf) else
      b8 ← ld buf 8; b9 ← ld buf 9; b10 ← ld buf 10; b11 ← ld buf 11;
      let storedCrc := Z.lor (Z.lor (Z.lor b8 (u32 (Z.shiftl b9 8))) (u32 (Z.shiftl b10 16)))
                             (u32 (Z.shiftl b11 24)) in
      buf ← put_bytes buf 8 [0; 0; 0; 0];
      computedCrc ← sctpCrc32c buf len;
      buf ← put_bytes buf 8 (crcBytes storedCrc);
      if negb (storedCrc =? computedCrc) then Ok (STATUS_SCTP_INVALID_DCEP_PACKET, buf) else
      v ← getUnalignedInt32Be buf 4;
      let vtag := u32 v in
      if negb (vtag =? 0) && negb (expectedVtag =? 0) && negb (vtag =? expectedVtag)
      then Ok (STATUS_SCTP_INVALID_DCEP_PACKET, buf)
      else Ok (STATUS_SUCCESS, buf)
  end.

(** ** sctpParseChunks

    The callback is a stateful computation on the chunk's type, flags, value
    pointer and value length.  [fuel] bounds the iterations: the offset grows by
    at least 4 in each. *)
Section Parse.
Context {W : Type}.
Variable callback : Z -> Z -> ptr -> Z -> ST W STATUS.

Fixpoint chunkLoop (fuel : nat) (buf : list Z) (len offset : Z) : ST W STATUS :=
  if offset +32 SCTP_CHUNK_HEADER_SIZE <=? len then
    match fuel with
    | O => fun _ => None
    | S fuel =>
        chunkType ← lift (ld buf offset);
        chunkFlags ← lift (ld buf (offset + 1));
        l ← lift (getUnalignedInt16Be buf (offset + 2));
        let chunkLen := u16 l in
        if (chunkLen <? SCTP_CHUNK_HEADER_SIZE) || (len <? offset +32 chunkLen)
        then mret STATUS_SUCCESS
        else
          st ← callback chunkType chunkFlags (Ptr buf (offset + SCTP_CHUNK_HEADER_SIZE))
                 (chunkLen - SCTP_CHUNK_HEADER_SIZE);
          if STATUS_FAILED st then mret st
          else chunkLoop fuel buf len (offset +32 SCTP_PAD4 chunkLen)
    end
  else mret STATUS_SUCCESS.

Definition sctpParseChunks (buf : list Z) (len : Z) : ST W STATUS :=
  chunkLoop (Z.to_nat (len / 4 + 1)) buf len SCTP_COMMON_HEADER_SIZE.
End Parse.

(** ** Wire images of the chunks *)

Definition chunk_hdr (type flags len : Z) : list Z := [u8 type] ++ [u8 flags] ++ be16 len.
Definition common_hdr (src dst vtag : Z) : list Z := be16 src ++ be16 dst ++ be32 vtag ++ be32 0.

Lemma blen_chunk_hdr t f n : blen (chunk_hdr t f n) = 4.
Proof. unfold chunk_hdr. by autorewrite with blen. Qed.
Lemma blen_common_hdr s d v : blen (common_hdr s d v) = 12.
Proof. unfold common_hdr. by autorewrite with blen. Qed.
#[export] Hint Rewrite blen_chunk_hdr blen_common_hdr : blen.

Definition init_chunk (tag arwnd nOut nIn tsn : Z) : list Z :=
  chunk_hdr SCTP_CHUNK_INIT 0 24 ++ be32 tag ++ be32 arwnd ++ be16 nOut ++ be16 nIn ++ be32 tsn
  ++ be16 SCTP_PARAM_FORWARD_TSN_SUPPORTED ++ be16 4.
Definition init_ack_chunk (tag arwnd nOut nIn tsn : Z) (cookie : list Z) : list Z :=
  chunk_hdr SCTP_CHUNK_INIT_ACK 0 (28 + blen cookie) ++ be32 tag ++ be32 arwnd ++ be16 nOut
  ++ be16 nIn ++ be32 tsn ++ be16 SCTP_PARAM_STATE_COOKIE ++ be16 (4 + blen cookie) ++ cookie
  ++ replicate (Z.to_nat (padCount (blen cookie))) 0
  ++ be16 SCTP_PARAM_FORWARD_TSN_SUPPORTED ++ be16 4.
Definition cookie_echo_chunk (cookie : list Z) : list Z :=
  chunk_hdr SCTP_CHUNK_COOKIE_ECHO 0 (4 + blen cookie) ++ cookie.
Definition data_chunk (flags tsn sid ssn ppid : Z) (payload : list Z) : list Z :=
  chunk_hdr SCTP_CHUNK_DATA flags (16 + blen payload) ++ be32 tsn ++ be16 sid ++ be16 ssn
  ++ be32 ppid ++ payload.
Definition gap_bytes (gaps : list (Z * Z)) : list Z :=
  concat (map (fun g => be16 g.1 ++ be16 g.2) gaps).
Definition sack_chunk (cumTsn arwnd : Z) (gaps : list (Z * Z)) : list Z :=
  chunk_hdr SCTP_CHUNK_SACK 0 (16 + 4 * Z.of_nat (length gaps)) ++ be32 cumTsn ++ be32 arwnd
  ++ be16 (Z.of_nat (length gaps)) ++ be16 0 ++ gap_bytes gaps.
Definition forward_tsn_chunk (tsn : Z) : list Z := chunk_hdr SCTP_CHUNK_FORWARD_TSN 0 8 ++ be32 tsn.
Definition shutdown_chunk (tsn : Z) : list Z := chunk_hdr SCTP_CHUNK_SHUTDOWN 0 8 ++ be32 tsn.

Lemma blen_gap_bytes gaps : blen (gap_bytes gaps) = 4 * Z.of_nat (length gaps).
Proof.
  induction gaps as [|g gaps IH]; [done|]. unfold gap_bytes in *. cbn [map concat length].
  autorewrite with blen. lia.
Qed.
#[export] Hint Rewrite blen_gap_bytes : blen.

Lemma blen_replicate n (x : Z) : blen (replicate n x) = Z.of_nat n.
Proof. unfold blen. by rewrite length_replicate. Qed.
#[export] Hint Rewrite blen_replicate : blen.

Lemma SCTP_PAD4_val x : 0 <= x -> x + 3 < 2 ^ 32 -> SCTP_PAD4 x = 4 * ((x + 3) / 4).
Proof.
  intros H0 Hx. unfold SCTP_PAD4. rewrite (u32_id (x + 3)) by (unfold is_u32; lia).
  change (u32 (Z.lnot 3)) with (Z.ldiff (Z.ones 32) 3).
  assert (E : Z.land (x + 3) (Z.ldiff (Z.ones 32) 3) = Z.ldiff (x + 3) (Z.ones 2)).
  { change 3 with (Z.ones 2) at 2. apply Z.bits_inj'. intros i Hi.
    rewrite Z.land_spec, !Z.ldiff_spec. destruct (Z.lt_ge_cases i 32).
    - rewrite Z.ones_spec_low by lia. by rewrite andb_true_l.
    - replace (Z.testbit (x + 3) i) with false; [done|]. symmetry.
      rewrite <- (Z.mod_small (x + 3) (2 ^ 32)) by lia. apply Z.mod_pow2_bits_high. lia. }
  rewrite E, Z.ldiff_ones_r by lia. rewrite Z.shiftl_mul_pow2, Z.shiftr_div_pow2 by lia.
  change (2 ^ 2) with 4. lia.
Qed.

(** ** The writers as single stores *)

Lemma putChunkHeader_spec buf o t f n :
  putChunkHeader buf o t f n = put_bytes buf o (chunk_hdr t f n).
Proof.
  unfold putChunkHeader, chunk_hdr, put8. rewrite <- (put_bytes_seq buf o [u8 t]).
  change (blen [u8 t]) with 1. destruct (put_bytes buf o [u8 t]) as [b| |]; [|done..].
  cbn [mbind res_bind]. rewrite <- put_bytes_seq. change (blen [u8 f]) with 1.
  destruct (put_bytes b (o + 1) [u8 f]) as [b'| |]; [|done..]. cbn [mbind res_bind].
  rewrite put16Be_bytes. by replace (o + 1 + 1) with (o + 2) by lia.
Qed.

Ltac writer_spec :=
  rewrite ?putChunkHeader_spec, ?put16Be_bytes; repeat put_merge; rewrite <- ?(assoc_L (++)); try done.

Lemma sctpWriteCommonHeader_spec buf o s d v :
  sctpWriteCommonHeader buf o s d v = (b ← put_bytes buf o (common_hdr s d v); Ok (b, 12)).
Proof. unfold sctpWriteCommonHeader, common_hdr. writer_spec. Qed.

Lemma sctpWriteInitChunk_spec buf o tag arwnd nOut nIn tsn :
  sctpWriteInitChunk buf o tag arwnd nOut nIn tsn =
  (b ← put_bytes buf o (init_chunk tag arwnd nOut nIn tsn); Ok (b, 24)).
Proof. unfold sctpWriteInitChunk, init_chunk. writer_spec. Qed.

Lemma sctpWriteCookieAckChunk_spec buf o :
  sctpWriteCookieAckChunk buf o =
  (b ← put_bytes buf o (chunk_hdr SCTP_CHUNK_COOKIE_ACK 0 4); Ok (b, 4)).
Proof. unfold sctpWriteCookieAckChunk. writer_spec. Qed.

Lemma sctpWriteForwardTsnChunk_spec buf o tsn :
  sctpWriteForwardTsnChunk buf o tsn = (b ← put_bytes buf o (forward_tsn_chunk tsn); Ok (b, 8)).
Proof. unfold sctpWriteForwardTsnChunk, forward_tsn_chunk. writer_spec. Qed.

Lemma sctpWriteShutdownChunk_spec buf o tsn :
  sctpWriteShutdownChunk buf o tsn = (b ← put_bytes buf o (shutdown_chunk tsn); Ok (b, 8)).
Proof. unfold sctpWriteShutdownChunk, shutdown_chunk. writer_spec. Qed.

Lemma sctpWriteShutdownAckChunk_spec buf o :
  sctpWriteShutdownAckChunk buf o =
  (b ← put_bytes buf o (chunk_hdr SCTP_CHUNK_SHUTDOWN_ACK 0 4); Ok (b, 4)).
Proof. unfold sctpWriteShutdownAckChunk. writer_spec. Qed.

Lemma sctpWriteShutdownCompleteChunk_spec buf o :
  sctpWriteShutdownCompleteChunk buf o =
  (b ← put_bytes buf o (chunk_hdr SCTP_CHUNK_SHUTDOWN_COMPLETE 0 4); Ok (b, 4)).
Proof. unfold sctpWriteShutdownCompleteChunk. writer_spec. Qed.

Lemma sctpWriteDataChunk_spec buf o tsn sid ssn ppid un p payload :
  pld_bytes p (blen payload) = Ok payload -> blen payload < 2 ^ 31 ->
  sctpWriteDataChunk buf o tsn sid ssn ppid un p (blen payload) =
  (b ← put_bytes buf o (data_chunk (if un then 7 else 3) tsn sid ssn ppid payload);
   Ok (b, SCTP_PAD4 (16 + blen payload))).
Proof.
  intros Hp Hl. unfold sctpWriteDataChunk, data_chunk, SCTP_DATA_HEADER_SIZE.
  pose proof (blen_nonneg payload). rewrite (u32_id (16 + _)) by (unfold is_u32; lia).
  rewrite Hp. cbn [mbind res_bind].
  replace (if un then _ else _) with (if un then 7 else 3) by by destruct un. writer_spec.
Qed.

Lemma sctpWriteCookieEchoChunk_spec buf o data cookie :
  ld_bytes data 0 (blen cookie) = Ok cookie -> blen cookie < 2 ^ 31 ->
  sctpWriteCookieEchoChunk buf o data (blen cookie) =
  (b ← put_bytes buf o (cookie_echo_chunk cookie); Ok (b, SCTP_PAD4 (4 + blen cookie))).
Proof.
  intros Hp Hl. unfold sctpWriteCookieEchoChunk, cookie_echo_chunk, SCTP_CHUNK_HEADER_SIZE.
  pose proof (blen_nonneg cookie). rewrite (u32_id (4 + _)) by (unfold is_u32; lia).
  rewrite Hp. cbn [mbind res_bind]. writer_spec.
Qed.

Lemma padCount_range x : 0 <= padCount x < 4.
Proof. apply Z.mod_pos_bound. lia. Qed.

Lemma sctpWriteInitAckChunk_spec buf o tag arwnd nOut nIn tsn data cookie :
  ld_bytes data 0 (blen cookie) = Ok cookie -> blen cookie < 2 ^ 31 ->
  sctpWriteInitAckChunk buf o tag arwnd nOut nIn tsn data (blen cookie) =
  (b ← put_bytes buf o (init_ack_chunk tag arwnd nOut nIn tsn cookie);
   Ok (b, SCTP_PAD4 (28 + blen cookie + padCount (blen cookie)))).
Proof.
  intros Hp Hl. unfold sctpWriteInitAckChunk, init_ack_chunk, SCTP_INIT_HEADER_SIZE.
  pose proof (blen_nonneg cookie). pose proof (padCount_range (blen cookie)).
  rewrite (u32_id (4 + blen cookie)) by (unfold is_u32; lia).
  rewrite (u32_id (20 + (4 + blen cookie))) by (unfold is_u32; lia).
  rewrite (u32_id (20 + (4 + blen cookie) + 4)) by (unfold is_u32; lia).
  replace (20 + (4 + blen cookie) + 4) with (28 + blen cookie) by lia.
  rewrite (u32_id (24 + _)) by (unfold is_u32; lia).
  assert (Epad : padCount (24 + blen cookie) = padCount (blen cookie)).
  { unfold padCount. replace (- (24 + blen cookie)) with (- blen cookie + (-6) * 4) by lia.
    by rewrite Z_mod_plus_full. }
  rewrite Epad, Hp. cbn [mbind res_bind].
  rewrite (u32_id (24 + blen cookie + padCount (blen cookie))) by (unfold is_u32; lia).
  rewrite (u32_id (24 + blen cookie + padCount (blen cookie) + 4)) by (unfold is_u32; lia).
  replace (24 + blen cookie + padCount (blen cookie) + 4)
    with (28 + blen cookie + padCount (blen cookie)) by lia.
  writer_spec.
Qed.

Lemma putGaps_spec buf off gaps :
  0 <= off <= blen buf -> putGaps buf off gaps = put_bytes buf off (gap_bytes gaps).
Proof.
  revert buf off. induction gaps as [|[s e] gaps IH]; intros buf off Ho; cbn [putGaps].
  { by rewrite put_bytes_nil. }
  rewrite put16Be_bytes. put_merge.
  change (gap_bytes ((s, e) :: gaps)) with ((be16 s ++ be16 e) ++ gap_bytes gaps).
  assert (Ek : forall m : res (list Z), (m ≫= Ok) = m) by by intros [].
  rewrite <- (Ek (put_bytes buf off ((be16 s ++ be16 e) ++ _))).
  apply (put_then_in _ _ _ (off + 4)); [autorewrite with blen; lia|].
  intros b' _ Hb'. rewrite Ek. by apply IH.
Qed.

Lemma sctpWriteSackChunk_spec buf o cum arwnd gaps :
  0 <= o -> o + 16 <= blen buf -> Z.of_nat (length gaps) < 2 ^ 16 ->
  sctpWriteSackChunk buf o cum arwnd gaps =
  (b ← put_bytes buf o (sack_chunk cum arwnd gaps);
   Ok (b, 16 + 4 * Z.of_nat (length gaps))).
Proof.
  intros Ho Hb Hn. unfold sctpWriteSackChunk, sack_chunk, SCTP_SACK_HEADER_SIZE.
  rewrite !(u32_id (16 + _)) by (unfold is_u32; lia).
  rewrite SCTP_PAD4_val by lia.
  replace (4 * ((16 + Z.of_nat (length gaps) * 4 + 3) / 4)) with (16 + 4 * Z.of_nat (length gaps))
    by (Z.div_mod_to_equations; lia).
  replace (16 + Z.of_nat (length gaps) * 4) with (16 + 4 * Z.of_nat (length gaps)) by lia.
  rewrite putChunkHeader_spec. repeat put_merge.
  rewrite (put_then _ _ _ (o + 16) (gap_bytes gaps) _ (fun b => Ok (b, 16 + 4 * Z.of_nat (length gaps))));
    [by rewrite <- !(assoc_L (++))|autorewrite with blen; lia|].
  intros b' Hb'. by rewrite putGaps_spec by lia.
Qed.

(** ** Checksum *)

Lemma crcBytes_ok c : bytes_ok (crcBytes c).
Proof. repeat constructor; apply u8_range. Qed.
Lemma blen_crcBytes c : blen (crcBytes c) = 4.
Proof. reflexivity. Qed.

(** The value the validation reads back from the checksum field. *)
Definition crcOf (b8 b9 b10 b11 : Z) : Z :=
  Z.lor (Z.lor (Z.lor b8 (u32 (Z.shiftl b9 8))) (u32 (Z.shiftl b10 16))) (u32 (Z.shiftl b11 24)).

Lemma crcOf_val a b c d :
  is_u8 a -> is_u8 b -> is_u8 c -> is_u8 d -> crcOf a b c d = a + 2 ^ 8 * b + 2 ^ 16 * c + 2 ^ 24 * d.
Proof.
  intros. unfold crcOf. rewrite !(u32_id (Z.shiftl _ _)) by (rewrite Z.shiftl_mul_pow2 by lia; width_lia).
  rewrite (lor_disjoint_add a) by (done || lia).
  rewrite (lor_disjoint_add (a + _)) by width_lia. rewrite lor_disjoint_add by width_lia. lia.
Qed.

Lemma crcBytes_val c :
  crcBytes c = [u8 c; u8 (c / 2 ^ 8); u8 (c / 2 ^ 16); u8 (c / 2 ^ 24)].
Proof.
  unfold crcBytes. change 0xFF with (Z.ones 8). rewrite !land_mask, !Z.shiftr_div_pow2 by lia.
  unfold u8. by rewrite !Z.mod_mod by lia.
Qed.

Lemma crcOf_bytes c : is_u32 c ->
  crcOf (u8 c) (u8 (c / 2 ^ 8)) (u8 (c / 2 ^ 16)) (u8 (c / 2 ^ 24)) = c.
Proof. intros. rewrite crcOf_val by apply u8_range. width_lia. Qed.

Lemma crcBytes_crcOf a b c d :
  is_u8 a -> is_u8 b -> is_u8 c -> is_u8 d -> crcBytes (crcOf a b c d) = [a; b; c; d].
Proof.
  intros. rewrite crcBytes_val, crcOf_val by done.
  f_equal; [width_lia|]. f_equal; [width_lia|]. f_equal; [width_lia|]. f_equal. width_lia.
Qed.

(** A packet: eight bytes, the checksum field, the chunks. *)
Definition sealed (a c : list Z) : list Z := a ++ crcBytes (crc32c (a ++ [0; 0; 0; 0] ++ c)) ++ c.

Lemma crc32c_u32 data : bytes_ok data -> is_u32 (crc32c data).
Proof.
  intros. rewrite crc32c_run. apply lxor_u32; [|vm_compute; intuition congruence].
  apply diffRun_u32; [vm_compute; intuition congruence|done].
Qed.

(** The packet at the start of a larger buffer. *)
Lemma sctpFinalizePacket_prefix a x c rest :
  bytes_ok a -> bytes_ok c -> blen a = 8 -> blen x = 4 ->
  sctpFinalizePacket (a ++ x ++ c ++ rest) (blen (a ++ x ++ c)) = Ok (sealed a c ++ rest).
Proof.
  intros Ha Hc Hal Hxl. unfold sctpFinalizePacket, sealed. rewrite put32Be_bytes.
  change (be32 0) with [0; 0; 0; 0].
  rewrite put_bytes_app by (rewrite ?Hxl; done). cbn [mbind res_bind].
  replace (blen (a ++ x ++ c)) with (blen (a ++ [0; 0; 0; 0] ++ c)) by blen_lia.
  rewrite (assoc_L (++) _ c), (assoc_L (++) a), sctpCrc32c_prefix
    by (rewrite !bytes_ok_app; split_and!; try done; by apply bytes_ok_check).
  cbn [mbind res_bind]. rewrite <- !(assoc_L (++)). by rewrite put_bytes_app.
Qed.

Lemma sctpFinalizePacket_spec a x c :
  bytes_ok a -> bytes_ok c -> blen a = 8 -> blen x = 4 ->
  sctpFinalizePacket (a ++ x ++ c) (blen (a ++ x ++ c)) = Ok (sealed a c).
Proof.
  intros Ha Hc Hal Hxl. pose proof (sctpFinalizePacket_prefix a x c [] Ha Hc Hal Hxl) as E.
  by rewrite !app_nil_r in E.
Qed.

Lemma sealed_ok a c : bytes_ok a -> bytes_ok c -> bytes_ok (sealed a c).
Proof. intros. unfold sealed. rewrite !bytes_ok_app. auto using crcBytes_ok. Qed.

(** What the validation computes on a packet with checksum field [b8..b11]. *)
Lemma sctpValidatePacket_spec a b8 b9 b10 b11 c expected vtag :
  bytes_ok a -> bytes_ok c -> blen a = 8 -> is_u8 b8 -> is_u8 b9 -> is_u8 b10 -> is_u8 b11 ->
  rd32 a 4 = Ok vtag ->
  let buf := a ++ [b8; b9; b10; b11] ++ c in
  sctpValidatePacket (Some buf) (blen buf) expected =
  Ok (if negb (crcOf b8 b9 b10 b11 =? crc32c (a ++ [0; 0; 0; 0] ++ c)) then STATUS_SCTP_INVALID_DCEP_PACKET
      else if negb (vtag =? 0) && negb (expected =? 0) && negb (vtag =? expected)
      then STATUS_SCTP_INVALID_DCEP_PACKET else STATUS_SUCCESS, buf).
Proof.
  intros Ha Hc Hal H8 H9 H10 H11 Hv. cbv zeta. set (buf := a ++ [b8; b9; b10; b11] ++ c).
  assert (Hlen : blen buf = 12 + blen c) by (unfold buf; autorewrite with blen; lia).
  pose proof (blen_nonneg c).
  assert (Hld : forall k x, 0 <= k -> ld ([b8; b9; b10; b11] ++ c) k = Ok x -> ld buf (8 + k) = Ok x).
  { intros k x Hk Hx. unfold buf. rewrite <- Hal. by rewrite ld_app_off. }
  unfold sctpValidatePacket, SCTP_COMMON_HEADER_SIZE. rewrite (proj2 (Z.ltb_ge _ _)) by lia.
  rewrite (Hld 0 b8 ltac:(lia) eq_refl : ld buf 8 = _), (Hld 1 b9 ltac:(lia) eq_refl : ld buf 9 = _),
    (Hld 2 b10 ltac:(lia) eq_refl : ld buf 10 = _), (Hld 3 b11 ltac:(lia) eq_refl : ld buf 11 = _).
  cbn [mbind res_bind].
  assert (Hp0 : put_bytes buf 8 [0; 0; 0; 0] = Ok (a ++ [0; 0; 0; 0] ++ c))
    by (by apply put_bytes_app).
  fold (crcOf b8 b9 b10 b11). rewrite Hp0. cbn [mbind res_bind].
  replace (blen buf) with (blen (a ++ [0; 0; 0; 0] ++ c)) by (rewrite Hlen; autorewrite with blen; lia).
  rewrite sctpCrc32c_ref by (rewrite !bytes_ok_app; split_and!; try done; by apply bytes_ok_check).
  cbn [mbind res_bind]. rewrite put_bytes_app by done. cbn [mbind res_bind].
  rewrite crcBytes_crcOf by done. fold buf.
  destruct (negb (crcOf _ _ _ _ =? _)); [done|].
  assert (Hbuf : bytes_ok buf).
  { unfold buf. rewrite !bytes_ok_app. split_and!; [done| |done].
    repeat (apply Forall_cons; [done|]). constructor. }
  rewrite get32Be_rd32 by done.
  assert (E : rd32 buf 4 = Ok vtag).
  { rewrite <- Hv. unfold buf, rd32. rewrite !ld_app_l by lia. done. }
  rewrite E. cbn [mbind res_bind]. rewrite u32_i32, (u32_id vtag) by (by apply (rd32_range a 4)).
  by destruct (_ && _).
Qed.

(** A finalised packet passes validation at a receiver that expects its
    verification tag (or has no tag yet, or receives the tag 0 of an INIT), and the
    validation leaves the packet unchanged; a packet with any other tag is refused. *)
Theorem sctpFinalize_validates a x c expected vtag
  (Ha : bytes_ok a) (Hc : bytes_ok c) (Hal : blen a = 8) (Hxl : blen x = 4)
  (Hv : rd32 a 4 = Ok vtag) :
  exists pkt,
    sctpFinalizePacket (a ++ x ++ c) (blen (a ++ x ++ c)) = Ok pkt /\ blen pkt = blen (a ++ x ++ c) /\
    sctpValidatePacket (Some pkt) (blen pkt) expected =
    Ok (if (vtag =? 0) || (expected =? 0) || (vtag =? expected) then STATUS_SUCCESS
        else STATUS_SCTP_INVALID_DCEP_PACKET, pkt).
Proof.
  exists (sealed a c). rewrite sctpFinalizePacket_spec by done. split; [done|].
  assert (Hz : bytes_ok (a ++ [0; 0; 0; 0] ++ c))
    by (rewrite !bytes_ok_app; split_and!; try done; by apply bytes_ok_check).
  unfold sealed. rewrite crcBytes_val. split; [blen_lia|].
  rewrite (sctpValidatePacket_spec _ _ _ _ _ _ _ vtag) by (done || apply u8_range).
  rewrite crcOf_bytes, Z.eqb_refl by (by apply crc32c_u32). cbn [negb].
  by destruct (vtag =? 0), (expected =? 0), (vtag =? expected).
Qed.

(** C34. Altering up to four consecutive bytes of the chunks of a finalised packet makes
    the validation refuse it, whatever the expected tag. *)
Theorem sctpValidate_rejects_corruption a p s t q expected
  (Ha : bytes_ok a) (Hp : bytes_ok p) (Hs : bytes_ok s) (Ht : bytes_ok t) (Hq : bytes_ok q)
  (Hal : blen a = 8) (Hl : length s = length t) (H4 : (length s <= 4)%nat) (Hne : s <> t) :
  let crc := crcBytes (crc32c (a ++ [0; 0; 0; 0] ++ p ++ s ++ q)) in
  let bad := a ++ crc ++ p ++ t ++ q in
  sctpFinalizePacket (a ++ [0; 0; 0; 0] ++ p ++ s ++ q) (blen bad) = Ok (a ++ crc ++ p ++ s ++ q) /\
  sctpValidatePacket (Some bad) (blen bad) expected = Ok (STATUS_SCTP_INVALID_DCEP_PACKET, bad).
Proof.
  cbv zeta. assert (Hz : bytes_ok [0; 0; 0; 0]) by by apply bytes_ok_check.
  assert (Hst : blen s = blen t) by (unfold blen; lia). split.
  - pose proof (sctpFinalizePacket_spec a [0; 0; 0; 0] (p ++ s ++ q) Ha) as HF.
    replace (blen (a ++ crcBytes _ ++ p ++ t ++ q)) with (blen (a ++ [0; 0; 0; 0] ++ p ++ s ++ q))
      by (autorewrite with blen; rewrite blen_crcBytes; lia).
    apply HF; [by rewrite !bytes_ok_app|done|done].
  - destruct (rd32_in a 4) as (vtag & Hv); [lia..|]. rewrite crcBytes_val.
    rewrite (sctpValidatePacket_spec _ _ _ _ _ _ _ vtag)
      by (done || apply u8_range || by rewrite !bytes_ok_app).
    rewrite crcOf_bytes by (apply crc32c_u32; by rewrite !bytes_ok_app).
    destruct (Z.eqb_spec (crc32c (a ++ [0; 0; 0; 0] ++ p ++ s ++ q))
                         (crc32c (a ++ [0; 0; 0; 0] ++ p ++ t ++ q))) as [E|]; [|done].
    exfalso. apply Hne, (crc32c_burst (a ++ [0; 0; 0; 0] ++ p) s t q); try done.
    + by rewrite !bytes_ok_app.
    + by rewrite <- !(assoc_L (++)).
Qed.

(** ** Iterating over the chunks *)

Lemma wp_lift_ld {W} b o (Q : Z -> W -> Prop) w :
  0 <= o < blen b -> (forall v, ld b o = Ok v -> Q v w) -> wp (lift (ld b o)) Q w.
Proof.
  intros Ho HQ. destruct (ld_in b o Ho) as (v & E & _). eapply wp_lift; [exact E|]. auto.
Qed.

Lemma get16_in b o : bytes_ok b -> 0 <= o -> o + 2 <= blen b ->
  exists v, rd16 b o = Ok v /\ getUnalignedInt16Be b o = Ok (i16 v) /\ is_u16 v.
Proof.
  intros Hb Ho Hl. destruct (rd16_in b o Ho Hl) as (v & E). exists v. split; [done|].
  rewrite get16Be_rd16, E by done. split; [done|]. by eapply rd16_range.
Qed.

(** A value handed to the callback lies in the packet, behind the common header. *)
Definition chunk_in (buf : list Z) (v n : Z) : Prop :=
  16 <= v /\ 0 <= n < 2 ^ 16 /\ v + n <= blen buf.

Section ParseSafe.
Context {W : Type}.
Variable callback : Z -> Z -> ptr -> Z -> ST W STATUS.
Variable I : W -> Prop.
Variable buf : list Z.
Hypothesis Hbuf : bytes_ok buf.
Hypothesis Hlen : blen buf < 2 ^ 31.
(** What the callback returns, [R], and keeps, [I]. *)
Variable R : STATUS -> Prop.
Hypothesis HR : R STATUS_SUCCESS.
Hypothesis Hcb : forall t f v n w, I w -> chunk_in buf v n ->
  wp (callback t f (Ptr buf v) n) (fun st w' => R st /\ I w') w.

Lemma chunkLoop_wp fuel offset w :
  12 <= offset -> offset <= blen buf + 3 -> blen buf - offset < 4 * Z.of_nat fuel -> I w ->
  wp (chunkLoop callback fuel buf (blen buf) offset) (fun st w' => R st /\ I w') w.
Proof.
  revert offset w. induction fuel as [|fuel IH]; intros offset w Ho Hlo Hf HI;
    cbn [chunkLoop]; unfold SCTP_CHUNK_HEADER_SIZE;
    rewrite (u32_id (offset + 4)) by (unfold is_u32; lia);
    destruct (Z.leb_spec (offset + 4) (blen buf)); try done; [lia|].
  apply wp_bind, wp_lift_ld; [lia|]. intros t _. apply wp_bind, wp_lift_ld; [lia|]. intros f _.
  destruct (get16_in buf (offset + 2) Hbuf) as (l & _ & E & Hl); [lia..|].
  apply wp_bind. eapply wp_lift; [exact E|]. cbv zeta.
  rewrite u16_i16, (u16_id l) by done. unfold is_u16 in Hl.
  rewrite (u32_id (offset + l)) by (unfold is_u32; lia).
  destruct (Z.ltb_spec l 4), (Z.ltb_spec (blen buf) (offset + l)); cbn [orb]; try done.
  apply wp_bind. eapply wp_mono; [apply Hcb; [done|unfold chunk_in; lia]|].
  intros st w' [HR' HI']. cbv beta. destruct (STATUS_FAILED st); [done|].
  rewrite SCTP_PAD4_val by lia.
  assert (l <= 4 * ((l + 3) / 4) <= l + 3) by (Z.div_mod_to_equations; lia).
  rewrite u32_id by (unfold is_u32; lia). apply IH; [lia..|done].
Qed.

Lemma sctpParseChunks_wp w :
  12 <= blen buf -> I w ->
  wp (sctpParseChunks callback buf (blen buf)) (fun st w' => R st /\ I w') w.
Proof.
  intros H12 HI. unfold sctpParseChunks, SCTP_COMMON_HEADER_SIZE.
  apply chunkLoop_wp; [lia|lia| |done]. pose proof (Z.div_pos (blen buf) 4). 
  Z.div_mod_to_equations; lia.
Qed.
End ParseSafe.

(** C35. On an arbitrary packet the iterator terminates without reading outside the
    packet, and every chunk value it hands to the callback lies inside the packet,
    behind the common header: it preserves any invariant the callback preserves on
    such values, and returns success or a status the callback returned. *)
Theorem sctpParseChunks_safe {W} (callback : Z -> Z -> ptr -> Z -> ST W STATUS) (I : W -> Prop)
  (R : STATUS -> Prop) buf w
  (Hbuf : bytes_ok buf) (Hlen : 12 <= blen buf < 2 ^ 31) (HR : R STATUS_SUCCESS)
  (Hcb : forall t f v n w, I w -> chunk_in buf v n ->
           wp (callback t f (Ptr buf v) n) (fun st w' => R st /\ I w') w)
  (HI : I w) :
  wp (sctpParseChunks callback buf (blen buf)) (fun st w' => R st /\ I w') w.
Proof. by apply sctpParseChunks_wp; try lia. Qed.

(** A chunk and its encoding, padded to a multiple of four bytes. *)
Record chunk : Type := Chunk { ck_type : Z; ck_flags : Z; ck_value : list Z }.
Definition enc_chunk (c : chunk) : list Z :=
  chunk_hdr (ck_type c) (ck_flags c) (4 + blen (ck_value c)) ++ ck_value c
  ++ replicate (Z.to_nat (padCount (blen (ck_value c)))) 0.
Definition enc_chunks (cs : list chunk) : list Z := concat (map enc_chunk cs).
Definition chunk_ok (c : chunk) : Prop :=
  is_u8 (ck_type c) /\ is_u8 (ck_flags c) /\ bytes_ok (ck_value c) /\ 4 + blen (ck_value c) < 2 ^ 16.

(** The callbacks in order, until one fails. *)
Fixpoint runChunks {W} (cb : Z -> Z -> list Z -> ST W STATUS) (cs : list chunk) : ST W STATUS :=
  match cs with
  | [] => mret STATUS_SUCCESS
  | c :: cs =>
      st ← cb (ck_type c) (ck_flags c) (ck_value c);
      if STATUS_FAILED st then mret st else runChunks cb cs
  end.

Lemma blen_enc_chunk c : blen (enc_chunk c) = 4 * ((4 + blen (ck_value c) + 3) / 4).
Proof.
  unfold enc_chunk. autorewrite with blen. pose proof (padCount_range (blen (ck_value c))).
  rewrite Z2Nat.id by lia. unfold padCount in *. Z.div_mod_to_equations. lia.
Qed.

Lemma enc_chunks_ok cs : Forall chunk_ok cs -> bytes_ok (enc_chunks cs).
Proof.
  induction 1 as [|c cs (Ht & Hf & Hv & _) _ IH]; [constructor|].
  unfold enc_chunks in *. cbn [map concat]. rewrite bytes_ok_app. split; [|done].
  unfold enc_chunk, chunk_hdr. rewrite !bytes_ok_app. split_and!; try done; auto with width.
  - repeat constructor; apply u8_range.
  - repeat constructor; apply u8_range.
  - apply Forall_replicate. split; lia.
Qed.

Lemma ld_u8_at a x b k : k = blen a -> is_u8 x -> ld (a ++ u8 x :: b) k = Ok x.
Proof.
  intros -> Hx. rewrite <- (Z.add_0_r (blen a)), ld_app_off by lia. by rewrite u8_id.
Qed.

Section ParseRun.
Context {W : Type}.
Variable callback : Z -> Z -> ptr -> Z -> ST W STATUS.
Variable cb : Z -> Z -> list Z -> ST W STATUS.
(** The callback looks at the bytes of the value only. *)
Hypothesis Hcb : forall t f p n bs, pld_bytes p n = Ok bs -> callback t f p n = cb t f bs.

Lemma chunkLoop_run fuel cs pre buf w :
  buf = pre ++ enc_chunks cs -> bytes_ok pre -> Forall chunk_ok cs -> blen buf < 2 ^ 31 ->
  (length cs <= fuel)%nat ->
  chunkLoop callback fuel buf (blen buf) (blen pre) w = runChunks cb cs w.
Proof.
  revert cs pre w. induction fuel as [|fuel IH]; intros cs pre w Hb Hp Hcs Hl Hf.
  all: pose proof (blen_nonneg pre).
  all: destruct cs as [|c cs]; [|cbn [length] in Hf; try lia].
  1,2: cbn [chunkLoop enc_chunks map concat] in *; rewrite app_nil_r in Hb; subst buf;
    unfold SCTP_CHUNK_HEADER_SIZE; rewrite u32_id by (unfold is_u32; lia);
    rewrite (proj2 (Z.leb_gt _ _)) by lia; done.
  inversion_clear Hcs as [|? ? Hc Hcs']. destruct c as [t f v]. destruct Hc as (Ht & Hfl & Hv & Hvl).
  cbn [ck_type ck_flags ck_value] in *. pose proof (blen_nonneg v).
  change (enc_chunks (Chunk t f v :: cs)) with (enc_chunk (Chunk t f v) ++ enc_chunks cs) in Hb.
  pose proof (blen_enc_chunk (Chunk t f v)) as Hel. cbn [ck_value] in Hel.
  assert (Hlb : blen buf = blen pre + blen (enc_chunk (Chunk t f v)) + blen (enc_chunks cs))
    by (rewrite Hb; autorewrite with blen; lia).
  pose proof (blen_nonneg (enc_chunks cs)).
  assert (Hpad : 4 + blen v <= blen (enc_chunk (Chunk t f v)))
    by (rewrite Hel; Z.div_mod_to_equations; lia).
  set (pad := replicate (Z.to_nat (padCount (blen v))) 0 ++ enc_chunks cs).
  assert (Eb : buf = pre ++ u8 t :: u8 f :: be16 (4 + blen v) ++ v ++ pad).
  { rewrite Hb. unfold enc_chunk, chunk_hdr, pad. cbn [ck_type ck_flags ck_value app].
    by rewrite <- !(assoc_L (++)). }
  assert (E0 : ld buf (blen pre) = Ok t) by (rewrite Eb; by apply ld_u8_at).
  assert (E1 : ld buf (blen pre + 1) = Ok f).
  { rewrite Eb. change (u8 t :: u8 f :: ?l) with ([u8 t] ++ u8 f :: l). rewrite (assoc_L (++)).
    apply ld_u8_at; [by autorewrite with blen|done]. }
  assert (Hbb : bytes_ok buf).
  { rewrite Hb. rewrite !bytes_ok_app. split; [done|]. apply (bytes_ok_app (enc_chunk _) (enc_chunks cs)).
    apply (enc_chunks_ok (Chunk t f v :: cs)). by constructor. }
  assert (E2 : getUnalignedInt16Be buf (blen pre + 2) = Ok (i16 (4 + blen v))).
  { rewrite get16Be_rd16 by done. rewrite Eb.
    change (u8 t :: u8 f :: ?l) with ([u8 t; u8 f] ++ l). rewrite (assoc_L (++) pre).
    rewrite rd16_app by blen_lia. cbn [mbind res_bind]. by rewrite i16_u16. }
  assert (E3 : pld_bytes (Ptr buf (blen pre + 4)) (4 + blen v - 4) = Ok v).
  { unfold pld_bytes. cbn [p_obj p_off]. rewrite Eb.
    change (u8 t :: u8 f :: ?l) with ([u8 t; u8 f] ++ l).
    rewrite (assoc_L (++) pre), (assoc_L (++) (pre ++ _)). apply ld_bytes_app; [blen_lia|lia]. }
  cbn [chunkLoop runChunks]. unfold SCTP_CHUNK_HEADER_SIZE.
  rewrite (u32_id (blen pre + 4)) by (unfold is_u32; lia).
  rewrite (proj2 (Z.leb_le _ _)) by lia. rewrite E0, E1, E2.
  unfold lift, mbind, ST_bind. cbv beta iota. rewrite u16_i16, (u16_id (4 + blen v)) by (unfold is_u16; lia).
  rewrite (u32_id (blen pre + (4 + blen v))) by (unfold is_u32; lia).
  rewrite (proj2 (Z.ltb_ge _ _)), (proj2 (Z.ltb_ge _ _)) by lia. cbn [orb].
  rewrite (Hcb t f _ _ v E3). cbn [ck_type ck_flags ck_value].
  destruct (cb t f v w) as [[st w']|]; [|done]. destruct (STATUS_FAILED st); [done|].
  rewrite SCTP_PAD4_val by lia. rewrite <- Hel, u32_id by (unfold is_u32; lia).
  replace (blen pre + blen (enc_chunk (Chunk t f v))) with (blen (pre ++ enc_chunk (Chunk t f v))) by blen_lia.
  apply IH; [rewrite Hb; by rewrite <- (assoc_L (++))| |done|done|lia].
  rewrite bytes_ok_app. split; [done|]. apply (bytes_ok_app (enc_chunk _) []).
  rewrite app_nil_r. rewrite <- (app_nil_r (enc_chunk _)).
  apply (enc_chunks_ok [Chunk t f v]). by constructor.
Qed.
End ParseRun.

Lemma enc_chunks_count cs : 4 * Z.of_nat (length cs) <= blen (enc_chunks cs).
Proof.
  induction cs as [|c cs IH]; [done|]. unfold enc_chunks in *. cbn [map concat length].
  rewrite blen_app, blen_enc_chunk. pose proof (blen_nonneg (ck_value c)).
  Z.div_mod_to_equations. lia.
Qed.

(** Iterating over the encoding of a list of chunks hands exactly these chunks to
    the callback, in order, with their types, flags and unpadded values, and stops at
    the first callback that fails. *)
Theorem sctpParseChunks_decodes {W} (callback : Z -> Z -> ptr -> Z -> ST W STATUS)
  (cb : Z -> Z -> list Z -> ST W STATUS) hdr cs w
  (Hcb : forall t f p n bs, pld_bytes p n = Ok bs -> callback t f p n = cb t f bs)
  (Hh : bytes_ok hdr) (Hhl : blen hdr = 12) (Hcs : Forall chunk_ok cs)
  (Hl : blen (hdr ++ enc_chunks cs) < 2 ^ 31) :
  sctpParseChunks callback (hdr ++ enc_chunks cs) (blen (hdr ++ enc_chunks cs)) w = runChunks cb cs w.
Proof.
  unfold sctpParseChunks, SCTP_COMMON_HEADER_SIZE. rewrite <- Hhl.
  apply (chunkLoop_run callback cb Hcb _ cs hdr); try done.
  pose proof (enc_chunks_count cs). rewrite blen_app, Hhl. Z.div_mod_to_equations. lia.
Qed.

(** ** Instances *)

Lemma sctpFinalize_validates_witness :
  exists pkt,
    sctpFinalizePacket ([19; 136; 19; 136; 0; 0; 0; 7] ++ [9; 9; 9; 9] ++ [11; 0; 0; 4]) 16 = Ok pkt /\
    blen pkt = 16 /\ sctpValidatePacket (Some pkt) (blen pkt) 7 = Ok (STATUS_SUCCESS, pkt).
Proof.
  refine (sctpFinalize_validates [19; 136; 19; 136; 0; 0; 0; 7] [9; 9; 9; 9] [11; 0; 0; 4] 7 7
            _ _ eq_refl eq_refl eq_refl); by apply bytes_ok_check.
Defined.

Lemma sctpValidate_rejects_corruption_witness :
  exists crc,
    sctpValidatePacket (Some ([19; 136; 19; 136; 0; 0; 0; 7] ++ crc ++ [11] ++ [1] ++ [0; 4])) 16 7
    = Ok (STATUS_SCTP_INVALID_DCEP_PACKET,
          [19; 136; 19; 136; 0; 0; 0; 7] ++ crc ++ [11] ++ [1] ++ [0; 4]).
Proof.
  eexists.
  refine (proj2 (sctpValidate_rejects_corruption [19; 136; 19; 136; 0; 0; 0; 7] [11] [0] [1] [0; 4] 7
    _ _ _ _ _ eq_refl eq_refl _ _)); [by apply bytes_ok_check..|repeat constructor|discriminate].
Defined.

(** A callback that logs the chunks and their values. *)
Definition logChunk (t f : Z) (p : ptr) (n : Z) : ST (list (Z * list Z)) STATUS :=
  bs ← lift (pld_bytes p n); modify (fun w => w ++ [(t, bs)]);; mret STATUS_SUCCESS.

Definition ex_packet : list Z :=
  [19; 136; 19; 136; 0; 0; 0; 7; 0; 0; 0; 0; 11; 0; 0; 4; 4; 0; 0; 6; 1; 2; 0; 0].

Lemma sctpParseChunks_safe_witness :
  wp (sctpParseChunks logChunk ex_packet 24)
     (fun st w => st = STATUS_SUCCESS /\ Forall (fun c => blen c.2 < 2 ^ 16) w) [].
Proof.
  refine (sctpParseChunks_safe logChunk (Forall (fun c => blen c.2 < 2 ^ 16)) (fun st => st = STATUS_SUCCESS)
            ex_packet [] _ _ eq_refl _ (Forall_nil _)); [by apply bytes_ok_check|vm_compute; intuition congruence|].
  intros t f v n w Hw (Hv & Hn & Hb). unfold logChunk. apply wp_bind.
  assert (E : pld_bytes (Ptr ex_packet v) n = Ok (take (Z.to_nat n) (drop (Z.to_nat v) ex_packet)))
    by (unfold pld_bytes; cbn [p_obj p_off]; apply ld_bytes_in; lia).
  eapply wp_lift; [exact E|]. wp_steps. split; [done|]. apply Forall_app. split; [done|]. constructor; [|constructor].
  apply ld_bytes_inv in E as (_ & _ & _ & E). cbn [snd]. lia.
Defined.

Lemma sctpParseChunks_decodes_witness :
  sctpParseChunks logChunk
    ([19; 136; 19; 136; 0; 0; 0; 7; 0; 0; 0; 0] ++ enc_chunks [Chunk 11 0 []; Chunk 4 0 [1; 2]])
    (blen ([19; 136; 19; 136; 0; 0; 0; 7; 0; 0; 0; 0] ++ enc_chunks [Chunk 11 0 []; Chunk 4 0 [1; 2]]))
    [] = Some (STATUS_SUCCESS, [(11, []); (4, [1; 2])]).
Proof.
  rewrite (sctpParseChunks_decodes logChunk
             (fun t f bs => modify (fun w => w ++ [(t, bs)]);; mret STATUS_SUCCESS));
    [reflexivity| |by apply bytes_ok_check|reflexivity| |vm_compute; reflexivity].
  - intros t f p n bs E. unfold logChunk. by rewrite E.
  - assert (forall t v, is_u8 t -> forallb (fun x => (0 <=? x) && (x <? 256)) v = true ->
              4 + blen v < 2 ^ 16 -> chunk_ok (Chunk t 0 v)) as Hc
      by (intros; split_and!; [done|done|by apply bytes_ok_check|done]).
    constructor; [by apply Hc|]. constructor; [by apply Hc|constructor].
Defined.
