(* ===== verification/SctpAssoc.v ===== *)
(** * The SCTP association (src/source/Sctp/SctpAssoc.c, SctpInt.h)

    Handshake, data transfer, selective acknowledgement, congestion control,
    retransmission with partial reliability, and shutdown, as stateful
    computations on a world: the association, the number of clock readings and of
    allocations made so far, and the log of calls of the outbound-packet and
    message callbacks.  The clock and the allocator are parameters.  The caller
    serialises the operations under the session lock. *)

From S2P Require Import Prelude Endian Crc32c SctpPacket.

(** ** Constants *)

Definition SCTP_MAX_PACKET_SIZE : Z := 1200.
Definition SCTP_DEFAULT_ARWND : Z := 131072.
Definition SCTP_INITIAL_CWND_MTUS : Z := 3.
Definition SCTP_MAX_STREAMS : Z := 300.
Definition SCTP_MAX_OUTSTANDING : Z := 2048.
Definition SCTP_MAX_RECEIVED : Z := 2048.
Definition SCTP_MAX_GAP_BLOCKS : Z := 128.
Definition SCTP_MAX_REASSEMBLY_SIZE : Z := 65536.
Definition SCTP_COOKIE_SIZE : Z := 44.
Definition SCTP_COOKIE_MAGIC1 : Z := 0x4B565343.
Definition SCTP_COOKIE_MAGIC2 : Z := 0x44415441.
Definition SCTP_RTO_INITIAL_MS : Z := 1000.
Definition SCTP_RTO_MAX_MS : Z := 60000.
Definition SCTP_MAX_INIT_RETRANS : Z := 8.
Definition SCTP_MAX_QUEUED_MESSAGES : Z := 32.
Definition SCTP_MAX_QUEUED_PAYLOAD : Z := 1200.
Definition SCTP_MAX_PENDING_SENDS : Z := 1024.
Definition HUNDREDS_OF_NANOS_IN_A_MILLISECOND : Z := 10000.

(** Serial-number comparisons of TSNs. *)
Definition TSN_LT (a b : Z) : bool := i32 (a -32 b) <? 0.
Definition TSN_LTE (a b : Z) : bool := i32 (a -32 b) <=? 0.
Definition TSN_GT (a b : Z) : bool := 0 <? i32 (a -32 b).
Definition TSN_GTE (a b : Z) : bool := 0 <=? i32 (a -32 b).

(** ** Data *)

Inductive SctpAssocState : Set :=
| SCTP_ASSOC_CLOSED
| SCTP_ASSOC_COOKIE_WAIT
| SCTP_ASSOC_COOKIE_ECHOED
| SCTP_ASSOC_ESTABLISHED
| SCTP_ASSOC_SHUTDOWN_PENDING
| SCTP_ASSOC_SHUTDOWN_SENT
| SCTP_ASSOC_SHUTDOWN_ACK_SENT.

#[export] Instance SctpAssocState_eq_dec : EqDecision SctpAssocState.
Proof. solve_decision. Defined.

Definition state_eqb (a b : SctpAssocState) : bool := bool_decide (a = b).

Set Primitive Projections.
Record SctpCookie : Type := {
  magic1 : Z; magic2 : Z; peerTag : Z; myTag : Z; peerInitialTsn : Z; myInitialTsn : Z;
  ck_peerArwnd : Z; ck_tieTag : Z; numInStreams : Z; numOutStreams : Z; reserved : Z;
}.

Record SctpOutstandingData : Type := {
  o_tsn : Z;
  o_streamId : Z;
  o_ssn : Z;
  o_ppid : Z;
  o_payload : option (list Z);
  o_payloadLen : Z;
  o_unordered : bool;
  o_sentTime : Z;
  o_retransmitCount : Z;
  o_acked : bool;
  o_abandoned : bool;
  o_maxRetransmits : Z;
  o_lifetimeMs : Z;
  o_creationTime : Z;
  o_inUse : bool;
}.

(** An entry of the queue of messages sent before the handshake ends, with an
    in-line payload array, and of the congestion queue, with a heap payload. *)
Record QueuedMessage : Type := {
  q_streamId : Z; q_ppid : Z; q_unordered : bool; q_maxRetransmits : Z; q_lifetimeMs : Z;
  q_payload : list Z; q_payloadLen : Z; q_inUse : bool;
}.
Record PendingSend : Type := {
  p_streamId : Z; p_ppid : Z; p_unordered : bool; p_maxRetransmits : Z; p_lifetimeMs : Z;
  p_payload : option (list Z); p_payloadLen : Z; p_inUse : bool;
}.

Record SctpAssociation : Type := {
  state : SctpAssocState;
  localPort : Z;
  remotePort : Z;
  myVerificationTag : Z;
  peerVerificationTag : Z;
  nextTsn : Z;
  cumulativeAckTsn : Z;
  outstanding : list SctpOutstandingData;
  outstandingCount : Z;
  nextSsn : list Z;
  peerCumulativeTsn : Z;
  peerCumulativeTsnValid : bool;
  receivedTsns : list Z;
  receivedTsnCount : Z;
  needSack : bool;
  cwnd : Z;
  ssthresh : Z;
  peerArwnd : Z;
  flightSize : Z;
  mtu : Z;
  t1InitExpiry : Z;
  t3RtxExpiry : Z;
  initRetransmitCount : Z;
  rtoMs : Z;
  srttMs : Z;
  outPacket : list Z;
  outPacketLen : Z;
  cookieEchoData : list Z;
  cookieEchoLen : Z;
  cookieEchoValid : bool;
  tieTag : Z;
  advancedPeerAckPoint : Z;
  reassemblyBuf : option (list Z);
  reassemblyLen : Z;
  reassemblyStreamId : Z;
  reassemblySsn : Z;
  reassemblyPpid : Z;
  reassemblyInProgress : bool;
  sendQueue : list QueuedMessage;
  sendQueueCount : Z;
  pendingQueue : list PendingSend;
  pendingQueueCount : Z;
}.

(** A call of the outbound-packet callback, or of the message callback with the
    stream, the payload protocol identifier and the payload. *)
Inductive Event : Type :=
| EvPacket (pkt : list Z)
| EvMessage (stream ppid : Z) (msg : list Z).

Record World : Type := { assoc : SctpAssociation; clock : nat; allocs : nat; events : list Event }.
Unset Primitive Projections.

#[export] Instance upd_assoc : Update assoc. Proof. derive_update. Defined.
#[export] Instance upd_clock : Update clock. Proof. derive_update. Defined.
#[export] Instance upd_allocs : Update allocs. Proof. derive_update. Defined.
#[export] Instance upd_events : Update events. Proof. derive_update. Defined.

#[export] Instance upd_o_payload : Update o_payload. Proof. derive_update. Defined.
#[export] Instance upd_o_acked : Update o_acked. Proof. derive_update. Defined.
#[export] Instance upd_o_abandoned : Update o_abandoned. Proof. derive_update. Defined.
#[export] Instance upd_o_inUse : Update o_inUse. Proof. derive_update. Defined.
#[export] Instance upd_o_retransmitCount : Update o_retransmitCount. Proof. derive_update. Defined.
#[export] Instance upd_q_inUse : Update q_inUse. Proof. derive_update. Defined.
#[export] Instance upd_p_payload : Update p_payload. Proof. derive_update. Defined.
#[export] Instance upd_p_inUse : Update p_inUse. Proof. derive_update. Defined.

#[export] Instance upd_state : Update state. Proof. derive_update. Defined.
#[export] Instance upd_peerVerificationTag : Update peerVerificationTag. Proof. derive_update. Defined.
#[export] Instance upd_nextTsn : Update nextTsn. Proof. derive_update. Defined.
#[export] Instance upd_cumulativeAckTsn : Update cumulativeAckTsn. Proof. derive_update. Defined.
#[export] Instance upd_outstanding : Update outstanding. Proof. derive_update. Defined.
#[export] Instance upd_outstandingCount : Update outstandingCount. Proof. derive_update. Defined.
#[export] Instance upd_nextSsn : Update nextSsn. Proof. derive_update. Defined.
#[export] Instance upd_peerCumulativeTsn : Update peerCumulativeTsn. Proof. derive_update. Defined.
#[export] Instance upd_peerCumulativeTsnValid : Update peerCumulativeTsnValid. Proof. derive_update. Defined.
#[export] Instance upd_receivedTsns : Update receivedTsns. Proof. derive_update. Defined.
#[export] Instance upd_receivedTsnCount : Update receivedTsnCount. Proof. derive_update. Defined.
#[export] Instance upd_needSack : Update needSack. Proof. derive_update. Defined.
#[export] Instance upd_cwnd : Update cwnd. Proof. derive_update. Defined.
#[export] Instance upd_ssthresh : Update ssthresh. Proof. derive_update. Defined.
#[export] Instance upd_peerArwnd : Update peerArwnd. Proof. derive_update. Defined.
#[export] Instance upd_flightSize : Update flightSize. Proof. derive_update. Defined.
#[export] Instance upd_t1InitExpiry : Update t1InitExpiry. Proof. derive_update. Defined.
#[export] Instance upd_t3RtxExpiry : Update t3RtxExpiry. Proof. derive_update. Defined.
#[export] Instance upd_initRetransmitCount : Update initRetransmitCount. Proof. derive_update. Defined.
#[export] Instance upd_rtoMs : Update rtoMs. Proof. derive_update. Defined.
#[export] Instance upd_outPacket : Update outPacket. Proof. derive_update. Defined.
#[export] Instance upd_cookieEchoData : Update cookieEchoData. Proof. derive_update. Defined.
#[export] Instance upd_cookieEchoLen : Update cookieEchoLen. Proof. derive_update. Defined.
#[export] Instance upd_cookieEchoValid : Update cookieEchoValid. Proof. derive_update. Defined.
#[export] Instance upd_advancedPeerAckPoint : Update advancedPeerAckPoint. Proof. derive_update. Defined.
#[export] Instance upd_reassemblyBuf : Update reassemblyBuf. Proof. derive_update. Defined.
#[export] Instance upd_reassemblyLen : Update reassemblyLen. Proof. derive_update. Defined.
#[export] Instance upd_reassemblyStreamId : Update reassemblyStreamId. Proof. derive_update. Defined.
#[export] Instance upd_reassemblySsn : Update reassemblySsn. Proof. derive_update. Defined.
#[export] Instance upd_reassemblyPpid : Update reassemblyPpid. Proof. derive_update. Defined.
#[export] Instance upd_reassemblyInProgress : Update reassemblyInProgress. Proof. derive_update. Defined.
#[export] Instance upd_sendQueue : Update sendQueue. Proof. derive_update. Defined.
#[export] Instance upd_sendQueueCount : Update sendQueueCount. Proof. derive_update. Defined.
#[export] Instance upd_pendingQueue : Update pendingQueue. Proof. derive_update. Defined.
#[export] Instance upd_pendingQueueCount : Update pendingQueueCount. Proof. derive_update. Defined.

(** [pAssoc->f]. *)
Abbreviation getA f := (gets (fun w : World => f (assoc w))).

(** ** Memory images of the cookie *)

(** The packed struct in the memory of a host of byte order [h]. *)
Definition cookie_bytes (h : endian) (c : SctpCookie) : list Z :=
  native_bytes32 h (magic1 c) ++ native_bytes32 h (magic2 c) ++ native_bytes32 h (peerTag c)
  ++ native_bytes32 h (myTag c) ++ native_bytes32 h (peerInitialTsn c)
  ++ native_bytes32 h (myInitialTsn c) ++ native_bytes32 h (ck_peerArwnd c)
  ++ native_bytes64 h (ck_tieTag c) ++ native_bytes16 h (numInStreams c)
  ++ native_bytes16 h (numOutStreams c) ++ native_bytes32 h (reserved c).

(** ** Loops on the association's arrays *)

(** The first slot that is not in use, by the index search loops. *)
Fixpoint firstFree {A} (inUse : A -> bool) (l : list A) : Z :=
  match l with
  | [] => 0
  | x :: l => if inUse x then 1 + firstFree inUse l else 0
  end.

(** The insertion sort of sctpSendSack.  [acc] is the sorted prefix, last element
    first: an element moves left past the greater ones. *)
Fixpoint insertTsn (t : Z) (acc : list Z) : list Z :=
  match acc with
  | x :: acc => if TSN_GT x t then x :: insertTsn t acc else t :: x :: acc
  | [] => [t]
  end.
Definition sortTsns (l : list Z) : list Z := rev (fold_left (fun acc t => insertTsn t acc) l []).

(** The gap blocks relative to [cum]; [gaps] are those found so far, last first. *)
Fixpoint gapLoop (cum : Z) (tsns : list Z) (gaps : list (Z * Z)) : list (Z * Z) :=
  match tsns with
  | [] => gaps
  | tsn :: tsns =>
      if SCTP_MAX_GAP_BLOCKS <=? Z.of_nat (length gaps) then gaps
      else if TSN_LTE tsn cum then gapLoop cum tsns gaps
      else
        let offset16 := u16 (tsn -32 cum) in
        match gaps with
        | (s, e) :: rest =>
            if offset16 =? e + 1 then gapLoop cum tsns ((s, offset16) :: rest)
            else gapLoop cum tsns ((offset16, offset16) :: gaps)
        | [] => gapLoop cum tsns [(offset16, offset16)]
        end
  end.

(** The index of the first entry equal to [t] among the first [count] ones. *)
Fixpoint findTsn (t : Z) (l : list Z) (count : nat) : option nat :=
  match count, l with
  | S count, x :: l => if x =? t then Some 0%nat else option_map S (findTsn t l count)
  | _, _ => None
  end.

(** Removal of entry [k]: the last of the [count] entries takes its place. *)
Definition removeAt (l : list Z) (k count : Z) : res (list Z) :=
  x ← lget l (count - 1); lput l k x.

(** Advances the cumulative TSN over the received ones that follow it.  Each
    iteration removes an entry, so [count] bounds the iterations. *)
Fixpoint advanceLoop (fuel : nat) (cum : Z) (l : list Z) (count : Z) : res (Z * list Z * Z) :=
  match findTsn (cum +32 1) l (Z.to_nat count) with
  | None => Ok (cum, l, count)
  | Some k =>
      match fuel with
      | O => Fault
      | S fuel =>
          l ← removeAt l (Z.of_nat k) count;
          advanceLoop fuel (cum +32 1) l (count - 1)
      end
  end.

(** Removes the received TSNs up to [newCum]; [fuel] bounds [count - i]. *)
Fixpoint purgeLoop (fuel : nat) (newCum i : Z) (l : list Z) (count : Z) : res (list Z * Z) :=
  if i <? count then
    match fuel with
    | O => Fault
    | S fuel =>
        t ← lget l i;
        if TSN_LTE t newCum then
          l ← removeAt l i count;
          purgeLoop fuel newCum i l (count - 1)
        else purgeLoop fuel newCum (i + 1) l count
    end
  else Ok (l, count).

(** The accounting of an acknowledgement pass over the outstanding chunks:
    released chunks, newly acknowledged bytes, flight size and chunk count. *)
Definition releaseSlot (d : SctpOutstandingData) : SctpOutstandingData :=
  d <| o_acked := true |> <| o_payload := None |> <| o_inUse := false |>.

Fixpoint ackLoop (hit : Z -> bool) (l : list SctpOutstandingData) (bytes flight count : Z)
    : list SctpOutstandingData * Z * Z * Z :=
  match l with
  | [] => ([], bytes, flight, count)
  | d :: l =>
      if negb (o_inUse d) || o_acked d || negb (hit (o_tsn d)) then
        let '(l, bytes, flight, count) := ackLoop hit l bytes flight count in
        (d :: l, bytes, flight, count)
      else
        let '(l, bytes, flight, count) :=
          ackLoop hit l (bytes +32 o_payloadLen d) (flight -32 o_payloadLen d) (count -32 1) in
        (releaseSlot d :: l, bytes, flight, count)
  end.

(** ** Operations

    The environment: the byte order [h] of the host, the value [gettime n] of the
    n-th reading of GETTIME, the outcome [memalloc n size] of the n-th MEMALLOC (a
    block with arbitrary content, or NULL), and whether a message callback is
    registered. *)
Section Operations.
Variable h : endian.
Variable gettime : nat -> Z.
Variable memalloc : nat -> Z -> option (list Z).
Variable hasMsg : bool.

Definition setA (f : SctpAssociation -> SctpAssociation) : ST World unit :=
  modify (fun w => w <| assoc := f (assoc w) |>).
Definition emit (e : Event) : ST World unit :=
  modify (fun w => w <| events := events w ++ [e] |>).

Definition GETTIME : ST World Z := fun w =>
  Some (gettime (clock w), w <| clock := S (clock w) |>).
Definition MEMALLOC (n : Z) : ST World (option (list Z)) := fun w =>
  Some (memalloc (allocs w) n, w <| allocs := S (allocs w) |>).

Definition SCTP_NOW_MS : ST World Z :=
  t ← GETTIME; mret (t / (10 * HUNDREDS_OF_NANOS_IN_A_MILLISECOND)).

(** The pointer of a heap object; NULL gives access to no byte. *)
Definition ptrOf (o : option (list Z)) : ptr := Ptr (default [] o) 0.

(** Big-endian fields of a chunk value. *)
Definition be32At (p : ptr) (i : Z) : ST World Z :=
  v ← lift (getUnalignedInt32Be (p_obj p) (p_off p + i)); mret (u32 v).
Definition be16At (p : ptr) (i : Z) : ST World Z :=
  v ← lift (getUnalignedInt16Be (p_obj p) (p_off p + i)); mret (u16 v).

Definition sctpGenerateTag : ST World Z :=
  t1 ← GETTIME;
  t2 ← GETTIME;
  let tag := Z.lxor (u32 (Z.land t1 0xFFFFFFFF)) (u32 (Z.land (Z.shiftr t2 32) 0xFFFFFFFF)) in
  mret (if tag =? 0 then 0x12345678 else tag).

(** *** Sending packets *)

Definition sctpSendPacket (packetLen : Z) : ST World unit :=
  buf ← getA outPacket;
  buf ← lift (sctpFinalizePacket buf packetLen);
  setA (fun a => a <| outPacket := buf |>);;
  pkt ← lift (ld_bytes buf 0 packetLen);
  emit (EvPacket pkt).

(** offset = sctpWriteCommonHeader(pAssoc->outPacket, localPort, remotePort, vtag) *)
Definition beginPacket (vtag : Z) : ST World Z :=
  a ← gets (fun w => assoc w);
  '(buf, n) ← lift (sctpWriteCommonHeader (outPacket a) 0 (localPort a) (remotePort a) vtag);
  setA (fun a => a <| outPacket := buf |>);;
  mret n.

(** offset += sctpWrite...Chunk(pAssoc->outPacket + offset, ...) *)
Definition addChunk (writer : list Z -> Z -> res (list Z * Z)) (offset : Z) : ST World Z :=
  buf ← getA outPacket;
  '(buf, n) ← lift (writer buf offset);
  setA (fun a => a <| outPacket := buf |>);;
  mret (offset +32 n).

(** A packet with one chunk: header, chunk, sctpSendPacket. *)
Definition sendChunk (vtag : Z) (writer : list Z -> Z -> res (list Z * Z)) : ST World unit :=
  offset ← beginPacket vtag;
  offset ← addChunk writer offset;
  sctpSendPacket offset.

Definition sctpSendSack : ST World unit :=
  a ← gets (fun w => assoc w);
  if negb (peerCumulativeTsnValid a) then mret tt else
  let sortedCount := if SCTP_MAX_RECEIVED <? receivedTsnCount a then SCTP_MAX_RECEIVED
                     else receivedTsnCount a in
  tsns ← lift (ld_bytes (receivedTsns a) 0 sortedCount);
  let gaps := rev (gapLoop (peerCumulativeTsn a) (sortTsns tsns) []) in
  sendChunk (peerVerificationTag a)
    (fun buf o => sctpWriteSackChunk buf o (peerCumulativeTsn a) SCTP_DEFAULT_ARWND gaps);;
  setA (fun a => a <| needSack := false |>).

(** *** Sending messages *)

(** MEMALLOC and, unless it fails, MEMCPY of the payload. *)
Definition copyPayload (payload : ptr) (payloadLen : Z) : ST World (option (list Z)) :=
  block ← MEMALLOC payloadLen;
  match block with
  | Some b =>
      bs ← lift (pld_bytes payload payloadLen);
      b ← lift (put_bytes b 0 bs);
      mret (Some b)
  | None => mret None
  end.

(** Queues a message held back by congestion: the pendingQueue blocks of
    sctpAssocSend. *)
Definition queuePending (streamId ppid : Z) (unordered : bool) (payload : ptr)
    (payloadLen maxRetransmits lifetimeMs : Z) : ST World unit :=
  a ← gets (fun w => assoc w);
  if pendingQueueCount a <? SCTP_MAX_PENDING_SENDS then
    let slot := firstFree p_inUse (pendingQueue a) in
    if slot <? SCTP_MAX_PENDING_SENDS then
      let entry := {| p_streamId := streamId; p_ppid := ppid; p_unordered := unordered;
                      p_maxRetransmits := maxRetransmits; p_lifetimeMs := lifetimeMs;
                      p_payload := None; p_payloadLen := payloadLen; p_inUse := false |} in
      copy ← copyPayload payload payloadLen;
      match copy with
      | Some b =>
          q ← lift (lput (pendingQueue a) slot
                      (entry <| p_payload := Some b |> <| p_inUse := true |>));
          setA (fun a => a <| pendingQueue := q |>
                           <| pendingQueueCount := pendingQueueCount a +32 1 |>)
      | None =>
          q ← lift (lput (pendingQueue a) slot entry);
          setA (fun a => a <| pendingQueue := q |>)
      end
    else mret tt
  else mret tt.

(** Fills outstanding slot [i] and counts the chunk as in flight. *)
Definition fillOutstanding (i tsn streamId ssn ppid : Z) (unordered : bool) (payload : ptr)
    (payloadLen maxRetransmits lifetimeMs nowMs : Z) : ST World unit :=
  copy ← copyPayload payload payloadLen;
  l ← getA outstanding;
  l ← lift (lput l i
        {| o_tsn := tsn; o_streamId := streamId; o_ssn := ssn; o_ppid := ppid; o_payload := copy;
           o_payloadLen := payloadLen; o_unordered := unordered; o_sentTime := nowMs;
           o_retransmitCount := 0; o_acked := false; o_abandoned := false;
           o_maxRetransmits := maxRetransmits; o_lifetimeMs := lifetimeMs;
           o_creationTime := nowMs; o_inUse := true |});
  setA (fun a => a <| outstanding := l |>
                   <| outstandingCount := outstandingCount a +32 1 |>
                   <| flightSize := flightSize a +32 payloadLen |>).

(** Start T3-rtx if not running. *)
Definition startT3 (nowMs : Z) : ST World unit :=
  setA (fun a => if t3RtxExpiry a =? 0 then a <| t3RtxExpiry := u64 (nowMs + rtoMs a) |> else a).

(** tsn = pAssoc->nextTsn++ *)
Definition takeTsn : ST World Z :=
  tsn ← getA nextTsn;
  setA (fun a => a <| nextTsn := nextTsn a +32 1 |>);;
  mret tsn.

(** The DATA chunk of a fragment, with its flags. *)
Definition writeFragment (fragFlags tsn streamId ssn ppid : Z) (payload : ptr) (fragmentLen : Z)
    (buf : list Z) (o : Z) : res (list Z * Z) :=
  let chunkLen := SCTP_DATA_HEADER_SIZE +32 fragmentLen in
  buf ← putChunkHeader buf o SCTP_CHUNK_DATA fragFlags chunkLen;
  buf ← putUnalignedInt32Be buf (o + 4) (i32 tsn);
  buf ← putUnalignedInt16Be buf (o + 8) (i16 streamId);
  buf ← putUnalignedInt16Be buf (o + 10) (i16 ssn);
  buf ← putUnalignedInt32Be buf (o + 12) (i32 ppid);
  bs ← pld_bytes payload fragmentLen;
  buf ← put_bytes buf (o + SCTP_DATA_HEADER_SIZE) bs;
  Ok (buf, SCTP_PAD4 chunkLen).

(** The fragmentation loop; [false] when it returned early.  Every iteration
    but the last fills an outstanding slot, so it runs at most
    SCTP_MAX_OUTSTANDING + 1 times. *)
Fixpoint fragmentLoop (fuel : nat) (streamId ssn ppid : Z) (unordered : bool) (payload : ptr)
    (maxRetransmits lifetimeMs nowMs maxDataPayload remaining fragmentOffset : Z) (isFirst : bool)
    : ST World bool :=
  if 0 <? remaining then
    match fuel with
    | O => fun _ => None
    | S fuel =>
        let fragmentLen := if maxDataPayload <? remaining then maxDataPayload else remaining in
        let isLast := remaining -32 fragmentLen =? 0 in
        let fragFlags := Z.lor (Z.lor (if isFirst then SCTP_DATA_FLAG_BEGIN else 0)
                                      (if isLast then SCTP_DATA_FLAG_END else 0))
                               (if unordered then SCTP_DATA_FLAG_UNORDERED else 0) in
        tsn ← takeTsn;
        l ← getA outstanding;
        let i := firstFree o_inUse l in
        if SCTP_MAX_OUTSTANDING <=? i then mret false else
        let fragment := padd payload fragmentOffset in
        fillOutstanding i tsn streamId ssn ppid unordered fragment fragmentLen
          maxRetransmits lifetimeMs nowMs;;
        vtag ← getA peerVerificationTag;
        sendChunk vtag (writeFragment fragFlags tsn streamId ssn ppid fragment fragmentLen);;
        fragmentLoop fuel streamId ssn ppid unordered payload maxRetransmits lifetimeMs nowMs
          maxDataPayload (remaining -32 fragmentLen) (fragmentOffset +32 fragmentLen) false
    end
  else mret true.

(** Queues a message until the association is established. *)
Definition queueUnsent (streamId ppid : Z) (unordered : bool) (payload : ptr)
    (payloadLen maxRetransmits lifetimeMs : Z) : ST World unit :=
  a ← gets (fun w => assoc w);
  if (sendQueueCount a <? SCTP_MAX_QUEUED_MESSAGES) && (payloadLen <=? SCTP_MAX_QUEUED_PAYLOAD) then
    let i := firstFree q_inUse (sendQueue a) in
    if i <? SCTP_MAX_QUEUED_MESSAGES then
      q ← lift (lget (sendQueue a) i);
      bs ← lift (pld_bytes payload payloadLen);
      buf ← lift (put_bytes (q_payload q) 0 bs);
      l ← lift (lput (sendQueue a) i
            {| q_streamId := streamId; q_ppid := ppid; q_unordered := unordered;
               q_maxRetransmits := maxRetransmits; q_lifetimeMs := lifetimeMs;
               q_payload := buf; q_payloadLen := payloadLen; q_inUse := true |});
      setA (fun a => a <| sendQueue := l |> <| sendQueueCount := sendQueueCount a +32 1 |>)
    else mret tt
  else mret tt.

(** ssn = pAssoc->nextSsn[streamId]++ for an ordered message on a known stream. *)
Definition takeSsn (streamId : Z) (unordered : bool) : ST World Z :=
  if negb unordered && (streamId <? SCTP_MAX_STREAMS) then
    l ← getA nextSsn;
    ssn ← lift (lget l streamId);
    l ← lift (lput l streamId (u16 (ssn + 1)));
    setA (fun a => a <| nextSsn := l |>);;
    mret ssn
  else mret 0.

Definition revertSsn (streamId : Z) (unordered : bool) : ST World unit :=
  if negb unordered && (streamId <? SCTP_MAX_STREAMS) then
    l ← getA nextSsn;
    ssn ← lift (lget l streamId);
    l ← lift (lput l streamId (u16 (ssn - 1)));
    setA (fun a => a <| nextSsn := l |>)
  else mret tt.

Definition sctpAssocSend (streamId ppid : Z) (unordered : bool) (pPayload : ptr)
    (payloadLen maxRetransmits lifetimeMs : Z) : ST World STATUS :=
  nowMs ← SCTP_NOW_MS;
  a ← gets (fun w => assoc w);
  if negb (state_eqb (state a) SCTP_ASSOC_ESTABLISHED) then
    queueUnsent streamId ppid unordered pPayload payloadLen maxRetransmits lifetimeMs;;
    mret STATUS_SUCCESS
  else if (cwnd a <=? flightSize a) || (peerArwnd a <=? flightSize a) then
    queuePending streamId ppid unordered pPayload payloadLen maxRetransmits lifetimeMs;;
    mret STATUS_SUCCESS
  else
    ssn ← takeSsn streamId unordered;
    let maxDataPayload := u32 (mtu a - SCTP_COMMON_HEADER_SIZE - SCTP_DATA_HEADER_SIZE) in
    if payloadLen <=? maxDataPayload then
      let i := firstFree o_inUse (outstanding a) in
      if SCTP_MAX_OUTSTANDING <=? i then
        revertSsn streamId unordered;;
        queuePending streamId ppid unordered pPayload payloadLen maxRetransmits lifetimeMs;;
        mret STATUS_SUCCESS
      else
        tsn ← takeTsn;
        fillOutstanding i tsn streamId ssn ppid unordered pPayload payloadLen
          maxRetransmits lifetimeMs nowMs;;
        sendChunk (peerVerificationTag a)
          (fun buf o => sctpWriteDataChunk buf o tsn streamId ssn ppid unordered pPayload payloadLen);;
        startT3 nowMs;;
        mret STATUS_SUCCESS
    else
      completed ← fragmentLoop (S (Z.to_nat SCTP_MAX_OUTSTANDING)) streamId ssn ppid unordered
                    pPayload maxRetransmits lifetimeMs nowMs maxDataPayload payloadLen 0 true;
      when completed (startT3 nowMs);;
      mret STATUS_SUCCESS.

(** The messages queued before the association was established. *)
Fixpoint flushLoop (n : nat) (i : Z) : ST World unit :=
  match n with
  | O => mret tt
  | S n =>
      l ← getA sendQueue;
      q ← lift (lget l i);
      (if q_inUse q then
         sctpAssocSend (q_streamId q) (q_ppid q) (q_unordered q) (Ptr (q_payload q) 0)
           (q_payloadLen q) (q_maxRetransmits q) (q_lifetimeMs q);;
         l ← getA sendQueue;
         q ← lift (lget l i);
         l ← lift (lput l i (q <| q_inUse := false |>));
         setA (fun a => a <| sendQueue := l |> <| sendQueueCount := sendQueueCount a -32 1 |>)
       else mret tt);;
      flushLoop n (i + 1)
  end.
Definition sctpFlushSendQueue : ST World unit := flushLoop (Z.to_nat SCTP_MAX_QUEUED_MESSAGES) 0.

(** The messages held back by congestion, until the window closes again. *)
Fixpoint drainLoop (n : nat) (slot : Z) : ST World unit :=
  match n with
  | O => mret tt
  | S n =>
      a ← gets (fun w => assoc w);
      p ← lift (lget (pendingQueue a) slot);
      if negb (p_inUse p) then drainLoop n (slot + 1)
      else if (cwnd a <=? flightSize a) || (peerArwnd a <=? flightSize a)
              || (SCTP_MAX_OUTSTANDING <=? outstandingCount a) then mret tt
      else
        l ← lift (lput (pendingQueue a) slot (p <| p_payload := None |> <| p_inUse := false |>));
        setA (fun a => a <| pendingQueue := l |>
                         <| pendingQueueCount := pendingQueueCount a -32 1 |>);;
        sctpAssocSend (p_streamId p) (p_ppid p) (p_unordered p) (ptrOf (p_payload p))
          (p_payloadLen p) (p_maxRetransmits p) (p_lifetimeMs p);;
        drainLoop n (slot + 1)
  end.
Definition sctpDrainPendingQueue : ST World unit := drainLoop (Z.to_nat SCTP_MAX_PENDING_SENDS) 0.

(** *** Handshake chunks *)

Definition sctpHandleInit (pValue : ptr) (valueLen : Z) : ST World STATUS :=
  if valueLen <? 16 then mret STATUS_SUCCESS else
  peerTag ← be32At pValue 0;
  peerArwnd ← be32At pValue 4;
  peerOutStreams ← be16At pValue 8;
  peerInStreams ← be16At pValue 10;
  peerInitialTsn ← be32At pValue 12;
  a ← gets (fun w => assoc w);
  let cookie := {| magic1 := SCTP_COOKIE_MAGIC1; magic2 := SCTP_COOKIE_MAGIC2;
                   peerTag := peerTag; myTag := myVerificationTag a;
                   peerInitialTsn := peerInitialTsn; myInitialTsn := nextTsn a;
                   ck_peerArwnd := peerArwnd; ck_tieTag := tieTag a;
                   numInStreams := if peerOutStreams <? SCTP_MAX_STREAMS then peerOutStreams
                                   else SCTP_MAX_STREAMS;
                   numOutStreams := if peerInStreams <? SCTP_MAX_STREAMS then peerInStreams
                                    else SCTP_MAX_STREAMS;
                   reserved := 0 |} in
  sendChunk peerTag
    (fun buf o => sctpWriteInitAckChunk buf o (myVerificationTag a) SCTP_DEFAULT_ARWND
                    SCTP_MAX_STREAMS SCTP_MAX_STREAMS (nextTsn a) (cookie_bytes h cookie)
                    SCTP_COOKIE_SIZE);;
  mret STATUS_SUCCESS.

(** The search of the State Cookie parameter; [true] when it was stored.  The
    offset grows by at least 4, so [valueLen / 4] iterations are enough. *)
Fixpoint cookieLoop (fuel : nat) (pValue : ptr) (valueLen paramOffset : Z) : ST World bool :=
  if paramOffset +32 4 <=? valueLen then
    match fuel with
    | O => fun _ => None
    | S fuel =>
        paramType ← be16At pValue paramOffset;
        paramLen ← be16At pValue (paramOffset + 2);
        if paramLen <? 4 then mret false
        else if paramType =? SCTP_PARAM_STATE_COOKIE then
          let cookieDataLen := paramLen - 4 in
          if (cookieDataLen <=? SCTP_COOKIE_SIZE) && (paramOffset +32 paramLen <=? valueLen) then
            data ← getA cookieEchoData;
            bs ← lift (pld_bytes (padd pValue (paramOffset + 4)) cookieDataLen);
            data ← lift (put_bytes data 0 bs);
            setA (fun a => a <| cookieEchoData := data |> <| cookieEchoLen := cookieDataLen |>
                             <| cookieEchoValid := true |>);;
            mret true
          else mret false
        else cookieLoop fuel pValue valueLen (paramOffset +32 SCTP_PAD4 paramLen)
    end
  else mret false.

Definition sctpHandleInitAck (pValue : ptr) (valueLen : Z) : ST World STATUS :=
  if valueLen <? 16 then mret STATUS_SUCCESS else
  st ← getA state;
  if negb (state_eqb st SCTP_ASSOC_COOKIE_WAIT) && negb (state_eqb st SCTP_ASSOC_CLOSED)
  then mret STATUS_SUCCESS else
  peerTag ← be32At pValue 0;
  arwnd ← be32At pValue 4;
  _ ← be16At pValue 8;
  _ ← be16At pValue 10;
  initialTsn ← be32At pValue 12;
  setA (fun a => a <| peerVerificationTag := peerTag |> <| peerArwnd := arwnd |>
                   <| peerCumulativeTsn := initialTsn -32 1 |>
                   <| peerCumulativeTsnValid := true |>);;
  cookieFound ← cookieLoop (Z.to_nat (valueLen / 4)) pValue valueLen 16;
  if negb cookieFound then mret STATUS_SUCCESS else
  a ← gets (fun w => assoc w);
  sendChunk (peerVerificationTag a)
    (fun buf o => sctpWriteCookieEchoChunk buf o (cookieEchoData a) (cookieEchoLen a));;
  setA (fun a => a <| state := SCTP_ASSOC_COOKIE_ECHOED |>);;
  now ← SCTP_NOW_MS;
  setA (fun a => a <| t1InitExpiry := u64 (now + rtoMs a) |>);;
  mret STATUS_SUCCESS.

Definition sctpHandleCookieEcho (pValue : ptr) (valueLen : Z) : ST World STATUS :=
  if valueLen <? SCTP_COOKIE_SIZE then mret STATUS_SUCCESS else
  let field i := lift (native32 h (p_obj pValue) (p_off pValue + i)) in
  m1 ← field 0;
  m2 ← field 4;
  if negb (m1 =? SCTP_COOKIE_MAGIC1) || negb (m2 =? SCTP_COOKIE_MAGIC2) then mret STATUS_SUCCESS else
  tag ← field 8;
  initialTsn ← field 16;
  arwnd ← field 24;
  setA (fun a => a <| peerVerificationTag := tag |>
                   <| peerCumulativeTsn := initialTsn -32 1 |>
                   <| peerCumulativeTsnValid := true |>
                   <| peerArwnd := arwnd |>);;
  sendChunk tag sctpWriteCookieAckChunk;;
  setA (fun a => a <| state := SCTP_ASSOC_ESTABLISHED |> <| t1InitExpiry := 0 |>);;
  sctpFlushSendQueue;;
  mret STATUS_SUCCESS.

Definition sctpHandleCookieAck : ST World STATUS :=
  st ← getA state;
  if negb (state_eqb st SCTP_ASSOC_COOKIE_ECHOED) then mret STATUS_SUCCESS else
  setA (fun a => a <| state := SCTP_ASSOC_ESTABLISHED |> <| t1InitExpiry := 0 |>);;
  sctpFlushSendQueue;;
  mret STATUS_SUCCESS.

(** *** Received data *)

(** The receive tracking of sctpHandleData; [false] for a duplicate or old TSN. *)
Definition trackTsn (tsn : Z) : ST World bool :=
  setA (fun a => if peerCumulativeTsnValid a then a
                 else a <| peerCumulativeTsn := tsn -32 1 |> <| peerCumulativeTsnValid := true |>);;
  a ← gets (fun w => assoc w);
  if tsn =? peerCumulativeTsn a +32 1 then
    '(cum, l, count) ← lift (advanceLoop (Z.to_nat (receivedTsnCount a)) tsn
                               (receivedTsns a) (receivedTsnCount a));
    setA (fun a => a <| peerCumulativeTsn := cum |> <| receivedTsns := l |>
                     <| receivedTsnCount := count |>);;
    mret true
  else if TSN_GT tsn (peerCumulativeTsn a +32 1) then
    let duplicate := bool_decide (is_Some (findTsn tsn (receivedTsns a)
                                             (Z.to_nat (receivedTsnCount a)))) in
    (if negb duplicate && (receivedTsnCount a <? SCTP_MAX_RECEIVED) then
       l ← lift (lput (receivedTsns a) (receivedTsnCount a) tsn);
       setA (fun a => a <| receivedTsns := l |>
                        <| receivedTsnCount := receivedTsnCount a +32 1 |>)
     else mret tt);;
    mret true
  else mret false.

(** The delivery of a complete or fragmented message. *)
Definition deliverData (flags streamId ssn ppid : Z) (pPayload : ptr) (payloadLen : Z)
    : ST World unit :=
  let isBegin := negb (Z.land flags SCTP_DATA_FLAG_BEGIN =? 0) in
  let isEnd := negb (Z.land flags SCTP_DATA_FLAG_END =? 0) in
  if isBegin && isEnd then
    msg ← lift (pld_bytes pPayload payloadLen);
    emit (EvMessage streamId ppid msg)
  else if isBegin then
    buf ← getA reassemblyBuf;
    (match buf with
     | Some _ => mret tt
     | None => b ← MEMALLOC SCTP_MAX_REASSEMBLY_SIZE; setA (fun a => a <| reassemblyBuf := b |>)
     end);;
    buf ← getA reassemblyBuf;
    match buf with
    | Some b =>
        if payloadLen <=? SCTP_MAX_REASSEMBLY_SIZE then
          bs ← lift (pld_bytes pPayload payloadLen);
          b ← lift (put_bytes b 0 bs);
          setA (fun a => a <| reassemblyBuf := Some b |> <| reassemblyLen := payloadLen |>
                           <| reassemblyStreamId := streamId |> <| reassemblySsn := ssn |>
                           <| reassemblyPpid := ppid |> <| reassemblyInProgress := true |>)
        else mret tt
    | None => mret tt
    end
  else
    inProgress ← getA reassemblyInProgress;
    if (inProgress : bool) then
      a ← gets (fun w => assoc w);
      (match reassemblyBuf a with
       | Some b =>
           if reassemblyLen a +32 payloadLen <=? SCTP_MAX_REASSEMBLY_SIZE then
             bs ← lift (pld_bytes pPayload payloadLen);
             b ← lift (put_bytes b (reassemblyLen a) bs);
             setA (fun a => a <| reassemblyBuf := Some b |>
                              <| reassemblyLen := reassemblyLen a +32 payloadLen |>)
           else mret tt
       | None => mret tt
       end);;
      when isEnd
        (a ← gets (fun w => assoc w);
         msg ← lift (pld_bytes (ptrOf (reassemblyBuf a)) (reassemblyLen a));
         emit (EvMessage (reassemblyStreamId a) (reassemblyPpid a) msg);;
         setA (fun a => a <| reassemblyInProgress := false |> <| reassemblyLen := 0 |>))
    else mret tt.

Definition sctpHandleData (flags : Z) (pValue : ptr) (valueLen : Z) : ST World STATUS :=
  if valueLen <? 12 then mret STATUS_SUCCESS else
  st ← getA state;
  if negb (state_eqb st SCTP_ASSOC_ESTABLISHED) then mret STATUS_SUCCESS else
  tsn ← be32At pValue 0;
  streamId ← be16At pValue 4;
  ssn ← be16At pValue 6;
  ppid ← be32At pValue 8;
  fresh ← trackTsn tsn;
  setA (fun a => a <| needSack := true |>);;
  (if (fresh : bool) then when hasMsg (deliverData flags streamId ssn ppid (padd pValue 12) (valueLen - 12))
   else mret tt);;
  sctpSendSack;;
  mret STATUS_SUCCESS.

(** *** Acknowledgements *)

Definition ackPass (hit : Z -> bool) (bytes : Z) : ST World Z :=
  a ← gets (fun w => assoc w);
  let '(l, bytes, flight, count) :=
    ackLoop hit (outstanding a) bytes (flightSize a) (outstandingCount a) in
  setA (fun a => a <| outstanding := l |> <| flightSize := flight |>
                   <| outstandingCount := count |>);;
  mret bytes.

Fixpoint gapAckLoop (n : nat) (pValue : ptr) (cumTsn gapOffset bytes : Z) : ST World Z :=
  match n with
  | O => mret bytes
  | S n =>
      gapStart ← be16At pValue gapOffset;
      gapEnd ← be16At pValue (gapOffset + 2);
      bytes ← ackPass (fun tsn => TSN_GTE tsn (cumTsn +32 gapStart)
                                  && TSN_LTE tsn (cumTsn +32 gapEnd)) bytes;
      gapAckLoop n pValue cumTsn (gapOffset + 4) bytes
  end.

(** Slow start or congestion avoidance after [bytes] newly acknowledged bytes. *)
Definition growWindow (bytes : Z) (a : SctpAssociation) : SctpAssociation :=
  if cwnd a <=? ssthresh a
  then a <| cwnd := cwnd a +32 (if mtu a <? bytes then mtu a else bytes) |>
  else a <| cwnd := cwnd a +32 mtu a |>.

Definition sctpHandleSack (pValue : ptr) (valueLen : Z) : ST World STATUS :=
  if valueLen <? 12 then mret STATUS_SUCCESS else
  cumTsn ← be32At pValue 0;
  arwnd ← be32At pValue 4;
  numGaps ← be16At pValue 8;
  _ ← be16At pValue 10;
  setA (fun a => a <| peerArwnd := arwnd |>);;
  bytes ← ackPass (fun tsn => TSN_LTE tsn cumTsn) 0;
  bytes ← (if (0 <? numGaps) && (12 + numGaps * 4 <=? valueLen)
           then gapAckLoop (Z.to_nat numGaps) pValue cumTsn 12 bytes else mret bytes);
  setA (fun a => if TSN_GT cumTsn (cumulativeAckTsn a) then a <| cumulativeAckTsn := cumTsn |> else a);;
  when (0 <? bytes)
    (setA (growWindow bytes);;
     count ← getA outstandingCount;
     (if count =? 0 then setA (fun a => a <| t3RtxExpiry := 0 |>)
      else now ← SCTP_NOW_MS; setA (fun a => a <| t3RtxExpiry := u64 (now + rtoMs a) |>));;
     pending ← getA pendingQueueCount;
     when (0 <? pending) sctpDrainPendingQueue);;
  mret STATUS_SUCCESS.

Definition sctpHandleForwardTsn (pValue : ptr) (valueLen : Z) : ST World STATUS :=
  if valueLen <? 4 then mret STATUS_SUCCESS else
  newCumTsn ← be32At pValue 0;
  a ← gets (fun w => assoc w);
  when (TSN_GT newCumTsn (peerCumulativeTsn a))
    ('(l, count) ← lift (purgeLoop (Z.to_nat (receivedTsnCount a)) newCumTsn 0
                           (receivedTsns a) (receivedTsnCount a));
     '(cum, l, count) ← lift (advanceLoop (Z.to_nat count) newCumTsn l count);
     setA (fun a => a <| peerCumulativeTsn := cum |> <| receivedTsns := l |>
                      <| receivedTsnCount := count |>));;
  setA (fun a => a <| needSack := true |>);;
  sctpSendSack;;
  mret STATUS_SUCCESS.

(** *** Shutdown chunks and dispatch *)

Definition sctpHandleShutdown (pValue : ptr) (valueLen : Z) : ST World STATUS :=
  vtag ← getA peerVerificationTag;
  sendChunk vtag sctpWriteShutdownAckChunk;;
  setA (fun a => a <| state := SCTP_ASSOC_SHUTDOWN_ACK_SENT |>);;
  mret STATUS_SUCCESS.

Definition sctpHandleShutdownAck : ST World STATUS :=
  vtag ← getA peerVerificationTag;
  sendChunk vtag sctpWriteShutdownCompleteChunk;;
  setA (fun a => a <| state := SCTP_ASSOC_CLOSED |>);;
  mret STATUS_SUCCESS.

(** The HEARTBEAT-ACK, which echoes the value. *)
Definition writeHeartbeatAck (pValue : ptr) (valueLen : Z) (buf : list Z) (o : Z) : res (list Z * Z) :=
  buf ← putChunkHeader buf o SCTP_CHUNK_HEARTBEAT_ACK 0 (SCTP_CHUNK_HEADER_SIZE + valueLen);
  bs ← pld_bytes pValue valueLen;
  buf ← put_bytes buf (o + SCTP_CHUNK_HEADER_SIZE) bs;
  Ok (buf, SCTP_PAD4 (SCTP_CHUNK_HEADER_SIZE + valueLen)).

Definition sctpHandleHeartbeat (pValue : ptr) (valueLen : Z) : ST World STATUS :=
  vtag ← getA peerVerificationTag;
  offset ← beginPacket vtag;
  when (offset +32 SCTP_CHUNK_HEADER_SIZE +32 valueLen <=? SCTP_MAX_PACKET_SIZE)
    (offset ← addChunk (writeHeartbeatAck pValue valueLen) offset;
     sctpSendPacket offset);;
  mret STATUS_SUCCESS.

Definition sctpChunkDispatch (type flags : Z) (pValue : ptr) (valueLen : Z) : ST World STATUS :=
  if type =? SCTP_CHUNK_INIT then sctpHandleInit pValue valueLen
  else if type =? SCTP_CHUNK_INIT_ACK then sctpHandleInitAck pValue valueLen
  else if type =? SCTP_CHUNK_COOKIE_ECHO then sctpHandleCookieEcho pValue valueLen
  else if type =? SCTP_CHUNK_COOKIE_ACK then sctpHandleCookieAck
  else if type =? SCTP_CHUNK_DATA then sctpHandleData flags pValue valueLen
  else if type =? SCTP_CHUNK_SACK then sctpHandleSack pValue valueLen
  else if type =? SCTP_CHUNK_FORWARD_TSN then sctpHandleForwardTsn pValue valueLen
  else if type =? SCTP_CHUNK_HEARTBEAT then sctpHandleHeartbeat pValue valueLen
  else if type =? SCTP_CHUNK_SHUTDOWN then sctpHandleShutdown pValue valueLen
  else if type =? SCTP_CHUNK_SHUTDOWN_ACK then sctpHandleShutdownAck
  else if (type =? SCTP_CHUNK_SHUTDOWN_COMPLETE) || (type =? SCTP_CHUNK_ABORT) then
    setA (fun a => a <| state := SCTP_ASSOC_CLOSED |>);; mret STATUS_SUCCESS
  else mret STATUS_SUCCESS.

(** *** Public operations *)

Definition zeroOutstanding : SctpOutstandingData :=
  {| o_tsn := 0; o_streamId := 0; o_ssn := 0; o_ppid := 0; o_payload := None; o_payloadLen := 0;
     o_unordered := false; o_sentTime := 0; o_retransmitCount := 0; o_acked := false;
     o_abandoned := false; o_maxRetransmits := 0; o_lifetimeMs := 0; o_creationTime := 0;
     o_inUse := false |}.
Definition zeroQueued : QueuedMessage :=
  {| q_streamId := 0; q_ppid := 0; q_unordered := false; q_maxRetransmits := 0; q_lifetimeMs := 0;
     q_payload := replicate (Z.to_nat SCTP_MAX_QUEUED_PAYLOAD) 0; q_payloadLen := 0;
     q_inUse := false |}.
Definition zeroPending : PendingSend :=
  {| p_streamId := 0; p_ppid := 0; p_unordered := false; p_maxRetransmits := 0; p_lifetimeMs := 0;
     p_payload := None; p_payloadLen := 0; p_inUse := false |}.

(** The association after sctpAssocInit, for the tags it draws. *)
Definition initAssoc (lport rport mtu_ tag tie : Z) : SctpAssociation :=
  {| state := SCTP_ASSOC_CLOSED; localPort := lport; remotePort := rport;
     myVerificationTag := tag; peerVerificationTag := 0; nextTsn := tag;
     cumulativeAckTsn := tag -32 1;
     outstanding := replicate (Z.to_nat SCTP_MAX_OUTSTANDING) zeroOutstanding;
     outstandingCount := 0; nextSsn := replicate (Z.to_nat SCTP_MAX_STREAMS) 0;
     peerCumulativeTsn := 0; peerCumulativeTsnValid := false;
     receivedTsns := replicate (Z.to_nat SCTP_MAX_RECEIVED) 0; receivedTsnCount := 0;
     needSack := false; cwnd := SCTP_INITIAL_CWND_MTUS * mtu_; ssthresh := SCTP_DEFAULT_ARWND;
     peerArwnd := SCTP_DEFAULT_ARWND; flightSize := 0; mtu := mtu_; t1InitExpiry := 0;
     t3RtxExpiry := 0; initRetransmitCount := 0; rtoMs := SCTP_RTO_INITIAL_MS; srttMs := 0;
     outPacket := replicate (Z.to_nat SCTP_MAX_PACKET_SIZE) 0; outPacketLen := 0;
     cookieEchoData := replicate (Z.to_nat SCTP_COOKIE_SIZE) 0; cookieEchoLen := 0;
     cookieEchoValid := false; tieTag := tie; advancedPeerAckPoint := tag -32 1;
     reassemblyBuf := None; reassemblyLen := 0; reassemblyStreamId := 0; reassemblySsn := 0;
     reassemblyPpid := 0; reassemblyInProgress := false;
     sendQueue := replicate (Z.to_nat SCTP_MAX_QUEUED_MESSAGES) zeroQueued; sendQueueCount := 0;
     pendingQueue := replicate (Z.to_nat SCTP_MAX_PENDING_SENDS) zeroPending;
     pendingQueueCount := 0 |}.

Definition sctpAssocInit (lport rport mtu_ : Z) : ST World unit :=
  tag ← sctpGenerateTag;
  hi ← sctpGenerateTag;
  lo ← sctpGenerateTag;
  setA (fun _ : SctpAssociation => initAssoc lport rport mtu_ tag (Z.lor (Z.shiftl hi 32) lo)).

Definition sendInit : ST World unit :=
  a ← gets (fun w => assoc w);
  sendChunk 0 (fun buf o => sctpWriteInitChunk buf o (myVerificationTag a) SCTP_DEFAULT_ARWND
                              SCTP_MAX_STREAMS SCTP_MAX_STREAMS (nextTsn a)).

Definition sctpAssocConnect : ST World STATUS :=
  sendInit;;
  setA (fun a => a <| state := SCTP_ASSOC_COOKIE_WAIT |>);;
  now ← SCTP_NOW_MS;
  setA (fun a => a <| t1InitExpiry := u64 (now + rtoMs a) |> <| initRetransmitCount := 0 |>);;
  mret STATUS_SUCCESS.

Definition sctpAssocHandlePacket (pBuf : option (list Z)) (bufLen : Z) : ST World STATUS :=
  if bufLen <? SCTP_COMMON_HEADER_SIZE then mret STATUS_SUCCESS else
  tag ← getA myVerificationTag;
  '(st, buf) ← lift (sctpValidatePacket pBuf bufLen tag);
  if STATUS_FAILED st then mret STATUS_SUCCESS
  else sctpParseChunks sctpChunkDispatch buf bufLen.

(** Double RTO, up to the maximum. *)
Definition backoff (a : SctpAssociation) : SctpAssociation :=
  let rto := rtoMs a *32 2 in
  a <| rtoMs := if SCTP_RTO_MAX_MS <? rto then SCTP_RTO_MAX_MS else rto |>.

(** The T1-init timer; [false] when the function returns after giving up. *)
Definition checkT1 (nowMs : Z) : ST World bool :=
  a ← gets (fun w => assoc w);
  if negb (t1InitExpiry a =? 0) && (t1InitExpiry a <=? nowMs) then
    setA (fun a => a <| initRetransmitCount := initRetransmitCount a +32 1 |>);;
    count ← getA initRetransmitCount;
    if SCTP_MAX_INIT_RETRANS <? count then
      setA (fun a => a <| state := SCTP_ASSOC_CLOSED |> <| t1InitExpiry := 0 |>);;
      mret false
    else
      setA backoff;;
      a ← gets (fun w => assoc w);
      (if state_eqb (state a) SCTP_ASSOC_COOKIE_WAIT then sendInit
       else when (state_eqb (state a) SCTP_ASSOC_COOKIE_ECHOED && cookieEchoValid a)
              (sendChunk (peerVerificationTag a)
                 (fun buf o => sctpWriteCookieEchoChunk buf o (cookieEchoData a) (cookieEchoLen a))));;
      setA (fun a => a <| t1InitExpiry := u64 (nowMs + rtoMs a) |>);;
      mret true
  else mret true.

Definition shouldAbandon (nowMs : Z) (d : SctpOutstandingData) : bool :=
  (negb (o_maxRetransmits d =? 0xFFFF) && (o_maxRetransmits d <? o_retransmitCount d))
  || ((0 <? o_lifetimeMs d) && (o_lifetimeMs d <? u64 (nowMs - o_creationTime d))).

(** The T3 pass over the slots from [i] on: retransmit or abandon. *)
Fixpoint t3Loop (n : nat) (nowMs i : Z) : ST World unit :=
  match n with
  | O => mret tt
  | S n =>
      a ← gets (fun w => assoc w);
      d ← lift (lget (outstanding a) i);
      if negb (o_inUse d) || o_acked d || o_abandoned d then t3Loop n nowMs (i + 1)
      else
        let d := d <| o_retransmitCount := o_retransmitCount d +32 1 |> in
        (if shouldAbandon nowMs d then
           l ← lift (lput (outstanding a) i
                       (d <| o_abandoned := true |> <| o_payload := None |> <| o_inUse := false |>));
           setA (fun a => a <| outstanding := l |>
                            <| flightSize := flightSize a -32 o_payloadLen d |>
                            <| advancedPeerAckPoint :=
                                 if TSN_GT (o_tsn d) (advancedPeerAckPoint a) then o_tsn d
                                 else advancedPeerAckPoint a |>
                            <| outstandingCount := outstandingCount a -32 1 |>)
         else
           l ← lift (lput (outstanding a) i d);
           setA (fun a => a <| outstanding := l |>);;
           match o_payload d with
           | Some b =>
               sendChunk (peerVerificationTag a)
                 (fun buf o => sctpWriteDataChunk buf o (o_tsn d) (o_streamId d) (o_ssn d)
                                 (o_ppid d) (o_unordered d) (Ptr b 0) (o_payloadLen d))
           | None => mret tt
           end);;
        t3Loop n nowMs (i + 1)
  end.

Definition checkT3 (nowMs : Z) : ST World unit :=
  a ← gets (fun w => assoc w);
  when (negb (t3RtxExpiry a =? 0) && (t3RtxExpiry a <=? nowMs))
    (setA (fun a => a <| ssthresh := if 2 * mtu a <? cwnd a / 2 then cwnd a / 2 else 2 * mtu a |>
                      <| cwnd := mtu a |>);;
     setA backoff;;
     t3Loop (Z.to_nat SCTP_MAX_OUTSTANDING) nowMs 0;;
     a ← gets (fun w => assoc w);
     when (TSN_GT (advancedPeerAckPoint a) (cumulativeAckTsn a))
       (sendChunk (peerVerificationTag a)
          (fun buf o => sctpWriteForwardTsnChunk buf o (advancedPeerAckPoint a)));;
     setA (fun a => if 0 <? outstandingCount a then a <| t3RtxExpiry := u64 (nowMs + rtoMs a) |>
                    else a <| t3RtxExpiry := 0 |>)).

Definition sctpAssocCheckTimers (nowMs : Z) : ST World STATUS :=
  running ← checkT1 nowMs;
  when running (checkT3 nowMs);;
  mret STATUS_SUCCESS.

Definition sctpAssocShutdown : ST World STATUS :=
  a ← gets (fun w => assoc w);
  if negb (state_eqb (state a) SCTP_ASSOC_ESTABLISHED) then mret STATUS_SUCCESS else
  sendChunk (peerVerificationTag a)
    (fun buf o => sctpWriteShutdownChunk buf o
                    (if peerCumulativeTsnValid a then peerCumulativeTsn a else 0));;
  setA (fun a => a <| state := SCTP_ASSOC_SHUTDOWN_SENT |>);;
  mret STATUS_SUCCESS.

Definition sctpAssocCleanup : ST World unit :=
  setA (fun a =>
    a <| outstanding := map (fun d =>
            (if o_inUse d then d <| o_payload := None |> else d) <| o_inUse := false |>) (outstanding a) |>
      <| outstandingCount := 0 |> <| flightSize := 0 |>
      <| pendingQueue := map (fun p =>
            (if p_inUse p then p <| p_payload := None |> else p) <| p_inUse := false |>) (pendingQueue a) |>
      <| pendingQueueCount := 0 |>
      <| reassemblyBuf := None |> <| reassemblyInProgress := false |>).
End Operations.
