(* ===== verification/SctpWindow.v ===== *)
(** * The SCTP receive window, gap blocks and acknowledgement accounting

    The loops of SctpAssoc.c over the received TSNs and the outstanding chunks,
    against set-level descriptions: the array with swap-removal is a multiset, the
    cumulative TSN is advanced as far as the set allows, the gap blocks describe
    exactly the set, and an acknowledgement releases exactly the covered chunks. *)

From Stdlib Require Import Sorting.Sorted.
From S2P Require Import Prelude Endian Crc32c SctpPacket SctpAssoc.

(** ** The array of received TSNs *)

(** The live entries. *)
Definition live (l : list Z) (count : Z) : list Z := take (Z.to_nat count) l.

Lemma findTsn_Some t l c k :
  findTsn t l c = Some k -> (k < c)%nat /\ l !! k = Some t.
Proof.
  revert l k. induction c as [|c IH]; intros [|x l] k; cbn [findTsn]; try done.
  destruct (Z.eqb_spec x t) as [->|]; [intros [= <-]; auto with lia|].
  destruct (findTsn t l c) as [j|] eqn:E; [|done]. intros [= <-].
  destruct (IH _ _ E). auto with lia.
Qed.

Lemma findTsn_None t l c : findTsn t l c = None <-> t ∉ take c l.
Proof.
  revert l. induction c as [|c IH]; intros [|x l]; cbn [findTsn take]; try (split; [|done]; intros _; apply not_elem_of_nil).
  rewrite not_elem_of_cons, <- IH. destruct (Z.eqb_spec x t) as [->|Hne].
  - split; [done|by intros []].
  - destruct (findTsn t l c); cbn [option_map]; split; try done; try (by intros []).
Qed.

Lemma insert_swap {A} (l : list A) k x y :
  l !! k = Some x -> x :: <[k := y]> l ≡ₚ y :: l.
Proof.
  intros Hk. pose proof (lookup_lt_Some _ _ _ Hk).
  rewrite insert_take_drop by done. rewrite <- (take_drop_middle l k x Hk) at 3.
  rewrite <- !Permutation_middle. apply perm_swap.
Qed.

(** Removal takes one entry out of the multiset. *)
Lemma removeAt_spec l k count x :
  0 < count <= Z.of_nat (length l) -> Z.of_nat k < count -> l !! k = Some x ->
  exists l', removeAt l (Z.of_nat k) count = Ok l' /\ length l' = length l /\
    live l count ≡ₚ x :: live l' (count - 1) /\ (Forall is_u32 l -> Forall is_u32 l') /\
    take k l' = take k l.
Proof.
  intros Hc Hk Hx. destruct (lget_in l (count - 1)) as (y & Ey); [lia|].
  pose proof (lget_lookup _ _ _ Ey) as [_ Hy]. unfold removeAt. rewrite Ey. cbn [mbind res_bind].
  rewrite lput_in by lia. rewrite Nat2Z.id. eexists. split; [done|]. rewrite length_insert.
  split; [done|].
  split; [|split; [intros HF; apply Forall_insert; [done|]; by eapply Forall_lookup_1|by rewrite take_insert_ge]].
  unfold live. replace (Z.to_nat count) with (S (Z.to_nat (count - 1))) by lia.
  rewrite (take_S_r _ _ y) by done. rewrite Permutation_app_comm. cbn [app].
  destruct (decide (k = Z.to_nat (count - 1))) as [->|Hne].
  - rewrite Hx in Hy. injection Hy as ->. by rewrite list_insert_id.
  - rewrite take_insert_lt by lia. symmetry. apply insert_swap. by rewrite lookup_take_lt by lia.
Qed.

(** The TSNs that follow [cum]. *)
Definition following (cum : Z) (k : nat) : list Z := map (fun j => cum +32 Z.of_nat j) (seq 1 k).

Lemma following_S cum k : following cum (S k) = (cum +32 1) :: following (cum +32 1) k.
Proof.
  unfold following. cbn [seq map]. f_equal. rewrite <- seq_shift, map_map. apply map_ext.
  intros j. unfold u32. rewrite Zplus_mod_idemp_l. f_equal. lia.
Qed.

(** [cum] was advanced to [cum'] over live entries that directly follow it, and the
    next TSN is missing. *)
Definition advanced (cum : Z) (R : list Z) (cum' : Z) (R' : list Z) : Prop :=
  exists k, cum' = u32 (cum + Z.of_nat k) /\ R ≡ₚ following cum k ++ R' /\ cum' +32 1 ∉ R'.

Lemma advanceLoop_spec fuel cum l count :
  0 <= count <= Z.of_nat (length l) -> count <= Z.of_nat fuel -> is_u32 cum ->
  exists cum' l' count', advanceLoop fuel cum l count = Ok (cum', l', count') /\
    length l' = length l /\ 0 <= count' <= count /\ (Forall is_u32 l -> Forall is_u32 l') /\
    is_u32 cum' /\ advanced cum (live l count) cum' (live l' count').
Proof.
  revert cum l count. induction fuel as [|fuel IH]; intros cum l count Hc Hf Hcum.
  all: cbn [advanceLoop]; destruct (findTsn (cum +32 1) l (Z.to_nat count)) as [k|] eqn:E.
  2, 4: apply findTsn_None in E; exists cum, l, count; split_and!; try done; try lia;
        exists 0%nat; split_and!; [by rewrite Z.add_0_r, u32_id|done|done].
  all: apply findTsn_Some in E as [Hk Hx].
  { lia. }
  destruct (removeAt_spec l k count _ ltac:(lia) ltac:(lia) Hx) as (l1 & E1 & Hl1 & HP & HF & _).
  rewrite E1. cbn [mbind res_bind].
  destruct (IH (cum +32 1) l1 (count - 1)) as (cum' & l' & count' & E' & Hl' & Hc' & HF' & Hu & Ha);
    [lia|lia|apply u32_range|].
  exists cum', l', count'. split_and!; [done|congruence|lia|lia|auto|done|].
  destruct Ha as (j & Ecum & HP' & Hn). exists (S j). split_and!; [|rewrite following_S|done].
  - rewrite Ecum. unfold u32. rewrite Zplus_mod_idemp_l. f_equal. lia.
  - rewrite HP, HP'. done.
Qed.

(** The entries a FORWARD-TSN leaves. *)
Definition beyond (newCum : Z) (R : list Z) : list Z := filter (fun t => TSN_LTE t newCum = false) R.

Lemma filter_all {A} (P : A -> Prop) `{forall x, Decision (P x)} l : Forall P l -> filter P l = l.
Proof. induction 1 as [|x l Hx _ IH]; [done|]. rewrite filter_cons_True by done. by rewrite IH. Qed.

Lemma purgeLoop_spec fuel newCum i l count :
  0 <= i <= count -> count <= Z.of_nat (length l) -> count - i <= Z.of_nat fuel ->
  exists l' count', purgeLoop fuel newCum i l count = Ok (l', count') /\
    length l' = length l /\ 0 <= count' <= count /\ (Forall is_u32 l -> Forall is_u32 l') /\
    (Forall (fun t => TSN_LTE t newCum = false) (live l i) ->
     live l' count' ≡ₚ beyond newCum (live l count)).
Proof.
  revert i l count. induction fuel as [|fuel IH]; intros i l count Hi Hc Hf; cbn [purgeLoop];
    destruct (Z.ltb_spec i count) as [Hlt|Hge]; try lia.
  1, 3: exists l, count; split_and!; try done; try lia; intros HF; unfold beyond;
        replace count with i by lia; symmetry; by rewrite filter_all.
  destruct (lget_in l i ltac:(lia)) as (t & Et). pose proof (lget_lookup _ _ _ Et) as [_ Ht].
  rewrite Et. cbn [mbind res_bind]. destruct (TSN_LTE t newCum) eqn:El.
  - destruct (removeAt_spec l (Z.to_nat i) count t ltac:(lia) ltac:(lia) Ht)
      as (l1 & E1 & Hl1 & HP & HF1 & Htk).
    rewrite Z2Nat.id in E1 by lia. rewrite E1. cbn [mbind res_bind].
    destruct (IH i l1 (count - 1)) as (l' & c' & E' & Hl' & Hc' & HF' & HP'); [lia..|].
    exists l', c'. split_and!; try done; try lia; [auto|].
    intros HF. rewrite HP' by (unfold live; by rewrite Htk). unfold beyond.
    rewrite HP, filter_cons_False; [done|]. by rewrite El.
  - destruct (IH (i + 1) l count) as (l' & c' & E' & Hl' & Hc' & HF' & HP'); [lia..|].
    exists l', c'. split_and!; try done; try lia. intros HF. apply HP'. unfold live in *.
    replace (Z.to_nat (i + 1)) with (S (Z.to_nat i)) by lia. rewrite (take_S_r _ _ t) by done.
    apply Forall_app. auto.
Qed.

(** ** Gap blocks *)

(** The distance of a TSN from the cumulative one. *)
Definition off (cum t : Z) : Z := t -32 cum.

Lemma TSN_GT_off cum x t :
  off cum x < 2 ^ 31 -> off cum t < 2 ^ 31 -> TSN_GT x t = (off cum t <? off cum x).
Proof.
  unfold off, TSN_GT. intros Hx Ht. pose proof (u32_range (x - cum)). pose proof (u32_range (t - cum)).
  replace (x -32 t) with (u32 (u32 (x - cum) - u32 (t - cum)))
    by (unfold u32; rewrite <- Zminus_mod; f_equal; lia).
  set (a := u32 (x - cum)) in *. set (b := u32 (t - cum)) in *. clearbody a b.
  destruct (Z.ltb_spec b a), (Z.ltb_spec 0 (i32 (u32 (a - b)))); try done; exfalso; width_lia.
Qed.

Lemma TSN_LTE_off cum t : is_u32 t -> 0 < off cum t < 2 ^ 31 -> TSN_LTE t cum = false.
Proof. unfold off, TSN_LTE. intros Hu Ht. apply Z.leb_gt. width_lia. Qed.

Lemma insertTsn_perm t acc : insertTsn t acc ≡ₚ t :: acc.
Proof.
  induction acc as [|x acc IH]; cbn [insertTsn]; [done|]. destruct (TSN_GT x t); [|done].
  rewrite IH. apply perm_swap.
Qed.

Lemma insertTsn_sorted cum t acc :
  Forall (fun x => off cum x < 2 ^ 31) (t :: acc) ->
  StronglySorted (fun x y => off cum y <= off cum x) acc ->
  StronglySorted (fun x y => off cum y <= off cum x) (insertTsn t acc).
Proof.
  intros [Ht Hacc]%Forall_cons_1 Hs. induction Hs as [|x acc Hs IH Hx]; cbn [insertTsn].
  { repeat constructor. }
  apply Forall_cons_1 in Hacc as [Hxw Hacc]. rewrite (TSN_GT_off cum) by done.
  destruct (Z.ltb_spec (off cum t) (off cum x)); constructor; auto.
  - rewrite insertTsn_perm. constructor; [lia|done].
  - by constructor.
  - constructor; [lia|]. eapply Forall_impl; [|exact Hx]. cbn. lia.
Qed.

Lemma sort_fold cum l acc :
  Forall (fun x => off cum x < 2 ^ 31) (l ++ acc) ->
  StronglySorted (fun x y => off cum y <= off cum x) acc ->
  let r := fold_left (fun acc t => insertTsn t acc) l acc in
  r ≡ₚ l ++ acc /\ StronglySorted (fun x y => off cum y <= off cum x) r.
Proof.
  cbv zeta. revert acc. induction l as [|t l IH]; intros acc Hf Hs; cbn [fold_left app]; [done|].
  assert (HP : l ++ insertTsn t acc ≡ₚ (t :: l) ++ acc)
    by (rewrite insertTsn_perm; symmetry; apply Permutation_middle).
  destruct (IH (insertTsn t acc)) as [IHp IHs].
  - by rewrite HP.
  - apply insertTsn_sorted; [|done]. cbn in Hf. inversion_clear Hf. constructor; [done|].
    by apply Forall_app in H0 as [_ ?].
  - split; [|done]. by rewrite IHp.
Qed.

Lemma StronglySorted_rev {A} (P Q : A -> A -> Prop) l :
  (forall x y, P x y -> Q y x) -> StronglySorted P l -> StronglySorted Q (rev l).
Proof.
  intros HPQ. induction 1 as [|x l Hs IH Hx]; cbn [rev]; [constructor|].
  assert (Hx' : Forall (fun y => Q y x) (rev l)).
  { rewrite (rev_alt l), rev_append_rev, app_nil_r, <- (Permutation_rev l).
    eapply Forall_impl; [|exact Hx]. auto. }
  clear Hs Hx. induction (rev l) as [|y r IHr]; cbn [app]; [repeat constructor|].
  inversion_clear Hx'. inversion_clear IH. constructor; [auto|]. apply Forall_app. auto.
Qed.

(** Sorting keeps the TSNs and orders them by their distance from [cum]. *)
Lemma sortTsns_spec cum l :
  Forall (fun x => off cum x < 2 ^ 31) l ->
  sortTsns l ≡ₚ l /\ StronglySorted (fun x y => off cum x <= off cum y) (sortTsns l).
Proof.
  intros Hl. unfold sortTsns. destruct (sort_fold cum l []) as [HP Hs]; [by rewrite app_nil_r|constructor|].
  rewrite app_nil_r in HP. split.
  - by rewrite <- Permutation_rev, HP.
  - eapply StronglySorted_rev; [|exact Hs]. done.
Qed.

Definition covers (gaps : list (Z * Z)) (o : Z) : Prop := exists g, g ∈ gaps /\ g.1 <= o <= g.2.

Lemma covers_cons g gaps o : covers (g :: gaps) o <-> g.1 <= o <= g.2 \/ covers gaps o.
Proof.
  unfold covers. split.
  - intros (x & [->|Hx]%elem_of_cons & Ho); eauto.
  - intros [Ho|(x & Hx & Ho)]; [exists g|exists x]; rewrite elem_of_cons; auto.
Qed.

(** The TSNs fit the 16-bit offsets of a SACK. *)
Definition sackable (cum : Z) (t : Z) : Prop := is_u32 t /\ 0 < off cum t < 2 ^ 16.

(** Every reported offset was received before or is one of [tsns]; when the limit on
    the number of blocks was not reached, the converse holds too. *)
Lemma gapLoop_covers cum tsns gaps o :
  Forall (sackable cum) tsns -> Forall (fun g => g.1 <= g.2) gaps ->
  let r := gapLoop cum tsns gaps in
  (covers r o -> covers gaps o \/ o ∈ map (off cum) tsns) /\
  (Z.of_nat (length r) < SCTP_MAX_GAP_BLOCKS -> covers gaps o \/ o ∈ map (off cum) tsns -> covers r o).
Proof.
  cbv zeta. revert gaps. induction tsns as [|t tsns IH]; intros gaps Ht Hg; cbn [gapLoop map].
  { split; [by left|]. intros _ [?|?%elem_of_nil]; done. }
  apply Forall_cons_1 in Ht as [[Htu Hto] Ht].
  destruct (Z.leb_spec SCTP_MAX_GAP_BLOCKS (Z.of_nat (length gaps))); [split; [by left|lia]|].
  rewrite (TSN_LTE_off cum t) by (done || lia). cbv zeta. fold (off cum t).
  rewrite (u16_id (off cum t)) by (unfold is_u16; lia).
  assert (Hstep : forall gaps', Forall (fun g => g.1 <= g.2) gaps' ->
            (covers gaps' o <-> covers gaps o \/ o = off cum t) ->
            (covers (gapLoop cum tsns gaps') o -> covers gaps o \/ o ∈ off cum t :: map (off cum) tsns) /\
            (Z.of_nat (length (gapLoop cum tsns gaps')) < SCTP_MAX_GAP_BLOCKS ->
             covers gaps o \/ o ∈ off cum t :: map (off cum) tsns -> covers (gapLoop cum tsns gaps') o)).
  { intros gaps' Hg' Hc. destruct (IH gaps' Ht Hg') as [IH1 IH2]. rewrite elem_of_cons. split.
    - intros Hr. specialize (IH1 Hr). tauto.
    - intros Hl Hr. apply IH2; tauto. }
  destruct gaps as [|[s e] rest]; [apply Hstep|destruct (Z.eqb_spec (off cum t) (e + 1)) as [E|E]; apply Hstep].
  - constructor; [cbn; lia|constructor].
  - rewrite covers_cons. cbn. intuition lia.
  - apply Forall_cons_1 in Hg as [Hse Hg]. constructor; [cbn in *; lia|done].
  - rewrite !covers_cons. cbn. apply Forall_cons_1 in Hg as [Hse Hg]. cbn in Hse. intuition lia.
  - constructor; [cbn; lia|done].
  - rewrite (covers_cons (off cum t, _)). cbn. intuition lia.
Qed.

(** Blocks in increasing order, not adjacent. *)
Definition separated (g g' : Z * Z) : Prop := g.2 + 1 < g'.1.

Lemma gapLoop_separated cum tsns gaps :
  Forall (sackable cum) tsns -> StronglySorted (fun x y => off cum x < off cum y) tsns ->
  Forall (fun g => g.1 <= g.2) gaps ->
  Forall (fun g => Forall (fun t => g.2 < off cum t) tsns) gaps ->
  StronglySorted (fun g g' => separated g' g) gaps ->
  StronglySorted (fun g g' => separated g' g) (gapLoop cum tsns gaps).
Proof.
  revert gaps. induction tsns as [|t tsns IH]; intros gaps Ht Hs Hg Hb Hsep; cbn [gapLoop]; [done|].
  apply Forall_cons_1 in Ht as [[Htu Hto] Ht]. inversion_clear Hs as [|? ? Hs' Hts].
  destruct (SCTP_MAX_GAP_BLOCKS <=? Z.of_nat (length gaps)); [done|].
  rewrite (TSN_LTE_off cum t) by (done || lia). cbv zeta. fold (off cum t).
  rewrite (u16_id (off cum t)) by (unfold is_u16; lia).
  assert (Hb' : Forall (fun g => g.2 < off cum t /\ Forall (fun t => g.2 < off cum t) tsns) gaps).
  { eapply Forall_impl; [|exact Hb]. intros g Hgt. by apply Forall_cons_1 in Hgt. }
  assert (Hrest : forall g, g ∈ gaps -> Forall (fun t => g.2 < off cum t) tsns)
    by (intros g Hin; rewrite Forall_forall in Hb'; by apply Hb', list_elem_of_In).
  destruct gaps as [|[s e] rest].
  { apply IH; try done; [repeat constructor; cbn; lia| |repeat constructor].
    by repeat constructor. }
  apply Forall_cons_1 in Hb' as [[Het _] Hb']. apply Forall_cons_1 in Hg as [Hse Hg].
  cbn in Het, Hse. inversion_clear Hsep as [|? ? Hsep' Hhd].
  assert (Hrest' : Forall (fun g => Forall (fun t => g.2 < off cum t) tsns) rest)
    by (eapply Forall_impl; [|exact Hb']; cbn; tauto).
  destruct (Z.eqb_spec (off cum t) (e + 1)) as [E|E]; apply IH; try done.
  - by constructor; [cbn; lia|].
  - by constructor.
  - by constructor.
  - by constructor; [cbn; lia|constructor].
  - constructor; [done|]. constructor; [|done]. apply (Hrest (s, e)). by left.
  - constructor; [by constructor|]. constructor; [unfold separated; cbn; lia|].
    eapply Forall_impl; [|exact Hhd]. unfold separated. cbn. lia.
Qed.

(** ** Acknowledgement passes *)

(** The chunks a pass releases. *)
Definition covered (hit : Z -> bool) (d : SctpOutstandingData) : bool :=
  o_inUse d && negb (o_acked d) && hit (o_tsn d).
Definition ackSlot (hit : Z -> bool) (d : SctpOutstandingData) : SctpOutstandingData :=
  if covered hit d then releaseSlot d else d.
Definition ackedBytes (hit : Z -> bool) (l : list SctpOutstandingData) : Z :=
  sumBy (fun d => if covered hit d then o_payloadLen d else 0) l.
Definition ackedCount (hit : Z -> bool) (l : list SctpOutstandingData) : Z :=
  sumBy (fun d => Z.b2z (covered hit d)) l.

Lemma ackLoop_spec hit l bytes flight count :
  is_u32 bytes -> is_u32 flight -> is_u32 count ->
  ackLoop hit l bytes flight count =
  (map (ackSlot hit) l, u32 (bytes + ackedBytes hit l), u32 (flight - ackedBytes hit l),
   u32 (count - ackedCount hit l)).
Proof.
  revert bytes flight count. induction l as [|d l IH]; intros bytes flight count Hb Hf Hc.
  { cbn. by rewrite Z.add_0_r, !Z.sub_0_r, !u32_id. }
  cbn [ackLoop map]. unfold ackedBytes, ackedCount, ackSlot, covered in *. cbn [sumBy].
  destruct (o_inUse d), (o_acked d), (hit (o_tsn d)); cbn [negb orb andb Z.b2z].
  all: rewrite IH by (done || apply u32_range).
  all: rewrite ?Z.add_0_l; try done.
  unfold u32. rewrite Zplus_mod_idemp_l, !Zminus_mod_idemp_l. rewrite Z.add_assoc, !Z.sub_add_distr. done.
Qed.
