(* ===== verification/SctpInvariant.v ===== *)
(** * Invariant and memory safety of the SCTP association

    The association invariant (array sizes, counters that agree with the slots they
    count, the bytes in flight, payload ownership, window bounds) is preserved by
    every operation, and under it no operation touches memory out of bounds: the
    step relation over operation sequences keeps every reachable association well
    formed, for arbitrary packets from the network. *)

From S2P Require Import Prelude Endian Crc32c SctpPacket SctpAssoc SctpWindow.

(** ** Packets with one chunk *)

(** The packet with source and destination ports, tag and chunk bytes, sealed by
    its checksum. *)
Definition sctp_packet (src dst vtag : Z) (chunks : list Z) : list Z :=
  sealed (be16 src ++ be16 dst ++ be32 vtag) chunks.

Definition wire_ok (out : list Z) : Prop := blen out = SCTP_MAX_PACKET_SIZE /\ bytes_ok out.

(** A writer that stores [chunk] and returns the padded length [n]. *)
Definition writes (writer : list Z -> Z -> res (list Z * Z)) (chunk : list Z) (n : Z) : Prop :=
  bytes_ok chunk /\ blen chunk <= n <= 1188 /\
  forall buf, blen buf = SCTP_MAX_PACKET_SIZE ->
    writer buf 12 = (b ← put_bytes buf 12 chunk; Ok (b, n)).

(** The world after a packet went out: only the packet buffer and the log change. *)
Definition sent (w : World) (out pkt : list Z) : World :=
  w <| assoc := (assoc w) <| outPacket := out |> |> <| events := events w ++ [EvPacket pkt] |>.

Lemma blen_sealed a c : blen (sealed a c) = blen a + 4 + blen c.
Proof. unfold sealed. rewrite !blen_app, blen_crcBytes. lia. Qed.

Lemma drop_split b o n :
  0 <= o -> 0 <= n -> o + n <= blen b ->
  exists p r, drop (Z.to_nat o) b = p ++ r /\ blen p = n /\ blen r = blen b - o - n.
Proof.
  intros. exists (take (Z.to_nat n) (drop (Z.to_nat o) b)), (drop (Z.to_nat n) (drop (Z.to_nat o) b)).
  rewrite take_drop, blen_take, blen_drop, blen_drop by (rewrite ?blen_drop; lia). auto.
Qed.

Lemma sendChunk_wp vtag writer chunk n w (Q : unit -> World -> Prop) :
  wire_ok (outPacket (assoc w)) -> writes writer chunk n ->
  (forall out pad, wire_ok out -> bytes_ok pad -> blen pad = n - blen chunk ->
     Q tt (sent w out (sctp_packet (localPort (assoc w)) (remotePort (assoc w)) vtag (chunk ++ pad)))) ->
  wp (sendChunk vtag writer) Q w.
Proof.
  intros [Hl Hb] (Hc & Hn & Hw) HQ. unfold SCTP_MAX_PACKET_SIZE in *. pose proof (blen_nonneg chunk).
  set (buf := outPacket (assoc w)) in *. set (s := localPort (assoc w)) in *.
  set (d := remotePort (assoc w)) in *.
  destruct (drop_split buf (12 + blen chunk) (n - blen chunk)) as (pad & rest & Ed & Hp & Hr); [lia..|].
  assert (Hbd : bytes_ok (pad ++ rest)) by (rewrite <- Ed; auto with width).
  rewrite bytes_ok_app in Hbd. destruct Hbd as [Hbp Hbr].
  set (hdr := be16 s ++ be16 d ++ be32 vtag).
  assert (Hd12 : blen (drop 12 buf) = blen buf - 12) by (apply (blen_drop 12); lia).
  assert (E1 : sctpWriteCommonHeader buf 0 s d vtag
               = Ok (common_hdr s d vtag ++ drop 12 buf, 12)).
  { rewrite sctpWriteCommonHeader_spec, put_bytes_in by blen_lia. autorewrite with blen.
    by rewrite take_0. }
  assert (E2 : put_bytes (common_hdr s d vtag ++ drop 12 buf) 12 chunk
               = Ok (common_hdr s d vtag ++ chunk ++ pad ++ rest)).
  { rewrite <- Ed. replace (Z.to_nat (12 + blen chunk)) with (12 + Z.to_nat (blen chunk))%nat by lia.
    rewrite <- drop_drop. rewrite <- (take_drop (Z.to_nat (blen chunk)) (drop 12 buf)) at 1.
    apply put_bytes_app; [by autorewrite with blen|].
    rewrite blen_take; [done|]. lia. }
  assert (E3 : sctpFinalizePacket (common_hdr s d vtag ++ chunk ++ pad ++ rest) (12 + n)
               = Ok (sctp_packet s d vtag (chunk ++ pad) ++ rest)).
  { pose proof (sctpFinalizePacket_prefix hdr (be32 0) (chunk ++ pad) rest) as F.
    rewrite !blen_app, blen_be32 in F. replace (blen hdr) with 8 in F by (unfold hdr; by autorewrite with blen).
    replace (8 + (4 + (blen chunk + blen pad))) with (12 + n) in F by lia.
    unfold common_hdr, sctp_packet. fold hdr. rewrite <- F; try done.
    - unfold hdr. by rewrite <- !(assoc_L (++)).
    - unfold hdr. rewrite !bytes_ok_app. auto using be16_ok, be32_ok.
    - by rewrite bytes_ok_app. }
  assert (Hpl : blen (sctp_packet s d vtag (chunk ++ pad)) = 12 + n).
  { unfold sctp_packet. rewrite blen_sealed. autorewrite with blen. lia. }
  assert (E4 : ld_bytes (sctp_packet s d vtag (chunk ++ pad) ++ rest) 0 (12 + n)
               = Ok (sctp_packet s d vtag (chunk ++ pad))).
  { by apply (ld_bytes_app []). }
  assert (Hw' : writer (common_hdr s d vtag ++ drop 12 buf) 12
                = Ok (common_hdr s d vtag ++ chunk ++ pad ++ rest, n)).
  { rewrite Hw by (autorewrite with blen; lia). by rewrite E2. }
  unfold sendChunk, beginPacket, addChunk, sctpSendPacket, setA, emit.
  rewrite <- (u32_id (12 + n)) in E3, E4 by (unfold is_u32; lia).
  wp_load E1. wp_load Hw'. wp_load E3. wp_load E4.
  eapply (HQ _ pad); [|done|lia]. split; [rewrite blen_app; unfold SCTP_MAX_PACKET_SIZE; lia|].
  rewrite bytes_ok_app. split; [|done]. apply sealed_ok; rewrite ?bytes_ok_app; auto using be16_ok, be32_ok.
Qed.

(** ** The invariant *)

Definition used {A} (inUse : A -> bool) (l : list A) : Z := sumBy (fun x => Z.b2z (inUse x)) l.
Definition bytesInFlight (l : list SctpOutstandingData) : Z :=
  sumBy (fun d => if o_inUse d then o_payloadLen d else 0) l.

(** A slot of the outstanding table: the retransmission copy has the chunk's length
    and belongs to a slot in use; a slot in use is neither acknowledged nor
    abandoned. *)
Definition slot_ok (m : Z) (d : SctpOutstandingData) : Prop :=
  is_u32 (o_tsn d) /\ 0 <= o_payloadLen d <= m - 28 /\
  (forall b, o_payload d = Some b -> blen b = o_payloadLen d /\ bytes_ok b) /\
  (o_inUse d = false -> o_payload d = None) /\
  (o_inUse d = true -> o_acked d = false /\ o_abandoned d = false).

Definition queued_ok (q : QueuedMessage) : Prop :=
  blen (q_payload q) = SCTP_MAX_QUEUED_PAYLOAD /\ bytes_ok (q_payload q) /\
  0 <= q_payloadLen q <= SCTP_MAX_QUEUED_PAYLOAD /\ 0 <= q_streamId q.

Definition pending_ok (p : PendingSend) : Prop :=
  0 <= p_payloadLen p < 2 ^ 31 /\ 0 <= p_streamId p /\
  if p_inUse p then exists b, p_payload p = Some b /\ blen b = p_payloadLen p /\ bytes_ok b
  else p_payload p = None.

Record Inv (a : SctpAssociation) : Prop := {
  inv_wire : wire_ok (outPacket a);
  inv_mtu : 28 < mtu a <= SCTP_MAX_PACKET_SIZE;
  inv_slots : length (outstanding a) = Z.to_nat SCTP_MAX_OUTSTANDING /\
              Forall (slot_ok (mtu a)) (outstanding a);
  inv_count : outstandingCount a = used o_inUse (outstanding a);
  inv_flight : flightSize a = bytesInFlight (outstanding a);
  inv_ssn : length (nextSsn a) = Z.to_nat SCTP_MAX_STREAMS /\ Forall is_u16 (nextSsn a);
  inv_recv : length (receivedTsns a) = Z.to_nat SCTP_MAX_RECEIVED /\
             Forall is_u32 (receivedTsns a) /\ 0 <= receivedTsnCount a <= SCTP_MAX_RECEIVED;
  inv_tsn : is_u32 (nextTsn a) /\ is_u32 (peerCumulativeTsn a) /\ is_u32 (cumulativeAckTsn a);
  inv_cookie : blen (cookieEchoData a) = SCTP_COOKIE_SIZE /\ bytes_ok (cookieEchoData a) /\
               0 <= cookieEchoLen a <= SCTP_COOKIE_SIZE;
  inv_reasm : (forall b, reassemblyBuf a = Some b -> blen b = SCTP_MAX_REASSEMBLY_SIZE /\ bytes_ok b) /\
              0 <= reassemblyLen a <= SCTP_MAX_REASSEMBLY_SIZE /\
              (reassemblyInProgress a = true -> is_Some (reassemblyBuf a));
  inv_queued : length (sendQueue a) = Z.to_nat SCTP_MAX_QUEUED_MESSAGES /\
               Forall queued_ok (sendQueue a) /\ sendQueueCount a = used q_inUse (sendQueue a);
  inv_pending : length (pendingQueue a) = Z.to_nat SCTP_MAX_PENDING_SENDS /\
                Forall pending_ok (pendingQueue a) /\
                pendingQueueCount a = used p_inUse (pendingQueue a);
  inv_rto : SCTP_RTO_INITIAL_MS <= rtoMs a <= SCTP_RTO_MAX_MS;
}.

(** An update that leaves the invariant's other clauses alone: the clauses are
    stated on the fields, so they are the old ones up to conversion. *)
Ltac inv_update :=
  lazymatch goal with
  | H : Inv _ |- Inv _ => destruct H; constructor; try assumption
  end.

Lemma Inv_sent w out pkt : Inv (assoc w) -> wire_ok out -> Inv (assoc (sent w out pkt)).
Proof. intros. inv_update. Qed.

Lemma used_bound {A} (inUse : A -> bool) l : 0 <= used inUse l <= Z.of_nat (length l).
Proof.
  unfold used. pose proof (sumBy_bound (fun x => Z.b2z (inUse x)) l 1) as Hs.
  rewrite Z.mul_1_l in Hs. apply Hs. apply Forall_true. intros x. destruct (inUse x); simpl; lia.
Qed.

Lemma flight_bound m l :
  m <= SCTP_MAX_PACKET_SIZE -> length l = Z.to_nat SCTP_MAX_OUTSTANDING -> Forall (slot_ok m) l ->
  0 <= bytesInFlight l <= 1172 * 2048.
Proof.
  unfold SCTP_MAX_PACKET_SIZE. intros Hm Hl Hs.
  pose proof (sumBy_bound (fun d => if o_inUse d then o_payloadLen d else 0) l 1172) as Hb.
  rewrite Hl in Hb. apply Hb. eapply Forall_impl; [|exact Hs].
  intros d (_ & Hd & _). destruct (o_inUse d); lia.
Qed.

Lemma used_insert {A} (inUse : A -> bool) l i x y bx by_ :
  l !! i = Some x -> inUse x = bx -> inUse y = by_ ->
  used inUse (<[i := y]> l) = used inUse l - Z.b2z bx + Z.b2z by_.
Proof. intros Hx <- <-. unfold used. by rewrite (sumBy_insert _ _ _ x). Qed.

Lemma flight_insert l i x y fx fy :
  l !! i = Some x -> (if o_inUse x then o_payloadLen x else 0) = fx ->
  (if o_inUse y then o_payloadLen y else 0) = fy ->
  bytesInFlight (<[i := y]> l) = bytesInFlight l - fx + fy.
Proof. intros Hx <- <-. unfold bytesInFlight. by rewrite (sumBy_insert _ _ _ x). Qed.

(** Slot search. *)
Lemma firstFree_range {A} (inUse : A -> bool) l : 0 <= firstFree inUse l <= Z.of_nat (length l).
Proof. induction l as [|x l IH]; simpl; [lia|]. destruct (inUse x); lia. Qed.

Lemma firstFree_free {A} (inUse : A -> bool) l :
  firstFree inUse l < Z.of_nat (length l) ->
  exists x, l !! Z.to_nat (firstFree inUse l) = Some x /\ inUse x = false.
Proof.
  induction l as [|x l IH]; simpl; [lia|]. destruct (inUse x) eqn:E; [|eauto].
  intros H. destruct IH as (y & Hy & Ey); [lia|]. exists y. split; [|done].
  pose proof (firstFree_range inUse l).
  replace (Z.to_nat (1 + firstFree inUse l)) with (S (Z.to_nat (firstFree inUse l))) by lia. done.
Qed.

Lemma firstFree_prefix {A} (inUse : A -> bool) us fs :
  Forall (fun x => inUse x = true) us -> Forall (fun x => inUse x = false) fs ->
  firstFree inUse (us ++ fs) = Z.of_nat (length us) /\ used inUse (us ++ fs) = Z.of_nat (length us).
Proof.
  unfold used. intros Hu Hf. induction Hu as [|x us Hx _ [IH1 IH2]]; cbn [app firstFree sumBy length].
  - split; [by destruct Hf as [|y fs Hy _]; [|cbn; rewrite Hy]|].
    induction Hf as [|y fs Hy _ IH]; [done|]. cbn [sumBy]. by rewrite Hy, IH.
  - rewrite Hx, IH1, IH2. cbn [Z.b2z]. lia.
Qed.

Lemma firstFree_full {A} (inUse : A -> bool) l :
  firstFree inUse l = Z.of_nat (length l) <-> used inUse l = Z.of_nat (length l).
Proof.
  unfold used. induction l as [|x l IH]; simpl; [done|].
  pose proof (used_bound inUse l). unfold used in *. destruct (inUse x); simpl; lia.
Qed.

(** ** Sending

    The allocator returns blocks of the requested size. *)
Definition alloc_ok (memalloc : nat -> Z -> option (list Z)) : Prop :=
  forall k n b, memalloc k n = Some b -> blen b = n /\ bytes_ok b.

(** The readable payload of a send: a pointer to [bs]. *)
Definition payload_at (p : ptr) (n : Z) (bs : list Z) : Prop :=
  pld_bytes p n = Ok bs /\ bytes_ok bs /\ n < 2 ^ 31.

Lemma payload_len p n bs : payload_at p n bs -> blen bs = n /\ 0 <= n.
Proof. intros (H & _ & _). apply ld_bytes_inv in H as (_ & ? & _ & ?). done. Qed.

(** A part of a readable payload. *)
Lemma payload_part p n bs o k :
  payload_at p n bs -> 0 <= o -> 0 <= k -> o + k <= n ->
  payload_at (padd p o) k (take (Z.to_nat k) (drop (Z.to_nat o) bs)).
Proof.
  intros (H & Hb & Hn) Ho Hk Hok. split_and!; [|auto with width|lia].
  unfold pld_bytes in *. pose proof (ld_bytes_inv _ _ _ _ H) as (? & ? & ? & _).
  rewrite ld_bytes_in in H by lia. injection H as <-. cbn [padd p_obj p_off].
  rewrite ld_bytes_in by lia. rewrite List.skipn_firstn_comm, drop_drop, take_take.
  replace (Z.to_nat k `min` (Z.to_nat n - Z.to_nat o))%nat with (Z.to_nat k) by lia.
  by replace (Z.to_nat (p_off p) + Z.to_nat o)%nat with (Z.to_nat (p_off p + o)) by lia.
Qed.

Section Sending.
Variable gettime : nat -> Z.
Variable memalloc : nat -> Z -> option (list Z).
Hypothesis Hmem : alloc_ok memalloc.

Lemma wp_now (Q : Z -> World -> Prop) w :
  (forall t, Q t (w <| clock := S (clock w) |>)) -> wp (SCTP_NOW_MS gettime) Q w.
Proof. intros H. apply H. Qed.

Lemma Inv_clock w k : Inv (assoc w) -> Inv (assoc (w <| clock := k |>)).
Proof. done. Qed.

(** The world after outstanding slot [i] was filled with [d]. *)
Definition filled (w : World) (i : Z) (d : SctpOutstandingData) : World :=
  w <| allocs := S (allocs w) |>
    <| assoc := (assoc w) <| outstanding := <[Z.to_nat i := d]> (outstanding (assoc w)) |>
                          <| outstandingCount := outstandingCount (assoc w) + 1 |>
                          <| flightSize := flightSize (assoc w) + o_payloadLen d |> |>.

Definition newSlot (tsn streamId ssn ppid : Z) (unordered : bool) (copy : option (list Z))
    (payloadLen maxRetransmits lifetimeMs nowMs : Z) : SctpOutstandingData :=
  {| o_tsn := tsn; o_streamId := streamId; o_ssn := ssn; o_ppid := ppid; o_payload := copy;
     o_payloadLen := payloadLen; o_unordered := unordered; o_sentTime := nowMs;
     o_retransmitCount := 0; o_acked := false; o_abandoned := false;
     o_maxRetransmits := maxRetransmits; o_lifetimeMs := lifetimeMs;
     o_creationTime := nowMs; o_inUse := true |}.

Lemma Inv_filled w i d :
  Inv (assoc w) -> i = firstFree o_inUse (outstanding (assoc w)) -> i < SCTP_MAX_OUTSTANDING ->
  slot_ok (mtu (assoc w)) d -> o_inUse d = true -> Inv (assoc (filled w i d)).
Proof.
  intros HI Hi Hlt Hd Hu. pose proof (inv_slots _ HI) as (Hl & Hs).
  destruct (firstFree_free o_inUse (outstanding (assoc w))) as (x & Hx & Ex);
    [unfold SCTP_MAX_OUTSTANDING in *; lia|]. rewrite <- Hi in Hx.
  change (o_inUse x = false) in Ex.
  assert (Hc := used_insert o_inUse _ _ _ d false true Hx Ex Hu).
  assert (Hf := flight_insert _ _ _ d 0 (o_payloadLen d) Hx ltac:(by rewrite Ex) ltac:(by rewrite Hu)).
  cbn [Z.b2z] in Hc. inv_update.
  - split; [|by apply Forall_insert]. etrans; [apply length_insert|done].
  - etrans; [|symmetry; exact Hc]. etrans; [|apply Z.add_cancel_r; symmetry; apply Z.sub_0_r].
    by apply Z.add_cancel_r.
  - etrans; [|symmetry; exact Hf]. etrans; [|apply Z.add_cancel_r; symmetry; apply Z.sub_0_r].
    by apply Z.add_cancel_r.
Qed.

Lemma slot_newSlot m tsn sid ssn ppid un copy bs mr lt now :
  is_u32 tsn -> bytes_ok bs -> copy = None \/ copy = Some bs -> blen bs <= m - 28 ->
  slot_ok m (newSlot tsn sid ssn ppid un copy (blen bs) mr lt now).
Proof.
  intros Ht Hb Hc Hl. pose proof (blen_nonneg bs). split_and!; try done.
  intros b Eb. cbn in *. destruct Hc as [->| ->]; simplify_eq; done.
Qed.

(** An allocated block with a copy of the payload, or NULL. *)
Lemma copyPayload_wp p n bs (Q : option (list Z) -> World -> Prop) w :
  payload_at p n bs ->
  (forall copy, copy = None \/ copy = Some bs -> Q copy (w <| allocs := S (allocs w) |>)) ->
  wp (copyPayload memalloc p n) Q w.
Proof.
  intros Hp HQ. unfold copyPayload. apply wp_bind. unfold MEMALLOC, wp at 1.
  destruct (memalloc (allocs w) n) as [b|] eqn:E; [|apply wp_ret; auto].
  apply Hmem in E as [Eb _]. wp_load (proj1 Hp).
  wp_load (put_bytes_full b bs ltac:(destruct (payload_len _ _ _ Hp); lia)). auto.
Qed.

Lemma fillOutstanding_wp tsn sid ssn ppid un p n bs mr lt now w (Q : unit -> World -> Prop) :
  let i := firstFree o_inUse (outstanding (assoc w)) in
  Inv (assoc w) -> i < SCTP_MAX_OUTSTANDING -> payload_at p n bs -> n <= mtu (assoc w) - 28 ->
  is_u32 tsn ->
  (forall copy, copy = None \/ copy = Some bs ->
     Inv (assoc (filled w i (newSlot tsn sid ssn ppid un copy n mr lt now))) ->
     Q tt (filled w i (newSlot tsn sid ssn ppid un copy n mr lt now))) ->
  wp (fillOutstanding memalloc i tsn sid ssn ppid un p n mr lt now) Q w.
Proof.
  intros i HI Hi Hp Hn Ht HQ. destruct (payload_len _ _ _ Hp) as [En Hn0].
  pose proof (inv_slots _ HI) as (Hl & Hs). pose proof (inv_mtu _ HI) as Hm.
  pose proof (firstFree_range o_inUse (outstanding (assoc w))).
  pose proof (used_bound o_inUse (outstanding (assoc w))) as Hub.
  pose proof (flight_bound _ _ (proj2 Hm) Hl Hs) as Hfb.
  rewrite <- (inv_count _ HI) in Hub. rewrite <- (inv_flight _ HI) in Hfb.
  unfold SCTP_MAX_OUTSTANDING, SCTP_MAX_PACKET_SIZE in *. unfold fillOutstanding, setA.
  apply wp_bind. apply (copyPayload_wp _ _ bs); [done|]. intros copy Hc.
  assert (Hlt : 0 <= i < Z.of_nat (length (outstanding (assoc w)))) by (fold i in H; lia).
  wp_load (lput_in _ i _ Hlt).
  assert (Hd : slot_ok (mtu (assoc w)) (newSlot tsn sid ssn ppid un copy n mr lt now)).
  { rewrite <- En. apply slot_newSlot; try done; [by apply Hp|lia]. }
  specialize (HQ copy Hc (Inv_filled w i _ HI eq_refl Hi Hd eq_refl)). unfold filled in HQ.
  rewrite <- (u32_id (outstandingCount (assoc w) + 1)) in HQ by (unfold is_u32; lia).
  change (o_payloadLen (newSlot _ _ _ _ _ _ n _ _ _)) with n in HQ.
  rewrite <- (u32_id (flightSize (assoc w) + n)) in HQ by (unfold is_u32; lia).
  exact HQ.
Qed.

(** What an established association's send leaves unchanged. *)
Definition view (a : SctpAssociation) :=
  (state a, mtu a, (sendQueue a, sendQueueCount a),
   (localPort a, remotePort a, myVerificationTag a, peerVerificationTag a),
   (peerCumulativeTsn a, peerCumulativeTsnValid a, receivedTsns a, receivedTsnCount a)).
Definition keeps (a a' : SctpAssociation) : Prop := view a' = view a.

Lemma keeps_trans a b c : keeps a b -> keeps b c -> keeps a c.
Proof. unfold keeps. congruence. Qed.

Definition preserved (w : World) {A} (_ : A) (w' : World) : Prop :=
  Inv (assoc w') /\ keeps (assoc w) (assoc w').

Lemma pending_new sid ppid un copy n mr lt bs :
  0 <= n < 2 ^ 31 -> 0 <= sid -> copy = None \/ copy = Some bs -> blen bs = n -> bytes_ok bs ->
  pending_ok {| p_streamId := sid; p_ppid := ppid; p_unordered := un; p_maxRetransmits := mr;
                p_lifetimeMs := lt; p_payload := copy; p_payloadLen := n;
                p_inUse := match copy with Some _ => true | None => false end |}.
Proof. intros Hn Hs [->| ->] Hl Hb; split_and!; cbn; eauto; lia. Qed.

Lemma queuePending_wp sid ppid un p n bs mr lt w :
  Inv (assoc w) -> payload_at p n bs -> 0 <= sid ->
  wp (queuePending memalloc sid ppid un p n mr lt) (preserved w) w.
Proof.
  intros HI Hp Hsid. destruct (payload_len _ _ _ Hp) as [En Hn0].
  pose proof (inv_pending _ HI) as (Hl & Hs & Hc).
  pose proof (used_bound p_inUse (pendingQueue (assoc w))) as Hub.
  pose proof (firstFree_range p_inUse (pendingQueue (assoc w))) as Hr.
  unfold queuePending, SCTP_MAX_PENDING_SENDS in *. wp_steps; try by split.
  assert (Hlt : 0 <= firstFree p_inUse (pendingQueue (assoc w))
                < Z.of_nat (length (pendingQueue (assoc w))))
    by (match goal with H : (firstFree _ _ <? 1024) = true |- _ => apply Z.ltb_lt in H end; split; [|rewrite Hl]; lia).
  destruct (firstFree_free p_inUse (pendingQueue (assoc w))) as (x & Hx & Ex); [lia|].
  apply (copyPayload_wp _ _ bs); [done|]. intros copy Hcopy.
  assert (Hnew := pending_new sid ppid un copy n mr lt bs ltac:(split; [done|apply Hp]) Hsid Hcopy En
                    ltac:(apply Hp)).
  unfold setA. destruct copy as [b|]; wp_load (lput_in _ _ _ Hlt); (split; [|done]).
  - assert (Hu := used_insert p_inUse _ _ _ _ false true Hx Ex (eq_refl : _ = p_inUse
      {| p_streamId := sid; p_ppid := ppid; p_unordered := un; p_maxRetransmits := mr;
         p_lifetimeMs := lt; p_payload := Some b; p_payloadLen := n; p_inUse := true |})).
    inv_update. split_and!; [etrans; [apply length_insert|done]|by apply Forall_insert|].
    etrans; [|symmetry; exact Hu]. cbn [Z.b2z].
    transitivity (u32 (pendingQueueCount (assoc w) + 1)); [done|]. rewrite u32_id, Hc by (unfold is_u32; lia). lia.
  - assert (Hu := used_insert p_inUse _ _ _ _ false false Hx Ex (eq_refl : _ = p_inUse
      {| p_streamId := sid; p_ppid := ppid; p_unordered := un; p_maxRetransmits := mr;
         p_lifetimeMs := lt; p_payload := None; p_payloadLen := n; p_inUse := false |})).
    inv_update. split_and!; [etrans; [apply length_insert|done]|by apply Forall_insert|].
    etrans; [|symmetry; exact Hu]. cbn [Z.b2z]. etrans; [exact Hc|]. lia.
Qed.

Lemma queueUnsent_wp sid ppid un p n bs mr lt w :
  Inv (assoc w) -> payload_at p n bs -> 0 <= sid ->
  wp (queueUnsent sid ppid un p n mr lt) (fun _ w' => Inv (assoc w')) w.
Proof.
  intros HI Hp Hsid. destruct (payload_len _ _ _ Hp) as [En Hn0].
  pose proof (inv_queued _ HI) as (Hl & Hs & Hc).
  pose proof (used_bound q_inUse (sendQueue (assoc w))) as Hub.
  pose proof (firstFree_range q_inUse (sendQueue (assoc w))) as Hr.
  unfold queueUnsent, setA, SCTP_MAX_QUEUED_MESSAGES, SCTP_MAX_QUEUED_PAYLOAD in *. wp_steps; try done.
  match goal with H : _ && _ = true |- _ => apply andb_prop in H as [? Hn%Z.leb_le] end.
  match goal with H : (firstFree _ _ <? 32) = true |- _ => apply Z.ltb_lt in H as Hi end.
  assert (Hlt : 0 <= firstFree q_inUse (sendQueue (assoc w))
                < Z.of_nat (length (sendQueue (assoc w)))) by (split; [|rewrite Hl]; lia).
  destruct (firstFree_free q_inUse (sendQueue (assoc w))) as (x & Hx & Ex); [lia|].
  assert (Eg : lget (sendQueue (assoc w)) (firstFree q_inUse (sendQueue (assoc w))) = Ok x).
  { unfold lget. rewrite (proj2 (Z.leb_le _ _)) by lia. by rewrite Hx. }
  assert (Hqx : queued_ok x) by (eapply Forall_lookup_1; eauto).
  destruct Hqx as (Hxl & Hxb & _). unfold SCTP_MAX_QUEUED_PAYLOAD in Hxl.
  assert (Ep := put_bytes_in (q_payload x) 0 bs ltac:(lia) ltac:(lia)).
  pose proof (put_bytes_inv _ _ _ _ Ep) as (_ & _ & Hpl).
  pose proof (put_bytes_ok _ _ _ _ Hxb (proj1 (proj2 Hp)) Ep) as Hpb.
  set (buf := take _ _ ++ _) in *. wp_load Eg. wp_load (proj1 Hp). wp_load Ep.
  wp_load (lput_in _ _ _ Hlt).
  assert (Hu := used_insert q_inUse _ _ _ _ false true Hx Ex (eq_refl : _ = q_inUse
    {| q_streamId := sid; q_ppid := ppid; q_unordered := un; q_maxRetransmits := mr;
       q_lifetimeMs := lt; q_payload := buf; q_payloadLen := n; q_inUse := true |})).
  inv_update. split_and!; [etrans; [apply length_insert|done]| |].
  - apply Forall_insert; [done|]. split_and!; cbn; unfold SCTP_MAX_QUEUED_PAYLOAD; try done; lia.
  - etrans; [|symmetry; exact Hu]. cbn [Z.b2z].
    transitivity (u32 (sendQueueCount (assoc w) + 1)); [done|].
    rewrite u32_id, Hc by (unfold is_u32; lia). lia.
Qed.

Lemma takeSsn_wp sid un w :
  Inv (assoc w) -> 0 <= sid ->
  wp (takeSsn sid un) (fun ssn w' => is_u16 ssn /\ exists l,
        (length l = Z.to_nat SCTP_MAX_STREAMS /\ Forall is_u16 l) /\
        w' = w <| assoc := (assoc w) <| nextSsn := l |> |>) w.
Proof.
  intros HI Hs. pose proof (inv_ssn _ HI) as [Hl Hu]. unfold takeSsn, setA, SCTP_MAX_STREAMS in *.
  wp_steps; [|split; [done|by exists (nextSsn (assoc w))]].
  match goal with H : _ && _ = true |- _ => apply andb_prop in H as [_ Hlt%Z.ltb_lt] end.
  destruct (lget_in (nextSsn (assoc w)) sid) as (v & Ev); [lia|]. wp_load Ev.
  assert (Hr : 0 <= sid < Z.of_nat (length (nextSsn (assoc w)))) by lia.
  wp_load (lput_in _ _ _ Hr). apply lget_lookup in Ev as [_ Ev].
  split; [by eapply Forall_lookup_1|]. eexists. split; [|done]. rewrite length_insert.
  split; [done|]. apply Forall_insert; [done|apply u16_range].
Qed.

Lemma revertSsn_wp sid un w :
  Inv (assoc w) -> 0 <= sid -> wp (revertSsn sid un) (preserved w) w.
Proof.
  intros HI Hs. pose proof (inv_ssn _ HI) as [Hl Hu]. unfold revertSsn, setA, SCTP_MAX_STREAMS in *.
  wp_steps; [|by split].
  match goal with H : _ && _ = true |- _ => apply andb_prop in H as [_ Hlt%Z.ltb_lt] end.
  destruct (lget_in (nextSsn (assoc w)) sid) as (v & Ev); [lia|]. wp_load Ev.
  assert (Hr : 0 <= sid < Z.of_nat (length (nextSsn (assoc w)))) by lia.
  wp_load (lput_in _ _ _ Hr). split; [|done]. inv_update.
  split; [etrans; [apply length_insert|done]|]. apply Forall_insert; [done|apply u16_range].
Qed.

(** *** Chunks that fit a packet *)

Lemma data_chunk_ok f tsn sid ssn ppid bs : bytes_ok bs -> bytes_ok (data_chunk f tsn sid ssn ppid bs).
Proof.
  intros. unfold data_chunk, chunk_hdr. rewrite !bytes_ok_app.
  split_and!; auto using be16_ok, be32_ok; repeat constructor; apply u8_range.
Qed.

Lemma blen_data_chunk f tsn sid ssn ppid bs : blen (data_chunk f tsn sid ssn ppid bs) = 16 + blen bs.
Proof. unfold data_chunk. autorewrite with blen. lia. Qed.

Lemma data_pad n : 0 <= n <= 1172 -> 16 + n <= SCTP_PAD4 (16 + n) <= 1188.
Proof. intros. rewrite SCTP_PAD4_val by lia. Z.div_mod_to_equations. lia. Qed.

Lemma writes_data tsn sid ssn ppid un p n bs :
  payload_at p n bs -> n <= 1172 ->
  writes (fun buf o => sctpWriteDataChunk buf o tsn sid ssn ppid un p n)
    (data_chunk (if un then 7 else 3) tsn sid ssn ppid bs) (SCTP_PAD4 (16 + n)).
Proof.
  intros Hp Hn. destruct (payload_len _ _ _ Hp) as [En Hn0]. destruct Hp as (Hp & Hb & Hl).
  split; [by apply data_chunk_ok|]. split; [rewrite blen_data_chunk, En; apply data_pad; lia|].
  intros buf _. rewrite <- En in *. by apply sctpWriteDataChunk_spec.
Qed.

Lemma writes_fragment f tsn sid ssn ppid p n bs :
  payload_at p n bs -> n <= 1172 ->
  writes (writeFragment f tsn sid ssn ppid p n) (data_chunk f tsn sid ssn ppid bs) (SCTP_PAD4 (16 + n)).
Proof.
  intros Hp Hn. destruct (payload_len _ _ _ Hp) as [En Hn0]. destruct Hp as (Hp & Hb & Hl).
  split; [by apply data_chunk_ok|]. split; [rewrite blen_data_chunk, En; apply data_pad; lia|].
  intros buf _. unfold writeFragment, data_chunk, SCTP_DATA_HEADER_SIZE.
  rewrite (u32_id (16 + n)) by (unfold is_u32; lia). rewrite Hp, En. cbn [mbind res_bind]. writer_spec.
Qed.

Lemma Inv_takeTsn w :
  Inv (assoc w) ->
  Inv (assoc (w <| assoc := (assoc w) <| nextTsn := nextTsn (assoc w) +32 1 |> |>)).
Proof.
  intros. inv_update. destruct inv_tsn0 as (_ & ? & ?). split_and!; [apply u32_range|done|done].
Qed.

(** *** Fragmentation *)

(** The flags of a fragment. *)
Definition fragFlagsOf (isFirst isLast un : bool) : Z :=
  Z.lor (Z.lor (if isFirst then SCTP_DATA_FLAG_BEGIN else 0) (if isLast then SCTP_DATA_FLAG_END else 0))
        (if un then SCTP_DATA_FLAG_UNORDERED else 0).

(** [pks] are the packets of the fragments [frs], from [tsn] on; [whole] says that
    the last of them ends the message. *)
Fixpoint frag_packets (src dst vtag sid ssn ppid : Z) (un isFirst whole : bool) (tsn : Z)
    (frs pks : list (list Z)) : Prop :=
  match frs, pks with
  | [], [] => True
  | fr :: frs, pk :: pks =>
      (exists pad, bytes_ok pad /\ blen pad = SCTP_PAD4 (16 + blen fr) - (16 + blen fr) /\
         pk = sctp_packet src dst vtag
                (data_chunk (fragFlagsOf isFirst (whole && bool_decide (frs = [])) un)
                   tsn sid ssn ppid fr ++ pad)) /\
      frag_packets src dst vtag sid ssn ppid un false whole (tsn +32 1) frs pks
  | _, _ => False
  end.

(** The world after the fragments [frs] of [bs] were sent; [rest] is what the full
    outstanding table kept back. *)
Definition fragmented (sid ssn ppid : Z) (un isFirst : bool) (bs : list Z) (w : World)
    (completed : bool) (w' : World) : Prop :=
  preserved w tt w' /\
  exists frs pks rest,
    bs = concat frs ++ rest /\ Forall (fun fr => 0 < blen fr <= mtu (assoc w) - 28) frs /\
    frag_packets (localPort (assoc w)) (remotePort (assoc w)) (peerVerificationTag (assoc w))
      sid ssn ppid un isFirst (bool_decide (rest = [])) (nextTsn (assoc w)) frs pks /\
    events w' = events w ++ map EvPacket pks /\
    (if completed then rest = [] else used o_inUse (outstanding (assoc w')) = SCTP_MAX_OUTSTANDING).

Lemma fragmented_nil sid ssn ppid un isFirst w :
  Inv (assoc w) -> fragmented sid ssn ppid un isFirst [] w true w.
Proof.
  intros HI. split; [by split|]. exists [], [], []. split_and!; try done. by rewrite app_nil_r.
Qed.

Lemma fragmented_full sid ssn ppid un isFirst bs w w' :
  preserved w tt w' -> events w' = events w ->
  used o_inUse (outstanding (assoc w')) = SCTP_MAX_OUTSTANDING ->
  fragmented sid ssn ppid un isFirst bs w false w'.
Proof.
  intros Hp He Hu. split; [done|]. exists [], [], bs. split_and!; try done. by rewrite app_nil_r.
Qed.

(** A message ends with its last fragment, unless something was kept back. *)
Lemma last_fragment (frs : list (list Z)) (rest : list Z) m :
  Forall (fun fr => 0 < blen fr <= m) frs ->
  bool_decide (concat frs ++ rest = []) = bool_decide (rest = []) && bool_decide (frs = []).
Proof.
  intros Hall. destruct Hall as [|f frs Hf _]; [by rewrite andb_true_r|].
  rewrite andb_false_r. apply bool_decide_false. destruct f; [rewrite blen_nil in Hf; lia|done].
Qed.

Lemma fragmented_cons sid ssn ppid un isFirst fr pad bs w w1 c w2 :
  0 < blen fr <= mtu (assoc w) - 28 -> bytes_ok pad ->
  blen pad = SCTP_PAD4 (16 + blen fr) - (16 + blen fr) ->
  preserved w tt w1 -> nextTsn (assoc w1) = nextTsn (assoc w) +32 1 ->
  let pk := sctp_packet (localPort (assoc w)) (remotePort (assoc w)) (peerVerificationTag (assoc w))
              (data_chunk (fragFlagsOf isFirst (bool_decide (bs = [])) un)
                 (nextTsn (assoc w)) sid ssn ppid fr ++ pad) in
  events w1 = events w ++ [EvPacket pk] ->
  fragmented sid ssn ppid un false bs w1 c w2 ->
  fragmented sid ssn ppid un isFirst (fr ++ bs) w c w2.
Proof.
  intros Hfr Hpb Hpl [HI1 Hk1] Ht pk He ([HI2 Hk2] & frs & pks & rest & -> & Hall & Hpk & He2 & Hc).
  split; [split; [done|by eapply keeps_trans]|].
  unfold keeps, view in Hk1. injection Hk1 as Est Emtu Esq Esc Elp Erp Emv Epv _ _ _ _.
  exists (fr :: frs), (pk :: pks), rest. split_and!; [by cbn; rewrite <- (assoc_L (++))| | | |done].
  - constructor; [done|]. by rewrite <- Emtu.
  - cbn [frag_packets]. split; [|by rewrite <- Elp, <- Erp, <- Epv, <- Ht].
    exists pad. split_and!; [done|done|]. unfold pk. do 4 f_equal.
    eapply last_fragment; eauto.
  - rewrite He2, He, <- (assoc_L (++)). done.
Qed.

Lemma fragmentLoop_wp fuel sid ssn ppid un p n bs mr lt now m off isFirst w :
  Inv (assoc w) -> payload_at p n bs -> m = mtu (assoc w) - 28 -> 0 <= off <= n ->
  SCTP_MAX_OUTSTANDING - used o_inUse (outstanding (assoc w)) < Z.of_nat fuel ->
  wp (fragmentLoop memalloc fuel sid ssn ppid un p mr lt now m (n - off) off isFirst)
     (fragmented sid ssn ppid un isFirst (drop (Z.to_nat off) bs) w) w.
Proof.
  intros HI Hp Hm Ho Hf. destruct (payload_len _ _ _ Hp) as [En Hn0].
  assert (Hn32 : n < 2 ^ 31) by apply Hp.
  revert off isFirst w HI Hm Ho Hf. induction fuel as [|fuel IH]; intros off isFirst w HI Hm Ho Hf;
    pose proof (used_bound o_inUse (outstanding (assoc w))) as Hu;
    pose proof (proj1 (inv_slots _ HI)) as Hl; rewrite Hl in Hu; unfold SCTP_MAX_OUTSTANDING in *; [lia|].
  pose proof (inv_mtu _ HI) as Hmtu. unfold SCTP_MAX_PACKET_SIZE in Hmtu.
  pose proof (firstFree_range o_inUse (outstanding (assoc w))) as Hi.
  cbn [fragmentLoop]. destruct (Z.ltb_spec 0 (n - off)) as [Hrem|]; cycle 1.
  { apply wp_ret. rewrite drop_ge by (unfold blen in *; lia). by apply fragmented_nil. }
  set (k := if m <? n - off then m else n - off).
  assert (Hk : 0 < k <= m /\ k <= n - off) by (unfold k; destruct (Z.ltb_spec m (n - off)); lia).
  set (fr := take (Z.to_nat k) (drop (Z.to_nat off) bs)).
  assert (Hpf : payload_at (padd p off) k fr) by (apply (payload_part p n bs); [done|lia..]).
  rewrite (u32_id (n - off - k)), (u32_id (off + k)) by (unfold is_u32; lia).
  replace (n - off - k) with (n - (off + k)) by lia.
  unfold takeTsn, setA, SCTP_MAX_OUTSTANDING. wp_step. wp_steps.
  all: set (w0 := w <| assoc := (assoc w) <| nextTsn := nextTsn (assoc w) +32 1 |> |>).
  all: assert (HI0 : Inv (assoc w0)) by (by apply Inv_takeTsn).
  { apply fragmented_full; [by split|done|]. apply Z.leb_le in H.
    change (2048 <= firstFree o_inUse (outstanding (assoc w))) in H.
    assert (E := proj1 (firstFree_full o_inUse (outstanding (assoc w)))). rewrite Hl in *.
    apply E. lia. }
  apply Z.leb_gt in H. assert (Htsn : is_u32 (nextTsn (assoc w))) by apply HI.
  apply (fillOutstanding_wp _ _ _ _ _ _ _ fr _ _ _ w0);
    [done|done|done|change (k <= mtu (assoc w) - 28); lia|done|].
  intros copy _ HIf. set (w1 := filled _ _ _) in *. wp_steps.
  apply (sendChunk_wp _ _ _ _ _ _ (inv_wire _ HIf) (writes_fragment _ _ _ _ _ _ _ _ Hpf ltac:(lia))).
  intros out pad Hout Hpb Hpl. destruct (payload_len _ _ _ Hpf) as [Efr _].
  rewrite blen_data_chunk, Efr in Hpl.
  assert (Edrop : drop (Z.to_nat off) bs = fr ++ drop (Z.to_nat (off + k)) bs).
  { unfold fr. replace (Z.to_nat (off + k)) with (Z.to_nat off + Z.to_nat k)%nat by lia.
    by rewrite <- drop_drop, take_drop. }
  eapply wp_mono; [apply IH|].
  - by apply Inv_sent.
  - done.
  - lia.
  - change (2048 - used o_inUse (outstanding (assoc w1)) < Z.of_nat fuel).
    rewrite <- (inv_count _ HIf). change (outstandingCount (assoc w1)) with (outstandingCount (assoc w) + 1).
    rewrite (inv_count _ HI). lia.
  - intros c w2 Hc. cbv beta in Hc |- *. rewrite Edrop.
    eapply (fragmented_cons _ _ _ _ _ _ pad); [| | | | | |exact Hc]; try done.
    + rewrite Efr. lia.
    + by rewrite Efr.
    + split; [by apply Inv_sent|done].
    + assert (Eend : (n - (off + k) =? 0) = bool_decide (drop (Z.to_nat (off + k)) bs = [])).
      { destruct (Z.eqb_spec (n - (off + k)) 0) as [E|E]; symmetry.
        - apply bool_decide_true, drop_ge. unfold blen in *. lia.
        - apply bool_decide_false. intros E'%(f_equal length). rewrite length_drop in E'.
          unfold blen in *. cbn in E'. lia. }
      rewrite <- Eend. done.
Qed.

(** *** sctpAssocSend *)

Lemma startT3_wp now w : Inv (assoc w) -> wp (startT3 now) (preserved w) w.
Proof.
  intros HI. unfold startT3, setA. wp_steps. unfold preserved. cbn [assoc].
  split; (destruct (t3RtxExpiry (assoc w) =? 0) eqn:E; [|done]); [inv_update|done].
Qed.

Definition sendPost (w : World) (st : STATUS) (w' : World) : Prop :=
  st = STATUS_SUCCESS /\ Inv (assoc w') /\ (state (assoc w) = SCTP_ASSOC_ESTABLISHED -> keeps (assoc w) (assoc w')).

Lemma sendPost_preserved w w1 {A} (a : A) w' :
  keeps (assoc w) (assoc w1) -> preserved w1 a w' -> sendPost w STATUS_SUCCESS w'.
Proof. intros Hk [HI Hk']. split; [done|]. split; [done|]. intros _. by eapply keeps_trans. Qed.

Lemma sctpAssocSend_wp sid ppid un p n bs mr lt w :
  Inv (assoc w) -> payload_at p n bs -> 0 <= sid ->
  wp (sctpAssocSend gettime memalloc sid ppid un p n mr lt) (sendPost w) w.
Proof.
  intros HI Hp Hsid. destruct (payload_len _ _ _ Hp) as [En Hn0].
  unfold sctpAssocSend. apply wp_bind, wp_now. intros now. set (w0 := w <| clock := _ |>).
  assert (HI0 : Inv (assoc w0)) by done. assert (Hk0 : keeps (assoc w) (assoc w0)) by done.
  pose proof (inv_mtu _ HI0) as Hm. unfold SCTP_MAX_PACKET_SIZE in Hm.
  wp_step. wp_step. apply wp_if; [intros Hst|intros Hst; apply wp_if; [intros _|intros _]].
  - apply wp_bind. eapply wp_mono; [by apply (queueUnsent_wp _ _ _ _ _ bs)|].
    intros ? w' HI'. apply wp_ret. split; [done|]. split; [done|]. intros Est.
    change (state (assoc w0)) with (state (assoc w)) in Hst. rewrite Est in Hst. done.
  - apply wp_bind. eapply wp_mono; [by apply (queuePending_wp _ _ _ _ _ bs)|].
    intros ? w' Hp'. apply wp_ret. by eapply sendPost_preserved.
  - apply wp_bind. eapply wp_mono; [by apply takeSsn_wp|].
    intros ssn w1 (Hssn & l & Hl & ->). set (w1 := w0 <| assoc := _ |>).
    assert (HI1 : Inv (assoc w1)) by inv_update. assert (Hk1 : keeps (assoc w) (assoc w1)) by done.
    unfold SCTP_COMMON_HEADER_SIZE, SCTP_DATA_HEADER_SIZE.
    match goal with |- context [u32 ?x] => change x with (mtu (assoc w0) - 12 - 16) end.
    rewrite (u32_id (mtu (assoc w0) - 12 - 16)) by (unfold is_u32; lia).
    apply wp_if; intros Hfit; [apply wp_if; intros Hfull|].
    + apply wp_bind. eapply wp_mono; [by apply revertSsn_wp|]. intros ? w2 [HI2 Hk2].
      apply wp_bind. eapply wp_mono; [by apply (queuePending_wp _ _ _ _ _ bs)|].
      intros ? w' Hp'. apply wp_ret. eapply sendPost_preserved; [|exact Hp']. by eapply keeps_trans.
    + apply Z.leb_le in Hfit. apply Z.leb_gt in Hfull. unfold takeTsn, setA. wp_steps.
      set (w2 := w1 <| assoc := _ |>). assert (HI2 : Inv (assoc w2)) by by apply Inv_takeTsn.
      apply (fillOutstanding_wp _ _ _ _ _ _ _ bs _ _ _ w2); try done;
        [change (n <= mtu (assoc w0) - 28); lia|apply HI1|].
      intros copy _ HIf. apply wp_bind.
      apply (sendChunk_wp _ _ _ _ _ _ (inv_wire _ HIf) (writes_data _ _ _ _ _ _ _ _ Hp ltac:(lia))).
      intros out pad Hout _ _. apply wp_bind.
      eapply wp_mono; [apply startT3_wp; by apply Inv_sent|].
      intros ? w' Hp'. apply wp_ret. by eapply sendPost_preserved; [|exact Hp'].
    + apply wp_bind.
      pose proof (fragmentLoop_wp (S (Z.to_nat SCTP_MAX_OUTSTANDING)) sid ssn ppid un p n bs mr lt now
                    (mtu (assoc w0) - 12 - 16) 0 true w1 HI1 Hp) as HF.
      rewrite Z.sub_0_r in HF. eapply wp_mono; [apply HF|].
      { change (mtu (assoc w0) - 12 - 16 = mtu (assoc w0) - 28). lia. }
      { lia. }
      { pose proof (used_bound o_inUse (outstanding (assoc w1))). unfold SCTP_MAX_OUTSTANDING. lia. }
      intros c w2 [[HI2 Hk2] _]. apply wp_bind, wp_when; intros.
      * eapply wp_mono; [by apply startT3_wp|]. intros ? w' Hp'. apply wp_ret.
        eapply sendPost_preserved; [|exact Hp']. by eapply keeps_trans.
      * apply wp_ret. eapply (sendPost_preserved _ w2 tt); [|split; [exact HI2|done]]. by eapply keeps_trans.
Qed.

(** *** The queues *)

Lemma flushLoop_wp k i w :
  Inv (assoc w) -> state (assoc w) = SCTP_ASSOC_ESTABLISHED ->
  0 <= i -> i + Z.of_nat k = SCTP_MAX_QUEUED_MESSAGES ->
  wp (flushLoop gettime memalloc k i)
     (fun _ w' => Inv (assoc w') /\ state (assoc w') = SCTP_ASSOC_ESTABLISHED) w.
Proof.
  revert i w. induction k as [|k IH]; intros i w HI Hst Hi Hk; [done|]. cbn [flushLoop].
  unfold SCTP_MAX_QUEUED_MESSAGES in Hk.
  pose proof (inv_queued _ HI) as (Hl & Hs & Hc). unfold SCTP_MAX_QUEUED_MESSAGES in Hl.
  assert (Hlt : 0 <= i < Z.of_nat (length (sendQueue (assoc w)))) by lia.
  destruct (lget_in (sendQueue (assoc w)) i Hlt) as (q & Eq).
  pose proof (lget_lookup _ _ _ Eq) as [_ Hq].
  assert (Hqok : queued_ok q) by (eapply Forall_lookup_1; eauto).
  destruct Hqok as (Hql & Hqb & Hqn & Hqs). unfold SCTP_MAX_QUEUED_PAYLOAD in *.
  unfold setA. wp_load Eq; [|apply IH; [done|done|lia|unfold SCTP_MAX_QUEUED_MESSAGES; lia]].
  assert (Hpay : payload_at (Ptr (q_payload q) 0) (q_payloadLen q)
                   (take (Z.to_nat (q_payloadLen q)) (q_payload q))).
  { split_and!; [|auto with width|lia]. unfold pld_bytes. cbn [p_obj p_off].
    rewrite ld_bytes_in by lia. done. }
  eapply wp_mono; [by apply (sctpAssocSend_wp _ _ _ _ _ _ _ _ w HI Hpay)|].
  intros st w1 (_ & HI1 & Hk1). specialize (Hk1 Hst). unfold keeps, view in Hk1.
  injection Hk1 as Est _ Esq Esc _ _ _ _ _ _ _ _.
  rewrite <- Esq in Eq, Hlt, Hq, Hs, Hl.
  wp_load Eq. wp_load (lput_in _ _ _ Hlt).
  assert (Hu := used_insert q_inUse _ _ _ _ true false Hq H (eq_refl : _ = q_inUse (q <| q_inUse := false |>))).
  pose proof (used_bound q_inUse (sendQueue (assoc w1))) as Hub.
  pose proof (used_bound q_inUse (<[Z.to_nat i := q <| q_inUse := false |>]> (sendQueue (assoc w1)))) as Hub'.
  apply IH; [|by etrans; [exact Est|]|lia|unfold SCTP_MAX_QUEUED_MESSAGES; lia]. clear IH.
  inv_update. split_and!; [etrans; [apply length_insert|done]| |].
  - apply Forall_insert; [done|]. exact (conj Hql (conj Hqb (conj Hqn Hqs))).
  - etrans; [|symmetry; exact Hu]. cbn [Z.b2z] in *.
    transitivity (u32 (sendQueueCount (assoc w1) - 1)); [done|].
    destruct inv_queued0 as (_ & _ & Ec). rewrite u32_id, Ec by (unfold is_u32; rewrite ?Ec; lia). lia.
Qed.

Lemma drainLoop_wp k i w :
  Inv (assoc w) -> 0 <= i -> i + Z.of_nat k = SCTP_MAX_PENDING_SENDS ->
  wp (drainLoop gettime memalloc k i)
     (fun _ w' => Inv (assoc w') /\ (state (assoc w) = SCTP_ASSOC_ESTABLISHED -> keeps (assoc w) (assoc w'))) w.
Proof.
  revert i w. induction k as [|k IH]; intros i w HI Hi Hk; [done|]. cbn [drainLoop].
  unfold SCTP_MAX_PENDING_SENDS in Hk.
  pose proof (inv_pending _ HI) as (Hl & Hs & Hc). unfold SCTP_MAX_PENDING_SENDS in Hl.
  assert (Hlt : 0 <= i < Z.of_nat (length (pendingQueue (assoc w)))) by lia.
  destruct (lget_in (pendingQueue (assoc w)) i Hlt) as (p & Ep).
  pose proof (lget_lookup _ _ _ Ep) as [_ Hp].
  assert (Hpok : pending_ok p) by (eapply Forall_lookup_1; eauto).
  unfold setA. wp_load Ep; try done.
  { apply IH; [done|lia|unfold SCTP_MAX_PENDING_SENDS; lia]. }
  destruct (p_inUse p) eqn:Eu; [|done]. destruct Hpok as (Hpn & Hps & Hpb). rewrite Eu in Hpb.
  destruct Hpb as (b & Eb & Hbl & Hbb). wp_load (lput_in _ _ _ Hlt).
  set (p' := p <| p_payload := None |> <| p_inUse := false |>).
  assert (Hu := used_insert p_inUse _ _ _ p' true false Hp Eu eq_refl). cbn [Z.b2z] in Hu.
  pose proof (used_bound p_inUse (pendingQueue (assoc w))) as Hub.
  pose proof (used_bound p_inUse (<[Z.to_nat i := p']> (pendingQueue (assoc w)))) as Hub'.
  match goal with |- wp _ _ ?w1 => set (w1' := w1) end.
  assert (HI1 : Inv (assoc w1')).
  { inv_update. split_and!; [etrans; [apply length_insert|done]| |].
    - apply Forall_insert; [done|]. split; [exact Hpn|]. split; [exact Hps|done].
    - etrans; [|symmetry; exact Hu].
      transitivity (u32 (pendingQueueCount (assoc w) - 1)); [done|].
      rewrite u32_id, Hc by (unfold is_u32; rewrite ?Hc; lia). lia. }
  assert (Hpay : payload_at (ptrOf (p_payload p)) (p_payloadLen p) b).
  { rewrite Eb. split_and!; [by apply pld_bytes_whole|done|lia]. }
  eapply wp_mono; [by apply (sctpAssocSend_wp _ _ _ _ _ _ _ _ w1' HI1 Hpay)|].
  intros st w2 (_ & HI2 & Hk2). eapply wp_mono; [apply IH; [done|lia|unfold SCTP_MAX_PENDING_SENDS; lia]|].
  intros ? w3 [HI3 Hk3]. split; [done|]. intros Hst. specialize (Hk2 Hst).
  assert (state (assoc w2) = SCTP_ASSOC_ESTABLISHED).
  { unfold keeps, view in Hk2. injection Hk2 as Est _ _ _ _ _ _ _ _ _ _ _. by rewrite Est. }
  etrans; [by apply Hk3|exact Hk2].
Qed.
End Sending.

(** ** Chunk handlers *)

Lemma writes_exact writer chunk n :
  bytes_ok chunk -> blen chunk = n -> n <= 1188 ->
  (forall buf, blen buf = SCTP_MAX_PACKET_SIZE ->
     writer buf 12 = (b ← put_bytes buf 12 chunk; Ok (b, n))) ->
  writes writer chunk n.
Proof. intros Hc <- Hn Hw. split; [done|]. split; [lia|done]. Qed.

Lemma chunk_hdr_ok t f n : bytes_ok (chunk_hdr t f n).
Proof.
  unfold chunk_hdr. rewrite !bytes_ok_app.
  split_and!; auto using be16_ok; repeat constructor; apply u8_range.
Qed.
#[local] Hint Resolve chunk_hdr_ok be16_ok be32_ok : width.

Lemma gapLoop_length cum tsns gaps :
  Z.of_nat (length gaps) <= SCTP_MAX_GAP_BLOCKS ->
  Z.of_nat (length (gapLoop cum tsns gaps)) <= SCTP_MAX_GAP_BLOCKS.
Proof.
  revert gaps. induction tsns as [|t tsns IH]; intros gaps Hg; cbn [gapLoop]; [done|].
  destruct (Z.leb_spec SCTP_MAX_GAP_BLOCKS (Z.of_nat (length gaps))); [done|].
  destruct (TSN_LTE t cum); [by apply IH|].
  destruct gaps as [|[s e] rest]; [apply IH; done|].
  destruct (_ =? e + 1); apply IH; cbn [length] in *; lia.
Qed.

Lemma gap_bytes_ok gaps : bytes_ok (gap_bytes gaps).
Proof.
  induction gaps as [|g gaps IH]; [constructor|]. unfold gap_bytes in *. cbn [map concat].
  rewrite !bytes_ok_app. auto with width.
Qed.

(** The gap blocks an association reports. *)
Definition sackGaps (a : SctpAssociation) : list (Z * Z) :=
  rev (gapLoop (peerCumulativeTsn a)
         (sortTsns (take (Z.to_nat (receivedTsnCount a)) (receivedTsns a))) []).

Lemma sackGaps_length a : Z.of_nat (length (sackGaps a)) <= 128.
Proof. unfold sackGaps. rewrite length_rev. by apply gapLoop_length. Qed.

Definition sackPacket (a : SctpAssociation) : list Z :=
  sctp_packet (localPort a) (remotePort a) (peerVerificationTag a)
    (sack_chunk (peerCumulativeTsn a) SCTP_DEFAULT_ARWND (sackGaps a)).

Lemma sctpSendSack_wp w (Q : unit -> World -> Prop) :
  Inv (assoc w) ->
  (peerCumulativeTsnValid (assoc w) = false -> Q tt w) ->
  (forall out, peerCumulativeTsnValid (assoc w) = true -> wire_ok out ->
     Q tt (w <| assoc := (assoc w) <| outPacket := out |> <| needSack := false |> |>
             <| events := events w ++ [EvPacket (sackPacket (assoc w))] |>)) ->
  wp sctpSendSack Q w.
Proof.
  intros HI H0 H1. pose proof (inv_recv _ HI) as (Hl & Hr & Hc).
  unfold sctpSendSack, setA, SCTP_MAX_RECEIVED in *. wp_steps; [apply H0; by destruct (peerCumulativeTsnValid _)|].
  rewrite (proj2 (Z.ltb_ge 2048 _)) by lia.
  assert (Et : ld_bytes (receivedTsns (assoc w)) 0 (receivedTsnCount (assoc w))
               = Ok (take (Z.to_nat (receivedTsnCount (assoc w))) (receivedTsns (assoc w)))).
  { rewrite ld_bytes_in by (unfold blen; lia). done. }
  wp_load Et. fold (sackGaps (assoc w)). pose proof (sackGaps_length (assoc w)) as Hg.
  set (n := 16 + 4 * Z.of_nat (length (sackGaps (assoc w)))).
  assert (Hw : writes (fun buf o => sctpWriteSackChunk buf o (peerCumulativeTsn (assoc w))
                         SCTP_DEFAULT_ARWND (sackGaps (assoc w)))
                 (sack_chunk (peerCumulativeTsn (assoc w)) SCTP_DEFAULT_ARWND (sackGaps (assoc w))) n).
  { apply writes_exact; unfold n, sack_chunk in *.
    - rewrite !bytes_ok_app. split_and!; auto using gap_bytes_ok with width.
    - autorewrite with blen. lia.
    - lia.
    - intros buf Hb. unfold SCTP_MAX_PACKET_SIZE in Hb. by apply sctpWriteSackChunk_spec; lia. }
  apply (sendChunk_wp _ _ _ _ _ _ (inv_wire _ HI) Hw). intros out pad Hout _ Hpl. wp_steps.
  assert (Ep : pad = []).
  { destruct Hw as (_ & _ & _). unfold n, sack_chunk in Hpl. autorewrite with blen in Hpl.
    destruct pad; [done|]. rewrite blen_cons in Hpl. pose proof (blen_nonneg pad). lia. }
  subst pad. rewrite app_nil_r. apply H1; [by destruct (peerCumulativeTsnValid _)|done].
Qed.

Lemma get32_in b o : bytes_ok b -> 0 <= o -> o + 4 <= blen b ->
  exists v, rd32 b o = Ok v /\ getUnalignedInt32Be b o = Ok (i32 v) /\ is_u32 v.
Proof.
  intros Hb Ho Hl. destruct (rd32_in b o Ho Hl) as (v & E). exists v. split; [done|].
  rewrite get32Be_rd32, E by done. split; [done|]. by eapply rd32_range.
Qed.

Section Handlers.
Variable h : endian.
Variable gettime : nat -> Z.
Variable memalloc : nat -> Z -> option (list Z).
Variable hasMsg : bool.
Hypothesis Hmem : alloc_ok memalloc.
(** The packet and the chunk value in it. *)
Variable buf : list Z.
Hypothesis Hbuf : bytes_ok buf.
Variable v n : Z.
Hypothesis Hin : chunk_in buf v n.

Lemma be32At_wp i (Q : Z -> World -> Prop) w :
  0 <= i -> i + 4 <= n -> (forall x, rd32 buf (v + i) = Ok x -> is_u32 x -> Q x w) ->
  wp (be32At (Ptr buf v) i) Q w.
Proof.
  intros Hi Hn HQ. destruct Hin as (? & ? & ?).
  destruct (get32_in buf (v + i) Hbuf) as (x & Er & Eg & Hx); [lia..|].
  unfold be32At. wp_load Eg. rewrite u32_i32, u32_id by done. auto.
Qed.

Lemma be16At_wp i (Q : Z -> World -> Prop) w :
  0 <= i -> i + 2 <= n -> (forall x, rd16 buf (v + i) = Ok x -> is_u16 x -> Q x w) ->
  wp (be16At (Ptr buf v) i) Q w.
Proof.
  intros Hi Hn HQ. destruct Hin as (? & ? & ?).
  destruct (get16_in buf (v + i) Hbuf) as (x & Er & Eg & Hx); [lia..|].
  unfold be16At. wp_load Eg. rewrite u16_i16, u16_id by done. auto.
Qed.

Lemma payload_value o k :
  0 <= o -> 0 <= k -> o + k <= n ->
  payload_at (padd (Ptr buf v) o) k (take (Z.to_nat k) (drop (Z.to_nat (v + o)) buf)).
Proof.
  intros Ho Hk Hn. destruct Hin as (? & ? & ?). split_and!; [|auto with width|lia].
  unfold pld_bytes. cbn [padd p_obj p_off]. apply ld_bytes_in; lia.
Qed.

Definition ok (st : STATUS) (w : World) : Prop := st = STATUS_SUCCESS /\ Inv (assoc w).

Ltac read_fields :=
  repeat (apply wp_bind; (apply be32At_wp || apply be16At_wp); [lia..|];
          let x := fresh "x" in let E := fresh "Ex" in let H := fresh "Hx" in intros x E H).

Lemma native_bytes32_ok v' : bytes_ok (native_bytes32 h v') /\ blen (native_bytes32 h v') = 4.
Proof. destruct h; (split; [repeat constructor; apply u8_range|done]). Qed.

Lemma cookie_bytes_ok c : bytes_ok (cookie_bytes h c) /\ blen (cookie_bytes h c) = 44.
Proof.
  unfold cookie_bytes. rewrite !bytes_ok_app, !blen_app, !(proj2 (native_bytes32_ok _)).
  split; [|destruct h; reflexivity].
  split_and!; try apply native_bytes32_ok; destruct h; cbn [native_bytes64 native_bytes16];
    rewrite ?bytes_ok_app; try split; repeat constructor; apply u8_range.
Qed.

Lemma writes_init_ack tag nOut nIn tsn c :
  writes (fun b o => sctpWriteInitAckChunk b o tag SCTP_DEFAULT_ARWND nOut nIn tsn
                       (cookie_bytes h c) SCTP_COOKIE_SIZE)
    (init_ack_chunk tag SCTP_DEFAULT_ARWND nOut nIn tsn (cookie_bytes h c)) 72.
Proof.
  destruct (cookie_bytes_ok c) as [Hb Hl]. apply writes_exact; [| |lia|].
  - unfold init_ack_chunk. rewrite Hl. rewrite !bytes_ok_app. split_and!; auto with width.
    apply bytes_ok_check; reflexivity.
  - unfold init_ack_chunk. autorewrite with blen. rewrite Hl. done.
  - intros b _. unfold SCTP_COOKIE_SIZE. rewrite <- Hl.
    rewrite sctpWriteInitAckChunk_spec; [by rewrite Hl| |by rewrite Hl].
    exact (pld_bytes_whole _ _ eq_refl).
Qed.

Lemma sctpHandleInit_wp w : Inv (assoc w) -> wp (sctpHandleInit h (Ptr buf v) n) ok w.
Proof.
  intros HI. unfold sctpHandleInit. apply wp_if; [done|intros Hlt%Z.ltb_ge]. read_fields.
  wp_step. wp_step. apply wp_bind.
  apply (sendChunk_wp _ _ _ _ _ _ (inv_wire _ HI) (writes_init_ack _ _ _ _ _)).
  intros out pad Hout _ _. apply wp_ret. split; [done|]. by apply Inv_sent.
Qed.

Lemma writes_cookie_echo data k :
  bytes_ok data -> 0 <= k <= blen data -> blen data = SCTP_COOKIE_SIZE ->
  writes (fun b o => sctpWriteCookieEchoChunk b o data k) (cookie_echo_chunk (take (Z.to_nat k) data))
    (SCTP_PAD4 (4 + k)).
Proof.
  intros Hd Hk Hl. unfold SCTP_COOKIE_SIZE in Hl.
  pose proof (blen_take k data ltac:(lia)) as Ht.
  assert (Hp : 4 + k <= SCTP_PAD4 (4 + k) <= 1188)
    by (rewrite SCTP_PAD4_val by lia; Z.div_mod_to_equations; lia).
  split; [|split].
  - unfold cookie_echo_chunk. rewrite !bytes_ok_app. auto with width.
  - unfold cookie_echo_chunk. autorewrite with blen. rewrite Ht. lia.
  - intros b _. pose proof (sctpWriteCookieEchoChunk_spec b 12 data (take (Z.to_nat k) data)) as E.
    rewrite Ht in E. apply E; [|lia]. by rewrite ld_bytes_in by lia.
Qed.

Lemma cookieLoop_wp fuel off w :
  Inv (assoc w) -> 16 <= off < 2 ^ 20 -> n - off < 4 * Z.of_nat fuel + 4 ->
  wp (cookieLoop fuel (Ptr buf v) n off) (fun _ w' => Inv (assoc w')) w.
Proof.
  destruct Hin as (? & ? & ?).
  revert off w. induction fuel as [|fuel IH]; intros off w HI Ho Hf; cbn [cookieLoop];
    rewrite (u32_id (off + 4)) by (unfold is_u32; lia);
    (apply wp_if; [intros Hle%Z.leb_le|done]); [lia|].
  read_fields. unfold is_u16 in *. apply wp_if; [done|intros H4%Z.ltb_ge].
  apply wp_if; intros _.
  - apply wp_if; [|done]. intros [Hc%Z.leb_le Hv%Z.leb_le]%andb_prop.
    unfold SCTP_COOKIE_SIZE in Hc. rewrite (u32_id (off + x0)) in Hv by (unfold is_u32; lia).
    pose proof (inv_cookie _ HI) as (Hdl & Hdb & _). unfold SCTP_COOKIE_SIZE in Hdl.
    pose proof (payload_value (off + 4) (x0 - 4) ltac:(lia) ltac:(lia) ltac:(lia)) as Hp.
    destruct (payload_len _ _ _ Hp) as [El _].
    assert (Ep := put_bytes_in (cookieEchoData (assoc w)) 0 _ ltac:(lia) ltac:(rewrite El; lia)).
    pose proof (put_bytes_inv _ _ _ _ Ep) as (_ & _ & Hpl).
    pose proof (put_bytes_ok _ _ _ _ Hdb (proj1 (proj2 Hp)) Ep) as Hpb.
    unfold setA. wp_load (proj1 Hp). wp_load Ep.
    inv_update. unfold SCTP_COOKIE_SIZE. split; [|split; [exact Hpb|]].
    + etrans; [exact Hpl|done].
    + change (0 <= x0 - 4 <= 44). lia.
  - rewrite SCTP_PAD4_val by lia.
    assert (x0 <= 4 * ((x0 + 3) / 4) <= x0 + 3) by (Z.div_mod_to_equations; lia).
    rewrite u32_id by (unfold is_u32; lia). apply IH; [done|lia..].
Qed.

Lemma sctpHandleInitAck_wp w : Inv (assoc w) -> wp (sctpHandleInitAck gettime (Ptr buf v) n) ok w.
Proof.
  intros HI. pose proof Hin as (? & ? & ?). unfold sctpHandleInitAck.
  apply wp_if; [done|intros Hlt%Z.ltb_ge]. unfold setA. wp_step. wp_step.
  apply wp_if; [done|intros _]. read_fields. wp_step. wp_step. apply wp_bind.
  eapply wp_mono; [apply cookieLoop_wp; [|lia|Z.div_mod_to_equations; lia]|].
  { inv_update. destruct inv_tsn0 as (? & _ & ?). split_and!; [done|apply u32_range|done]. }
  intros found w1 HI1. apply wp_if; [done|intros _]. wp_step. wp_step. apply wp_bind.
  pose proof (inv_cookie _ HI1) as (Hl & Hb & Hk).
  apply (sendChunk_wp _ _ _ _ _ _ (inv_wire _ HI1) (writes_cookie_echo (cookieEchoData (assoc w1)) (cookieEchoLen (assoc w1)) Hb ltac:(lia) Hl)).
  intros out pad Hout _ _. wp_steps. apply wp_now. intros now. wp_steps. split; [done|].
  pose proof (Inv_sent w1 out [] HI1 Hout). inv_update.
Qed.

Lemma native32_in i : 0 <= i -> i + 4 <= n ->
  exists x, native32 h buf (v + i) = Ok x /\ is_u32 x.
Proof.
  intros Hi Hn. destruct Hin as (? & ? & ?). unfold native32.
  destruct (ld_in buf (v + i)) as (a & Ea & _); [lia|].
  destruct (ld_in buf (v + i + 1)) as (b & Eb & _); [lia|].
  destruct (ld_in buf (v + i + 2)) as (c & Ec & _); [lia|].
  destruct (ld_in buf (v + i + 3)) as (d & Ed & _); [lia|].
  rewrite Ea, Eb, Ec, Ed. cbn [mbind res_bind]. eexists. split; [done|].
  apply ld_byte in Ea, Eb, Ec, Ed; [|done..]. destruct h; width_lia.
Qed.

Lemma sctpFlushSendQueue_wp w :
  Inv (assoc w) -> state (assoc w) = SCTP_ASSOC_ESTABLISHED ->
  wp (sctpFlushSendQueue gettime memalloc) (fun _ w' => Inv (assoc w')) w.
Proof.
  intros HI Hst. unfold sctpFlushSendQueue.
  eapply wp_mono; [apply flushLoop_wp; [exact Hmem|exact HI|exact Hst|lia|reflexivity]|]. intros ? w' [? _]. done.
Qed.

Lemma sctpHandleCookieEcho_wp w :
  Inv (assoc w) -> wp (sctpHandleCookieEcho h gettime memalloc (Ptr buf v) n) ok w.
Proof.
  intros HI. unfold sctpHandleCookieEcho, SCTP_COOKIE_SIZE, setA. cbn [p_obj p_off].
  apply wp_if; [done|intros Hlt%Z.ltb_ge].
  destruct (native32_in 0) as (x0 & E0 & _); [lia..|].
  destruct (native32_in 4) as (x1 & E1 & _); [lia..|].
  destruct (native32_in 8) as (x2 & E2 & _); [lia..|].
  destruct (native32_in 16) as (x3 & E3 & _); [lia..|].
  destruct (native32_in 24) as (x4 & E4 & _); [lia..|].
  apply wp_bind; eapply wp_lift; [exact E0|]. apply wp_bind; eapply wp_lift; [exact E1|].
  apply wp_if; [done|intros _]. wp_load E2. wp_load E3. wp_load E4.
  match goal with |- wp _ _ ?w1 => set (w1' := w1) end.
  assert (HI1 : Inv (assoc w1')).
  { inv_update. destruct inv_tsn0 as (? & _ & ?). split_and!; [done|apply u32_range|done]. }
  assert (Hw : writes sctpWriteCookieAckChunk (chunk_hdr SCTP_CHUNK_COOKIE_ACK 0 4) 4).
  { apply writes_exact; [auto with width|by autorewrite with blen|lia|].
    intros. apply sctpWriteCookieAckChunk_spec. }
  apply (sendChunk_wp _ _ _ _ _ _ (inv_wire _ HI1) Hw). intros out pad Hout _ _. wp_steps.
  eapply wp_mono; [apply sctpFlushSendQueue_wp; [|done]|].
  - pose proof (Inv_sent w1' out [] HI1 Hout). inv_update.
  - intros ? w' HI'. by apply wp_ret.
Qed.

Lemma sctpHandleCookieAck_wp w :
  Inv (assoc w) -> wp (sctpHandleCookieAck gettime memalloc) ok w.
Proof.
  intros HI. unfold sctpHandleCookieAck, setA. wp_step. wp_step.
  apply wp_if; [done|intros _]. wp_steps.
  eapply wp_mono; [apply sctpFlushSendQueue_wp; [|done]|].
  - inv_update.
  - intros ? w' HI'. by apply wp_ret.
Qed.

(** *** Received data *)

(** A TSN that the window takes: the live entries and the cumulative TSN after it. *)
Definition tracked (tsn : Z) (a : SctpAssociation) (fresh : bool) (cum' : Z) (R' : list Z) : Prop :=
  let cum := if peerCumulativeTsnValid a then peerCumulativeTsn a else tsn -32 1 in
  let R := live (receivedTsns a) (receivedTsnCount a) in
  if tsn =? cum +32 1 then fresh = true /\ advanced tsn R cum' R'
  else if TSN_GT tsn (cum +32 1) then
    fresh = true /\ cum' = cum /\
    R' = (if bool_decide (tsn ∈ R) || (SCTP_MAX_RECEIVED <=? receivedTsnCount a) then R
          else R ++ [tsn])
  else fresh = false /\ cum' = cum /\ R' = R.

(** The fields the receive side does not touch. *)
Definition sendSide (a : SctpAssociation) :=
  (outstanding a, nextTsn a, (localPort a, remotePort a, myVerificationTag a, peerVerificationTag a),
   state a, (reassemblyBuf a, reassemblyLen a, reassemblyStreamId a, reassemblyPpid a,
             reassemblyInProgress a), t1InitExpiry a).

Lemma trackTsn_wp tsn w :
  Inv (assoc w) -> is_u32 tsn ->
  wp (trackTsn tsn) (fun fresh w' =>
    Inv (assoc w') /\ events w' = events w /\ sendSide (assoc w') = sendSide (assoc w) /\
    peerCumulativeTsnValid (assoc w') = true /\
    tracked tsn (assoc w) fresh (peerCumulativeTsn (assoc w'))
      (live (receivedTsns (assoc w')) (receivedTsnCount (assoc w')))) w.
Proof.
  intros HI Ht. unfold trackTsn, setA. wp_step. wp_step.
  match goal with |- wp _ _ ?w1 => set (w1' := w1) end.
  set (cum := if peerCumulativeTsnValid (assoc w) then peerCumulativeTsn (assoc w) else tsn -32 1).
  assert (HI1 : Inv (assoc w1') /\ peerCumulativeTsn (assoc w1') = cum /\
                peerCumulativeTsnValid (assoc w1') = true /\ events w1' = events w /\
                sendSide (assoc w1') = sendSide (assoc w) /\
                receivedTsns (assoc w1') = receivedTsns (assoc w) /\
                receivedTsnCount (assoc w1') = receivedTsnCount (assoc w)).
  { unfold w1', cum. cbn [assoc]. destruct (peerCumulativeTsnValid (assoc w)) eqn:Ev.
    - split_and!; done.
    - split_and!; try done. inv_update. destruct inv_tsn0 as (? & _ & ?).
      split_and!; [done|apply u32_range|done]. }
  destruct HI1 as (HI1 & Ecum & Ev & Ee & Es & Er & Ec). clearbody w1'.
  pose proof (inv_recv _ HI1) as (Hl & Hr & Hc). unfold SCTP_MAX_RECEIVED in Hl, Hc.
  unfold tracked. fold cum. rewrite <- Er, <- Ec. wp_step. wp_step. rewrite Ecum.
  destruct (tsn =? cum +32 1); [|destruct (TSN_GT tsn (cum +32 1))].
  - destruct (advanceLoop_spec (Z.to_nat (receivedTsnCount (assoc w1'))) tsn (receivedTsns (assoc w1'))
                (receivedTsnCount (assoc w1')) ltac:(lia) ltac:(lia) Ht)
      as (cum' & l' & c' & E & Hl' & Hc' & HF & Hu & Ha).
    wp_load E. split; [|done]. inv_update; [split; [etrans; [exact Hl'|exact Hl]|]|].
    + split; [by apply HF|]. change (0 <= c' <= 2048). lia.
    + destruct inv_tsn0 as (? & _ & ?). done.
  - apply wp_bind, wp_if; intros Hd.
    + apply andb_prop in Hd as [Hd%negb_true_iff Hlt%Z.ltb_lt]. unfold SCTP_MAX_RECEIVED in Hlt.
      assert (Hrange : 0 <= receivedTsnCount (assoc w1') < Z.of_nat (length (receivedTsns (assoc w1')))) by lia.
      wp_load (lput_in _ _ _ Hrange).
      match goal with |- Inv (assoc ?x) /\ _ => set (w2 := x) end.
      assert (Ecount : receivedTsnCount (assoc w2) = receivedTsnCount (assoc w1') + 1).
      { transitivity (u32 (receivedTsnCount (assoc w1') + 1)); [done|]. apply u32_id. unfold is_u32. lia. }
      assert (Elist : receivedTsns (assoc w2)
                      = <[Z.to_nat (receivedTsnCount (assoc w1')) := tsn]> (receivedTsns (assoc w1'))) by done.
      split_and!; try done.
      * clear Hrange. inv_update. rewrite Elist, Ecount. rewrite length_insert. unfold SCTP_MAX_RECEIVED.
        split_and!; [done|by apply Forall_insert|lia|lia].
      * rewrite Elist, Ecount. unfold live.
        assert (Hnin : bool_decide (tsn ∈ take (Z.to_nat (receivedTsnCount (assoc w1'))) (receivedTsns (assoc w1'))) = false).
        { apply bool_decide_false. apply findTsn_None. apply bool_decide_eq_false in Hd.
          by rewrite <- eq_None_not_Some in Hd. }
        rewrite Hnin. rewrite (proj2 (Z.leb_gt _ _)) by (unfold SCTP_MAX_RECEIVED; lia). cbn [orb].
        replace (Z.to_nat (receivedTsnCount (assoc w1') + 1)) with (S (Z.to_nat (receivedTsnCount (assoc w1')))) by lia.
        erewrite take_S_r; [|apply list_lookup_insert_eq; lia]. by rewrite take_insert_ge by lia.
    + wp_steps. split_and!; try done. apply andb_false_iff in Hd as [Hd|Hd%Z.ltb_ge].
      * apply negb_false_iff, bool_decide_eq_true in Hd. rewrite bool_decide_true; [done|].
        destruct (decide (tsn ∈ live (receivedTsns (assoc w1')) (receivedTsnCount (assoc w1')))) as [|Hn]; [done|].
        apply findTsn_None in Hn. rewrite Hn in Hd. by apply is_Some_None in Hd.
      * rewrite (proj2 (Z.leb_le _ _)) by lia. by rewrite orb_true_r.
  - wp_steps. split_and!; done.
Qed.

Lemma reassembly_put b o bs :
  blen b = SCTP_MAX_REASSEMBLY_SIZE -> bytes_ok b -> bytes_ok bs -> 0 <= o ->
  o + blen bs <= SCTP_MAX_REASSEMBLY_SIZE ->
  exists b', put_bytes b o bs = Ok b' /\ blen b' = SCTP_MAX_REASSEMBLY_SIZE /\ bytes_ok b'.
Proof.
  intros Hl Hb Hbs Ho Hle. assert (E := put_bytes_in b o bs Ho ltac:(lia)). eexists. split; [exact E|].
  pose proof (put_bytes_inv _ _ _ _ E) as (_ & _ & ->). split; [done|]. eapply put_bytes_ok; [exact Hb|exact Hbs|exact E].
Qed.

Lemma deliverData_wp flags sid ssn ppid p k bs w :
  Inv (assoc w) -> payload_at p k bs -> k < 2 ^ 16 ->
  wp (deliverData memalloc flags sid ssn ppid p k) (fun _ w' => Inv (assoc w')) w.
Proof.
  intros HI Hp Hk. destruct (payload_len _ _ _ Hp) as [El Hk0]. pose proof Hp as (Hpb & Hbs & _).
  pose proof (inv_reasm _ HI) as (Hbuf' & Hrl & Hprog). unfold deliverData, setA, emit.
  apply wp_if; [intros _; by wp_load Hpb|intros _]. apply wp_if; intros _.
  - (* first fragment *)
    wp_step. wp_step. apply wp_bind.
    assert (Hstart : forall b w1, Inv (assoc w1) -> reassemblyBuf (assoc w1) = Some b ->
              blen b = SCTP_MAX_REASSEMBLY_SIZE -> bytes_ok b ->
              wp (if k <=? SCTP_MAX_REASSEMBLY_SIZE then
                    bs ← lift (pld_bytes p k); b ← lift (put_bytes b 0 bs);
                    setA (fun a => a <| reassemblyBuf := Some b |> <| reassemblyLen := k |>
                           <| reassemblyStreamId := sid |> <| reassemblySsn := ssn |>
                           <| reassemblyPpid := ppid |> <| reassemblyInProgress := true |>)
                  else mret tt) (fun _ w' => Inv (assoc w')) w1).
    { intros b w1 HI1 Eb Hbl Hbb. apply wp_if; [intros Hle%Z.leb_le|done].
      destruct (reassembly_put b 0 bs) as (b' & Eb' & Hbl' & Hbb'); [done|done|done|lia|lia|].
      unfold setA. wp_load Hpb. wp_load Eb'. inv_update. split_and!; [|done|exact Hle|eauto].
      by intros ? [= <-]. }
    destruct (reassemblyBuf (assoc w)) as [b|] eqn:Eb.
    + wp_steps. rewrite Eb. by apply Hstart; [..|apply Hbuf'|apply Hbuf'].
    + apply wp_bind. unfold MEMALLOC, wp at 1. destruct (memalloc (allocs w) _) as [b|] eqn:Em.
      * apply Hmem in Em as [Eml Emb]. wp_steps. apply Hstart; try done.
        inv_update. split_and!; [by intros ? [= <-]|apply Hrl|apply Hrl|eauto].
      * wp_steps. apply wp_ret. inv_update. split_and!; [done|apply Hrl|apply Hrl|].
        intros Hpr. apply Hprog in Hpr. by apply is_Some_None in Hpr.
  - (* middle or last fragment *)
    wp_steps; [|done]. rename H into Hin'. destruct (Hprog Hin') as (b & Eb).
    destruct (Hbuf' b Eb) as [Hbl Hbb].
    assert (Hfin : forall w1, Inv (assoc w1) -> reassemblyInProgress (assoc w1) = true ->
              wp (when (negb (Z.land flags SCTP_DATA_FLAG_END =? 0))
                    (a ← gets (fun w => assoc w);
                     msg ← lift (pld_bytes (ptrOf (reassemblyBuf a)) (reassemblyLen a));
                     emit (EvMessage (reassemblyStreamId a) (reassemblyPpid a) msg);;
                     setA (fun a => a <| reassemblyInProgress := false |> <| reassemblyLen := 0 |>)))
                 (fun _ w' => Inv (assoc w')) w1).
    { intros w1 HI1 Hpr1. pose proof (inv_reasm _ HI1) as (Hb1 & Hr1 & Hp1).
      destruct (Hp1 Hpr1) as (b1 & Eb1). destruct (Hb1 b1 Eb1) as [Hbl1 _].
      assert (Em : pld_bytes (ptrOf (reassemblyBuf (assoc w1))) (reassemblyLen (assoc w1))
                   = Ok (take (Z.to_nat (reassemblyLen (assoc w1))) b1)).
      { rewrite Eb1. apply (ld_bytes_in b1 0 (reassemblyLen (assoc w1))); lia. }
      unfold emit, setA. wp_step; [|done]. wp_load Em. inv_update. split_and!; done. }
    rewrite Eb. apply wp_if; [intros Hle%Z.leb_le|intros _; apply wp_ret; by apply Hfin].
    unfold SCTP_MAX_REASSEMBLY_SIZE in *. rewrite u32_id in Hle by (unfold is_u32; lia).
    destruct (reassembly_put b (reassemblyLen (assoc w)) bs) as (b' & Eb' & Hbl' & Hbb');
      [done|done|done|lia|unfold SCTP_MAX_REASSEMBLY_SIZE; lia|].
    wp_load Hpb. eapply wp_lift; [exact Eb'|]. apply wp_modify, Hfin; [|done]. inv_update. split; [by intros ? [= <-]|]. split; [|eauto].
    change (0 <= u32 (reassemblyLen (assoc w) + k) <= 65536). rewrite u32_id by (unfold is_u32; lia). lia.
Qed.

Lemma sctpHandleData_wp flags w :
  Inv (assoc w) -> wp (sctpHandleData memalloc hasMsg flags (Ptr buf v) n) ok w.
Proof.
  intros HI. pose proof Hin as (? & ? & ?). unfold sctpHandleData, setA.
  apply wp_if; [done|intros Hlt%Z.ltb_ge]. wp_step. wp_step. apply wp_if; [done|intros _].
  read_fields. apply wp_bind. eapply wp_mono; [by apply trackTsn_wp|].
  intros fresh w1 (HI1 & _). apply wp_bind, wp_modify, wp_bind. set (w2 := w1 <| assoc := _ |>).
  assert (HI2 : Inv (assoc w2)) by inv_update.
  assert (Hend : forall w', Inv (assoc w') -> wp (sctpSendSack;; mret STATUS_SUCCESS) ok w').
  { intros w' HI'. apply wp_bind, sctpSendSack_wp; [done|done|]. intros out _ Hout. apply wp_ret.
    split; [done|]. inv_update. }
  destruct fresh; [|by apply wp_ret, Hend]. apply wp_when; [intros _|by intros _; apply Hend].
  eapply wp_mono; [apply (deliverData_wp _ _ _ _ _ _ _ _ HI2 (payload_value 12 (n - 12) ltac:(lia) ltac:(lia) ltac:(lia))); lia|].
  intros ? w3 HI3. by apply Hend.
Qed.

(** *** Acknowledgements *)

Lemma used_ack hit l : used o_inUse (map (ackSlot hit) l) = used o_inUse l - ackedCount hit l.
Proof.
  apply sumBy_map_sub. intros d. change (Z.b2z (o_inUse (ackSlot hit d)) = Z.b2z (o_inUse d) - Z.b2z (covered hit d)).
  unfold ackSlot. destruct (covered hit d) eqn:E; [|cbn; lia].
  unfold covered in E. destruct (o_inUse d); done.
Qed.

Lemma flight_ack hit l :
  bytesInFlight (map (ackSlot hit) l) = bytesInFlight l - ackedBytes hit l.
Proof.
  apply sumBy_map_sub. intros d. unfold ackSlot. destruct (covered hit d) eqn:E; [|lia].
  unfold covered in E. destruct (o_inUse d); [|done].
  change (o_inUse (releaseSlot d)) with false. cbn iota. lia.
Qed.

Lemma slot_ack m hit d : slot_ok m d -> slot_ok m (ackSlot hit d).
Proof.
  unfold ackSlot. destruct (covered hit d); [|done]. intros (Ht & Hl & _). split; [exact Ht|]. split; [exact Hl|]. by split_and!.
Qed.

(** The association after a pass that acknowledges the TSNs in [hit]. *)
Definition acked (hit : Z -> bool) (a : SctpAssociation) : SctpAssociation :=
  a <| outstanding := map (ackSlot hit) (outstanding a) |>
    <| flightSize := bytesInFlight (map (ackSlot hit) (outstanding a)) |>
    <| outstandingCount := used o_inUse (map (ackSlot hit) (outstanding a)) |>.

Lemma Inv_acked hit a : Inv a -> Inv (acked hit a).
Proof.
  intros HI. inv_update; [|done|done]. destruct inv_slots0 as [Hl Hs].
  split; [etrans; [apply length_map|done]|]. apply List.Forall_map. eapply Forall_impl; [|exact Hs].
  intros d. apply slot_ack.
Qed.

Lemma ackPass_wp hit bytes w (Q : Z -> World -> Prop) :
  Inv (assoc w) -> is_u32 bytes ->
  Q (u32 (bytes + ackedBytes hit (outstanding (assoc w)))) (w <| assoc := acked hit (assoc w) |>) ->
  wp (ackPass hit bytes) Q w.
Proof.
  intros HI Hb HQ. pose proof (inv_slots _ HI) as (Hl & Hs). pose proof (inv_mtu _ HI) as Hm.
  pose proof (inv_slots _ (Inv_acked hit _ HI)) as (Hl' & Hs').
  pose proof (used_bound o_inUse (outstanding (assoc w))) as Hu.
  pose proof (flight_bound _ _ (proj2 Hm) Hl Hs) as Hf.
  pose proof (used_bound o_inUse (map (ackSlot hit) (outstanding (assoc w)))) as Hu'.
  pose proof (flight_bound _ _ (proj2 Hm) Hl' Hs') as Hf'.
  change (outstanding (acked hit (assoc w))) with (map (ackSlot hit) (outstanding (assoc w))) in *.
  unfold SCTP_MAX_OUTSTANDING in *. rewrite Hl in Hu. rewrite Hl' in Hu'.
  unfold ackPass, setA. wp_step. wp_step.
  rewrite ackLoop_spec; [|done|rewrite (inv_flight _ HI); unfold is_u32; lia|rewrite (inv_count _ HI); unfold is_u32; lia].
  wp_steps. rewrite (inv_flight _ HI), (inv_count _ HI), <- flight_ack, <- used_ack.
  rewrite (u32_id (bytesInFlight _)), (u32_id (used _ _)) by (unfold is_u32; lia). exact HQ.
Qed.

Lemma gapAckLoop_wp k cum o bytes w :
  Inv (assoc w) -> is_u32 bytes -> 0 <= o -> o + 4 * Z.of_nat k <= n ->
  wp (gapAckLoop k (Ptr buf v) cum o bytes) (fun bytes' w' => Inv (assoc w') /\ is_u32 bytes') w.
Proof.
  revert o bytes w. induction k as [|k IH]; intros o bytes w HI Hb Ho Hn; cbn [gapAckLoop]; [done|].
  read_fields. apply wp_bind, ackPass_wp; [done|done|].
  apply IH; [by apply Inv_acked|apply u32_range|lia|lia].
Qed.

Lemma sctpHandleSack_wp w :
  Inv (assoc w) -> wp (sctpHandleSack gettime memalloc (Ptr buf v) n) ok w.
Proof.
  intros HI. pose proof Hin as (? & ? & ?). unfold sctpHandleSack, setA.
  apply wp_if; [done|intros Hlt%Z.ltb_ge]. read_fields. wp_step. wp_step. apply wp_bind.
  set (w1 := w <| assoc := _ |>). assert (HI1 : Inv (assoc w1)) by inv_update.
  apply ackPass_wp; [done|done|]. apply wp_bind.
  set (w2 := w1 <| assoc := _ |>). assert (HI2 : Inv (assoc w2)) by by apply Inv_acked.
  set (b0 := u32 _). assert (Hb0 : is_u32 b0) by apply u32_range.
  assert (Hrest : forall bytes w3, Inv (assoc w3) ->
    wp (setA (fun a => if TSN_GT x (cumulativeAckTsn a) then a <| cumulativeAckTsn := x |> else a);;
        when (0 <? bytes)
          (setA (growWindow bytes);;
           count ← getA outstandingCount;
           (if count =? 0 then setA (fun a => a <| t3RtxExpiry := 0 |>)
            else now ← SCTP_NOW_MS gettime; setA (fun a => a <| t3RtxExpiry := u64 (now + rtoMs a) |>));;
           pending ← getA pendingQueueCount;
           when (0 <? pending) (sctpDrainPendingQueue gettime memalloc));;
        mret STATUS_SUCCESS) ok w3).
  { intros bytes w3 HI3. unfold setA. wp_step. wp_step. apply wp_bind.
    set (w4 := w3 <| assoc := _ |>).
    assert (HI4 : Inv (assoc w4)).
    { unfold w4. cbn [assoc]. destruct (TSN_GT x _); [|done]. inv_update.
      destruct inv_tsn0 as (? & ? & _). done. }
    apply wp_when; [intros _|done]. wp_step. wp_step. set (w5 := w4 <| assoc := _ |>).
    assert (HI5 : Inv (assoc w5)).
    { unfold w5, growWindow. cbn [assoc]. destruct (cwnd _ <=? ssthresh _); inv_update. }
    apply wp_bind, wp_gets, wp_bind.
    assert (Hdrain : forall w6, Inv (assoc w6) ->
              wp (pending ← getA pendingQueueCount;
                  when (0 <? pending) (sctpDrainPendingQueue gettime memalloc))
                 (fun _ => wp (mret STATUS_SUCCESS) ok) w6).
    { intros w6 HI6. apply wp_bind, wp_gets, wp_when; [intros _|done]. unfold sctpDrainPendingQueue.
      eapply wp_mono; [apply drainLoop_wp; [exact Hmem|done|lia|reflexivity]|]. by intros ? w7 [HI7 _]. }
    apply wp_if; intros _; [|apply wp_bind, wp_now; intros now]; apply wp_modify, Hdrain; inv_update. }
  apply wp_if; [intros [Hg%Z.ltb_lt Hl%Z.leb_le]%andb_prop|intros _; apply wp_ret; by apply Hrest].
  eapply wp_mono; [apply gapAckLoop_wp; [done|done|lia|lia]|].
  intros bytes w3 [HI3 _]. by apply Hrest.
Qed.

Lemma sctpHandleForwardTsn_wp w : Inv (assoc w) -> wp (sctpHandleForwardTsn (Ptr buf v) n) ok w.
Proof.
  intros HI. pose proof Hin as (? & ? & ?). unfold sctpHandleForwardTsn, setA.
  apply wp_if; [done|intros Hlt%Z.ltb_ge]. read_fields. apply wp_bind, wp_gets, wp_bind.
  assert (Hend : forall w', Inv (assoc w') ->
            wp (setA (fun a => a <| needSack := true |>);; sctpSendSack;; mret STATUS_SUCCESS) ok w').
  { intros w' HI'. unfold setA. wp_step. wp_step. set (w2 := w' <| assoc := _ |>).
    assert (HI2 : Inv (assoc w2)) by inv_update.
    apply wp_bind, sctpSendSack_wp; [done|done|]. intros out _ Hout. apply wp_ret.
    split; [done|]. inv_update. }
  apply wp_when; [intros _|intros _; by apply Hend].
  pose proof (inv_recv _ HI) as (Hl & Hr & Hc). unfold SCTP_MAX_RECEIVED in Hl, Hc.
  destruct (purgeLoop_spec (Z.to_nat (receivedTsnCount (assoc w))) x 0 (receivedTsns (assoc w))
              (receivedTsnCount (assoc w))) as (l1 & c1 & E1 & Hl1 & Hc1 & HF1 & _); [lia..|].
  destruct (advanceLoop_spec (Z.to_nat c1) x l1 c1) as (cum & l2 & c2 & E2 & Hl2 & Hc2 & HF2 & Hu & _);
    [lia|lia|done|].
  apply wp_bind. eapply wp_lift; [exact E1|]. cbv beta match.
  apply wp_bind. eapply wp_lift; [exact E2|]. cbv beta match.
  apply wp_modify, Hend. inv_update.
  - split; [etrans; [exact Hl2|etrans; [exact Hl1|exact Hl]]|]. split; [auto|]. change (0 <= c2 <= 2048). lia.
  - destruct inv_tsn0 as (? & _ & ?). done.
Qed.

(** *** Shutdown, heartbeat, dispatch *)

(** A packet with a fixed chunk that fits, then a change of the association. *)
Lemma send_fixed_wp vtag writer chunk k f w :
  Inv (assoc w) -> bytes_ok chunk -> blen chunk = k -> k <= 1188 ->
  (forall b, writer b 12 = (b ← put_bytes b 12 chunk; Ok (b, k))) ->
  (forall a, Inv a -> Inv (f a)) ->
  wp (sendChunk vtag writer;; setA f;; mret STATUS_SUCCESS) ok w.
Proof.
  intros HI Hc Hl Hk Hw Hf. apply wp_bind.
  apply (sendChunk_wp _ _ _ _ _ _ (inv_wire _ HI) (writes_exact _ _ _ Hc Hl Hk (fun b _ => Hw b))).
  intros out pad Hout _ _. unfold setA. wp_steps. split; [done|]. apply Hf. by apply Inv_sent.
Qed.

Lemma sctpHandleShutdown_wp w : Inv (assoc w) -> wp (sctpHandleShutdown (Ptr buf v) n) ok w.
Proof.
  intros HI. apply wp_bind, wp_gets. apply (send_fixed_wp _ _ (chunk_hdr SCTP_CHUNK_SHUTDOWN_ACK 0 4) 4); [done| | | |intros; apply sctpWriteShutdownAckChunk_spec|].
  - auto with width.
  - by autorewrite with blen.
  - lia.
  - intros a Ha. inv_update.
Qed.

Lemma sctpHandleShutdownAck_wp w : Inv (assoc w) -> wp sctpHandleShutdownAck ok w.
Proof.
  intros HI. apply wp_bind, wp_gets.
  apply (send_fixed_wp _ _ (chunk_hdr SCTP_CHUNK_SHUTDOWN_COMPLETE 0 4) 4); [done| | | |intros; apply sctpWriteShutdownCompleteChunk_spec|].
  - auto with width.
  - by autorewrite with blen.
  - lia.
  - intros a Ha. inv_update.
Qed.

Lemma sctpHandleHeartbeat_wp w : Inv (assoc w) -> wp (sctpHandleHeartbeat (Ptr buf v) n) ok w.
Proof.
  intros HI. pose proof Hin as (? & ? & ?).
  set (vtag := peerVerificationTag (assoc w)).
  assert (Ebegin : beginPacket vtag w = Some (12, w <| assoc := (assoc w) <| outPacket :=
            common_hdr (localPort (assoc w)) (remotePort (assoc w)) vtag ++ drop 12 (outPacket (assoc w)) |> |>)).
  { unfold beginPacket, mbind, ST_bind, gets, lift, setA, modify, mret, ST_ret.
    pose proof (inv_wire _ HI) as [Hl _]. unfold SCTP_MAX_PACKET_SIZE in Hl.
    rewrite sctpWriteCommonHeader_spec, put_bytes_in by (autorewrite with blen; lia).
    autorewrite with blen. done. }
  destruct (Z.le_gt_cases (12 + 4 + n) SCTP_MAX_PACKET_SIZE) as [Hfit|Hbig]; unfold SCTP_MAX_PACKET_SIZE in *.
  - assert (Hw : writes (writeHeartbeatAck (Ptr buf v) n)
                   (chunk_hdr SCTP_CHUNK_HEARTBEAT_ACK 0 (4 + n) ++ take (Z.to_nat n) (drop (Z.to_nat v) buf))
                   (SCTP_PAD4 (4 + n))).
    { pose proof (payload_value 0 n ltac:(lia) ltac:(lia) ltac:(lia)) as Hp. rewrite Z.add_0_r in Hp.
      destruct (payload_len _ _ _ Hp) as [El _]. destruct Hp as (Hp & Hb & _).
      split; [rewrite bytes_ok_app; auto with width|].
      split; [autorewrite with blen; rewrite El, SCTP_PAD4_val by lia; Z.div_mod_to_equations; lia|].
      intros b _. unfold writeHeartbeatAck, SCTP_CHUNK_HEADER_SIZE.
      assert (Hp' : pld_bytes (Ptr buf v) n = Ok (take (Z.to_nat n) (drop (Z.to_nat v) buf))).
      { rewrite <- Hp. unfold pld_bytes. cbn [padd p_obj p_off]. by rewrite Z.add_0_r. }
      rewrite Hp'. cbn [mbind res_bind]. writer_spec. }
    unfold sctpHandleHeartbeat. apply wp_bind, wp_gets. fold vtag.
    assert (Hsend : wp (sendChunk vtag (writeHeartbeatAck (Ptr buf v) n)) (fun _ w' => Inv (assoc w')) w).
    { apply (sendChunk_wp _ _ _ _ _ _ (inv_wire _ HI) Hw). intros out pad Hout _ _. by apply Inv_sent. }
    unfold wp, sendChunk, mbind, ST_bind in Hsend |- *. rewrite Ebegin in *. cbv beta match in *.
    unfold SCTP_CHUNK_HEADER_SIZE. rewrite (u32_id (12 + 4)), (u32_id (12 + 4 + n)) by (unfold is_u32; lia).
    rewrite (proj2 (Z.leb_le _ _)) by (unfold SCTP_MAX_PACKET_SIZE; lia). unfold when, mbind, ST_bind.
    destruct (addChunk _ _ _) as [[o w1]|]; [|done]. cbv beta match in *.
    destruct (sctpSendPacket o w1) as [[? w2]|]; [|done]. by split.
  - unfold sctpHandleHeartbeat. apply wp_bind, wp_gets. fold vtag.
    unfold wp, mbind, ST_bind. rewrite Ebegin. cbv beta match.
    unfold SCTP_CHUNK_HEADER_SIZE. rewrite (u32_id (12 + 4)), (u32_id (12 + 4 + n)) by (unfold is_u32; lia).
    rewrite (proj2 (Z.leb_gt _ _)) by (unfold SCTP_MAX_PACKET_SIZE; lia). cbn [when]. unfold mret, ST_ret. split; [done|].
    destruct (inv_wire _ HI) as [Hl Hb]. unfold SCTP_MAX_PACKET_SIZE in Hl. inv_update. split.
    + etrans; [apply blen_app|]. pose proof (blen_drop 12 (outPacket (assoc w)) ltac:(lia)) as Hd.
      change (Z.to_nat 12) with 12%nat in Hd. rewrite Hd. autorewrite with blen. unfold SCTP_MAX_PACKET_SIZE. lia.
    + apply bytes_ok_app. split; [|auto with width]. unfold common_hdr. rewrite !bytes_ok_app. auto with width.
Qed.

Lemma sctpChunkDispatch_wp type flags w :
  Inv (assoc w) -> wp (sctpChunkDispatch h gettime memalloc hasMsg type flags (Ptr buf v) n) ok w.
Proof.
  intros HI. unfold sctpChunkDispatch.
  repeat (apply wp_if; intros _;
    [by auto using sctpHandleInit_wp, sctpHandleInitAck_wp, sctpHandleCookieEcho_wp, sctpHandleCookieAck_wp,
       sctpHandleData_wp, sctpHandleSack_wp, sctpHandleForwardTsn_wp, sctpHandleHeartbeat_wp,
       sctpHandleShutdown_wp, sctpHandleShutdownAck_wp|]).
  apply wp_if; intros _; [|done]. unfold setA. wp_steps. split; [done|]. inv_update.
Qed.
End Handlers.

(** ** Public operations *)

Lemma sctpValidatePacket_any buf e :
  bytes_ok buf -> 12 <= blen buf ->
  exists st, sctpValidatePacket (Some buf) (blen buf) e = Ok (st, buf).
Proof.
  intros Hb Hl.
  destruct (drop_split buf 0 8) as (a & r & E & Ha & Hr); [lia..|]. change (buf = a ++ r) in E.
  destruct (drop_split r 0 4) as (x & c & E' & Hx & Hc); [lia..|]. change (r = x ++ c) in E'.
  destruct x as [|b8 [|b9 [|b10 [|b11 [|b12 x]]]]];
    autorewrite with blen in Hx; try (pose proof (blen_nonneg x)); try lia.
  subst r buf. rewrite !bytes_ok_app in Hb. destruct Hb as (Hab & Hxb & Hcb).
  repeat (apply Forall_cons_1 in Hxb as [? Hxb]).
  destruct (rd32_in a 4) as (vt & Ev); [lia..|].
  rewrite (sctpValidatePacket_spec a b8 b9 b10 b11 c e vt) by done. eauto.
Qed.

Section Public.
Variable h : endian.
Variable gettime : nat -> Z.
Variable memalloc : nat -> Z -> option (list Z).
Variable hasMsg : bool.
Hypothesis Hmem : alloc_ok memalloc.

(** A packet as the transport hands it over: a buffer of the given length. *)
Definition packet_ok (pBuf : option (list Z)) (len : Z) : Prop :=
  forall b, pBuf = Some b -> bytes_ok b /\ blen b = len /\ len < 2 ^ 31.

Lemma sctpAssocHandlePacket_wp pBuf len w :
  Inv (assoc w) -> packet_ok pBuf len ->
  wp (sctpAssocHandlePacket h gettime memalloc hasMsg pBuf len) ok w.
Proof.
  intros HI Hp. unfold sctpAssocHandlePacket, SCTP_COMMON_HEADER_SIZE.
  apply wp_if; [done|intros Hlt%Z.ltb_ge]. apply wp_bind, wp_gets, wp_bind.
  destruct pBuf as [buf|]; [|by eapply wp_lift].
  destruct (Hp buf eq_refl) as (Hb & <- & Hl).
  destruct (sctpValidatePacket_any buf (myVerificationTag (assoc w)) Hb Hlt) as (st & E).
  eapply wp_lift; [exact E|]. cbv beta match. apply wp_if; [done|intros _].
  eapply wp_mono.
  - apply (sctpParseChunks_wp _ (fun w => Inv (assoc w)) buf Hb Hl (fun st => st = STATUS_SUCCESS)); try done.
    intros t f v n w' HI' Hin. by apply sctpChunkDispatch_wp.
  - intros st' w' [-> HI']. by split.
Qed.

Lemma writes_init tag tsn :
  writes (fun b o => sctpWriteInitChunk b o tag SCTP_DEFAULT_ARWND SCTP_MAX_STREAMS SCTP_MAX_STREAMS tsn)
    (init_chunk tag SCTP_DEFAULT_ARWND SCTP_MAX_STREAMS SCTP_MAX_STREAMS tsn) 24.
Proof.
  apply writes_exact; [|unfold init_chunk; by autorewrite with blen|lia|intros; apply sctpWriteInitChunk_spec].
  unfold init_chunk. rewrite !bytes_ok_app. auto 10 with width.
Qed.

Lemma sendInit_wp w : Inv (assoc w) -> wp sendInit (fun _ w' => Inv (assoc w')) w.
Proof.
  intros HI. unfold sendInit. apply wp_bind, wp_gets.
  apply (sendChunk_wp _ _ _ _ _ _ (inv_wire _ HI) (writes_init _ _)).
  intros out pad Hout _ _. by apply Inv_sent.
Qed.

Lemma sctpAssocConnect_wp w : Inv (assoc w) -> wp (sctpAssocConnect gettime) ok w.
Proof.
  intros HI. unfold sctpAssocConnect, setA. apply wp_bind. eapply wp_mono; [by apply sendInit_wp|].
  intros ? w1 HI1. cbv beta in HI1. clear HI. wp_steps. apply wp_now. intros now. wp_steps.
  split; [done|]. inv_update.
Qed.

Lemma sctpAssocShutdown_wp w : Inv (assoc w) -> wp sctpAssocShutdown ok w.
Proof.
  intros HI. unfold sctpAssocShutdown. apply wp_bind, wp_gets, wp_if; [done|intros _].
  set (t := if peerCumulativeTsnValid (assoc w) then _ else 0).
  apply (send_fixed_wp _ _ (shutdown_chunk t) 8); [done| | | |intros; apply sctpWriteShutdownChunk_spec|].
  - unfold shutdown_chunk. rewrite bytes_ok_app. auto with width.
  - unfold shutdown_chunk. by autorewrite with blen.
  - lia.
  - intros a Ha. inv_update.
Qed.

Lemma sctpAssocCleanup_wp w : Inv (assoc w) -> wp sctpAssocCleanup (fun _ w' => Inv (assoc w')) w.
Proof.
  intros HI. unfold sctpAssocCleanup, setA. apply wp_modify.
  assert (Hz : forall {A} (f : A -> Z) (g : A -> A) l, (forall x, f (g x) = 0) -> sumBy f (map g l) = 0).
  { intros A f g l Hg. induction l as [|x l IH]; cbn [map sumBy]; [done|]. by rewrite Hg, IH. }
  inv_update.
  - destruct inv_slots0 as [Hl Hs]. split; [etrans; [apply length_map|done]|].
    apply List.Forall_map. eapply Forall_impl; [|exact Hs].
    intros d (Ht & Hn & Hp & Hu & _). destruct (o_inUse d) eqn:E;
      (split; [exact Ht|]; split; [exact Hn|]; split_and!; [|by auto|done]).
    + done.
    + intros b Eb. change (o_payload d = Some b) in Eb. rewrite Hu in Eb; done.
  - symmetry. apply Hz. intros x. by destruct (o_inUse x).
  - symmetry. apply Hz. intros x. by destruct (o_inUse x).
  - destruct inv_reasm0 as (_ & Hr & _). split; [done|]. split; [exact Hr|done].
  - destruct inv_pending0 as (Hl & Hs & _). split_and!; [etrans; [apply length_map|done]| |].
    + apply List.Forall_map. eapply Forall_impl; [|exact Hs].
      intros p (Hn & Hsid & Hp). destruct (p_inUse p) eqn:E; (split; [exact Hn|]; split; [exact Hsid|done]).
    + symmetry. apply Hz. intros x. by destruct (p_inUse x).
Qed.

Lemma Inv_init lport rport m tag tie :
  28 < m <= SCTP_MAX_PACKET_SIZE -> is_u32 tag -> Inv (initAssoc lport rport m tag tie).
Proof.
  intros Hm Ht. assert (H0 : is_u8 0) by (split; lia). assert (H0' : is_u32 0) by (split; lia).
  assert (HL : forall {A} (x : A) k, 0 <= k -> length (replicate (Z.to_nat k) x) = Z.to_nat k)
    by (intros; apply length_replicate).
  assert (HB : forall k, 0 <= k -> blen (replicate (Z.to_nat k) 0) = k)
    by (intros; rewrite blen_replicate; lia).
  constructor.
  - split; [by apply HB|by apply Forall_replicate].
  - exact Hm.
  - split; [by apply HL|]. apply Forall_replicate. split_and!; try done; cbn; lia.
  - symmetry. by apply sumBy_replicate.
  - symmetry. by apply sumBy_replicate.
  - split; [by apply HL|]. apply Forall_replicate. split; lia.
  - split; [by apply HL|]. split; [by apply Forall_replicate|done].
  - split; [exact Ht|]. split; [exact H0'|apply u32_range].
  - split; [by apply HB|]. split; [by apply Forall_replicate|done].
  - done.
  - split; [by apply HL|]. split; [|symmetry; by apply sumBy_replicate].
    apply Forall_replicate. split; [by apply HB|]. split; [by apply Forall_replicate|done].
  - split; [by apply HL|]. split; [|symmetry; by apply sumBy_replicate].
    by apply Forall_replicate.
  - done.
Qed.

Lemma sctpAssocInit_wp lport rport m w :
  28 < m <= SCTP_MAX_PACKET_SIZE ->
  wp (sctpAssocInit gettime lport rport m) (fun _ w' => Inv (assoc w')) w.
Proof.
  intros Hm.
  assert (Htag : forall (Q : Z -> World -> Prop) w, (forall t w', is_u32 t -> Q t w') ->
            wp (sctpGenerateTag gettime) Q w).
  { intros Q w' HQ. unfold sctpGenerateTag, GETTIME, wp, mbind, ST_bind, mret, ST_ret. apply HQ.
    destruct (_ =? 0); [split; lia|]. apply lxor_u32; apply u32_range. }
  unfold sctpAssocInit, setA. apply wp_bind, Htag. intros tag w1 Ht. apply wp_bind, Htag.
  intros hi w2 _. apply wp_bind, Htag. intros lo w3 _. apply wp_modify.
  by apply Inv_init.
Qed.
(** *** Timers *)

Lemma Inv_backoff a : Inv a -> Inv (backoff a).
Proof.
  intros HI. pose proof (inv_rto _ HI) as Hr. inv_update.
  change (rtoMs (backoff a)) with (if SCTP_RTO_MAX_MS <? u32 (rtoMs a * 2) then SCTP_RTO_MAX_MS else u32 (rtoMs a * 2)).
  unfold SCTP_RTO_MAX_MS, SCTP_RTO_INITIAL_MS in *. rewrite u32_id by (unfold is_u32; lia).
  destruct (Z.ltb_spec 60000 (rtoMs a * 2)); lia.
Qed.

Lemma checkT1_wp now w : Inv (assoc w) -> wp (checkT1 now) (fun _ w' => Inv (assoc w')) w.
Proof.
  intros HI. unfold checkT1, setA. apply wp_bind, wp_gets, wp_if; [intros _|done].
  wp_step. wp_step. apply wp_bind, wp_gets, wp_if; intros _; [wp_steps; inv_update|].
  wp_step. wp_step. set (w1 := w <| assoc := _ |> <| assoc := _ |>).
  assert (HI1 : Inv (assoc w1)) by (apply Inv_backoff; inv_update). clearbody w1. clear HI.
  apply wp_bind, wp_gets, wp_bind.
  assert (Hend : forall w2, Inv (assoc w2) ->
            wp (setA (fun a => a <| t1InitExpiry := u64 (now + rtoMs a) |>);; mret true)
               (fun _ w' => Inv (assoc w')) w2).
  { intros w2 HI2. unfold setA. wp_steps. inv_update. }
  apply wp_if; intros _; [eapply wp_mono; [by apply sendInit_wp|]; intros ? w2 HI2; by apply Hend|].
  apply wp_when; [intros _|intros _; by apply Hend].
  pose proof (inv_cookie _ HI1) as (Hl & Hb & Hk).
  apply (sendChunk_wp _ _ _ _ _ _ (inv_wire _ HI1)
    (writes_cookie_echo (cookieEchoData (assoc w1)) (cookieEchoLen (assoc w1)) Hb ltac:(lia) Hl)).
  intros out pad Hout _ _. by apply Hend, Inv_sent.
Qed.

(** A slot in use that is abandoned, and one whose retransmission is counted. *)
Lemma Inv_abandon a i d d' ack :
  Inv a -> outstanding a !! i = Some d -> o_inUse d = true ->
  slot_ok (mtu a) d' -> o_inUse d' = false ->
  Inv (a <| outstanding := <[i := d']> (outstanding a) |>
         <| flightSize := flightSize a -32 o_payloadLen d |>
         <| advancedPeerAckPoint := ack |>
         <| outstandingCount := outstandingCount a -32 1 |>).
Proof.
  intros HI Hd Hu Hs' Hu'.
  pose proof (inv_slots _ HI) as (Hl & Hs). pose proof (inv_mtu _ HI) as Hm.
  assert (Hsl : Forall (slot_ok (mtu a)) (<[i := d']> (outstanding a))) by by apply Forall_insert.
  assert (Hll : length (<[i := d']> (outstanding a)) = Z.to_nat SCTP_MAX_OUTSTANDING)
    by (etrans; [apply length_insert|done]).
  assert (Hc := used_insert o_inUse _ _ _ _ true false Hd Hu Hu').
  assert (Hf := flight_insert _ _ _ _ (o_payloadLen d) 0 Hd ltac:(by rewrite Hu) ltac:(by rewrite Hu')).
  pose proof (used_bound o_inUse (<[i := d']> (outstanding a))) as Hub. rewrite Hll in Hub.
  pose proof (used_bound o_inUse (outstanding a)) as Hub0. rewrite Hl in Hub0.
  pose proof (flight_bound _ _ (proj2 Hm) Hll Hsl) as Hfb.
  pose proof (flight_bound _ _ (proj2 Hm) Hl Hs) as Hfb0.
  cbn [Z.b2z] in Hc. unfold SCTP_MAX_OUTSTANDING in *.
  assert (Ec : outstandingCount a -32 1 = used o_inUse (<[i := d']> (outstanding a))).
  { rewrite (inv_count _ HI), Hc. rewrite u32_id by (unfold is_u32; lia). lia. }
  assert (Ef : flightSize a -32 o_payloadLen d = bytesInFlight (<[i := d']> (outstanding a))).
  { rewrite (inv_flight _ HI), Hf. rewrite u32_id by (unfold is_u32; lia). lia. }
  inv_update. by split.
Qed.

Lemma Inv_retransmit a i d d' :
  Inv a -> outstanding a !! i = Some d -> o_inUse d = true ->
  slot_ok (mtu a) d' -> o_inUse d' = true -> o_payloadLen d' = o_payloadLen d ->
  Inv (a <| outstanding := <[i := d']> (outstanding a) |>).
Proof.
  intros HI Hd Hu Hs' Hu' Hp.
  assert (Hc := used_insert o_inUse _ _ _ _ true true Hd Hu Hu').
  assert (Hf := flight_insert _ _ _ _ (o_payloadLen d) (o_payloadLen d) Hd ltac:(by rewrite Hu)
                  ltac:(by rewrite Hu', Hp)).
  assert (Ec : outstandingCount a = used o_inUse (<[i := d']> (outstanding a)))
    by (rewrite (inv_count _ HI), Hc; lia).
  assert (Ef : flightSize a = bytesInFlight (<[i := d']> (outstanding a)))
    by (rewrite (inv_flight _ HI), Hf; lia).
  inv_update. destruct inv_slots0 as [Hl Hs].
  split; [etrans; [apply length_insert|done]|by apply Forall_insert].
Qed.

Lemma t3Loop_wp k now i w :
  Inv (assoc w) -> 0 <= i -> i + Z.of_nat k = SCTP_MAX_OUTSTANDING ->
  wp (t3Loop k now i) (fun _ w' => Inv (assoc w')) w.
Proof.
  revert i w. induction k as [|k IH]; intros i w HI Hi Hk; [done|]. cbn [t3Loop].
  unfold SCTP_MAX_OUTSTANDING in Hk. pose proof (inv_slots _ HI) as (Hl & Hs).
  unfold SCTP_MAX_OUTSTANDING in Hl.
  assert (Hlt : 0 <= i < Z.of_nat (length (outstanding (assoc w)))) by lia.
  destruct (lget_in (outstanding (assoc w)) i Hlt) as (d & Ed).
  pose proof (lget_lookup _ _ _ Ed) as [_ Hd].
  assert (Hok : slot_ok (mtu (assoc w)) d) by (eapply Forall_lookup_1; eauto).
  assert (Hnext : forall w', Inv (assoc w') -> wp (t3Loop k now (i + 1)) (fun _ w' => Inv (assoc w')) w').
  { intros w' HI'. apply IH; [done|lia|unfold SCTP_MAX_OUTSTANDING; lia]. }
  apply wp_bind, wp_gets, wp_bind. eapply wp_lift; [exact Ed|]. cbv beta.
  apply wp_if; [intros _; by apply Hnext|]. intros [[Hu%negb_false_iff Ha]%orb_false_iff Hab]%orb_false_iff.
  pose proof Hok as (Ht & Hn & Hp & _ & _). unfold setA.
  apply wp_bind, wp_if; intros _.
  - apply wp_bind. eapply wp_lift; [exact (lput_in _ _ _ Hlt)|]. apply wp_modify, Hnext.
    apply (Inv_abandon (assoc w) _ d _ _ HI Hd Hu); [|done].
    split; [exact Ht|]. split; [exact Hn|]. by split_and!.
  - apply wp_bind. eapply wp_lift; [exact (lput_in _ _ _ Hlt)|]. apply wp_bind, wp_modify.
    set (d' := d <| o_retransmitCount := _ |>). set (w1 := w <| assoc := _ |>).
    assert (HI1 : Inv (assoc w1)) by (by apply (Inv_retransmit _ _ d)).
    change (o_payload d') with (o_payload d). destruct (o_payload d) as [b|] eqn:Eb; [|by apply Hnext].
    destruct (Hp b eq_refl) as [Hbl Hbb]. pose proof (inv_mtu _ HI) as Hm. unfold SCTP_MAX_PACKET_SIZE in Hm.
    assert (Hpay : payload_at (Ptr b 0) (o_payloadLen d') b).
    { split_and!; [by apply pld_bytes_whole|done|change (o_payloadLen d < 2 ^ 31); lia]. }
    apply (sendChunk_wp _ _ _ _ _ _ (inv_wire _ HI1) (writes_data _ _ _ _ _ _ _ _ Hpay
             ltac:(change (o_payloadLen d <= 1172); lia))).
    intros out pad Hout _ _. by apply Hnext, Inv_sent.
Qed.

Lemma checkT3_wp now w : Inv (assoc w) -> wp (checkT3 now) (fun _ w' => Inv (assoc w')) w.
Proof.
  intros HI. unfold checkT3, setA. apply wp_bind, wp_gets, wp_when; [intros _|done].
  wp_step. wp_step. wp_step. wp_step. apply wp_bind.
  eapply wp_mono; [apply t3Loop_wp; [|lia|reflexivity]|].
  { apply Inv_backoff. inv_update. }
  intros ? w1 HI1. cbv beta in HI1. clear HI. apply wp_bind, wp_gets, wp_bind.
  assert (Hend : forall w2, Inv (assoc w2) ->
            wp (modify (fun w => w <| assoc := if 0 <? outstandingCount (assoc w)
                                               then (assoc w) <| t3RtxExpiry := u64 (now + rtoMs (assoc w)) |>
                                               else (assoc w) <| t3RtxExpiry := 0 |> |>))
               (fun _ w' => Inv (assoc w')) w2).
  { intros w2 HI2. apply wp_modify. cbn [assoc]. destruct (0 <? outstandingCount (assoc w2)) eqn:E; inv_update. }
  apply wp_when; [intros _|intros _; by apply Hend].
  assert (Hw : writes (fun buf o => sctpWriteForwardTsnChunk buf o (advancedPeerAckPoint (assoc w1)))
                 (forward_tsn_chunk (advancedPeerAckPoint (assoc w1))) 8).
  { apply writes_exact; [|unfold forward_tsn_chunk; by autorewrite with blen|lia|intros; apply sctpWriteForwardTsnChunk_spec].
    unfold forward_tsn_chunk. rewrite bytes_ok_app. auto with width. }
  apply (sendChunk_wp _ _ _ _ _ _ (inv_wire _ HI1) Hw). intros out pad Hout _ _. by apply Hend, Inv_sent.
Qed.

Lemma sctpAssocCheckTimers_wp now w : Inv (assoc w) -> wp (sctpAssocCheckTimers now) ok w.
Proof.
  intros HI. unfold sctpAssocCheckTimers. apply wp_bind. eapply wp_mono; [by apply checkT1_wp|].
  intros c w1 HI1. apply wp_bind, wp_when; [intros _|done].
  eapply wp_mono; [by apply checkT3_wp|]. intros ? w2 HI2. by apply wp_ret.
Qed.
End Public.

(** ** Reachable associations

    The calls a session makes on its association, in any order. *)
Inductive AssocOp : Type :=
| OpConnect
| OpPacket (pBuf : option (list Z)) (bufLen : Z)
| OpSend (streamId ppid : Z) (unordered : bool) (payload : list Z) (maxRetransmits lifetimeMs : Z)
| OpTimers (nowMs : Z)
| OpShutdown
| OpCleanup.

Definition op_ok (op : AssocOp) : Prop :=
  match op with
  | OpPacket pBuf len => packet_ok pBuf len
  | OpSend sid _ _ payload _ _ => 0 <= sid /\ bytes_ok payload /\ blen payload < 2 ^ 31
  | _ => True
  end.

Section Reachable.
Variable h : endian.
Variable gettime : nat -> Z.
Variable memalloc : nat -> Z -> option (list Z).
Variable hasMsg : bool.

Definition exec (op : AssocOp) : ST World STATUS :=
  match op with
  | OpConnect => sctpAssocConnect gettime
  | OpPacket pBuf len => sctpAssocHandlePacket h gettime memalloc hasMsg pBuf len
  | OpSend sid ppid un payload mr lt =>
      sctpAssocSend gettime memalloc sid ppid un (Ptr payload 0) (blen payload) mr lt
  | OpTimers now => sctpAssocCheckTimers now
  | OpShutdown => sctpAssocShutdown
  | OpCleanup => sctpAssocCleanup;; mret STATUS_SUCCESS
  end.

Inductive reachable : World -> Prop :=
| reach_init lport rport m w w' :
    28 < m <= SCTP_MAX_PACKET_SIZE -> sctpAssocInit gettime lport rport m w = Some (tt, w') ->
    reachable w'
| reach_step op w st w' : reachable w -> op_ok op -> exec op w = Some (st, w') -> reachable w'.

Hypothesis Hmem : alloc_ok memalloc.

Lemma exec_wp op w : Inv (assoc w) -> op_ok op -> wp (exec op) ok w.
Proof.
  intros HI Hop. destruct op as [|pBuf len|sid ppid un payload mr lt|now| |]; cbn [exec op_ok] in *.
  - by apply sctpAssocConnect_wp.
  - by apply sctpAssocHandlePacket_wp.
  - destruct Hop as (Hs & Hb & Hl).
    assert (Hp : payload_at (Ptr payload 0) (blen payload) payload)
      by (split_and!; [by apply pld_bytes_whole|done|done]).
    eapply wp_mono; [by apply (sctpAssocSend_wp gettime memalloc Hmem sid ppid un _ _ payload)|].
    intros st w' (-> & HI' & _). by split.
  - by apply sctpAssocCheckTimers_wp.
  - by apply sctpAssocShutdown_wp.
  - apply wp_bind. eapply wp_mono; [by apply sctpAssocCleanup_wp|]. intros ? w' HI'. by apply wp_ret.
Qed.

Lemma reachable_Inv w : reachable w -> Inv (assoc w).
Proof.
  induction 1 as [lport rport m w w' Hm E|op w st w' _ IH Hop E].
  - pose proof (sctpAssocInit_wp gettime lport rport m w Hm) as Hw. unfold wp in Hw. by rewrite E in Hw.
  - pose proof (exec_wp op w IH Hop) as Hw. unfold wp in Hw. rewrite E in Hw. apply Hw.
Qed.
End Reachable.

(** C3. From any association that any sequence of calls can produce (handshake, packets
    with arbitrary bytes, sends, timer checks, shutdown, clean-up), every further call
    returns STATUS_SUCCESS without touching memory outside the association's arrays, the
    packet or the payload, and again leaves an association whose counters agree with its
    tables, whose bytes in flight are those of the unacknowledged chunks, and whose
    retransmission copies belong to slots in use. *)
Theorem sctpAssoc_safe h gettime memalloc hasMsg op w
  (Hmem : alloc_ok memalloc) (Hr : reachable h gettime memalloc hasMsg w) (Hop : op_ok op) :
  exists w', exec h gettime memalloc hasMsg op w = Some (STATUS_SUCCESS, w') /\ Inv (assoc w').
Proof.
  pose proof (reachable_Inv h gettime memalloc hasMsg Hmem w Hr) as HI.
  destruct (wp_run _ _ _ (exec_wp h gettime memalloc hasMsg Hmem op w HI Hop)) as (st & w' & E & -> & HI').
  eauto.
Qed.

(** An environment: a clock that ticks by a second, an allocator that never fails. *)
Definition ex_gettime (n : nat) : Z := 16000000000000000 + 10000000 * Z.of_nat n.
Definition ex_memalloc (_ : nat) (n : Z) : option (list Z) :=
  if 0 <=? n then Some (replicate (Z.to_nat n) 0xAA) else None.

Lemma ex_memalloc_ok : alloc_ok ex_memalloc.
Proof.
  intros k n b. unfold ex_memalloc. destruct (Z.leb_spec 0 n); [|discriminate]. intros [= <-].
  rewrite blen_replicate. split; [lia|]. apply Forall_replicate. split; lia.
Qed.

Definition ex_world : World :=
  {| assoc := initAssoc 5000 5000 1150 7 7; clock := 0; allocs := 0; events := [] |}.

Lemma ex_reachable :
  exists w, reachable LittleEndian ex_gettime ex_memalloc true w.
Proof.
  assert (Hm : 28 < 1150 <= SCTP_MAX_PACKET_SIZE) by (unfold SCTP_MAX_PACKET_SIZE; lia).
  pose proof (sctpAssocInit_wp ex_gettime 5000 5000 1150 ex_world Hm) as H.
  apply wp_run in H as ([] & w & E & _). exists w. by eapply reach_init.
Defined.

Lemma sctpAssoc_safe_witness :
  exists w w', reachable LittleEndian ex_gettime ex_memalloc true w /\
    exec LittleEndian ex_gettime ex_memalloc true (OpPacket (Some (replicate 40 1)) 40) w
    = Some (STATUS_SUCCESS, w') /\ Inv (assoc w').
Proof.
  destruct ex_reachable as (w & Hr).
  assert (Hop : op_ok (OpPacket (Some (replicate 40 1)) 40)).
  { intros b [= <-]. split; [by apply bytes_ok_check|]. split; reflexivity. }
  destruct (sctpAssoc_safe LittleEndian ex_gettime ex_memalloc true _ w ex_memalloc_ok Hr Hop)
    as (w' & E' & HI').
  exists w, w'. split; [exact Hr|]. split; [exact E'|exact HI'].
Defined.
