(* ===== verification/SctpTransfer.v ===== *)
(** * Data transfer over an SCTP association

    What the receive window, the selective acknowledgements, the acknowledgement
    handler, fragmentation and reassembly compute, on top of the invariant: the
    functional half of the association's correctness. *)

From Stdlib Require Import Sorting.Sorted.
From S2P Require Import Prelude Endian Crc32c SctpPacket SctpAssoc SctpWindow SctpInvariant.

(** ** The receive window *)

(** The TSNs received ahead of the cumulative one: no duplicates, and each lies in
    the half of the sequence space that follows the next expected TSN. *)
Definition window_ok (cum : Z) (R : list Z) : Prop :=
  NoDup R /\ Forall (fun t => is_u32 t /\ 1 < off cum t <= 2 ^ 31) R.

Lemma off_shift cum k t :
  is_u32 t -> 0 <= k <= off cum t -> off (u32 (cum + k)) t = off cum t - k.
Proof. unfold off. intros. width_lia. Qed.

Lemma off_next cum t : is_u32 t -> off cum t = 1 -> t = cum +32 1.
Proof. unfold off. intros. width_lia. Qed.

Lemma in_following cum k t :
  is_u32 t -> 0 < off cum t <= Z.of_nat k -> t ∈ following cum k.
Proof.
  intros Ht Ho. unfold following. apply list_elem_of_In, in_map_iff.
  exists (Z.to_nat (off cum t)). split; [|apply in_seq; lia]. unfold off in *. width_lia.
Qed.

Lemma window_advanced cum R cum' R' :
  window_ok cum R -> (length R <= 2048)%nat -> advanced (cum +32 1) R cum' R' -> window_ok cum' R'.
Proof.
  intros [Hnd Hw] Hl (k & Ec & HP & Hn).
  assert (Hk : (k <= 2048)%nat).
  { apply Permutation_length in HP. unfold following in HP. rewrite length_app, length_map, length_seq in HP. lia. }
  rewrite HP in Hnd, Hw. apply list.NoDup_app in Hnd as (_ & Hdisj & Hnd). apply Forall_app in Hw as [_ Hw].
  split; [done|]. apply Forall_forall. intros t Ht%list_elem_of_In.
  rewrite Forall_forall in Hw. destruct (Hw t) as [Htu Ho]; [by apply list_elem_of_In|].
  assert (Ecum : cum' = u32 (cum + (1 + Z.of_nat k)))
    by (rewrite Ec; unfold u32; rewrite Zplus_mod_idemp_l; f_equal; lia).
  assert (Hfar : 1 + Z.of_nat k < off cum t).
  { destruct (Z.lt_ge_cases (1 + Z.of_nat k) (off cum t)) as [|Hge]; [done|]. exfalso.
    apply (Hdisj t); [|done]. apply in_following; [done|].
    rewrite (off_shift cum 1) by (done || lia). lia. }
  split; [done|]. rewrite Ecum, off_shift by (done || lia). split; [|lia].
  destruct (decide (off cum t - (1 + Z.of_nat k) = 1)) as [E1|]; [|lia]. exfalso.
  apply Hn. rewrite <- (off_next cum' t); [done|done|]. rewrite Ecum, off_shift by (done || lia). lia.
Qed.

Lemma window_add cum R t :
  window_ok cum R -> is_u32 t -> TSN_GT t (cum +32 1) = true -> t ∉ R -> window_ok cum (R ++ [t]).
Proof.
  intros [Hnd Hw] Ht Hgt Hn. split.
  - apply list.NoDup_app. split_and!; [done| |apply NoDup_singleton].
    intros x Hx ->%list_elem_of_singleton. done.
  - apply Forall_app. split; [done|]. constructor; [|constructor]. split; [done|].
    unfold TSN_GT in Hgt. apply Z.ltb_lt in Hgt. unfold off. width_lia.
Qed.

Definition liveTsns (a : SctpAssociation) : list Z := live (receivedTsns a) (receivedTsnCount a).

(** The window a TSN is received in: an association that has seen no TSN yet starts
    just below it. *)
Definition windowBase (tsn : Z) (a : SctpAssociation) : Z :=
  if peerCumulativeTsnValid a then peerCumulativeTsn a else tsn -32 1.

(** The TSNs in the half of the sequence space that follows [cum]. *)
Definition ahead (cum t : Z) : Prop := is_u32 t /\ 0 < off cum t <= 2 ^ 31.

(** A TSN ahead of [cum] counts as received once the cumulative TSN [cum'] reached it
    or it is kept in [R]. *)
Definition received (cum cum' : Z) (R : list Z) (t : Z) : Prop := off cum t <= off cum cum' \/ t ∈ R.

Lemma received_same cum R t : ahead cum t -> (received cum cum R t <-> t ∈ R).
Proof.
  intros [Ht Ho]. unfold received. replace (off cum cum) with 0; [intuition lia|].
  unfold off. by rewrite Z.sub_diag.
Qed.

Lemma off_forward cum k : is_u32 cum -> 0 <= k < 2 ^ 32 -> off cum (u32 (cum + k)) = k.
Proof. unfold off. intros. width_lia. Qed.

Lemma elem_of_following cum k t :
  is_u32 cum -> (k <= 2048)%nat -> is_u32 t ->
  (t ∈ following cum k <-> 0 < off cum t <= Z.of_nat k).
Proof.
  intros Hc Hk Ht. split; [|by apply in_following].
  intros (j & <- & Hj%in_seq)%list_elem_of_In%in_map_iff. rewrite off_forward by (done || lia). lia.
Qed.

(** The in-order case: the new cumulative TSN covers the TSN and the run behind it. *)
Lemma received_advanced cum R cum' R' t :
  is_u32 cum -> (length R <= 2048)%nat -> advanced (cum +32 1) R cum' R' -> ahead cum t ->
  (received cum cum' R' t <-> t = cum +32 1 \/ t ∈ R).
Proof.
  intros Hc Hl (k & Ec & HP & _) [Ht Ho].
  assert (Hk : (k <= 2048)%nat).
  { apply Permutation_length in HP. unfold following in HP. rewrite length_app, length_map, length_seq in HP. lia. }
  rewrite HP, elem_of_app, elem_of_following by (done || apply u32_range).
  rewrite (off_shift cum 1) by (done || lia). unfold received.
  assert (Ecum : cum' = u32 (cum + (1 + Z.of_nat k)))
    by (rewrite Ec; unfold u32; rewrite Zplus_mod_idemp_l; f_equal; lia).
  rewrite Ecum, off_forward by (done || lia). split.
  - intros [Hle|?]; [|auto]. destruct (decide (off cum t = 1)) as [E1|]; [left; by apply off_next|right; left; lia].
  - intros [->|[?|?]]; [left|left; lia|auto]. rewrite off_forward by (done || lia). lia.
Qed.

Lemma fresh_ahead cum tsn :
  is_u32 cum -> is_u32 tsn ->
  (tsn =? cum +32 1) || TSN_GT tsn (cum +32 1) = bool_decide (ahead cum tsn).
Proof.
  intros Hc Ht. apply Bool.eq_iff_eq_true. rewrite orb_true_iff, bool_decide_eq_true.
  unfold ahead, TSN_GT, off. rewrite Z.eqb_eq, Z.ltb_lt. split.
  - intros [->|H]; (split; [try apply u32_range; done|]); width_lia.
  - intros [_ H]. width_lia.
Qed.

Lemma trackTsn_window_wp w tsn :
  let cum := windowBase tsn (assoc w) in
  Inv (assoc w) -> is_u32 tsn -> window_ok cum (liveTsns (assoc w)) ->
  wp (trackTsn tsn) (fun fresh w' =>
    let cum' := peerCumulativeTsn (assoc w') in
    fresh = bool_decide (ahead cum tsn) /\ window_ok cum' (liveTsns (assoc w')) /\
    (tsn = cum +32 1 \/ receivedTsnCount (assoc w) < SCTP_MAX_RECEIVED ->
     forall t, ahead cum t ->
       (received cum cum' (liveTsns (assoc w')) t <->
        (fresh = true /\ t = tsn) \/ t ∈ liveTsns (assoc w)))) w.
Proof.
  intros cum HI Ht Hw.
  assert (Hc : is_u32 cum)
    by (unfold cum, windowBase; destruct (peerCumulativeTsnValid _); [apply HI|apply u32_range]).
  assert (Hlen : (length (liveTsns (assoc w)) <= 2048)%nat).
  { unfold liveTsns, live. rewrite length_take. pose proof (inv_recv _ HI) as (_ & _ & Hn).
    unfold SCTP_MAX_RECEIVED in Hn. lia. }
  eapply wp_mono; [by apply trackTsn_wp|]. intros fresh w' (_ & _ & _ & _ & Htr). cbv beta zeta.
  unfold tracked in Htr. fold (windowBase tsn (assoc w)) in Htr. fold cum in Htr.
  fold (liveTsns (assoc w)) in Htr. fold (liveTsns (assoc w')) in Htr.
  set (cum' := peerCumulativeTsn (assoc w')) in *. set (R := liveTsns (assoc w)) in *.
  set (R' := liveTsns (assoc w')) in *. clearbody cum' R R'.
  rewrite <- fresh_ahead by done. destruct (Z.eqb_spec tsn (cum +32 1)) as [E|E]; cbn [orb].
  { destruct Htr as [-> Ha]. rewrite E in Ha. split; [done|]. split; [by eapply window_advanced|].
    intros _ t Hah. rewrite received_advanced by done. rewrite E. intuition. }
  destruct (TSN_GT tsn (cum +32 1)) eqn:Eg.
  - destruct Htr as (-> & -> & ->). split; [done|].
    destruct (bool_decide (tsn ∈ R)) eqn:Ed; cbn [orb].
    { apply bool_decide_eq_true in Ed. split; [done|]. intros _ t Hah. rewrite received_same by done.
      split; [auto|]. intros [[_ ->]|?]; done. }
    apply bool_decide_eq_false in Ed. destruct (Z.leb_spec SCTP_MAX_RECEIVED (receivedTsnCount (assoc w))).
    { split; [done|]. intros [?|?]; [done|lia]. }
    split; [by apply window_add|]. intros _ t Hah. rewrite received_same by done.
    rewrite elem_of_app, list_elem_of_singleton. intuition.
  - destruct Htr as (-> & -> & ->). split; [done|]. split; [done|]. intros _ t Hah.
    rewrite received_same by done. split; [auto|]. by intros [[? _]|?].
Qed.

(** C21. The cumulative TSN together with the list of TSNs ahead of it represents the
    set of received TSNs.  Tracking a TSN accepts exactly the TSNs ahead of the
    cumulative one, adds the TSN to the set and nothing else (unless the list is full),
    keeps the list free of duplicates, and advances the cumulative TSN as far as the set
    allows: the TSN after it is never in the list. *)
Theorem trackTsn_window w tsn
  (HI : Inv (assoc w)) (Ht : is_u32 tsn)
  (Hw : window_ok (windowBase tsn (assoc w)) (liveTsns (assoc w))) :
  let cum := windowBase tsn (assoc w) in
  wp (trackTsn tsn) (fun fresh w' =>
    let cum' := peerCumulativeTsn (assoc w') in
    fresh = bool_decide (ahead cum tsn) /\ window_ok cum' (liveTsns (assoc w')) /\
    (tsn = cum +32 1 \/ receivedTsnCount (assoc w) < SCTP_MAX_RECEIVED ->
     forall t, ahead cum t ->
       (received cum cum' (liveTsns (assoc w')) t <->
        (fresh = true /\ t = tsn) \/ t ∈ liveTsns (assoc w)))) w.
Proof. by apply trackTsn_window_wp. Qed.

(** ** Selective acknowledgements *)

Lemma off_inj cum x y : is_u32 x -> is_u32 y -> off cum x = off cum y -> x = y.
Proof. unfold off. intros. width_lia. Qed.

Lemma sorted_strict cum l :
  NoDup l -> Forall is_u32 l -> StronglySorted (fun x y => off cum x <= off cum y) l ->
  StronglySorted (fun x y => off cum x < off cum y) l.
Proof.
  intros Hnd Hu Hs. induction Hs as [|x l Hs IH Hx]; [constructor|].
  apply list.NoDup_cons in Hnd as [Hn Hnd]. apply Forall_cons_1 in Hu as [Hxu Hu].
  constructor; [by apply IH|]. apply Forall_forall. intros y Hy. rewrite Forall_forall in Hx, Hu.
  specialize (Hx y Hy). destruct (decide (off cum x = off cum y)) as [E|]; [|lia].
  apply off_inj in E; [|done|by apply Hu]. subst y. exfalso. by apply Hn, list_elem_of_In.
Qed.

Lemma covers_perm g g' o : g ≡ₚ g' -> (covers g o <-> covers g' o).
Proof. intros HP. unfold covers. by setoid_rewrite HP. Qed.

Lemma sackGaps_spec a :
  let cum := peerCumulativeTsn a in
  window_ok cum (liveTsns a) -> Forall (fun t => off cum t < 2 ^ 16) (liveTsns a) ->
  StronglySorted separated (sackGaps a) /\
  (forall o, covers (sackGaps a) o -> exists t, t ∈ liveTsns a /\ o = off cum t) /\
  (Z.of_nat (length (sackGaps a)) < SCTP_MAX_GAP_BLOCKS ->
   forall t, t ∈ liveTsns a -> covers (sackGaps a) (off cum t)).
Proof.
  intros cum [Hnd Hw] H16. fold (liveTsns a) in *.
  assert (Hsk : Forall (sackable cum) (liveTsns a)).
  { apply Forall_forall. intros t Ht. rewrite Forall_forall in Hw, H16.
    specialize (Hw t Ht). specialize (H16 t Ht). cbn in *. unfold sackable. split; [tauto|lia]. }
  destruct (sortTsns_spec cum (liveTsns a)) as [HP Hs].
  { eapply Forall_impl; [|exact H16]. cbn. lia. }
  assert (Hsk' : Forall (sackable cum) (sortTsns (liveTsns a))) by by rewrite HP.
  assert (Hu : Forall is_u32 (sortTsns (liveTsns a))) by (eapply Forall_impl; [|exact Hsk']; by intros ? []).
  set (gs := gapLoop cum (sortTsns (liveTsns a)) []).
  assert (Eg : sackGaps a = rev gs) by done.
  assert (HPg : sackGaps a ≡ₚ gs) by (rewrite Eg; symmetry; apply Permutation_rev).
  split_and!.
  - rewrite Eg. eapply StronglySorted_rev; [|apply (gapLoop_separated cum); try done; [|constructor]].
    + done.
    + apply sorted_strict; [by rewrite HP|done|done].
  - intros o Ho. rewrite (covers_perm _ _ o HPg) in Ho.
    apply (gapLoop_covers cum _ [] o Hsk' (Forall_nil _)) in Ho as [(g & []%not_elem_of_nil & _)|Ho].
    rewrite HP in Ho. apply list_elem_of_In, in_map_iff in Ho as (t & <- & Ht%list_elem_of_In). eauto.
  - intros Hl t Ht. rewrite (covers_perm _ _ _ HPg).
    apply (gapLoop_covers cum _ [] (off cum t) Hsk' (Forall_nil _)).
    + fold gs. by rewrite <- (Permutation_length HPg).
    + right. rewrite HP. by apply list_elem_of_In, in_map, list_elem_of_In.
Qed.

(** C23. A SACK goes out with the cumulative TSN and gap blocks that are in increasing
    order and pairwise separated, that only report TSNs received out of order, and that
    report all of them unless the limit of 128 blocks is reached (for TSNs within the
    16-bit reach of the chunk's offsets). *)
Theorem sctpSendSack_reports w
  (HI : Inv (assoc w)) (Hv : peerCumulativeTsnValid (assoc w) = true)
  (Hw : window_ok (peerCumulativeTsn (assoc w)) (liveTsns (assoc w)))
  (H16 : Forall (fun t => off (peerCumulativeTsn (assoc w)) t < 2 ^ 16) (liveTsns (assoc w))) :
  let cum := peerCumulativeTsn (assoc w) in
  wp sctpSendSack (fun _ w' => exists gaps,
    events w' = events w ++ [EvPacket (sctp_packet (localPort (assoc w)) (remotePort (assoc w))
      (peerVerificationTag (assoc w)) (sack_chunk cum SCTP_DEFAULT_ARWND gaps))] /\
    needSack (assoc w') = false /\
    StronglySorted separated gaps /\
    (forall o, covers gaps o -> exists t, t ∈ liveTsns (assoc w) /\ o = off cum t) /\
    (Z.of_nat (length gaps) < SCTP_MAX_GAP_BLOCKS ->
     forall t, t ∈ liveTsns (assoc w) -> covers gaps (off cum t))) w.
Proof.
  intros cum. apply sctpSendSack_wp; [done|by rewrite Hv|]. intros out _ _.
  exists (sackGaps (assoc w)). split; [done|]. split; [done|]. by apply sackGaps_spec.
Qed.

(** ** Acknowledgement *)

Lemma ackSlot_ext h1 h2 d : (forall t, h1 t = h2 t) -> ackSlot h1 d = ackSlot h2 d.
Proof. intros E. unfold ackSlot, covered. by rewrite E. Qed.

Lemma ackSlot_comp h1 h2 d : ackSlot h2 (ackSlot h1 d) = ackSlot (fun t => h1 t || h2 t) d.
Proof.
  unfold ackSlot, covered. destruct (o_inUse d) eqn:Eu, (o_acked d) eqn:Ea, (h1 (o_tsn d)) eqn:E1;
    cbn [negb andb orb]; rewrite ?Eu, ?Ea, ?E1; done.
Qed.

Lemma acked_ext h1 h2 a : (forall t, h1 t = h2 t) -> acked h1 a = acked h2 a.
Proof.
  intros E. unfold acked. by rewrite (map_ext (ackSlot h1) (ackSlot h2)) by (intros d; by apply ackSlot_ext).
Qed.

Lemma acked_comp h1 h2 a : acked h2 (acked h1 a) = acked (fun t => h1 t || h2 t) a.
Proof.
  unfold acked. cbn [outstanding]. 
  assert (E : map (ackSlot h2) (map (ackSlot h1) (outstanding a)) = map (ackSlot (fun t => h1 t || h2 t)) (outstanding a)).
  { rewrite map_map. apply map_ext. intros d. apply ackSlot_comp. }
  change (outstanding (a <| outstanding := map (ackSlot h1) (outstanding a) |>
    <| flightSize := _ |> <| outstandingCount := _ |>)) with (map (ackSlot h1) (outstanding a)).
  rewrite E. done.
Qed.

Lemma ackedBytes_comp h1 h2 l :
  ackedBytes h1 l + ackedBytes h2 (map (ackSlot h1) l) = ackedBytes (fun t => h1 t || h2 t) l.
Proof.
  pose proof (flight_ack h1 l) as E1. pose proof (flight_ack h2 (map (ackSlot h1) l)) as E2.
  pose proof (flight_ack (fun t => h1 t || h2 t) l) as E3.
  rewrite map_map, (map_ext _ _ (ackSlot_comp h1 h2)) in E2. lia.
Qed.

Lemma ackedBytes_bound h a : Inv a -> 0 <= ackedBytes h (outstanding a) <= flightSize a.
Proof.
  intros HI. pose proof (flight_ack h (outstanding a)) as E. rewrite (inv_flight _ HI).
  pose proof (inv_slots _ (Inv_acked h _ HI)) as (Hl & Hs). pose proof (inv_mtu _ HI) as Hm.
  pose proof (flight_bound _ _ (proj2 Hm) Hl Hs) as Hf.
  change (outstanding (acked h a)) with (map (ackSlot h) (outstanding a)) in Hf.
  split; [|lia]. destruct (sumBy_bound (fun d => if covered h d then o_payloadLen d else 0) (outstanding a) 1172)
    as [Hb _]; [|exact Hb].
  destruct (inv_slots _ HI) as [_ Hs0]. eapply Forall_impl; [|exact Hs0]. intros d (_ & Hd & _).
  unfold SCTP_MAX_PACKET_SIZE in Hm. destruct (covered h d); lia.
Qed.

(** The TSNs of a gap block, and the TSNs a SACK acknowledges. *)
Definition inGap (cum : Z) (g : Z * Z) (t : Z) : bool :=
  TSN_GTE t (cum +32 g.1) && TSN_LTE t (cum +32 g.2).
Definition sackHit (cum : Z) (gaps : list (Z * Z)) (t : Z) : bool :=
  TSN_LTE t cum || existsb (fun g => inGap cum g t) gaps.

Definition gap_ok (g : Z * Z) : Prop := is_u16 g.1 /\ is_u16 g.2.

Lemma ackedBytes_none l : ackedBytes (fun _ => false) l = 0.
Proof.
  unfold ackedBytes. induction l as [|d l IH]; [done|]. cbn [sumBy]. rewrite IH. unfold covered.
  by rewrite andb_false_r.
Qed.

Lemma acked_none a : Inv a -> acked (fun _ => false) a = a.
Proof.
  intros HI. unfold acked.
  assert (E : map (ackSlot (fun _ => false)) (outstanding a) = outstanding a).
  { rewrite <- (map_id (outstanding a)) at 2. apply map_ext. intros d. unfold ackSlot, covered.
    by rewrite andb_false_r. }
  rewrite E, <- (inv_flight _ HI), <- (inv_count _ HI). done.
Qed.

Lemma gapAckLoop_spec buf v n pre gaps post cum bytes w (Q : Z -> World -> Prop) :
  bytes_ok buf -> chunk_in buf v n -> buf = pre ++ gap_bytes gaps ++ post ->
  v <= blen pre -> blen pre + 4 * Z.of_nat (length gaps) <= v + n -> Forall gap_ok gaps ->
  Inv (assoc w) -> is_u32 bytes ->
  Q (u32 (bytes + ackedBytes (fun t => existsb (fun g => inGap cum g t) gaps) (outstanding (assoc w))))
    (w <| assoc := acked (fun t => existsb (fun g => inGap cum g t) gaps) (assoc w) |>) ->
  wp (gapAckLoop (length gaps) (Ptr buf v) cum (blen pre - v) bytes) Q w.
Proof.
  intros Hb Hin. revert pre bytes w. induction gaps as [|[s e] gs IH];
    intros pre bytes w Ebuf Hv Hn Hg HI Hby HQ; cbn [gapAckLoop length] in *.
  { cbn [existsb] in HQ. rewrite acked_none in HQ by done.
    by rewrite ackedBytes_none, Z.add_0_r, u32_id in HQ. }
  apply Forall_cons_1 in Hg as [[Hs He] Hg]. cbn in Hs, He.
  change (gap_bytes ((s, e) :: gs)) with ((be16 s ++ be16 e) ++ gap_bytes gs) in Ebuf.
  rewrite <- !(assoc_L (++)) in Ebuf.
  assert (Es : rd16 buf (v + (blen pre - v)) = Ok s).
  { replace (v + (blen pre - v)) with (blen pre) by lia. rewrite Ebuf, rd16_app by done. by rewrite u16_id. }
  assert (Ee : rd16 buf (v + (blen pre - v + 2)) = Ok e).
  { replace (v + (blen pre - v + 2)) with (blen (pre ++ be16 s)) by blen_lia.
    rewrite Ebuf, (assoc_L (++) pre), rd16_app by done. by rewrite u16_id. }
  apply wp_bind, (be16At_wp buf Hb v n Hin); [lia|lia|]. intros x Ex _. rewrite Es in Ex. injection Ex as <-.
  apply wp_bind, (be16At_wp buf Hb v n Hin); [lia|lia|]. intros y Ey _. rewrite Ee in Ey. injection Ey as <-.
  apply wp_bind, ackPass_wp; [done|done|].
  replace (blen pre - v + 4) with (blen (pre ++ be16 s ++ be16 e) - v) by blen_lia.
  apply IH; [by rewrite Ebuf, <- !(assoc_L (++))|blen_lia|blen_lia|done|by apply Inv_acked|apply u32_range|].
  fold (inGap cum (s, e)).
  change (fun tsn => TSN_GTE tsn (cum +32 s) && TSN_LTE tsn (cum +32 e)) with (inGap cum (s, e)).
  change (outstanding (assoc (w <| assoc := acked (inGap cum (s, e)) (assoc w) |>)))
    with (map (ackSlot (inGap cum (s, e))) (outstanding (assoc w))).
  change (assoc (w <| assoc := acked (inGap cum (s, e)) (assoc w) |>))
    with (acked (inGap cum (s, e)) (assoc w)).
  rewrite acked_comp. unfold u32 at 1 2. rewrite Zplus_mod_idemp_l, <- Z.add_assoc, ackedBytes_comp. exact HQ.
Qed.

(** The value of a SACK chunk. *)
Definition sack_value (cum arwnd : Z) (gaps : list (Z * Z)) : list Z :=
  be32 cum ++ be32 arwnd ++ be16 (Z.of_nat (length gaps)) ++ be16 0 ++ gap_bytes gaps.

(** The association after a SACK, before congested messages are sent: the covered
    chunks released, the window and the congestion state updated. *)
Definition sackAssoc (cum arwnd : Z) (gaps : list (Z * Z)) (a : SctpAssociation) : SctpAssociation :=
  let a' := acked (sackHit cum gaps) (a <| peerArwnd := arwnd |>) in
  let a' := if TSN_GT cum (cumulativeAckTsn a) then a' <| cumulativeAckTsn := cum |> else a' in
  let bytes := ackedBytes (sackHit cum gaps) (outstanding a) in
  if 0 <? bytes then growWindow bytes a' else a'.

Lemma sctpHandleSack_spec gettime memalloc pre cum arwnd gaps post w :
  let value := sack_value cum arwnd gaps in
  let buf := pre ++ value ++ post in
  alloc_ok memalloc -> bytes_ok pre -> bytes_ok post -> 16 <= blen pre -> is_u32 cum -> is_u32 arwnd ->
  Forall gap_ok gaps -> blen value < 2 ^ 16 -> Inv (assoc w) -> pendingQueueCount (assoc w) = 0 ->
  wp (sctpHandleSack gettime memalloc (Ptr buf (blen pre)) (blen value)) (fun st w' =>
    st = STATUS_SUCCESS /\ events w' = events w /\
    exists t3, assoc w' = (sackAssoc cum arwnd gaps (assoc w)) <| t3RtxExpiry := t3 |>) w.
Proof.
  intros value buf Hmem Hpre Hpost H16 Hcum Harw Hg Hvl HI Hpend.
  assert (Hvb : blen value = 12 + 4 * Z.of_nat (length gaps))
    by (unfold value, sack_value; autorewrite with blen; lia).
  assert (Hbok : bytes_ok buf).
  { unfold buf, value, sack_value. rewrite !bytes_ok_app. split_and!; auto using be16_ok, be32_ok, gap_bytes_ok. }
  assert (Hin : chunk_in buf (blen pre) (blen value)).
  { split; [done|]. unfold buf. rewrite !blen_app. pose proof (blen_nonneg value). pose proof (blen_nonneg post). lia. }
  assert (E0 : rd32 buf (blen pre + 0) = Ok cum).
  { unfold buf, value, sack_value. rewrite <- !(assoc_L (++)), Z.add_0_r, rd32_app by done. by rewrite u32_id. }
  assert (E4 : rd32 buf (blen pre + 4) = Ok arwnd).
  { unfold buf, value, sack_value. rewrite <- !(assoc_L (++)), (assoc_L (++) pre), rd32_app by blen_lia. by rewrite u32_id. }
  assert (E8 : rd16 buf (blen pre + 8) = Ok (Z.of_nat (length gaps))).
  { unfold buf, value, sack_value. rewrite <- !(assoc_L (++)), (assoc_L (++) pre), (assoc_L (++) (pre ++ _)), rd16_app by blen_lia.
    rewrite u16_id; [done|]. unfold is_u16. lia. }
  unfold sctpHandleSack, setA. rewrite (proj2 (Z.ltb_ge _ _)) by lia.
  apply wp_bind, (be32At_wp buf Hbok _ _ Hin); [lia|lia|]. intros x Ex _. rewrite E0 in Ex. injection Ex as <-.
  apply wp_bind, (be32At_wp buf Hbok _ _ Hin); [lia|lia|]. intros x Ex _. rewrite E4 in Ex. injection Ex as <-.
  apply wp_bind, (be16At_wp buf Hbok _ _ Hin); [lia|lia|]. intros x Ex _. rewrite E8 in Ex. injection Ex as <-.
  apply wp_bind, (be16At_wp buf Hbok _ _ Hin); [lia|lia|]. intros _ _ _.
  apply wp_bind, wp_modify. set (w1 := w <| assoc := _ |>).
  assert (HI1 : Inv (assoc w1)) by inv_update.
  apply wp_bind, ackPass_wp; [done|done|]. set (w2 := w1 <| assoc := _ |>).
  assert (HI2 : Inv (assoc w2)) by by apply Inv_acked.
  rewrite Z.add_0_l. change (outstanding (assoc w1)) with (outstanding (assoc w)).
  set (bytes := ackedBytes (sackHit cum gaps) (outstanding (assoc w))).
  pose proof (ackedBytes_bound (sackHit cum gaps) (assoc w) HI) as Hbb. fold bytes in Hbb.
  pose proof (inv_slots _ HI) as (Hsl & Hss). pose proof (inv_mtu _ HI) as Hm.
  pose proof (flight_bound _ _ (proj2 Hm) Hsl Hss) as Hfb. rewrite <- (inv_flight _ HI) in Hfb.
  set (w3 := w <| assoc := acked (sackHit cum gaps) ((assoc w) <| peerArwnd := arwnd |>) |>).
  assert (Eb : u32 (ackedBytes (fun t => TSN_LTE t cum) (outstanding (assoc w)) +
                    ackedBytes (fun t => existsb (fun g => inGap cum g t) gaps)
                      (map (ackSlot (fun t => TSN_LTE t cum)) (outstanding (assoc w)))) = bytes).
  { rewrite ackedBytes_comp. apply u32_id. fold (sackHit cum gaps). unfold is_u32.
    change (0 <= bytes < 2 ^ 32). lia. }
  assert (Ew : w2 <| assoc := acked (fun t => existsb (fun g => inGap cum g t) gaps) (assoc w2) |> = w3).
  { unfold w3, w2, w1.
    change (w <| assoc := acked (fun t => existsb (fun g => inGap cum g t) gaps)
              (acked (fun t => TSN_LTE t cum) ((assoc w) <| peerArwnd := arwnd |>)) |>
            = w <| assoc := acked (sackHit cum gaps) ((assoc w) <| peerArwnd := arwnd |>) |>).
    by rewrite acked_comp. }
  apply wp_bind.
  match goal with |- wp _ ?K _ => assert (Hrest : K bytes w3) end.
  { apply wp_bind, wp_modify, wp_bind. set (w4 := w3 <| assoc := _ |>).
    assert (E4' : assoc w4 = if TSN_GT cum (cumulativeAckTsn (assoc w))
                             then (assoc w3) <| cumulativeAckTsn := cum |> else assoc w3) by done.
    assert (Ep : pendingQueueCount (assoc w4) = 0).
    { rewrite E4'. by destruct (TSN_GT cum _). }
    unfold sackAssoc. fold bytes. apply wp_when; intros Hby; rewrite Hby.
    - apply wp_bind, wp_modify, wp_bind, wp_gets, wp_bind. set (w5 := w4 <| assoc := _ |>).
      assert (Ep5 : pendingQueueCount (assoc w5) = 0).
      { unfold w5, growWindow. cbn [assoc]. by destruct (_ <=? _). }
      assert (E5 : assoc w5 = growWindow bytes (assoc w4)) by done.
      apply wp_if; intros _; [|apply wp_bind, wp_now; intros now]; apply wp_modify, wp_bind, wp_gets;
        match goal with |- wp (when (0 <? ?c) _) _ _ => change c with (pendingQueueCount (assoc w5)) end;
        rewrite Ep5; (split; [done|]; split; [done|]; eexists; reflexivity).
    - split; [done|]. split; [done|]. exists (t3RtxExpiry (assoc w4)). reflexivity. }
  destruct gaps as [|g gs].
  - cbn [length andb Z.of_nat]. apply wp_ret. rewrite <- Ew, acked_none in Hrest by done.
    rewrite ackedBytes_none, Z.add_0_r in Eb. rewrite Eb. exact Hrest.
  - rewrite (proj2 (Z.ltb_lt _ _)) by (cbn [length]; lia).
    rewrite (proj2 (Z.leb_le _ _)) by lia. cbn [andb]. rewrite Nat2Z.id.
    set (pre' := pre ++ be32 cum ++ be32 arwnd ++ be16 (Z.of_nat (length (g :: gs))) ++ be16 0).
    replace 12 with (blen pre' - blen pre) by (unfold pre'; blen_lia).
    apply (gapAckLoop_spec buf _ _ pre' _ post _ _ _ _ Hbok Hin); try done.
    + unfold buf, value, sack_value, pre'. by rewrite <- !(assoc_L (++)).
    + unfold pre'. blen_lia.
    + unfold pre'. autorewrite with blen. lia.
    + apply u32_range.
    + rewrite Ew. change (outstanding (assoc w2))
        with (map (ackSlot (fun t => TSN_LTE t cum)) (outstanding (assoc w))).
      replace (u32 (u32 _ + _)) with bytes; [exact Hrest|]. rewrite <- Eb. unfold u32.
      by rewrite Zplus_mod_idemp_l.
Qed.

Lemma sackAssoc_fields cum arwnd gaps a :
  let a' := sackAssoc cum arwnd gaps a in
  let bytes := ackedBytes (sackHit cum gaps) (outstanding a) in
  outstanding a' = map (ackSlot (sackHit cum gaps)) (outstanding a) /\
  flightSize a' = bytesInFlight (map (ackSlot (sackHit cum gaps)) (outstanding a)) /\
  peerArwnd a' = arwnd /\
  cumulativeAckTsn a' = (if TSN_GT cum (cumulativeAckTsn a) then cum else cumulativeAckTsn a) /\
  cwnd a' = (if 0 <? bytes then
               cwnd a +32 (if cwnd a <=? ssthresh a then Z.min bytes (mtu a) else mtu a)
             else cwnd a).
Proof.
  unfold sackAssoc. set (a1 := acked _ _).
  set (a2 := if TSN_GT cum (cumulativeAckTsn a) then a1 <| cumulativeAckTsn := cum |> else a1).
  assert (E2 : outstanding a2 = outstanding a1 /\ flightSize a2 = flightSize a1 /\ peerArwnd a2 = arwnd /\
               cwnd a2 = cwnd a /\ ssthresh a2 = ssthresh a /\ mtu a2 = mtu a /\
               cumulativeAckTsn a2 = (if TSN_GT cum (cumulativeAckTsn a) then cum else cumulativeAckTsn a)).
  { unfold a2. destruct (TSN_GT cum (cumulativeAckTsn a)); split_and!; done. }
  clearbody a2. destruct E2 as (Eo & Ef & Ep & Ec & Es & Em & Ek).
  cbv zeta. destruct (0 <? _); [|rewrite Eo, Ef; split_and!; done].
  unfold growWindow. rewrite Ec, Es, Em.
  destruct (cwnd a <=? ssthresh a); (split_and!; [exact Eo|exact Ef|exact Ep|exact Ek|]); [|done].
  change (cwnd a +32 (if mtu a <? ackedBytes (sackHit cum gaps) (outstanding a) then mtu a
            else ackedBytes (sackHit cum gaps) (outstanding a))
          = cwnd a +32 Z.min (ackedBytes (sackHit cum gaps) (outstanding a)) (mtu a)).
  f_equal. f_equal. destruct (Z.ltb_spec (mtu a) (ackedBytes (sackHit cum gaps) (outstanding a))); lia.
Qed.

(** C22. A SACK without duplicate TSNs that reaches an association with no messages held back
    in its send queue (otherwise the handler goes on to send them) releases exactly the
    outstanding chunks whose TSN is at or below its cumulative TSN or inside one of its gap
    blocks; the bytes in flight drop by their
    sizes, the peer's window and the cumulative acknowledgement are taken over, and the
    congestion window grows by slow start (at most one MTU) or congestion avoidance (one
    MTU) when something was newly acknowledged, and not otherwise. *)
Theorem sctpHandleSack_acks gettime memalloc pre cum arwnd gaps post w
  (Hmem : alloc_ok memalloc) (Hpre : bytes_ok pre) (Hpost : bytes_ok post) (H16 : 16 <= blen pre)
  (Hcum : is_u32 cum) (Harw : is_u32 arwnd) (Hg : Forall gap_ok gaps)
  (Hl : blen (sack_value cum arwnd gaps) < 2 ^ 16)
  (HI : Inv (assoc w)) (Hpend : pendingQueueCount (assoc w) = 0) :
  let value := sack_value cum arwnd gaps in
  let hit := sackHit cum gaps in
  let bytes := ackedBytes hit (outstanding (assoc w)) in
  wp (sctpHandleSack gettime memalloc (Ptr (pre ++ value ++ post) (blen pre)) (blen value))
    (fun st w' => let a := assoc w in let a' := assoc w' in
      st = STATUS_SUCCESS /\ events w' = events w /\
      outstanding a' = map (ackSlot hit) (outstanding a) /\
      flightSize a' = flightSize a - bytes /\ peerArwnd a' = arwnd /\
      cumulativeAckTsn a' = (if TSN_GT cum (cumulativeAckTsn a) then cum else cumulativeAckTsn a) /\
      cwnd a' = (if 0 <? bytes then
                   cwnd a +32 (if cwnd a <=? ssthresh a then Z.min bytes (mtu a) else mtu a)
                 else cwnd a)) w.
Proof.
  intros value hit bytes. eapply wp_mono; [by apply sctpHandleSack_spec|].
  intros st w' (-> & Ee & t3 & Ea). cbv beta zeta.
  destruct (sackAssoc_fields cum arwnd gaps (assoc w)) as (Eo & Ef & Ep & Ek & Ec).
  fold hit in Eo, Ef, Ec. fold bytes in Ec.
  rewrite Ea. split; [done|]. split; [done|]. split; [exact Eo|].
  split; [|split; [exact Ep|split; [exact Ek|exact Ec]]].
  etrans; [exact Ef|]. rewrite flight_ack, (inv_flight _ HI). done.
Qed.

(** ** Packets with one chunk, at the receiver *)

(** The chunk value inside its packet. *)
Lemma value_split pkt value :
  pld_bytes (Ptr pkt 16) (blen value) = Ok value ->
  exists pre post, pkt = pre ++ value ++ post /\ blen pre = 16.
Proof.
  intros Hval. unfold pld_bytes in Hval. cbn [p_obj p_off] in Hval.
  pose proof (ld_bytes_inv _ _ _ _ Hval) as (? & ? & ? & _). pose proof (blen_nonneg value).
  rewrite ld_bytes_in in Hval by lia. injection Hval as Hval.
  exists (take 16 pkt), (drop (Z.to_nat (blen value)) (drop 16 pkt)).
  rewrite <- Hval at 1. change (Z.to_nat 16) with 16%nat. rewrite take_drop, take_drop. split; [done|].
  apply (blen_take 16). lia.
Qed.

Section Receive.
Variable h : endian.
Variable gettime : nat -> Z.
Variable memalloc : nat -> Z -> option (list Z).
Variable hasMsg : bool.

Lemma chunkLoop_end {W} (cb : Z -> Z -> ptr -> Z -> ST W STATUS) fuel buf len off w :
  len < off + 4 -> 0 <= off -> off + 4 < 2 ^ 32 ->
  chunkLoop cb fuel buf len off w = Some (STATUS_SUCCESS, w).
Proof.
  intros. destruct fuel; cbn [chunkLoop]; unfold SCTP_CHUNK_HEADER_SIZE;
    rewrite (u32_id (off + 4)) by (unfold is_u32; lia); by rewrite (proj2 (Z.leb_gt _ _)) by lia.
Qed.

Lemma chunkLoop_one {W} (cb : Z -> Z -> ptr -> Z -> ST W STATUS) fuel pre t f value pad w
  (Q : STATUS -> W -> Prop) :
  let buf := pre ++ chunk_hdr t f (4 + blen value) ++ value ++ pad in
  bytes_ok buf -> is_u8 t -> is_u8 f -> 4 + blen value < 2 ^ 16 -> blen pre < 2 ^ 16 ->
  blen pad = SCTP_PAD4 (4 + blen value) - (4 + blen value) ->
  wp (cb t f (Ptr buf (blen pre + 4)) (blen value)) Q w ->
  wp (chunkLoop cb (S fuel) buf (blen buf) (blen pre)) Q w.
Proof.
  intros buf Hb Ht Hf Hv Hp Hpad Hcb. pose proof (blen_nonneg pre). pose proof (blen_nonneg value).
  assert (Hpv : SCTP_PAD4 (4 + blen value) = 4 * ((4 + blen value + 3) / 4)) by (apply SCTP_PAD4_val; lia).
  assert (Hlen : blen buf = blen pre + SCTP_PAD4 (4 + blen value)) by (unfold buf; blen_lia).
  assert (4 + blen value <= SCTP_PAD4 (4 + blen value) < 2 ^ 17)
    by (rewrite Hpv; Z.div_mod_to_equations; lia).
  assert (E0 : ld buf (blen pre) = Ok t).
  { unfold buf, chunk_hdr. by apply ld_u8_at. }
  assert (E1 : ld buf (blen pre + 1) = Ok f).
  { unfold buf, chunk_hdr. rewrite <- !(assoc_L (++)), (assoc_L (++) pre). apply ld_u8_at; [by autorewrite with blen|done]. }
  assert (E2 : getUnalignedInt16Be buf (blen pre + 2) = Ok (i16 (4 + blen value))).
  { rewrite get16Be_rd16 by done. unfold buf, chunk_hdr.
    rewrite <- !(assoc_L (++)), (assoc_L (++) pre), (assoc_L (++) (pre ++ _)), rd16_app by blen_lia.
    cbn [mbind res_bind]. by rewrite i16_u16. }
  cbn [chunkLoop]. unfold SCTP_CHUNK_HEADER_SIZE.
  rewrite (u32_id (blen pre + 4)) by (unfold is_u32; lia).
  rewrite (proj2 (Z.leb_le _ _)) by lia.
  apply wp_bind. eapply wp_lift; [exact E0|]. apply wp_bind. eapply wp_lift; [exact E1|].
  apply wp_bind. eapply wp_lift; [exact E2|]. cbv beta zeta.
  rewrite u16_i16, (u16_id (4 + blen value)) by (unfold is_u16; lia).
  rewrite (u32_id (blen pre + (4 + blen value))) by (unfold is_u32; lia).
  rewrite (proj2 (Z.ltb_ge _ _)), (proj2 (Z.ltb_ge _ _)) by lia. cbn [orb].
  replace (4 + blen value - 4) with (blen value) by lia.
  apply wp_bind. eapply wp_mono; [exact Hcb|]. intros st w' HQ. cbv beta.
  destruct (STATUS_FAILED st) eqn:Est; [done|].
  unfold STATUS_FAILED in Est. apply bool_decide_eq_false, dec_stable in Est. subst st.
  unfold wp. rewrite (u32_id (blen pre + _)) by (unfold is_u32; lia).
  rewrite chunkLoop_end by lia. done.
Qed.

Lemma handle_one src dst vtag t f value pad w (Q : STATUS -> World -> Prop) :
  let pkt := sctp_packet src dst vtag (chunk_hdr t f (4 + blen value) ++ value ++ pad) in
  bytes_ok value -> bytes_ok pad -> is_u8 t -> is_u8 f -> 4 + blen value < 2 ^ 16 ->
  blen pad = SCTP_PAD4 (4 + blen value) - (4 + blen value) -> is_u32 vtag ->
  vtag = 0 \/ myVerificationTag (assoc w) = 0 \/ vtag = myVerificationTag (assoc w) ->
  (bytes_ok pkt -> pld_bytes (Ptr pkt 16) (blen value) = Ok value -> chunk_in pkt 16 (blen value) ->
   wp (sctpChunkDispatch h gettime memalloc hasMsg t f (Ptr pkt 16) (blen value)) Q w) ->
  wp (sctpAssocHandlePacket h gettime memalloc hasMsg (Some pkt) (blen pkt)) Q w.
Proof.
  intros pkt Hv Hpad Ht Hf Hl Hpl Htag Hvt HQ. pose proof (blen_nonneg value). pose proof (blen_nonneg pad).
  set (hdr := be16 src ++ be16 dst ++ be32 vtag).
  set (c := chunk_hdr t f (4 + blen value) ++ value ++ pad).
  assert (Hhdr : bytes_ok hdr /\ blen hdr = 8).
  { unfold hdr. rewrite !bytes_ok_app. by autorewrite with blen; auto using be16_ok, be32_ok. }
  assert (Hc : bytes_ok c) by (unfold c; rewrite !bytes_ok_app; auto using chunk_hdr_ok).
  assert (Hz : bytes_ok (hdr ++ [0; 0; 0; 0] ++ c))
    by (rewrite !bytes_ok_app; split_and!; try apply Hhdr; try done; by apply bytes_ok_check).
  set (crc := crcBytes (crc32c (hdr ++ [0; 0; 0; 0] ++ c))).
  assert (Epkt : pkt = (hdr ++ crc) ++ c) by (unfold pkt, sctp_packet, sealed; by rewrite <- (assoc_L (++))).
  assert (Hpk : bytes_ok pkt) by (rewrite Epkt, !bytes_ok_app; split_and!; [apply Hhdr|apply crcBytes_ok|done]).
  assert (Hlen : blen pkt = 16 + blen value + blen pad).
  { rewrite Epkt, !blen_app, (proj2 Hhdr), (blen_crcBytes _ : blen crc = 4).
    unfold c. autorewrite with blen. lia. }
  assert (Ev : sctpValidatePacket (Some pkt) (blen pkt) (myVerificationTag (assoc w)) = Ok (STATUS_SUCCESS, pkt)).
  { rewrite Epkt, <- (assoc_L (++)). unfold crc. rewrite crcBytes_val.
    rewrite (sctpValidatePacket_spec hdr _ _ _ _ c _ vtag); try apply u8_range; try apply Hhdr; try done.
    - rewrite crcOf_bytes, Z.eqb_refl by (by apply crc32c_u32). cbn [negb].
      destruct (Z.eqb_spec vtag 0), (Z.eqb_spec (myVerificationTag (assoc w)) 0),
        (Z.eqb_spec vtag (myVerificationTag (assoc w))); try done. intuition congruence.
    - unfold hdr. rewrite (assoc_L (++)). rewrite <- (app_nil_r (be32 vtag)), rd32_app by by autorewrite with blen.
      by rewrite u32_id. }
  unfold sctpAssocHandlePacket, SCTP_COMMON_HEADER_SIZE. rewrite (proj2 (Z.ltb_ge _ _)) by lia.
  apply wp_bind, wp_gets, wp_bind. eapply wp_lift; [exact Ev|]. cbv beta match.
  change (STATUS_FAILED STATUS_SUCCESS) with false. cbv match. unfold sctpParseChunks, SCTP_COMMON_HEADER_SIZE.
  assert (Hpre : blen (hdr ++ crc) = 12) by (rewrite blen_app, (proj2 Hhdr); done).
  replace (Z.to_nat (blen pkt / 4 + 1)) with (S (Z.to_nat (blen pkt / 4)))
    by (pose proof (Z.div_pos (blen pkt) 4); lia).
  assert (Hdisp : wp (sctpChunkDispatch h gettime memalloc hasMsg t f (Ptr pkt 16) (blen value)) Q w).
  { apply HQ; [done| |].
    - unfold pld_bytes. cbn [p_obj p_off]. rewrite Epkt. unfold c. rewrite (assoc_L (++) (hdr ++ crc)).
      apply ld_bytes_app; [|done]. rewrite blen_app, Hpre. by autorewrite with blen.
    - split; [lia|]. split; [lia|]. lia. }
  rewrite <- Hpre. rewrite Epkt in *. by apply chunkLoop_one.
Qed.

(** *** Reassembly *)

(** The messages delivered so far. *)
Definition isMessage (e : Event) : bool := match e with EvMessage _ _ _ => true | EvPacket _ => false end.
Definition messages (w : World) : list Event := List.filter isMessage (events w).

(** What a DATA chunk's delivery leaves alone. *)
Definition rview (a : SctpAssociation) :=
  (state a, (localPort a, remotePort a, myVerificationTag a, peerVerificationTag a),
   (peerCumulativeTsn a, peerCumulativeTsnValid a, receivedTsnCount a), t1InitExpiry a).

(** The bytes [acc] of a message of stream [sid] are being reassembled. *)
Definition reassembling (sid ppid : Z) (acc : list Z) (a : SctpAssociation) : Prop :=
  reassemblyInProgress a = true /\ reassemblyStreamId a = sid /\ reassemblyPpid a = ppid /\
  reassemblyLen a = blen acc /\ exists b, reassemblyBuf a = Some b /\ take (length acc) b = acc.

(** The reassembly buffer exists or can be allocated. *)
Definition buffer_avail (w : World) : Prop :=
  is_Some (reassemblyBuf (assoc w)) \/ is_Some (memalloc (allocs w) SCTP_MAX_REASSEMBLY_SIZE).

Hypothesis Hmem : alloc_ok memalloc.

(** The four cases of a delivery. *)
Definition delivered (begin end_ : bool) (sid ppid : Z) (acc fr : list Z) (w w' : World) : Prop :=
  rview (assoc w') = rview (assoc w) /\
  if end_ then messages w' = messages w ++ [EvMessage sid ppid (if begin then fr else acc ++ fr)]
  else reassembling sid ppid (if begin then fr else acc ++ fr) (assoc w') /\ events w' = events w.

Lemma take_put b o bs b' acc :
  put_bytes b o bs = Ok b' -> o = blen acc -> take (length acc) b = acc ->
  take (length (acc ++ bs)) b' = acc ++ bs.
Proof.
  intros E -> Ht. pose proof (put_bytes_inv _ _ _ _ E) as (H0 & Hl & _).
  rewrite put_bytes_in in E by lia. injection E as <-.
  rewrite (assoc_L (++)). replace (Z.to_nat (blen acc)) with (length acc) by (unfold blen; lia).
  rewrite Ht. by rewrite take_app_length.
Qed.

Lemma deliverData_whole flags sid ssn ppid p bs w :
  Z.land flags SCTP_DATA_FLAG_BEGIN <> 0 -> Z.land flags SCTP_DATA_FLAG_END <> 0 ->
  payload_at p (blen bs) bs ->
  wp (deliverData memalloc flags sid ssn ppid p (blen bs)) (fun _ => delivered true true sid ppid [] bs w) w.
Proof.
  intros Hb He (Hp & _). unfold deliverData. rewrite !(proj2 (Z.eqb_neq _ _)) by done. cbn [negb andb].
  unfold emit. apply wp_bind. eapply wp_lift; [exact Hp|]. apply wp_modify. split; [done|].
  unfold messages. cbn [events]. 
  change (List.filter isMessage (events w ++ [EvMessage sid ppid bs]) = List.filter isMessage (events w) ++ [EvMessage sid ppid bs]).
  by rewrite List.filter_app.
Qed.

Lemma deliverData_begin flags sid ssn ppid p bs w :
  Z.land flags SCTP_DATA_FLAG_BEGIN <> 0 -> Z.land flags SCTP_DATA_FLAG_END = 0 ->
  payload_at p (blen bs) bs -> blen bs <= SCTP_MAX_REASSEMBLY_SIZE -> Inv (assoc w) -> buffer_avail w ->
  wp (deliverData memalloc flags sid ssn ppid p (blen bs)) (fun _ => delivered true false sid ppid [] bs w) w.
Proof.
  intros Hb He (Hp & Hbs & _) Hl HI Hav. unfold deliverData. rewrite (proj2 (Z.eqb_neq _ _)), (proj2 (Z.eqb_eq _ _)) by done.
  cbn [negb andb]. unfold setA. apply wp_bind, wp_gets, wp_bind.
  assert (Hgo : forall b w1, rview (assoc w1) = rview (assoc w) -> events w1 = events w ->
            blen b = SCTP_MAX_REASSEMBLY_SIZE -> bytes_ok b ->
            wp (if blen bs <=? SCTP_MAX_REASSEMBLY_SIZE then
                  bs' ← lift (pld_bytes p (blen bs)); b ← lift (put_bytes b 0 bs');
                  setA (fun a => a <| reassemblyBuf := Some b |> <| reassemblyLen := blen bs |>
                         <| reassemblyStreamId := sid |> <| reassemblySsn := ssn |>
                         <| reassemblyPpid := ppid |> <| reassemblyInProgress := true |>)
                else mret tt) (fun _ => delivered true false sid ppid [] bs w) w1).
  { intros b w1 Erv Eev Hbl Hbb. rewrite (proj2 (Z.leb_le _ _)) by done.
    destruct (reassembly_put b 0 bs) as (b' & Eb' & _ & _); [done|done|done|lia|lia|].
    unfold setA. apply wp_bind. eapply wp_lift; [exact Hp|]. apply wp_bind. eapply wp_lift; [exact Eb'|].
    apply wp_modify. split; [exact Erv|]. split; [|exact Eev]. split_and!; try done.
    exists b'. split; [done|]. exact (take_put _ _ _ _ [] Eb' eq_refl eq_refl). }
  destruct (inv_reasm _ HI) as (Hbuf & _ & _).
  destruct (reassemblyBuf (assoc w)) as [b|] eqn:Eb.
  - apply wp_ret, wp_bind, wp_gets. rewrite Eb. by apply Hgo; [..|apply Hbuf|apply Hbuf].
  - destruct Hav as [[? E]|[b E]]; [by rewrite Eb in E|]. pose proof (Hmem _ _ _ E) as [Hbl Hbb].
    apply wp_bind. unfold MEMALLOC, wp at 1. rewrite E. apply wp_modify, wp_bind, wp_gets. by apply Hgo.
Qed.

Lemma deliverData_more flags sid ssn sid' ppid ppid' p bs acc w :
  Z.land flags SCTP_DATA_FLAG_BEGIN = 0 ->
  payload_at p (blen bs) bs -> blen acc + blen bs <= SCTP_MAX_REASSEMBLY_SIZE -> Inv (assoc w) ->
  reassembling sid ppid acc (assoc w) ->
  wp (deliverData memalloc flags sid' ssn ppid' p (blen bs))
     (fun _ => delivered false (negb (Z.land flags SCTP_DATA_FLAG_END =? 0)) sid ppid acc bs w) w.
Proof.
  intros Hb (Hp & Hbs & _) Hl HI (Hpr & Hs & Hpp & Hrl & b & Eb & Ht).
  unfold deliverData. rewrite (proj2 (Z.eqb_eq _ _)) by done. cbn [negb andb]. unfold setA, emit.
  destruct (inv_reasm _ HI) as (Hbuf & _ & _). destruct (Hbuf b Eb) as [Hbl Hbb].
  pose proof (blen_nonneg acc). pose proof (blen_nonneg bs). unfold SCTP_MAX_REASSEMBLY_SIZE in *.
  apply wp_bind, wp_gets. rewrite Hpr. apply wp_bind, wp_gets, wp_bind. rewrite Eb, Hrl.
  rewrite u32_id by (unfold is_u32; lia). unfold SCTP_MAX_REASSEMBLY_SIZE. rewrite (proj2 (Z.leb_le _ _)) by lia.
  destruct (reassembly_put b (blen acc) bs) as (b' & Eb' & Hbl' & _);
    [done|done|done|lia|unfold SCTP_MAX_REASSEMBLY_SIZE; lia|].
  pose proof (take_put _ _ _ _ acc Eb' eq_refl Ht) as Ht'.
  apply wp_bind. eapply wp_lift; [exact Hp|]. apply wp_bind. eapply wp_lift; [exact Eb'|]. apply wp_modify.
  set (w1 := w <| assoc := _ |>).
  assert (Hw1 : reassembling sid ppid (acc ++ bs) (assoc w1)).
  { split_and!; try done; [|by exists b']. etrans; [|symmetry; apply blen_app].
    change (u32 (reassemblyLen (assoc w) + blen bs) = blen acc + blen bs). rewrite Hrl. apply u32_id. unfold is_u32. lia. }
  assert (Hrv : rview (assoc w1) = rview (assoc w)) by done. assert (Hev : events w1 = events w) by done.
  clearbody w1. apply wp_when; intros Hend; rewrite Hend; [|by split].
  destruct Hw1 as (_ & Es1 & Ep1 & El1 & b1 & Eb1 & Ht1).
  assert (Em : pld_bytes (ptrOf (reassemblyBuf (assoc w1))) (reassemblyLen (assoc w1)) = Ok (acc ++ bs)).
  { rewrite Eb1, El1. rewrite <- Ht1 at 2. unfold pld_bytes, ptrOf.
    pose proof (ld_bytes_in b1 0 (blen (acc ++ bs)) ltac:(lia) ltac:(apply blen_nonneg)) as E.
    change (p_obj (Ptr (default [] (Some b1)) 0)) with b1. change (p_off (Ptr (default [] (Some b1)) 0)) with 0.
    rewrite E; [|]. { cbn [drop]. change (Z.to_nat 0) with 0%nat. rewrite drop_0. rewrite (length_blen (acc ++ bs)). done. }
    apply (f_equal blen) in Ht1. unfold blen in *. rewrite length_take in Ht1. lia. }
  apply wp_bind, wp_gets, wp_bind. eapply wp_lift; [exact Em|]. apply wp_bind, wp_modify, wp_modify.
  split; [exact Hrv|]. rewrite Es1, Ep1. unfold messages. rewrite <- Hev.
  change (List.filter isMessage (events w1 ++ [EvMessage sid ppid (acc ++ bs)])
          = List.filter isMessage (events w1) ++ [EvMessage sid ppid (acc ++ bs)]).
  by rewrite List.filter_app.
Qed.

(** *** DATA chunks in order *)

(** An established receiver that expects [tsn] next and holds nothing ahead of it. *)
Definition expects (vtag tsn : Z) (a : SctpAssociation) : Prop :=
  state a = SCTP_ASSOC_ESTABLISHED /\ myVerificationTag a = vtag /\
  peerCumulativeTsnValid a = true /\ tsn = peerCumulativeTsn a +32 1 /\ receivedTsnCount a = 0.

Definition data_value (tsn sid ssn ppid : Z) (fr : list Z) : list Z :=
  be32 tsn ++ be16 sid ++ be16 ssn ++ be32 ppid ++ fr.

(** In-order tracking on an empty list moves the cumulative TSN by one. *)
Lemma trackTsn_inorder vtag tsn w :
  Inv (assoc w) -> is_u32 tsn -> expects vtag tsn (assoc w) ->
  wp (trackTsn tsn) (fun fresh w' => fresh = true /\ Inv (assoc w') /\ events w' = events w /\
    expects vtag (tsn +32 1) (assoc w') /\ sendSide (assoc w') = sendSide (assoc w)) w.
Proof.
  intros HI Ht (Hst & Htag & Hv & Htsn & Hc).
  eapply wp_mono; [by apply trackTsn_wp|]. intros fresh w' (HI' & He & Hs & Hv' & Htr).
  unfold tracked in Htr. rewrite Hv, <- Htsn, Z.eqb_refl in Htr. destruct Htr as [-> (k & Ek & HP & _)].
  rewrite Hc in HP. change (live (receivedTsns (assoc w)) 0) with (@nil Z) in HP.
  apply Permutation_nil in HP. apply app_eq_nil in HP as [Hf Hl].
  assert (k = 0%nat) as -> by (destruct k; [done|discriminate Hf]).
  rewrite Z.add_0_r, u32_id in Ek by done.
  assert (Hc' : receivedTsnCount (assoc w') = 0).
  { pose proof (inv_recv _ HI') as (Hlen & _ & Hr). unfold SCTP_MAX_RECEIVED in *.
    apply (f_equal length) in Hl. unfold live in Hl. rewrite length_take in Hl. cbn in Hl. lia. }
  split_and!; try done; unfold sendSide in Hs; injection Hs as _ _ _ _ Emt _ Est _ _ _ _ _ _.
  unfold expects. rewrite Est, Emt, Ek. done.
Qed.

Lemma handle_data_one src dst vtag flags tsn sid ssn ppid fr pad w (R : World -> Prop) :
  let pkt := sctp_packet src dst vtag (data_chunk flags tsn sid ssn ppid fr ++ pad) in
  hasMsg = true -> bytes_ok fr -> bytes_ok pad -> is_u8 flags -> blen fr <= 1172 ->
  blen pad = SCTP_PAD4 (16 + blen fr) - (16 + blen fr) ->
  is_u32 vtag -> is_u32 tsn -> is_u16 sid -> is_u16 ssn -> is_u32 ppid ->
  Inv (assoc w) -> expects vtag tsn (assoc w) ->
  (forall w1 p, Inv (assoc w1) -> events w1 = events w -> expects vtag (tsn +32 1) (assoc w1) ->
     sendSide (assoc w1) = sendSide (assoc w) -> payload_at p (blen fr) fr ->
     wp (deliverData memalloc flags sid ssn ppid p (blen fr)) (fun _ => R) w1) ->
  wp (sctpAssocHandlePacket h gettime memalloc hasMsg (Some pkt) (blen pkt)) (fun st w' =>
    st = STATUS_SUCCESS /\ Inv (assoc w') /\ exists w2, R w2 /\ rview (assoc w') = rview (assoc w2) /\
      messages w' = messages w2 /\
      (forall acc, reassembling sid ppid acc (assoc w2) -> reassembling sid ppid acc (assoc w'))) w.
Proof.
  intros pkt Hm Hfr Hpad Hfl Hl Hpl Hvt Ht Hsid Hssn Hpp HI Hex HR. pose proof (blen_nonneg fr).
  set (value := data_value tsn sid ssn ppid fr).
  assert (Hvl : blen value = 12 + blen fr) by (unfold value, data_value; autorewrite with blen; lia).
  assert (Epkt : pkt = sctp_packet src dst vtag (chunk_hdr SCTP_CHUNK_DATA flags (4 + blen value) ++ value ++ pad)).
  { unfold pkt, data_chunk. rewrite Hvl. replace (4 + (12 + blen fr)) with (16 + blen fr) by lia.
    unfold value, data_value. by rewrite <- !(assoc_L (++)). }
  assert (Hvb : bytes_ok value).
  { unfold value, data_value. rewrite !bytes_ok_app. auto using be16_ok, be32_ok. }
  clearbody pkt. subst pkt. apply handle_one; [exact Hvb|exact Hpad|split; done|exact Hfl|lia| |exact Hvt| |].
  { rewrite Hvl, Hpl. by replace (4 + (12 + blen fr)) with (16 + blen fr) by lia. }
  { right. right. symmetry. apply Hex. }
  set (pkt := sctp_packet _ _ _ _). clearbody pkt. intros Hpk Hval Hin. change (sctpChunkDispatch h gettime memalloc hasMsg SCTP_CHUNK_DATA flags
    (Ptr pkt 16) (blen value)) with (sctpHandleData memalloc hasMsg flags (Ptr pkt 16) (blen value)).
  unfold sctpHandleData, setA. rewrite (proj2 (Z.ltb_ge _ _)) by lia. apply wp_bind, wp_gets.
  pose proof Hex as (Hst & _). rewrite Hst. change (negb (state_eqb _ _)) with false. cbv match.
  destruct (value_split _ _ Hval) as (pre & post & Ep & Hpre). rewrite <- Hpre in *.
  assert (E0 : rd32 pkt (blen pre + 0) = Ok tsn).
  { rewrite Ep. unfold value, data_value. rewrite <- !(assoc_L (++)), Z.add_0_r, rd32_app by done. by rewrite u32_id. }
  assert (E4 : rd16 pkt (blen pre + 4) = Ok sid).
  { rewrite Ep. unfold value, data_value. rewrite <- !(assoc_L (++)), (assoc_L (++) pre), rd16_app by blen_lia. by rewrite u16_id. }
  assert (E6 : rd16 pkt (blen pre + 6) = Ok ssn).
  { rewrite Ep. unfold value, data_value. rewrite <- !(assoc_L (++)), (assoc_L (++) pre), (assoc_L (++) (pre ++ _)), rd16_app by blen_lia.
    by rewrite u16_id. }
  assert (E8 : rd32 pkt (blen pre + 8) = Ok ppid).
  { rewrite Ep. unfold value, data_value.
    rewrite <- !(assoc_L (++)), (assoc_L (++) pre), (assoc_L (++) (pre ++ _)), (assoc_L (++) ((pre ++ _) ++ _)), rd32_app by blen_lia.
    by rewrite u32_id. }
  assert (Ef : pld_bytes (padd (Ptr pkt (blen pre)) 12) (blen value - 12) = Ok fr).
  { unfold pld_bytes. cbn [padd p_obj p_off]. rewrite Ep. unfold value, data_value at 1.
    rewrite !(assoc_L (++)). rewrite <- (assoc_L (++) _ fr). apply ld_bytes_app; [blen_lia|].
    fold value. lia. }
  apply wp_bind, (be32At_wp pkt Hpk _ _ Hin); [lia|lia|]. intros x Ex _. rewrite E0 in Ex. injection Ex as <-.
  apply wp_bind, (be16At_wp pkt Hpk _ _ Hin); [lia|lia|]. intros x Ex _. rewrite E4 in Ex. injection Ex as <-.
  apply wp_bind, (be16At_wp pkt Hpk _ _ Hin); [lia|lia|]. intros x Ex _. rewrite E6 in Ex. injection Ex as <-.
  apply wp_bind, (be32At_wp pkt Hpk _ _ Hin); [lia|lia|]. intros x Ex _. rewrite E8 in Ex. injection Ex as <-.
  apply wp_bind. eapply wp_mono; [by apply (trackTsn_inorder vtag)|].
  intros fresh w1 (-> & HI1 & Ee1 & Hex1 & Hs1). apply wp_bind, wp_modify, wp_bind. rewrite Hm. unfold when.
  set (w1' := w1 <| assoc := _ |>). assert (HI1' : Inv (assoc w1')) by inv_update.
  assert (Hpay : payload_at (padd (Ptr pkt (blen pre)) 12) (blen value - 12) fr) by (split_and!; [done|done|lia]).
  pose proof (deliverData_wp memalloc Hmem flags sid ssn ppid _ _ _ w1' HI1' Hpay ltac:(lia)) as Hsafe.
  replace (blen value - 12) with (blen fr) in * by lia.
  eapply wp_mono; [apply wp_conj; [exact Hsafe|apply (HR w1'); done]|].
  intros ? w2 [HI2 HR2]. cbv beta in HI2. apply wp_bind, sctpSendSack_wp; [done| |].
  - intros _. apply wp_ret. split; [done|]. split; [done|]. exists w2. split_and!; done.
  - intros out _ Hout. apply wp_ret. split; [done|]. split; [by inv_update|].
    exists w2. split_and!; try done. unfold messages.
    change (List.filter isMessage (events w2 ++ [EvPacket (sackPacket (assoc w2))]) = List.filter isMessage (events w2)).
    rewrite List.filter_app. apply app_nil_r.
Qed.

(** *** A fragmented message *)

Lemma fragFlags_bits f l u :
  is_u8 (fragFlagsOf f l u) /\
  (Z.land (fragFlagsOf f l u) SCTP_DATA_FLAG_BEGIN = 0 <-> f = false) /\
  negb (Z.land (fragFlagsOf f l u) SCTP_DATA_FLAG_END =? 0) = l.
Proof. destruct f, l, u; vm_compute; repeat split; intros; try done; congruence. Qed.

Definition fragment_ok (fr : list Z) : Prop := bytes_ok fr /\ 0 <= blen fr <= 1172.

Lemma expects_rview vtag tsn a a' : rview a' = rview a -> expects vtag tsn a -> expects vtag tsn a'.
Proof.
  intros Hr. unfold rview in Hr. injection Hr as E1 E2 E3 E4 E5 E6 E7 E8 _. unfold expects.
  rewrite E1, E4, E6, E7, E8. done.
Qed.

Context (src dst vtag sid ssn ppid : Z) (un : bool).
Hypothesis Hmsg : hasMsg = true.
Hypothesis Hvt : is_u32 vtag.
Hypothesis Hsid : is_u16 sid.
Hypothesis Hssn : is_u16 ssn.
Hypothesis Hppid : is_u32 ppid.

Hypothesis Halloc : forall k, is_Some (memalloc k SCTP_MAX_REASSEMBLY_SIZE).

(** A receiver that expects [tsn], with its T1 timer at [t1], in the middle of a message
    when [part] is its beginning. *)
Definition receiving (t1 tsn : Z) (part : option (list Z)) (a : SctpAssociation) : Prop :=
  Inv a /\ expects vtag tsn a /\ t1InitExpiry a = t1 /\
  match part with Some acc => reassembling sid ppid acc a | None => True end.

(** The next fragment [fr] of a message, which follows [acc], extends or ends it. *)
Lemma handle_fragment t1 (first last : bool) acc tsn fr pad w :
  let pk := sctp_packet src dst vtag (data_chunk (fragFlagsOf first last un) tsn sid ssn ppid fr ++ pad) in
  bytes_ok pad -> blen pad = SCTP_PAD4 (16 + blen fr) - (16 + blen fr) -> fragment_ok fr ->
  (first = true -> acc = []) -> blen acc + blen fr <= SCTP_MAX_REASSEMBLY_SIZE -> is_u32 tsn ->
  receiving t1 tsn (if first then None else Some acc) (assoc w) ->
  wp (sctpAssocHandlePacket h gettime memalloc hasMsg (Some pk) (blen pk)) (fun st w' => st = STATUS_SUCCESS /\
    receiving t1 (tsn +32 1) (if last then None else Some (acc ++ fr)) (assoc w') /\
    messages w' = messages w ++ (if last then [EvMessage sid ppid (acc ++ fr)] else [])) w.
Proof.
  intros pk Hpb Hpl [Hfb Hfl] Hacc Htot Ht (HI & Hex & Ht1 & Hre).
  destruct (fragFlags_bits first last un) as (Hf8 & Hfbeg & Hfend). unfold pk. set (flags := fragFlagsOf _ _ _) in *.
  eapply wp_mono.
  { apply (handle_data_one _ _ _ _ _ _ _ _ fr pad w
             (fun w2 => exists w1, expects vtag (tsn +32 1) (assoc w1) /\ t1InitExpiry (assoc w1) = t1 /\
                messages w1 = messages w /\
                delivered first last sid ppid acc fr w1 w2)); try done; [lia|].
    intros w1 p HI1 Ee1 Hex1 Hs1 Hp.
    assert (Hd : wp (deliverData memalloc flags sid ssn ppid p (blen fr)) (fun _ => delivered first last sid ppid acc fr w1) w1).
    { destruct first.
      - specialize (Hacc eq_refl). subst acc. assert (Hb : Z.land flags SCTP_DATA_FLAG_BEGIN <> 0) by (intros E; by apply Hfbeg in E).
        rewrite blen_nil in Htot. destruct last.
        + apply deliverData_whole; try done. by apply negb_true_iff, Z.eqb_neq in Hfend.
        + apply deliverData_begin; try done; [by apply negb_false_iff, Z.eqb_eq in Hfend|]. right. apply Halloc.
      - pose proof (deliverData_more flags sid ssn sid ppid ppid p fr acc w1) as Hd. rewrite Hfend in Hd.
        apply Hd; [by apply Hfbeg|done|lia|done|].
        unfold sendSide in Hs1. injection Hs1 as _ _ _ _ _ _ _ E1 E2 E3 E4 E5 _.
        unfold reassembling. rewrite E1, E2, E3, E4, E5. exact Hre. }
    eapply wp_mono; [exact Hd|]. intros ? w2 Hd'. exists w1. split; [done|].
    split; [by injection Hs1 as _ _ _ _ _ _ _ _ _ _ _ _ ->|]. split; [unfold messages; by rewrite Ee1|done]. }
  intros st w' (-> & HI' & w2 & (w1 & Hex1 & Ht11 & Hm1 & Hrv2 & Hd) & Hrv & Hmw & Hre').
  rewrite Hrv2 in Hrv. assert (Ht1' : t1InitExpiry (assoc w') = t1) by (by injection Hrv as _ _ _ _ _ _ _ _ ->).
  assert (Hex' : expects vtag (tsn +32 1) (assoc w')) by (by eapply expects_rview; [|exact Hex1]).
  replace (if first then fr else acc ++ fr) with (acc ++ fr) in Hd by (destruct first; [by rewrite Hacc|done]).
  split; [done|]. destruct last.
  - split; [done|]. by rewrite Hmw, Hd, Hm1.
  - destruct Hd as [Hre2 Hev2]. split; [split_and!; try done; by apply Hre'|].
    rewrite app_nil_r, Hmw. unfold messages in *. by rewrite Hev2, Hm1.
Qed.
End Receive.

(** Packets handed to a receiver one after the other. *)
Section Feed.
Context {W : Type} (handle : list Z -> ST W STATUS).

Fixpoint feed (pks : list (list Z)) : ST W STATUS :=
  match pks with
  | [] => mret STATUS_SUCCESS
  | pk :: pks => handle pk;; feed pks
  end.

Context (src dst vtag sid ssn ppid : Z) (un : bool).
(** [R tsn part msgs w]: the receiver expects [tsn], is in the middle of a message when
    [part] is its beginning, and has delivered the messages [msgs]. *)
Context (R : Z -> option (list Z) -> list Event -> W -> Prop).
Hypothesis Hstep : forall (first last : bool) acc tsn fr pad msgs w,
  bytes_ok pad -> blen pad = SCTP_PAD4 (16 + blen fr) - (16 + blen fr) -> fragment_ok fr ->
  (first = true -> acc = []) -> blen acc + blen fr <= SCTP_MAX_REASSEMBLY_SIZE -> is_u32 tsn ->
  R tsn (if first then None else Some acc) msgs w ->
  wp (handle (sctp_packet src dst vtag (data_chunk (fragFlagsOf first last un) tsn sid ssn ppid fr ++ pad)))
    (fun st w' => st = STATUS_SUCCESS /\ R (tsn +32 1) (if last then None else Some (acc ++ fr))
       (msgs ++ (if last then [EvMessage sid ppid (acc ++ fr)] else [])) w') w.

(** The packets of the rest of a message deliver exactly that message. *)
Lemma feed_message (first : bool) acc tsn frs pks msgs w :
  frag_packets src dst vtag sid ssn ppid un first true tsn frs pks -> frs <> [] ->
  Forall fragment_ok frs -> (first = true -> acc = []) ->
  blen acc + blen (concat frs) <= SCTP_MAX_REASSEMBLY_SIZE -> is_u32 tsn ->
  R tsn (if first then None else Some acc) msgs w ->
  wp (feed pks) (fun st w' => st = STATUS_SUCCESS /\
    R (u32 (tsn + Z.of_nat (length frs))) None (msgs ++ [EvMessage sid ppid (acc ++ concat frs)]) w') w.
Proof.
  revert first acc tsn pks msgs w. induction frs as [|fr frs IH]; intros first acc tsn pks msgs w Hpk Hne Hok Hacc Htot Ht HR; [done|].
  destruct pks as [|pk pks]; [done|]. cbn [frag_packets] in Hpk. destruct Hpk as [(pad & Hpb & Hpl & ->) Hpk].
  apply Forall_cons_1 in Hok as [Hfr Hok]. cbn [concat] in *. rewrite blen_app in Htot.
  pose proof (blen_nonneg (concat frs)) as Hcn. cbn [feed andb]. apply wp_bind.
  eapply wp_mono; [eapply (Hstep first (bool_decide (frs = [])) acc); try done; lia|]. intros st w' [-> HR'].
  destruct frs as [|fr' frs'].
  - destruct pks; [|done]. rewrite bool_decide_true in HR' by done. apply wp_ret. cbn [concat length]. by rewrite app_nil_r.
  - rewrite bool_decide_false in HR' by done. rewrite app_nil_r in HR'.
    eapply wp_mono; [apply (IH false (acc ++ fr) (tsn +32 1) pks msgs); try done; [rewrite blen_app; lia|apply u32_range]|].
    intros st w3 (-> & HR3). split; [done|]. rewrite <- (assoc_L (++)) in HR3.
    replace (u32 (tsn + _)) with (u32 (tsn +32 1 + Z.of_nat (length (fr' :: frs')))); [done|].
    unfold u32. rewrite Zplus_mod_idemp_l. f_equal. cbn [length]. lia.
Qed.
End Feed.

(** The packets handed to the association one after the other. *)
Definition handleAll (h : endian) (gettime : nat -> Z) (memalloc : nat -> Z -> option (list Z)) (hasMsg : bool)
    : list (list Z) -> ST World STATUS :=
  feed (fun pk => sctpAssocHandlePacket h gettime memalloc hasMsg (Some pk) (blen pk)).

Lemma handle_message h gettime memalloc src dst vtag sid ssn ppid un tsn frs pks w :
  alloc_ok memalloc -> (forall k, is_Some (memalloc k SCTP_MAX_REASSEMBLY_SIZE)) ->
  is_u32 vtag -> is_u16 sid -> is_u16 ssn -> is_u32 ppid ->
  frag_packets src dst vtag sid ssn ppid un true true tsn frs pks -> frs <> [] ->
  Forall fragment_ok frs -> blen (concat frs) <= SCTP_MAX_REASSEMBLY_SIZE ->
  is_u32 tsn -> Inv (assoc w) -> expects vtag tsn (assoc w) ->
  wp (handleAll h gettime memalloc true pks) (fun st w' => st = STATUS_SUCCESS /\
    messages w' = messages w ++ [EvMessage sid ppid (concat frs)]) w.
Proof.
  intros Hmem Halloc Hvt Hsid Hssn Hppid Hpk Hne Hok Htot Ht HI Hex. set (w0 := w).
  eapply wp_mono; [eapply (feed_message _ src dst vtag sid ssn ppid un
    (fun tsn part msgs w => receiving vtag sid ppid (t1InitExpiry (assoc w0)) tsn part (assoc w) /\ messages w = msgs)) with (first := true) (acc := []); try done|].
  - intros first last acc tsn' fr pad msgs w' Hpb Hpl Hf Hacc Htot' Ht' [HR <-].
    eapply wp_mono; [by eapply handle_fragment|]. by intros st w'' (-> & HR' & ->).
  - by intros st w' (-> & _ & ->).
Qed.

(** ** Sending a message *)

(** An established association whose congestion and receiver windows are open and
    whose outstanding table has room. *)
Definition can_send (a : SctpAssociation) : Prop :=
  state a = SCTP_ASSOC_ESTABLISHED /\ flightSize a < cwnd a /\ flightSize a < peerArwnd a /\
  used o_inUse (outstanding a) < SCTP_MAX_OUTSTANDING.

Lemma startT3_frame now w (Q : unit -> World -> Prop) :
  (forall w', events w' = events w -> outstanding (assoc w') = outstanding (assoc w) -> Q tt w') ->
  wp (startT3 now) Q w.
Proof.
  intros HQ. unfold startT3, setA. apply wp_modify, HQ; [done|]. cbn [assoc].
  destruct (t3RtxExpiry (assoc w) =? 0) eqn:E; done.
Qed.

Lemma sctpAssocSend_emits gettime memalloc sid ppid un p n bs mr lt w :
  alloc_ok memalloc -> Inv (assoc w) -> payload_at p n bs -> 0 <= sid -> can_send (assoc w) ->
  wp (sctpAssocSend gettime memalloc sid ppid un p n mr lt) (fun st w' => st = STATUS_SUCCESS /\
    (n <= mtu (assoc w) - 28 \/ used o_inUse (outstanding (assoc w')) < SCTP_MAX_OUTSTANDING ->
     exists ssn frs pks, is_u16 ssn /\ frs <> [] /\ bs = concat frs /\
       Forall (fun fr => 0 <= blen fr <= mtu (assoc w) - 28) frs /\
       frag_packets (localPort (assoc w)) (remotePort (assoc w)) (peerVerificationTag (assoc w))
         sid ssn ppid un true true (nextTsn (assoc w)) frs pks /\
       events w' = events w ++ map EvPacket pks /\ (n <= mtu (assoc w) - 28 -> frs = [bs]))) w.
Proof.
  intros Hmem HI Hp Hsid (Hst & Hcw & Har & Hroom). destruct (payload_len _ _ _ Hp) as [En Hn0].
  pose proof (inv_mtu _ HI) as Hm. unfold SCTP_MAX_PACKET_SIZE in Hm.
  unfold sctpAssocSend. apply wp_bind, wp_now. intros now. set (w0 := w <| clock := _ |>).
  assert (HI0 : Inv (assoc w0)) by done. apply wp_bind, wp_gets.
  change (assoc w0) with (assoc w). rewrite Hst. change (negb (state_eqb _ _)) with false. cbv match.
  rewrite !(proj2 (Z.leb_gt _ _)) by lia. cbn [orb].
  apply wp_bind. eapply wp_mono; [by apply takeSsn_wp|]. intros ssn w1 (Hssn & l & Hl & ->).
  set (w1 := w0 <| assoc := _ |>). assert (HI1 : Inv (assoc w1)) by inv_update.
  unfold SCTP_COMMON_HEADER_SIZE, SCTP_DATA_HEADER_SIZE.
  rewrite (u32_id (mtu (assoc w) - 12 - 16)) by (unfold is_u32; lia).
  pose proof (inv_slots _ HI) as (Hsl & _).
  apply wp_if; intros Hfit.
  - apply Z.leb_le in Hfit.
    pose proof (firstFree_range o_inUse (outstanding (assoc w))) as Hfr. rewrite Hsl in Hfr.
    assert (Hi : firstFree o_inUse (outstanding (assoc w)) < SCTP_MAX_OUTSTANDING).
    { destruct (decide (firstFree o_inUse (outstanding (assoc w)) = 2048)) as [E|];
        [|unfold SCTP_MAX_OUTSTANDING in *; lia].
      pose proof (proj1 (firstFree_full o_inUse (outstanding (assoc w)))) as Hff. rewrite Hsl in Hff.
      unfold SCTP_MAX_OUTSTANDING in *. lia. }
    rewrite (proj2 (Z.leb_gt _ _)) by done. unfold takeTsn, setA. wp_steps.
    set (w2 := w1 <| assoc := _ |>). assert (HI2 : Inv (assoc w2)) by by apply Inv_takeTsn.
    apply (fillOutstanding_wp memalloc Hmem _ _ _ _ _ _ _ bs _ _ _ w2); try done;
      [change (n <= mtu (assoc w) - 28); lia|apply HI1|].
    intros copy _ HIf. apply wp_bind.
    apply (sendChunk_wp _ _ _ _ _ _ (inv_wire _ HIf) (writes_data _ _ _ _ _ _ _ _ Hp ltac:(lia))).
    intros out pad Hout Hpb Hpl. apply wp_bind, startT3_frame. intros w' Ee Eo. apply wp_ret.
    split; [done|]. intros _. exists ssn, [bs]. eexists [_]. split; [done|]. split; [done|].
    split; [cbn; by rewrite app_nil_r|]. split; [constructor; [lia|constructor]|].
    split; [|by rewrite Ee]. cbn [frag_packets]. split; [|done].
    exists pad. split; [done|]. split; [rewrite Hpl, blen_data_chunk; by rewrite En|].
    by destruct un.
  - apply wp_bind.
    pose proof (fragmentLoop_wp memalloc Hmem (S (Z.to_nat SCTP_MAX_OUTSTANDING)) sid ssn ppid un p n bs mr lt now
                  (mtu (assoc w) - 12 - 16) 0 true w1 HI1 Hp) as HF.
    rewrite Z.sub_0_r in HF. eapply wp_mono; [apply HF|].
    { change (mtu (assoc w) - 12 - 16 = mtu (assoc w) - 28). lia. }
    { lia. }
    { pose proof (used_bound o_inUse (outstanding (assoc w1))). unfold SCTP_MAX_OUTSTANDING. lia. }
    intros c w2 (_ & frs & pks & rest & Ebs & Hall & Hpk & Hev & Hc). apply wp_bind.
    change (mtu (assoc w1)) with (mtu (assoc w)) in Hall.
    assert (Hgo : forall w', events w' = events w2 -> outstanding (assoc w') = outstanding (assoc w2) ->
      n <= mtu (assoc w) - 28 \/ used o_inUse (outstanding (assoc w')) < SCTP_MAX_OUTSTANDING ->
      exists ssn frs pks, is_u16 ssn /\ frs <> [] /\ bs = concat frs /\
       Forall (fun fr => 0 <= blen fr <= mtu (assoc w) - 28) frs /\
       frag_packets (localPort (assoc w)) (remotePort (assoc w)) (peerVerificationTag (assoc w))
         sid ssn ppid un true true (nextTsn (assoc w)) frs pks /\
       events w' = events w ++ map EvPacket pks /\ (n <= mtu (assoc w) - 28 -> frs = [bs])).
    { intros w' Ee Eo [Hu|Hu]; [apply Z.leb_gt in Hfit; lia|]. rewrite Eo in Hu. destruct c; [subst rest|lia]. rewrite app_nil_r, drop_0 in Ebs.
      exists ssn, frs, pks. split; [done|]. split.
      { intros ->. cbn in Ebs. subst bs. apply Z.leb_gt in Hfit. rewrite blen_nil in En. lia. }
      split; [done|]. split; [eapply Forall_impl; [|exact Hall]; cbn; lia|]. split; [exact Hpk|].
      rewrite Ee, Hev. split; [done|]. apply Z.leb_gt in Hfit. lia. }
    apply wp_when; intros _; [apply startT3_frame; intros w' Ee Eo|]; apply wp_ret; (split; [done|]); [by apply Hgo|by apply Hgo].
Qed.

Lemma fragments_ok bs frs m :
  bytes_ok bs -> bs = concat frs -> Forall (fun fr => 0 <= blen fr <= m) frs -> m <= 1172 ->
  Forall fragment_ok frs.
Proof.
  intros Hb -> Hall Hm. induction Hall as [|fr frs Hf _ IH]; [constructor|]. cbn [concat] in Hb.
  apply bytes_ok_app in Hb as [? ?]. constructor; [split; [done|lia]|auto].
Qed.

(** C1. A message of up to 64 KiB sent on an established association with open congestion
    and receive windows and a free slot arrives whole.  It leaves as one DATA chunk when it
    fits into the MTU and else as fragments of at most MTU - 28 bytes, with consecutive TSNs
    and one stream sequence number, the first flagged as the beginning and the last as the
    end ([frag_packets]); a longer message needs the sender's table of outstanding chunks
    not to fill up on the way.  An established peer that expects the sender's next TSN, has
    received nothing ahead of it and gets memory for its reassembly buffer, and that
    receives these packets in order, delivers exactly one message, with the same stream,
    protocol identifier and bytes. *)
Theorem message_transfer h gettimeS memallocS gettimeR memallocR wS wR sid ppid un bs mr lt
  (HmS : alloc_ok memallocS) (HmR : alloc_ok memallocR)
  (HaR : forall k, is_Some (memallocR k SCTP_MAX_REASSEMBLY_SIZE))
  (HIS : Inv (assoc wS)) (HIR : Inv (assoc wR)) (Hcan : can_send (assoc wS))
  (Hbs : bytes_ok bs) (Hlen : blen bs <= SCTP_MAX_REASSEMBLY_SIZE)
  (Hsid : is_u16 sid) (Hppid : is_u32 ppid) (Hvt : is_u32 (peerVerificationTag (assoc wS)))
  (Hex : expects (peerVerificationTag (assoc wS)) (nextTsn (assoc wS)) (assoc wR)) :
  exists wS', sctpAssocSend gettimeS memallocS sid ppid un (Ptr bs 0) (blen bs) mr lt wS
              = Some (STATUS_SUCCESS, wS') /\
    (blen bs <= mtu (assoc wS) - 28 \/ used o_inUse (outstanding (assoc wS')) < SCTP_MAX_OUTSTANDING ->
     exists ssn frs pks wR', events wS' = events wS ++ map EvPacket pks /\
       bs = concat frs /\ Forall (fun fr => 0 <= blen fr <= mtu (assoc wS) - 28) frs /\
       (blen bs <= mtu (assoc wS) - 28 -> frs = [bs]) /\
       frag_packets (localPort (assoc wS)) (remotePort (assoc wS)) (peerVerificationTag (assoc wS))
         sid ssn ppid un true true (nextTsn (assoc wS)) frs pks /\
       handleAll h gettimeR memallocR true pks wR = Some (STATUS_SUCCESS, wR') /\
       messages wR' = messages wR ++ [EvMessage sid ppid bs]).
Proof.
  unfold SCTP_MAX_REASSEMBLY_SIZE in Hlen.
  assert (Hp : payload_at (Ptr bs 0) (blen bs) bs) by (split_and!; [by apply pld_bytes_whole|done|lia]).
  pose proof (sctpAssocSend_emits gettimeS memallocS sid ppid un _ _ _ mr lt wS HmS HIS Hp (proj1 Hsid) Hcan) as Hs.
  apply wp_run in Hs as (st & wS' & Es & -> & Hs). exists wS'. split; [done|]. intros Hroom.
  destruct (Hs Hroom) as (ssn & frs & pks & Hssn & Hne & Ebs & Hall & Hpk & Hev & Hone).
  pose proof (inv_mtu _ HIS) as Hm. unfold SCTP_MAX_PACKET_SIZE in Hm.
  assert (Hfr : Forall fragment_ok frs) by (apply (fragments_ok bs frs (mtu (assoc wS) - 28)); [done..|lia]).
  assert (Hr : wp (handleAll h gettimeR memallocR true pks) (fun st w' => st = STATUS_SUCCESS /\
    messages w' = messages wR ++ [EvMessage sid ppid (concat frs)]) wR).
  { eapply handle_message; try done; [by rewrite <- Ebs|apply HIS]. }
  apply wp_run in Hr as (st & wR' & Er & -> & Hmsgs). rewrite <- Ebs in Hmsgs. by exists ssn, frs, pks, wR'.
Qed.

(** ** Instances *)

(** An established sender (tag 7, peer's tag 9) and its peer. *)
Definition ex_sender : SctpAssociation :=
  (initAssoc 5000 5000 1150 7 0) <| state := SCTP_ASSOC_ESTABLISHED |> <| peerVerificationTag := 9 |>.
Definition ex_receiver : SctpAssociation :=
  (initAssoc 5000 5000 1150 9 0) <| state := SCTP_ASSOC_ESTABLISHED |> <| peerVerificationTag := 7 |>
    <| peerCumulativeTsn := 6 |> <| peerCumulativeTsnValid := true |>.
Definition world_of (a : SctpAssociation) : World :=
  {| assoc := a; clock := 0; allocs := 0; events := [] |}.

Lemma ex_mtu : 28 < 1150 <= SCTP_MAX_PACKET_SIZE.
Proof. unfold SCTP_MAX_PACKET_SIZE. lia. Qed.
Lemma ex_sender_ok : Inv ex_sender.
Proof. pose proof (Inv_init 5000 5000 1150 7 0 ex_mtu ltac:(split; lia)). inv_update. Qed.
Lemma ex_receiver_ok : Inv ex_receiver.
Proof.
  pose proof (Inv_init 5000 5000 1150 9 0 ex_mtu ltac:(split; lia)). inv_update.
  split; [vm_compute; intuition congruence|]. split; vm_compute; intuition congruence.
Qed.

Lemma message_transfer_witness :
  exists wS', sctpAssocSend ex_gettime ex_memalloc 1 51 false (Ptr (replicate 3000 65) 0) 3000 65535 0
                (world_of ex_sender) = Some (STATUS_SUCCESS, wS') /\
    exists ssn frs pks wR', events wS' = map EvPacket pks /\ replicate 3000 65 = concat frs /\
      frag_packets 5000 5000 9 1 ssn 51 false true true 7 frs pks /\
      handleAll LittleEndian ex_gettime ex_memalloc true pks (world_of ex_receiver)
      = Some (STATUS_SUCCESS, wR') /\ messages wR' = [EvMessage 1 51 (replicate 3000 65)].
Proof.
  assert (Ha : forall k, is_Some (ex_memalloc k SCTP_MAX_REASSEMBLY_SIZE)) by (intros k; by eexists).
  assert (Hc : can_send (assoc (world_of ex_sender))) by (split_and!; vm_compute; reflexivity).
  assert (Hb : bytes_ok (replicate 3000 65)) by (apply Forall_replicate; split; lia).
  assert (Hl : blen (replicate 3000 65) <= SCTP_MAX_REASSEMBLY_SIZE) by (vm_compute; discriminate).
  assert (H1 : is_u16 1) by (split; lia). assert (H51 : is_u32 51) by (split; lia).
  assert (H9 : is_u32 (peerVerificationTag (assoc (world_of ex_sender)))) by (split; vm_compute; congruence).
  assert (He : expects (peerVerificationTag (assoc (world_of ex_sender))) (nextTsn (assoc (world_of ex_sender)))
                 (assoc (world_of ex_receiver))) by (split_and!; reflexivity).
  destruct (message_transfer LittleEndian ex_gettime ex_memalloc ex_gettime ex_memalloc (world_of ex_sender)
    (world_of ex_receiver) 1 51 false (replicate 3000 65) 65535 0 ex_memalloc_ok ex_memalloc_ok
    Ha ex_sender_ok ex_receiver_ok Hc Hb Hl H1 H51 H9 He) as (wS' & E & H).
  assert (Hu : used o_inUse (outstanding (assoc wS')) = 3).
  { apply (f_equal (fmap (fun r => used o_inUse (outstanding (assoc r.2))))) in E. vm_compute in E. by injection E. }
  exists wS'. split; [exact E|].
  destruct H as (ssn & frs & pks & wR' & E1 & E2 & _ & _ & E3 & E4 & E5); [right; by rewrite Hu|].
  exists ssn, frs, pks, wR'. by split_and!.
Defined.

Lemma trackTsn_window_witness :
  wp (trackTsn 9) (fun fresh w' =>
    fresh = bool_decide (ahead 6 9) /\ window_ok (peerCumulativeTsn (assoc w')) (liveTsns (assoc w')) /\
    (received 6 (peerCumulativeTsn (assoc w')) (liveTsns (assoc w')) 9)) (world_of ex_receiver).
Proof.
  assert (Hu : is_u32 9) by (split; lia).
  assert (Ha : ahead 6 9) by (split; [exact Hu|by vm_compute]).
  assert (Hc : 0 < SCTP_MAX_RECEIVED) by reflexivity.
  assert (Hw0 : window_ok (windowBase 9 (assoc (world_of ex_receiver))) (liveTsns (assoc (world_of ex_receiver))))
    by (split; [apply base.NoDup_nil_2|constructor]).
  pose proof (trackTsn_window (world_of ex_receiver) 9 ex_receiver_ok Hu Hw0) as H. cbv zeta in H.
  apply (wp_mono _ _ _ _ H).
  intros fresh w' (E & Hw & Hr). split; [exact E|]. split; [exact Hw|].
  exact (proj2 (Hr (or_intror Hc) 9 Ha) (or_introl (conj (eq_trans E (bool_decide_eq_true_2 _ Ha)) eq_refl))).
Defined.

(** TSNs 9 and 10 received ahead of 7. *)
Definition ex_gap : SctpAssociation :=
  ex_receiver <| receivedTsns := 9 :: 10 :: replicate 2046 0 |> <| receivedTsnCount := 2 |>.

Lemma ex_gap_ok : Inv ex_gap.
Proof.
  pose proof ex_receiver_ok. inv_update. split; [reflexivity|].
  split; [|vm_compute; intuition congruence]. do 2 (apply Forall_cons_2; [split; lia|]).
  apply Forall_replicate. split; lia.
Qed.

Lemma sctpSendSack_reports_witness :
  wp sctpSendSack (fun _ w' => exists gaps,
    events w' = [EvPacket (sctp_packet 5000 5000 7 (sack_chunk 6 SCTP_DEFAULT_ARWND gaps))] /\
    (Z.of_nat (length gaps) < SCTP_MAX_GAP_BLOCKS -> covers gaps 3)) (world_of ex_gap).
Proof.
  assert (Hw : window_ok (peerCumulativeTsn (assoc (world_of ex_gap))) (liveTsns (assoc (world_of ex_gap)))).
  { change (liveTsns (assoc (world_of ex_gap))) with [9; 10]. split.
    + apply base.NoDup_cons_2; [by rewrite list_elem_of_singleton|].
      apply base.NoDup_cons_2; [apply not_elem_of_nil|apply base.NoDup_nil_2].
    + repeat (apply Forall_cons_2; [split; [split; lia|vm_compute; intuition congruence]|]). constructor. }
  assert (H16 : Forall (fun t => off (peerCumulativeTsn (assoc (world_of ex_gap))) t < 2 ^ 16)
                  (liveTsns (assoc (world_of ex_gap)))).
  { change (liveTsns (assoc (world_of ex_gap))) with [9; 10].
    repeat (apply Forall_cons_2; [vm_compute; reflexivity|]). constructor. }
  pose proof (sctpSendSack_reports (world_of ex_gap) ex_gap_ok eq_refl Hw H16) as H. cbv zeta in H.
  apply (wp_mono _ _ _ _ H).
  intros ? w' (gaps & Ee & _ & _ & _ & Hc). exists gaps. split; [exact Ee|].
    intros Hl. apply (Hc Hl 9). change (liveTsns (assoc (world_of ex_gap))) with [9; 10]. apply elem_of_cons. by left.
Defined.

(** A sender with one chunk of three bytes in flight. *)
Definition ex_inflight : World :=
  filled (world_of ex_sender) 0 (newSlot 7 1 0 51 false (Some [1; 2; 3]) 3 65535 0 5).

Lemma ex_inflight_ok : Inv (assoc ex_inflight).
Proof.
  apply Inv_filled; [apply ex_sender_ok|reflexivity|reflexivity| |reflexivity].
  apply (slot_newSlot _ _ _ _ _ _ _ [1; 2; 3]); [split; lia|by apply bytes_ok_check|by right|].
  vm_compute. discriminate.
Qed.

Lemma sctpHandleSack_acks_witness :
  wp (sctpHandleSack ex_gettime ex_memalloc
        (Ptr (replicate 16 0 ++ sack_value 7 100000 [] ++ []) (blen (replicate 16 0)))
        (blen (sack_value 7 100000 [])))
     (fun st w' => st = STATUS_SUCCESS /\ flightSize (assoc w') = 0 /\ cwnd (assoc w') = 3453) ex_inflight.
Proof.
  assert (H0 : bytes_ok (replicate 16 0)) by by apply bytes_ok_check.
  assert (H16 : 16 <= blen (replicate 16 0)) by (vm_compute; discriminate).
  assert (H7 : is_u32 7) by (split; lia). assert (Ha : is_u32 100000) by (split; lia).
  assert (Hl : blen (sack_value 7 100000 []) < 2 ^ 16) by (vm_compute; reflexivity).
  pose proof (sctpHandleSack_acks ex_gettime ex_memalloc (replicate 16 0) 7 100000 [] [] ex_inflight
             ex_memalloc_ok H0 (Forall_nil _) H16 H7 Ha (Forall_nil _) Hl ex_inflight_ok eq_refl) as H.
  cbv zeta in H. apply (wp_mono _ _ _ _ H).
  intros st w' (Est & _ & _ & Ef & _ & _ & Ec). split; [exact Est|].
  split; [etrans; [exact Ef|vm_compute; reflexivity]|etrans; [exact Ec|vm_compute; reflexivity]].
Defined.
