(* ===== verification/SctpHandshake.v ===== *)
(** * The SCTP handshake between two endpoints

    createSctpSession initialises an association and sends INIT at once, on both
    peers: every handshake of the program is a simultaneous open.  Two endpoints are
    composed over channels that keep the order of packets; a step delivers the next
    packet of one of the channels.  Whatever the interleaving, the handshake ends with
    both associations established and ready for each other's data. *)

From stdpp Require Import relations.
From S2P Require Import Prelude Endian Crc32c SctpPacket SctpAssoc SctpWindow SctpInvariant SctpTransfer.

(** ** Endpoints and channels *)

(** The environment of an endpoint: host byte order, clock and allocator. *)
Record Endpoint : Type := {
  ep_host : endian;
  ep_gettime : nat -> Z;
  ep_memalloc : nat -> Z -> option (list Z);
}.

(** createSctpSession: initialise, then connect. *)
Definition openAssoc (e : Endpoint) (lport rport mtu_ : Z) : ST World STATUS :=
  sctpAssocInit (ep_gettime e) lport rport mtu_;;
  sctpAssocConnect (ep_gettime e).

Definition receive (e : Endpoint) (pkt : list Z) : ST World STATUS :=
  sctpAssocHandlePacket (ep_host e) (ep_gettime e) (ep_memalloc e) true (Some pkt) (blen pkt).

(** The packets an endpoint has sent so far, oldest first. *)
Definition outbox (w : World) : list (list Z) :=
  omap (fun e => match e with EvPacket p => Some p | EvMessage _ _ _ => None end) (events w).

(** Two endpoints and the number of packets each has received from the other. *)
Record Net : Type := { endA : World; endB : World; gotA : nat; gotB : nat }.

Section Channels.
Context (eA eB : Endpoint).

(** The next packet of a channel reaches its destination. *)
Inductive net_step : Net -> Net -> Prop :=
| step_A n p w' :
    outbox (endB n) !! gotA n = Some p -> receive eA p (endA n) = Some (STATUS_SUCCESS, w') ->
    net_step n {| endA := w'; endB := endB n; gotA := S (gotA n); gotB := gotB n |}
| step_B n p w' :
    outbox (endA n) !! gotB n = Some p -> receive eB p (endB n) = Some (STATUS_SUCCESS, w') ->
    net_step n {| endA := endA n; endB := w'; gotA := gotA n; gotB := S (gotB n) |}.
End Channels.

(** [a] is established, knows [b]'s verification tag, and can send a message whose
    first TSN is the one [b] expects. *)
Definition ready (a b : SctpAssociation) : Prop :=
  Inv a /\ can_send a /\ peerVerificationTag a = myVerificationTag b /\
  expects (peerVerificationTag a) (nextTsn a) b /\ t1InitExpiry a = 0.

(** ** Fields of a chunk value *)

Lemma native32_own_app h a v c o :
  o = blen a -> native32 h (a ++ native_bytes32 h v ++ c) o = Ok (u32 v).
Proof.
  intros ->. unfold native32.
  assert (H : forall k, 0 <= k < 4 -> ld (a ++ native_bytes32 h v ++ c) (blen a + k) = ld (native_bytes32 h v) k).
  { intros k Hk. rewrite ld_app_off by lia. apply ld_app_l. by rewrite (proj2 (native_bytes32_ok h v)). }
  rewrite <- (Z.add_0_r (blen a)) at 1. rewrite !H by lia.
  assert (Hv : u8 v + 2 ^ 8 * u8 (Z.shiftr v 8) + 2 ^ 16 * u8 (Z.shiftr v 16) + 2 ^ 24 * u8 (Z.shiftr v 24) = u32 v).
  { rewrite !Z.shiftr_div_pow2 by lia. width_lia. }
  rewrite <- Hv. unfold native_bytes32.
  generalize (u8 v), (u8 (Z.shiftr v 8)), (u8 (Z.shiftr v 16)), (u8 (Z.shiftr v 24)). intros z z0 z1 z2.
  destruct h; [reflexivity|]. change (Ok (2 ^ 24 * z2 + 2 ^ 16 * z1 + 2 ^ 8 * z0 + z) = Ok (z + 2 ^ 8 * z0 + 2 ^ 16 * z1 + 2 ^ 24 * z2)).
  f_equal. lia.
Qed.

(** The fixed part of INIT and INIT-ACK. *)
Definition init_value (tag arwnd nOut nIn tsn : Z) (params : list Z) : list Z :=
  be32 tag ++ be32 arwnd ++ be16 nOut ++ be16 nIn ++ be32 tsn ++ params.

Lemma blen_init_value tag arwnd nOut nIn tsn params :
  blen (init_value tag arwnd nOut nIn tsn params) = 16 + blen params.
Proof. unfold init_value. autorewrite with blen. lia. Qed.

Lemma init_reads pkt tag arwnd nOut nIn tsn params :
  let value := init_value tag arwnd nOut nIn tsn params in
  pld_bytes (Ptr pkt 16) (blen value) = Ok value -> is_u32 tag -> is_u32 arwnd -> is_u16 nOut ->
  is_u16 nIn -> is_u32 tsn ->
  rd32 pkt (16 + 0) = Ok tag /\ rd32 pkt (16 + 4) = Ok arwnd /\ rd16 pkt (16 + 8) = Ok nOut /\
  rd16 pkt (16 + 10) = Ok nIn /\ rd32 pkt (16 + 12) = Ok tsn.
Proof.
  intros value Hv Ht Ha Ho Hi Hs. destruct (value_split _ _ Hv) as (pre & post & -> & Hp).
  unfold value, init_value. rewrite <- !(assoc_L (++)). split_and!.
  - rewrite rd32_app by lia. by rewrite u32_id.
  - rewrite (assoc_L (++) pre), rd32_app by blen_lia. by rewrite u32_id.
  - do 2 rewrite (assoc_L (++) _ (be32 _)). rewrite rd16_app by blen_lia. by rewrite u16_id.
  - rewrite 2!(assoc_L (++) _ (be32 _)), (assoc_L (++) _ (be16 _)), rd16_app by blen_lia. by rewrite u16_id.
  - rewrite 2!(assoc_L (++) _ (be32 _)), 2!(assoc_L (++) _ (be16 _)), rd32_app by blen_lia. by rewrite u32_id.
Qed.

(** ** The packets of the handshake *)

Section Handshake.
(** The endpoint under consideration, with the environment and the values drawn by
    sctpAssocInit, and its peer's. *)
Context (e : Endpoint) (lport rport m tag tie : Z).
Context (peer : Endpoint) (plport prport ptag ptie : Z).

Definition cookieOf (my your tie : Z) : SctpCookie :=
  {| magic1 := SCTP_COOKIE_MAGIC1; magic2 := SCTP_COOKIE_MAGIC2; peerTag := your; myTag := my;
     peerInitialTsn := your; myInitialTsn := my; ck_peerArwnd := SCTP_DEFAULT_ARWND;
     ck_tieTag := tie; numInStreams := SCTP_MAX_STREAMS; numOutStreams := SCTP_MAX_STREAMS;
     reserved := 0 |}.

(** The four packets an endpoint with tag [tag] sends: INIT, INIT-ACK with its cookie,
    COOKIE-ECHO with the peer's cookie, COOKIE-ACK. *)
Definition script (h ph : endian) (lport rport tag tie ptag ptie : Z) : list (list Z) :=
  [sctp_packet lport rport 0 (init_chunk tag SCTP_DEFAULT_ARWND SCTP_MAX_STREAMS SCTP_MAX_STREAMS tag);
   sctp_packet lport rport ptag
     (init_ack_chunk tag SCTP_DEFAULT_ARWND SCTP_MAX_STREAMS SCTP_MAX_STREAMS tag
        (cookie_bytes h (cookieOf tag ptag tie)));
   sctp_packet lport rport ptag (cookie_echo_chunk (cookie_bytes ph (cookieOf ptag tag ptie)));
   sctp_packet lport rport ptag (chunk_hdr SCTP_CHUNK_COOKIE_ACK 0 4)].

Lemma blen_init_ack h tag' c :
  blen (init_ack_chunk tag' SCTP_DEFAULT_ARWND SCTP_MAX_STREAMS SCTP_MAX_STREAMS tag' (cookie_bytes h c)) = 72.
Proof. unfold init_ack_chunk. autorewrite with blen. by rewrite (proj2 (cookie_bytes_ok h c)). Qed.

(** ** Progress of one endpoint *)

(** What the handshake does not change. *)
Definition fixed (a : SctpAssociation) :=
  (localPort a, remotePort a, mtu a, myVerificationTag a, nextTsn a, tieTag a,
   (receivedTsnCount a, cwnd a, flightSize a, outstanding a, sendQueue a)).

Definition knows_peer (a : SctpAssociation) : Prop :=
  peerVerificationTag a = ptag /\ peerCumulativeTsn a = (ptag -32 1) /\
  peerCumulativeTsnValid a = true /\ peerArwnd a = SCTP_DEFAULT_ARWND.

(** The endpoint after it received [i] packets of the peer's script. *)
Definition phase (i : nat) (w : World) : Prop :=
  fixed (assoc w) = fixed (initAssoc lport rport m tag tie) /\
  events w = map EvPacket (take (S i) (script (ep_host e) (ep_host peer) lport rport tag tie ptag ptie)) /\
  match i with
  | O | 1%nat => state (assoc w) = SCTP_ASSOC_COOKIE_WAIT
  | 2%nat => state (assoc w) = SCTP_ASSOC_COOKIE_ECHOED /\ knows_peer (assoc w)
  | _ => state (assoc w) = SCTP_ASSOC_ESTABLISHED /\ knows_peer (assoc w) /\ t1InitExpiry (assoc w) = 0
  end.

Hypothesis Htag : is_u32 tag.
Hypothesis Hptag : is_u32 ptag.

Lemma flush_idle gettime memalloc k i w (Q : unit -> World -> Prop) :
  length (sendQueue (assoc w)) = 32%nat -> Forall (fun q => q_inUse q = false) (sendQueue (assoc w)) ->
  0 <= i -> i + Z.of_nat k <= 32 -> Q tt w -> wp (flushLoop gettime memalloc k i) Q w.
Proof.
  intros Hl Hq. revert i. induction k as [|k IH]; intros i Hi Hk HQ; cbn [flushLoop]; [done|].
  apply wp_bind, wp_gets. destruct (lookup_lt_is_Some_2 (sendQueue (assoc w)) (Z.to_nat i)) as [q E]; [lia|].
  assert (Eg : lget (sendQueue (assoc w)) i = Ok q).
  { unfold lget. rewrite (proj2 (Z.leb_le _ _)) by lia. by rewrite E. }
  apply wp_bind. eapply wp_lift; [exact Eg|]. rewrite Forall_lookup in Hq. rewrite (Hq _ _ E).
  apply wp_bind, wp_ret. apply IH; [lia..|done].
Qed.

Lemma flush_initial gettime memalloc w (Q : unit -> World -> Prop) :
  fixed (assoc w) = fixed (initAssoc lport rport m tag tie) -> Q tt w ->
  wp (sctpFlushSendQueue gettime memalloc) Q w.
Proof.
  intros Hf HQ. pose proof (f_equal (fun t => snd (snd t)) Hf) as Eq.
  change (sendQueue (assoc w) = replicate (Z.to_nat SCTP_MAX_QUEUED_MESSAGES) zeroQueued) in Eq.
  unfold sctpFlushSendQueue. apply flush_idle; [| |lia|unfold SCTP_MAX_QUEUED_MESSAGES; lia|exact HQ].
  - rewrite Eq. apply length_replicate.
  - rewrite Eq. by apply Forall_replicate.
Qed.

Lemma fixed_fields a :
  fixed a = fixed (initAssoc lport rport m tag tie) ->
  localPort a = lport /\ remotePort a = rport /\ myVerificationTag a = tag /\ nextTsn a = tag /\
  tieTag a = tie.
Proof.
  intros Hf. split_and!; [exact (f_equal (fun t => t.1.1.1.1.1.1) Hf)|exact (f_equal (fun t => t.1.1.1.1.1.2) Hf)|
    exact (f_equal (fun t => t.1.1.1.2) Hf)|exact (f_equal (fun t => t.1.1.2) Hf)|exact (f_equal (fun t => t.1.2) Hf)].
Qed.

(** Sending the next packet of the script. *)
Lemma send_script i w vtag writer chunk n (Q : unit -> World -> Prop) :
  let s := script (ep_host e) (ep_host peer) lport rport tag tie ptag ptie in
  localPort (assoc w) = lport -> remotePort (assoc w) = rport -> wire_ok (outPacket (assoc w)) ->
  events w = map EvPacket (take i s) -> writes writer chunk n -> blen chunk = n ->
  s !! i = Some (sctp_packet lport rport vtag chunk) ->
  (forall out pkt, wire_ok out -> events (sent w out pkt) = map EvPacket (take (S i) s) ->
     Q tt (sent w out pkt)) ->
  wp (sendChunk vtag writer) Q w.
Proof.
  intros s Hl Hr Hw He Hwr Hn Hs HQ. apply (sendChunk_wp _ _ _ _ _ _ Hw Hwr). intros out pad Hout _ Hp.
  rewrite Hn, Z.sub_diag in Hp. destruct pad; [|unfold blen in Hp; cbn in Hp; lia]. rewrite app_nil_r. apply HQ; [done|].
  rewrite (take_S_r _ _ _ Hs), map_app, Hl, Hr, <- He. done.
Qed.

(** Connecting sends INIT. *)
Lemma phase_open w :
  events w = [] -> assoc w = initAssoc lport rport m tag tie -> 28 < m <= SCTP_MAX_PACKET_SIZE ->
  wp (sctpAssocConnect (ep_gettime e)) (fun st w' => st = STATUS_SUCCESS /\ phase 0 w') w.
Proof.
  intros He Ha Hm. pose proof (Inv_init lport rport m tag tie Hm Htag) as HI. rewrite <- Ha in HI.
  unfold sctpAssocConnect, sendInit, setA. apply wp_bind, wp_bind, wp_gets. rewrite Ha.
  eapply (send_script 0); [by rewrite Ha|by rewrite Ha|apply HI|done|apply (writes_init tag tag)|by unfold init_chunk; autorewrite with blen|done|].
  intros out pkt _ Hev. wp_steps. apply wp_now. intros now. wp_steps. split; [done|].
  split; [|split; [exact Hev|done]].
  change (fixed (assoc w) = fixed (initAssoc lport rport m tag tie)). by rewrite Ha.
Qed.

(** The packet with one chunk, when its tag is the endpoint's or zero. *)
Lemma receive_one w src dst vtag t value Q :
  fixed (assoc w) = fixed (initAssoc lport rport m tag tie) ->
  bytes_ok value -> is_u8 t -> blen value mod 4 = 0 -> blen value < 2 ^ 15 -> vtag = 0 \/ vtag = tag ->
  (forall pkt, bytes_ok pkt -> pld_bytes (Ptr pkt 16) (blen value) = Ok value -> chunk_in pkt 16 (blen value) ->
   wp (sctpChunkDispatch (ep_host e) (ep_gettime e) (ep_memalloc e) true t 0 (Ptr pkt 16) (blen value)) Q w) ->
  wp (receive e (sctp_packet src dst vtag (chunk_hdr t 0 (4 + blen value) ++ value))) Q w.
Proof.
  intros Hf Hv Ht H4 Hl Hvt HQ. pose proof (blen_nonneg value).
  assert (Et : myVerificationTag (assoc w) = tag) by exact (f_equal (fun t => t.1.1.1.2) Hf).
  rewrite <- (app_nil_r value) at 2. unfold receive.
  apply handle_one; [done|constructor|done|split; lia|lia| | | |].
  - rewrite SCTP_PAD4_val by lia. rewrite blen_nil. Z.div_mod_to_equations. lia.
  - destruct Hvt as [-> | ->]; [split; lia|done].
  - rewrite Et. destruct Hvt; auto.
  - auto.
Qed.

(** Reads the fields of a received INIT or INIT-ACK, whose values are known. *)
Ltac read_init Hpk Hin Hrd :=
  destruct Hrd as (?E0 & ?E4 & ?E8 & ?E10 & ?E12);
  repeat (apply wp_bind;
    (apply (be32At_wp _ Hpk _ _ Hin) || apply (be16At_wp _ Hpk _ _ Hin)); [lia|lia|];
    let x := fresh "x" in let Ex := fresh "Ex" in intros x Ex _;
    match type of Ex with ?l = Ok _ => match goal with E : l = Ok ?y |- _ => rewrite E in Ex; injection Ex as <- end end).

Lemma arwnd_u32 : is_u32 SCTP_DEFAULT_ARWND. Proof. split; reflexivity || discriminate. Qed.
Lemma streams_u16 : is_u16 SCTP_MAX_STREAMS. Proof. split; reflexivity || discriminate. Qed.

(** INIT is answered with INIT-ACK. *)
Lemma phase_init w :
  Inv (assoc w) -> phase 0 w ->
  wp (receive e (sctp_packet plport prport 0
        (init_chunk ptag SCTP_DEFAULT_ARWND SCTP_MAX_STREAMS SCTP_MAX_STREAMS ptag)))
     (fun st w' => st = STATUS_SUCCESS /\ phase 1 w') w.
Proof.
  intros HI (Hf & He & Hst).
  set (value := init_value ptag SCTP_DEFAULT_ARWND SCTP_MAX_STREAMS SCTP_MAX_STREAMS ptag
                  (be16 SCTP_PARAM_FORWARD_TSN_SUPPORTED ++ be16 4)).
  assert (Hvl : blen value = 20) by (unfold value; rewrite blen_init_value; by autorewrite with blen).
  change (init_chunk _ _ _ _ _) with (chunk_hdr SCTP_CHUNK_INIT 0 24 ++ value).
  change 24 with (4 + 20). rewrite <- Hvl. apply receive_one; [exact Hf| |split; done|by rewrite Hvl|by rewrite Hvl|by left|].
  { unfold value, init_value. rewrite !bytes_ok_app. auto 10 using be16_ok, be32_ok. }
  intros pkt Hpk Hval Hin. pose proof (init_reads pkt _ _ _ _ _ _ Hval Hptag arwnd_u32 streams_u16 streams_u16 Hptag) as Hrd.
  fold value in Hrd. change (wp (sctpHandleInit (ep_host e) (Ptr pkt 16) (blen value))
    (fun st w' => st = STATUS_SUCCESS /\ phase 1 w') w).
  unfold sctpHandleInit. rewrite (proj2 (Z.ltb_ge _ _)) by lia. read_init Hpk Hin Hrd.
  apply wp_bind, wp_gets, wp_bind.
  destruct (fixed_fields _ Hf) as (Hl & Hr & Ht & Hn & Hti). rewrite Ht, Hn, Hti.
  eapply (send_script 1); [done|done|apply HI|done| | |done|].
  { apply (writes_init_ack (ep_host e) tag SCTP_MAX_STREAMS SCTP_MAX_STREAMS tag (cookieOf tag ptag tie)). }
  { apply blen_init_ack. }
  intros out p' _ Hev. apply wp_ret. split; [done|]. split; [exact Hf|]. by split.
Qed.

(** The search of the cookie finds it as the first parameter. *)
Definition cookie_params (cookie : list Z) : list Z :=
  be16 SCTP_PARAM_STATE_COOKIE ++ be16 48 ++ cookie ++ be16 SCTP_PARAM_FORWARD_TSN_SUPPORTED ++ be16 4.

Lemma cookie_found pkt arwnd nOut nIn tsn cookie fuel w (Q : bool -> World -> Prop) :
  let value := init_value ptag arwnd nOut nIn tsn (cookie_params cookie) in
  bytes_ok pkt -> pld_bytes (Ptr pkt 16) (blen value) = Ok value -> chunk_in pkt 16 (blen value) ->
  blen cookie = 44 -> blen (cookieEchoData (assoc w)) = 44 ->
  Q true (w <| assoc := (assoc w) <| cookieEchoData := cookie |> <| cookieEchoLen := 44 |>
                                  <| cookieEchoValid := true |> |>) ->
  wp (cookieLoop (S fuel) (Ptr pkt 16) (blen value) 16) Q w.
Proof.
  intros value Hpk Hval Hin Hc Hd HQ.
  assert (Hvl : blen value = 68).
  { unfold value. rewrite blen_init_value. unfold cookie_params. autorewrite with blen. lia. }
  destruct (value_split _ _ Hval) as (pre & post & Ep & Hpre).
  set (fx := be32 ptag ++ be32 arwnd ++ be16 nOut ++ be16 nIn ++ be32 tsn).
  assert (Hfx : blen fx = 16) by (unfold fx; by autorewrite with blen).
  assert (Epk : pkt = (pre ++ fx) ++ be16 SCTP_PARAM_STATE_COOKIE ++ be16 48 ++ cookie
                      ++ (be16 SCTP_PARAM_FORWARD_TSN_SUPPORTED ++ be16 4) ++ post).
  { rewrite Ep. unfold value, init_value, cookie_params, fx. by rewrite <- !(assoc_L (++)). }
  assert (E16 : rd16 pkt (16 + 16) = Ok SCTP_PARAM_STATE_COOKIE) by (rewrite Epk, rd16_app by blen_lia; done).
  assert (E18 : rd16 pkt (16 + 18) = Ok 48).
  { rewrite Epk, (assoc_L (++) (pre ++ fx)), rd16_app by blen_lia. done. }
  assert (Ec : pld_bytes (padd (Ptr pkt 16) (16 + 4)) (48 - 4) = Ok cookie).
  { unfold pld_bytes. cbn [padd p_obj p_off]. rewrite Epk, 2!(assoc_L (++) _ (be16 _)).
    apply ld_bytes_app; [blen_lia|lia]. }
  assert (Ed : put_bytes (cookieEchoData (assoc w)) 0 cookie = Ok cookie).
  { rewrite put_bytes_in by lia. rewrite take_0, drop_ge; [by rewrite app_nil_r|].
    unfold blen in Hc, Hd |- *. lia. }
  cbn [cookieLoop]. rewrite Hvl in *. change (16 +32 4 <=? 68) with true. cbv match.
  apply wp_bind, (be16At_wp _ Hpk _ _ Hin); [lia|lia|]. intros x Ex _. rewrite E16 in Ex. injection Ex as <-.
  apply wp_bind, (be16At_wp _ Hpk _ _ Hin); [lia|lia|]. intros x Ex _. change (16 + (16 + 2)) with (16 + 18) in Ex.
  rewrite E18 in Ex. injection Ex as <-.
  change (48 <? 4) with false. change (SCTP_PARAM_STATE_COOKIE =? SCTP_PARAM_STATE_COOKIE) with true.
  change ((48 - 4 <=? SCTP_COOKIE_SIZE) && (16 +32 48 <=? 68)) with true. cbv match.
  unfold setA. wp_load Ec. wp_load Ed. exact HQ.
Qed.

(** INIT-ACK is answered with COOKIE-ECHO. *)
Lemma phase_init_ack w :
  Inv (assoc w) -> phase 1 w ->
  wp (receive e (sctp_packet plport prport tag
        (init_ack_chunk ptag SCTP_DEFAULT_ARWND SCTP_MAX_STREAMS SCTP_MAX_STREAMS ptag
           (cookie_bytes (ep_host peer) (cookieOf ptag tag ptie)))))
     (fun st w' => st = STATUS_SUCCESS /\ phase 2 w') w.
Proof.
  intros HI (Hf & He & Hst). set (cookie := cookie_bytes (ep_host peer) (cookieOf ptag tag ptie)).
  destruct (cookie_bytes_ok (ep_host peer) (cookieOf ptag tag ptie)) as [Hcb Hcl]. fold cookie in Hcb, Hcl.
  set (value := init_value ptag SCTP_DEFAULT_ARWND SCTP_MAX_STREAMS SCTP_MAX_STREAMS ptag (cookie_params cookie)).
  assert (Hvl : blen value = 68).
  { unfold value. rewrite blen_init_value. unfold cookie_params. autorewrite with blen. lia. }
  replace (init_ack_chunk _ _ _ _ _ _) with (chunk_hdr SCTP_CHUNK_INIT_ACK 0 (4 + blen value) ++ value).
  2: { rewrite Hvl. unfold init_ack_chunk, value, init_value, cookie_params. rewrite Hcl. done. }
  apply receive_one; [exact Hf| |split; done|by rewrite Hvl|by rewrite Hvl|by right|].
  { unfold value, init_value, cookie_params. rewrite !bytes_ok_app. auto 20 using be16_ok, be32_ok. }
  intros pkt Hpk Hval Hin. pose proof (init_reads pkt _ _ _ _ _ _ Hval Hptag arwnd_u32 streams_u16 streams_u16 Hptag) as Hrd.
  change (wp (sctpHandleInitAck (ep_gettime e) (Ptr pkt 16) (blen value))
    (fun st w' => st = STATUS_SUCCESS /\ phase 2 w') w).
  unfold sctpHandleInitAck, setA. rewrite (proj2 (Z.ltb_ge _ _)) by lia. apply wp_bind, wp_gets. rewrite Hst.
  change (negb _ && negb _) with false. cbv match. read_init Hpk Hin Hrd.
  apply wp_bind, wp_modify, wp_bind. destruct (fixed_fields _ Hf) as (Hl & Hr & Ht & Hn & Hti).
  replace (Z.to_nat (blen value / 4)) with 17%nat by (by rewrite Hvl).
  apply cookie_found; [done|done|done|done|apply HI|]. cbv match. apply wp_bind, wp_gets, wp_bind.
  set (w1 := w <| assoc := _ |> <| assoc := _ |>).
  pose proof (writes_cookie_echo cookie 44 Hcb ltac:(lia) Hcl) as Hw.
  rewrite take_ge in Hw by (unfold blen in Hcl; lia).
  eapply (send_script 2 w1); [done|done|apply HI|done|exact Hw| |done|].
  { unfold cookie_echo_chunk. autorewrite with blen. by rewrite Hcl. }
  intros out p' _ Hev. wp_steps. apply wp_now. intros now. wp_steps. split; [done|].
  split; [exact Hf|]. split; [exact Hev|]. done.
Qed.

(** The cookie comes back as the endpoint wrote it. *)
Lemma cookie_reads pkt my your t :
  let value := cookie_bytes (ep_host e) (cookieOf my your t) in
  pld_bytes (Ptr pkt 16) (blen value) = Ok value ->
  native32 (ep_host e) pkt (16 + 0) = Ok (u32 SCTP_COOKIE_MAGIC1) /\
  native32 (ep_host e) pkt (16 + 4) = Ok (u32 SCTP_COOKIE_MAGIC2) /\
  native32 (ep_host e) pkt (16 + 8) = Ok (u32 your) /\
  native32 (ep_host e) pkt (16 + 16) = Ok (u32 your) /\
  native32 (ep_host e) pkt (16 + 24) = Ok (u32 SCTP_DEFAULT_ARWND).
Proof.
  intros value Hval. destruct (value_split _ _ Hval) as (pre & post & Ep & Hp).
  assert (Hb : forall v, blen (native_bytes32 (ep_host e) v) = 4) by apply native_bytes32_ok.
  unfold value, cookie_bytes, cookieOf in Ep.
  cbn [magic1 magic2 peerTag myTag peerInitialTsn myInitialTsn ck_peerArwnd] in Ep.
  rewrite <- !(assoc_L (++)) in Ep. rewrite Ep. split_and!.
  - rewrite native32_own_app by lia. done.
  - rewrite (assoc_L (++) pre), native32_own_app by (rewrite blen_app, Hb; lia). done.
  - rewrite 2!(assoc_L (++) _ (native_bytes32 _ _)), native32_own_app by (rewrite !blen_app, !Hb; lia). done.
  - rewrite 4!(assoc_L (++) _ (native_bytes32 _ _)), native32_own_app by (rewrite !blen_app, !Hb; lia). done.
  - rewrite 6!(assoc_L (++) _ (native_bytes32 _ _)), native32_own_app by (rewrite !blen_app, !Hb; lia). done.
Qed.

Lemma writes_cookie_ack : writes sctpWriteCookieAckChunk (chunk_hdr SCTP_CHUNK_COOKIE_ACK 0 4) 4.
Proof.
  apply writes_exact; [apply chunk_hdr_ok|by autorewrite with blen|lia|].
  intros. apply sctpWriteCookieAckChunk_spec.
Qed.

(** COOKIE-ECHO establishes the association and is answered with COOKIE-ACK. *)
Lemma phase_cookie_echo w :
  Inv (assoc w) -> phase 2 w ->
  wp (receive e (sctp_packet plport prport tag (cookie_echo_chunk (cookie_bytes (ep_host e) (cookieOf tag ptag tie)))))
     (fun st w' => st = STATUS_SUCCESS /\ phase 3 w') w.
Proof.
  intros HI (Hf & He & Hst & Hk). set (value := cookie_bytes (ep_host e) (cookieOf tag ptag tie)).
  destruct (cookie_bytes_ok (ep_host e) (cookieOf tag ptag tie)) as [Hcb Hcl]. fold value in Hcb, Hcl.
  unfold cookie_echo_chunk.
  apply receive_one; [exact Hf|done|split; done|by rewrite Hcl|by rewrite Hcl|by right|].
  intros pkt Hpk Hval Hin. destruct (cookie_reads pkt _ _ _ Hval) as (E0 & E4 & E8 & E16 & E24).
  rewrite (u32_id ptag) in E8, E16 by done. rewrite (u32_id SCTP_DEFAULT_ARWND) in E24 by apply arwnd_u32.
  change (wp (sctpHandleCookieEcho (ep_host e) (ep_gettime e) (ep_memalloc e) (Ptr pkt 16) (blen value))
    (fun st w' => st = STATUS_SUCCESS /\ phase 3 w') w).
  unfold sctpHandleCookieEcho, setA. cbn [p_obj p_off]. unfold SCTP_COOKIE_SIZE. rewrite (proj2 (Z.ltb_ge _ _)) by lia.
  apply wp_bind; eapply wp_lift; [exact E0|]. apply wp_bind; eapply wp_lift; [exact E4|].
  change (negb _ || negb _) with false. cbv match. wp_load E8. wp_load E16. wp_load E24.
  destruct (fixed_fields _ Hf) as (Hl & Hr & Ht & Hn & Hti).
  eapply (send_script 3); [done|done|apply HI|done|apply writes_cookie_ack|by autorewrite with blen|done|].
  intros out p' _ Hev. wp_steps. apply flush_initial; [exact Hf|]. apply wp_ret. split; [done|].
  split; [exact Hf|]. split; [exact Hev|]. done.
Qed.

(** COOKIE-ACK changes nothing any more. *)
Lemma phase_cookie_ack w :
  Inv (assoc w) -> phase 3 w ->
  wp (receive e (sctp_packet plport prport tag (chunk_hdr SCTP_CHUNK_COOKIE_ACK 0 4)))
     (fun st w' => st = STATUS_SUCCESS /\ phase 4 w') w.
Proof.
  intros HI (Hf & He & Hst & Hk). rewrite <- (app_nil_r (chunk_hdr _ _ _)). change 4 with (4 + blen []).
  apply receive_one; [exact Hf|constructor|split; done|done|done|by right|]. intros pkt _ _ _.
  change (wp (sctpHandleCookieAck (ep_gettime e) (ep_memalloc e)) (fun st w' => st = STATUS_SUCCESS /\ phase 4 w') w).
  unfold sctpHandleCookieAck. apply wp_bind, wp_gets. rewrite Hst. apply wp_ret. split; [done|]. by split.
Qed.
End Handshake.

(** ** The composition *)

Lemma sctp_packet_ok src dst vtag c :
  bytes_ok c -> blen c <= 1188 -> packet_ok (Some (sctp_packet src dst vtag c)) (blen (sctp_packet src dst vtag c)).
Proof.
  intros Hc Hl b [= <-]. split; [|split; [done|]].
  - apply sealed_ok; rewrite ?bytes_ok_app; auto using be16_ok, be32_ok.
  - unfold sctp_packet. rewrite blen_sealed. autorewrite with blen. lia.
Qed.

Lemma script_packet h ph lport rport tag tie ptag ptie i p :
  script h ph lport rport tag tie ptag ptie !! i = Some p -> packet_ok (Some p) (blen p).
Proof.
  intros Hp. destruct (writes_init tag tag) as (H0 & H0' & _).
  destruct (writes_init_ack h tag SCTP_MAX_STREAMS SCTP_MAX_STREAMS tag (cookieOf tag ptag tie)) as (H1 & H1' & _).
  destruct (cookie_bytes_ok ph (cookieOf ptag tag ptie)) as [Hb Hl].
  destruct (writes_cookie_echo _ 44 Hb ltac:(lia) Hl) as (H2 & H2' & _).
  rewrite take_ge in H2, H2' by (unfold blen in Hl; lia). destruct writes_cookie_ack as (H3 & H3' & _).
  change (SCTP_PAD4 (4 + 44)) with 48 in H2'.
  destruct i as [|[|[|[|i]]]]; [injection Hp as <-; apply sctp_packet_ok; [done|lia]..|done].
Qed.

(** The next packet of the peer's script moves the endpoint to the next phase. *)
Lemma phase_next e lport rport m tag tie peer plport prport ptag ptie i w p :
  is_u32 tag -> is_u32 ptag -> alloc_ok (ep_memalloc e) -> Inv (assoc w) ->
  phase e lport rport m tag tie peer ptag ptie i w ->
  script (ep_host peer) (ep_host e) plport prport ptag ptie tag tie !! i = Some p ->
  wp (receive e p) (fun st w' => st = STATUS_SUCCESS /\ Inv (assoc w') /\
                                phase e lport rport m tag tie peer ptag ptie (S i) w') w.
Proof.
  intros Ht Hpt Hm HI Hph Hp.
  assert (HIn : wp (receive e p) ok w).
  { apply sctpAssocHandlePacket_wp; [done|done|]. by eapply script_packet. }
  assert (Hgo : wp (receive e p) (fun st w' => st = STATUS_SUCCESS /\ phase e lport rport m tag tie peer ptag ptie (S i) w') w).
  { destruct i as [|[|[|[|i]]]]; [injection Hp as <-..|done].
    - by apply phase_init.
    - by apply phase_init_ack.
    - by apply phase_cookie_echo.
    - by apply phase_cookie_ack. }
  eapply wp_mono; [exact (wp_conj _ _ _ _ HIn Hgo)|]. intros st w' [[-> HI'] [_ Hph']]. done.
Qed.

Lemma outbox_phase e lport rport m tag tie peer ptag ptie i w :
  phase e lport rport m tag tie peer ptag ptie i w ->
  outbox w = take (S i) (script (ep_host e) (ep_host peer) lport rport tag tie ptag ptie).
Proof.
  intros (_ & He & _). unfold outbox. rewrite He. clear He. generalize (take (S i)
    (script (ep_host e) (ep_host peer) lport rport tag tie ptag ptie)). intros l.
  induction l as [|p l IH]; [done|]. cbn. by f_equal.
Qed.

Lemma phase_ready eA lA rA mA tagA tieA eB lB rB mB tagB tieB wA wB :
  28 < mA <= SCTP_MAX_PACKET_SIZE -> is_u32 tagA -> Inv (assoc wA) ->
  phase eA lA rA mA tagA tieA eB tagB tieB 4 wA -> phase eB lB rB mB tagB tieB eA tagA tieA 4 wB ->
  ready (assoc wA) (assoc wB).
Proof.
  intros Hm Ht HI (HfA & _ & HstA & (Hva & _ & _ & Hra) & Ht1) (HfB & _ & HstB & (_ & Hcb & Hvb & _) & _).
  destruct (fixed_fields _ _ _ _ _ _ HfA) as (_ & _ & HtA & HnA & _).
  destruct (fixed_fields _ _ _ _ _ _ HfB) as (_ & _ & HtB & _).
  pose proof (f_equal (fun t => (t.2.1.1.1.2, t.2.1.1.2)) HfA) as Hwin. cbn [fst snd fixed] in Hwin.
  pose proof (f_equal (fun t => t.2.1.2) HfA) as Hout. pose proof (f_equal (fun t => t.2.1.1.1.1) HfB) as Hrc.
  cbn [fst snd fixed] in Hout, Hrc. injection Hwin as Hcw Hfl.
  assert (Hu : used o_inUse (outstanding (assoc wA)) < SCTP_MAX_OUTSTANDING).
  { rewrite Hout. unfold used. cbn [outstanding initAssoc]. by rewrite sumBy_replicate. }
  split; [done|]. split; [split; [done|]; rewrite Hcw, Hfl, Hra; split_and!; try done|].
  - change (0 < 3 * mA). lia.
  - split; [by rewrite Hva, HtB|]. split; [|done]. unfold expects. rewrite Hva, HnA, HtB, Hcb.
    split_and!; try done. unfold u32. rewrite Zplus_mod_idemp_l, Z.sub_add. symmetry. by apply u32_id.
Qed.

(** Opening an association draws a tag and sends INIT. *)
Lemma open_phase e lport rport m w :
  events w = [] -> 28 < m <= SCTP_MAX_PACKET_SIZE ->
  wp (openAssoc e lport rport m) (fun st w' => st = STATUS_SUCCESS /\ Inv (assoc w') /\
    exists tag tie, is_u32 tag /\ forall peer ptag ptie, phase e lport rport m tag tie peer ptag ptie 0 w') w.
Proof.
  intros He Hm. unfold openAssoc. apply wp_bind.
  assert (Hinit : wp (sctpAssocInit (ep_gettime e) lport rport m) (fun _ w' => events w' = [] /\
    exists tag tie, is_u32 tag /\ assoc w' = initAssoc lport rport m tag tie) w).
  { assert (Htag : forall (Q : Z -> World -> Prop) w, events w = [] ->
      (forall t w', is_u32 t -> events w' = [] -> Q t w') -> wp (sctpGenerateTag (ep_gettime e)) Q w).
    { intros Q w' He' HQ. unfold sctpGenerateTag, GETTIME, wp, mbind, ST_bind, mret, ST_ret. apply HQ; [|done].
      destruct (_ =? 0); [split; lia|]. apply lxor_u32; apply u32_range. }
    unfold sctpAssocInit, setA. apply wp_bind, Htag; [done|]. intros tag w1 Ht He1. apply wp_bind, Htag; [done|].
    intros hi w2 _ He2. apply wp_bind, Htag; [done|]. intros lo w3 _ He3. apply wp_modify. split; [done|]. eauto. }
  eapply wp_mono; [exact Hinit|]. intros ? w1 (He1 & tag & tie & Ht & Ha).
  assert (HI1 : Inv (assoc w1)) by (rewrite Ha; by apply Inv_init).
  pose proof (sctpAssocConnect_wp (ep_gettime e) w1 HI1) as HIc.
  apply wp_run in HIc as (st & w2 & E & -> & HI2).
  unfold wp. rewrite E. split; [done|]. split; [done|]. exists tag, tie. split; [done|]. intros peer ptag ptie.
  pose proof (phase_open e lport rport m tag tie peer ptag ptie Ht w1 He1 Ha Hm) as Hp.
  apply wp_run in Hp as (st' & w2' & E' & _ & Hp). rewrite E in E'. by injection E' as <- <-.
Qed.

Section Composition.
Context (eA eB : Endpoint) (lA rA mA tagA tieA lB rB mB tagB tieB : Z).
Hypothesis HmemA : alloc_ok (ep_memalloc eA).
Hypothesis HmemB : alloc_ok (ep_memalloc eB).
Hypothesis HmA : 28 < mA <= SCTP_MAX_PACKET_SIZE.
Hypothesis HmB : 28 < mB <= SCTP_MAX_PACKET_SIZE.
Hypothesis HtA : is_u32 tagA.
Hypothesis HtB : is_u32 tagB.

(** After [k] deliveries the endpoints are in phases that sum up to [k]. *)
Definition net_at (k : nat) (n : Net) : Prop :=
  k = (gotA n + gotB n)%nat /\ (gotA n <= 4)%nat /\ (gotB n <= 4)%nat /\
  Inv (assoc (endA n)) /\ Inv (assoc (endB n)) /\
  phase eA lA rA mA tagA tieA eB tagB tieB (gotA n) (endA n) /\
  phase eB lB rB mB tagB tieB eA tagA tieA (gotB n) (endB n).

Lemma script_lookup h ph lport rport tag tie ptag ptie i k p :
  take k (script h ph lport rport tag tie ptag ptie) !! i = Some p ->
  (i < 4)%nat /\ script h ph lport rport tag tie ptag ptie !! i = Some p.
Proof. rewrite lookup_take_Some. intros [H _]. split; [|done]. by apply lookup_lt_Some in H. Qed.

Lemma net_at_step k n n' : net_at k n -> net_step eA eB n n' -> net_at (S k) n'.
Proof.
  intros (Hk & Hi & Hj & HIA & HIB & HA & HB) Hs. inversion Hs as [n0 p w' Hp Hr|n0 p w' Hp Hr]; subst n0 n'.
  - rewrite (outbox_phase _ _ _ _ _ _ _ _ _ _ _ HB) in Hp. apply script_lookup in Hp as [Hlt Hp].
    pose proof (phase_next _ _ _ _ _ _ _ _ _ _ _ _ _ _ HtA HtB HmemA HIA HA Hp) as H. unfold wp in H.
    rewrite Hr in H. destruct H as (_ & HI' & Hph). split_and!; cbn [gotA gotB endA endB]; try done; lia.
  - rewrite (outbox_phase _ _ _ _ _ _ _ _ _ _ _ HA) in Hp. apply script_lookup in Hp as [Hlt Hp].
    pose proof (phase_next _ _ _ _ _ _ _ _ _ _ _ _ _ _ HtB HtA HmemB HIB HB Hp) as H. unfold wp in H.
    rewrite Hr in H. destruct H as (_ & HI' & Hph). split_and!; cbn [gotA gotB endA endB]; try done; lia.
Qed.

Lemma net_at_progress k n : net_at k n -> (k < 8)%nat -> exists n', net_step eA eB n n'.
Proof.
  intros (Hk & Hi & Hj & HIA & HIB & HA & HB) Hlt.
  assert (Hc : (gotA n < 4 /\ gotA n <= gotB n)%nat \/ (gotB n < 4 /\ gotB n <= gotA n)%nat) by lia.
  destruct Hc as [[H4 Hle]|[H4 Hle]].
  - set (s := script (ep_host eB) (ep_host eA) lB rB tagB tieB tagA tieA).
    destruct (lookup_lt_is_Some_2 s (gotA n)) as [p Hp]; [done|].
    pose proof (phase_next _ _ _ _ _ _ _ _ _ _ _ _ _ _ HtA HtB HmemA HIA HA Hp) as H.
    apply wp_run in H as (st & w' & Hr & -> & _). eexists. eapply step_A; [|exact Hr].
    rewrite (outbox_phase _ _ _ _ _ _ _ _ _ _ _ HB), lookup_take_lt by lia. exact Hp.
  - set (s := script (ep_host eA) (ep_host eB) lA rA tagA tieA tagB tieB).
    destruct (lookup_lt_is_Some_2 s (gotB n)) as [p Hp]; [done|].
    pose proof (phase_next _ _ _ _ _ _ _ _ _ _ _ _ _ _ HtB HtA HmemB HIB HB Hp) as H.
    apply wp_run in H as (st & w' & Hr & -> & _). eexists. eapply step_B; [|exact Hr].
    rewrite (outbox_phase _ _ _ _ _ _ _ _ _ _ _ HA), lookup_take_lt by lia. exact Hp.
Qed.

Lemma net_at_ready n :
  net_at 8 n -> ready (assoc (endA n)) (assoc (endB n)) /\ ready (assoc (endB n)) (assoc (endA n)).
Proof.
  intros (Hk & Hi & Hj & HIA & HIB & HA & HB). assert (gotA n = 4 /\ gotB n = 4)%nat as [Ea Eb] by lia.
  rewrite Ea in HA. rewrite Eb in HB. split; [exact (phase_ready _ _ _ _ _ _ _ _ _ _ _ _ _ _ HmA HtA HIA HA HB)|
    exact (phase_ready _ _ _ _ _ _ _ _ _ _ _ _ _ _ HmB HtB HIB HB HA)].
Qed.

Lemma net_at_steps k k' n n' : nsteps (net_step eA eB) k' n n' -> net_at k n -> net_at (k + k') n'.
Proof.
  intros Hs. revert k. induction Hs as [|k' n n1 n' H1 _ IH]; intros k Hn; [by rewrite Nat.add_0_r|].
  rewrite <- Nat.add_succ_comm. apply IH. by eapply net_at_step.
Qed.
End Composition.

(** C4. The handshake completes. Two peers that open their associations, as every
    session does, and whose packets are delivered in order on each side, in whatever
    interleaving of the two directions, exchange exactly eight packets: no handler fails,
    some packet can be delivered until all eight are, and after the eighth both
    associations are established with each other's tag, their handshake timers stopped,
    and each can send a message starting with the TSN the other expects. *)
Theorem handshake_completes eA eB lA rA mA lB rB mB wA0 wB0
  (HmemA : alloc_ok (ep_memalloc eA)) (HmemB : alloc_ok (ep_memalloc eB))
  (HmA : 28 < mA <= SCTP_MAX_PACKET_SIZE) (HmB : 28 < mB <= SCTP_MAX_PACKET_SIZE)
  (HeA : events wA0 = []) (HeB : events wB0 = []) :
  exists wA wB,
    openAssoc eA lA rA mA wA0 = Some (STATUS_SUCCESS, wA) /\
    openAssoc eB lB rB mB wB0 = Some (STATUS_SUCCESS, wB) /\
    forall k n, nsteps (net_step eA eB) k {| endA := wA; endB := wB; gotA := 0; gotB := 0 |} n ->
      (k <= 8)%nat /\
      ((k < 8)%nat -> exists n', net_step eA eB n n') /\
      (k = 8%nat -> ready (assoc (endA n)) (assoc (endB n)) /\ ready (assoc (endB n)) (assoc (endA n))).
Proof.
  pose proof (open_phase eA lA rA mA wA0 HeA HmA) as HA. pose proof (open_phase eB lB rB mB wB0 HeB HmB) as HB.
  apply wp_run in HA as (st & wA & EA & -> & HIA & tagA & tieA & HtA & HA).
  apply wp_run in HB as (st & wB & EB & -> & HIB & tagB & tieB & HtB & HB).
  exists wA, wB. split; [done|]. split; [done|]. intros k n Hs.
  assert (Hn : net_at eA eB lA rA mA tagA tieA lB rB mB tagB tieB k n).
  { apply (net_at_steps eA eB lA rA mA tagA tieA lB rB mB tagB tieB HmemA HmemB HtA HtB 0 k _ _ Hs).
    split; [done|]. split; [apply Nat.le_0_l|]. split; [apply Nat.le_0_l|].
    split; [exact HIA|]. split; [exact HIB|]. split; [apply HA|apply HB]. }
  split; [destruct Hn as (-> & ? & ? & _); lia|]. split.
  - exact (net_at_progress _ _ _ _ _ _ _ _ _ _ _ _ HmemA HmemB HtA HtB _ _ Hn).
  - intros ->. exact (net_at_ready _ _ _ _ _ _ _ _ _ _ _ _ HmA HmB HtA HtB _ Hn).
Qed.

(** A little-endian and a big-endian host with different clocks. *)
Definition ex_epA : Endpoint :=
  {| ep_host := LittleEndian; ep_gettime := ex_gettime; ep_memalloc := ex_memalloc |}.
Definition ex_epB : Endpoint :=
  {| ep_host := BigEndian; ep_gettime := fun n => 7 + ex_gettime n; ep_memalloc := ex_memalloc |}.

Lemma handshake_completes_witness :
  exists wA wB,
    openAssoc ex_epA 5000 5000 1188 (world_of ex_sender) = Some (STATUS_SUCCESS, wA) /\
    openAssoc ex_epB 5000 5000 1188 (world_of ex_receiver) = Some (STATUS_SUCCESS, wB) /\
    forall n, nsteps (net_step ex_epA ex_epB) 8 {| endA := wA; endB := wB; gotA := 0; gotB := 0 |} n ->
      can_send (assoc (endA n)) /\ expects (peerVerificationTag (assoc (endA n))) (nextTsn (assoc (endA n))) (assoc (endB n)).
Proof.
  assert (Hm : 28 < 1188 <= SCTP_MAX_PACKET_SIZE) by (unfold SCTP_MAX_PACKET_SIZE; lia).
  pose proof (handshake_completes ex_epA ex_epB 5000 5000 1188 5000 5000 1188 (world_of ex_sender)
    (world_of ex_receiver) ex_memalloc_ok ex_memalloc_ok Hm Hm eq_refl eq_refl) as (wA & wB & EA & EB & H).
  exists wA, wB. split; [exact EA|]. split; [exact EB|]. intros n Hn.
  destruct (H 8%nat n Hn) as (_ & _ & Hr). destruct (Hr eq_refl) as [(_ & Hs & _ & He & _) _]. exact (conj Hs He).
Defined.
