(* ===== verification/SctpSession.v ===== *)
(** * SCTP sessions and the data channel establishment protocol (NativeSctp.c)

    A session owns an association, the DCEP packet buffer and the owner's
    callbacks.  The callbacks of the association are the bridges
    sctpOutboundBridge and sctpMessageBridge, which hand packets, messages and
    DATA_CHANNEL_OPEN requests to the owner unless the session is shutting down.
    The world of a session logs these calls.  The callbacks of the owner do not
    re-enter the session; the session lock serialises its operations. *)

From S2P Require Import Prelude Endian SctpPacket SctpAssoc SctpInvariant SctpTransfer.

(** ** Data *)

Definition SCTP_MTU : Z := 1150.
Definition SCTP_ASSOCIATION_DEFAULT_PORT : Z := 5000.
Definition SCTP_DCEP_HEADER_LENGTH : Z := 12.
Definition SCTP_DCEP_LABEL_LEN_OFFSET : Z := 8.
Definition SCTP_DCEP_LABEL_OFFSET : Z := 12.
Definition MAX_DATA_CHANNEL_NAME_LEN : Z := 255.
Definition MAX_DATA_CHANNEL_PROTOCOL_LEN : Z := 255.
Definition SCTP_MAX_ALLOWABLE_PACKET_LENGTH : Z :=
  SCTP_DCEP_HEADER_LENGTH + MAX_DATA_CHANNEL_NAME_LEN + MAX_DATA_CHANNEL_PROTOCOL_LEN + 2.

Definition SCTP_SESSION_ACTIVE : Z := 0.
Definition SCTP_SESSION_SHUTDOWN_INITIATED : Z := 1.
Definition SCTP_SESSION_SHUTDOWN_COMPLETED : Z := 2.

Definition SCTP_PPID_DCEP : Z := 50.
Definition SCTP_PPID_STRING : Z := 51.
Definition SCTP_PPID_BINARY : Z := 53.
Definition SCTP_PPID_STRING_EMPTY : Z := 56.
Definition SCTP_PPID_BINARY_EMPTY : Z := 57.

Definition DCEP_DATA_CHANNEL_OPEN : Z := 0x03.
Definition DCEP_DATA_CHANNEL_RELIABLE_ORDERED : Z := 0x00.
Definition DCEP_DATA_CHANNEL_RELIABLE_UNORDERED : Z := 0x80.
Definition DCEP_DATA_CHANNEL_REXMIT : Z := 0x01.
Definition DCEP_DATA_CHANNEL_TIMED : Z := 0x02.

Set Primitive Projections.
(** Which callbacks the owner registered. *)
Record SctpSessionCallbacks : Type := {
  outboundPacketFunc : bool; dataChannelOpenFunc : bool; dataChannelMessageFunc : bool;
}.

Record SctpSession : Type := {
  shutdownStatus : Z;
  association : SctpAssociation;
  packet : list Z;
  packetSize : Z;
  sctpSessionCallbacks : SctpSessionCallbacks;
}.

(** A NullableUint16 is an option. *)
Record RtcDataChannelInit : Type := {
  ordered : bool; maxPacketLifeTime : option Z; maxRetransmits : option Z;
  protocol : list Z; negotiated : bool;
}.

(** A call of one of the owner's callbacks. *)
Inductive SessionCall : Type :=
| OutboundPacket (pkt : list Z)
| DataChannelOpen (channelId : Z) (pName : ptr) (nameLen : Z)
| DataChannelMessage (channelId : Z) (isBinary : bool) (msg : list Z).

(** The session behind the owner's pointer, if any, the clock readings and
    allocations so far, and the calls of the callbacks. *)
Record SWorld : Type := {
  session : option SctpSession; sclock : nat; sallocs : nat; calls : list SessionCall;
}.
Unset Primitive Projections.

#[export] Instance upd_session : Update session. Proof. derive_update. Defined.
#[export] Instance upd_calls : Update calls. Proof. derive_update. Defined.
#[export] Instance upd_shutdownStatus : Update shutdownStatus. Proof. derive_update. Defined.
#[export] Instance upd_association : Update association. Proof. derive_update. Defined.
#[export] Instance upd_packet : Update packet. Proof. derive_update. Defined.
#[export] Instance upd_packetSize : Update packetSize. Proof. derive_update. Defined.
#[export] Instance upd_negotiated : Update negotiated. Proof. derive_update. Defined.

(** ** Bridges *)

Section Session.
Variable h : endian.
Variable gettime : nat -> Z.
Variable memalloc : nat -> Z -> option (list Z).

Definition active (s : SctpSession) : bool := shutdownStatus s =? SCTP_SESSION_ACTIVE.

Definition sctpOutboundBridge (s : SctpSession) (pkt : list Z) : list SessionCall :=
  if negb (active s) then []
  else if outboundPacketFunc (sctpSessionCallbacks s) then [OutboundPacket pkt] else [].

(** The status and the calls made; a call through a NULL pointer is a fault. *)
Definition handleDcepPacket (s : SctpSession) (streamId : Z) (data : list Z) (length : Z)
    : res (STATUS * list SessionCall) :=
  if negb (SCTP_DCEP_HEADER_LENGTH <? length) then Ok (STATUS_SUCCESS, []) else
  b0 ← ld data 0;
  if negb (b0 =? DCEP_DATA_CHANNEL_OPEN) then Ok (STATUS_SUCCESS, []) else
  labelLength ← native16 h data 8;
  protocolLength ← native16 h data 10;
  let labelLength := u16 (putInt16 (initializeEndianness h) (i16 labelLength)) in
  let protocolLength := u16 (putInt16 (initializeEndianness h) (i16 protocolLength)) in
  if negb (length <=? labelLength + protocolLength + SCTP_DCEP_HEADER_LENGTH)
  then Ok (STATUS_SCTP_INVALID_DCEP_PACKET, []) else
  if negb (length <=? SCTP_MAX_ALLOWABLE_PACKET_LENGTH)
  then Ok (STATUS_SCTP_INVALID_DCEP_PACKET, []) else
  if dataChannelOpenFunc (sctpSessionCallbacks s)
  then Ok (STATUS_SUCCESS, [DataChannelOpen streamId (Ptr data SCTP_DCEP_HEADER_LENGTH) labelLength])
  else Fault.

Definition sctpMessageBridge (s : SctpSession) (streamId ppid : Z) (payload : list Z)
    : res (list SessionCall) :=
  let message isBinary :=
    Ok (if dataChannelMessageFunc (sctpSessionCallbacks s)
        then [DataChannelMessage streamId isBinary payload] else []) in
  if negb (active s) then Ok []
  else if ppid =? SCTP_PPID_DCEP then
    '(_, cs) ← handleDcepPacket s streamId payload (blen payload); Ok cs
  else if (ppid =? SCTP_PPID_BINARY) || (ppid =? SCTP_PPID_BINARY_EMPTY) then message true
  else if (ppid =? SCTP_PPID_STRING) || (ppid =? SCTP_PPID_STRING_EMPTY) then message false
  else Ok [].

Definition bridge (s : SctpSession) (e : Event) : res (list SessionCall) :=
  match e with
  | EvPacket pkt => Ok (sctpOutboundBridge s pkt)
  | EvMessage stream ppid msg => sctpMessageBridge s stream ppid msg
  end.

Fixpoint bridgeAll (s : SctpSession) (es : list Event) : res (list SessionCall) :=
  match es with
  | [] => Ok []
  | e :: es => cs ← bridge s e; rest ← bridgeAll s es; Ok (cs ++ rest)
  end.

(** An operation on the session's association, with the bridges as callbacks. *)
Definition assocWorld (s : SctpSession) (w : SWorld) : World :=
  {| assoc := association s; clock := sclock w; allocs := sallocs w; events := [] |}.

Definition runAssoc {A} (m : ST World A) : ST SWorld A := fun w =>
  match session w with
  | None => None
  | Some s =>
      match m (assocWorld s w) with
      | None => None
      | Some (a, w') =>
          match bridgeAll s (events w') with
          | Ok cs =>
              Some (a, {| session := Some (s <| association := assoc w' |>); sclock := clock w';
                          sallocs := allocs w'; calls := calls w ++ cs |})
          | _ => None
          end
      end
  end.

Definition setSession (f : SctpSession -> SctpSession) : ST SWorld unit :=
  modify (fun w => w <| session := option_map f (session w) |>).

(** *ppSctpSession = pSctpSession *)
Definition setPointer (o : option SctpSession) : ST SWorld unit :=
  modify (fun w => w <| session := o |>).

(** ** Operations *)

(** MEMCALLOC's zeroes. *)
Definition zeroAssoc : SctpAssociation :=
  (initAssoc 0 0 0 0 0) <| cumulativeAckTsn := 0 |> <| ssthresh := 0 |> <| peerArwnd := 0 |>
    <| rtoMs := 0 |> <| advancedPeerAckPoint := 0 |>.
Definition zeroPacket : list Z := replicate (Z.to_nat SCTP_MAX_ALLOWABLE_PACKET_LENGTH) 0.

(** [hasPtr]: the argument ppSctpSession is not NULL. *)
Definition freeSctpSession (hasPtr : bool) : ST SWorld STATUS :=
  if negb hasPtr then mret STATUS_NULL_ARG else
  s ← gets session;
  match s with
  | None => mret STATUS_SUCCESS
  | Some s =>
      setSession (fun s => s <| shutdownStatus := SCTP_SESSION_SHUTDOWN_INITIATED |>);;
      (if state_eqb (state (association s)) SCTP_ASSOC_ESTABLISHED
       then runAssoc sctpAssocShutdown;; mret tt else mret tt);;
      runAssoc sctpAssocCleanup;;
      setSession (fun s => s <| shutdownStatus := SCTP_SESSION_SHUTDOWN_COMPLETED |>);;
      setPointer None;;
      mret STATUS_SUCCESS
  end.

(** The body of createSctpSession up to CleanUp; [allocated] tells whether MEMCALLOC
    returns a block. *)
Definition startSession (pSctpSessionCallbacks : option SctpSessionCallbacks) (hasPtr allocated : bool)
    : ST SWorld STATUS :=
  match pSctpSessionCallbacks with
  | Some cbs =>
      if negb hasPtr then mret STATUS_NULL_ARG
      else if negb allocated then mret STATUS_NOT_ENOUGH_MEMORY
      else
        setPointer (Some
          {| shutdownStatus := SCTP_SESSION_ACTIVE; association := zeroAssoc;
             packet := zeroPacket; packetSize := 0; sctpSessionCallbacks := cbs |});;
        runAssoc (sctpAssocInit gettime SCTP_ASSOCIATION_DEFAULT_PORT
                    SCTP_ASSOCIATION_DEFAULT_PORT SCTP_MTU);;
        runAssoc (sctpAssocConnect gettime)
  | None => mret STATUS_NULL_ARG
  end.

(** The session pointer is stored through ppSctpSession in every case. *)
Definition createSctpSession (pSctpSessionCallbacks : option SctpSessionCallbacks) (hasPtr allocated : bool)
    : ST SWorld STATUS :=
  setPointer None;;
  st ← startSession pSctpSessionCallbacks hasPtr allocated;
  (if STATUS_FAILED st then freeSctpSession true;; mret tt else mret tt);;
  if hasPtr then mret st else lift Fault.

(** The operations below take the session pointer of the world. *)
Definition withActive (k : ST SWorld STATUS) : ST SWorld STATUS :=
  s ← gets session;
  match s with
  | None => mret STATUS_NULL_ARG
  | Some s => if negb (active s) then mret STATUS_SUCCESS else k
  end.

Definition putSctpPacket (buf : option (list Z)) (bufLen : Z) : ST SWorld STATUS :=
  withActive
    (nowMs ← runAssoc (SCTP_NOW_MS gettime);
     runAssoc (sctpAssocCheckTimers nowMs);;
     runAssoc (sctpAssocHandlePacket h gettime memalloc true buf bufLen)).

Definition sctpSessionTickTimers : ST SWorld STATUS :=
  withActive
    (nowMs ← runAssoc (SCTP_NOW_MS gettime);
     runAssoc (sctpAssocCheckTimers nowMs);;
     mret STATUS_SUCCESS).

(** The channel parameters as sctpSessionWriteMessage reads them: unordered,
    maximum number of retransmissions, lifetime. *)
Definition channelParameters (packet : list Z) : res (bool * Z * Z) :=
  b1 ← ld packet 1;
  let has flag := negb (Z.land b1 flag =? 0) in
  mr ← (if has DCEP_DATA_CHANNEL_REXMIT
        then v ← getUnalignedInt32Be packet 4; Ok (u16 v) else Ok 0xFFFF);
  lt ← (if has DCEP_DATA_CHANNEL_TIMED
        then v ← getUnalignedInt32Be packet 4; Ok (u64 v) else Ok 0);
  Ok (has DCEP_DATA_CHANNEL_RELIABLE_UNORDERED, mr, lt).

Definition sctpSessionWriteMessage (streamId : Z) (isBinary : bool) (pMessage : option (list Z))
    (pMessageLen : Z) : ST SWorld STATUS :=
  s ← gets session;
  match s, pMessage with
  | Some s, Some message =>
      if negb (active s) then mret STATUS_SUCCESS else
      '(unordered, mr, lt) ← lift (channelParameters (packet s));
      runAssoc (sctpAssocSend gettime memalloc (u16 streamId)
                  (if isBinary then SCTP_PPID_BINARY else SCTP_PPID_STRING)
                  unordered (Ptr message 0) pMessageLen mr lt)
  | _, _ => mret STATUS_NULL_ARG
  end.

(** The DATA_CHANNEL_OPEN message in the packet buffer. *)
Definition dcepOpen (name : list Z) (nameLen : Z) (init : RtcDataChannelInit) : res (list Z) :=
  buf ← put8 zeroPacket 0 DCEP_DATA_CHANNEL_OPEN;
  buf ← put8 buf 1 DCEP_DATA_CHANNEL_RELIABLE_ORDERED;
  let orType buf flag := t ← ld buf 1; put8 buf 1 (Z.lor t flag) in
  buf ← (if negb (ordered init) then orType buf DCEP_DATA_CHANNEL_RELIABLE_UNORDERED else Ok buf);
  buf ← match maxRetransmits init, maxPacketLifeTime init with
        | Some v, _ =>
            buf ← orType buf DCEP_DATA_CHANNEL_REXMIT; putUnalignedInt32Be buf 4 (i32 v)
        | None, Some v =>
            buf ← orType buf DCEP_DATA_CHANNEL_TIMED; putUnalignedInt32Be buf 4 (i32 v)
        | None, None => Ok buf
        end;
  buf ← putUnalignedInt16Be buf SCTP_DCEP_LABEL_LEN_OFFSET (i16 nameLen);
  bs ← pld_bytes (Ptr name 0) nameLen;
  put_bytes buf SCTP_DCEP_LABEL_OFFSET bs.

Definition sctpSessionWriteDcep (streamId : Z) (pChannelName : option (list Z)) (pChannelNameLen : Z)
    (init : RtcDataChannelInit) : ST SWorld STATUS :=
  s ← gets session;
  match s, pChannelName with
  | Some _, Some name =>
      buf ← lift (dcepOpen name pChannelNameLen init);
      let size := SCTP_DCEP_HEADER_LENGTH +32 pChannelNameLen in
      setSession (fun s => s <| packet := buf |> <| packetSize := size |>);;
      runAssoc (sctpAssocSend gettime memalloc (u16 streamId) SCTP_PPID_DCEP false
                  (Ptr buf 0) size 0xFFFF 0)
  | _, _ => mret STATUS_NULL_ARG
  end.
End Session.

(** ** Timers leave the receive side alone *)

Definition rxfields (a : SctpAssociation) :=
  (rview a, (reassemblyBuf a, reassemblyLen a, reassemblyStreamId a, reassemblyPpid a, reassemblyInProgress a)).
Definition rxside (w : World) := (rxfields (assoc w), messages w).

Lemma frames_setA f : (forall a, rxfields (f a) = rxfields a) -> frames rxside (setA f).
Proof. intros Hf. apply frames_modify. intros w. unfold rxside. cbn [assoc]. by rewrite <- (Hf (assoc w)). Qed.

Lemma frames_emit pkt : frames rxside (emit (EvPacket pkt)).
Proof.
  apply frames_modify. intros w. unfold rxside, messages.
  f_equal. etrans; [apply List.filter_app|apply app_nil_r].
Qed.

Ltac frame_steps := repeat (frame_step || (apply frames_setA; intros ?; done)).

Lemma frames_sendChunk vtag writer : frames rxside (sendChunk vtag writer).
Proof. unfold sendChunk, beginPacket, addChunk, sctpSendPacket. frame_steps. apply frames_emit. Qed.

Lemma frames_t3Loop k now i : frames rxside (t3Loop k now i).
Proof.
  revert i. induction k as [|k IH]; intros i; cbn [t3Loop]; frame_steps; auto using frames_sendChunk.
Qed.

Lemma frames_checkT3 now : frames rxside (checkT3 now).
Proof.
  unfold checkT3. frame_steps; auto using frames_t3Loop, frames_sendChunk.
  apply frames_setA. intros a'. by destruct (0 <? outstandingCount a').
Qed.

Lemma sctpAssocCheckTimers_rx now w :
  Inv (assoc w) -> t1InitExpiry (assoc w) = 0 ->
  wp (sctpAssocCheckTimers now) (fun st w' => ok st w' /\ rxside w' = rxside w) w.
Proof.
  intros HI Ht. pose proof (sctpAssocCheckTimers_wp now w HI) as Hw. revert Hw.
  unfold sctpAssocCheckTimers, checkT1. intros Hw. apply wp_bind, wp_bind, wp_gets. rewrite Ht.
  apply wp_ret.
  assert (Hf : frames rxside (when true (checkT3 now);; mret STATUS_SUCCESS)).
  { frame_steps. apply frames_checkT3. }
  apply wp_frames; [exact Hf|]. revert Hw. unfold wp, mbind, ST_bind, gets. rewrite Ht. done.
Qed.

(** ** The bridges *)

Definition isData (c : SessionCall) : bool := match c with OutboundPacket _ => false | _ => true end.
(** What the owner was told, apart from the packets to send. *)
Definition dataCalls (w : SWorld) : list SessionCall := List.filter isData (calls w).

Section Bridges.
Context (h : endian).

(** The answer to a DCEP message, by its network-order fields. *)
Lemma handleDcepPacket_fields s sid data label protocol :
  bytes_ok data -> SCTP_DCEP_HEADER_LENGTH < blen data ->
  rd16 data 8 = Ok label -> rd16 data 10 = Ok protocol ->
  handleDcepPacket h s sid data (blen data) =
    (b0 ← ld data 0;
     if negb (b0 =? DCEP_DATA_CHANNEL_OPEN) then Ok (STATUS_SUCCESS, []) else
     if negb (blen data <=? label + protocol + SCTP_DCEP_HEADER_LENGTH)
     then Ok (STATUS_SCTP_INVALID_DCEP_PACKET, []) else
     if negb (blen data <=? SCTP_MAX_ALLOWABLE_PACKET_LENGTH)
     then Ok (STATUS_SCTP_INVALID_DCEP_PACKET, []) else
     if dataChannelOpenFunc (sctpSessionCallbacks s)
     then Ok (STATUS_SUCCESS, [DataChannelOpen sid (Ptr data SCTP_DCEP_HEADER_LENGTH) label])
     else Fault).
Proof.
  intros Hb Hl H8 H10. unfold handleDcepPacket. rewrite (proj2 (Z.ltb_lt _ _)) by done. cbn [negb].
  destruct (putInt16_native h _ _ _ Hb H8) as (x & -> & Ex). destruct (putInt16_native h _ _ _ Hb H10) as (y & -> & Ey).
  destruct (ld data 0) as [b0| |]; [|done..]. cbn [mbind res_bind]. by rewrite Ex, Ey.
Qed.

Lemma native16_in b o : 0 <= o -> o + 2 <= blen b -> exists v, native16 h b o = Ok v.
Proof.
  intros Ho Hl. unfold native16. destruct (ld_in b o) as (x & -> & _); [lia|].
  destruct (ld_in b (o + 1)) as (y & -> & _); [lia|]. eexists. done.
Qed.

Lemma bridge_total s e :
  dataChannelOpenFunc (sctpSessionCallbacks s) = true ->
  exists cs, bridge h s e = Ok cs /\
    match e with
    | EvPacket _ => List.filter isData cs = []
    | EvMessage _ _ _ => List.filter isData cs = cs
    end.
Proof.
  intros Hopen. destruct e as [pkt|sid ppid msg]; cbn [bridge].
  { unfold sctpOutboundBridge. repeat case_match; eauto. }
  unfold sctpMessageBridge.
  repeat case_match; try by (eexists; split; [done|]; reflexivity).
  destruct (decide (SCTP_DCEP_HEADER_LENGTH < blen msg)) as [Hl|Hl].
  2:{ exists []. unfold handleDcepPacket. by rewrite (proj2 (Z.ltb_ge _ _)) by lia. }
  unfold handleDcepPacket. rewrite (proj2 (Z.ltb_lt _ _)) by done. unfold SCTP_DCEP_HEADER_LENGTH in Hl.
  destruct (ld_in msg 0) as (b0 & -> & _); [lia|]. destruct (native16_in msg 8) as [l ->]; [lia..|].
  destruct (native16_in msg 10) as [q ->]; [lia..|]. rewrite Hopen. cbn [negb mbind res_bind].
  repeat case_match; eauto.
Qed.

Lemma bridgeAll_app s e1 e2 :
  bridgeAll h s (e1 ++ e2) = (c1 ← bridgeAll h s e1; c2 ← bridgeAll h s e2; Ok (c1 ++ c2)).
Proof.
  induction e1 as [|e e1 IH]; cbn [app bridgeAll].
  { destruct (bridgeAll h s e2); done. }
  destruct (bridge h s e); [|done..]. cbn [mbind res_bind]. rewrite IH.
  destruct (bridgeAll h s e1); [|done..]. destruct (bridgeAll h s e2); [|done..]. cbn. by rewrite (assoc_L (++)).
Qed.

(** What the owner is told are the messages among the events. *)
Lemma bridgeAll_messages s es :
  dataChannelOpenFunc (sctpSessionCallbacks s) = true ->
  exists cs cs', bridgeAll h s es = Ok cs /\ bridgeAll h s (List.filter isMessage es) = Ok cs' /\
    List.filter isData cs = cs'.
Proof.
  intros Hopen. induction es as [|e es (cs & cs' & E & E' & IH)]; [by exists [], []|].
  destruct (bridge_total s e Hopen) as (c & Ec & Hc).
  destruct e as [pkt|sid ppid msg]; cbn [bridgeAll List.filter isMessage]; rewrite Ec, E; cbn [mbind res_bind].
  - exists (c ++ cs), cs'. split; [done|]. split; [done|]. by rewrite List.filter_app, Hc, IH.
  - exists (c ++ cs), (c ++ cs'). rewrite E'. split; [done|]. split; [done|]. by rewrite List.filter_app, Hc, IH.
Qed.
End Bridges.

(** ** Operations of the association in a session *)

(** The session's association satisfies its invariant, its buffer is a DCEP buffer
    and the owner takes new channels. *)
Record session_ok (s : SctpSession) : Prop := {
  sok_assoc : Inv (association s);
  sok_packet : blen (packet s) = SCTP_MAX_ALLOWABLE_PACKET_LENGTH;
  sok_open : dataChannelOpenFunc (sctpSessionCallbacks s) = true;
}.

(** The world after an operation of session [s] on its association that ended in [w']. *)
Definition afterRun (s : SctpSession) (w : SWorld) (w' : World) (cs : list SessionCall) : SWorld :=
  {| session := Some (s <| association := assoc w' |>); sclock := clock w'; sallocs := allocs w';
     calls := calls w ++ cs |}.

Lemma runAssoc_wp h {A} (m : ST World A) s w (Q : A -> SWorld -> Prop) :
  session w = Some s -> dataChannelOpenFunc (sctpSessionCallbacks s) = true ->
  wp m (fun a w' => forall cs, bridgeAll h s (events w') = Ok cs -> Q a (afterRun s w w' cs)) (assocWorld s w) ->
  wp (runAssoc h m) Q w.
Proof.
  intros Es Hopen. unfold runAssoc, wp. rewrite Es. destruct (m (assocWorld s w)) as [[a w']|]; [|done].
  destruct (bridgeAll_messages h s (events w') Hopen) as (cs & _ & -> & _). intros HQ. exact (HQ cs eq_refl).
Qed.

Lemma runAssoc_inv h {A} (m : ST World A) s w a w' :
  session w = Some s -> runAssoc h m w = Some (a, w') ->
  exists a', session w' = Some (s <| association := a' |>).
Proof.
  intros Es. unfold runAssoc. rewrite Es. destruct (m _) as [[x w1]|]; [|done].
  destruct (bridgeAll _ _ _); [|done..]. intros [= _ <-]. by eexists.
Qed.

Lemma gets_session_eq (k : option SctpSession -> ST SWorld STATUS) o w :
  session w = o -> (gets session ≫= k) w = k o w.
Proof. by intros <-. Qed.

Lemma gets_session (k : option SctpSession -> ST SWorld STATUS) o w Q :
  session w = o -> wp (k o) Q w -> wp (gets session ≫= k) Q w.
Proof. intros Es. unfold wp. by rewrite (gets_session_eq _ _ _ Es). Qed.

Lemma withActive_wp (k : ST SWorld STATUS) s w Q :
  session w = Some s -> shutdownStatus s = SCTP_SESSION_ACTIVE -> wp k Q w -> wp (withActive k) Q w.
Proof. intros Es Ha Hk. eapply gets_session; [exact Es|]. unfold active. by rewrite Ha. Qed.

Lemma afterRun_ok s w w' cs :
  session_ok s -> Inv (assoc w') ->
  exists s', session (afterRun s w w' cs) = Some s' /\ session_ok s' /\ shutdownStatus s' = shutdownStatus s.
Proof. intros [H1 H2 H3] HI. eexists. split; [reflexivity|]. by split. Qed.

(** The data calls of a run are those of the messages it delivered. *)
Lemma afterRun_data h s w w' cs ds :
  dataChannelOpenFunc (sctpSessionCallbacks s) = true -> bridgeAll h s (events w') = Ok cs ->
  bridgeAll h s (messages w') = Ok ds -> dataCalls (afterRun s w w' cs) = dataCalls w ++ ds.
Proof.
  intros Hopen Ecs Eds. destruct (bridgeAll_messages h s (events w') Hopen) as (? & ? & E1 & E2 & Ef).
  unfold messages in Eds. rewrite Ecs in E1. rewrite Eds in E2. injection E1 as <-. injection E2 as <-.
  unfold dataCalls. change (calls (afterRun s w w' cs)) with (calls w ++ cs). by rewrite List.filter_app, Ef.
Qed.

(** *** Operations that deliver nothing *)

Lemma messages_setA f : frames messages (setA f).
Proof. by apply frames_modify. Qed.
Lemma messages_emit pkt : frames messages (emit (EvPacket pkt)).
Proof. apply frames_modify. intros w. unfold messages. etrans; [apply List.filter_app|apply app_nil_r]. Qed.
Lemma messages_clock gettime : frames messages (GETTIME gettime).
Proof. by intros w a w' [= _ <-]. Qed.
Lemma messages_alloc memalloc n : frames messages (MEMALLOC memalloc n).
Proof. by intros w a w' [= _ <-]. Qed.
Lemma messages_rx {A} (m : ST World A) : frames rxside m -> frames messages m.
Proof. intros Hm w a w' E. apply Hm in E. by injection E. Qed.

Ltac quiet_steps :=
  repeat first
    [ frame_step | apply messages_setA | apply messages_emit | apply messages_clock | apply messages_alloc
    | apply messages_rx, frames_sendChunk ].

Section Quiet.
Context (gettime : nat -> Z) (memalloc : nat -> Z -> option (list Z)).

Lemma messages_queuePending sid ppid un p n mr lt : frames messages (queuePending memalloc sid ppid un p n mr lt).
Proof. unfold queuePending, copyPayload. quiet_steps. Qed.

Lemma messages_fragmentLoop fuel sid ssn ppid un p mr lt now m rem off first :
  frames messages (fragmentLoop memalloc fuel sid ssn ppid un p mr lt now m rem off first).
Proof.
  revert rem off first. induction fuel as [|fuel IH]; intros rem off first; cbn [fragmentLoop].
  - apply frames_if; [|apply frames_ret]. by intros w a w'.
  - unfold takeTsn, fillOutstanding, copyPayload. quiet_steps. apply IH.
Qed.

Lemma messages_send sid ppid un p n mr lt : frames messages (sctpAssocSend gettime memalloc sid ppid un p n mr lt).
Proof.
  unfold sctpAssocSend, SCTP_NOW_MS, queueUnsent, takeSsn, revertSsn, takeTsn, fillOutstanding, copyPayload, startT3.
  quiet_steps; auto using messages_queuePending, messages_fragmentLoop.
Qed.

Lemma messages_init l r m : frames messages (sctpAssocInit gettime l r m).
Proof. unfold sctpAssocInit, sctpGenerateTag. quiet_steps. Qed.

Lemma messages_connect : frames messages (sctpAssocConnect gettime).
Proof. unfold sctpAssocConnect, sendInit, SCTP_NOW_MS. quiet_steps. Qed.
End Quiet.

(** The owner of a session hears nothing of such an operation. *)
Lemma runAssoc_quiet h {A} (m : ST World A) s w (Q : A -> SWorld -> Prop) :
  frames messages m -> session w = Some s -> dataChannelOpenFunc (sctpSessionCallbacks s) = true ->
  wp m (fun a w' => forall cs, dataCalls (afterRun s w w' cs) = dataCalls w -> Q a (afterRun s w w' cs)) (assocWorld s w) ->
  wp (runAssoc h m) Q w.
Proof.
  intros Hf Es Ho Hm. eapply runAssoc_wp; [done|done|]. apply (wp_frames _ _ _ _ Hf) in Hm.
  eapply wp_mono; [exact Hm|]. intros a w' [HQ Hmw] cs Hcs. apply HQ.
  rewrite (afterRun_data h _ _ _ _ []); [by rewrite app_nil_r|done|done|]. by rewrite Hmw.
Qed.

Section Safety.
Context (h : endian) (gettime : nat -> Z).

Lemma runAssoc_ok {A} (m : ST World A) (P : A -> Prop) w s :
  session w = Some s -> session_ok s ->
  (forall w0, Inv (assoc w0) -> wp m (fun a w' => P a /\ Inv (assoc w')) w0) ->
  wp (runAssoc h m) (fun a w' => P a /\ exists s', session w' = Some s' /\ session_ok s' /\
    shutdownStatus s' = shutdownStatus s) w.
Proof.
  intros Es Hs Hm. eapply runAssoc_wp; [exact Es|apply Hs|].
  eapply wp_mono; [apply Hm; apply Hs|]. intros a w' [HP HI] cs _. split; [done|]. by apply afterRun_ok.
Qed.

Lemma session_timers {A} (k : ST SWorld A) Q w s :
  session w = Some s -> session_ok s ->
  (forall w' s', session w' = Some s' -> session_ok s' -> wp k Q w') ->
  wp (nowMs ← runAssoc h (SCTP_NOW_MS gettime); runAssoc h (sctpAssocCheckTimers nowMs);; k) Q w.
Proof.
  intros Es Hs Hk. apply wp_bind. eapply wp_mono.
  { apply (runAssoc_ok _ (fun _ => True) _ _ Es Hs). intros w0 HI. by apply wp_now. }
  intros now w1 (_ & s1 & Es1 & Hs1 & _). apply wp_bind. eapply wp_mono.
  { apply (runAssoc_ok _ (fun _ => True) _ _ Es1 Hs1). intros w0 HI.
    eapply wp_mono; [by apply sctpAssocCheckTimers_wp|]. by intros ? ? [_ ?]. }
  intros st w2 (_ & s2 & Es2 & Hs2 & _). by eapply Hk.
Qed.
End Safety.

(** ** The DATA_CHANNEL_OPEN message *)

Definition dcepType (init : RtcDataChannelInit) : Z :=
  (if ordered init then 0 else 0x80) +
  match maxRetransmits init, maxPacketLifeTime init with Some _, _ => 1 | None, Some _ => 2 | None, None => 0 end.
Definition reliability (init : RtcDataChannelInit) : Z :=
  match maxRetransmits init, maxPacketLifeTime init with Some v, _ => v | None, Some v => v | None, None => 0 end.
Definition dcepMessage (name : list Z) (init : RtcDataChannelInit) : list Z :=
  [DCEP_DATA_CHANNEL_OPEN; dcepType init; 0; 0] ++ be32 (reliability init) ++ be16 (blen name) ++ [0; 0] ++ name.

Lemma blen_dcepMessage name init : blen (dcepMessage name init) = 12 + blen name.
Proof. unfold dcepMessage. blen_lia. Qed.

Lemma dcepMessage_ok name init : bytes_ok name -> bytes_ok (dcepMessage name init).
Proof.
  intros Hn. unfold dcepMessage. rewrite !bytes_ok_app. split_and!; auto using be16_ok, be32_ok.
  - unfold dcepType. repeat constructor; repeat case_match; vm_compute; congruence.
  - by apply bytes_ok_check.
Qed.

(** The packet buffer while the open message is written: type, reliability and the rest. *)
Definition dcepBuf (t : Z) (rel : list Z) : list Z :=
  [DCEP_DATA_CHANNEL_OPEN; t; 0; 0] ++ rel ++ [0; 0] ++ [0; 0] ++ replicate 512 0.

Lemma dcepBuf_type t rel flag :
  (x ← ld (dcepBuf t rel) 1; put8 (dcepBuf t rel) 1 (Z.lor x flag)) = Ok (dcepBuf (u8 (Z.lor t flag)) rel).
Proof. apply (put_bytes_app [DCEP_DATA_CHANNEL_OPEN] [t] ([0; 0] ++ rel ++ _) [u8 (Z.lor t flag)]); done. Qed.

Lemma dcepBuf_rel t v : putUnalignedInt32Be (dcepBuf t [0; 0; 0; 0]) 4 (i32 v) = Ok (dcepBuf t (be32 v)).
Proof. rewrite put32Be_bytes. unfold dcepBuf. by rewrite put_bytes_app. Qed.

Lemma dcepBuf_label t rel name :
  blen rel = 4 -> blen name <= 512 ->
  (buf ← putUnalignedInt16Be (dcepBuf t rel) SCTP_DCEP_LABEL_LEN_OFFSET (i16 (blen name));
   bs ← pld_bytes (Ptr name 0) (blen name);
   put_bytes buf SCTP_DCEP_LABEL_OFFSET bs)
  = Ok (([DCEP_DATA_CHANNEL_OPEN; t; 0; 0] ++ rel ++ be16 (blen name) ++ [0; 0] ++ name)
        ++ drop (length name) (replicate 512 0)).
Proof.
  intros Hr Hn. unfold dcepBuf. rewrite put16Be_bytes, (assoc_L (++) _ rel), put_bytes_app; [|rewrite blen_app, Hr; done|done].
  cbn [mbind res_bind]. rewrite pld_bytes_whole by done. cbn [mbind res_bind].
  rewrite !(assoc_L (++)), put_bytes_at; [|rewrite !blen_app, blen_be16, Hr; done|exact Hn].
  by rewrite <- !(assoc_L (++)), <- length_blen.
Qed.

Lemma dcepOpen_eq name init :
  blen name <= 512 ->
  dcepOpen name (blen name) init = Ok (dcepMessage name init ++ drop (length name) (replicate 512 0)).
Proof.
  intros Hn. unfold dcepOpen.
  change (put8 zeroPacket 0 DCEP_DATA_CHANNEL_OPEN) with (Ok (dcepBuf 0 [0; 0; 0; 0])). cbn [mbind res_bind].
  change (put8 (dcepBuf 0 [0; 0; 0; 0]) 1 DCEP_DATA_CHANNEL_RELIABLE_ORDERED) with (Ok (dcepBuf 0 [0; 0; 0; 0])).
  cbn [mbind res_bind]. cbv zeta.
  unfold dcepMessage, dcepType, reliability. destruct init as [[] [lt|] [mr|] ? ?]; cbn [ordered maxRetransmits maxPacketLifeTime negb].
  all: cbn [mbind res_bind]; repeat (rewrite dcepBuf_type; cbn [mbind res_bind]); try (rewrite dcepBuf_rel; cbn [mbind res_bind]).
  all: by rewrite dcepBuf_label.
Qed.

Lemma channelParameters_open name init buf :
  bytes_ok name -> blen name <= 512 -> (forall v, maxRetransmits init = Some v -> is_u16 v) ->
  (forall v, maxPacketLifeTime init = Some v -> is_u16 v) ->
  dcepOpen name (blen name) init = Ok buf ->
  channelParameters buf = Ok (negb (ordered init), default 0xFFFF (maxRetransmits init),
    match maxRetransmits init with Some _ => 0 | None => default 0 (maxPacketLifeTime init) end).
Proof.
  intros Hb Hn Hm Hl E. rewrite dcepOpen_eq in E by done.
  assert (buf = dcepMessage name init ++ drop (length name) (replicate 512 0)) as -> by congruence. clear E.
  set (rest := drop (length name) (replicate 512 0)).
  assert (Hok : bytes_ok (dcepMessage name init ++ rest)).
  { apply bytes_ok_app. split; [by apply dcepMessage_ok|]. by apply bytes_ok_drop, bytes_ok_check. }
  assert (Hrd : forall v, reliability init = v -> is_u16 v ->
    getUnalignedInt32Be (dcepMessage name init ++ rest) 4 = Ok v).
  { intros v Ev Hv. rewrite get32Be_rd32 by done. unfold dcepMessage. rewrite <- !(assoc_L (++)), rd32_app by done.
    cbn [mbind res_bind]. f_equal. rewrite Ev. unfold is_u16 in Hv. width_lia. }
  assert (H1 : ld (dcepMessage name init ++ rest) 1 = Ok (dcepType init)) by reflexivity.
  revert Hrd H1. generalize (dcepMessage name init ++ rest) as buf. intros buf Hrd H1.
  unfold channelParameters. rewrite H1. cbn [mbind res_bind]. unfold dcepType. unfold reliability in Hrd.
  clear Hok H1.
  destruct init as [[] [lt|] [mr|] ? ?]; cbn [ordered maxRetransmits maxPacketLifeTime default negb] in *.
  all: cbn -[u16 u64]; rewrite ?(Hrd _ eq_refl) by auto; cbn [mbind res_bind]; do 2 f_equal.
  all: try (rewrite u16_id; [done|by auto]). all: try (rewrite u64_id; [done|]).
  all: specialize (Hl _ eq_refl); unfold is_u16, is_u64 in *; lia.
Qed.

(** ** Receiving through a session *)

Section Receiver.
Context (h : endian) (gettime : nat -> Z) (memalloc : nat -> Z -> option (list Z)).
Hypothesis Hmem : alloc_ok memalloc.
Hypothesis Halloc : forall k, is_Some (memalloc k SCTP_MAX_REASSEMBLY_SIZE).
Context (src dst vtag sid ssn ppid : Z) (un : bool) (cbs : SctpSessionCallbacks) (base : list SessionCall).
Hypothesis Hopen : dataChannelOpenFunc cbs = true.
Hypothesis Hvt : is_u32 vtag.
Hypothesis Hsid : is_u16 sid.
Hypothesis Hssn : is_u16 ssn.
Hypothesis Hppid : is_u32 ppid.

(** What the bridges tell the owner of the messages [msgs]. *)
Definition told (msgs : list Event) (w : SWorld) : Prop :=
  exists s ds, session w = Some s /\ bridgeAll h s msgs = Ok ds /\ dataCalls w = base ++ ds.

(** An active session whose association expects [tsn], in the middle of a message when
    [part] is its beginning, and which has told its owner of the messages [msgs]. *)
Definition session_receiving (tsn : Z) (part : option (list Z)) (msgs : list Event) (w : SWorld) : Prop :=
  told msgs w /\
  exists s, session w = Some s /\ shutdownStatus s = SCTP_SESSION_ACTIVE /\ sctpSessionCallbacks s = cbs /\
    receiving vtag sid ppid 0 tsn part (association s).

Lemma bridgeAll_ext s s' es :
  shutdownStatus s' = shutdownStatus s -> sctpSessionCallbacks s' = sctpSessionCallbacks s ->
  bridgeAll h s' es = bridgeAll h s es.
Proof.
  intros E1 E2. induction es as [|e es IH]; [done|]. cbn [bridgeAll]. rewrite IH. f_equal.
  destruct e; cbn [bridge]; unfold sctpOutboundBridge, sctpMessageBridge, handleDcepPacket, active; by rewrite E1, E2.
Qed.

(** One operation of the association: it delivers the messages [new]. *)
Lemma receiving_run {A} (m : ST World A) (P : A -> Prop) tsn tsn' part part' msgs new w :
  session_receiving tsn part msgs w ->
  (forall w0, events w0 = [] -> receiving vtag sid ppid 0 tsn part (assoc w0) ->
     wp m (fun a w' => P a /\ receiving vtag sid ppid 0 tsn' part' (assoc w') /\ messages w' = new) w0) ->
  wp (runAssoc h m) (fun a w' => P a /\ session_receiving tsn' part' (msgs ++ new) w') w.
Proof.
  intros [(s0 & ds & Es0 & Ed & Ecs) (s & Es & Ha & Hc & Hr)] Hm. rewrite Es0 in Es. injection Es as ->.
  assert (Ho : dataChannelOpenFunc (sctpSessionCallbacks s) = true) by by rewrite Hc.
  eapply runAssoc_wp; [done|done|]. eapply wp_mono; [by apply Hm|].
  intros a w' (HP & Hr' & Hnew) cs Hcs. split; [done|].
  destruct (bridgeAll_messages h s (events w') Ho) as (cs1 & ds1 & E1 & E2 & _).
  split; [|by eexists; split; [reflexivity|]].
  eexists _, (ds ++ ds1). split; [reflexivity|]. split.
  - rewrite (bridgeAll_ext s) by done. rewrite bridgeAll_app, Ed. cbn [mbind res_bind]. rewrite <- Hnew.
    unfold messages. by rewrite E2.
  - rewrite (afterRun_data h _ _ _ _ ds1) by done. by rewrite Ecs, (assoc_L (++)).
Qed.

Lemma receiving_rx t1 tsn part w w' :
  rxside w' = rxside w -> Inv (assoc w') -> receiving vtag sid ppid t1 tsn part (assoc w) ->
  receiving vtag sid ppid t1 tsn part (assoc w') /\ messages w' = messages w.
Proof.
  intros Hrx HI (_ & Hex & Ht & Hp). unfold rxside, rxfields in Hrx.
  injection Hrx as E1 E2 E3 E4 E5 E6 E7 E8 E9 E10 E11 E12 E13 E14 E15.
  split; [|done]. split; [done|]. unfold expects, reassembling in *.
  rewrite E1, E4, E6, E7, E8, E9. split; [done|]. split; [done|]. by rewrite E10, E11, E12, E13, E14.
Qed.

Lemma put_fragment (first last : bool) acc tsn fr pad msgs w :
  let pk := sctp_packet src dst vtag (data_chunk (fragFlagsOf first last un) tsn sid ssn ppid fr ++ pad) in
  bytes_ok pad -> blen pad = SCTP_PAD4 (16 + blen fr) - (16 + blen fr) -> fragment_ok fr ->
  (first = true -> acc = []) -> blen acc + blen fr <= SCTP_MAX_REASSEMBLY_SIZE -> is_u32 tsn ->
  session_receiving tsn (if first then None else Some acc) msgs w ->
  wp (putSctpPacket h gettime memalloc (Some pk) (blen pk)) (fun st w' => st = STATUS_SUCCESS /\
    session_receiving (tsn +32 1) (if last then None else Some (acc ++ fr))
      (msgs ++ (if last then [EvMessage sid ppid (acc ++ fr)] else [])) w') w.
Proof.
  intros pk Hpb Hpl Hf Hacc Htot Ht HR. set (part := if first then None else Some acc) in *.
  pose proof HR as [_ (s & Es & Ha & _)]. eapply withActive_wp; [done..|].
  apply wp_bind. eapply wp_mono.
  { apply (receiving_run _ (fun _ => True) tsn tsn part part msgs [] _ HR). intros w0 Ee Hr. apply wp_now. intros t.
    split; [done|]. split; [exact Hr|]. change (List.filter isMessage (events w0) = []). by rewrite Ee. }
  intros now w1 [_ HR1]. rewrite app_nil_r in HR1. apply wp_bind. eapply wp_mono.
  { apply (receiving_run _ (fun _ => True) tsn tsn part part msgs [] _ HR1). intros w0 Ee Hr.
    eapply wp_mono; [apply sctpAssocCheckTimers_rx; apply Hr|]. intros st w2 [[_ HI2] Hrx]. split; [done|].
    destruct (receiving_rx _ _ _ _ _ Hrx HI2 Hr) as [? ->]. split; [done|]. unfold messages. by rewrite Ee. }
  intros ? w2 [_ HR2]. rewrite app_nil_r in HR2.
  apply (receiving_run _ (fun st => st = STATUS_SUCCESS) tsn _ part _ msgs _ _ HR2). intros w0 Ee Hr.
  eapply wp_mono; [by apply (handle_fragment h gettime memalloc true Hmem src dst vtag sid ssn ppid un) with (t1 := 0) (first := first) (acc := acc)|].
  intros st w' (-> & Hr' & ->). split; [done|]. split; [done|]. unfold messages. by rewrite Ee.
Qed.

(** The packets of a message, put one after the other. *)
Lemma put_message tsn frs pks w s :
  session w = Some s -> shutdownStatus s = SCTP_SESSION_ACTIVE -> sctpSessionCallbacks s = cbs ->
  Inv (association s) -> t1InitExpiry (association s) = 0 -> expects vtag tsn (association s) ->
  base = dataCalls w ->
  frag_packets src dst vtag sid ssn ppid un true true tsn frs pks -> frs <> [] ->
  Forall fragment_ok frs -> blen (concat frs) <= SCTP_MAX_REASSEMBLY_SIZE -> is_u32 tsn ->
  wp (feed (fun pk => putSctpPacket h gettime memalloc (Some pk) (blen pk)) pks) (fun st w' =>
    st = STATUS_SUCCESS /\
    exists s' ds, session w' = Some s' /\ shutdownStatus s' = shutdownStatus s /\
      sctpSessionCallbacks s' = sctpSessionCallbacks s /\
      bridge h s (EvMessage sid ppid (concat frs)) = Ok ds /\ dataCalls w' = dataCalls w ++ ds) w.
Proof.
  intros Es Ha Hc HI Ht1 Hex Hbase Hpk Hne Hok Htot Ht. eapply wp_mono.
  { apply (feed_message _ src dst vtag sid ssn ppid un session_receiving) with (first := true) (acc := []) (frs := frs) (msgs := []) (tsn := tsn);
      try done.
    - intros first last acc tsn' fr pad msgs w'. apply put_fragment.
    - split; [exists s, []; rewrite app_nil_r; by split_and!|]. exists s. by split_and!. }
  intros st w' (-> & (s' & ds & Es' & Ed & Ecs) & (s2 & Es2 & Ha2 & Hc2 & _)). split; [done|].
  rewrite Es' in Es2. injection Es2 as ->. exists s2, ds. split; [done|]. split; [by rewrite Ha2|]. split; [by rewrite Hc2|].
  split; [|by rewrite <- Hbase]. rewrite (bridgeAll_ext s) in Ed by congruence. cbn [app bridgeAll] in Ed.
  destruct (bridge h s _) as [c| |]; [|done..]. cbn in Ed. by rewrite app_nil_r in Ed.
Qed.
End Receiver.

(** ** Sending through a session *)

Lemma bridgeAll_packets h s pks :
  shutdownStatus s = SCTP_SESSION_ACTIVE -> outboundPacketFunc (sctpSessionCallbacks s) = true ->
  bridgeAll h s (map EvPacket pks) = Ok (map OutboundPacket pks).
Proof.
  intros Ha Ho. induction pks as [|pk pks IH]; [done|]. cbn [map bridgeAll bridge]. rewrite IH.
  unfold sctpOutboundBridge, active. by rewrite Ha, Ho.
Qed.

(** The other end of a session whose association is [a]: an active session [sB] that is
    established, expects the next TSN of [a] and takes new channels. *)
Record peer_of (a : SctpAssociation) (sB : SctpSession) : Prop := {
  po_vtag : is_u32 (peerVerificationTag a);
  po_active : shutdownStatus sB = SCTP_SESSION_ACTIVE;
  po_inv : Inv (association sB);
  po_expects : expects (peerVerificationTag a) (nextTsn a) (association sB);
  po_timer : t1InitExpiry (association sB) = 0;
  po_open : dataChannelOpenFunc (sctpSessionCallbacks sB) = true;
}.

(** A message sent through a session and put into the peer's is handed to the peer's bridge. *)
Lemma session_transfer h hB gettime gettimeB memalloc memallocB sid ppid un buf n bs mr lt sA sB wA wB :
  alloc_ok memalloc -> alloc_ok memallocB -> (forall k, is_Some (memallocB k SCTP_MAX_REASSEMBLY_SIZE)) ->
  session wA = Some sA -> shutdownStatus sA = SCTP_SESSION_ACTIVE -> session_ok sA ->
  outboundPacketFunc (sctpSessionCallbacks sA) = true -> can_send (association sA) ->
  session wB = Some sB -> peer_of (association sA) sB ->
  payload_at (Ptr buf 0) n bs -> n <= SCTP_MAX_REASSEMBLY_SIZE -> is_u16 sid -> is_u32 ppid ->
  wp (runAssoc h (sctpAssocSend gettime memalloc sid ppid un (Ptr buf 0) n mr lt)) (fun st wA' =>
    st = STATUS_SUCCESS /\ exists sA', session wA' = Some sA' /\
    (n <= mtu (association sA) - 28 \/ used o_inUse (outstanding (association sA')) < SCTP_MAX_OUTSTANDING ->
     exists pks wB' ds, calls wA' = calls wA ++ map OutboundPacket pks /\
       feed (fun pk => putSctpPacket hB gettimeB memallocB (Some pk) (blen pk)) pks wB = Some (STATUS_SUCCESS, wB') /\
       bridge hB sB (EvMessage sid ppid bs) = Ok ds /\ dataCalls wB' = dataCalls wB ++ ds)) wA.
Proof.
  intros Hm HmB HaB EA HaA HsA Hout Hcan EB [Hvt HaB' HIB Hex Ht1 Hop] Hp Hn Hsid Hppid.
  destruct (payload_len _ _ _ Hp) as [En _]. pose proof (inv_mtu _ (sok_assoc _ HsA)) as Hmtu.
  eapply runAssoc_wp; [exact EA|apply HsA|].
  eapply wp_mono; [apply (sctpAssocSend_emits gettime memalloc sid ppid un _ _ _ mr lt (assocWorld sA wA) Hm (sok_assoc _ HsA) Hp (proj1 Hsid) Hcan)|].
  intros st w' [-> Hs] cs Hcs. split; [done|]. eexists. split; [reflexivity|]. intros Hroom.
  destruct (Hs Hroom) as (ssn & frs & pks & Hssn & Hne & Ebs & Hall & Hpk & Hev & _). change (events (assocWorld sA wA)) with (@nil Event) in Hev.
  cbn [app] in Hev. rewrite Hev, bridgeAll_packets in Hcs by done. injection Hcs as <-.
  unfold SCTP_MAX_PACKET_SIZE in Hmtu. pose proof Hp as (_ & Hbb & _).
  assert (Hfr : Forall fragment_ok frs) by (apply (fragments_ok bs frs (mtu (association sA) - 28)); [done..|lia]).
  pose proof (inv_tsn _ (sok_assoc _ HsA)) as (Htsn & _).
  pose proof (put_message hB gettimeB memallocB HmB HaB _ _ _ sid ssn ppid un (sctpSessionCallbacks sB) (dataCalls wB)
    Hop Hvt Hsid Hssn Hppid (nextTsn (association sA)) frs pks wB sB EB HaB' eq_refl HIB Ht1 Hex eq_refl Hpk Hne Hfr) as Hf.
  rewrite <- Ebs, En in Hf. specialize (Hf Hn Htsn).
  apply wp_run in Hf as (st & wB' & Ef & -> & s' & ds & _ & _ & _ & Hb & Hd). exists pks, wB', ds. done.
Qed.

(** *** The open message in the buffer and at the peer *)

Definition dcepBuffer (name : list Z) (init : RtcDataChannelInit) : list Z :=
  dcepMessage name init ++ drop (length name) (replicate 512 0).

Lemma blen_dcepBuffer name init : blen name <= 512 -> blen (dcepBuffer name init) = SCTP_MAX_ALLOWABLE_PACKET_LENGTH.
Proof.
  intros Hn. unfold dcepBuffer. rewrite blen_app, blen_dcepMessage, length_blen, blen_drop;
    change (blen (replicate 512 0)) with 512; pose proof (blen_nonneg name); unfold SCTP_MAX_ALLOWABLE_PACKET_LENGTH,
    SCTP_DCEP_HEADER_LENGTH, MAX_DATA_CHANNEL_NAME_LEN, MAX_DATA_CHANNEL_PROTOCOL_LEN; lia.
Qed.

Lemma dcepBuffer_payload name init :
  bytes_ok name -> blen name <= 512 -> payload_at (Ptr (dcepBuffer name init) 0) (12 + blen name) (dcepMessage name init).
Proof.
  intros Hb Hn. split_and!; [|by apply dcepMessage_ok|lia]. unfold pld_bytes, dcepBuffer. cbn [p_obj p_off].
  rewrite <- (blen_dcepMessage name init). by apply (ld_bytes_app []).
Qed.

Lemma dcepMessage_label name init : pld_bytes (Ptr (dcepMessage name init) 12) (blen name) = Ok name.
Proof.
  unfold pld_bytes, dcepMessage. cbn [p_obj p_off]. rewrite !(assoc_L (++)), <- (app_nil_r (_ ++ name)), <- (assoc_L (++) _ name).
  apply ld_bytes_app; blen_lia.
Qed.

(** A session with the open message in its buffer and the state of [s]. *)
Definition opening (s : SctpSession) (name : list Z) (init : RtcDataChannelInit) : SctpSession :=
  s <| packet := dcepBuffer name init |> <| packetSize := 12 + blen name |>.

Lemma opening_ok s name init : blen name <= 512 -> session_ok s -> session_ok (opening s name init).
Proof. intros Hn [H1 H2 H3]. constructor; try done. by apply blen_dcepBuffer. Qed.

(** sctpSessionWriteDcep sends the buffer. *)
Lemma sctpSessionWriteDcep_eq h gettime memalloc sid name init s w :
  session w = Some s -> blen name <= 512 ->
  sctpSessionWriteDcep h gettime memalloc sid (Some name) (blen name) init w =
  runAssoc h (sctpAssocSend gettime memalloc (u16 sid) SCTP_PPID_DCEP false (Ptr (dcepBuffer name init) 0)
    (12 + blen name) 0xFFFF 0) (w <| session := Some (opening s name init) |>).
Proof.
  intros Es Hn. unfold sctpSessionWriteDcep. rewrite (gets_session_eq _ _ _ Es). cbv match. rewrite dcepOpen_eq by done.
  fold (dcepBuffer name init). unfold SCTP_DCEP_HEADER_LENGTH. pose proof (blen_nonneg name).
  rewrite u32_id by (unfold is_u32; lia).
  unfold setSession, mbind, ST_bind, modify, lift, update, upd_session. rewrite Es. reflexivity.
Qed.

Lemma bridge_open h s sid name init :
  bytes_ok name -> blen name <= 512 -> shutdownStatus s = SCTP_SESSION_ACTIVE ->
  dataChannelOpenFunc (sctpSessionCallbacks s) = true ->
  bridge h s (EvMessage sid SCTP_PPID_DCEP (dcepMessage name init)) =
  Ok (if blen name =? 0 then [] else [DataChannelOpen sid (Ptr (dcepMessage name init) 12) (blen name)]).
Proof.
  intros Hb Hn Ha Ho. pose proof (blen_nonneg name). cbn [bridge]. unfold sctpMessageBridge, active. rewrite Ha.
  change (SCTP_PPID_DCEP =? SCTP_PPID_DCEP) with true. change (negb (_ =? _)) with false. cbv match.
  pose proof (blen_dcepMessage name init) as Hml. destruct (Z.eqb_spec (blen name) 0) as [E0|E0].
  { unfold handleDcepPacket, SCTP_DCEP_HEADER_LENGTH. rewrite Hml, (proj2 (Z.ltb_ge _ _)) by lia. done. }
  assert (E8 : rd16 (dcepMessage name init) 8 = Ok (blen name)).
  { unfold dcepMessage. rewrite (assoc_L (++) _ (be32 _)), rd16_app by done. rewrite u16_id; [done|unfold is_u16; lia]. }
  assert (E10 : rd16 (dcepMessage name init) 10 = Ok 0).
  { unfold dcepMessage. rewrite (assoc_L (++) _ (be32 _)), (assoc_L (++) _ (be16 _)).
    apply (rd16_app _ 0). blen_lia. }
  rewrite (handleDcepPacket_fields h s sid _ (blen name) 0) 
    by (done || by apply dcepMessage_ok || (unfold SCTP_DCEP_HEADER_LENGTH; lia)).
  change (ld (dcepMessage name init) 0) with (Ok DCEP_DATA_CHANNEL_OPEN). cbn [mbind res_bind].
  rewrite Hml, Ho, !(proj2 (Z.leb_le _ _)); [done|vm_compute (SCTP_MAX_ALLOWABLE_PACKET_LENGTH); lia|].
  unfold SCTP_DCEP_HEADER_LENGTH. lia.
Qed.

(** *** Messages before the association is established *)

(** A message waiting in the send queue: stream, protocol identifier, unordered, bytes,
    retransmissions and lifetime. *)
Definition Waiting : Type := Z * Z * bool * list Z * Z * Z.

Definition queuedAs (m : Waiting) (q : QueuedMessage) : Prop :=
  q_inUse q = true /\
  m = (q_streamId q, q_ppid q, q_unordered q, take (Z.to_nat (q_payloadLen q)) (q_payload q),
       q_maxRetransmits q, q_lifetimeMs q).

(** An association in the handshake whose send queue holds the messages [ms], in order. *)
Definition waiting (ms : list Waiting) (a : SctpAssociation) : Prop :=
  state a = SCTP_ASSOC_COOKIE_WAIT /\
  exists us fs, sendQueue a = us ++ fs /\ Forall2 queuedAs ms us /\ Forall (fun q => q_inUse q = false) fs.

Lemma queued_used ms us : Forall2 queuedAs ms us -> Forall (fun q => q_inUse q = true) us.
Proof. induction 1 as [|m q ms us [Hq _]]; by constructor. Qed.

Lemma queueUnsent_waiting sid ppid un p n bs mr lt ms w :
  Inv (assoc w) -> waiting ms (assoc w) -> payload_at p n bs -> n <= SCTP_MAX_QUEUED_PAYLOAD ->
  wp (queueUnsent sid ppid un p n mr lt)
    (fun _ w' => waiting (take 32 (ms ++ [(sid, ppid, un, bs, mr, lt)])) (assoc w')) w.
Proof.
  intros HI (Hst & us & fs & Eq & Hu & Hf) Hp Hn. destruct (payload_len _ _ _ Hp) as [En Hn0].
  pose proof (inv_queued _ HI) as (Hl & Hqs & Hc). rewrite Eq in Hl, Hqs, Hc.
  pose proof (Forall2_length Hu) as Hlu. rewrite length_app in Hl.
  destruct (firstFree_prefix q_inUse us fs (queued_used _ _ Hu) Hf) as [Hff Hcu]. rewrite Hcu in Hc.
  unfold queueUnsent, setA, SCTP_MAX_QUEUED_MESSAGES, SCTP_MAX_QUEUED_PAYLOAD in *.
  apply wp_bind, wp_gets. rewrite Hc, Eq, Hff, (proj2 (Z.leb_le _ _) Hn), andb_true_r.
  change (Z.to_nat 32) with 32%nat in Hl. destruct (Z.ltb_spec (Z.of_nat (length us)) 32) as [Hlt|Hge]; cycle 1.
  { apply wp_ret. rewrite take_app_le, take_ge by lia. split; [done|]. by exists us, fs. }
  destruct fs as [|q fs]; [cbn in Hl; lia|]. apply Forall_cons_1 in Hf as [Hq Hf].
  apply Forall_app in Hqs as [_ ((Hql & _ & _) & _)%Forall_cons_1].
  assert (Hi : 0 <= Z.of_nat (length us) < Z.of_nat (length (us ++ q :: fs))) by (rewrite length_app; cbn [length]; lia).
  assert (Eg : lget (us ++ q :: fs) (Z.of_nat (length us)) = Ok q).
  { unfold lget. rewrite (proj2 (Z.leb_le _ _)) by lia. by rewrite Nat2Z.id, list_lookup_middle. }
  pose proof (put_bytes_at [] (q_payload q) bs 0 eq_refl ltac:(unfold SCTP_MAX_QUEUED_PAYLOAD in Hql; lia)) as Ep. cbn [app] in Ep.
  apply wp_bind. eapply wp_lift; [exact Eg|]. apply wp_bind. eapply wp_lift; [apply Hp|].
  apply wp_bind. eapply wp_lift; [exact Ep|]. apply wp_bind. eapply wp_lift; [by apply lput_in|]. apply wp_modify.
  rewrite take_ge by (rewrite length_app; cbn [length]; lia). split; [done|].
  set (x := {| q_streamId := sid; q_ppid := ppid; q_unordered := un; q_maxRetransmits := mr; q_lifetimeMs := lt;
               q_payload := bs ++ drop (Z.to_nat (blen bs)) (q_payload q); q_payloadLen := n; q_inUse := true |}).
  exists (us ++ [x]), fs. split_and!; [|apply Forall2_app; [done|apply Forall2_cons; [|done]]|done].
  - rewrite Nat2Z.id. change (<[length us := x]> (us ++ q :: fs) = (us ++ [x]) ++ fs).
    rewrite insert_app_r_alt, Nat.sub_diag by done. by rewrite <- (assoc_L (++)).
  - split; [done|]. unfold x. cbn [q_payloadLen q_payload]. by rewrite <- En, <- length_blen, take_app_length.
Qed.

Lemma sctpAssocSend_waiting gettime memalloc sid ppid un p n bs mr lt ms w :
  Inv (assoc w) -> waiting ms (assoc w) -> payload_at p n bs -> n <= SCTP_MAX_QUEUED_PAYLOAD ->
  wp (sctpAssocSend gettime memalloc sid ppid un p n mr lt)
    (fun _ w' => waiting (take 32 (ms ++ [(sid, ppid, un, bs, mr, lt)])) (assoc w')) w.
Proof.
  intros HI Hw Hp Hn. unfold sctpAssocSend. apply wp_bind, wp_now. intros now. apply wp_bind, wp_gets.
  pose proof (proj1 Hw) as Hst. change (assoc (w <| clock := _ |>)) with (assoc w). rewrite Hst.
  change (negb (state_eqb _ _)) with true. cbv match. apply wp_bind.
  eapply wp_mono; [apply (queueUnsent_waiting _ _ _ _ _ bs _ _ ms (w <| clock := _ |>)); done|].
  intros ? w' Hw'. by apply wp_ret.
Qed.

(** The open message of a channel in the send queue. *)
Definition announcement (sid : Z) (name : list Z) (init : RtcDataChannelInit) : Waiting :=
  (u16 sid, SCTP_PPID_DCEP, false, dcepMessage name init, 0xFFFF, 0).

Lemma sctpSessionWriteDcep_quiet h gettime memalloc sid nm init ms s w :
  alloc_ok memalloc -> session w = Some s -> session_ok s -> bytes_ok nm -> blen nm <= 512 ->
  waiting ms (association s) ->
  wp (sctpSessionWriteDcep h gettime memalloc sid (Some nm) (blen nm) init) (fun st w' => st = STATUS_SUCCESS /\
    (exists s', session w' = Some s' /\ session_ok s' /\
       waiting (take 32 (ms ++ [announcement sid nm init])) (association s')) /\ dataCalls w' = dataCalls w) w.
Proof.
  intros Hm Es Hs Hb Hl Hw. unfold wp. rewrite (sctpSessionWriteDcep_eq _ _ _ _ _ _ s) by done.
  set (w0 := w <| session := Some (opening s nm init) |>).
  enough (H : wp (runAssoc h (sctpAssocSend gettime memalloc (u16 sid) SCTP_PPID_DCEP false (Ptr (dcepBuffer nm init) 0)
    (12 + blen nm) 0xFFFF 0)) (fun st w' => st = STATUS_SUCCESS /\ (exists s', session w' = Some s' /\ session_ok s' /\
      waiting (take 32 (ms ++ [announcement sid nm init])) (association s')) /\ dataCalls w' = dataCalls w) w0) by exact H.
  pose proof (opening_ok s nm init Hl Hs) as Hs1. pose proof (dcepBuffer_payload nm init Hb Hl) as Hp.
  eapply runAssoc_quiet; [apply messages_send|reflexivity|apply Hs1|].
  eapply wp_mono; [apply wp_conj; [eapply sctpAssocSend_wp; [exact Hm|apply Hs1|exact Hp|apply u16_range]
    |apply (sctpAssocSend_waiting _ _ _ _ _ _ _ (dcepMessage nm init) _ _ ms); [apply Hs1|exact Hw|exact Hp|unfold SCTP_MAX_QUEUED_PAYLOAD; lia]]|].
  intros st w' [(-> & HI & _) Hw'] cs Hd. split; [done|]. split; [|exact Hd].
  eexists. split; [reflexivity|]. split; [by destruct Hs1; split|exact Hw'].
Qed.

(** ** Theorems *)

Lemma session_write_dcep h hB gettime gettimeB memalloc memallocB sid name init sA sB wA wB
  (Hm : alloc_ok memalloc) (HmB : alloc_ok memallocB)
  (HaB : forall k, is_Some (memallocB k SCTP_MAX_REASSEMBLY_SIZE))
  (EA : session wA = Some sA) (HaA : shutdownStatus sA = SCTP_SESSION_ACTIVE) (HsA : session_ok sA)
  (Hout : outboundPacketFunc (sctpSessionCallbacks sA) = true) (Hcan : can_send (association sA))
  (EB : session wB = Some sB) (Hpeer : peer_of (association sA) sB)
  (Hname : bytes_ok name) (Hlen : blen name <= MAX_DATA_CHANNEL_NAME_LEN)
  (Hmtu : 12 + blen name <= mtu (association sA) - 28) :
  exists wA' pks wB',
    sctpSessionWriteDcep h gettime memalloc sid (Some name) (blen name) init wA = Some (STATUS_SUCCESS, wA') /\
    calls wA' = calls wA ++ map OutboundPacket pks /\
    feed (fun pk => putSctpPacket hB gettimeB memallocB (Some pk) (blen pk)) pks wB = Some (STATUS_SUCCESS, wB') /\
    exists pName, pld_bytes pName (blen name) = Ok name /\
      dataCalls wB' = dataCalls wB ++
        (if blen name =? 0 then [] else [DataChannelOpen (u16 sid) pName (blen name)]).
Proof.
  unfold MAX_DATA_CHANNEL_NAME_LEN in Hlen.
  set (w1 := wA <| session := Some (opening sA name init) |>).
  pose proof (session_transfer h hB gettime gettimeB memalloc memallocB (u16 sid) SCTP_PPID_DCEP false (dcepBuffer name init)
    (12 + blen name) (dcepMessage name init) 0xFFFF 0 (opening sA name init) sB w1 wB Hm HmB HaB eq_refl HaA
    (opening_ok sA name init ltac:(lia) HsA) Hout Hcan EB Hpeer (dcepBuffer_payload name init Hname ltac:(lia))
    ltac:(unfold SCTP_MAX_REASSEMBLY_SIZE; lia) (u16_range sid) ltac:(split; done)) as Hw.
  apply wp_run in Hw as (st & wA' & Ew & -> & sA' & _ & Hr).
  destruct (Hr (or_introl Hmtu)) as (pks & wB' & ds & Hc & Hf & Hb & Hd).
  rewrite bridge_open in Hb by (done || lia || apply Hpeer). injection Hb as <-.
  exists wA', pks, wB'. split; [by rewrite (sctpSessionWriteDcep_eq _ _ _ _ _ _ sA) by (done || lia)|].
  split; [exact Hc|]. split; [exact Hf|]. exists (Ptr (dcepMessage name init) 12).
  split; [apply dcepMessage_label|exact Hd].
Qed.

(** A channel opened through a session is announced to the peer: the DATA_CHANNEL_OPEN
    message that sctpSessionWriteDcep sends, put into the peer's session by putSctpPacket,
    calls the peer's dataChannelOpenFunc exactly once, with the stream and the label, for
    labels of 1 to 255 bytes (an empty label is not announced). *)
Theorem dcep_open_transfer h hB gettime gettimeB memalloc memallocB sid name init sA sB wA wB
  (Hm : alloc_ok memalloc) (HmB : alloc_ok memallocB)
  (HaB : forall k, is_Some (memallocB k SCTP_MAX_REASSEMBLY_SIZE))
  (EA : session wA = Some sA) (HaA : shutdownStatus sA = SCTP_SESSION_ACTIVE) (HsA : session_ok sA)
  (Hout : outboundPacketFunc (sctpSessionCallbacks sA) = true) (Hcan : can_send (association sA))
  (EB : session wB = Some sB) (Hpeer : peer_of (association sA) sB)
  (Hname : bytes_ok name) (Hlen : blen name <= MAX_DATA_CHANNEL_NAME_LEN)
  (Hmtu : 12 + blen name <= mtu (association sA) - 28) :
  exists wA' pks wB',
    sctpSessionWriteDcep h gettime memalloc sid (Some name) (blen name) init wA = Some (STATUS_SUCCESS, wA') /\
    calls wA' = calls wA ++ map OutboundPacket pks /\
    feed (fun pk => putSctpPacket hB gettimeB memallocB (Some pk) (blen pk)) pks wB = Some (STATUS_SUCCESS, wB') /\
    exists pName, pld_bytes pName (blen name) = Ok name /\
      dataCalls wB' = dataCalls wB ++
        (if blen name =? 0 then [] else [DataChannelOpen (u16 sid) pName (blen name)]).
Proof. exact (session_write_dcep h hB gettime gettimeB memalloc memallocB sid name init sA sB wA wB
  Hm HmB HaB EA HaA HsA Hout Hcan EB Hpeer Hname Hlen Hmtu). Qed.

Lemma session_write_message h hB gettime gettimeB memalloc memallocB sid isBinary bs un mr lt sA sB wA wB
  (Hm : alloc_ok memalloc) (HmB : alloc_ok memallocB)
  (HaB : forall k, is_Some (memallocB k SCTP_MAX_REASSEMBLY_SIZE))
  (EA : session wA = Some sA) (HaA : shutdownStatus sA = SCTP_SESSION_ACTIVE) (HsA : session_ok sA)
  (Hpar : channelParameters (packet sA) = Ok (un, mr, lt))
  (Hout : outboundPacketFunc (sctpSessionCallbacks sA) = true) (Hcan : can_send (association sA))
  (EB : session wB = Some sB) (Hpeer : peer_of (association sA) sB)
  (Hfun : dataChannelMessageFunc (sctpSessionCallbacks sB) = true)
  (Hbs : bytes_ok bs) (Hlen : blen bs <= SCTP_MAX_REASSEMBLY_SIZE) :
  exists wA' sA',
    sctpSessionWriteMessage h gettime memalloc sid isBinary (Some bs) (blen bs) wA = Some (STATUS_SUCCESS, wA') /\
    session wA' = Some sA' /\
    (blen bs <= mtu (association sA) - 28 \/ used o_inUse (outstanding (association sA')) < SCTP_MAX_OUTSTANDING ->
     exists pks wB', calls wA' = calls wA ++ map OutboundPacket pks /\
       feed (fun pk => putSctpPacket hB gettimeB memallocB (Some pk) (blen pk)) pks wB = Some (STATUS_SUCCESS, wB') /\
       dataCalls wB' = dataCalls wB ++ [DataChannelMessage (u16 sid) isBinary bs]).
Proof.
  unfold SCTP_MAX_REASSEMBLY_SIZE in Hlen.
  assert (Hp : payload_at (Ptr bs 0) (blen bs) bs) by (split_and!; [by apply pld_bytes_whole|done|lia]).
  set (ppid := if isBinary then SCTP_PPID_BINARY else SCTP_PPID_STRING).
  assert (Hpp : is_u32 ppid) by (by destruct isBinary; split).
  pose proof (session_transfer h hB gettime gettimeB memalloc memallocB (u16 sid) ppid un bs (blen bs) bs mr lt sA sB wA wB
    Hm HmB HaB EA HaA HsA Hout Hcan EB Hpeer Hp Hlen (u16_range sid) Hpp) as Hw.
  apply wp_run in Hw as (st & wA' & Ew & -> & sA' & EA' & Hr). exists wA', sA'.
  split.
  { unfold sctpSessionWriteMessage. rewrite (gets_session_eq _ _ _ EA). unfold active. rewrite HaA, Hpar. exact Ew. }
  split; [done|]. intros Hroom. destruct (Hr Hroom) as (pks & wB' & ds & Hc & Hf & Hb & Hd).
  exists pks, wB'. split; [done|]. split; [done|]. rewrite Hd. f_equal.
  cbn [bridge] in Hb. unfold sctpMessageBridge, active in Hb. rewrite (po_active _ _ Hpeer), Hfun in Hb.
  unfold ppid in Hb. destruct isBinary; by injection Hb as <-.
Qed.

(** A message written through a session reaches the peer's owner: the packets of
    sctpSessionWriteMessage, put into the peer's session, call its
    dataChannelMessageFunc exactly once, with the stream, the binary flag and the bytes,
    for messages of up to 64 KiB (provided the sender's table of outstanding chunks did
    not fill up, which is certain for a message that fits one packet). *)
Theorem session_message_transfer h hB gettime gettimeB memalloc memallocB sid isBinary bs un mr lt sA sB wA wB
  (Hm : alloc_ok memalloc) (HmB : alloc_ok memallocB)
  (HaB : forall k, is_Some (memallocB k SCTP_MAX_REASSEMBLY_SIZE))
  (EA : session wA = Some sA) (HaA : shutdownStatus sA = SCTP_SESSION_ACTIVE) (HsA : session_ok sA)
  (Hpar : channelParameters (packet sA) = Ok (un, mr, lt))
  (Hout : outboundPacketFunc (sctpSessionCallbacks sA) = true) (Hcan : can_send (association sA))
  (EB : session wB = Some sB) (Hpeer : peer_of (association sA) sB)
  (Hfun : dataChannelMessageFunc (sctpSessionCallbacks sB) = true)
  (Hbs : bytes_ok bs) (Hlen : blen bs <= SCTP_MAX_REASSEMBLY_SIZE) :
  exists wA' sA',
    sctpSessionWriteMessage h gettime memalloc sid isBinary (Some bs) (blen bs) wA = Some (STATUS_SUCCESS, wA') /\
    session wA' = Some sA' /\
    (blen bs <= mtu (association sA) - 28 \/ used o_inUse (outstanding (association sA')) < SCTP_MAX_OUTSTANDING ->
     exists pks wB', calls wA' = calls wA ++ map OutboundPacket pks /\
       feed (fun pk => putSctpPacket hB gettimeB memallocB (Some pk) (blen pk)) pks wB = Some (STATUS_SUCCESS, wB') /\
       dataCalls wB' = dataCalls wB ++ [DataChannelMessage (u16 sid) isBinary bs]).
Proof. exact (session_write_message h hB gettime gettimeB memalloc memallocB sid isBinary bs un mr lt sA sB wA wB
  Hm HmB HaB EA HaA HsA Hpar Hout Hcan EB Hpeer Hfun Hbs Hlen). Qed.

(** The reliability of a message is that of the channel opened last, not of the channel
    it is sent on: after sctpSessionWriteDcep of a channel with parameters [init], a
    message on any stream is sent with [init]'s ordering, retransmission and lifetime
    limits, which are exactly those the open message announced. *)
Theorem sctpSessionWriteMessage_parameters h gettime memalloc sid name init sid' isBinary bs s w w'
  (Es : session w = Some s) (Ha : shutdownStatus s = SCTP_SESSION_ACTIVE)
  (Hname : bytes_ok name) (Hlen : blen name <= 512)
  (Hmr : forall v, maxRetransmits init = Some v -> is_u16 v)
  (Hlt : forall v, maxPacketLifeTime init = Some v -> is_u16 v)
  (E : sctpSessionWriteDcep h gettime memalloc sid (Some name) (blen name) init w = Some (STATUS_SUCCESS, w')) :
  sctpSessionWriteMessage h gettime memalloc sid' isBinary (Some bs) (blen bs) w' =
  runAssoc h (sctpAssocSend gettime memalloc (u16 sid') (if isBinary then SCTP_PPID_BINARY else SCTP_PPID_STRING)
    (negb (ordered init)) (Ptr bs 0) (blen bs) (default 0xFFFF (maxRetransmits init))
    (match maxRetransmits init with Some _ => 0 | None => default 0 (maxPacketLifeTime init) end)) w'.
Proof.
  rewrite (sctpSessionWriteDcep_eq _ _ _ _ _ _ s) in E by done.
  apply (runAssoc_inv _ _ (opening s name init)) in E as [a Es']; [|reflexivity].
  unfold sctpSessionWriteMessage. rewrite (gets_session_eq _ _ _ Es'). cbv match.
  unfold active. change (shutdownStatus (_ <| association := a |>)) with (shutdownStatus s). rewrite Ha.
  change (packet (_ <| association := a |>)) with (dcepBuffer name init).
  rewrite (channelParameters_open name init) by (done || by apply dcepOpen_eq). reflexivity.
Qed.

(** *** A session that is shutting down *)

Lemma bridgeAll_inactive h s es : active s = false -> bridgeAll h s es = Ok [].
Proof.
  intros Ha. induction es as [|e es IH]; [done|]. cbn [bridgeAll]. rewrite IH.
  destruct e; cbn [bridge]; unfold sctpOutboundBridge, sctpMessageBridge; by rewrite Ha.
Qed.

Lemma runAssoc_silent h {A} (m : ST World A) s w :
  session w = Some s -> active s = false -> Inv (association s) ->
  (forall w0, Inv (assoc w0) -> wp m (fun _ w' => Inv (assoc w')) w0) ->
  wp (runAssoc h m) (fun _ w' => (exists s', session w' = Some s' /\ active s' = false /\ Inv (association s')) /\
    calls w' = calls w) w.
Proof.
  intros Es Ha HI Hm. specialize (Hm (assocWorld s w) HI). unfold wp, runAssoc in *. rewrite Es.
  destruct (m (assocWorld s w)) as [[a w']|]; [|done]. rewrite bridgeAll_inactive by done.
  split; [by eexists|]. apply app_nil_r.
Qed.

Lemma freeSctpSession_wp h s w :
  session w = Some s -> session_ok s ->
  wp (freeSctpSession h true) (fun st w' => st = STATUS_SUCCESS /\ session w' = None /\ calls w' = calls w) w.
Proof.
  intros Es Hs.
  unfold freeSctpSession. cbn [negb]. eapply gets_session; [exact Es|]. cbv match. unfold setSession, setPointer.
  apply wp_bind, wp_modify. set (w1 := w <| session := _ |>).
  assert (E1 : exists s1, session w1 = Some s1 /\ active s1 = false /\ Inv (association s1)).
  { exists (s <| shutdownStatus := SCTP_SESSION_SHUTDOWN_INITIATED |>). split; [|by split; [|apply Hs]].
    unfold w1. change (option_map (fun s => s <| shutdownStatus := SCTP_SESSION_SHUTDOWN_INITIATED |>) (session w) = 
      Some (s <| shutdownStatus := SCTP_SESSION_SHUTDOWN_INITIATED |>)). by rewrite Es. }
  destruct E1 as (s1 & E1 & Ha1 & HI1). apply wp_bind.
  assert (Hsh : wp (if state_eqb (state (association s)) SCTP_ASSOC_ESTABLISHED then runAssoc h sctpAssocShutdown;; mret tt else mret tt)
    (fun _ w' => (exists s', session w' = Some s' /\ active s' = false /\ Inv (association s')) /\ calls w' = calls w) w1).
  { apply wp_if; intros _; [|apply wp_ret; split; [by exists s1|done]]. apply wp_bind.
    eapply wp_mono; [eapply runAssoc_silent; try done|]. 
    - intros w0 HI. eapply wp_mono; [by apply sctpAssocShutdown_wp|]. by intros ? ? [_ ?].
    - intros st w' H. by apply wp_ret. }
  eapply wp_mono; [exact Hsh|]. intros ? w2 [(s2 & E2 & Ha2 & HI2) Hc2]. apply wp_bind.
  eapply wp_mono; [eapply runAssoc_silent; try done; by apply sctpAssocCleanup_wp|].
  intros ? w3 [_ Hc3]. apply wp_bind, wp_modify, wp_bind, wp_modify, wp_ret. split; [done|]. split; [done|].
  etrans; [exact Hc3|exact Hc2].
Qed.

(** freeSctpSession is silent: it releases the session without a call of any callback.
    In particular the SHUTDOWN of an established association is never transmitted, since
    the session is marked as shutting down before the association is. *)
Theorem freeSctpSession_silent h s w (Es : session w = Some s) (Hs : session_ok s) :
  exists w', freeSctpSession h true w = Some (STATUS_SUCCESS, w') /\ session w' = None /\ calls w' = calls w.
Proof.
  destruct (wp_run _ _ _ (freeSctpSession_wp h s w Es Hs)) as (st & w' & E & -> & H1 & H2). by exists w'.
Qed.

(** ** Safety *)

(** The operations on a session, after createSctpSession. *)
Inductive SessionOp : Type :=
| SPut (buf : option (list Z)) (len : Z)
| STick
| SWrite (sid : Z) (isBinary : bool) (msg : option (list Z))
| SDcep (sid : Z) (name : list Z) (init : RtcDataChannelInit)
| SFree (hasPtr : bool).

Definition sop_ok (op : SessionOp) : Prop :=
  match op with
  | SPut buf len => packet_ok buf len
  | SWrite _ _ msg => forall b, msg = Some b -> bytes_ok b /\ blen b < 2 ^ 31
  | SDcep _ name _ => bytes_ok name /\ blen name <= 512
  | _ => True
  end.

Section SessionSafety.
Context (h : endian) (gettime : nat -> Z) (memalloc : nat -> Z -> option (list Z)).
Hypothesis Hmem : alloc_ok memalloc.

Definition sexec (op : SessionOp) : ST SWorld STATUS :=
  match op with
  | SPut buf len => putSctpPacket h gettime memalloc buf len
  | STick => sctpSessionTickTimers h gettime
  | SWrite sid isBinary msg =>
      sctpSessionWriteMessage h gettime memalloc sid isBinary msg (blen (default [] msg))
  | SDcep sid name init => sctpSessionWriteDcep h gettime memalloc sid (Some name) (blen name) init
  | SFree hasPtr => freeSctpSession h hasPtr
  end.

(** The session is gone or in order. *)
Definition sinv (w : SWorld) : Prop :=
  match session w with Some s => session_ok s | None => True end.

Lemma sinv_post {A} (P : A -> Prop) s (a : A) w' :
  (P a /\ exists s', session w' = Some s' /\ session_ok s' /\ shutdownStatus s' = shutdownStatus s) ->
  P a /\ sinv w'.
Proof. intros (HP & s' & Es & Hs & _). split; [done|]. unfold sinv. by rewrite Es. Qed.

Lemma session_send_ok sid ppid un b n bs mr lt w s :
  session w = Some s -> session_ok s -> payload_at (Ptr b 0) n bs -> 0 <= sid ->
  wp (runAssoc h (sctpAssocSend gettime memalloc sid ppid un (Ptr b 0) n mr lt))
    (fun st w' => st = STATUS_SUCCESS /\ sinv w') w.
Proof.
  intros Es Hs Hp Hsid. eapply wp_mono; [eapply (runAssoc_ok h _ (fun st => st = STATUS_SUCCESS)); try done|].
  - intros w0 HI. eapply wp_mono; [by eapply sctpAssocSend_wp|]. by intros st w' (? & ? & _).
  - intros a w'. apply sinv_post.
Qed.

Lemma channelParameters_total p : 8 <= blen p -> exists r, channelParameters p = Ok r.
Proof.
  intros Hl. unfold channelParameters. destruct (ld_in p 1) as (b1 & -> & _); [lia|].
  assert (H4 : exists v, getUnalignedInt32Be p 4 = Ok v).
  { unfold getUnalignedInt32Be. destruct (ld_in p (4 + 3)) as (? & -> & _); [lia|].
    destruct (ld_in p (4 + 2)) as (? & -> & _); [lia|]. destruct (ld_in p (4 + 1)) as (? & -> & _); [lia|].
    destruct (ld_in p 4) as (? & -> & _); [lia|]. by eexists. }
  destruct H4 as [v ->]. cbn [mbind res_bind]. repeat case_match; by eexists.
Qed.

Lemma sexec_wp op w :
  sinv w -> sop_ok op -> wp (sexec op) (fun st w' => sinv w') w.
Proof.
  intros Hi Hop. unfold sinv in Hi. destruct (session w) as [s|] eqn:Es.
  2:{ destruct op as [| |? ? []| |[]]; cbn [sexec];
      unfold putSctpPacket, sctpSessionTickTimers, withActive, sctpSessionWriteMessage, sctpSessionWriteDcep, freeSctpSession;
      try (eapply gets_session; [exact Es|]); apply wp_ret; unfold sinv; by rewrite Es. }
  destruct op as [buf len| |sid isBinary msg|sid name init|hasPtr]; cbn [sexec sop_ok] in *.
  - unfold putSctpPacket, withActive. eapply gets_session; [exact Es|]. cbv match.
    apply wp_if; intros _; [apply wp_ret; unfold sinv; by rewrite Es|].
    eapply session_timers; [done..|]. intros w' s' Es' Hs'.
    eapply wp_mono; [eapply (runAssoc_ok h _ (fun st => st = STATUS_SUCCESS)); try done|intros ? ? H; by apply sinv_post in H as [_ ?]].
    intros w0 HI. by apply sctpAssocHandlePacket_wp.
  - unfold sctpSessionTickTimers, withActive. eapply gets_session; [exact Es|]. cbv match.
    apply wp_if; intros _; [apply wp_ret; unfold sinv; by rewrite Es|].
    eapply session_timers; [done..|]. intros w' s' Es' Hs'. apply wp_ret. unfold sinv. by rewrite Es'.
  - unfold sctpSessionWriteMessage. eapply gets_session; [exact Es|].
    destruct msg as [b|]; [|apply wp_ret; unfold sinv; by rewrite Es]. destruct (Hop b eq_refl) as [Hb Hl].
    apply wp_if; intros _; [apply wp_ret; unfold sinv; by rewrite Es|].
    destruct (channelParameters_total (packet s)) as [[[un mr] lt] Ep]; [rewrite (sok_packet _ Hi); by vm_compute|].
    apply wp_bind. eapply wp_lift; [exact Ep|]. cbv match beta.
    eapply wp_mono; [eapply session_send_ok; try done|by intros ? ? [_ ?]]; [|apply u16_range].
    split_and!; [by apply pld_bytes_whole|done|done].
  - destruct Hop as [Hb Hl]. unfold wp. rewrite (sctpSessionWriteDcep_eq _ _ _ _ _ _ s) by done.
    eapply (wp_mono _ _ _ (w <| session := Some (opening s name init) |>));
      [eapply session_send_ok; [reflexivity|by apply opening_ok|by apply dcepBuffer_payload|apply u16_range]|].
    by intros ? ? [_ ?].
  - destruct hasPtr; [|apply wp_ret; unfold sinv; by rewrite Es].
    eapply wp_mono; [by eapply freeSctpSession_wp|]. intros ? w' (_ & En & _). unfold sinv. by rewrite En.
Qed.

Fixpoint sexecAll (ops : list SessionOp) : ST SWorld STATUS :=
  match ops with
  | [] => mret STATUS_SUCCESS
  | op :: ops => sexec op;; sexecAll ops
  end.

Lemma sexecAll_wp ops w : sinv w -> Forall sop_ok ops -> wp (sexecAll ops) (fun st w' => st = STATUS_SUCCESS /\ sinv w') w.
Proof.
  intros Hi Hops. revert w Hi. induction Hops as [|op ops Hop _ IH]; intros w Hi; [by apply wp_ret|].
  cbn [sexecAll]. apply wp_bind. eapply wp_mono; [by apply sexec_wp|]. intros ? w'. apply IH.
Qed.

End SessionSafety.

Lemma sctpAssocInit_queue gettime l r m w :
  wp (sctpAssocInit gettime l r m) (fun _ w' => sendQueue (assoc w') = replicate 32 zeroQueued) w.
Proof. reflexivity. Qed.

Lemma sctpAssocConnect_waiting gettime w :
  Inv (assoc w) -> sendQueue (assoc w) = replicate 32 zeroQueued ->
  wp (sctpAssocConnect gettime) (fun _ w' => waiting [] (assoc w')) w.
Proof.
  intros HI Hq. unfold sctpAssocConnect, setA.
  assert (Hf : frames (fun w => sendQueue (assoc w)) sendInit).
  { unfold sendInit, sendChunk, beginPacket, addChunk, sctpSendPacket. frame_steps; by apply frames_modify. }
  apply wp_bind. eapply wp_mono; [apply (wp_frames _ _ (fun _ _ => True) _ Hf); eapply wp_mono; [by apply sendInit_wp|done]|].
  intros ? w1 [_ Hq1]. cbv beta in Hq1. rewrite Hq in Hq1. apply wp_bind, wp_modify, wp_bind, wp_now. intros now.
  apply wp_bind, wp_modify, wp_ret. split; [done|]. exists [], (replicate 32 zeroQueued).
  split; [exact Hq1|]. split; [constructor|by apply Forall_replicate].
Qed.

Lemma createSctpSession_wp h gettime cbs w :
  dataChannelOpenFunc cbs = true ->
  wp (createSctpSession h gettime (Some cbs) true true) (fun st w' => st = STATUS_SUCCESS /\
    (exists s, session w' = Some s /\ session_ok s /\ shutdownStatus s = SCTP_SESSION_ACTIVE /\
      sctpSessionCallbacks s = cbs /\ waiting [] (association s)) /\ dataCalls w' = dataCalls w) w.
Proof.
  intros Ho. unfold createSctpSession, startSession, setPointer. cbn [negb].
  apply wp_bind, wp_modify, wp_bind, wp_bind, wp_modify. set (s0 := Build_SctpSession _ _ _ _ _). set (w1 := _ <| session := _ |>).
  apply wp_bind, (runAssoc_quiet h _ s0); [apply messages_init|done|done|].
  eapply wp_mono; [apply wp_conj; [apply (sctpAssocInit_wp gettime 5000 5000 1150); unfold SCTP_MAX_PACKET_SIZE; lia
    |apply sctpAssocInit_queue]|].
  intros ? w2 [HI2 Hq2] cs2 Hd2. eapply runAssoc_quiet; [apply messages_connect|reflexivity|done|].
  eapply wp_mono; [apply wp_conj; [by apply sctpAssocConnect_wp|by apply sctpAssocConnect_waiting]|].
  intros st w3 [[-> HI3] Hw3] cs3 Hd3. apply wp_bind.
  change (STATUS_FAILED STATUS_SUCCESS) with false. cbv match. apply wp_ret, wp_ret. split; [done|]. split.
  - eexists. split; [reflexivity|]. by split_and!; [constructor| | |].
  - etrans; [exact Hd3|exact Hd2].
Qed.

(** C15. A session is safe: created with a dataChannelOpenFunc, it survives every sequence
    of packets, timer ticks, messages, channel openings (labels of up to 512 bytes) and
    frees.  No access leaves a buffer, no loop runs on, every operation returns, and as
    long as the session exists its association keeps the association's invariant. *)
Theorem sctpSession_safe h gettime memalloc cbs ops w
  (Hmem : alloc_ok memalloc) (Ho : dataChannelOpenFunc cbs = true) (Hops : Forall sop_ok ops) :
  exists w0 w', createSctpSession h gettime (Some cbs) true true w = Some (STATUS_SUCCESS, w0) /\
    sexecAll h gettime memalloc ops w0 = Some (STATUS_SUCCESS, w') /\
    forall s, session w' = Some s -> Inv (association s) /\ blen (packet s) = SCTP_MAX_ALLOWABLE_PACKET_LENGTH.
Proof.
  destruct (wp_run _ _ _ (createSctpSession_wp h gettime cbs w Ho)) as (st & w0 & E0 & -> & (s & Es & Hs & _) & _).
  assert (Hi : sinv w0) by (unfold sinv; by rewrite Es).
  destruct (wp_run _ _ _ (sexecAll_wp h gettime memalloc Hmem ops w0 Hi Hops)) as (st & w' & E1 & -> & Hi').
  exists w0, w'. split; [exact E0|]. split; [exact E1|]. intros s' Es'. unfold sinv in Hi'. rewrite Es' in Hi'.
  split; [apply (sok_assoc _ Hi')|apply (sok_packet _ Hi')].
Qed.

(** ** Instances *)

Definition ex_callbacks : SctpSessionCallbacks :=
  {| outboundPacketFunc := true; dataChannelOpenFunc := true; dataChannelMessageFunc := true |}.
Definition ex_session (a : SctpAssociation) : SctpSession :=
  {| shutdownStatus := SCTP_SESSION_ACTIVE; association := a; packet := zeroPacket; packetSize := 0;
     sctpSessionCallbacks := ex_callbacks |}.
Definition ex_sworld (a : SctpAssociation) : SWorld :=
  {| session := Some (ex_session a); sclock := 0; sallocs := 0; calls := [] |}.
Definition ex_init : RtcDataChannelInit :=
  {| ordered := false; maxPacketLifeTime := None; maxRetransmits := Some 3;
     protocol := replicate 256 0; negotiated := false |}.

Lemma ex_session_ok a : Inv a -> session_ok (ex_session a).
Proof. intros. by constructor. Qed.

Lemma ex_peer : peer_of ex_sender (ex_session ex_receiver).
Proof.
  constructor; [split; vm_compute; congruence|done|apply ex_receiver_ok|split_and!; reflexivity|reflexivity|done].
Qed.

Lemma ex_can_send : can_send ex_sender.
Proof. split_and!; vm_compute; reflexivity. Qed.

Lemma ex_reassembly k : is_Some (ex_memalloc k SCTP_MAX_REASSEMBLY_SIZE).
Proof. eexists. reflexivity. Qed.

Lemma dcep_open_transfer_witness :
  exists wA' pks wB',
    sctpSessionWriteDcep LittleEndian ex_gettime ex_memalloc 1 (Some [104; 105]) 2 ex_init (ex_sworld ex_sender)
      = Some (STATUS_SUCCESS, wA') /\
    calls wA' = map OutboundPacket pks /\
    feed (fun pk => putSctpPacket LittleEndian ex_gettime ex_memalloc (Some pk) (blen pk)) pks (ex_sworld ex_receiver)
      = Some (STATUS_SUCCESS, wB') /\
    exists pName, pld_bytes pName 2 = Ok [104; 105] /\ dataCalls wB' = [DataChannelOpen 1 pName 2].
Proof.
  assert (Hb : bytes_ok [104; 105]) by by apply bytes_ok_check.
  assert (Hl : blen [104; 105] <= MAX_DATA_CHANNEL_NAME_LEN) by (vm_compute; discriminate).
  assert (Hm : 12 + blen [104; 105] <= mtu (association (ex_session ex_sender)) - 28) by (vm_compute; discriminate).
  exact (dcep_open_transfer LittleEndian LittleEndian ex_gettime ex_gettime ex_memalloc ex_memalloc 1 [104; 105] ex_init
    (ex_session ex_sender) (ex_session ex_receiver) (ex_sworld ex_sender) (ex_sworld ex_receiver) ex_memalloc_ok
    ex_memalloc_ok ex_reassembly eq_refl eq_refl (ex_session_ok _ ex_sender_ok) eq_refl ex_can_send eq_refl ex_peer Hb Hl Hm).
Defined.

Lemma session_message_transfer_witness :
  exists wA' sA',
    sctpSessionWriteMessage LittleEndian ex_gettime ex_memalloc 1 true (Some (replicate 1000 65)) 1000 (ex_sworld ex_sender)
      = Some (STATUS_SUCCESS, wA') /\ session wA' = Some sA' /\
    exists pks wB', calls wA' = map OutboundPacket pks /\
      feed (fun pk => putSctpPacket LittleEndian ex_gettime ex_memalloc (Some pk) (blen pk)) pks (ex_sworld ex_receiver)
        = Some (STATUS_SUCCESS, wB') /\ dataCalls wB' = [DataChannelMessage 1 true (replicate 1000 65)].
Proof.
  assert (Hb : bytes_ok (replicate 1000 65)) by (apply Forall_replicate; split; lia).
  assert (Hl : blen (replicate 1000 65) <= SCTP_MAX_REASSEMBLY_SIZE) by (vm_compute; discriminate).
  assert (Hf : blen (replicate 1000 65) <= mtu ex_sender - 28) by (vm_compute; discriminate).
  destruct (session_message_transfer LittleEndian LittleEndian ex_gettime ex_gettime ex_memalloc ex_memalloc 1 true
    (replicate 1000 65) false 65535 0 (ex_session ex_sender) (ex_session ex_receiver) (ex_sworld ex_sender)
    (ex_sworld ex_receiver) ex_memalloc_ok ex_memalloc_ok ex_reassembly eq_refl eq_refl (ex_session_ok _ ex_sender_ok)
    eq_refl eq_refl ex_can_send eq_refl ex_peer eq_refl Hb Hl) as (wA' & sA' & E1 & E2 & H).
  exists wA', sA'. split; [exact E1|]. split; [exact E2|]. exact (H (or_introl Hf)).
Defined.

Lemma sctpSessionWriteMessage_parameters_witness :
  exists w', sctpSessionWriteDcep LittleEndian ex_gettime ex_memalloc 1 (Some [104; 105]) 2 ex_init (ex_sworld ex_sender)
               = Some (STATUS_SUCCESS, w') /\
    sctpSessionWriteMessage LittleEndian ex_gettime ex_memalloc 7 false (Some [1]) 1 w' =
    runAssoc LittleEndian (sctpAssocSend ex_gettime ex_memalloc 7 SCTP_PPID_STRING true (Ptr [1] 0) 1 3 0) w'.
Proof.
  assert (Hb : bytes_ok [104; 105]) by by apply bytes_ok_check.
  destruct (sctpSessionWriteDcep LittleEndian ex_gettime ex_memalloc 1 (Some [104; 105]) 2 ex_init (ex_sworld ex_sender))
    as [[st w']|] eqn:E.
  - assert (st = STATUS_SUCCESS) as ->.
    { apply (f_equal (option_map fst)) in E. vm_compute in E. congruence. }
    exists w'. split; [reflexivity|].
    refine (sctpSessionWriteMessage_parameters LittleEndian ex_gettime ex_memalloc 1 [104; 105] ex_init 7 false [1]
      (ex_session ex_sender) (ex_sworld ex_sender) w' eq_refl eq_refl Hb _ _ _ E).
    + vm_compute. discriminate.
    + intros v [= <-]. split; lia.
    + intros v [=].
  - exfalso. apply (f_equal (option_map fst)) in E. vm_compute in E. discriminate.
Defined.

Lemma freeSctpSession_silent_witness :
  exists w', freeSctpSession LittleEndian true (ex_sworld ex_sender) = Some (STATUS_SUCCESS, w') /\
    session w' = None /\ calls w' = [].
Proof.
  exact (freeSctpSession_silent LittleEndian (ex_session ex_sender) (ex_sworld ex_sender) eq_refl
    (ex_session_ok _ ex_sender_ok)).
Defined.

Lemma sctpSession_safe_witness :
  exists w0 w', createSctpSession LittleEndian ex_gettime (Some ex_callbacks) true true (ex_sworld ex_sender)
                  = Some (STATUS_SUCCESS, w0) /\
    sexecAll LittleEndian ex_gettime ex_memalloc [STick; SDcep 0 [104; 105] ex_init; SPut (Some [1; 2; 3]) 3] w0
      = Some (STATUS_SUCCESS, w').
Proof.
  assert (H : Forall sop_ok [STick; SDcep 0 [104; 105] ex_init; SPut (Some [1; 2; 3]) 3]).
  { constructor; [exact I|]. constructor; [split; [by apply bytes_ok_check|vm_compute; discriminate]|].
    constructor; [|constructor]. intros b [= <-]. split_and!; [by apply bytes_ok_check|reflexivity|reflexivity]. }
  destruct (sctpSession_safe LittleEndian ex_gettime ex_memalloc ex_callbacks
    [STick; SDcep 0 [104; 105] ex_init; SPut (Some [1; 2; 3]) 3] (ex_sworld ex_sender) ex_memalloc_ok eq_refl H)
    as (w0 & w' & E0 & E1 & _). exists w0, w'. split; [exact E0|exact E1].
Defined.
