(* ===== verification/DataChannel.v ===== *)
(** * Data channels (PeerConnection/DataChannel.c and the channel handlers of PeerConnection.c)

    The channels of a peer connection are heap objects, referred to from the
    application and from the table pDataChannels.  Before signalling the table is keyed
    by creation order; allocateSctp re-keys it by stream identifier, creates the SCTP
    session and announces the channels; the session's callbacks
    onSctpSessionDataChannelOpen and onSctpSessionDataChannelMessage add the peer's
    channels and dispatch messages.  A pointer to a channel is its position in the heap
    plus one; 0 is NULL.  The callbacks run while the session operation runs; they do not
    touch the session, so the model runs them, in order, right after it. *)

From stdpp Require Import fin_maps gmap.
From S2P Require Import Prelude Endian HashTable SctpAssoc SctpInvariant SctpTransfer SctpSession.

(** ** C strings *)

(** The bytes strncpy writes: up to [n] of the source, zeroes after its end. *)
Fixpoint strncpyBytes (n : nat) (src : ptr) (i : Z) : res (list Z) :=
  match n with
  | O => Ok []
  | S n' =>
      c ← pld src i;
      if c =? 0 then Ok (replicate n 0)
      else rest ← strncpyBytes n' src (i + 1); Ok (c :: rest)
  end.
Definition STRNCPY (dst : list Z) (src : ptr) (n : Z) : res (list Z) :=
  bs ← strncpyBytes (Z.to_nat n) src 0; put_bytes dst 0 bs.

(** The number of bytes before the terminating zero; reading past the object is a fault. *)
Fixpoint STRLEN (s : list Z) : res Z :=
  match s with
  | [] => Fault
  | c :: s => if c =? 0 then Ok 0 else n ← STRLEN s; Ok (1 + n)
  end.

(** ** Data *)

Definition CODEC_HASH_TABLE_BUCKET_COUNT : Z := 50.
Definition CODEC_HASH_TABLE_BUCKET_LENGTH : Z := 2.
Definition MAX_STATS_STRING_LENGTH : Z := 255.
Definition DATA_CHANNEL_PROTOCOL_STR : list Z := [83; 67; 84; 80; 0].

Inductive RTC_DATA_CHANNEL_STATE : Set :=
| RTC_DATA_CHANNEL_STATE_CONNECTING
| RTC_DATA_CHANNEL_STATE_OPEN
| RTC_DATA_CHANNEL_STATE_CLOSING
| RTC_DATA_CHANNEL_STATE_CLOSED.

Set Primitive Projections.
(** The fields of the statistics that the channel code writes. *)
Record RtcDataChannelStats : Type := {
  label : list Z; st_protocol : list Z; dataChannelIdentifier : Z; st_state : RTC_DATA_CHANNEL_STATE;
}.

(** A registered callback is its custom data. *)
Record KvsDataChannel : Type := {
  name : list Z;
  id : Z;
  rtcDataChannelInit : RtcDataChannelInit;
  channelId : Z;
  onMessage : option Z;
  rtcDataChannelDiagnostics : RtcDataChannelStats;
  atomicMessagesSent : Z;
  atomicBytesSent : Z;
  atomicMessagesReceived : Z;
  atomicBytesReceived : Z;
  onOpen : option Z;
}.

(** Calls of the application's callbacks, and packets handed to DTLS. *)
Inductive DcCall : Type :=
| CallOnDataChannel (customData pChannel : Z)
| CallOnOpen (customData pChannel : Z)
| CallOnMessage (customData pChannel : Z) (isBinary : bool) (msg : list Z)
| DtlsPut (pkt : list Z).

(** The part of a peer connection that the channels use. *)
Record KvsPeerConnection : Type := {
  dtlsIsServer : bool;
  onDataChannel : option Z;
  pDataChannels : HashTable Z;
  heap : list (option KvsDataChannel);
  sctp : SWorld;
  fired : list DcCall;
}.
Unset Primitive Projections.

#[export] Instance upd_label : Update label. Proof. derive_update. Defined.
#[export] Instance upd_st_protocol : Update st_protocol. Proof. derive_update. Defined.
#[export] Instance upd_dataChannelIdentifier : Update dataChannelIdentifier. Proof. derive_update. Defined.
#[export] Instance upd_st_state : Update st_state. Proof. derive_update. Defined.
#[export] Instance upd_name : Update name. Proof. derive_update. Defined.
#[export] Instance upd_id : Update id. Proof. derive_update. Defined.
#[export] Instance upd_rtcDataChannelInit : Update rtcDataChannelInit. Proof. derive_update. Defined.
#[export] Instance upd_channelId : Update channelId. Proof. derive_update. Defined.
#[export] Instance upd_onMessage : Update onMessage. Proof. derive_update. Defined.
#[export] Instance upd_rtcDataChannelDiagnostics : Update rtcDataChannelDiagnostics. Proof. derive_update. Defined.
#[export] Instance upd_atomicMessagesSent : Update atomicMessagesSent. Proof. derive_update. Defined.
#[export] Instance upd_atomicBytesSent : Update atomicBytesSent. Proof. derive_update. Defined.
#[export] Instance upd_atomicMessagesReceived : Update atomicMessagesReceived. Proof. derive_update. Defined.
#[export] Instance upd_atomicBytesReceived : Update atomicBytesReceived. Proof. derive_update. Defined.
#[export] Instance upd_onOpen : Update onOpen. Proof. derive_update. Defined.
#[export] Instance upd_pDataChannels : Update pDataChannels. Proof. derive_update. Defined.
#[export] Instance upd_heap : Update heap. Proof. derive_update. Defined.
#[export] Instance upd_sctp : Update sctp. Proof. derive_update. Defined.
#[export] Instance upd_fired : Update fired. Proof. derive_update. Defined.

(** MEMCALLOC's zeroes; a zero NullableUint16 is the value 0, not empty. *)
Definition zeroInit : RtcDataChannelInit :=
  {| ordered := false; maxPacketLifeTime := Some 0; maxRetransmits := Some 0;
     protocol := replicate (Z.to_nat (MAX_DATA_CHANNEL_PROTOCOL_LEN + 1)) 0; negotiated := false |}.
Definition zeroChannel : KvsDataChannel :=
  {| name := replicate (Z.to_nat (MAX_DATA_CHANNEL_NAME_LEN + 1)) 0; id := 0;
     rtcDataChannelInit := zeroInit; channelId := 0; onMessage := None;
     rtcDataChannelDiagnostics :=
       {| label := replicate (Z.to_nat (MAX_STATS_STRING_LENGTH + 1)) 0;
          st_protocol := replicate (Z.to_nat (MAX_STATS_STRING_LENGTH + 1)) 0;
          dataChannelIdentifier := 0; st_state := RTC_DATA_CHANNEL_STATE_CONNECTING |};
     atomicMessagesSent := 0; atomicBytesSent := 0; atomicMessagesReceived := 0;
     atomicBytesReceived := 0; onOpen := None |}.

Definition PC (A : Type) : Type := ST KvsPeerConnection A.

(** ** The heap *)

Definition getChannel (p : Z) : PC KvsDataChannel := fun pc =>
  match lget (heap pc) (p - 1) with
  | Ok (Some c) => Some (c, pc)
  | _ => None
  end.
Definition setChannel (p : Z) (f : KvsDataChannel -> KvsDataChannel) : PC unit :=
  c ← getChannel p;
  hp ← gets heap;
  hp ← lift (lput hp (p - 1) (Some (f c)));
  modify (fun pc => pc <| heap := hp |>).
(** A new object and its pointer. *)
Definition newChannel (c : KvsDataChannel) : PC Z := fun pc =>
  Some (Z.of_nat (length (heap pc)) + 1, pc <| heap := heap pc ++ [Some c] |>).
Definition freeChannel (p : Z) : PC unit :=
  hp ← gets heap;
  hp ← lift (lput hp (p - 1) None);
  modify (fun pc => pc <| heap := hp |>).
Definition fire (c : DcCall) : PC unit := modify (fun pc => pc <| fired := fired pc ++ [c] |>).
Definition setTable (t : HashTable Z) : PC unit := modify (fun pc => pc <| pDataChannels := t |>).

(** A call that returns a status, or a value. *)
Definition try {A} (m : res A) : PC (STATUS + A) :=
  match m with
  | Ok a => mret (inr a)
  | Err st => mret (inl st)
  | Fault => fun _ => None
  end.

(** The allocations: whether MEMCALLOC of a channel, and the hash table's, succeed. *)
Section Operations.
Variable h : endian.
Variable gettime : nat -> Z.
Variable memalloc : nat -> Z -> option (list Z).
Variable callocOk tableMem : bool.

(** ** Callbacks of the session *)

Definition onSctpSessionOutboundPacket (pkt : list Z) : PC unit := fire (DtlsPut pkt).

(** hashTableGet into a zero-initialised value: NULL for an absent key. *)
Definition lookupChannel (key : Z) : PC (STATUS + Z) :=
  t ← gets pDataChannels;
  r ← try (hashTableGet (Some t) key);
  match r with
  | inr p => mret (inr p)
  | inl STATUS_HASH_KEY_NOT_PRESENT => mret (inr 0)
  | inl st => mret (inl st)
  end.

(** hashTableUpsert whose failure is only logged. *)
Definition upsertChannel (key p : Z) : PC unit :=
  t ← gets pDataChannels;
  r ← try (hashTableUpsert tableMem (Some t) key p);
  match r with inr t => setTable t | inl _ => mret tt end.

Definition onSctpSessionDataChannelMessage (channel : Z) (isBinary : bool) (pMessage : list Z) : PC unit :=
  r ← lookupChannel channel;
  match r with
  | inl _ => mret tt
  | inr p =>
      if p =? 0 then mret tt else
      c ← getChannel p;
      match onMessage c with
      | None => mret tt
      | Some customData =>
          setChannel p (fun c => c <| atomicMessagesReceived := u64 (atomicMessagesReceived c + 1) |>
                                   <| atomicBytesReceived := u64 (atomicBytesReceived c + blen pMessage) |>);;
          upsertChannel channel p;;
          fire (CallOnMessage customData p isBinary pMessage)
      end
  end.

Definition onSctpSessionDataChannelOpen (channel : Z) (pName : ptr) (nameLen : Z) : PC unit :=
  cb ← gets onDataChannel;
  match cb with
  | None => mret tt
  | Some customData =>
      if negb callocOk then mret tt else
      nm ← lift (STRNCPY (name zeroChannel) pName nameLen);
      lbl ← lift (STRNCPY (label (rtcDataChannelDiagnostics zeroChannel)) pName nameLen);
      p ← newChannel (zeroChannel <| name := nm |> <| id := channel |> <| channelId := channel |>
             <| rtcDataChannelDiagnostics := (rtcDataChannelDiagnostics zeroChannel)
                  <| dataChannelIdentifier := i32 channel |>
                  <| st_state := RTC_DATA_CHANNEL_STATE_OPEN |> <| label := lbl |> |>);
      t ← gets pDataChannels;
      r ← try (hashTablePut tableMem (Some t) channel p);
      match r with
      | inl _ => mret tt
      | inr t => setTable t;; fire (CallOnDataChannel customData p)
      end
  end.

Definition dispatch (c : SessionCall) : PC unit :=
  match c with
  | OutboundPacket pkt => onSctpSessionOutboundPacket pkt
  | DataChannelOpen channel pName nameLen => onSctpSessionDataChannelOpen channel pName nameLen
  | DataChannelMessage channel isBinary msg => onSctpSessionDataChannelMessage channel isBinary msg
  end.

Fixpoint dispatchAll (cs : list SessionCall) : PC unit :=
  match cs with
  | [] => mret tt
  | c :: cs => dispatch c;; dispatchAll cs
  end.

(** An operation of the session, with the handlers above as its callbacks. *)
Definition runSession {A} (m : ST SWorld A) : PC A := fun pc =>
  match m ((sctp pc) <| calls := [] |>) with
  | None => None
  | Some (a, w') => (dispatchAll (calls w');; mret a) (pc <| sctp := w' |>)
  end.

(** ** Operations *)

(** [hasPtr]: ppRtcDataChannel is not NULL.  The result is the status and, on success,
    the pointer stored there. *)
Definition createDataChannel (pDataChannelName : option (list Z)) (init : option RtcDataChannelInit)
    (hasPtr : bool) : PC (STATUS * Z) :=
  match pDataChannelName with
  | None => mret (STATUS_NULL_ARG, 0)
  | Some nameStr =>
      if negb hasPtr then mret (STATUS_NULL_ARG, 0) else
      s ← gets (fun pc => session (sctp pc));
      match s with
      | Some _ => mret (STATUS_INTERNAL_ERROR, 0)
      | None =>
          if negb callocOk then mret (STATUS_NOT_ENOUGH_MEMORY, 0) else
          nm ← lift (STRNCPY (name zeroChannel) (Ptr nameStr 0) MAX_DATA_CHANNEL_NAME_LEN);
          let params := match init with
                        | Some i => i <| negotiated := false |>
                        | None => {| ordered := true; maxPacketLifeTime := None; maxRetransmits := None;
                                     protocol := protocol zeroInit; negotiated := false |}
                        end in
          len ← lift (STRLEN nm);
          lbl ← lift (STRNCPY (label (rtcDataChannelDiagnostics zeroChannel)) (Ptr nm 0) len);
          t ← gets pDataChannels;
          n ← lift (hashTableGetCount (Some t));
          proto ← lift (STRNCPY (st_protocol (rtcDataChannelDiagnostics zeroChannel))
                          (Ptr DATA_CHANNEL_PROTOCOL_STR 0) (MAX_STATS_STRING_LENGTH + 1));
          p ← newChannel (zeroChannel <| name := nm |> <| rtcDataChannelInit := params |> <| id := n |>
                 <| rtcDataChannelDiagnostics := (rtcDataChannelDiagnostics zeroChannel)
                      <| label := lbl |> <| st_state := RTC_DATA_CHANNEL_STATE_CONNECTING |>
                      <| dataChannelIdentifier := i32 n |> <| st_protocol := proto |> |>);
          r ← try (hashTablePut tableMem (Some t) n p);
          match r with
          | inr t => setTable t;; mret (STATUS_SUCCESS, p)
          | inl st => freeChannel p;; mret (st, 0)
          end
      end
  end.

Definition dataChannelSend (pChannel : Z) (isBinary : bool) (pMessage : option (list Z)) (pMessageLen : Z)
    : PC STATUS :=
  if pChannel =? 0 then mret STATUS_NULL_ARG else
  match pMessage with
  | None => mret STATUS_NULL_ARG
  | Some msg =>
      c ← getChannel pChannel;
      st ← runSession (sctpSessionWriteMessage h gettime memalloc (channelId c) isBinary (Some msg) pMessageLen);
      if STATUS_FAILED st then mret st else
      setChannel pChannel (fun c => c <| atomicMessagesSent := u64 (atomicMessagesSent c + 1) |>
                                      <| atomicBytesSent := u64 (atomicBytesSent c + pMessageLen) |>);;
      mret STATUS_SUCCESS
  end.

(** [cb]: the custom data with a callback, or NULL. *)
Definition dataChannelOnMessage (pChannel : Z) (cb : option Z) : PC STATUS :=
  if (pChannel =? 0) || negb (bool_decide (is_Some cb)) then mret STATUS_NULL_ARG
  else setChannel pChannel (fun c => c <| onMessage := cb |>);; mret STATUS_SUCCESS.

Definition dataChannelOnOpen (pChannel : Z) (cb : option Z) : PC STATUS :=
  if (pChannel =? 0) || negb (bool_decide (is_Some cb)) then mret STATUS_NULL_ARG
  else setChannel pChannel (fun c => c <| onOpen := cb |>);; mret STATUS_SUCCESS.

(** The iteration callback over the old table: the state is the next identifier, the new
    table and the heap; a fault stops the iteration. *)
Definition SortData : Type := option (Z * HashTable Z * list (option KvsDataChannel)).

Definition allocateSctpSortDataChannelsDataCallback (d : SortData) (e : Z * Z) : STATUS * SortData :=
  match d with
  | None => (STATUS_INTERNAL_ERROR, None)
  | Some (cur, t, hp) =>
      match lget hp (e.2 - 1) with
      | Ok (Some c) =>
          let c := c <| channelId := cur |> <| id := cur |>
                     <| rtcDataChannelDiagnostics :=
                          (rtcDataChannelDiagnostics c) <| dataChannelIdentifier := i32 cur |> |> in
          match lput hp (e.2 - 1) (Some c) with
          | Ok hp =>
              match hashTablePut tableMem (Some t) cur e.2 with
              | Ok t => (STATUS_SUCCESS, Some (cur +32 2, t, hp))
              | Err st => (st, Some (cur, t, hp))
              | Fault => (STATUS_INTERNAL_ERROR, None)
              end
          | _ => (STATUS_INTERNAL_ERROR, None)
          end
      | _ => (STATUS_INTERNAL_ERROR, None)
      end
  end.

(** The announcement of the channels [cur], [cur + 2], ... below [last]; at most [n]. *)
Fixpoint announceLoop (n : nat) (cur last : Z) : PC STATUS :=
  if cur <? last then
    match n with
    | O => fun _ => None
    | S n =>
        r ← lookupChannel cur;
        match r with
        | inl st => mret st
        | inr p =>
            if p =? 0 then mret STATUS_INTERNAL_ERROR else
            c ← getChannel p;
            len ← lift (STRLEN (name c));
            st ← runSession (sctpSessionWriteDcep h gettime memalloc cur (Some (name c)) len (rtcDataChannelInit c));
            if STATUS_FAILED st then mret st else
            setChannel p (fun c => c <| rtcDataChannelDiagnostics :=
              (rtcDataChannelDiagnostics c) <| st_state := RTC_DATA_CHANNEL_STATE_OPEN |> |>);;
            upsertChannel cur p;;
            (match onOpen c with Some customData => fire (CallOnOpen customData p) | None => mret tt end);;
            announceLoop n (cur +32 2) last
        end
    end
  else mret STATUS_SUCCESS.

Definition sessionCallbacks : SctpSessionCallbacks :=
  {| outboundPacketFunc := true; dataChannelOpenFunc := true; dataChannelMessageFunc := true |}.

(** [sessionMem]: MEMCALLOC of the session succeeds; [timerStatus]: the outcome of
    timerQueueAddTimer (STATUS_SUCCESS without a timer queue). *)
Definition allocateSctp (sessionMem : bool) (timerStatus : STATUS) : PC STATUS :=
  pc ← gets (fun pc => pc);
  let first := if dtlsIsServer pc then 1 else 0 in
  let unkeyed := pDataChannels pc in
  r ← try (hashTableCreateWithParams tableMem CODEC_HASH_TABLE_BUCKET_COUNT CODEC_HASH_TABLE_BUCKET_LENGTH);
  match r with
  | inl st => mret st
  | inr t =>
      '(st, d) ← lift (hashTableIterateEntries (Some unkeyed) allocateSctpSortDataChannelsDataCallback
                         (Some (first, t, heap pc)));
      match d with
      | None => fun _ => None
      | Some (last, t, hp) =>
          setTable t;;
          modify (fun pc => pc <| heap := hp |>);;
          if STATUS_FAILED st then mret st else
          st ← runSession (createSctpSession h gettime (Some sessionCallbacks) true sessionMem);
          if STATUS_FAILED st then mret st
          else if STATUS_FAILED timerStatus then mret timerStatus
          else announceLoop (Z.to_nat (itemCount unkeyed)) first last
      end
  end.

(** The SCTP part of onInboundPacket: a decrypted packet. *)
Definition inboundSctp (pkt : list Z) : PC STATUS :=
  runSession (putSctpPacket h gettime memalloc (Some pkt) (blen pkt)).
End Operations.

(** ** The log of a session *)

(** [m] only appends to the log of calls. *)
Definition prefixed {A} (cs : list SessionCall) (r : option (A * SWorld)) : option (A * SWorld) :=
  match r with Some (a, w) => Some (a, w <| calls := cs ++ calls w |>) | None => None end.
Definition logs {A} (m : ST SWorld A) : Prop :=
  forall cs w, m (w <| calls := cs ++ calls w |>) = prefixed cs (m w).

Lemma logs_ret {A} (a : A) : logs (mret a).
Proof. done. Qed.
Lemma logs_bind {A B} (f : A -> ST SWorld B) m : logs m -> (forall a, logs (f a)) -> logs (m ≫= f).
Proof. intros Hm Hf cs w. unfold mbind, ST_bind. rewrite Hm. destruct (m w) as [[a w']|]; [apply Hf|done]. Qed.
Lemma logs_runAssoc h {A} (m : ST World A) : logs (runAssoc h m).
Proof.
  intros cs w. unfold runAssoc. change (session (w <| calls := cs ++ calls w |>)) with (session w).
  destruct (session w) as [s|]; [|done].
  change (assocWorld s (w <| calls := cs ++ calls w |>)) with (assocWorld s w).
  destruct (m (assocWorld s w)) as [[a w']|]; [|done]. destruct (bridgeAll h s (events w')) as [c| |]; [|done..].
  cbn [prefixed]. do 2 f_equal. unfold update, upd_calls. cbn [calls session sclock sallocs]. f_equal.
  symmetry. apply (assoc_L (++)).
Qed.
Lemma logs_withActive k : logs k -> logs (withActive k).
Proof.
  intros Hk cs w. unfold withActive. rewrite !(gets_session_eq _ (session w)) by done.
  destruct (session w) as [s|]; [|done]. destruct (negb (active s)); [done|apply Hk].
Qed.
Lemma logs_putSctpPacket h gettime memalloc buf len : logs (putSctpPacket h gettime memalloc buf len).
Proof.
  apply logs_withActive, logs_bind; [apply logs_runAssoc|]. intros now.
  apply logs_bind; [apply logs_runAssoc|]. intros _. apply logs_runAssoc.
Qed.

(** ** The handlers ignore the session *)

Definition sctp_put {A} (w : SWorld) (r : option (A * KvsPeerConnection)) : option (A * KvsPeerConnection) :=
  match r with Some (a, pc) => Some (a, pc <| sctp := w |>) | None => None end.
Definition offSession {A} (m : PC A) : Prop := forall w pc, m (pc <| sctp := w |>) = sctp_put w (m pc).

Lemma off_ret {A} (a : A) : offSession (mret a : PC A).
Proof. done. Qed.
Lemma off_bind {A B} (f : A -> PC B) (m : PC A) : offSession m -> (forall a, offSession (f a)) -> offSession (m ≫= f).
Proof. intros Hm Hf w pc. unfold mbind, ST_bind. rewrite Hm. destruct (m pc) as [[a pc']|]; [apply Hf|done]. Qed.
Lemma off_gets {A} (f : KvsPeerConnection -> A) : (forall w pc, f (pc <| sctp := w |>) = f pc) -> offSession (gets f).
Proof. intros Hf w pc. unfold gets. by rewrite Hf. Qed.
Lemma off_modify f : (forall w pc, f (pc <| sctp := w |>) = (f pc) <| sctp := w |>) -> offSession (modify f).
Proof. intros Hf w pc. unfold modify. by rewrite Hf. Qed.
Lemma off_lift {A} (m : res A) : offSession (lift m : PC A).
Proof. intros w pc. by destruct m. Qed.
Lemma off_try {A} (m : res A) : offSession (try m).
Proof. intros w pc. by destruct m. Qed.
Lemma off_getChannel p : offSession (getChannel p).
Proof.
  intros w pc. unfold getChannel. change (heap (pc <| sctp := w |>)) with (heap pc). by destruct (lget _ _) as [[]| |].
Qed.
Lemma off_newChannel c : offSession (newChannel c).
Proof. done. Qed.

Ltac off_step :=
  lazymatch goal with
  | |- offSession (mbind _ _) => apply off_bind; [|intros ?]
  | |- offSession (mret _) => apply off_ret
  | |- offSession (gets _) => by apply off_gets
  | |- offSession (modify _) => by apply off_modify
  | |- offSession (lift _) => apply off_lift
  | |- offSession (try _) => apply off_try
  | |- offSession (getChannel _) => apply off_getChannel
  | |- offSession (newChannel _) => apply off_newChannel
  | |- offSession (match ?x with _ => _ end) => destruct x
  end.

Lemma off_dispatch callocOk tableMem c : offSession (dispatch callocOk tableMem c).
Proof.
  destruct c; cbn [dispatch]; unfold onSctpSessionOutboundPacket, onSctpSessionDataChannelOpen,
    onSctpSessionDataChannelMessage, lookupChannel, upsertChannel, setChannel, setTable, fire; repeat off_step.
Qed.

Lemma off_dispatchAll callocOk tableMem cs : offSession (dispatchAll callocOk tableMem cs).
Proof. induction cs as [|c cs IH]; [done|]. apply off_bind; [apply off_dispatch|]. by intros _. Qed.

Lemma dispatchAll_app callocOk tableMem c1 c2 pc :
  dispatchAll callocOk tableMem (c1 ++ c2) pc =
  (dispatchAll callocOk tableMem c1;; dispatchAll callocOk tableMem c2) pc.
Proof.
  revert pc. induction c1 as [|c c1 IH]; intros pc; [done|]. cbn [app dispatchAll]. unfold mbind, ST_bind in *.
  destruct (dispatch _ _ c pc) as [[[] pc']|]; [apply IH|done].
Qed.

Lemma logs_feed handle pks : (forall pk, logs (handle pk)) -> logs (feed handle pks).
Proof. intros Hh. induction pks as [|pk pks IH]; [apply logs_ret|]. apply logs_bind; [apply Hh|]. by intros _. Qed.

(** Packets for the session of a peer connection: the handlers run on what the session,
    taken alone, logs. *)
Lemma feed_inbound h gettime memalloc callocOk tableMem pks w w' pc pc' st :
  feed (fun pk => putSctpPacket h gettime memalloc (Some pk) (blen pk)) pks (w <| calls := [] |>) = Some (st, w') ->
  dispatchAll callocOk tableMem (calls w') pc = Some (tt, pc') ->
  exists cs, feed (inboundSctp h gettime memalloc callocOk tableMem) pks (pc <| sctp := w |>)
    = Some (st, pc' <| sctp := w' <| calls := cs |> |>).
Proof.
  set (put := fun pk => putSctpPacket h gettime memalloc (Some pk) (blen pk)).
  revert w w' pc. induction pks as [|pk pks IH]; intros w w' pc.
  { intros [= <- <-] [= <-]. by exists (calls w). }
  change (feed put (pk :: pks)) with (put pk;; feed put pks).
  change (feed (inboundSctp h gettime memalloc callocOk tableMem) (pk :: pks))
    with (inboundSctp h gettime memalloc callocOk tableMem pk;; feed (inboundSctp h gettime memalloc callocOk tableMem) pks).
  unfold mbind at 1, ST_bind at 1. destruct (put pk (w <| calls := [] |>)) as [[st1 w1]|] eqn:E1; [|done].
  pose proof (logs_feed put pks (fun pk => logs_putSctpPacket h gettime memalloc (Some pk) (blen pk))
                (calls w1) (w1 <| calls := [] |>)) as Hl.
  change ((w1 <| calls := [] |>) <| calls := calls w1 ++ calls (w1 <| calls := [] |>) |>)
    with (w1 <| calls := calls w1 ++ [] |>) in Hl. rewrite app_nil_r in Hl.
  change (w1 <| calls := calls w1 |>) with w1 in Hl. rewrite Hl.
  destruct (feed put pks (w1 <| calls := [] |>)) as [[st2 w2]|] eqn:E2; [|done]. cbn [prefixed].
  intros [= -> <-]. change (calls (w2 <| calls := ?c |>)) with c. rewrite dispatchAll_app.
  unfold mbind at 1, ST_bind at 1. destruct (dispatchAll callocOk tableMem (calls w1) pc) as [[[] pc1]|] eqn:Ed; [|done].
  intros Ed2. destruct (IH w1 w2 pc1 E2 Ed2) as [cs Hcs]. exists cs.
  unfold mbind at 1, ST_bind at 1. unfold inboundSctp at 1, runSession.
  change (sctp (pc <| sctp := w |>)) with w. fold (put pk). rewrite E1.
  change ((pc <| sctp := w |>) <| sctp := w1 |>) with (pc <| sctp := w1 |>).
  unfold mbind at 1, ST_bind at 1. rewrite off_dispatchAll, Ed. cbn [sctp_put]. exact Hcs.
Qed.

(** ** The calls of one message or open request *)

Definition isDtls (c : DcCall) : bool := match c with DtlsPut _ => true | _ => false end.
(** What the application sees. *)
Definition appCalls (pc : KvsPeerConnection) : list DcCall := List.filter (fun c => negb (isDtls c)) (fired pc).

(** The application's view of a peer connection. *)
Definition pview (pc : KvsPeerConnection) := (onDataChannel pc, pDataChannels pc, heap pc, appCalls pc).

Lemma pview_inv pc pc1 : pview pc1 = pview pc ->
  onDataChannel pc1 = onDataChannel pc /\ pDataChannels pc1 = pDataChannels pc /\ heap pc1 = heap pc /\ appCalls pc1 = appCalls pc.
Proof. unfold pview. by intros [= -> -> -> ->]. Qed.

Lemma dispatch_packets callocOk tableMem cs pc :
  List.filter isData cs = [] ->
  exists pc', dispatchAll callocOk tableMem cs pc = Some (tt, pc') /\ pview pc' = pview pc.
Proof.
  revert pc. induction cs as [|c cs IH]; intros pc; [by exists pc|]. destruct c; cbn [List.filter isData]; [|done..].
  intros Hf. destruct (IH (pc <| fired := fired pc ++ [DtlsPut pkt] |>) Hf) as (pc' & E & Hv). exists pc'. split; [exact E|].
  rewrite Hv. unfold pview, appCalls. change (fired (pc <| fired := ?l |>)) with l. by rewrite List.filter_app, app_nil_r.
Qed.

Lemma filter_singleton {A} (f : A -> bool) l x :
  List.filter f l = [x] -> exists l1 l2, l = l1 ++ x :: l2 /\ List.filter f l1 = [] /\ List.filter f l2 = [].
Proof.
  induction l as [|y l IH]; [done|]. cbn [List.filter]. destruct (f y) eqn:Ey.
  - intros [= <- Hl]. exists [], l. by split_and!.
  - intros Hl. destruct (IH Hl) as (l1 & l2 & -> & H1 & H2). exists (y :: l1), l2. cbn [List.filter]. rewrite Ey. by split_and!.
Qed.

(** A handler that depends on the application's view only does its work among the packets. *)
Lemma dispatch_one callocOk tableMem cs d pc (P : _ -> Prop) :
  List.filter isData cs = [d] ->
  (forall pc1, pview pc1 = pview pc -> exists pc2, dispatch callocOk tableMem d pc1 = Some (tt, pc2) /\ P (pview pc2)) ->
  exists pc', dispatchAll callocOk tableMem cs pc = Some (tt, pc') /\ P (pview pc').
Proof.
  intros Hf Hd. apply filter_singleton in Hf as (l1 & l2 & -> & H1 & H2).
  destruct (dispatch_packets callocOk tableMem l1 pc H1) as (pc1 & E1 & Hv1).
  destruct (Hd pc1 Hv1) as (pc2 & E2 & HP). destruct (dispatch_packets callocOk tableMem l2 pc2 H2) as (pc3 & E3 & Hv3).
  exists pc3. rewrite dispatchAll_app. unfold mbind, ST_bind. rewrite E1. cbn [dispatchAll]. unfold mbind, ST_bind.
  rewrite E2, E3, Hv3. done.
Qed.

(** ** The table of channels *)

(** A table in order whose entries point to channels of the heap. *)
Definition chan_at (hp : list (option KvsDataChannel)) (p : Z) (c : KvsDataChannel) : Prop :=
  0 < p /\ hp !! Z.to_nat (p - 1) = Some (Some c).

Record table_ok (t : HashTable Z) (hp : list (option KvsDataChannel)) : Prop := {
  tok_ht : ht_ok t;
  tok_roomy : roomy t;
  tok_keys : keys16 t;
  tok_live : forall k p, ht_map t !! k = Some p -> exists c, chan_at hp p c;
}.

Lemma wp_gets_eq {S A} (f : S -> A) x (Q : A -> S -> Prop) s : f s = x -> Q x s -> wp (gets f) Q s.
Proof. by intros <-. Qed.

Lemma try_wp {A} (m : res A) a (Q : STATUS + A -> KvsPeerConnection -> Prop) pc : m = Ok a -> Q (inr a) pc -> wp (try m) Q pc.
Proof. by intros ->. Qed.

Lemma lookup_wp t hp k Q pc :
  table_ok t hp -> pDataChannels pc = t ->
  Q (inr (default 0 (ht_map t !! k))) pc -> wp (lookupChannel k) Q pc.
Proof.
  intros Ht Ep HQ. unfold lookupChannel. apply wp_bind. eapply wp_gets_eq; [exact Ep|].
  rewrite hashTableGet_spec by apply Ht.
  by destruct (ht_map t !! k).
Qed.

Lemma getChannel_wp p c Q pc : chan_at (heap pc) p c -> Q c pc -> wp (getChannel p) Q pc.
Proof.
  intros [Hp Hl] HQ. unfold wp, getChannel, lget. rewrite (proj2 (Z.leb_le _ _)) by lia. by rewrite Hl.
Qed.

Lemma setChannel_wp p c f Q pc :
  chan_at (heap pc) p c -> Q tt (pc <| heap := <[Z.to_nat (p - 1) := Some (f c)]> (heap pc) |>) -> wp (setChannel p f) Q pc.
Proof.
  intros Hc HQ. unfold setChannel. apply wp_bind. eapply getChannel_wp; [exact Hc|]. apply wp_bind, wp_gets, wp_bind.
  destruct Hc as [Hp Hl]. apply lookup_lt_Some in Hl. eapply wp_lift; [apply lput_in; lia|]. by apply wp_modify.
Qed.

Lemma chan_at_insert hp p c p' c' x :
  chan_at hp p c -> chan_at hp p' c' -> exists c'', chan_at (<[Z.to_nat (p - 1) := Some x]> hp) p' c''.
Proof.
  intros [Hp Hl] [Hp' Hl']. destruct (decide (p = p')) as [<-|Hne].
  - exists x. split; [done|]. apply list_lookup_insert_eq. by apply lookup_lt_Some in Hl.
  - exists c'. split; [done|]. rewrite list_lookup_insert_ne by lia. done.
Qed.

Lemma table_ok_set t hp p c x : table_ok t hp -> chan_at hp p c -> table_ok t (<[Z.to_nat (p - 1) := Some x]> hp).
Proof.
  intros [H1 H2 H3 H4] Hc. constructor; try done. intros k q Hq. destruct (H4 k q Hq) as [c' Hc'].
  by eapply chan_at_insert.
Qed.

Lemma table_ok_ext t t' hp :
  table_ok t hp -> ht_ok t' -> ht_map t' = ht_map t -> (keys16 t -> roomy t') -> table_ok t' hp.
Proof.
  intros [H1 H2 H3 H4] Ho Em Hr. constructor; [done|by apply Hr| |].
  - unfold keys16. by rewrite Em.
  - by rewrite Em.
Qed.

(** Writing an entry back changes nothing. *)
Lemma upsert_same t hp k p Q pc :
  table_ok t hp -> pDataChannels pc = t -> ht_map t !! k = Some p ->
  (forall t', table_ok t' hp -> ht_map t' = ht_map t -> Q tt (pc <| pDataChannels := t' |>)) ->
  wp (upsertChannel true k p) Q pc.
Proof.
  intros Ht Ep Hk HQ. unfold upsertChannel. apply wp_bind. eapply wp_gets_eq; [exact Ep|].
  destruct (hashTableUpsert_spec t k p (tok_ht _ _ Ht) (tok_roomy _ _ Ht)) as (t' & -> & Ho & Em & Hr).
  cbn [try]. apply wp_bind, wp_ret. unfold setTable. apply wp_modify, HQ.
  - eapply table_ok_ext; [exact Ht|done| |done]. by rewrite Em, insert_id.
  - by rewrite Em, insert_id.
Qed.

Lemma appCalls_fire pc c : isDtls c = false -> appCalls (pc <| fired := fired pc ++ [c] |>) = appCalls pc ++ [c].
Proof.
  intros Hc. unfold appCalls. change (fired (pc <| fired := ?l |>)) with l. rewrite List.filter_app. cbn. by rewrite Hc.
Qed.

(** The counters of a received message. *)
Definition received_one (msg : list Z) (c : KvsDataChannel) : KvsDataChannel :=
  c <| atomicMessagesReceived := u64 (atomicMessagesReceived c + 1) |>
    <| atomicBytesReceived := u64 (atomicBytesReceived c + blen msg) |>.

Lemma onMessage_wp k p c cd isBinary msg pc :
  table_ok (pDataChannels pc) (heap pc) -> ht_map (pDataChannels pc) !! k = Some p ->
  chan_at (heap pc) p c -> onMessage c = Some cd ->
  wp (onSctpSessionDataChannelMessage true k isBinary msg) (fun _ pc' =>
    table_ok (pDataChannels pc') (heap pc') /\ ht_map (pDataChannels pc') = ht_map (pDataChannels pc) /\
    heap pc' = <[Z.to_nat (p - 1) := Some (received_one msg c)]> (heap pc) /\
    appCalls pc' = appCalls pc ++ [CallOnMessage cd p isBinary msg]) pc.
Proof.
  intros Ht Hk Hc Hcd. unfold onSctpSessionDataChannelMessage. apply wp_bind. eapply lookup_wp; [exact Ht|done|].
  rewrite Hk. change (default 0 (Some p)) with p. pose proof Hc as [Hp _]. rewrite (proj2 (Z.eqb_neq p 0)) by lia.
  apply wp_bind. eapply getChannel_wp; [exact Hc|]. rewrite Hcd. apply wp_bind. eapply setChannel_wp; [exact Hc|].
  fold (received_one msg c). apply wp_bind. eapply upsert_same; [by eapply table_ok_set|reflexivity|exact Hk|].
  intros t' Ht' Em. unfold fire. apply wp_modify. split; [exact Ht'|]. split; [exact Em|]. split; [done|].
  exact (appCalls_fire pc (CallOnMessage cd p isBinary msg) eq_refl).
Qed.

(** ** Sending *)

Lemma dispatch_outbound callocOk tableMem pks pc :
  dispatchAll callocOk tableMem (map OutboundPacket pks) pc
  = Some (tt, pc <| fired := fired pc ++ map DtlsPut pks |>).
Proof.
  revert pc. induction pks as [|pk pks IH]; intros pc; [by rewrite app_nil_r|]. cbn [map dispatchAll].
  change ((dispatch callocOk tableMem (OutboundPacket pk);; dispatchAll callocOk tableMem (map OutboundPacket pks)) pc)
    with (dispatchAll callocOk tableMem (map OutboundPacket pks) (pc <| fired := fired pc ++ [DtlsPut pk] |>)).
  rewrite IH. do 2 f_equal. change (fired (pc <| fired := ?l |>)) with l. by rewrite <- (assoc_L (++)).
Qed.

(** A session operation that only sends packets. *)
Lemma runSession_outbound callocOk tableMem {A} (m : ST SWorld A) a w' pks pc :
  m ((sctp pc) <| calls := [] |>) = Some (a, w') -> calls w' = map OutboundPacket pks ->
  runSession callocOk tableMem m pc = Some (a, pc <| sctp := w' |> <| fired := fired pc ++ map DtlsPut pks |>).
Proof. intros E Ec. unfold runSession. rewrite E, Ec. unfold mbind, ST_bind. by rewrite dispatch_outbound. Qed.

(** The counters of a sent message. *)
Definition sent_one (n : Z) (c : KvsDataChannel) : KvsDataChannel :=
  c <| atomicMessagesSent := u64 (atomicMessagesSent c + 1) |>
    <| atomicBytesSent := u64 (atomicBytesSent c + n) |>.

(** What dataChannelSend does when the session's write ends in [w'] and sends [pks]. *)
Lemma dataChannelSend_run h gettime memalloc callocOk tableMem p c isBinary bs pc w' pks :
  chan_at (heap pc) p c ->
  sctpSessionWriteMessage h gettime memalloc (channelId c) isBinary (Some bs) (blen bs) ((sctp pc) <| calls := [] |>)
    = Some (STATUS_SUCCESS, w') ->
  calls w' = map OutboundPacket pks ->
  exists pc', dataChannelSend h gettime memalloc callocOk tableMem p isBinary (Some bs) (blen bs) pc = Some (STATUS_SUCCESS, pc') /\
    sctp pc' = w' /\ fired pc' = fired pc ++ map DtlsPut pks /\
    heap pc' = <[Z.to_nat (p - 1) := Some (sent_one (blen bs) c)]> (heap pc).
Proof.
  intros Hc Ew Ecs.
  enough (Hw : wp (dataChannelSend h gettime memalloc callocOk tableMem p isBinary (Some bs) (blen bs))
    (fun st pc' => st = STATUS_SUCCESS /\ sctp pc' = w' /\ fired pc' = fired pc ++ map DtlsPut pks /\
       heap pc' = <[Z.to_nat (p - 1) := Some (sent_one (blen bs) c)]> (heap pc)) pc).
  { apply wp_run in Hw as (st & pc' & E & -> & H). by exists pc'. }
  unfold dataChannelSend. pose proof Hc as [Hp _]. rewrite (proj2 (Z.eqb_neq p 0)) by lia.
  apply wp_bind. eapply getChannel_wp; [exact Hc|]. apply wp_bind. 
  eapply wp_exec; [exact (runSession_outbound _ _ _ _ _ _ _ Ew Ecs)|].
  change (STATUS_FAILED STATUS_SUCCESS) with false. cbv match. apply wp_bind.
  eapply setChannel_wp; [exact Hc|]. apply wp_ret. done.
Qed.

(** ** A channel opened by the peer *)

Lemma ld_bytes_cons b o x bs :
  ld_bytes b o (blen (x :: bs)) = Ok (x :: bs) -> ld b o = Ok x /\ ld_bytes b (o + 1) (blen bs) = Ok bs.
Proof.
  intros E. pose proof (ld_bytes_inv _ _ _ _ E) as (Ho & _ & Hl & _). rewrite blen_cons in *. pose proof (blen_nonneg bs).
  rewrite ld_bytes_in in E by lia. injection E as E.
  assert (Ed : drop (Z.to_nat o) b = x :: drop (Z.to_nat (o + 1)) b).
  { destruct (drop (Z.to_nat o) b) as [|y l] eqn:Ed.
    - rewrite take_nil in E. done.
    - replace (Z.to_nat (1 + blen bs)) with (S (Z.to_nat (blen bs))) in E by lia. injection E as -> _. f_equal.
      replace (Z.to_nat (o + 1)) with (Z.to_nat o + 1)%nat by lia. rewrite <- drop_drop, Ed. done. }
  split.
  - unfold ld. rewrite (proj2 (Z.leb_le _ _)) by lia. rewrite <- (Nat.add_0_r (Z.to_nat o)), <- lookup_drop, Ed. done.
  - rewrite ld_bytes_in by lia. f_equal. rewrite Ed in E.
    replace (Z.to_nat (1 + blen bs)) with (S (Z.to_nat (blen bs))) in E by lia. by injection E.
Qed.

Lemma strncpy_bytes src i bs :
  ld_bytes (p_obj src) (p_off src + i) (blen bs) = Ok bs -> Forall (fun c => c <> 0) bs ->
  strncpyBytes (length bs) src i = Ok bs.
Proof.
  intros E Hnz. revert i E. induction Hnz as [|c bs Hc _ IH]; intros i E; [done|].
  apply ld_bytes_cons in E as [E1 E2]. cbn [length strncpyBytes]. unfold pld. rewrite E1. cbn [mbind res_bind].
  rewrite (proj2 (Z.eqb_neq c 0)) by done. rewrite IH; [done|]. by rewrite Z.add_assoc.
Qed.

(** A string of up to 255 bytes in an array of 256. *)
Definition padded (bs : list Z) : list Z := bs ++ replicate (256 - length bs) 0.

Lemma STRNCPY_padded src bs n :
  pld_bytes src (blen bs) = Ok bs -> Forall (fun c => c <> 0) bs -> blen bs <= 256 -> n = blen bs ->
  STRNCPY (replicate 256 0) src n = Ok (padded bs).
Proof.
  intros E Hnz Hl ->. unfold STRNCPY. rewrite <- length_blen, strncpy_bytes; [|by rewrite Z.add_0_r|done].
  cbn [mbind res_bind]. rewrite (put_bytes_at [] (replicate 256 0)); [|done|exact Hl].
  unfold padded. cbn [app]. by rewrite drop_replicate, <- length_blen.
Qed.

(** The channel that onSctpSessionDataChannelOpen makes. *)
Definition openedChannel (k : Z) (bs : list Z) : KvsDataChannel :=
  zeroChannel <| name := padded bs |> <| id := k |> <| channelId := k |>
    <| rtcDataChannelDiagnostics := (rtcDataChannelDiagnostics zeroChannel)
         <| dataChannelIdentifier := i32 k |> <| st_state := RTC_DATA_CHANNEL_STATE_OPEN |> <| label := padded bs |> |>.

Lemma table_ok_put t t' hp k p c :
  table_ok t hp -> ht_ok t' -> (keys16 t -> roomy t') -> is_u16 k -> chan_at hp p c ->
  ht_map t' = <[k := p]> (ht_map t) -> table_ok t' hp.
Proof.
  intros [H1 H2 H3 H4] Ho Hr Hk Hc Em. constructor; [done|by apply Hr| |].
  - intros j. rewrite Em. destruct (decide (j = k)) as [->|]; [done|]. rewrite lookup_insert_ne by done. apply H3.
  - intros j q. rewrite Em. destruct (decide (j = k)) as [->|].
    + rewrite lookup_insert_eq. intros [= <-]. by exists c.
    + rewrite lookup_insert_ne by done. apply H4.
Qed.

Lemma table_ok_grow t hp x : table_ok t hp -> table_ok t (hp ++ [x]).
Proof.
  intros [H1 H2 H3 H4]. constructor; try done. intros k p Hp. destruct (H4 k p Hp) as (c & Hp0 & Hl). exists c.
  split; [done|]. by apply lookup_app_l_Some.
Qed.

Lemma table_ok_insert t t' hp k c :
  table_ok t hp -> ht_ok t' -> (keys16 t -> roomy t') -> is_u16 k ->
  ht_map t' = <[k := Z.of_nat (length hp) + 1]> (ht_map t) -> table_ok t' (hp ++ [Some c]).
Proof.
  intros Ht Ho Hr Hk Em. eapply (table_ok_put t); try done; [by apply table_ok_grow|]. split; [lia|].
  replace (Z.to_nat _) with (length hp) by lia. by apply list_lookup_middle.
Qed.

Lemma onOpen_wp k src bs cd pc :
  table_ok (pDataChannels pc) (heap pc) -> ht_map (pDataChannels pc) !! k = None -> onDataChannel pc = Some cd ->
  pld_bytes src (blen bs) = Ok bs -> Forall (fun c => c <> 0) bs -> blen bs <= 256 -> is_u16 k ->
  wp (onSctpSessionDataChannelOpen true true k src (blen bs)) (fun _ pc' =>
    let p := Z.of_nat (length (heap pc)) + 1 in
    table_ok (pDataChannels pc') (heap pc') /\ ht_map (pDataChannels pc') = <[k := p]> (ht_map (pDataChannels pc)) /\
    heap pc' = heap pc ++ [Some (openedChannel k bs)] /\
    appCalls pc' = appCalls pc ++ [CallOnDataChannel cd p]) pc.
Proof.
  intros Ht Hk Hcd Hs Hnz Hl Hu. unfold onSctpSessionDataChannelOpen. apply wp_bind.
  eapply wp_gets_eq; [exact Hcd|]. cbn [negb]. cbv match.
  apply wp_bind. eapply wp_lift; [by apply (STRNCPY_padded src bs)|].
  apply wp_bind. eapply wp_lift; [by apply (STRNCPY_padded src bs)|].
  apply wp_bind. eapply wp_exec; [reflexivity|]. apply wp_bind, wp_gets.
  change (pDataChannels (pc <| heap := ?l |>)) with (pDataChannels pc).
  pose proof (hashTablePut_spec (pDataChannels pc) k (Z.of_nat (length (heap pc)) + 1) (tok_ht _ _ Ht) (tok_roomy _ _ Ht)) as Hp.
  rewrite Hk in Hp. destruct Hp as (t' & Ep & Ho & Em & Hr). unfold setTable, fire.
  apply wp_bind. rewrite Ep. cbn [try]. apply wp_ret, wp_bind, wp_modify, wp_modify.
  split; [|split; [exact Em|split; [reflexivity|]]].
  - exact (table_ok_insert _ _ _ _ (openedChannel k bs) Ht Ho Hr Hu Em).
  - exact (appCalls_fire pc (CallOnDataChannel cd (Z.of_nat (length (heap pc)) + 1)) eq_refl).
Qed.

(** ** Names *)

(** A channel whose name is the string [bs]. *)
Definition named (bs : list Z) (c : KvsDataChannel) : Prop :=
  name c = padded bs /\ bytes_ok bs /\ Forall (fun x => x <> 0) bs /\ blen bs <= MAX_DATA_CHANNEL_NAME_LEN.

Lemma STRLEN_app bs rest : Forall (fun x => x <> 0) bs -> STRLEN (bs ++ 0 :: rest) = Ok (blen bs).
Proof.
  induction 1 as [|x bs Hx _ IH]; [done|]. cbn [app STRLEN]. rewrite (proj2 (Z.eqb_neq x 0)) by done. rewrite IH.
  cbn [mbind res_bind]. by rewrite blen_cons.
Qed.

Lemma padded_cons bs : blen bs <= 255 -> exists rest, padded bs = bs ++ 0 :: rest /\ blen (bs ++ 0 :: rest) = 256.
Proof.
  intros Hl. unfold padded. exists (replicate (255 - length bs) 0). unfold blen in *.
  replace (256 - length bs)%nat with (S (255 - length bs)) by lia. split; [done|].
  rewrite length_app. cbn [length]. rewrite length_replicate. lia.
Qed.

Lemma STRLEN_padded bs : blen bs <= 255 -> Forall (fun x => x <> 0) bs -> STRLEN (padded bs) = Ok (blen bs).
Proof. intros Hl Hnz. destruct (padded_cons bs Hl) as (rest & -> & _). by apply STRLEN_app. Qed.

Lemma pld_padded bs : pld_bytes (Ptr (padded bs) 0) (blen bs) = Ok bs.
Proof. unfold pld_bytes, padded. cbn [p_obj p_off]. by apply (ld_bytes_app [] bs). Qed.

(** Only the bytes of the label matter to sctpSessionWriteDcep. *)
Lemma writeDcep_prefix h gettime memalloc sid arr bs init w :
  pld_bytes (Ptr arr 0) (blen bs) = Ok bs ->
  sctpSessionWriteDcep h gettime memalloc sid (Some arr) (blen bs) init w
  = sctpSessionWriteDcep h gettime memalloc sid (Some bs) (blen bs) init w.
Proof.
  intros E. assert (Ed : dcepOpen arr (blen bs) init = dcepOpen bs (blen bs) init).
  { unfold dcepOpen. rewrite E, (pld_bytes_whole bs) by done. done. }
  unfold sctpSessionWriteDcep. by rewrite Ed.
Qed.

(** strncpy of a C string into an array one longer than the limit. *)
Lemma strncpy_string n bs i src :
  ld_bytes (p_obj src) (p_off src + i) (blen (bs ++ [0])) = Ok (bs ++ [0]) -> Forall (fun x => x <> 0) bs ->
  strncpyBytes n src i = Ok (take n bs ++ replicate (n - length bs) 0).
Proof.
  intros E Hnz. revert n i E. induction Hnz as [|x bs Hx _ IH]; intros n i E.
  - apply ld_bytes_cons in E as [E _]. destruct n; [done|]. cbn [strncpyBytes]. unfold pld. rewrite E. done.
  - cbn [app] in E. apply ld_bytes_cons in E as [E1 E2]. destruct n as [|n]; [done|]. cbn [strncpyBytes]. unfold pld.
    rewrite E1. cbn [mbind res_bind]. rewrite (proj2 (Z.eqb_neq x 0)) by done.
    rewrite (IH n (i + 1)) by (by rewrite Z.add_assoc). done.
Qed.

(** ** Creation *)

(** [m] holds the pointers [ps] under the keys [first], [first + step], ... *)
Record keyed_by (first step : Z) (ps : list Z) (m : gmap Z Z) : Prop := {
  kb_lookup : forall k p, m !! k = Some p <-> exists i, ps !! i = Some p /\ k = first + step * Z.of_nat i;
  kb_size : size m = length ps;
}.

Lemma keyed_fresh first step ps m : 0 < step -> keyed_by first step ps m -> m !! (first + step * Z.of_nat (length ps)) = None.
Proof.
  intros Hs [Hl _]. destruct (m !! _) as [p|] eqn:E; [|done]. apply Hl in E as (i & Hi & E).
  apply lookup_lt_Some in Hi. nia.
Qed.

Lemma keyed_insert first step ps m p :
  0 < step -> keyed_by first step ps m ->
  keyed_by first step (ps ++ [p]) (<[first + step * Z.of_nat (length ps) := p]> m).
Proof.
  intros Hs Hk. pose proof (keyed_fresh _ _ _ _ Hs Hk) as Hn. destruct Hk as [Hl Hz]. constructor.
  - intros k q. destruct (decide (k = first + step * Z.of_nat (length ps))) as [->|Hne].
    + rewrite lookup_insert_eq. split.
      * intros [= <-]. exists (length ps). by rewrite list_lookup_middle.
      * intros (i & Hi & E). assert (i = length ps) as -> by nia. rewrite list_lookup_middle in Hi by done. done.
    + rewrite lookup_insert_ne by done. rewrite Hl. split; intros (i & Hi & E); exists i.
      * split; [by apply lookup_app_l_Some|done].
      * split; [|done]. apply lookup_app_Some in Hi as [Hi|[Hge Hi]]; [done|].
        destruct (i - length ps)%nat eqn:Ei; [|done]. exfalso. apply Hne. rewrite E. do 2 f_equal. lia.
  - rewrite map_size_insert_None, Hz, length_app by done. cbn. lia.
Qed.

(** A peer connection before signalling: its channels [l], in creation order, keyed by
    their position, with their names. *)
Record unsignalled (pc : KvsPeerConnection) (l : list (Z * KvsDataChannel)) : Prop := {
  un_session : session (sctp pc) = None;
  un_table : table_ok (pDataChannels pc) (heap pc);
  un_keys : keyed_by 0 1 l.*1 (ht_map (pDataChannels pc));
  un_nodup : NoDup l.*1;
  un_chans : Forall (fun '(p, c) => chan_at (heap pc) p c /\ exists bs, named bs c) l;
}.

(** The channel createDataChannel makes for the name [bs] as the [n]-th. *)
Definition createdChannel (bs : list Z) (init : option RtcDataChannelInit) (n : Z) (c : KvsDataChannel) : Prop :=
  named (take 255 bs) c /\ id c = n /\
  rtcDataChannelInit c = match init with
                         | Some i => i <| negotiated := false |>
                         | None => {| ordered := true; maxPacketLifeTime := None; maxRetransmits := None;
                                      protocol := replicate 256 0; negotiated := false |}
                         end /\
  st_state (rtcDataChannelDiagnostics c) = RTC_DATA_CHANNEL_STATE_CONNECTING /\
  label (rtcDataChannelDiagnostics c) = padded (take 255 bs).

Lemma STRNCPY_name bs rest :
  Forall (fun x => x <> 0) bs ->
  STRNCPY (name zeroChannel) (Ptr (bs ++ 0 :: rest) 0) MAX_DATA_CHANNEL_NAME_LEN = Ok (padded (take 255 bs)).
Proof.
  intros Hnz. unfold STRNCPY. change (Z.to_nat MAX_DATA_CHANNEL_NAME_LEN) with 255%nat.
  rewrite (strncpy_string 255 bs 0); [|cbn [p_obj p_off]; rewrite (assoc_L (++) bs [0] rest : bs ++ 0 :: rest = _);
    by apply (ld_bytes_app [] (bs ++ [0]))|done].
  cbn [mbind res_bind]. set (w := take 255 bs ++ replicate (255 - length bs) 0).
  assert (Hw : length w = 255%nat) by (unfold w; rewrite length_app, length_take, length_replicate; lia).
  rewrite (put_bytes_at [] (name zeroChannel)); [|done|unfold blen; rewrite Hw; by vm_compute].
  cbn [app]. replace (Z.to_nat (blen w)) with 255%nat by (unfold blen; lia).
  f_equal. unfold w, padded. rewrite <- (assoc_L (++)). f_equal. rewrite length_take.
  change (drop 255 (name zeroChannel)) with (replicate 1 0). rewrite <- replicate_add. f_equal. lia.
Qed.

Lemma named_take bs : bytes_ok bs -> Forall (fun x => x <> 0) bs -> 
  bytes_ok (take 255 bs) /\ Forall (fun x => x <> 0) (take 255 bs) /\ blen (take 255 bs) <= 255.
Proof.
  intros Hb Hnz. split; [by apply bytes_ok_take|]. split; [by apply Forall_take|].
  unfold blen. rewrite length_take. lia.
Qed.

Lemma unsignalled_add pc t' l c bs :
  let n := Z.of_nat (length l) in let p := Z.of_nat (length (heap pc)) + 1 in
  unsignalled pc l -> named bs c -> n < 2 ^ 16 -> ht_ok t' -> (keys16 (pDataChannels pc) -> roomy t') ->
  ht_map t' = <[n := p]> (ht_map (pDataChannels pc)) ->
  unsignalled (pc <| heap := heap pc ++ [Some c] |> <| pDataChannels := t' |>) (l ++ [(p, c)]).
Proof.
  intros n p [Hs Ht Hk Hnd Hch] Hc Hn Ho Hr Em. constructor.
  - exact Hs.
  - apply (table_ok_insert _ _ _ n c Ht Ho Hr); [unfold is_u16, n in *; lia|exact Em].
  - rewrite fmap_app. change (ht_map (pDataChannels _)) with (ht_map t'). rewrite Em.
    pose proof (keyed_insert 0 1 _ _ p ltac:(lia) Hk) as Hk'. rewrite length_fmap in Hk'.
    change (Z.of_nat (length l)) with n in Hk'. by replace (0 + 1 * n) with n in Hk' by lia.
  - rewrite fmap_app. apply list.NoDup_app. split_and!; [done| |apply NoDup_singleton].
    intros q Hq Hq'. change (q ∈ [p]) in Hq'. apply list_elem_of_singleton in Hq' as ->.
    apply list_elem_of_fmap in Hq as ([q c'] & Eq & Hin). rewrite Forall_forall in Hch.
    specialize (Hch _ (proj1 (list_elem_of_In _ _) Hin)). destruct Hch as [[Hq Hlk] _]. apply lookup_lt_Some in Hlk. cbn in Eq. unfold p in Eq. lia.
  - apply Forall_app. split.
    + eapply Forall_impl; [|exact Hch]. intros [q c'] [[Hq Hlk] Hn']. split; [|done]. split; [done|].
      change ((heap pc ++ [Some c]) !! Z.to_nat (q - 1) = Some (Some c')). by apply lookup_app_l_Some.
    + apply Forall_singleton. split; [|by exists bs]. split; [unfold p; lia|].
      change ((heap pc ++ [Some c]) !! Z.to_nat (p - 1) = Some (Some c)).
      replace (Z.to_nat (p - 1)) with (length (heap pc)) by (unfold p; lia). by apply list_lookup_middle.
Qed.

(** C36. createDataChannel registers a new channel before signalling: the name is truncated to
    255 bytes, the parameters are the caller's (or ordered and reliable without any), the
    identifier is the number of channels so far, the channel is in state connecting, and
    the channels created before are untouched.  The caller gets the pointer of the new
    object; the channels stay well-formed. *)
Theorem createDataChannel_registers bs rest init pc l
  (Hun : unsignalled pc l) (Hb : bytes_ok bs) (Hnz : Forall (fun x => x <> 0) bs)
  (Hlen : Z.of_nat (length l) < 2 ^ 16) :
  exists c p pc',
    createDataChannel true true (Some (bs ++ 0 :: rest)) init true pc = Some ((STATUS_SUCCESS, p), pc') /\
    createdChannel bs init (Z.of_nat (length l)) c /\ unsignalled pc' (l ++ [(p, c)]) /\
    heap pc' = heap pc ++ [Some c] /\ appCalls pc' = appCalls pc.
Proof.
  pose proof Hun as [Hs Ht Hk _ _]. destruct (named_take bs Hb Hnz) as (Hb' & Hnz' & Hl').
  pose proof (ht_items _ (tok_ht _ _ Ht)) as Hc. rewrite (kb_size _ _ _ _ Hk), length_fmap, u32_id in Hc
    by (unfold is_u32; lia).
  set (n := Z.of_nat (length l)) in *. set (p := Z.of_nat (length (heap pc)) + 1).
  enough (Hw : wp (createDataChannel true true (Some (bs ++ 0 :: rest)) init true) (fun r pc' => exists c,
    r = (STATUS_SUCCESS, p) /\ createdChannel bs init n c /\ unsignalled pc' (l ++ [(p, c)]) /\
    heap pc' = heap pc ++ [Some c] /\ appCalls pc' = appCalls pc) pc).
  { apply wp_run in Hw as (r & pc' & E & c & -> & H). by exists c, p, pc'. }
  unfold createDataChannel. cbn [negb]. apply wp_bind. eapply wp_gets_eq; [exact Hs|].
  apply wp_bind. eapply wp_lift; [by apply STRNCPY_name|]. apply wp_bind. eapply wp_lift; [by apply STRLEN_padded|].
  apply wp_bind. eapply wp_lift; [apply (STRNCPY_padded _ (take 255 bs)); [apply pld_padded|done|lia|done]|].
  apply wp_bind. eapply wp_gets_eq; [reflexivity|]. apply wp_bind. apply (wp_lift _ n); [by rewrite <- Hc|].
  apply wp_bind. apply (wp_lift _ (padded [83; 67; 84; 80])); [by vm_compute|]. apply wp_bind. eapply wp_exec; [reflexivity|]. fold p.
  pose proof (hashTablePut_spec (pDataChannels pc) n p (tok_ht _ _ Ht) (tok_roomy _ _ Ht)) as Hp.
  pose proof (keyed_fresh 0 1 _ _ ltac:(lia) Hk) as Hf. rewrite length_fmap in Hf.
  change (Z.of_nat (length l)) with n in Hf. replace (0 + 1 * n) with n in Hf by lia. rewrite Hf in Hp.
  destruct Hp as (t' & Ep & Ho & Em & Hr). apply wp_bind. eapply try_wp; [exact Ep|]. unfold setTable. apply wp_bind, wp_modify, wp_ret.
  match goal with |- context [heap pc ++ [Some ?c]] => exists c end.
  split; [reflexivity|]. split; [split_and!; try done; by destruct init|]. split; [|done].
  by apply (unsignalled_add pc t' l _ (take 255 bs)).
Qed.

(** ** Signalling: stream identifiers *)

(** The channel under its stream identifier, and then open. *)
Definition rekey (cur : Z) (c : KvsDataChannel) : KvsDataChannel :=
  c <| channelId := cur |> <| id := cur |>
    <| rtcDataChannelDiagnostics := (rtcDataChannelDiagnostics c) <| dataChannelIdentifier := i32 cur |> |>.
Definition markOpen (c : KvsDataChannel) : KvsDataChannel :=
  c <| rtcDataChannelDiagnostics := (rtcDataChannelDiagnostics c) <| st_state := RTC_DATA_CHANNEL_STATE_OPEN |> |>.
(** The call of the channel's onOpen. *)
Definition openCall (pc : Z * KvsDataChannel) : list DcCall :=
  match onOpen pc.2 with Some customData => [CallOnOpen customData pc.1] | None => [] end.

Definition chans_at (hp : list (option KvsDataChannel)) (l : list (Z * KvsDataChannel)) : Prop :=
  Forall (fun '(p, c) => chan_at hp p c) l.

Lemma chan_at_eq hp p c x : chan_at hp p c -> chan_at (<[Z.to_nat (p - 1) := Some x]> hp) p x.
Proof. intros [Hp Hl]. split; [done|]. apply list_lookup_insert_eq. by apply lookup_lt_Some in Hl. Qed.
Lemma chan_at_ne hp p q c x : 0 < p -> p <> q -> chan_at hp q c -> chan_at (<[Z.to_nat (p - 1) := Some x]> hp) q c.
Proof. intros Hp Hne [Hq Hl]. split; [done|]. by rewrite list_lookup_insert_ne by lia. Qed.

Lemma chans_at_upd hp p x l : 0 < p -> p ∉ l.*1 -> chans_at hp l -> chans_at (<[Z.to_nat (p - 1) := Some x]> hp) l.
Proof.
  intros Hp Hn Hl. induction Hl as [|[q c] l Hq _ IH]; [constructor|]. cbn [fmap list_fmap fst] in Hn.
  apply not_elem_of_cons in Hn as [Hne Hn]. constructor; [by apply chan_at_ne|by apply IH].
Qed.

Lemma chan_at_lget hp p c : chan_at hp p c -> lget hp (p - 1) = Ok (Some c).
Proof. intros [Hp Hl]. unfold lget. rewrite (proj2 (Z.leb_le _ _)) by lia. by rewrite Hl. Qed.
Lemma chan_at_lput hp p c x : chan_at hp p c -> lput hp (p - 1) x = Ok (<[Z.to_nat (p - 1) := x]> hp).
Proof. intros [Hp Hl]. apply lookup_lt_Some in Hl. apply lput_in. lia. Qed.

(** The iteration over the old table gives the channels even (or odd) identifiers in the
    order of the iteration. *)
Lemma sort_visit first es l ps t hp :
  let cur := first + 2 * Z.of_nat (length ps) in
  0 <= first -> cur + 2 * Z.of_nat (length l) <= 2 ^ 16 -> es.*2 = l.*1 -> NoDup l.*1 -> chans_at hp l ->
  table_ok t hp -> keyed_by first 2 ps (ht_map t) ->
  exists t' hp', visit (allocateSctpSortDataChannelsDataCallback true) es (Some (cur, t, hp))
      = (STATUS_SUCCESS, Some (cur + 2 * Z.of_nat (length l), t', hp')) /\
    table_ok t' hp' /\ keyed_by first 2 (ps ++ l.*1) (ht_map t') /\
    (forall i p c, l !! i = Some (p, c) -> chan_at hp' p (rekey (cur + 2 * Z.of_nat i) c)) /\
    (forall p c, p ∉ l.*1 -> chan_at hp p c -> chan_at hp' p c).
Proof.
  intros cur. subst cur. revert es ps t hp. induction l as [|[p c] l IH]; intros es ps t hp Hf Hb Hes Hnd Hch Ht Hk.
  { destruct es; [|done]. exists t, hp. cbn [visit length]. rewrite app_nil_r. split; [|by split_and!].
    change (Z.of_nat 0) with 0. by rewrite Z.mul_0_r, Z.add_0_r. }
  destruct es as [|[k q] es]; [done|]. cbn [fmap list_fmap fst snd] in Hes. injection Hes as -> Hes.
  cbn [fmap list_fmap fst] in Hnd. inversion Hnd as [|? ? Hnot Hnd']. subst.
  inversion Hch as [|? ? Hc Hch']. subst. cbn [length] in Hb.
  set (cur := first + 2 * Z.of_nat (length ps)) in *. set (hp1 := <[Z.to_nat (p - 1) := Some (rekey cur c)]> hp).
  pose proof (hashTablePut_spec t cur p (tok_ht _ _ Ht) (tok_roomy _ _ Ht)) as Hp.
  pose proof (keyed_fresh first 2 ps _ ltac:(lia) Hk) as Hfr. fold cur in Hfr. rewrite Hfr in Hp.
  destruct Hp as (t1 & Ep & Ho & Em & Hr). pose proof Hc as [Hp0 _].
  assert (Ht1 : table_ok t1 hp1).
  { apply (table_ok_put t t1 hp1 cur p (rekey cur c)); try done; [by eapply table_ok_set|unfold is_u16; lia|by eapply chan_at_eq]. }
  destruct (IH es (ps ++ [p]) t1 hp1) as (t' & hp' & Ev & Ht' & Hk' & Hnew & Hold); try done.
  { rewrite length_app. cbn [length]. lia. }
  { by apply chans_at_upd. }
  { rewrite Em. apply keyed_insert; [lia|done]. }
  replace (first + 2 * Z.of_nat (length (ps ++ [p]))) with (cur + 2) in * by (rewrite length_app; cbn [length]; lia).
  exists t', hp'. split_and!; [|done|by rewrite <- (assoc_L (++)) in Hk'| |].
  - cbn [visit allocateSctpSortDataChannelsDataCallback fst snd].
    rewrite (chan_at_lget _ _ _ Hc), (chan_at_lput _ _ _ _ Hc), Ep. change (STATUS_FAILED STATUS_SUCCESS) with false. cbv match.
    rewrite u32_id by (unfold is_u32; lia). fold (rekey cur c). fold hp1. rewrite Ev. do 4 f_equal.
    cbn [length]. lia.
  - intros [|i] q d Hi; cbn in Hi.
    + injection Hi as <- <-. rewrite Z.add_0_r. apply Hold; [done|]. by eapply chan_at_eq.
    + replace (cur + 2 * Z.of_nat (S i)) with (cur + 2 + 2 * Z.of_nat i) by lia. by apply Hnew.
  - intros q d Hq Hqd. cbn [fmap list_fmap fst] in Hq. apply not_elem_of_cons in Hq as [Hne Hq].
    apply Hold; [done|]. by apply chan_at_ne.
Qed.

Lemma named_upd hp p x l : 0 < p -> p ∉ l.*1 ->
  Forall (fun '(q, c) => chan_at hp q c /\ exists bs, named bs c) l ->
  Forall (fun '(q, c) => chan_at (<[Z.to_nat (p - 1) := Some x]> hp) q c /\ exists bs, named bs c) l.
Proof.
  intros Hp Hn Hl. induction Hl as [|[q c] l [Hq Hnm] _ IH]; [constructor|]. cbn [fmap list_fmap fst] in Hn.
  apply not_elem_of_cons in Hn as [Hne Hn]. constructor; [split; [by apply chan_at_ne|done]|by apply IH].
Qed.

Section Announce.
Context (h : endian) (gettime : nat -> Z) (memalloc : nat -> Z -> option (list Z)).
Hypothesis Hmem : alloc_ok memalloc.

(** A session operation of which the owner hears nothing. *)
Lemma runSession_quiet {A} (m : ST SWorld A) (P : A -> SWorld -> Prop) pc (Q : A -> KvsPeerConnection -> Prop) :
  wp m (fun a w' => P a w' /\ dataCalls w' = []) ((sctp pc) <| calls := [] |>) ->
  (forall a pc', P a (sctp pc') -> pview pc' = pview pc -> Q a pc') ->
  wp (runSession true true m) Q pc.
Proof.
  intros Hm HQ. apply wp_run in Hm as (a & w' & E & HP & Hd). unfold wp, runSession. rewrite E.
  destruct (dispatch_packets true true (calls w') pc Hd) as (pc' & Ed & Hv).
  unfold mbind, ST_bind. rewrite off_dispatchAll, Ed. cbn [sctp_put]. by apply HQ.
Qed.

(** The session's association is in the handshake, with the messages [ms] in its queue. *)
Definition announces (ms : list Waiting) (pc : KvsPeerConnection) : Prop :=
  exists s, session (sctp pc) = Some s /\ session_ok s /\ waiting ms (association s).

Lemma announce_dcep sid arr bs init ms pc (Q : STATUS -> KvsPeerConnection -> Prop) :
  announces ms pc -> pld_bytes (Ptr arr 0) (blen bs) = Ok bs -> bytes_ok bs -> blen bs <= 512 ->
  (forall pc', announces (take 32 (ms ++ [announcement sid bs init])) pc' -> pview pc' = pview pc -> Q STATUS_SUCCESS pc') ->
  wp (runSession true true (sctpSessionWriteDcep h gettime memalloc sid (Some arr) (blen bs) init)) Q pc.
Proof.
  intros (s & Es & Hs & Hw) Ha Hb Hl HQ.
  eapply (runSession_quiet _ (fun st w' => st = STATUS_SUCCESS /\ exists s', session w' = Some s' /\ session_ok s' /\
    waiting (take 32 (ms ++ [announcement sid bs init])) (association s'))).
  - unfold wp. rewrite writeDcep_prefix by done.
    eapply (wp_mono _ _ _ ((sctp pc) <| calls := [] |>)); [by eapply sctpSessionWriteDcep_quiet|].
    intros st w' (-> & Hs' & Hd). split; [by split|]. exact Hd.
  - intros st pc' [-> Hs'] Hv. by apply HQ.
Qed.

(** The string that is a channel's name. *)
Definition chanName (c : KvsDataChannel) : list Z :=
  match STRLEN (name c) with Ok n => take (Z.to_nat n) (name c) | _ => [] end.

Lemma named_chanName bs c : named bs c -> chanName c = bs.
Proof.
  intros (En & _ & Hnz & Hl). unfold chanName, MAX_DATA_CHANNEL_NAME_LEN in *.
  rewrite En, STRLEN_padded by done. rewrite <- length_blen. by apply take_app_length.
Qed.

(** The announcements of the channels [l] under the identifiers from [cur] on. *)
Definition announcements (cur : Z) (l : list (Z * KvsDataChannel)) : list Waiting :=
  imap (fun i '(_, c) => announcement (cur + 2 * Z.of_nat i) (chanName c) (rtcDataChannelInit c)) l.

Lemma announcements_cons cur p c l :
  announcements cur ((p, c) :: l) = announcement cur (chanName c) (rtcDataChannelInit c) :: announcements (cur + 2) l.
Proof.
  unfold announcements. rewrite imap_cons. f_equal; [by rewrite Z.add_0_r|]. apply imap_ext. intros i [q d] _.
  cbn. f_equal. lia.
Qed.

Lemma take_take_app {A} n (x y : list A) : take n (take n x ++ y) = take n (x ++ y).
Proof.
  destruct (decide (length x <= n)%nat); [by rewrite (take_ge x)|].
  rewrite (take_app_le x) by lia. rewrite take_app_le by (rewrite length_take; lia). rewrite take_take. f_equal. lia.
Qed.

Definition announced (ms : list Waiting) (cur : Z) (pc : KvsPeerConnection) (l : list (Z * KvsDataChannel))
    (st : STATUS) (pc' : KvsPeerConnection) : Prop :=
  st = STATUS_SUCCESS /\ announces (take 32 (ms ++ announcements cur l)) pc' /\ table_ok (pDataChannels pc') (heap pc') /\
  ht_map (pDataChannels pc') = ht_map (pDataChannels pc) /\
  chans_at (heap pc') (prod_map Datatypes.id markOpen <$> l) /\
  (forall p c, p ∉ l.*1 -> chan_at (heap pc) p c -> chan_at (heap pc') p c) /\
  appCalls pc' = appCalls pc ++ concat (map openCall l).

Lemma announced_nil ms cur pc :
  announces (take 32 ms) pc -> table_ok (pDataChannels pc) (heap pc) -> announced ms cur pc [] STATUS_SUCCESS pc.
Proof. intros Hs Ht. split_and!; try done; [by rewrite app_nil_r|apply Forall_nil_2|by rewrite app_nil_r]. Qed.

(** One announced channel in front of the rest. *)
Lemma announced_cons ms cur pc p c l pc1 st pc' :
  chan_at (heap pc) p c -> p ∉ l.*1 ->
  ht_map (pDataChannels pc1) = ht_map (pDataChannels pc) ->
  heap pc1 = <[Z.to_nat (p - 1) := Some (markOpen c)]> (heap pc) ->
  appCalls pc1 = appCalls pc ++ openCall (p, c) ->
  announced (take 32 (ms ++ [announcement cur (chanName c) (rtcDataChannelInit c)])) (cur + 2) pc1 l st pc' ->
  announced ms cur pc ((p, c) :: l) st pc'.
Proof.
  intros Hc Hp Em Eh Ea (-> & Hs & Ht & Em' & Hch & Hold & Ea'). pose proof Hc as [Hp0 _]. split_and!; try done.
  - rewrite take_take_app, <- (assoc_L (++)) in Hs. by rewrite announcements_cons.
  - by rewrite Em'.
  - apply Forall_cons_2; [|exact Hch]. apply Hold; [done|]. rewrite Eh. by eapply chan_at_eq.
  - intros q d Hq Hqd. cbn [fmap list_fmap fst] in Hq. apply not_elem_of_cons in Hq as [Hne Hq]. apply Hold; [done|].
    rewrite Eh. by apply chan_at_ne.
  - rewrite Ea', Ea. cbn [map concat]. by rewrite <- (assoc_L (++)).
Qed.

Lemma announceLoop_wp n l ms cur pc :
  (length l <= n)%nat -> 0 <= cur -> cur + 2 * Z.of_nat (length l) <= 2 ^ 16 ->
  announces (take 32 ms) pc -> table_ok (pDataChannels pc) (heap pc) -> NoDup l.*1 ->
  Forall (fun '(p, c) => chan_at (heap pc) p c /\ exists bs, named bs c) l ->
  (forall i p c, l !! i = Some (p, c) -> ht_map (pDataChannels pc) !! (cur + 2 * Z.of_nat i) = Some p) ->
  wp (announceLoop h gettime memalloc true true n cur (cur + 2 * Z.of_nat (length l))) (announced ms cur pc l) pc.
Proof.
  revert n ms cur pc. induction l as [|[p c] l IH]; intros n ms cur pc Hn Hc0 Hb Hs Ht Hnd Hch Hkeys.
  { assert (E : (cur <? cur + 2 * Z.of_nat (length (@nil (Z * KvsDataChannel)))) = false)
      by (change (Z.of_nat _) with 0; apply Z.ltb_ge; lia).
    destruct n; cbn [announceLoop]; rewrite E; by apply wp_ret, announced_nil. }
  destruct n as [|n]; [cbn in Hn; lia|]. cbn [announceLoop]. cbn [length] in Hb, Hn.
  rewrite (proj2 (Z.ltb_lt _ _)) by (cbn [length]; lia). apply Forall_cons_1 in Hch as [[Hc (bs & Hnm & Hbb & Hnz & Hbl)] Hch'].
  cbn [fmap list_fmap fst] in Hnd. inversion Hnd as [|? ? Hnot Hnd']. subst.
  pose proof (Hkeys 0%nat p c eq_refl) as Hk0. replace (cur + 2 * Z.of_nat 0) with cur in Hk0 by lia.
  pose proof Hc as [Hp _]. unfold MAX_DATA_CHANNEL_NAME_LEN in Hbl.
  apply wp_bind. eapply lookup_wp; [exact Ht|done|]. rewrite Hk0. change (default 0 (Some p)) with p.
  rewrite (proj2 (Z.eqb_neq p 0)) by lia. apply wp_bind. eapply getChannel_wp; [exact Hc|].
  apply wp_bind. eapply wp_lift; [rewrite Hnm; by apply STRLEN_padded|]. rewrite Hnm.
  apply wp_bind, (announce_dcep _ _ _ _ (take 32 ms)); [done|apply pld_padded|done|lia|]. intros pc1 Hs1 Hv1.
  destruct (pview_inv _ _ Hv1) as (_ & Et1 & Eh1 & Ea1). change (STATUS_FAILED STATUS_SUCCESS) with false. cbv match.
  rewrite <- Eh1 in Hc. apply wp_bind. eapply setChannel_wp; [exact Hc|]. fold (markOpen c).
  set (pc2 := pc1 <| heap := _ |>). rewrite <- Eh1, <- Et1 in Ht. apply wp_bind.
  assert (Ht2 : table_ok (pDataChannels pc2) (heap pc2)) by by eapply table_ok_set.
  eapply upsert_same; [exact Ht2|reflexivity|change (ht_map (pDataChannels pc1) !! cur = Some p); by rewrite Et1|].
  intros t' Ht' Em. set (pc3 := pc2 <| pDataChannels := t' |>).
  assert (Hh3 : heap pc3 = <[Z.to_nat (p - 1) := Some (markOpen c)]> (heap pc)) by (rewrite <- Eh1; done).
  assert (Em3 : ht_map (pDataChannels pc3) = ht_map (pDataChannels pc)) by (rewrite <- Et1; exact Em).
  assert (Hgo : forall pc4, sctp pc4 = sctp pc3 -> pDataChannels pc4 = pDataChannels pc3 -> heap pc4 = heap pc3 ->
    appCalls pc4 = appCalls pc ++ openCall (p, c) ->
    wp (announceLoop h gettime memalloc true true n (cur +32 2) (cur + 2 * Z.of_nat (length ((p, c) :: l))))
      (announced ms cur pc ((p, c) :: l)) pc4).
  { intros pc4 E1 E2 E3 E4. rewrite u32_id by (unfold is_u32; lia).
    replace (cur + 2 * Z.of_nat (length ((p, c) :: l))) with (cur + 2 + 2 * Z.of_nat (length l)) by (cbn [length]; lia).
    eapply wp_mono; [apply (IH n (take 32 (ms ++ [announcement cur (chanName c) (rtcDataChannelInit c)])) (cur + 2) pc4); [lia|lia|lia| | |done| |]|].
    - rewrite take_idemp, (named_chanName bs c) by done. unfold announces. rewrite E1.
      rewrite take_take_app in Hs1. exact Hs1.
    - rewrite E2, E3. exact Ht'.
    - rewrite E3, Hh3. by apply named_upd.
    - intros i q d Hi. rewrite E2, Em3. replace (cur + 2 + 2 * Z.of_nat i) with (cur + 2 * Z.of_nat (S i)) by lia.
      by apply (Hkeys (S i) q d).
    - intros st pc'. apply announced_cons; [by rewrite <- Eh1|done|by rewrite E2|by rewrite E3|done]. }
  apply wp_bind. unfold fire. destruct (onOpen c) as [cd|] eqn:Eo; [apply wp_modify|apply wp_ret]; apply Hgo; try done.
  - unfold openCall. cbn [fst snd]. rewrite Eo, <- Ea1. exact (appCalls_fire pc1 (CallOnOpen cd p) eq_refl).
  - unfold openCall. cbn [fst snd]. rewrite Eo, app_nil_r, <- Ea1. done.
Qed.
End Announce.

Lemma keyed_values first step ps m : 0 < step -> NoDup ps -> keyed_by first step ps m -> (map_to_list m).*2 ≡ₚ ps.
Proof.
  intros Hs Hnd [Hl _]. apply NoDup_Permutation; [|done|].
  - apply NoDup_fmap_2_strong; [|apply NoDup_map_to_list]. intros [k p] [k' p'] Hk Hk' E. cbn in E. subst p'.
    apply elem_of_map_to_list, Hl in Hk as (i & Hi & ->). apply elem_of_map_to_list, Hl in Hk' as (j & Hj & ->).
    by rewrite (NoDup_lookup _ _ _ _ Hnd Hi Hj).
  - intros p. rewrite list_elem_of_fmap, list_elem_of_lookup. split.
    + intros ([k q] & -> & Hk). apply elem_of_map_to_list, Hl in Hk as (i & Hi & _). by exists i.
    + intros [i Hi]. exists (first + step * Z.of_nat i, p). split; [done|]. apply elem_of_map_to_list, Hl. by exists i.
Qed.

(** The channels of the old table in the order of its iteration. *)
Lemma entries_order pc l :
  unsignalled pc l -> exists l', l' ≡ₚ l /\ (ht_entries (pDataChannels pc)).*2 = l'.*1.
Proof.
  intros [_ Ht Hk Hnd _]. pose proof (ht_entries_perm _ (tok_ht _ _ Ht)) as HP. apply (fmap_Permutation snd) in HP.
  rewrite (keyed_values 0 1 l.*1) in HP by (done || lia).
  destruct (Permutation_map_inv _ _ HP) as (l' & E & HP'). exists l'. split; [by symmetry|exact E].
Qed.

(** The channels with their identifiers from [first] on. *)
Definition rekeyed (first : Z) (l : list (Z * KvsDataChannel)) : list (Z * KvsDataChannel) :=
  imap (fun i '(p, c) => (p, rekey (first + 2 * Z.of_nat i) c)) l.

Lemma rekeyed_fst first l : (rekeyed first l).*1 = l.*1.
Proof.
  apply list_eq. intros i. unfold rekeyed. rewrite !list_lookup_fmap, list_lookup_imap.
  by destruct (l !! i) as [[p c]|].
Qed.

Lemma rekeyed_lookup first l i p c :
  rekeyed first l !! i = Some (p, c) <-> exists c0, l !! i = Some (p, c0) /\ c = rekey (first + 2 * Z.of_nat i) c0.
Proof.
  unfold rekeyed. rewrite list_lookup_imap. destruct (l !! i) as [[q d]|]; cbn; [|by split; [|intros (c0 & ? & _)]].
  split; [intros [= <- <-]; by exists d|intros (c0 & [= <- <-] & ->); done].
Qed.

Lemma rekeyed_announcements first cur l : announcements cur (rekeyed first l) = announcements cur l.
Proof.
  apply list_eq. intros i. unfold announcements, rekeyed. rewrite !list_lookup_imap.
  by destruct (l !! i) as [[p c]|].
Qed.

Lemma rekeyed_open first l : map openCall (rekeyed first l) = map openCall l.
Proof.
  apply list_eq. intros i. rewrite !list_lookup_fmap. unfold rekeyed. rewrite list_lookup_imap.
  by destruct (l !! i) as [[p c]|].
Qed.

Lemma chans_named hp l : Forall (fun '(p, c) => chan_at hp p c /\ exists bs, named bs c) l -> chans_at hp l.
Proof. intros Hl. eapply Forall_impl; [|exact Hl]. by intros [p c] [? _]. Qed.

(** The run of allocateSctp once the new table [t1] and the heap [hp1] are known. *)
Lemma allocateSctp_wp h gettime memalloc pc t0 t1 hp1 l :
  let first := if dtlsIsServer pc then 1 else 0 in
  let last := first + 2 * Z.of_nat (length l) in
  alloc_ok memalloc -> ht_ok (pDataChannels pc) -> itemCount (pDataChannels pc) = Z.of_nat (length l) -> last <= 2 ^ 16 ->
  hashTableCreateWithParams true CODEC_HASH_TABLE_BUCKET_COUNT CODEC_HASH_TABLE_BUCKET_LENGTH = Ok t0 ->
  visit (allocateSctpSortDataChannelsDataCallback true) (ht_entries (pDataChannels pc)) (Some (first, t0, heap pc))
    = (STATUS_SUCCESS, Some (last, t1, hp1)) ->
  table_ok t1 hp1 -> keyed_by first 2 l.*1 (ht_map t1) -> NoDup l.*1 ->
  Forall (fun '(p, c) => chan_at hp1 p c /\ exists bs, named bs c) l ->
  wp (allocateSctp h gettime memalloc true true true STATUS_SUCCESS)
    (announced [] first (pc <| pDataChannels := t1 |> <| heap := hp1 |>) l) pc.
Proof.
  intros first last Hmem Ho Hn Hlast E0 Ev Ht1 Hk Hnd Hch. unfold allocateSctp. apply wp_bind, wp_gets.
  apply wp_bind. eapply try_wp; [exact E0|]. fold first. apply wp_bind.
  eapply wp_lift; [rewrite hashTableIterateEntries_visit by done; rewrite Ev; reflexivity|].
  unfold setTable. apply wp_bind, wp_modify, wp_bind, wp_modify. set (pc1 := _ <| heap := hp1 |>).
  change (STATUS_FAILED STATUS_SUCCESS) with false. cbv match. apply wp_bind.
  eapply (runSession_quiet _ (fun st w' => st = STATUS_SUCCESS /\
    exists s', session w' = Some s' /\ session_ok s' /\ waiting [] (association s'))).
  { eapply wp_mono; [by apply createSctpSession_wp|]. intros st w' (-> & (s & Es & Hs & _ & _ & Hw) & Hd).
    split; [split; [done|by exists s]|exact Hd]. }
  intros st pc2 [-> Hs2] Hv. destruct (pview_inv _ _ Hv) as (_ & Et & Eh & Ea).
  change (STATUS_FAILED STATUS_SUCCESS) with false. cbv match. rewrite Hn, Nat2Z.id.
  eapply wp_mono; [apply (announceLoop_wp h gettime memalloc Hmem (length l) l [] first pc2); try done|].
  - unfold first. destruct (dtlsIsServer pc); lia.
  - by rewrite Et, Eh.
  - by rewrite Eh.
  - intros i p c Hi. rewrite Et. apply (kb_lookup _ _ _ _ Hk). exists i. rewrite list_lookup_fmap, Hi. done.
  - intros st pc' (-> & H1 & H2 & H3 & H4 & H5 & H6). rewrite Et in H3. rewrite Eh in H5. rewrite Ea in H6. by split_and!.
Qed.

(** C26. allocateSctp, with memory and its timer, assigns the stream identifiers: every
    channel created before gets an identifier of the parity of the DTLS role (odd for a
    server), all different, in the order in which the hash table of the channels is
    iterated; the new table maps each identifier to its channel and to nothing else; the
    session is started; every channel is marked open, and its onOpen is called once, in
    identifier order.  The send queue of the new association, which waits for the
    handshake, holds the DATA_CHANNEL_OPEN messages of the channels, each with the
    identifier, the name and the parameters of its channel, in the same order: all of them
    for up to 32 channels, and of more channels only the first 32. *)
Theorem allocateSctp_assigns h gettime memalloc pc l
  (Hmem : alloc_ok memalloc) (Hun : unsignalled pc l) (Hlen : Z.of_nat (length l) < 2 ^ 15) :
  let first := if dtlsIsServer pc then 1 else 0 in
  exists l' pc', l' ≡ₚ l /\ (ht_entries (pDataChannels pc)).*2 = l'.*1 /\
    allocateSctp h gettime memalloc true true true STATUS_SUCCESS pc = Some (STATUS_SUCCESS, pc') /\
    announces (take 32 (announcements first l')) pc' /\ table_ok (pDataChannels pc') (heap pc') /\
    keyed_by first 2 l'.*1 (ht_map (pDataChannels pc')) /\
    (forall i p c, l' !! i = Some (p, c) -> chan_at (heap pc') p (markOpen (rekey (first + 2 * Z.of_nat i) c))) /\
    appCalls pc' = appCalls pc ++ concat (map openCall l').
Proof.
  intros first. destruct (entries_order pc l Hun) as (l' & HP & Hes). destruct Hun as [Hs Ht Hk Hnd Hch].
  assert (Hll : length l' = length l) by by rewrite HP.
  assert (Hnd' : NoDup l'.*1) by by rewrite HP.
  assert (Hch' : Forall (fun '(p, c) => chan_at (heap pc) p c /\ exists bs, named bs c) l') by by rewrite HP.
  assert (Hf : 0 <= first <= 1) by (unfold first; destruct (dtlsIsServer pc); lia).
  destruct (hashTableCreateWithParams_spec (V := Z) 50 2) as (t0 & E0 & Ho0 & Hr0 & Em0); [unfold MIN_HASH_BUCKET_COUNT; lia|lia|].
  assert (Ht0 : table_ok t0 (heap pc)).
  { constructor; [done|done| |]; unfold keys16; rewrite Em0; [by intros k [? ?]|done]. }
  destruct (sort_visit first (ht_entries (pDataChannels pc)) l' [] t0 (heap pc)) as (t1 & hp1 & Ev & Ht1 & Hk1 & Hnew & _);
    try done; [lia|cbn [length]; lia|by apply chans_named| |].
  { rewrite Em0. by constructor; [|apply map_size_empty]; intros k p; split; [|intros (i & ? & _)]. }
  cbn [length] in Ev, Hnew. rewrite Z.mul_0_r, Z.add_0_r in Ev, Hnew. cbn [app] in Hk1.
  assert (Hn : itemCount (pDataChannels pc) = Z.of_nat (length l')).
  { rewrite (ht_items _ (tok_ht _ _ Ht)), (kb_size _ _ _ _ Hk), length_fmap, Hll. apply u32_id. unfold is_u32. lia. }
  assert (Hrc : Forall (fun '(p, c) => chan_at hp1 p c /\ exists bs, named bs c) (rekeyed first l')).
  { apply Forall_lookup. intros i [p c] Hi. apply rekeyed_lookup in Hi as (c0 & Hi & ->). split; [by apply Hnew|].
    apply (Forall_lookup_1 _ _ _ _ Hch') in Hi as [_ [bs Hbs]]. by exists bs. }
  assert (Hrl : length (rekeyed first l') = length l') by (unfold rekeyed; by rewrite length_imap).
  pose proof (allocateSctp_wp h gettime memalloc pc t0 t1 hp1 (rekeyed first l')) as Hw. cbv zeta in Hw. fold first in Hw.
  rewrite rekeyed_fst, Hrl in Hw.
  destruct (wp_run _ _ _ (Hw Hmem (tok_ht _ _ Ht) Hn ltac:(lia) E0 Ev Ht1 Hk1 Hnd' Hrc))
    as (st & pc' & E & -> & Hse & Hta & Hma & Hca & _ & Hap).
  exists l', pc'. rewrite rekeyed_open in Hap. cbn [app] in Hse. rewrite rekeyed_announcements in Hse. change (ht_map (pDataChannels _)) with (ht_map t1) in Hma at 2.
  rewrite <- Hma in Hk1. split_and!; try done. intros i p c Hi.
  apply (Forall_lookup_1 _ _ i (p, markOpen (rekey (first + 2 * Z.of_nat i) c)) Hca).
  rewrite list_lookup_fmap, (proj2 (rekeyed_lookup first l' i p (rekey (first + 2 * Z.of_nat i) c))); [done|by exists c].
Qed.

(** ** Theorems *)

(** Both ends of a data channel connection: the sessions [sA] and [sB] of the peer
    connections are active, the association of [sA] is established with open windows and a
    free slot, and that of [sB] is its peer, which expects its next TSN. *)
Record linked (pcA pcB : KvsPeerConnection) (sA sB : SctpSession) : Prop := {
  ln_A : session (sctp pcA) = Some sA;
  ln_activeA : shutdownStatus sA = SCTP_SESSION_ACTIVE;
  ln_okA : session_ok sA;
  ln_outA : outboundPacketFunc (sctpSessionCallbacks sA) = true;
  ln_canA : can_send (association sA);
  ln_B : session (sctp pcB) = Some sB;
  ln_peer : peer_of (association sA) sB;
  ln_msgB : dataChannelMessageFunc (sctpSessionCallbacks sB) = true;
}.

Section Endpoints.
Context (h hB : endian) (gettime gettimeB : nat -> Z) (memalloc memallocB : nat -> Z -> option (list Z)).
Hypothesis Hm : alloc_ok memalloc.
Hypothesis HmB : alloc_ok memallocB.
Hypothesis HaB : forall k, is_Some (memallocB k SCTP_MAX_REASSEMBLY_SIZE).

(** The packets that give the peer's session one data call run its handler once. *)
Lemma feed_one pks pcB w' d (P : _ -> Prop) :
  feed (fun pk => putSctpPacket hB gettimeB memallocB (Some pk) (blen pk)) pks ((sctp pcB) <| calls := [] |>)
    = Some (STATUS_SUCCESS, w') ->
  dataCalls w' = [d] ->
  (forall pc1, pview pc1 = pview pcB -> exists pc2, dispatch true true d pc1 = Some (tt, pc2) /\ P (pview pc2)) ->
  exists pcB', feed (inboundSctp hB gettimeB memallocB true true) pks pcB = Some (STATUS_SUCCESS, pcB') /\ P (pview pcB').
Proof.
  intros Ef Hd Hh. destruct (dispatch_one true true (calls w') d pcB P Hd Hh) as (pc' & Ed & HP).
  destruct (feed_inbound hB gettimeB memallocB true true pks (sctp pcB) w' pcB pc' STATUS_SUCCESS Ef Ed) as [cs Hcs].
  eexists. split; [exact Hcs|]. exact HP.
Qed.

(** C2. End to end, between two peers whose sessions are active and whose association is
    established, a message sent on a data channel reaches the peer's application once.
    The conditions ([linked]): the sender's congestion and receive windows are open and its
    table of outstanding chunks has a free slot; the peer expects the sender's next TSN,
    has received nothing ahead of it and gets memory for reassembly.  Then dataChannelSend
    counts the message and hands its SCTP packets to DTLS; decrypted by the peer in order,
    they call the onMessage callback of the peer's channel with the same stream
    identifier, with the message's bytes and binary flag, and update only that channel's
    counters (for messages of up to 64 KiB, provided the sender's table of outstanding
    chunks does not fill up, which is certain for one packet). *)
Theorem dataChannel_transfer pcA pcB sA sB p c isBinary bs p' c' cd
  (Hlink : linked pcA pcB sA sB) (Hbs : bytes_ok bs) (Hlen : blen bs <= SCTP_MAX_REASSEMBLY_SIZE)
  (HcA : chan_at (heap pcA) p c) (HtB : table_ok (pDataChannels pcB) (heap pcB))
  (HkB : ht_map (pDataChannels pcB) !! (u16 (channelId c)) = Some p')
  (HcB : chan_at (heap pcB) p' c') (Hcd : onMessage c' = Some cd)
  (Hfit : forall wA' sA',
     sctpSessionWriteMessage h gettime memalloc (channelId c) isBinary (Some bs) (blen bs) ((sctp pcA) <| calls := [] |>)
       = Some (STATUS_SUCCESS, wA') -> session wA' = Some sA' ->
     blen bs <= mtu (association sA) - 28 \/ used o_inUse (outstanding (association sA')) < SCTP_MAX_OUTSTANDING) :
  exists pcA' pks pcB',
    dataChannelSend h gettime memalloc true true p isBinary (Some bs) (blen bs) pcA = Some (STATUS_SUCCESS, pcA') /\
    fired pcA' = fired pcA ++ map DtlsPut pks /\
    heap pcA' = <[Z.to_nat (p - 1) := Some (sent_one (blen bs) c)]> (heap pcA) /\
    feed (inboundSctp hB gettimeB memallocB true true) pks pcB = Some (STATUS_SUCCESS, pcB') /\
    appCalls pcB' = appCalls pcB ++ [CallOnMessage cd p' isBinary bs] /\
    heap pcB' = <[Z.to_nat (p' - 1) := Some (received_one bs c')]> (heap pcB).
Proof.
  destruct Hlink as [EA HaA HsA Hout Hcan EB Hpeer Hfun].
  destruct (channelParameters_total (packet sA)) as [[[un mr] lt] Hpar].
  { rewrite (sok_packet _ HsA). by vm_compute. }
  assert (EA' : session ((sctp pcA) <| calls := [] |>) = Some sA) by exact EA.
  assert (EB' : session ((sctp pcB) <| calls := [] |>) = Some sB) by exact EB.
  destruct (session_write_message h hB gettime gettimeB memalloc memallocB (channelId c) isBinary bs un mr lt sA sB
    ((sctp pcA) <| calls := [] |>) ((sctp pcB) <| calls := [] |>) Hm HmB HaB EA' HaA HsA Hpar Hout Hcan EB' Hpeer Hfun Hbs Hlen)
    as (wA' & sA' & Ew & Es' & Hr).
  destruct (Hr (Hfit _ _ Ew Es')) as (pks & wB' & Hcs & Hf & Hd).
  destruct (dataChannelSend_run h gettime memalloc true true p c isBinary bs pcA wA' pks HcA Ew Hcs) as (pcA' & Es & _ & Hfi & Hhp).
  destruct (feed_one pks pcB wB' _ (fun v => v.2 = appCalls pcB ++ [CallOnMessage cd p' isBinary bs] /\
    v.1.2 = <[Z.to_nat (p' - 1) := Some (received_one bs c')]> (heap pcB)) Hf Hd) as (pcB' & Efb & Hc1 & Hh1).
  { intros pc1 Hv. destruct (pview_inv _ _ Hv) as (_ & Et & Eh & Ea).
    pose proof (onMessage_wp (u16 (channelId c)) p' c' cd isBinary bs pc1) as Hw. rewrite Et, Eh, Ea in Hw.
    destruct (wp_run _ _ _ (Hw HtB HkB HcB Hcd)) as ([] & pc2 & E2 & _ & _ & Hh2 & Ha2). exists pc2. split; [exact E2|]. done. }
  exists pcA', pks, pcB'. done.
Qed.

(** C27. A channel opened by one side appears at the other.  Between two peers whose
    association is established, with the sender's windows open and the peer expecting its
    next TSN ([linked]; before the handshake ends the open message waits in the send queue
    instead), the packets of sctpSessionWriteDcep, decrypted by the peer in order, make
    exactly one new channel there, with the stream identifier and the label, registered in
    the channel table, and call the application's onDataChannel with it (for labels of 1
    to 255 non-zero bytes that fit one packet, an unused stream identifier and an
    application that has set onDataChannel). *)
Theorem dataChannel_open_transfer pcA pcB sA sB sid nm init cd
  (Hlink : linked pcA pcB sA sB) (Hnm : bytes_ok nm) (Hnz : Forall (fun c => c <> 0) nm)
  (Hlen : 0 < blen nm <= MAX_DATA_CHANNEL_NAME_LEN) (Hmtu : 12 + blen nm <= mtu (association sA) - 28)
  (HtB : table_ok (pDataChannels pcB) (heap pcB)) (HkB : ht_map (pDataChannels pcB) !! (u16 sid) = None)
  (Hcd : onDataChannel pcB = Some cd) :
  exists w' pks pcB',
    sctpSessionWriteDcep h gettime memalloc sid (Some nm) (blen nm) init ((sctp pcA) <| calls := [] |>)
      = Some (STATUS_SUCCESS, w') /\ calls w' = map OutboundPacket pks /\
    feed (inboundSctp hB gettimeB memallocB true true) pks pcB = Some (STATUS_SUCCESS, pcB') /\
    let pB := Z.of_nat (length (heap pcB)) + 1 in
    heap pcB' = heap pcB ++ [Some (openedChannel (u16 sid) nm)] /\
    ht_map (pDataChannels pcB') = <[u16 sid := pB]> (ht_map (pDataChannels pcB)) /\
    appCalls pcB' = appCalls pcB ++ [CallOnDataChannel cd pB].
Proof.
  destruct Hlink as [EA HaA HsA Hout Hcan EB Hpeer _].
  assert (EA' : session ((sctp pcA) <| calls := [] |>) = Some sA) by exact EA.
  assert (EB' : session ((sctp pcB) <| calls := [] |>) = Some sB) by exact EB.
  destruct (session_write_dcep h hB gettime gettimeB memalloc memallocB sid nm init sA sB ((sctp pcA) <| calls := [] |>)
    ((sctp pcB) <| calls := [] |>) Hm HmB HaB EA' HaA HsA Hout Hcan EB' Hpeer Hnm (proj2 Hlen) Hmtu)
    as (wA' & pks & wB' & Ew & Hcs & Hf & src & Hsrc & Hd).
  rewrite (proj2 (Z.eqb_neq (blen nm) 0)) in Hd by lia. unfold MAX_DATA_CHANNEL_NAME_LEN in Hlen.
  destruct (feed_one pks pcB wB' _ (fun v => let pB := Z.of_nat (length (heap pcB)) + 1 in
    v.1.2 = heap pcB ++ [Some (openedChannel (u16 sid) nm)] /\
    ht_map v.1.1.2 = <[u16 sid := pB]> (ht_map (pDataChannels pcB)) /\
    v.2 = appCalls pcB ++ [CallOnDataChannel cd pB]) Hf Hd) as (pcB' & Efb & H).
  { intros pc1 Hv. destruct (pview_inv _ _ Hv) as (Eo & Et & Eh & Ea).
    pose proof (onOpen_wp (u16 sid) src nm cd pc1) as Hw. rewrite Et, Eh, Ea, Eo in Hw.
    destruct (wp_run _ _ _ (Hw HtB HkB Hcd Hsrc Hnz ltac:(lia) (u16_range sid))) as ([] & pc2 & E2 & _ & Em & Hh2 & Ha2).
    exists pc2. split; [exact E2|]. done. }
  exists wA', pks, pcB'. done.
Qed.
End Endpoints.

(** A remote peer can overflow a buffer: a DATA_CHANNEL_OPEN message with a label of 257
    to 512 bytes passes every check of the session, which calls dataChannelOpenFunc, and
    onSctpSessionDataChannelOpen then copies the label past the end of the 256-byte name
    of the new channel. *)
Theorem dataChannelOpen_overflow h s sid nm init cd pc
  (Hact : shutdownStatus s = SCTP_SESSION_ACTIVE) (Hopen : dataChannelOpenFunc (sctpSessionCallbacks s) = true)
  (Hnm : bytes_ok nm) (Hnz : Forall (fun c => c <> 0) nm) (Hlen : 256 < blen nm <= 512)
  (Hcd : onDataChannel pc = Some cd) :
  exists pName,
    bridge h s (EvMessage sid SCTP_PPID_DCEP (dcepMessage nm init)) = Ok [DataChannelOpen sid pName (blen nm)] /\
    pld_bytes pName (blen nm) = Ok nm /\
    onSctpSessionDataChannelOpen true true sid pName (blen nm) pc = None.
Proof.
  exists (Ptr (dcepMessage nm init) 12). rewrite bridge_open by (done || lia).
  rewrite (proj2 (Z.eqb_neq (blen nm) 0)) by lia. split; [done|].
  assert (Hs : pld_bytes (Ptr (dcepMessage nm init) 12) (blen nm) = Ok nm) by apply dcepMessage_label.
  split; [done|]. unfold onSctpSessionDataChannelOpen, mbind, ST_bind, gets, lift, STRNCPY.
  rewrite <- length_blen, strncpy_bytes by (done || exact Hs). cbn [mbind res_bind negb].
  rewrite put_bytes_fault by (vm_compute (blen (name zeroChannel)); lia).
  destruct pc as [? o ? ? ? ?]. change (o = Some cd) in Hcd. by subst o.
Qed.

(** ** Instances *)

Definition ex_dc_table : HashTable Z :=
  match hashTableCreateWithParams true 50 2 with Ok t => t | _ => ex_table end.
(** The table with key [k] for the object of pointer 1. *)
Definition ex_dc_table1 (k : Z) : HashTable Z :=
  match hashTablePut true (Some ex_dc_table) k 1 with Ok t => t | _ => ex_dc_table end.

Lemma ex_dc_table_ok : ht_ok ex_dc_table /\ roomy ex_dc_table /\ ht_map ex_dc_table = ∅.
Proof.
  destruct (hashTableCreateWithParams_spec (V := Z) 50 2) as (t & E & H1 & H2 & H3); [unfold MIN_HASH_BUCKET_COUNT; lia|lia|].
  unfold ex_dc_table. rewrite E. by split_and!.
Qed.

Lemma ex_dc_table0_ok hp : table_ok ex_dc_table hp.
Proof.
  destruct ex_dc_table_ok as (H1 & H2 & H3). constructor; [done|done| |]; unfold keys16; rewrite H3; [by intros k [? ?]|done].
Qed.

Lemma ex_dc_table1_ok k : ht_ok (ex_dc_table1 k) /\ ht_map (ex_dc_table1 k) = {[k := 1]} /\
  (keys16 ex_dc_table -> roomy (ex_dc_table1 k)).
Proof.
  destruct ex_dc_table_ok as (H1 & H2 & H3). pose proof (hashTablePut_spec ex_dc_table k 1 H1 H2) as Hp.
  rewrite H3, lookup_empty in Hp. destruct Hp as (t & E & Ho & Em & Hr). unfold ex_dc_table1. rewrite E. by split_and!.
Qed.

Definition ex_pc (t : HashTable Z) (hp : list (option KvsDataChannel)) (w : SWorld) : KvsPeerConnection :=
  {| dtlsIsServer := true; onDataChannel := Some 3; pDataChannels := t; heap := hp; sctp := w; fired := [] |}.
Definition ex_noSession : SWorld := {| session := None; sclock := 0; sallocs := 0; calls := [] |}.
Definition ex_channel : KvsDataChannel :=
  zeroChannel <| name := padded [104; 105] |> <| channelId := 1 |> <| onMessage := Some 9 |> <| onOpen := Some 8 |>.

Lemma ex_named : named [104; 105] ex_channel.
Proof. split_and!; [done|by apply bytes_ok_check|by repeat constructor|by vm_compute]. Qed.

Lemma ex_unsignalled0 : unsignalled (ex_pc ex_dc_table [] ex_noSession) [].
Proof.
  constructor; [done|apply ex_dc_table0_ok| |apply NoDup_nil_2|apply Forall_nil_2].
  change (ht_map (pDataChannels _)) with (ht_map ex_dc_table). rewrite (proj2 (proj2 ex_dc_table_ok)).
  constructor; [|apply map_size_empty]. intros k p. by split; [|intros (i & ? & _)].
Qed.

Lemma ex_unsignalled1 :
  unsignalled (ex_pc (ex_dc_table1 0) [Some ex_channel] ex_noSession) [(1, ex_channel)].
Proof.
  destruct (ex_dc_table1_ok 0) as (H1 & H2 & H3).
  apply (unsignalled_add (ex_pc ex_dc_table [] ex_noSession) (ex_dc_table1 0) [] ex_channel [104; 105]);
    [apply ex_unsignalled0|apply ex_named|done|exact H1|exact H3|].
  change (ht_map (pDataChannels _)) with (ht_map ex_dc_table). rewrite (proj2 (proj2 ex_dc_table_ok)). exact H2.
Qed.

Lemma ex_linked tA tB hp : linked (ex_pc tA hp (ex_sworld ex_sender)) (ex_pc tB hp (ex_sworld ex_receiver))
  (ex_session ex_sender) (ex_session ex_receiver).
Proof.
  constructor; [done|done|apply (ex_session_ok _ ex_sender_ok)|done|apply ex_can_send|done|apply ex_peer|done].
Qed.

Lemma createDataChannel_registers_witness :
  exists c p pc',
    createDataChannel true true (Some [104; 105; 0]) None true (ex_pc ex_dc_table [] ex_noSession)
      = Some ((STATUS_SUCCESS, p), pc') /\
    createdChannel [104; 105] None 0 c /\ heap pc' = [Some c].
Proof.
  assert (Hb : bytes_ok [104; 105]) by by apply bytes_ok_check.
  assert (Hnz : Forall (fun x => x <> 0) [104; 105]) by by repeat constructor.
  assert (Hl : Z.of_nat (@length (Z * KvsDataChannel) []) < 2 ^ 16) by by vm_compute.
  destruct (createDataChannel_registers [104; 105] [] None (ex_pc ex_dc_table [] ex_noSession) [] ex_unsignalled0 Hb Hnz Hl)
    as (c & p & pc' & E & Hc & _ & Hh & _). exists c, p, pc'. split; [exact E|]. split; [exact Hc|exact Hh].
Defined.

Lemma allocateSctp_assigns_witness :
  exists l' pc', l' ≡ₚ [(1, ex_channel)] /\
    allocateSctp LittleEndian ex_gettime ex_memalloc true true true STATUS_SUCCESS
      (ex_pc (ex_dc_table1 0) [Some ex_channel] ex_noSession) = Some (STATUS_SUCCESS, pc') /\
    announces [announcement 1 [104; 105] (rtcDataChannelInit ex_channel)] pc' /\
    keyed_by 1 2 l'.*1 (ht_map (pDataChannels pc')) /\ appCalls pc' = concat (map openCall l').
Proof.
  assert (Hl : Z.of_nat (length [(1, ex_channel)]) < 2 ^ 15) by by vm_compute.
  destruct (allocateSctp_assigns LittleEndian ex_gettime ex_memalloc _ _ ex_memalloc_ok ex_unsignalled1 Hl)
    as (l' & pc' & HP & _ & E & Hs & _ & Hk & _ & Ha).
  exists l', pc'. split; [exact HP|]. split; [exact E|]. split; [|split; [exact Hk|exact Ha]].
  apply Permutation_sym, Permutation_length_1_inv in HP. subst l'. exact Hs.
Defined.

Lemma dataChannel_open_transfer_witness :
  exists w' pks pcB',
    sctpSessionWriteDcep LittleEndian ex_gettime ex_memalloc 5 (Some [104; 105]) 2 ex_init (ex_sworld ex_sender)
      = Some (STATUS_SUCCESS, w') /\ calls w' = map OutboundPacket pks /\
    feed (inboundSctp LittleEndian ex_gettime ex_memalloc true true) pks (ex_pc ex_dc_table [] (ex_sworld ex_receiver))
      = Some (STATUS_SUCCESS, pcB') /\
    heap pcB' = [Some (openedChannel 5 [104; 105])] /\ appCalls pcB' = [CallOnDataChannel 3 1].
Proof.
  assert (Hb : bytes_ok [104; 105]) by by apply bytes_ok_check.
  assert (Hnz : Forall (fun x => x <> 0) [104; 105]) by by repeat constructor.
  assert (Hl : 0 < blen [104; 105] <= MAX_DATA_CHANNEL_NAME_LEN) by (vm_compute; split; congruence).
  assert (Hm : 12 + blen [104; 105] <= mtu (association (ex_session ex_sender)) - 28) by (vm_compute; discriminate).
  assert (Hk : ht_map ex_dc_table !! u16 5 = None) by (rewrite (proj2 (proj2 ex_dc_table_ok)); apply lookup_empty).
  destruct (dataChannel_open_transfer LittleEndian LittleEndian ex_gettime ex_gettime ex_memalloc ex_memalloc ex_memalloc_ok
    ex_memalloc_ok ex_reassembly (ex_pc ex_dc_table [] (ex_sworld ex_sender)) (ex_pc ex_dc_table [] (ex_sworld ex_receiver))
    (ex_session ex_sender) (ex_session ex_receiver) 5 [104; 105] ex_init 3 (ex_linked ex_dc_table ex_dc_table []) Hb Hnz Hl Hm (ex_dc_table0_ok [])
    Hk eq_refl) as (w' & pks & pcB' & E1 & E2 & E3 & E4 & _ & E5).
  exists w', pks, pcB'. split; [exact E1|]. split; [exact E2|]. split; [exact E3|]. split; [exact E4|exact E5].
Defined.

Lemma dataChannelOpen_overflow_witness :
  exists pName,
    bridge LittleEndian (ex_session ex_receiver) (EvMessage 5 SCTP_PPID_DCEP (dcepMessage (replicate 300 65) ex_init))
      = Ok [DataChannelOpen 5 pName 300] /\
    onSctpSessionDataChannelOpen true true 5 pName 300 (ex_pc ex_dc_table [] (ex_sworld ex_receiver)) = None.
Proof.
  assert (Hb : bytes_ok (replicate 300 65)) by (apply Forall_replicate; split; lia).
  assert (Hnz : Forall (fun x => x <> 0) (replicate 300 65)) by by apply Forall_replicate.
  assert (Hl : 256 < blen (replicate 300 65) <= 512) by (vm_compute; split; congruence).
  destruct (dataChannelOpen_overflow LittleEndian (ex_session ex_receiver) 5 (replicate 300 65) ex_init 3
    (ex_pc ex_dc_table [] (ex_sworld ex_receiver)) eq_refl eq_refl Hb Hnz Hl eq_refl) as (p & E1 & _ & E2).
  exists p. split; [exact E1|exact E2].
Defined.

Lemma dataChannel_transfer_witness :
  exists pcA' pks pcB',
    dataChannelSend LittleEndian ex_gettime ex_memalloc true true 1 true (Some (replicate 100 65)) 100
      (ex_pc ex_dc_table [Some ex_channel] (ex_sworld ex_sender)) = Some (STATUS_SUCCESS, pcA') /\
    fired pcA' = map DtlsPut pks /\
    feed (inboundSctp LittleEndian ex_gettime ex_memalloc true true) pks
      (ex_pc (ex_dc_table1 1) [Some ex_channel] (ex_sworld ex_receiver)) = Some (STATUS_SUCCESS, pcB') /\
    appCalls pcB' = [CallOnMessage 9 1 true (replicate 100 65)].
Proof.
  assert (Hb : bytes_ok (replicate 100 65)) by (apply Forall_replicate; split; lia).
  assert (Hl : blen (replicate 100 65) <= SCTP_MAX_REASSEMBLY_SIZE) by (vm_compute; discriminate).
  assert (Hf : blen (replicate 100 65) <= mtu (association (ex_session ex_sender)) - 28) by (vm_compute; discriminate).
  destruct (ex_dc_table1_ok 1) as (H1 & H2 & H3).
  assert (Ht : table_ok (ex_dc_table1 1) [Some ex_channel]).
  { apply (table_ok_put ex_dc_table (ex_dc_table1 1) [Some ex_channel] 1 1 ex_channel (ex_dc_table0_ok _) H1 H3);
      [split; lia|by split|]. rewrite (proj2 (proj2 ex_dc_table_ok)). exact H2. }
  assert (Hk : ht_map (ex_dc_table1 1) !! u16 (channelId ex_channel) = Some 1) by (rewrite H2; by vm_compute).
  assert (Hc : chan_at [Some ex_channel] 1 ex_channel) by by split.
  destruct (dataChannel_transfer LittleEndian LittleEndian ex_gettime ex_gettime ex_memalloc ex_memalloc ex_memalloc_ok
    ex_memalloc_ok ex_reassembly (ex_pc ex_dc_table [Some ex_channel] (ex_sworld ex_sender))
    (ex_pc (ex_dc_table1 1) [Some ex_channel] (ex_sworld ex_receiver)) (ex_session ex_sender) (ex_session ex_receiver)
    1 ex_channel true (replicate 100 65) 1 ex_channel 9 (ex_linked ex_dc_table (ex_dc_table1 1) [Some ex_channel]) Hb Hl Hc Ht Hk Hc eq_refl
    (fun _ _ _ _ => or_introl Hf)) as (pcA' & pks & pcB' & E1 & E2 & _ & E3 & E4 & _).
  exists pcA', pks, pcB'. split; [exact E1|]. split; [exact E2|]. split; [exact E3|exact E4].
Defined.
