(* ===== verification/Stun.v ===== *)
(** * STUN packets (src/source/Stun/Stun.c, Stun.h)

    The in-memory packet, its builders, the serialiser and the parser with the checks of
    MESSAGE-INTEGRITY and FINGERPRINT.  A packet is one allocation: the [StunPacket] struct,
    the array of pointers [attributeList] and the attribute structs behind it.  Pointers are
    offsets in that allocation, so the places where the code makes two entries point to the
    same struct or runs over the array show in the model.  Struct sizes are those of a
    64-bit host.  HMAC-SHA1 comes from the TLS library and is a parameter. *)

From stdpp Require Import gmap.
From S2P Require Import Prelude Endian Crc32.

(** ** Constants *)

Definition STUN_HEADER_LEN : Z := 20.
Definition STUN_HEADER_TYPE_LEN : Z := 2.
Definition STUN_HEADER_DATA_LEN : Z := 2.
Definition STUN_HEADER_MAGIC_COOKIE : Z := 0x2112A442.
Definition STUN_HEADER_MAGIC_COOKIE_LE : Z := 0x42A41221.
Definition STUN_HEADER_MAGIC_COOKIE_LEN : Z := 4.
Definition STUN_TRANSACTION_ID_LEN : Z := 12.
Definition STUN_ATTRIBUTE_HEADER_TYPE_LEN : Z := 2.
Definition STUN_ATTRIBUTE_HEADER_LEN : Z := 4.
Definition STUN_ATTRIBUTE_ADDRESS_FAMILY_LEN : Z := 2.
Definition STUN_ATTRIBUTE_ADDRESS_HEADER_LEN : Z := 4.
Definition STUN_ATTRIBUTE_FINGERPRINT_LEN : Z := 4.
Definition STUN_ATTRIBUTE_PRIORITY_LEN : Z := 4.
Definition STUN_ATTRIBUTE_LIFETIME_LEN : Z := 4.
Definition STUN_ATTRIBUTE_CHANNEL_NUMBER_LEN : Z := 4.
Definition STUN_ATTRIBUTE_CHANGE_REQUEST_FLAG_LEN : Z := 4.
Definition STUN_ATTRIBUTE_ICE_CONTROL_LEN : Z := 8.
Definition STUN_ATTRIBUTE_REQUESTED_TRANSPORT_PROTOCOL_LEN : Z := 4.
Definition STUN_ATTRIBUTE_REQUESTED_ADDRESS_FAMILY_LEN : Z := 4.
Definition STUN_ATTRIBUTE_FLAG_LEN : Z := 0.
Definition STUN_HMAC_VALUE_LEN : Z := 20.
Definition STUN_ATTRIBUTE_MAX_COUNT : Z := 20.
Definition STUN_PACKET_ALLOCATION_SIZE : Z := 2048.
Definition STUN_FINGERPRINT_ATTRIBUTE_XOR_VALUE : Z := 0x5354554e.
Definition STUN_ERROR_CODE_PACKET_ERROR_CLASS_OFFSET : Z := 2.
Definition STUN_ERROR_CODE_PACKET_ERROR_CODE_OFFSET : Z := 3.
Definition STUN_ERROR_CODE_PACKET_ERROR_PHRASE_OFFSET : Z := 4.
Definition STUN_MAX_USERNAME_LEN : Z := 512.
Definition STUN_MAX_REALM_LEN : Z := 128.
Definition STUN_MAX_NONCE_LEN : Z := 128.
Definition STUN_MAX_ERROR_PHRASE_LEN : Z := 128.
Definition IPV6_ADDRESS_LENGTH : Z := 16.
Definition IPV4_ADDRESS_LENGTH : Z := 4.
Definition KVS_IP_FAMILY_TYPE_IPV4 : Z := 1.
Definition KVS_IP_FAMILY_TYPE_IPV6 : Z := 2.

Definition STUN_ATTRIBUTE_TYPE_MAPPED_ADDRESS : Z := 0x0001.
Definition STUN_ATTRIBUTE_TYPE_RESPONSE_ADDRESS : Z := 0x0002.
Definition STUN_ATTRIBUTE_TYPE_CHANGE_REQUEST : Z := 0x0003.
Definition STUN_ATTRIBUTE_TYPE_SOURCE_ADDRESS : Z := 0x0004.
Definition STUN_ATTRIBUTE_TYPE_CHANGED_ADDRESS : Z := 0x0005.
Definition STUN_ATTRIBUTE_TYPE_USERNAME : Z := 0x0006.
Definition STUN_ATTRIBUTE_TYPE_MESSAGE_INTEGRITY : Z := 0x0008.
Definition STUN_ATTRIBUTE_TYPE_ERROR_CODE : Z := 0x0009.
Definition STUN_ATTRIBUTE_TYPE_REFLECTED_FROM : Z := 0x000B.
Definition STUN_ATTRIBUTE_TYPE_CHANNEL_NUMBER : Z := 0x000C.
Definition STUN_ATTRIBUTE_TYPE_LIFETIME : Z := 0x000D.
Definition STUN_ATTRIBUTE_TYPE_XOR_PEER_ADDRESS : Z := 0x0012.
Definition STUN_ATTRIBUTE_TYPE_DATA : Z := 0x0013.
Definition STUN_ATTRIBUTE_TYPE_REALM : Z := 0x0014.
Definition STUN_ATTRIBUTE_TYPE_NONCE : Z := 0x0015.
Definition STUN_ATTRIBUTE_TYPE_XOR_RELAYED_ADDRESS : Z := 0x0016.
Definition STUN_ATTRIBUTE_TYPE_REQUESTED_ADDRESS_FAMILY : Z := 0x0017.
Definition STUN_ATTRIBUTE_TYPE_REQUESTED_TRANSPORT : Z := 0x0019.
Definition STUN_ATTRIBUTE_TYPE_DONT_FRAGMENT : Z := 0x001A.
Definition STUN_ATTRIBUTE_TYPE_XOR_MAPPED_ADDRESS : Z := 0x0020.
Definition STUN_ATTRIBUTE_TYPE_PRIORITY : Z := 0x0024.
Definition STUN_ATTRIBUTE_TYPE_USE_CANDIDATE : Z := 0x0025.
Definition STUN_ATTRIBUTE_TYPE_FINGERPRINT : Z := 0x8028.
Definition STUN_ATTRIBUTE_TYPE_ICE_CONTROLLED : Z := 0x8029.
Definition STUN_ATTRIBUTE_TYPE_ICE_CONTROLLING : Z := 0x802A.

Definition ROUND_UP (x a : Z) : Z := Z.land (x + a - 1) (Z.lnot (a - 1)).
Definition GET_STUN_ERROR_CODE (cls code : Z) : Z := u16 (cls * 100 + code).

(** ** Data *)

(** [port] is the UINT16 whose two bytes in memory are the port in network order. *)
Record KvsIpAddress : Type := {
  family : Z;
  port : Z;
  address : list Z;
  isPointToPoint : bool;
}.

Definition IS_IPV4_ADDR (a : KvsIpAddress) : bool := family a =? KVS_IP_FAMILY_TYPE_IPV4.

(** What follows the attribute header in each of the attribute structs.  The variable-length
    ones hold the [paddedLength] bytes behind the struct; the 64-bit tie breaker is the 12
    bytes between the header and the end of its struct, because the code reads and writes
    it at two different offsets. *)
Inductive StunAttributeBody : Type :=
| StunAttributeAddress (addr : KvsIpAddress)
| StunAttributeUsername (paddedLength : Z) (userName : list Z)
| StunAttributePriority (priority : Z)
| StunAttributeFlag
| StunAttributeLifetime (lifetime : Z)
| StunAttributeChangeRequest (changeFlag : Z)
| StunAttributeRequestedTransport (protocol : list Z)
| StunAttributeAllocationAddressFamily (ipFamily : list Z)
| StunAttributeRealm (paddedLength : Z) (realm : list Z)
| StunAttributeNonce (paddedLength : Z) (nonce : list Z)
| StunAttributeErrorCode (errorCode paddedLength : Z) (errorPhrase : list Z)
| StunAttributeIceControl (mem : list Z)
| StunAttributeData (paddedLength : Z) (data : list Z)
| StunAttributeChannelNumber (channelNumber reserve : Z)
| StunAttributeMessageIntegrity (messageIntegrity : list Z)
| StunAttributeFingerprint (crc32Fingerprint : Z)
| StunAttributeUnknown.

Record StunAttribute : Type := {
  attr_type : Z;
  attr_length : Z;
  attr_body : StunAttributeBody;
}.

Record StunHeader : Type := {
  stunMessageType : Z;
  messageLength : Z;
  magicCookie : Z;
  transactionId : list Z;
}.

(** [attributeList] holds the offsets of the structs, [attrs] the structs; [slots] is the
    number of pointers that fit between the packet struct and the first attribute. *)
Record StunPacket : Type := {
  header : StunHeader;
  allocationSize : Z;
  attributeList : list Z;
  slots : Z;
  attrs : gmap Z StunAttribute;
}.

Definition attributesCount (p : StunPacket) : Z := Z.of_nat (length (attributeList p)).

Definition attributeAt (p : StunPacket) (o : Z) : res StunAttribute :=
  match attrs p !! o with Some a => Ok a | None => Fault end.

(** sizeof of the structs. *)
Definition SIZEOF_StunPacket : Z := 40.
Definition SIZEOF_PStunAttributeHeader : Z := 8.
Definition SIZEOF_StunAttributeAddress : Z := 28.
Definition SIZEOF_StunAttributeUsername : Z := 16.
Definition SIZEOF_StunAttributePriority : Z := 8.
Definition SIZEOF_StunAttributeFlag : Z := 4.
Definition SIZEOF_StunAttributeLifetime : Z := 8.
Definition SIZEOF_StunAttributeChangeRequest : Z := 8.
Definition SIZEOF_StunAttributeRequestedTransport : Z := 8.
Definition SIZEOF_StunAttributeAllocationAddressFamily : Z := 8.
Definition SIZEOF_StunAttributeRealm : Z := 16.
Definition SIZEOF_StunAttributeNonce : Z := 16.
Definition SIZEOF_StunAttributeErrorCode : Z := 16.
Definition SIZEOF_StunAttributeIceControl : Z := 16.
Definition SIZEOF_StunAttributeData : Z := 16.
Definition SIZEOF_StunAttributeChannelNumber : Z := 8.
Definition SIZEOF_StunAttributeMessageIntegrity : Z := 24.
Definition SIZEOF_StunAttributeFingerprint : Z := 8.

(** strnlen on the bytes of a string object. *)
Fixpoint STRNLEN (s : list Z) (n : nat) : res Z :=
  match n, s with
  | O, _ => Ok 0
  | S _, [] => Fault
  | S n, c :: s => if c =? 0 then Ok 0 else k ← STRNLEN s n; Ok (1 + k)
  end.

(** *** Memory accesses in network order *)

Section Stun.
Context (h : endian).

Definition get16 (b : list Z) (o : Z) : res Z :=
  v ← native16 h b o; Ok (u16 (getInt16 (initializeEndianness h) v)).
Definition get32 (b : list Z) (o : Z) : res Z :=
  v ← native32 h b o; Ok (u32 (getInt32 (initializeEndianness h) v)).
Definition put16 (b : list Z) (o v : Z) : res (list Z) :=
  put_bytes b o (native_bytes16 h (putInt16 (initializeEndianness h) v)).
Definition put32 (b : list Z) (o v : Z) : res (list Z) :=
  put_bytes b o (native_bytes32 h (putInt32 (initializeEndianness h) v)).

Definition PACKAGE_STUN_ATTR_HEADER (b : list Z) (o type dataLen : Z) : res (list Z) :=
  b ← put16 b o (u16 type);
  put16 b (o + STUN_ATTRIBUTE_HEADER_TYPE_LEN) (u16 dataLen).

(** ** Addresses *)

Definition xorTransaction (bs tid : list Z) : list Z := zip_with Z.lxor bs tid.

Definition xorIpAddress (pAddress : option KvsIpAddress) (pTransactionId : option (list Z)) : res KvsIpAddress :=
  match pAddress with
  | None => Err STATUS_NULL_ARG
  | Some a =>
      if IS_IPV4_ADDR a || bool_decide (is_Some pTransactionId) then
        let port' := Z.lxor (u16 (getInt16 (initializeEndianness h) (Z.shiftr STUN_HEADER_MAGIC_COOKIE 16))) (port a) in
        data ← get32 (address a) 0;
        let data := Z.lxor data STUN_HEADER_MAGIC_COOKIE in
        addr ← put32 (address a) 0 data;
        addr ← (if family a =? KVS_IP_FAMILY_TYPE_IPV6 then
                  match pTransactionId with
                  | None => Fault
                  | Some tid =>
                      tail ← ld_bytes addr 4 STUN_TRANSACTION_ID_LEN;
                      tid ← ld_bytes tid 0 STUN_TRANSACTION_ID_LEN;
                      put_bytes addr 4 (xorTransaction tail tid)
                  end
                else Ok addr);
        Ok {| family := family a; port := port'; address := addr; isPointToPoint := isPointToPoint a |}
      else Err STATUS_INVALID_ARG
  end.

Definition addressLength (a : KvsIpAddress) : Z :=
  if IS_IPV4_ADDR a then IPV4_ADDRESS_LENGTH else IPV6_ADDRESS_LENGTH.

(** [cur] is the buffer with the current position, or NULL when only the size is asked. *)
Definition stunPackageIpAddr (pStunHeader : StunHeader) (type : Z) (pAddress : KvsIpAddress)
    (cur : option (list Z * Z)) (dataLenIn : Z) : res (option (list Z) * Z) :=
  let dataLen := STUN_ATTRIBUTE_HEADER_LEN + STUN_ATTRIBUTE_ADDRESS_HEADER_LEN + addressLength pAddress in
  match cur with
  | None => Ok (None, dataLen)
  | Some (b, o) =>
      CHK dataLen <=? dataLenIn else STATUS_NOT_ENOUGH_MEMORY ;;
      a ← (if (type =? STUN_ATTRIBUTE_TYPE_XOR_MAPPED_ADDRESS) || (type =? STUN_ATTRIBUTE_TYPE_XOR_PEER_ADDRESS)
           then xorIpAddress (Some pAddress) (Some (transactionId pStunHeader)) else Ok pAddress);
      b ← PACKAGE_STUN_ATTR_HEADER b o type (u16 (dataLen - STUN_ATTRIBUTE_HEADER_LEN));
      let o := o + STUN_ATTRIBUTE_HEADER_LEN in
      b ← put16 b o (family a);
      let o := o + STUN_ATTRIBUTE_ADDRESS_FAMILY_LEN in
      b ← put_bytes b o (native_bytes16 h (port a));
      let o := o + 2 in
      bs ← ld_bytes (address a) 0 (addressLength a);
      b ← put_bytes b o bs;
      Ok (Some b, dataLen)
  end.

(** ** Building packets *)

(** The address types that the serialiser and the packaged size know. *)
Definition isAddressType (t : Z) : bool :=
  existsb (Z.eqb t)
    [STUN_ATTRIBUTE_TYPE_MAPPED_ADDRESS; STUN_ATTRIBUTE_TYPE_XOR_MAPPED_ADDRESS;
     STUN_ATTRIBUTE_TYPE_RESPONSE_ADDRESS; STUN_ATTRIBUTE_TYPE_SOURCE_ADDRESS;
     STUN_ATTRIBUTE_TYPE_REFLECTED_FROM; STUN_ATTRIBUTE_TYPE_XOR_PEER_ADDRESS;
     STUN_ATTRIBUTE_TYPE_CHANGED_ADDRESS].
Definition isFlagType (t : Z) : bool :=
  (t =? STUN_ATTRIBUTE_TYPE_USE_CANDIDATE) || (t =? STUN_ATTRIBUTE_TYPE_DONT_FRAGMENT).
Definition isIceControlType (t : Z) : bool :=
  (t =? STUN_ATTRIBUTE_TYPE_ICE_CONTROLLED) || (t =? STUN_ATTRIBUTE_TYPE_ICE_CONTROLLING).

(** The [paddedLength] of a struct that has one; a cast of any other struct is [Fault]. *)
Definition paddedLengthOf (b : StunAttributeBody) : res Z :=
  match b with
  | StunAttributeUsername p _ | StunAttributeRealm p _ | StunAttributeNonce p _
  | StunAttributeData p _ | StunAttributeErrorCode _ p _ => Ok p
  | _ => Fault
  end.

Definition getPackagedStunAttributeSize (a : StunAttribute) : res Z :=
  let t := attr_type a in
  length ←
    (if isAddressType t then Ok SIZEOF_StunAttributeAddress
     else if isFlagType t then Ok SIZEOF_StunAttributeFlag
     else if t =? STUN_ATTRIBUTE_TYPE_PRIORITY then Ok SIZEOF_StunAttributePriority
     else if t =? STUN_ATTRIBUTE_TYPE_LIFETIME then Ok SIZEOF_StunAttributeLifetime
     else if t =? STUN_ATTRIBUTE_TYPE_CHANGE_REQUEST then Ok SIZEOF_StunAttributeChangeRequest
     else if t =? STUN_ATTRIBUTE_TYPE_REQUESTED_TRANSPORT then Ok SIZEOF_StunAttributeRequestedTransport
     else if isIceControlType t then Ok SIZEOF_StunAttributeIceControl
     else if t =? STUN_ATTRIBUTE_TYPE_REALM then
       p ← paddedLengthOf (attr_body a); Ok (u16 (SIZEOF_StunAttributeRealm + p))
     else if t =? STUN_ATTRIBUTE_TYPE_NONCE then
       p ← paddedLengthOf (attr_body a); Ok (u16 (SIZEOF_StunAttributeNonce + p))
     else if t =? STUN_ATTRIBUTE_TYPE_DATA then
       p ← paddedLengthOf (attr_body a); Ok (u16 (SIZEOF_StunAttributeData + p))
     else if t =? STUN_ATTRIBUTE_TYPE_USERNAME then
       p ← paddedLengthOf (attr_body a); Ok (u16 (SIZEOF_StunAttributeUsername + p))
     else if t =? STUN_ATTRIBUTE_TYPE_ERROR_CODE then
       p ← paddedLengthOf (attr_body a); Ok (u16 (SIZEOF_StunAttributeErrorCode + p))
     else if t =? STUN_ATTRIBUTE_TYPE_CHANNEL_NUMBER then Ok SIZEOF_StunAttributeChannelNumber
     else Ok (u16 (STUN_ATTRIBUTE_HEADER_LEN + attr_length a)));
  Ok (u16 (ROUND_UP length 8)).

(** The result is the offset of the next free byte. *)
Definition getFirstAvailableStunAttribute (p : option StunPacket) : res Z :=
  match p with
  | None => Err STATUS_NULL_ARG
  | Some p =>
      CHK attributesCount p <=? STUN_ATTRIBUTE_MAX_COUNT else STATUS_STUN_MAX_ATTRIBUTE_COUNT ;;
      if negb (attributesCount p =? 0) then
        o ← lget (attributeList p) (attributesCount p - 1);
        a ← attributeAt p o;
        CHK negb (attr_type a =? STUN_ATTRIBUTE_TYPE_MESSAGE_INTEGRITY)
            && negb (attr_type a =? STUN_ATTRIBUTE_TYPE_FINGERPRINT)
          else STATUS_STUN_ATTRIBUTES_AFTER_FINGERPRINT_MESSAGE_INTEGRITY ;;
        size ← getPackagedStunAttributeSize a;
        CHK o + size <? allocationSize p else STATUS_NOT_ENOUGH_MEMORY ;;
        Ok (o + size)
      else Ok (SIZEOF_StunPacket + SIZEOF_PStunAttributeHeader * STUN_ATTRIBUTE_MAX_COUNT)
  end.

(** The part the builders share: the size check, the new entry of the pointer array, the
    struct, and the message length. *)
Definition addAttribute (p : StunPacket) (o : Z) (a : StunAttribute) (added : Z) : res StunPacket :=
  if attributesCount p <? slots p then
    Ok {| header := {| stunMessageType := stunMessageType (header p);
                       messageLength := u16 (messageLength (header p) + added);
                       magicCookie := magicCookie (header p); transactionId := transactionId (header p) |};
          allocationSize := allocationSize p;
          attributeList := attributeList p ++ [o];
          slots := slots p;
          attrs := <[o := a]> (attrs p) |}
  else Fault.

Definition appendFixed (p : option StunPacket) (size type length : Z) (body : StunAttributeBody) : res StunPacket :=
  o ← getFirstAvailableStunAttribute p;
  match p with
  | None => Err STATUS_NULL_ARG
  | Some p =>
      CHK o + size <=? allocationSize p else STATUS_NOT_ENOUGH_MEMORY ;;
      addAttribute p o {| attr_type := type; attr_length := length; attr_body := body |}
        (length + STUN_ATTRIBUTE_HEADER_LEN)
  end.

(** Attributes with [length] bytes copied behind the struct, into zeroed memory. *)
Definition appendPadded (p : option StunPacket) (size type length : Z) (bytes : list Z)
    (body : Z -> list Z -> StunAttributeBody) : res StunPacket :=
  o ← getFirstAvailableStunAttribute p;
  match p with
  | None => Err STATUS_NULL_ARG
  | Some p =>
      let paddedLength := u16 (ROUND_UP length 4) in
      CHK o + ROUND_UP (paddedLength + size) 8 <=? allocationSize p else STATUS_NOT_ENOUGH_MEMORY ;;
      bs ← ld_bytes bytes 0 length;
      if o + size + length <=? allocationSize p then
        addAttribute p o
          {| attr_type := type; attr_length := length;
             attr_body := body paddedLength (bs ++ replicate (Z.to_nat (paddedLength - length)) 0) |}
          (paddedLength + STUN_ATTRIBUTE_HEADER_LEN)
      else Fault
  end.

(** [rand] are the values RAND() returns. *)
Definition createStunPacket (mem : bool) (rand : nat -> Z) (stunPacketType : Z) (tid : option (list Z))
    (ppStunPacket : bool) : res StunPacket :=
  CHK ppStunPacket else STATUS_NULL_ARG ;;
  CHK mem else STATUS_NOT_ENOUGH_MEMORY ;;
  tid ← match tid with
        | None => Ok (map (fun i => u8 (Z.rem (rand i) 0xFF)) (seq 0 12))
        | Some t => ld_bytes t 0 STUN_TRANSACTION_ID_LEN
        end;
  Ok {| header := {| stunMessageType := u16 stunPacketType; messageLength := 0;
                     magicCookie := STUN_HEADER_MAGIC_COOKIE; transactionId := tid |};
        allocationSize := STUN_PACKET_ALLOCATION_SIZE;
        attributeList := []; slots := STUN_ATTRIBUTE_MAX_COUNT; attrs := ∅ |}.

Definition appendStunAddressAttribute (p : option StunPacket) (addressAttributeType : Z)
    (pAddress : option KvsIpAddress) : res StunPacket :=
  match pAddress with
  | None => Err STATUS_NULL_ARG
  | Some a =>
      appendFixed p (ROUND_UP SIZEOF_StunAttributeAddress 8) addressAttributeType
        (STUN_ATTRIBUTE_ADDRESS_HEADER_LEN + addressLength a) (StunAttributeAddress a)
  end.

(** The first argument check and the length of a C string argument. *)
Definition appendString (p : option StunPacket) (s : option (list Z)) (maxLen size type : Z)
    (body : Z -> list Z -> StunAttributeBody) : res StunPacket :=
  match s with
  | None => Err STATUS_NULL_ARG
  | Some s =>
      _ ← getFirstAvailableStunAttribute p;
      length ← STRNLEN s (Z.to_nat maxLen);
      appendPadded p size type length s body
  end.

Definition appendStunUsernameAttribute (p : option StunPacket) (userName : option (list Z)) : res StunPacket :=
  appendString p userName STUN_MAX_USERNAME_LEN SIZEOF_StunAttributeUsername STUN_ATTRIBUTE_TYPE_USERNAME
    StunAttributeUsername.

Definition appendStunRealmAttribute (p : option StunPacket) (realm : option (list Z)) : res StunPacket :=
  appendString p realm STUN_MAX_REALM_LEN SIZEOF_StunAttributeRealm STUN_ATTRIBUTE_TYPE_REALM StunAttributeRealm.

Definition appendStunErrorCodeAttribute (p : option StunPacket) (errorPhrase : option (list Z)) (errorCode : Z)
    : res StunPacket :=
  appendString p errorPhrase STUN_MAX_ERROR_PHRASE_LEN SIZEOF_StunAttributeErrorCode STUN_ATTRIBUTE_TYPE_ERROR_CODE
    (StunAttributeErrorCode errorCode).

Definition appendStunNonceAttribute (p : option StunPacket) (nonce : option (list Z)) (nonceLen : Z)
    : res StunPacket :=
  match nonce with
  | None => Err STATUS_NULL_ARG
  | Some n => appendPadded p SIZEOF_StunAttributeNonce STUN_ATTRIBUTE_TYPE_NONCE nonceLen n StunAttributeNonce
  end.

Definition appendStunDataAttribute (p : option StunPacket) (data : option (list Z)) (dataLen : Z)
    : res StunPacket :=
  match data with
  | None => Err STATUS_NULL_ARG
  | Some d => appendPadded p SIZEOF_StunAttributeData STUN_ATTRIBUTE_TYPE_DATA dataLen d StunAttributeData
  end.

Definition appendStunPriorityAttribute (p : option StunPacket) (priority : Z) : res StunPacket :=
  appendFixed p (ROUND_UP SIZEOF_StunAttributePriority 8) STUN_ATTRIBUTE_TYPE_PRIORITY STUN_ATTRIBUTE_PRIORITY_LEN
    (StunAttributePriority priority).

Definition appendStunFlagAttribute (p : option StunPacket) (attrType : Z) : res StunPacket :=
  appendFixed p (ROUND_UP SIZEOF_StunAttributeFlag 8) attrType STUN_ATTRIBUTE_FLAG_LEN StunAttributeFlag.

Definition appendStunLifetimeAttribute (p : option StunPacket) (lifetime : Z) : res StunPacket :=
  appendFixed p (ROUND_UP SIZEOF_StunAttributeLifetime 8) STUN_ATTRIBUTE_TYPE_LIFETIME STUN_ATTRIBUTE_LIFETIME_LEN
    (StunAttributeLifetime lifetime).

Definition appendStunChangeRequestAttribute (p : option StunPacket) (changeFlag : Z) : res StunPacket :=
  appendFixed p (ROUND_UP SIZEOF_StunAttributeChangeRequest 8) STUN_ATTRIBUTE_TYPE_CHANGE_REQUEST
    STUN_ATTRIBUTE_CHANGE_REQUEST_FLAG_LEN (StunAttributeChangeRequest changeFlag).

Definition appendStunRequestedTransportAttribute (p : option StunPacket) (protocol : Z) : res StunPacket :=
  appendFixed p (ROUND_UP SIZEOF_StunAttributeRequestedTransport 8) STUN_ATTRIBUTE_TYPE_REQUESTED_TRANSPORT
    STUN_ATTRIBUTE_REQUESTED_TRANSPORT_PROTOCOL_LEN (StunAttributeRequestedTransport [u8 protocol; 0; 0; 0]).

Definition appendStunAllocationAddressFamily (p : option StunPacket) (ipFamily : Z) : res StunPacket :=
  appendFixed p (ROUND_UP SIZEOF_StunAttributeAllocationAddressFamily 4) STUN_ATTRIBUTE_TYPE_REQUESTED_ADDRESS_FAMILY
    4 (StunAttributeAllocationAddressFamily [u8 ipFamily; 0; 0; 0]).

Definition appendStunIceControllAttribute (p : option StunPacket) (attributeType tieBreaker : Z) : res StunPacket :=
  CHK isIceControlType attributeType else STATUS_INVALID_ARG ;;
  appendFixed p (ROUND_UP SIZEOF_StunAttributeIceControl 8) attributeType STUN_ATTRIBUTE_ICE_CONTROL_LEN
    (StunAttributeIceControl (native_bytes64 h tieBreaker ++ [0; 0; 0; 0])).

Definition appendStunChannelNumberAttribute (p : option StunPacket) (channelNumber : Z) : res StunPacket :=
  appendFixed p (ROUND_UP SIZEOF_StunAttributeChannelNumber 8) STUN_ATTRIBUTE_TYPE_CHANNEL_NUMBER
    STUN_ATTRIBUTE_CHANNEL_NUMBER_LEN (StunAttributeChannelNumber channelNumber 0).

(** The offset of the first attribute of a type. *)
Fixpoint findAttribute (p : StunPacket) (l : list Z) (attributeType : Z) : res (option Z) :=
  match l with
  | [] => Ok None
  | o :: l =>
      a ← attributeAt p o;
      if attr_type a =? attributeType then Ok (Some o) else findAttribute p l attributeType
  end.

Definition getStunAttribute (p : option StunPacket) (attributeType : Z) : res (option Z) :=
  match p with
  | None => Err STATUS_NULL_ARG
  | Some p => findAttribute p (attributeList p) attributeType
  end.

Definition updateStunNonceAttribute (p : option StunPacket) (nonce : option (list Z)) (nonceLen : Z)
    : res StunPacket :=
  match p, nonce with
  | Some p, Some nonce =>
      o ← getStunAttribute (Some p) STUN_ATTRIBUTE_TYPE_NONCE;
      match o with
      | None => Ok p
      | Some o =>
          a ← attributeAt p o;
          CHK attr_length a =? nonceLen else STATUS_INVALID_ARG ;;
          match attr_body a with
          | StunAttributeNonce padded old =>
              bs ← ld_bytes nonce 0 nonceLen;
              new ← put_bytes old 0 bs;
              Ok {| header := header p; allocationSize := allocationSize p; attributeList := attributeList p;
                    slots := slots p;
                    attrs := <[o := {| attr_type := attr_type a; attr_length := attr_length a;
                                       attr_body := StunAttributeNonce padded new |}]> (attrs p) |}
          | _ => Fault
          end
      end
  | _, _ => Err STATUS_NULL_ARG
  end.

(** ** Serialisation *)

Context (hmac : list Z -> list Z -> option (list Z)).

(** The HMAC of the first [size] bytes of a buffer. *)
Definition KVS_SHA1_HMAC (password : list Z) (passwordLen : Z) (b : list Z) (size : Z) : res (list Z) :=
  key ← ld_bytes password 0 passwordLen;
  m ← ld_bytes b 0 size;
  match hmac key m with Some d => Ok d | None => Err STATUS_HMAC_GENERATION_ERROR end.

(** The result of one attribute: the buffer, the encoded length and the two flags. *)
Definition Packaged : Type := option (list Z) * Z * bool * bool.

(** What the cases of the serialiser share. *)
Definition packageAttribute (mi fp : bool) (a : StunAttribute) (encodedLen : Z) (cur : option (list Z * Z))
    (remaining : Z) (value : list Z -> Z -> res (list Z)) : res Packaged :=
  CHK negb fp && negb mi else STATUS_STUN_ATTRIBUTES_AFTER_FINGERPRINT_MESSAGE_INTEGRITY ;;
  match cur with
  | None => Ok (None, encodedLen, mi, fp)
  | Some (b, o) =>
      CHK encodedLen <=? remaining else STATUS_NOT_ENOUGH_MEMORY ;;
      b ← PACKAGE_STUN_ATTR_HEADER b o (attr_type a) (attr_length a);
      b ← value b (o + STUN_ATTRIBUTE_HEADER_LEN);
      Ok (Some b, encodedLen, mi, fp)
  end.

Definition copyBytes (bs : list Z) (n : Z) (b : list Z) (o : Z) : res (list Z) :=
  bs ← ld_bytes bs 0 n; put_bytes b o bs.

(** One iteration of the serialiser; a cast to the wrong struct is [Fault]. *)
Definition serializeAttribute (hd : StunHeader) (count i : Z) (mi fp : bool) (a : StunAttribute)
    (cur : option (list Z * Z)) (remaining : Z) : res Packaged :=
  let t := attr_type a in
  let padded bs := fun n => packageAttribute mi fp a (STUN_ATTRIBUTE_HEADER_LEN + n) cur remaining (copyBytes bs n) in
  if isAddressType t then
    CHK negb fp && negb mi else STATUS_STUN_ATTRIBUTES_AFTER_FINGERPRINT_MESSAGE_INTEGRITY ;;
    match attr_body a with
    | StunAttributeAddress addr =>
        '(b, n) ← stunPackageIpAddr hd t addr cur remaining; Ok (b, n, mi, fp)
    | _ => Fault
    end
  else if t =? STUN_ATTRIBUTE_TYPE_USERNAME then
    match attr_body a with StunAttributeUsername n bs => padded bs n | _ => Fault end
  else if t =? STUN_ATTRIBUTE_TYPE_PRIORITY then
    match attr_body a with
    | StunAttributePriority v =>
        packageAttribute mi fp a (STUN_ATTRIBUTE_HEADER_LEN + STUN_ATTRIBUTE_PRIORITY_LEN) cur remaining
          (fun b o => put32 b o v)
    | _ => Fault
    end
  else if isFlagType t then
    packageAttribute mi fp a STUN_ATTRIBUTE_HEADER_LEN cur remaining (fun b o => Ok b)
  else if t =? STUN_ATTRIBUTE_TYPE_LIFETIME then
    match attr_body a with
    | StunAttributeLifetime v =>
        packageAttribute mi fp a (STUN_ATTRIBUTE_HEADER_LEN + STUN_ATTRIBUTE_LIFETIME_LEN) cur remaining
          (fun b o => put32 b o v)
    | _ => Fault
    end
  else if t =? STUN_ATTRIBUTE_TYPE_CHANGE_REQUEST then
    match attr_body a with
    | StunAttributeChangeRequest v =>
        packageAttribute mi fp a (STUN_ATTRIBUTE_HEADER_LEN + STUN_ATTRIBUTE_CHANGE_REQUEST_FLAG_LEN) cur remaining
          (fun b o => put32 b o v)
    | _ => Fault
    end
  else if t =? STUN_ATTRIBUTE_TYPE_REQUESTED_TRANSPORT then
    match attr_body a with
    | StunAttributeRequestedTransport bs => padded bs STUN_ATTRIBUTE_REQUESTED_TRANSPORT_PROTOCOL_LEN
    | _ => Fault
    end
  else if t =? STUN_ATTRIBUTE_TYPE_REQUESTED_ADDRESS_FAMILY then
    match attr_body a with
    | StunAttributeAllocationAddressFamily bs => padded bs STUN_ATTRIBUTE_REQUESTED_ADDRESS_FAMILY_LEN
    | _ => Fault
    end
  else if t =? STUN_ATTRIBUTE_TYPE_REALM then
    match attr_body a with StunAttributeRealm n bs => padded bs n | _ => Fault end
  else if t =? STUN_ATTRIBUTE_TYPE_NONCE then
    match attr_body a with StunAttributeNonce n bs => padded bs n | _ => Fault end
  else if t =? STUN_ATTRIBUTE_TYPE_ERROR_CODE then
    match attr_body a with
    | StunAttributeErrorCode code n bs =>
        packageAttribute mi fp a (STUN_ATTRIBUTE_HEADER_LEN + n) cur remaining
          (fun b o =>
             (* (PINT16) p + STUN_ATTRIBUTE_HEADER_LEN is eight bytes behind p *)
             b ← put16 b (o - STUN_ATTRIBUTE_HEADER_LEN + 2 * STUN_ATTRIBUTE_HEADER_LEN) code;
             copyBytes bs n b (o + 2))
    | _ => Fault
    end
  else if isIceControlType t then
    match attr_body a with
    | StunAttributeIceControl mem =>
        packageAttribute mi fp a (STUN_ATTRIBUTE_HEADER_LEN + STUN_ATTRIBUTE_ICE_CONTROL_LEN) cur remaining
          (fun b o =>
             data64 ← native64 h mem 0;
             put_bytes b o (native_bytes64 h (putInt64 (initializeEndianness h) (i64 data64))))
    | _ => Fault
    end
  else if t =? STUN_ATTRIBUTE_TYPE_DATA then
    match attr_body a with StunAttributeData n bs => padded bs n | _ => Fault end
  else if t =? STUN_ATTRIBUTE_TYPE_CHANNEL_NUMBER then
    match attr_body a with
    | StunAttributeChannelNumber n r =>
        packageAttribute mi fp a (STUN_ATTRIBUTE_HEADER_LEN + STUN_ATTRIBUTE_CHANNEL_NUMBER_LEN) cur remaining
          (fun b o => b ← put16 b o n; put16 b (o + 2) r)
    | _ => Fault
    end
  else if t =? STUN_ATTRIBUTE_TYPE_MESSAGE_INTEGRITY then
    CHK (i =? count -32 1) || (i =? count -32 2) else STATUS_STUN_MESSAGE_INTEGRITY_NOT_LAST ;;
    CHK negb mi else STATUS_STUN_MULTIPLE_MESSAGE_INTEGRITY_ATTRIBUTES ;;
    CHK negb fp else STATUS_STUN_MESSAGE_INTEGRITY_AFTER_FINGERPRINT ;;
    Ok (fst <$> cur, 0, true, fp)
  else if t =? STUN_ATTRIBUTE_TYPE_FINGERPRINT then
    CHK i =? count -32 1 else STATUS_STUN_FINGERPRINT_NOT_LAST ;;
    CHK negb fp else STATUS_STUN_MULTIPLE_FINGERPRINT_ATTRIBUTES ;;
    Ok (fst <$> cur, 0, mi, true)
  else Ok (fst <$> cur, 0, mi, fp).

(** The buffer, the position in it, the remaining and the accumulated size. *)
Record Writer : Type := {
  w_buffer : option (list Z);
  w_pos : Z;
  w_remaining : Z;
  w_size : Z;
}.

Definition cursor (w : Writer) : option (list Z * Z) := (fun b => (b, w_pos w)) <$> w_buffer w.

(** With a buffer the position moves on, without one the size grows. *)
Definition advance (w : Writer) (b : option (list Z)) (n : Z) : Writer :=
  match w_buffer w with
  | Some _ => {| w_buffer := b; w_pos := w_pos w + n; w_remaining := w_remaining w -32 n; w_size := w_size w |}
  | None => {| w_buffer := None; w_pos := w_pos w; w_remaining := w_remaining w; w_size := w_size w +32 n |}
  end.

Fixpoint serializeLoop (p : StunPacket) (l : list Z) (i : Z) (mi fp : bool) (w : Writer) : res Writer :=
  match l with
  | [] => Ok w
  | o :: l =>
      a ← attributeAt p o;
      '(b, n, mi, fp) ← serializeAttribute (header p) (attributesCount p) i mi fp a (cursor w) (w_remaining w);
      serializeLoop p l (i + 1) mi fp (advance w b n)
  end.

(** The STUN header except for its length field. *)
Definition serializeHeader (hd : StunHeader) (b : list Z) : res (list Z) :=
  b ← put16 b 0 (stunMessageType hd);
  b ← put32 b (STUN_HEADER_TYPE_LEN + STUN_HEADER_DATA_LEN) STUN_HEADER_MAGIC_COOKIE;
  tid ← ld_bytes (transactionId hd) 0 STUN_TRANSACTION_ID_LEN;
  put_bytes b (STUN_HEADER_TYPE_LEN + STUN_HEADER_DATA_LEN + STUN_HEADER_MAGIC_COOKIE_LEN) tid.

(** A generated attribute: its header, the length field up to it, and the value computed
    from what is in front of it. *)
Definition generate (w : Writer) (type len : Z) (value : list Z -> Z -> res (list Z)) : res Writer :=
  let encodedLen := STUN_ATTRIBUTE_HEADER_LEN + len in
  match w_buffer w with
  | None => Ok (advance w None encodedLen)
  | Some b =>
      CHK encodedLen <=? w_remaining w else STATUS_NOT_ENOUGH_MEMORY ;;
      b ← PACKAGE_STUN_ATTR_HEADER b (w_pos w) type len;
      b ← put16 b STUN_HEADER_TYPE_LEN (u16 (w_pos w + encodedLen - STUN_HEADER_LEN));
      v ← value b (u16 (w_pos w));
      b ← put_bytes b (w_pos w + STUN_ATTRIBUTE_HEADER_LEN) v;
      Ok (advance w (Some b) encodedLen)
  end.

Definition fingerprint (b : list Z) (size : Z) : res (list Z) :=
  crc ← COMPUTE_CRC32 b size;
  Ok (native_bytes32 h (putInt32 (initializeEndianness h) (Z.lxor crc STUN_FINGERPRINT_ATTRIBUTE_XOR_VALUE))).

(** The end of the serialiser: the generated attributes and the length field. *)
Definition finishPacket (password : option (list Z)) (passwordLen : Z)
    (generateMessageIntegrity generateFingerprint : bool) (w : Writer) : res (option (list Z) * Z) :=
  w ← match generateMessageIntegrity, password with
      | true, Some pw =>
          generate w STUN_ATTRIBUTE_TYPE_MESSAGE_INTEGRITY STUN_HMAC_VALUE_LEN
            (fun b size => KVS_SHA1_HMAC pw passwordLen b size)
      | _, _ => Ok w
      end;
  w ← (if generateFingerprint
       then generate w STUN_ATTRIBUTE_TYPE_FINGERPRINT STUN_ATTRIBUTE_FINGERPRINT_LEN fingerprint
       else Ok w);
  match w_buffer w with
  | None => Ok (None, w_size w)
  | Some b =>
      b ← put16 b STUN_HEADER_TYPE_LEN (u16 (w_size w - STUN_HEADER_LEN));
      CHK w_size w =? u32 (w_pos w) else STATUS_INTERNAL_ERROR ;;
      Ok (Some b, w_size w)
  end.

Definition serializeStunPacket (p : option StunPacket) (password : option (list Z)) (passwordLen : Z)
    (generateMessageIntegrity generateFingerprint : bool) (pBuffer : option (list Z)) (pSize : option Z)
    : res (option (list Z) * Z) :=
  match p, pSize with
  | Some p, Some size =>
      CHK negb generateMessageIntegrity || bool_decide (is_Some password) else STATUS_NULL_ARG ;;
      CHK bool_decide (password = None) || negb (passwordLen =? 0) else STATUS_INVALID_ARG ;;
      CHK magicCookie (header p) =? STUN_HEADER_MAGIC_COOKIE else STATUS_STUN_MAGIC_COOKIE_MISMATCH ;;
      w ← match pBuffer with
          | None => Ok {| w_buffer := None; w_pos := 0; w_remaining := 0; w_size := STUN_HEADER_LEN |}
          | Some b =>
              CHK STUN_HEADER_LEN <=? size else STATUS_NOT_ENOUGH_MEMORY ;;
              b ← serializeHeader (header p) b;
              Ok {| w_buffer := Some b; w_pos := STUN_HEADER_LEN; w_remaining := size - STUN_HEADER_LEN;
                    w_size := size |}
          end;
      w ← serializeLoop p (attributeList p) 0 false false w;
      finishPacket password passwordLen generateMessageIntegrity generateFingerprint w
  | _, _ => Err STATUS_NULL_ARG
  end.

(** ** Parsing *)

(** The address types that the parser knows. *)
Definition isParsedAddressType (t : Z) : bool :=
  isAddressType t || (t =? STUN_ATTRIBUTE_TYPE_XOR_RELAYED_ADDRESS).

(** What the first pass learns of an attribute: the size of its struct, the flags, and
    whether it counts. *)
Definition Checked : Type := Z * bool * bool * bool.

Definition checkPlain (ok : bool) (st : STATUS) (mi fp : bool) (size : Z) : res Checked :=
  CHK ok else st ;;
  CHK negb fp && negb mi else STATUS_STUN_ATTRIBUTES_AFTER_FINGERPRINT_MESSAGE_INTEGRITY ;;
  Ok (size, mi, fp, true).

(** The switch of the first pass. *)
Definition checkAttribute (b : list Z) (off type len padded : Z) (mi fp : bool) : res Checked :=
  if isParsedAddressType type then
    f ← get16 b (off + STUN_ATTRIBUTE_HEADER_LEN);
    let ipFamily := Z.land f 0x00ff in
    let size := STUN_ATTRIBUTE_ADDRESS_HEADER_LEN
                + (if ipFamily =? KVS_IP_FAMILY_TYPE_IPV4 then IPV4_ADDRESS_LENGTH else IPV6_ADDRESS_LENGTH) in
    checkPlain (len =? size) STATUS_STUN_INVALID_ADDRESS_ATTRIBUTE_LENGTH mi fp SIZEOF_StunAttributeAddress
  else if type =? STUN_ATTRIBUTE_TYPE_USERNAME then
    checkPlain (len <=? STUN_MAX_USERNAME_LEN) STATUS_STUN_INVALID_USERNAME_ATTRIBUTE_LENGTH mi fp
      (SIZEOF_StunAttributeUsername + padded)
  else if type =? STUN_ATTRIBUTE_TYPE_PRIORITY then
    checkPlain (len =? STUN_ATTRIBUTE_PRIORITY_LEN) STATUS_STUN_INVALID_PRIORITY_ATTRIBUTE_LENGTH mi fp
      SIZEOF_StunAttributePriority
  else if isFlagType type then
    checkPlain (len =? STUN_ATTRIBUTE_FLAG_LEN) STATUS_STUN_INVALID_USE_CANDIDATE_ATTRIBUTE_LENGTH mi fp
      SIZEOF_StunAttributeFlag
  else if type =? STUN_ATTRIBUTE_TYPE_LIFETIME then
    checkPlain (len =? STUN_ATTRIBUTE_LIFETIME_LEN) STATUS_STUN_INVALID_LIFETIME_ATTRIBUTE_LENGTH mi fp
      SIZEOF_StunAttributeLifetime
  else if type =? STUN_ATTRIBUTE_TYPE_CHANGE_REQUEST then
    checkPlain (len =? STUN_ATTRIBUTE_CHANGE_REQUEST_FLAG_LEN) STATUS_STUN_INVALID_CHANGE_REQUEST_ATTRIBUTE_LENGTH
      mi fp SIZEOF_StunAttributeChangeRequest
  else if type =? STUN_ATTRIBUTE_TYPE_REQUESTED_TRANSPORT then
    checkPlain (len =? STUN_ATTRIBUTE_REQUESTED_TRANSPORT_PROTOCOL_LEN)
      STATUS_STUN_INVALID_REQUESTED_TRANSPORT_ATTRIBUTE_LENGTH mi fp SIZEOF_StunAttributeRequestedTransport
  else if type =? STUN_ATTRIBUTE_TYPE_REALM then
    checkPlain (len <=? STUN_MAX_REALM_LEN) STATUS_STUN_INVALID_REALM_ATTRIBUTE_LENGTH mi fp
      (SIZEOF_StunAttributeRealm + padded)
  else if type =? STUN_ATTRIBUTE_TYPE_NONCE then
    checkPlain (len <=? STUN_MAX_NONCE_LEN) STATUS_STUN_INVALID_NONCE_ATTRIBUTE_LENGTH mi fp
      (SIZEOF_StunAttributeNonce + padded)
  else if type =? STUN_ATTRIBUTE_TYPE_ERROR_CODE then
    checkPlain (len <=? STUN_MAX_ERROR_PHRASE_LEN) STATUS_STUN_INVALID_ERROR_CODE_ATTRIBUTE_LENGTH mi fp
      (SIZEOF_StunAttributeErrorCode + padded)
  else if isIceControlType type then
    checkPlain (len =? STUN_ATTRIBUTE_ICE_CONTROL_LEN) STATUS_STUN_INVALID_ICE_CONTROL_ATTRIBUTE_LENGTH mi fp
      SIZEOF_StunAttributeIceControl
  else if type =? STUN_ATTRIBUTE_TYPE_DATA then
    checkPlain true STATUS_SUCCESS mi fp (SIZEOF_StunAttributeData + padded)
  else if type =? STUN_ATTRIBUTE_TYPE_CHANNEL_NUMBER then
    checkPlain (len =? STUN_ATTRIBUTE_CHANNEL_NUMBER_LEN) STATUS_STUN_INVALID_CHANNEL_NUMBER_ATTRIBUTE_LENGTH mi fp
      SIZEOF_StunAttributeChannelNumber
  else if type =? STUN_ATTRIBUTE_TYPE_MESSAGE_INTEGRITY then
    CHK len =? STUN_HMAC_VALUE_LEN else STATUS_STUN_INVALID_MESSAGE_INTEGRITY_ATTRIBUTE_LENGTH ;;
    CHK negb mi else STATUS_STUN_MULTIPLE_MESSAGE_INTEGRITY_ATTRIBUTES ;;
    CHK negb fp else STATUS_STUN_MESSAGE_INTEGRITY_AFTER_FINGERPRINT ;;
    Ok (SIZEOF_StunAttributeMessageIntegrity, true, fp, true)
  else if type =? STUN_ATTRIBUTE_TYPE_FINGERPRINT then
    CHK len =? STUN_ATTRIBUTE_FINGERPRINT_LEN else STATUS_STUN_INVALID_FINGERPRINT_ATTRIBUTE_LENGTH ;;
    CHK negb fp else STATUS_STUN_MULTIPLE_FINGERPRINT_ATTRIBUTES ;;
    Ok (SIZEOF_StunAttributeFingerprint, mi, true, true)
  else Ok (0, mi, fp, false).

(** The first pass: the number of known attributes and the size of the allocation.  Every
    iteration reads at a larger offset of the buffer, so its length is enough fuel. *)
Fixpoint checkLoop (fuel : nat) (b : list Z) (off stop count alloc : Z) (mi fp : bool) : res (Z * Z) :=
  if off <? stop then
    match fuel with
    | O => Fault
    | S fuel =>
        type ← get16 b off;
        len ← get16 b (off + STUN_ATTRIBUTE_HEADER_TYPE_LEN);
        let padded := u16 (ROUND_UP len 4) in
        '(size, mi, fp, known) ← checkAttribute b off type len padded mi fp;
        let count := if (known : bool) then count +32 1 else count in
        CHK count <=? STUN_ATTRIBUTE_MAX_COUNT else STATUS_STUN_MAX_ATTRIBUTE_COUNT ;;
        checkLoop fuel b (off + STUN_ATTRIBUTE_HEADER_LEN + padded) stop count (alloc +32 size) mi fp
    end
  else Ok (count, alloc).

Definition zeros (n : Z) : list Z := replicate (Z.to_nat n) 0.

(** The address case of the second pass: the copied bytes are the family, the port and the
    address; the cookie is XORed in the host's byte order. *)
Definition parseAddress (b : list Z) (off type len : Z) (tid : list Z) : res KvsIpAddress :=
  let stunMagicCookie := if isBigEndian h then STUN_HEADER_MAGIC_COOKIE else STUN_HEADER_MAGIC_COOKIE_LE in
  bs ← ld_bytes b (off + STUN_ATTRIBUTE_HEADER_LEN) len;
  f ← get16 bs 0;
  p ← native16 h bs 2;
  let fam := Z.land f 0x00ff in
  let addr := drop 4 bs ++ zeros (20 - len) in
  if (type =? STUN_ATTRIBUTE_TYPE_XOR_MAPPED_ADDRESS) || (type =? STUN_ATTRIBUTE_TYPE_XOR_RELAYED_ADDRESS) then
    data ← native32 h addr 0;
    addr ← put_bytes addr 0 (native_bytes32 h (Z.lxor data stunMagicCookie));
    addr ← (if fam =? KVS_IP_FAMILY_TYPE_IPV6 then
              tail ← ld_bytes addr 4 STUN_TRANSACTION_ID_LEN;
              put_bytes addr 4 (xorTransaction tail tid)
            else Ok addr);
    Ok {| family := fam; port := Z.lxor p (u16 stunMagicCookie); address := addr; isPointToPoint := false |}
  else Ok {| family := fam; port := p; address := addr; isPointToPoint := false |}.

(** The length field is patched, a value is computed from the bytes in front of the
    attribute, and the length field is restored. *)
Definition overPrefix {A} (b : list Z) (off len messageLength : Z) (compute : list Z -> Z -> res A) : res (list Z * A) :=
  b ← put16 b STUN_HEADER_TYPE_LEN (u16 (off + STUN_ATTRIBUTE_HEADER_LEN + len - STUN_HEADER_LEN));
  v ← compute b (u16 off);
  b ← put16 b STUN_HEADER_TYPE_LEN messageLength;
  Ok (b, v).

(** The switch of the second pass: the buffer, the struct and its size. *)
Definition parseAttribute (b : list Z) (hd : StunHeader) (password : option (list Z)) (passwordLen : Z)
    (off type len padded : Z) : res (list Z * StunAttributeBody * Z) :=
  let value := off + STUN_ATTRIBUTE_HEADER_LEN in
  if isParsedAddressType type then
    a ← parseAddress b off type len (transactionId hd);
    Ok (b, StunAttributeAddress a, SIZEOF_StunAttributeAddress)
  else if type =? STUN_ATTRIBUTE_TYPE_USERNAME then
    bs ← ld_bytes b value padded;
    Ok (b, StunAttributeUsername padded bs, SIZEOF_StunAttributeUsername + padded)
  else if type =? STUN_ATTRIBUTE_TYPE_PRIORITY then
    v ← get32 b value; Ok (b, StunAttributePriority v, SIZEOF_StunAttributePriority)
  else if isFlagType type then Ok (b, StunAttributeFlag, SIZEOF_StunAttributeFlag)
  else if type =? STUN_ATTRIBUTE_TYPE_LIFETIME then
    v ← get32 b value; Ok (b, StunAttributeLifetime v, SIZEOF_StunAttributeLifetime)
  else if type =? STUN_ATTRIBUTE_TYPE_CHANGE_REQUEST then
    v ← get32 b value; Ok (b, StunAttributeChangeRequest v, SIZEOF_StunAttributeChangeRequest)
  else if type =? STUN_ATTRIBUTE_TYPE_REQUESTED_TRANSPORT then
    bs ← ld_bytes b value STUN_ATTRIBUTE_REQUESTED_TRANSPORT_PROTOCOL_LEN;
    Ok (b, StunAttributeRequestedTransport bs, SIZEOF_StunAttributeRequestedTransport)
  else if type =? STUN_ATTRIBUTE_TYPE_REALM then
    bs ← ld_bytes b value padded;
    Ok (b, StunAttributeRealm padded bs, SIZEOF_StunAttributeRealm + padded)
  else if type =? STUN_ATTRIBUTE_TYPE_NONCE then
    bs ← ld_bytes b value padded;
    Ok (b, StunAttributeNonce padded bs, SIZEOF_StunAttributeNonce + padded)
  else if type =? STUN_ATTRIBUTE_TYPE_ERROR_CODE then
    cls ← ld b (value + STUN_ERROR_CODE_PACKET_ERROR_CLASS_OFFSET);
    code ← ld b (value + STUN_ERROR_CODE_PACKET_ERROR_CODE_OFFSET);
    bs ← ld_bytes b (value + STUN_ERROR_CODE_PACKET_ERROR_PHRASE_OFFSET)
           (padded - STUN_ERROR_CODE_PACKET_ERROR_PHRASE_OFFSET);
    Ok (b, StunAttributeErrorCode (GET_STUN_ERROR_CODE cls code) padded (bs ++ zeros 4),
        SIZEOF_StunAttributeErrorCode + padded)
  else if isIceControlType type then
    v ← native64 h b value;
    Ok (b, StunAttributeIceControl (zeros 4 ++ native_bytes64 h (getInt64 (initializeEndianness h) (i64 v))),
        SIZEOF_StunAttributeIceControl)
  else if type =? STUN_ATTRIBUTE_TYPE_DATA then
    bs ← ld_bytes b value padded;
    Ok (b, StunAttributeData padded bs, SIZEOF_StunAttributeData + padded)
  else if type =? STUN_ATTRIBUTE_TYPE_CHANNEL_NUMBER then
    n ← get16 b value; Ok (b, StunAttributeChannelNumber n 0, SIZEOF_StunAttributeChannelNumber)
  else if type =? STUN_ATTRIBUTE_TYPE_MESSAGE_INTEGRITY then
    match password with
    | None => Err STATUS_NULL_ARG
    | Some pw =>
        CHK negb (passwordLen =? 0) else STATUS_INVALID_ARG ;;
        '(b, mac) ← overPrefix b off STUN_HMAC_VALUE_LEN (messageLength hd) (KVS_SHA1_HMAC pw passwordLen);
        theirs ← ld_bytes b value STUN_HMAC_VALUE_LEN;
        CHK bool_decide (mac = theirs) else STATUS_STUN_MESSAGE_INTEGRITY_MISMATCH ;;
        Ok (b, StunAttributeMessageIntegrity mac, SIZEOF_StunAttributeMessageIntegrity)
    end
  else if type =? STUN_ATTRIBUTE_TYPE_FINGERPRINT then
    theirs ← get32 b value;
    '(b, crc) ← overPrefix b off STUN_ATTRIBUTE_FINGERPRINT_LEN (messageLength hd) COMPUTE_CRC32;
    CHK Z.lxor crc STUN_FINGERPRINT_ATTRIBUTE_XOR_VALUE =? theirs else STATUS_STUN_FINGERPRINT_MISMATCH ;;
    Ok (b, StunAttributeFingerprint theirs, SIZEOF_StunAttributeFingerprint)
  else Ok (b, StunAttributeUnknown, 0).

(** The second pass runs over the attributes until [count] entries are used. *)
Fixpoint parseLoop (fuel : nat) (b : list Z) (hd : StunHeader) (password : option (list Z)) (passwordLen : Z)
    (off stop i count dest : Z) (l : list Z) (m : gmap Z StunAttribute)
    : res (list Z * list Z * gmap Z StunAttribute) :=
  if (off <? stop) && (i <? count) then
    match fuel with
    | O => Fault
    | S fuel =>
        type ← get16 b off;
        len ← get16 b (off + STUN_ATTRIBUTE_HEADER_TYPE_LEN);
        let padded := u16 (ROUND_UP len 4) in
        '(b, body, size) ← parseAttribute b hd password passwordLen off type len padded;
        parseLoop fuel b hd password passwordLen (off + STUN_ATTRIBUTE_HEADER_LEN + padded) stop (i + 1) count
          (dest + size) (l ++ [dest])
          (<[dest := {| attr_type := type; attr_length := len; attr_body := body |}]> m)
    end
  else Ok (b, l, m).

(** The packet and the buffer, whose length field is patched and restored. *)
Definition deserializeStunPacket (mem : bool) (pStunBuffer : option (list Z)) (bufferSize : Z)
    (password : option (list Z)) (passwordLen : Z) (ppStunPacket : bool) : res (list Z * StunPacket) :=
  match pStunBuffer with
  | None => Err STATUS_NULL_ARG
  | Some b =>
      CHK ppStunPacket else STATUS_NULL_ARG ;;
      CHK STUN_HEADER_LEN <=? bufferSize else STATUS_INVALID_ARG ;;
      ml ← get16 b STUN_HEADER_TYPE_LEN;
      cookie ← get32 b (STUN_HEADER_TYPE_LEN + STUN_HEADER_DATA_LEN);
      CHK ml + STUN_HEADER_LEN <=? bufferSize else STATUS_INVALID_ARG ;;
      CHK cookie =? STUN_HEADER_MAGIC_COOKIE else STATUS_STUN_MAGIC_COOKIE_MISMATCH ;;
      '(count, alloc) ← checkLoop (length b) b STUN_HEADER_LEN (STUN_HEADER_LEN + ml) 0 SIZEOF_StunPacket false false;
      let alloc := alloc +32 count * SIZEOF_PStunAttributeHeader in
      CHK mem else STATUS_NOT_ENOUGH_MEMORY ;;
      mt ← get16 b 0;
      tid ← ld_bytes b 8 STUN_TRANSACTION_ID_LEN;
      let hd := {| stunMessageType := mt; messageLength := ml; magicCookie := cookie; transactionId := tid |} in
      '(b, l, m) ← parseLoop (length b) b hd password passwordLen STUN_HEADER_LEN (STUN_HEADER_LEN + ml) 0 count
                     (SIZEOF_StunPacket + SIZEOF_PStunAttributeHeader * count) [] ∅;
      Ok (b, {| header := hd; allocationSize := alloc; attributeList := l; slots := count; attrs := m |})
  end.

End Stun.
