(* ===== verification/StunFormat.v ===== *)
(** * The STUN wire format

    The bytes of a packet as RFC 5389 draws them, with the integrity and fingerprint attributes
    over what precedes them, and the proof that the serialiser of Stun.v writes them.  What the
    parser reads from these bytes is in StunParse.v. *)

From stdpp Require Import gmap.
From S2P Require Import Prelude Endian Crc32c Crc32 Stun.

(** ** Bytes and XOR *)

Definition xor_bytes (a b : list Z) : list Z := zip_with Z.lxor a b.

Lemma u8_lxor a b : u8 (Z.lxor a b) = Z.lxor (u8 a) (u8 b).
Proof.
  unfold u8. apply Z.bits_inj'. intros i Hi. rewrite Z.lxor_spec.
  destruct (Z.lt_ge_cases i 8).
  - rewrite !Z.mod_pow2_bits_low by lia. apply Z.lxor_spec.
  - by rewrite !Z.mod_pow2_bits_high by lia.
Qed.

Lemma u8_shift_lxor a b n : u8 (Z.shiftr (Z.lxor a b) n) = Z.lxor (u8 (Z.shiftr a n)) (u8 (Z.shiftr b n)).
Proof. by rewrite Z.shiftr_lxor, u8_lxor. Qed.

Lemma native_bytes16_lxor h a b :
  native_bytes16 h (Z.lxor a b) = xor_bytes (native_bytes16 h a) (native_bytes16 h b).
Proof. unfold native_bytes16. rewrite !u8_shift_lxor, u8_lxor. by destruct h. Qed.

Lemma native_bytes32_lxor h a b :
  native_bytes32 h (Z.lxor a b) = xor_bytes (native_bytes32 h a) (native_bytes32 h b).
Proof. unfold native_bytes32. rewrite !u8_shift_lxor, u8_lxor. by destruct h. Qed.

Lemma be32_lxor a b : be32 (Z.lxor a b) = xor_bytes (be32 a) (be32 b).
Proof. rewrite <- !native_bytes32_be. apply native_bytes32_lxor. Qed.

(** XORing twice with a key that is long enough gives the bytes back. *)
Lemma xor_bytes_twice a k : (length a <= length k)%nat -> xor_bytes (xor_bytes a k) k = a.
Proof.
  revert k. induction a as [|x a IH]; intros [|y k] Hl; try done; [cbn in Hl; lia|].
  cbn [xor_bytes zip_with]. f_equal.
  - by rewrite Z.lxor_assoc, Z.lxor_nilpotent, Z.lxor_0_r.
  - apply IH. cbn in Hl. lia.
Qed.

Lemma xor_bytes_app a b k l :
  length a = length k -> xor_bytes (a ++ b) (k ++ l) = xor_bytes a k ++ xor_bytes b l.
Proof. apply zip_with_app. Qed.

Lemma blen_xor_bytes a k : blen a <= blen k -> blen (xor_bytes a k) = blen a.
Proof. unfold blen, xor_bytes. rewrite length_zip_with. lia. Qed.

Lemma xor_bytes_ok a k : bytes_ok a -> bytes_ok k -> bytes_ok (xor_bytes a k).
Proof. apply diffs_ok. Qed.

(** *** Loads and stores *)

Lemma native_bytes16_ok h v : bytes_ok (native_bytes16 h v).
Proof. destruct h; repeat constructor; apply u8_range. Qed.
Lemma native32_bytes_ok h v : bytes_ok (native_bytes32 h v).
Proof. destruct h; repeat constructor; apply u8_range. Qed.
Lemma native_bytes64_ok h v : bytes_ok (native_bytes64 h v).
Proof. destruct h; apply bytes_ok_app; split; apply native32_bytes_ok. Qed.
#[local] Hint Resolve native_bytes16_ok native32_bytes_ok native_bytes64_ok xor_bytes_ok : width.

Lemma blen_native16 h v : blen (native_bytes16 h v) = 2.
Proof. by destruct h. Qed.
Lemma blen_native32 h v : blen (native_bytes32 h v) = 4.
Proof. by destruct h. Qed.
Lemma blen_native64 h v : blen (native_bytes64 h v) = 8.
Proof. by destruct h. Qed.
Lemma blen_zeros_Z n : 0 <= n -> blen (zeros n) = n.
Proof. intros. unfold blen, zeros. rewrite length_replicate. lia. Qed.
Lemma zeros_ok n : bytes_ok (zeros n).
Proof. apply Forall_replicate. unfold is_u8. lia. Qed.
#[local] Hint Rewrite blen_native16 blen_native32 blen_native64 : blen.
#[local] Hint Resolve zeros_ok : width.

(** A list of two or four bytes is what a native load and store of it gives back. *)
Lemma native16_list h x y c :
  is_u8 x -> is_u8 y -> exists v, native16 h (x :: y :: c) 0 = Ok v /\ native_bytes16 h v = [x; y] /\ is_u16 v.
Proof.
  intros Hx Hy. eexists. split; [reflexivity|]. unfold is_u8, is_u16 in *. split; [|destruct h; lia].
  destruct h; unfold native_bytes16, u8; rewrite Z.shiftr_div_pow2 by lia; cbn [rev app];
    repeat f_equal; pow2_const; Z.div_mod_to_equations; lia.
Qed.

Lemma native32_list h x y z w c :
  is_u8 x -> is_u8 y -> is_u8 z -> is_u8 w ->
  exists v, native32 h (x :: y :: z :: w :: c) 0 = Ok v /\ native_bytes32 h v = [x; y; z; w] /\ is_u32 v.
Proof.
  intros Hx Hy Hz Hw. eexists. split; [reflexivity|]. unfold is_u8, is_u32 in *. split; [|destruct h; lia].
  destruct h; unfold native_bytes32, u8; rewrite !Z.shiftr_div_pow2 by lia; cbn [rev app];
    repeat f_equal; pow2_const; Z.div_mod_to_equations; lia.
Qed.

Lemma native16_off h a b k : 0 <= k -> native16 h (a ++ b) (blen a + k) = native16 h b k.
Proof.
  intros. unfold native16. rewrite <- (Z.add_assoc (blen a)), !ld_app_off by lia. done.
Qed.
Lemma native32_off h a b k : 0 <= k -> native32 h (a ++ b) (blen a + k) = native32 h b k.
Proof.
  intros. unfold native32. rewrite <- !(Z.add_assoc (blen a)), !ld_app_off by lia. done.
Qed.
Lemma native64_off h a b k : 0 <= k -> native64 h (a ++ b) (blen a + k) = native64 h b k.
Proof.
  intros. unfold native64. rewrite <- (Z.add_assoc (blen a)), !native32_off by lia. done.
Qed.

Lemma native32_bytes h v c : native32 h (native_bytes32 h v ++ c) 0 = Ok (u32 v).
Proof.
  rewrite (u32_bytes v). unfold native_bytes32. rewrite <- !Z.shiftr_div_pow2 by lia.
  destruct h; cbn [rev app]; [reflexivity|].
  apply (f_equal Ok). ring.
Qed.

Lemma native64_bytes h v c : native64 h (native_bytes64 h v ++ c) 0 = Ok (u64 v).
Proof.
  assert (E : u64 v = u32 v + 2 ^ 32 * u32 (v / 2 ^ 32)).
  { unfold u64, u32. change (2 ^ 64) with (2 ^ 32 * 2 ^ 32). by rewrite Z.rem_mul_r by lia. }
  rewrite E, <- Z.shiftr_div_pow2 by lia. unfold native64, native_bytes64.
  assert (Hoff : forall x y, native32 h (native_bytes32 h x ++ y) (0 + 4) = native32 h y 0).
  { intros x y. replace (0 + 4) with (blen (native_bytes32 h x) + 0) by (rewrite blen_native32; lia).
    by apply native32_off. }
  destruct h; rewrite <- (assoc_L (++)), native32_bytes, Hoff; cbn [mbind res_bind];
    rewrite native32_bytes; cbn [mbind res_bind]; f_equal; lia.
Qed.

(** A 64-bit value in network order, loaded, swapped and stored, is the value in memory. *)
Lemma native_bytes64_rev v : native_bytes64 LittleEndian v = rev (native_bytes64 BigEndian v).
Proof. reflexivity. Qed.

Lemma native_bytes64_i64 h v : native_bytes64 h (i64 v) = native_bytes64 h v.
Proof.
  unfold native_bytes64. rewrite <- (native_bytes32_u32 h (i64 v)), <- (native_bytes32_u32 h (Z.shiftr (i64 v) 32)).
  replace (u32 (i64 v)) with (u32 v) by width_lia.
  replace (u32 (Z.shiftr (i64 v) 32)) with (u32 (Z.shiftr v 32)) by (rewrite !Z.shiftr_div_pow2 by lia; width_lia).
  by rewrite !native_bytes32_u32.
Qed.

Lemma native_bytes64_u64 h v : native_bytes64 h (u64 v) = native_bytes64 h v.
Proof. rewrite <- (native_bytes64_i64 h v), <- (native_bytes64_i64 h (u64 v)). f_equal. width_lia. Qed.

Lemma be64_native v : be64 v = native_bytes64 BigEndian v.
Proof. apply (putInt64_bytes BigEndian). Qed.

(** Swapping for a load and for a store is the same. *)
Lemma getInt64_put h x : getInt64 (initializeEndianness h) x = putInt64 (initializeEndianness h) x.
Proof.
  unfold initializeEndianness. rewrite isBigEndian_eq. destruct h; cbn [getInt64 putInt64];
    unfold getInt64Swap, putInt64Swap, getInt64NoSwap, putInt64NoSwap; reflexivity.
Qed.

Lemma getInt64_bytes h n v :
  native_bytes64 h n = be64 v ->
  native_bytes64 h (getInt64 (initializeEndianness h) (i64 n)) = native_bytes64 h v.
Proof.
  intros E. rewrite getInt64_put, putInt64_bytes, be64_native, native_bytes64_i64. destruct h.
  - pose proof (native_bytes64_rev n) as Hn. rewrite E, be64_native in Hn.
    apply (f_equal (@rev Z)) in Hn. rewrite rev_involutive in Hn. rewrite <- Hn. symmetry.
    apply native_bytes64_rev.
  - by rewrite E, be64_native.
Qed.

Lemma getInt64_be64 h a v c :
  exists n, native64 h (a ++ be64 v ++ c) (blen a) = Ok n
  /\ native_bytes64 h (getInt64 (initializeEndianness h) (i64 n)) = native_bytes64 h v.
Proof.
  rewrite <- (Z.add_0_r (blen a)), native64_off by lia.
  pose proof (putInt64_bytes h v) as E. revert E. generalize (putInt64 (initializeEndianness h) v). intros m E.
  exists (u64 m). rewrite <- E, native64_bytes. split; [done|].
  apply getInt64_bytes. by rewrite native_bytes64_u64.
Qed.

(** The network-order accessors of the model. *)
Lemma get16_rd16 h b o : bytes_ok b -> get16 h b o = rd16 b o.
Proof. apply getInt16_native. Qed.
Lemma get32_rd32 h b o : bytes_ok b -> get32 h b o = rd32 b o.
Proof. apply getInt32_native. Qed.
Lemma put16_be h b o v : put16 h b o v = put_bytes b o (be16 v).
Proof. unfold put16. by rewrite putInt16_bytes. Qed.
Lemma put32_be h b o v : put32 h b o v = put_bytes b o (be32 v).
Proof. unfold put32. by rewrite putInt32_bytes. Qed.

(** ** The bytes of an attribute *)

Definition cookie_bytes : list Z := [0x21; 0x12; 0xA4; 0x42].

Definition xored (type : Z) : bool :=
  (type =? STUN_ATTRIBUTE_TYPE_XOR_MAPPED_ADDRESS) || (type =? STUN_ATTRIBUTE_TYPE_XOR_PEER_ADDRESS).

(** X-Port and X-Address of RFC 5389, section 15.2. *)
Definition wire_address (h : endian) (type : Z) (tid : list Z) (a : KvsIpAddress) : list Z :=
  let p := native_bytes16 h (port a) in
  let bs := take (Z.to_nat (addressLength a)) (address a) in
  be16 (family a) ++
  (if xored type then xor_bytes p [0x21; 0x12] ++ xor_bytes bs (cookie_bytes ++ tid) else p ++ bs).

Definition wire_value (h : endian) (tid : list Z) (a : StunAttribute) : list Z :=
  match attr_body a with
  | StunAttributeAddress ad => wire_address h (attr_type a) tid ad
  | StunAttributeUsername _ bs | StunAttributeRealm _ bs | StunAttributeNonce _ bs | StunAttributeData _ bs => bs
  | StunAttributeRequestedTransport bs | StunAttributeAllocationAddressFamily bs => bs
  | StunAttributePriority v | StunAttributeLifetime v | StunAttributeChangeRequest v => be32 v
  | StunAttributeChannelNumber n r => be16 n ++ be16 r
  | StunAttributeIceControl mem => match native64 h mem 0 with Ok v => be64 v | _ => [] end
  | _ => []
  end.

Definition wire_attr (h : endian) (tid : list Z) (a : StunAttribute) : list Z :=
  be16 (attr_type a) ++ be16 (attr_length a) ++ wire_value h tid a.

Definition address_ok (a : KvsIpAddress) : Prop :=
  (family a = KVS_IP_FAMILY_TYPE_IPV4 \/ family a = KVS_IP_FAMILY_TYPE_IPV6)
  /\ is_u16 (port a) /\ blen (address a) = 16 /\ bytes_ok (address a).

(** *** Addresses *)

Lemma four_bytes l :
  bytes_ok l -> 4 <= blen l ->
  exists x y z w t, l = x :: y :: z :: w :: t /\ is_u8 x /\ is_u8 y /\ is_u8 z /\ is_u8 w /\ bytes_ok t.
Proof.
  intros Hl Hn. unfold blen in Hn. destruct l as [|x [|y [|z [|w t]]]]; cbn in Hn; try lia.
  do 4 (apply Forall_cons_1 in Hl as [? Hl]). eauto 12.
Qed.

(** XORing the first four bytes with the cookie, the way the serialiser does it. *)
Lemma cookie_xor h l :
  bytes_ok l -> 4 <= blen l ->
  (v ← get32 h l 0; put32 h l 0 (Z.lxor v STUN_HEADER_MAGIC_COOKIE))
  = Ok (xor_bytes (take 4 l) cookie_bytes ++ drop 4 l).
Proof.
  intros Hl Hn. rewrite get32_rd32 by done.
  destruct (four_bytes l Hl Hn) as (x & y & z & w & t & -> & Hx & Hy & Hz & Hw & Ht).
  rewrite rd32_lit. cbn [mbind res_bind]. rewrite put32_be, be32_lxor.
  set (v := 2 ^ 24 * x + 2 ^ 16 * y + 2 ^ 8 * z + w).
  assert (Ev : be32 v = [x; y; z; w]).
  { destruct (native32_list BigEndian x y z w [] Hx Hy Hz Hw) as (u & Hu & Eu & _).
    injection Hu as <-. rewrite <- native_bytes32_be. exact Eu. }
  rewrite Ev. change (be32 STUN_HEADER_MAGIC_COOKIE) with cookie_bytes.
  apply (put_bytes_app [] [x; y; z; w]); reflexivity.
Qed.

(** The same with the cookie in the host's byte order, the way the parser does it. *)
Lemma cookie_xor_native h l :
  bytes_ok l -> 4 <= blen l ->
  (v ← native32 h l 0;
   put_bytes l 0 (native_bytes32 h (Z.lxor v (if isBigEndian h then STUN_HEADER_MAGIC_COOKIE
                                              else STUN_HEADER_MAGIC_COOKIE_LE))))
  = Ok (xor_bytes (take 4 l) cookie_bytes ++ drop 4 l).
Proof.
  intros Hl Hn. destruct (four_bytes l Hl Hn) as (x & y & z & w & t & -> & Hx & Hy & Hz & Hw & Ht).
  destruct (native32_list h x y z w t Hx Hy Hz Hw) as (u & -> & Eu & _). cbn [mbind res_bind].
  rewrite native_bytes32_lxor, Eu, isBigEndian_eq.
  replace (native_bytes32 h _) with cookie_bytes by (destruct h; reflexivity).
  apply (put_bytes_app [] [x; y; z; w]); reflexivity.
Qed.

Lemma tid_xor l tid :
  blen l = 16 -> blen tid = 12 ->
  (tail ← ld_bytes l 4 STUN_TRANSACTION_ID_LEN; put_bytes l 4 (xorTransaction tail tid))
  = Ok (take 4 l ++ xor_bytes (drop 4 l) tid).
Proof.
  intros Hl Ht. assert (H4 : blen (take 4 l) = 4) by (apply (blen_take 4); lia).
  assert (H12 : blen (drop 4 l) = 12) by (rewrite (blen_drop 4); lia).
  assert (Hx : blen (xor_bytes (drop 4 l) tid) = 12) by (rewrite blen_xor_bytes; lia).
  pose proof (ld_bytes_app (take 4 l) (drop 4 l) [] 4 12 (eq_sym H4) (eq_sym H12)) as Eld.
  rewrite app_nil_r, take_drop in Eld.
  pose proof (put_bytes_app (take 4 l) (drop 4 l) [] (xor_bytes (drop 4 l) tid) 4 (eq_sym H4) ltac:(lia)) as Eput.
  rewrite !app_nil_r, take_drop in Eput. unfold STUN_TRANSACTION_ID_LEN. rewrite Eld. exact Eput.
Qed.

Lemma xorIpAddress_wire h a tid :
  address_ok a -> blen tid = 12 -> bytes_ok tid ->
  exists a', xorIpAddress h (Some a) (Some tid) = Ok a'
  /\ family a' = family a /\ blen (address a') = 16
  /\ native_bytes16 h (port a') = xor_bytes (native_bytes16 h (port a)) [0x21; 0x12]
  /\ take (Z.to_nat (addressLength a)) (address a')
     = xor_bytes (take (Z.to_nat (addressLength a)) (address a)) (cookie_bytes ++ tid).
Proof.
  intros (Hf & Hp & Hl & Hb) Ht Htb. unfold xorIpAddress.
  rewrite bool_decide_eq_true_2 by eauto. rewrite orb_true_r.
  pose proof (cookie_xor h (address a) Hb ltac:(lia)) as Ex. apply res_bind_inv in Ex as (v & -> & Ex).
  cbn [mbind res_bind]. rewrite Ex. cbn [mbind res_bind].
  set (ad := xor_bytes (take 4 (address a)) cookie_bytes ++ drop 4 (address a)).
  assert (H4 : blen (xor_bytes (take 4 (address a)) cookie_bytes) = 4)
    by (rewrite blen_xor_bytes; rewrite (blen_take 4) by lia; [done|reflexivity || (change (blen cookie_bytes) with 4; lia)]).
  assert (Hlen4 : length (take 4 (address a)) = length cookie_bytes)
    by (change (length cookie_bytes) with 4%nat; rewrite length_take; unfold blen in Hl; lia).
  assert (Had : blen ad = 16) by (unfold ad; rewrite blen_app, H4, (blen_drop 4); lia).
  assert (Hport : native_bytes16 h (Z.lxor (u16 (getInt16 (initializeEndianness h) (Z.shiftr STUN_HEADER_MAGIC_COOKIE 16))) (port a))
                  = xor_bytes (native_bytes16 h (port a)) [0x21; 0x12]).
  { rewrite Z.lxor_comm, native_bytes16_lxor. f_equal. unfold initializeEndianness. rewrite isBigEndian_eq.
    by destruct h. }
  unfold addressLength, IS_IPV4_ADDR. destruct Hf as [Hf|Hf]; rewrite Hf; cbn [Z.eqb Pos.eqb].
  - eexists. split; [reflexivity|]. cbn [family port address]. split_and!; [done..|].
    change (Z.to_nat _) with 4%nat. unfold ad. rewrite take_app_length' by (unfold blen in H4; lia).
    rewrite <- (app_nil_r (take 4 (address a))) at 2. by rewrite xor_bytes_app, app_nil_r.
  - pose proof (ld_bytes_app [] tid [] 0 STUN_TRANSACTION_ID_LEN eq_refl (eq_sym Ht)) as Etid.
    rewrite app_nil_r in Etid. cbn [app] in Etid. pose proof (tid_xor ad tid Had Ht) as E2.
    apply res_bind_inv in E2 as (tl & Etl & E2). rewrite Etl. cbn [mbind res_bind]. rewrite Etid.
    cbn [mbind res_bind]. rewrite E2. cbn [mbind res_bind]. eexists. split; [reflexivity|].
    cbn [family port address]. unfold ad.
    rewrite take_app_length', drop_app_length' by (unfold blen in H4; lia).
    assert (H12 : blen (drop 4 (address a)) = 12) by (rewrite (blen_drop 4); lia).
    assert (Hx : blen (xor_bytes (drop 4 (address a)) tid) = 12) by (rewrite blen_xor_bytes; lia).
    split_and!; [done|rewrite blen_app; lia|done|].
    change (Z.to_nat _) with 16%nat.
    rewrite (take_ge (_ ++ _) 16) by (rewrite length_app; unfold blen in *; lia).
    rewrite (take_ge (address a) 16) by (unfold blen in *; lia).
    rewrite <- (take_drop 4 (address a)) at 3. by rewrite xor_bytes_app.
Qed.

(** *** Attributes that survive the trip

    Excluded are the types that the code does not carry from the serialiser to the parser:
    ERROR-CODE (written at wrong offsets), XOR-PEER-ADDRESS (XORed on one side only),
    XOR-RELAYED-ADDRESS (not written) and REQUESTED-ADDRESS-FAMILY (unknown to the parser).
    The parser XORs the port of XOR-MAPPED-ADDRESS correctly on little-endian hosts only. *)

Definition string_types : list (Z * Z * (Z -> list Z -> StunAttributeBody)) :=
  [(STUN_ATTRIBUTE_TYPE_USERNAME, STUN_MAX_USERNAME_LEN, StunAttributeUsername);
   (STUN_ATTRIBUTE_TYPE_REALM, STUN_MAX_REALM_LEN, StunAttributeRealm);
   (STUN_ATTRIBUTE_TYPE_NONCE, STUN_MAX_NONCE_LEN, StunAttributeNonce);
   (STUN_ATTRIBUTE_TYPE_DATA, 65000, StunAttributeData)].

Definition word_types : list (Z * (Z -> StunAttributeBody)) :=
  [(STUN_ATTRIBUTE_TYPE_PRIORITY, StunAttributePriority);
   (STUN_ATTRIBUTE_TYPE_LIFETIME, StunAttributeLifetime);
   (STUN_ATTRIBUTE_TYPE_CHANGE_REQUEST, StunAttributeChangeRequest)].

Inductive attribute_ok (h : endian) : StunAttribute -> Prop :=
| ok_address t a :
    isAddressType t = true -> t <> STUN_ATTRIBUTE_TYPE_XOR_PEER_ADDRESS ->
    (t = STUN_ATTRIBUTE_TYPE_XOR_MAPPED_ADDRESS -> h = LittleEndian) -> address_ok a ->
    attribute_ok h {| attr_type := t; attr_length := 4 + addressLength a; attr_body := StunAttributeAddress a |}
| ok_string t max body len bs :
    In (t, max, body) string_types -> 0 <= len <= max -> blen bs = ROUND_UP len 4 -> bytes_ok bs ->
    attribute_ok h {| attr_type := t; attr_length := len; attr_body := body (ROUND_UP len 4) bs |}
| ok_word t body v :
    In (t, body) word_types -> is_u32 v ->
    attribute_ok h {| attr_type := t; attr_length := 4; attr_body := body v |}
| ok_flag t :
    isFlagType t = true -> attribute_ok h {| attr_type := t; attr_length := 0; attr_body := StunAttributeFlag |}
| ok_transport bs :
    blen bs = 4 -> bytes_ok bs ->
    attribute_ok h {| attr_type := STUN_ATTRIBUTE_TYPE_REQUESTED_TRANSPORT; attr_length := 4;
                      attr_body := StunAttributeRequestedTransport bs |}
| ok_channel n :
    is_u16 n ->
    attribute_ok h {| attr_type := STUN_ATTRIBUTE_TYPE_CHANNEL_NUMBER; attr_length := 4;
                      attr_body := StunAttributeChannelNumber n 0 |}
| ok_ice t tie :
    isIceControlType t = true -> is_u64 tie ->
    attribute_ok h {| attr_type := t; attr_length := 8;
                      attr_body := StunAttributeIceControl (native_bytes64 h tie ++ zeros 4) |}.

(** The attribute after parsing: the tie breaker is at the other offset, and of an address
    only the bytes of its family are on the wire. *)
Definition received_address (a : KvsIpAddress) : KvsIpAddress :=
  {| family := family a; port := port a;
     address := take (Z.to_nat (addressLength a)) (address a) ++ zeros (16 - addressLength a);
     isPointToPoint := false |}.

Definition received_attr (h : endian) (a : StunAttribute) : StunAttribute :=
  {| attr_type := attr_type a; attr_length := attr_length a;
     attr_body := match attr_body a with
                  | StunAttributeAddress ad => StunAttributeAddress (received_address ad)
                  | StunAttributeIceControl mem => StunAttributeIceControl (zeros 4 ++ take 8 mem)
                  | b => b
                  end |}.

Lemma ROUND_UP_4 x : 0 <= x -> ROUND_UP x 4 = 4 * ((x + 3) / 4).
Proof.
  intros Hx. unfold ROUND_UP. change (4 - 1) with (Z.ones 2). rewrite <- Z.ldiff_land, Z.ldiff_ones_r by lia.
  rewrite Z.shiftl_mul_pow2, Z.shiftr_div_pow2 by lia. change (2 ^ 2) with 4.
  replace (x + 4 - 1) with (x + 3) by lia. lia.
Qed.

Lemma ROUND_UP_8 x : 0 <= x -> ROUND_UP x 8 = 8 * ((x + 7) / 8).
Proof.
  intros Hx. unfold ROUND_UP. change (8 - 1) with (Z.ones 3). rewrite <- Z.ldiff_land, Z.ldiff_ones_r by lia.
  rewrite Z.shiftl_mul_pow2, Z.shiftr_div_pow2 by lia. change (2 ^ 3) with 8.
  replace (x + 8 - 1) with (x + 7) by lia. lia.
Qed.

Lemma ROUND_UP_le x : 0 <= x -> x <= ROUND_UP x 4 <= x + 3.
Proof. intros Hx. rewrite ROUND_UP_4 by done. Z.div_mod_to_equations. lia. Qed.

(** *** Writing one attribute *)

Lemma attr_header_wire h b o t l :
  PACKAGE_STUN_ATTR_HEADER h b o t l = put_bytes b o (be16 t ++ be16 l).
Proof.
  unfold PACKAGE_STUN_ATTR_HEADER, STUN_ATTRIBUTE_HEADER_TYPE_LEN. rewrite put16_be, be16_u16, <- put_bytes_seq.
  destruct (put_bytes b o (be16 t)); [|done..]. cbn [mbind res_bind]. by rewrite put16_be, be16_u16, blen_be16.
Qed.

Lemma packageAttribute_wire h a n done rest remaining v value :
  (forall b o, 0 <= o <= blen b -> value b o = put_bytes b o v) ->
  n = 4 + blen v -> n <= blen rest -> n <= remaining ->
  packageAttribute h false false a n (Some (done ++ rest, blen done)) remaining value
  = Ok (Some (done ++ (be16 (attr_type a) ++ be16 (attr_length a) ++ v) ++ drop (Z.to_nat n) rest),
        n, false, false).
Proof.
  intros Hv Hn Hrest Hrem. unfold packageAttribute. cbn [andb negb].
  rewrite (proj2 (Z.leb_le n remaining)) by done. rewrite attr_header_wire.
  rewrite (put_then_in _ _ _ (blen done + 4) v _ (fun b => Ok (Some b, n, false, false)));
    [|autorewrite with blen; lia|].
  2:{ intros b _ Hb. unfold STUN_ATTRIBUTE_HEADER_LEN. by rewrite Hv. }
  rewrite put_bytes_at by (autorewrite with blen; lia). cbn [mbind res_bind].
  replace (blen ((be16 _ ++ be16 _) ++ v)) with n by (autorewrite with blen; lia).
  by rewrite <- (assoc_L (++) (be16 _)).
Qed.

Lemma copyBytes_whole bs n b o : n = blen bs -> copyBytes bs n b o = put_bytes b o bs.
Proof.
  intros ->. unfold copyBytes. pose proof (ld_bytes_app [] bs [] 0 (blen bs) eq_refl eq_refl) as E.
  rewrite app_nil_r in E. cbn [app] in E. by rewrite E.
Qed.

Lemma blen_wire_address h t tid a :
  address_ok a -> blen tid = 12 -> blen (wire_address h t tid a) = 4 + addressLength a.
Proof.
  intros (Hf & Hp & Hl & Hb) Ht.
  assert (Hn : blen (take (Z.to_nat (addressLength a)) (address a)) = addressLength a).
  { apply blen_take. rewrite Hl. unfold addressLength. destruct (IS_IPV4_ADDR a); vm_compute; intuition congruence. }
  assert (addressLength a <= 16) by (unfold addressLength; destruct (IS_IPV4_ADDR a); vm_compute; congruence).
  unfold wire_address. destruct (xored t); autorewrite with blen; rewrite ?blen_xor_bytes; autorewrite with blen;
    rewrite ?Hn, ?Ht; try lia; change (blen cookie_bytes) with 4; change (blen [33; 18]) with 2; lia.
Qed.

Lemma stunPackageIpAddr_wire h hd t a done rest remaining :
  address_ok a -> blen (transactionId hd) = 12 -> bytes_ok (transactionId hd) ->
  8 + addressLength a <= blen rest -> 8 + addressLength a <= remaining ->
  stunPackageIpAddr h hd t a (Some (done ++ rest, blen done)) remaining
  = Ok (Some (done ++ (be16 t ++ be16 (4 + addressLength a) ++ wire_address h t (transactionId hd) a)
              ++ drop (Z.to_nat (8 + addressLength a)) rest), 8 + addressLength a).
Proof.
  intros Ha Ht Htb Hrest Hrem. pose proof (blen_wire_address h t _ a Ha Ht) as Hw. unfold stunPackageIpAddr.
  change (STUN_ATTRIBUTE_HEADER_LEN + STUN_ATTRIBUTE_ADDRESS_HEADER_LEN + addressLength a) with (8 + addressLength a).
  rewrite (proj2 (Z.leb_le _ remaining)) by done. set (n := 8 + addressLength a) in *.
  assert (Ex : exists a', (if xored t then xorIpAddress h (Some a) (Some (transactionId hd)) else Ok a) = Ok a'
    /\ family a' = family a /\ blen (address a') = 16
    /\ be16 (family a) ++ native_bytes16 h (port a') ++ take (Z.to_nat (addressLength a)) (address a')
       = wire_address h t (transactionId hd) a).
  { unfold wire_address. destruct (xored t).
    - destruct (xorIpAddress_wire h a _ Ha Ht Htb) as (a' & E & Ef & El & Ep & Ea). exists a'.
      by rewrite Ep, Ea.
    - exists a. destruct Ha as (? & ? & ? & ?). done. }
  destruct Ex as (a' & Ex & Ef & El & Ew). unfold xored in Ex. rewrite Ex. cbn [mbind res_bind].
  assert (Eal : addressLength a' = addressLength a) by (unfold addressLength, IS_IPV4_ADDR; by rewrite Ef).
  rewrite attr_header_wire, Ef, Eal.
  assert (Hld : ld_bytes (address a') 0 (addressLength a) = Ok (take (Z.to_nat (addressLength a)) (address a'))).
  { rewrite ld_bytes_in; [done|lia|..]; unfold addressLength; destruct (IS_IPV4_ADDR a);
      change IPV4_ADDRESS_LENGTH with 4; change IPV6_ADDRESS_LENGTH with 16; lia. }
  etransitivity; [eapply (put_then _ _ _ (blen done + STUN_ATTRIBUTE_HEADER_LEN));
    [by autorewrite with blen|intros b' _; rewrite put16_be; reflexivity]|].
  etransitivity; [eapply (put_then _ _ _ (blen done + STUN_ATTRIBUTE_HEADER_LEN + STUN_ATTRIBUTE_ADDRESS_FAMILY_LEN));
    [unfold STUN_ATTRIBUTE_HEADER_LEN, STUN_ATTRIBUTE_ADDRESS_FAMILY_LEN; autorewrite with blen; lia
    |intros b' _; reflexivity]|].
  etransitivity; [eapply (put_then _ _ _ (blen done + STUN_ATTRIBUTE_HEADER_LEN + STUN_ATTRIBUTE_ADDRESS_FAMILY_LEN + 2));
    [unfold STUN_ATTRIBUTE_HEADER_LEN, STUN_ATTRIBUTE_ADDRESS_FAMILY_LEN; autorewrite with blen; lia
    |intros b' _; rewrite Hld; cbn [mbind res_bind]; reflexivity]|].
  cbv beta. rewrite <- !(assoc_L (++)), Ew. replace (u16 (n - STUN_ATTRIBUTE_HEADER_LEN)) with (4 + addressLength a).
  2:{ unfold n, addressLength, STUN_ATTRIBUTE_HEADER_LEN, IPV4_ADDRESS_LENGTH, IPV6_ADDRESS_LENGTH.
      destruct (IS_IPV4_ADDR a); reflexivity. }
  rewrite put_bytes_at by (try done; autorewrite with blen; lia). cbn [mbind res_bind].
  replace (blen (be16 t ++ _)) with n by (autorewrite with blen; lia). by rewrite <- !(assoc_L (++)).
Qed.

Lemma isFlagType_inv t :
  isFlagType t = true -> t = STUN_ATTRIBUTE_TYPE_USE_CANDIDATE \/ t = STUN_ATTRIBUTE_TYPE_DONT_FRAGMENT.
Proof. unfold isFlagType. rewrite orb_true_iff, !Z.eqb_eq. done. Qed.
Lemma isIceControlType_inv t :
  isIceControlType t = true -> t = STUN_ATTRIBUTE_TYPE_ICE_CONTROLLED \/ t = STUN_ATTRIBUTE_TYPE_ICE_CONTROLLING.
Proof. unfold isIceControlType. rewrite orb_true_iff, !Z.eqb_eq. done. Qed.

(** Evaluate the tests on a concrete attribute type, and split an [attribute_ok] into its
    concrete types. *)
Ltac pick_case :=
  repeat match goal with
  | |- context [if ?c then _ else _] =>
      let v := eval vm_compute in c in
      match v with true => idtac | false => idtac end; change c with v; cbv iota
  end.

Ltac attribute_cases H :=
  destruct H as [t a Ht Hpeer Hle Ha|t mx body len bs Ht Hlen Hbs Hb|t body v Ht Hv|t Ht|bs Hbs Hb|n Hn|t tie Ht Htie];
  [|cbn in Ht; destruct Ht as [[= <- <- <-]|[[= <- <- <-]|[[= <- <- <-]|[[= <- <- <-]|[]]]]]
   |cbn in Ht; destruct Ht as [[= <- <-]|[[= <- <-]|[[= <- <-]|[]]]]
   |apply isFlagType_inv in Ht as [->| ->]| | |apply isIceControlType_inv in Ht as [->| ->]].

Lemma ice_value h tie c : is_u64 tie -> native64 h (native_bytes64 h tie ++ c) 0 = Ok tie.
Proof. intros. by rewrite native64_bytes, u64_id. Qed.

Lemma blen_wire_value h tid a :
  attribute_ok h a -> blen tid = 12 -> blen (wire_value h tid a) = ROUND_UP (attr_length a) 4.
Proof.
  intros H Htid. attribute_cases H; cbn [attr_length]; unfold wire_value; cbn [attr_body attr_type]; try done.
  - rewrite blen_wire_address by done. unfold addressLength. by destruct (IS_IPV4_ADDR a).
  - by rewrite ice_value.
  - by rewrite ice_value.
Qed.

Lemma blen_wire_attr h tid a :
  attribute_ok h a -> blen tid = 12 -> blen (wire_attr h tid a) = 4 + ROUND_UP (attr_length a) 4.
Proof. intros. unfold wire_attr. autorewrite with blen. rewrite blen_wire_value by done. lia. Qed.

Lemma wire_value_ok h tid a : attribute_ok h a -> bytes_ok tid -> bytes_ok (wire_value h tid a).
Proof.
  intros H Htid. attribute_cases H; unfold wire_value; cbn [attr_body attr_type]; auto with width.
  - destruct Ha as (_ & _ & _ & Hab). unfold wire_address.
    assert (bytes_ok cookie_bytes) by by apply bytes_ok_check.
    assert (bytes_ok [33; 18]) by by apply bytes_ok_check.
    destruct (xored t); rewrite !bytes_ok_app; split_and!; auto with width.
    apply xor_bytes_ok; [auto with width|]. by apply bytes_ok_app.
  - constructor.
  - constructor.
  - apply bytes_ok_app. auto with width.
  - rewrite ice_value by done. auto with width.
  - rewrite ice_value by done. auto with width.
Qed.

Lemma wire_attr_ok h tid a : attribute_ok h a -> bytes_ok tid -> bytes_ok (wire_attr h tid a).
Proof.
  intros. unfold wire_attr. rewrite !bytes_ok_app. split_and!; auto with width. by apply wire_value_ok.
Qed.

(** One iteration of the serialiser writes the bytes of the attribute. *)
Lemma serializeAttribute_wire h hd count i a done rest remaining :
  attribute_ok h a -> blen (transactionId hd) = 12 -> bytes_ok (transactionId hd) ->
  let n := blen (wire_attr h (transactionId hd) a) in
  n <= blen rest -> n <= remaining ->
  serializeAttribute h hd count i false false a (Some (done ++ rest, blen done)) remaining
  = Ok (Some (done ++ wire_attr h (transactionId hd) a ++ drop (Z.to_nat n) rest), n, false, false).
Proof.
  intros H Htid Htb n Hrest Hrem. subst n. rewrite blen_wire_attr in * by done.
  pose proof (blen_wire_value h _ a H Htid) as Hw.
  attribute_cases H; unfold serializeAttribute, wire_attr in *; cbn [attr_type attr_length attr_body] in *;
    unfold wire_value in *; cbn [attr_type attr_length attr_body] in *.
  1:{ rewrite Ht. cbn [andb negb].
      assert (Er : ROUND_UP (4 + addressLength a) 4 = 4 + addressLength a)
        by (unfold addressLength; by destruct (IS_IPV4_ADDR a)).
      rewrite Er in *. rewrite stunPackageIpAddr_wire by (done || lia). cbn [mbind res_bind].
      by replace (4 + (4 + addressLength a)) with (8 + addressLength a) by lia. }
  all: pick_case;
    erewrite packageAttribute_wire;
    [reflexivity
    |intros b o Hbo;
     first [rewrite put32_be; reflexivity
           |rewrite put16_be, <- put_bytes_seq, blen_be16; destruct (put_bytes b o _); [|done..];
            cbn [mbind res_bind]; by rewrite put16_be
           |by rewrite copyBytes_whole
           |rewrite ice_value by done; cbn [mbind res_bind];
            rewrite putInt64_bytes, be64_native, native_bytes64_i64, <- be64_native; reflexivity
           |by rewrite put_bytes_nil]
    |rewrite ?ice_value by done; autorewrite with blen; rewrite ?Hbs; try done; unfold STUN_ATTRIBUTE_HEADER_LEN; lia
    |done|done].
Qed.

Lemma serializeAttribute_size h hd count i a remaining :
  attribute_ok h a -> blen (transactionId hd) = 12 ->
  serializeAttribute h hd count i false false a None remaining
  = Ok (None, blen (wire_attr h (transactionId hd) a), false, false).
Proof.
  intros H Htid. rewrite blen_wire_attr by done.
  attribute_cases H; unfold serializeAttribute; cbn [attr_type attr_length attr_body].
  1:{ rewrite Ht. cbn [andb negb]. unfold stunPackageIpAddr. cbn [mbind res_bind].
      unfold addressLength. by destruct (IS_IPV4_ADDR a). }
  all: pick_case; reflexivity.
Qed.

(** ** The bytes of a packet *)

Definition wires (h : endian) (tid : list Z) (l : list StunAttribute) : list Z := concat (map (wire_attr h tid) l).

(** The attributes that the entries [offs] of the pointer array point to. *)
Definition entries (p : StunPacket) (offs : list Z) (l : list StunAttribute) : Prop :=
  Forall2 (fun o a => attrs p !! o = Some a) offs l.

Lemma wires_ok h tid l : Forall (attribute_ok h) l -> bytes_ok tid -> bytes_ok (wires h tid l).
Proof.
  intros Hl Ht. induction Hl as [|a l Ha _ IH]; [constructor|]. apply bytes_ok_app. split; [|exact IH].
  by apply wire_attr_ok.
Qed.

Lemma serializeLoop_size h p offs l i s :
  entries p offs l -> Forall (attribute_ok h) l -> blen (transactionId (header p)) = 12 ->
  0 <= s -> s + blen (wires h (transactionId (header p)) l) < 2 ^ 32 ->
  serializeLoop h p offs i false false {| w_buffer := None; w_pos := 0; w_remaining := 0; w_size := s |}
  = Ok {| w_buffer := None; w_pos := 0; w_remaining := 0;
          w_size := s + blen (wires h (transactionId (header p)) l) |}.
Proof.
  intros He Hl Ht. revert i s. induction He as [|o a offs l Ho He IH]; intros i s Hs Hlt.
  - cbn [serializeLoop]. change (blen (wires h ?t [])) with 0. by rewrite Z.add_0_r.
  - pose proof (Forall_inv Hl) as Ha. apply Forall_inv_tail in Hl.
    cbn [serializeLoop]. unfold attributeAt. rewrite Ho. cbn [mbind res_bind w_remaining].
    change (cursor _) with (@None (list Z * Z)). rewrite serializeAttribute_size by done. cbn [mbind res_bind].
    change (wires h ?t (a :: l)) with (wire_attr h t a ++ wires h t l) in *. rewrite blen_app in *.
    unfold advance. cbn [w_buffer w_pos w_remaining w_size]. blen_facts.
    rewrite (u32_id (s + _)) by (unfold is_u32; lia). rewrite IH by (done || lia). do 2 f_equal. lia.
Qed.

Lemma serializeLoop_wire h p offs l i done rest s :
  entries p offs l -> Forall (attribute_ok h) l ->
  blen (transactionId (header p)) = 12 -> bytes_ok (transactionId (header p)) ->
  let bs := wires h (transactionId (header p)) l in
  blen bs <= blen rest -> blen rest < 2 ^ 32 ->
  serializeLoop h p offs i false false
    {| w_buffer := Some (done ++ rest); w_pos := blen done; w_remaining := blen rest; w_size := s |}
  = Ok {| w_buffer := Some (done ++ bs ++ drop (Z.to_nat (blen bs)) rest); w_pos := blen done + blen bs;
          w_remaining := blen rest - blen bs; w_size := s |}.
Proof.
  intros He Hl Ht Htb. revert i done rest. induction He as [|o a offs l Ho He IH]; intros i done rest bs Hle Hlt.
  - subst bs. cbn [serializeLoop]. change (blen (wires h ?t [])) with 0. change (wires h ?t []) with (@nil Z).
    by rewrite Z.add_0_r, Z.sub_0_r.
  - pose proof (Forall_inv Hl) as Ha. apply Forall_inv_tail in Hl. subst bs.
    cbn [serializeLoop]. unfold attributeAt. rewrite Ho. cbn [mbind res_bind w_remaining].
    change (wires h ?t (a :: l)) with (wire_attr h t a ++ wires h t l) in *. rewrite blen_app in *.
    set (wa := wire_attr h _ a) in *. set (ws := wires h _ l) in *. blen_facts.
    unfold cursor. cbn [w_buffer w_pos fmap option_fmap option_map].
    rewrite serializeAttribute_wire by (done || (fold wa; lia)). fold wa. cbn [mbind res_bind].
    unfold advance. cbn [w_buffer w_pos w_remaining w_size].
    assert (Hd : blen (drop (Z.to_nat (blen wa)) rest) = blen rest - blen wa) by (apply blen_drop; lia).
    rewrite (u32_id (blen rest - _)) by (unfold is_u32; lia). rewrite <- blen_app, <- Hd, (assoc_L (++)).
    rewrite IH by (fold ws; lia || done). fold ws. rewrite Hd, blen_app, drop_drop, <- !(assoc_L (++)).
    do 2 f_equal; [|lia|lia]. do 4 f_equal. f_equal. lia.
Qed.

(** HMAC-SHA1 of the TLS library: it returns the twenty bytes of a digest. *)
Class HmacSha1 (hmac : list Z -> list Z -> option (list Z)) : Prop :=
  hmac_digest : forall key m, exists d, hmac key m = Some d /\ blen d = STUN_HMAC_VALUE_LEN /\ bytes_ok d.

(** The header with message length [n], and what is behind it. *)
Definition head (mt n : Z) (tid body : list Z) : list Z :=
  be16 mt ++ be16 n ++ be32 STUN_HEADER_MAGIC_COOKIE ++ tid ++ body.

Section Packet.
Context (h : endian) (hmac : list Z -> list Z -> option (list Z)) `{!HmacSha1 hmac}.

(** RFC 5389, section 15.4: the digest covers the message up to the attribute, with the
    length that includes the attribute. *)
Definition with_integrity (key : option (list Z)) (mt : Z) (tid body : list Z) : list Z :=
  match key with
  | Some k => body ++ be16 STUN_ATTRIBUTE_TYPE_MESSAGE_INTEGRITY ++ be16 STUN_HMAC_VALUE_LEN
              ++ default [] (hmac k (head mt (blen body + 24) tid body))
  | None => body
  end.

(** Section 15.5: the fingerprint is the CRC-32 of the message up to the attribute, XORed. *)
Definition with_fingerprint (fp : bool) (mt : Z) (tid body : list Z) : list Z :=
  if fp then
    body ++ be16 STUN_ATTRIBUTE_TYPE_FINGERPRINT ++ be16 STUN_ATTRIBUTE_FINGERPRINT_LEN
    ++ be32 (Z.lxor (crc32 (head mt (blen body + 8) tid body)) STUN_FINGERPRINT_ATTRIBUTE_XOR_VALUE)
  else body.

Definition stun_body (mt : Z) (tid : list Z) (l : list StunAttribute) (key : option (list Z)) (fp : bool) : list Z :=
  with_fingerprint fp mt tid (with_integrity key mt tid (wires h tid l)).

Definition stun_bytes (mt : Z) (tid : list Z) (l : list StunAttribute) (key : option (list Z)) (fp : bool) : list Z :=
  let b := stun_body mt tid l key fp in head mt (blen b) tid b.

(** The key that a password of [n] bytes stands for when integrity is asked for. *)
Definition credentials (mi : bool) (password : option (list Z)) (n : Z) (key : option (list Z)) : Prop :=
  match password with
  | None => mi = false /\ key = None
  | Some pw => 0 < n <= blen pw /\ bytes_ok pw /\ key = if mi then Some (take (Z.to_nat n) pw) else None
  end.

Lemma blen_head mt n tid body : blen tid = 12 -> blen (head mt n tid body) = 20 + blen body.
Proof using. intros. unfold head. autorewrite with blen. lia. Qed.

Lemma head_ok mt n tid body : bytes_ok tid -> bytes_ok body -> bytes_ok (head mt n tid body).
Proof using. intros. unfold head. rewrite !bytes_ok_app. split_and!; auto with width. Qed.

Lemma blen_digest k m : blen (default [] (hmac k m)) = 20 /\ bytes_ok (default [] (hmac k m)).
Proof. destruct (hmac_digest k m) as (d & -> & Hd & Hb). done. Qed.

Lemma blen_with_integrity key mt tid body :
  blen (with_integrity key mt tid body) = blen body + match key with Some _ => 24 | None => 0 end.
Proof.
  destruct key; cbn; [|lia]. autorewrite with blen. rewrite (proj1 (blen_digest _ _)). lia.
Qed.

Lemma blen_with_fingerprint fp mt tid body :
  blen (with_fingerprint fp mt tid body) = blen body + (if fp then 8 else 0).
Proof using. destruct fp; cbn; [|lia]. autorewrite with blen. lia. Qed.

Lemma with_integrity_ok key mt tid body : bytes_ok body -> bytes_ok (with_integrity key mt tid body).
Proof.
  intros. destruct key; cbn; [|done]. rewrite !bytes_ok_app. split_and!; auto with width. apply blen_digest.
Qed.

Lemma with_fingerprint_ok fp mt tid body : bytes_ok body -> bytes_ok (with_fingerprint fp mt tid body).
Proof using. intros. destruct fp; cbn; [|done]. rewrite !bytes_ok_app. split_and!; auto with width. Qed.

(** *** The generated attributes *)

(** A writer behind [body], whose length field holds the bytes [x]. *)
Definition writing (mt : Z) (x tid body rest : list Z) (s : Z) : Writer :=
  {| w_buffer := Some (be16 mt ++ x ++ (be32 STUN_HEADER_MAGIC_COOKIE ++ tid ++ body) ++ rest);
     w_pos := 20 + blen body; w_remaining := blen rest; w_size := s |}.

Lemma generate_wire mt x tid body rest s t n value v :
  blen x = 2 -> blen tid = 12 -> 0 <= n -> 4 + n <= blen rest -> blen rest < 2 ^ 32 ->
  20 + blen body + 4 + n < 2 ^ 16 ->
  (forall c, value (head mt (blen body + (4 + n)) tid body ++ c) (20 + blen body) = Ok v) -> blen v = n ->
  generate h (writing mt x tid body rest s) t n value
  = Ok (writing mt (be16 (blen body + (4 + n))) tid (body ++ be16 t ++ be16 n ++ v) (drop (Z.to_nat (4 + n)) rest) s).
Proof using.
  intros Hx Ht Hn0 Hn Hr Hb Hv Hvn. blen_facts. set (tail := be32 STUN_HEADER_MAGIC_COOKIE ++ tid ++ body).
  assert (Htl : blen tail = 16 + blen body) by (unfold tail; autorewrite with blen; lia).
  unfold generate, writing. cbn [w_buffer w_pos w_remaining w_size]. fold tail.
  change (STUN_ATTRIBUTE_HEADER_LEN + n) with (4 + n).
  rewrite (proj2 (Z.leb_le (4 + n) (blen rest))) by done. rewrite attr_header_wire.
  rewrite 2!(assoc_L (++)), put_bytes_at by (autorewrite with blen; lia). cbn [mbind res_bind].
  rewrite <- !(assoc_L (++)), put16_be, (put_bytes_app (be16 mt) x) by (rewrite ?blen_be16; done). cbn [mbind res_bind].
  rewrite be16_u16. replace (20 + blen body + (4 + n) - STUN_HEADER_LEN) with (blen body + (4 + n))
    by (unfold STUN_HEADER_LEN; lia).
  rewrite (u16_id (20 + blen body)) by (unfold is_u16; lia).
  pose proof (Hv ((be16 t ++ be16 n) ++ drop (Z.to_nat (blen (be16 t ++ be16 n))) rest)) as Hv'.
  unfold head in Hv'. rewrite <- !(assoc_L (++)) in Hv'. unfold tail. rewrite <- !(assoc_L (++)).
  rewrite Hv'. cbn [mbind res_bind]. autorewrite with blen. change (Z.to_nat (2 + 2)) with (Z.to_nat 4).
  set (pre := be16 mt ++ be16 (blen body + (4 + n)) ++ be32 STUN_HEADER_MAGIC_COOKIE ++ tid ++ body ++ be16 t ++ be16 n).
  assert (Epre : forall c, be16 mt ++ be16 (blen body + (4 + n)) ++ be32 STUN_HEADER_MAGIC_COOKIE ++ tid ++ body
                          ++ be16 t ++ be16 n ++ c = pre ++ c) by (intros c; unfold pre; by rewrite <- !(assoc_L (++))).
  rewrite (Epre (drop (Z.to_nat 4) rest)).
  rewrite put_bytes_at by (unfold pre, STUN_ATTRIBUTE_HEADER_LEN; autorewrite with blen; rewrite ?blen_drop; lia).
  cbn [mbind res_bind]. unfold advance. cbn [w_buffer w_pos w_remaining w_size].
  rewrite (u32_id (blen rest - _)) by (unfold is_u32; lia). rewrite drop_drop.
  replace (Z.to_nat 4 + Z.to_nat (blen v))%nat with (Z.to_nat (4 + n)) by lia.
  unfold pre. rewrite <- !(assoc_L (++)). do 2 f_equal.
  - autorewrite with blen. lia.
  - rewrite blen_drop by lia. lia.
Qed.

Lemma integrity_value pw n mt ml tid body c :
  0 < n <= blen pw -> blen tid = 12 ->
  KVS_SHA1_HMAC hmac pw n (head mt ml tid body ++ c) (20 + blen body)
  = Ok (default [] (hmac (take (Z.to_nat n) pw) (head mt ml tid body))).
Proof.
  intros Hn Ht. unfold KVS_SHA1_HMAC. rewrite (ld_bytes_in pw) by lia. cbn [mbind res_bind]. rewrite drop_0.
  pose proof (ld_bytes_app [] (head mt ml tid body) c 0 (20 + blen body) eq_refl) as E. cbn [app] in E.
  rewrite E by (by rewrite blen_head). cbn [mbind res_bind].
  destruct (hmac_digest (take (Z.to_nat n) pw) (head mt ml tid body)) as (d & -> & _). done.
Qed.

Lemma fingerprint_value mt ml tid body c :
  bytes_ok tid -> bytes_ok body -> blen tid = 12 ->
  fingerprint h (head mt ml tid body ++ c) (20 + blen body)
  = Ok (be32 (Z.lxor (crc32 (head mt ml tid body)) STUN_FINGERPRINT_ATTRIBUTE_XOR_VALUE)).
Proof using.
  intros Ht Hb Hl. unfold fingerprint. rewrite <- (blen_head mt ml tid body) by done.
  rewrite COMPUTE_CRC32_ref by (by apply head_ok). cbn [mbind res_bind]. by rewrite putInt32_bytes.
Qed.

Lemma integrity_wire mi password n key mt x tid body rest s :
  credentials mi password n key -> blen x = 2 -> blen tid = 12 -> bytes_ok tid -> bytes_ok body ->
  let body' := with_integrity key mt tid body in
  blen body' - blen body <= blen rest -> blen rest < 2 ^ 32 -> 20 + blen body' < 2 ^ 16 ->
  exists x', blen x' = 2 /\
  match mi, password with
  | true, Some pw =>
      generate h (writing mt x tid body rest s) STUN_ATTRIBUTE_TYPE_MESSAGE_INTEGRITY STUN_HMAC_VALUE_LEN
        (fun b size => KVS_SHA1_HMAC hmac pw n b size)
  | _, _ => Ok (writing mt x tid body rest s)
  end = Ok (writing mt x' tid body' (drop (Z.to_nat (blen body' - blen body)) rest) s).
Proof.
  intros Hc Hx Ht Htb Hb body' Hr Hlt H16. subst body'. rewrite blen_with_integrity in *.
  destruct password as [pw|]; cbn in Hc.
  - destruct Hc as (Hn & _ & ->). destruct mi.
    + replace (blen body + 24 - blen body) with (4 + STUN_HMAC_VALUE_LEN) in * by (unfold STUN_HMAC_VALUE_LEN; lia).
      unfold STUN_HMAC_VALUE_LEN in *. eexists. split; [|apply (generate_wire _ _ _ _ _ _ _ 20); try done; try lia].
      * apply blen_be16.
      * intros c. apply integrity_value; [lia|done].
      * apply blen_digest.
    + exists x. split; [done|]. cbn. by replace (blen body + 0 - blen body) with 0 by lia.
  - destruct Hc as [-> ->]. exists x. split; [done|]. cbn. by replace (blen body + 0 - blen body) with 0 by lia.
Qed.

Lemma fingerprint_wire fp mt x tid body rest s :
  blen x = 2 -> blen tid = 12 -> bytes_ok tid -> bytes_ok body ->
  let body' := with_fingerprint fp mt tid body in
  blen body' - blen body <= blen rest -> blen rest < 2 ^ 32 -> 20 + blen body' < 2 ^ 16 ->
  exists x', blen x' = 2 /\
  (if fp then generate h (writing mt x tid body rest s) STUN_ATTRIBUTE_TYPE_FINGERPRINT
                STUN_ATTRIBUTE_FINGERPRINT_LEN (fingerprint h)
   else Ok (writing mt x tid body rest s))
  = Ok (writing mt x' tid body' (drop (Z.to_nat (blen body' - blen body)) rest) s).
Proof using.
  intros Hx Ht Htb Hb body' Hr Hlt H16. subst body'. rewrite blen_with_fingerprint in *. destruct fp.
  - replace (blen body + 8 - blen body) with (4 + STUN_ATTRIBUTE_FINGERPRINT_LEN) in *
      by (unfold STUN_ATTRIBUTE_FINGERPRINT_LEN; lia).
    unfold STUN_ATTRIBUTE_FINGERPRINT_LEN in *. eexists. split; [|apply (generate_wire _ _ _ _ _ _ _ 4); try done; try lia].
    + apply blen_be16.
    + intros c. by apply fingerprint_value.
  - exists x. split; [done|]. cbn. by replace (blen body + 0 - blen body) with 0 by lia.
Qed.

Lemma serializeHeader_wire hd buf :
  blen (transactionId hd) = 12 -> 20 <= blen buf ->
  exists x rest, blen x = 2 /\ blen rest = blen buf - 20
  /\ serializeHeader h hd buf
     = Ok (be16 (stunMessageType hd) ++ x ++ (be32 STUN_HEADER_MAGIC_COOKIE ++ transactionId hd) ++ rest).
Proof using.
  intros Ht Hb. unfold serializeHeader. rewrite put16_be, (put_bytes_at [] buf) by (autorewrite with blen; lia).
  cbn [mbind res_bind app]. rewrite blen_be16. set (r := drop (Z.to_nat 2) buf).
  assert (Hr : blen r = blen buf - 2) by (apply blen_drop; lia).
  exists (take (Z.to_nat 2) r), (drop (Z.to_nat 16) (drop (Z.to_nat 2) r)).
  split_and!; [apply blen_take; lia|rewrite blen_drop by (rewrite blen_drop; lia); rewrite blen_drop; lia|].
  rewrite put32_be. rewrite <- (take_drop (Z.to_nat 2) r) at 1. rewrite (assoc_L (++)).
  rewrite put_bytes_at.
  2:{ rewrite blen_app, blen_be16, blen_take by lia. done. }
  2:{ rewrite blen_be32, blen_drop; lia. }
  cbn [mbind res_bind].
  pose proof (ld_bytes_app [] (transactionId hd) [] 0 STUN_TRANSACTION_ID_LEN eq_refl (eq_sym Ht)) as E.
  rewrite app_nil_r in E. cbn [app] in E. rewrite E. cbn [mbind res_bind].
  rewrite (assoc_L (++)), put_bytes_at.
  2:{ rewrite !blen_app, blen_be16, blen_take, blen_be32 by lia. done. }
  2:{ rewrite Ht, blen_be32, blen_drop by (rewrite blen_drop; lia). rewrite blen_drop; lia. }
  rewrite drop_drop, blen_be32, Ht. change (Z.to_nat 4 + Z.to_nat 12)%nat with (Z.to_nat 16).
  by rewrite <- !(assoc_L (++)).
Qed.

(** *** Serialisation of a packet *)

(** A packet that holds the attributes [l]. *)
Definition packet_holds (p : StunPacket) (l : list StunAttribute) : Prop :=
  entries p (attributeList p) l /\ Forall (attribute_ok h) l
  /\ magicCookie (header p) = STUN_HEADER_MAGIC_COOKIE
  /\ blen (transactionId (header p)) = 12 /\ bytes_ok (transactionId (header p)).

Definition packet_bytes (p : StunPacket) (l : list StunAttribute) (key : option (list Z)) (fp : bool) : list Z :=
  stun_bytes (stunMessageType (header p)) (transactionId (header p)) l key fp.

Lemma credentials_checks mi password n key {A} (k : res A) :
  credentials mi password n key ->
  (CHK negb mi || bool_decide (is_Some password) else STATUS_NULL_ARG ;;
   CHK bool_decide (password = None) || negb (n =? 0) else STATUS_INVALID_ARG ;; k) = k.
Proof using.
  destruct password as [pw|]; cbn; intros Hc.
  - destruct Hc as (Hn & _). rewrite orb_true_r. rewrite (proj2 (Z.eqb_neq n 0)) by lia. cbn [negb]. by rewrite ?orb_true_r.
  - destruct Hc as [-> ->]. done.
Qed.

Lemma packet_sizes p l key fp :
  packet_holds p l ->
  let tid := transactionId (header p) in let mt := stunMessageType (header p) in
  blen (packet_bytes p l key fp)
  = 20 + blen (wires h tid l) + match key with Some _ => 24 | None => 0 end + (if fp then 8 else 0).
Proof.
  intros (_ & _ & _ & Ht & _). unfold packet_bytes, stun_bytes, stun_body.
  rewrite blen_head, blen_with_fingerprint, blen_with_integrity by done. lia.
Qed.

(** Asking for the size gives the number of bytes of the packet. *)
Lemma finish_size mi password n key fp s :
  credentials mi password n key -> 0 <= s -> s + 32 < 2 ^ 32 ->
  finishPacket h hmac password n mi fp {| w_buffer := None; w_pos := 0; w_remaining := 0; w_size := s |}
  = Ok (None, s + match key with Some _ => 24 | None => 0 end + if fp then 8 else 0).
Proof using.
  intros Hc Hs Hlt. unfold finishPacket, generate, advance. cbn [w_buffer w_pos w_remaining w_size].
  unfold STUN_ATTRIBUTE_HEADER_LEN, STUN_HMAC_VALUE_LEN, STUN_ATTRIBUTE_FINGERPRINT_LEN.
  destruct password as [pw|]; cbn in Hc; [destruct Hc as (_ & _ & ->); destruct mi|destruct Hc as [-> ->]];
    destruct fp; cbn [mbind res_bind w_buffer w_pos w_remaining w_size];
    rewrite ?u32_id by (unfold is_u32; rewrite ?u32_id by (unfold is_u32; lia); lia); do 2 f_equal; lia.
Qed.

Lemma serialize_size p l mi password n key fp s :
  packet_holds p l -> credentials mi password n key -> blen (packet_bytes p l key fp) < 2 ^ 16 ->
  serializeStunPacket h hmac (Some p) password n mi fp None (Some s)
  = Ok (None, blen (packet_bytes p l key fp)).
Proof.
  intros Hp Hc Hlt. pose proof (packet_sizes p l key fp Hp) as Hs. cbv zeta in Hs.
  destruct Hp as (He & Hl & Hm & Ht & Htb). unfold serializeStunPacket. rewrite (credentials_checks _ _ _ key) by done.
  rewrite Hm, Z.eqb_refl. cbn [mbind res_bind]. blen_facts.
  rewrite (serializeLoop_size h p _ l) by (done || (unfold STUN_HEADER_LEN; destruct key, fp; lia)).
  cbn [mbind res_bind]. rewrite Hs.
  by rewrite (finish_size _ _ _ key) by (done || (unfold STUN_HEADER_LEN; destruct key, fp; lia)).
Qed.

(** With a buffer of that size the serialiser fills it with the bytes of the packet. *)
Lemma finish_wire mi password n key fp mt x tid ws rest s :
  credentials mi password n key -> blen x = 2 -> blen tid = 12 -> bytes_ok tid -> bytes_ok ws ->
  let b := with_fingerprint fp mt tid (with_integrity key mt tid ws) in
  blen rest = blen b - blen ws -> s = 20 + blen b -> s < 2 ^ 16 ->
  finishPacket h hmac password n mi fp (writing mt x tid ws rest s) = Ok (Some (head mt (blen b) tid b), s).
Proof.
  intros Hc Hx Ht Htb Hw b Hr -> Hlt. set (b1 := with_integrity key mt tid ws) in *.
  assert (Hb1 : blen ws <= blen b1) by (unfold b1; rewrite blen_with_integrity; destruct key; lia).
  assert (Hb2 : blen b1 <= blen b) by (unfold b; rewrite blen_with_fingerprint; destruct fp; lia).
  assert (Hb1ok : bytes_ok b1) by by apply with_integrity_ok.
  unfold finishPacket. blen_facts.
  destruct (integrity_wire mi password n key mt x tid ws rest (20 + blen b)) as (x1 & Hx1 & ->); try (done || (fold b1; lia)).
  cbn [mbind res_bind]. fold b1.
  assert (Hr2 : blen (drop (Z.to_nat (blen b1 - blen ws)) rest) = blen b - blen b1) by (rewrite blen_drop; lia).
  destruct (fingerprint_wire fp mt x1 tid b1 (drop (Z.to_nat (blen b1 - blen ws)) rest) (20 + blen b))
    as (x2 & Hx2 & ->); try (done || (fold b; lia)).
  cbn [mbind res_bind]. fold b. set (rest3 := drop _ (drop _ rest)).
  assert (Hr3 : blen rest3 = 0) by (unfold rest3; rewrite blen_drop; lia).
  unfold writing. cbn [w_buffer w_pos w_size]. rewrite put16_be, be16_u16, (put_bytes_app (be16 mt) x2) by done.
  cbn [mbind res_bind]. rewrite u32_id by (unfold is_u32; lia). rewrite Z.eqb_refl.
  replace (20 + blen b - STUN_HEADER_LEN) with (blen b) by (unfold STUN_HEADER_LEN; lia).
  unfold blen in Hr3. destruct rest3; [|cbn in Hr3; lia]. unfold head. by rewrite app_nil_r.
Qed.

Lemma serialize_bytes p l mi password n key fp buf :
  packet_holds p l -> credentials mi password n key -> blen buf = blen (packet_bytes p l key fp) ->
  blen buf < 2 ^ 16 ->
  serializeStunPacket h hmac (Some p) password n mi fp (Some buf) (Some (blen buf))
  = Ok (Some (packet_bytes p l key fp), blen buf).
Proof.
  intros Hp Hc Hbuf Hlt. pose proof (packet_sizes p l key fp Hp) as Hs. cbv zeta in Hs. rewrite <- Hbuf in Hs.
  destruct Hp as (He & Hl & Hm & Ht & Htb). set (tid := transactionId (header p)) in *.
  set (mt := stunMessageType (header p)) in *. set (ws := wires h tid l) in *. blen_facts.
  unfold serializeStunPacket. rewrite (credentials_checks _ _ _ key) by done. rewrite Hm, Z.eqb_refl.
  rewrite (proj2 (Z.leb_le STUN_HEADER_LEN (blen buf))) by (unfold STUN_HEADER_LEN; destruct key, fp; lia).
  destruct (serializeHeader_wire (header p) buf) as (x & rest & Hx & Hrest & ->); [done|destruct key, fp; lia|].
  fold tid mt. cbn [mbind res_bind]. set (pre := be16 mt ++ x ++ be32 STUN_HEADER_MAGIC_COOKIE ++ tid).
  assert (Hpre : blen pre = 20) by (unfold pre; autorewrite with blen; rewrite Hx, Ht; done).
  replace (be16 mt ++ x ++ _) with (pre ++ rest) by (unfold pre; by rewrite <- !(assoc_L (++))).
  unfold STUN_HEADER_LEN. rewrite <- Hpre, <- Hrest at 1.
  rewrite (serializeLoop_wire h p _ l) by (done || (fold tid; fold ws; destruct key, fp; lia)).
  fold tid. fold ws. cbn [mbind res_bind].
  pose proof (finish_wire mi password n key fp mt x tid ws (drop (Z.to_nat (blen ws)) rest) (blen buf)) as Ef.
  cbv zeta in Ef. unfold packet_bytes, stun_bytes, stun_body. fold tid mt ws. rewrite <- Ef; try done.
  - f_equal. unfold writing, pre. rewrite <- !(assoc_L (++)).
    f_equal; rewrite ?blen_drop; autorewrite with blen; rewrite ?Hx, ?Ht; lia || (destruct key, fp; lia).
  - by apply wires_ok.
  - rewrite blen_with_fingerprint, blen_with_integrity, blen_drop; destruct key, fp; lia.
  - rewrite blen_with_fingerprint, blen_with_integrity; destruct key, fp; lia.
Qed.

End Packet.
