(* ===== verification/StunParse.v ===== *)
(** * Parsing STUN packets

    The parser of Stun.v on the bytes of StunFormat.v: what it makes of a packet that the
    serialiser wrote, what an accepted packet proves about its sender, and the defects of
    the two passes over the attributes. *)

From stdpp Require Import gmap.
From S2P Require Import Prelude Endian Crc32c Crc32 Stun StunFormat.

#[local] Hint Resolve native_bytes16_ok native32_bytes_ok native_bytes64_ok xor_bytes_ok zeros_ok : width.
#[local] Hint Rewrite blen_native16 blen_native32 blen_native64 : blen.

Lemma native16_bytes h v c : native16 h (native_bytes16 h v ++ c) 0 = Ok (u16 v).
Proof.
  assert (E : u16 v = u8 v + 2 ^ 8 * u8 (v / 2 ^ 8)).
  { unfold u16, u8. change (2 ^ 16) with (2 ^ 8 * 2 ^ 8). by rewrite Z.rem_mul_r by lia. }
  rewrite E, <- Z.shiftr_div_pow2 by lia. unfold native_bytes16. destruct h; cbn [rev app]; [reflexivity|].
  apply (f_equal Ok). ring.
Qed.

Lemma native_bytes16_inj h v w : is_u16 v -> is_u16 w -> native_bytes16 h v = native_bytes16 h w -> v = w.
Proof.
  intros Hv Hw E. pose proof (native16_bytes h v []) as Ev. pose proof (native16_bytes h w []) as Ew.
  rewrite E, Ew in Ev. injection Ev. by rewrite !u16_id.
Qed.

Lemma wire_attr_split h tid a pre suf :
  pre ++ wire_attr h tid a ++ suf
  = (pre ++ be16 (attr_type a) ++ be16 (attr_length a)) ++ wire_value h tid a ++ suf.
Proof. unfold wire_attr. by rewrite <- !(assoc_L (++)). Qed.

(** The value of the attribute behind [pre]. *)
Lemma value_bytes h tid a pre suf n :
  n = blen (wire_value h tid a) ->
  ld_bytes (pre ++ wire_attr h tid a ++ suf) (blen pre + STUN_ATTRIBUTE_HEADER_LEN) n = Ok (wire_value h tid a).
Proof.
  intros ->. rewrite wire_attr_split. apply ld_bytes_app; [|done].
  autorewrite with blen. unfold STUN_ATTRIBUTE_HEADER_LEN. lia.
Qed.

Lemma attr_header_read h b pre c t l :
  bytes_ok b -> b = pre ++ be16 t ++ be16 l ++ c ->
  get16 h b (blen pre) = Ok (u16 t) /\ get16 h b (blen pre + STUN_ATTRIBUTE_HEADER_TYPE_LEN) = Ok (u16 l).
Proof.
  intros Hb ->. rewrite !get16_rd16 by done. split; [by apply rd16_app|].
  rewrite (assoc_L (++)). apply rd16_app. by autorewrite with blen.
Qed.

(** ** One attribute *)

Definition struct_size (a : StunAttribute) : Z :=
  match attr_body a with
  | StunAttributeAddress _ => SIZEOF_StunAttributeAddress
  | StunAttributeUsername n _ | StunAttributeRealm n _ | StunAttributeNonce n _ | StunAttributeData n _ => 16 + n
  | StunAttributeFlag => SIZEOF_StunAttributeFlag
  | StunAttributeIceControl _ => SIZEOF_StunAttributeIceControl
  | StunAttributeMessageIntegrity _ => SIZEOF_StunAttributeMessageIntegrity
  | _ => 8
  end.

Lemma attribute_bounds h a :
  attribute_ok h a -> is_u16 (attr_type a) /\ is_u16 (attr_length a) /\ is_u16 (ROUND_UP (attr_length a) 4)
  /\ 0 <= ROUND_UP (attr_length a) 4 /\ 4 <= struct_size a <= 66000.
Proof.
  intros H. unfold is_u16. attribute_cases H; cbn [attr_type attr_length]; unfold struct_size; cbn [attr_body].
  1:{ assert (0 <= t < 2 ^ 16).
      { unfold isAddressType in Ht. apply existsb_exists in Ht as (x & Hx & ->%Z.eqb_eq).
        cbn in Hx. repeat (destruct Hx as [<-|Hx]; [vm_compute; intuition congruence|]). destruct Hx. }
      unfold addressLength. destruct (IS_IPV4_ADDR a); split_and!; (lia || (vm_compute; intuition congruence)). }
  1-4: unfold STUN_MAX_USERNAME_LEN, STUN_MAX_REALM_LEN, STUN_MAX_NONCE_LEN in Hlen; pose proof (ROUND_UP_le len ltac:(lia));
    split_and!; (lia || (vm_compute; intuition congruence)).
  all: split_and!; vm_compute; intuition congruence.
Qed.

Lemma checkAttribute_wire h tid a b pre suf :
  attribute_ok h a -> bytes_ok b -> blen tid = 12 -> b = pre ++ wire_attr h tid a ++ suf ->
  checkAttribute h b (blen pre) (attr_type a) (attr_length a) (ROUND_UP (attr_length a) 4) false false
  = Ok (struct_size a, false, false, true).
Proof.
  intros H Hbok Htid Eb. unfold checkAttribute.
  attribute_cases H; cbn [attr_type attr_length]; unfold struct_size; cbn [attr_body].
  1:{ unfold isParsedAddressType. rewrite Ht, get16_rd16 by done. cbn [orb].
      rewrite wire_attr_split in Eb. unfold wire_value in Eb. cbn [attr_body attr_type attr_length] in Eb.
      unfold wire_address in Eb. rewrite <- (assoc_L (++) (be16 _)) in Eb.
      rewrite Eb, rd16_app by (autorewrite with blen; unfold STUN_ATTRIBUTE_HEADER_LEN; lia). cbn [mbind res_bind].
      unfold addressLength, IS_IPV4_ADDR. destruct Ha as ([-> | ->] & _); reflexivity. }
  all: pick_case; try reflexivity.
  all: unfold checkPlain; cbn [andb negb]; rewrite (proj2 (Z.leb_le len _)) by apply Hlen; reflexivity.
Qed.

(** The address behind the family, before and after undoing the XOR. *)
Lemma parse_plain h a :
  address_ok a ->
  let bs := be16 (family a) ++ native_bytes16 h (port a) ++ take (Z.to_nat (addressLength a)) (address a) in
  get16 h bs 0 = Ok (family a) /\ native16 h bs 2 = Ok (port a)
  /\ drop 4 bs ++ zeros (20 - (4 + addressLength a)) = address (received_address a).
Proof.
  intros (Hf & Hp & Hl & Hb) bs. subst bs. split_and!.
  - rewrite get16_rd16 by (rewrite !bytes_ok_app; split_and!; auto with width).
    rewrite rd16_be16, u16_id; [done|]. destruct Hf as [-> | ->]; vm_compute; intuition congruence.
  - change 2 with (2 + 0). rewrite <- (blen_be16 (family a)), native16_off by lia.
    by rewrite native16_bytes, u16_id.
  - rewrite (assoc_L (++) (be16 _)), drop_app_length' by (pose proof (blen_be16 (family a)); pose proof (blen_native16 h (port a));
      rewrite length_app; unfold blen in *; lia).
    unfold received_address. cbn [address]. do 2 f_equal. lia.
Qed.

Lemma take_xor n a k : take n (xor_bytes a k) = xor_bytes (take n a) (take n k).
Proof. apply zip_with_take. Qed.
Lemma drop_xor n a k : drop n (xor_bytes a k) = xor_bytes (drop n a) (drop n k).
Proof. apply zip_with_drop. Qed.

(** Undoing the XOR of an address on a little-endian host. *)
Lemma unxor_address h fam ad tid n :
  bytes_ok ad -> blen ad = 16 -> bytes_ok tid -> blen tid = 12 ->
  (fam = KVS_IP_FAMILY_TYPE_IPV4 /\ n = 4) \/ (fam = KVS_IP_FAMILY_TYPE_IPV6 /\ n = 16) ->
  let x := xor_bytes (take (Z.to_nat n) ad) (cookie_bytes ++ tid) ++ zeros (16 - n) in
  (data ← native32 h x 0;
   x ← put_bytes x 0 (native_bytes32 h (Z.lxor data (if isBigEndian h then STUN_HEADER_MAGIC_COOKIE
                                                     else STUN_HEADER_MAGIC_COOKIE_LE)));
   if fam =? KVS_IP_FAMILY_TYPE_IPV6 then
     tail ← ld_bytes x 4 STUN_TRANSACTION_ID_LEN; put_bytes x 4 (xorTransaction tail tid)
   else Ok x) = Ok (take (Z.to_nat n) ad ++ zeros (16 - n)).
Proof.
  intros Hb Hl Htb Ht Hfam x.
  assert (Hck : bytes_ok cookie_bytes) by by apply bytes_ok_check.
  assert (Hxok : bytes_ok x).
  { apply bytes_ok_app. split; [|auto with width]. apply xor_bytes_ok; [auto with width|]. by apply bytes_ok_app. }
  assert (Hx : blen x = 16).
  { unfold x. rewrite blen_app, blen_xor_bytes, blen_take, blen_zeros_Z; destruct Hfam as [[_ ->]|[_ ->]];
      rewrite ?blen_app, ?Ht, ?blen_take; change (blen cookie_bytes) with 4; lia. }
  assert (H4 : xor_bytes (take 4 x) cookie_bytes = take 4 ad).
  { assert (E : take 4 x = xor_bytes (take 4 ad) cookie_bytes).
    { unfold x. rewrite take_app_le.
      2:{ pose proof (blen_xor_bytes (take (Z.to_nat n) ad) (cookie_bytes ++ tid)) as Hbl.
          rewrite blen_app, Ht, blen_take in Hbl by (destruct Hfam as [[_ ->]|[_ ->]]; lia).
          change (blen cookie_bytes) with 4 in Hbl. unfold blen in Hbl at 1. destruct Hfam as [[_ ->]|[_ ->]]; lia. }
      rewrite take_xor, take_take. f_equal. f_equal. destruct Hfam as [[_ ->]|[_ ->]]; reflexivity. }
    rewrite E. apply xor_bytes_twice. rewrite length_take. unfold blen in Hl. change (length cookie_bytes) with 4%nat. lia. }
  pose proof (cookie_xor_native h x Hxok ltac:(lia)) as Ec. rewrite H4 in Ec.
  apply res_bind_inv in Ec as (v & -> & Ec). cbn [mbind res_bind]. rewrite Ec. cbn [mbind res_bind].
  destruct Hfam as [[-> ->]|[-> ->]]; cbn [Z.eqb Pos.eqb KVS_IP_FAMILY_TYPE_IPV4 KVS_IP_FAMILY_TYPE_IPV6].
  - do 2 f_equal. unfold x. change (Z.to_nat 4) with 4%nat. apply drop_app_length'.
    pose proof (blen_xor_bytes (take 4 ad) (cookie_bytes ++ tid)) as Hbl.
    rewrite blen_app, Ht, (blen_take 4) in Hbl by lia. change (blen cookie_bytes) with 4 in Hbl. unfold blen in Hbl. lia.
  - assert (Ha : blen (take 4 ad) = 4) by (apply (blen_take 4); lia).
    rewrite tid_xor by (rewrite ?blen_app, ?(blen_drop 4); lia).
    rewrite take_app_length', drop_app_length' by (unfold blen in Ha; lia).
    unfold x. change (zeros (16 - 16)) with (@nil Z). rewrite !app_nil_r.
    change (Z.to_nat 16) with 16%nat. rewrite (take_ge ad 16) by (unfold blen in *; lia).
    rewrite drop_xor. change (drop 4 (cookie_bytes ++ tid)) with tid. rewrite xor_bytes_twice, take_drop; [done|].
    rewrite length_drop. unfold blen in *. lia.
Qed.

Lemma family_length a :
  address_ok a ->
  (family a = KVS_IP_FAMILY_TYPE_IPV4 /\ addressLength a = 4)
  \/ (family a = KVS_IP_FAMILY_TYPE_IPV6 /\ addressLength a = 16).
Proof. intros ([Hf|Hf] & _); unfold addressLength, IS_IPV4_ADDR; rewrite Hf; auto. Qed.

Lemma land_family a : address_ok a -> Z.land (family a) 0x00ff = family a.
Proof. intros ([-> | ->] & _); reflexivity. Qed.

(** The port comes back when it is XORed with the low half of the little-endian cookie. *)
Lemma unxor_port a c :
  is_u16 (port a) ->
  exists p, native16 LittleEndian (xor_bytes (native_bytes16 LittleEndian (port a)) [0x21; 0x12] ++ c) 0 = Ok p
  /\ Z.lxor p (u16 STUN_HEADER_MAGIC_COOKIE_LE) = port a.
Proof.
  intros Hp. change [33; 18] with (native_bytes16 LittleEndian 0x1221).
  rewrite <- native_bytes16_lxor, native16_bytes. eexists. split; [done|].
  change (u16 STUN_HEADER_MAGIC_COOKIE_LE) with 0x1221.
  assert (Hk : is_u16 0x1221) by (vm_compute; intuition congruence).
  rewrite u16_id by (by apply lxor_bound). by rewrite Z.lxor_assoc, Z.lxor_nilpotent, Z.lxor_0_r.
Qed.

Lemma parseAddress_wire h t a b pre tid :
  isAddressType t = true -> t <> STUN_ATTRIBUTE_TYPE_XOR_PEER_ADDRESS ->
  (t = STUN_ATTRIBUTE_TYPE_XOR_MAPPED_ADDRESS -> h = LittleEndian) -> address_ok a ->
  blen tid = 12 -> bytes_ok tid ->
  ld_bytes b (blen pre + STUN_ATTRIBUTE_HEADER_LEN) (4 + addressLength a) = Ok (wire_address h t tid a) ->
  parseAddress h b (blen pre) t (4 + addressLength a) tid = Ok (received_address a).
Proof.
  intros Ht Hpeer Hle Ha Htid Htb Eld. unfold parseAddress. rewrite Eld. cbn [mbind res_bind].
  destruct (decide (t = STUN_ATTRIBUTE_TYPE_XOR_MAPPED_ADDRESS)) as [Et|Hne].
  - pose proof (Hle Et) as ->. subst t. unfold wire_address. change (xored _) with true. cbv iota.
    rewrite Z.eqb_refl. cbn [orb].
    destruct (unxor_port a (xor_bytes (take (Z.to_nat (addressLength a)) (address a)) (cookie_bytes ++ tid))) as (p & Ep & Exp).
    { apply Ha. }
    set (xs := xor_bytes (take _ _) _) in *.
    assert (Hxs : bytes_ok xs).
    { apply xor_bytes_ok; [apply bytes_ok_take, Ha|]. apply bytes_ok_app. split; [by apply bytes_ok_check|done]. }
    rewrite get16_rd16 by (rewrite !bytes_ok_app; split_and!; auto with width; apply xor_bytes_ok; [auto with width|by apply bytes_ok_check]).
    rewrite rd16_be16. cbn [mbind res_bind]. change 2 with (2 + 0) at 1.
    rewrite <- (blen_be16 (family a)), native16_off, Ep by lia. cbn [mbind res_bind].
    replace (u16 (family a)) with (family a) by (destruct Ha as ([-> | ->] & _); reflexivity). rewrite land_family by done.
    rewrite (assoc_L (++) (be16 _)), drop_app_length'.
    2:{ rewrite length_app. change (length (xor_bytes _ [33; 18])) with 2%nat. pose proof (blen_be16 (family a)). unfold blen in *. lia. }
    pose proof (unxor_address LittleEndian (family a) (address a) tid (addressLength a)) as Eu. cbv zeta in Eu.
    replace (20 - (4 + addressLength a)) with (16 - addressLength a) by lia. fold xs in Eu.
    destruct Ha as (Hf & Hp & Hl & Hb). specialize (Eu Hb Hl Htb Htid (family_length a (conj Hf (conj Hp (conj Hl Hb))))).
    apply res_bind_inv in Eu as (d & -> & Eu). cbn [mbind res_bind].
    apply res_bind_inv in Eu as (x & -> & Eu). cbn [mbind res_bind]. rewrite Eu. cbn [mbind res_bind].
    rewrite isBigEndian_eq, Exp. reflexivity.
  - assert (Hx : xored t = false).
    { unfold xored. rewrite !(proj2 (Z.eqb_neq _ _)) by done. done. }
    assert (Hr : (t =? STUN_ATTRIBUTE_TYPE_XOR_RELAYED_ADDRESS) = false).
    { apply Z.eqb_neq. intros ->. discriminate Ht. }
    unfold wire_address. rewrite Hx, Hr, (proj2 (Z.eqb_neq t _)) by done. cbn [orb].
    destruct (parse_plain h a Ha) as (E1 & E2 & E3). cbv zeta in E1, E2, E3.
    rewrite E1. cbn [mbind res_bind]. rewrite E2. cbn [mbind res_bind]. rewrite E3, land_family by done. done.
Qed.

(** The second pass reads the attribute that was written. *)
Lemma parseAttribute_wire h hmac hd password pwLen a b pre suf :
  attribute_ok h a -> bytes_ok b -> blen (transactionId hd) = 12 -> bytes_ok (transactionId hd) ->
  b = pre ++ wire_attr h (transactionId hd) a ++ suf ->
  parseAttribute h hmac b hd password pwLen (blen pre) (attr_type a) (attr_length a) (ROUND_UP (attr_length a) 4)
  = Ok (b, attr_body (received_attr h a), struct_size a).
Proof.
  intros H Hbok Htid Htb Eb.
  assert (Eld : ld_bytes b (blen pre + STUN_ATTRIBUTE_HEADER_LEN) (ROUND_UP (attr_length a) 4)
                = Ok (wire_value h (transactionId hd) a)).
  { rewrite Eb. apply value_bytes. by rewrite blen_wire_value. }
  rewrite wire_attr_split in Eb. set (p4 := pre ++ be16 (attr_type a) ++ be16 (attr_length a)) in Eb.
  assert (Hp4 : blen pre + STUN_ATTRIBUTE_HEADER_LEN = blen p4)
    by (unfold p4, STUN_ATTRIBUTE_HEADER_LEN; autorewrite with blen; lia).
  clearbody p4. unfold parseAttribute. unfold received_attr, struct_size.
  attribute_cases H; cbn [attr_type attr_length attr_body] in *; unfold wire_value in *; cbn [attr_body attr_type] in *.
  1:{ unfold isParsedAddressType. rewrite Ht. cbn [orb].
      replace (ROUND_UP (4 + addressLength a) 4) with (4 + addressLength a) in Eld
        by (unfold addressLength; by destruct (IS_IPV4_ADDR a)).
      rewrite parseAddress_wire by done. done. }
  all: pick_case.
  1-4: rewrite Eld; reflexivity.
  1-3: rewrite get32_rd32, Hp4, Eb, rd32_app, u32_id by done; reflexivity.
  1-2: reflexivity.
  1: change (ROUND_UP 4 4) with 4 in Eld; unfold STUN_ATTRIBUTE_REQUESTED_TRANSPORT_PROTOCOL_LEN; rewrite Eld; reflexivity.
  1: rewrite get16_rd16, Hp4, Eb, <- (assoc_L (++)), rd16_app, u16_id by done; reflexivity.
  all: rewrite ice_value in Eb by done;
    destruct (getInt64_be64 h p4 tie suf) as (v & Ev & Hv); rewrite Hp4, Eb, Ev; cbn [mbind res_bind]; rewrite Hv;
    rewrite take_app_length' by (pose proof (blen_native64 h tie); unfold blen in *; lia); reflexivity.
Qed.

(** ** The two passes *)

Definition structs (l : list StunAttribute) : Z := foldr (fun a s => struct_size a + s) 0 l.

Lemma wires_cons h tid a l : wires h tid (a :: l) = wire_attr h tid a ++ wires h tid l.
Proof. done. Qed.

Lemma attr_header_wired h tid a b pre suf :
  attribute_ok h a -> bytes_ok b -> b = pre ++ wire_attr h tid a ++ suf ->
  get16 h b (blen pre) = Ok (attr_type a)
  /\ get16 h b (blen pre + STUN_ATTRIBUTE_HEADER_TYPE_LEN) = Ok (attr_length a).
Proof.
  intros Ha Hb ->. destruct (attribute_bounds h a Ha) as (Ht & Hl & _).
  unfold wire_attr in *. rewrite <- !(assoc_L (++)) in *.
  destruct (attr_header_read h _ pre (wire_value h tid a ++ suf) (attr_type a) (attr_length a) Hb eq_refl) as [E1 E2].
  by rewrite u16_id in E1, E2.
Qed.

(** The first pass over the attributes [l] counts them and adds up their structs. *)
Lemma checkLoop_wires h tid l fuel b pre suf stop count alloc :
  Forall (attribute_ok h) l -> bytes_ok b -> blen tid = 12 -> b = pre ++ wires h tid l ++ suf ->
  blen pre + blen (wires h tid l) <= stop -> 0 <= count -> count + Z.of_nat (length l) <= 20 ->
  0 <= alloc -> alloc + structs l < 2 ^ 32 ->
  checkLoop h (length l + fuel) b (blen pre) stop count alloc false false
  = checkLoop h fuel b (blen pre + blen (wires h tid l)) stop (count + Z.of_nat (length l)) (alloc + structs l)
      false false.
Proof.
  intros Hl Hb Ht. revert pre count alloc. induction Hl as [|a l Ha Hl IH];
    intros pre count alloc Eb Hs Hc Hc20 Ha0 Ha32.
  - cbn [length Nat.add structs foldr]. change (wires h tid []) with (@nil Z). rewrite blen_nil, !Z.add_0_r. done.
  - cbn [length structs foldr] in *. fold (structs l) in *. rewrite wires_cons, blen_app in *.
    pose proof (attribute_bounds h a Ha) as (_ & _ & Hp16 & Hp0 & Hsz). pose proof (blen_wire_attr h tid a Ha Ht) as Hw.
    assert (Hst : 0 <= structs l).
    { clear -Hl. induction Hl as [|x l Hx _ IH]; cbn; [lia|]. fold (structs l).
      pose proof (attribute_bounds h x Hx). lia. }
    blen_facts. cbn [checkLoop Nat.add]. rewrite (proj2 (Z.ltb_lt (blen pre) stop)) by lia.
    rewrite <- (assoc_L (++)) in Eb.
    destruct (attr_header_wired h tid a b pre _ Ha Hb Eb) as [-> ->]. cbn [mbind res_bind].
    rewrite (u16_id (ROUND_UP _ _)) by done.
    rewrite (checkAttribute_wire h tid a b pre (wires h tid l ++ suf)) by done. cbn [mbind res_bind].
    rewrite (u32_id (count + 1)), (u32_id (alloc + _)) by (unfold is_u32; lia).
    rewrite (proj2 (Z.leb_le (count + 1) _)) by (unfold STUN_ATTRIBUTE_MAX_COUNT; lia).
    replace (blen pre + STUN_ATTRIBUTE_HEADER_LEN + ROUND_UP (attr_length a) 4) with (blen (pre ++ wire_attr h tid a))
      by (rewrite blen_app, Hw; unfold STUN_ATTRIBUTE_HEADER_LEN; lia).
    rewrite IH by (done || lia || (rewrite blen_app; lia) || (by rewrite <- (assoc_L (++)))).
    rewrite blen_app. f_equal; lia.
Qed.

(** The entries [l'] of the array point to [acc] in the store, below [dest]. *)
Definition stored (m : gmap Z StunAttribute) (l' : list Z) (acc : list StunAttribute) (dest : Z) : Prop :=
  Forall2 (fun o a => m !! o = Some a) l' acc /\ Forall (fun o => o < dest) l'.

Lemma stored_add m l' acc dest a size :
  stored m l' acc dest -> 0 < size -> stored (<[dest := a]> m) (l' ++ [dest]) (acc ++ [a]) (dest + size).
Proof.
  intros [H1 H2] Hs. split.
  - apply Forall2_app; [|repeat constructor; apply lookup_insert_eq].
    assert (Hne : Forall (fun o => o <> dest) l') by (eapply Forall_impl; [|exact H2]; cbn; lia). clear -H1 Hne.
    induction H1 as [|o x l' acc Ho _ IH]; [constructor|]. constructor.
    + rewrite lookup_insert_ne; [done|]. apply Forall_inv in Hne. done.
    + apply IH. by apply Forall_inv_tail in Hne.
  - apply Forall_app. split; [|repeat constructor; lia]. eapply Forall_impl; [|exact H2]; cbn; lia.
Qed.

Lemma parseLoop_wires h hmac hd password n l fuel b pre suf stop i count dest l' m acc :
  Forall (attribute_ok h) l -> bytes_ok b -> blen (transactionId hd) = 12 -> bytes_ok (transactionId hd) ->
  let tid := transactionId hd in
  b = pre ++ wires h tid l ++ suf -> blen pre + blen (wires h tid l) <= stop ->
  i + Z.of_nat (length l) <= count -> stored m l' acc dest ->
  exists dest' l'' m',
    parseLoop h hmac (length l + fuel) b hd password n (blen pre) stop i count dest l' m
    = parseLoop h hmac fuel b hd password n (blen pre + blen (wires h tid l)) stop (i + Z.of_nat (length l)) count
        dest' l'' m'
    /\ stored m' l'' (acc ++ map (received_attr h) l) dest'.
Proof.
  intros Hl Hb Ht Htb tid. revert pre i dest l' m acc. induction Hl as [|a l Ha Hl IH];
    intros pre i dest l' m acc Eb Hs Hc Hst.
  - exists dest, l', m. cbn [length Nat.add map]. change (wires h tid []) with (@nil Z).
    rewrite blen_nil, !Z.add_0_r, app_nil_r. done.
  - cbn [length map] in *. rewrite wires_cons, blen_app in *.
    pose proof (attribute_bounds h a Ha) as (_ & _ & Hp16 & Hp0 & Hsz). pose proof (blen_wire_attr h tid a Ha Ht) as Hw.
    blen_facts. cbn [parseLoop Nat.add]. rewrite (proj2 (Z.ltb_lt (blen pre) stop)) by lia.
    rewrite (proj2 (Z.ltb_lt i count)) by lia. cbn [andb]. rewrite <- (assoc_L (++)) in Eb.
    destruct (attr_header_wired h tid a b pre _ Ha Hb Eb) as [-> ->]. cbn [mbind res_bind].
    rewrite (u16_id (ROUND_UP _ _)) by done.
    rewrite (parseAttribute_wire h hmac hd password n a b pre (wires h tid l ++ suf)) by done. cbn [mbind res_bind].
    replace (blen pre + STUN_ATTRIBUTE_HEADER_LEN + ROUND_UP (attr_length a) 4) with (blen (pre ++ wire_attr h tid a))
      by (rewrite blen_app, Hw; unfold STUN_ATTRIBUTE_HEADER_LEN; lia).
    change {| attr_type := attr_type a; attr_length := attr_length a; attr_body := attr_body (received_attr h a) |}
      with (received_attr h a).
    destruct (IH (pre ++ wire_attr h tid a) (i + 1) (dest + struct_size a) (l' ++ [dest])
                (<[dest := received_attr h a]> m) (acc ++ [received_attr h a])) as (dest' & l'' & m' & -> & Hst').
    + by rewrite <- (assoc_L (++)).
    + rewrite blen_app. lia.
    + lia.
    + apply stored_add; [done|lia].
    + exists dest', l'', m'. rewrite <- (assoc_L (++)) in Hst'. split; [|done]. rewrite blen_app. f_equal; lia.
Qed.

(** ** The generated attributes *)

Lemma head_app mt n tid body c : head mt n tid (body ++ c) = head mt n tid body ++ c.
Proof. unfold head. by rewrite <- !(assoc_L (++)). Qed.

Lemma patch_length h mt n n' tid body c :
  put16 h (head mt n tid body ++ c) STUN_HEADER_TYPE_LEN n' = Ok (head mt n' tid body ++ c).
Proof.
  rewrite put16_be. unfold head. rewrite <- !(assoc_L (++)). apply put_bytes_app; by rewrite ?blen_be16.
Qed.

(** Patching the length, computing over the prefix and restoring the length. *)
Lemma overPrefix_head {A} h mt ml tid body c n (compute : list Z -> Z -> res A) :
  20 + blen body < 2 ^ 16 ->
  overPrefix h (head mt ml tid body ++ c) (20 + blen body) n ml compute
  = (v ← compute (head mt (blen body + (4 + n)) tid body ++ c) (20 + blen body); Ok (head mt ml tid body ++ c, v)).
Proof.
  intros Hlt. unfold overPrefix. blen_facts. rewrite patch_length. cbn [mbind res_bind].
  rewrite (u16_id (20 + _)) by (unfold is_u16; lia).
  assert (Eh : head mt (u16 (20 + blen body + STUN_ATTRIBUTE_HEADER_LEN + n - STUN_HEADER_LEN)) tid body
               = head mt (blen body + (4 + n)) tid body).
  { unfold head. rewrite be16_u16. unfold STUN_ATTRIBUTE_HEADER_LEN, STUN_HEADER_LEN. do 3 f_equal. lia. }
  rewrite Eh. destruct (compute _ _); [|done..]. cbn [mbind res_bind]. by rewrite patch_length.
Qed.

Definition integrity_attr (d : list Z) : StunAttribute :=
  {| attr_type := STUN_ATTRIBUTE_TYPE_MESSAGE_INTEGRITY; attr_length := STUN_HMAC_VALUE_LEN;
     attr_body := StunAttributeMessageIntegrity d |}.
Definition fingerprint_attr (crc : Z) : StunAttribute :=
  {| attr_type := STUN_ATTRIBUTE_TYPE_FINGERPRINT; attr_length := STUN_ATTRIBUTE_FINGERPRINT_LEN;
     attr_body := StunAttributeFingerprint crc |}.

Section Trailer.
Context (h : endian) (hmac : list Z -> list Z -> option (list Z)) `{!HmacSha1 hmac}.

Lemma check_integrity b pre d suf fuel stop count alloc :
  bytes_ok b -> b = pre ++ (be16 STUN_ATTRIBUTE_TYPE_MESSAGE_INTEGRITY ++ be16 STUN_HMAC_VALUE_LEN ++ d) ++ suf ->
  blen pre < stop -> 0 <= count < 20 -> 0 <= alloc -> alloc + 24 < 2 ^ 32 ->
  checkLoop h (S fuel) b (blen pre) stop count alloc false false
  = checkLoop h fuel b (blen pre + 24) stop (count + 1) (alloc + 24) true false.
Proof using.
  intros Hb Eb Hs Hc Ha Ha32. cbn [checkLoop]. rewrite (proj2 (Z.ltb_lt _ _)) by done.
  rewrite <- !(assoc_L (++)) in Eb. destruct (attr_header_read h b pre _ _ _ Hb Eb) as [-> ->].
  cbn [mbind res_bind]. change (checkAttribute h b _ _ _ _ false false)
    with (@Ok Checked (SIZEOF_StunAttributeMessageIntegrity, true, false, true)).
  cbn [mbind res_bind]. rewrite (u32_id (count + 1)), (u32_id (alloc + _))
    by (unfold is_u32, SIZEOF_StunAttributeMessageIntegrity; lia).
  rewrite (proj2 (Z.leb_le _ _)) by (unfold STUN_ATTRIBUTE_MAX_COUNT; lia).
  change (u16 (ROUND_UP _ _)) with 20. unfold STUN_ATTRIBUTE_HEADER_LEN. by rewrite <- Z.add_assoc.
Qed.

Lemma check_fingerprint b pre d suf fuel stop count alloc mi :
  bytes_ok b -> b = pre ++ (be16 STUN_ATTRIBUTE_TYPE_FINGERPRINT ++ be16 STUN_ATTRIBUTE_FINGERPRINT_LEN ++ d) ++ suf ->
  blen pre < stop -> 0 <= count < 20 -> 0 <= alloc -> alloc + 8 < 2 ^ 32 ->
  checkLoop h (S fuel) b (blen pre) stop count alloc mi false
  = checkLoop h fuel b (blen pre + 8) stop (count + 1) (alloc + 8) mi true.
Proof using.
  intros Hb Eb Hs Hc Ha Ha32. cbn [checkLoop]. rewrite (proj2 (Z.ltb_lt _ _)) by done.
  rewrite <- !(assoc_L (++)) in Eb. destruct (attr_header_read h b pre _ _ _ Hb Eb) as [-> ->].
  cbn [mbind res_bind]. change (checkAttribute h b _ _ _ _ mi false)
    with (@Ok Checked (SIZEOF_StunAttributeFingerprint, mi, true, true)).
  cbn [mbind res_bind]. rewrite (u32_id (count + 1)), (u32_id (alloc + _))
    by (unfold is_u32, SIZEOF_StunAttributeFingerprint; lia).
  rewrite (proj2 (Z.leb_le _ _)) by (unfold STUN_ATTRIBUTE_MAX_COUNT; lia).
  change (u16 (ROUND_UP _ _)) with 4. unfold STUN_ATTRIBUTE_HEADER_LEN. by rewrite <- Z.add_assoc.
Qed.

(** The second pass recomputes the digest of the bytes in front of the attribute. *)
Lemma integrity_checked hd pw n mt tid ws d suf :
  let key := take (Z.to_nat n) pw in
  let b := head mt (messageLength hd) tid
             (ws ++ be16 STUN_ATTRIBUTE_TYPE_MESSAGE_INTEGRITY ++ be16 STUN_HMAC_VALUE_LEN ++ d ++ suf) in
  0 < n <= blen pw -> blen tid = 12 -> blen b < 2 ^ 16 -> blen d = 20 ->
  parseAttribute h hmac b hd (Some pw) n (20 + blen ws) STUN_ATTRIBUTE_TYPE_MESSAGE_INTEGRITY
    STUN_HMAC_VALUE_LEN (u16 (ROUND_UP STUN_HMAC_VALUE_LEN 4))
  = if bool_decide (default [] (hmac key (head mt (blen ws + 24) tid ws)) = d)
    then Ok (b, StunAttributeMessageIntegrity d, SIZEOF_StunAttributeMessageIntegrity)
    else Err STATUS_STUN_MESSAGE_INTEGRITY_MISMATCH.
Proof.
  intros key b Hn Ht Hlt Hd.
  set (c := be16 STUN_ATTRIBUTE_TYPE_MESSAGE_INTEGRITY ++ be16 STUN_HMAC_VALUE_LEN ++ d ++ suf).
  assert (Eb : b = head mt (messageLength hd) tid ws ++ c) by apply head_app.
  assert (Hpre : blen (head mt (messageLength hd) tid ws) = 20 + blen ws) by by apply blen_head.
  unfold parseAttribute. pick_case. rewrite (proj2 (Z.eqb_neq n 0)) by lia. cbn [negb]. rewrite Eb.
  assert (20 + blen ws < 2 ^ 16) by (rewrite Eb, blen_app, Hpre in Hlt; blen_facts; lia).
  rewrite overPrefix_head by done. unfold STUN_HMAC_VALUE_LEN at 1. change (4 + 20) with 24.
  rewrite integrity_value by done. fold key. cbn [mbind res_bind]. unfold c.
  rewrite (assoc_L (++) (be16 _)), (assoc_L (++) (head _ _ _ _)).
  rewrite ld_bytes_app by (rewrite ?Hd; autorewrite with blen; rewrite ?Hpre; done || (unfold STUN_ATTRIBUTE_HEADER_LEN; lia)).
  cbn [mbind res_bind]. set (mac := default [] (hmac key (head mt (blen ws + 24) tid ws))).
  destruct (decide (mac = d)) as [E|E]; [|by rewrite !bool_decide_eq_false_2].
  rewrite !bool_decide_eq_true_2 by exact E. change (4 + STUN_HMAC_VALUE_LEN) with 24. fold mac. by rewrite E.
Qed.

Lemma parse_integrity hd pw n mt tid ws suf fuel stop i count dest l' m acc :
  let key := take (Z.to_nat n) pw in
  let d := default [] (hmac key (head mt (blen ws + 24) tid ws)) in
  let b := head mt (messageLength hd) tid
             (ws ++ be16 STUN_ATTRIBUTE_TYPE_MESSAGE_INTEGRITY ++ be16 STUN_HMAC_VALUE_LEN ++ d ++ suf) in
  0 < n <= blen pw -> blen tid = 12 -> bytes_ok b -> blen b < 2 ^ 16 -> 20 + blen ws < stop -> i < count ->
  stored m l' acc dest ->
  exists dest' l'' m',
    parseLoop h hmac (S fuel) b hd (Some pw) n (20 + blen ws) stop i count dest l' m
    = parseLoop h hmac fuel b hd (Some pw) n (20 + blen ws + 24) stop (i + 1) count dest' l'' m'
    /\ stored m' l'' (acc ++ [integrity_attr d]) dest'.
Proof.
  intros key d b Hn Ht Hb Hlt Hs Hi Hst.
  destruct (blen_digest hmac key (head mt (blen ws + 24) tid ws)) as [Hd _]. fold d in Hd.
  assert (Hpre : blen (head mt (messageLength hd) tid ws) = 20 + blen ws) by by apply blen_head.
  cbn [parseLoop]. rewrite (proj2 (Z.ltb_lt (20 + blen ws) stop)), (proj2 (Z.ltb_lt i count)) by done. cbn [andb].
  destruct (attr_header_read h b (head mt (messageLength hd) tid ws) (d ++ suf) _ _ Hb (head_app _ _ _ _ _)) as [E1 E2].
  rewrite Hpre in E1, E2. rewrite E1. cbn [mbind res_bind]. rewrite E2. cbn [mbind res_bind].
  pose proof (integrity_checked hd pw n mt tid ws d suf Hn Ht Hlt Hd) as Ep. fold key b in Ep. fold d in Ep.
  rewrite bool_decide_eq_true_2 in Ep by reflexivity.
  change (u16 STUN_HMAC_VALUE_LEN) with STUN_HMAC_VALUE_LEN.
  change (u16 STUN_ATTRIBUTE_TYPE_MESSAGE_INTEGRITY) with STUN_ATTRIBUTE_TYPE_MESSAGE_INTEGRITY.
  rewrite Ep. cbn [mbind res_bind]. change (u16 (ROUND_UP _ _)) with 20. unfold STUN_ATTRIBUTE_HEADER_LEN.
  replace (20 + blen ws + 4 + 20) with (20 + blen ws + 24) by lia.
  eexists _, _, _. split; [reflexivity|]. apply stored_add; [done|vm_compute; reflexivity].
Qed.

(** A digest that the receiver does not compute stops the second pass. *)
Lemma parse_forged hd pw n mt tid ws d suf fuel stop i count dest l' m :
  let b := head mt (messageLength hd) tid
             (ws ++ be16 STUN_ATTRIBUTE_TYPE_MESSAGE_INTEGRITY ++ be16 STUN_HMAC_VALUE_LEN ++ d ++ suf) in
  0 < n <= blen pw -> blen tid = 12 -> bytes_ok b -> blen b < 2 ^ 16 -> 20 + blen ws < stop -> i < count ->
  blen d = 20 -> default [] (hmac (take (Z.to_nat n) pw) (head mt (blen ws + 24) tid ws)) <> d ->
  parseLoop h hmac (S fuel) b hd (Some pw) n (20 + blen ws) stop i count dest l' m
  = Err STATUS_STUN_MESSAGE_INTEGRITY_MISMATCH.
Proof.
  intros b Hn Ht Hb Hlt Hs Hi Hd Hne.
  assert (Hpre : blen (head mt (messageLength hd) tid ws) = 20 + blen ws) by by apply blen_head.
  cbn [parseLoop]. rewrite (proj2 (Z.ltb_lt (20 + blen ws) stop)), (proj2 (Z.ltb_lt i count)) by done. cbn [andb].
  destruct (attr_header_read h b (head mt (messageLength hd) tid ws) (d ++ suf) _ _ Hb (head_app _ _ _ _ _)) as [E1 E2].
  rewrite Hpre in E1, E2. rewrite E1. cbn [mbind res_bind]. rewrite E2. cbn [mbind res_bind].
  pose proof (integrity_checked hd pw n mt tid ws d suf Hn Ht Hlt Hd) as Ep. fold b in Ep.
  rewrite bool_decide_eq_false_2 in Ep by exact Hne.
  change (u16 STUN_HMAC_VALUE_LEN) with STUN_HMAC_VALUE_LEN.
  change (u16 STUN_ATTRIBUTE_TYPE_MESSAGE_INTEGRITY) with STUN_ATTRIBUTE_TYPE_MESSAGE_INTEGRITY.
  rewrite Ep. reflexivity.
Qed.

Lemma parse_fingerprint hd password n mt tid ws suf fuel stop i count dest l' m acc :
  let crc := Z.lxor (crc32 (head mt (blen ws + 8) tid ws)) STUN_FINGERPRINT_ATTRIBUTE_XOR_VALUE in
  let b := head mt (messageLength hd) tid
             (ws ++ be16 STUN_ATTRIBUTE_TYPE_FINGERPRINT ++ be16 STUN_ATTRIBUTE_FINGERPRINT_LEN ++ be32 crc ++ suf) in
  blen tid = 12 -> bytes_ok tid -> bytes_ok ws -> bytes_ok b -> blen b < 2 ^ 16 -> 20 + blen ws < stop -> i < count ->
  stored m l' acc dest ->
  exists dest' l'' m',
    parseLoop h hmac (S fuel) b hd password n (20 + blen ws) stop i count dest l' m
    = parseLoop h hmac fuel b hd password n (20 + blen ws + 8) stop (i + 1) count dest' l'' m'
    /\ stored m' l'' (acc ++ [fingerprint_attr crc]) dest'.
Proof using.
  intros crc b Ht Htb Hwb Hb Hlt Hs Hi Hst.
  assert (Hcrc : is_u32 crc).
  { apply lxor_u32; [by apply crc32_u32, head_ok|vm_compute; intuition congruence]. }
  set (c := be16 STUN_ATTRIBUTE_TYPE_FINGERPRINT ++ be16 STUN_ATTRIBUTE_FINGERPRINT_LEN ++ be32 crc ++ suf).
  assert (Eb : b = head mt (messageLength hd) tid ws ++ c) by apply head_app.
  assert (Hpre : blen (head mt (messageLength hd) tid ws) = 20 + blen ws) by by apply blen_head.
  cbn [parseLoop]. rewrite (proj2 (Z.ltb_lt (20 + blen ws) stop)), (proj2 (Z.ltb_lt i count)) by done. cbn [andb].
  destruct (attr_header_read h b (head mt (messageLength hd) tid ws) (be32 crc ++ suf) _ _ Hb Eb) as [E1 E2].
  rewrite Hpre in E1, E2. rewrite E1. cbn [mbind res_bind]. rewrite E2. cbn [mbind res_bind].
  assert (Ev : get32 h b (20 + blen ws + STUN_ATTRIBUTE_HEADER_LEN) = Ok crc).
  { rewrite get32_rd32, Eb by done. unfold c. rewrite (assoc_L (++) (be16 _)), (assoc_L (++) (head _ _ _ _)).
    rewrite rd32_app, u32_id by (done || (autorewrite with blen; rewrite ?Hpre; unfold STUN_ATTRIBUTE_HEADER_LEN; lia)). done. }
  assert (Ep : parseAttribute h hmac b hd password n (20 + blen ws) (u16 STUN_ATTRIBUTE_TYPE_FINGERPRINT)
    (u16 STUN_ATTRIBUTE_FINGERPRINT_LEN) (u16 (ROUND_UP (u16 STUN_ATTRIBUTE_FINGERPRINT_LEN) 4))
    = Ok (b, StunAttributeFingerprint crc, SIZEOF_StunAttributeFingerprint)).
  { unfold parseAttribute. pick_case. rewrite Ev. cbn [mbind res_bind]. rewrite Eb.
    assert (20 + blen ws < 2 ^ 16) by (rewrite Eb, blen_app, Hpre in Hlt; blen_facts; lia).
    rewrite overPrefix_head by done. unfold STUN_ATTRIBUTE_FINGERPRINT_LEN at 1. change (4 + 4) with 8.
    rewrite <- (blen_head mt (blen ws + 8) tid ws) by done. rewrite COMPUTE_CRC32_ref by (by apply head_ok).
    cbn [mbind res_bind]. fold crc. by rewrite Z.eqb_refl. }
  rewrite Ep. cbn [mbind res_bind]. change (u16 (ROUND_UP _ _)) with 4. unfold STUN_ATTRIBUTE_HEADER_LEN.
  replace (20 + blen ws + 4 + 4) with (20 + blen ws + 8) by lia.
  eexists _, _, _. split; [reflexivity|]. apply stored_add; [done|vm_compute; reflexivity].
Qed.

(** ** A packet that the serialiser wrote *)

Lemma structs_bound l : Forall (attribute_ok h) l -> 0 <= structs l <= 66000 * Z.of_nat (length l).
Proof using.
  induction 1 as [|x l Hx _ IH]; cbn [structs foldr length]; [lia|]. fold (structs l).
  pose proof (attribute_bounds h x Hx) as (_ & _ & _ & _ & ?). lia.
Qed.

Lemma wires_length l tid :
  Forall (attribute_ok h) l -> blen tid = 12 -> 4 * Z.of_nat (length l) <= blen (wires h tid l).
Proof using.
  intros Hl Ht. induction Hl as [|x l Hx _ IH]; [done|]. rewrite wires_cons, blen_app, blen_wire_attr by done.
  pose proof (attribute_bounds h x Hx) as (_ & _ & _ & ? & _). cbn [length]. lia.
Qed.

(** The bytes behind the attributes of the packet. *)
Lemma stun_body_app mt tid l key fp :
  exists mi fpb, stun_body h hmac mt tid l key fp = wires h tid l ++ mi ++ fpb
  /\ with_integrity hmac key mt tid (wires h tid l) = wires h tid l ++ mi
  /\ mi = match key with
          | Some k => be16 STUN_ATTRIBUTE_TYPE_MESSAGE_INTEGRITY ++ be16 STUN_HMAC_VALUE_LEN
                      ++ default [] (hmac k (head mt (blen (wires h tid l) + 24) tid (wires h tid l)))
          | None => []
          end
  /\ fpb = if fp then be16 STUN_ATTRIBUTE_TYPE_FINGERPRINT ++ be16 STUN_ATTRIBUTE_FINGERPRINT_LEN
                      ++ be32 (Z.lxor (crc32 (head mt (blen (wires h tid l ++ mi) + 8) tid (wires h tid l ++ mi)))
                                 STUN_FINGERPRINT_ATTRIBUTE_XOR_VALUE)
            else [].
Proof using.
  eexists _, _. split_and!; [|..|reflexivity|reflexivity]; unfold stun_body, with_fingerprint, with_integrity;
    destruct key, fp; rewrite <- ?(assoc_L (++)), ?app_nil_r; done.
Qed.

Lemma check_wire mt n tid l key fp :
  let b := head mt n tid (stun_body h hmac mt tid l key fp) in
  let count := Z.of_nat (length l) + match key with Some _ => 1 | None => 0 end + (if fp then 1 else 0) in
  Forall (attribute_ok h) l -> bytes_ok b -> blen tid = 12 -> count <= 20 ->
  exists alloc, checkLoop h (length b) b STUN_HEADER_LEN (blen b) 0 SIZEOF_StunPacket false false = Ok (count, alloc).
Proof.
  intros b count Hl Hb Ht Hc. destruct (stun_body_app mt tid l key fp) as (mi & fpb & Eb & Ewi & Emi & Efp).
  set (ws := wires h tid l) in *. set (pre := head mt n tid []).
  assert (Hpre : blen pre = 20) by (unfold pre; by rewrite blen_head).
  assert (Ebp : b = pre ++ ws ++ mi ++ fpb) by (unfold b, pre; by rewrite <- head_app, Eb).
  assert (Hmi : blen mi = match key with Some _ => 24 | None => 0 end).
  { rewrite Emi. destruct key; [|done]. autorewrite with blen. by rewrite (proj1 (blen_digest hmac _ _)). }
  assert (Hfp : blen fpb = if fp then 8 else 0) by (rewrite Efp; destruct fp; [|done]; by autorewrite with blen).
  pose proof (wires_length l tid Hl Ht) as Hwl. pose proof (structs_bound l Hl) as Hsb. fold ws in Hwl. blen_facts.
  assert (Hbl : blen b = 20 + blen ws + blen mi + blen fpb) by (rewrite Ebp, !blen_app; lia).
  assert (Hf : length b = (length l + S (S (length b - length l - 2)))%nat).
  { rewrite (length_blen b). lia. }
  rewrite Hf. change STUN_HEADER_LEN with 20. rewrite <- Hpre.
  unfold SIZEOF_StunPacket. unfold count in *. assert (Z.of_nat (length l) <= 20) by (destruct key, fp; lia).
  rewrite (checkLoop_wires h tid l _ b pre (mi ++ fpb)) by (exact Ebp || done || (fold ws; lia)).
  fold ws. rewrite <- blen_app. set (f := (length b - length l - 2)%nat).
  assert (Eb1 : b = (pre ++ ws) ++ mi ++ fpb) by (rewrite Ebp; by rewrite <- (assoc_L (++))).
  assert (Hend : forall g off c a m f0, blen b <= off -> checkLoop h g b off (blen b) c a m f0 = Ok (c, a)).
  { intros g off c a m f0 Ho. destruct g; cbn [checkLoop]; by rewrite (proj2 (Z.ltb_ge off (blen b))) by done. }
  assert (Ebm : b = ((pre ++ ws) ++ mi) ++ fpb ++ []) by (rewrite Ebp, app_nil_r; by rewrite <- !(assoc_L (++))).
  destruct key as [k|], fp.
  1-2: rewrite Emi in Eb1;
    rewrite (check_integrity b (pre ++ ws) _ fpb) by first [exact Hb|exact Eb1|rewrite ?blen_app; lia].
  1: rewrite Efp in Ebm;
    replace (blen (pre ++ ws) + 24) with (blen ((pre ++ ws) ++ mi)) by (rewrite (blen_app (pre ++ ws)); lia);
    rewrite (check_fingerprint b ((pre ++ ws) ++ mi) _ []) by first [exact Hb|exact Ebm|rewrite ?blen_app; lia].
  3: rewrite Emi, Efp, (app_nil_r (pre ++ ws)) in Ebm;
    rewrite (check_fingerprint b (pre ++ ws) _ []) by first [exact Hb|exact Ebm|rewrite ?blen_app; lia].
  all: eexists; rewrite Hend by (rewrite ?blen_app; lia); do 2 f_equal; lia.
Qed.

(** The password of the receiver fits the key that the sender used. *)
Definition knows (password : option (list Z)) (n : Z) (key : option (list Z)) : Prop :=
  match key with
  | None => True
  | Some k => exists pw, password = Some pw /\ 0 < n <= blen pw /\ k = take (Z.to_nat n) pw
  end.

Definition key_count (key : option (list Z)) : Z := match key with Some _ => 1 | None => 0 end.
Definition fp_count (fp : bool) : Z := if fp then 1 else 0.

Definition integrity_trailer (mt : Z) (tid ws : list Z) (key : option (list Z)) : list StunAttribute :=
  match key with
  | Some k => [integrity_attr (default [] (hmac k (head mt (blen ws + 24) tid ws)))]
  | None => []
  end.
Definition fingerprint_trailer (mt : Z) (tid ws : list Z) (fp : bool) : list StunAttribute :=
  if fp then [fingerprint_attr (Z.lxor (crc32 (head mt (blen ws + 8) tid ws)) STUN_FINGERPRINT_ATTRIBUTE_XOR_VALUE)]
  else [].

(** The second pass over an optional MESSAGE-INTEGRITY. *)
Lemma parse_integrity_step hd password n mt tid ws suf key fuel stop i count dest l' m acc :
  let b := head mt (messageLength hd) tid (with_integrity hmac key mt tid ws ++ suf) in
  knows password n key -> blen tid = 12 -> bytes_ok b -> blen b < 2 ^ 16 -> blen b <= stop ->
  i + key_count key <= count -> stored m l' acc dest ->
  exists fuel' dest' l'' m',
    parseLoop h hmac (S (S fuel)) b hd password n (20 + blen ws) stop i count dest l' m
    = parseLoop h hmac (S fuel') b hd password n (20 + blen (with_integrity hmac key mt tid ws)) stop
        (i + key_count key) count dest' l'' m'
    /\ stored m' l'' (acc ++ integrity_trailer mt tid ws key) dest'.
Proof.
  cbv zeta. intros Hk Ht Hb Hlt Hs Hi Hst. rewrite blen_with_integrity by exact _.
  destruct key as [k|]; cbn [key_count integrity_trailer with_integrity] in *.
  - destruct Hk as (pw & -> & Hn & ->).
    rewrite <- (assoc_L (++) ws), <- (assoc_L (++) (be16 _)), <- (assoc_L (++) (be16 _)) in Hb, Hlt, Hs |- *.
    assert (Hw : 20 + blen ws < stop) by (rewrite blen_head, 3!blen_app, 2!blen_be16 in Hs by exact Ht; blen_facts; lia).
    assert (Hic : i < count) by lia.
    destruct (parse_integrity hd pw n mt tid ws suf (S fuel) stop i count dest l' m acc Hn Ht Hb Hlt Hw Hic Hst)
      as (d2 & l2 & m2 & Ep & Hst2).
    exists fuel, d2, l2, m2. split; [|exact Hst2]. rewrite Ep, Z.add_assoc. reflexivity.
  - exists (S fuel), dest, l', m. rewrite app_nil_r, !Z.add_0_r. split; [reflexivity|exact Hst].
Qed.

(** The second pass over an optional FINGERPRINT at the end. *)
Lemma parse_fingerprint_end hd password n mt tid ws fp fuel i count dest l' m acc :
  let b := head mt (messageLength hd) tid (with_fingerprint fp mt tid ws) in
  blen tid = 12 -> bytes_ok tid -> bytes_ok ws -> bytes_ok b -> blen b < 2 ^ 16 ->
  i + fp_count fp <= count -> stored m l' acc dest ->
  exists l'' m',
    parseLoop h hmac (S fuel) b hd password n (20 + blen ws) (blen b) i count dest l' m = Ok (b, l'', m')
    /\ Forall2 (fun o a => m' !! o = Some a) l'' (acc ++ fingerprint_trailer mt tid ws fp).
Proof using.
  intros b Ht Htb Hwb Hb Hlt Hi Hst.
  assert (Hbl : blen b = 20 + blen ws + 8 * fp_count fp).
  { unfold b. rewrite blen_head, blen_with_fingerprint by done. destruct fp; cbn; lia. }
  assert (Hend : forall g j d l0 m0, parseLoop h hmac g b hd password n (blen b) (blen b) j count d l0 m0 = Ok (b, l0, m0)).
  { intros g j d l0 m0. destruct g; cbn [parseLoop]; by rewrite Z.ltb_irrefl. }
  destruct fp; cbn [fp_count fingerprint_trailer] in *.
  - edestruct (parse_fingerprint hd password n mt tid ws [] fuel (blen b) i count dest l' m acc)
      as (d3 & l3 & m3 & Ep & Hst3); rewrite ?app_nil_r; try done; try lia.
    rewrite !app_nil_r in Ep. fold (with_fingerprint true mt tid ws) in Ep. change (head _ _ _ _) with b in Ep.
    rewrite Ep. replace (20 + blen ws + 8) with (blen b) by lia. rewrite Hend. exists l3, m3. split; [done|]. apply Hst3.
  - replace (20 + blen ws) with (blen b) by lia. rewrite Hend. exists l', m. split; [done|].
    rewrite app_nil_r. apply Hst.
Qed.

Lemma second_pass_wire hd password n mt tid l key fp dest :
  let b := head mt (messageLength hd) tid (stun_body h hmac mt tid l key fp) in
  let ws := wires h tid l in
  Forall (attribute_ok h) l -> bytes_ok b -> bytes_ok tid -> blen tid = 12 -> transactionId hd = tid ->
  blen b < 2 ^ 16 -> knows password n key ->
  exists l' m,
    parseLoop h hmac (length b) b hd password n STUN_HEADER_LEN (blen b) 0
      (Z.of_nat (length l) + key_count key + fp_count fp) dest [] ∅ = Ok (b, l', m)
  /\ Forall2 (fun o a => m !! o = Some a) l'
       ((map (received_attr h) l ++ integrity_trailer mt tid ws key)
        ++ fingerprint_trailer mt tid (with_integrity hmac key mt tid ws) fp).
Proof.
  intros b ws Hl Hb Htb Ht Etid Hlt Hk. set (count := Z.of_nat (length l) + key_count key + fp_count fp).
  destruct (stun_body_app mt tid l key fp) as (mi & fpb & Eb & Ewi & _). fold ws in Eb, Ewi.
  assert (Eb1 : b = head mt (messageLength hd) tid (with_integrity hmac key mt tid ws ++ fpb))
    by (unfold b; by rewrite Eb, Ewi, <- (assoc_L (++))).
  assert (Ebp : b = head mt (messageLength hd) tid [] ++ ws ++ mi ++ fpb) by (unfold b; by rewrite <- head_app, Eb).
  assert (Hpre : blen (head mt (messageLength hd) tid []) = 20) by by rewrite blen_head.
  pose proof (wires_length l tid Hl Ht) as Hwl. fold ws in Hwl. blen_facts.
  assert (Hbl : blen b = 20 + blen ws + blen mi + blen fpb) by (rewrite Ebp, !blen_app; lia).
  pose proof (blen_nonneg mi) as Hmi. pose proof (blen_nonneg fpb) as Hfpb.
  assert (Hc : 0 <= key_count key /\ 0 <= fp_count fp) by (unfold key_count, fp_count; destruct key, fp; lia).
  assert (Hfuel : length b = (length l + S (S (length b - length l - 2)))%nat) by (rewrite (length_blen b); lia).
  set (f0 := (length b - length l - 2)%nat) in Hfuel. rewrite Hfuel. clearbody f0. clear Hfuel.
  destruct (parseLoop_wires h hmac hd password n l (S (S f0)) b (head mt (messageLength hd) tid [])
              (mi ++ fpb) (blen b) 0 count dest [] ∅ []) as (d1 & l1 & m1 & Ep & Hst);
    [exact Hl|exact Hb|rewrite Etid; exact Ht|rewrite Etid; exact Htb|rewrite Etid; exact Ebp
    |rewrite Etid; fold ws; lia|unfold count; lia|by split|].
  rewrite Hpre, Etid in Ep. fold ws in Ep. change STUN_HEADER_LEN with 20. rewrite Ep. clear Ep.
  rewrite Eb1 in Hb, Hlt.
  destruct (parse_integrity_step hd password n mt tid ws fpb key f0 (blen b)
               (0 + Z.of_nat (length l)) count d1 l1 m1 (map (received_attr h) l) Hk Ht Hb Hlt) as (f & d2 & l2 & m2 & Ep & Hst2);
    [rewrite <- Eb1; lia|unfold count; lia|exact Hst|].
  rewrite <- Eb1 in Ep, Hb, Hlt. rewrite Ep. clear Ep.
  destruct (parse_fingerprint_end hd password n mt tid (with_integrity hmac key mt tid ws) fp f
               (0 + Z.of_nat (length l) + key_count key) count d2 l2 m2
               (map (received_attr h) l ++ integrity_trailer mt tid ws key) Ht Htb) as (l3 & m3 & Ep3 & Hst3);
    [apply with_integrity_ok, wires_ok; assumption|exact Hb|exact Hlt|unfold count; lia|exact Hst2|].
  exists l3, m3. split; [exact Ep3|exact Hst3].
Qed.

Lemma stun_body_ok mt tid l key fp :
  Forall (attribute_ok h) l -> bytes_ok tid -> bytes_ok (stun_body h hmac mt tid l key fp).
Proof.
  intros Hl Htb. apply with_fingerprint_ok, with_integrity_ok, wires_ok; assumption.
Qed.

(** The header of a packet is read back. *)
Lemma header_read mt tid body :
  let b := head mt (blen body) tid body in
  is_u16 mt -> is_u16 (blen body) -> blen tid = 12 -> bytes_ok tid -> bytes_ok body ->
  get16 h b 0 = Ok mt /\ get16 h b STUN_HEADER_TYPE_LEN = Ok (blen body)
  /\ get32 h b (STUN_HEADER_TYPE_LEN + STUN_HEADER_DATA_LEN) = Ok STUN_HEADER_MAGIC_COOKIE
  /\ ld_bytes b 8 STUN_TRANSACTION_ID_LEN = Ok tid.
Proof using.
  intros b Hm Hn Ht Htb Hb. assert (Hbok : bytes_ok b) by (apply head_ok; assumption).
  rewrite !get16_rd16, get32_rd32 by exact Hbok. unfold b, head. split_and!.
  - rewrite rd16_be16, u16_id by exact Hm. reflexivity.
  - rewrite rd16_app, u16_id by (exact Hn || by rewrite blen_be16). reflexivity.
  - rewrite (assoc_L (++)), rd32_app by by rewrite blen_app, !blen_be16. reflexivity.
  - rewrite !(assoc_L (++)), <- (assoc_L (++) _ tid). apply ld_bytes_app; [by rewrite !blen_app, !blen_be16, blen_be32|by rewrite Ht].
Qed.

(** The attributes that the parser makes of a packet with [l], the key and the flag. *)
Definition received (mt : Z) (tid : list Z) (l : list StunAttribute) (key : option (list Z)) (fp : bool)
    : list StunAttribute :=
  let ws := wires h tid l in
  (map (received_attr h) l ++ integrity_trailer mt tid ws key)
  ++ fingerprint_trailer mt tid (with_integrity hmac key mt tid ws) fp.

Definition received_header (mt : Z) (tid body : list Z) : StunHeader :=
  {| stunMessageType := mt; messageLength := blen body; magicCookie := STUN_HEADER_MAGIC_COOKIE; transactionId := tid |}.

(** The parser gets to its second pass with the number of attributes. *)
Lemma deserialize_passes mt tid l key fp password n :
  let body := stun_body h hmac mt tid l key fp in
  let b := stun_bytes h hmac mt tid l key fp in
  let count := Z.of_nat (length l) + key_count key + fp_count fp in
  Forall (attribute_ok h) l -> is_u16 mt -> blen tid = 12 -> bytes_ok tid -> blen b < 2 ^ 16 -> count <= 20 ->
  bytes_ok b /\ exists alloc,
  deserializeStunPacket h hmac true (Some b) (blen b) password n true
  = ('(b, l', m) ← parseLoop h hmac (length b) b (received_header mt tid body) password n STUN_HEADER_LEN (blen b) 0 count
                    (SIZEOF_StunPacket + SIZEOF_PStunAttributeHeader * count) [] ∅;
     Ok (b, {| header := received_header mt tid body; allocationSize := alloc; attributeList := l'; slots := count;
               attrs := m |})).
Proof.
  intros body b count Hl Hmt Ht Htb Hlt Hc. unfold b, stun_bytes in *. fold body in Hlt |- *.
  pose proof (stun_body_ok mt tid l key fp Hl Htb) as Hbody. fold body in Hbody.
  pose proof (blen_nonneg body) as Hnn. pose proof (blen_head mt (blen body) tid body Ht) as Hbl.
  assert (Hn16 : is_u16 (blen body)) by (unfold is_u16; lia).
  pose proof (head_ok mt (blen body) tid body Htb Hbody) as Hbok. split; [exact Hbok|].
  destruct (header_read mt tid body Hmt Hn16 Ht Htb Hbody) as (E0 & E2 & E4 & E8).
  destruct (check_wire mt (blen body) tid l key fp Hl Hbok Ht Hc) as (alloc & Ec).
  fold (key_count key) (fp_count fp) in Ec. fold body count in Ec. clearbody body.
  set (b' := head mt (blen body) tid body) in *. exists (alloc +32 count * SIZEOF_PStunAttributeHeader).
  unfold deserializeStunPacket.
  rewrite (proj2 (Z.leb_le STUN_HEADER_LEN (blen b'))) by (unfold STUN_HEADER_LEN; lia).
  rewrite E2, E4. cbn [mbind res_bind].
  rewrite (proj2 (Z.leb_le (blen body + STUN_HEADER_LEN) (blen b'))) by (unfold STUN_HEADER_LEN; lia).
  rewrite Z.eqb_refl. replace (STUN_HEADER_LEN + blen body) with (blen b') by (unfold STUN_HEADER_LEN; lia).
  rewrite Ec. cbn [mbind res_bind]. rewrite E0, E8. reflexivity.
Qed.

Lemma deserialize_bytes mt tid l key fp password n :
  let body := stun_body h hmac mt tid l key fp in
  let b := stun_bytes h hmac mt tid l key fp in
  Forall (attribute_ok h) l -> is_u16 mt -> blen tid = 12 -> bytes_ok tid -> blen b < 2 ^ 16 ->
  Z.of_nat (length l) + key_count key + fp_count fp <= 20 -> knows password n key ->
  exists p, deserializeStunPacket h hmac true (Some b) (blen b) password n true = Ok (b, p)
  /\ header p = received_header mt tid body /\ entries p (attributeList p) (received mt tid l key fp).
Proof.
  intros body b Hl Hmt Ht Htb Hlt Hc Hk.
  destruct (deserialize_passes mt tid l key fp password n Hl Hmt Ht Htb Hlt Hc) as (Hbok & alloc & Ed).
  cbv zeta in Ed. fold body b in Hbok, Ed. rewrite Ed. clear Ed.
  destruct (second_pass_wire (received_header mt tid body) password n mt tid l key fp
              (SIZEOF_StunPacket + SIZEOF_PStunAttributeHeader * (Z.of_nat (length l) + key_count key + fp_count fp))
              Hl Hbok Htb Ht eq_refl Hlt Hk) as (l' & m & Ep & He).
  change (head mt (messageLength (received_header mt tid body)) tid (stun_body h hmac mt tid l key fp)) with b in Ep.
  rewrite Ep. cbn [mbind res_bind]. eexists. split; [reflexivity|]. split; [reflexivity|exact He].
Qed.

(** A packet whose digest is not the one that the receiver computes is refused. *)
Lemma deserialize_forged mt tid l k fp pw n :
  let b := stun_bytes h hmac mt tid l (Some k) fp in
  let ws := wires h tid l in
  let m := head mt (blen ws + 24) tid ws in
  Forall (attribute_ok h) l -> is_u16 mt -> blen tid = 12 -> bytes_ok tid -> blen b < 2 ^ 16 ->
  Z.of_nat (length l) + 1 + fp_count fp <= 20 -> 0 < n <= blen pw -> hmac (take (Z.to_nat n) pw) m <> hmac k m ->
  deserializeStunPacket h hmac true (Some b) (blen b) (Some pw) n true = Err STATUS_STUN_MESSAGE_INTEGRITY_MISMATCH.
Proof.
  intros b ws m Hl Hmt Ht Htb Hlt Hc Hn Hne.
  destruct (deserialize_passes mt tid l (Some k) fp (Some pw) n Hl Hmt Ht Htb Hlt Hc) as (Hbok & alloc & Ed).
  cbv zeta in Ed. fold b in Hbok, Ed. rewrite Ed. clear Ed. set (body := stun_body h hmac mt tid l (Some k) fp) in *.
  set (hd := received_header mt tid body). destruct (stun_body_app mt tid l (Some k) fp) as (mi & fpb & Eb & _ & Emi & _).
  fold ws in Eb, Emi. fold m in Emi. set (d := default [] (hmac k m)) in Emi.
  assert (Hd : blen d = 20) by exact (proj1 (blen_digest hmac k m)).
  assert (Hmac : default [] (hmac (take (Z.to_nat n) pw) m) <> d).
  { unfold d. destruct (hmac_digest k m) as (x & Ex & _), (hmac_digest (take (Z.to_nat n) pw) m) as (y & Ey & _).
    rewrite Ex, Ey in Hne |- *. cbn. congruence. }
  assert (Ebp : b = head mt (blen body) tid [] ++ ws ++ mi ++ fpb) by (unfold b, stun_bytes; by rewrite <- head_app, <- Eb).
  assert (Ebf : b = head mt (messageLength hd) tid
    (ws ++ be16 STUN_ATTRIBUTE_TYPE_MESSAGE_INTEGRITY ++ be16 STUN_HMAC_VALUE_LEN ++ d ++ fpb)).
  { unfold b, stun_bytes. fold body. change (messageLength hd) with (blen body). fold body in Eb. rewrite Eb at 2.
    rewrite Emi. by rewrite <- !(assoc_L (++)). }
  assert (Hpre : blen (head mt (blen body) tid []) = 20) by by rewrite blen_head.
  assert (Hmi : blen mi = 24) by (rewrite Emi; autorewrite with blen; lia).
  pose proof (wires_length l tid Hl Ht) as Hwl. fold ws in Hwl. pose proof (blen_nonneg fpb) as Hfpb.
  assert (Hbl : blen b = 20 + blen ws + blen mi + blen fpb) by (rewrite Ebp, !blen_app; lia).
  assert (Hfc : 0 <= fp_count fp) by (unfold fp_count; destruct fp; lia).
  set (count := Z.of_nat (length l) + key_count (Some k) + fp_count fp).
  assert (Hcnt : Z.of_nat (length l) < count) by (unfold count; cbn [key_count]; lia).
  assert (Hfuel : length b = (length l + S (length b - length l - 1))%nat) by (rewrite (length_blen b); lia).
  set (f0 := (length b - length l - 1)%nat) in Hfuel. rewrite Hfuel. clearbody f0. clear Hfuel.
  destruct (parseLoop_wires h hmac hd (Some pw) n l (S f0) b (head mt (blen body) tid []) (mi ++ fpb) (blen b) 0 count
              (SIZEOF_StunPacket + SIZEOF_PStunAttributeHeader * count) [] ∅ []) as (d1 & l1 & m1 & Ep & _);
    [exact Hl|exact Hbok|exact Ht|exact Htb|exact Ebp|change (transactionId hd) with tid; fold ws; lia|lia|by split|].
  change (transactionId hd) with tid in Ep. fold ws in Ep. rewrite Hpre in Ep. change STUN_HEADER_LEN with 20. rewrite Ep. clear Ep.
  rewrite Ebf at 1. rewrite Ebf in Hbok, Hlt.
  rewrite (parse_forged hd pw n mt tid ws d fpb f0 (blen b) (0 + Z.of_nat (length l)) count d1 l1 m1 Hn Ht Hbok Hlt);
    [reflexivity|lia|lia|exact Hd|exact Hmac].
Qed.

End Trailer.

(** ** An attribute that the parser does not know *)

Definition STUN_SOFTWARE : Z := 0x8022.

(** SOFTWARE with four bytes in front of a MESSAGE-INTEGRITY with the digest [d]. *)
Definition software_body (sw d : list Z) : list Z :=
  (be16 STUN_SOFTWARE ++ be16 4 ++ sw)
  ++ (be16 STUN_ATTRIBUTE_TYPE_MESSAGE_INTEGRITY ++ be16 STUN_HMAC_VALUE_LEN ++ d).

Lemma software_unknown h hmac b hd password n off len padded :
  checkAttribute h b off STUN_SOFTWARE len padded false false = Ok (0, false, false, false)
  /\ parseAttribute h hmac b hd password n off STUN_SOFTWARE len padded = Ok (b, StunAttributeUnknown, 0).
Proof. unfold checkAttribute, parseAttribute. split; pick_case; reflexivity. Qed.

Lemma software_check h mt tid sw d :
  let b := head mt (blen (software_body sw d)) tid (software_body sw d) in
  blen tid = 12 -> blen sw = 4 -> blen d = 20 -> bytes_ok b ->
  blen b = 52 /\ get16 h b 20 = Ok STUN_SOFTWARE /\ get16 h b 22 = Ok 4
  /\ checkLoop h (length b) b STUN_HEADER_LEN 52 0 SIZEOF_StunPacket false false = Ok (1, 64).
Proof.
  intros b Ht Hs Hd Hb. set (pre := head mt (blen (software_body sw d)) tid []).
  assert (Hpre : blen pre = 20) by (unfold pre; by rewrite blen_head).
  assert (Hbody : blen (software_body sw d) = 32) by (unfold software_body; autorewrite with blen; lia).
  assert (Hbl : blen b = 52) by (unfold b; rewrite blen_head by done; lia).
  assert (Eb : b = (pre ++ be16 STUN_SOFTWARE ++ be16 4 ++ sw)
    ++ (be16 STUN_ATTRIBUTE_TYPE_MESSAGE_INTEGRITY ++ be16 STUN_HMAC_VALUE_LEN ++ d) ++ []).
  { unfold b, pre. rewrite app_nil_r, <- (assoc_L (++)). apply (head_app mt _ tid []). }
  assert (Eb0 : b = pre ++ be16 STUN_SOFTWARE ++ be16 4 ++ sw
    ++ (be16 STUN_ATTRIBUTE_TYPE_MESSAGE_INTEGRITY ++ be16 STUN_HMAC_VALUE_LEN ++ d) ++ [])
    by (rewrite Eb; by rewrite <- !(assoc_L (++))).
  destruct (attr_header_read h b pre _ _ _ Hb Eb0) as [E1 E2]. rewrite Hpre in E1, E2.
  change (20 + STUN_ATTRIBUTE_HEADER_TYPE_LEN) with 22 in E2. split_and!; [exact Hbl|exact E1|exact E2|].
  assert (Hfuel : exists f, length b = S (S (S f))) by (exists 49%nat; rewrite (length_blen b); lia).
  destruct Hfuel as [f0 ->]. set (f := S (S f0)). cbn [checkLoop]. change (STUN_HEADER_LEN <? 52) with true. cbv iota.
  change STUN_HEADER_LEN with 20. change (20 + STUN_ATTRIBUTE_HEADER_TYPE_LEN) with 22. rewrite E1, E2.
  cbn [mbind res_bind]. change (u16 STUN_SOFTWARE) with STUN_SOFTWARE.
  rewrite (proj1 (software_unknown h (fun _ _ => None) b (received_header mt tid []) None 0 _ _ _)). cbn [mbind res_bind]. change (0 <=? STUN_ATTRIBUTE_MAX_COUNT) with true. cbv iota.
  change (20 + STUN_ATTRIBUTE_HEADER_LEN + u16 (ROUND_UP (u16 4) 4)) with 28. change (SIZEOF_StunPacket +32 0) with 40.
  assert (H28 : blen (pre ++ be16 STUN_SOFTWARE ++ be16 4 ++ sw) = 28) by (autorewrite with blen; lia).
  unfold f. rewrite <- H28. rewrite (check_integrity h b _ d []) by first [exact Hb|exact Eb|lia].
  rewrite H28. cbn [checkLoop]. change (28 + 24) with 52. by rewrite Z.ltb_irrefl.
Qed.

Lemma software_accepted h hmac mt tid sw d password n :
  let b := head mt (blen (software_body sw d)) tid (software_body sw d) in
  is_u16 mt -> blen tid = 12 -> blen sw = 4 -> blen d = 20 -> bytes_ok tid -> bytes_ok sw -> bytes_ok d ->
  exists p, deserializeStunPacket h hmac true (Some b) (blen b) password n true = Ok (b, p)
  /\ entries p (attributeList p) [{| attr_type := STUN_SOFTWARE; attr_length := 4; attr_body := StunAttributeUnknown |}].
Proof.
  intros b Hmt Ht Hs Hd Htb Hsb Hdb.
  assert (Hbody : bytes_ok (software_body sw d)) by (unfold software_body; rewrite !bytes_ok_app; split_and!; auto with width).
  assert (Hbok : bytes_ok b) by (apply head_ok; assumption).
  destruct (software_check h mt tid sw d Ht Hs Hd Hbok) as (Hbl & E20 & E22 & Ec). fold b in Hbl, E20, E22, Ec.
  assert (Hn : blen (software_body sw d) = 32) by (unfold software_body; autorewrite with blen; lia).
  destruct (header_read h mt tid (software_body sw d)) as (E0 & E2 & E4 & E8);
    [exact Hmt|unfold is_u16; lia|exact Ht|exact Htb|exact Hbody|]. fold b in E0, E2, E4, E8. rewrite Hn in E2. clearbody b.
  unfold deserializeStunPacket. rewrite Hbl. change (STUN_HEADER_LEN <=? 52) with true. cbv iota.
  rewrite E2, E4. cbn [mbind res_bind]. change (32 + STUN_HEADER_LEN <=? 52) with true. rewrite Z.eqb_refl. cbv iota.
  change (STUN_HEADER_LEN + 32) with 52. rewrite Ec. cbn [mbind res_bind]. rewrite E0, E8. cbn [mbind res_bind].
  assert (Hfuel : exists f, length b = S (S f)) by (exists 50%nat; rewrite (length_blen b); lia).
  destruct Hfuel as [f0 ->]. cbn [parseLoop].
  change ((STUN_HEADER_LEN <? 52) && (0 <? 1)) with true. cbv iota. change STUN_HEADER_LEN with 20.
  change (20 + STUN_ATTRIBUTE_HEADER_TYPE_LEN) with 22. rewrite E20, E22. cbn [mbind res_bind].
  rewrite (proj2 (software_unknown h hmac b _ _ _ _ _ _)).
  cbn [mbind res_bind]. rewrite andb_false_r. cbn [mbind res_bind].
  eexists. split; [reflexivity|]. cbn [attributeList]. repeat constructor.
Qed.

(** C38. An attribute of a type that the parser does not know takes an entry of the second
    pass, which stops after as many entries as there are known attributes.  So a packet that
    consists of a SOFTWARE attribute with four bytes and a MESSAGE-INTEGRITY behind it, and
    nothing more, is accepted whatever the digest, with any password or none: the second
    pass ends after the SOFTWARE attribute, the digest is never compared, and the packet
    that the caller gets has no MESSAGE-INTEGRITY.  (Behind one unknown attribute a
    FINGERPRINT at the end of the packet makes the pass long enough to reach the digest.) *)
Theorem stun_unknown_skips_integrity h hmac mt tid sw d password n :
  let b := head mt (blen (software_body sw d)) tid (software_body sw d) in
  is_u16 mt -> blen tid = 12 -> blen sw = 4 -> blen d = 20 -> bytes_ok tid -> bytes_ok sw -> bytes_ok d ->
  exists p, deserializeStunPacket h hmac true (Some b) (blen b) password n true = Ok (b, p)
  /\ getStunAttribute (Some p) STUN_ATTRIBUTE_TYPE_MESSAGE_INTEGRITY = Ok None.
Proof.
  intros b Hmt Ht Hs Hd Htb Hsb Hdb.
  destruct (software_accepted h hmac mt tid sw d password n Hmt Ht Hs Hd Htb Hsb Hdb) as (p & E & He).
  exists p. split; [exact E|]. unfold getStunAttribute. inversion He as [|o a offs l Ho Hnil E1 E2]; subst.
  inversion Hnil; subst. cbn [findAttribute]. unfold attributeAt. by rewrite Ho.
Qed.

Lemma stun_unknown_skips_integrity_witness :
  let body := software_body [75; 86; 83; 32] (zeros 20) in
  exists p, deserializeStunPacket BigEndian (fun _ _ => None) true (Some (head 0x0101 (blen body) (seqZ 1 12) body))
              (blen (head 0x0101 (blen body) (seqZ 1 12) body)) (Some [112; 119]) 2 true
            = Ok (head 0x0101 (blen body) (seqZ 1 12) body, p)
  /\ getStunAttribute (Some p) STUN_ATTRIBUTE_TYPE_MESSAGE_INTEGRITY = Ok None.
Proof.
  apply (stun_unknown_skips_integrity BigEndian (fun _ _ => None) 0x0101 (seqZ 1 12) [75; 86; 83; 32] (zeros 20)
    (Some [112; 119]) 2);
    try (by vm_compute); try (vm_compute; intuition congruence); by apply bytes_ok_check.
Defined.
