(* ===== verification/StunBuild.v ===== *)
(** * Building STUN packets

    The append functions of Stun.v fill one allocation: every call finds the first free
    byte behind the last struct, checks the space and adds a pointer.  What a sequence of
    calls leaves behind is stated here, exactly, for every request that the serialiser and
    the parser can carry: the attributes in the order of the calls, or
    STATUS_NOT_ENOUGH_MEMORY when the structs do not fit. *)

From stdpp Require Import gmap.
From S2P Require Import Prelude Endian Crc32c Crc32 Stun StunFormat StunParse.

(** ** Requests *)

(** One call of an append function; strings are without their terminator. *)
Inductive Request : Type :=
| AddAddress (type : Z) (a : KvsIpAddress)
| AddUsername (s : list Z)
| AddRealm (s : list Z)
| AddNonce (bs : list Z)
| AddData (bs : list Z)
| AddPriority (v : Z)
| AddLifetime (v : Z)
| AddChangeRequest (v : Z)
| AddFlag (type : Z)
| AddRequestedTransport (protocol : Z)
| AddChannelNumber (n : Z)
| AddIceControl (type tieBreaker : Z).

Definition append (h : endian) (p : StunPacket) (r : Request) : res StunPacket :=
  match r with
  | AddAddress t a => appendStunAddressAttribute (Some p) t (Some a)
  | AddUsername s => appendStunUsernameAttribute (Some p) (Some (s ++ [0]))
  | AddRealm s => appendStunRealmAttribute (Some p) (Some (s ++ [0]))
  | AddNonce bs => appendStunNonceAttribute (Some p) (Some bs) (blen bs)
  | AddData bs => appendStunDataAttribute (Some p) (Some bs) (blen bs)
  | AddPriority v => appendStunPriorityAttribute (Some p) v
  | AddLifetime v => appendStunLifetimeAttribute (Some p) v
  | AddChangeRequest v => appendStunChangeRequestAttribute (Some p) v
  | AddFlag t => appendStunFlagAttribute (Some p) t
  | AddRequestedTransport v => appendStunRequestedTransportAttribute (Some p) v
  | AddChannelNumber n => appendStunChannelNumberAttribute (Some p) n
  | AddIceControl t tie => appendStunIceControllAttribute h (Some p) t tie
  end.

Fixpoint appendAll (h : endian) (p : StunPacket) (rs : list Request) : res StunPacket :=
  match rs with
  | [] => Ok p
  | r :: rs => p ← append h p r; appendAll h p rs
  end.

Definition c_string (s : list Z) : Prop := bytes_ok s /\ Forall (fun c => c <> 0) s.

Definition request_ok (h : endian) (r : Request) : Prop :=
  match r with
  | AddAddress t a =>
      isAddressType t = true /\ t <> STUN_ATTRIBUTE_TYPE_XOR_PEER_ADDRESS
      /\ (t = STUN_ATTRIBUTE_TYPE_XOR_MAPPED_ADDRESS -> h = LittleEndian) /\ address_ok a
  | AddUsername s => c_string s /\ blen s <= STUN_MAX_USERNAME_LEN
  | AddRealm s => c_string s /\ blen s <= STUN_MAX_REALM_LEN
  | AddNonce bs => bytes_ok bs /\ blen bs <= STUN_MAX_NONCE_LEN
  | AddData bs => bytes_ok bs /\ blen bs <= 65000
  | AddPriority v | AddLifetime v | AddChangeRequest v => is_u32 v
  | AddFlag t => isFlagType t = true
  | AddRequestedTransport _ => True
  | AddChannelNumber n => is_u16 n
  | AddIceControl t tie => isIceControlType t = true /\ is_u64 tie
  end.

Definition padding (bs : list Z) : list Z := bs ++ zeros (ROUND_UP (blen bs) 4 - blen bs).

Definition attribute (t len : Z) (body : StunAttributeBody) : StunAttribute :=
  {| attr_type := t; attr_length := len; attr_body := body |}.

(** The attribute that a request stands for. *)
Definition requested (h : endian) (r : Request) : StunAttribute :=
  let bytes t body bs := attribute t (blen bs) (body (ROUND_UP (blen bs) 4) (padding bs)) in
  match r with
  | AddAddress t a => attribute t (4 + addressLength a) (StunAttributeAddress a)
  | AddUsername s => bytes STUN_ATTRIBUTE_TYPE_USERNAME StunAttributeUsername s
  | AddRealm s => bytes STUN_ATTRIBUTE_TYPE_REALM StunAttributeRealm s
  | AddNonce bs => bytes STUN_ATTRIBUTE_TYPE_NONCE StunAttributeNonce bs
  | AddData bs => bytes STUN_ATTRIBUTE_TYPE_DATA StunAttributeData bs
  | AddPriority v => attribute STUN_ATTRIBUTE_TYPE_PRIORITY 4 (StunAttributePriority v)
  | AddLifetime v => attribute STUN_ATTRIBUTE_TYPE_LIFETIME 4 (StunAttributeLifetime v)
  | AddChangeRequest v => attribute STUN_ATTRIBUTE_TYPE_CHANGE_REQUEST 4 (StunAttributeChangeRequest v)
  | AddFlag t => attribute t 0 StunAttributeFlag
  | AddRequestedTransport v =>
      attribute STUN_ATTRIBUTE_TYPE_REQUESTED_TRANSPORT 4 (StunAttributeRequestedTransport [u8 v; 0; 0; 0])
  | AddChannelNumber n => attribute STUN_ATTRIBUTE_TYPE_CHANNEL_NUMBER 4 (StunAttributeChannelNumber n 0)
  | AddIceControl t tie => attribute t 8 (StunAttributeIceControl (native_bytes64 h tie ++ zeros 4))
  end.

Lemma padding_ok bs : bytes_ok bs -> blen (padding bs) = ROUND_UP (blen bs) 4 /\ bytes_ok (padding bs).
Proof.
  intros Hb. pose proof (ROUND_UP_le (blen bs) (blen_nonneg bs)). unfold padding. split.
  - rewrite blen_app, blen_zeros_Z by lia. lia.
  - apply bytes_ok_app. split; [done|apply zeros_ok].
Qed.

Lemma requested_ok h r : request_ok h r -> attribute_ok h (requested h r).
Proof.
  assert (Hstr : forall t mx body bs, In (t, mx, body) string_types -> bytes_ok bs -> blen bs <= mx ->
    attribute_ok h (attribute t (blen bs) (body (ROUND_UP (blen bs) 4) (padding bs)))).
  { intros t mx body bs Hin Hb Hm. destruct (padding_ok bs Hb). pose proof (blen_nonneg bs).
    by apply (ok_string h t mx). }
  destruct r; cbn [request_ok requested]; intros H.
  - destruct H as (? & ? & ? & ?). by apply ok_address.
  - destruct H as [[? _] ?]. eapply Hstr; cbn; eauto.
  - destruct H as [[? _] ?]. eapply Hstr; cbn; eauto.
  - destruct H as [? ?]. eapply Hstr; cbn; eauto 6.
  - destruct H as [? ?]. eapply Hstr; cbn; eauto 7.
  - by apply (ok_word h _ StunAttributePriority); [cbn; auto|].
  - by apply (ok_word h _ StunAttributeLifetime); [cbn; auto|].
  - by apply (ok_word h _ StunAttributeChangeRequest); [cbn; auto|].
  - by apply ok_flag.
  - apply ok_transport; [done|]. repeat constructor; try apply u8_range; unfold is_u8; lia.
  - by apply ok_channel.
  - destruct H. by apply ok_ice.
Qed.

Lemma requested_all h rs : Forall (request_ok h) rs -> Forall (attribute_ok h) (map (requested h) rs).
Proof. intros Hrs. apply Forall_map. eapply Forall_impl; [|exact Hrs]. apply requested_ok. Qed.

(** ** The layout of the allocation *)

Definition packaged (a : StunAttribute) : Z := ROUND_UP (struct_size a) 8.
Definition used (l : list StunAttribute) : Z := foldr (fun a s => packaged a + s) 0 l.

Fixpoint offsets (o : Z) (l : list StunAttribute) : list Z :=
  match l with
  | [] => []
  | a :: l => o :: offsets (o + packaged a) l
  end.

(** The structs begin behind the packet and its array of twenty pointers. *)
Definition FIRST : Z := SIZEOF_StunPacket + SIZEOF_PStunAttributeHeader * STUN_ATTRIBUTE_MAX_COUNT.

Lemma packaged_bounds h a : attribute_ok h a -> struct_size a <= packaged a <= struct_size a + 7.
Proof.
  intros Ha. pose proof (attribute_bounds h a Ha) as (_ & _ & _ & _ & ?). unfold packaged.
  rewrite ROUND_UP_8 by lia. Z.div_mod_to_equations. lia.
Qed.

Lemma packaged_size h a : attribute_ok h a -> getPackagedStunAttributeSize a = Ok (packaged a).
Proof.
  intros H. pose proof (packaged_bounds h a H) as Hpk.
  assert (E : forall n, n = struct_size a -> n <= 65100 -> Ok (u16 (ROUND_UP n 8)) = Ok (packaged a)).
  { intros n -> Hn. pose proof (attribute_bounds h a H) as (_ & _ & _ & _ & ?).
    rewrite u16_id by (unfold is_u16; fold (packaged a); lia). done. }
  assert (Es : forall n, 16 + n = struct_size a -> 0 <= n <= 65003 ->
    Ok (u16 (ROUND_UP (u16 (16 + n)) 8)) = Ok (packaged a)).
  { intros n En Hn. rewrite (u16_id (16 + n)) by (unfold is_u16; lia). apply E; [done|lia]. }
  unfold getPackagedStunAttributeSize.
  attribute_cases H; cbn [attr_type attr_body attr_length] in *; unfold struct_size in *; cbn [attr_body] in *.
  1: rewrite Ht; apply E; [done|vm_compute; congruence].
  all: pick_case; cbn [mbind res_bind paddedLengthOf].
  1-4: unfold STUN_MAX_USERNAME_LEN, STUN_MAX_REALM_LEN, STUN_MAX_NONCE_LEN in Hlen;
    pose proof (ROUND_UP_le len ltac:(lia)); apply Es; [done|lia].
  all: apply E; [done|vm_compute; congruence].
Qed.

Lemma offsets_app o l a : offsets o (l ++ [a]) = offsets o l ++ [o + used l].
Proof.
  revert o. induction l as [|x l IH]; intros o; cbn [offsets app used foldr]; [by rewrite Z.add_0_r|].
  rewrite IH. fold (used l). by rewrite Z.add_assoc.
Qed.

Lemma used_app l a : used (l ++ [a]) = used l + packaged a.
Proof. induction l as [|x l IH]; cbn [app used foldr]; [lia|]. fold (used (l ++ [a])) (used l). lia. Qed.

Lemma length_offsets o l : length (offsets o l) = length l.
Proof. revert o. induction l as [|x l IH]; intros o; cbn [offsets length]; [done|by rewrite IH]. Qed.

Lemma used_nonneg h l : Forall (attribute_ok h) l -> 0 <= used l.
Proof.
  induction 1 as [|a l Ha _ IH]; [done|]. cbn [used foldr]. fold (used l).
  pose proof (packaged_bounds h a Ha). pose proof (attribute_bounds h a Ha) as (_ & _ & _ & _ & ?). lia.
Qed.

Lemma offsets_below h o l : Forall (attribute_ok h) l -> Forall (fun x => x < o + used l) (offsets o l).
Proof.
  intros Hl. revert o. induction Hl as [|a l Ha Hl IH]; intros o; cbn [offsets used foldr]; [constructor|].
  fold (used l). pose proof (packaged_bounds h a Ha). pose proof (attribute_bounds h a Ha) as (_ & _ & _ & _ & ?).
  pose proof (used_nonneg h l Hl). constructor; [lia|]. by rewrite Z.add_assoc.
Qed.

(** On the wire an attribute is not longer than in memory. *)
Lemma wire_le_packaged h tid a : attribute_ok h a -> blen tid = 12 -> blen (wire_attr h tid a) <= packaged a.
Proof.
  intros H Ht0. rewrite blen_wire_attr by done. pose proof (packaged_bounds h a H) as [Hp _].
  etransitivity; [|exact Hp]. clear Hp.
  attribute_cases H; unfold struct_size; cbn [attr_body attr_length]; try lia; try (vm_compute; congruence).
  unfold addressLength. destruct (IS_IPV4_ADDR a); vm_compute; congruence.
Qed.

Lemma wires_le_used h tid l : Forall (attribute_ok h) l -> blen tid = 12 -> blen (wires h tid l) <= used l.
Proof.
  intros Hl Ht. induction Hl as [|a l Ha _ IH]; [done|]. rewrite wires_cons, blen_app. cbn [used foldr]. fold (used l).
  pose proof (wire_le_packaged h tid a Ha Ht). lia.
Qed.

Lemma wires_app h tid l a : wires h tid (l ++ [a]) = wires h tid l ++ wire_attr h tid a.
Proof.
  induction l as [|x l IH]; cbn [app]; rewrite !wires_cons; [by rewrite app_nil_r|].
  by rewrite IH, (assoc_L (++)).
Qed.

(** The invariant of a packet under construction that holds the attributes [l]. *)
Record built (h : endian) (p : StunPacket) (l : list StunAttribute) : Prop := {
  built_holds : packet_holds h p l;
  built_offsets : attributeList p = offsets FIRST l;
  built_fits : FIRST + used l <= STUN_PACKET_ALLOCATION_SIZE;
  built_allocation : allocationSize p = STUN_PACKET_ALLOCATION_SIZE;
  built_slots : slots p = STUN_ATTRIBUTE_MAX_COUNT;
  built_length : messageLength (header p) = blen (wires h (transactionId (header p)) l);
  built_type : is_u16 (stunMessageType (header p));
}.

(** The packet with one more attribute. *)
Definition pushed (p : StunPacket) (o : Z) (a : StunAttribute) : StunPacket :=
  {| header := {| stunMessageType := stunMessageType (header p);
                  messageLength := u16 (messageLength (header p) + (ROUND_UP (attr_length a) 4 + 4));
                  magicCookie := magicCookie (header p); transactionId := transactionId (header p) |};
     allocationSize := allocationSize p;
     attributeList := attributeList p ++ [o];
     slots := slots p;
     attrs := <[o := a]> (attrs p) |}.

Lemma built_pushed h p l a :
  built h p l -> attribute_ok h a -> FIRST + used l + packaged a <= STUN_PACKET_ALLOCATION_SIZE ->
  built h (pushed p (FIRST + used l) a) (l ++ [a]).
Proof.
  intros [(He & Hl & Hm & Ht & Htb) Ho Hf Ha Hs Hml Hty] Hok Hfit.
  pose proof (offsets_below h FIRST l Hl) as Hbelow. pose proof (wires_le_used h _ l Hl Ht) as Hwu.
  pose proof (wire_le_packaged h (transactionId (header p)) a Hok Ht) as Hwa.
  split; cbn [pushed header attributeList allocationSize slots stunMessageType messageLength transactionId magicCookie].
  - unfold packet_holds. cbn [pushed header attributeList transactionId magicCookie].
    split_and!; [|apply Forall_app; by repeat constructor|done..].
    rewrite Ho in *. apply (stored_add (attrs p) _ l (FIRST + used l) a 1); [|lia]. by split.
  - by rewrite Ho, offsets_app.
  - rewrite used_app. lia.
  - done.
  - done.
  - rewrite wires_app, blen_app, blen_wire_attr, Hml by done. blen_facts. rewrite u16_id; [lia|].
    rewrite blen_wire_attr in Hwa by done. pose proof (attribute_bounds h a Hok) as (_ & _ & _ & ? & _).
    unfold is_u16, STUN_PACKET_ALLOCATION_SIZE in *. change FIRST with 200 in *. lia.
  - done.
Qed.

Lemma lget_last {A} (l : list A) x : lget (l ++ [x]) (Z.of_nat (length l)) = Ok x.
Proof.
  unfold lget. rewrite (proj2 (Z.leb_le _ _)), Nat2Z.id by lia.
  by rewrite lookup_app_r, Nat.sub_diag by lia.
Qed.

(** The first free byte is behind the structs, unless they fill the allocation. *)
Lemma first_available h p l :
  built h p l -> Z.of_nat (length l) <= 20 ->
  getFirstAvailableStunAttribute (Some p)
  = if FIRST + used l <? STUN_PACKET_ALLOCATION_SIZE then Ok (FIRST + used l) else Err STATUS_NOT_ENOUGH_MEMORY.
Proof.
  intros [(He & Hl & _) Ho Hf Ha Hs Hml _] Hc. unfold getFirstAvailableStunAttribute, attributesCount.
  rewrite Ho in He |- *. rewrite length_offsets, Ha. rewrite (proj2 (Z.leb_le _ STUN_ATTRIBUTE_MAX_COUNT)) by done.
  destruct l as [|a l _] using rev_ind; [done|].
  rewrite length_app. cbn [length]. rewrite offsets_app in *.
  rewrite (proj2 (Z.eqb_neq (Z.of_nat (length l + 1)) 0)) by lia. cbn [negb].
  replace (Z.of_nat (length l + 1) - 1) with (Z.of_nat (length (offsets FIRST l)))
    by (rewrite length_offsets; lia).
  rewrite lget_last. cbn [mbind res_bind].
  apply Forall2_app_inv in He as [_ He]; [|by rewrite length_offsets]. inversion He as [|? ? ? ? Hat]; subst.
  unfold attributeAt. rewrite Hat. cbn [mbind res_bind].
  apply Forall_app in Hl as [Hl Hok]. apply Forall_inv in Hok.
  assert (Hty : attr_type a <> STUN_ATTRIBUTE_TYPE_MESSAGE_INTEGRITY /\ attr_type a <> STUN_ATTRIBUTE_TYPE_FINGERPRINT).
  { clear -Hok. attribute_cases Hok; cbn [attr_type]; try done. by split; intros ->. }
  destruct Hty as [H1 H2]. rewrite (proj2 (Z.eqb_neq _ _) H1), (proj2 (Z.eqb_neq _ _) H2). cbn [andb negb].
  rewrite (packaged_size h a Hok). cbn [mbind res_bind]. by rewrite used_app, Z.add_assoc.
Qed.

Lemma addAttribute_built h p l o a added :
  built h p l -> Z.of_nat (length l) < 20 -> added = ROUND_UP (attr_length a) 4 + 4 ->
  addAttribute p o a added = Ok (pushed p o a).
Proof.
  intros Hb Hc ->. unfold addAttribute.
  assert (Hs : attributesCount p < slots p).
  { unfold attributesCount. rewrite (built_offsets _ _ _ Hb), length_offsets, (built_slots _ _ _ Hb). exact Hc. }
  by rewrite (proj2 (Z.ltb_lt _ _) Hs).
Qed.

(** What an append function does with the attribute [a]. *)
Definition appended (p : StunPacket) (l : list StunAttribute) (a : StunAttribute) : res StunPacket :=
  if FIRST + used l + packaged a <=? STUN_PACKET_ALLOCATION_SIZE then Ok (pushed p (FIRST + used l) a)
  else Err STATUS_NOT_ENOUGH_MEMORY.

(** The free byte is found, or the attribute does not fit anyway. *)
Lemma with_first h p l a (k : Z -> res StunPacket) :
  built h p l -> attribute_ok h a -> Z.of_nat (length l) < 20 ->
  k (FIRST + used l) = appended p l a -> (o ← getFirstAvailableStunAttribute (Some p); k o) = appended p l a.
Proof.
  intros Hb Ha Hc Hk. rewrite (first_available h p l) by (done || lia).
  pose proof (packaged_bounds h a Ha). pose proof (attribute_bounds h a Ha) as (_ & _ & _ & _ & ?).
  destruct (Z.ltb_spec (FIRST + used l) STUN_PACKET_ALLOCATION_SIZE); cbn [mbind res_bind]; [done|].
  unfold appended. by rewrite (proj2 (Z.leb_gt _ _)) by lia.
Qed.

Lemma appendFixed_built h p l t len body size :
  let a := attribute t len body in
  built h p l -> attribute_ok h a -> Z.of_nat (length l) < 20 -> size = packaged a -> ROUND_UP len 4 = len ->
  appendFixed (Some p) size t len body = appended p l a.
Proof.
  intros a Hb Ha Hc -> Hr. unfold appendFixed. apply (with_first h); [done..|].
  rewrite (built_allocation _ _ _ Hb). unfold appended.
  destruct (_ <=? _); [|done]. rewrite (addAttribute_built h p l) by (done || (cbn [attr_length]; by rewrite Hr)). done.
Qed.

Lemma appendPadded_built h p l t mx body bs c :
  let a := attribute t (blen bs) (body (ROUND_UP (blen bs) 4) (padding bs)) in
  In (t, mx, body) string_types -> bytes_ok bs -> blen bs <= mx -> mx <= 65000 ->
  built h p l -> Z.of_nat (length l) < 20 ->
  appendPadded (Some p) 16 t (blen bs) (bs ++ c) body = appended p l a.
Proof.
  intros a Hin Hbs Hmx Hmx2 Hb Hc. pose proof (blen_nonneg bs) as Hnn. pose proof (ROUND_UP_le (blen bs) Hnn) as Hr.
  destruct (padding_ok bs Hbs) as [Hp1 Hp2].
  assert (Ha : attribute_ok h a) by by apply (ok_string h t mx).
  unfold appendPadded. apply (with_first h); [done..|]. rewrite (built_allocation _ _ _ Hb).
  rewrite (u16_id (ROUND_UP (blen bs) 4)) by (unfold is_u16; lia).
  assert (Hsz : packaged a = ROUND_UP (ROUND_UP (blen bs) 4 + 16) 8).
  { unfold packaged, a, struct_size, attribute. cbn [attr_body]. rewrite (Z.add_comm _ 16).
    cbn in Hin. destruct Hin as [[= <- <- <-]|[[= <- <- <-]|[[= <- <- <-]|[[= <- <- <-]|[]]]]]; reflexivity. }
  unfold appended. rewrite Hsz. destruct (Z.leb_spec (FIRST + used l + ROUND_UP (ROUND_UP (blen bs) 4 + 16) 8)
    STUN_PACKET_ALLOCATION_SIZE) as [Hle|]; [|done].
  pose proof (ld_bytes_app [] bs c 0 (blen bs) eq_refl eq_refl) as E. cbn [app] in E. rewrite E. cbn [mbind res_bind].
  rewrite (ROUND_UP_8 (_ + 16)) in Hle by lia.
  rewrite (proj2 (Z.leb_le (FIRST + used l + 16 + blen bs) _)) by (revert Hle; Z.div_mod_to_equations; lia).
  by rewrite (addAttribute_built h p l).
Qed.

Lemma STRNLEN_string s n :
  Forall (fun c => c <> 0) s -> blen s <= Z.of_nat n -> STRNLEN (s ++ [0]) n = Ok (blen s).
Proof.
  intros Hs. revert n. induction Hs as [|c s Hc _ IH]; intros n Hn; [by destruct n|].
  rewrite blen_cons in *. blen_facts. destruct n as [|n]; [lia|]. cbn [STRNLEN app].
  rewrite (proj2 (Z.eqb_neq c 0)), IH by (done || lia). done.
Qed.

Lemma appendString_built h p l t mx body s :
  let a := attribute t (blen s) (body (ROUND_UP (blen s) 4) (padding s)) in
  In (t, mx, body) string_types -> c_string s -> blen s <= mx -> mx <= 65000 ->
  built h p l -> Z.of_nat (length l) < 20 ->
  appendString (Some p) (Some (s ++ [0])) mx 16 t body = appended p l a.
Proof.
  intros a Hin [Hs Hnz] Hmx Hmx2 Hb Hc. unfold appendString. pose proof (blen_nonneg s).
  apply (with_first h p l a); [done| |done|].
  - destruct (padding_ok s Hs). by apply (ok_string h t mx).
  - rewrite STRNLEN_string by (done || lia). cbn [mbind res_bind]. by apply (appendPadded_built h p l t mx).
Qed.

(** Every append function adds its attribute when the struct fits, and fails otherwise. *)
Lemma append_built h p l r :
  built h p l -> request_ok h r -> Z.of_nat (length l) < 20 ->
  append h p r = appended p l (requested h r).
Proof.
  intros Hb Hr Hc. pose proof (requested_ok h r Hr) as Ha.
  destruct r; cbn [append requested request_ok] in *.
  2,3: destruct Hr as [Hs Hm]; apply (appendString_built h); [cbn; auto|done|done|vm_compute; congruence|done..].
  2,3: destruct Hr as [Hs Hm]; unfold appendStunNonceAttribute, appendStunDataAttribute;
    pose proof (fun t mx body => appendPadded_built h p l t mx body bs []) as E; rewrite app_nil_r in E.
  2: apply (E _ STUN_MAX_NONCE_LEN); [cbn; auto|done|done|vm_compute; congruence|done..].
  2: apply (E _ 65000); [cbn; auto 7|done|done|done|done..].
  all: try (apply (appendFixed_built h p l); [done|exact Ha|done|reflexivity|reflexivity]).
  - apply (appendFixed_built h p l); [done|exact Ha|done|reflexivity|].
    unfold addressLength. by destruct (IS_IPV4_ADDR a).
  - destruct Hr as [Ht Htie]. unfold appendStunIceControllAttribute. rewrite Ht.
    apply (appendFixed_built h p l _ 8 (StunAttributeIceControl (native_bytes64 h tieBreaker ++ zeros 4)));
      [done|exact Ha|done|reflexivity|reflexivity].
Qed.

Lemma createStunPacket_built h rand mt tid :
  is_u16 mt -> blen tid = 12 -> bytes_ok tid ->
  exists p, createStunPacket true rand mt (Some tid) true = Ok p
  /\ built h p [] /\ stunMessageType (header p) = mt /\ transactionId (header p) = tid.
Proof.
  intros Hm Ht Htb. unfold createStunPacket.
  pose proof (ld_bytes_app [] tid [] 0 STUN_TRANSACTION_ID_LEN eq_refl (eq_sym Ht)) as E.
  rewrite app_nil_r in E. cbn [app] in E. rewrite E. cbn [mbind res_bind]. rewrite u16_id by done.
  eexists. split; [reflexivity|]. split; [|done]. split; [|done|vm_compute; congruence|done..]. unfold packet_holds. split_and!; [constructor|constructor|done..].
Qed.

(** A sequence of calls. *)
Lemma appendAll_built h p l rs :
  built h p l -> Forall (request_ok h) rs -> Z.of_nat (length l + length rs) <= 20 ->
  if FIRST + used l + used (map (requested h) rs) <=? STUN_PACKET_ALLOCATION_SIZE then
    exists p', appendAll h p rs = Ok p' /\ built h p' (l ++ map (requested h) rs)
    /\ stunMessageType (header p') = stunMessageType (header p)
    /\ transactionId (header p') = transactionId (header p)
  else appendAll h p rs = Err STATUS_NOT_ENOUGH_MEMORY.
Proof.
  intros Hb Hrs. revert p l Hb. induction Hrs as [|r rs Hr Hrs IH]; intros p l Hb Hc; cbn [map appendAll length] in *.
  - cbn [used foldr]. rewrite Z.add_0_r, (proj2 (Z.leb_le _ _)) by apply (built_fits _ _ _ Hb).
    exists p. rewrite app_nil_r. done.
  - pose proof (requested_ok h r Hr) as Ha. set (a := requested h r) in *.
    assert (Hrest : 0 <= used (map (requested h) rs)).
    { by apply (used_nonneg h), requested_all. }
    rewrite (append_built h p l r) by (done || lia). unfold appended. fold a. cbn [used foldr].
    fold (used (map (requested h) rs)).
    destruct (Z.leb_spec (FIRST + used l + packaged a) STUN_PACKET_ALLOCATION_SIZE) as [Hf|Hf]; cbn [mbind res_bind].
    + specialize (IH _ _ (built_pushed h p l a Hb Ha Hf)). rewrite length_app, used_app in IH. cbn [length] in IH.
      rewrite <- (assoc_L (++) l [a]) in IH. cbn [app] in IH. rewrite !Z.add_assoc in *. apply IH. lia.
    + by rewrite (proj2 (Z.leb_gt _ _)) by lia.
Qed.
