(* ===== verification/IceUtils.v ===== *)
(** * ICE utilities (src/source/Ice/IceUtils.c, IceUtils.h)

    The ring of transaction ids that a client remembers to tell its own responses from
    others, and the packaging of a STUN packet with a password.  The store is proved to be
    a window over the last ids; the packaging is composed with the builders on one side and
    the parser on the other. *)

From stdpp Require Import gmap.
From S2P Require Import Prelude Endian Crc32c Crc32 Stun StunFormat StunParse StunBuild.

(** ** The store of transaction ids *)

Definition MAX_STORED_TRANSACTION_ID_COUNT : Z := 100.

Record TransactionIdStore : Type := {
  maxTransactionIdsCount : Z;
  nextTransactionIdIndex : Z;
  earliestTransactionIdIndex : Z;
  transactionIdCount : Z;
  transactionIds : list Z;
}.

Definition createTransactionIdStore (mem : bool) (maxIdCount : Z) (ppStore : bool) : res TransactionIdStore :=
  CHK ppStore else STATUS_NULL_ARG ;;
  CHK (maxIdCount <? MAX_STORED_TRANSACTION_ID_COUNT) && (0 <? maxIdCount) else STATUS_INVALID_ARG ;;
  CHK mem else STATUS_NOT_ENOUGH_MEMORY ;;
  Ok {| maxTransactionIdsCount := maxIdCount; nextTransactionIdIndex := 0; earliestTransactionIdIndex := 0;
        transactionIdCount := 0; transactionIds := zeros (STUN_TRANSACTION_ID_LEN * maxIdCount) |}.

(** A NULL store aborts the process, which is [Fault]. *)
Definition transactionIdStoreInsert (s : option TransactionIdStore) (transactionId : list Z) : res TransactionIdStore :=
  match s with
  | None => Fault
  | Some s =>
      let max := maxTransactionIdsCount s in
      id ← ld_bytes transactionId 0 STUN_TRANSACTION_ID_LEN;
      ids ← put_bytes (transactionIds s) ((nextTransactionIdIndex s mod max) * STUN_TRANSACTION_ID_LEN) id;
      let next := (nextTransactionIdIndex s +32 1) mod max in
      if next =? earliestTransactionIdIndex s then
        Ok {| maxTransactionIdsCount := max; nextTransactionIdIndex := next;
              earliestTransactionIdIndex := (earliestTransactionIdIndex s +32 1) mod max;
              transactionIdCount := transactionIdCount s; transactionIds := ids |}
      else
        Ok {| maxTransactionIdsCount := max; nextTransactionIdIndex := next;
              earliestTransactionIdIndex := earliestTransactionIdIndex s;
              transactionIdCount := Z.min (transactionIdCount s +32 1) max; transactionIds := ids |}
  end.

(** The slot of [transactionId] among the [j] slots from [i] on. *)
Fixpoint findId (s : TransactionIdStore) (transactionId : list Z) (i : Z) (j : nat) : res (option Z) :=
  match j with
  | O => Ok None
  | S j =>
      id ← ld_bytes transactionId 0 STUN_TRANSACTION_ID_LEN;
      slot ← ld_bytes (transactionIds s) (i * STUN_TRANSACTION_ID_LEN) STUN_TRANSACTION_ID_LEN;
      if bool_decide (id = slot) then Ok (Some i)
      else findId s transactionId ((i +32 1) mod maxTransactionIdsCount s) j
  end.

Definition transactionIdStoreHasId (s : option TransactionIdStore) (transactionId : list Z) : res bool :=
  match s with
  | None => Fault
  | Some s =>
      slot ← findId s transactionId (earliestTransactionIdIndex s) (Z.to_nat (maxTransactionIdsCount s));
      Ok (bool_decide (is_Some slot))
  end.

Definition transactionIdStoreRemove (s : option TransactionIdStore) (transactionId : list Z) : res TransactionIdStore :=
  match s with
  | None => Fault
  | Some s =>
      slot ← findId s transactionId (earliestTransactionIdIndex s) (Z.to_nat (maxTransactionIdsCount s));
      match slot with
      | None => Ok s
      | Some i =>
          ids ← put_bytes (transactionIds s) (i * STUN_TRANSACTION_ID_LEN) (zeros STUN_TRANSACTION_ID_LEN);
          Ok {| maxTransactionIdsCount := maxTransactionIdsCount s;
                nextTransactionIdIndex := nextTransactionIdIndex s;
                earliestTransactionIdIndex := earliestTransactionIdIndex s;
                transactionIdCount := transactionIdCount s; transactionIds := ids |}
      end
  end.

Definition transactionIdStoreClear (s : option TransactionIdStore) : res TransactionIdStore :=
  match s with
  | None => Fault
  | Some s =>
      Ok {| maxTransactionIdsCount := maxTransactionIdsCount s; nextTransactionIdIndex := 0;
            earliestTransactionIdIndex := 0; transactionIdCount := 0; transactionIds := transactionIds s |}
  end.

(** [rand] are the values RAND() returns; the buffer is overwritten. *)
Definition iceUtilsGenerateTransactionId (rand : nat -> Z) (pBuffer : option (list Z)) (bufferLen : Z) : res (list Z) :=
  match pBuffer with
  | None => Err STATUS_NULL_ARG
  | Some b =>
      CHK bufferLen =? STUN_TRANSACTION_ID_LEN else STATUS_INVALID_ARG ;;
      put_bytes b 0 (map (fun i => u8 (Z.rem (rand i) 0x100)) (seq 0 12))
  end.

(** ** Packaging a packet *)

(** The buffer behind the packet keeps its bytes: the serialiser is given the size it
    asked for, so the model hands it that much of the buffer. *)
Definition iceUtilsPackageStunPacket (h : endian) (hmac : list Z -> list Z -> option (list Z))
    (p : option StunPacket) (password : option (list Z)) (passwordLen : Z)
    (pBuffer : option (list Z)) (pBufferLen : option Z) : res (list Z * Z) :=
  match p, pBuffer, pBufferLen with
  | Some p, Some b, Some bufferLen =>
      CHK (bool_decide (password = None) && (passwordLen =? 0)) || (bool_decide (is_Some password) && (0 <? passwordLen))
        else STATUS_INVALID_ARG ;;
      let addMessageIntegrity := bool_decide (is_Some password) in
      '(_, size) ← serializeStunPacket h hmac (Some p) password passwordLen addMessageIntegrity true None (Some 0);
      CHK size <=? bufferLen else STATUS_BUFFER_TOO_SMALL ;;
      dst ← ld_bytes b 0 size;
      '(dst, size) ← serializeStunPacket h hmac (Some p) password passwordLen addMessageIntegrity true (Some dst) (Some size);
      match dst with
      | None => Fault
      | Some dst => b ← put_bytes b 0 dst; Ok (b, size)
      end
  | _, _, _ => Err STATUS_NULL_ARG
  end.

(** ** The store is a window over the last ids *)

Definition id_ok (id : list Z) : Prop := blen id = STUN_TRANSACTION_ID_LEN.

Lemma blen_rows rows : Forall id_ok rows -> blen (concat rows) = 12 * Z.of_nat (length rows).
Proof.
  induction 1 as [|r rows Hr _ IH]; [done|]. cbn [concat length]. rewrite blen_app, IH.
  unfold id_ok, STUN_TRANSACTION_ID_LEN in Hr. lia.
Qed.

Lemma row_split (rows : list (list Z)) i r :
  Forall id_ok rows -> rows !! i = Some r ->
  concat rows = concat (take i rows) ++ r ++ concat (drop (S i) rows)
  /\ Z.of_nat i * STUN_TRANSACTION_ID_LEN = blen (concat (take i rows)) /\ id_ok r.
Proof.
  intros Hr Hi. split_and!.
  - rewrite <- (take_drop_middle rows i r Hi) at 1. by rewrite concat_app.
  - rewrite blen_rows by (by apply Forall_take). rewrite length_take_le by (apply lookup_lt_Some in Hi; lia).
    unfold STUN_TRANSACTION_ID_LEN. lia.
  - by apply (proj1 (Forall_lookup _ rows) Hr i).
Qed.

Lemma row_load rows i r :
  Forall id_ok rows -> rows !! i = Some r ->
  ld_bytes (concat rows) (Z.of_nat i * STUN_TRANSACTION_ID_LEN) STUN_TRANSACTION_ID_LEN = Ok r.
Proof.
  intros Hr Hi. destruct (row_split rows i r Hr Hi) as (E & Ho & Hrow). rewrite E. by apply ld_bytes_app.
Qed.

Lemma row_store rows i r id :
  Forall id_ok rows -> rows !! i = Some r -> id_ok id ->
  put_bytes (concat rows) (Z.of_nat i * STUN_TRANSACTION_ID_LEN) id = Ok (concat (<[i := id]> rows)).
Proof.
  intros Hr Hi Hid. destruct (row_split rows i r Hr Hi) as (E & Ho & Hrow). rewrite E.
  rewrite put_bytes_app by (done || (unfold id_ok in *; congruence)).
  rewrite insert_take_drop by (by apply lookup_lt_Some in Hi). by rewrite concat_app.
Qed.

Lemma load_id id : id_ok id -> ld_bytes id 0 STUN_TRANSACTION_ID_LEN = Ok id.
Proof.
  intros Hid. pose proof (ld_bytes_app [] id [] 0 STUN_TRANSACTION_ID_LEN eq_refl (eq_sym Hid)) as E.
  by rewrite app_nil_r in E.
Qed.

(** The ids [w], oldest first, are in the slots from [nextTransactionIdIndex] round. *)
Definition holds_window (s : TransactionIdStore) (w : list (list Z)) : Prop :=
  exists n rows, transactionIds s = concat rows /\ Forall id_ok rows
  /\ nextTransactionIdIndex s = Z.of_nat n /\ (n < length rows)%nat
  /\ 0 <= earliestTransactionIdIndex s < Z.of_nat (length rows)
  /\ maxTransactionIdsCount s = Z.of_nat (length rows) /\ Z.of_nat (length rows) < MAX_STORED_TRANSACTION_ID_COUNT
  /\ w = drop n rows ++ take n rows.

Lemma create_window mem maxIdCount s :
  createTransactionIdStore mem maxIdCount true = Ok s ->
  holds_window s (replicate (Z.to_nat maxIdCount) (zeros STUN_TRANSACTION_ID_LEN)).
Proof.
  unfold createTransactionIdStore. destruct (Z.ltb_spec maxIdCount MAX_STORED_TRANSACTION_ID_COUNT) as [H1|]; [|done].
  destruct (Z.ltb_spec 0 maxIdCount) as [H2|]; [|done]. destruct mem; [|done]. cbn [andb]. intros [= <-].
  exists 0%nat, (replicate (Z.to_nat maxIdCount) (zeros STUN_TRANSACTION_ID_LEN)).
  cbn [transactionIds nextTransactionIdIndex earliestTransactionIdIndex maxTransactionIdsCount].
  rewrite length_replicate. split_and!; try lia.
  - unfold zeros. replace (Z.to_nat (STUN_TRANSACTION_ID_LEN * maxIdCount)) with (Z.to_nat maxIdCount * 12)%nat
      by (unfold STUN_TRANSACTION_ID_LEN; lia).
    induction (Z.to_nat maxIdCount) as [|k IH]; [done|]. cbn [Nat.mul replicate concat].
    rewrite replicate_add, IH. done.
  - by apply Forall_replicate.
  - by rewrite take_0, app_nil_r.
Qed.

Lemma next_slot n (rows : list (list Z)) :
  (n < length rows)%nat -> Z.of_nat (length rows) < MAX_STORED_TRANSACTION_ID_COUNT ->
  (Z.of_nat n +32 1) mod Z.of_nat (length rows) = Z.of_nat (if (S n =? length rows)%nat then 0 else S n).
Proof.
  intros Hn Hm. unfold MAX_STORED_TRANSACTION_ID_COUNT in Hm. rewrite u32_id by (unfold is_u32; lia).
  destruct (Nat.eqb_spec (S n) (length rows)) as [E|E].
  - rewrite <- E. replace (Z.of_nat n + 1) with (Z.of_nat (S n)) by lia. by rewrite Z.mod_same by lia.
  - rewrite Z.mod_small by lia. lia.
Qed.

(** Inserting drops the oldest id of the window and appends the new one. *)
Lemma insert_window s w x id :
  holds_window s (x :: w) -> id_ok id ->
  exists s', transactionIdStoreInsert (Some s) id = Ok s' /\ holds_window s' (w ++ [id]).
Proof.
  intros (n & rows & Em & Hr & En & Hn & He & Hmax & Hlt & Ew) Hid. unfold transactionIdStoreInsert.
  rewrite load_id by done. cbn [mbind res_bind]. rewrite Em, En, Hmax, (Z.mod_small (Z.of_nat n)) by lia.
  destruct (lookup_lt_is_Some_2 rows n Hn) as [r Hrow]. rewrite (row_store rows n r) by done. cbn [mbind res_bind].
  rewrite next_slot by done. set (n' := (if (S n =? length rows)%nat then 0 else S n)%nat).
  assert (Hn' : (n' < length rows)%nat) by (unfold n'; destruct (Nat.eqb_spec (S n) (length rows)); lia).
  assert (Hw : w ++ [id] = drop n' (<[n := id]> rows) ++ take n' (<[n := id]> rows)).
  { rewrite (drop_S rows r n Hrow) in Ew. injection Ew as -> Ew. subst w.
    unfold n'. destruct (Nat.eqb_spec (S n) (length rows)) as [E|E].
    - rewrite drop_0, take_0, app_nil_r, (drop_ge rows) by lia. cbn [app].
      rewrite insert_take_drop by done. by rewrite (drop_ge rows) by lia.
    - rewrite drop_insert_lt by lia. rewrite (take_S_r _ n id) by (by apply list_lookup_insert_eq).
      rewrite take_insert_ge by lia. by rewrite (assoc_L (++)). }
  assert (Hinv : forall e c, 0 <= e < Z.of_nat (length rows) ->
    holds_window {| maxTransactionIdsCount := Z.of_nat (length rows); nextTransactionIdIndex := Z.of_nat n';
                    earliestTransactionIdIndex := e; transactionIdCount := c;
                    transactionIds := concat (<[n := id]> rows) |} (w ++ [id])).
  { intros e c Hec. exists n', (<[n := id]> rows). rewrite length_insert. split_and!; try done; try apply Hec.
    by apply Forall_insert. }
  destruct (_ =? _); eexists; (split; [reflexivity|]); apply Hinv; [|done]. apply Z.mod_pos_bound. lia.
Qed.

(** The search visits the [j] slots from [e] on, round the ring. *)
Lemma findId_rows s rows id e j :
  transactionIds s = concat rows -> Forall id_ok rows -> maxTransactionIdsCount s = Z.of_nat (length rows) ->
  Z.of_nat (length rows) < MAX_STORED_TRANSACTION_ID_COUNT -> id_ok id -> (e < length rows)%nat ->
  exists r, findId s id (Z.of_nat e) j = Ok r /\
  match r with
  | Some i => exists n, i = Z.of_nat n /\ rows !! n = Some id
  | None => forall k, (k < j)%nat -> rows !! ((e + k) mod length rows)%nat <> Some id
  end.
Proof.
  intros Em Hr Hmax Hlt Hid. revert e. induction j as [|j IH]; intros e He; cbn [findId].
  - exists None. split; [done|]. lia.
  - rewrite load_id by done. cbn [mbind res_bind]. destruct (lookup_lt_is_Some_2 rows e He) as [r Hrow].
    rewrite Em, (row_load rows e r) by done. cbn [mbind res_bind].
    destruct (bool_decide_reflect (id = r)) as [->|Hne]; [exists (Some (Z.of_nat e)); eauto|].
    rewrite Hmax, next_slot by done. set (e' := (if (S e =? length rows)%nat then 0 else S e)%nat).
    assert (He' : (e' < length rows)%nat) by (unfold e'; destruct (Nat.eqb_spec (S e) (length rows)); lia).
    assert (Emod : forall k, ((e' + k) mod length rows = (e + S k) mod length rows)%nat).
    { intros k. unfold e'. destruct (Nat.eqb_spec (S e) (length rows)) as [E|E]; [|f_equal; lia].
      replace (e + S k)%nat with (k + 1 * length rows)%nat by lia. by rewrite Nat.Div0.mod_add. }
    destruct (IH e' He') as (r' & -> & Hres). exists r'. split; [done|]. destruct r' as [i|]; [done|].
    intros [|k] Hk; [rewrite Nat.add_0_r, Nat.mod_small by done; congruence|].
    rewrite <- Emod. apply Hres. lia.
Qed.

Lemma hasId_window s w id :
  holds_window s w -> id_ok id -> transactionIdStoreHasId (Some s) id = Ok (bool_decide (id ∈ w)).
Proof.
  intros (n & rows & Em & Hr & En & Hn & He & Hmax & Hlt & ->) Hid. unfold transactionIdStoreHasId.
  assert (Ee : earliestTransactionIdIndex s = Z.of_nat (Z.to_nat (earliestTransactionIdIndex s))) by lia.
  rewrite Ee, Hmax, Nat2Z.id.
  destruct (findId_rows s rows id (Z.to_nat (earliestTransactionIdIndex s)) (length rows)) as (r & -> & Hres);
    [done..|lia|]. cbn [mbind res_bind]. f_equal. apply bool_decide_ext.
  assert (Hw : id ∈ drop n rows ++ take n rows <-> id ∈ rows).
  { rewrite <- (take_drop n rows) at 3. rewrite !elem_of_app. tauto. }
  rewrite Hw. destruct r as [i|].
  - destruct Hres as (k & _ & Hk). split; [|by eauto]. intros _. by apply list_elem_of_lookup_2 with k.
  - split; [by intros [? [=]]|]. intros (k & Hk)%list_elem_of_lookup_1. exfalso. pose proof (lookup_lt_Some _ _ _ Hk).
    set (e := Z.to_nat (earliestTransactionIdIndex s)) in *. assert (e < length rows)%nat by lia.
    apply (Hres ((k + (length rows - e)) mod length rows)%nat); [apply Nat.mod_upper_bound; lia|].
    rewrite Nat.Div0.add_mod_idemp_r. replace (e + (k + (length rows - e)))%nat with (k + 1 * length rows)%nat by lia.
    by rewrite Nat.Div0.mod_add, Nat.mod_small.
Qed.

(** Inserting a sequence of ids. *)
Fixpoint insertAll (s : TransactionIdStore) (ids : list (list Z)) : res TransactionIdStore :=
  match ids with
  | [] => Ok s
  | id :: ids => s ← transactionIdStoreInsert (Some s) id; insertAll s ids
  end.

Lemma insertAll_window s w ids :
  holds_window s w -> Forall id_ok ids ->
  exists s', insertAll s ids = Ok s' /\ holds_window s' (drop (length ids) (w ++ ids)).
Proof.
  intros Hs Hids. revert s w Hs. induction Hids as [|id ids Hid _ IH]; intros s w Hs.
  - exists s. by rewrite app_nil_r.
  - destruct w as [|x w].
    { destruct Hs as (n & rows & _ & _ & _ & Hn & _ & _ & _ & Ew). apply (f_equal length) in Ew.
      rewrite length_app, length_drop, length_take in Ew. cbn in Ew. lia. }
    destruct (insert_window s w x id Hs Hid) as (s1 & E1 & H1). cbn [insertAll]. rewrite E1. cbn [mbind res_bind].
    destruct (IH s1 _ H1) as (s2 & -> & H2). exists s2. split; [done|].
    cbn [length app drop]. by rewrite <- (assoc_L (++)) in H2.
Qed.

(** Clearing resets the indices but not the ids. *)
Lemma clear_keeps s w :
  holds_window s w -> exists s' w', transactionIdStoreClear (Some s) = Ok s' /\ holds_window s' w' /\ w' ≡ₚ w.
Proof.
  intros (n & rows & Em & Hr & En & Hn & He & Hmax & Hlt & ->). eexists _, rows. split; [reflexivity|]. split.
  - exists 0%nat, rows. cbn [transactionIds nextTransactionIdIndex earliestTransactionIdIndex maxTransactionIdsCount].
    split_and!; try done; try lia. by rewrite take_0, app_nil_r.
  - by rewrite (comm (++)), take_drop.
Qed.

(** ** Packaging writes the bytes of the packet *)

(** No password with length zero, or a password and its length. *)
Definition password_ok (password : option (list Z)) (n : Z) : Prop :=
  match password with
  | None => n = 0
  | Some pw => 0 < n <= blen pw /\ bytes_ok pw
  end.

(** The key of a password of [n] bytes. *)
Definition key_of (password : option (list Z)) (n : Z) : option (list Z) :=
  (fun pw => take (Z.to_nat n) pw) <$> password.

Lemma password_credentials password n :
  password_ok password n -> credentials (bool_decide (is_Some password)) password n (key_of password n).
Proof.
  destruct password as [pw|]; cbn; [|done]. intros [Hn Hb]. done.
Qed.

Lemma password_knows password n : password_ok password n -> knows password n (key_of password n).
Proof. destruct password as [pw|]; cbn; [|done]. intros [Hn _]. by exists pw. Qed.

Lemma password_checked password n :
  password_ok password n ->
  (bool_decide (password = None) && (n =? 0)) || (bool_decide (is_Some password) && (0 <? n)) = true.
Proof.
  destruct password as [pw|]; cbn; [|by intros ->]. intros [Hn _].
  by rewrite (proj2 (Z.ltb_lt 0 n)) by lia.
Qed.

Lemma key_count_of password n : key_count (key_of password n) <= 1.
Proof. destruct password; cbn; lia. Qed.

Lemma trailer_le (key : option (list Z)) (fp : bool) :
  0 <= match key with Some _ => 24 | None => 0 end + (if fp then 8 else 0) <= 32.
Proof. destruct key, fp; lia. Qed.

Section Packaging.
Context (h : endian) (hmac : list Z -> list Z -> option (list Z)) `{!HmacSha1 hmac}.

Lemma built_size p l key fp :
  built h p l -> 20 <= blen (packet_bytes h hmac p l key fp) <= 1900.
Proof.
  intros Hb. pose proof (packet_sizes h hmac p l key fp (built_holds _ _ _ Hb)) as Hs. cbv zeta in Hs.
  destruct (built_holds _ _ _ Hb) as (_ & Hl & _ & Ht & _).
  pose proof (wires_le_used h _ l Hl Ht) as Hw. pose proof (built_fits _ _ _ Hb) as Hf.
  change FIRST with 200 in Hf. unfold STUN_PACKET_ALLOCATION_SIZE in Hf.
  pose proof (trailer_le key fp). pose proof (blen_nonneg (wires h (transactionId (header p)) l)). lia.
Qed.

Lemma package_bytes p l password n buf :
  let b := packet_bytes h hmac p l (key_of password n) true in
  built h p l -> password_ok password n -> blen b <= blen buf ->
  iceUtilsPackageStunPacket h hmac (Some p) password n (Some buf) (Some (blen buf))
  = Ok (b ++ drop (Z.to_nat (blen b)) buf, blen b).
Proof.
  intros b Hb Hp Hfit. pose proof (built_size p l (key_of password n) true Hb) as Hs. fold b in Hs.
  assert (H16 : blen b < 2 ^ 16) by lia.
  pose proof (serialize_size h hmac p l _ password n _ true 0 (built_holds _ _ _ Hb) (password_credentials _ _ Hp) H16) as E1.
  fold b in E1.
  set (dst := take (Z.to_nat (blen b)) buf).
  assert (Hdst : blen dst = blen b) by (apply blen_take; lia).
  pose proof (serialize_bytes h hmac p l _ password n _ true dst (built_holds _ _ _ Hb) (password_credentials _ _ Hp) Hdst) as E2.
  fold b in E2. rewrite Hdst in E2. specialize (E2 H16). clearbody b.
  unfold iceUtilsPackageStunPacket. rewrite password_checked by exact Hp. rewrite E1. cbn [mbind res_bind].
  rewrite (proj2 (Z.leb_le _ _) Hfit).
  assert (E3 : ld_bytes buf 0 (blen b) = Ok dst).
  { rewrite ld_bytes_in by lia. by rewrite drop_0. }
  rewrite E3. cbn [mbind res_bind]. rewrite E2. cbn [mbind res_bind].
  pose proof (put_bytes_at [] buf b 0 eq_refl Hfit) as E4. cbn [app] in E4. by rewrite E4.
Qed.

(** A packet that is built, packaged with a password and parsed with it. *)
Definition deliver (rand : nat -> Z) (mt : Z) (tid : list Z) (rs : list Request) (password : option (list Z)) (n : Z)
    (buf : list Z) (password' : option (list Z)) (n' : Z) : res StunPacket :=
  p ← createStunPacket true rand mt (Some tid) true;
  p ← appendAll h p rs;
  '(b, size) ← iceUtilsPackageStunPacket h hmac (Some p) password n (Some buf) (Some (blen buf));
  b ← ld_bytes b 0 size;
  '(_, q) ← deserializeStunPacket h hmac true (Some b) size password' n' true;
  Ok q.

(** The bytes that are on the wire in between. *)
Lemma deliver_bytes rand mt tid rs password n buf password' n' :
  let l := map (requested h) rs in
  let b := stun_bytes h hmac mt tid l (key_of password n) true in
  Forall (request_ok h) rs -> Z.of_nat (length rs) <= 20 -> FIRST + used l <= STUN_PACKET_ALLOCATION_SIZE ->
  is_u16 mt -> blen tid = 12 -> bytes_ok tid -> password_ok password n -> 1900 <= blen buf ->
  20 <= blen b <= 1900 /\
  deliver rand mt tid rs password n buf password' n'
  = ('(_, q) ← deserializeStunPacket h hmac true (Some b) (blen b) password' n' true; Ok q).
Proof.
  intros l b Hrs Hc Hfit Hmt Ht Htb Hp Hbuf. unfold deliver.
  destruct (createStunPacket_built h rand mt tid Hmt Ht Htb) as (p0 & -> & Hb0 & Em0 & Et0). cbn [mbind res_bind].
  pose proof (appendAll_built h p0 [] rs Hb0 Hrs) as Ha. cbn [length Nat.add used foldr app] in Ha.
  fold l in Ha. rewrite Z.add_0_r, (proj2 (Z.leb_le _ _) Hfit) in Ha. destruct (Ha Hc) as (p & -> & Hb & Em & Et).
  cbn [mbind res_bind]. pose proof (built_size p l (key_of password n) true Hb) as Hs.
  assert (Eb : packet_bytes h hmac p l (key_of password n) true = b)
    by (unfold packet_bytes, b; rewrite Em, Et, Em0, Et0; reflexivity).
  pose proof (package_bytes p l password n buf Hb Hp) as E. cbv zeta in E. rewrite Eb in E, Hs. split; [exact Hs|].
  rewrite E by lia. cbn [mbind res_bind].
  assert (El : ld_bytes (b ++ drop (Z.to_nat (blen b)) buf) 0 (blen b) = Ok b)
    by apply (ld_bytes_app [] b _ 0 (blen b) eq_refl eq_refl).
  rewrite El. reflexivity.
Qed.


(** C14. A receiver whose password gives another digest refuses a packet built from up to
    eighteen requests that satisfy [request_ok], and that fit the allocation, with
    STATUS_STUN_MESSAGE_INTEGRITY_MISMATCH, whichever mix of them it is.  (Of these the
    parser knows every type; an attribute of a type it does not know can make it skip the
    comparison.) *)
Theorem stun_wrong_password rand mt tid rs pw n buf pw' n' :
  let l := map (requested h) rs in
  let ws := wires h tid l in
  let signed := head mt (blen ws + 24) tid ws in
  Forall (request_ok h) rs -> Z.of_nat (length rs) <= 18 -> FIRST + used l <= STUN_PACKET_ALLOCATION_SIZE ->
  is_u16 mt -> blen tid = 12 -> bytes_ok tid -> password_ok (Some pw) n -> password_ok (Some pw') n' -> 1900 <= blen buf ->
  hmac (take (Z.to_nat n') pw') signed <> hmac (take (Z.to_nat n) pw) signed ->
  deliver rand mt tid rs (Some pw) n buf (Some pw') n' = Err STATUS_STUN_MESSAGE_INTEGRITY_MISMATCH.
Proof.
  intros l ws signed Hrs Hc Hf Hmt Ht Htb Hp [Hn' _] Hbuf Hne.
  destruct (deliver_bytes rand mt tid rs (Some pw) n buf (Some pw') n' Hrs ltac:(lia) Hf Hmt Ht Htb Hp Hbuf) as [Hs E].
  cbv zeta in E. fold l in E, Hs. change (key_of (Some pw) n) with (Some (take (Z.to_nat n) pw)) in E, Hs. rewrite E.
  pose proof (deserialize_forged h hmac mt tid l (take (Z.to_nat n) pw) true pw' n') as Ef. cbv zeta in Ef.
  rewrite Ef; [reflexivity|by apply requested_all|exact Hmt|exact Ht|exact Htb|lia| |exact Hn'|exact Hne].
  unfold l. rewrite length_map. cbn [fp_count]. lia.
Qed.

End Packaging.

(** C33. The store answers exactly for the ids of a window: the last [maxIdCount] that were
    inserted, and the all-zero id until that many were.  Clearing the store does not change
    any answer: the ids stay in memory and are still searched. *)
Theorem transactionIdStore_window maxIdCount s ids id :
  let window := drop (length ids) (replicate (Z.to_nat maxIdCount) (zeros STUN_TRANSACTION_ID_LEN) ++ ids) in
  createTransactionIdStore true maxIdCount true = Ok s -> Forall id_ok ids -> id_ok id ->
  exists s', insertAll s ids = Ok s'
  /\ transactionIdStoreHasId (Some s') id = Ok (bool_decide (id ∈ window))
  /\ (s'' ← transactionIdStoreClear (Some s'); transactionIdStoreHasId (Some s'') id) = Ok (bool_decide (id ∈ window)).
Proof.
  intros window Hs Hids Hid. destruct (insertAll_window s _ ids (create_window _ _ _ Hs) Hids) as (s' & E & Hw).
  fold window in Hw. exists s'. split_and!; [exact E|by apply hasId_window|].
  destruct (clear_keeps s' window Hw) as (s2 & w2 & -> & Hw2 & Hperm). cbn [mbind res_bind].
  rewrite (hasId_window s2 w2 id Hw2 Hid). f_equal. apply bool_decide_ext. by rewrite Hperm.
Qed.

(** ** Examples *)

(** A digest that depends on the key and the message. *)
Definition ex_hmac (key m : list Z) : option (list Z) :=
  Some (map (fun i => u8 (foldl Z.add i key + foldl Z.add 0 m)) (seqZ 1 20)).

#[export] Instance ex_hmac_sha1 : HmacSha1 ex_hmac.
Proof.
  intros key m. eexists. split; [reflexivity|]. split; [by vm_compute|].
  apply Forall_forall. intros x Hx. apply in_map_iff in Hx as (i & <- & _). apply u8_range.
Qed.

Definition ex_address : KvsIpAddress :=
  {| family := KVS_IP_FAMILY_TYPE_IPV4; port := 0x3412; address := [10; 0; 0; 1] ++ zeros 12; isPointToPoint := false |}.
Definition ex_requests : list Request :=
  [AddUsername [97; 98; 99; 58; 100]; AddAddress STUN_ATTRIBUTE_TYPE_XOR_MAPPED_ADDRESS ex_address;
   AddPriority 12345; AddIceControl STUN_ATTRIBUTE_TYPE_ICE_CONTROLLING 0x0102030405060708;
   AddFlag STUN_ATTRIBUTE_TYPE_USE_CANDIDATE].
Definition ex_tid : list Z := seqZ 1 12.

Lemma ex_requests_ok : Forall (request_ok LittleEndian) ex_requests.
Proof.
  assert (Ha : address_ok ex_address).
  { split_and!; [by left|vm_compute; intuition congruence..|by vm_compute|by apply bytes_ok_check]. }
  repeat constructor; cbn; try done; try (vm_compute; intuition congruence).
Qed.

Definition ex_password : list Z := [112; 119].


Lemma stun_wrong_password_witness :
  deliver LittleEndian ex_hmac (fun _ => 0) 1 ex_tid ex_requests (Some ex_password) 2 (zeros 2048) (Some [112; 120]) 2
  = Err STATUS_STUN_MESSAGE_INTEGRITY_MISMATCH.
Proof.
  apply (stun_wrong_password LittleEndian ex_hmac (fun _ => 0) 1 ex_tid ex_requests ex_password 2 (zeros 2048) [112; 120] 2
    ex_requests_ok); try (by vm_compute); try (vm_compute; intuition congruence).
  - by apply bytes_ok_check.
  - split; [by vm_compute|by apply bytes_ok_check].
  - split; [by vm_compute|by apply bytes_ok_check].
Defined.

(** An ERROR-CODE without a value makes the parser read behind the packet. *)
Lemma stun_short_error_code_faults :
  let b := head 0x0111 4 ex_tid (be16 STUN_ATTRIBUTE_TYPE_ERROR_CODE ++ be16 0) in
  deserializeStunPacket LittleEndian ex_hmac true (Some b) (blen b) None 0 true = Fault.
Proof. by vm_compute. Qed.

(** Twenty attributes fit the array of pointers; the check lets the twenty-first through,
    which is written over the first attribute. *)
Lemma stun_attribute_21_overruns :
  let flags n := replicate n (AddFlag STUN_ATTRIBUTE_TYPE_DONT_FRAGMENT) in
  let build n := p ← createStunPacket true (fun _ => 0) 1 (Some ex_tid) true; appendAll LittleEndian p (flags n) in
  (exists p, build 20%nat = Ok p) /\ build 21%nat = Fault.
Proof. cbv zeta. split; [eexists; vm_compute; reflexivity|by vm_compute]. Qed.

Definition ex_id (i : Z) : list Z := i :: zeros 11.

(** A store of two ids after three inserts: the first id is forgotten, the second is not. *)
Lemma transactionIdStore_window_witness :
  exists s s', createTransactionIdStore true 2 true = Ok s /\ insertAll s [ex_id 1; ex_id 2; ex_id 3] = Ok s'
  /\ transactionIdStoreHasId (Some s') (ex_id 2) = Ok true
  /\ (s'' ← transactionIdStoreClear (Some s'); transactionIdStoreHasId (Some s'') (ex_id 2)) = Ok true.
Proof.
  edestruct (transactionIdStore_window 2) as (s' & E & H1 & H2); [reflexivity| | |].
  - instantiate (1 := [ex_id 1; ex_id 2; ex_id 3]). by repeat constructor.
  - instantiate (1 := ex_id 2). reflexivity.
  - eexists _, s'. split; [reflexivity|]. split_and!; [exact E|..].
    + rewrite H1. by vm_compute.
    + rewrite H2. by vm_compute.
Defined.
