(* ===== verification/IOBuffer.v ===== *)
(** * The I/O buffer (src/source/Crypto/IOBuffer.c, IOBuffer.h)

    The growable byte queue between the TLS library and the sockets: writes append, reads
    take from the front.  It refines a plain FIFO of bytes. *)

From S2P Require Import Prelude.

(** [raw] is the allocation, [None] for NULL; the bytes behind [len] are whatever the
    allocator left there. *)
Record IOBuffer : Type := {
  io_off : Z;
  io_len : Z;
  io_cap : Z;
  raw : option (list Z);
}.

(** [junk n] is what an allocation of [n] bytes holds at first; [mem] says whether the
    allocator has memory. *)
Section Allocator.
Context (mem : Z -> bool) (junk : Z -> list Z).

Definition createIOBuffer (initialCap : Z) : res IOBuffer :=
  if negb (initialCap =? 0) then
    CHK mem initialCap else STATUS_NOT_ENOUGH_MEMORY ;;
    Ok {| io_off := 0; io_len := 0; io_cap := initialCap; raw := Some (junk initialCap) |}
  else Ok {| io_off := 0; io_len := 0; io_cap := 0; raw := None |}.

Definition ioBufferReset (b : option IOBuffer) : res IOBuffer :=
  match b with
  | None => Err STATUS_NULL_ARG
  | Some b => Ok {| io_off := 0; io_len := 0; io_cap := io_cap b; raw := raw b |}
  end.

(** realloc keeps what fits of the old bytes. *)
Definition MEMREALLOC (old : option (list Z)) (n : Z) : list Z :=
  let old := default [] old in
  take (Z.to_nat n) (old ++ drop (length old) (junk n)).

(** The buffer and the status: when there is no memory the old pointer is overwritten with
    NULL, so the buffer changes on this error path. *)
Definition ioBufferWrite (b : option IOBuffer) (pData : option (list Z)) (dataLen : Z) : res (IOBuffer * STATUS) :=
  match b, pData with
  | Some b, Some d =>
      let freeSpace := io_cap b -32 io_len b in
      let newCap := io_len b +32 dataLen in
      if (freeSpace <? dataLen) && negb (mem newCap) then
        Ok ({| io_off := io_off b; io_len := io_len b; io_cap := io_cap b; raw := None |}, STATUS_NOT_ENOUGH_MEMORY)
      else
        let b := if freeSpace <? dataLen then
                   {| io_off := io_off b; io_len := io_len b; io_cap := newCap; raw := Some (MEMREALLOC (raw b) newCap) |}
                 else b in
        bs ← ld_bytes d 0 dataLen;
        r ← put_bytes (default [] (raw b)) (io_len b) bs;
        Ok ({| io_off := io_off b; io_len := io_len b +32 dataLen; io_cap := io_cap b;
               raw := (fun _ => r) <$> raw b |}, STATUS_SUCCESS)
  | _, _ => Err STATUS_NULL_ARG
  end.

(** The buffer, the destination and the number of bytes read. *)
Definition ioBufferRead (b : option IOBuffer) (pData : list Z) (bufferLen : Z) (pDataLen : bool)
    : res (IOBuffer * list Z * Z) :=
  match b with
  | None => Err STATUS_NULL_ARG
  | Some b =>
      CHK pDataLen else STATUS_NULL_ARG ;;
      let dataLen := Z.min bufferLen (io_len b -32 io_off b) in
      bs ← ld_bytes (default [] (raw b)) (io_off b) dataLen;
      d ← put_bytes pData 0 bs;
      let b := {| io_off := io_off b +32 dataLen; io_len := io_len b; io_cap := io_cap b; raw := raw b |} in
      b ← (if io_off b =? io_len b then ioBufferReset (Some b) else Ok b);
      Ok (b, d, dataLen)
  end.

(** ** The queue *)

Hypothesis junk_len : forall n, 0 <= n -> blen (junk n) = n.

(** The buffer holds the bytes [q]: they are at [io_off] in the allocation. *)
Definition holds_queue (b : IOBuffer) (q : list Z) : Prop :=
  exists done rest, default [] (raw b) = done ++ q ++ rest
  /\ io_off b = blen done /\ io_len b = blen done + blen q /\ io_cap b = io_len b + blen rest
  /\ (raw b = None -> io_cap b = 0) /\ io_cap b < 2 ^ 32.

Lemma create_queue cap b :
  0 <= cap < 2 ^ 32 -> createIOBuffer cap = Ok b -> holds_queue b [].
Proof.
  intros Hc. unfold createIOBuffer. destruct (Z.eqb_spec cap 0) as [->|Hne]; cbn [negb].
  - intros [= <-]. exists [], []. by split_and!.
  - destruct (mem cap); [|done]. intros [= <-]. exists [], (junk cap). cbn [raw io_off io_len io_cap default].
    split_and!; try done; try lia.
    all: by rewrite junk_len by lia.
Qed.

Lemma realloc_queue done q rest n :
  blen (done ++ q ++ rest) <= n ->
  exists rest', MEMREALLOC (Some (done ++ q ++ rest)) n = done ++ q ++ rest' /\ blen (done ++ q ++ rest') = n
  /\ blen rest <= blen rest'.
Proof.
  intros Hn. pose proof (blen_nonneg (done ++ q ++ rest)) as Hold. unfold MEMREALLOC. cbv beta iota zeta delta [from_option id].
  set (old := done ++ q ++ rest) in *. assert (Hn0 : 0 <= n) by lia.
  assert (Hlen : blen (old ++ drop (length old) (junk n)) = n).
  { rewrite blen_app. unfold blen at 2. rewrite length_drop. pose proof (junk_len n Hn0) as Hj.
    unfold blen in *. lia. }
  exists (rest ++ drop (length old) (junk n)).
  rewrite take_ge by (unfold blen in Hlen; lia).
  assert (E : done ++ q ++ rest ++ drop (length old) (junk n) = old ++ drop (length old) (junk n))
    by (unfold old; by rewrite <- !(assoc_L (++))).
  split_and!; [done|by rewrite E|]. rewrite blen_app. pose proof (blen_nonneg (drop (length old) (junk n))). lia.
Qed.

(** Writing appends to the queue, when the allocator has memory for a larger buffer. *)
Lemma write_queue b q d :
  holds_queue b q -> io_len b + blen d < 2 ^ 32 -> mem (io_len b + blen d) = true ->
  exists b', ioBufferWrite (Some b) (Some d) (blen d) = Ok (b', STATUS_SUCCESS) /\ holds_queue b' (q ++ d)
  /\ io_len b' = io_len b + blen d.
Proof.
  intros (done & rest & Er & Eo & El & Ec & Hn & H32) Hlt Hmem. blen_facts. pose proof (blen_nonneg rest).
  unfold ioBufferWrite. rewrite (u32_id (io_cap b - _)), (u32_id (io_len b + _)) by (unfold is_u32; lia).
  rewrite Hmem. cbn [negb]. rewrite andb_false_r.
  assert (Eld : ld_bytes d 0 (blen d) = Ok d)
    by (pose proof (ld_bytes_app [] d [] 0 (blen d) eq_refl eq_refl) as E; by rewrite app_nil_r in E).
  rewrite Eld.
  (* both branches leave a buffer whose allocation has room behind the queue *)
  assert (Hroom : exists r rest', (if io_cap b - io_len b <? blen d then
      {| io_off := io_off b; io_len := io_len b; io_cap := io_len b + blen d;
         raw := Some (MEMREALLOC (raw b) (io_len b + blen d)) |} else b)
    = {| io_off := io_off b; io_len := io_len b; io_cap := io_len b + blen rest'; raw := r |}
    /\ default [] r = done ++ q ++ rest' /\ blen d <= blen rest' /\ (r = None -> io_len b + blen rest' = 0)
    /\ io_len b + blen rest' < 2 ^ 32).
  { destruct (Z.ltb_spec (io_cap b - io_len b) (blen d)) as [Hg|Hg].
    - destruct (realloc_queue done q rest (io_len b + blen d)) as (rest' & E & Hl & _); [rewrite !blen_app; lia|].
      rewrite !blen_app in Hl. eexists _, rest'. split_and!; [f_equal; lia|..|lia|done|lia].
      cbv beta iota delta [from_option id]. rewrite <- E. unfold MEMREALLOC. by rewrite Er.
    - exists (raw b), rest. split_and!; [by destruct b; cbn in *; f_equal|done|lia|intros Hr; specialize (Hn Hr); lia|lia]. }
  destruct Hroom as (r & rest' & -> & Edr & Hle & Hnone & H32'). cbn [mbind res_bind raw io_len io_off io_cap].
  rewrite Edr, (assoc_L (++)), put_bytes_at by (rewrite ?blen_app; lia). cbn [mbind res_bind].
  eexists. split; [reflexivity|]. cbn [raw io_len io_off io_cap]. rewrite u32_id by (unfold is_u32; lia). split; [|done].
  set (rest2 := drop (Z.to_nat (blen d)) rest').
  assert (Hr2 : blen rest2 = blen rest' - blen d) by (apply blen_drop; lia).
  exists done, rest2. cbn [raw io_len io_off io_cap]. split_and!; [|done|rewrite blen_app; lia|lia| |lia].
  - destruct r as [r|]; cbn in Edr |- *; [by rewrite <- !(assoc_L (++))|].
    symmetry in Edr. apply app_eq_nil in Edr as [-> Edr]. apply app_eq_nil in Edr as [-> ->].
    rewrite blen_nil in Hle. destruct d as [|x d]; [done|]. rewrite blen_cons in Hle. pose proof (blen_nonneg d). lia.
  - destruct r; [done|]. cbn. intros _. by apply Hnone.
Qed.

(** Reading takes as many bytes from the front of the queue as fit the destination. *)
Lemma read_queue b q dst :
  holds_queue b q ->
  let k := Z.min (blen dst) (blen q) in
  exists b', ioBufferRead (Some b) dst (blen dst) true
             = Ok (b', take (Z.to_nat k) q ++ drop (Z.to_nat k) dst, k)
  /\ holds_queue b' (drop (Z.to_nat k) q) /\ io_len b' <= io_len b.
Proof using.
  intros (done & rest & Er & Eo & El & Ec & Hn & H32) k. pose proof (blen_nonneg rest). pose proof (blen_nonneg done).
  pose proof (blen_nonneg q). pose proof (blen_nonneg dst).
  unfold ioBufferRead. rewrite (u32_id (io_len b - _)) by (unfold is_u32; lia).
  replace (io_len b - io_off b) with (blen q) by lia. fold k. set (q1 := take (Z.to_nat k) q).
  set (q2 := drop (Z.to_nat k) q).
  assert (Hk : blen q1 = k) by (apply blen_take; lia). assert (Hk2 : blen q2 = blen q - k) by (apply blen_drop; lia).
  assert (Eq : default [] (raw b) = done ++ q1 ++ q2 ++ rest)
    by (rewrite Er, (assoc_L (++) q1); unfold q1, q2; by rewrite take_drop).
  rewrite Eq, ld_bytes_app by lia. cbn [mbind res_bind].
  pose proof (put_bytes_at [] dst q1 0 eq_refl ltac:(lia)) as Ep. cbn [app] in Ep. rewrite Ep, Hk. cbn [mbind res_bind].
  cbn [io_off io_len io_cap raw]. rewrite (u32_id (io_off b + k)) by (unfold is_u32; lia).
  destruct (Z.eqb_spec (io_off b + k) (io_len b)) as [E|E]; cbn [mbind res_bind ioBufferReset];
    (eexists; split; [reflexivity|]); cbn [io_off io_len io_cap raw].
  - split; [|lia]. assert (q2 = []) as -> by (apply length_zero_iff_nil; unfold blen in *; lia).
    exists [], (default [] (raw b)). cbn [io_off io_len io_cap raw]. rewrite blen_nil.
    split_and!; try done; try lia. rewrite Er, !blen_app. lia.
  - split; [|lia]. exists (done ++ q1), rest. cbn [io_off io_len io_cap raw]. rewrite blen_app.
    split_and!; try done; try lia. by rewrite Eq, <- (assoc_L (++)).
Qed.

(** ** Sequences of writes and reads *)

(** A read with a destination of [n] bytes. *)
Inductive IoOp : Type :=
| IoWrite (d : list Z)
| IoRead (n : nat).

(** The bytes that the reads return, in order. *)
Fixpoint ioRun (b : IOBuffer) (ops : list IoOp) : res (IOBuffer * list Z) :=
  match ops with
  | [] => Ok (b, [])
  | IoWrite d :: ops =>
      '(b, st) ← ioBufferWrite (Some b) (Some d) (blen d);
      CHK negb (STATUS_FAILED st) else st ;;
      ioRun b ops
  | IoRead n :: ops =>
      '(b, d, k) ← ioBufferRead (Some b) (replicate n 0) (blen (replicate n 0)) true;
      '(b, out) ← ioRun b ops;
      Ok (b, take (Z.to_nat k) d ++ out)
  end.

(** The same of a queue. *)
Fixpoint queueRun (q : list Z) (ops : list IoOp) : list Z * list Z :=
  match ops with
  | [] => (q, [])
  | IoWrite d :: ops => queueRun (q ++ d) ops
  | IoRead n :: ops => let '(q', out) := queueRun (drop n q) ops in (q', take n q ++ out)
  end.

Definition written (ops : list IoOp) : Z :=
  foldr (fun op s => match op with IoWrite d => blen d + s | IoRead _ => s end) 0 ops.

(** With memory available the buffer behaves as a queue: no write fails, no access is out of
    bounds, and the reads return the bytes in the order of the writes. *)
Lemma ioBuffer_refines b q ops :
  (forall n, mem n = true) -> holds_queue b q -> io_len b + written ops < 2 ^ 32 ->
  exists b', ioRun b ops = Ok (b', snd (queueRun q ops)) /\ holds_queue b' (fst (queueRun q ops)).
Proof.
  intros Hmem. revert b q. induction ops as [|[d|n] ops IH]; intros b q Hq Hw; cbn [ioRun queueRun written foldr] in *.
  - by exists b.
  - fold (written ops) in Hw. assert (0 <= written ops).
    { clear. induction ops as [|[d|n] ops IH]; cbn; try done. pose proof (blen_nonneg d). fold (written ops). lia. }
    destruct (write_queue b q d Hq ltac:(lia) (Hmem _)) as (b1 & -> & Hq1 & El). cbn [mbind res_bind].
    change (negb (STATUS_FAILED STATUS_SUCCESS)) with true. cbv iota. apply IH; [done|lia].
  - destruct (read_queue b q (replicate n 0) Hq) as (b1 & -> & Hq1 & El). cbn [mbind res_bind].
    set (k := Z.min _ _) in *.
    assert (Hd : drop (Z.to_nat k) q = drop n q /\ take (Z.to_nat k) q = take n q).
    { unfold k, blen. rewrite length_replicate. destruct (Nat.le_gt_cases n (length q)).
      - by replace (Z.to_nat (Z.min (Z.of_nat n) (Z.of_nat (length q)))) with n by lia.
      - replace (Z.to_nat (Z.min (Z.of_nat n) (Z.of_nat (length q)))) with (length q) by lia.
        by rewrite !drop_ge, !take_ge by lia. }
    fold (written ops) in Hw. destruct Hd as [Hd1 Hd2]. rewrite Hd1 in Hq1. destruct (IH b1 _ Hq1 ltac:(lia)) as (b2 & -> & Hq2).
    cbn [mbind res_bind]. destruct (queueRun (drop n q) ops) as [q' out]. cbn [fst snd] in *. exists b2. split; [|done].
    rewrite take_app_length', Hd2; [done|]. rewrite length_take. unfold k, blen. rewrite length_replicate. lia.
Qed.

End Allocator.

Definition writes (ops : list IoOp) : list Z :=
  concat (map (fun op => match op with IoWrite d => d | IoRead _ => [] end) ops).

Lemma queueRun_conserves q ops : snd (queueRun q ops) ++ fst (queueRun q ops) = q ++ writes ops.
Proof.
  revert q. induction ops as [|[d|n] ops IH]; intros q; cbn [queueRun writes map concat].
  - by rewrite app_nil_r.
  - rewrite IH. by rewrite <- (assoc_L (++)).
  - specialize (IH (drop n q)). destruct (queueRun (drop n q) ops) as [q' out]. cbn [fst snd] in *.
    rewrite <- (assoc_L (++)), IH, (assoc_L (++)), take_drop. done.
Qed.

(** C29. A new buffer is a queue of bytes for as long as the allocator has memory and less than
    4 GiB are written: whatever sequence of writes and reads runs on it, no call fails and
    no access is out of bounds; the bytes that were read, followed by those still queued, are
    the bytes that were written, in order; and every read returns what a plain queue would. *)
Theorem ioBuffer_fifo mem junk cap b ops :
  (forall n, mem n = true) -> (forall n, 0 <= n -> blen (junk n) = n) -> 0 <= cap < 2 ^ 32 -> written ops < 2 ^ 32 ->
  createIOBuffer mem junk cap = Ok b ->
  exists b' out q, ioRun mem junk b ops = Ok (b', out) /\ holds_queue b' q
  /\ out = snd (queueRun [] ops) /\ out ++ q = writes ops.
Proof.
  intros Hmem Hj Hc Hw Hb. pose proof (create_queue mem junk Hj cap b Hc Hb) as Hq.
  assert (El : io_len b = 0).
  { revert Hb. unfold createIOBuffer. destruct (negb (cap =? 0)); [destruct (mem cap)|]; by intros [= <-]. }
  destruct (ioBuffer_refines mem junk Hj b [] ops Hmem Hq ltac:(lia)) as (b' & E & Hq').
  eexists b', _, _. split_and!; [exact E|exact Hq'|done|]. apply queueRun_conserves.
Qed.

Lemma ioBuffer_fifo_witness :
  exists b b' out q, createIOBuffer (fun _ => true) (fun n => replicate (Z.to_nat n) 7) 2 = Ok b
  /\ ioRun (fun _ => true) (fun n => replicate (Z.to_nat n) 7) b [IoWrite [1; 2]; IoRead 1; IoWrite [3; 4]; IoRead 2] = Ok (b', out)
  /\ holds_queue b' q /\ out = [1; 2; 3] /\ out ++ q = [1; 2; 3; 4].
Proof.
  eexists. destruct (ioBuffer_fifo (fun _ => true) (fun n => replicate (Z.to_nat n) 7) 2 _
    [IoWrite [1; 2]; IoRead 1; IoWrite [3; 4]; IoRead 2] ltac:(done)
    ltac:(intros n Hn; unfold blen; rewrite length_replicate; lia) ltac:(lia) ltac:(by vm_compute) eq_refl)
    as (b' & out & q & E & Hq & Ho & Hc).
  exists b', out, q. split_and!; [reflexivity|exact E|exact Hq|rewrite Ho; by vm_compute|exact Hc].
Defined.

(** When growing fails the pointer to the old bytes is overwritten: the length stays, and
    the next read goes through NULL. *)
Lemma ioBuffer_lost :
  let mem n := n <? 3 in
  let junk n := replicate (Z.to_nat n) 0 in
  (b ← createIOBuffer mem junk 2;
   '(b, _) ← ioBufferWrite mem junk (Some b) (Some [1; 2]) 2;
   '(b, st) ← ioBufferWrite mem junk (Some b) (Some [3]) 1;
   ioBufferRead (Some b) [0; 0] 2 true) = Fault.
Proof. by vm_compute. Qed.
