(* ===== verification/Pacer.v ===== *)
(** * The pacer (src/source/PeerConnection/Pacer.c, Pacer.h)

    A queue of encrypted packets that a timer sends to the ICE agent at the rate of the
    bandwidth estimate.  The linked list from pHead to pTail is the list [queue].  The budgets
    are computed in binary64 arithmetic (Double.v), rounding included.  The
    clock, the allocator, the ICE agent and the timer queue are arguments; a log records what
    the pacer sends, reports and frees.  The world is that of an existing pacer: the checks of
    the functions for a NULL pacer are left out, except in the getters.  PacerRate.v bounds what
    the budgets let through. *)

From Stdlib Require Import SpecFloat QArith Lqa.
From S2P Require Import Prelude Double RtcpPacket.

#[local] Open Scope Z_scope.

(** ** Data *)

Definition PACER_INTERVAL_MS : Z := 5.
Definition PACER_INTERVAL_KVS : Z := PACER_INTERVAL_MS * 10000.
Definition PACER_DEFAULT_MAX_QUEUE_SIZE : Z := 500.
Definition PACER_DEFAULT_MAX_QUEUE_BYTES : Z := 2 * 1024 * 1024.
Definition PACER_DEFAULT_PACING_FACTOR : DOUBLE := ddiv (dbl 5) (dbl 2).
Definition PACER_MIN_BITRATE_BPS : Z := 10000.

Record PacerPacketInfo : Type := {
  info_pData : option (list Z);
  info_size : Z;
  info_twccSeqNum : Z;
}.

Record PacerPacket : Type := {
  pp_pData : list Z;
  pp_size : Z;
  enqueueTimeKvs : Z;
  pp_twccSeqNum : Z;
}.

Record PacerConfig : Type := {
  initialBitrateBps : Z;
  cfg_maxQueueSize : Z;
  cfg_maxQueueBytes : Z;
  cfg_pacingFactor : DOUBLE;
  cfg_maxQueueTimeKvs : Z;
  cfg_enabled : bool;
}.

Record PacerStats : Type := {
  packetsSent : Z;
  bytesSent : Z;
  packetsDropped : Z;
  bytesDropped : Z;
  currentQueueSize : Z;
  currentQueueBytes : Z;
  maxQueueSizeReached : Z;
  avgQueueDelayKvs : Z;
}.

(** [pKvsPeerConnection] says whether the pointer is set. *)
Record Pacer : Type := {
  enabled : bool;
  queue : list PacerPacket;
  queueSize : Z;
  queueBytes : Z;
  maxQueueSize : Z;
  maxQueueBytes : Z;
  targetBitrateBps : Z;
  budgetBytes : Z;
  lastSendTimeKvs : Z;
  pacingFactor : DOUBLE;
  maxQueueTimeKvs : Z;
  timerId : Z;
  pKvsPeerConnection : bool;
  stats : PacerStats;
}.

(** What the pacer does to the outside. *)
Inductive PacerEvent : Type :=
| PacerSends (p : PacerPacket) (st : STATUS)
| PacerReports (twccSeqNum size sentTimeKvs : Z)
| PacerFrees (pData : list Z)
| PacerCancels (timer : Z).

(** [ticks] and [allocs] count the readings of the clock and the allocations. *)
Record PacerWorld : Type := {
  pacer : Pacer;
  ticks : nat;
  allocs : nat;
  events : list PacerEvent;
}.

#[export] Instance upd_packetsSent : Update packetsSent. Proof. derive_update. Defined.
#[export] Instance upd_bytesSent : Update bytesSent. Proof. derive_update. Defined.
#[export] Instance upd_packetsDropped : Update packetsDropped. Proof. derive_update. Defined.
#[export] Instance upd_bytesDropped : Update bytesDropped. Proof. derive_update. Defined.
#[export] Instance upd_currentQueueSize : Update currentQueueSize. Proof. derive_update. Defined.
#[export] Instance upd_currentQueueBytes : Update currentQueueBytes. Proof. derive_update. Defined.
#[export] Instance upd_maxQueueSizeReached : Update maxQueueSizeReached. Proof. derive_update. Defined.
#[export] Instance upd_avgQueueDelayKvs : Update avgQueueDelayKvs. Proof. derive_update. Defined.
#[export] Instance upd_pacer_enabled : Update enabled. Proof. derive_update. Defined.
#[export] Instance upd_pacer_queue : Update queue. Proof. derive_update. Defined.
#[export] Instance upd_queueSize : Update queueSize. Proof. derive_update. Defined.
#[export] Instance upd_queueBytes : Update queueBytes. Proof. derive_update. Defined.
#[export] Instance upd_targetBitrateBps : Update targetBitrateBps. Proof. derive_update. Defined.
#[export] Instance upd_budgetBytes : Update budgetBytes. Proof. derive_update. Defined.
#[export] Instance upd_lastSendTimeKvs : Update lastSendTimeKvs. Proof. derive_update. Defined.
#[export] Instance upd_maxQueueTimeKvs : Update maxQueueTimeKvs. Proof. derive_update. Defined.
#[export] Instance upd_timerId : Update timerId. Proof. derive_update. Defined.
#[export] Instance upd_pKvsPeerConnection : Update pKvsPeerConnection. Proof. derive_update. Defined.
#[export] Instance upd_pacer_stats : Update stats. Proof. derive_update. Defined.
#[export] Instance upd_pacer : Update pacer. Proof. derive_update. Defined.
#[export] Instance upd_ticks : Update ticks. Proof. derive_update. Defined.
#[export] Instance upd_allocs : Update allocs. Proof. derive_update. Defined.
#[export] Instance upd_events : Update events. Proof. derive_update. Defined.

(** ** Operations *)

Section Pacer.
(** What a cast to UINT64 gives when the value does not fit, which the language leaves
    open; the clock; the allocator; the ICE agent's answer to the n-th packet; the id of the
    extension for transport-wide sequence numbers. *)
Context (outOfRange : DOUBLE -> Z) (clock : nat -> Z) (mem : nat -> bool) (ice : nat -> STATUS) (twccExtId : Z).

Definition castU64 (d : DOUBLE) : Z :=
  match dtrunc d with
  | Some z => if (0 <=? z) && (z <? 2 ^ 64) then z else u64 (outOfRange d)
  | None => u64 (outOfRange d)
  end.

Definition GETTIME (w : PacerWorld) : Z * PacerWorld := (clock (ticks w), w <| ticks := S (ticks w) |>).
Definition MEMCALLOC (w : PacerWorld) : bool * PacerWorld := (mem (allocs w), w <| allocs := S (allocs w) |>).
Definition logEvent (w : PacerWorld) (e : PacerEvent) : PacerWorld := w <| events := events w ++ [e] |>.
Definition setPacer (w : PacerWorld) (p : Pacer) : PacerWorld := w <| pacer := p |>.

(** The packets sent so far decide which answer of the ICE agent is next. *)
Definition sendCount (w : PacerWorld) : nat :=
  length (List.filter (fun e => match e with PacerSends _ _ => true | _ => false end) (events w)).

Definition pacerCreatePacket (w : PacerWorld) (pData : list Z) (size twccSeqNum : Z) : option PacerPacket * PacerWorld :=
  let '(ok, w) := MEMCALLOC w in
  if (ok : bool) then
    let '(now, w) := GETTIME w in
    (Some {| pp_pData := pData; pp_size := size; enqueueTimeKvs := now; pp_twccSeqNum := twccSeqNum |}, w)
  else (None, w).

Definition pacerFreePacket (w : PacerWorld) (p : PacerPacket) : PacerWorld := logEvent w (PacerFrees (pp_pData p)).

Definition pacerClearQueue (w : PacerWorld) : PacerWorld :=
  let w := foldl pacerFreePacket w (queue (pacer w)) in
  setPacer w ((pacer w) <| queue := [] |> <| queueSize := 0 |> <| queueBytes := 0 |>).

Definition zeroStats : PacerStats :=
  {| packetsSent := 0; bytesSent := 0; packetsDropped := 0; bytesDropped := 0; currentQueueSize := 0;
     currentQueueBytes := 0; maxQueueSizeReached := 0; avgQueueDelayKvs := 0 |}.

(** [v > 0 ? v : d] *)
Definition positiveOr (v d : Z) : Z := if 0 <? v then v else d.

(** [timerQueue] and [mutex] say whether the handles are valid.  Without a mutex the clean-up
    calls freePacer, which calls pacerStop, which locks the missing mutex. *)
Definition createPacer (ppPacer timerQueue memOk mutex : bool) (pConfig : option PacerConfig) (n : nat) : res PacerWorld :=
  CHK ppPacer else STATUS_NULL_ARG ;;
  CHK timerQueue else STATUS_INVALID_ARG ;;
  CHK memOk else STATUS_NOT_ENOUGH_MEMORY ;;
  if negb mutex then Fault else
  let base := fun rate size bytes factor time en =>
    {| enabled := en; queue := []; queueSize := 0; queueBytes := 0; maxQueueSize := size; maxQueueBytes := bytes;
       targetBitrateBps := rate; budgetBytes := 0; lastSendTimeKvs := clock n; pacingFactor := factor;
       maxQueueTimeKvs := time; timerId := MAX_UINT32; pKvsPeerConnection := false; stats := zeroStats |} in
  let p := match pConfig with
           | Some c =>
               base (positiveOr (initialBitrateBps c) 300000) (positiveOr (cfg_maxQueueSize c) PACER_DEFAULT_MAX_QUEUE_SIZE)
                 (positiveOr (cfg_maxQueueBytes c) PACER_DEFAULT_MAX_QUEUE_BYTES)
                 (if SFltb (dbl 0) (cfg_pacingFactor c) then cfg_pacingFactor c else PACER_DEFAULT_PACING_FACTOR)
                 (cfg_maxQueueTimeKvs c) (cfg_enabled c)
           | None =>
               base 300000 PACER_DEFAULT_MAX_QUEUE_SIZE PACER_DEFAULT_MAX_QUEUE_BYTES PACER_DEFAULT_PACING_FACTOR 0 true
           end in
  Ok {| pacer := p; ticks := S n; allocs := O; events := [] |}.

Definition pacerStop (w : PacerWorld) : PacerWorld :=
  let t := timerId (pacer w) in
  if negb (t =? MAX_UINT32) then
    logEvent (setPacer w ((pacer w) <| timerId := MAX_UINT32 |>)) (PacerCancels t)
  else w.

Definition freePacer (w : PacerWorld) : PacerWorld := pacerClearQueue (pacerStop w).

(** [timer] is the answer of timerQueueAddTimer. *)
Definition pacerStart (w : PacerWorld) (pc : bool) (timer : res Z) : STATUS * PacerWorld :=
  if pc then
    let w := setPacer w ((pacer w) <| pKvsPeerConnection := true |>) in
    if enabled (pacer w) && (timerId (pacer w) =? MAX_UINT32) then
      let '(now, w) := GETTIME w in
      let w := setPacer w ((pacer w) <| lastSendTimeKvs := now |> <| budgetBytes := 0 |>) in
      match timer with
      | Ok t => (STATUS_SUCCESS, setPacer w ((pacer w) <| timerId := t |>))
      | Err st => (st, w)
      | Fault => (STATUS_INTERNAL_ERROR, w)
      end
    else (STATUS_SUCCESS, w)
  else (STATUS_NULL_ARG, w).

(** A packet at the tail of the queue. *)
Definition pushPacket (p : Pacer) (x : PacerPacket) : Pacer :=
  p <| queue := queue p ++ [x] |> <| queueSize := queueSize p +32 1 |> <| queueBytes := queueBytes p +32 pp_size x |>.

(** The statistics after an insertion. *)
Definition noteQueue (p : Pacer) : Pacer :=
  let s := (stats p) <| currentQueueSize := queueSize p |> <| currentQueueBytes := queueBytes p |> in
  p <| stats := if maxQueueSizeReached s <? queueSize p then s <| maxQueueSizeReached := queueSize p |> else s |>.

Definition noteDropped (p : Pacer) (count bytes : Z) : Pacer :=
  p <| stats := (stats p) <| packetsDropped := u64 (packetsDropped (stats p) + count) |>
                          <| bytesDropped := u64 (bytesDropped (stats p) + bytes) |> |>.

Definition pacerEnqueuePacket (w : PacerWorld) (pData : option (list Z)) (size twccSeqNum : Z) : STATUS * PacerWorld :=
  match pData with
  | Some d =>
      if 0 <? size then
        let p := pacer w in
        if (maxQueueSize p <=? queueSize p) || (maxQueueBytes p <? queueBytes p +32 size) then
          (STATUS_NOT_ENOUGH_MEMORY, logEvent (setPacer w (noteDropped p 1 size)) (PacerFrees d))
        else
          match pacerCreatePacket w d size twccSeqNum with
          | (None, w) => (STATUS_NOT_ENOUGH_MEMORY, w)
          | (Some x, w) => (STATUS_SUCCESS, setPacer w (noteQueue (pushPacket (pacer w) x)))
          end
      else (STATUS_NULL_ARG, w)
  | None => (STATUS_NULL_ARG, w)
  end.

(** The first loop of pacerEnqueueFrame: [None] when an argument is missing. *)
Fixpoint frameBytes (l : list PacerPacketInfo) (total : Z) : option Z :=
  match l with
  | [] => Some total
  | i :: l =>
      match info_pData i with
      | Some _ => if 0 <? info_size i then frameBytes l (total +32 info_size i) else None
      | None => None
      end
  end.

Definition freeInfos (w : PacerWorld) (l : list PacerPacketInfo) : PacerWorld :=
  foldl (fun w i => match info_pData i with Some d => logEvent w (PacerFrees d) | None => w end) w l.

(** The second loop. *)
Fixpoint enqueueLoop (w : PacerWorld) (l : list PacerPacketInfo) (frameEnqueueTime : Z) : STATUS * PacerWorld :=
  match l with
  | [] => (STATUS_SUCCESS, w)
  | i :: rest =>
      let '(ok, w) := MEMCALLOC w in
      if (ok : bool) then
        let x := {| pp_pData := default [] (info_pData i); pp_size := info_size i; enqueueTimeKvs := frameEnqueueTime;
                    pp_twccSeqNum := info_twccSeqNum i |} in
        enqueueLoop (setPacer w (pushPacket (pacer w) x)) rest frameEnqueueTime
      else (STATUS_NOT_ENOUGH_MEMORY, freeInfos w l)
  end.

Definition pacerEnqueueFrame (w : PacerWorld) (pPackets : list PacerPacketInfo) : STATUS * PacerWorld :=
  let count := Z.of_nat (length pPackets) in
  if 0 <? count then
    match frameBytes pPackets 0 with
    | None => (STATUS_NULL_ARG, w)
    | Some totalBytes =>
        let p := pacer w in
        if (maxQueueSize p <? queueSize p +32 count) || (maxQueueBytes p <? queueBytes p +32 totalBytes) then
          (STATUS_NOT_ENOUGH_MEMORY, freeInfos (setPacer w (noteDropped p count totalBytes)) pPackets)
        else
          let '(now, w) := GETTIME w in
          let '(st, w) := enqueueLoop w pPackets now in
          if STATUS_FAILED st then (st, w) else (st, setPacer w (noteQueue (pacer w)))
    end
  else (STATUS_NULL_ARG, w).

Definition pacerSetTargetBitrate (w : PacerWorld) (bitrateBps : Z) : PacerWorld :=
  setPacer w ((pacer w) <| targetBitrateBps := Z.max bitrateBps PACER_MIN_BITRATE_BPS |>).
Definition pacerGetTargetBitrate (w : option PacerWorld) : Z :=
  match w with None => 0 | Some w => targetBitrateBps (pacer w) end.
Definition pacerGetStats (w : PacerWorld) : PacerStats := stats (pacer w).
Definition pacerIsEnabled (w : option PacerWorld) : bool := match w with None => false | Some w => enabled (pacer w) end.
Definition pacerSetEnabled (w : PacerWorld) (en : bool) : PacerWorld := setPacer w ((pacer w) <| enabled := en |>).
Definition pacerGetQueueSize (w : option PacerWorld) : Z := match w with None => 0 | Some w => queueSize (pacer w) end.
Definition pacerSetMaxQueueTime (w : PacerWorld) (t : Z) : PacerWorld := setPacer w ((pacer w) <| maxQueueTimeKvs := t |>).
Definition pacerGetMaxQueueTime (w : option PacerWorld) : Z :=
  match w with None => 0 | Some w => maxQueueTimeKvs (pacer w) end.

Definition pacerCalculateBudget (p : Pacer) (elapsedTimeKvs : Z) : Z :=
  if elapsedTimeKvs =? 0 then 0
  else
    let elapsedSec := ddiv (dbl elapsedTimeKvs) (dbl HUNDREDS_OF_NANOS_IN_A_SECOND) in
    let bytesPerInterval :=
      castU64 (ddiv (dmul (dmul (dbl (targetBitrateBps p)) elapsedSec) (pacingFactor p)) (dbl 8)) in
    u32 (Z.min bytesPerInterval MAX_UINT32).

(** The minimum budget of frame-rate pacing. *)
Definition deadlineBudget (p : Pacer) (now : Z) : Pacer :=
  match queue p with
  | [] => p
  | x :: _ =>
      if 0 <? maxQueueTimeKvs p then
        let oldestPacketAge := u64 (now - enqueueTimeKvs x) in
        if oldestPacketAge <? maxQueueTimeKvs p then
          let timeRemainingKvs := u64 (maxQueueTimeKvs p - oldestPacketAge) in
          let intervalsRemaining := ddiv (dbl timeRemainingKvs) (dbl PACER_INTERVAL_KVS) in
          if SFltb (dbl 0) intervalsRemaining then
            let minBudget := castU64 (ddiv (dbl (queueBytes p)) intervalsRemaining) in
            if budgetBytes p <? minBudget then p <| budgetBytes := minBudget |> else p
          else p
        else p <| budgetBytes := queueBytes p |>
      else p
  end.

Definition averageDelay (avg delay : Z) : Z :=
  if avg =? 0 then delay
  else castU64 (dadd (dmul (ddiv (dbl 9) (dbl 10)) (dbl avg)) (dmul (ddiv (dbl 1) (dbl 10)) (dbl delay))).

(** One packet: taken from the queue, sent, reported and freed. *)
Definition sendHead (w : PacerWorld) (x : PacerPacket) (rest : list PacerPacket) (now : Z) : STATUS * PacerWorld :=
  let p := (pacer w) <| queue := rest |> <| queueSize := queueSize (pacer w) -32 1 |>
             <| queueBytes := queueBytes (pacer w) -32 pp_size x |> in
  let queueDelayKvs := u64 (now - enqueueTimeKvs x) in
  let p := p <| stats := (stats p) <| avgQueueDelayKvs := averageDelay (avgQueueDelayKvs (stats p)) queueDelayKvs |> |> in
  let st := ice (sendCount w) in
  let w := logEvent (setPacer w p) (PacerSends x st) in
  let w :=
    if STATUS_FAILED st then w
    else
      let '(sentTimeKvs, w) := GETTIME w in
      let p := pacer w in
      let s := (stats p) <| packetsSent := u64 (packetsSent (stats p) + 1) |>
                         <| bytesSent := u64 (bytesSent (stats p) + pp_size x) |> in
      let w := setPacer w (p <| stats := s |> <| budgetBytes := u64 (budgetBytes p - pp_size x) |>) in
      if negb (pp_twccSeqNum x =? 0) && negb (twccExtId =? 0) then
        logEvent w (PacerReports (pp_twccSeqNum x) (pp_size x) sentTimeKvs)
      else w in
  (st, pacerFreePacket w x).

(** The loop runs down the queue while the budget covers the packet at its head. *)
Fixpoint drainQueueLoop (w : PacerWorld) (q : list PacerPacket) (now : Z) (st : STATUS) : STATUS * PacerWorld :=
  match q with
  | [] => (st, w)
  | x :: rest =>
      if pp_size x <=? budgetBytes (pacer w) then
        let '(st, w) := sendHead w x rest now in drainQueueLoop w rest now st
      else (st, w)
  end.

Definition pacerDrainQueue (w : PacerWorld) : STATUS * PacerWorld :=
  let '(now, w) := GETTIME w in
  if pKvsPeerConnection (pacer w) then
    let p := pacer w in
    let elapsedTimeKvs := u64 (now - lastSendTimeKvs p) in
    let p := p <| budgetBytes := u64 (budgetBytes p + pacerCalculateBudget p elapsedTimeKvs) |> <| lastSendTimeKvs := now |> in
    let p := deadlineBudget p now in
    let '(st, w) := drainQueueLoop (setPacer w p) (queue p) now STATUS_SUCCESS in
    let p := pacer w in
    let p := p <| stats := (stats p) <| currentQueueSize := queueSize p |> <| currentQueueBytes := queueBytes p |> |> in
    let maxBudget := pacerCalculateBudget p (2 * PACER_INTERVAL_KVS) in
    let p := if maxBudget <? budgetBytes p then p <| budgetBytes := maxBudget |> else p in
    (st, setPacer w p)
  else (STATUS_INVALID_OPERATION, w).

Definition pacerTimerCallback (w : PacerWorld) : PacerWorld :=
  if enabled (pacer w) then snd (pacerDrainQueue w) else w.

End Pacer.

(** ** The invariant *)

Definition sizes (q : list PacerPacket) : Z := foldr (fun x s => pp_size x + s) 0 q.

Record pacer_ok (p : Pacer) : Prop := {
  ok_count : queueSize p = Z.of_nat (length (queue p));
  ok_bytes : queueBytes p = sizes (queue p);
  ok_sizes : Forall (fun x => 0 < pp_size x) (queue p);
  ok_maxSize : queueSize p <= maxQueueSize p < 2 ^ 32;
  ok_maxBytes : queueBytes p <= maxQueueBytes p < 2 ^ 32;
  ok_budget : is_u64 (budgetBytes p);
}.

(** What the log says was sent, delivered and freed. *)
Definition sentBy (e : PacerEvent) : list PacerPacket := match e with PacerSends x _ => [x] | _ => [] end.
Definition sentOf (l : list PacerEvent) : list PacerPacket := concat (map sentBy l).
Definition deliveredBy (e : PacerEvent) : Z :=
  match e with PacerSends x st => if STATUS_FAILED st then 0 else pp_size x | _ => 0 end.
Definition deliveredOf (l : list PacerEvent) : Z := foldr (fun e s => deliveredBy e + s) 0 l.
Definition freedData (e : PacerEvent) : list (list Z) := match e with PacerFrees d => [d] | _ => [] end.
Definition freedOf (l : list PacerEvent) : list (list Z) := concat (map freedData l).

Lemma sentOf_app a b : sentOf (a ++ b) = sentOf a ++ sentOf b.
Proof. unfold sentOf. by rewrite map_app, concat_app. Qed.
Lemma freedOf_app a b : freedOf (a ++ b) = freedOf a ++ freedOf b.
Proof. unfold freedOf. by rewrite map_app, concat_app. Qed.
Lemma deliveredOf_app a b : deliveredOf (a ++ b) = deliveredOf a + deliveredOf b.
Proof.
  induction a as [|e a IH]; [reflexivity|]. cbn [app]. unfold deliveredOf in *. cbn [foldr]. rewrite IH. lia.
Qed.

Lemma sizes_app a b : sizes (a ++ b) = sizes a + sizes b.
Proof. induction a as [|e a IH]; [reflexivity|]. cbn [app]. unfold sizes in *. cbn [foldr]. rewrite IH. lia. Qed.
Lemma sizes_nonneg q : Forall (fun x => 0 < pp_size x) q -> 0 <= sizes q.
Proof. induction 1 as [|x q Hx _ IH]; cbn [sizes foldr]; [done|]. fold (sizes q). lia. Qed.

(** The settings that sending does not touch. *)
Definition settings (p : Pacer) : bool * Z * Z * Z * DOUBLE * Z * Z * bool :=
  (enabled p, maxQueueSize p, maxQueueBytes p, targetBitrateBps p, pacingFactor p, maxQueueTimeKvs p, timerId p,
   pKvsPeerConnection p).

Section Facts.
Context (outOfRange : DOUBLE -> Z) (clock : nat -> Z) (mem : nat -> bool) (ice : nat -> STATUS) (twccExtId : Z).

Lemma castU64_u64 d : is_u64 (castU64 outOfRange d).
Proof using.
  unfold castU64. destruct (dtrunc d) as [z|]; [|apply u64_range].
  destruct (Z.leb_spec 0 z), (Z.ltb_spec z (2 ^ 64)); cbn [andb]; try apply u64_range. by split.
Qed.

Lemma calculateBudget_u32 p t : is_u32 (pacerCalculateBudget outOfRange p t).
Proof using. unfold pacerCalculateBudget. destruct (t =? 0); [unfold is_u32; lia|apply u32_range]. Qed.

(** One packet. *)
Lemma sendHead_spec w x rest now :
  let '(st, w') := sendHead outOfRange clock ice twccExtId w x rest now in
  queue (pacer w') = rest /\ queueSize (pacer w') = queueSize (pacer w) -32 1
  /\ queueBytes (pacer w') = queueBytes (pacer w) -32 pp_size x
  /\ settings (pacer w') = settings (pacer w) /\ lastSendTimeKvs (pacer w') = lastSendTimeKvs (pacer w)
  /\ (ticks w <= ticks w')%nat
  /\ budgetBytes (pacer w') = (if STATUS_FAILED st then budgetBytes (pacer w) else u64 (budgetBytes (pacer w) - pp_size x))
  /\ bytesSent (stats (pacer w')) = (if STATUS_FAILED st then bytesSent (stats (pacer w))
                                     else u64 (bytesSent (stats (pacer w)) + pp_size x))
  /\ exists evs, events w' = events w ++ evs /\ sentOf evs = [x] /\ freedOf evs = [pp_pData x]
                 /\ deliveredOf evs = if STATUS_FAILED st then 0 else pp_size x.
Proof using.
  destruct w as [p tk al ev]. destruct p. destruct stats0. unfold sendHead. cbn -[averageDelay Z.add].
  destruct (STATUS_FAILED (ice _)) eqn:Est.
  - cbn -[averageDelay Z.add]. rewrite ?Est. split_and!; [done || lia..|]. eexists. rewrite <- (assoc_L (++)). split; [reflexivity|].
    cbn. rewrite ?Est. done.
  - destruct (negb (pp_twccSeqNum x =? 0) && negb (twccExtId =? 0)); cbn -[averageDelay Z.add]; rewrite ?Est;
      (split_and!; [done || lia..|]); eexists; rewrite <- ?(assoc_L (++)); (split; [reflexivity|]); cbn; rewrite ?Est;
      split_and!; try done; lia.
Qed.

(** What a run over the queue leaves behind. *)
Record drained (w : PacerWorld) (q : list PacerPacket) (w' : PacerWorld) (sent : list PacerPacket) (evs : list PacerEvent)
    : Prop := {
  dr_queue : q = sent ++ queue (pacer w');
  dr_events : events w' = events w ++ evs;
  dr_sent : sentOf evs = sent;
  dr_freed : freedOf evs = map pp_pData sent;
  dr_budget : budgetBytes (pacer w') + deliveredOf evs = budgetBytes (pacer w);
  dr_bytes : u64 (bytesSent (stats (pacer w'))) = u64 (bytesSent (stats (pacer w)) + deliveredOf evs);
  dr_delivered : 0 <= deliveredOf evs <= sizes sent;
  dr_ok : pacer_ok (pacer w');
  dr_settings : settings (pacer w') = settings (pacer w);
  dr_last : lastSendTimeKvs (pacer w') = lastSendTimeKvs (pacer w);
  dr_ticks : (ticks w <= ticks w')%nat;
  dr_stop : match queue (pacer w') with [] => True | x :: _ => budgetBytes (pacer w') < pp_size x end;
}.

Lemma sendHead_ok w x rest now :
  pacer_ok (pacer w) -> queue (pacer w) = x :: rest -> pp_size x <= budgetBytes (pacer w) ->
  pacer_ok (pacer (snd (sendHead outOfRange clock ice twccExtId w x rest now))).
Proof using.
  intros [H1 H2 H3 H4 H5 H6] Eq Hle. pose proof (sendHead_spec w x rest now) as Hs.
  destruct (sendHead _ _ _ _ _ _ _ _) as [st w']. cbn [snd].
  destruct Hs as (Q & S1 & S2 & Se & _ & _ & B & _). rewrite Eq in *. cbn [length sizes foldr] in *. fold (sizes rest) in H2.
  apply Forall_cons_1 in H3 as [Hx Hrest]. pose proof (sizes_nonneg rest Hrest) as Hr.
  unfold settings in Se. injection Se as _ Em Emb _ _ _ _ _.
  rewrite u32_id in S1, S2 by (unfold is_u32; lia).
  split; rewrite ?Q, ?S1, ?S2, ?Em, ?Emb; try lia; [done|].
  rewrite B. destruct (STATUS_FAILED st); [done|apply u64_range].
Qed.

Lemma drainQueueLoop_spec q w now st :
  pacer_ok (pacer w) -> queue (pacer w) = q ->
  exists sent evs, drained w q (snd (drainQueueLoop outOfRange clock ice twccExtId w q now st)) sent evs.
Proof using.
  revert w st. induction q as [|x q IH]; intros w st Hok Eq; cbn [drainQueueLoop].
  - exists [], []. split; cbn; rewrite ?Eq, ?app_nil_r, ?Z.add_0_r; try done; lia.
  - destruct (Z.leb_spec (pp_size x) (budgetBytes (pacer w))) as [Hle|Hlt].
    2:{ exists [], []. split; cbn; rewrite ?Eq, ?app_nil_r, ?Z.add_0_r; try done; lia. }
    pose proof (sendHead_spec w x q now) as Hs. pose proof (sendHead_ok w x q now Hok Eq Hle) as Hok1.
    pose proof (ok_sizes _ Hok) as Hsz. rewrite Eq in Hsz. apply Forall_cons_1 in Hsz as [Hx _].
    pose proof (ok_budget _ Hok) as Hb. unfold is_u64 in Hb.
    destruct (sendHead _ _ _ _ _ _ _ _) as [st1 w1]. cbn [snd] in Hok1.
    destruct Hs as (Q & _ & _ & Se & La & Ti & B & BS & e1 & E1 & Sn & Fr & D).
    destruct (IH w1 st1 Hok1 Q) as (sent & evs & [R1 R2 R3 R4 R5 R6 R7 R8 R9 R11 R12 R10]).
    exists (x :: sent), (e1 ++ evs). split.
    + cbn [app]. by rewrite <- R1.
    + by rewrite R2, E1, (assoc_L (++)).
    + by rewrite sentOf_app, Sn, R3.
    + by rewrite freedOf_app, Fr, R4.
    + rewrite deliveredOf_app, D. rewrite B in R5.
      destruct (STATUS_FAILED st1); [lia|]. rewrite u64_id in R5 by (unfold is_u64; lia). lia.
    + rewrite deliveredOf_app, D, R6, BS. destruct (STATUS_FAILED st1); [done|]. rewrite u64_plus. f_equal. lia.
    + rewrite deliveredOf_app, D. cbn [sizes foldr]. fold (sizes sent). destruct (STATUS_FAILED st1); lia.
    + exact R8.
    + by rewrite R9.
    + by rewrite R11.
    + lia.
    + exact R10.
Qed.

(** With a budget for the whole queue, nothing is left in it. *)
Lemma drained_all w q w' sent evs :
  drained w q w' sent evs -> sizes q <= budgetBytes (pacer w) -> queue (pacer w') = [].
Proof using.
  intros [R1 _ _ _ R5 _ R7 R8 _ _ _ R10] Hb. pose proof (ok_sizes _ R8) as Hs.
  destruct (queue (pacer w')) as [|x rest] eqn:E; [done|]. exfalso. apply Forall_cons_1 in Hs as [_ Hr].
  pose proof (sizes_nonneg rest Hr). rewrite R1, sizes_app in Hb. cbn [sizes foldr] in Hb. fold (sizes rest) in Hb. lia.
Qed.

(** *** One call of pacerDrainQueue *)

(** The pacer when the loop starts, at the time [now]. *)
Definition refilled (p : Pacer) (now : Z) : Pacer :=
  deadlineBudget outOfRange
    (p <| budgetBytes := u64 (budgetBytes p + pacerCalculateBudget outOfRange p (u64 (now - lastSendTimeKvs p))) |>
       <| lastSendTimeKvs := now |>) now.

Lemma deadlineBudget_spec p now :
  pacer_ok p ->
  pacer_ok (deadlineBudget outOfRange p now) /\ queue (deadlineBudget outOfRange p now) = queue p
  /\ settings (deadlineBudget outOfRange p now) = settings p /\ stats (deadlineBudget outOfRange p now) = stats p
  /\ lastSendTimeKvs (deadlineBudget outOfRange p now) = lastSendTimeKvs p
  /\ (maxQueueTimeKvs p = 0 -> budgetBytes (deadlineBudget outOfRange p now) = budgetBytes p).
Proof using.
  intros Hok. destruct (Z.ltb_spec 0 (maxQueueTimeKvs p)) as [Hm|Hm].
  2:{ unfold deadlineBudget. destruct (queue p) eqn:Eq; [by split_and!|]. rewrite (proj2 (Z.ltb_ge _ _)) by done. by split_and!. }
  assert (Hset : forall b, is_u64 b -> pacer_ok (p <| budgetBytes := b |>) /\ queue (p <| budgetBytes := b |>) = queue p
    /\ settings (p <| budgetBytes := b |>) = settings p /\ stats (p <| budgetBytes := b |>) = stats p
    /\ lastSendTimeKvs (p <| budgetBytes := b |>) = lastSendTimeKvs p).
  { intros b Hb. destruct p. destruct Hok as [H1 H2 H3 H4 H5 H6]. cbn in *. split; [by split|done]. }
  assert (Hgoal : forall p', (p' = p \/ exists b, is_u64 b /\ p' = p <| budgetBytes := b |>) ->
    pacer_ok p' /\ queue p' = queue p /\ settings p' = settings p /\ stats p' = stats p
    /\ lastSendTimeKvs p' = lastSendTimeKvs p /\ (maxQueueTimeKvs p = 0 -> budgetBytes p' = budgetBytes p)).
  { intros p' [->|(b & Hb & ->)]; [by split_and!|]. destruct (Hset b Hb) as (? & ? & ? & ? & ?). split_and!; try done. lia. }
  apply Hgoal. unfold deadlineBudget. destruct (queue p) as [|x q] eqn:Eq; [by left|].
  rewrite (proj2 (Z.ltb_lt _ _) Hm). destruct (_ <? maxQueueTimeKvs p).
  - destruct (SFltb _ _); [|by left]. destruct (_ <? _); [|by left]. right. eexists. split; [|reflexivity]. apply castU64_u64.
  - right. eexists. split; [|reflexivity]. destruct Hok as [_ H2 H3 _ H5 _]. pose proof (sizes_nonneg _ H3).
    unfold is_u64. lia.
Qed.

Lemma refilled_spec p now :
  pacer_ok p ->
  pacer_ok (refilled p now) /\ queue (refilled p now) = queue p /\ settings (refilled p now) = settings p
  /\ stats (refilled p now) = stats p /\ lastSendTimeKvs (refilled p now) = now
  /\ (maxQueueTimeKvs p = 0 -> budgetBytes (refilled p now)
        = u64 (budgetBytes p + pacerCalculateBudget outOfRange p (u64 (now - lastSendTimeKvs p)))).
Proof using.
  intros Hok. unfold refilled. set (b := u64 _). set (p1 := p <| budgetBytes := b |> <| lastSendTimeKvs := now |>).
  assert (Hp1 : pacer_ok p1 /\ queue p1 = queue p /\ settings p1 = settings p /\ stats p1 = stats p
    /\ lastSendTimeKvs p1 = now /\ maxQueueTimeKvs p1 = maxQueueTimeKvs p /\ budgetBytes p1 = b).
  { assert (Hb : is_u64 b) by apply u64_range. clearbody b. unfold p1. destruct p. destruct Hok. cbn in *. split; [by split|done]. }
  clearbody p1. destruct Hp1 as (H1 & H2 & H3 & H4 & H5 & H6 & H7).
  destruct (deadlineBudget_spec p1 now H1) as (D1 & D2 & D3 & D4 & D5 & D6).
  rewrite D2, D3, D4, D5, <- H6, <- H7. by split_and!.
Qed.

(** What one call does to the queue, the log and the budget. *)
Record drain (w w' : PacerWorld) (sent : list PacerPacket) (evs : list PacerEvent) : Prop := {
  d_queue : queue (pacer w) = sent ++ queue (pacer w');
  d_events : events w' = events w ++ evs;
  d_sent : sentOf evs = sent;
  d_freed : freedOf evs = map pp_pData sent;
  d_budget : budgetBytes (pacer w') + deliveredOf evs <= budgetBytes (refilled (pacer w) (clock (ticks w)));
  d_cap : budgetBytes (pacer w') <= pacerCalculateBudget outOfRange (pacer w) (2 * PACER_INTERVAL_KVS);
  d_bytes : u64 (bytesSent (stats (pacer w'))) = u64 (bytesSent (stats (pacer w)) + deliveredOf evs);
  d_delivered : 0 <= deliveredOf evs;
  d_ok : pacer_ok (pacer w');
  d_settings : settings (pacer w') = settings (pacer w);
  d_last : lastSendTimeKvs (pacer w') = clock (ticks w);
  d_ticks : (S (ticks w) <= ticks w')%nat;
  d_all : sizes (queue (pacer w)) <= budgetBytes (refilled (pacer w) (clock (ticks w))) -> queue (pacer w') = [];
}.

Lemma calculateBudget_settings p p' t :
  settings p' = settings p -> pacerCalculateBudget outOfRange p' t = pacerCalculateBudget outOfRange p t.
Proof using.
  unfold settings, pacerCalculateBudget. intros [= _ _ _ -> -> _ _ _]. done.
Qed.

Lemma pacerDrainQueue_spec w :
  pacer_ok (pacer w) -> pKvsPeerConnection (pacer w) = true ->
  exists sent evs, drain w (snd (pacerDrainQueue outOfRange clock ice twccExtId w)) sent evs.
Proof using.
  intros Hok Hpc. unfold pacerDrainQueue, GETTIME. set (now := clock (ticks w)).
  set (w1 := w <| ticks := S (ticks w) |>).
  assert (Ep : pacer w1 = pacer w /\ events w1 = events w /\ ticks w1 = S (ticks w)) by (by destruct w).
  destruct Ep as (Ep & Ee & Et). rewrite Ep, Hpc. fold (refilled (pacer w) now). set (p := refilled (pacer w) now).
  destruct (refilled_spec (pacer w) now Hok) as (P1 & P2 & P3 & P4 & P5 & _). fold p in P1, P2, P3, P4, P5.
  set (w2 := setPacer w1 p). assert (E2 : pacer w2 = p /\ events w2 = events w /\ ticks w2 = S (ticks w))
    by (rewrite <- Ee, <- Et; by destruct w).
  destruct E2 as (E2p & E2e & E2t). clearbody w2. rewrite <- E2p in P1.
  destruct (drainQueueLoop_spec (queue p) w2 now STATUS_SUCCESS P1 ltac:(by rewrite E2p)) as (sent & evs & R).
  pose proof (drained_all _ _ _ _ _ R) as Hall.
  destruct (drainQueueLoop _ _ _ _ _ _ _ _) as [st w3]. cbn [snd] in R, Hall |- *. destruct R as [R1 R2 R3 R4 R5 R6 R7 R8 R9 R10 R11 _].
  rewrite E2p in *. rewrite E2e in R2. rewrite E2t in R11. rewrite P5 in R10. rewrite P2, P3, P4 in *.
  exists sent, evs. set (p3 := (pacer w3) <| stats := _ |>).
  assert (H3 : pacer_ok p3 /\ queue p3 = queue (pacer w3) /\ settings p3 = settings (pacer w3)
    /\ bytesSent (stats p3) = bytesSent (stats (pacer w3)) /\ budgetBytes p3 = budgetBytes (pacer w3)
    /\ lastSendTimeKvs p3 = lastSendTimeKvs (pacer w3)).
  { unfold p3. destruct (pacer w3). destruct stats0. destruct R8. cbn in *. split; [by split|done]. }
  clearbody p3. destruct H3 as (O3 & Q3 & S3 & B3 & G3 & L3).
  set (cap := pacerCalculateBudget outOfRange p3 (2 * PACER_INTERVAL_KVS)).
  assert (Hcap : cap = pacerCalculateBudget outOfRange (pacer w) (2 * PACER_INTERVAL_KVS))
    by (apply calculateBudget_settings; by rewrite S3, R9).
  assert (Hcap32 : is_u32 cap) by apply calculateBudget_u32.
  set (p4 := if cap <? budgetBytes p3 then p3 <| budgetBytes := cap |> else p3).
  assert (H4 : pacer_ok p4 /\ queue p4 = queue p3 /\ settings p4 = settings p3 /\ stats p4 = stats p3
    /\ budgetBytes p4 <= cap /\ budgetBytes p4 <= budgetBytes p3 /\ lastSendTimeKvs p4 = lastSendTimeKvs p3).
  { unfold p4. destruct (Z.ltb_spec cap (budgetBytes p3)).
    - clearbody cap. destruct p3. destruct O3. cbn in *. split_and!; try done; [|lia..].
      split; cbn; try done. unfold is_u32, is_u64 in *. lia.
    - by split_and!. }
  clearbody p4. destruct H4 as (O4 & Q4 & S4 & St4 & C4 & C4' & L4).
  assert (E4 : pacer (setPacer w3 p4) = p4 /\ events (setPacer w3 p4) = events w3 /\ ticks (setPacer w3 p4) = ticks w3)
    by (by destruct w3).
  destruct E4 as (E4p & E4e & E4t).
  split; rewrite ?E4p, ?E4e, ?E4t, ?Q4, ?Q3, ?St4, ?S4, ?S3, ?B3, ?L4, ?L3; try done; try lia; try (by rewrite R9).
  fold now. fold p. lia.
Qed.

(** ** Sequences of operations *)

Inductive PacerOp : Type :=
| PacerEnqueue (d : list Z) (size twccSeqNum : Z)
| PacerFrame (l : list PacerPacketInfo)
| PacerTimer
| PacerSetRate (bitrateBps : Z)
| PacerSetEnabled (en : bool)
| PacerSetMaxTime (t : Z).

Definition pacerExec (w : PacerWorld) (op : PacerOp) : PacerWorld :=
  match op with
  | PacerEnqueue d size seq => snd (pacerEnqueuePacket clock mem w (Some d) size seq)
  | PacerFrame l => snd (pacerEnqueueFrame clock mem w l)
  | PacerTimer => pacerTimerCallback outOfRange clock ice twccExtId w
  | PacerSetRate r => pacerSetTargetBitrate w r
  | PacerSetEnabled en => pacerSetEnabled w en
  | PacerSetMaxTime t => pacerSetMaxQueueTime w t
  end.

Definition infoSizes (l : list PacerPacketInfo) : Z := foldr (fun i s => info_size i + s) 0 l.

(** The arguments are present, and the sums of the limit checks fit 32 bits. *)
Definition pacerOp_ok (p : Pacer) (op : PacerOp) : Prop :=
  match op with
  | PacerEnqueue _ size _ => 0 < size /\ maxQueueBytes p + size < 2 ^ 32
  | PacerFrame l =>
      l <> [] /\ Forall (fun i => is_Some (info_pData i) /\ 0 < info_size i) l
      /\ maxQueueBytes p + infoSizes l < 2 ^ 32 /\ maxQueueSize p + Z.of_nat (length l) < 2 ^ 32
  | _ => True
  end.

Definition packetOf (now : Z) (i : PacerPacketInfo) : PacerPacket :=
  {| pp_pData := default [] (info_pData i); pp_size := info_size i; enqueueTimeKvs := now; pp_twccSeqNum := info_twccSeqNum i |}.

Definition fits (p : Pacer) (count bytes : Z) : bool :=
  (queueSize p + count <=? maxQueueSize p) && (queueBytes p + bytes <=? maxQueueBytes p).

(** The packets that an operation adds to the queue: all of a frame or nothing. *)
Definition admitted (w : PacerWorld) (op : PacerOp) : list PacerPacket :=
  let now := clock (ticks w) in
  match op with
  | PacerEnqueue d size seq =>
      if fits (pacer w) 1 size then
        [{| pp_pData := d; pp_size := size; enqueueTimeKvs := now; pp_twccSeqNum := seq |}] else []
  | PacerFrame l => if fits (pacer w) (Z.of_nat (length l)) (infoSizes l) then map (packetOf now) l else []
  | _ => []
  end.

(** The buffers that an operation hands over. *)
Definition given (op : PacerOp) : list (list Z) :=
  match op with
  | PacerEnqueue d _ _ => [d]
  | PacerFrame l => map (fun i => default [] (info_pData i)) l
  | _ => []
  end.

Lemma frameBytes_sum l total :
  Forall (fun i => is_Some (info_pData i) /\ 0 < info_size i) l -> 0 <= total -> total + infoSizes l < 2 ^ 32 ->
  frameBytes l total = Some (total + infoSizes l) /\ 0 <= infoSizes l.
Proof using.
  intros Hl. revert total. induction Hl as [|i l [[d Hd] Hi] Hl IH]; intros total Ht Hlt; cbn [frameBytes infoSizes foldr] in *.
  - rewrite Z.add_0_r. done.
  - fold (infoSizes l) in *. rewrite Hd, (proj2 (Z.ltb_lt _ _) Hi).
    assert (0 <= infoSizes l).
    { clear -Hl. induction Hl as [|i l [_ Hi] _ IH]; cbn; [done|]. fold (infoSizes l). lia. }
    rewrite u32_id by (unfold is_u32; lia). destruct (IH (total + info_size i)) as [-> _]; [lia|lia|]. split; [f_equal; lia|lia].
Qed.

Lemma freeInfos_spec l w :
  Forall (fun i => is_Some (info_pData i)) l ->
  pacer (freeInfos w l) = pacer w /\ ticks (freeInfos w l) = ticks w
  /\ exists evs, events (freeInfos w l) = events w ++ evs /\ sentOf evs = [] /\ deliveredOf evs = 0
     /\ freedOf evs = map (fun i => default [] (info_pData i)) l.
Proof using.
  intros Hl. revert w. induction Hl as [|i l [d Hd] _ IH]; intros w.
  - split_and!; [done..|]. exists []. by rewrite app_nil_r.
  - unfold freeInfos. cbn [foldl]. rewrite Hd. fold (freeInfos (logEvent w (PacerFrees d)) l).
    destruct (IH (logEvent w (PacerFrees d))) as (-> & -> & evs & -> & Hs & Hdl & Hf).
    split_and!; [by destruct w..|]. exists (PacerFrees d :: evs). split_and!.
    + destruct w. cbn. by rewrite <- (assoc_L (++)).
    + exact Hs.
    + exact Hdl.
    + change (freedOf (PacerFrees d :: evs)) with (d :: freedOf evs). rewrite Hf. cbn. by rewrite Hd.
Qed.

(** What an operation does, seen from the queue and the log. *)
Record stepped (w w' : PacerWorld) (evs : list PacerEvent) (new : list PacerPacket) (data : list (list Z))
    (credit time : Z) : Prop := {
  s_events : events w' = events w ++ evs;
  s_fifo : sentOf evs ++ queue (pacer w') = queue (pacer w) ++ new;
  s_owned : freedOf evs ++ map pp_pData (queue (pacer w')) ≡ₚ map pp_pData (queue (pacer w)) ++ data;
  s_delivered : 0 <= deliveredOf evs;
  s_credit : budgetBytes (pacer w') + deliveredOf evs <= budgetBytes (pacer w) + credit;
  s_ok : pacer_ok (pacer w');
  s_connected : pKvsPeerConnection (pacer w') = pKvsPeerConnection (pacer w);
  s_limits : maxQueueSize (pacer w') = maxQueueSize (pacer w) /\ maxQueueBytes (pacer w') = maxQueueBytes (pacer w);
  s_time : maxQueueTimeKvs (pacer w') = time;
}.

Hypothesis mem_ok : forall n, mem n = true.

Lemma pushPacket_ok p x :
  pacer_ok p -> 0 < pp_size x -> fits p 1 (pp_size x) = true ->
  pacer_ok (pushPacket p x) /\ queue (pushPacket p x) = queue p ++ [x] /\ queueSize (pushPacket p x) = queueSize p + 1
  /\ queueBytes (pushPacket p x) = queueBytes p + pp_size x /\ budgetBytes (pushPacket p x) = budgetBytes p
  /\ settings (pushPacket p x) = settings p.
Proof using.
  intros [H1 H2 H3 H4 H5 H6] Hx Hf. unfold fits in Hf. apply andb_prop in Hf as [Hf1%Z.leb_le Hf2%Z.leb_le].
  pose proof (sizes_nonneg _ H3). destruct p. unfold pushPacket. cbn -[sizes] in *.
  rewrite (u32_id (queueSize0 + 1)), (u32_id (queueBytes0 + pp_size x)) by (unfold is_u32; lia).
  split; [|done]. split; cbn -[sizes]; try lia.
  - rewrite length_app. cbn [length]. lia.
  - rewrite sizes_app. change (sizes [x]) with (pp_size x + 0). lia.
  - apply Forall_app. split; [done|by repeat constructor].
  - done.
Qed.

Lemma enqueueLoop_spec l w t :
  pacer_ok (pacer w) -> Forall (fun i => is_Some (info_pData i) /\ 0 < info_size i) l ->
  fits (pacer w) (Z.of_nat (length l)) (infoSizes l) = true ->
  exists w', enqueueLoop mem w l t = (STATUS_SUCCESS, w')
  /\ pacer_ok (pacer w') /\ queue (pacer w') = queue (pacer w) ++ map (packetOf t) l
  /\ budgetBytes (pacer w') = budgetBytes (pacer w) /\ settings (pacer w') = settings (pacer w)
  /\ events w' = events w.
Proof using mem_ok.
  intros Hok Hl. revert w Hok. induction Hl as [|i l [Hd Hi] Hl IH]; intros w Hok Hf; cbn [enqueueLoop].
  - exists w. cbn [map]. by rewrite app_nil_r.
  - unfold MEMCALLOC. rewrite mem_ok. set (w1 := w <| allocs := S (allocs w) |>).
    assert (E1 : pacer w1 = pacer w /\ events w1 = events w) by (by destruct w). destruct E1 as [Ep Ee]. clearbody w1.
    fold (packetOf t i). unfold fits in Hf. apply andb_prop in Hf as [Hf1%Z.leb_le Hf2%Z.leb_le].
    cbn [length infoSizes foldr] in Hf1, Hf2. fold (infoSizes l) in Hf2.
    assert (0 <= infoSizes l).
    { clear -Hl. induction Hl as [|i l [_ Hi] _ IH]; cbn; [done|]. fold (infoSizes l). lia. }
    destruct (pushPacket_ok (pacer w) (packetOf t i) Hok Hi) as (P1 & P2 & P3 & P4 & P5 & P6).
    { unfold fits. cbn [packetOf pp_size]. rewrite !(proj2 (Z.leb_le _ _)) by lia. done. }
    rewrite Ep. set (w2 := setPacer w1 (pushPacket (pacer w) (packetOf t i))).
    assert (E2 : pacer w2 = pushPacket (pacer w) (packetOf t i) /\ events w2 = events w) by (rewrite <- Ee; by destruct w1).
    destruct E2 as [E2p E2e]. clearbody w2. pose proof P6 as Hset. unfold settings in Hset. injection Hset as _ Em Emb _ _ _ _ _.
    destruct (IH w2) as (w' & -> & Q1 & Q2 & Q3 & Q4 & Q5); [by rewrite E2p|..].
    { unfold fits. rewrite E2p, P3, P4, Em, Emb. cbn [packetOf pp_size]. rewrite !(proj2 (Z.leb_le _ _)) by lia. done. }
    exists w'. rewrite E2p in Q2, Q3, Q4. split_and!; try done.
    + rewrite Q2, P2. cbn [map]. by rewrite <- (assoc_L (++)).
    + by rewrite Q3, P5.
    + by rewrite Q4, P6.
    + by rewrite Q5, E2e.
Qed.

Lemma noteQueue_same p :
  pacer_ok p -> pacer_ok (noteQueue p) /\ queue (noteQueue p) = queue p /\ budgetBytes (noteQueue p) = budgetBytes p
  /\ settings (noteQueue p) = settings p.
Proof using.
  intros Hok. unfold noteQueue. set (s := if _ : bool then _ else _). clearbody s. destruct p. destruct Hok. cbn in *.
  split; [by split|done].
Qed.

Lemma noteDropped_same p n b :
  pacer_ok p -> pacer_ok (noteDropped p n b) /\ queue (noteDropped p n b) = queue p
  /\ budgetBytes (noteDropped p n b) = budgetBytes p /\ settings (noteDropped p n b) = settings p.
Proof using. intros Hok. unfold noteDropped. destruct p. destruct Hok. cbn in *. split; [by split|done]. Qed.

(** The credit of an operation: what the timer adds to the budget. *)
Definition refill (w : PacerWorld) (op : PacerOp) : Z :=
  match op with
  | PacerTimer => if enabled (pacer w) then pacerCalculateBudget outOfRange (pacer w) (u64 (clock (ticks w) - lastSendTimeKvs (pacer w))) else 0
  | _ => 0
  end.

(** An operation that leaves the queue and the log alone. *)
Lemma stepped_same w w' :
  pacer_ok (pacer w) -> pacer_ok (pacer w') -> events w' = events w -> queue (pacer w') = queue (pacer w) ->
  budgetBytes (pacer w') = budgetBytes (pacer w) -> pKvsPeerConnection (pacer w') = pKvsPeerConnection (pacer w) ->
  maxQueueSize (pacer w') = maxQueueSize (pacer w) /\ maxQueueBytes (pacer w') = maxQueueBytes (pacer w) ->
  stepped w w' [] [] [] 0 (maxQueueTimeKvs (pacer w')).
Proof using.
  intros Hok Hok' He Hq Hb Hc Hm. split; try done.
  - by rewrite He, app_nil_r.
  - by rewrite Hq, app_nil_r.
  - by rewrite Hq, app_nil_r.
  - rewrite Hb. cbn. lia.
Qed.

Lemma enqueue_step w d size seq :
  pacer_ok (pacer w) -> pacerOp_ok (pacer w) (PacerEnqueue d size seq) ->
  exists evs, stepped w (pacerExec w (PacerEnqueue d size seq)) evs (admitted w (PacerEnqueue d size seq)) [d] 0
    (maxQueueTimeKvs (pacer w)).
Proof using mem_ok.
  intros Hok [Hs Hm]. pose proof Hok as [H1 H2 H3 H4 H5 H6]. pose proof (sizes_nonneg _ H3) as Hnn.
  cbn [pacerExec admitted]. unfold pacerEnqueuePacket. rewrite (proj2 (Z.ltb_lt _ _) Hs).
  rewrite u32_id by (unfold is_u32; lia).
  assert (Hfull : ((maxQueueSize (pacer w) <=? queueSize (pacer w)) || (maxQueueBytes (pacer w) <? queueBytes (pacer w) + size))
                  = negb (fits (pacer w) 1 size)).
  { unfold fits. lia. }
  rewrite Hfull. destruct (fits (pacer w) 1 size) eqn:Hf; cbn [negb].
  - unfold pacerCreatePacket, MEMCALLOC, GETTIME. rewrite mem_ok.
    set (x := {| pp_pData := d; pp_size := size; enqueueTimeKvs := clock (ticks w); pp_twccSeqNum := seq |}).
    destruct (pushPacket_ok (pacer w) x Hok Hs Hf) as (P1 & P2 & P3 & P4 & P5 & P6).
    destruct (noteQueue_same _ P1) as (N1 & N2 & N3 & N4). set (p' := noteQueue (pushPacket (pacer w) x)) in *.
    pose proof N4 as Hset. rewrite P6 in Hset. unfold settings in Hset. injection Hset as _ Em Emb _ _ Emt _ Epc.
    exists []. set (w' := snd _). assert (Ew : pacer w' = p' /\ events w' = events w) by (by destruct w).
    destruct Ew as [Ewp Ewe]. clearbody w'. split; rewrite ?Ewp, ?Ewe, ?app_nil_r; try done.
    + by rewrite N2, P2.
    + cbn [freedOf concat map app]. by rewrite N2, P2, map_app.
    + rewrite N3, P5. cbn. lia.
  - destruct (noteDropped_same (pacer w) 1 size Hok) as (N1 & N2 & N3 & N4).
    set (p' := noteDropped (pacer w) 1 size) in *. clearbody p'.
    unfold settings in N4. injection N4 as _ Em Emb _ _ Emt _ Epc.
    exists [PacerFrees d]. set (w' := snd _).
    assert (Ew : pacer w' = p' /\ events w' = events w ++ [PacerFrees d]) by (by destruct w).
    destruct Ew as [Ewp Ewe]. clearbody w'. split; rewrite ?Ewp, ?Ewe; try done.
    + by rewrite N2, app_nil_r.
    + rewrite N2. change (freedOf [PacerFrees d]) with [d]. apply Permutation_cons_append.
    + rewrite N3. cbn. lia.
Qed.

Lemma frame_step w l :
  pacer_ok (pacer w) -> pacerOp_ok (pacer w) (PacerFrame l) ->
  exists evs, stepped w (pacerExec w (PacerFrame l)) evs (admitted w (PacerFrame l)) (given (PacerFrame l)) 0
    (maxQueueTimeKvs (pacer w)).
Proof using mem_ok.
  intros Hok (Hne & Hl & Hb & Hc). pose proof Hok as [H1 H2 H3 H4 H5 H6]. pose proof (sizes_nonneg _ H3) as Hnn.
  cbn [pacerExec admitted given]. unfold pacerEnqueueFrame.
  assert (Hlen : 0 < Z.of_nat (length l)) by (destruct l; [done|cbn; lia]).
  rewrite (proj2 (Z.ltb_lt _ _) Hlen). destruct (frameBytes_sum l 0 Hl) as [-> Hi]; [lia|lia|]. rewrite Z.add_0_l.
  rewrite !u32_id by (unfold is_u32; lia).
  replace ((maxQueueSize (pacer w) <? queueSize (pacer w) + Z.of_nat (length l))
           || (maxQueueBytes (pacer w) <? queueBytes (pacer w) + infoSizes l))
    with (negb (fits (pacer w) (Z.of_nat (length l)) (infoSizes l))) by (unfold fits; by rewrite negb_andb, <- !Z.ltb_antisym).
  destruct (fits (pacer w) (Z.of_nat (length l)) (infoSizes l)) eqn:Hf; cbn [negb].
  - unfold GETTIME. set (w1 := w <| ticks := S (ticks w) |>).
    assert (E1 : pacer w1 = pacer w /\ events w1 = events w) by (by destruct w). destruct E1 as [E1p E1e]. clearbody w1.
    destruct (enqueueLoop_spec l w1 (clock (ticks w))) as (w2 & E2 & O2 & Q2 & B2 & S2 & Ev2); [by rewrite E1p|done|by rewrite E1p|].
    rewrite E2. change (STATUS_FAILED STATUS_SUCCESS) with false. cbv iota. cbn [snd].
    destruct (noteQueue_same _ O2) as (N1 & N2 & N3 & N4). set (p' := noteQueue (pacer w2)) in *. clearbody p'.
    rewrite E1p in *. rewrite S2 in N4. unfold settings in N4. injection N4 as _ Em Emb _ _ Emt _ Epc.
    exists []. assert (Ew : pacer (setPacer w2 p') = p' /\ events (setPacer w2 p') = events w)
      by (rewrite <- E1e, <- Ev2; by destruct w2).
    destruct Ew as [Ewp Ewe]. split; rewrite ?Ewp, ?Ewe, ?app_nil_r; try done.
    + by rewrite N2, Q2.
    + cbn [freedOf concat map app]. rewrite N2, Q2, map_app, map_map. done.
    + rewrite N3, B2. cbn. lia.
  - destruct (noteDropped_same (pacer w) (Z.of_nat (length l)) (infoSizes l) Hok) as (N1 & N2 & N3 & N4).
    set (p' := noteDropped (pacer w) _ _) in *. clearbody p'. unfold settings in N4. injection N4 as _ Em Emb _ _ Emt _ Epc.
    destruct (freeInfos_spec l (setPacer w p')) as (F1 & _ & evs & F2 & F3 & F4 & F5).
    { eapply Forall_impl; [|exact Hl]. by intros i [? _]. }
    cbn [snd]. assert (Ew : pacer (setPacer w p') = p' /\ events (setPacer w p') = events w) by (by destruct w).
    destruct Ew as [Ewp Ewe]. rewrite Ewp in F1. rewrite Ewe in F2. exists evs.
    split; rewrite ?F1; try done.
    + by rewrite F3, N2, app_nil_r.
    + rewrite F5, N2. by rewrite (comm (++)).
    + by rewrite F4.
    + rewrite N3, F4. lia.
Qed.

Lemma timer_step w :
  pacer_ok (pacer w) -> pKvsPeerConnection (pacer w) = true ->
  exists evs credit, stepped w (pacerExec w PacerTimer) evs [] [] credit (maxQueueTimeKvs (pacer w))
  /\ (maxQueueTimeKvs (pacer w) = 0 -> credit = refill w PacerTimer).
Proof using.
  intros Hok Hpc. cbn [pacerExec refill]. unfold pacerTimerCallback. destruct (enabled (pacer w)).
  - destruct (pacerDrainQueue_spec w Hok Hpc) as (sent & evs & [D1 D2 D3 D4 D5 D6 D7 D8 D9 D10 _ _ D11]).
    destruct (refilled_spec (pacer w) (clock (ticks w)) Hok) as (_ & _ & _ & _ & _ & Hz).
    set (w' := snd _) in *. clearbody w'. unfold settings in D10. injection D10 as _ Em Emb _ _ Emt _ Epc.
    set (c := pacerCalculateBudget outOfRange (pacer w) (u64 (clock (ticks w) - lastSendTimeKvs (pacer w)))) in *.
    exists evs, (if maxQueueTimeKvs (pacer w) =? 0 then c
                 else budgetBytes (refilled (pacer w) (clock (ticks w))) - budgetBytes (pacer w)).
    split.
    + split; try done.
      * by rewrite D3, app_nil_r, D1.
      * rewrite D4, app_nil_r, D1, map_app. done.
      * destruct (Z.eqb_spec (maxQueueTimeKvs (pacer w)) 0) as [E|E]; [|lia]. rewrite (Hz E) in D5.
        assert (Hc : is_u32 c) by apply calculateBudget_u32. pose proof (ok_budget _ Hok) as Hb.
        unfold is_u64, is_u32 in *. assert (u64 (budgetBytes (pacer w) + c) <= budgetBytes (pacer w) + c)
          by (unfold u64; apply Z.mod_le; lia). lia.
    + intros ->. done.
  - exists [], 0. split; [|done]. by apply stepped_same.
Qed.

Definition nextTime (w : PacerWorld) (op : PacerOp) : Z :=
  match op with PacerSetMaxTime t => t | _ => maxQueueTimeKvs (pacer w) end.

(** A setter. *)
Lemma setter_step w op p :
  pacer_ok (pacer w) -> pacer_ok p -> pacerExec w op = setPacer w p -> queue p = queue (pacer w) ->
  budgetBytes p = budgetBytes (pacer w) -> pKvsPeerConnection p = pKvsPeerConnection (pacer w) ->
  maxQueueSize p = maxQueueSize (pacer w) -> maxQueueBytes p = maxQueueBytes (pacer w) -> maxQueueTimeKvs p = nextTime w op ->
  stepped w (pacerExec w op) [] [] [] 0 (nextTime w op).
Proof using.
  intros Hok Hp -> Hq Hb Hc Hm1 Hm2 Ht. rewrite <- Ht.
  assert (Ew : pacer (setPacer w p) = p /\ events (setPacer w p) = events w) by (by destruct w). destruct Ew as [Ewp Ewe].
  rewrite <- Ewp at 2. apply stepped_same; by rewrite ?Ewp.
Qed.

Lemma pacer_step w op :
  pacer_ok (pacer w) -> pKvsPeerConnection (pacer w) = true -> pacerOp_ok (pacer w) op ->
  exists evs credit, stepped w (pacerExec w op) evs (admitted w op) (given op) credit (nextTime w op)
  /\ (maxQueueTimeKvs (pacer w) = 0 -> credit = refill w op).
Proof using mem_ok.
  intros Hok Hpc Hop. destruct op.
  - destruct (enqueue_step w d size twccSeqNum Hok Hop) as (evs & H). by exists evs, 0.
  - destruct (frame_step w l Hok Hop) as (evs & H). by exists evs, 0.
  - exact (timer_step w Hok Hpc).
  - exists [], 0. split; [|done]. eapply setter_step; [done| |reflexivity|..];
      cbn [nextTime]; destruct (pacer w); destruct Hok; first [done|by split].
  - exists [], 0. split; [|done]. eapply setter_step; [done| |reflexivity|..];
      cbn [nextTime]; destruct (pacer w); destruct Hok; first [done|by split].
  - exists [], 0. split; [|done]. eapply setter_step; [done| |reflexivity|..];
      cbn [nextTime]; destruct (pacer w); destruct Hok; first [done|by split].
Qed.

Fixpoint pacerRun (w : PacerWorld) (ops : list PacerOp) : PacerWorld :=
  match ops with
  | [] => w
  | op :: ops => pacerRun (pacerExec w op) ops
  end.

(** The packets that a run admits, in order. *)
Fixpoint admittedAll (w : PacerWorld) (ops : list PacerOp) : list PacerPacket :=
  match ops with
  | [] => []
  | op :: ops => admitted w op ++ admittedAll (pacerExec w op) ops
  end.

Lemma pacerRun_spec w ops :
  pacer_ok (pacer w) -> pKvsPeerConnection (pacer w) = true -> Forall (pacerOp_ok (pacer w)) ops ->
  exists evs, let w' := pacerRun w ops in
  events w' = events w ++ evs /\ pacer_ok (pacer w')
  /\ sentOf evs ++ queue (pacer w') = queue (pacer w) ++ admittedAll w ops
  /\ freedOf evs ++ map pp_pData (queue (pacer w')) ≡ₚ map pp_pData (queue (pacer w)) ++ concat (map given ops).
Proof using mem_ok.
  intros Hok Hpc Hops. revert w Hok Hpc Hops. induction ops as [|op ops IH]; intros w Hok Hpc Hops.
  - exists []. cbn. rewrite !app_nil_r. split_and!; try done.
  - apply Forall_cons_1 in Hops as [Hop Hops]. destruct (pacer_step w op Hok Hpc Hop) as (e1 & c & [S1 S2 S3 _ _ S5 S6 S7 _] & _).
    destruct S7 as [M1 M2].
    destruct (IH (pacerExec w op)) as (e2 & R1 & R2 & R3 & R4); [done|by rewrite S6|..].
    { eapply Forall_impl; [|exact Hops]. intros o. unfold pacerOp_ok. rewrite M1, M2. done. }
    exists (e1 ++ e2). cbn [pacerRun admittedAll map concat]. split_and!.
    + by rewrite R1, S1, (assoc_L (++)).
    + done.
    + rewrite sentOf_app, <- (assoc_L (++)), R3, !(assoc_L (++)), S2. done.
    + rewrite freedOf_app, <- (assoc_L (++)), R4, !(assoc_L (++)), S3. done.
Qed.

(** The oldest packet is past its deadline: the budget is the whole queue. *)
Lemma refilled_deadline p now x rest :
  queue p = x :: rest -> 0 < maxQueueTimeKvs p <= u64 (now - enqueueTimeKvs x) ->
  budgetBytes (refilled p now) = queueBytes p.
Proof using.
  intros Eq [Hm Hage]. unfold refilled. set (b := u64 _). clearbody b. destruct p. cbn in Eq, Hm, Hage. subst.
  unfold deadlineBudget. cbn -[u64]. rewrite (proj2 (Z.ltb_lt _ _) Hm), (proj2 (Z.ltb_ge _ _) Hage). done.
Qed.

End Facts.

(** ** The life of a pacer *)

Definition config_ok (c : option PacerConfig) : Prop :=
  match c with
  | None => True
  | Some c => is_u32 (cfg_maxQueueSize c) /\ is_u32 (cfg_maxQueueBytes c)
  end.

(** Created and started. *)
Definition started (clock : nat -> Z) (c : option PacerConfig) (n : nat) (timer : Z) (w : PacerWorld) : Prop :=
  exists w0, createPacer clock true true true true c n = Ok w0
  /\ pacerStart clock w0 true (Ok timer) = (STATUS_SUCCESS, w).

Lemma started_ok clock c n timer w :
  config_ok c -> started clock c n timer w ->
  pacer_ok (pacer w) /\ pKvsPeerConnection (pacer w) = true /\ queue (pacer w) = [] /\ events w = []
  /\ budgetBytes (pacer w) = 0.
Proof.
  intros Hc (w0 & Ec & Es). unfold createPacer in Ec. injection Ec as <-.
  assert (Hpos : forall v d, is_u32 v -> is_u32 d -> 0 <= positiveOr v d < 2 ^ 32).
  { intros v d Hv Hd. unfold positiveOr, is_u32 in *. destruct (0 <? v); lia. }
  unfold pacerStart in Es. set (p := match c with Some _ => _ | None => _ end) in Es.
  assert (Hp : pacer_ok p /\ queue p = [] /\ budgetBytes p = 0).
  { unfold p. destruct c as [c|]; [destruct Hc as [H1 H2]|]; (split; [|done]); split; cbn; try done; try lia.
    - split; [|apply Hpos; [done|by vm_compute]]. apply (Hpos _ PACER_DEFAULT_MAX_QUEUE_SIZE); [done|by vm_compute].
    - split; [|apply Hpos; [done|by vm_compute]]. apply (Hpos _ PACER_DEFAULT_MAX_QUEUE_BYTES); [done|by vm_compute].
  }
  clearbody p. destruct Hp as (Hok & Hq & Hb).
  destruct p. cbn in *. subst. destruct (enabled0 && (timerId0 =? MAX_UINT32)); injection Es as <-; cbn;
    (split; [|done]); destruct Hok; cbn in *; split; cbn; try done; unfold is_u64; lia.
Qed.

(** C13. The pacer is a queue.  From creation on, through any sequence of single packets,
    frames, timer calls and changes of the settings, with memory for the queue's nodes: the
    packets that were handed to the ICE agent, followed by those still queued, are exactly the
    admitted ones in the order of admission (a packet or a whole frame is admitted when
    both limits allow it); every buffer that the pacer took is either in the queue or was
    freed exactly once; and the counters agree with the queue and stay within the limits. *)
Theorem pacer_fifo outOfRange clock mem ice twccExtId c n timer w ops :
  (forall k, mem k = true) -> config_ok c -> started clock c n timer w -> Forall (pacerOp_ok (pacer w)) ops ->
  let w' := pacerRun outOfRange clock mem ice twccExtId w ops in
  sentOf (events w') ++ queue (pacer w') = admittedAll outOfRange clock mem ice twccExtId w ops
  /\ freedOf (events w') ++ map pp_pData (queue (pacer w')) ≡ₚ concat (map given ops)
  /\ pacer_ok (pacer w').
Proof.
  intros Hmem Hc Hs Hops w'. destruct (started_ok clock c n timer w Hc Hs) as (Hok & Hpc & Hq & He & _).
  destruct (pacerRun_spec outOfRange clock mem ice twccExtId Hmem w ops Hok Hpc Hops) as (evs & R1 & R2 & R3 & R4).
  fold w' in R1, R2, R3, R4. rewrite He in R1. cbn [app] in R1. rewrite Hq in R3, R4. by rewrite R1.
Qed.

(** C18. The deadline of a frame holds: when the oldest packet has waited for the maximum
    queue time, the next timer call hands every queued packet to the ICE agent, in order,
    whatever the rate and whether or not the agent accepts them. *)
Theorem pacer_deadline outOfRange clock ice twccExtId w x rest :
  pacer_ok (pacer w) -> enabled (pacer w) = true -> pKvsPeerConnection (pacer w) = true ->
  queue (pacer w) = x :: rest -> 0 < maxQueueTimeKvs (pacer w) <= u64 (clock (ticks w) - enqueueTimeKvs x) ->
  let w' := pacerTimerCallback outOfRange clock ice twccExtId w in
  queue (pacer w') = [] /\ sentOf (events w') = sentOf (events w) ++ queue (pacer w).
Proof.
  intros Hok Hen Hpc Eq Hage. unfold pacerTimerCallback. rewrite Hen.
  destruct (pacerDrainQueue_spec outOfRange clock ice twccExtId w Hok Hpc) as (sent & evs & D).
  assert (Hall : queue (pacer (snd (pacerDrainQueue outOfRange clock ice twccExtId w))) = []).
  { apply (d_all _ _ _ _ _ _ D). rewrite (refilled_deadline outOfRange (pacer w) _ x rest Eq Hage), (ok_bytes _ Hok). done. }
  split; [exact Hall|]. rewrite (d_events _ _ _ _ _ _ D), sentOf_app, (d_sent _ _ _ _ _ _ D), (d_queue _ _ _ _ _ _ D), Hall.
  by rewrite app_nil_r.
Qed.

(** ** Examples *)

(** A clock of 5 ms per reading and an ICE agent that accepts everything. *)
Definition ex_clock (k : nat) : Z := 50000 * Z.of_nat k.
Definition ex_infos : list PacerPacketInfo :=
  [{| info_pData := Some [1; 2]; info_size := 300; info_twccSeqNum := 7 |};
   {| info_pData := Some [3; 4]; info_size := 200; info_twccSeqNum := 8 |}].
Definition ex_pacer_ops : list PacerOp :=
  [PacerEnqueue [9] 100 6; PacerFrame ex_infos; PacerTimer; PacerSetRate 1000000; PacerTimer].
Definition ex_started : PacerWorld :=
  match createPacer ex_clock true true true true None 0 with
  | Ok w => snd (pacerStart ex_clock w true (Ok 3))
  | _ => {| pacer := {| enabled := false; queue := []; queueSize := 0; queueBytes := 0; maxQueueSize := 0; maxQueueBytes := 0;
                        targetBitrateBps := 0; budgetBytes := 0; lastSendTimeKvs := 0; pacingFactor := dbl 0;
                        maxQueueTimeKvs := 0; timerId := 0; pKvsPeerConnection := false; stats := zeroStats |};
            ticks := O; allocs := O; events := [] |}
  end.

Lemma ex_started_ok : started ex_clock None 0 3 ex_started.
Proof. eexists. split; reflexivity. Qed.

Lemma ex_pacer_ops_ok : Forall (pacerOp_ok (pacer ex_started)) ex_pacer_ops.
Proof.
  repeat constructor; cbn; try done; lia.
Qed.

Lemma pacer_fifo_witness :
  let w' := pacerRun (fun _ => 0) ex_clock (fun _ => true) (fun _ => STATUS_SUCCESS) 1 ex_started ex_pacer_ops in
  map pp_size (sentOf (events w')) = [100; 300; 200]
  /\ freedOf (events w') ++ map pp_pData (queue (pacer w')) ≡ₚ [[9]; [1; 2]; [3; 4]]
  /\ pacer_ok (pacer w').
Proof.
  destruct (pacer_fifo (fun _ => 0) ex_clock (fun _ => true) (fun _ => STATUS_SUCCESS) 1 None 0 3 ex_started ex_pacer_ops
    ltac:(done) ltac:(exact I) ex_started_ok ex_pacer_ops_ok) as (H1 & H2 & H3).
  split; [by vm_compute|]. split; [exact H2|exact H3].
Defined.

(** A frame of 900 KB in the queue, with a maximum queue time of 10 ms. *)
Definition ex_late : PacerWorld :=
  pacerRun (fun _ => 0) ex_clock (fun _ => true) (fun _ => STATUS_SUCCESS) 1 ex_started
    [PacerFrame [{| info_pData := Some [1]; info_size := 900000; info_twccSeqNum := 1 |}];
     PacerTimer; PacerTimer; PacerSetMaxTime 100000].

Lemma ex_late_ok : pacer_ok (pacer ex_late).
Proof. split; vm_compute; try done; repeat constructor. Qed.

Lemma pacer_deadline_witness :
  length (queue (pacer ex_late)) = 1%nat
  /\ queue (pacer (pacerTimerCallback (fun _ => 0) ex_clock (fun _ => STATUS_SUCCESS) 1 ex_late)) = [].
Proof.
  split; [by vm_compute|].
  eapply (pacer_deadline (fun _ => 0) ex_clock (fun _ => STATUS_SUCCESS) 1 ex_late);
    [exact ex_late_ok|by vm_compute|by vm_compute|vm_compute; reflexivity|by vm_compute].
Defined.

(** When there is no memory for the node of a single packet its buffer is not freed, unlike
    when the queue is full or when a frame fails. *)
Lemma pacer_leaks_packet :
  let '(st, w) := pacerEnqueuePacket ex_clock (fun _ => false) ex_started (Some [9]) 100 6 in
  st = STATUS_NOT_ENOUGH_MEMORY /\ freedOf (events w) = [] /\ queue (pacer w) = [].
Proof. by vm_compute. Qed.
