(* ===== verification/PacerRate.v ===== *)
(** * The rate of the pacer

    The budgets of Pacer.v are binary64 computations; here they are bounded by the exact amount
    that the rate allows, and the traffic of a whole run by the sum of the budgets. *)

From Stdlib Require Import SpecFloat QArith Lqa.
From S2P Require Import Prelude Double RtcpPacket Pacer.

#[local] Open Scope Z_scope.

(** ** What the rate allows *)

(** The factor that the roundings of pacerCalculateBudget can add up to: 1 + 2^-49. *)
Definition slack : Q := 562949953421313 # 562949953421312.

(** The bytes of a time [t], in units of 100 ns, at [rate] bits per second times [F]. *)
Definition allowance (rate : Z) (F : Q) (t : Z) : Q := (inject_Z (rate * t) * F / 80000000 * slack)%Q.

Lemma allowance_plus rate F a b : (allowance rate F (a + b) == allowance rate F a + allowance rate F b)%Q.
Proof. unfold allowance. rewrite Z.mul_add_distr_l, inject_Z_plus. field. Qed.

Lemma allowance_le rate rate' F t t' :
  (0 <= F)%Q -> 0 <= rate <= rate' -> 0 <= t <= t' -> (allowance rate F t <= allowance rate' F t')%Q.
Proof.
  intros HF Hr Ht. unfold allowance. assert (inject_Z (rate * t) <= inject_Z (rate' * t'))%Q by (rewrite <- Zle_Qle; nia).
  apply Qmult_le_compat_r; [|by unfold slack]. apply Qmult_le_compat_r; [|done]. by apply Qmult_le_compat_r.
Qed.

Lemma allowance_nonneg rate F t : (0 <= F)%Q -> 0 <= rate -> 0 <= t -> (0 <= allowance rate F t)%Q.
Proof.
  intros HF Hr Ht. eapply Qle_trans; [|apply (allowance_le rate rate F 0 t HF); lia].
  unfold allowance. rewrite Z.mul_0_r. change (inject_Z 0) with 0%Q. apply Qle_lteq. right. field.
Qed.

Section Rate.
Context (m : positive) (e : Z) (e_range : -600 <= e).
Let F : Q := dval (S754_finite false m e).

Lemma factor_nonneg : (0 <= F)%Q.
Proof. apply val_nonneg. lia. Qed.

(** The steps of the computation, each with one rounding. *)
Lemma budget_double p t :
  pacingFactor p = S754_finite false m e -> 0 <= targetBitrateBps p < 2 ^ 64 -> 0 <= t < 2 ^ 64 ->
  (allowance (targetBitrateBps p) F t < two 64)%Q ->
  exists k, at_most (ddiv (dmul (dmul (dbl (targetBitrateBps p)) (ddiv (dbl t) (dbl HUNDREDS_OF_NANOS_IN_A_SECOND)))
                          (pacingFactor p)) (dbl 8)) k (allowance (targetBitrateBps p) F t).
Proof.
  intros -> Hw Ht. unfold allowance. rewrite inject_Z_mult. pose proof (dbl_bound _ Hw) as BW. pose proof (dbl_bound _ Ht) as BT.
  assert (HW : (0 <= inject_Z (targetBitrateBps p) < two 64)%Q)
    by (rewrite (two_nat 64) by done; change 0%Q with (inject_Z 0); rewrite <- Zle_Qle, <- Zlt_Qlt; lia).
  assert (HT : (0 <= inject_Z t < two 64)%Q)
    by (rewrite (two_nat 64) by done; change 0%Q with (inject_Z 0); rewrite <- Zle_Qle, <- Zlt_Qlt; lia).
  set (W := inject_Z _) in *. set (T := inject_Z t) in *. clearbody W T. pose proof factor_nonneg as HF.
  intros Hmax.
  assert (E7 : dbl HUNDREDS_OF_NANOS_IN_A_SECOND = S754_finite false 5368709120000000 (-29)) by reflexivity.
  assert (V7 : (val 5368709120000000 (-29) == 10000000)%Q) by reflexivity.
  assert (E8 : dbl 8 = S754_finite false 4503599627370496 (-49)) by reflexivity.
  assert (V8 : (val 4503599627370496 (-49) == 8)%Q) by reflexivity. 
  assert (H900 : (inject_Z (2 ^ 200) < two 900)%Q) by (rewrite two_nat by done; by rewrite <- Zlt_Qlt).
  rewrite (two_nat 64) in * by done.
  change (inject_Z (2 ^ 64)) with (18446744073709551616 # 1)%Q in *.
  change (inject_Z (2 ^ 200)) with (1606938044258990275541962092341162602522202993782792835301376 # 1)%Q in *.
  assert (HX : (0 <= W * T <= (340282366920938463463374607431768211456 # 1))%Q) by nra.
  assert (HWT : (0 <= W * T * F)%Q) by nra.
  assert (EB : (W * T * F == W * T * F / 80000000 * 80000000)%Q) by field.
  set (B := (W * T * F / 80000000)%Q) in *.
  assert (HB : (0 <= B)%Q) by lra.
  assert (HBB : (B <= 18446744073709551616 # 1)%Q) by (unfold slack in Hmax; lra).
  assert (Hr : (1 <= rounding <= 1001 # 1000)%Q) by (unfold rounding; lra).
  assert (Hr6 : (rounding * rounding * rounding * rounding * rounding * rounding <= slack)%Q) by (by vm_compute).
  set (r := rounding) in *. 
  assert (Hr2 : (1 <= r * r <= 2)%Q) by nra.
  assert (Hr4 : (1 <= (r * r) * (r * r) <= 4)%Q) by nra.
  assert (Hr5 : (1 <= r * ((r * r) * (r * r)) <= 8)%Q) by nra.
  assert (HB5 : (B * 8 * (r * ((r * r) * (r * r))) <= B * 8 * 8)%Q) by nra.
  assert (B1 : at_most (ddiv (dbl t) (dbl HUNDREDS_OF_NANOS_IN_A_SECOND)) (-128) (T / 10000000 * (r * r))).
  { rewrite E7. apply (ddiv_le _ _ _ 5368709120000000 (-29) 10000000 _ BT); [done|done| |].
    - apply Qle_lteq. right. unfold r. field.
    - assert (T / 10000000 <= T)%Q by (apply Qle_shift_div_r; [done|lra]).
      assert (0 <= T / 10000000)%Q by (apply Qle_shift_div_l; [done|lra]). nra. }
  assert (E2 : (W * T / 10000000 * 10000000 == W * T)%Q) by field.
  assert (B2 : at_most (dmul (dbl (targetBitrateBps p)) (ddiv (dbl t) (dbl HUNDREDS_OF_NANOS_IN_A_SECOND))) (-180)
                 (W * T / 10000000 * ((r * r) * (r * r)))).
  { apply (dmul_le _ _ _ _ _ _ _ BW B1); [done| |nra]. apply Qle_lteq. right. unfold r. field. }
  assert (B3 : at_most (dmul (dmul (dbl (targetBitrateBps p)) (ddiv (dbl t) (dbl HUNDREDS_OF_NANOS_IN_A_SECOND)))
                         (S754_finite false m e)) (-180 + e) (B * 8 * (r * ((r * r) * (r * r))))).
  { apply (dmul_le _ _ _ e _ F _ B2); [split; [done|apply Qle_refl]|lia| |clear -HB5 HBB H900; lra]. apply Qle_lteq. right. unfold r, B. field. }
  eexists. rewrite E8.
  apply (ddiv_le _ _ _ 4503599627370496 (-49) 8 _ B3);
    [change (Zpos (digits2_pos 4503599627370496)) with 53; lia|done| |apply (Qlt_trans _ _ _ Hmax); lra].
  apply (Qle_trans _ (B * (r * r * r * r * r * r))); [apply Qle_lteq; right; unfold r; field|nra].
Qed.

Lemma budget_bound outOfRange p rate t :
  pacingFactor p = S754_finite false m e -> 0 <= targetBitrateBps p <= rate -> rate < 2 ^ 64 -> 0 <= t < 2 ^ 64 ->
  (allowance rate F t < two 64)%Q ->
  (inject_Z (pacerCalculateBudget outOfRange p t) <= allowance rate F t)%Q.
Proof.
  intros Hf Hw Hr Ht Hmax. pose proof factor_nonneg as HF. unfold pacerCalculateBudget.
  destruct (Z.eqb_spec t 0) as [_|Ht0]; [apply allowance_nonneg; lia || done|].
  pose proof (allowance_le (targetBitrateBps p) rate F t t HF ltac:(lia) ltac:(lia)) as Hle.
  eapply Qle_trans; [|exact Hle].
  destruct (budget_double p t Hf ltac:(lia) Ht (Qle_lt_trans _ _ _ Hle Hmax)) as [k Hk].
  destruct (dtrunc_bound _ _ _ Hk) as (z & Ez & Hz & Hzb). eapply Qle_trans; [|exact Hzb]. rewrite <- Zle_Qle.
  assert (z < 2 ^ 64).
  { rewrite Zlt_Qlt, <- two_nat by done. lra. }
  unfold castU64. rewrite Ez, (proj2 (Z.leb_le _ _) Hz), (proj2 (Z.ltb_lt _ _)) by done. cbn [andb].
  rewrite u32_id; [lia|]. unfold is_u32, MAX_UINT32. lia.
Qed.

(** ** Operations and the clock *)

(** What only the timer changes. *)
Definition pace (p : Pacer) : Z * DOUBLE := (lastSendTimeKvs p, pacingFactor p).

Definition nextRate (p : Pacer) (op : PacerOp) : Z :=
  match op with PacerSetRate r => Z.max r PACER_MIN_BITRATE_BPS | _ => targetBitrateBps p end.

Context (outOfRange : DOUBLE -> Z) (clock : nat -> Z) (mem : nat -> bool) (ice : nat -> STATUS) (twccExtId : Z).

Lemma freeInfos_pacer l w : pacer (freeInfos w l) = pacer w /\ ticks (freeInfos w l) = ticks w.
Proof.
  revert w. induction l as [|i l IH]; intros w; [done|]. unfold freeInfos. cbn [foldl]. fold (freeInfos).
  destruct (info_pData i); [|apply IH]. destruct (IH (logEvent w (PacerFrees l0))) as [H1 H2].
  unfold freeInfos in H1, H2. rewrite H1, H2. by destruct w.
Qed.

Lemma enqueueLoop_pace l w t :
  let w' := snd (enqueueLoop mem w l t) in
  pace (pacer w') = pace (pacer w) /\ targetBitrateBps (pacer w') = targetBitrateBps (pacer w) /\ ticks w' = ticks w.
Proof.
  revert w. induction l as [|i l IH]; intros w; cbn [enqueueLoop]; [done|]. unfold MEMCALLOC.
  destruct (mem (allocs w)).
  - cbv zeta in IH. edestruct IH as (-> & -> & ->). destruct w as [p ? ? ?]. by destruct p.
  - cbn [snd]. destruct (freeInfos_pacer (i :: l) (w <| allocs := S (allocs w) |>)) as [-> ->]. by destruct w.
Qed.

Lemma exec_pace w op :
  op <> PacerTimer ->
  let w' := pacerExec outOfRange clock mem ice twccExtId w op in
  pace (pacer w') = pace (pacer w) /\ targetBitrateBps (pacer w') = nextRate (pacer w) op /\ (ticks w <= ticks w')%nat.
Proof.
  intros Hop. destruct op as [d size seq|l| |r|b|t]; try done; cbn [pacerExec nextRate];
    try (destruct w as [p ? ? ?]; destruct p; cbn; by split_and!).
  - unfold pacerEnqueuePacket, pacerCreatePacket, MEMCALLOC, GETTIME. destruct w as [p tk al ev]. destruct p. cbn -[Z.add].
    repeat (case_match; cbn -[Z.add] in *); simplify_eq; cbn -[Z.add]; split_and!; done || lia.
  - unfold pacerEnqueueFrame. destruct (0 <? Z.of_nat (length l)); [|done]. destruct (frameBytes l 0) as [b|]; [|done].
    destruct (_ || _).
    + cbn [snd]. destruct (freeInfos_pacer l (setPacer w (noteDropped (pacer w) (Z.of_nat (length l)) b))) as [-> ->].
      destruct w as [p ? ? ?]. by destruct p.
    + unfold GETTIME. pose proof (enqueueLoop_pace l (w <| ticks := S (ticks w) |>) (clock (ticks w))) as (H1 & H2 & H3).
      set (w1 := w <| ticks := S (ticks w) |>) in *.
      assert (E1 : pacer w1 = pacer w /\ ticks w1 = S (ticks w)) by (by destruct w). destruct E1 as [Ep Et]. rewrite Ep, Et in *.
      destruct (enqueueLoop mem w1 l _) as [st w2]. cbn [snd] in *. destruct (STATUS_FAILED st); cbn [snd]; [split_and!; done || lia|].
      rewrite <- H1, <- H2. clear -H3. destruct w2 as [p ? ? ?]. destruct p. cbn in *.
      unfold noteQueue. cbn. case_match; cbn; split_and!; done || lia.
Qed.

(** ** The invariant *)

(** [rate] is the largest target of the run, [n0] the reading of the clock at creation. *)
Context (rate : Z) (n0 last : nat).
Hypothesis rate_range : PACER_MIN_BITRATE_BPS <= rate < 2 ^ 64.
Hypothesis clock_mono : forall i j, (i <= j <= last)%nat -> 0 <= clock i /\ clock i <= clock j < 2 ^ 64.
Hypothesis total_range : (allowance rate F (clock last - clock n0 + 2 * PACER_INTERVAL_KVS) < two 64)%Q.

Record paced (w : PacerWorld) : Prop := {
  pc_ok : pacer_ok (pacer w);
  pc_connected : pKvsPeerConnection (pacer w) = true;
  pc_time : maxQueueTimeKvs (pacer w) = 0;
  pc_factor : pacingFactor (pacer w) = S754_finite false m e;
  pc_rate : 0 <= targetBitrateBps (pacer w) <= rate;
  pc_ticks : (n0 <= ticks w)%nat;
  pc_last : clock n0 <= lastSendTimeKvs (pacer w) <= clock (ticks w);
  pc_burst : (inject_Z (budgetBytes (pacer w)) <= allowance rate F (2 * PACER_INTERVAL_KVS))%Q;
}.

(** Neither deadlines nor targets beyond [rate]. *)
Definition paced_op (op : PacerOp) : Prop :=
  match op with PacerSetMaxTime t => t = 0 | PacerSetRate r => r <= rate | _ => True end.

(** The budget is granted for the time between the timer calls, and only once. *)
Record granted (w w' : PacerWorld) (evs : list PacerEvent) : Prop := {
  g_events : events w' = events w ++ evs;
  g_paced : paced w';
  g_ticks : (ticks w <= ticks w')%nat;
  g_last : lastSendTimeKvs (pacer w) <= lastSendTimeKvs (pacer w');
  g_grant : (inject_Z (budgetBytes (pacer w') + deliveredOf evs)
             <= inject_Z (budgetBytes (pacer w)) + allowance rate F (lastSendTimeKvs (pacer w') - lastSendTimeKvs (pacer w)))%Q;
}.

Hypothesis mem_ok : forall k, mem k = true.

Lemma timer_granted w :
  paced w -> let w' := pacerExec outOfRange clock mem ice twccExtId w PacerTimer in
  (ticks w' <= last)%nat -> exists evs, granted w w' evs.
Proof using All.
  intros P. cbn [pacerExec]. unfold pacerTimerCallback. pose proof factor_nonneg as HF.
  destruct P as [P1 P2 P3 P4 P5 P6 P7 P8]. destruct (enabled (pacer w)).
  2:{ intros _. exists []. split; try done; [by rewrite app_nil_r|].
      change (deliveredOf []) with 0. rewrite Z.add_0_r, Z.sub_diag. pose proof (allowance_nonneg rate F 0 HF ltac:(lia) ltac:(lia)). lra. }
  destruct (pacerDrainQueue_spec outOfRange clock ice twccExtId w P1 P2) as (sent & evs & D).
  destruct (refilled_spec outOfRange (pacer w) (clock (ticks w)) P1) as (_ & _ & _ & _ & _ & Hz). specialize (Hz P3).
  set (w' := snd _) in *. clearbody w'. intros Hlast. destruct D as [_ D2 _ _ D5 D6 _ D8 D9 D10 D11 D12 _].
  unfold settings in D10. injection D10 as _ _ _ Er Ef Em _ Ec. rewrite Hz in D5. clear Hz.
  pose proof (clock_mono n0 (ticks w) ltac:(lia)) as C1. pose proof (clock_mono (ticks w) (ticks w') ltac:(lia)) as C2.
  pose proof (clock_mono (ticks w) last ltac:(lia)) as C3. set (now := clock (ticks w)) in *.
  assert (Ht : u64 (now - lastSendTimeKvs (pacer w)) = now - lastSendTimeKvs (pacer w)) by (apply u64_id; unfold is_u64; lia).
  rewrite Ht in D5. set (t := now - lastSendTimeKvs (pacer w)) in *.
  assert (Hb : forall t, 0 <= t <= clock last - clock n0 + 2 * PACER_INTERVAL_KVS ->  t < 2 ^ 64 ->
    (inject_Z (pacerCalculateBudget outOfRange (pacer w) t) <= allowance rate F t)%Q).
  { intros t' Ht' Ht64. apply budget_bound; try done; try lia. eapply Qle_lt_trans; [|exact total_range].
    apply allowance_le; try done; lia. }
  unfold PACER_INTERVAL_KVS, PACER_INTERVAL_MS in *.
  pose proof (calculateBudget_u32 outOfRange (pacer w) t) as Hc32. pose proof (ok_budget _ P1) as Hbu.
  assert (Hu : u64 (budgetBytes (pacer w) + pacerCalculateBudget outOfRange (pacer w) t)
               <= budgetBytes (pacer w) + pacerCalculateBudget outOfRange (pacer w) t)
    by (unfold is_u32, is_u64 in *; unfold u64; apply Z.mod_le; lia).
  exists evs. split; try done; try lia.
  - split; try done; try lia; try congruence.
    eapply Qle_trans; [|apply (Hb (2 * (5 * 10000))); lia]. rewrite <- Zle_Qle. lia.
  - rewrite D11. fold t. eapply Qle_trans; [|apply Qplus_le_r, (Hb t); lia]. rewrite <- inject_Z_plus, <- Zle_Qle. lia.
Qed.

Lemma exec_granted w op :
  paced w -> pacerOp_ok (pacer w) op -> paced_op op ->
  let w' := pacerExec outOfRange clock mem ice twccExtId w op in
  (ticks w' <= last)%nat -> exists evs, granted w w' evs.
Proof using All.
  intros P Hop Hp. assert (Hcase : op = PacerTimer \/ op <> PacerTimer) by (destruct op; by (left + right)).
  destruct Hcase as [->|Hne]; [by apply timer_granted|]. intros w' Hlast.
  destruct (exec_pace w op Hne) as (K1 & K2 & K3). fold w' in K1, K2, K3. pose proof factor_nonneg as HF.
  destruct P as [P1 P2 P3 P4 P5 P6 P7 P8].
  destruct (pacer_step outOfRange clock mem ice twccExtId mem_ok w op P1 P2 Hop) as (evs & c & S & Hc). fold w' in S.
  assert (Hc0 : c = 0) by (rewrite (Hc P3); by destruct op). destruct S as [S1 _ _ S4 S5 S6 S7 _ S9]. rewrite Hc0 in S5.
  unfold pace in K1. injection K1 as El Ef. pose proof (clock_mono (ticks w) (ticks w') ltac:(lia)).
  exists evs. split; try done; try lia.
  - split; try done; try lia; try congruence.
    + rewrite S9. destruct op; try done; by cbn.
    + rewrite K2. unfold PACER_MIN_BITRATE_BPS in *. destruct op; cbn in *; unfold PACER_MIN_BITRATE_BPS; lia.
    + eapply Qle_trans; [|exact P8]. rewrite <- Zle_Qle. lia.
  - rewrite El, Z.sub_diag. pose proof (allowance_nonneg rate F 0 HF ltac:(lia) ltac:(lia)).
    assert (inject_Z (budgetBytes (pacer w') + deliveredOf evs) <= inject_Z (budgetBytes (pacer w)))%Q; [|lra].
    rewrite <- Zle_Qle. lia.
Qed.

(** What every operation keeps, without the hypotheses on the clock. *)
Definition goes_on (w w' : PacerWorld) : Prop :=
  pacer_ok (pacer w') /\ pKvsPeerConnection (pacer w') = true /\ (ticks w <= ticks w')%nat
  /\ forall ops, Forall (pacerOp_ok (pacer w)) ops -> Forall (pacerOp_ok (pacer w')) ops.

Lemma exec_goes_on w op :
  pacer_ok (pacer w) -> pKvsPeerConnection (pacer w) = true -> pacerOp_ok (pacer w) op ->
  goes_on w (pacerExec outOfRange clock mem ice twccExtId w op).
Proof using mem_ok.
  intros Hok Hpc Hop.
  destruct (pacer_step outOfRange clock mem ice twccExtId mem_ok w op Hok Hpc Hop) as (evs & c & [_ _ _ _ _ S6 S7 [M1 M2] _] & _).
  split_and!; [done|by rewrite S7| |].
  - assert (Hcase : op = PacerTimer \/ op <> PacerTimer) by (destruct op; by (left + right)).
    destruct Hcase as [->|Hne]; [|by apply exec_pace]. cbn [pacerExec]. unfold pacerTimerCallback.
    destruct (enabled (pacer w)); [|done].
    destruct (pacerDrainQueue_spec outOfRange clock ice twccExtId w Hok Hpc) as (? & ? & D).
    pose proof (d_ticks _ _ _ _ _ _ D). lia.
  - intros ops Hops. eapply Forall_impl; [|exact Hops]. intros o. unfold pacerOp_ok. by rewrite M1, M2.
Qed.

Lemma run_goes_on w ops :
  pacer_ok (pacer w) -> pKvsPeerConnection (pacer w) = true -> Forall (pacerOp_ok (pacer w)) ops ->
  goes_on w (pacerRun outOfRange clock mem ice twccExtId w ops).
Proof using mem_ok.
  revert w. induction ops as [|op ops IH]; intros w Hok Hpc Hops; [by split_and!|]. apply Forall_cons_1 in Hops as [Hop Hops].
  destruct (exec_goes_on w op Hok Hpc Hop) as (A1 & A2 & A3 & A4). cbn [pacerRun].
  destruct (IH _ A1 A2 (A4 _ Hops)) as (B1 & B2 & B3 & B4). split_and!; [done|done|lia|auto].
Qed.

Lemma granted_trans w1 w2 w3 e1 e2 : granted w1 w2 e1 -> granted w2 w3 e2 -> granted w1 w3 (e1 ++ e2).
Proof using All.
  intros [A1 A2 A3 A4 A5] [B1 B2 B3 B4 B5]. split; [by rewrite B1, A1, (assoc_L (++))|done|lia|lia|].
  rewrite deliveredOf_app. rewrite !inject_Z_plus in *.
  replace (lastSendTimeKvs (pacer w3) - lastSendTimeKvs (pacer w1))
    with ((lastSendTimeKvs (pacer w2) - lastSendTimeKvs (pacer w1)) + (lastSendTimeKvs (pacer w3) - lastSendTimeKvs (pacer w2))) by lia.
  rewrite allowance_plus. lra.
Qed.

Lemma run_granted w ops :
  paced w -> Forall (pacerOp_ok (pacer w)) ops -> Forall paced_op ops ->
  let w' := pacerRun outOfRange clock mem ice twccExtId w ops in
  (ticks w' <= last)%nat -> exists evs, granted w w' evs.
Proof using All.
  revert w. induction ops as [|op ops IH]; intros w P Hops Hpo w' Hlast.
  - cbn [pacerRun] in w'. subst w'. exists []. split; try done; [by rewrite app_nil_r|].
    change (deliveredOf []) with 0. rewrite Z.add_0_r, Z.sub_diag.
    pose proof (pc_rate _ P). pose proof (allowance_nonneg rate F 0 factor_nonneg ltac:(lia) ltac:(lia)). lra.
  - apply Forall_cons_1 in Hops as [Hop Hops]. apply Forall_cons_1 in Hpo as [Hpop Hpo]. cbn [pacerRun] in w'.
    set (w1 := pacerExec _ _ _ _ _ w op) in w'.
    destruct (exec_goes_on w op (pc_ok _ P) (pc_connected _ P) Hop) as (A1 & A2 & _ & A4). fold w1 in A1, A2, A4.
    destruct (run_goes_on w1 ops A1 A2 (A4 _ Hops)) as (_ & _ & Ht & _). fold w' in Ht.
    destruct (exec_granted w op P Hop Hpop) as [e1 G1]; [fold w1; lia|]. fold w1 in G1.
    destruct (IH w1 (g_paced _ _ _ G1) (A4 _ Hops) Hpo Hlast) as [e2 G2]. exists (e1 ++ e2). exact (granted_trans _ _ _ _ _ G1 G2).
Qed.

(** The bytes of any run of operations. *)
Lemma run_bytes w ops :
  paced w -> Forall (pacerOp_ok (pacer w)) ops -> Forall paced_op ops ->
  let w' := pacerRun outOfRange clock mem ice twccExtId w ops in
  (ticks w' <= last)%nat ->
  (inject_Z (deliveredOf (events w') - deliveredOf (events w))
   <= inject_Z (budgetBytes (pacer w)) + allowance rate F (clock (ticks w') - lastSendTimeKvs (pacer w)))%Q.
Proof using All.
  intros P Hops Hpo w' Hlast. destruct (run_granted w ops P Hops Hpo Hlast) as [evs [G1 G2 G3 G4 G5]]. fold w' in G1, G2, G3, G4, G5.
  rewrite G1, deliveredOf_app. replace (_ + _ - _) with (deliveredOf evs) by lia. pose proof (ok_budget _ (pc_ok _ G2)) as Hb.
  pose proof (pc_last _ G2). pose proof (pc_rate _ G2).
  pose proof (allowance_le rate rate F (lastSendTimeKvs (pacer w') - lastSendTimeKvs (pacer w))
    (clock (ticks w') - lastSendTimeKvs (pacer w)) factor_nonneg ltac:(lia) ltac:(lia)).
  assert (inject_Z (deliveredOf evs) <= inject_Z (budgetBytes (pacer w') + deliveredOf evs))%Q; [|lra].
  rewrite <- Zle_Qle. unfold is_u64 in Hb. lia.
Qed.

Lemma timer_last w :
  pacer_ok (pacer w) -> pKvsPeerConnection (pacer w) = true -> enabled (pacer w) = true ->
  lastSendTimeKvs (pacer (pacerExec outOfRange clock mem ice twccExtId w PacerTimer)) = clock (ticks w).
Proof using.
  intros Hok Hpc Hen. cbn [pacerExec]. unfold pacerTimerCallback. rewrite Hen.
  destruct (pacerDrainQueue_spec outOfRange clock ice twccExtId w Hok Hpc) as (? & ? & D). exact (d_last _ _ _ _ _ _ D).
Qed.

End Rate.

Lemma pacerRun_app outOfRange clock mem ice twccExtId w a b :
  pacerRun outOfRange clock mem ice twccExtId w (a ++ b)
  = pacerRun outOfRange clock mem ice twccExtId (pacerRun outOfRange clock mem ice twccExtId w a) b.
Proof. revert w. induction a as [|op a IH]; intros w; [done|]. apply IH. Qed.

(** The clock of a started pacer. *)
Lemma started_times clock c n timer w :
  started clock c n timer w ->
  (lastSendTimeKvs (pacer w) = clock n \/ lastSendTimeKvs (pacer w) = clock (S n) /\ ticks w = S (S n)) /\ (n < ticks w)%nat
  /\ 0 < targetBitrateBps (pacer w).
Proof.
  intros (w0 & Ec & Es). unfold createPacer in Ec. injection Ec as <-. unfold pacerStart in Es.
  set (p := match c with Some _ => _ | None => _ end) in Es.
  assert (Hp : lastSendTimeKvs p = clock n /\ 0 < targetBitrateBps p).
  { unfold p. destruct c as [c|]; split; try done. cbn. unfold positiveOr. destruct (Z.ltb_spec 0 (initialBitrateBps c)); lia. }
  clearbody p. destruct p. cbn in *. destruct Hp as [-> Hp].
  destruct (enabled && (timerId =? MAX_UINT32)); injection Es as <-; cbn;
    split_and!; first [done|lia|by left|by right].
Qed.


